(* ===== verification/_CoqProject ===== *)
-Q . S2P
Prelude.v
Errors.v
Usdc.v
Identity.v
Json.v
JsonInj.v
Jsonb.v
Redaction.v
Doubles.v
Policy.v
Quotes.v
ResultCrypto.v
PaidHttp.v
Addresses.v
PaidHttpThms.v
Schema.v
Host.v
Handlers.v
Ledger.v
AuditLog.v
AuditChain.v
PolicyStore.v
PolicyStoreThms.v
Approvals.v
ApprovalsThms.v
IdentityStore.v
Attempts.v
Accounts.v
Chain.v
Escrow.v
Delegations.v
Trust.v
Prepare.v
Settlement.v
Liquidity.v
Fleet.v
FleetJobs.v
Runtime.v
Operations.v
Join.v
Pay.v
BudgetSpec.v
Budget.v
BudgetOps.v
BudgetPay.v
BudgetOperator.v
HandlersPay.v
Payments.v
PaymentsGate.v
Samples.v
PaymentsThms.v
PrepareThms.v
GateThms.v
Stranded.v
EscrowThms.v
DelegationThms.v
FleetThms.v
FleetFunds.v
IdentityThms.v
