(* ===== verification/Prelude.v ===== *)
(** * AgentOps control plane: verification library

    The program (src/apps/api) is the control plane of a fleet of software
    agents that spend USDC.  An organisation registers agents, writes policies
    for what they may do, approves what the policies hold back, and gives each
    agent a budget; the agents pay for HTTP resources (x402), escrow jobs and
    drawdowns from a treasury held at a wallet provider; an audit log and a
    ledger record what happened.  This library models the engines under
    src/apps/api/src/engines that decide about money, permissions and evidence,
    and proves what they promise.  In the list below a path is relative to that
    directory.

    ** The execution model

    - [Prelude.v]: strings, lists, options, decimal numerals, tactics.
    - [Errors.v]: errors and results ([identity/errors.ts]).
    - [Schema.v]: the row types of the tables, the database [Db] (a list of rows
      per table, oldest first) with the CHECK and UNIQUE constraints of the
      migrations ([Schema.check], [Schema.clash]).  Money is held in micros,
      instants in milliseconds.
    - [Host.v]: a handler is a function [M A := World -> Res A * World].  The
      world has the database, the clock, the supply of ids and the log of the
      calls made to external services.  SQL statements are [select], [update],
      [insert] and [delete]; [withTransaction] restores the database, not the
      log of calls, when its body throws.
    - [Handlers.v]: [made_of C W m], the syntax of handlers: which calls [m] can
      make and which tables it can write; what follows for every handler.

    What is not under src/ is a parameter: SHA-256 and the collation of
    localeCompare ([Json.v]), the URL parser and [isIP] ([PaidHttp.v]), the
    cipher ([ResultCrypto.v]), the treasury provider ([Chain.v]), contract
    reads ([Escrow.v], [Delegations.v]), balances ([Accounts.v],
    [Liquidity.v], [Fleet.v]), the x402 settlement service ([Pay.v]), the
    wallet service ([FleetJobs.v]), random bytes and NODE_ENV
    ([NodeProcess] of [IdentityStore.v]).  Each is a type class; the call of a
    service is given the world, so its answer may depend on everything that
    happened, and may be an error.  The few laws a theorem needs
    ([CollationLaws], [CollationSeparates], [CodecLaws], [IpLaws]) are classes
    with instances.

    ** Components

    Pure parts:
    - [Usdc.v]: amounts as text and as micros ([payments/store.ts],
      [permit2.ts], [allocations.ts], [agent-funding.ts]).
    - [Identity.v]: roles, operators, slugs ([identity/]).
    - [Json.v], [JsonInj.v]: the canonical encoder on a heap and on trees, and
      its injectivity ([evidence/canonical-json.ts]).
    - [Jsonb.v]: what a [jsonb] column gives back for a value, and what the
      canonical text sees of it.
    - [Redaction.v]: [evidence/redaction.ts].
    - [Doubles.v], [Policy.v]: numbers as doubles, the policy engine and the
      validator of statements ([policy/decision-engine.ts], [validator.ts]).
    - [Quotes.v]: networks, assets, rails and the selection of an x402 offer
      ([payments/types.ts], [store.ts]).
    - [ResultCrypto.v]: the envelope of a stored result
      ([payments/x402-result-crypto.ts]).
    - [PaidHttp.v], [PaidHttpThms.v]: requests, their hash, the addresses they
      may reach ([payments/x402-http.ts]).
    - [Addresses.v]: the texts of IP addresses and the numbers they stand for,
      apart from the code; the parsers of [PaidHttp.v] read all of them.

    Engines on the database:
    - [IdentityStore.v]: workspaces, members, teams, agents, connections and
      their credentials ([identity/store.ts], [onboarding-progress.ts]).
    - [Runtime.v]: authentication of a connection and the check of an action
      ([runtime/store.ts], [normalizer.ts], [action-contract.ts]).
    - [Operations.v]: the emergency stop, the tool catalogue, rate limits and
      checks of operations ([operations/store.ts]).
    - [Join.v]: invitations, open registration, sign-in and sessions
      ([agent-join/store.ts], [auth/store.ts]).
    - [Ledger.v]: postings, corrections, the spent total ([payments/ledger.ts]).
    - [AuditLog.v], [AuditChain.v]: the hash chain of an organisation, its writer
      and its verifier ([evidence/audit-writer.ts], [audit-query.ts]).
    - [PolicyStore.v], [PolicyStoreThms.v]: lifecycle of policies, decision
      checks ([policy/store.ts]).
    - [Approvals.v], [ApprovalsThms.v]: requests, votes, consumption
      ([approvals/store.ts]).
    - [Attempts.v]: payment attempts ([payments/x402-attempt-store.ts]).
    - [Accounts.v]: modes, accounts, sources, wallets and readiness of a rail.
    - [Prepare.v], [Settlement.v], [Liquidity.v], [Pay.v]: an x402 payment from its
      request to its end, [payRuntimeX402] ([payments/store.ts]).
    - [Chain.v], [Escrow.v]: escrow jobs ([payments/escrow.ts],
      [escrow-contract.ts], [reputation-hook.ts]).
    - [Delegations.v], [Trust.v]: Permit2 delegations, trust in external agents
      ([payments/permit2.ts], [delegation-ceiling.ts], [trust.ts]).
    - [Fleet.v], [FleetJobs.v]: allocations of the treasury, top-ups, funding of
      an agent when it pays, revocation, the worker that carries the jobs out
      ([payments/allocations.ts], [agent-funding.ts], [agent-payee.ts],
      [agent-revocation.ts], [agent-wallets.ts],
      [circle-liquidity-worker.ts], [src/circle-worker.ts]).

    The engines call each other the way the source does: the payment engine
    asks the policy store for a decision, opens or consumes an approval,
    reserves in its own tables and finalizes through the attempts; escrow
    reserves in the table of reservations of the payment engine; trust opens
    delegations; every engine writes to the audit log or to the ledger.

    ** State machines

    One handler alone is a function; handlers side by side are step relations
    whose steps are the transactions, or the parts of a handler between two
    awaits on something outside the database.
    - [Payments.v]: [pstep], the stages of payments under way interleaved with
      each other, with operators, with lost requests and with any work that
      leaves the tables of payments alone.  [pay_is_a_run] shows that
      [payRuntimeX402] itself is a run of it.
    - [BudgetSpec.v]: the abstract book of payments and budgets; [Budget.v],
      [BudgetOps.v], [BudgetPay.v] and [BudgetOperator.v] show that every operation
      moves the book the tables stand for by its steps only.
    - [PaymentsGate.v]: the same machine with approvals.
    - [EscrowThms.v]: [estep], payments and escrow jobs together.
    - [DelegationThms.v]: [dstep], delegations among other work.
    - [FleetThms.v]: [fstep], allocations, top-ups, sweeps, revocations and other
      work; the readings of deposits are part of the state, since a solvency
      check compares with a balance read earlier.
    - [IdentityThms.v]: [istep], operations on workspaces and agents that follow
      one another among other work.
    - [AuditChain.v], [PolicyStoreThms.v], [ApprovalsThms.v]: reachability under the
      operations of the engine.

    ** What is shown

    - Payments ([PaymentsThms.v], [PrepareThms.v], [GateThms.v], [Stranded.v]): the
      provider is asked once per attempt at most; what an agent spent and
      reserved stays within the budgets granted; attempts, reservations,
      counters and postings agree; runs refine the book; a prepared payment
      passed every check; an approval pays for one payment; reservations do
      not strand.
    - Escrow: funding reserves the budget of the job, and the reservation is
      settled or released when the job ends.  Delegations: draws stay within the ceiling, nothing is drawn of
      what was revoked, the treasury delegates only what is covered.
    - Fleet ([FleetThms.v], [FleetFunds.v]): allocations stay within deposits that
      were read; a top-up is clamped, sent once and booked once; a revoked
      agent keeps no budget; funding draws exactly the shortfall, of the
      treasury of the organisation; reputation moves an allocation by a step
      at most towards what it implies.
    - Policies and approvals: the strictest match decides and nothing is
      allowed without one; validation is sound and complete; a revision
      leaves one active version; consumption needs a quorum of distinct
      operators and happens once; refusals change nothing.
    - Identity ([IdentityThms.v]): a workspace keeps an active owner, agents and
      their parents form a forest; the examples show what two operations side
      by side can do.
    - Evidence: chains verify, read back from [jsonb], when the collation tells
      keys apart; verified chains with one head agree up to a
      collision of SHA-256; the canonical text determines the document;
      redaction leaves nothing sensitive.
    - Amounts, quotes and requests: parsing and printing of amounts and their
      round trips; quotes name the network and asset of the mode; the hash of
      a request binds it; a request reaches public addresses only, however
      they are written.

    ** Bounds and fuel

    Loops of the source that are structural (over rows, offers, characters) are
    structural here.  The others: the encoder on a heap has fuel one more than
    the number of objects, enough since [seen] holds each object once
    ([canonicalJson_total_and_correct]); the walk of the audit chain has fuel
    one more than the number of events, enough since each page takes one at
    least (lemma [walk_pages_total], [verifyAuditChain_terminates]);
    reads of a chain are retried [NATIVE_BALANCE_MAX_ATTEMPTS] and
    [NONCE_READ_MAX_ATTEMPTS] times and gas is polled [BASE_GAS_POLL_ATTEMPTS]
    times ([Delegations.v]), the counts of the source; a pass of the worker
    takes the ten jobs its query does ([FleetJobs.v]).  The bounds of
    numeric(20,6) are constraints of the schema; theorems that depend on the
    exactness of a double say up to which amount.

    ** Not modelled

    - HTTP routes and their zod schemas, the exchange with the identity
      provider, console reports, marketplace, fleet runs and chat, changelog,
      the MCP server, the web application: they read rows, forward requests or
      render; what they hand to the engines (an operator) is an argument here.
    - The wallet provider, its command-line tool, session profiles and the
      worker's HTTP interface; the cipher; sockets, DNS and timers; the
      contracts.  They are parameters.
    - Of modelled files: list endpoints and camel-case views of rows, policy
      simulations, deposits and bridging of the treasury, the retry of a
      liquidity job, the cache of balances.
    - [jsonb] columns other than those of the audit log give back what was
      written; no engine compares their text.  A text with U+0000, which jsonb
      refuses, is left out.
    - Foreign keys, and isolation below a transaction: a handler that locks its
      rows is one step; where the source takes no lock the machine splits it
      or a finding says so.
    - Human-readable messages, and columns no engine reads. *)

From stdpp Require Export base list option strings pretty.
From Stdlib Require Export ZArith Lia Ascii.

#[export] Set Default Goal Selector "!".

Declare Scope aops_scope.
Delimit Scope aops_scope with aops.
Open Scope aops_scope.

(** ** Strings *)

(** JavaScript [===] on strings. *)
Notation "a =s b" := (String.eqb a b) (at level 70, no associativity) : aops_scope.
Notation "a <>s b" := (negb (String.eqb a b)) (at level 70, no associativity) : aops_scope.

Lemma eqs_spec (a b : string) : (a =s b) = true <-> a = b.
Proof. apply String.eqb_eq. Qed.

Lemma eqs_refl (a : string) : (a =s a) = true.
Proof. apply String.eqb_refl. Qed.

Lemma eqs_neq (a b : string) : a <> b -> (a =s b) = false.
Proof. apply String.eqb_neq. Qed.

Lemma eqs_sym (a b : string) : (a =s b) = (b =s a).
Proof. apply String.eqb_sym. Qed.

Fixpoint chars (s : string) : list ascii :=
  match s with EmptyString => [] | String c r => c :: chars r end.

Fixpoint of_chars (l : list ascii) : string :=
  match l with [] => EmptyString | c :: r => String c (of_chars r) end.

Lemma of_chars_chars (s : string) : of_chars (chars s) = s.
Proof. induction s; cbn; congruence. Qed.

Lemma chars_of_chars (l : list ascii) : chars (of_chars l) = l.
Proof. induction l; cbn; congruence. Qed.

Lemma chars_app (a b : string) : chars (a +:+ b) = chars a ++ chars b.
Proof.
  induction a as [|c a IH]; [done|].
  change (String c a +:+ b) with (String c (a +:+ b)). cbn. by rewrite IH.
Qed.

Lemma of_chars_app (a b : list ascii) : of_chars (a ++ b) = of_chars a +:+ of_chars b.
Proof.
  induction a as [|c a IH]; [done|]. cbn [app of_chars]. rewrite IH. done.
Qed.

Lemma chars_inj (a b : string) : chars a = chars b -> a = b.
Proof. intros H. rewrite <-(of_chars_chars a), H. apply of_chars_chars. Qed.

(** The white space [String.prototype.trim] removes, on single bytes. *)
Definition is_space (c : ascii) : bool :=
  let n := Ascii.nat_of_ascii c in
  (n =? 32)%nat || ((9 <=? n)%nat && (n <=? 13)%nat).

Fixpoint drop_spaces (l : list ascii) : list ascii :=
  match l with
  | c :: r => if is_space c then drop_spaces r else l
  | [] => []
  end.

Definition trim (s : string) : string :=
  of_chars (rev (drop_spaces (rev (drop_spaces (chars s))))).

(** [toLowerCase] on ASCII bytes; other bytes are kept. *)
Definition lower_char (c : ascii) : ascii :=
  let n := Ascii.nat_of_ascii c in
  if (65 <=? n)%nat && (n <=? 90)%nat then Ascii.ascii_of_nat (n + 32) else c.

Definition lower (s : string) : string := of_chars (map lower_char (chars s)).

Definition mem (x : string) (l : list string) : bool := existsb (String.eqb x) l.

Lemma mem_spec x l : mem x l = true <-> In x l.
Proof.
  unfold mem. rewrite existsb_exists. split.
  - intros (y & Hy & E). apply String.eqb_eq in E. by subst.
  - intros H. exists x. split; [done|apply String.eqb_refl].
Qed.

(** ** Options: JavaScript [??] and [?.] *)

Definition orElse {A} (o : option A) (d : A) : A :=
  match o with Some a => a | None => d end.
Notation "o ?? d" := (orElse o d) (at level 60, right associativity) : aops_scope.

Definition eqo (a b : option string) : bool :=
  match a, b with
  | Some x, Some y => x =s y
  | None, None => true
  | _, _ => false
  end.

Lemma eqo_spec a b : eqo a b = true <-> a = b.
Proof.
  destruct a, b; cbn; rewrite ?String.eqb_eq; split; congruence.
Qed.

(** ** SQL on a table held as the list of its rows, oldest first *)

Section Rows.
Context {row : Type}.

(** [UPDATE t SET f WHERE p]. *)
Fixpoint update_rows (p : row -> bool) (f : row -> row) (t : list row) : list row :=
  match t with
  | [] => []
  | r :: t => (if p r then f r else r) :: update_rows p f t
  end.

Lemma update_rows_map p f t :
  update_rows p f t = map (fun r => if p r then f r else r) t.
Proof. induction t as [|r t IH]; cbn; congruence. Qed.

(** [SELECT ... WHERE p]. *)
Fixpoint where_ (p : row -> bool) (t : list row) : list row :=
  match t with
  | [] => []
  | r :: t => if p r then r :: where_ p t else where_ p t
  end.

Lemma where_filter p t : where_ p t = List.filter p t.
Proof. induction t as [|r t IH]; cbn; [done|]. by rewrite IH. Qed.

Lemma where_in p t r : In r (where_ p t) <-> In r t /\ p r = true.
Proof. rewrite where_filter. apply List.filter_In. Qed.

(** A row that satisfies [q] is in both tables if they agree on [q]. *)
Lemma where_agree q t u r : where_ q t = where_ q u -> q r = true -> In r t <-> In r u.
Proof.
  intros E Hq. assert (forall l, In r l <-> In r (where_ q l)) as Hl by (intros l; rewrite where_in; tauto).
  by rewrite (Hl t), (Hl u), E.
Qed.

Lemma update_rows_length p f t : length (update_rows p f t) = length t.
Proof. rewrite update_rows_map. apply length_map. Qed.

Lemma update_rows_none p f t :
  where_ p t = [] -> update_rows p f t = t.
Proof.
  induction t as [|r t IH]; cbn; [done|].
  destruct (p r); [done|]. intros H. by rewrite IH.
Qed.

Lemma in_update_rows p f t r :
  In r (update_rows p f t) <->
  exists r0, In r0 t /\ r = (if p r0 then f r0 else r0).
Proof. rewrite update_rows_map, in_map_iff. split; naive_solver. Qed.

Lemma where_head p t r : head (where_ p t) = Some r -> In r t /\ p r = true.
Proof.
  intros E. apply where_in. destruct (where_ p t) as [|x l]; [done|].
  injection E as ->. by left.
Qed.

Lemma where_found p t r : In r t -> p r = true -> exists r', head (where_ p t) = Some r' /\ In r' t /\ p r' = true.
Proof.
  intros Hr Hp. destruct (head (where_ p t)) as [r'|] eqn:E; [exists r'; split; [done|by apply where_head]|].
  exfalso. assert (In r (where_ p t)) as Hi by (by apply where_in). by destruct (where_ p t).
Qed.

Lemma where_all t : where_ (fun _ => true) t = t.
Proof. induction t as [|r t IH]; cbn; [done|]. by rewrite IH. Qed.

Lemma where_app p t u : where_ p (t ++ u) = where_ p t ++ where_ p u.
Proof. induction t as [|r t IH]; cbn; [done|]. destruct (p r); cbn; by rewrite IH. Qed.

Lemma where_none p t : (forall r, In r t -> p r = false) -> where_ p t = [].
Proof.
  induction t as [|r t IH]; cbn; intros H; [done|]. rewrite (H r) by auto. apply IH. auto.
Qed.

Lemma where_ext p q t : (forall r, In r t -> p r = q r) -> where_ p t = where_ q t.
Proof.
  induction t as [|r t IH]; cbn; intros H; [done|].
  rewrite (H r) by auto. rewrite IH by auto. done.
Qed.

(** Selecting by a predicate that the update does not affect. *)
Lemma where_update p q f t :
  (forall r, p r = true -> q (f r) = q r) ->
  where_ q (update_rows p f t) = map (fun r => if p r then f r else r) (where_ q t).
Proof.
  intros Hq. induction t as [|r t IH]; cbn; [done|].
  destruct (p r) eqn:Ep; [rewrite Hq by done|]; destruct (q r); cbn; by rewrite ?Ep, IH.
Qed.

Lemma where_update_same p f t :
  (forall r, p r = true -> p (f r) = true) -> where_ p (update_rows p f t) = map f (where_ p t).
Proof.
  intros Hp. rewrite where_update by (intros r Hr; by rewrite Hr, Hp).
  apply map_ext_in. intros r [_ Hr]%where_in. by rewrite Hr.
Qed.

Lemma where_update_other p q f t :
  (forall r, p r = true -> q (f r) = q r) -> (forall r, p r = true -> q r = false) ->
  where_ q (update_rows p f t) = where_ q t.
Proof.
  intros Hq Hd. rewrite where_update by done. rewrite <-(map_id (where_ q t)) at 2.
  apply map_ext_in. intros r [_ Hr]%where_in. destruct (p r) eqn:E; [|done].
  rewrite Hd in Hr by done. done.
Qed.

(** The same, of the rows of the table. *)
Lemma where_update_apart p q f t :
  (forall r, In r t -> p r = true -> q r = false /\ q (f r) = false) -> where_ q (update_rows p f t) = where_ q t.
Proof.
  induction t as [|r t IH]; intros H; cbn; [done|]. rewrite IH by (intros; apply H; [by right|done]).
  destruct (p r) eqn:E; [|done]. destruct (H r (or_introl eq_refl) E) as [-> ->]. done.
Qed.

(** The row just inserted is updated. *)
Lemma update_rows_last p f t r :
  (forall x, In x t -> p x = false) -> p r = true -> update_rows p f (t ++ [r]) = t ++ [f r].
Proof.
  intros Ht Hr. rewrite update_rows_map, map_app. cbn. rewrite Hr, <-update_rows_map. f_equal.
  apply update_rows_none. by apply where_none.
Qed.

(** Rows that do not satisfy [q] change, and still do not. *)
Lemma where_map_same q f t :
  (forall r, In r t -> q r = true -> f r = r) -> (forall r, In r t -> q r = false -> q (f r) = false) ->
  where_ q (map f t) = where_ q t.
Proof.
  induction t as [|r t IH]; intros H1 H2; cbn; [done|]. rewrite IH by (intros; (apply H1 || apply H2); [by right|done]).
  destruct (q r) eqn:E; [by rewrite H1, E by (by left || done)|]. by rewrite H2 by (by left || done).
Qed.

Lemma existsb_row_false (p : row -> bool) (t : list row) (r : row) : existsb p t = false -> In r t -> p r = false.
Proof.
  intros E Hr. destruct (p r) eqn:Ep; [|done]. rewrite <-E. symmetry. apply existsb_exists. by exists r.
Qed.

Lemma existsb_where p t : existsb p t = false <-> where_ p t = [].
Proof.
  induction t as [|r t IH]; cbn; [done|]. destruct (p r); cbn; [done|exact IH].
Qed.

(** Sum of a column over the rows that satisfy a predicate. *)
Fixpoint sum_where (p : row -> bool) (c : row -> Z) (t : list row) : Z :=
  match t with
  | [] => 0
  | r :: t => (if p r then c r else 0) + sum_where p c t
  end%Z.

Lemma sum_where_app p c t u :
  sum_where p c (t ++ u) = (sum_where p c t + sum_where p c u)%Z.
Proof. induction t as [|r t IH]; cbn; [done|]. rewrite IH. lia. Qed.

Lemma sum_where_nonneg p c t :
  (forall r, In r t -> p r = true -> (0 <= c r)%Z) -> (0 <= sum_where p c t)%Z.
Proof.
  induction t as [|r t IH]; cbn; intros H; [lia|].
  assert (0 <= sum_where p c t)%Z by auto.
  specialize (H r). destruct (p r); [|lia]. specialize (H (or_introl eq_refl) eq_refl). lia.
Qed.

Lemma sum_where_ext p q c t :
  (forall r, In r t -> p r = q r) -> sum_where p c t = sum_where q c t.
Proof.
  induction t as [|r t IH]; cbn; intros H; [done|].
  rewrite (H r) by auto. rewrite IH by auto. done.
Qed.

(** A sum over rows that all satisfy [q] sees the rows of [q] alone. *)
Lemma sum_where_within p q c t :
  (forall r, p r = true -> q r = true) -> sum_where p c t = sum_where p c (where_ q t).
Proof.
  intros H. induction t as [|r t IH]; cbn; [done|]. rewrite IH. destruct (q r) eqn:Eq; cbn; [done|].
  destruct (p r) eqn:Ep; [|lia]. rewrite H in Eq by done. done.
Qed.

(** A row counted by [p] bounds the sum from below when the column is
    non-negative. *)
Lemma sum_where_ge p c t r :
  In r t -> p r = true ->
  (forall r, In r t -> p r = true -> (0 <= c r)%Z) ->
  (c r <= sum_where p c t)%Z.
Proof.
  induction t as [|r0 t IH]; cbn; [done|].
  intros [->|Hin] Hp Hpos.
  - rewrite Hp.
    assert (0 <= sum_where p c t)%Z by (apply sum_where_nonneg; auto). lia.
  - assert (c r <= sum_where p c t)%Z by auto.
    specialize (Hpos r0). destruct (p r0); [|lia].
    specialize (Hpos (or_introl eq_refl) eq_refl). lia.
Qed.
End Rows.

(** The primary key of a table: [key] is duplicate-free along the rows. *)
Section Keys.
Context {row K : Type} (key : row -> K).

Definition keyed (t : list row) : Prop := NoDup (map key t).

Lemma keyed_unique t r1 r2 :
  keyed t -> In r1 t -> In r2 t -> key r1 = key r2 -> r1 = r2.
Proof.
  unfold keyed. induction t as [|r t IH]; cbn; [done|].
  rewrite NoDup_cons. intros [Hn Hd] H1 H2 E.
  assert (Hk : forall r', In r' t -> key r <> key r').
  { intros r' Hr' E'. apply Hn. rewrite E'. apply list_elem_of_In, in_map, Hr'. }
  destruct H1 as [->|H1], H2 as [->|H2]; auto.
  - by destruct (Hk r2 H2).
  - by destruct (Hk r1 H1).
Qed.

Lemma keyed_update p f t :
  (forall r, p r = true -> key (f r) = key r) ->
  keyed t -> keyed (update_rows p f t).
Proof.
  unfold keyed. intros Hf. rewrite update_rows_map, map_map.
  intros H. erewrite map_ext; [exact H|].
  intros r. cbn. destruct (p r) eqn:E; auto.
Qed.

(** A keyed lookup selects at most one row. *)
Lemma keyed_where t p r :
  keyed t -> In r t -> p r = true ->
  (forall r', p r' = true -> key r' = key r) ->
  where_ p t = [r].
Proof.
  unfold keyed. induction t as [|r0 t IH]; cbn; [done|].
  rewrite NoDup_cons. intros [Hn Hd] Hin Hp Hk.
  assert (Hnone : key r0 = key r -> where_ p t = []).
  { intros E. destruct (where_ p t) as [|r1 l] eqn:Ew; [done|].
    assert (In r1 (where_ p t)) as Hi by (rewrite Ew; left; done).
    apply where_in in Hi as [Hi Hp1]. exfalso. apply Hn.
    rewrite E, <-(Hk r1 Hp1). apply list_elem_of_In, in_map, Hi. }
  destruct Hin as [->|Hin].
  - rewrite Hp. f_equal. by apply Hnone.
  - destruct (p r0) eqn:Ep.
    + exfalso. apply Hn. rewrite (Hk _ Ep). apply list_elem_of_In, in_map, Hin.
    + by apply IH.
Qed.

Lemma keyed_where_one t p r l k :
  keyed t -> where_ p t = r :: l -> (forall r', p r' = true -> key r' = k) ->
  where_ p t = [r] /\ In r t /\ p r = true.
Proof.
  intros Hk E Hp. assert (In r (where_ p t)) as [Hin Hr]%where_in by (rewrite E; by left).
  split; [|done]. apply keyed_where; [done..|]. intros r' Hr'. by rewrite (Hp r' Hr'), (Hp r Hr).
Qed.

Lemma keyed_insert t r : ~ In (key r) (map key t) -> keyed t -> keyed (t ++ [r]).
Proof.
  unfold keyed. intros Hn Ht. rewrite map_app, NoDup_app. split; [done|]. split.
  - intros x Hx Hr. cbn in Hr. apply list_elem_of_singleton in Hr as ->. by apply Hn, list_elem_of_In.
  - cbn. apply NoDup_singleton.
Qed.

(** After an UPDATE of one row, a row is the changed one or another, kept. *)
Lemma in_update_one t p f r r' :
  keyed t -> where_ p t = [r] -> In r' (update_rows p f t) ->
  r' = f r \/ In r' t /\ key r' <> key r.
Proof.
  intros Hk Hw (r0 & Hr0 & ->)%in_update_rows. destruct (p r0) eqn:Ep.
  - left. assert (In r0 (where_ p t)) as Hi by (by apply where_in). rewrite Hw in Hi.
    by destruct Hi as [->|[]].
  - right. split; [done|]. intros E. assert (In r (where_ p t)) as [Hi Hp]%where_in by (rewrite Hw; by left).
    rewrite (keyed_unique t r0 r Hk Hr0 Hi E) in Ep. congruence.
Qed.

(** Updating the one row a keyed predicate selects moves a column sum by
    the difference of that row's contributions. *)
Lemma sum_where_update t p f q c r :
  keyed t -> where_ p t = [r] ->
  sum_where q c (update_rows p f t) =
  (sum_where q c t
   + (if q (f r) then c (f r) else 0) - (if q r then c r else 0))%Z.
Proof.
  unfold keyed. induction t as [|r0 t IH]; cbn; [done|].
  rewrite NoDup_cons. intros [Hn Hd] Hw.
  destruct (p r0) eqn:Ep.
  - injection Hw as -> Hw. rewrite (update_rows_none p f t Hw). lia.
  - rewrite IH by done. lia.
Qed.
End Keys.

(** ** Automation *)

(** [bsimpl]: booleans of the code to propositions. *)
Ltac bsimpl :=
  repeat match goal with
  | H : (_ && _) = true |- _ => apply andb_prop in H as [? ?]
  | H : (_ || _) = false |- _ => apply orb_false_elim in H as [? ?]
  | H : negb _ = true |- _ => apply negb_true_iff in H
  | H : negb _ = false |- _ => apply negb_false_iff in H
  | H : (_ =s _) = true |- _ => apply String.eqb_eq in H
  | H : (_ =s _) = false |- _ => apply String.eqb_neq in H
  | H : eqo _ _ = true |- _ => apply eqo_spec in H
  | H : (_ <? _)%Z = true |- _ => apply Z.ltb_lt in H
  | H : (_ <? _)%Z = false |- _ => apply Z.ltb_ge in H
  | H : (_ <=? _)%Z = true |- _ => apply Z.leb_le in H
  | H : (_ <=? _)%Z = false |- _ => apply Z.leb_gt in H
  | H : (_ =? _)%Z = true |- _ => apply Z.eqb_eq in H
  | H : (_ =? _)%Z = false |- _ => apply Z.eqb_neq in H
  | H : mem _ _ = true |- _ => apply mem_spec in H
  end.

Create HintDb aops discriminated.
#[export] Hint Resolve eqs_refl : aops.
