(* ===== verification/Errors.v ===== *)
(** Errors and results: the [IdentityError] family of
    [identity/errors.ts], the plain [Error]s the engines throw, and the
    PostgreSQL errors the driver raises.  Human-readable messages carry no
    control flow and are left out; error codes and HTTP statuses are kept. *)

From S2P Require Import Prelude.

Inductive exn : Type :=
| IdentityError (code : string) (statusCode : Z)
| PlainError (message : string)
| PaymentApprovalRequiredError (decisionId approvalId : string)
| PaymentLiquidityPreparingError (jobId : string)
| PaidHttpError (code : string)
| IdempotencyConflictError
| PgUniqueViolation          (* SQLSTATE 23505 *)
| PgCheckViolation           (* SQLSTATE 23514 *)
| PgNumericOverflow          (* SQLSTATE 22003 *)
| ProviderError (message : string) (ambiguous : bool).   (* classification 'ambiguous_post_submit' *)

Definition notFound : exn := IdentityError "not_found" 404.
Definition conflict (code : string) : exn := IdentityError code 409.
Definition forbidden : exn := IdentityError "forbidden" 403.
Definition badRequest (code : string) : exn := IdentityError code 400.

(** [error instanceof IdentityError ? error.code : fallback]. *)
Definition identity_code (e : exn) (fallback : string) : string :=
  match e with
  | IdentityError code _ => code
  | PaymentApprovalRequiredError _ _ => "policy_requires_approval"
  | PaymentLiquidityPreparingError _ => "liquidity_preparing"
  | _ => fallback
  end.

Inductive Res (A : Type) : Type :=
| Ok (a : A)
| Err (e : exn).
Arguments Ok {A} a.
Arguments Err {A} e.

Definition res_bind {A B} (m : Res A) (k : A -> Res B) : Res B :=
  match m with Ok a => k a | Err e => Err e end.

Definition is_ok {A} (r : Res A) : bool := match r with Ok _ => true | Err _ => false end.

Notation "'let?' x := m 'in' k" := (res_bind m (fun x => k))
  (at level 10, x pattern, m at level 100, k at level 200) : aops_scope.

Lemma res_bind_ok {A B} (m : Res A) (k : A -> Res B) b :
  res_bind m k = Ok b -> exists a, m = Ok a /\ k a = Ok b.
Proof. destruct m as [a|e]; [|done]. intros H. by exists a. Qed.

(** [map] with a function that may throw: the first error wins. *)
Section ResMap.
Context {A B : Type} (f : A -> Res B).

Fixpoint res_map (l : list A) : Res (list B) :=
  match l with
  | [] => Ok []
  | x :: r => let? y := f x in let? ys := res_map r in Ok (y :: ys)
  end.

Lemma res_map_ok l l' :
  res_map l = Ok l' <-> Forall2 (fun x y => f x = Ok y) l l'.
Proof.
  revert l'. induction l as [|x l IH]; intros l'; cbn.
  - split; [intros [= <-]; constructor|by inversion 1].
  - split.
    + destruct (f x) as [y|] eqn:E; [|done]. cbn.
      destruct (res_map l) as [ys|] eqn:E'; [|done]. intros [= <-].
      constructor; [done|]. by apply IH.
    + inversion 1 as [|? y ? ys Hy Hys]; subst. rewrite Hy. cbn.
      apply IH in Hys. by rewrite Hys.
Qed.
End ResMap.

(** The two ways a result can be inspected in a hypothesis. *)
Ltac res_inv :=
  repeat match goal with
  | H : Ok _ = Ok _ |- _ => injection H as H; subst
  | H : Err _ = Err _ |- _ => injection H as H; subst
  | H : Ok _ = Err _ |- _ => discriminate H
  | H : Err _ = Ok _ |- _ => discriminate H
  | H : res_bind _ _ = Ok _ |- _ => apply res_bind_ok in H as (? & ? & H)
  end.
