(* ===== verification/Usdc.v ===== *)
(** USDC amounts: decimal text and integer micros ([parseUsdcMicros],
    [formatUsdc] of [payments/store.ts], [payments/permit2.ts],
    [payments/allocations.ts] and [payments/agent-funding.ts]).  A number
    argument is passed as the text [Number.prototype.toString] gives it. *)

From S2P Require Import Prelude Errors.
Open Scope Z_scope.

(** ** Decimal digits (BigInt text) *)
Module Digits.
Definition is_digit (c : ascii) : bool :=
  let n := Ascii.nat_of_ascii c in (48 <=? n)%nat && (n <=? 57)%nat.

Definition digit_val (c : ascii) : Z := Z.of_nat (Ascii.nat_of_ascii c) - 48.

Definition digit_char (d : Z) : ascii := Ascii.ascii_of_nat (Z.to_nat (d + 48)).

(** [BigInt(text)] on digits. *)
Definition value (l : list ascii) : Z :=
  fold_left (fun acc c => acc * 10 + digit_val c) l 0.

Fixpoint digits_acc (fuel : nat) (n : Z) (acc : list ascii) : list ascii :=
  match fuel with
  | O => acc
  | S fuel =>
      let acc := digit_char (n mod 10) :: acc in
      if n <? 10 then acc else digits_acc fuel (n / 10) acc
  end.

(** [BigInt.prototype.toString] of a non-negative integer; the binary
    length bounds the number of decimal digits. *)
Definition digits (n : Z) : list ascii := digits_acc (S (Z.to_nat (Z.log2 n))) n [].

(** [BigInt.prototype.toString]. *)
Definition to_string (n : Z) : string :=
  of_chars (if n <? 0 then "-"%char :: digits (- n) else digits n).

(** [padStart(k, '0')] and [padEnd(k, '0')]. *)
Definition pad_start (k : nat) (l : list ascii) : list ascii :=
  replicate (k - length l) "0"%char ++ l.
Definition pad_end (k : nat) (l : list ascii) : list ascii :=
  l ++ replicate (k - length l) "0"%char.

(** [replace(/0+$/, '')]. *)
Fixpoint drop_zeros (l : list ascii) : list ascii :=
  match l with
  | c :: r => if Ascii.eqb c "0" then drop_zeros r else l
  | [] => []
  end.
Definition strip_trailing_zeros (l : list ascii) : list ascii :=
  rev (drop_zeros (rev l)).

Fixpoint span_digits (l : list ascii) : list ascii * list ascii :=
  match l with
  | c :: r => if is_digit c then let '(d, t) := span_digits r in (c :: d, t) else ([], l)
  | [] => ([], [])
  end.

(** *** Lemmas *)

Lemma digit_char_val d : 0 <= d < 10 -> digit_val (digit_char d) = d.
Proof.
  intros H. unfold digit_val, digit_char.
  rewrite Ascii.nat_ascii_embedding by lia. lia.
Qed.

Lemma digit_char_is d : 0 <= d < 10 -> is_digit (digit_char d) = true.
Proof.
  intros H. unfold is_digit, digit_char.
  rewrite Ascii.nat_ascii_embedding by lia.
  rewrite andb_true_iff, !Nat.leb_le. lia.
Qed.

Lemma digit_val_range c : is_digit c = true -> 0 <= digit_val c < 10.
Proof.
  unfold is_digit, digit_val. rewrite andb_true_iff, !Nat.leb_le. lia.
Qed.

Lemma fold_value l a :
  fold_left (fun acc c => acc * 10 + digit_val c) l a =
  a * 10 ^ Z.of_nat (length l) + value l.
Proof.
  unfold value. revert a. induction l as [|c l IH]; intros a; cbn [fold_left length].
  - lia.
  - rewrite (IH (a * 10 + _)), (IH (0 * 10 + _)).
    rewrite Nat2Z.inj_succ, Z.pow_succ_r by lia. nia.
Qed.

Lemma value_app l1 l2 : value (l1 ++ l2) = value l1 * 10 ^ Z.of_nat (length l2) + value l2.
Proof. unfold value. rewrite fold_left_app. apply fold_value. Qed.

Lemma value_cons c l : value (c :: l) = digit_val c * 10 ^ Z.of_nat (length l) + value l.
Proof. unfold value at 1. cbn [fold_left]. rewrite fold_value. lia. Qed.

Lemma value_range l :
  forallb is_digit l = true -> 0 <= value l < 10 ^ Z.of_nat (length l).
Proof.
  induction l as [|c l IH]; cbn [forallb length]; intros H; [cbn; lia|].
  apply andb_prop in H as [Hc Hl]. specialize (IH Hl).
  rewrite value_cons, Nat2Z.inj_succ, Z.pow_succ_r by lia.
  pose proof (digit_val_range c Hc). nia.
Qed.

Lemma value_zeros k : value (replicate k "0"%char) = 0.
Proof. induction k as [|k IH]; [done|]. cbn [replicate]. rewrite value_cons, IH. done. Qed.

Lemma value_pad_start k l : value (pad_start k l) = value l.
Proof. unfold pad_start. rewrite value_app, value_zeros. lia. Qed.

Lemma digits_acc_value fuel n acc :
  0 <= n < 10 ^ Z.of_nat fuel ->
  value (digits_acc fuel n acc) = n * 10 ^ Z.of_nat (length acc) + value acc.
Proof.
  revert n acc. induction fuel as [|fuel IH]; intros n acc Hn; cbn [digits_acc].
  - assert (n = 0) by (cbn in Hn; lia). subst. lia.
  - rewrite Nat2Z.inj_succ, Z.pow_succ_r in Hn by lia.
    pose proof (Z.mod_pos_bound n 10). pose proof (Z.div_mod n 10).
    destruct (n <? 10) eqn:E; bsimpl.
    + rewrite value_cons, digit_char_val by lia. rewrite Z.mod_small by lia. done.
    + rewrite IH by (split; [apply Z.div_pos; lia|apply Z.div_lt_upper_bound; lia]).
      rewrite value_cons, digit_char_val by lia.
      cbn [length]. rewrite Nat2Z.inj_succ, Z.pow_succ_r by lia. nia.
Qed.

Lemma digits_acc_all fuel n acc :
  0 <= n -> forallb is_digit acc = true ->
  forallb is_digit (digits_acc fuel n acc) = true.
Proof.
  revert n acc. induction fuel as [|fuel IH]; intros n acc Hn Ha; cbn [digits_acc]; [done|].
  assert (H : forallb is_digit (digit_char (n mod 10) :: acc) = true).
  { cbn [forallb]. rewrite digit_char_is, Ha; [done|]. apply Z.mod_pos_bound. lia. }
  destruct (n <? 10); [done|]. apply IH; [apply Z.div_pos; lia|done].
Qed.

Lemma digits_acc_length fuel n acc k :
  0 <= n < 10 ^ Z.of_nat k -> (1 <= k)%nat ->
  (length (digits_acc fuel n acc) <= k + length acc)%nat.
Proof.
  revert n acc k. induction fuel as [|fuel IH]; intros n acc k Hn Hk; cbn [digits_acc]; [lia|].
  destruct (n <? 10) eqn:E; bsimpl; [cbn [length]; lia|].
  destruct k as [|[|k]]; [lia|cbn in Hn; lia|].
  specialize (IH (n / 10) (digit_char (n mod 10) :: acc) (S k)).
  rewrite (Nat2Z.inj_succ (S k)), Z.pow_succ_r in Hn by lia.
  cbn [length] in IH. enough (0 <= n / 10 < 10 ^ Z.of_nat (S k)) by lia.
  split; [apply Z.div_pos; lia|apply Z.div_lt_upper_bound; lia].
Qed.

Lemma pow2_le_pow10 k : 2 ^ Z.of_nat k <= 10 ^ Z.of_nat k.
Proof. apply Z.pow_le_mono_l. lia. Qed.

Lemma digits_fuel n : 0 <= n -> 0 <= n < 10 ^ Z.of_nat (S (Z.to_nat (Z.log2 n))).
Proof.
  intros Hn. split; [done|]. eapply Z.lt_le_trans; [|apply pow2_le_pow10].
  rewrite Nat2Z.inj_succ, Z2Nat.id by apply Z.log2_nonneg.
  destruct (Z.eq_dec n 0) as [->|]; [done|]. apply Z.log2_spec. lia.
Qed.

Lemma digits_value n : 0 <= n -> value (digits n) = n.
Proof.
  intros Hn. unfold digits. rewrite digits_acc_value by (apply digits_fuel; lia).
  cbn. lia.
Qed.

Lemma digits_all n : 0 <= n -> forallb is_digit (digits n) = true.
Proof. intros. by apply digits_acc_all. Qed.

Lemma digits_length n k :
  0 <= n < 10 ^ Z.of_nat k -> (1 <= k)%nat -> (length (digits n) <= k)%nat.
Proof. intros H Hk. pose proof (digits_acc_length (S (Z.to_nat (Z.log2 n))) n [] k H Hk). cbn in *. lia. Qed.

Lemma digits_nonempty n : digits n <> [].
Proof.
  unfold digits. cbn [digits_acc]. destruct (n <? 10); [done|].
  assert (forall f m acc, acc <> [] -> digits_acc f m acc <> []) as H.
  { induction f as [|f IH]; intros m acc Ha; cbn [digits_acc]; [done|].
    destruct (m <? 10); [done|]. by apply IH. }
  by apply H.
Qed.

Lemma pad_start_length k l : (length l <= k)%nat -> length (pad_start k l) = k.
Proof. intros. unfold pad_start. rewrite length_app, length_replicate. lia. Qed.

Lemma zeros_all k : forallb is_digit (replicate k "0"%char) = true.
Proof. induction k; cbn; auto. Qed.

Lemma span_digits_app d t :
  forallb is_digit d = true ->
  match t with c :: _ => is_digit c = false | [] => True end ->
  span_digits (d ++ t) = (d, t).
Proof.
  induction d as [|c d IH]; cbn [app forallb]; intros Hd Ht.
  - destruct t as [|c t]; cbn; [done|]. by rewrite Ht.
  - apply andb_prop in Hd as [Hc Hd]. cbn. by rewrite Hc, IH.
Qed.

Lemma span_digits_spec l d t :
  span_digits l = (d, t) -> l = d ++ t /\ forallb is_digit d = true.
Proof.
  revert d t. induction l as [|c l IH]; cbn; intros d t E; [by simplify_eq|].
  destruct (is_digit c) eqn:Ec; [|by simplify_eq].
  destruct (span_digits l) as [d' t'] eqn:E'. simplify_eq.
  destruct (IH _ _ eq_refl) as [-> Hd]. cbn. by rewrite Ec, Hd.
Qed.
End Digits.

Import Digits.

(** ** Parsing and printing *)

Definition MICROS : Z := 1000000.

(** [/^(\d+)(?:\.(\d{1,6})?)?$/] then [whole * 1_000_000 + padEnd(6)]. *)
Definition parse_chars (raw : list ascii) : option Z :=
  let '(whole, rest) := span_digits raw in
  match whole with
  | [] => None
  | _ :: _ =>
      match rest with
      | [] => Some (value whole * MICROS)
      | "."%char :: rest =>
          let '(frac, tail) := span_digits rest in
          match tail with
          | [] => if (length frac <=? 6)%nat
                  then Some (value whole * MICROS + value (pad_end 6 frac))
                  else None
          | _ :: _ => None
          end
      | _ :: _ => None
      end
  end.

Definition parseUsdcMicros (v : string) : Res Z :=
  match parse_chars (chars (trim v)) with
  | Some m => Ok m
  | None => Err (badRequest "invalid_usdc_amount")
  end.

(** [formatUsdc] of [payments/store.ts]: at least two decimals. *)
Definition formatUsdc (micros : Z) : string :=
  let whole := Z.quot micros MICROS in
  let decimal := strip_trailing_zeros (pad_start 6 (chars (to_string (Z.rem micros MICROS)))) in
  let normalized := match decimal with [] => ["0"; "0"]%char | _ :: _ => pad_end 2 decimal end in
  to_string whole +:+ of_chars ("."%char :: normalized).

(** [formatUsdc] of [permit2.ts], [allocations.ts] and [agent-funding.ts]:
    always six decimals. *)
Definition formatUsdc6 (micros : Z) : string :=
  to_string (Z.quot micros MICROS)
  +:+ of_chars ("."%char :: pad_start 6 (chars (to_string (Z.rem micros MICROS)))).

Definition assertPositiveUsdc (v : string) : Res string :=
  let? micros := parseUsdcMicros v in
  if micros <=? 0 then Err (badRequest "invalid_usdc_amount") else Ok (formatUsdc micros).

Definition assertNonNegativeUsdc (v : string) : Res string :=
  let? micros := parseUsdcMicros v in
  if micros <? 0 then Err (badRequest "invalid_usdc_amount") else Ok (formatUsdc micros).

Definition formatDbUsdc (v : string) : Res string :=
  let? micros := parseUsdcMicros v in Ok (formatUsdc micros).

(** The text PostgreSQL gives for a [numeric(20,6)] column holding [z]
    micros. *)
Definition numeric_text (z : Z) : string :=
  if z <? 0 then "-" +:+ formatUsdc6 (- z) else formatUsdc6 z.

Definition clampBigint (v min max : Z) : Z :=
  if v <? min then min else if max <? v then max else v.

(** ** Lemmas *)

Lemma trim_id s :
  forallb (fun c => negb (is_space c)) (chars s) = true -> trim s = s.
Proof.
  intros H. unfold trim.
  assert (Hd : forall l, forallb (fun c => negb (is_space c)) l = true -> drop_spaces l = l).
  { intros [|c l]; cbn; [done|]. intros [Hc _]%andb_prop. by apply negb_true_iff in Hc as ->. }
  rewrite (Hd _ H), Hd, rev_involutive, of_chars_chars; [done|].
  rewrite forallb_forall in *. intros c Hc. apply H. by apply in_rev.
Qed.

Lemma digit_not_space c : is_digit c = true -> is_space c = false.
Proof.
  unfold is_digit, is_space. rewrite andb_true_iff, !Nat.leb_le. intros [? ?].
  rewrite orb_false_iff, andb_false_iff, Nat.eqb_neq, !Nat.leb_gt. lia.
Qed.

Definition usdc_char (c : ascii) : bool := is_digit c || Ascii.eqb c ".".

Lemma trim_usdc s : forallb usdc_char (chars s) = true -> trim s = s.
Proof.
  intros H. apply trim_id. rewrite forallb_forall in *. intros c Hc.
  specialize (H c Hc). unfold usdc_char in H. apply orb_prop in H as [H|H].
  - by rewrite digit_not_space.
  - apply Ascii.eqb_eq in H. by subst.
Qed.

Lemma digits_usdc l : forallb is_digit l = true -> forallb usdc_char l = true.
Proof.
  rewrite !forallb_forall. intros H c Hc. unfold usdc_char. by rewrite H.
Qed.

Lemma drop_zeros_spec l : exists k, l = replicate k "0"%char ++ drop_zeros l.
Proof.
  induction l as [|c l [k IH]]; cbn; [by exists 0%nat|].
  destruct (Ascii.eqb_spec c "0") as [->|]; [|by exists 0%nat].
  exists (S k). cbn. by rewrite <-IH.
Qed.

Lemma strip_zeros_spec l : exists k, l = strip_trailing_zeros l ++ replicate k "0"%char.
Proof.
  unfold strip_trailing_zeros. destruct (drop_zeros_spec (rev l)) as [k H].
  exists k. rewrite <-(rev_involutive l) at 1. rewrite H at 1. rewrite rev_app_distr. f_equal.
  clear. induction k as [|k IH]; [done|]. cbn. by rewrite IH, <-replicate_cons_app.
Qed.

(** Padding what was stripped gives the same six places. *)
Lemma pad_strip k l :
  (length l = k)%nat -> pad_end k (strip_trailing_zeros l) = l.
Proof.
  intros H. destruct (strip_zeros_spec l) as [j Hj]. unfold pad_end.
  rewrite Hj at 3. f_equal. f_equal.
  apply (f_equal length) in Hj. rewrite length_app, length_replicate in Hj. lia.
Qed.

Lemma pad_end_pad_end j k l : (j <= k)%nat -> pad_end k (pad_end j l) = pad_end k l.
Proof.
  intros H. unfold pad_end. rewrite length_app, length_replicate, <-app_assoc. f_equal.
  rewrite <-replicate_add. f_equal. lia.
Qed.

Lemma forallb_app_iff {A} (f : A -> bool) l1 l2 :
  forallb f (l1 ++ l2) = true <-> forallb f l1 = true /\ forallb f l2 = true.
Proof. rewrite forallb_app, andb_true_iff. done. Qed.

(** The decimal places [formatUsdc] prints: digits that pad back to the six
    places of the amount. *)
Definition places (micros : Z) : list ascii :=
  let decimal := strip_trailing_zeros (pad_start 6 (chars (to_string (Z.rem micros MICROS)))) in
  match decimal with [] => ["0"; "0"]%char | _ :: _ => pad_end 2 decimal end.

Lemma to_string_nonneg n : 0 <= n -> chars (to_string n) = digits n.
Proof.
  intros H. unfold to_string. destruct (n <? 0) eqn:E; bsimpl; [lia|]. apply chars_of_chars.
Qed.

Lemma six_places m (Hm : 0 <= m) :
  let l := pad_start 6 (chars (to_string (Z.rem m MICROS))) in
  length l = 6%nat /\ forallb is_digit l = true /\ value l = m mod MICROS.
Proof.
  assert (Hr : 0 <= m mod MICROS < MICROS) by (apply Z.mod_pos_bound; done).
  rewrite Z.rem_mod_nonneg, to_string_nonneg by (unfold MICROS in *; lia). cbn zeta. split; [|split].
  - apply pad_start_length, digits_length; [unfold MICROS in *; cbn; lia|lia].
  - unfold pad_start. rewrite forallb_app, zeros_all, digits_all by lia. done.
  - rewrite value_pad_start, digits_value by lia. done.
Qed.

Lemma pad_end_all k l : forallb is_digit l = true -> forallb is_digit (pad_end k l) = true.
Proof. intros H. unfold pad_end. by rewrite forallb_app, H, zeros_all. Qed.

Lemma strip_all l : forallb is_digit l = true -> forallb is_digit (strip_trailing_zeros l) = true.
Proof.
  intros H. destruct (strip_zeros_spec l) as [k E]. rewrite E, forallb_app in H.
  by apply andb_prop in H as [? _].
Qed.

Lemma places_spec m (Hm : 0 <= m) :
  forallb is_digit (places m) = true /\ (length (places m) <= 6)%nat /\
  value (pad_end 6 (places m)) = m mod MICROS.
Proof.
  destruct (six_places m Hm) as (Hl & Ha & Hv). unfold places; cbn zeta.
  pose proof (pad_strip 6 _ Hl) as Hp. pose proof (strip_all _ Ha) as Hs.
  destruct (strip_zeros_spec (pad_start 6 (chars (to_string (Z.rem m MICROS))))) as [k Hk].
  apply (f_equal length) in Hk. rewrite Hl, length_app, length_replicate in Hk.
  destruct (strip_trailing_zeros _) as [|c d] eqn:E.
  - split; [done|]. split; [cbn; lia|]. rewrite <-Hv, <-Hp. done.
  - split; [by apply pad_end_all|]. split.
    + unfold pad_end. rewrite length_app, length_replicate. cbn [length] in *. lia.
    + rewrite pad_end_pad_end by lia. rewrite Hp. done.
Qed.

(** The shape of the text both printers give. *)
Lemma parse_decimal w f m :
  forallb is_digit w = true -> w <> [] -> forallb is_digit f = true -> (length f <= 6)%nat ->
  m = value w * MICROS + value (pad_end 6 f) ->
  parseUsdcMicros (of_chars (w ++ "."%char :: f)) = Ok m.
Proof.
  intros Hw Hne Hf Hlen ->. unfold parseUsdcMicros.
  rewrite trim_usdc.
  2:{ rewrite chars_of_chars, forallb_app. cbn [forallb].
      rewrite (digits_usdc w), (digits_usdc f) by done. done. }
  rewrite chars_of_chars. unfold parse_chars. rewrite span_digits_app by done.
  destruct w as [|c w]; [done|].
  rewrite <-(app_nil_r f), span_digits_app, app_nil_r by done.
  by rewrite (proj2 (Nat.leb_le _ _) Hlen).
Qed.

Lemma format_shape whole rest :
  to_string whole +:+ of_chars rest = of_chars (chars (to_string whole) ++ rest).
Proof. by rewrite of_chars_app, of_chars_chars. Qed.

Lemma quot_value m : 0 <= m -> value (chars (to_string (Z.quot m MICROS))) = m / MICROS.
Proof.
  intros H. rewrite Z.quot_div_nonneg by (unfold MICROS; lia).
  rewrite to_string_nonneg, digits_value; [done| |]; by apply Z.div_pos.
Qed.

Lemma quot_digits m : 0 <= m ->
  forallb is_digit (chars (to_string (Z.quot m MICROS))) = true /\
  chars (to_string (Z.quot m MICROS)) <> [].
Proof.
  intros H. rewrite Z.quot_div_nonneg by (unfold MICROS; lia).
  rewrite to_string_nonneg by by apply Z.div_pos.
  split; [apply digits_all; by apply Z.div_pos|apply digits_nonempty].
Qed.

(** [formatUsdc] prints nothing [parseUsdcMicros] does not read back. *)
Lemma parse_formatUsdc m : 0 <= m -> parseUsdcMicros (formatUsdc m) = Ok m.
Proof.
  intros Hm.
  change (formatUsdc m) with (to_string (Z.quot m MICROS) +:+ of_chars ("."%char :: places m)).
  rewrite format_shape.
  destruct (quot_digits m Hm), (places_spec m Hm) as (? & ? & Hv).
  apply parse_decimal; [done..|]. rewrite quot_value, Hv by done.
  unfold MICROS. pose proof (Z.div_mod m 1000000). lia.
Qed.

Lemma parse_formatUsdc6 m : 0 <= m -> parseUsdcMicros (formatUsdc6 m) = Ok m.
Proof.
  intros Hm. unfold formatUsdc6. rewrite format_shape.
  destruct (quot_digits m Hm), (six_places m Hm) as (Hl & ? & Hv).
  apply parse_decimal; [done..|rewrite Hl; lia|]. rewrite quot_value by done.
  unfold pad_end. rewrite Hl. cbn [Nat.sub replicate]. rewrite app_nil_r, Hv.
  unfold MICROS. pose proof (Z.div_mod m 1000000). lia.
Qed.

(** A non-negative column is read back exactly. *)
Lemma parse_numeric_text z : 0 <= z -> parseUsdcMicros (numeric_text z) = Ok z.
Proof.
  intros H. unfold numeric_text. destruct (z <? 0) eqn:E; bsimpl; [lia|].
  by apply parse_formatUsdc6.
Qed.
#[export] Hint Resolve parse_formatUsdc parse_formatUsdc6 parse_numeric_text : aops.

(** What the regular expression of [parseUsdcMicros] accepts. *)
Definition usdc_text (l : list ascii) (m : Z) : Prop :=
  exists w, forallb is_digit w = true /\ w <> [] /\
  ((l = w /\ m = value w * MICROS) \/
   exists f, l = w ++ "."%char :: f /\ forallb is_digit f = true /\ (length f <= 6)%nat /\
     m = value w * MICROS + value f * 10 ^ (6 - Z.of_nat (length f))).

Lemma value_pad_end k f : (length f <= k)%nat ->
  value (pad_end k f) = value f * 10 ^ (Z.of_nat k - Z.of_nat (length f)).
Proof.
  intros H. unfold pad_end. rewrite value_app, value_zeros, length_replicate.
  rewrite Nat2Z.inj_sub by done. lia.
Qed.

Lemma parse_chars_complete l m : usdc_text l m -> parse_chars l = Some m.
Proof.
  intros (w & Hw & Hne & [[-> ->]|(f & -> & Hf & Hlen & ->)]); unfold parse_chars.
  - rewrite <-(app_nil_r w), span_digits_app, app_nil_r by done. by destruct w.
  - rewrite span_digits_app by done. destruct w as [|c w]; [done|].
    rewrite <-(app_nil_r f), span_digits_app, app_nil_r by done.
    rewrite (proj2 (Nat.leb_le _ _) Hlen), value_pad_end by done. done.
Qed.

Lemma parse_chars_sound l m : parse_chars l = Some m -> usdc_text l m.
Proof.
  unfold parse_chars. destruct (span_digits l) as [w rest] eqn:E.
  apply span_digits_spec in E as [-> Hw]. destruct w as [|c w]; [done|].
  destruct rest as [|c' rest].
  { intros [= <-]. exists (c :: w). rewrite app_nil_r. naive_solver. }
  destruct (Ascii.ascii_dec c' ".") as [->|Hc].
  - destruct (span_digits rest) as [f t] eqn:E. apply span_digits_spec in E as [-> Hf].
    destruct t; [|done]. destruct (Nat.leb_spec (length f) 6) as [Hlen|]; [|done].
    intros [= <-]. exists (c :: w). split; [done|]. split; [done|]. right. exists f.
    rewrite app_nil_r, value_pad_end by done. done.
  - destruct c' as [[] [] [] [] [] [] [] []]; done.
Qed.

Lemma usdc_text_nonneg l m : usdc_text l m -> 0 <= m.
Proof.
  intros (w & Hw & _ & [[_ ->]|(f & _ & Hf & Hlen & ->)]);
    pose proof (value_range w Hw); unfold MICROS; [lia|].
  pose proof (value_range f Hf). assert (0 < 10 ^ (6 - Z.of_nat (length f))) by (apply Z.pow_pos_nonneg; lia).
  nia.
Qed.

Lemma parse_nonneg v m : parseUsdcMicros v = Ok m -> 0 <= m.
Proof.
  unfold parseUsdcMicros. destruct (parse_chars _) eqn:E; [|done].
  intros [= <-]. by eapply usdc_text_nonneg, parse_chars_sound.
Qed.
#[export] Hint Resolve parse_nonneg : aops.

Lemma parse_error v e : parseUsdcMicros v = Err e -> e = badRequest "invalid_usdc_amount".
Proof. unfold parseUsdcMicros. destruct (parse_chars _); [done|]. congruence. Qed.

Lemma clamp_range v lo hi : lo <= hi -> lo <= clampBigint v lo hi <= hi.
Proof.
  unfold clampBigint. intros. destruct (v <? lo) eqn:?; bsimpl; [lia|].
  destruct (hi <? v) eqn:?; bsimpl; lia.
Qed.

(** ** Properties *)

(** C31: [parseUsdcMicros] accepts exactly the texts [digits], [digits.] and
    [digits.digits] with at most six places (after trimming), gives their
    exact value in micros, and rejects every other text with the error
    [invalid_usdc_amount]. *)
Theorem parseUsdcMicros_spec (v : string) :
  match parseUsdcMicros v with
  | Ok m => usdc_text (chars (trim v)) m
  | Err e => e = badRequest "invalid_usdc_amount" /\ forall m, ~ usdc_text (chars (trim v)) m
  end.
Proof.
  unfold parseUsdcMicros. destruct (parse_chars _) as [m|] eqn:E.
  - by apply parse_chars_sound.
  - split; [done|]. intros m H. apply parse_chars_complete in H. congruence.
Qed.

(** C32: both printers round-trip through [parseUsdcMicros], and [formatDbUsdc]
    is a normal form: it accepts whatever parses, keeps the amount, and is
    idempotent. *)
Theorem usdc_roundtrip (m : Z) (Hm : 0 <= m) :
  parseUsdcMicros (formatUsdc m) = Ok m /\
  parseUsdcMicros (formatUsdc6 m) = Ok m /\
  formatDbUsdc (formatUsdc6 m) = Ok (formatUsdc m) /\
  formatDbUsdc (formatUsdc m) = Ok (formatUsdc m).
Proof.
  unfold formatDbUsdc. rewrite parse_formatUsdc, parse_formatUsdc6 by done. done.
Qed.

Lemma usdc_roundtrip_witness :
  formatUsdc 1230000 = "1.23"%string /\ formatUsdc6 1230000 = "1.230000"%string /\
  parseUsdcMicros "1.23" = Ok 1230000.
Proof.
  split; [reflexivity|]. split; [reflexivity|].
  exact (proj1 (usdc_roundtrip 1230000 ltac:(lia))).
Defined.
