(* ===== verification/Identity.v ===== *)
(** Roles, operator contexts and name slugs ([identity/types.ts],
    [identity/roles.ts], [identity/ids.ts]). *)

From S2P Require Import Prelude Errors.
Open Scope Z_scope.

Inductive Role : Type :=
| Role_owner | Role_admin | Role_operator | Role_auditor | Role_viewer | Role_member.
#[export] Instance Role_eq_dec : EqDecision Role.
Proof. solve_decision. Defined.

Definition Role_text (r : Role) : string :=
  match r with
  | Role_owner => "owner" | Role_admin => "admin" | Role_operator => "operator"
  | Role_auditor => "auditor" | Role_viewer => "viewer" | Role_member => "member"
  end.

Record OperatorContext : Type := mkOperatorContext {
  op_actorId : string;
  op_role : Role;
  op_userId : option string;
  op_orgId : option string
}.

Definition ROLE_RANK (r : Role) : Z :=
  match r with
  | Role_viewer => 0 | Role_auditor => 1 | Role_member => 1
  | Role_operator => 2 | Role_admin => 3 | Role_owner => 4
  end.

Definition satisfiesRole (actual required : Role) : bool := ROLE_RANK required <=? ROLE_RANK actual.

Lemma satisfiesRole_refl r : satisfiesRole r r = true.
Proof. apply Z.leb_refl. Qed.

Lemma satisfiesRole_trans a b c :
  satisfiesRole a b = true -> satisfiesRole b c = true -> satisfiesRole a c = true.
Proof. unfold satisfiesRole. rewrite !Z.leb_le. lia. Qed.

(** ** Slugs *)

Definition slug_char (c : ascii) : bool :=
  let n := Ascii.nat_of_ascii c in
  ((97 <=? n) && (n <=? 122) || (48 <=? n) && (n <=? 57))%nat.

(** [replace(/[^a-z0-9]+/g, '-')]: one dash per run of other characters. *)
Fixpoint dash_runs (in_run : bool) (l : list ascii) : list ascii :=
  match l with
  | [] => []
  | c :: r => if slug_char c then c :: dash_runs false r
              else if in_run then dash_runs true r else "-"%char :: dash_runs true r
  end.

Fixpoint drop_dashes (l : list ascii) : list ascii :=
  match l with
  | c :: r => if Ascii.eqb c "-" then drop_dashes r else l
  | [] => []
  end.

Definition strip_dashes (l : list ascii) : list ascii :=
  rev (drop_dashes (rev (drop_dashes l))).

Definition slugifyName (name : string) : string :=
  let slug := strip_dashes (dash_runs false (chars (lower (trim name)))) in
  match slug with [] => "org" | _ :: _ => of_chars slug end.

Example slug_example : slugifyName "  Acme -- Labs, Inc. " = "acme-labs-inc"%string.
Proof. vm_compute. reflexivity. Qed.
Example slug_empty : slugifyName " !! " = "org"%string.
Proof. vm_compute. reflexivity. Qed.
