(* ===== verification/Json.v ===== *)
(** JSON values, JavaScript's printing of numbers, dates and strings, and the
    canonical encoder of [evidence/canonical-json.ts]: [encodeCanonical] runs
    on a heap of objects with its [seen] set (shared and cyclic objects
    included); [canon] is the same encoder on a tree. *)

From Stdlib Require Import Sorting.Sorted Sorting.Permutation.
From S2P Require Import Prelude Errors Usdc.
Import Digits.
Open Scope Z_scope.

(** ** Numbers *)

(** A JavaScript number by the shortest decimal that identifies it: sign,
    decimal digits read as [s], and [n] with value [s * 10 ^ (n - k)] for the
    [k] digits of [s] (the variables of ECMAScript's Number::toString). *)
Inductive jsnum : Type :=
| Finite (neg : bool) (s : N) (n : Z)
| NonFinite.

(** An integer of at most 21 digits. *)
Definition jsint (z : Z) : jsnum :=
  Finite (z <? 0) (Z.abs_N z) (Z.of_nat (length (digits (Z.abs z)))).

Definition zeros (n : Z) : list ascii := replicate (Z.to_nat n) "0"%char.

Definition exponent (n : Z) : list ascii :=
  "e"%char :: (if 0 <=? n - 1 then "+"%char else "-"%char) :: digits (Z.abs (n - 1)).

Definition number_chars (neg : bool) (s n : Z) : list ascii :=
  if s =? 0 then ["0"%char] else
  let ds := digits s in
  let k := Z.of_nat (length ds) in
  (if neg then ["-"%char] else []) ++
  if (k <=? n) && (n <=? 21) then ds ++ zeros (n - k)
  else if (0 <? n) && (n <=? 21) then firstn (Z.to_nat n) ds ++ "."%char :: skipn (Z.to_nat n) ds
  else if (-6 <? n) && (n <=? 0) then "0"%char :: "."%char :: zeros (- n) ++ ds
  else match ds with
       | [d] => d :: exponent n
       | d :: rest => d :: "."%char :: rest ++ exponent n
       | [] => []
       end.

(** ** Dates: [Date.prototype.toISOString] on milliseconds since 1970 *)

(** Year, month and day of a day number (proleptic Gregorian calendar). *)
Definition civil (days : Z) : Z * Z * Z :=
  let z := days + 719468 in
  let era := z / 146097 in
  let doe := z mod 146097 in
  let yoe := (doe - doe / 1460 + doe / 36524 - doe / 146096) / 365 in
  let doy := doe - (365 * yoe + yoe / 4 - yoe / 100) in
  let mp := (5 * doy + 2) / 153 in
  let d := doy - (153 * mp + 2) / 5 + 1 in
  let mth := if mp <? 10 then mp + 3 else mp - 9 in
  (yoe + era * 400 + (if mth <=? 2 then 1 else 0), mth, d).

Definition padded (k : nat) (n : Z) : list ascii := pad_start k (digits n).

Definition iso_year (y : Z) : list ascii :=
  if (0 <=? y) && (y <=? 9999) then padded 4 y
  else (if y <? 0 then "-"%char else "+"%char) :: padded 6 (Z.abs y).

Definition toISOString (ms : Z) : string :=
  let days := ms / 86400000 in
  let t := ms mod 86400000 in
  let '(y, mth, d) := civil days in
  of_chars (iso_year y ++ "-"%char :: padded 2 mth ++ "-"%char :: padded 2 d
    ++ "T"%char :: padded 2 (t / 3600000) ++ ":"%char :: padded 2 (t / 60000 mod 60)
    ++ ":"%char :: padded 2 (t / 1000 mod 60) ++ "."%char :: padded 3 (t mod 1000) ++ ["Z"%char]).

Example iso_epoch : toISOString 0 = "1970-01-01T00:00:00.000Z"%string.
Proof. reflexivity. Qed.
Example iso_leap : toISOString 1709251199999 = "2024-02-29T23:59:59.999Z"%string.
Proof. vm_compute. reflexivity. Qed.
Example iso_past : toISOString (-1) = "1969-12-31T23:59:59.999Z"%string.
Proof. vm_compute. reflexivity. Qed.

(** ** Strings: [JSON.stringify] on UTF-8 bytes *)

Definition hex_char (n : nat) : ascii :=
  Ascii.ascii_of_nat (if (n <? 10)%nat then n + 48 else n + 87)%nat.

Definition quote : ascii := Ascii.ascii_of_nat 34.

Definition escape_char (c : ascii) : list ascii :=
  let n := Ascii.nat_of_ascii c in
  if (n =? 34)%nat then ["\"%char; quote]
  else if (n =? 92)%nat then ["\"; "\"]%char
  else if (n =? 8)%nat then ["\"; "b"]%char
  else if (n =? 9)%nat then ["\"; "t"]%char
  else if (n =? 10)%nat then ["\"; "n"]%char
  else if (n =? 12)%nat then ["\"; "f"]%char
  else if (n =? 13)%nat then ["\"; "r"]%char
  else if (n <? 32)%nat then ["\"; "u"; "0"; "0"; hex_char (n / 16); hex_char (n mod 16)]%char
  else [c].

Definition stringify_chars (s : string) : list ascii :=
  quote :: flat_map escape_char (chars s) ++ [quote].

(** ** Values as trees *)

#[warnings="-register-all"]
Inductive json : Type :=
| JNull
| JBool (b : bool)
| JNum (n : jsnum)
| JStr (s : string)
| JDate (ms : Z)
| JUndefined
| JOther                                     (* function, symbol, bigint *)
| JArr (l : list json)
| JObj (es : list (string * json))           (* plain object, Object.keys order *)
| JInst (es : list (string * json)).         (* any other object, its own entries *)

Definition jint (z : Z) : json := JNum (jsint z).
Definition jopt (o : option string) : json :=
  match o with Some s => JStr s | None => JNull end.

Section JsonInd.
Context (P : json -> Prop).
Context (Hnull : P JNull) (Hbool : forall b, P (JBool b)) (Hnum : forall n, P (JNum n))
  (Hstr : forall s, P (JStr s)) (Hdate : forall ms, P (JDate ms))
  (Hundef : P JUndefined) (Hother : P JOther)
  (Harr : forall l, Forall P l -> P (JArr l))
  (Hobj : forall es, Forall (fun e => P (snd e)) es -> P (JObj es))
  (Hinst : forall es, Forall (fun e => P (snd e)) es -> P (JInst es)).

Fixpoint json_tree_ind (j : json) : P j :=
  let fix entries es : Forall (fun e : string * json => P (snd e)) es :=
    match es with
    | [] => List.Forall_nil _
    | e :: r => List.Forall_cons _ e r (json_tree_ind (snd e)) (entries r)
    end in
  match j with
  | JNull => Hnull | JBool b => Hbool b | JNum n => Hnum n | JStr s => Hstr s
  | JDate ms => Hdate ms | JUndefined => Hundef | JOther => Hother
  | JArr l => Harr l ((fix items l : Forall P l :=
      match l with
      | [] => List.Forall_nil _
      | x :: r => List.Forall_cons _ x r (json_tree_ind x) (items r)
      end) l)
  | JObj es => Hobj es (entries es)
  | JInst es => Hinst es (entries es)
  end.
End JsonInd.

(** ** Key order: [Object.keys(value).sort((l, r) => l.localeCompare(r))] *)

(** [String.prototype.localeCompare] depends on the host's collation. *)
Class Collation := localeCompare : string -> string -> Z.

(** What the engines rely on: the comparison is a total preorder. *)
Class CollationLaws `{Collation} : Prop := {
  locale_total a b : localeCompare a b <= 0 \/ localeCompare b a <= 0;
  locale_trans a b c : localeCompare a b <= 0 -> localeCompare b c <= 0 -> localeCompare a c <= 0
}.

(** A collation that also tells distinct strings apart. *)
Class CollationSeparates `{Collation} : Prop :=
  locale_antisym a b : localeCompare a b <= 0 -> localeCompare b a <= 0 -> a = b.

Section Sort.
Context `{Collation} {A : Type}.

Fixpoint insert_entry (x : string * A) (l : list (string * A)) : list (string * A) :=
  match l with
  | [] => [x]
  | y :: r => if localeCompare (fst x) (fst y) <=? 0 then x :: l else y :: insert_entry x r
  end.

(** The stable sort of [Array.prototype.sort]. *)
Fixpoint sort_entries (l : list (string * A)) : list (string * A) :=
  match l with
  | [] => []
  | x :: r => insert_entry x (sort_entries r)
  end.
End Sort.

(** ** The encoder on trees *)

Definition unsupported : exn := PlainError "unsupported_audit_value".

Fixpoint join_comma (l : list (list ascii)) : list ascii :=
  match l with
  | [] => []
  | [x] => x
  | x :: r => x ++ ","%char :: join_comma r
  end.

Definition entry_chars (e : string * list ascii) : list ascii :=
  stringify_chars (fst e) ++ ":"%char :: snd e.

Definition array_chars (ts : list (list ascii)) : list ascii :=
  "["%char :: join_comma ts ++ ["]"%char].
Definition object_chars (ts : list (string * list ascii)) : list ascii :=
  "{"%char :: join_comma (map entry_chars ts) ++ ["}"%char].

Definition res_snd {A} (e : string * Res A) : Res (string * A) :=
  let? t := snd e in Ok (fst e, t).

Section Encode.
Context `{Collation}.

Fixpoint canon (j : json) : Res (list ascii) :=
  match j with
  | JNull => Ok (chars "null")
  | JStr s => Ok (stringify_chars s)
  | JNum (Finite neg s n) => Ok (number_chars neg (Z.of_N s) n)
  | JNum NonFinite => Err unsupported
  | JBool b => Ok (chars (if b then "true" else "false"))
  | JUndefined | JOther => Err unsupported
  | JDate ms => Ok (stringify_chars (toISOString ms))
  | JArr l => let? ts := res_map canon l in Ok (array_chars ts)
  | JInst _ => Err unsupported
  | JObj es =>
      let? ts := res_map res_snd (sort_entries (map (fun e => (fst e, canon (snd e))) es)) in
      Ok (object_chars ts)
  end.

(** [canonicalJson] and [sha256Hex] on trees. *)
Definition canonicalJson (j : json) : Res string :=
  let? t := canon j in Ok (of_chars t).
End Encode.

(** [createHash('sha256').update(body, 'utf8').digest('hex')]. *)
Class Sha256 := sha256 : string -> string.

Section Hash.
Context `{Collation} `{Sha256}.

Definition sha256Hex (j : json) : Res string :=
  match j with
  | JStr s => Ok (sha256 s)
  | _ => let? body := canonicalJson j in Ok (sha256 body)
  end.
End Hash.

(** ** The encoder on a heap *)

Inductive value : Type :=
| VNull | VBool (b : bool) | VNum (n : jsnum) | VStr (s : string) | VDate (ms : Z)
| VUndefined | VOther
| VRef (addr : nat).

Inductive object : Type :=
| OArray (l : list value)
| OPlain (es : list (string * value))
| OInst (es : list (string * value)).

Definition heap : Type := list object.

(** A recursive call returns [None] when the fuel runs out. *)
Section OptResMap.
Context {A B : Type} (f : A -> option (Res B)).

Fixpoint opt_res_map (l : list A) : option (Res (list B)) :=
  match l with
  | [] => Some (Ok [])
  | x :: r =>
      match f x with
      | None => None
      | Some (Err e) => Some (Err e)
      | Some (Ok y) =>
          match opt_res_map r with
          | None => None
          | Some (Err e) => Some (Err e)
          | Some (Ok ys) => Some (Ok (y :: ys))
          end
      end
  end.
End OptResMap.

Definition on_ok {A B} (f : A -> B) (m : option (Res A)) : option (Res B) :=
  match m with
  | None => None
  | Some (Err e) => Some (Err e)
  | Some (Ok a) => Some (Ok (f a))
  end.

Definition seen_mem (a : nat) (seen : list nat) : bool := existsb (Nat.eqb a) seen.

Section HeapEncode.
Context `{Collation} (h : heap).

Fixpoint encodeCanonical (fuel : nat) (v : value) (seen : list nat) : option (Res (list ascii)) :=
  match v with
  | VNull => Some (Ok (chars "null"))
  | VStr s => Some (Ok (stringify_chars s))
  | VNum (Finite neg s n) => Some (Ok (number_chars neg (Z.of_N s) n))
  | VNum NonFinite => Some (Err unsupported)
  | VBool b => Some (Ok (chars (if b then "true" else "false")))
  | VUndefined | VOther => Some (Err unsupported)
  | VDate ms => Some (Ok (stringify_chars (toISOString ms)))
  | VRef a =>
      match fuel with
      | O => None
      | S fuel =>
          match h !! a with
          | Some (OArray l) =>
              if seen_mem a seen then Some (Err unsupported)
              else on_ok array_chars
                     (opt_res_map (fun item => encodeCanonical fuel item (a :: seen)) l)
          | Some (OPlain es) =>
              if seen_mem a seen then Some (Err unsupported)
              else on_ok object_chars
                     (opt_res_map (fun e => on_ok (pair (fst e))
                                     (encodeCanonical fuel (snd e) (a :: seen)))
                        (sort_entries es))
          | Some (OInst _) | None => Some (Err unsupported)
          end
      end
  end.

(** [canonicalJson(value)] starts with an empty [seen]; more nested calls
    than there are objects cannot happen (theorem below). *)
Definition canonicalJsonHeap (v : value) : option (Res string) :=
  on_ok of_chars (encodeCanonical (S (length h)) v []).

(** [v] denotes the tree [j] in the heap (the entries of an instance of a
    class are never read). *)
#[warnings="-register-all"]
Inductive denotes : value -> json -> Prop :=
| D_null : denotes VNull JNull
| D_bool b : denotes (VBool b) (JBool b)
| D_num n : denotes (VNum n) (JNum n)
| D_str s : denotes (VStr s) (JStr s)
| D_date ms : denotes (VDate ms) (JDate ms)
| D_undefined : denotes VUndefined JUndefined
| D_other : denotes VOther JOther
| D_array a l js : h !! a = Some (OArray l) -> Forall2 denotes l js -> denotes (VRef a) (JArr js)
| D_plain a es js : h !! a = Some (OPlain es) ->
    Forall2 (fun e e' => fst e = fst e' /\ denotes (snd e) (snd e')) es js ->
    denotes (VRef a) (JObj js)
| D_inst a es : h !! a = Some (OInst es) -> denotes (VRef a) (JInst []).
End HeapEncode.

(** ** Lemmas: sorting *)

Section SortLemmas.
Context `{Collation}.

Lemma insert_entry_map {A B} (f : A -> B) x l :
  insert_entry (fst x, f (snd x)) (map (fun e => (fst e, f (snd e))) l) =
  map (fun e => (fst e, f (snd e))) (insert_entry x l).
Proof.
  induction l as [|y l IH]; cbn; [done|]. destruct (_ <=? 0); [done|]. cbn. by rewrite IH.
Qed.

Lemma sort_entries_map {A B} (f : A -> B) l :
  sort_entries (map (fun e => (fst e, f (snd e))) l) =
  map (fun e => (fst e, f (snd e))) (sort_entries l).
Proof. induction l as [|x l IH]; cbn; [done|]. by rewrite IH, insert_entry_map. Qed.

Lemma insert_entry_perm {A} (x : string * A) l : Permutation (x :: l) (insert_entry x l).
Proof.
  induction l as [|y l IH]; cbn; [done|]. destruct (_ <=? 0); [done|].
  rewrite perm_swap. by apply perm_skip.
Qed.

Lemma sort_entries_perm {A} (l : list (string * A)) : Permutation l (sort_entries l).
Proof.
  induction l as [|x l IH]; cbn; [done|]. rewrite <-insert_entry_perm. by apply perm_skip.
Qed.

Definition key_le {A} (x y : string * A) : Prop := localeCompare (fst x) (fst y) <= 0.

Lemma insert_entry_sorted `{!CollationLaws} {A} (x : string * A) l :
  StronglySorted key_le l -> StronglySorted key_le (insert_entry x l).
Proof.
  induction 1 as [|y l Hs IH Hy]; cbn; [by repeat constructor|].
  destruct (_ <=? 0) eqn:E; bsimpl.
  - constructor; [by constructor|]. constructor; [done|].
    eapply List.Forall_impl; [|exact Hy]. intros z Hz. by eapply locale_trans.
  - constructor; [done|]. eapply Permutation_Forall; [apply insert_entry_perm|].
    constructor; [|done]. unfold key_le.
    destruct (locale_total (fst x) (fst y)); [lia|done].
Qed.

Lemma sort_entries_sorted `{!CollationLaws} {A} (l : list (string * A)) :
  StronglySorted key_le (sort_entries l).
Proof. induction l; cbn; [constructor|]. by apply insert_entry_sorted. Qed.

(** Two sorted lists with the same entries under distinct keys are equal. *)
Lemma sorted_unique `{!CollationSeparates} {A} (l1 l2 : list (string * A)) :
  StronglySorted key_le l1 -> StronglySorted key_le l2 ->
  NoDup (map fst l1) -> Permutation l1 l2 -> l1 = l2.
Proof.
  intros H1. revert l2. induction H1 as [|x l1 H1 IH Hx]; intros l2 H2 Hd Hp.
  { by apply Permutation_nil_l in Hp. }
  destruct H2 as [|y l2 H2 Hy]; [by apply Permutation_nil_r in Hp|].
  assert (x = y) as <-.
  { assert (In y (x :: l1)) as Iy by (rewrite Hp; left; done).
    assert (In x (y :: l2)) as Ix by (rewrite <-Hp; left; done).
    destruct Iy as [|Iy]; [done|]. destruct Ix as [|Ix]; [done|].
    rewrite List.Forall_forall in Hx, Hy. exfalso.
    cbn in Hd. rewrite NoDup_cons in Hd. destruct Hd as [Hd _]. apply Hd.
    rewrite (locale_antisym _ _ (Hx y Iy) (Hy x Ix)).
    apply list_elem_of_In. by apply in_map. }
  f_equal. apply IH; [done| |].
  - cbn in Hd. rewrite NoDup_cons in Hd. apply Hd.
  - by apply Permutation_cons_inv in Hp.
Qed.

Lemma sort_entries_canonical `{!CollationLaws} `{!CollationSeparates} {A} (l1 l2 : list (string * A)) :
  NoDup (map fst l1) -> Permutation l1 l2 -> sort_entries l1 = sort_entries l2.
Proof.
  intros Hd Hp. apply sorted_unique; [apply sort_entries_sorted..| |].
  - by rewrite <-sort_entries_perm.
  - by rewrite <-!sort_entries_perm.
Qed.

Lemma insert_entry_rel {A B} (R : A -> B -> Prop) x y l k :
  fst x = fst y -> R (snd x) (snd y) ->
  Forall2 (fun e e' => fst e = fst e' /\ R (snd e) (snd e')) l k ->
  Forall2 (fun e e' => fst e = fst e' /\ R (snd e) (snd e')) (insert_entry x l) (insert_entry y k).
Proof.
  intros Hk HR. induction 1 as [|e e' l k [He HRe] Hr IH]; cbn.
  - by repeat constructor.
  - rewrite Hk, He. destruct (_ <=? 0); repeat constructor; auto.
Qed.

Lemma sort_entries_rel {A B} (R : A -> B -> Prop) l k :
  Forall2 (fun e e' => fst e = fst e' /\ R (snd e) (snd e')) l k ->
  Forall2 (fun e e' => fst e = fst e' /\ R (snd e) (snd e')) (sort_entries l) (sort_entries k).
Proof. induction 1 as [|e e' l k [He HR] _ IH]; cbn; [constructor|]. by apply insert_entry_rel. Qed.
End SortLemmas.

(** ** Lemmas: the heap encoder *)

Lemma opt_res_map_total {A B} (f : A -> option (Res B)) l :
  (forall x, In x l -> exists r, f x = Some r) -> exists r, opt_res_map f l = Some r.
Proof.
  induction l as [|x l IH]; cbn; intros Hf; [by eauto|].
  destruct (Hf x (or_introl eq_refl)) as [[y|e] ->]; [|by eauto].
  destruct IH as [[ys|e] ->]; [|by eauto..]. auto.
Qed.

Lemma opt_res_map_eq {A A' B} (f : A -> option (Res B)) (g : A' -> Res B) l l' r :
  Forall2 (fun x x' => forall r, f x = Some r -> r = g x') l l' ->
  opt_res_map f l = Some r -> r = res_map g l'.
Proof.
  intros Hf. revert r. induction Hf as [|x x' l l' Hx Hl IH]; cbn; intros r; [congruence|].
  destruct (f x) as [[y|e]|]; [|intros [= <-]; by rewrite <-(Hx _ eq_refl)|done].
  rewrite <-(Hx _ eq_refl). cbn.
  destruct (opt_res_map f l) as [[ys|e]|]; intros [= <-]; by rewrite <-(IH _ eq_refl).
Qed.

Lemma opt_res_map_ok {A B} (f : A -> option (Res B)) l ys :
  opt_res_map f l = Some (Ok ys) -> Forall2 (fun x y => f x = Some (Ok y)) l ys.
Proof.
  revert ys. induction l as [|x l IH]; cbn; intros ys; [intros [= <-]; constructor|].
  destruct (f x) as [[y|e]|] eqn:E; [|done..].
  destruct (opt_res_map f l) as [[zs|e]|]; [|done..]. intros [= <-]. constructor; auto.
Qed.

Lemma opt_res_map_err {A B} (f : A -> option (Res B)) l e (P : exn -> Prop) :
  (forall x e, In x l -> f x = Some (Err e) -> P e) -> opt_res_map f l = Some (Err e) -> P e.
Proof.
  induction l as [|x l IH]; cbn; intros Hf; [done|].
  destruct (f x) as [[y|e']|] eqn:E; [|intros [= <-]; eauto|done].
  destruct (opt_res_map f l) as [[zs|e']|]; [done| |done]. intros [= <-]. apply IH; eauto.
Qed.

Lemma on_ok_inv {A B} (f : A -> B) m r :
  on_ok f m = Some r ->
  exists r', m = Some r' /\ r = match r' with Ok a => Ok (f a) | Err e => Err e end.
Proof. destruct m as [[a|e]|]; cbn; intros [= <-]; eauto. Qed.

Lemma seen_mem_spec a seen : seen_mem a seen = true <-> In a seen.
Proof.
  unfold seen_mem. rewrite existsb_exists. setoid_rewrite Nat.eqb_eq. naive_solver.
Qed.

Fixpoint height (j : json) : nat :=
  match j with
  | JArr l => S (list_max (map height l))
  | JObj es => S (list_max (map (fun e => height (snd e)) es))
  | _ => O
  end.

Lemma list_max_in n l : In n l -> (n <= list_max l)%nat.
Proof.
  unfold list_max. induction l as [|m l IH]; cbn; [done|].
  intros [->|H]; [lia|]. apply IH in H. lia.
Qed.

Section HeapLemmas.
Context `{Collation} (h : heap).

(** The addresses on the path to a nested call are distinct objects of the
    heap, so [S (length h)] levels are enough. *)
Lemma encode_total fuel v seen :
  NoDup seen -> (forall a, In a seen -> (a < length h)%nat) ->
  (S (length h) <= fuel + length seen)%nat ->
  exists r, encodeCanonical h fuel v seen = Some r.
Proof.
  revert v seen. induction fuel as [|fuel IH]; intros v seen Hd Hlt Hf.
  - assert (length seen <= length (seq 0 (length h)))%nat as Hle.
    { apply NoDup_incl_length; [by apply NoDup_ListNoDup|].
      intros a Ha. apply in_seq. specialize (Hlt a Ha). lia. }
    rewrite length_seq in Hle. lia.
  - destruct v as [|b|[]|s|ms| | |a]; cbn; try by eauto.
    assert (Hrec : forall o, h !! a = Some o -> seen_mem a seen = false ->
      forall w, exists r, encodeCanonical h fuel w (a :: seen) = Some r).
    { intros o Ha Hs w. apply IH.
      - constructor; [|done]. intros Hin%list_elem_of_In%seen_mem_spec. congruence.
      - intros a' [<-|Ha']; [|by auto]. by eapply lookup_lt_Some.
      - cbn. lia. }
    destruct (h !! a) as [[l|es|es]|] eqn:E; [| |by eauto..];
      destruct (seen_mem a seen) eqn:Es; try (by eauto).
    + destruct (opt_res_map_total (fun item => encodeCanonical h fuel item (a :: seen)) l)
        as [r Hr]; [by eauto|]. rewrite Hr. destruct r; cbn; eauto.
    + destruct (opt_res_map_total (fun e => on_ok (pair (fst e))
        (encodeCanonical h fuel (snd e) (a :: seen))) (sort_entries es)) as [r Hr].
      { intros e _. destruct (Hrec _ eq_refl eq_refl (snd e)) as [[] ->]; cbn; eauto. }
      rewrite Hr. destruct r; cbn; eauto.
Qed.

Lemma denotes_unique v j1 j2 : denotes h v j1 -> denotes h v j2 -> j1 = j2.
Proof.
  revert v j2. induction j1 as [| | | | | | |l IH|es IH|es IH] using json_tree_ind;
    intros v j2 H1 H2; inversion H1; subst; inversion H2; subst; try congruence.
  - f_equal. simplify_eq.
    match goal with
    | A : Forall2 _ ?vs l, B : Forall2 _ ?vs ?l2 |- _ => revert A B; generalize l2; generalize vs
    end.
    clear -IH. induction IH as [|x l Hx _ IH]; intros vs l2 A B; inversion A; subst;
      inversion B; subst; f_equal; eauto.
  - f_equal. simplify_eq.
    match goal with
    | A : Forall2 _ ?vs es, B : Forall2 _ ?vs ?l2 |- _ => revert A B; generalize l2; generalize vs
    end.
    clear -IH. induction IH as [|[k x] l Hx _ IH]; intros vs l2 A B; inversion A; subst;
      inversion B as [|? [k' x'] ? ? [? ?]]; subst; f_equal; [|by eauto].
    cbn in *. f_equal; [naive_solver congruence|]. naive_solver.
Qed.

Lemma Forall2_with {A B} (P : B -> Prop) (R S : A -> B -> Prop) l l' :
  List.Forall P l' -> Forall2 R l l' -> (forall x y, P y -> R x y -> S x y) -> Forall2 S l l'.
Proof.
  intros HP HR HS. induction HR as [|x y l l' Hxy _ IH]; inversion HP; constructor; auto.
Qed.

(** An ancestor of a value is higher than the value. *)
Definition above (seen : list nat) (j : json) : Prop :=
  forall a ja, In a seen -> denotes h (VRef a) ja -> (height j < height ja)%nat.

Lemma above_nil j : above [] j.
Proof. by intros a ja Ha. Qed.

Lemma above_child a seen j x :
  denotes h (VRef a) j -> above seen j -> (height x < height j)%nat -> above (a :: seen) x.
Proof.
  intros Hd Hs Hx a' ja [<-|Ha'] Hja.
  - by rewrite <-(denotes_unique _ _ _ Hd Hja).
  - etrans; [exact Hx|]. by eapply Hs.
Qed.

Lemma above_not_seen a seen j :
  denotes h (VRef a) j -> above seen j -> seen_mem a seen = false.
Proof.
  intros Hd Hs. destruct (seen_mem a seen) eqn:E; [|done].
  apply seen_mem_spec in E. specialize (Hs a _ E Hd). lia.
Qed.

Lemma height_items l : List.Forall (fun x => (height x < height (JArr l))%nat) l.
Proof. apply List.Forall_forall. intros x Hx. cbn. apply le_n_S, list_max_in, in_map, Hx. Qed.

Lemma height_entries (es : list (string * json)) :
  List.Forall (fun e => (height (snd e) < height (JObj es))%nat) es.
Proof.
  apply List.Forall_forall. intros x Hx. cbn.
  apply le_n_S, list_max_in. by apply (in_map (fun e => height (snd e))).
Qed.

Lemma encode_denotes j fuel v seen r :
  denotes h v j -> above seen j -> encodeCanonical h fuel v seen = Some r -> r = canon j.
Proof.
  revert fuel v seen r.
  induction j as [|b|n|s|ms| | |l IH|es IH|es IH] using json_tree_ind;
    intros fuel v seen r Hd Hs E; pose proof Hd as Hd';
    inversion Hd' as [| | | | | | |a ws ? Ha Hl|a ws ? Ha Hl|a ws Ha]; subst;
    destruct fuel as [|fuel]; cbn in E;
    try (by simplify_eq); try (by destruct n; simplify_eq); rewrite Ha in E; [| |by simplify_eq];
    rewrite (above_not_seen a seen _ Hd Hs) in E; apply on_ok_inv in E as (r' & E & ->).
  - apply (opt_res_map_eq _ canon _ l) in E; [by subst; cbn; destruct (res_map _ _)|].
    eapply (Forall2_with _ _ _ _ _ (List.Forall_and IH (height_items l)) Hl).
    cbn beta. intros w x [Hx Hh] Hw r1 E1. eapply Hx; [exact Hw| |exact E1].
    by eapply above_child.
  - cbn [canon]. rewrite (sort_entries_map canon).
    apply (opt_res_map_eq _ (fun e => res_snd (fst e, canon (snd e))) _ (sort_entries es)) in E.
    { subst r'. clear. replace (res_map (fun e => res_snd (fst e, canon (snd e))) (sort_entries es))
        with (res_map res_snd (map (fun e => (fst e, canon (snd e))) (sort_entries es))).
      - by destruct (res_map _ _).
      - induction (sort_entries es) as [|e l IHl]; cbn; [done|]. by rewrite IHl. }
    assert (Hin : List.Forall (fun e => (forall fuel v seen r, denotes h v (snd e) -> above seen (snd e) ->
       encodeCanonical h fuel v seen = Some r -> r = canon (snd e)) /\
       (height (snd e) < height (JObj es))%nat) (sort_entries es)).
    { eapply Permutation_Forall; [apply sort_entries_perm|].
      apply List.Forall_and; [exact IH|apply height_entries]. }
    eapply (Forall2_with _ _ _ _ _ Hin (sort_entries_rel _ _ _ Hl)).
    cbn beta. intros w x [Hx Hh] [Hk Hw] r1 E1. unfold res_snd. cbn [fst snd].
    apply on_ok_inv in E1 as (r2 & E1 & ->).
    rewrite <-(Hx _ _ _ _ Hw ltac:(by eapply above_child) E1), Hk. by destruct r2.
Qed.

Lemma encode_ok_denotes fuel v seen t :
  encodeCanonical h fuel v seen = Some (Ok t) -> exists j, denotes h v j.
Proof.
  revert v seen t. induction fuel as [|fuel IH]; intros v seen t.
  { destruct v as [| |[]| | | | |]; cbn; try done; eexists; by constructor. }
  destruct v as [| |[]| | | | |a]; cbn; try done; try (eexists; by constructor).
  destruct (h !! a) as [[l|es|es]|] eqn:Ha; [| |done..]; destruct (seen_mem a seen); try done;
    intros ([l'|] & E & ?)%on_ok_inv; try done; apply opt_res_map_ok in E.
  - assert (exists js, Forall2 (denotes h) l js) as [js Hjs].
    { clear -E IH. induction E as [|w u ws us Hu _ [js IHE]]; [by exists []|].
      apply IH in Hu as [j Hj]. exists (j :: js). by constructor. }
    exists (JArr js). by econstructor.
  - assert (exists js, Forall2 (fun e e' => fst e = fst e' /\ denotes h (snd e) (snd e')) es js)
      as [js Hjs].
    { assert (List.Forall (fun e => exists j, denotes h (snd e) j) es) as Hall.
      { eapply Permutation_Forall; [symmetry; apply sort_entries_perm|].
        clear -E IH. induction E as [|w u ws us Hu _ IHE]; constructor; [|done].
        apply on_ok_inv in Hu as ([u'|] & Hu & ?); [|done]. by eapply IH. }
      clear -Hall. induction Hall as [|[k w] ws [j Hj] _ [js IH]]; [by exists []|].
      exists ((k, j) :: js). by constructor. }
    exists (JObj js). by econstructor.
Qed.

Lemma encode_err fuel v seen e : encodeCanonical h fuel v seen = Some (Err e) -> e = unsupported.
Proof.
  revert v seen e. induction fuel as [|fuel IH]; intros v seen e.
  { destruct v as [| |[]| | | | |]; cbn; congruence. }
  destruct v as [| |[]| | | | |a]; cbn; try congruence.
  destruct (h !! a) as [[l|es|es]|] eqn:Ha; try congruence; destruct (seen_mem a seen);
    try congruence; intros ([l'|e'] & E & [= ->])%on_ok_inv; revert E;
    apply (opt_res_map_err _ _ _ (fun e => e = unsupported)); intros w e'' _ Hw; [by eapply IH|].
  apply on_ok_inv in Hw as ([u|u] & Hw & [= ->]). by eapply IH.
Qed.
End HeapLemmas.

(** ** Properties *)

(** C35: [canonicalJson] returns on every heap, cyclic ones included; on a
    value that denotes a tree it gives the tree's canonical text (or the
    tree's error), and it rejects every other value (a cycle, a dangling
    object) with [unsupported_audit_value]. *)
Theorem canonicalJson_total_and_correct `{Collation} (h : heap) (v : value) :
  exists r, canonicalJsonHeap h v = Some r /\
    (forall j, denotes h v j -> r = canonicalJson j) /\
    ((forall j, ~ denotes h v j) -> r = Err unsupported).
Proof.
  destruct (encode_total h (S (length h)) v []) as [r Hr]; [constructor|done|cbn; lia|].
  unfold canonicalJsonHeap. rewrite Hr. destruct r as [t|e]; cbn; eexists; split; try done.
  all: split.
  - intros j Hd. unfold canonicalJson. by rewrite <-(encode_denotes h j _ _ _ _ Hd (above_nil h j) Hr).
  - intros Hn. destruct (encode_ok_denotes h _ _ _ _ Hr) as [j Hj]. by destruct (Hn j).
  - intros j Hd. unfold canonicalJson. by rewrite <-(encode_denotes h j _ _ _ _ Hd (above_nil h j) Hr).
  - intros _. f_equal. by eapply encode_err.
Qed.

(** C30: the order in which an object's keys were inserted does not change its
    canonical text, when the collation tells the keys apart. *)
Theorem canonicalJson_key_order `{Collation, !CollationLaws, !CollationSeparates}
    (es es' : list (string * json)) :
  NoDup (map fst es) -> Permutation es es' ->
  canonicalJson (JObj es) = canonicalJson (JObj es').
Proof.
  intros Hd Hp. unfold canonicalJson. cbn [canon].
  rewrite (sort_entries_canonical _ (map (fun e => (fst e, canon (snd e))) es')); [done| |].
  - by rewrite map_map.
  - by apply Permutation_map.
Qed.

(** A concrete collation for the witnesses: byte order. *)
Fixpoint byte_compare (a b : list ascii) : Z :=
  match a, b with
  | [], [] => 0
  | [], _ => -1
  | _, [] => 1
  | x :: a, y :: b =>
      let d := Z.of_nat (Ascii.nat_of_ascii x) - Z.of_nat (Ascii.nat_of_ascii y) in
      if d =? 0 then byte_compare a b else d
  end.

Definition byte_collation : Collation := fun a b => byte_compare (chars a) (chars b).

Lemma byte_compare_total a b : byte_compare a b <= 0 \/ byte_compare b a <= 0.
Proof.
  revert b. induction a as [|x a IH]; intros [|y b]; cbn; try lia.
  destruct (_ =? 0) eqn:E; destruct (Z.of_nat (Ascii.nat_of_ascii y) - _ =? 0) eqn:E'; bsimpl; auto; lia.
Qed.

Lemma byte_compare_trans a b c :
  byte_compare a b <= 0 -> byte_compare b c <= 0 -> byte_compare a c <= 0.
Proof.
  revert b c. induction a as [|x a IH]; intros [|y b] [|z c]; cbn; try lia.
  destruct (Z.of_nat (Ascii.nat_of_ascii x) - Z.of_nat (Ascii.nat_of_ascii y) =? 0) eqn:E;
    destruct (Z.of_nat (Ascii.nat_of_ascii y) - Z.of_nat (Ascii.nat_of_ascii z) =? 0) eqn:E';
    destruct (Z.of_nat (Ascii.nat_of_ascii x) - Z.of_nat (Ascii.nat_of_ascii z) =? 0) eqn:E'';
    bsimpl; try lia. by apply IH.
Qed.

Lemma byte_compare_antisym a b : byte_compare a b <= 0 -> byte_compare b a <= 0 -> a = b.
Proof.
  revert b. induction a as [|x a IH]; intros [|y b]; cbn; try (done || lia).
  destruct (Z.of_nat (Ascii.nat_of_ascii x) - _ =? 0) eqn:E;
    destruct (Z.of_nat (Ascii.nat_of_ascii y) - _ =? 0) eqn:E'; bsimpl; try lia.
  intros H1 H2. f_equal; [|by apply IH].
  rewrite <-(Ascii.ascii_nat_embedding x), <-(Ascii.ascii_nat_embedding y). f_equal. lia.
Qed.

Lemma byte_collation_laws : @CollationLaws byte_collation.
Proof.
  split.
  - intros a b. apply byte_compare_total.
  - intros a b c. apply byte_compare_trans.
Qed.

Lemma byte_collation_separates : @CollationSeparates byte_collation.
Proof. intros a b H1 H2. by apply chars_inj, byte_compare_antisym. Qed.

Lemma canonicalJson_key_order_witness :
  let c := byte_collation in
  canonicalJson (JObj [("b", JNull); ("a", JBool true)]%string) =
  canonicalJson (JObj [("a", JBool true); ("b", JNull)]%string).
Proof.
  cbn zeta. apply (@canonicalJson_key_order byte_collation byte_collation_laws byte_collation_separates).
  - apply NoDup_ListNoDup. repeat constructor; cbn; intuition congruence.
  - apply perm_swap.
Defined.

Example canonical_example :
  @canonicalJson byte_collation
    (JObj [("z", JArr [jint 10; JNum (Finite true 15%N 0)]); ("a", JStr "x"); ("d", JDate 0)]%string)
  = Ok (of_chars (chars "{" ++ stringify_chars "a" ++ chars ":" ++ stringify_chars "x" ++ chars ","
      ++ stringify_chars "d" ++ chars ":" ++ stringify_chars "1970-01-01T00:00:00.000Z" ++ chars ","
      ++ stringify_chars "z" ++ chars ":[10,-0.15]}")).
Proof. vm_compute. reflexivity. Qed.
