(* ===== verification/JsonInj.v ===== *)
(** The canonical text determines the document: two trees with the same
    canonical text have the same normal form (keys sorted, dates as their ISO
    strings, numbers by their decimal text).  The audit log's tamper evidence
    rests on this. *)

From Stdlib Require Import Sorting.Permutation.
From S2P Require Import Prelude Errors Usdc Json.
Import Digits.
Open Scope Z_scope.

(** ** Normal forms *)

#[warnings="-register-all"]
Inductive ctree : Type :=
| CNull
| CBool (b : bool)
| CNum (t : list ascii)
| CStr (s : string)
| CArr (l : list ctree)
| CObj (es : list (string * ctree)).

Fixpoint print (c : ctree) : list ascii :=
  match c with
  | CNull => chars "null"
  | CBool b => chars (if b then "true" else "false")
  | CNum t => t
  | CStr s => stringify_chars s
  | CArr l => array_chars (map print l)
  | CObj es => object_chars (map (fun e => (fst e, print (snd e))) es)
  end.

Section Norm.
Context `{Collation}.

Fixpoint norm (j : json) : Res ctree :=
  match j with
  | JNull => Ok CNull
  | JStr s => Ok (CStr s)
  | JNum (Finite neg s n) => Ok (CNum (number_chars neg (Z.of_N s) n))
  | JNum NonFinite => Err unsupported
  | JBool b => Ok (CBool b)
  | JUndefined | JOther => Err unsupported
  | JDate ms => Ok (CStr (toISOString ms))
  | JArr l => let? cs := res_map norm l in Ok (CArr cs)
  | JInst _ => Err unsupported
  | JObj es =>
      let? cs := res_map res_snd (sort_entries (map (fun e => (fst e, norm (snd e))) es)) in
      Ok (CObj cs)
  end.
End Norm.

(** ** Tokens *)

Definition number_char (c : ascii) : bool :=
  is_digit c || existsb (Ascii.eqb c) (chars "+-.e").

Definition number_token (t : list ascii) : Prop :=
  forallb number_char t = true /\
  match t with c :: _ => is_digit c || Ascii.eqb c "-" = true | [] => False end.

Section CtreeInd.
Context (P : ctree -> Prop).
Context (Hnull : P CNull) (Hbool : forall b, P (CBool b)) (Hnum : forall t, P (CNum t))
  (Hstr : forall s, P (CStr s))
  (Harr : forall l, List.Forall P l -> P (CArr l))
  (Hobj : forall es, List.Forall (fun e => P (snd e)) es -> P (CObj es)).

Fixpoint ctree_tree_ind (c : ctree) : P c :=
  match c with
  | CNull => Hnull | CBool b => Hbool b | CNum t => Hnum t | CStr s => Hstr s
  | CArr l => Harr l ((fix items l : List.Forall P l :=
      match l with
      | [] => List.Forall_nil _
      | x :: r => List.Forall_cons _ x r (ctree_tree_ind x) (items r)
      end) l)
  | CObj es => Hobj es ((fix entries es : List.Forall (fun e : string * ctree => P (snd e)) es :=
      match es with
      | [] => List.Forall_nil _
      | e :: r => List.Forall_cons _ e r (ctree_tree_ind (snd e)) (entries r)
      end) es)
  end.
End CtreeInd.

(** Every number of the tree is a token. *)
Fixpoint tokens_ok (c : ctree) : Prop :=
  match c with
  | CNum t => number_token t
  | CArr l => fold_right (fun x P => tokens_ok x /\ P) True l
  | CObj es => fold_right (fun e P => tokens_ok (snd e) /\ P) True es
  | _ => True
  end.

Lemma digits_number l : forallb is_digit l = true -> forallb number_char l = true.
Proof. rewrite !forallb_forall. intros H c Hc. unfold number_char. by rewrite H. Qed.

Lemma zeros_number n : forallb number_char (zeros n) = true.
Proof. apply digits_number, zeros_all. Qed.

Lemma exponent_number n : forallb number_char (exponent n) = true.
Proof.
  unfold exponent. cbn [forallb]. rewrite (digits_number (digits _)) by (apply digits_all; lia).
  by destruct (0 <=? n - 1).
Qed.

Lemma firstn_digits k l : forallb is_digit l = true -> forallb is_digit (firstn k l) = true.
Proof. intros H. rewrite <-(firstn_skipn k l), forallb_app in H. by apply andb_prop in H as [? _]. Qed.
Lemma skipn_digits k l : forallb is_digit l = true -> forallb is_digit (skipn k l) = true.
Proof. intros H. rewrite <-(firstn_skipn k l), forallb_app in H. by apply andb_prop in H as [_ ?]. Qed.

(** The unsigned part starts with a digit. *)
Lemma unsigned_token n ds :
  ds <> [] -> forallb is_digit ds = true ->
  let t := (let k := Z.of_nat (length ds) in
    if (k <=? n) && (n <=? 21) then ds ++ zeros (n - k)
    else if (0 <? n) && (n <=? 21) then firstn (Z.to_nat n) ds ++ "."%char :: skipn (Z.to_nat n) ds
    else if (-6 <? n) && (n <=? 0) then "0"%char :: "."%char :: zeros (- n) ++ ds
    else match ds with
         | [d] => d :: exponent n
         | d :: rest => d :: "."%char :: rest ++ exponent n
         | [] => []
         end) in
  forallb number_char t = true /\ match t with c :: _ => is_digit c = true | [] => False end.
Proof.
  intros Hne Hd. destruct ds as [|d ds]; [done|].
  assert (Hd' := Hd). cbn in Hd'. apply andb_prop in Hd' as [Hd1 Hd2].
  assert (Hn1 : number_char d = true) by (unfold number_char; by rewrite Hd1).
  cbn zeta. destruct (_ && _).
  { rewrite forallb_app, zeros_number, digits_number by done. done. }
  destruct ((0 <? n) && (n <=? 21)) eqn:E2; [bsimpl|clear E2].
  { rewrite forallb_app. cbn [forallb].
    rewrite (digits_number (firstn _ _)), (digits_number (skipn _ _))
      by (by apply firstn_digits || by apply skipn_digits).
    split; [done|]. destruct (Z.to_nat n) eqn:En; [lia|]. done. }
  destruct ((-6 <? n) && (n <=? 0)).
  { cbn [forallb]. rewrite forallb_app, zeros_number, digits_number by done. done. }
  destruct ds as [|d2 ds].
  - cbn [forallb]. by rewrite exponent_number, Hn1.
  - cbn in Hd2. apply andb_prop in Hd2 as [Hd3 Hd4].
    assert (number_char d2 = true) as Hn2 by (unfold number_char; by rewrite Hd3).
    cbn [app forallb]. by rewrite Hn1, Hn2, forallb_app, exponent_number, (digits_number ds).
Qed.

Lemma number_chars_token neg s n : 0 <= s -> number_token (number_chars neg s n).
Proof.
  intros Hs. unfold number_chars, number_token. destruct (s =? 0); [done|].
  destruct (unsigned_token n (digits s) (digits_nonempty s) (digits_all s Hs)) as [Ha Hh].
  cbn zeta in *. match goal with |- context [_ ++ ?u] => set (t := u) in * end.
  destruct neg; cbn; [by rewrite Ha|]. split; [done|]. destruct t; [done|]. by rewrite Hh.
Qed.

(** ** Strings are a prefix code *)

Definition all_ascii : list ascii := map Ascii.ascii_of_nat (seq 0 256).

Lemma all_ascii_in c : In c all_ascii.
Proof.
  unfold all_ascii. apply in_map_iff. exists (Ascii.nat_of_ascii c).
  split; [apply Ascii.ascii_nat_embedding|]. apply in_seq.
  pose proof (Ascii.nat_ascii_bounded c). lia.
Qed.

Fixpoint prefixb (p l : list ascii) : bool :=
  match p, l with
  | [], _ => true
  | x :: p, y :: l => Ascii.eqb x y && prefixb p l
  | _ :: _, [] => false
  end.

Definition escape_code_ok : bool :=
  forallb (fun c => forallb (fun d =>
    Ascii.eqb c d || negb (prefixb (escape_char c) (escape_char d))) all_ascii
    && negb (prefixb [quote] (escape_char c)) && negb (prefixb (escape_char c) [])) all_ascii.

Lemma escape_code : escape_code_ok = true.
Proof. vm_compute. reflexivity. Qed.

Lemma prefixb_cases p q t u : p ++ t = q ++ u -> prefixb p q = true \/ prefixb q p = true.
Proof.
  revert q. induction p as [|x p IH]; intros [|y q]; cbn; auto.
  intros [= -> H]. rewrite Ascii.eqb_refl. cbn. eauto.
Qed.

Lemma escape_facts c d :
  (Ascii.eqb c d = true \/ prefixb (escape_char c) (escape_char d) = false) /\
  prefixb [quote] (escape_char c) = false /\ escape_char c <> [].
Proof.
  pose proof escape_code as H. unfold escape_code_ok in H. rewrite forallb_forall in H.
  specialize (H c (all_ascii_in c)). apply andb_prop in H as [H H3]. apply andb_prop in H as [H H2].
  rewrite forallb_forall in H. specialize (H d (all_ascii_in d)).
  apply negb_true_iff in H2, H3. split; [|split; [done|]].
  - apply orb_prop in H as [H|H]; [by left|right]. by apply negb_true_iff.
  - intros E. by rewrite E in H3.
Qed.

Lemma escape_inj c d t u : escape_char c ++ t = escape_char d ++ u -> c = d /\ t = u.
Proof.
  intros H. assert (c = d) as ->.
  { destruct (prefixb_cases _ _ _ _ H) as [Hp|Hp].
    - destruct (escape_facts c d) as [[E|E] _]; [by apply Ascii.eqb_eq|congruence].
    - destruct (escape_facts d c) as [[E|E] _]; [symmetry; by apply Ascii.eqb_eq|congruence]. }
  split; [done|]. by apply app_inv_head in H.
Qed.

Lemma escape_not_quote c t u : escape_char c ++ t <> quote :: u.
Proof.
  destruct (escape_facts c c) as (_ & Hq & Hne). destruct (escape_char c) as [|x l]; [done|].
  intros [= -> _]. cbn in Hq. by rewrite ?Ascii.eqb_refl in Hq.
Qed.

Lemma stringify_inj s1 s2 r1 r2 :
  stringify_chars s1 ++ r1 = stringify_chars s2 ++ r2 -> s1 = s2 /\ r1 = r2.
Proof.
  unfold stringify_chars. cbn. rewrite <-!app_assoc. intros [= H].
  assert (Hi : forall l1 l2, flat_map escape_char l1 ++ quote :: r1 = flat_map escape_char l2 ++ quote :: r2 ->
    l1 = l2 /\ r1 = r2).
  { clear H. induction l1 as [|c l1 IH]; intros [|d l2]; cbn; rewrite <-?app_assoc; intros H.
    - by injection H.
    - symmetry in H. by apply escape_not_quote in H.
    - by apply escape_not_quote in H.
    - apply escape_inj in H as [-> H]. apply IH in H as [-> ->]. done. }
  cbn in H. apply Hi in H as [H ->]. split; [|done]. by apply chars_inj.
Qed.

(** ** The printer is injective *)

(** What can follow a value in a canonical text. *)
Definition delimited (r : list ascii) : Prop :=
  match r with [] => True | c :: _ => existsb (Ascii.eqb c) (chars ",]}") = true end.

Lemma delimited_not_number r :
  delimited r -> match r with c :: _ => number_char c = false | [] => True end.
Proof.
  destruct r as [|c r]; [done|]. unfold delimited. cbn.
  destruct (Ascii.eqb_spec c ",") as [->|]; [done|].
  destruct (Ascii.eqb_spec c "]") as [->|]; [done|].
  by destruct (Ascii.eqb_spec c "}") as [->|].
Qed.

Lemma number_inj t1 t2 r1 r2 :
  number_token t1 -> number_token t2 -> delimited r1 -> delimited r2 ->
  t1 ++ r1 = t2 ++ r2 -> t1 = t2 /\ r1 = r2.
Proof.
  intros [H1 _] [H2 _] D1%delimited_not_number D2%delimited_not_number.
  revert t2 H2. induction t1 as [|c t1 IH]; intros [|d t2] H2; cbn; intros E.
  - done.
  - subst r1. cbn in *. apply andb_prop in H2 as [H2 _]. congruence.
  - subst r2. cbn in *. apply andb_prop in H1 as [H1 _]. congruence.
  - cbn in H1, H2. apply andb_prop in H1 as [_ H1], H2 as [_ H2]. injection E as -> E.
    destruct (IH H1 t2 H2 E) as [-> ->]. done.
Qed.

(** The first character tells the kind of value. *)
Definition tag (c : ctree) : list ascii :=
  match c with
  | CNull => chars "n"
  | CBool b => chars (if b then "t" else "f")
  | CNum _ => chars "-0123456789"
  | CStr _ => [quote]
  | CArr _ => chars "["
  | CObj _ => chars "{"
  end.

Lemma digit_in c : is_digit c = true -> In c (chars "-0123456789").
Proof.
  intros H. assert (Hall : forallb (fun c => negb (is_digit c) ||
    existsb (Ascii.eqb c) (chars "-0123456789")) all_ascii = true) by (vm_compute; reflexivity).
  rewrite forallb_forall in Hall. specialize (Hall c (all_ascii_in c)). rewrite H in Hall.
  cbn [negb orb] in Hall. apply existsb_exists in Hall as (x & Hx & E).
  apply Ascii.eqb_eq in E. by subst.
Qed.

Lemma print_tag c : tokens_ok c -> exists x l, print c = x :: l /\ In x (tag c).
Proof.
  destruct c as [|b|t|s|l|es]; cbn [print tag]; intros Ht; try (destruct b);
    try (eexists _, _; split; [reflexivity|by left]).
  destruct Ht as [_ Ht]. destruct t as [|c t]; [done|]. exists c, t. split; [done|].
  apply orb_prop in Ht as [Ht|Ht]; [by apply digit_in|]. apply Ascii.eqb_eq in Ht as ->. by left.
Qed.

Definition starts (c : ctree) (r : list ascii) : Prop := exists x l, r = x :: l /\ In x (tag c).

Lemma print_nonempty_not c t r : tokens_ok c -> print c ++ t = r -> starts c r.
Proof. intros Ht <-. destruct (print_tag c Ht) as (x & l & -> & Hx). by exists x, (l ++ t). Qed.

(** Joined lists of values, up to a closing bracket that is no delimiter of a
    value's own text. *)
Section Join.
Context {A : Type} (pr : A -> list ascii) (ok : A -> Prop) (close : ascii).
Hypothesis close_delim : delimited [close].
Hypothesis close_not_comma : close <> ","%char.
Hypothesis head_ok : forall a t, ok a -> exists x l, pr a ++ t = x :: l /\ x <> close.

Lemma join_inj l1 l2 r1 r2 :
  List.Forall ok l1 -> List.Forall ok l2 ->
  List.Forall (fun a => forall b r r', ok b -> delimited r -> delimited r' ->
    pr a ++ r = pr b ++ r' -> a = b /\ r = r') l1 ->
  join_comma (map pr l1) ++ close :: r1 = join_comma (map pr l2) ++ close :: r2 ->
  l1 = l2 /\ r1 = r2.
Proof.
  intros H1 H2 HI. revert l2 H2.
  induction H1 as [|a l1 Ha H1 IH]; intros l2 H2 E.
  - destruct H2 as [|b l2 Hb H2]; [by injection E|].
    exfalso. destruct (head_ok b (match map pr l2 with [] => [] | _ => ","%char :: join_comma (map pr l2) end ++ close :: r2) Hb) as (x & l & Ex & Hx).
    cbn in E. destruct (map pr l2); rewrite <-?app_assoc in E; cbn in E, Ex; rewrite Ex in E; congruence.
  - inversion HI as [|? ? HIa HIl]; subst. destruct H2 as [|b l2 Hb H2].
    { exfalso. destruct (head_ok a (match map pr l1 with [] => [] | _ => ","%char :: join_comma (map pr l1) end ++ close :: r1) Ha) as (x & l & Ex & Hx).
      cbn in E. destruct (map pr l1); rewrite <-?app_assoc in E; cbn in E, Ex; rewrite Ex in E; congruence. }
    assert (Hcut : forall p (l : list A) r, join_comma (p :: map pr l) ++ close :: r =
      p ++ match l with [] => close :: r | _ => ","%char :: join_comma (map pr l) ++ close :: r end).
    { intros p [|x l] r; cbn [map join_comma]; [done|]. by rewrite <-app_assoc. }
    cbn [map] in E. rewrite !Hcut in E.
    apply HIa in E as [-> E]; [|done|destruct l1; [exact close_delim|done]|destruct l2; [exact close_delim|done]].
    destruct l1 as [|a1 l1], l2 as [|b1 l2].
    + injection E as ->. done.
    + injection E as E. by destruct close_not_comma.
    + injection E as E. by destruct close_not_comma.
    + injection E as E. destruct (IH HIl (b1 :: l2) H2 E) as [-> ->]. done.
Qed.
End Join.

Lemma fold_and {A} (P : A -> Prop) l : fold_right (fun x Q => P x /\ Q) True l <-> List.Forall P l.
Proof. induction l as [|x l IH]; cbn; [split; constructor|]. rewrite IH, List.Forall_cons_iff. done. Qed.

Lemma tag_not_close c x : In x (tag c) -> x <> "]"%char /\ x <> "}"%char.
Proof.
  intros H. split; intros ->; revert H; destruct c as [|[]| | | |]; vm_compute; intuition discriminate.
Qed.

(** A tag tells the kind, and the truth of a boolean. *)
Definition kind (c : ctree) : Z :=
  match c with
  | CNull => 0 | CBool true => 1 | CBool false => 2 | CNum _ => 3 | CStr _ => 4
  | CArr _ => 5 | CObj _ => 6
  end.

Lemma tag_kind c1 c2 x : In x (tag c1) -> In x (tag c2) -> kind c1 = kind c2.
Proof.
  intros H1 H2. destruct c1 as [|[]| | | |], c2 as [|[]| | | |]; try done; exfalso;
    revert H1 H2; vm_compute; intuition (subst; discriminate).
Qed.

Lemma print_kind c1 c2 r1 r2 :
  tokens_ok c1 -> tokens_ok c2 -> print c1 ++ r1 = print c2 ++ r2 -> kind c1 = kind c2.
Proof.
  intros T1 T2 E. destruct (print_tag c1 T1) as (x & l1 & E1 & H1), (print_tag c2 T2) as (y & l2 & E2 & H2).
  rewrite E1, E2 in E. injection E as -> _. by eapply tag_kind.
Qed.

Lemma print_head close c t :
  close = "]"%char \/ close = "}"%char -> tokens_ok c ->
  exists x l, print c ++ t = x :: l /\ x <> close.
Proof.
  intros Hc Ht. destruct (print_tag c Ht) as (x & l & E & Hx). exists x, (l ++ t).
  rewrite E. split; [done|]. destruct (tag_not_close c x Hx). by destruct Hc as [->| ->].
Qed.

Lemma entry_head (e : string * ctree) t :
  exists x l, entry_chars (fst e, print (snd e)) ++ t = x :: l /\ x <> "}"%char.
Proof. eexists _, _. split; [reflexivity|done]. Qed.

Lemma entry_inj e1 e2 r1 r2 :
  tokens_ok (snd e1) -> tokens_ok (snd e2) ->
  (forall c2 r1 r2, tokens_ok c2 -> delimited r1 -> delimited r2 ->
     print (snd e1) ++ r1 = print c2 ++ r2 -> snd e1 = c2 /\ r1 = r2) ->
  delimited r1 -> delimited r2 ->
  entry_chars (fst e1, print (snd e1)) ++ r1 = entry_chars (fst e2, print (snd e2)) ++ r2 ->
  e1 = e2 /\ r1 = r2.
Proof.
  intros T1 T2 IH D1 D2. unfold entry_chars. cbn [fst snd]. rewrite <-!app_assoc. cbn [app].
  intros [Hk E]%stringify_inj. injection E as E. apply IH in E as [Hv ->]; [|done..].
  destruct e1, e2; cbn in *. by subst.
Qed.

Lemma print_inj c1 c2 r1 r2 :
  tokens_ok c1 -> tokens_ok c2 -> delimited r1 -> delimited r2 ->
  print c1 ++ r1 = print c2 ++ r2 -> c1 = c2 /\ r1 = r2.
Proof.
  revert c2 r1 r2. induction c1 as [|b|t|s|l IH|es IH] using ctree_tree_ind;
    intros c2 r1 r2 T1 T2 D1 D2 E;
    pose proof (print_kind _ _ _ _ T1 T2 E) as K;
    destruct c2 as [|b2|t2|s2|k|ks]; try (destruct b); try (destruct b2); try done;
    try (injection E as ->; done).
  - cbn [print] in E. cbn in T1, T2. destruct (number_inj _ _ _ _ T1 T2 D1 D2 E) as [-> ->]. done.
  - cbn [print] in E. destruct (stringify_inj _ _ _ _ E) as [-> ->]. done.
  - cbn [print] in E. unfold array_chars in E. cbn in E. rewrite <-!app_assoc in E. injection E as E.
    cbn in T1, T2. rewrite fold_and in T1, T2.
    destruct (join_inj print tokens_ok "]" eq_refl ltac:(done)
      (fun a t => print_head "]" a t (or_introl eq_refl)) l k r1 r2 T1 T2) as [-> ->]; [|exact E|done].
    rewrite List.Forall_forall in IH, T1 |- *. intros a Ha b r r' Hb Hr Hr'. apply IH; auto.
  - cbn [print] in E. unfold object_chars in E. cbn in E. rewrite <-!app_assoc in E. injection E as E.
    cbn in T1, T2. rewrite (fold_and (fun e => tokens_ok (snd e))) in T1, T2. rewrite !map_map in E.
    destruct (join_inj (fun e => entry_chars (fst e, print (snd e))) (fun e => tokens_ok (snd e))
      "}" eq_refl ltac:(done) (fun a t _ => entry_head a t) es ks r1 r2 T1 T2) as [-> ->]; [|exact E|done].
    rewrite List.Forall_forall in IH, T1 |- *. intros a Ha b r r' Hb Hr Hr' E'.
    eapply entry_inj; eauto.
Qed.

(** ** From trees to normal forms *)

Section NormLemmas.
Context `{Collation}.

Lemma res_map_factor {A B C} (f : A -> Res B) (g : A -> Res C) (h : C -> B) l :
  List.Forall (fun x => f x = (let? c := g x in Ok (h c))) l ->
  res_map f l = (let? cs := res_map g l in Ok (map h cs)).
Proof.
  induction 1 as [|x l Hx _ IH]; cbn; [done|]. rewrite Hx. destruct (g x); cbn; [|done].
  rewrite IH. by destruct (res_map g l).
Qed.

Lemma canon_norm j : canon j = (let? c := norm j in Ok (print c)).
Proof.
  induction j as [|b|[]|s|ms| | |l IH|es IH|es IH] using json_tree_ind; cbn [canon norm]; try done.
  - rewrite (res_map_factor canon norm print l IH). by destruct (res_map norm l).
  - rewrite !sort_entries_map.
    set (h := fun e : string * ctree => (fst e, print (snd e))).
    assert (E : forall l : list (string * json),
      List.Forall (fun e => canon (snd e) = (let? c := norm (snd e) in Ok (print c))) l ->
      res_map res_snd (map (fun e => (fst e, canon (snd e))) l)
      = (let? cs := res_map res_snd (map (fun e => (fst e, norm (snd e))) l) in Ok (map h cs))).
    { induction 1 as [|[k v] l Hv _ IHl]; cbn; [done|]. cbn in Hv. rewrite Hv.
      destruct (norm v); cbn; [|done]. rewrite IHl. clear IHl Hv.
      by destruct (res_map res_snd _). }
    rewrite E.
    + by destruct (res_map _ _).
    + eapply Permutation_Forall; [apply sort_entries_perm|exact IH].
Qed.

Lemma norm_tokens j c : norm j = Ok c -> tokens_ok c.
Proof.
  revert c. induction j as [|b|[neg s n|]|s|ms| | |l IH|es IH|es IH] using json_tree_ind;
    cbn [norm]; intros c Hc; try done; try (injection Hc as <-; done).
  - injection Hc as <-. apply number_chars_token. lia.
  - apply res_bind_ok in Hc as (cs & Hc & [= <-]). cbn. rewrite fold_and.
    apply res_map_ok in Hc. revert IH. induction Hc as [|x y l cs Hy _ IHc]; intros IH; constructor;
      inversion IH; subst; auto.
  - apply res_bind_ok in Hc as (cs & Hc & [= <-]). cbn. rewrite (fold_and (fun e => tokens_ok (snd e))).
    rewrite sort_entries_map in Hc. apply res_map_ok in Hc.
    assert (IH' : List.Forall (fun e => forall c, norm (snd e) = Ok c -> tokens_ok c) (sort_entries es))
      by (eapply Permutation_Forall; [apply sort_entries_perm|exact IH]).
    clear IH. remember (sort_entries es) as l eqn:El. clear El.
    revert cs Hc. induction IH' as [|[k v] l Hv _ IHl]; cbn; intros cs Hc; inversion Hc; subst; constructor.
    + unfold res_snd in *. cbn in *. destruct (norm v) eqn:E; cbn in *; [|done]. simplify_eq. by apply Hv.
    + auto.
Qed.
End NormLemmas.

Lemma canonical_text_norm `{Collation} (j1 j2 : json) (t : string) :
  canonicalJson j1 = Ok t -> canonicalJson j2 = Ok t ->
  exists c, norm j1 = Ok c /\ norm j2 = Ok c.
Proof.
  unfold canonicalJson. rewrite !canon_norm. intros H1 H2.
  destruct (norm j1) as [c1|] eqn:E1; [|done]. destruct (norm j2) as [c2|] eqn:E2; [|done].
  cbn in H1, H2. injection H1 as <-. injection H2 as H2.
  assert (print c1 ++ [] = print c2 ++ []) as E.
  { rewrite !app_nil_r, <-(chars_of_chars (print c1)), <-(chars_of_chars (print c2)). by rewrite H2. }
  destruct (print_inj c1 c2 [] [] (norm_tokens _ _ E1) (norm_tokens _ _ E2) I I E) as [-> _].
  by exists c2.
Qed.

(** C29: the canonical text determines the document: two values with the same
    canonical text have the same normal form (same keys and values, arrays in
    the same order), so distinct documents hash distinct texts. *)
Theorem canonicalJson_injective `{Collation} (j1 j2 : json) (t : string) :
  canonicalJson j1 = Ok t -> canonicalJson j2 = Ok t ->
  exists c, norm j1 = Ok c /\ norm j2 = Ok c.
Proof. apply canonical_text_norm. Qed.

Lemma canonicalJson_injective_witness :
  exists c, @norm byte_collation (JObj [("b", JNull); ("a", JDate 0)]%string) = Ok c /\
            @norm byte_collation (JObj [("a", JStr "1970-01-01T00:00:00.000Z"); ("b", JNull)]%string) = Ok c.
Proof.
  eapply (@canonicalJson_injective byte_collation); vm_compute; reflexivity.
Defined.
