(* ===== verification/Jsonb.v ===== *)
(** What a [jsonb] column gives back for the value that was written to it:
    dates become their ISO text, the negative zero becomes zero, and the keys
    of every object come back in the order PostgreSQL stores them (shorter
    first, then by bytes), array indices before the others as [JSON.parse]
    builds them.  The canonical text of a value does not see the difference
    when the collation tells the keys apart ([canonicalJson_to_jsonb]), and
    sees it when it does not ([tied_keys_read_back]). *)

From S2P Require Import Prelude Errors Usdc Json.
Import Digits.
Open Scope Z_scope.

(** ** Key order *)

(** A key [JSON.parse] files as an array index: the decimal text of a number
    below [2 ^ 32 - 1]. *)
Definition array_index (k : string) : bool :=
  let l := chars k in
  forallb is_digit l && (to_string (value l) =s k) && (value l <? 4294967295).

(** The bytes of the text: strings are UTF-8. *)
Definition stored_order : Collation := fun a b =>
  match array_index a, array_index b with
  | true, false => -1
  | false, true => 1
  | _, _ =>
      let d := Z.of_nat (length (chars a)) - Z.of_nat (length (chars b)) in
      if d =? 0 then byte_compare (chars a) (chars b) else d
  end.

(** ** Values *)

Definition stored_number (n : jsnum) : jsnum :=
  match n with
  | Finite _ 0%N n => Finite false 0 n
  | n => n
  end.

(** [JSON.stringify], the column, and [JSON.parse].  Values the canonical
    encoder refuses ([undefined], functions, instances) never get this far:
    their body has no hash and no row is written. *)
Fixpoint to_jsonb (j : json) : json :=
  match j with
  | JNum n => JNum (stored_number n)
  | JDate ms => JStr (toISOString ms)
  | JArr l => JArr (map to_jsonb l)
  | JObj es => JObj (@sort_entries stored_order _ (map (fun e => (fst e, to_jsonb (snd e))) es))
  | j => j
  end.

(** ** The canonical text of what comes back *)

Section Sorts.
Context `{Collation, !CollationLaws, !CollationSeparates}.

(** Entries under different keys can be inserted in either order. *)
Lemma insert_entry_commute {A} (x y : string * A) l :
  fst x <> fst y -> insert_entry x (insert_entry y l) = insert_entry y (insert_entry x l).
Proof.
  intros Hne.
  assert (Hlt : localeCompare (fst x) (fst y) <= 0 /\ 0 < localeCompare (fst y) (fst x) \/
                localeCompare (fst y) (fst x) <= 0 /\ 0 < localeCompare (fst x) (fst y)).
  { destruct (Z_le_gt_dec (localeCompare (fst x) (fst y)) 0), (Z_le_gt_dec (localeCompare (fst y) (fst x)) 0);
      [|lia|lia|destruct (locale_total (fst x) (fst y)); lia].
    destruct Hne. by apply locale_antisym. }
  induction l as [|z l IH]; cbn.
  - destruct (_ <=? 0) eqn:E1, (localeCompare (fst y) _ <=? 0) eqn:E2; bsimpl; (done || lia).
  - destruct (localeCompare (fst y) (fst z) <=? 0) eqn:Ey, (localeCompare (fst x) (fst z) <=? 0) eqn:Ex;
      cbn; rewrite ?Ey, ?Ex; bsimpl.
    + destruct Hlt as [[L1 L2]|[L1 L2]]; apply Z.leb_le in L1; apply Z.leb_gt in L2; by rewrite L1, L2.
    + assert ((localeCompare (fst x) (fst y) <=? 0) = false) as ->; [|done].
      apply Z.leb_gt. destruct Hlt as [[L1 _]|[_ ?]]; [|done]. pose proof (locale_trans _ _ _ L1 Ey). lia.
    + assert ((localeCompare (fst y) (fst x) <=? 0) = false) as ->; [|done].
      apply Z.leb_gt. destruct Hlt as [[_ ?]|[L1 _]]; [done|]. pose proof (locale_trans _ _ _ L1 Ex). lia.
    + by rewrite IH.
Qed.

(** Sorting forgets a sort by any other order: equal keys keep their places
    and distinct keys are told apart. *)
Lemma sort_entries_insert {A} (c : string -> string -> Z) (x : string * A) l :
  (forall k, c k k <= 0) ->
  sort_entries (@insert_entry c A x l) = insert_entry x (sort_entries l).
Proof.
  intros Hc. induction l as [|y l IH]; cbn; [done|].
  destruct (_ <=? 0) eqn:E; [done|]. cbn. rewrite IH.
  apply insert_entry_commute. intros Ek. apply Z.leb_gt in E. rewrite Ek in E. specialize (Hc (fst x)).
  unfold localeCompare in E. exact (Zlt_not_le _ _ E Hc).
Qed.

Lemma sort_entries_sort {A} (c : string -> string -> Z) (l : list (string * A)) :
  (forall k, c k k <= 0) -> sort_entries (@sort_entries c A l) = sort_entries l.
Proof.
  intros Hc. induction l as [|x l IH]; cbn; [done|]. by rewrite sort_entries_insert, IH.
Qed.
End Sorts.

Lemma byte_compare_refl l : byte_compare l l = 0.
Proof. induction l as [|x l IH]; cbn; [done|]. by rewrite Z.sub_diag. Qed.

Lemma stored_order_refl k : stored_order k k <= 0.
Proof. unfold stored_order. rewrite Z.sub_diag, byte_compare_refl. by destruct (array_index k). Qed.

Lemma canon_to_jsonb `{Collation, !CollationLaws, !CollationSeparates} j : canon (to_jsonb j) = canon j.
Proof.
  induction j as [| |[neg s n|]| | | | |l IH|es IH|] using json_tree_ind; cbn [to_jsonb canon];
    try done.
  - by destruct s.
  - assert (res_map canon (map to_jsonb l) = res_map canon l) as ->; [|done].
    induction IH as [|x l Hx _ IHl]; cbn; [done|]. by rewrite Hx, IHl.
  - rewrite <-(sort_entries_map canon), (sort_entries_sort stored_order) by apply stored_order_refl.
    do 3 f_equal. rewrite map_map. apply List.map_ext_Forall.
    eapply List.Forall_impl; [|exact IH]. cbn. by intros e ->.
Qed.

Lemma canonicalJson_to_jsonb `{Collation, !CollationLaws, !CollationSeparates} j :
  canonicalJson (to_jsonb j) = canonicalJson j.
Proof. unfold canonicalJson. by rewrite canon_to_jsonb. Qed.

(** ** A collation that ties two keys *)

(** The default collation of the runtime ignores characters such as the soft
    hyphen; here the tilde stands for one of them. *)
Definition ignoring_collation : Collation := fun a b =>
  byte_compare (List.filter (fun c => negb (Ascii.eqb c "~")) (chars a))
    (List.filter (fun c => negb (Ascii.eqb c "~")) (chars b)).

Lemma ignoring_collation_laws : @CollationLaws ignoring_collation.
Proof.
  split.
  - intros a b. apply byte_compare_total.
  - intros a b c. apply byte_compare_trans.
Qed.

(** Both keys of the object compare equal, so the canonical text keeps the
    order they were written in, and the column gives them back in the
    other. *)
Example tied_keys_read_back :
  let c := ignoring_collation in
  let j := JObj [("a~", jint 1); ("a", jint 2)]%string in
  to_jsonb j = JObj [("a", jint 2); ("a~", jint 1)]%string /\
  canonicalJson (to_jsonb j) <> canonicalJson j.
Proof. split; [vm_compute; reflexivity|]. vm_compute. congruence. Qed.
