(* ===== verification/Redaction.v ===== *)
(** Redaction of audit payloads ([evidence/redaction.ts]): the sensitive-key
    fragments, the four sensitive-value patterns as matchers on ASCII bytes,
    and [redactValue] on JSON trees. *)

From S2P Require Import Prelude Errors Usdc Json.

Definition REDACTED : json := JStr "[REDACTED]".

Definition sensitiveKeyFragments : list string :=
  ["apikey"; "authorization"; "bearer"; "circleapikey"; "cookie"; "credential"; "password";
   "privatekey"; "providerkey"; "secret"; "session"; "signature"; "token"; "xpayment"]%string.

(** ** Character classes *)

Definition between (lo hi : nat) (c : ascii) : bool :=
  let n := Ascii.nat_of_ascii c in ((lo <=? n) && (n <=? hi))%nat.
Definition is_lower (c : ascii) : bool := between 97 122 c.
Definition is_digit_char (c : ascii) : bool := between 48 57 c.
Definition is_alnum (c : ascii) : bool := is_lower c || is_digit_char c.
Definition is_word (c : ascii) : bool := is_alnum (lower_char c) || Ascii.eqb c "_".
Definition one_of (cs : string) (c : ascii) : bool := existsb (Ascii.eqb c) (chars cs).

(** ** Searching *)

Fixpoint prefix_of (p l : list ascii) : bool :=
  match p, l with
  | [], _ => true
  | x :: p, y :: l => Ascii.eqb x y && prefix_of p l
  | _ :: _, [] => false
  end.

(** [haystack.includes(needle)]. *)
Fixpoint includes_chars (needle l : list ascii) : bool :=
  prefix_of needle l || match l with [] => false | _ :: l => includes_chars needle l end.
Definition includes (s needle : string) : bool := includes_chars (chars needle) (chars s).

(** A pattern with the [i] flag and a leading [\b], tested at every position:
    the body sees the rest of the lower-cased text, and a word boundary holds
    where the previous character is not a word character (every pattern starts
    with one). *)
Fixpoint test_at_boundary (body : list ascii -> bool) (prev_word : bool) (l : list ascii) : bool :=
  (negb prev_word && body l) ||
  match l with
  | [] => false
  | c :: r => test_at_boundary body (is_word c) r
  end.
Definition test_pattern (body : list ascii -> bool) (s : string) : bool :=
  test_at_boundary body false (chars (lower s)).

Definition after (p : string) (k : list ascii -> bool) (l : list ascii) : bool :=
  prefix_of (chars p) l && k (skipn (length (chars p)) l).
Definition starts_with_one (cls : ascii -> bool) (l : list ascii) : bool :=
  match l with c :: _ => cls c | [] => false end.

(** [\s+] followed by [k]: the white space is not in the class [k] starts
    with, so taking all of it loses no match. *)
Definition spaces_then (k : list ascii -> bool) (l : list ascii) : bool :=
  match l with
  | c :: r => is_space c && k (drop_spaces r)
  | [] => false
  end.

Definition bearer_pattern : list ascii -> bool :=
  after "bearer" (spaces_then (starts_with_one (fun c => is_alnum c || one_of "._~+/=-" c))).
Definition sk_pattern : list ascii -> bool := fun l =>
  existsb (fun env => after ("sk_" +:+ env +:+ "_")
                        (starts_with_one (fun c => is_alnum c || Ascii.eqb c "_")) l)
    ["live"; "test"; "prod"; "dev"]%string.
Definition session_pattern : list ascii -> bool := after "agentops_session=" (fun _ => true).
(** Everything after [x402] in the fourth pattern is optional. *)
Definition x402_pattern : list ascii -> bool := after "x402" (fun _ => true).

Definition sensitiveValuePatterns : list (list ascii -> bool) :=
  [bearer_pattern; sk_pattern; session_pattern; x402_pattern].

(** ** The redactor *)

Definition normalizeKey (key : string) : string :=
  of_chars (List.filter is_alnum (chars (lower key))).

Definition isSensitiveKey (key : string) : bool :=
  let normalized := normalizeKey key in
  existsb (fun fragment => includes normalized fragment) sensitiveKeyFragments.

Definition isSensitiveString (value : string) : bool :=
  existsb (fun pattern => test_pattern pattern value) sensitiveValuePatterns.

Definition key_sensitive (parentKey : option string) : bool :=
  match parentKey with Some k => isSensitiveKey k | None => false end.

#[global] Arguments isSensitiveKey : simpl never.
#[global] Arguments isSensitiveString : simpl never.
#[global] Arguments key_sensitive !parentKey /.

(** [redactValue value parentKey] gives the new value and the flag. *)
Fixpoint redactValue (value : json) (parentKey : option string) {struct value} : json * bool :=
  if key_sensitive parentKey then (REDACTED, true) else
  match value with
  | JStr s => if isSensitiveString s then (REDACTED, true) else (value, false)
  | JArr l =>
      let results := map (fun item => redactValue item None) l in
      (JArr (map fst results), existsb snd results)
  | JObj es | JInst es =>
      let results := map (fun e => (fst e, redactValue (snd e) (Some (fst e)))) es in
      (JObj (map (fun e => (fst e, fst (snd e))) results), existsb (fun e => snd (snd e)) results)
  | _ => (value, false)
  end.

Definition redactAuditPayload (value : json) : json * bool := redactValue value None.

(** ** What a redacted value looks like *)

(** No string outside a sensitive key matches a pattern, and the value of
    every sensitive key is the marker. *)
Inductive clean : json -> Prop :=
| clean_leaf v : (forall s, v = JStr s -> isSensitiveString s = false) ->
    match v with JArr _ | JObj _ | JInst _ => False | _ => True end -> clean v
| clean_arr l : (forall v, In v l -> clean v) -> clean (JArr l)
| clean_obj es :
    (forall k v, In (k, v) es -> isSensitiveKey k = true -> v = REDACTED) ->
    (forall k v, In (k, v) es -> isSensitiveKey k = false -> clean v) ->
    clean (JObj es).

Lemma redacted_clean_string : isSensitiveString "[REDACTED]" = false.
Proof. vm_compute. reflexivity. Qed.

Lemma clean_REDACTED : clean REDACTED.
Proof.
  apply clean_leaf; [|done]. intros s [= <-]. apply redacted_clean_string.
Qed.

Lemma redactValue_sensitive v k : isSensitiveKey k = true -> redactValue v (Some k) = (REDACTED, true).
Proof. intros H. destruct v; cbn; by rewrite H. Qed.

Lemma redactValue_insensitive v k : isSensitiveKey k = false -> redactValue v (Some k) = redactValue v None.
Proof. intros H. destruct v; cbn; by rewrite H. Qed.

Lemma clean_entries es :
  List.Forall (fun e => clean (fst (redactValue (snd e) None))) es ->
  clean (JObj (map (fun e => (fst e, fst (snd e)))
    (map (fun e => (fst e, redactValue (snd e) (Some (fst e)))) es))).
Proof.
  rewrite List.Forall_forall. intros IH.
  apply clean_obj; intros k v; rewrite map_map, in_map_iff;
    intros ([k' x] & [= <- <-] & Hx) E; cbn.
  - by rewrite redactValue_sensitive.
  - rewrite redactValue_insensitive by done. by apply (IH (k', x)).
Qed.

Lemma redactValue_clean v : clean (fst (redactValue v None)).
Proof.
  induction v as [| | |s| | | |l IH|es IH|es IH] using json_tree_ind;
    try (by apply clean_leaf).
  - cbn. destruct (isSensitiveString s) eqn:E; [apply clean_REDACTED|].
    apply clean_leaf; [|done]. intros s' [= <-]. done.
  - cbn. apply clean_arr. intros v. rewrite map_map, in_map_iff.
    intros (x & <- & Hx). rewrite List.Forall_forall in IH. by apply IH.
  - apply clean_entries, IH.
  - apply clean_entries, IH.
Qed.

Lemma existsb_false {A} (f : A -> bool) l : existsb f l = false -> forall x, In x l -> f x = false.
Proof.
  induction l as [|y l IH]; cbn; [done|]. intros [? ?]%orb_false_elim x [<-|Hx]; auto.
Qed.

(** A tree of JSON data proper: no instance of a class. *)
Fixpoint plain (v : json) : bool :=
  match v with
  | JArr l => forallb plain l
  | JObj es => forallb (fun e => plain (snd e)) es
  | JInst _ => false
  | _ => true
  end.

Lemma redactValue_unflagged v pk :
  plain v = true -> snd (redactValue v pk) = false -> fst (redactValue v pk) = v.
Proof.
  revert pk. induction v as [| | |s| | | |l IH|es IH|es IH] using json_tree_ind;
    intros pk; cbn; destruct (key_sensitive pk); try done; intros Hp.
  - by destruct (isSensitiveString s).
  - cbn. intros Hf. f_equal. rewrite map_map. rewrite <-(map_id l) at 2.
    apply map_ext_in. intros x Hx. rewrite List.Forall_forall in IH. rewrite forallb_forall in Hp.
    apply IH; [done|by apply Hp|].
    apply (existsb_false _ _ Hf (redactValue x None)). by apply (in_map (fun y => redactValue y None)).
  - cbn. intros Hf. f_equal. rewrite map_map. rewrite <-(map_id es) at 2.
    apply map_ext_in. intros [k x] Hx. rewrite List.Forall_forall in IH. rewrite forallb_forall in Hp.
    cbn. f_equal. apply (IH (k, x)); [done|by apply (Hp (k, x))|].
    apply (existsb_false _ _ Hf (k, redactValue x (Some k))).
    by apply (in_map (fun e => (fst e, redactValue (snd e) (Some (fst e)))) es (k, x)).
Qed.

Lemma clean_fixed v : clean v -> fst (redactValue v None) = v.
Proof.
  induction v as [| | |s| | | |l IH|es IH|es IH] using json_tree_ind; cbn; try done;
    inversion 1 as [? Hs Hv|? Hl|? Hr He]; subst; try done.
  - by rewrite (Hs s eq_refl).
  - cbn. f_equal. rewrite map_map. rewrite <-(map_id l) at 2. apply map_ext_in.
    intros x Hx. rewrite List.Forall_forall in IH. by apply IH; [|apply Hl].
  - cbn. f_equal. rewrite map_map. rewrite <-(map_id es) at 2. apply map_ext_in.
    intros [k x] Hx. rewrite List.Forall_forall in IH. cbn. f_equal.
    destruct (isSensitiveKey k) eqn:E.
    + rewrite redactValue_sensitive by done. by rewrite (Hr k x Hx E).
    + rewrite redactValue_insensitive by done. apply (IH (k, x)); [done|]. by apply (He k x).
Qed.

(** ** Properties *)

(** C36: whatever the payload, no string matching a sensitive pattern and no
    value under a sensitive key survives redaction at any depth; redacting
    again changes nothing; and a payload whose flag stays false is returned
    unchanged. *)
Theorem redactAuditPayload_clean (v : json) :
  clean (fst (redactAuditPayload v)) /\
  fst (redactAuditPayload (fst (redactAuditPayload v))) = fst (redactAuditPayload v) /\
  (plain v = true -> snd (redactAuditPayload v) = false -> fst (redactAuditPayload v) = v).
Proof.
  split; [apply redactValue_clean|]. split; [apply clean_fixed, redactValue_clean|].
  apply redactValue_unflagged.
Qed.

Example redact_example :
  redactAuditPayload (JObj [("API-Key", jint 5); ("note", JStr "send Bearer abc"); ("n", JStr "ok")]%string)
  = (JObj [("API-Key", REDACTED); ("note", REDACTED); ("n", JStr "ok")]%string, true).
Proof. vm_compute. reflexivity. Qed.
