(* ===== verification/Doubles.v ===== *)
(** JavaScript numbers as IEEE doubles: the value of a decimal, comparison,
    [Number(text)] and [Number.isFinite], for the amounts the policy engine
    compares. *)

From S2P Require Import Prelude Errors Usdc Json.
Import Digits.
Open Scope Z_scope.

(** [Fin m e] is [m * 2^e]. *)
Inductive double : Type :=
| Fin (m e : Z)
| PosInf | NegInf | NaN.

Definition isFinite (d : double) : bool := match d with Fin _ _ => true | _ => false end.

(** [a / b] to the nearest integer, ties to even. *)
Definition div_rne (a b : Z) : Z :=
  let q := a / b in
  let r := a mod b in
  if 2 * r <? b then q else if b <? 2 * r then q + 1 else if Z.even q then q else q + 1.

Definition scaled (p q e : Z) : Z * Z :=
  if 0 <=? e then (p, q * 2 ^ e) else (p * 2 ^ (- e), q).

(** The double nearest to [p / q], for positive [p] and [q]: 53 significant
    bits, exponents from -1074, overflow to infinity. *)
Definition round_pos (p q : Z) : double :=
  let e0 := Z.log2 p - Z.log2 q - 53 in
  let '(a, b) := scaled p q e0 in
  let e1 := if 2 ^ 53 <=? a / b then e0 + 1 else e0 in
  let e := Z.max (-1074) e1 in
  let '(a, b) := scaled p q e in
  let m := div_rne a b in
  if (971 <? e) || ((e =? 971) && (2 ^ 53 <=? m)) then PosInf else Fin m e.

Definition negate (d : double) : double :=
  match d with Fin m e => Fin (- m) e | PosInf => NegInf | NegInf => PosInf | NaN => NaN end.

(** The double nearest to [s * 10^e]. *)
Definition of_decimal (neg : bool) (s e : Z) : double :=
  let d := if s =? 0 then Fin 0 0
           else if 0 <=? e then round_pos (s * 10 ^ e) 1 else round_pos s (10 ^ (- e)) in
  if neg then negate d else d.

Definition to_double (n : jsnum) : double :=
  match n with
  | Finite neg s n => of_decimal neg (Z.of_N s) (n - Z.of_nat (length (digits (Z.of_N s))))
  | NonFinite => NaN
  end.

(** [a < b] on numbers; false on [NaN]. *)
Definition dlt (a b : double) : bool :=
  match a, b with
  | NaN, _ | _, NaN => false
  | Fin m1 e1, Fin m2 e2 =>
      let e := Z.min e1 e2 in m1 * 2 ^ (e1 - e) <? m2 * 2 ^ (e2 - e)
  | Fin _ _, PosInf | NegInf, Fin _ _ | NegInf, PosInf => true
  | _, _ => false
  end.

(** ** [Number(text)] *)

Definition radix_digit (radix : Z) (c : ascii) : option Z :=
  let n := Z.of_nat (Ascii.nat_of_ascii (lower_char c)) in
  let v := if (48 <=? n) && (n <=? 57) then n - 48
           else if (97 <=? n) && (n <=? 122) then n - 87 else 99 in
  if v <? radix then Some v else None.

Fixpoint radix_value (radix : Z) (l : list ascii) (acc : Z) : option Z :=
  match l with
  | [] => Some acc
  | c :: r => match radix_digit radix c with
              | Some v => radix_value radix r (acc * radix + v)
              | None => None
              end
  end.

Definition radix_number (radix : Z) (l : list ascii) : double :=
  match l with
  | [] => NaN
  | _ :: _ => match radix_value radix l 0 with
              | Some 0 => Fin 0 0
              | Some v => round_pos v 1
              | None => NaN
              end
  end.

(** An optional exponent part that ends the text. *)
Definition exponent_part (l : list ascii) : option Z :=
  match l with
  | [] => Some 0
  | c :: r =>
      if Ascii.eqb (lower_char c) "e" then
        let '(neg, ds) := match r with
                          | "-"%char :: ds => (true, ds)
                          | "+"%char :: ds => (false, ds)
                          | ds => (false, ds)
                          end in
        match ds with
        | [] => None
        | _ :: _ => if forallb is_digit ds
                    then Some (if neg : bool then - value ds else value ds) else None
        end
      else None
  end.

Definition unsigned_decimal (neg : bool) (l : list ascii) : double :=
  if bool_decide (l = chars "Infinity") then (if neg then NegInf else PosInf) else
  let '(whole, rest) := span_digits l in
  let '(frac, rest) := match rest with
                       | "."%char :: r => span_digits r
                       | r => ([], r)
                       end in
  match whole ++ frac with
  | [] => NaN
  | ds => match exponent_part rest with
          | Some e => of_decimal neg (value ds) (e - Z.of_nat (length frac))
          | None => NaN
          end
  end.

Definition string_to_number (s : string) : double :=
  match chars (trim s) with
  | [] => Fin 0 0
  | "0"%char :: "x"%char :: l | "0"%char :: "X"%char :: l => radix_number 16 l
  | "0"%char :: "o"%char :: l | "0"%char :: "O"%char :: l => radix_number 8 l
  | "0"%char :: "b"%char :: l | "0"%char :: "B"%char :: l => radix_number 2 l
  | "-"%char :: l => unsigned_decimal true l
  | "+"%char :: l => unsigned_decimal false l
  | l => unsigned_decimal false l
  end.

Example number_text_1 : string_to_number " 12.50 " = Fin 7036874417766400 (-49).
Proof. vm_compute. reflexivity. Qed.
Example number_text_2 : dlt (string_to_number "0.1") (string_to_number "1e-1") = false.
Proof. vm_compute. reflexivity. Qed.
Example number_text_3 : string_to_number "1.2.3" = NaN.
Proof. vm_compute. reflexivity. Qed.
Example number_tie : string_to_number "9007199254740993" = string_to_number "9007199254740992".
Proof. vm_compute. reflexivity. Qed.
Example number_overflow : string_to_number "1e309" = PosInf.
Proof. vm_compute. reflexivity. Qed.

(** ** Lemmas *)

Lemma dlt_irrefl d : dlt d d = false.
Proof. destruct d; cbn; try done. apply Z.ltb_irrefl. Qed.


Lemma pow_split a b c : c <= b -> b <= a -> 2 ^ (a - c) = 2 ^ (a - b) * 2 ^ (b - c).
Proof. intros. rewrite <-Z.pow_add_r by lia. f_equal. lia. Qed.

(** The exponent a comparison scales to does not matter. *)
Lemma dlt_at m1 e1 m2 e2 e :
  e <= Z.min e1 e2 -> dlt (Fin m1 e1) (Fin m2 e2) = (m1 * 2 ^ (e1 - e) <? m2 * 2 ^ (e2 - e)).
Proof.
  intros He. cbn. set (n := Z.min e1 e2) in *.
  rewrite (pow_split e1 n e), (pow_split e2 n e) by lia.
  assert (0 < 2 ^ (n - e)) by (apply Z.pow_pos_nonneg; lia).
  rewrite !Z.mul_assoc. apply eq_true_iff_eq. rewrite !Z.ltb_lt. nia.
Qed.

Lemma dlt_trans a b c : dlt a b = true -> dlt b c = true -> dlt a c = true.
Proof.
  destruct a as [m1 e1| | |], b as [m2 e2| | |], c as [m3 e3| | |]; try done.
  set (e := Z.min e1 (Z.min e2 e3)).
  rewrite (dlt_at m1 e1 m2 e2 e), (dlt_at m2 e2 m3 e3 e), (dlt_at m1 e1 m3 e3 e) by lia.
  rewrite !Z.ltb_lt. lia.
Qed.

(** ** [toFixed(6)] *)

(** [x.toFixed(6)] in micros: the nearest integer to [x * 10^6], ties away from
    zero.  Not a number for the values [toFixed] writes otherwise. *)
Definition toFixed6 (d : double) : option Z :=
  match d with
  | Fin m e =>
      let '(a, b) := if 0 <=? e then (Z.abs m * 2 ^ e, 1) else (Z.abs m, 2 ^ (- e)) in
      let n := (2 * a * MICROS + b) / (2 * b) in
      Some (if m <? 0 then - n else n)
  | _ => None
  end.

(** [Number(text)] of a [numeric(20,6)] column, held in micros. *)
Definition number_of_micros (z : Z) : double := of_decimal (z <? 0) (Z.abs z) (-6).

Example toFixed6_1 : toFixed6 (number_of_micros 1234567) = Some 1234567.
Proof. vm_compute. reflexivity. Qed.
Example toFixed6_2 : toFixed6 (negate (number_of_micros 99999999999999999999)) = Some (-100000000000000000000).
Proof. vm_compute. reflexivity. Qed.

Lemma div_rne_near a b : 0 < b -> -b <= 2 * (div_rne a b * b - a) <= b.
Proof.
  intros Hb. unfold div_rne. cbn zeta. pose proof (Z.div_mod a b) as E.
  pose proof (Z.mod_pos_bound a b Hb). destruct (Z.ltb_spec (2 * (a mod b)) b); [nia|].
  destruct (Z.ltb_spec b (2 * (a mod b))); [nia|]. destruct (Z.even (a / b)); nia.
Qed.

Lemma scaled_neg p q e : e < 0 -> scaled p q e = (p * 2 ^ (- e), q).
Proof. intros H. unfold scaled. destruct (Z.leb_spec 0 e); [lia|done]. Qed.

(** Below 2^52 micros the double nearest to a sum of money has a step smaller
    than a micro. *)
Lemma micros_step z : 0 < z < 2 ^ 52 ->
  exists m e, round_pos z MICROS = Fin m e /\ e <= -20 /\ m = div_rne (z * 2 ^ (- e)) MICROS.
Proof.
  intros Hz. unfold round_pos. cbn zeta. change (Z.log2 MICROS) with 19.
  assert (0 <= Z.log2 z < 52).
  { split; [apply Z.log2_nonneg|]. apply Z.log2_lt_pow2; lia. }
  set (e0 := Z.log2 z - 19 - 53). rewrite (scaled_neg _ _ e0) by lia. cbv iota beta.
  set (e1 := if _ <=? _ then _ else _).
  assert (e1 = e0 \/ e1 = e0 + 1) as He1 by (unfold e1; destruct (_ <=? _); auto).
  clearbody e1. set (e := Z.max (-1074) e1). assert (-1074 <= e <= -20) as He by lia.
  rewrite (scaled_neg _ _ e) by lia. cbv iota beta.
  destruct (Z.ltb_spec 971 e); [lia|]. destruct (Z.eqb_spec e 971); [lia|]. cbn [orb andb].
  eauto with lia.
Qed.

Lemma toFixed6_pos m e z (s : bool) :
  0 < z -> e <= -20 -> m = div_rne (z * 2 ^ (- e)) MICROS ->
  toFixed6 (Fin (if s then - m else m) e) = Some (if s then - z else z).
Proof.
  intros Hz He Hm. pose proof (div_rne_near (z * 2 ^ (- e)) MICROS ltac:(done)) as Hn.
  rewrite <-Hm in Hn. set (P := 2 ^ (- e)) in *.
  assert (2 ^ 20 <= P) as HP by (apply Z.pow_le_mono_r; lia).
  assert (MICROS < P) as HM by (change MICROS with 1000000; lia).
  assert (0 < m) by (change MICROS with 1000000 in *; nia).
  unfold toFixed6. destruct (Z.leb_spec 0 e); [lia|]. fold P.
  assert ((2 * m * MICROS + P) / (2 * P) = z) as Hq.
  { symmetry. apply (Z.div_unique _ _ z (2 * m * MICROS + P - 2 * P * z)); nia. }
  destruct s.
  - rewrite Z.abs_opp, Z.abs_eq by lia. rewrite Hq. destruct (Z.ltb_spec (- m) 0); [done|lia].
  - rewrite Z.abs_eq by lia. rewrite Hq. destruct (Z.ltb_spec m 0); [lia|done].
Qed.

(** [Number(x).toFixed(6)] and its negation are exact below 2^52 micros. *)
Lemma toFixed6_exact z : Z.abs z < 2 ^ 52 -> toFixed6 (number_of_micros z) = Some z.
Proof.
  intros Hz. unfold number_of_micros, of_decimal. destruct (Z.eqb_spec (Z.abs z) 0) as [E|E].
  { assert (z = 0) as -> by lia. done. }
  destruct (micros_step (Z.abs z)) as (m & e & E' & He & Hm); [lia|].
  change (0 <=? -6) with false. cbv iota. change (10 ^ (- -6)) with MICROS. rewrite E'.
  pose proof (toFixed6_pos m e (Z.abs z) (z <? 0) ltac:(lia) He Hm) as H.
  destruct (Z.ltb_spec z 0); cbn [negate]; rewrite H; f_equal; lia.
Qed.

Lemma toFixed6_negate_exact z :
  Z.abs z < 2 ^ 52 -> toFixed6 (negate (number_of_micros z)) = Some (- z).
Proof.
  intros Hz. rewrite <-(toFixed6_exact (- z)) by lia. f_equal. unfold number_of_micros, of_decimal.
  rewrite Z.abs_opp. destruct (Z.eqb_spec (Z.abs z) 0) as [E|E].
  { assert (z = 0) as -> by lia. done. }
  destruct (micros_step (Z.abs z)) as (m & e & E' & _ & _); [lia|].
  change (0 <=? -6) with false. cbv iota. change (10 ^ (- -6)) with MICROS. rewrite E'.
  destruct (Z.ltb_spec z 0), (Z.ltb_spec (- z) 0); try lia; cbn [negate]; by rewrite ?Z.opp_involutive.
Qed.
