(* ===== verification/Policy.v ===== *)
(** The policy engine: statement and decision types ([policy/types.ts]),
    [evaluatePolicyDecision] ([policy/decision-engine.ts]) and
    [validatePolicyStatements] ([policy/validator.ts]). *)

From Stdlib Require Import Sorting.Permutation.
From S2P Require Import Prelude Errors Usdc Json Doubles Identity.
Import Digits.
Open Scope Z_scope.

(** ** Types *)

Inductive PolicyDecisionValue : Type := allow | deny | approval_required | observe.
#[export] Instance PolicyDecisionValue_eq_dec : EqDecision PolicyDecisionValue.
Proof. solve_decision. Defined.

Definition PolicyDecisionValue_text (d : PolicyDecisionValue) : string :=
  match d with
  | allow => "allow" | deny => "deny"
  | approval_required => "approval_required" | observe => "observe"
  end.

Inductive PolicyDefaultEffect : Type := default_deny | default_allow.

Inductive PolicyTargetType : Type := Target_org | Target_team | Target_agent | Target_connection.
#[export] Instance PolicyTargetType_eq_dec : EqDecision PolicyTargetType.
Proof. solve_decision. Defined.
Definition PolicyTargetType_text (t : PolicyTargetType) : string :=
  match t with
  | Target_org => "org" | Target_team => "team"
  | Target_agent => "agent" | Target_connection => "connection"
  end.

Inductive PolicyAuditLevel : Type := Audit_standard | Audit_detailed.
Definition PolicyAuditLevel_text (a : PolicyAuditLevel) : string :=
  match a with Audit_standard => "standard" | Audit_detailed => "detailed" end.

Inductive PolicyConditionGroup : Type := Group_resource | Group_payment | Group_tool.
#[export] Instance PolicyConditionGroup_eq_dec : EqDecision PolicyConditionGroup.
Proof. solve_decision. Defined.
Definition PolicyConditionGroup_text (g : PolicyConditionGroup) : string :=
  match g with Group_resource => "resource" | Group_payment => "payment" | Group_tool => "tool" end.

Record ResourceCondition : Type := mkResourceCondition {
  rc_categories : option (list string);
  rc_domains : option (list string)
}.

Record PaymentCondition : Type := mkPaymentCondition {
  pc_minAmount : option string;
  pc_maxAmount : option string;
  pc_assets : option (list string);
  pc_networks : option (list string);
  pc_recipients : option (list string)
}.

Record ToolCondition : Type := mkToolCondition {
  tc_names : option (list string);
  tc_riskLevels : option (list string)
}.

Record PolicyStatementConditions : Type := mkConditions {
  cond_resource : option ResourceCondition;
  cond_payment : option PaymentCondition;
  cond_tool : option ToolCondition
}.

(** [actor?.roles] and [target?.types], [target?.ids] are flattened: an absent
    object and an absent field read the same through [?.]. *)
Record PolicyStatement : Type := mkPolicyStatement {
  st_id : string;
  st_decision : PolicyDecisionValue;
  st_actions : list string;
  st_roles : option (list Role);
  st_target_types : option (list PolicyTargetType);
  st_target_ids : option (list string);
  st_conditions : option PolicyStatementConditions;
  st_audit : PolicyAuditLevel
}.

Record PolicyDecisionRequest : Type := mkPolicyDecisionRequest {
  rq_actor_type : string;
  rq_actor_id : option string;
  rq_actor_role : option Role;
  rq_action : string;
  rq_target_type : PolicyTargetType;
  rq_target_id : option string;
  rq_context : json
}.

Record EffectivePolicy : Type := mkEffectivePolicy {
  ep_policyId : string;
  ep_version : Z;
  ep_name : string;
  ep_statements : list PolicyStatement
}.

Record PolicyDecisionMatch : Type := mkPolicyDecisionMatch {
  pm_policyId : string;
  pm_policyVersion : Z;
  pm_policyName : string;
  pm_statementId : string;
  pm_decision : PolicyDecisionValue
}.

Record PolicyDecisionResult : Type := mkPolicyDecisionResult {
  pr_decision : PolicyDecisionValue;
  pr_enforceability : string;
  pr_reasonCode : string;
  pr_explanation : string;
  pr_matched : list PolicyDecisionMatch
}.

Record PolicyValidationResult : Type := mkPolicyValidationResult {
  vr_valid : bool;
  vr_errors : list string;
  vr_warnings : list string
}.

(** ** The decision engine *)

Definition decisionRank (d : PolicyDecisionValue) : Z :=
  match d with allow => 0 | observe => 1 | approval_required => 2 | deny => 3 end.

Definition reasonCode (d : PolicyDecisionValue) : string :=
  match d with
  | allow => "no_matching_policy" | observe => "policy_observed"
  | approval_required => "policy_requires_approval" | deny => "policy_denied"
  end.

Definition explanation (d : PolicyDecisionValue) : string :=
  match d with
  | allow => "No active policy blocked this request."
  | observe => "A policy marked this request for observation."
  | approval_required => "A policy requires approval before this request can continue."
  | deny => "A policy denied this request."
  end.

Definition NO_MATCH_DENY_REASON : string := "no_matching_policy_denied".
Definition NO_MATCH_DENY_EXPLANATION : string := "No policy authorizes this request.".

(** The own properties of an object; a [Date] has none the engine reads. *)
Definition entries_of (v : json) : option (list (string * json)) :=
  match v with JObj es | JInst es => Some es | JDate _ => Some [] | _ => None end.

Fixpoint lookup_key (k : string) (es : list (string * json)) : json :=
  match es with
  | [] => JUndefined
  | (k', v) :: r => if k =s k' then v else lookup_key k r
  end.

Definition objectAt (v : json) (key : string) : list (string * json) :=
  match entries_of v with
  | None => []
  | Some es => match entries_of (lookup_key key es) with Some child => child | None => [] end
  end.

Definition stringAt (es : list (string * json)) (key : string) : option string :=
  match lookup_key key es with
  | JStr s => if trim s =s "" then None else Some s
  | _ => None
  end.

Definition numberAt (es : list (string * json)) (key : string) : option double :=
  match lookup_key key es with
  | JNum n => let d := to_double n in if isFinite d then Some d else None
  | JStr s => let d := string_to_number s in if isFinite d then Some d else None
  | _ => None
  end.

Definition includesIfPresent (allowed : option (list string)) (actual : option string) : bool :=
  match allowed with
  | None | Some [] => true
  | Some l => match actual with None => false | Some a => mem a l end
  end.

Definition matchesResourceCondition (c : ResourceCondition) (context : json) : bool :=
  let resource := objectAt context "resource" in
  includesIfPresent (rc_categories c) (stringAt resource "category") &&
  includesIfPresent (rc_domains c) (stringAt resource "domain").

Definition min_ok (minAmount : option string) (amount : option double) : bool :=
  match minAmount with
  | None => true
  | Some t => let m := string_to_number t in
      match amount with
      | Some a => isFinite m && negb (dlt a m)
      | None => false
      end
  end.

Definition max_ok (maxAmount : option string) (amount : option double) : bool :=
  match maxAmount with
  | None => true
  | Some t => let m := string_to_number t in
      match amount with
      | Some a => isFinite m && negb (dlt m a)
      | None => false
      end
  end.

Definition matchesPaymentCondition (c : PaymentCondition) (context : json) : bool :=
  let payment := objectAt context "payment" in
  let amount := numberAt payment "amount" in
  if negb (min_ok (pc_minAmount c) amount) then false
  else if negb (max_ok (pc_maxAmount c) amount) then false
  else
    includesIfPresent (pc_assets c) (stringAt payment "asset") &&
    includesIfPresent (pc_networks c) (stringAt payment "network") &&
    includesIfPresent (pc_recipients c) (stringAt payment "recipient").

Definition matchesToolCondition (c : ToolCondition) (context : json) : bool :=
  let tool := objectAt context "tool" in
  includesIfPresent (tc_names c) (stringAt tool "name") &&
  includesIfPresent (tc_riskLevels c) (stringAt tool "riskLevel").

Definition when_some {A} (o : option A) (f : A -> bool) : bool :=
  match o with Some a => f a | None => true end.

Definition matchesConditions (conditions : option PolicyStatementConditions) (context : json) : bool :=
  match conditions with
  | None => true
  | Some c =>
      when_some (cond_resource c) (fun r => matchesResourceCondition r context) &&
      when_some (cond_payment c) (fun p => matchesPaymentCondition p context) &&
      when_some (cond_tool c) (fun t => matchesToolCondition t context)
  end.

Definition matchesStatement (statement : PolicyStatement) (request : PolicyDecisionRequest) : bool :=
  if negb (mem "*" (st_actions statement)) && negb (mem (rq_action request) (st_actions statement))
  then false
  else if match st_roles statement with
          | None | Some [] => false
          | Some roles => match rq_actor_role request with
                          | None => true
                          | Some r => negb (bool_decide (r ∈ roles))
                          end
          end then false
  else if match st_target_types statement with
          | None | Some [] => false
          | Some types => negb (bool_decide (rq_target_type request ∈ types))
          end then false
  else if match st_target_ids statement with
          | None | Some [] => false
          | Some ids => match rq_target_id request with
                        | None => true
                        | Some i => negb (mem i ids)
                        end
          end then false
  else matchesConditions (st_conditions statement) (rq_context request).

Definition match_of (policy : EffectivePolicy) (statement : PolicyStatement) : PolicyDecisionMatch :=
  {| pm_policyId := ep_policyId policy;
     pm_policyVersion := ep_version policy;
     pm_policyName := ep_name policy;
     pm_statementId := st_id statement;
     pm_decision := st_decision statement |}.

Definition matched_policy (request : PolicyDecisionRequest) (policy : EffectivePolicy) :
    list PolicyDecisionMatch :=
  map (match_of policy)
    (List.filter (fun statement => matchesStatement statement request) (ep_statements policy)).

Definition matched_of (request : PolicyDecisionRequest) (policies : list EffectivePolicy) :
    list PolicyDecisionMatch := flat_map (matched_policy request) policies.

Definition stricter (current : PolicyDecisionValue) (m : PolicyDecisionMatch) : PolicyDecisionValue :=
  if decisionRank current <? decisionRank (pm_decision m) then pm_decision m else current.

Definition evaluatePolicyDecision (request : PolicyDecisionRequest) (policies : list EffectivePolicy)
    (defaultEffect : option PolicyDefaultEffect) : PolicyDecisionResult :=
  match matched_of request policies with
  | [] =>
      let permissive := match defaultEffect with Some default_allow => true | _ => false end in
      {| pr_decision := if permissive then allow else deny;
         pr_enforceability := "enforceable";
         pr_reasonCode := if permissive then reasonCode allow else NO_MATCH_DENY_REASON;
         pr_explanation := if permissive then explanation allow else NO_MATCH_DENY_EXPLANATION;
         pr_matched := [] |}
  | matched =>
      let decision := fold_left stricter matched allow in
      {| pr_decision := decision;
         pr_enforceability := "enforceable";
         pr_reasonCode := reasonCode decision;
         pr_explanation := explanation decision;
         pr_matched := matched |}
  end.

(** ** The validator *)

Definition dq : string := of_chars [quote].
Definition quoted (s : string) : string := dq +:+ s +:+ dq.

Definition allowedDecisions : list string := ["allow"; "deny"; "approval_required"; "observe"]%string.
Definition allowedAuditLevels : list string := ["standard"; "detailed"]%string.
Definition conditionGroups : list PolicyConditionGroup := [Group_resource; Group_payment; Group_tool].

Definition supportedConditionGroups (action : string)
    (actionConditionGroups : string -> option (list PolicyConditionGroup)) : list PolicyConditionGroup :=
  if action =s "*" then conditionGroups else actionConditionGroups action ?? [].

Definition hasValues {A} (v : option (list A)) : bool :=
  match v with Some (_ :: _) => true | _ => false end.

Definition is_some {A} (o : option A) : bool := match o with Some _ => true | None => false end.

Definition resource_of (s : PolicyStatement) : option ResourceCondition :=
  match st_conditions s with Some c => cond_resource c | None => None end.
Definition payment_of (s : PolicyStatement) : option PaymentCondition :=
  match st_conditions s with Some c => cond_payment c | None => None end.
Definition tool_of (s : PolicyStatement) : option ToolCondition :=
  match st_conditions s with Some c => cond_tool c | None => None end.

Definition hasResourceCondition (s : PolicyStatement) : bool :=
  match resource_of s with
  | Some r => hasValues (rc_categories r) || hasValues (rc_domains r)
  | None => false
  end.

Definition hasPaymentCondition (s : PolicyStatement) : bool :=
  match payment_of s with
  | Some p => is_some (pc_minAmount p) || is_some (pc_maxAmount p) || hasValues (pc_assets p)
              || hasValues (pc_networks p) || hasValues (pc_recipients p)
  | None => false
  end.

Definition hasToolCondition (s : PolicyStatement) : bool :=
  match tool_of s with
  | Some t => hasValues (tc_names t) || hasValues (tc_riskLevels t)
  | None => false
  end.

Definition usedConditionGroups (s : PolicyStatement) : list PolicyConditionGroup :=
  (if hasResourceCondition s then [Group_resource] else []) ++
  (if hasPaymentCondition s then [Group_payment] else []) ++
  (if hasToolCondition s then [Group_tool] else []).

Definition error_if (b : bool) (message : string) : list string := if b then [message] else [].

Definition invalid_amount (o : option string) : bool :=
  match o with Some t => negb (isFinite (string_to_number t)) | None => false end.

Section Validator.
Context (knownActions : list string)
  (actionConditionGroups : string -> option (list PolicyConditionGroup)).

(** The errors one round of the loop pushes, in order. *)
Definition statement_errors (index : Z) (seen : list string) (s : PolicyStatement) : list string :=
  let named := "Statement " +:+ quoted (st_id s) in
  (if trim (st_id s) =s "" then ["Statement " +:+ to_string (index + 1) +:+ " is missing an id."]
   else error_if (mem (st_id s) seen) ("Statement id " +:+ quoted (st_id s) +:+ " is duplicated."))
  ++ error_if (negb (mem (PolicyDecisionValue_text (st_decision s)) allowedDecisions))
       (named +:+ " has an unsupported decision.")
  ++ error_if (match st_actions s with [] => true | _ :: _ => false end)
       (named +:+ " must include at least one action.")
  ++ flat_map (fun action => error_if ((action <>s "*") && negb (mem action knownActions))
       (named +:+ " references unknown action " +:+ quoted action +:+ ".")) (st_actions s)
  ++ flat_map (fun group => flat_map (fun action =>
       error_if (negb (bool_decide (group ∈ supportedConditionGroups action actionConditionGroups)))
         (named +:+ " action " +:+ quoted action +:+ " does not support "
          +:+ PolicyConditionGroup_text group +:+ " conditions.")) (st_actions s))
       (usedConditionGroups s)
  ++ error_if (is_some (resource_of s) && negb (hasResourceCondition s))
       (named +:+ " has an empty resource condition.")
  ++ error_if (is_some (payment_of s) && negb (hasPaymentCondition s))
       (named +:+ " has an empty payment condition.")
  ++ error_if (is_some (tool_of s) && negb (hasToolCondition s))
       (named +:+ " has an empty tool condition.")
  ++ error_if (match payment_of s with Some p => invalid_amount (pc_minAmount p) | None => false end)
       (named +:+ " has an invalid payment minAmount.")
  ++ error_if (match payment_of s with Some p => invalid_amount (pc_maxAmount p) | None => false end)
       (named +:+ " has an invalid payment maxAmount.")
  ++ error_if (negb (mem (PolicyAuditLevel_text (st_audit s)) allowedAuditLevels))
       (named +:+ " has an unsupported audit level.").

Definition statement_warnings (s : PolicyStatement) : list string :=
  error_if (bool_decide (st_decision s = allow))
    ("Statement " +:+ quoted (st_id s)
     +:+ " allows a request but does not make enforcement stricter.").

Fixpoint statements_errors (index : Z) (seen : list string) (l : list PolicyStatement) : list string :=
  match l with
  | [] => []
  | s :: r => statement_errors index seen s ++ statements_errors (index + 1) (st_id s :: seen) r
  end.

Definition validatePolicyStatements (statements : list PolicyStatement) : PolicyValidationResult :=
  let errors :=
    error_if (match statements with [] => true | _ :: _ => false end)
      "Policy must contain at least one statement."
    ++ statements_errors 0 [] statements in
  {| vr_valid := match errors with [] => true | _ :: _ => false end;
     vr_errors := errors;
     vr_warnings := flat_map statement_warnings statements |}.
End Validator.

(** ** Lemmas *)

Lemma decisionRank_inj a b : decisionRank a = decisionRank b -> a = b.
Proof. destruct a, b; cbn; congruence. Qed.

Lemma decisionRank_range d : 0 <= decisionRank d <= 3.
Proof. destruct d; cbn; lia. Qed.

Fixpoint max_rank (l : list PolicyDecisionMatch) (d : Z) : Z :=
  match l with
  | [] => d
  | m :: r => max_rank r (Z.max d (decisionRank (pm_decision m)))
  end.

Lemma stricter_rank d m : decisionRank (stricter d m) = Z.max (decisionRank d) (decisionRank (pm_decision m)).
Proof. unfold stricter. destruct (_ <? _) eqn:E; bsimpl; lia. Qed.

Lemma fold_stricter_rank l d : decisionRank (fold_left stricter l d) = max_rank l (decisionRank d).
Proof.
  revert d. induction l as [|m l IH]; intros d; [done|]. cbn. by rewrite IH, stricter_rank.
Qed.

Lemma max_rank_spec l d :
  d <= max_rank l d /\ (forall m, In m l -> decisionRank (pm_decision m) <= max_rank l d) /\
  (max_rank l d = d \/ exists m, In m l /\ max_rank l d = decisionRank (pm_decision m)).
Proof.
  revert d. induction l as [|m l IH]; intros d; cbn; [split; [lia|]; split; [done|by left]|].
  destruct (IH (Z.max d (decisionRank (pm_decision m)))) as (H1 & H2 & H3).
  split; [lia|]. split.
  - intros m' [<-|Hm']; [lia|auto].
  - destruct H3 as [H3|(m' & Hm' & H3)]; [|right; eauto].
    destruct (Z.max_spec d (decisionRank (pm_decision m))) as [[? E]|[? E]].
    + right. exists m. split; [by left|]. lia.
    + left. lia.
Qed.

Lemma max_rank_perm l l' d : Permutation l l' -> max_rank l d = max_rank l' d.
Proof.
  intros H. revert d. induction H as [|x l l' _ IH|x y l|l l' l'' _ IH1 _ IH2]; intros d; cbn; auto.
  - f_equal. lia.
  - by rewrite IH1.
Qed.

Lemma max_rank_app l l' d : max_rank (l ++ l') d = max_rank l' (max_rank l d).
Proof. revert d. induction l as [|m l IH]; intros d; cbn; auto. Qed.

Lemma fold_stricter_perm l l' d : Permutation l l' -> fold_left stricter l d = fold_left stricter l' d.
Proof.
  intros H. apply decisionRank_inj. rewrite !fold_stricter_rank. by apply max_rank_perm.
Qed.

Lemma matched_of_in request policies m :
  In m (matched_of request policies) <->
  exists policy statement, In policy policies /\ In statement (ep_statements policy) /\
    matchesStatement statement request = true /\ m = match_of policy statement.
Proof.
  unfold matched_of, matched_policy. rewrite in_flat_map. split.
  - intros (p & Hp & Hm). apply in_map_iff in Hm as (s & <- & Hs).
    apply List.filter_In in Hs as [Hs Hms]. eauto 10.
  - intros (p & s & Hp & Hs & Hm & ->). exists p. split; [done|].
    apply in_map_iff. exists s. split; [done|]. by apply List.filter_In.
Qed.

Lemma matched_of_app request p1 p2 :
  matched_of request (p1 ++ p2) = matched_of request p1 ++ matched_of request p2.
Proof. unfold matched_of. apply flat_map_app. Qed.

Lemma matched_of_perm request p1 p2 :
  Permutation p1 p2 -> Permutation (matched_of request p1) (matched_of request p2).
Proof. intros H. unfold matched_of. by apply Permutation_flat_map. Qed.

Lemma evaluate_decision request policies d :
  matched_of request policies <> [] ->
  pr_decision (evaluatePolicyDecision request policies d)
  = fold_left stricter (matched_of request policies) allow.
Proof. unfold evaluatePolicyDecision. by destruct (matched_of request policies). Qed.

Lemma evaluate_matched request policies d :
  pr_matched (evaluatePolicyDecision request policies d) = matched_of request policies.
Proof. unfold evaluatePolicyDecision. by destruct (matched_of request policies). Qed.

Lemma error_if_nil b m : error_if b m = [] <-> b = false.
Proof. destruct b; cbn; split; congruence. Qed.

Lemma flat_map_nil {A B} (f : A -> list B) l : flat_map f l = [] <-> forall x, In x l -> f x = [].
Proof.
  induction l as [|x l IH]; cbn; [split; done|]. rewrite app_nil, IH. split; [naive_solver|].
  intros H. split; [|intros y Hy]; apply H; [by left|by right].
Qed.

(** ** Properties of the engine *)

(** C22: fail closed, and the strictest matching statement wins: with no
    matching statement the decision is the organisation's default ([deny]
    unless it opted into [allow]); otherwise it is the decision of some
    matching statement and no matching statement is stricter.  In particular
    one matching [deny] denies whatever else matches. *)
Theorem evaluate_strictest (request : PolicyDecisionRequest) (policies : list EffectivePolicy)
    (defaultEffect : option PolicyDefaultEffect) :
  let result := evaluatePolicyDecision request policies defaultEffect in
  (pr_matched result = [] ->
     pr_decision result = (if match defaultEffect with Some default_allow => true | _ => false end
                           then allow else deny)) /\
  (pr_matched result <> [] ->
     (exists m, In m (pr_matched result) /\ pm_decision m = pr_decision result) /\
     (forall m, In m (pr_matched result) ->
        decisionRank (pm_decision m) <= decisionRank (pr_decision result)) /\
     ((exists m, In m (pr_matched result) /\ pm_decision m = deny) ->
        pr_decision result = deny)) /\
  (forall m, In m (pr_matched result) <->
     exists policy statement, In policy policies /\ In statement (ep_statements policy) /\
       matchesStatement statement request = true /\ m = match_of policy statement).
Proof.
  cbn zeta. rewrite evaluate_matched. split; [|split; [|intros m; apply matched_of_in]].
  - intros E. unfold evaluatePolicyDecision. by rewrite E.
  - intros Hne. rewrite evaluate_decision by done.
    assert (Hr := fold_stricter_rank (matched_of request policies) allow).
    set (d := fold_left stricter (matched_of request policies) allow) in *.
    destruct (max_rank_spec (matched_of request policies) (decisionRank allow)) as (_ & Hmax & Hin).
    rewrite <-Hr in Hmax, Hin. split; [|split; [done|]].
    + destruct Hin as [Hin|(m & Hm & E)].
      * destruct (matched_of request policies) as [|m l] eqn:E; [done|].
        exists m. split; [by left|]. apply decisionRank_inj.
        specialize (Hmax m (or_introl eq_refl)). pose proof (decisionRank_range (pm_decision m)).
        change (decisionRank allow) with 0 in Hin. lia.
      * exists m. split; [done|]. by apply decisionRank_inj.
    + intros (m & Hm & Ed). specialize (Hmax m Hm). rewrite Ed in Hmax.
      apply decisionRank_inj. pose proof (decisionRank_range d).
      change (decisionRank deny) with 3 in *. lia.
Qed.

Lemma evaluate_strictest_witness :
  let st d a := mkPolicyStatement "s" d [a] None None None None Audit_standard in
  let rq := mkPolicyDecisionRequest "connection" None None "tool.call" Target_agent None (JObj []) in
  let policies := [mkEffectivePolicy "p" 1 "p" [st allow "*"; st deny "tool.call"]]%string in
  pr_decision (evaluatePolicyDecision rq policies None) = deny.
Proof.
  intros st rq policies.
  destruct (evaluate_strictest rq policies None) as (_ & H & _).
  apply H; [vm_compute; discriminate|].
  exists (mkPolicyDecisionMatch "p" 1 "p" "s" deny). split; [vm_compute; auto|reflexivity].
Defined.

(** The outcome does not depend on the order in which policies are read
    from the database. *)
Theorem evaluate_order_independent (request : PolicyDecisionRequest)
    (policies policies' : list EffectivePolicy) (d : option PolicyDefaultEffect) :
  Permutation policies policies' ->
  let r := evaluatePolicyDecision request policies d in
  let r' := evaluatePolicyDecision request policies' d in
  pr_decision r = pr_decision r' /\ pr_reasonCode r = pr_reasonCode r' /\
  pr_explanation r = pr_explanation r' /\ Permutation (pr_matched r) (pr_matched r').
Proof.
  intros Hp. cbn zeta. rewrite !evaluate_matched.
  pose proof (matched_of_perm request _ _ Hp) as Hm.
  assert (E := fold_stricter_perm _ _ allow Hm). unfold evaluatePolicyDecision.
  destruct (matched_of request policies) as [|m l].
  - apply Permutation_nil_l in Hm. by rewrite <-Hm.
  - destruct (matched_of request policies') as [|m' l'].
    { by apply Permutation_nil_r in Hm. }
    cbn [pr_decision pr_reasonCode pr_explanation]. rewrite E. done.
Qed.

(** Adding policies never relaxes a decision some policy already made,
    and adding policies that do not match changes nothing. *)
Lemma evaluate_monotone (request : PolicyDecisionRequest) (policies more : list EffectivePolicy)
    (d : option PolicyDefaultEffect) :
  let r := evaluatePolicyDecision request policies d in
  let r' := evaluatePolicyDecision request (policies ++ more) d in
  (pr_matched r <> [] -> decisionRank (pr_decision r) <= decisionRank (pr_decision r')) /\
  (pr_matched (evaluatePolicyDecision request more d) = [] -> r' = r).
Proof.
  cbn zeta. rewrite !evaluate_matched. split.
  - intros Hne. assert (matched_of request (policies ++ more) <> []).
    { rewrite matched_of_app. intros E. apply Hne. by apply app_nil in E as [E _]. }
    rewrite !evaluate_decision by done.
    rewrite !fold_stricter_rank, matched_of_app, max_rank_app. apply max_rank_spec.
  - intros E. unfold evaluatePolicyDecision. by rewrite matched_of_app, E, app_nil_r.
Qed.

(** ** Properties of the validator *)

Lemma error_if_not a b m : error_if (a && negb b) m = [] <-> (a = true -> b = true).
Proof. destruct a, b; cbn; intuition congruence. Qed.

Section Wellformed.
Context (knownActions : list string)
  (groups : string -> option (list PolicyConditionGroup)).

(** What a statement must satisfy by itself. *)
Definition statement_ok (s : PolicyStatement) : Prop :=
  trim (st_id s) <> "" /\ st_actions s <> [] /\
  (forall a, In a (st_actions s) -> a = "*" \/ In a knownActions) /\
  (forall g a, In g (usedConditionGroups s) -> In a (st_actions s) ->
     g ∈ supportedConditionGroups a groups) /\
  (is_some (resource_of s) = true -> hasResourceCondition s = true) /\
  (is_some (payment_of s) = true -> hasPaymentCondition s = true) /\
  (is_some (tool_of s) = true -> hasToolCondition s = true) /\
  match payment_of s with
  | Some p => invalid_amount (pc_minAmount p) = false /\ invalid_amount (pc_maxAmount p) = false
  | None => True
  end.

Lemma action_errors_nil named s :
  flat_map (fun action => error_if ((action <>s "*") && negb (mem action knownActions))
     (named action)) (st_actions s) = [] <->
  (forall a, In a (st_actions s) -> a = "*" \/ In a knownActions).
Proof.
  rewrite flat_map_nil. apply forall_proper. intros a. apply forall_proper. intros _.
  rewrite error_if_not, negb_true_iff, mem_spec.
  destruct (String.eqb_spec a "*"); intuition congruence.
Qed.

Lemma group_errors_nil named s :
  flat_map (fun group => flat_map (fun action =>
     error_if (negb (bool_decide (group ∈ supportedConditionGroups action groups)))
       (named group action)) (st_actions s)) (usedConditionGroups s) = [] <->
  (forall g a, In g (usedConditionGroups s) -> In a (st_actions s) ->
     g ∈ supportedConditionGroups a groups).
Proof.
  rewrite flat_map_nil. split.
  - intros H g a Hg Ha. specialize (H g Hg). rewrite flat_map_nil in H. specialize (H a Ha).
    apply error_if_nil in H. by apply negb_false_iff, bool_decide_eq_true in H.
  - intros H g Hg. apply flat_map_nil. intros a Ha. apply error_if_nil, negb_false_iff.
    apply bool_decide_eq_true. auto.
Qed.

Lemma statement_errors_nil index seen s :
  statement_errors knownActions groups index seen s = [] <->
  statement_ok s /\ ~ In (st_id s) seen.
Proof.
  unfold statement_errors, statement_ok. cbn zeta.
  rewrite !app_nil, action_errors_nil, group_errors_nil, !error_if_not, !error_if_nil, !negb_false_iff.
  assert (mem (PolicyDecisionValue_text (st_decision s)) allowedDecisions = true) as -> by (by destruct (st_decision s)).
  assert (mem (PolicyAuditLevel_text (st_audit s)) allowedAuditLevels = true) as -> by (by destruct (st_audit s)).
  assert ((if trim (st_id s) =s "" then ["Statement " +:+ to_string (index + 1) +:+ " is missing an id."]
   else error_if (mem (st_id s) seen) ("Statement id " +:+ quoted (st_id s) +:+ " is duplicated.")) = []
   <-> trim (st_id s) <> "" /\ ~ In (st_id s) seen) as ->.
  { destruct (String.eqb_spec (trim (st_id s)) ""); [naive_solver|].
    rewrite error_if_nil, <-not_true_iff_false, mem_spec. naive_solver. }
  destruct (st_actions s), (payment_of s); naive_solver.
Qed.

Lemma statements_errors_nil l index seen :
  statements_errors knownActions groups index seen l = [] <->
  List.Forall statement_ok l /\ NoDup (map st_id l) /\ (forall s, In s l -> ~ In (st_id s) seen).
Proof.
  revert index seen. induction l as [|s l IH]; intros index seen; cbn.
  - split; [|done]. intros _. split; [done|]. split; [constructor|done].
  - rewrite app_nil, statement_errors_nil, IH, List.Forall_cons_iff, NoDup_cons.
    rewrite list_elem_of_In, in_map_iff. cbn. split.
    + intros ([Hok Hs] & Hl & Hd & Hn). split; [done|]. split; [split; [|done]|].
      * intros (s' & E & Hs'). apply (Hn s' Hs'). by left.
      * intros s' [<-|Hs']; [done|]. intros Hin. by apply (Hn s' Hs'); right.
    + intros ([Hok Hl] & [Hn Hd] & Hs). split; [split; [done|by apply Hs; left]|].
      split; [done|]. split; [done|]. intros s' Hs' [E|Hin]; [|by apply (Hs s'); [right|]].
      apply Hn. exists s'. done.
Qed.
End Wellformed.

(** C37: the validator accepts exactly the non-empty lists of well-formed
    statements with distinct ids: known actions, only condition groups every
    listed action supports, no empty condition object, and finite amounts
    (so an accepted payment bound is never compared as [NaN]). *)
Theorem validatePolicyStatements_sound_complete (knownActions : list string)
    (groups : string -> option (list PolicyConditionGroup)) (l : list PolicyStatement) :
  vr_valid (validatePolicyStatements knownActions groups l) = true <->
  l <> [] /\ NoDup (map st_id l) /\ List.Forall (statement_ok knownActions groups) l.
Proof.
  unfold validatePolicyStatements. cbn [vr_valid].
  transitivity (error_if (match l with [] => true | _ :: _ => false end)
      "Policy must contain at least one statement."
    ++ statements_errors knownActions groups 0 [] l = []).
  - by destruct (_ ++ _).
  - rewrite app_nil, error_if_nil, statements_errors_nil. destruct l; naive_solver.
Qed.
