(* ===== verification/Quotes.v ===== *)
(** Payment modes, chains and rails ([payments/types.ts]) and the selection of
    an x402 quote among the offers of a server ([payments/store.ts]): networks
    and USDC contracts per mode, amounts, and [quoteFromAccept]. *)

From S2P Require Import Prelude Errors Usdc Json Policy.
Import Digits.
Open Scope Z_scope.

(** ** Modes, chains, rails *)

Inductive PaymentMode : Type := mode_test | mode_live.
#[export] Instance PaymentMode_eq_dec : EqDecision PaymentMode.
Proof. solve_decision. Defined.
Definition PaymentMode_text (m : PaymentMode) : string :=
  match m with mode_test => "test" | mode_live => "live" end.

Inductive PaymentChain : Type :=
| Chain_base | Chain_arbitrum | Chain_polygon | Chain_optimism | Chain_avalanche | Chain_arc.
#[export] Instance PaymentChain_eq_dec : EqDecision PaymentChain.
Proof. solve_decision. Defined.
Definition PaymentChain_text (c : PaymentChain) : string :=
  match c with
  | Chain_base => "base" | Chain_arbitrum => "arbitrum" | Chain_polygon => "polygon"
  | Chain_optimism => "optimism" | Chain_avalanche => "avalanche" | Chain_arc => "arc"
  end.
Definition all_chains : list PaymentChain :=
  [Chain_base; Chain_arbitrum; Chain_polygon; Chain_optimism; Chain_avalanche; Chain_arc].

Inductive SettlementKind : Type := direct_exact | gateway.
#[export] Instance SettlementKind_eq_dec : EqDecision SettlementKind.
Proof. solve_decision. Defined.

(** The twelve rails: [gateway_<chain>] and [exact_<chain>]. *)
Inductive PaymentRail : Type := Rail (kind : SettlementKind) (chain : PaymentChain).
#[export] Instance PaymentRail_eq_dec : EqDecision PaymentRail.
Proof. solve_decision. Defined.
Definition PaymentRail_text (r : PaymentRail) : string :=
  let '(Rail k c) := r in
  match k with gateway => "gateway_" | direct_exact => "exact_" end +:+ PaymentChain_text c.
Definition all_rails : list PaymentRail :=
  map (Rail gateway) all_chains ++ map (Rail direct_exact) all_chains.

Definition normalizeRail (input : string) : Res PaymentRail :=
  match List.find (fun r => PaymentRail_text r =s input) all_rails with
  | Some r => Ok r
  | None => Err (badRequest "unsupported_payment_rail")
  end.

Definition normalizeChain (input : string) : Res PaymentChain :=
  match List.find (fun c => PaymentChain_text c =s input) all_chains with
  | Some c => Ok c
  | None => Err (badRequest "unsupported_payment_chain")
  end.

Fixpoint strip_prefix (p l : list ascii) : option (list ascii) :=
  match p, l with
  | [], _ => Some l
  | a :: p, b :: l => if Ascii.eqb a b then strip_prefix p l else None
  | _ :: _, [] => None
  end.

(** [s.startsWith(p)], [s.includes(p)], [s.replace(/^p/, '')]. *)
Definition starts_with (p s : string) : bool := is_some (strip_prefix (chars p) (chars s)).

Fixpoint includes_chars (p l : list ascii) : bool :=
  is_some (strip_prefix p l) || match l with [] => false | _ :: r => includes_chars p r end.
Definition includes (p s : string) : bool := includes_chars (chars p) (chars s).

Definition remove_prefix (p s : string) : string :=
  match strip_prefix (chars p) (chars s) with Some r => of_chars r | None => s end.

Definition railKind (rail : PaymentRail) : SettlementKind :=
  if starts_with "gateway_" (PaymentRail_text rail) then gateway else direct_exact.

Definition chainFromRail (rail : PaymentRail) : Res PaymentChain :=
  normalizeChain (remove_prefix "exact_" (remove_prefix "gateway_" (PaymentRail_text rail))).

Definition gatewayRailForChain (c : PaymentChain) : Res PaymentRail :=
  normalizeRail ("gateway_" +:+ PaymentChain_text c).
Definition exactRailForChain (c : PaymentChain) : Res PaymentRail :=
  normalizeRail ("exact_" +:+ PaymentChain_text c).

(** ** Networks and USDC contracts *)

Definition TEST_GATEWAY_NETWORKS (c : PaymentChain) : string :=
  match c with
  | Chain_arbitrum => "eip155:421614" | Chain_avalanche => "eip155:43113"
  | Chain_base => "eip155:84532" | Chain_optimism => "eip155:11155420"
  | Chain_polygon => "eip155:80002" | Chain_arc => "eip155:5042002"
  end.

Definition LIVE_GATEWAY_NETWORKS (c : PaymentChain) : string :=
  match c with
  | Chain_arbitrum => "eip155:42161" | Chain_avalanche => "eip155:43114"
  | Chain_base => "eip155:8453" | Chain_optimism => "eip155:10"
  | Chain_polygon => "eip155:137" | Chain_arc => "eip155:0"
  end.

Definition TEST_GATEWAY_USDC (c : PaymentChain) : string :=
  match c with
  | Chain_arbitrum => "0x75faf114eafb1bdbe2f0316DF893fd58CE46AA4d"
  | Chain_avalanche => "0x5425890298aed601595a70AB815c96711a31Bc65"
  | Chain_base => "0x036CbD53842c5426634e7929541eC2318f3dCF7e"
  | Chain_optimism => "0x5fd84259d66Cd46123540766Be93DFE6D43130D7"
  | Chain_polygon => "0x41E94Eb019C0762f9Bfcf9Fb1E58725BfB0e7582"
  | Chain_arc => "0x3600000000000000000000000000000000000000"
  end.

Definition LIVE_GATEWAY_USDC (c : PaymentChain) : string :=
  match c with
  | Chain_arbitrum => "0xaf88d065e77c8cC2239327C5EDb3A432268e5831"
  | Chain_avalanche => "0xB97EF9Ef8734C71904D8002F8b6Bc66Dd9c48a6E"
  | Chain_base => "0x833589fCD6eDb6E08f4c7C32D4f71b54bdA02913"
  | Chain_optimism => "0x0b2C639c533813f4Aa9D7837CAf62653d097Ff85"
  | Chain_polygon => "0x3c499c542cef5e3811e1192ce70d8cc03d5c3359"
  | Chain_arc => "0x0000000000000000000000000000000000000000"
  end.

(** The names [networkToChain] recognises. *)
Definition network_names : list (PaymentChain * list string) :=
  [(Chain_base, ["base"; "base-sepolia"; "eip155:84532"; "eip155:8453"]);
   (Chain_arbitrum, ["arbitrum"; "arbitrum-sepolia"; "arb-sepolia"; "eip155:421614"; "eip155:42161"]);
   (Chain_polygon, ["polygon"; "polygon-amoy"; "matic-amoy"; "eip155:80002"; "eip155:137"]);
   (Chain_optimism, ["optimism"; "op-sepolia"; "eip155:11155420"; "eip155:10"]);
   (Chain_avalanche, ["avalanche"; "avalanche-fuji"; "avax-fuji"; "eip155:43113"; "eip155:43114"]);
   (Chain_arc, ["arc"; "arc-testnet"; "eip155:5042002"])]%string.

Definition networkToChain (network : string) : option PaymentChain :=
  let normalized := lower (trim network) in
  option_map fst (List.find (fun e => mem normalized (snd e)) network_names).

Definition arc_live (chain : PaymentChain) (mode : PaymentMode) : bool :=
  bool_decide (chain = Chain_arc) && bool_decide (mode = mode_live).

Definition assertNotLiveArc (chain : PaymentChain) (mode : PaymentMode) : Res unit :=
  if arc_live chain mode then Err (badRequest "arc_mainnet_not_supported") else Ok tt.

Definition gatewayNetworkForMode (chain : PaymentChain) (mode : PaymentMode) : Res string :=
  let? _ := assertNotLiveArc chain mode in
  Ok (match mode with mode_test => TEST_GATEWAY_NETWORKS chain | mode_live => LIVE_GATEWAY_NETWORKS chain end).

Definition gatewayUsdcForMode (chain : PaymentChain) (mode : PaymentMode) : Res string :=
  let? _ := assertNotLiveArc chain mode in
  Ok (match mode with mode_test => TEST_GATEWAY_USDC chain | mode_live => LIVE_GATEWAY_USDC chain end).

Definition testAliases (c : PaymentChain) : list string :=
  match c with
  | Chain_arbitrum => ["arbitrum-sepolia"; "arb-sepolia"]
  | Chain_avalanche => ["avalanche-fuji"; "avax-fuji"]
  | Chain_base => ["base-sepolia"]
  | Chain_optimism => ["op-sepolia"]
  | Chain_polygon => ["polygon-amoy"; "matic-amoy"]
  | Chain_arc => ["arc-testnet"]
  end%string.

Definition networkMatchesMode (network : string) (chain : PaymentChain) (mode : PaymentMode) : Res bool :=
  let normalized := lower (trim network) in
  let? expected := gatewayNetworkForMode chain mode in
  Ok (if starts_with "eip155:" normalized then normalized =s lower expected
      else if normalized =s PaymentChain_text chain then true
      else if bool_decide (mode = mode_live) then false
      else mem normalized (testAliases chain)).

Definition canonicalUsdcAsset (asset : option string) (chain : PaymentChain) (mode : PaymentMode) :
    Res (option string) :=
  let? expected := gatewayUsdcForMode chain mode in
  Ok (match asset with
      | None => Some expected
      | Some a => if lower a =s "usdc" then Some expected
                  else if lower a =s lower expected then Some expected else None
      end).

(** ** Offers *)

(** [string | number]; what arrives over the wire may be neither. *)
Inductive Amount : Type :=
| AmountText (s : string)
| AmountNumber (n : jsnum)
| AmountOther.

(** [value.trim] on a value that is not a string. *)
Definition not_a_text : exn := PlainError "value.trim is not a function".

(** [n.toString()], then [value.trim()] for strings. *)
Definition amount_raw (a : Amount) : Res string :=
  match a with
  | AmountText s => Ok (trim s)
  | AmountNumber (Finite neg s n) => Ok (of_chars (number_chars neg (Z.of_N s) n))
  | AmountNumber NonFinite => Ok "NaN"%string
  | AmountOther => Err not_a_text
  end.

(** An offer: the fields the code reads, and the object itself, which is stored
    and hashed whole. *)
Record RuntimeX402Accept : Type := mkRuntimeX402Accept {
  x_scheme : string;
  x_network : string;
  x_asset : option string;
  x_amount : option Amount;
  x_maxAmountRequired : option Amount;
  x_payTo : option string;
  x_extra : option (list (string * json));
  x_object : list (string * json)
}.

(** [typeof value === 'string' && value.trim().length > 0 ? value.trim() : null]. *)
Definition string_value (s : string) : option string :=
  let t := trim s in if t =s "" then None else Some t.
Definition opt_string_value (o : option string) : option string :=
  match o with Some s => string_value s | None => None end.
Definition stringValue (j : json) : option string :=
  match j with JStr s => string_value s | _ => None end.

Definition extra_of (accept : RuntimeX402Accept) : list (string * json) := x_extra accept ?? [].

Definition gatewayMarker (accept : RuntimeX402Accept) : bool :=
  let extra := extra_of accept in
  eqo (stringValue (lookup_key "name" extra)) (Some "GatewayWalletBatched"%string)
  || eqo (stringValue (lookup_key "paymentMethod" extra)) (Some "circle_gateway"%string)
  || match lookup_key "gateway" extra with JBool true => true | _ => false end.

Definition x402AtomicNetwork (network : string) : bool :=
  let normalized := lower (trim network) in
  starts_with "eip155:" normalized || includes "-sepolia" normalized
  || includes "-amoy" normalized || includes "-fuji" normalized.

(** [/^\d+$/] then [BigInt(raw)], greater than zero. *)
Definition atomicAmountToMicros (a : Amount) : Res Z :=
  let? text := amount_raw a in
  let raw := chars text in
  if negb (forallb is_digit raw) || match raw with [] => true | _ => false end
  then Err (badRequest "invalid_x402_amount")
  else let micros := value raw in
       if micros <=? 0 then Err (badRequest "invalid_x402_amount") else Ok micros.

Definition x402UsdcMicrosFromAccept (accept : RuntimeX402Accept) : Res Z :=
  match x_maxAmountRequired accept with
  | Some a => atomicAmountToMicros a
  | None =>
      match x_amount accept with
      | None => Err (badRequest "payment_amount_required")
      | Some amount =>
          let? raw := amount_raw amount in
          if negb (includes "." raw) && x402AtomicNetwork (x_network accept)
          then atomicAmountToMicros (AmountText raw)
          else
            let? micros := parseUsdcMicros raw in
            if micros <=? 0 then Err (badRequest "invalid_usdc_amount") else Ok micros
      end
  end.

Definition normalizedPaymentNetwork (accept : RuntimeX402Accept) (chain : PaymentChain)
    (mode : PaymentMode) : Res string :=
  if starts_with "eip155:" (lower (trim (x_network accept))) then Ok (x_network accept)
  else gatewayNetworkForMode chain mode.

(** [{ ...es, k: v }]: the entry keeps its place when [k] is there. *)
Fixpoint put (k : string) (v : json) (es : list (string * json)) : list (string * json) :=
  match es with
  | [] => [(k, v)]
  | (k', v') :: r => if k =s k' then (k, v) :: r else (k', v') :: put k v r
  end.

Lemma lookup_put k v k' es : lookup_key k (put k' v es) = if k' =s k then v else lookup_key k es.
Proof.
  induction es as [|[k0 v0] es IH]; cbn; [by rewrite String.eqb_sym|]. destruct (k' =s k0) eqn:E; cbn.
  - apply String.eqb_eq in E as <-. rewrite String.eqb_sym. by destruct (k' =s k).
  - rewrite IH. destruct (k =s k0) eqn:E0; [|done]. apply String.eqb_eq in E0 as <-. by rewrite E.
Qed.

(** [{ ...a, ...b }]. *)
Definition spread (a b : list (string * json)) : list (string * json) :=
  fold_left (fun es e => put (fst e) (snd e) es) b a.

Definition exactExtra (accept : RuntimeX402Accept) : list (string * json) :=
  spread [("name", JStr "USDC"); ("version", JStr "2")]%string (extra_of accept).

Definition gatewayExtra (accept : RuntimeX402Accept) (mode : PaymentMode) : list (string * json) :=
  spread (extra_of accept)
    [("name", JStr "GatewayWalletBatched");
     ("verifyingContract",
      JStr (stringValue (lookup_key "verifyingContract" (extra_of accept)) ??
            match mode with
            | mode_test => "0x0077777d7EBA4688BDeF3E311b846F25870A19B9"
            | mode_live => "0x77777777Dcc4d5A8B6E418Fd04D8997ef11000eE"
            end));
     ("version", JStr "1")]%string.

(** [maxTimeoutSeconds] is the argument of [Number(...)]. *)
Record CircleGatewayX402Requirements : Type := mkRequirements {
  req_amount : string;
  req_asset : string;
  req_extra : list (string * json);
  req_maxTimeoutSeconds : json;
  req_network : string;
  req_payTo : string;
  req_scheme : string
}.

Record RuntimeQuote : Type := mkRuntimeQuote {
  q_accept : RuntimeX402Accept;
  q_amount : string;
  q_amountMicros : Z;
  q_asset : string;
  q_chain : PaymentChain;
  q_network : PaymentChain;
  q_rail : PaymentRail;
  q_recipient : string;
  q_settlementKind : SettlementKind;
  q_x402Amount : string;
  q_x402Network : string;
  q_x402Requirements : CircleGatewayX402Requirements
}.

Definition maxTimeout (accept : RuntimeX402Accept) : json :=
  match lookup_key "maxTimeoutSeconds" (extra_of accept) with
  | JUndefined | JNull => jint 604800
  | v => v
  end.

Definition quoteFromAccept (accept : RuntimeX402Accept) (mode : PaymentMode) : Res (option RuntimeQuote) :=
  if negb (x_scheme accept =s "exact") then Ok None else
  match networkToChain (x_network accept) with
  | None => Ok None
  | Some chain =>
      if arc_live chain mode then Ok None else
      let? matches := networkMatchesMode (x_network accept) chain mode in
      if negb matches then Ok None else
      let? asset := canonicalUsdcAsset (opt_string_value (x_asset accept)) chain mode in
      match asset with
      | None => Ok None
      | Some assetAddress =>
          let? amountMicros := x402UsdcMicrosFromAccept accept in
          match opt_string_value (x_payTo accept) with
          | None => Ok None
          | Some recipient =>
              let settlementKind := if gatewayMarker accept then gateway else direct_exact in
              let? x402Network :=
                match settlementKind with
                | gateway => gatewayNetworkForMode chain mode
                | direct_exact => normalizedPaymentNetwork accept chain mode
                end in
              let? rail :=
                match settlementKind with
                | gateway => gatewayRailForChain chain
                | direct_exact => exactRailForChain chain
                end in
              Ok (Some
                {| q_accept := accept; q_amount := formatUsdc amountMicros;
                   q_amountMicros := amountMicros; q_asset := "USDC"; q_chain := chain;
                   q_network := chain; q_rail := rail; q_recipient := recipient;
                   q_settlementKind := settlementKind; q_x402Amount := to_string amountMicros;
                   q_x402Network := x402Network;
                   q_x402Requirements :=
                     {| req_amount := to_string amountMicros; req_asset := assetAddress;
                        req_extra := match settlementKind with
                                     | gateway => gatewayExtra accept mode
                                     | direct_exact => exactExtra accept
                                     end;
                        req_maxTimeoutSeconds := maxTimeout accept;
                        req_network := x402Network; req_payTo := recipient;
                        req_scheme := "exact" |} |})
          end
      end
  end.

Record RuntimeX402PaymentInput : Type := mkRuntimeX402PaymentInput {
  pi_resource : option (list (string * json));
  pi_accepts : list RuntimeX402Accept;
  pi_context : option (list (string * json))
}.

(** The loop stops at the first offer that throws. *)
Definition supportedRuntimeQuotes (input : RuntimeX402PaymentInput) (mode : PaymentMode) :
    Res (list RuntimeQuote) :=
  let? quotes := res_map (fun accept => quoteFromAccept accept mode) (pi_accepts input) in
  Ok (flat_map (fun q => match q with Some q => [q] | None => [] end) quotes).

Definition selectRuntimeQuote (input : RuntimeX402PaymentInput) (mode : PaymentMode)
    (allowedRails : list PaymentRail) : Res (option RuntimeQuote) :=
  let? quotes := supportedRuntimeQuotes input mode in
  Ok (List.find (fun q => bool_decide (q_rail q ∈ allowedRails)) quotes).

(** ** Lemmas *)

Lemma gatewayRail_ok c : gatewayRailForChain c = Ok (Rail gateway c).
Proof. by destruct c. Qed.
Lemma exactRail_ok c : exactRailForChain c = Ok (Rail direct_exact c).
Proof. by destruct c. Qed.
Lemma railKind_ok k c : railKind (Rail k c) = k.
Proof. by destruct k, c. Qed.
Lemma chainFromRail_ok k c : chainFromRail (Rail k c) = Ok c.
Proof. by destruct k, c. Qed.
Lemma normalizeRail_text r : normalizeRail (PaymentRail_text r) = Ok r.
Proof. by destruct r as [[] []]. Qed.

Lemma atomic_positive a z : atomicAmountToMicros a = Ok z -> 0 < z.
Proof.
  unfold atomicAmountToMicros. destruct (amount_raw a); [cbn [res_bind]|done]. destruct (_ || _); [done|]. destruct (_ <=? _) eqn:E; [done|].
  intros [= <-]. by apply Z.leb_gt in E.
Qed.

Lemma accept_positive accept z : x402UsdcMicrosFromAccept accept = Ok z -> 0 < z.
Proof.
  unfold x402UsdcMicrosFromAccept. destruct (x_maxAmountRequired accept); [apply atomic_positive|].
  destruct (x_amount accept) as [a|]; [|done]. destruct (amount_raw a); [cbn [res_bind]|done].
  destruct (_ && _); [apply atomic_positive|].
  destruct (parseUsdcMicros _) as [m|]; [|done]. cbn. destruct (m <=? 0) eqn:E; [done|].
  intros [= <-]. by apply Z.leb_gt in E.
Qed.

(** The network a mode expects of a chain is a normal form of itself. *)
Lemma gateway_network_normal chain mode n :
  gatewayNetworkForMode chain mode = Ok n -> lower (trim n) = n /\ networkToChain n = Some chain.
Proof. destruct chain, mode; cbn; intros [= <-]; by vm_compute. Qed.

Lemma networkToChain_normal a b : lower (trim a) = lower (trim b) -> networkToChain a = networkToChain b.
Proof. unfold networkToChain. by intros ->. Qed.

Lemma arc_live_networks chain mode :
  arc_live chain mode = false ->
  exists n u, gatewayNetworkForMode chain mode = Ok n /\ gatewayUsdcForMode chain mode = Ok u.
Proof. unfold gatewayNetworkForMode, gatewayUsdcForMode, assertNotLiveArc. intros ->. cbn. eauto. Qed.

Lemma string_value_some s t : string_value s = Some t -> t = trim s /\ t <> ""%string.
Proof.
  unfold string_value. cbn zeta. destruct (_ =s _) eqn:E; [done|]. intros [= <-]. bsimpl. done.
Qed.

(** The network of a direct quote is the one the mode expects, up to case and
    blanks. *)
Lemma normalized_network_ok accept chain mode n :
  networkMatchesMode (x_network accept) chain mode = Ok true ->
  normalizedPaymentNetwork accept chain mode = Ok n ->
  gatewayNetworkForMode chain mode = Ok (lower (trim n)).
Proof.
  unfold networkMatchesMode, normalizedPaymentNetwork. cbn zeta.
  destruct (gatewayNetworkForMode chain mode) as [expected|] eqn:Ee; [|done]. cbn.
  destruct (gateway_network_normal _ _ _ Ee) as [Hn _].
  destruct (starts_with _ _); intros [= Hm] [= <-]; [|by rewrite Hn]. bsimpl.
  rewrite Hm. f_equal. destruct chain, mode; vm_compute in Ee; first [discriminate Ee|injection Ee as <-; by vm_compute].
Qed.

(** What a quote is made of. *)
Lemma quoteFromAccept_inv accept mode q :
  quoteFromAccept accept mode = Ok (Some q) ->
  exists chain asset micros payTo net,
    arc_live chain mode = false /\ gatewayUsdcForMode chain mode = Ok asset /\
    gatewayNetworkForMode chain mode = Ok (lower (trim net)) /\
    x402UsdcMicrosFromAccept accept = Ok micros /\ x_payTo accept = Some payTo /\
    string_value payTo = Some (trim payTo) /\
    let kind := if gatewayMarker accept then gateway else direct_exact in
    q = {| q_accept := accept; q_amount := formatUsdc micros; q_amountMicros := micros;
           q_asset := "USDC"; q_chain := chain; q_network := chain; q_rail := Rail kind chain;
           q_recipient := trim payTo; q_settlementKind := kind; q_x402Amount := to_string micros;
           q_x402Network := net;
           q_x402Requirements :=
             {| req_amount := to_string micros; req_asset := asset;
                req_extra := match kind with
                             | gateway => gatewayExtra accept mode
                             | direct_exact => exactExtra accept
                             end;
                req_maxTimeoutSeconds := maxTimeout accept; req_network := net;
                req_payTo := trim payTo; req_scheme := "exact" |} |}.
Proof.
  unfold quoteFromAccept. destruct (negb _); [done|].
  destruct (networkToChain (x_network accept)) as [chain|] eqn:Ec; [|done].
  destruct (arc_live chain mode) eqn:Ea; [done|].
  destruct (arc_live_networks _ _ Ea) as (n & u & En & Eu).
  destruct (networkMatchesMode _ _ _) as [[]|] eqn:Em; [|done..]. cbn [negb res_bind].
  destruct (canonicalUsdcAsset _ _ _) as [[asset|]|] eqn:Eas; [|done..]. cbn [res_bind].
  assert (asset = u) as ->.
  { unfold canonicalUsdcAsset in Eas. rewrite Eu in Eas. cbn in Eas.
    destruct (opt_string_value _); [|by injection Eas].
    destruct (_ =s _); [by injection Eas|]. destruct (_ =s _); [by injection Eas|done]. }
  destruct (x402UsdcMicrosFromAccept accept) as [micros|] eqn:Eamt; [|done]. cbn [res_bind].
  destruct (x_payTo accept) as [payTo|]; cbn [opt_string_value]; [|done].
  destruct (string_value payTo) as [recipient|] eqn:Er; [|done].
  apply string_value_some in Er as Ht. destruct Ht as [-> _].
  rewrite gatewayRail_ok, exactRail_ok.
  destruct (gateway_network_normal _ _ _ En) as [Hn _].
  destruct (gatewayMarker accept); cbn [res_bind].
  - rewrite En. intros [= <-]. exists chain, u, micros, payTo, n. rewrite Hn. done.
  - destruct (normalizedPaymentNetwork _ _ _) as [x|] eqn:Ex; [|done]. cbn [res_bind].
    intros [= <-]. exists chain, u, micros, payTo, x.
    by rewrite (normalized_network_ok _ _ _ _ Em Ex).
Qed.

(** ** Theorems *)

(** C28: a quote is payable in the organisation's mode and nowhere else: its
    network is the one the mode has for its chain (never Arc in live mode), its
    asset the mode's USDC contract there, its rail the chain's, its amount
    positive and the same in every field, its recipient non-empty; and every
    field the provider signs repeats them. *)
Theorem quote_sound (accept : RuntimeX402Accept) (mode : PaymentMode) (q : RuntimeQuote) :
  quoteFromAccept accept mode = Ok (Some q) ->
  let req := q_x402Requirements q in
  arc_live (q_chain q) mode = false /\
  gatewayNetworkForMode (q_chain q) mode = Ok (lower (trim (q_x402Network q))) /\
  networkToChain (q_x402Network q) = Some (q_chain q) /\
  gatewayUsdcForMode (q_chain q) mode = Ok (req_asset req) /\
  q_rail q = Rail (q_settlementKind q) (q_chain q) /\
  0 < q_amountMicros q /\ parseUsdcMicros (q_amount q) = Ok (q_amountMicros q) /\
  x402UsdcMicrosFromAccept accept = Ok (q_amountMicros q) /\
  req_amount req = to_string (q_amountMicros q) /\ q_x402Amount q = req_amount req /\
  req_network req = q_x402Network q /\ req_payTo req = q_recipient q /\ q_recipient q <> ""%string.
Proof.
  intros (chain & u & micros & payTo & net & Ea & Eu & En & Em & _ & Er & ->)%quoteFromAccept_inv. cbn.
  destruct (gateway_network_normal _ _ _ En) as [Hn Hc]. apply accept_positive in Em as Hpos.
  apply string_value_some in Er as [_ Hr].
  repeat (split; [by eauto using parse_formatUsdc, Z.lt_le_incl|]).
  split; [|repeat (split; [by eauto using parse_formatUsdc, Z.lt_le_incl|]); done].
  rewrite <-Hc. by apply networkToChain_normal.
Qed.

(** C27: an offer that a test organisation can pay and one that a live
    organisation can pay never name the same network or the same asset, on any
    chains. *)
Theorem quote_modes_disjoint (a b : RuntimeX402Accept) (q q' : RuntimeQuote) :
  quoteFromAccept a mode_test = Ok (Some q) -> quoteFromAccept b mode_live = Ok (Some q') ->
  q_x402Network q <> q_x402Network q' /\
  req_asset (q_x402Requirements q) <> req_asset (q_x402Requirements q').
Proof.
  intros (c & u & ? & ? & n & _ & Eu & En & _ & _ & _ & ->)%quoteFromAccept_inv
    (c' & u' & ? & ? & n' & Ea & Eu' & En' & _ & _ & _ & ->)%quoteFromAccept_inv. cbn.
  split; intros E; subst.
  - rewrite <-En in En'. destruct c, c'; discriminate.
  - rewrite <-Eu in Eu'. destruct c, c'; discriminate.
Qed.

(** C39: [quoteFromAccept] throws for one reason only, an amount it cannot read;
    and the offers of a request are all lost as soon as one of them throws. *)
Theorem quote_throws_on_amount_only (accept : RuntimeX402Accept) (mode : PaymentMode) (e : exn)
    (input : RuntimeX402PaymentInput) :
  quoteFromAccept accept mode = Err e ->
  x402UsdcMicrosFromAccept accept = Err e /\
  (In accept (pi_accepts input) -> is_ok (supportedRuntimeQuotes input mode) = false).
Proof.
  intros E. split.
  - revert E. unfold quoteFromAccept. destruct (negb _); [done|].
    destruct (networkToChain (x_network accept)) as [chain|] eqn:Ec; [|done].
    destruct (arc_live chain mode) eqn:Ea; [done|].
    destruct (arc_live_networks _ _ Ea) as (n & u & En & Eu).
    unfold networkMatchesMode, canonicalUsdcAsset, normalizedPaymentNetwork.
    rewrite gatewayRail_ok, exactRail_ok, En, Eu. cbn [res_bind].
    destruct (negb _); [done|]. cbn [res_bind].
    match goal with |- match ?o with _ => _ end = _ -> _ => destruct o; [|done] end.
    destruct (x402UsdcMicrosFromAccept accept); cbn [res_bind]; [|by intros [= ->]].
    destruct (opt_string_value (x_payTo accept)); [|done].
    destruct (gatewayMarker accept); cbn [res_bind]; [done|]. by destruct (starts_with _ _).
  - intros Hin. unfold supportedRuntimeQuotes. destruct (res_map _ _) as [l|] eqn:El; [|done]. exfalso.
    apply res_map_ok in El. apply List.Forall2_length in El as Hl. clear Hl.
    revert l El. induction (pi_accepts input) as [|x r IH]; [done|]. intros l El.
    inversion El as [|? y ? ys Hy Hys]; subst. destruct Hin as [->|Hin]; [congruence|]. by eapply IH.
Qed.

(** ** Witnesses *)

Definition sample_accept (network amount : string) : RuntimeX402Accept :=
  mkRuntimeX402Accept "exact" network None (Some (AmountText amount)) None
    (Some "0x00000000000000000000000000000000000000aa"%string) None [].

Definition test_quote : Res (option RuntimeQuote) := quoteFromAccept (sample_accept "base-sepolia" "1500") mode_test.
Definition live_quote : Res (option RuntimeQuote) := quoteFromAccept (sample_accept "eip155:8453" "1500") mode_live.

Lemma quote_sound_witness : exists q,
  test_quote = Ok (Some q) /\ 0 < q_amountMicros q /\ q_amount q = "0.0015"%string /\
  gatewayUsdcForMode (q_chain q) mode_test = Ok (req_asset (q_x402Requirements q)).
Proof.
  destruct test_quote as [[q|]|] eqn:E; [|discriminate..]. exists q. split; [reflexivity|].
  destruct (quote_sound (sample_accept "base-sepolia" "1500") mode_test q E)
    as (_ & _ & _ & Ha & _ & Hpos & _).
  split; [exact Hpos|]. split; [|exact Ha].
  assert (Hq : option_map q_amount (match test_quote with Ok o => o | Err _ => None end) = Some "0.0015"%string)
    by (vm_compute; reflexivity).
  rewrite E in Hq. by injection Hq.
Defined.

Lemma quote_modes_disjoint_witness : exists q q',
  test_quote = Ok (Some q) /\ live_quote = Ok (Some q') /\ q_x402Network q <> q_x402Network q'.
Proof.
  destruct test_quote as [[q|]|] eqn:E; [|discriminate..].
  destruct live_quote as [[q'|]|] eqn:E'; [|discriminate..]. exists q, q'. split; [done|]. split; [done|].
  exact (proj1 (quote_modes_disjoint (sample_accept "base-sepolia" "1500") (sample_accept "eip155:8453" "1500")
                  q q' E E')).
Defined.

(** A readable offer is lost with an unreadable one beside it. *)
Lemma quote_throws_on_amount_only_witness :
  let good := sample_accept "base-sepolia" "1500" in
  let bad := sample_accept "base-sepolia" "1,5" in
  is_ok (quoteFromAccept good mode_test) = true /\
  is_ok (supportedRuntimeQuotes (mkRuntimeX402PaymentInput None [good; bad] None) mode_test) = false.
Proof.
  intros good bad. split; [vm_compute; reflexivity|].
  exact (proj2 (quote_throws_on_amount_only bad mode_test (badRequest "invalid_x402_amount")
    (mkRuntimeX402PaymentInput None [good; bad] None) ltac:(vm_compute; reflexivity))
    (or_intror (or_introl eq_refl))).
Defined.
