(* ===== verification/ResultCrypto.v ===== *)
(** The envelope of an encrypted x402 result ([payments/x402-result-crypto.ts]):
    canonical base64, the validation of an envelope and of a key, and the codec
    the attempt store takes as an argument.  The cipher itself is Node's. *)

From S2P Require Import Prelude Errors Usdc Json Policy.
Open Scope Z_scope.

(** ** Base64 ([Buffer.from(value, 'base64')], [toString('base64')]) *)

Definition b64_char (v : Z) : ascii :=
  let code := if v <? 26 then 65 + v else if v <? 52 then 97 + (v - 26)
              else if v <? 62 then 48 + (v - 52) else if v =? 62 then 43 else 47 in
  Ascii.ascii_of_nat (Z.to_nat code).

Definition b64_val (c : ascii) : option Z :=
  let n := Z.of_nat (Ascii.nat_of_ascii c) in
  if (65 <=? n) && (n <=? 90) then Some (n - 65)
  else if (97 <=? n) && (n <=? 122) then Some (n - 97 + 26)
  else if (48 <=? n) && (n <=? 57) then Some (n - 48 + 52)
  else if n =? 43 then Some 62 else if n =? 47 then Some 63 else None.

(** Bytes are integers from 0 to 255. *)
Fixpoint b64_encode (l : list Z) : list ascii :=
  match l with
  | [] => []
  | [a] => [b64_char (a / 4); b64_char (a mod 4 * 16); "="; "="]
  | [a; b] => [b64_char (a / 4); b64_char (a mod 4 * 16 + b / 16); b64_char (b mod 16 * 4); "="]
  | a :: b :: c :: r =>
      b64_char (a / 4) :: b64_char (a mod 4 * 16 + b / 16)
      :: b64_char (b mod 16 * 4 + c / 64) :: b64_char (c mod 64) :: b64_encode r
  end%char.

(** The bytes of a text that is the encoding of some bytes: four characters of
    the alphabet per group, padding and unused bits zero in the last. *)
Fixpoint b64_decode (l : list ascii) : option (list Z) :=
  match l with
  | [] => Some []
  | c1 :: c2 :: c3 :: c4 :: r =>
      match b64_val c1, b64_val c2, b64_val c3, b64_val c4 with
      | Some a, Some b, Some c, Some d =>
          match b64_decode r with
          | Some l => Some (a * 4 + b / 16 :: b mod 16 * 16 + c / 4 :: c mod 4 * 64 + d :: l)
          | None => None
          end
      | Some a, Some b, Some c, None =>
          if Ascii.eqb c4 "=" && bool_decide (r = []) && (c mod 4 =? 0)
          then Some [a * 4 + b / 16; b mod 16 * 16 + c / 4] else None
      | Some a, Some b, None, None =>
          if Ascii.eqb c3 "=" && Ascii.eqb c4 "=" && bool_decide (r = []) && (b mod 16 =? 0)
          then Some [a * 4 + b / 16] else None
      | _, _, _, _ => None
      end
  | _ => None
  end.

(** [decodeCanonicalBase64]: [decoded.toString('base64') !== value] is the
    failure of the strict decoding. *)
Definition decodeCanonicalBase64 (value : string) (expectedBytes : option nat) (allowEmpty : bool)
    (errorCode : string) : Res (list Z) :=
  if negb allowEmpty && (value =s "") then Err (PlainError errorCode) else
  match b64_decode (chars value) with
  | Some decoded =>
      if match expectedBytes with Some n => negb (length decoded =? n)%nat | None => false end
      then Err (PlainError errorCode) else Ok decoded
  | None => Err (PlainError errorCode)
  end.

Definition KEY_BYTES : nat := 32.
Definition IV_BYTES : nat := 12.
Definition TAG_BYTES : nat := 16.

Definition resultKey (keyBase64 : string) : Res (list Z) :=
  decodeCanonicalBase64 keyBase64 (Some KEY_BYTES) false "x402_result_key_must_be_32_byte_base64".

Definition validateX402ResultKeyBase64 (keyBase64 : string) : Res unit :=
  let? _ := resultKey keyBase64 in Ok tt.

(** ** Envelopes and the codec *)

Record X402ResultCryptoContext : Type := mkCryptoContext {
  cx_attemptId : string;
  cx_connectionId : string;
  cx_orgId : string
}.

Record X402ResultEnvelope : Type := mkEnvelope {
  env_ciphertext : string;
  env_iv : string;
  env_tag : string
}.
#[export] Instance X402ResultEnvelope_eq_dec : EqDecision X402ResultEnvelope.
Proof. solve_decision. Defined.

Definition envelope_json (e : X402ResultEnvelope) : json :=
  JObj [("algorithm", JStr "aes-256-gcm"); ("ciphertext", JStr (env_ciphertext e));
        ("iv", JStr (env_iv e)); ("tag", JStr (env_tag e)); ("version", jint 1)]%string.

Definition envelope_keys : list string := ["algorithm"; "ciphertext"; "iv"; "tag"; "version"]%string.

(** [n === 1]. *)
Definition is_one (n : jsnum) : bool :=
  match n with Finite false 1%N 1 => true | _ => false end.

Definition same_keys (es : list (string * json)) : bool :=
  (length es =? 5)%nat && forallb (fun e => mem (fst e) envelope_keys) es
  && forallb (fun k => mem k (map fst es)) envelope_keys.

Definition envelope_invalid : exn := PlainError "x402_result_envelope_invalid".

Definition base64_field (es : list (string * json)) (key : string) (bytes : option nat) : Res string :=
  match lookup_key key es with
  | JStr s => let? _ := decodeCanonicalBase64 s bytes false "x402_result_envelope_invalid" in Ok s
  | _ => Err envelope_invalid
  end.

Definition validateX402ResultEnvelope (v : json) : Res X402ResultEnvelope :=
  match v with
  | JObj es =>
      if negb (same_keys es)
         || negb (match lookup_key "algorithm" es with JStr a => a =s "aes-256-gcm" | _ => false end)
         || negb (match lookup_key "version" es with JNum n => is_one n | _ => false end)
      then Err envelope_invalid
      else
        let? ciphertext := base64_field es "ciphertext" None in
        let? iv := base64_field es "iv" (Some IV_BYTES) in
        let? tag := base64_field es "tag" (Some TAG_BYTES) in
        Ok (mkEnvelope ciphertext iv tag)
  | _ => Err envelope_invalid
  end.

(** [X402ResultCryptoCodec], the interface the attempt store takes; [encrypt]
    draws an initialisation vector. *)
Class X402ResultCryptoCodec (T : Type) : Type := {
  encrypt : X402ResultCryptoContext -> T -> Z -> X402ResultEnvelope;
  decrypt : X402ResultCryptoContext -> X402ResultEnvelope -> Res T
}.

(** ** Lemmas *)

Definition byte_ok (a : Z) : Prop := 0 <= a < 256.

Lemma b64_val_char v : 0 <= v < 64 -> b64_val (b64_char v) = Some v.
Proof.
  intros Hv. assert (forallb (fun n => bool_decide (b64_val (b64_char (Z.of_nat n)) = Some (Z.of_nat n)))
                       (seq 0 64) = true) as H by (vm_compute; reflexivity).
  rewrite forallb_forall in H. specialize (H (Z.to_nat v)). rewrite Z2Nat.id in H by lia.
  apply bool_decide_eq_true in H; [done|]. apply in_seq. lia.
Qed.

Lemma b64_char_val c v : b64_val c = Some v -> b64_char v = c /\ 0 <= v < 64.
Proof.
  assert (forallb (fun n => match b64_val (Ascii.ascii_of_nat n) with
            | Some v => Ascii.eqb (b64_char v) (Ascii.ascii_of_nat n) && (0 <=? v) && (v <? 64)
            | None => true end) (seq 0 256) = true) as H by (vm_compute; reflexivity).
  rewrite forallb_forall in H. specialize (H (Ascii.nat_of_ascii c)).
  rewrite Ascii.ascii_nat_embedding in H. intros E. rewrite E in H.
  assert (Ascii.nat_of_ascii c < 256)%nat by apply Ascii.nat_ascii_bounded.
  specialize (H ltac:(apply in_seq; lia)). bsimpl. split; [by apply Ascii.eqb_eq|lia].
Qed.

Lemma b64_val_pad : b64_val "=" = None.
Proof. done. Qed.

(** Induction three bytes, and four characters, at a time. *)
Lemma list_ind3 {A} (P : list A -> Prop) :
  P [] -> (forall a, P [a]) -> (forall a b, P [a; b]) ->
  (forall a b c r, P r -> P (a :: b :: c :: r)) -> forall l, P l.
Proof.
  intros H0 H1 H2 H3. fix IH 1. intros [|a [|b [|c r]]]; [done|apply H1|apply H2|apply H3, IH].
Qed.

Lemma list_ind4 {A} (P : list A -> Prop) :
  P [] -> (forall a, P [a]) -> (forall a b, P [a; b]) -> (forall a b c, P [a; b; c]) ->
  (forall a b c d r, P r -> P (a :: b :: c :: d :: r)) -> forall l, P l.
Proof.
  intros H0 H1 H2 H3 H4. fix IH 1.
  intros [|a [|b [|c [|d r]]]]; [done|apply H1|apply H2|apply H3|apply H4, IH].
Qed.

Lemma b64_decode_encode l : Forall byte_ok l -> b64_decode (b64_encode l) = Some l.
Proof.
  unfold byte_ok.
  induction l as [|a|a b|a b c r IH] using list_ind3; rewrite ?Forall_cons; intros H; [done|..].
  - cbn [b64_encode b64_decode]. rewrite !b64_val_char, b64_val_pad by (Z.div_mod_to_equations; lia).
    cbn [Ascii.eqb Bool.eqb andb]. rewrite bool_decide_eq_true_2 by done.
    replace ((a mod 4 * 16) mod 16 =? 0) with true by (symmetry; apply Z.eqb_eq; Z.div_mod_to_equations; lia).
    do 2 f_equal. Z.div_mod_to_equations; lia.
  - cbn [b64_encode b64_decode]. rewrite !b64_val_char, b64_val_pad by (Z.div_mod_to_equations; lia).
    cbn [Ascii.eqb Bool.eqb andb]. rewrite bool_decide_eq_true_2 by done.
    replace ((b mod 16 * 4) mod 4 =? 0) with true by (symmetry; apply Z.eqb_eq; Z.div_mod_to_equations; lia).
    repeat f_equal; Z.div_mod_to_equations; lia.
  - cbn [b64_encode b64_decode]. rewrite !b64_val_char by (Z.div_mod_to_equations; lia).
    rewrite IH by naive_solver. repeat f_equal; Z.div_mod_to_equations; lia.
Qed.

Lemma b64_encode_decode t l : b64_decode t = Some l -> b64_encode l = t /\ Forall byte_ok l.
Proof.
  revert l. induction t as [|a|a b|a b c|c1 c2 c3 c4 r IH] using list_ind4; intros l H; try done.
  { by injection H as <-. }
  cbn [b64_decode] in H. destruct (b64_val c1) as [v1|] eqn:E1; [|done].
  destruct (b64_val c2) as [v2|] eqn:E2; [|done].
  apply b64_char_val in E1 as [<- R1], E2 as [<- R2].
  destruct (b64_val c3) as [v3|] eqn:E3, (b64_val c4) as [v4|] eqn:E4; try done.
  - apply b64_char_val in E3 as [<- R3], E4 as [<- R4].
    destruct (b64_decode r) as [lr|]; [|done]. injection H as <-. destruct (IH lr eq_refl) as [<- Hb].
    split; [cbn [b64_encode]; repeat f_equal; Z.div_mod_to_equations; lia|].
    repeat constructor; try done; Z.div_mod_to_equations; lia.
  - apply b64_char_val in E3 as [<- R3]. destruct (_ && _) eqn:Ec in H; [|done]. bsimpl.
    apply Ascii.eqb_eq in H0 as ->. apply bool_decide_eq_true in H2 as ->. injection H as <-.
    split; [cbn [b64_encode]; repeat f_equal; Z.div_mod_to_equations; lia|].
    repeat constructor; Z.div_mod_to_equations; lia.
  - destruct (_ && _) eqn:Ec in H; [|done]. bsimpl.
    apply Ascii.eqb_eq in H0 as ->, H3 as ->. apply bool_decide_eq_true in H2 as ->. injection H as <-.
    split; [cbn [b64_encode]; repeat f_equal; Z.div_mod_to_equations; lia|].
    repeat constructor; Z.div_mod_to_equations; lia.
Qed.

Lemma decode_canonical_ok v n code b :
  decodeCanonicalBase64 v n false code = Ok b ->
  v <> "" /\ chars v = b64_encode b /\ Forall byte_ok b /\ match n with Some k => length b = k | None => True end.
Proof.
  unfold decodeCanonicalBase64. cbn [negb andb]. destruct (v =s "") eqn:Ev; [done|].
  destruct (b64_decode (chars v)) as [l|] eqn:E; [|done].
  destruct (match n with Some k => _ | None => _ end) eqn:En; [done|]. intros [= ->].
  apply b64_encode_decode in E as [<- Hb]. bsimpl. split; [done|]. split; [done|]. split; [done|].
  destruct n; [|done]. bsimpl. by apply Nat.eqb_eq.
Qed.

Lemma decode_canonical_encode n code b :
  Forall byte_ok b -> b <> [] -> match n with Some k => length b = k | None => True end ->
  decodeCanonicalBase64 (of_chars (b64_encode b)) n false code = Ok b.
Proof.
  intros Hb Hne Hn. unfold decodeCanonicalBase64. rewrite chars_of_chars, b64_decode_encode by done.
  cbn [negb andb]. replace (of_chars (b64_encode b) =s "") with false.
  2: { symmetry. apply eqs_neq. destruct b as [|? [|? [|? ?]]]; done. }
  destruct n as [k|]; [|done]. by rewrite Hn, Nat.eqb_refl.
Qed.

(** What the validation of an envelope establishes about its fields. *)
Definition envelope_ok (e : X402ResultEnvelope) : bool :=
  is_ok (decodeCanonicalBase64 (env_ciphertext e) None false "x402_result_envelope_invalid")
  && is_ok (decodeCanonicalBase64 (env_iv e) (Some IV_BYTES) false "x402_result_envelope_invalid")
  && is_ok (decodeCanonicalBase64 (env_tag e) (Some TAG_BYTES) false "x402_result_envelope_invalid").

(** What an authenticated cipher promises: its envelopes are well formed and
    open, with the same context, to the value sealed. *)
Class CodecLaws {T} `{X402ResultCryptoCodec T} : Prop := {
  encrypt_ok ctx v iv : envelope_ok (encrypt ctx v iv) = true;
  decrypt_encrypt ctx v iv : decrypt ctx (encrypt ctx v iv) = Ok v
}.

Lemma base64_field_ok es key n s :
  base64_field es key n = Ok s ->
  is_ok (decodeCanonicalBase64 s n false "x402_result_envelope_invalid") = true.
Proof.
  unfold base64_field. destruct (lookup_key key es); try done.
  destruct (decodeCanonicalBase64 _ _ _ _) eqn:E; cbn; [|done]. intros [= <-]. by rewrite E.
Qed.

Lemma validated_envelope v e : validateX402ResultEnvelope v = Ok e -> envelope_ok e = true.
Proof.
  unfold validateX402ResultEnvelope. destruct v; try done.
  destruct (_ || _ || _); [done|]. intros H. res_inv. unfold envelope_ok. cbn.
  repeat match goal with E : base64_field _ _ _ = Ok _ |- _ => apply base64_field_ok in E; rewrite E; clear E end.
  done.
Qed.

(** An envelope that passed the validation passes it when it is read back. *)
Lemma validate_envelope_json e :
  envelope_ok e = true -> validateX402ResultEnvelope (envelope_json e) = Ok e.
Proof.
  unfold envelope_ok. destruct e as [ct iv tag]. cbn [env_ciphertext env_iv env_tag]. intros H. bsimpl.
  unfold validateX402ResultEnvelope, envelope_json. cbn [env_ciphertext env_iv env_tag].
  set (es := [_; _; _; _; _]).
  change (same_keys es) with true.
  change (lookup_key "algorithm" es) with (JStr "aes-256-gcm").
  change (lookup_key "version" es) with (jint 1). change (jint 1) with (JNum (Finite false 1 1)).
  cbn [negb orb is_one]. rewrite eqs_refl. cbn [negb orb]. unfold base64_field.
  change (lookup_key "ciphertext" es) with (JStr ct). change (lookup_key "iv" es) with (JStr iv).
  change (lookup_key "tag" es) with (JStr tag). clear es. cbv beta iota.
  do 3 (match goal with E : is_ok (decodeCanonicalBase64 ?s ?n ?b ?c) = true |- context [decodeCanonicalBase64 ?s ?n ?b ?c] =>
     destruct (decodeCanonicalBase64 s n b c); [clear E; cbn [res_bind]|done] end).
  done.
Qed.

(** Envelopes round trip: the base64 texts of a non-empty ciphertext, a
    12-byte vector and a 16-byte tag form an envelope that validates to those
    texts, every validated envelope is of that form -- each field the canonical
    encoding of exactly one byte string -- and validates again when it is read
    back from the column. *)
Theorem envelope_roundtrip :
  (forall ct iv tag, Forall byte_ok ct -> Forall byte_ok iv -> Forall byte_ok tag -> ct <> [] ->
     length iv = IV_BYTES -> length tag = TAG_BYTES ->
     let enc l := of_chars (b64_encode l) in
     validateX402ResultEnvelope (envelope_json (mkEnvelope (enc ct) (enc iv) (enc tag)))
     = Ok (mkEnvelope (enc ct) (enc iv) (enc tag))) /\
  (forall v e, validateX402ResultEnvelope v = Ok e ->
     validateX402ResultEnvelope (envelope_json e) = Ok e /\
     exists ct iv tag, chars (env_ciphertext e) = b64_encode ct /\ chars (env_iv e) = b64_encode iv /\
     chars (env_tag e) = b64_encode tag /\ length iv = IV_BYTES /\ length tag = TAG_BYTES /\ ct <> []) /\
  (forall a b, Forall byte_ok a -> Forall byte_ok b -> b64_encode a = b64_encode b -> a = b).
Proof.
  split; [|split].
  - intros ct iv tag Hc Hi Ht Hne Hl1 Hl2 enc. apply validate_envelope_json. unfold envelope_ok, enc. cbn.
    rewrite !decode_canonical_encode; [done|done|by intros ->|done|done|by intros ->|done|done|done|done].
  - intros v e E. pose proof (validated_envelope v e E) as Hok.
    split; [by apply validate_envelope_json|]. unfold envelope_ok in Hok.
    destruct (decodeCanonicalBase64 (env_ciphertext e) _ _ _) as [ct|] eqn:E1; [|done].
    destruct (decodeCanonicalBase64 (env_iv e) _ _ _) as [iv|] eqn:E2; [|done].
    destruct (decodeCanonicalBase64 (env_tag e) _ _ _) as [tag|] eqn:E3; [|done].
    apply decode_canonical_ok in E1 as (Hne & E1 & _), E2 as (_ & -> & _ & ?), E3 as (_ & -> & _ & ?).
    exists ct, iv, tag. do 5 (split; [done|]). intros ->. apply Hne. by apply chars_inj.
  - intros a b Ha Hb E. assert (Some a = Some b) as [= ->]; [|done].
    by rewrite <-(b64_decode_encode a), <-(b64_decode_encode b), E.
Qed.
