(* ===== verification/PaidHttp.v ===== *)
(** Paid HTTP requests ([payments/x402-http.ts]): normalization of a request
    and its hash, the addresses a request may reach, and the quote of a 402
    response.  Texts are UTF-8 bytes.  The socket, the URL parser, the resolver
    and [isIP] are the platform's. *)

From S2P Require Import Prelude Errors Usdc Json Policy Doubles Quotes ResultCrypto.
Import Digits.
Open Scope Z_scope.

(** ** The platform *)

Record Url : Type := mkUrl {
  u_href : string;
  u_protocol : string;
  u_hostname : string;
  u_origin : string
}.

(** [new URL(text)]: [None] when it throws. *)
Class UrlParser : Type := parse_url : string -> option Url.

(** [isIP] of node:net: 4, 6, or 0. *)
Class IpClassifier : Type := isIP : string -> Z.

(** ** Requests *)

Inductive PaidHttpBody : Type :=
| BodyJson (v : json)
| BodyText (s : string)
| BodyBase64 (s : string).

Record PaidHttpRequest : Type := mkPaidHttpRequest {
  rq_url : string;
  rq_method : string;
  rq_headers : list (string * string);
  rq_body : option PaidHttpBody
}.

Record NormalizedPaidHttpRequest : Type := mkNormalizedPaidHttpRequest {
  nr_url : string;
  nr_method : string;
  nr_headers : list (string * string);
  nr_body : option (list ascii)
}.

Definition MAX_PAID_HTTP_BODY_BYTES : Z := 256 * 1024.

Definition DENIED_PAID_HTTP_HEADERS : list string :=
  ["host"; "content-length"; "connection"; "te"; "trailer"; "transfer-encoding"; "upgrade";
   "keep-alive"; "accept-encoding"; "payment-signature"; "payment-response"; "payment-required";
   "x-payment"]%string.

Definition TypeError (message : string) : exn := PlainError message.
Definition bodyLimitError : exn := PlainError "Paid HTTP body exceeds the 256 KiB decoded limit".

(** [/^[!#$%&'*+\-.^_`|~0-9A-Za-z]+$/]. *)
Definition header_name_char (c : ascii) : bool :=
  let n := Ascii.nat_of_ascii c in
  ((48 <=? n) && (n <=? 57) || (65 <=? n) && (n <=? 90) || (97 <=? n) && (n <=? 122))%nat
  || existsb (Ascii.eqb c) (chars "!#$%&'*+-.^_`|~").

Definition header_name_ok (name : string) : bool :=
  negb (name =s "") && forallb header_name_char (chars name).

(** [/[\r\n\0]/.test(value)]. *)
Definition header_value_ok (v : string) : bool :=
  forallb (fun c => let n := Ascii.nat_of_ascii c in
                    negb ((n =? 0)%nat || (n =? 10)%nat || (n =? 13)%nat)) (chars v).

Definition header_denied (name : string) : bool :=
  let n := lower name in
  mem n DENIED_PAID_HTTP_HEADERS || starts_with "proxy-" n || starts_with "x-payment-" n.

Definition check_header (h : string * string) : Res unit :=
  if negb (header_name_ok (fst h)) then Err (TypeError "Invalid paid HTTP header name")
  else if negb (header_value_ok (snd h)) then Err (TypeError "Invalid paid HTTP header value for")
  else if header_denied (fst h) then Err (TypeError "Paid HTTP header is not allowed")
  else Ok tt.

(** ** Bodies *)

Definition over_limit (l : list ascii) : bool := MAX_PAID_HTTP_BODY_BYTES <? Z.of_nat (length l).

(** [BoundedUtf8Writer]: the bytes written so far, at most 256 KiB of them. *)
Definition append (w s : list ascii) : Res (list ascii) :=
  if over_limit (w ++ s) then Err bodyLimitError else Ok (w ++ s).

(** Keys in code unit order, on UTF-8 bytes. *)
Fixpoint insert_key {A} (x : string * A) (l : list (string * A)) : list (string * A) :=
  match l with
  | [] => [x]
  | y :: r => if String.leb (fst x) (fst y) then x :: l else y :: insert_key x r
  end.
Fixpoint sort_keys {A} (l : list (string * A)) : list (string * A) :=
  match l with
  | [] => []
  | x :: r => insert_key x (sort_keys r)
  end.

Definition isOmitted (j : json) : bool :=
  match j with JUndefined | JOther => true | _ => false end.

(** [serializePrepared] after [prepare]: a date prints itself, a property
    without a JSON value is left out, an element without one is [null]. *)
Fixpoint stable_chars (j : json) : list ascii :=
  match j with
  | JNull => chars "null"
  | JStr s => stringify_chars s
  | JBool b => chars (if b then "true" else "false")
  | JNum (Finite neg s n) => number_chars neg (Z.of_N s) n
  | JNum NonFinite => chars "null"
  | JDate ms => stringify_chars (toISOString ms)
  | JUndefined | JOther => []
  | JArr l => array_chars (map (fun x => if isOmitted x then chars "null" else stable_chars x) l)
  | JObj es | JInst es =>
      object_chars (sort_keys (flat_map
        (fun e => if isOmitted (snd e) then [] else [(fst e, stable_chars (snd e))]) es))
  end.

Definition stableJsonBytes (v : json) : Res (list ascii) :=
  if isOmitted v then Err (TypeError "JSON body must be serializable")
  else append [] (stable_chars v).

(** [/^[A-Za-z0-9+/]*={0,2}$/]: the characters and the padding. *)
Definition is_pad (c : ascii) : bool := Ascii.eqb c "=".
Fixpoint drop_pad (l : list ascii) : list ascii :=
  match l with c :: r => if is_pad c then drop_pad r else l | [] => [] end.
(** [value.replace(/=+$/, '')]. *)
Definition unpad (l : list ascii) : list ascii := rev (drop_pad (rev l)).

Definition base64_shape (l : list ascii) : bool :=
  let u := unpad l in
  (length l - length u <=? 2)%nat && forallb (fun c => is_some (b64_val c)) u.

(** The padding that makes a text canonical. *)
Definition repad (u : list ascii) : list ascii :=
  u ++ replicate (Nat.modulo (4 - Nat.modulo (length u) 4) 4) "="%char.

(** [Buffer.from(value, 'base64')] on a text of the alphabet, when the text
    without padding is the encoding's. *)
Definition decode_base64_body (value : string) : Res (list ascii) :=
  let l := chars value in
  let len := Z.of_nat (length l) in
  let invalid := Err (TypeError "Invalid base64 paid HTTP body") in
  if (MAX_PAID_HTTP_BODY_BYTES + 2) / 3 * 4 <? len then Err bodyLimitError else
  if negb (base64_shape l) || (Nat.modulo (length (unpad l)) 4 =? 1)%nat
     || (existsb is_pad l && negb (len mod 4 =? 0))
  then invalid else
  let padding := Z.of_nat (length l - length (unpad l)) in
  if MAX_PAID_HTTP_BODY_BYTES <? len * 3 / 4 - padding then Err bodyLimitError else
  match b64_decode (repad (unpad l)) with
  | Some bytes => Ok (map (fun b => Ascii.ascii_of_nat (Z.to_nat b)) bytes)
  | None => invalid
  end.

Definition body_bytes (b : PaidHttpBody) : Res (list ascii) :=
  match b with
  | BodyJson v => stableJsonBytes v
  | BodyText s => append [] (chars s)
  | BodyBase64 s => decode_base64_body s
  end.

Section Platform.
Context `{UrlParser} `{IpClassifier}.

Definition http_or_https (u : Url) : bool := (u_protocol u =s "https:") || (u_protocol u =s "http:").

Definition normalizePaidHttpRequest (request : PaidHttpRequest) : Res NormalizedPaidHttpRequest :=
  match parse_url (rq_url request) with
  | None => Err (TypeError "Invalid paid HTTP URL")
  | Some u =>
      if negb (http_or_https u) then Err (TypeError "Paid HTTP URL must use HTTP or HTTPS") else
      if negb (mem (rq_method request) ["GET"; "POST"; "PUT"; "PATCH"; "DELETE"]%string)
      then Err (TypeError "Unsupported paid HTTP method") else
      if (rq_method request =s "GET") && is_some (rq_body request)
      then Err (TypeError "GET paid HTTP requests cannot include a body") else
      let? _ := res_map check_header (rq_headers request) in
      match rq_body request with
      | None => Ok (mkNormalizedPaidHttpRequest (rq_url request) (rq_method request) (rq_headers request) None)
      | Some body =>
          let? bytes := body_bytes body in
          if over_limit bytes then Err bodyLimitError else
          Ok (mkNormalizedPaidHttpRequest (rq_url request) (rq_method request) (rq_headers request) (Some bytes))
      end
  end.

(** ** The hash of a request *)

(** [updateHashField]: length, colon, bytes. *)
Definition hash_field (bytes : list ascii) : list ascii :=
  digits (Z.of_nat (length bytes)) ++ ":"%char :: bytes.

Definition request_fields (n : NormalizedPaidHttpRequest) : list (list ascii) :=
  [chars (nr_method n); chars (nr_url n); digits (Z.of_nat (length (nr_headers n)))]
  ++ flat_map (fun h => [chars (lower (fst h)); chars (snd h)]) (nr_headers n)
  ++ match nr_body n with None => [chars "0"] | Some b => [chars "1"; b] end.

(** What [hash.update] receives. *)
Definition request_preimage (n : NormalizedPaidHttpRequest) : string :=
  of_chars (flat_map hash_field (request_fields n)).

Definition canonicalPaidHttpRequestHash `{Sha256} (request : PaidHttpRequest) : Res string :=
  let? normalized := normalizePaidHttpRequest request in
  Ok (sha256 (request_preimage normalized)).

(** ** Addresses *)

(** [text.split(sep)]. *)
Fixpoint split_chars (sep : ascii) (l : list ascii) : list (list ascii) :=
  match l with
  | [] => [[]]
  | c :: r => if Ascii.eqb c sep then [] :: split_chars sep r
              else match split_chars sep r with
                   | p :: ps => (c :: p) :: ps
                   | [] => [[c]]
                   end
  end.

(** [text.split('%', 1)[0]]. *)
Definition before_zone (l : list ascii) : list ascii := hd [] (split_chars "%" l).

(** [isIP(address) = 4] leaves four decimal numbers for [Number]. *)
Definition parseIpv4 (address : list ascii) : option (Z * Z * Z * Z) :=
  if negb (isIP (of_chars address) =? 4) then None else
  match map value (split_chars "." address) with
  | a :: b :: c :: d :: _ => Some (a, b, c, d)
  | _ => None
  end.

Definition unsafe_octets (first second third : Z) : bool :=
  (first =? 0) || (first =? 10) || (first =? 127)
  || ((first =? 100) && (64 <=? second) && (second <=? 127))
  || ((first =? 169) && (second =? 254))
  || ((first =? 172) && (16 <=? second) && (second <=? 31))
  || ((first =? 192) && (second =? 0) && ((third =? 0) || (third =? 2)))
  || ((first =? 192) && (second =? 168))
  || ((first =? 192) && (second =? 88) && (third =? 99))
  || ((first =? 198) && ((second =? 18) || (second =? 19)))
  || ((first =? 198) && (second =? 51) && (third =? 100))
  || ((first =? 203) && (second =? 0) && (third =? 113))
  || (224 <=? first).

Definition isUnsafeIpv4 (address : list ascii) : bool :=
  match parseIpv4 address with
  | Some (a, b, c, _) => unsafe_octets a b c
  | None => false
  end.

(** [Number.parseInt(group, 16)] on the digits it starts with. *)
Fixpoint hex_prefix (l : list ascii) (acc : option Z) : option Z :=
  match l with
  | c :: r => match radix_digit 16 c with
              | Some v => hex_prefix r (Some (match acc with Some a => a * 16 + v | None => v end))
              | None => acc
              end
  | [] => acc
  end.

Definition hex_group (z : Z) : list ascii :=
  let d n := hex_char (Z.to_nat n) in
  if z <? 16 then [d z] else if z <? 256 then [d (z / 16); d (z mod 16)]
  else if z <? 4096 then [d (z / 256); d (z / 16 mod 16); d (z mod 16)]
  else [d (z / 4096); d (z / 256 mod 16); d (z / 16 mod 16); d (z mod 16)].

Fixpoint last_colon (l : list ascii) : option (list ascii * list ascii) :=
  match l with
  | [] => None
  | c :: r => match last_colon r with
              | Some (a, b) => Some (c :: a, b)
              | None => if Ascii.eqb c ":" then Some ([], r) else None
              end
  end.

(** The two halves around the first "::"; [None] when there are more. *)
Fixpoint split_double (l : list ascii) : list ascii * option (list ascii) :=
  match l with
  | ":"%char :: ((":"%char :: r) as t) => ([], Some r)
  | c :: r => let '(a, b) := split_double r in (c :: a, b)
  | [] => ([], None)
  end.

Definition groups_of (half : list ascii) : list (list ascii) :=
  match half with [] => [] | _ => split_chars ":" half end.

Definition group_value (g : list ascii) : option Z :=
  match hex_prefix g None with
  | Some v => if v <=? 65535 then Some v else None
  | None => None
  end.

Fixpoint all_some {A} (l : list (option A)) : option (list A) :=
  match l with
  | [] => Some []
  | Some x :: r => option_map (cons x) (all_some r)
  | None :: _ => None
  end.

(** An embedded dotted quad as two groups. *)
Definition expand_ipv4 (l : list ascii) : option (list ascii) :=
  if existsb (Ascii.eqb ".") l then
    match last_colon l with
    | None => None
    | Some (prefix, tail) =>
        match parseIpv4 tail with
        | Some (a, b, c, d) =>
            Some (prefix ++ ":"%char :: hex_group (Z.lor (Z.shiftl a 8) b)
                  ++ ":"%char :: hex_group (Z.lor (Z.shiftl c 8) d))
        | None => None
        end
    end
  else Some l.

Definition ipv6_groups (l : list ascii) : option (list Z) :=
  let '(l1, r1) := split_double l in
  match r1 with
  | None =>
      let left := groups_of l1 in
      if (length left =? 8)%nat then all_some (map group_value left) else None
  | Some r =>
      if is_some (snd (split_double r)) then None else
      let left := groups_of l1 in
      let right := groups_of r in
      if (8 <? length left + length right)%nat then None
      else all_some (map group_value (left ++ replicate (8 - length left - length right) ["0"%char] ++ right))
  end.

Definition parseIpv6 (address : list ascii) : option (list Z) :=
  let normalized := before_zone (map lower_char address) in
  if negb (isIP (of_chars normalized) =? 6) then None else
  match expand_ipv4 normalized with
  | None => None
  | Some l => option_map (flat_map (fun g => [Z.shiftr g 8; Z.land g 255])) (ipv6_groups l)
  end.

(** The rules on the sixteen bytes; [isUnsafeIpv4] of the joined last four is
    the rule on octets. *)
Definition unsafe_bytes (b : list Z) : bool :=
  let at_ i := nth i b (-1) in
  let zero_to n := forallb (fun x => x =? 0) (firstn n b) in
  let first := at_ 0%nat in
  let second := at_ 1%nat in
  let mapped := zero_to 10%nat && (at_ 10%nat =? 255) && (at_ 11%nat =? 255) in
  if mapped then unsafe_octets (at_ 12%nat) (at_ 13%nat) (at_ 14%nat) else
  zero_to 16%nat
  || (zero_to 15%nat && (at_ 15%nat =? 1))
  || ((first =? 254) && (Z.land second 192 =? 128))
  || (Z.land first 254 =? 252)
  || (first =? 255)
  || zero_to 12%nat
  || negb (Z.land first 224 =? 32)
  || ((first =? 32) && (second =? 1) && (at_ 2%nat =? 13) && (at_ 3%nat =? 184))
  || ((first =? 63) && (second =? 255) && (Z.land (at_ 2%nat) 240 =? 0))
  || ((first =? 32) && (second =? 1) && (at_ 2%nat =? 0) && (at_ 3%nat =? 2)
      && (at_ 4%nat =? 0) && (at_ 5%nat =? 0))
  || ((first =? 32) && (second =? 2))
  || ((first =? 32) && (second =? 1) && (at_ 2%nat =? 0) && (at_ 3%nat =? 0))
  || ((first =? 32) && (second =? 1) && (Z.land (at_ 2%nat) 240 =? 16))
  || ((first =? 32) && (second =? 1) && (Z.land (at_ 2%nat) 240 =? 32)).

(** [address.replace(/^\[|\]$/g, '')]: brackets at the ends. *)
Definition strip_brackets (l : list ascii) : list ascii :=
  let l := match l with "["%char :: r => r | _ => l end in
  match rev l with "]"%char :: r => rev r | _ => l end.

Definition isUnsafeIpAddress (address : list ascii) : bool :=
  let normalized := before_zone (strip_brackets address) in
  isUnsafeIpv4 normalized
  || match parseIpv6 normalized with Some b => unsafe_bytes b | None => false end.

Record ValidatedPaidHttpDestination : Type := mkDestination {
  dest_url : string;
  dest_hostname : string;
  dest_addresses : list string
}.

Definition explicitly_allowed (allowHttpOrigins : list string) (parsed : Url) : bool :=
  (u_protocol parsed =s "http:")
  && existsb (fun origin => match parse_url origin with
                            | Some o => u_origin o =s u_origin parsed
                            | None => false
                            end) allowHttpOrigins.

Definition address_ok (allowed : bool) (address : string) : bool :=
  negb ((isIP (of_chars (before_zone (chars address))) =? 0)
        || (negb allowed && isUnsafeIpAddress (chars address))).

(** [resolveHostname] is the answer of the resolver for a name; a numeric
    host is its own address. *)
Definition assertPaidHttpUrlAllowed (allowHttpOrigins : list string)
    (resolveHostname : string -> Res (list string)) (url : string) : Res ValidatedPaidHttpDestination :=
  match parse_url url with
  | None => Err (TypeError "Invalid paid HTTP URL")
  | Some parsed =>
      if negb (http_or_https parsed) then Err (TypeError "Paid HTTP URL must use HTTP or HTTPS") else
      let allowed := explicitly_allowed allowHttpOrigins parsed in
      if negb (u_protocol parsed =s "https:") && negb allowed
      then Err (TypeError "Paid HTTP URL must use HTTPS") else
      let hostname := of_chars (strip_brackets (chars (u_hostname parsed))) in
      let? resolved := if isIP hostname =? 0 then resolveHostname hostname else Ok [hostname] in
      match resolved with
      | [] => Err (TypeError "Paid HTTP hostname resolved to no addresses")
      | _ :: _ =>
          if forallb (address_ok allowed) resolved
          then Ok (mkDestination (u_href parsed) hostname resolved)
          else Err (TypeError "Paid HTTP URL resolved to a disallowed address")
      end
  end.

(** The resolver an accepted destination carries: its own addresses, for its
    own name. *)
Definition pinned_resolver (d : ValidatedPaidHttpDestination) (requestedHostname : string) : Res (list string) :=
  if requestedHostname =s dest_hostname d then Ok (dest_addresses d)
  else Err (TypeError "Pinned paid HTTP destination cannot resolve").
End Platform.

(** ** Destinations across the worker boundary *)

Definition MAX_SERIALIZED_PAID_HTTP_ADDRESSES : nat := 16.
Definition MAX_SERIALIZED_PAID_HTTP_URL_LENGTH : nat := 4096.

Definition invalidSerializedPaidHttpDestination : exn := PaidHttpError "invalid_destination".

(** [serializePaidHttpDestination]: the fields, without the resolver. *)
Definition serializePaidHttpDestination (d : ValidatedPaidHttpDestination) : json :=
  JObj [("url", JStr (dest_url d)); ("hostname", JStr (dest_hostname d));
        ("addresses", JArr (map JStr (dest_addresses d)))]%string.

Definition destination_keys : list string := ["addresses"; "hostname"; "url"]%string.

Fixpoint all_strings (l : list json) : option (list string) :=
  match l with
  | [] => Some []
  | JStr s :: r => option_map (cons s) (all_strings r)
  | _ :: _ => None
  end.

Section Rehydrate.
Context `{UrlParser} `{IpClassifier}.

Definition rehydratePaidHttpDestination (v : json) : Res ValidatedPaidHttpDestination :=
  match v with
  | JObj es =>
      if negb (length es =? 3)%nat || negb (forallb (fun e => mem (fst e) destination_keys) es)
      then Err invalidSerializedPaidHttpDestination else
      match lookup_key "url" es, lookup_key "hostname" es, lookup_key "addresses" es with
      | JStr url, JStr hostname, JArr l =>
          match all_strings l with
          | Some addresses =>
              if (url =s "") || (MAX_SERIALIZED_PAID_HTTP_URL_LENGTH <? String.length url)%nat
                 || (hostname =s "") || (253 <? String.length hostname)%nat
                 || (length addresses =? 0)%nat
                 || (MAX_SERIALIZED_PAID_HTTP_ADDRESSES <? length addresses)%nat
                 || negb (forallb (fun a => negb (isIP a =? 0)) addresses)
              then Err invalidSerializedPaidHttpDestination else
              match parse_url url with
              | Some parsed =>
                  if negb (http_or_https parsed)
                     || negb (of_chars (strip_brackets (chars (u_hostname parsed))) =s hostname)
                  then Err invalidSerializedPaidHttpDestination
                  else Ok (mkDestination url hostname addresses)
              | None => Err invalidSerializedPaidHttpDestination
              end
          | None => Err invalidSerializedPaidHttpDestination
          end
      | _, _, _ => Err invalidSerializedPaidHttpDestination
      end
  | _ => Err invalidSerializedPaidHttpDestination
  end.

Definition revalidatePaidHttpDestination (allowHttpOrigins : list string) (v : json) :
    Res ValidatedPaidHttpDestination :=
  let? captured := rehydratePaidHttpDestination v in
  match assertPaidHttpUrlAllowed allowHttpOrigins (pinned_resolver captured) (dest_url captured) with
  | Ok d => Ok d
  | Err _ => Err invalidSerializedPaidHttpDestination
  end.
End Rehydrate.

(** ** Responses *)

Record PaidHttpResponse : Type := mkPaidHttpResponse {
  rp_status : Z;
  rp_headers : list (string * string);
  rp_contentType : option string;
  rp_bodyEncoding : string;
  rp_body : json;
  rp_sizeBytes : Z
}.

Definition HOP_BY_HOP_RESPONSE_HEADERS : list string :=
  ["connection"; "keep-alive"; "proxy-authenticate"; "proxy-authorization"; "proxy-connection";
   "te"; "trailer"; "transfer-encoding"; "upgrade"]%string.

Definition comma_parts (s : string) : list string :=
  map (fun p => lower (trim (of_chars p))) (split_chars "," (chars s)).

(** On the pairs of [response.rawHeaders]. *)
Definition safeResponseHeaders (raw : list (string * string)) : list (string * string) :=
  let connectionHeaders :=
    flat_map (fun h => if lower (fst h) =s "connection"
                       then List.filter (fun n => negb (n =s "")) (comma_parts (snd h)) else []) raw in
  List.filter (fun h => let n := lower (fst h) in
    negb (mem n HOP_BY_HOP_RESPONSE_HEADERS || mem n connectionHeaders)) raw.

Definition firstHeader (headers : list (string * string)) (name : string) : option string :=
  option_map snd (List.find (fun h => lower (fst h) =s lower name) headers).

Definition hasUnsupportedContentEncoding (headers : list (string * string)) : bool :=
  existsb (fun h => (lower (fst h) =s "content-encoding")
                    && existsb (fun e => negb (e =s "identity")) (comma_parts (snd h))) headers.

(** The [data] events: the chunks received, or the limit passed. *)
Fixpoint receive (maxResponseBytes : Z) (size : Z) (chunks : list (list ascii)) : Res (list ascii) :=
  match chunks with
  | [] => Ok []
  | c :: r =>
      let size := size + Z.of_nat (length c) in
      if maxResponseBytes <? size then Err (PaidHttpError "response_too_large")
      else let? rest := receive maxResponseBytes size r in Ok (c ++ rest)
  end.

(** What a response goes through before it is returned. *)
Definition accept_response (decode : list ascii -> option string -> Res (string * json))
    (maxResponseBytes status : Z) (rawHeaders : list (string * string)) (chunks : list (list ascii)) :
    Res PaidHttpResponse :=
  let headers := safeResponseHeaders rawHeaders in
  if hasUnsupportedContentEncoding headers then Err (PaidHttpError "unsupported_content_encoding") else
  if (300 <=? status) && (status <? 400) && is_some (firstHeader headers "location")
  then Err (PaidHttpError "redirect_not_supported") else
  let? bytes := receive maxResponseBytes 0 chunks in
  let contentType := firstHeader headers "content-type" in
  let? decoded := decode bytes contentType in
  Ok (mkPaidHttpResponse status headers contentType (fst decoded) (snd decoded) (Z.of_nat (length bytes))).

(** ** The quote of a 402 response *)

Record PaymentRequired : Type := mkPaymentRequired {
  prq_resource : list (string * json);
  prq_accepts : list RuntimeX402Accept
}.

Definition isNonemptyString (j : json) : bool :=
  match j with JStr s => negb (s =s "") | _ => false end.

(** A finite number, not negative. *)
Definition timeout_ok (j : json) : bool :=
  match j with JNum (Finite neg s _) => negb neg || (s =? 0)%N | _ => false end.

Definition requirements_ok (j : json) : bool :=
  match j with
  | JObj es =>
      isNonemptyString (lookup_key "scheme" es) && isNonemptyString (lookup_key "network" es)
      && isNonemptyString (lookup_key "asset" es) && isNonemptyString (lookup_key "amount" es)
      && isNonemptyString (lookup_key "payTo" es) && timeout_ok (lookup_key "maxTimeoutSeconds" es)
      && match lookup_key "extra" es with JObj _ => true | _ => false end
  | _ => false
  end.

Definition text_of (j : json) : string := match j with JStr s => s | _ => "" end.
Definition amount_of (j : json) : option Amount :=
  match j with
  | JUndefined => None
  | JStr s => Some (AmountText s)
  | JNum n => Some (AmountNumber n)
  | _ => Some AmountOther
  end.

(** The view [RuntimeX402Accept] takes of a validated offer. *)
Definition accept_of_json (j : json) : RuntimeX402Accept :=
  match j with
  | JObj es =>
      mkRuntimeX402Accept (text_of (lookup_key "scheme" es)) (text_of (lookup_key "network" es))
        (Some (text_of (lookup_key "asset" es))) (amount_of (lookup_key "amount" es))
        (amount_of (lookup_key "maxAmountRequired" es)) (Some (text_of (lookup_key "payTo" es)))
        (match lookup_key "extra" es with JObj e => Some e | _ => None end) es
  | _ => mkRuntimeX402Accept "" "" None None None None None []
  end.

Definition payment_required_invalid : exn := PaidHttpError "payment_required_invalid".

Definition validatedPaymentRequired (v : json) : Res PaymentRequired :=
  match v with
  | JObj es =>
      match lookup_key "x402Version" es, lookup_key "resource" es with
      | JNum (Finite false 2%N 1), JObj resource =>
          match lookup_key "accepts" es with
          | JArr [] => Err (PaidHttpError "payment_required_empty_accepts")
          | JArr accepts =>
              if negb (isNonemptyString (lookup_key "url" resource)) || negb (forallb requirements_ok accepts)
              then Err payment_required_invalid
              else Ok (mkPaymentRequired resource (map accept_of_json accepts))
          | _ => Err payment_required_invalid
          end
      | _, _ => Err payment_required_invalid
      end
  | _ => Err payment_required_invalid
  end.

(** [decodePaymentRequiredHeader] of @x402/core: [None] when it throws. *)
Class HeaderDecoder : Type := decodePaymentRequiredHeader : string -> option json.

Definition paymentRequiredFromResponse `{HeaderDecoder} (response : PaidHttpResponse) : Res PaymentRequired :=
  if negb (rp_status response =? 402) then Err (PaidHttpError "not_payment_required") else
  match firstHeader (rp_headers response) "payment-required" with
  | Some encodedHeader =>
      match decodePaymentRequiredHeader encodedHeader with
      | Some decoded => validatedPaymentRequired decoded
      | None => Err payment_required_invalid
      end
  | None =>
      if negb (rp_bodyEncoding response =s "json") then Err (PaidHttpError "payment_required_missing")
      else validatedPaymentRequired (rp_body response)
  end.
