(* ===== verification/Addresses.v ===== *)
(** The text of an IP address and the number it stands for, after RFC 1123
    (dotted quads) and RFC 4291 (groups, one "::", a quad at the end), apart
    from how [payments/x402-http.ts] reads it; what [isIP] of node:net tells
    about a text, as a class with an executable instance; and that [parseIpv4]
    and [parseIpv6] read every such text right, so that their [undefined] never
    lets an address through. *)

From S2P Require Import Prelude Errors Usdc Json Policy Doubles Quotes ResultCrypto PaidHttp.
Import Digits.
Open Scope Z_scope.

(** ** Texts and values *)

(** Four numbers below 256, in decimal without leading zeros. *)
Definition dotted (a b c d : Z) : list ascii :=
  digits a ++ "."%char :: digits b ++ "."%char :: digits c ++ "."%char :: digits d.

Definition quad_text (t : list ascii) (v : list Z) : Prop :=
  exists a b c d, Forall byte_ok [a; b; c; d] /\ t = dotted a b c d /\ v = [a; b; c; d].

(** The value of a hexadecimal digit is its place among the sixteen. *)
Fixpoint place (c : ascii) (l : list ascii) : option Z :=
  match l with
  | [] => None
  | x :: r => if Ascii.eqb x c then Some 0 else option_map (Z.add 1) (place c r)
  end.
Definition hex_digit (c : ascii) : option Z := place (lower_char c) (chars "0123456789abcdef").

(** One to four hexadecimal digits. *)
Definition group_text (t : list ascii) (g : Z) : Prop :=
  (1 <= length t <= 4)%nat /\
  exists ds, Forall2 (fun c d => hex_digit c = Some d) t ds /\ g = fold_left (fun g d => 16 * g + d) ds 0.

(** Groups between colons; with the flag, the last two are a dotted quad. *)
Inductive seq_text : bool -> list ascii -> list Z -> Prop :=
| seq_group t g : group_text t g -> seq_text false t [g]
| seq_quad t a b c d : quad_text t [a; b; c; d] -> seq_text true t [256 * a + b; 256 * c + d]
| seq_cons q t g r gs : group_text t g -> seq_text q r gs -> seq_text q (t ++ ":"%char :: r) (g :: gs).

(** The half before or after "::" may be empty. *)
Inductive half_text : bool -> list ascii -> list Z -> Prop :=
| half_empty : half_text false [] []
| half_seq q t gs : seq_text q t gs -> half_text q t gs.

(** Eight groups, "::" standing for the zeros that are missing. *)
Inductive v6_text : bool -> list ascii -> list Z -> Prop :=
| v6_full q t gs : seq_text q t gs -> length gs = 8%nat -> v6_text q t gs
| v6_gap q l gl r gr :
    half_text false l gl -> half_text q r gr -> (length gl + length gr <= 7)%nat ->
    v6_text q (l ++ ":"%char :: ":"%char :: r) (gl ++ replicate (8 - length gl - length gr) 0 ++ gr).

Definition group_bytes (gs : list Z) : list Z := flat_map (fun g => [g / 256; g mod 256]) gs.

(** The text of an address and its bytes, four or sixteen. *)
Definition address_text (t : list ascii) (b : list Z) : Prop :=
  quad_text t b \/ exists q gs, v6_text q t gs /\ b = group_bytes gs.

(** A zone may follow the text. *)
Definition denotes (address : string) (b : list Z) : Prop :=
  exists t zone, chars address = t ++ zone /\ address_text t b /\ (zone = [] \/ head zone = Some "%"%char).

(** ** [isIP] of node:net *)

(** On a text without a zone: 4 for a dotted quad, 6 for groups, 0 for
    anything else. *)
Class IpLaws `{IpClassifier} : Prop := {
  isIP_v4 s : isIP s = 4 <-> exists v, quad_text (chars s) v;
  isIP_v6 s : ~ In "%"%char (chars s) -> isIP s = 6 <-> exists q gs, v6_text q (chars s) gs;
  isIP_cases s : isIP s = 0 \/ isIP s = 4 \/ isIP s = 6
}.

(** An executable classifier with these laws (its instance is below). *)
Definition group_shape (t : list ascii) : bool :=
  (1 <=? length t)%nat && (length t <=? 4)%nat && forallb (fun c => is_some (hex_digit c)) t.

Definition octet_shape (t : list ascii) : bool :=
  forallb is_digit t && (value t <=? 255) && (of_chars (digits (value t)) =s of_chars t).

Definition quad_shape (t : list ascii) : bool :=
  let parts := split_chars "." t in (length parts =? 4)%nat && forallb octet_shape parts.

(** The number of groups of a sequence; a quad counts for two. *)
Fixpoint groups_count (quads : bool) (parts : list (list ascii)) : option nat :=
  match parts with
  | [] => None
  | [t] => if group_shape t then Some 1%nat else if quads && quad_shape t then Some 2%nat else None
  | t :: r => if group_shape t then option_map S (groups_count quads r) else None
  end.

Definition half_count (quads : bool) (t : list ascii) : option nat :=
  match t with [] => Some O | _ => groups_count quads (split_chars ":" t) end.

Definition v6_shape (t : list ascii) : bool :=
  match split_double t with
  | (l, None) => match groups_count true (split_chars ":" l) with Some n => (n =? 8)%nat | None => false end
  | (l, Some r) =>
      match half_count false l, half_count true r with
      | Some n, Some k => (n + k <=? 7)%nat
      | _, _ => false
      end
  end.

Definition classify : IpClassifier := fun s =>
  if quad_shape (chars s) then 4 else if v6_shape (chars s) then 6 else 0.

(** ** Characters *)

Definition addr_char (c : ascii) : bool :=
  is_some (hex_digit c) || Ascii.eqb c ":" || Ascii.eqb c ".".

(** The facts on single bytes, by evaluation. *)
Ltac each_byte c := destruct c as [[] [] [] [] [] [] [] []]; vm_compute; congruence.

Lemma hex_digit_radix c : radix_digit 16 c = hex_digit c.
Proof. destruct c as [[] [] [] [] [] [] [] []]; reflexivity. Qed.

Lemma hex_digit_range c v : hex_digit c = Some v -> 0 <= v < 16.
Proof. destruct c as [[] [] [] [] [] [] [] []]; vm_compute; intros [= <-]; split; congruence. Qed.

Lemma hex_digit_lower c : hex_digit (lower_char c) = hex_digit c.
Proof. destruct c as [[] [] [] [] [] [] [] []]; reflexivity. Qed.

Lemma hex_digit_plain c : is_some (hex_digit c) = true -> Ascii.eqb c ":" = false /\ Ascii.eqb c "." = false.
Proof. destruct c as [[] [] [] [] [] [] [] []]; vm_compute; intros; (discriminate || done). Qed.

Lemma digit_hex c : is_digit c = true -> is_some (hex_digit c) = true /\ lower_char c = c.
Proof. destruct c as [[] [] [] [] [] [] [] []]; vm_compute; intros; (discriminate || done). Qed.

Lemma addr_char_other c :
  addr_char c = true -> Ascii.eqb c "%" = false /\ Ascii.eqb c "[" = false /\ Ascii.eqb c "]" = false.
Proof. destruct c as [[] [] [] [] [] [] [] []]; vm_compute; intros; (discriminate || done). Qed.

Definition no_char (s : ascii) (l : list ascii) : bool := forallb (fun c => negb (Ascii.eqb c s)) l.

Lemma no_char_app s l k : no_char s (l ++ k) = no_char s l && no_char s k.
Proof. apply forallb_app. Qed.

Lemma forallb_weaken {A} (p q : A -> bool) l :
  (forall x, p x = true -> q x = true) -> forallb p l = true -> forallb q l = true.
Proof. intros Hpq. rewrite !forallb_forall. auto. Qed.

Lemma hex_no_colon t : forallb (fun c => is_some (hex_digit c)) t = true -> no_char ":" t = true /\ no_char "." t = true.
Proof.
  intros Ht. split; (eapply forallb_weaken; [|exact Ht]); intros c Hc; destruct (hex_digit_plain c Hc) as [E1 E2];
    cbn beta; by rewrite ?E1, ?E2.
Qed.

Lemma digits_chars n : 0 <= n -> no_char ":" (digits n) = true /\ no_char "." (digits n) = true /\
  map lower_char (digits n) = digits n /\ forallb addr_char (digits n) = true.
Proof.
  intros Hn. pose proof (digits_all n Hn) as Hd.
  assert (Hh : forallb (fun c => is_some (hex_digit c)) (digits n) = true)
    by (eapply forallb_weaken; [|exact Hd]; intros c Hc; apply (digit_hex c Hc)).
  destruct (hex_no_colon _ Hh) as [H1 H2]. do 2 (split; [done|]). split.
  - induction (digits n) as [|c l IH]; cbn in *; [done|]. bsimpl.
    rewrite (proj2 (digit_hex c ltac:(done))), IH; try done; by destruct (hex_no_colon l).
  - eapply forallb_weaken; [|exact Hh]. intros c Hc. unfold addr_char. by rewrite Hc.
Qed.

(** ** Splitting *)

Lemma split_chars_none s l : no_char s l = true -> split_chars s l = [l].
Proof.
  induction l as [|c l IH]; cbn; [done|]. intros [Hc Hl]%andb_prop. apply negb_true_iff in Hc. by rewrite Hc, IH.
Qed.

Lemma split_chars_cons s l k : no_char s l = true -> split_chars s (l ++ s :: k) = l :: split_chars s k.
Proof.
  induction l as [|c l IH]; cbn; [by rewrite Ascii.eqb_refl|]. intros [Hc Hl]%andb_prop.
  apply negb_true_iff in Hc. by rewrite Hc, IH.
Qed.

Lemma split_chars_ne s l : split_chars s l <> [].
Proof. destruct l as [|c l]; cbn; [done|]. destruct (Ascii.eqb _ _); [done|]. by destruct (split_chars s l). Qed.

Lemma before_zone_text t zone :
  no_char "%" t = true -> zone = [] \/ head zone = Some "%"%char -> before_zone (t ++ zone) = t.
Proof.
  intros Ht [->|Hz]; unfold before_zone.
  - by rewrite app_nil_r, split_chars_none.
  - destruct zone as [|z zone]; [done|]. injection Hz as ->. by rewrite split_chars_cons.
Qed.

(** ** Dotted quads *)

Lemma quad_split a b c d : Forall byte_ok [a; b; c; d] ->
  split_chars "." (dotted a b c d) = [digits a; digits b; digits c; digits d].
Proof.
  rewrite !Forall_cons. intros ([? _] & [? _] & [? _] & [? _] & _). unfold dotted.
  rewrite !split_chars_cons, split_chars_none by by apply digits_chars. done.
Qed.

Lemma quad_chars t v : quad_text t v ->
  no_char ":" t = true /\ no_char "." t = false /\ map lower_char t = t /\ forallb addr_char t = true.
Proof.
  intros (a & b & c & d & Hb & -> & ->). rewrite !Forall_cons in Hb.
  destruct Hb as ([Ha _] & [Hb _] & [Hc _] & [Hd _] & _).
  pose proof (digits_chars a Ha) as (A1 & A2 & A3 & A4). pose proof (digits_chars b Hb) as (B1 & B2 & B3 & B4).
  pose proof (digits_chars c Hc) as (C1 & C2 & C3 & C4). pose proof (digits_chars d Hd) as (D1 & D2 & D3 & D4).
  unfold dotted. repeat split.
  - rewrite no_char_app, A1. cbn [no_char forallb]. fold (no_char ":").
    change (forallb _ ?l) with (no_char ":" l). rewrite no_char_app, B1. cbn [no_char forallb].
    change (forallb _ ?l) with (no_char ":" l). rewrite no_char_app, C1. cbn [no_char forallb].
    change (forallb _ ?l) with (no_char ":" l). by rewrite D1.
  - rewrite no_char_app. cbn. apply andb_false_r.
  - rewrite !map_app. cbn [map]. rewrite map_app. cbn [map]. rewrite map_app. cbn [map]. by rewrite A3, B3, C3, D3.
  - rewrite forallb_app, A4. cbn [forallb]. rewrite forallb_app, B4. cbn [forallb].
    rewrite forallb_app, C4. cbn [forallb]. by rewrite D4.
Qed.

Lemma parseIpv4_quad `{IpLaws} t a b c d : quad_text t [a; b; c; d] -> parseIpv4 t = Some (a, b, c, d).
Proof.
  intros (a' & b' & c' & d' & Hb & -> & [= <- <- <- <-]). unfold parseIpv4.
  assert (isIP (of_chars (dotted a b c d)) = 4) as ->.
  { apply isIP_v4. rewrite chars_of_chars. by exists [a; b; c; d], a, b, c, d. }
  cbn [Z.eqb negb Pos.eqb]. rewrite quad_split by done. rewrite !Forall_cons in Hb.
  destruct Hb as ([? _] & [? _] & [? _] & [? _] & _). cbn [map]. by rewrite !digits_value.
Qed.

(** ** Groups *)

Lemma group_hex t g : group_text t g -> forallb (fun c => is_some (hex_digit c)) t = true.
Proof. intros (_ & ds & Hd & _). induction Hd as [|c d t ds E _ IH]; cbn [forallb]; [done|]. by rewrite E. Qed.

Lemma group_ne t g : group_text t g -> exists c r, t = c :: r /\ Ascii.eqb c ":" = false.
Proof.
  intros Hg. pose proof (group_hex t g Hg) as Hh. destruct t as [|c r]; [destruct Hg as [[H _] _]; cbn in H; lia|].
  exists c, r. split; [done|]. cbn in Hh. apply andb_prop in Hh as [Hc _]. by apply (hex_digit_plain c).
Qed.

Lemma hex_prefix_fold t ds a :
  Forall2 (fun c d => hex_digit c = Some d) t ds ->
  hex_prefix t (Some a) = Some (fold_left (fun g d => 16 * g + d) ds a).
Proof.
  intros Hd. revert a. induction Hd as [|c d t ds E _ IH]; intros a; cbn [hex_prefix fold_left]; [done|].
  rewrite hex_digit_radix, E, IH. by rewrite (Z.mul_comm a).
Qed.

Lemma fold_range t ds a :
  Forall2 (fun c d => hex_digit c = Some d) t ds -> 0 <= a ->
  0 <= fold_left (fun g d => 16 * g + d) ds a < (a + 1) * 16 ^ Z.of_nat (length t).
Proof.
  intros Hd. revert a. induction Hd as [|c d t ds E _ IH]; intros a Ha; cbn [fold_left length].
  - change (16 ^ Z.of_nat 0) with 1. lia.
  - apply hex_digit_range in E. destruct (IH (16 * a + d) ltac:(lia)) as [L1 L2]. split; [done|].
    rewrite Nat2Z.inj_succ, Z.pow_succ_r by lia. nia.
Qed.

Lemma group_range t g : group_text t g -> 0 <= g < 65536.
Proof.
  intros ([_ Hl] & ds & Hd & ->). destruct (fold_range t ds 0 Hd ltac:(lia)) as [L1 L2]. split; [done|].
  assert (16 ^ Z.of_nat (length t) <= 16 ^ 4) by (apply Z.pow_le_mono_r; lia). lia.
Qed.

Lemma group_value_text t g : group_text t g -> group_value t = Some g.
Proof.
  intros Hg. pose proof (group_range t g Hg). destruct Hg as ([Hl _] & ds & Hd & ->). unfold group_value.
  destruct Hd as [|c d t ds E Hd]; [cbn in Hl; lia|]. cbn [hex_prefix]. rewrite hex_digit_radix, E.
  rewrite (hex_prefix_fold t ds d Hd). cbn [fold_left] in *. change (16 * 0 + d) with d in *.
  destruct (_ <=? _) eqn:El; [done|]. apply Z.leb_gt in El. lia.
Qed.

(** The code prints the two groups of a quad. *)
Lemma hex_char_value n : 0 <= n < 16 -> hex_digit (hex_char (Z.to_nat n)) = Some n.
Proof.
  intros Hn. assert (H : forallb (fun k => match hex_digit (hex_char k) with Some v => v =? Z.of_nat k | None => false end)
    (seq 0 16) = true) by (vm_compute; reflexivity).
  rewrite forallb_forall in H. specialize (H (Z.to_nat n) ltac:(apply in_seq; lia)). cbn beta in H.
  destruct (hex_digit _); [|done]. apply Z.eqb_eq in H. f_equal. lia.
Qed.

Lemma hex_group_text z : 0 <= z < 65536 -> group_text (hex_group z) z.
Proof.
  intros Hz. unfold hex_group.
  assert (Hd : forall n, 0 <= n < 16 -> hex_digit (hex_char (Z.to_nat n)) = Some n) by apply hex_char_value.
  assert (L1 : 0 <= z mod 16 < 16) by (apply Z.mod_pos_bound; lia).
  assert (L2 : 0 <= z / 16 mod 16 < 16) by (apply Z.mod_pos_bound; lia).
  assert (L3 : 0 <= z / 256 mod 16 < 16) by (apply Z.mod_pos_bound; lia).
  destruct (Z.ltb_spec z 16); [|destruct (Z.ltb_spec z 256); [|destruct (Z.ltb_spec z 4096)]];
    (split; [cbn; lia|]); eexists; (split; [repeat constructor; apply Hd; Z.div_mod_to_equations; lia|]);
    cbn [fold_left]; Z.div_mod_to_equations; lia.
Qed.

Lemma quad_group a b : byte_ok a -> byte_ok b -> Z.lor (Z.shiftl a 8) b = 256 * a + b.
Proof.
  intros Ha Hb. unfold byte_ok in *.
  assert (Z.land (Z.shiftl a 8) b = 0) as E.
  { apply Z.bits_inj'. intros n Hn. rewrite Z.land_spec, Z.bits_0.
    destruct (Z.ltb_spec n 8); [by rewrite Z.shiftl_spec_low|].
    rewrite (Z.bits_above_log2 b n); [by rewrite andb_false_r|lia|].
    destruct (Z.eq_dec b 0) as [->|]; [cbn; lia|].
    apply Z.log2_lt_pow2; [lia|]. apply Z.lt_le_trans with (2 ^ 8); [lia|]. apply Z.pow_le_mono_r; lia. }
  pose proof (Z.add_lor_land (Z.shiftl a 8) b) as L. rewrite E, Z.shiftl_mul_pow2 in L by lia.
  rewrite Z.shiftl_mul_pow2 by lia. lia.
Qed.

(** ** Sequences of groups *)

Lemma seq_ne q t gs : seq_text q t gs -> exists c r, t = c :: r /\ Ascii.eqb c ":" = false.
Proof.
  intros [t' g Hg|t' a b c d Hq|q' t' g r gs' Hg _]; [by eapply group_ne| |].
  - destruct (quad_chars _ _ Hq) as (Hn & Hd & _). destruct t' as [|x r]; [done|]. exists x, r. split; [done|].
    cbn in Hn. by apply andb_prop in Hn as [Hn%negb_true_iff _].
  - destruct (group_ne t' g Hg) as (x & l & -> & Hx). by exists x, (l ++ ":"%char :: r).
Qed.

Lemma split_double_plain t x : no_char ":" t = true ->
  split_double (t ++ x) = (t ++ fst (split_double x), snd (split_double x)).
Proof.
  induction t as [|c t IH]; intros Ht; [cbn [app]; by destruct (split_double x) as [? ?]|]. cbn in Ht.
  apply andb_prop in Ht as [Hc Ht]. apply negb_true_iff in Hc. cbn [app]. specialize (IH Ht).
  assert (split_double (c :: t ++ x) = let '(a, b) := split_double (t ++ x) in (c :: a, b)) as ->.
  { cbn. destruct c as [[] [] [] [] [] [] [] []]; try reflexivity. by vm_compute in Hc. }
  by rewrite IH.
Qed.

Lemma split_double_colon c r : Ascii.eqb c ":" = false ->
  split_double (":"%char :: c :: r) = (":"%char :: fst (split_double (c :: r)), snd (split_double (c :: r))).
Proof.
  intros Hc. assert (split_double (":"%char :: c :: r) = let '(a, b) := split_double (c :: r) in (":"%char :: a, b)) as ->.
  { destruct c as [[] [] [] [] [] [] [] []]; try reflexivity. by vm_compute in Hc. }
  by destruct (split_double (c :: r)).
Qed.

Lemma seq_split_double q t gs x : seq_text q t gs ->
  split_double (t ++ x) = (t ++ fst (split_double x), snd (split_double x)).
Proof.
  induction 1 as [t g Hg|t a b c d Hq|q t g r gs Hg Hs IH].
  - apply split_double_plain, hex_no_colon. by eapply group_hex.
  - apply split_double_plain. by eapply quad_chars.
  - rewrite <-app_assoc. cbn [app]. rewrite split_double_plain by (apply hex_no_colon; by eapply group_hex).
    destruct (seq_ne _ _ _ Hs) as (c & l & E & Hc). rewrite E in *. cbn [app] in *.
    rewrite (split_double_colon c (l ++ x) Hc), IH. cbn [fst snd]. by rewrite <-app_assoc.
Qed.

(** The parts between the colons are the groups. *)
Lemma seq_parts q t gs : seq_text q t gs -> q = false -> Forall2 group_text (split_chars ":" t) gs.
Proof.
  induction 1 as [t g Hg|t a b c d Hq|q t g r gs Hg Hs IH]; intros Eq; [|done|].
  - rewrite split_chars_none by (apply hex_no_colon; by eapply group_hex). constructor; [done|constructor].
  - rewrite split_chars_cons by (apply hex_no_colon; by eapply group_hex). constructor; auto.
Qed.

Lemma half_parts q t gs : half_text q t gs -> q = false -> Forall2 group_text (groups_of t) gs.
Proof.
  intros [|q' t' gs' Hs] Eq; [constructor|].
  destruct (seq_ne _ _ _ Hs) as (c & l & -> & _). by eapply seq_parts.
Qed.

Lemma groups_values ts gs : Forall2 group_text ts gs -> all_some (map group_value ts) = Some gs.
Proof. induction 1 as [|t g ts gs Hg _ IH]; cbn; [done|]. by rewrite (group_value_text t g Hg), IH. Qed.

Lemma half_split_double q l gl x : half_text q l gl ->
  split_double (l ++ x) = (l ++ fst (split_double x), snd (split_double x)).
Proof. intros [|q' t gs Hs]; [cbn [app]; by destruct (split_double x) as [? ?]|by eapply seq_split_double]. Qed.

Lemma ipv6_groups_text q t gs : v6_text q t gs -> q = false -> ipv6_groups t = Some gs.
Proof.
  intros [q' t' gs' Hs Hl|q' l gl r gr Hl Hr Hn] Eq; unfold ipv6_groups.
  - rewrite <-(app_nil_r t') at 1. rewrite (seq_split_double _ _ _ [] Hs). cbn. rewrite app_nil_r.
    pose proof (half_parts _ _ _ (half_seq _ _ _ Hs) Eq) as Hp. rewrite (Forall2_length _ _ _ Hp), Hl. by apply groups_values.
  - rewrite (half_split_double _ _ _ _ Hl). cbn -[Nat.ltb]. rewrite app_nil_r.
    rewrite <-(app_nil_r r) at 1. rewrite (half_split_double _ _ _ [] Hr). cbn -[Nat.ltb].
    pose proof (half_parts _ _ _ Hl eq_refl) as Hpl. pose proof (half_parts _ _ _ Hr Eq) as Hpr.
    rewrite (Forall2_length _ _ _ Hpl), (Forall2_length _ _ _ Hpr).
    destruct (Nat.ltb_spec 8 (length gl + length gr)); [lia|]. apply groups_values.
    apply Forall2_app; [done|]. apply Forall2_app; [|done].
    apply Forall2_replicate. split; [cbn; lia|]. exists [0]. by repeat constructor.
Qed.

(** ** The quad at the end *)

Lemma last_colon_plain t : no_char ":" t = true -> last_colon t = None.
Proof.
  induction t as [|c t IH]; cbn; [done|]. intros [Hc Ht]%andb_prop. rewrite IH by done.
  apply negb_true_iff in Hc. by rewrite Hc.
Qed.

Lemma last_colon_app p t : no_char ":" t = true -> last_colon (p ++ ":"%char :: t) = Some (p, t).
Proof.
  intros Ht. induction p as [|c p IH]; cbn; [by rewrite last_colon_plain|]. by rewrite IH.
Qed.

(** Two groups can stand in the place of the quad. *)
Definition as_groups (p : list ascii) (a b c d : Z) : list ascii :=
  p ++ hex_group (Z.lor (Z.shiftl a 8) b) ++ ":"%char :: hex_group (Z.lor (Z.shiftl c 8) d).

Lemma seq_as_groups q t gs : seq_text q t gs -> q = true ->
  exists p u a b c d, t = p ++ u /\ quad_text u [a; b; c; d] /\ seq_text false (as_groups p a b c d) gs /\
    ((2 < length gs)%nat -> exists p', p = p' ++ [":"%char]) /\ (p = [] \/ exists p', p = p' ++ [":"%char]).
Proof.
  induction 1 as [|t a b c d Hq|q t g r gs Hg Hs IH]; intros Eq; [done| |].
  - exists [], t, a, b, c, d. split; [done|]. split; [done|]. split; [|split; [cbn; lia|by left]].
    destruct Hq as (? & ? & ? & ? & Hb & _ & [= <- <- <- <-]). rewrite !Forall_cons in Hb.
    destruct Hb as (Ha & Hb & Hc & Hd & _). unfold as_groups. cbn [app]. rewrite !quad_group by done.
    unfold byte_ok in *. apply seq_cons; [|apply seq_group]; apply hex_group_text; lia.
  - destruct (IH Eq) as (p & u & a & b & c & d & -> & Hu & Hs' & _ & Hp).
    assert (Hp' : exists p', t ++ ":"%char :: p = p' ++ [":"%char]).
    { destruct Hp as [->|[p' ->]]; [by exists t|]. exists (t ++ ":"%char :: p'). by rewrite <-app_assoc. }
    exists (t ++ ":"%char :: p), u, a, b, c, d. rewrite <-app_assoc. split; [done|]. split; [done|].
    split; [|split; [done|by right]]. unfold as_groups. rewrite <-app_assoc. cbn [app]. by apply seq_cons.
Qed.

Lemma v6_as_groups q t gs : v6_text q t gs -> q = true ->
  exists p u a b c d, t = p ++ ":"%char :: u /\ quad_text u [a; b; c; d] /\
    v6_text false (as_groups (p ++ [":"%char]) a b c d) gs.
Proof.
  intros [q' t' gs' Hs Hl|q' l gl r gr Hl Hr Hn] Eq.
  - destruct (seq_as_groups _ _ _ Hs Eq) as (p & u & a & b & c & d & -> & Hu & Hs' & Hp & _).
    destruct Hp as [p' ->]; [lia|]. exists p', u, a, b, c, d. rewrite <-app_assoc. split; [done|]. split; [done|].
    by apply v6_full.
  - destruct Hr as [|q' r gr Hr]; [done|].
    destruct (seq_as_groups _ _ _ Hr Eq) as (p & u & a & b & c & d & -> & Hu & Hs' & _ & Hp).
    assert (exists p', ":"%char :: p = p' ++ [":"%char]) as [p' Ep].
    { destruct Hp as [->|[p' ->]]; [by exists []|]. by exists (":"%char :: p'). }
    assert (Hx : forall x, p' ++ ":"%char :: x = ":"%char :: p ++ x).
    { intros x. change (":"%char :: p ++ x) with ((":"%char :: p) ++ x). by rewrite Ep, <-app_assoc. }
    exists (l ++ ":"%char :: p'), u, a, b, c, d. split; [|split; [done|]].
    { rewrite <-!app_assoc. cbn [app]. by rewrite Hx. }
    assert (as_groups ((l ++ ":"%char :: p') ++ [":"%char]) a b c d
            = l ++ ":"%char :: ":"%char :: as_groups p a b c d) as ->.
    { unfold as_groups. rewrite <-!app_assoc. cbn [app]. by rewrite Hx. }
    by apply v6_gap; [|apply half_seq|].
Qed.

Lemma seq_chars q t gs : seq_text q t gs ->
  forallb addr_char t = true /\ no_char "." t = negb q /\ seq_text q (map lower_char t) gs.
Proof.
  assert (Hgrp : forall t g, group_text t g -> forallb addr_char t = true /\ no_char "." t = true /\
    group_text (map lower_char t) g).
  { intros t' g Hg. pose proof (group_hex _ _ Hg) as Hh. split; [|split].
    - eapply forallb_weaken; [|exact Hh]. intros c Hc. unfold addr_char. by rewrite Hc.
    - by apply hex_no_colon.
    - destruct Hg as (Hl & ds & Hd & ->). split; [by rewrite length_map|]. exists ds. split; [|done].
      clear -Hd. induction Hd as [|c d t ds E _ IH]; cbn [map]; constructor; [by rewrite hex_digit_lower|done]. }
  induction 1 as [t g Hg|t a b c d Hq|q t g r gs Hg Hs (IH1 & IH2 & IH3)].
  - destruct (Hgrp t g Hg) as (H1 & H2 & H3). split; [done|]. split; [done|]. by apply seq_group.
  - destruct (quad_chars _ _ Hq) as (_ & H2 & H3 & H4). split; [done|]. split; [done|]. rewrite H3. by apply seq_quad.
  - destruct (Hgrp t g Hg) as (H1 & H2 & H3). split; [|split].
    + rewrite forallb_app, H1. cbn [forallb]. by rewrite IH1.
    + rewrite no_char_app, H2. exact IH2.
    + rewrite map_app. cbn [map]. by apply seq_cons.
Qed.

Lemma half_chars q t gs : half_text q t gs ->
  forallb addr_char t = true /\ no_char "." t = negb q /\ half_text q (map lower_char t) gs.
Proof.
  intros [|q' t' gs' Hs]; [repeat split; constructor|]. destruct (seq_chars _ _ _ Hs) as (H1 & H2 & H3).
  split; [done|]. split; [done|]. by apply half_seq.
Qed.

Lemma v6_chars q t gs : v6_text q t gs ->
  forallb addr_char t = true /\ no_char "." t = negb q /\ v6_text q (map lower_char t) gs.
Proof.
  intros [q' t' gs' Hs Hl|q' l gl r gr Hl Hr Hn].
  - destruct (seq_chars _ _ _ Hs) as (H1 & H2 & H3). split; [done|]. split; [done|]. by apply v6_full.
  - destruct (half_chars _ _ _ Hl) as (H1 & H2 & H3), (half_chars _ _ _ Hr) as (H4 & H5 & H6). split; [|split].
    + rewrite forallb_app, H1. cbn [forallb]. by rewrite H4.
    + rewrite no_char_app, H2. exact H5.
    + rewrite map_app. cbn [map]. by apply v6_gap.
Qed.

Lemma v6_values q t gs : v6_text q t gs -> length gs = 8%nat /\ Forall (fun g => 0 <= g < 65536) gs.
Proof.
  assert (Hs : forall q t gs, seq_text q t gs -> Forall (fun g => 0 <= g < 65536) gs).
  { induction 1 as [t' g Hg|t' a b c d Hq|q' t' g r gs' Hg _ IH].
    - constructor; [by eapply group_range|constructor].
    - destruct Hq as (? & ? & ? & ? & Hb & _ & [= <- <- <- <-]). rewrite !Forall_cons in Hb. unfold byte_ok in Hb.
      repeat constructor; lia.
    - constructor; [by eapply group_range|done]. }
  assert (Hh : forall q t gs, half_text q t gs -> Forall (fun g => 0 <= g < 65536) gs)
    by (intros q' t' gs' [|]; [constructor|eauto]).
  intros [q' t' gs' H Hl|q' l gl r gr Hl Hr Hn]; [split; [done|by eauto]|]. split.
  - rewrite !length_app, length_replicate. lia.
  - rewrite !Forall_app. split; [by eauto|]. split; [|by eauto]. by apply Forall_replicate.
Qed.

Lemma no_char_notin s l : no_char s l = true -> ~ In s l.
Proof.
  unfold no_char. rewrite forallb_forall. intros Hl Hin. specialize (Hl s Hin). by rewrite Ascii.eqb_refl in Hl.
Qed.

Lemma addr_no_zone t : forallb addr_char t = true -> no_char "%" t = true.
Proof. apply forallb_weaken. intros c Hc. by destruct (addr_char_other c Hc) as [-> _]. Qed.

(** [parseIpv6] reads every text of an IPv6 address, in either case. *)
Lemma parseIpv6_text `{IpLaws} q t gs : v6_text q t gs -> parseIpv6 t = Some (group_bytes gs).
Proof.
  intros Ht. destruct (v6_chars _ _ _ Ht) as (_ & _ & Hl). destruct (v6_chars _ _ _ Hl) as (Hc & Hd & _).
  unfold parseIpv6. set (n := map lower_char t) in *. apply addr_no_zone in Hc.
  assert (before_zone n = n) as -> by (rewrite <-(app_nil_r n) at 1; by rewrite before_zone_text by auto).
  assert (isIP (of_chars n) = 6) as ->.
  { apply isIP_v6; rewrite chars_of_chars; [by apply no_char_notin|by eauto]. }
  cbn [Z.eqb Pos.eqb negb]. destruct (v6_values _ _ _ Hl) as [_ Hr].
  assert (Hb : flat_map (fun g => [Z.shiftr g 8; Z.land g 255]) gs = group_bytes gs).
  { clear -Hr. unfold group_bytes. induction Hr as [|g gs Hg _ IH]; cbn [flat_map]; [done|]. rewrite IH.
    rewrite Z.shiftr_div_pow2 by lia. change 255 with (Z.ones 8). by rewrite Z.land_ones by lia. }
  assert (existsb (Ascii.eqb ".") n = q) as Edot.
  { apply (f_equal negb) in Hd. rewrite negb_involutive in Hd. rewrite <-Hd. clear. unfold no_char.
    induction n as [|c l IH]; cbn; [done|]. rewrite IH, negb_andb, negb_involutive. by rewrite Ascii.eqb_sym. }
  unfold expand_ipv4. rewrite Edot. destruct q.
  - destruct (v6_as_groups _ _ _ Hl eq_refl) as (p & u & a & b & c & d & E & Hu & Hg). rewrite E.
    rewrite last_colon_app by by eapply quad_chars. rewrite (parseIpv4_quad u a b c d Hu).
    unfold as_groups in Hg. rewrite <-app_assoc in Hg. cbn [app] in Hg.
    rewrite (ipv6_groups_text _ _ _ Hg eq_refl). cbn [option_map]. by rewrite Hb.
  - rewrite (ipv6_groups_text _ _ _ Hl eq_refl). cbn [option_map]. by rewrite Hb.
Qed.

(** ** The classifier is one *)

Fixpoint join (s : ascii) (parts : list (list ascii)) : list ascii :=
  match parts with
  | [] => []
  | [t] => t
  | t :: r => t ++ s :: join s r
  end.

Lemma join_split s l : join s (split_chars s l) = l.
Proof.
  induction l as [|c l IH]; cbn [split_chars]; [done|]. destruct (Ascii.eqb_spec c s) as [->|Hc].
  - pose proof (split_chars_ne s l). destruct (split_chars s l) as [|x r] eqn:E; [done|].
    change (join s ([] :: x :: r)) with ([] ++ s :: join s (x :: r)). by rewrite IH.
  - destruct (split_chars s l) as [|x r]; [by cbn in IH; subst|]. rewrite <-IH. by destruct r.
Qed.

Lemma octet_shape_spec t : octet_shape t = true <-> exists n, byte_ok n /\ t = digits n.
Proof.
  unfold octet_shape, byte_ok. rewrite !andb_true_iff, Z.leb_le, eqs_spec. split.
  - intros [[Hd Hv] E]. apply (f_equal chars) in E. rewrite !chars_of_chars in E.
    exists (value t). pose proof (value_range t Hd). split; [lia|done].
  - intros (n & Hn & ->). rewrite digits_value, digits_all by lia. repeat split; lia.
Qed.

Lemma quad_shape_spec t : quad_shape t = true <-> exists v, quad_text t v.
Proof.
  unfold quad_shape. rewrite andb_true_iff, Nat.eqb_eq. split.
  - intros [Hl Hf]. pose proof (join_split "." t) as Ej.
    destruct (split_chars "." t) as [|x1 [|x2 [|x3 [|x4 [|? ?]]]]]; try discriminate Hl.
    cbn [forallb] in Hf. rewrite !andb_true_iff, !octet_shape_spec in Hf.
    destruct Hf as ((a & Ha & ->) & (b & Hb & ->) & (c & Hc & ->) & (d & Hd & ->) & _).
    exists [a; b; c; d], a, b, c, d. split; [by rewrite !Forall_cons|]. split; [by rewrite <-Ej|done].
  - intros (v & a & b & c & d & Hb & -> & ->). rewrite quad_split by done. split; [done|].
    rewrite !Forall_cons in Hb. destruct Hb as (Ha & Hb & Hc & Hd & _). cbn [forallb].
    rewrite !andb_true_iff, !octet_shape_spec.
    split; [by exists a|]. split; [by exists b|]. split; [by exists c|]. split; [by exists d|done].
Qed.

Lemma group_shape_spec t : group_shape t = true <-> exists g, group_text t g.
Proof.
  unfold group_shape, group_text. rewrite !andb_true_iff, !Nat.leb_le. split.
  - intros [Hl Hf]. assert (exists ds, Forall2 (fun c d => hex_digit c = Some d) t ds) as [ds Hd].
    { clear Hl. induction t as [|c t IH]; [exists []; constructor|]. cbn [forallb] in Hf. apply andb_prop in Hf as [Hc Hf].
      destruct (hex_digit c) as [d|] eqn:E; [|done]. destruct (IH Hf) as [ds Hd]. exists (d :: ds). by constructor. }
    eauto 6.
  - intros (g & Hl & Hg). split; [done|]. apply (group_hex t g). by split.
Qed.

Lemma quad_no_group t v : quad_text t v -> group_shape t = false.
Proof.
  intros Hq. destruct (quad_chars _ _ Hq) as (_ & Hd & _). apply not_true_iff_false.
  intros [g Hg]%group_shape_spec. apply group_hex, hex_no_colon in Hg as [_ Hg]. congruence.
Qed.

(** A sequence is recognised with its number of groups. *)
Lemma groups_count_ok quads parts n :
  groups_count quads parts = Some n ->
  exists q gs, (q = true -> quads = true) /\ seq_text q (join ":" parts) gs /\ length gs = n.
Proof.
  revert n. induction parts as [|t r IH]; intros n; [done|]. destruct r as [|t' r].
  - cbn. destruct (group_shape t) eqn:Eg.
    + intros [= <-]. apply group_shape_spec in Eg as [g Hg]. exists false, [g]. split; [done|]. split; [by constructor|done].
    + destruct (quads && quad_shape t) eqn:Eq; [|done]. intros [= <-]. apply andb_prop in Eq as [-> Eq].
      apply quad_shape_spec in Eq as (v & a & b & c & d & Hq). pose proof Hq as (Hb & E & Ev). subst v.
      exists true, [256 * a + b; 256 * c + d]. split; [done|]. split; [|done]. apply seq_quad. by exists a, b, c, d.
  - change (groups_count quads (t :: t' :: r)) with
      (if group_shape t then option_map S (groups_count quads (t' :: r)) else None).
    destruct (group_shape t) eqn:Eg; [|done]. destruct (groups_count quads (t' :: r)) as [k|]; [|done].
    intros [= <-]. destruct (IH k eq_refl) as (q & gs & Hq & Hs & <-). apply group_shape_spec in Eg as [g Hg].
    exists q, (g :: gs). split; [done|]. split; [by apply (seq_cons q t g (join ":" (t' :: r)))|done].
Qed.

Lemma groups_count_text q t gs : seq_text q t gs ->
  forall quads, (q = true -> quads = true) -> groups_count quads (split_chars ":" t) = Some (length gs).
Proof.
  induction 1 as [t g Hg|t a b c d Hq|q t g r gs Hg Hs IH]; intros quads Hquads.
  - rewrite split_chars_none by (apply hex_no_colon; by eapply group_hex). cbn.
    by rewrite (proj2 (group_shape_spec t) (ex_intro _ g Hg)).
  - rewrite split_chars_none by by eapply quad_chars. cbn. rewrite (quad_no_group _ _ Hq), Hquads by done.
    by rewrite (proj2 (quad_shape_spec t) (ex_intro _ _ Hq)).
  - rewrite split_chars_cons by (apply hex_no_colon; by eapply group_hex). specialize (IH quads Hquads).
    pose proof (split_chars_ne ":" r). destruct (split_chars ":" r) as [|t' r'] eqn:E; [done|].
    change (groups_count quads (t :: t' :: r')) with
      (if group_shape t then option_map S (groups_count quads (t' :: r')) else None).
    by rewrite (proj2 (group_shape_spec t) (ex_intro _ g Hg)), IH.
Qed.

Lemma half_count_ok quads t n : half_count quads t = Some n ->
  exists q gs, (q = true -> quads = true) /\ half_text q t gs /\ length gs = n.
Proof.
  unfold half_count. destruct t as [|c t]; [intros [= <-]; exists false, []; split; [done|split; [constructor|done]]|].
  intros (q & gs & Hq & Hs & Hl)%groups_count_ok. rewrite join_split in Hs. exists q, gs. split; [done|].
  split; [by apply half_seq|done].
Qed.

Lemma half_count_text q t gs quads : half_text q t gs -> (q = true -> quads = true) ->
  half_count quads t = Some (length gs).
Proof.
  intros [|q' t' gs' Hs] Hq; [done|]. destruct (seq_ne _ _ _ Hs) as (c & l & -> & _).
  by apply (groups_count_text q').
Qed.

Lemma split_double_join t :
  match split_double t with
  | (l, None) => t = l
  | (l, Some r) => t = l ++ ":"%char :: ":"%char :: r
  end.
Proof.
  induction t as [|c t IH]; [done|]. destruct (Ascii.eqb c ":") eqn:Ec.
  - apply Ascii.eqb_eq in Ec as ->. destruct t as [|c' t]; [done|]. destruct (Ascii.eqb c' ":") eqn:Ec'.
    + by apply Ascii.eqb_eq in Ec' as ->.
    + rewrite split_double_colon by done. destruct (split_double (c' :: t)) as [l [r|]]; cbn [fst snd]; by rewrite IH at 1.
  - assert (no_char ":" [c] = true) as Hc by (cbn; by rewrite Ec). change (c :: t) with ([c] ++ t).
    rewrite split_double_plain by done. destruct (split_double t) as [l [r|]]; cbn [fst snd app]; by rewrite IH at 1.
Qed.

Lemma v6_shape_spec t : v6_shape t = true <-> exists q gs, v6_text q t gs.
Proof.
  unfold v6_shape. split.
  - pose proof (split_double_join t) as Et. destruct (split_double t) as [l [r|]]; subst t.
    + destruct (half_count false l) as [n|] eqn:El; [|done]. destruct (half_count true r) as [k|] eqn:Er; [|done].
      intros Hn%Nat.leb_le. apply half_count_ok in El as (ql & gl & Hql & Hl & <-), Er as (q & gr & _ & Hr & <-).
      destruct ql; [by discriminate (Hql eq_refl)|]. eexists q, _. by apply v6_gap.
    + destruct (groups_count true _) as [n|] eqn:En; [|done]. intros ->%Nat.eqb_eq.
      apply groups_count_ok in En as (q & gs & _ & Hs & Hl). rewrite join_split in Hs. exists q, gs. by apply v6_full.
  - intros (q & gs & [q' t' gs' Hs Hl|q' l gl r gr Hl Hr Hn]).
    + rewrite <-(app_nil_r t') at 1. rewrite (seq_split_double _ _ _ [] Hs). cbn [split_double fst snd].
      rewrite app_nil_r, (groups_count_text _ _ _ Hs) by done. by apply Nat.eqb_eq.
    + rewrite (half_split_double _ _ _ _ Hl). cbn [split_double fst snd]. rewrite app_nil_r.
      rewrite (half_count_text false l gl), (half_count_text q' r gr) by done. by apply Nat.leb_le.
Qed.

Lemma quad_not_v6 t v : quad_text t v -> forall q gs, ~ v6_text q t gs.
Proof.
  intros Hv q gs Ht. destruct (quad_chars _ _ Hv) as (Hn & _). destruct Ht as [q t gs Hs Hl|q l gl r gr _ _ _].
  - destruct Hs as [t g Hg|t a b c d Hq|q t g r gs _ _]; [done..|]. rewrite no_char_app in Hn. cbn in Hn.
    by rewrite andb_false_r in Hn.
  - rewrite no_char_app in Hn. cbn in Hn. by rewrite andb_false_r in Hn.
Qed.

#[export] Instance classify_laws : @IpLaws classify.
Proof.
  split; intros s; [|intros _|]; unfold isIP, classify.
  - rewrite <-quad_shape_spec. destruct (quad_shape (chars s)); [done|]. by destruct (v6_shape (chars s)).
  - rewrite <-v6_shape_spec. destruct (quad_shape (chars s)) eqn:Eq; [|by destruct (v6_shape (chars s))].
    split; [done|]. intros (q & gs & Hv)%v6_shape_spec. apply quad_shape_spec in Eq as [v Hq].
    by destruct (quad_not_v6 _ _ Hq q gs).
  - destruct (quad_shape (chars s)); [auto|]. destruct (v6_shape (chars s)); auto.
Qed.

(** ** Addresses with brackets and zones *)

Lemma address_chars t b : address_text t b -> forallb addr_char t = true.
Proof. intros [Hq|(q & gs & Hv & _)]; [by eapply quad_chars|by eapply v6_chars]. Qed.

Lemma address_ne t b : address_text t b -> t <> [].
Proof.
  intros [(x & y & z & u & _ & -> & _)|(q & gs & Hv & _)].
  - unfold dotted. by destruct (digits x).
  - destruct Hv as [q t gs Hs _|q l gl r gr _ _ _]; [by destruct (seq_ne _ _ _ Hs) as (? & ? & -> & _)|by destruct l].
Qed.

(** The brackets the code strips are not part of an address. *)
Lemma strip_brackets_zone t b zone :
  address_text t b -> zone = [] \/ head zone = Some "%"%char ->
  before_zone (strip_brackets (t ++ zone)) = t /\ before_zone (t ++ zone) = t.
Proof.
  intros Ht Hz. pose proof (address_chars _ _ Ht) as Hc. pose proof (addr_no_zone _ Hc) as Hn.
  split; [|by apply before_zone_text]. unfold strip_brackets.
  assert (Hopen : match t ++ zone with "["%char :: r => r | _ => t ++ zone end = t ++ zone).
  { destruct t as [|c t]; [by destruct (address_ne _ _ Ht)|]. cbn [forallb] in Hc. apply andb_prop in Hc as [Hc _].
    destruct (addr_char_other c Hc) as (_ & Hb & _). cbn [app].
    destruct c as [[] [] [] [] [] [] [] []]; try reflexivity. by vm_compute in Hb. }
  rewrite Hopen, rev_app_distr. clear Hopen.
  assert (Hclose : forall l, before_zone l = t -> (forall y, rev l = "]"%char :: y -> before_zone (rev y) = t) ->
    before_zone match rev l with "]"%char :: r => rev r | _ => l end = t).
  { intros l Hl Hy. destruct (rev l) as [|c y]; [done|]. specialize (Hy y).
    destruct c as [[] [] [] [] [] [] [] []]; try exact Hl. by apply Hy. }
  rewrite <-rev_app_distr. apply Hclose; [by apply before_zone_text|]. intros y Ey. rewrite rev_app_distr in Ey.
  destruct (rev zone) as [|z y'] eqn:Ez.
  - cbn [app] in Ey. assert (addr_char "]" = true); [|by vm_compute in H].
    rewrite forallb_forall in Hc. apply Hc, in_rev. rewrite Ey. by left.
  - injection Ey as -> <-. rewrite rev_app_distr, rev_involutive. apply before_zone_text; [done|].
    apply (f_equal (@rev ascii)) in Ez. rewrite rev_involutive in Ez. cbn in Ez. subst zone.
    destruct Hz as [Hz|Hz]; [by destruct (rev y')|]. destruct (rev y') as [|x r]; [by left|by right].
Qed.

(** What [isUnsafeIpAddress] decides on the text of an address: its value is
    tested, whichever way it is written. *)
Lemma isUnsafeIpAddress_text `{IpLaws} t b zone :
  address_text t b -> zone = [] \/ head zone = Some "%"%char ->
  isUnsafeIpAddress (t ++ zone) =
  match b with
  | [x; y; z; _] => unsafe_octets x y z
  | _ => unsafe_bytes b
  end.
Proof.
  intros Ht Hz. unfold isUnsafeIpAddress. destruct (strip_brackets_zone t b zone Ht Hz) as [-> _]. cbn zeta.
  destruct Ht as [Hq|(q & gs & Hv & ->)].
  - pose proof Hq as (x & y & z & u & _ & _ & ->). unfold isUnsafeIpv4. rewrite (parseIpv4_quad t x y z u Hq).
    destruct (quad_chars _ _ Hq) as (_ & _ & Hlow & Hc). unfold parseIpv6. rewrite Hlow.
    assert (before_zone t = t) as -> by (rewrite <-(app_nil_r t) at 1; rewrite before_zone_text by auto using addr_no_zone; done).
    assert (isIP (of_chars t) = 4) as -> by (apply isIP_v4; rewrite chars_of_chars; by eexists).
    by rewrite orb_false_r.
  - rewrite (parseIpv6_text q t gs Hv). destruct (v6_values _ _ _ Hv) as [Hl _].
    destruct (v6_chars _ _ _ Hv) as (Hc & _). apply addr_no_zone in Hc.
    assert (isUnsafeIpv4 t = false) as ->.
    { unfold isUnsafeIpv4, parseIpv4. assert (isIP (of_chars t) = 6) as ->; [|done].
      apply isIP_v6; rewrite chars_of_chars; [by apply no_char_notin|by eauto]. }
    do 9 (destruct gs as [|? gs]; try discriminate Hl). reflexivity.
Qed.

(** A text [isIP] accepts before the zone denotes an address. *)
Lemma isIP_denotes `{IpLaws} a :
  isIP (of_chars (before_zone (chars a))) <> 0 -> exists b, denotes a b.
Proof.
  intros Hn.
  assert (exists zone, chars a = before_zone (chars a) ++ zone /\ (zone = [] \/ head zone = Some "%"%char)) as (zone & Ez & Hz).
  { unfold before_zone. clear. induction (chars a) as [|c l (zone & E & Hz)]; [by exists []; auto|].
    cbn [split_chars]. destruct (Ascii.eqb_spec c "%") as [->|Hc]; [exists ("%"%char :: l); auto|].
    exists zone. pose proof (split_chars_ne "%" l). destruct (split_chars "%" l) as [|x r]; [done|]. cbn in *. by rewrite E at 1. }
  assert (Hno : ~ In "%"%char (before_zone (chars a))).
  { unfold before_zone. clear. induction (chars a) as [|c l IH]; [by intros []|]. cbn [split_chars].
    destruct (Ascii.eqb_spec c "%") as [->|Hc]; [by intros []|]. pose proof (split_chars_ne "%" l).
    destruct (split_chars "%" l) as [|x r]; [done|]. cbn in *. by intros [|]. }
  destruct (isIP_cases (of_chars (before_zone (chars a)))) as [|[E|E]]; [done| |].
  - apply isIP_v4 in E as [v Hv]. rewrite chars_of_chars in Hv. exists v, (before_zone (chars a)), zone.
    split; [done|]. split; [by left|done].
  - apply isIP_v6 in E; [|by rewrite chars_of_chars]. destruct E as (q & gs & Hv). rewrite chars_of_chars in Hv.
    exists (group_bytes gs), (before_zone (chars a)), zone. split; [done|]. split; [right; by eauto|done].
Qed.
