(* ===== verification/PaidHttpThms.v ===== *)
(** Theorems on paid HTTP: what the hash of a request binds, and which
    addresses a request can reach. *)

From Stdlib Require Import Btauto.
From S2P Require Import Prelude Errors Usdc Json Policy Doubles Quotes ResultCrypto PaidHttp Addresses.
Import Digits.
Open Scope Z_scope.

(** ** Length-prefixed fields *)

Lemma hash_field_inj a b x y :
  hash_field a ++ x = hash_field b ++ y -> a = b /\ x = y.
Proof.
  unfold hash_field. rewrite <-!app_assoc, <-!app_comm_cons. intros E.
  assert (span_digits (digits (Z.of_nat (length a)) ++ ":"%char :: a ++ x)
          = (digits (Z.of_nat (length a)), ":"%char :: a ++ x)) as E1.
  { apply span_digits_app; [apply digits_all; lia|done]. }
  assert (span_digits (digits (Z.of_nat (length b)) ++ ":"%char :: b ++ y)
          = (digits (Z.of_nat (length b)), ":"%char :: b ++ y)) as E2.
  { apply span_digits_app; [apply digits_all; lia|done]. }
  rewrite E, E2 in E1. injection E1 as Ed Et.
  assert (length a = length b) as Hl.
  { pose proof (digits_value (Z.of_nat (length a)) ltac:(lia)) as Ha.
    pose proof (digits_value (Z.of_nat (length b)) ltac:(lia)) as Hb. rewrite Ed in Hb. lia. }
  apply app_inj_1 in Et as [-> ->]; [done|lia].
Qed.

Lemma hash_fields_inj l l' : flat_map hash_field l = flat_map hash_field l' -> l = l'.
Proof.
  revert l'. induction l as [|a l IH]; intros [|b l']; cbn [flat_map]; try done.
  - intros E. symmetry in E. unfold hash_field in E.
    destruct (digits (Z.of_nat (length b))) eqn:Ed; [by destruct (digits_nonempty _ Ed)|done].
  - intros E. unfold hash_field in E.
    destruct (digits (Z.of_nat (length a))) eqn:Ed; [by destruct (digits_nonempty _ Ed)|done].
  - intros [-> E]%hash_field_inj. f_equal. by apply IH.
Qed.

Lemma digits_inj n m : 0 <= n -> 0 <= m -> digits n = digits m -> n = m.
Proof. intros Hn Hm E. rewrite <-(digits_value n), <-(digits_value m), E by done. done. Qed.

(** Two normalized requests the hash does not tell apart. *)
Definition lower_names (n : NormalizedPaidHttpRequest) : list (string * string) :=
  map (fun h => (lower (fst h), snd h)) (nr_headers n).

Definition same_request (n m : NormalizedPaidHttpRequest) : Prop :=
  nr_method n = nr_method m /\ nr_url n = nr_url m /\ lower_names n = lower_names m /\ nr_body n = nr_body m.

Lemma header_fields n :
  flat_map (fun h : string * string => [chars (lower (fst h)); chars (snd h)]) n
  = flat_map (fun h : string * string => [chars (fst h); chars (snd h)])
      (map (fun h => (lower (fst h), snd h)) n).
Proof. induction n as [|h n IH]; cbn; [done|]. by rewrite IH. Qed.

Lemma pairs_inj (l l' : list (string * string)) x y :
  length l = length l' ->
  flat_map (fun h => [chars (fst h); chars (snd h)]) l ++ x
  = flat_map (fun h => [chars (fst h); chars (snd h)]) l' ++ y -> l = l' /\ x = y.
Proof.
  revert l'. induction l as [|[a b] l IH]; intros [|[c d] l']; try done. cbn. intros [= Hl] [= E1 E2 E3].
  apply chars_inj in E1 as ->, E2 as ->. by destruct (IH l' Hl E3) as [-> ->].
Qed.

Lemma preimage_inj n m : request_preimage n = request_preimage m <-> same_request n m.
Proof.
  unfold request_preimage, same_request, lower_names. split.
  - intros E%(f_equal chars). rewrite !chars_of_chars in E. apply hash_fields_inj in E.
    unfold request_fields in E. cbn [app] in E. injection E as Em Eu En E.
    apply chars_inj in Em, Eu. apply digits_inj in En; [|lia..]. rewrite !header_fields in E.
    apply pairs_inj in E as [-> E]; [|rewrite !length_map; lia].
    do 3 (split; [done|]). destruct (nr_body n), (nr_body m); try discriminate; [|done]. by injection E as ->.
  - intros (Em & Eu & Eh & Eb). unfold request_fields. rewrite !header_fields, Em, Eu, Eh, Eb.
    apply (f_equal length) in Eh. rewrite !length_map in Eh. by rewrite Eh.
Qed.

(** ** Address blocks *)

(** The first [len] bits of an address are those of [base]. *)
Fixpoint in_cidr (b base : list Z) (len : Z) : bool :=
  match b, base with
  | x :: b, y :: base =>
      if len <=? 0 then true
      else if 8 <=? len then (x =? y) && in_cidr b base (len - 8)
      else x / 2 ^ (8 - len) =? y / 2 ^ (8 - len)
  | _, _ => true
  end.

(** The IPv4 blocks of the IANA special-purpose registry that are not global,
    multicast and class E. *)
Definition special_v4 : list (list Z * Z) :=
  [([0; 0; 0; 0], 8); ([10; 0; 0; 0], 8); ([100; 64; 0; 0], 10); ([127; 0; 0; 0], 8);
   ([169; 254; 0; 0], 16); ([172; 16; 0; 0], 12); ([192; 0; 0; 0], 24); ([192; 0; 2; 0], 24);
   ([192; 88; 99; 0], 24); ([192; 168; 0; 0], 16); ([198; 18; 0; 0], 15); ([198; 51; 100; 0], 24);
   ([203; 0; 113; 0], 24); ([224; 0; 0; 0], 3)].

(** IPv6: documentation (2001:db8::/32, 3fff::/20), benchmarking (2001:2::/48),
    6to4 (2002::/16) and Teredo (2001::/32). *)
Definition special_v6 : list (list Z * Z) :=
  [([32; 1; 13; 184], 32); ([63; 255; 0; 0], 20); ([32; 1; 0; 2; 0; 0], 48); ([32; 2], 16);
   ([32; 1; 0; 0], 32)].

(** The overlay (ORCHID) blocks of the registry, 2001:10::/28 and 2001:20::/28,
    and the blocks the code tests in their place, 2001:1000::/20 and
    2001:2000::/20. *)
Definition orchid_v6 : list (list Z * Z) := [([32; 1; 0; 16], 28); ([32; 1; 0; 32], 28)].
Definition tested_v6 : list (list Z * Z) := [([32; 1; 16], 20); ([32; 1; 32], 20)].

Definition blocked_v4 (b : list Z) : bool := existsb (fun r => in_cidr b (fst r) (snd r)) special_v4.

(** An IPv4-mapped address is its IPv4 address; any other must be global
    unicast (2000::/3) and outside the special blocks. *)
Definition blocked_v6 (overlays : list (list Z * Z)) (b : list Z) : bool :=
  if in_cidr b [0; 0; 0; 0; 0; 0; 0; 0; 0; 0; 255; 255] 96 then blocked_v4 (skipn 12 b)
  else negb (in_cidr b [32] 3) || existsb (fun r => in_cidr b (fst r) (snd r)) (special_v6 ++ overlays).

(** Ranges and masks of a byte as its leading bits. *)
Lemma byte_range a k q lo hi :
  byte_ok a -> 0 < k -> lo = q * k -> hi = q * k + (k - 1) -> (lo <=? a) && (a <=? hi) = (a / k =? q).
Proof.
  intros Ha Hk -> ->. apply eq_true_iff_eq. rewrite andb_true_iff, !Z.leb_le, Z.eqb_eq.
  split; intros; Z.div_mod_to_equations; nia.
Qed.

Lemma byte_mask a m k q v :
  byte_ok a -> forallb (fun n => Bool.eqb (Z.land (Z.of_nat n) m =? v) (Z.of_nat n / k =? q)) (seq 0 256) = true ->
  (Z.land a m =? v) = (a / k =? q).
Proof.
  intros Ha H. rewrite forallb_forall in H. specialize (H (Z.to_nat a)). unfold byte_ok in Ha.
  rewrite Z2Nat.id in H by lia. apply Bool.eqb_prop, H, in_seq. lia.
Qed.

(** [in_cidr] on constant blocks. *)
Ltac cidr_simpl :=
  match goal with |- ?l = ?r =>
    let r' := eval cbv -[Z.eqb Z.div orb andb negb] in r in change (l = r') end;
  repeat match goal with
  | |- context [Z.div (Zpos ?a) (Zpos ?b)] =>
      let v := eval vm_compute in (Z.div (Zpos a) (Zpos b)) in change (Z.div (Zpos a) (Zpos b)) with v
  end.

(** Conjunctions and disjunctions up to association and units. *)
Ltac flat_bool :=
  cbn [andb orb negb]; rewrite ?andb_true_r, ?orb_false_r, ?andb_assoc, ?orb_assoc; reflexivity.

Lemma unsafe_octets_cidr a b c d :
  byte_ok a -> byte_ok b -> byte_ok c -> byte_ok d -> unsafe_octets a b c = blocked_v4 [a; b; c; d].
Proof.
  intros Ha Hb Hc Hd. cidr_simpl. unfold unsafe_octets.
  rewrite <-(byte_range b 64 1 64 127), <-(byte_range b 16 1 16 31) by done.
  replace (a / 32 =? 7) with (224 <=? a).
  2: { rewrite <-(byte_range a 32 7 224 255) by done. unfold byte_ok in Ha. destruct (Z.leb_spec a 255); [|lia].
       by rewrite andb_true_r. }
  replace (b / 2 =? 9) with ((b =? 18) || (b =? 19)).
  2: { apply eq_true_iff_eq. rewrite orb_true_iff, !Z.eqb_eq. Z.div_mod_to_equations. lia. }
  btauto.
Qed.

Lemma length_16 {A} (b : list A) : length b = 16%nat ->
  exists x0 x1 x2 x3 x4 x5 x6 x7 x8 x9 x10 x11 x12 x13 x14 x15,
    b = [x0; x1; x2; x3; x4; x5; x6; x7; x8; x9; x10; x11; x12; x13; x14; x15].
Proof. intros H. do 17 (destruct b as [|? b]; try discriminate H). repeat eexists. Qed.

(** A byte of a global unicast address is not the first of the other blocks. *)
Lemma global_unicast_first a :
  byte_ok a -> (a / 32 =? 1) = true ->
  (a =? 0) = false /\ (a =? 254) = false /\ (a =? 255) = false /\ (Z.land a 254 =? 252) = false.
Proof.
  intros Ha Hq. rewrite (byte_mask a 254 2 126 252) by (done || (vm_compute; reflexivity)).
  apply Z.eqb_eq in Hq. rewrite !Z.eqb_neq. repeat split; Z.div_mod_to_equations; lia.
Qed.

Lemma unsafe_bytes_cidr b :
  length b = 16%nat -> Forall byte_ok b -> unsafe_bytes b = blocked_v6 tested_v6 b.
Proof.
  intros (x0 & x1 & x2 & x3 & x4 & x5 & x6 & x7 & x8 & x9 & x10 & x11 & x12 & x13 & x14 & x15 & ->)%length_16 Hb.
  rewrite !Forall_cons in Hb.
  destruct Hb as (H0 & H1 & H2 & _ & _ & _ & _ & _ & _ & _ & _ & _ & H12 & H13 & H14 & H15 & _).
  unfold blocked_v6, unsafe_bytes. cbn [nth firstn skipn forallb]. cbn zeta.
  rewrite <-(unsafe_octets_cidr x12 x13 x14 x15) by done.
  set (v4 := unsafe_octets _ _ _). clearbody v4.
  rewrite (byte_mask x0 224 32 1 32), (byte_mask x2 240 16 0 0), (byte_mask x2 240 16 1 16),
    (byte_mask x2 240 16 2 32) by (done || (vm_compute; reflexivity)).
  cidr_simpl. destruct (x0 / 32 =? 1) eqn:Eg.
  - destruct (global_unicast_first x0 H0 Eg) as (E0 & E1 & E2 & E3). rewrite E0, E1, E2, E3. flat_bool.
  - rewrite !orb_true_r, !orb_true_l. flat_bool.
Qed.

(** ** The value of an address decides *)

(** An address outside the blocked ranges, by its bytes. *)
Definition public (b : list Z) : bool :=
  negb (if (length b =? 4)%nat then blocked_v4 b else blocked_v6 tested_v6 b).

Lemma group_bytes_ok q t gs : v6_text q t gs -> length (group_bytes gs) = 16%nat /\ Forall byte_ok (group_bytes gs).
Proof.
  intros (Hl & Hr)%v6_values. unfold group_bytes. split.
  - rewrite (flat_map_constant_length (c := 2)) by done. lia.
  - clear Hl. induction Hr as [|g gs Hg _ IH]; [constructor|]. cbn [flat_map]. apply Forall_app. split; [|exact IH].
    unfold byte_ok. repeat constructor; try (apply Z.div_pos; lia); try (apply Z.div_lt_upper_bound; lia);
      apply Z.mod_pos_bound; lia.
Qed.

Lemma isUnsafeIpAddress_public `{IpLaws} a b : denotes a b -> isUnsafeIpAddress (chars a) = negb (public b).
Proof.
  intros (t & zone & -> & Ht & Hz). rewrite (isUnsafeIpAddress_text t b zone Ht Hz). unfold public.
  rewrite negb_involutive. destruct Ht as [(x & y & z & u & Hb & _ & ->)|(q & gs & Hv & ->)].
  - rewrite !Forall_cons in Hb. destruct Hb as (? & ? & ? & ? & _). by apply unsafe_octets_cidr.
  - destruct (group_bytes_ok _ _ _ Hv) as [Hl Hb]. rewrite Hl. cbn [Nat.eqb].
    rewrite <-unsafe_bytes_cidr by done. by destruct (group_bytes gs) as [|? [|? [|? [|? [|? ?]]]]].
Qed.

Lemma denotes_isIP `{IpLaws} a b : denotes a b -> isIP (of_chars (before_zone (chars a))) <> 0.
Proof.
  intros (t & zone & -> & Ht & Hz). destruct (strip_brackets_zone t b zone Ht Hz) as [_ ->].
  pose proof (address_chars _ _ Ht) as Hc. destruct Ht as [Hq|(q & gs & Hv & _)].
  - assert (isIP (of_chars t) = 4) as ->; [|done]. apply isIP_v4. rewrite chars_of_chars. by exists b.
  - assert (isIP (of_chars t) = 6) as ->; [|done].
    apply isIP_v6; rewrite chars_of_chars; [|by eauto]. by apply no_char_notin, addr_no_zone.
Qed.

(** The test of one resolved address. *)
Lemma address_ok_spec `{IpLaws} allowed a :
  address_ok allowed a = true <-> exists b, denotes a b /\ (allowed = true \/ public b = true).
Proof.
  unfold address_ok. rewrite negb_true_iff, orb_false_iff, Z.eqb_neq. split.
  - intros [Hi Hu]. destruct (isIP_denotes a Hi) as [b Hb]. exists b. split; [done|].
    rewrite (isUnsafeIpAddress_public a b Hb) in Hu. destruct allowed, (public b); auto.
  - intros (b & Hb & Hp). split; [by eapply denotes_isIP|]. rewrite (isUnsafeIpAddress_public a b Hb).
    by destruct Hp as [->| ->]; [|apply andb_false_r].
Qed.

(** An HTTP origin the operator listed. *)
Definition listed `{UrlParser} (origins : list string) (parsed : Url) : Prop :=
  u_protocol parsed = "http:"%string /\
  exists origin o, In origin origins /\ parse_url origin = Some o /\ u_origin o = u_origin parsed.

Lemma explicitly_allowed_spec `{UrlParser} origins parsed :
  explicitly_allowed origins parsed = true <-> listed origins parsed.
Proof.
  unfold explicitly_allowed, listed. rewrite andb_true_iff, eqs_spec, existsb_exists. split.
  - intros [Hp (origin & Hin & Ho)]. split; [done|]. destruct (parse_url origin) as [o|] eqn:E; [|done].
    bsimpl. by exists origin, o.
  - intros [Hp (origin & o & Hin & E & Ho)]. split; [done|]. exists origin. rewrite E, Ho. split; [done|apply eqs_refl].
Qed.

(** What a destination connects to: a numeric host is its own address. *)
Definition addresses_of `{IpClassifier} (resolve : string -> Res (list string)) (hostname : string) : Res (list string) :=
  if isIP hostname =? 0 then resolve hostname else Ok [hostname].

(** Two addresses of the overlay blocks, one registered and one not. *)
Definition orchid_bytes : list Z := [32; 1; 0; 32; 0; 0; 0; 0; 0; 0; 0; 0; 0; 0; 0; 1].
Definition ordinary_bytes : list Z := [32; 1; 32; 0; 0; 0; 0; 0; 0; 0; 0; 0; 0; 0; 0; 1].

Lemma overlay_texts : denotes "2001:20::1" orchid_bytes /\ denotes "2001:2000::1" ordinary_bytes.
Proof.
  assert (Hg : forall t g, group_shape (chars t) = true -> group_value (chars t) = Some g -> group_text (chars t) g).
  { intros t g [g' Hg']%group_shape_spec E. rewrite (group_value_text _ _ Hg') in E. by injection E as <-. }
  assert (Hd : forall s b, (exists q gs, v6_text q (chars s) gs /\ b = group_bytes gs) -> denotes s b).
  { intros s b Hb. exists (chars s), []. rewrite app_nil_r. split; [done|]. split; [by right|by left]. }
  split; apply Hd.
  - exists false, ([8193; 32] ++ replicate 5 0 ++ [1]). split; [|reflexivity].
    apply (v6_gap false (chars "2001:20") [8193; 32] (chars "1") [1]); [| |cbn; lia]; apply half_seq.
    + apply (seq_cons false (chars "2001") 8193 (chars "20") [32]); [by apply Hg|]. apply seq_group. by apply Hg.
    + apply seq_group. by apply Hg.
  - exists false, ([8193; 8192] ++ replicate 5 0 ++ [1]). split; [|reflexivity].
    apply (v6_gap false (chars "2001:2000") [8193; 8192] (chars "1") [1]); [| |cbn; lia]; apply half_seq.
    + apply (seq_cons false (chars "2001") 8193 (chars "2000") [8192]); [by apply Hg|]. apply seq_group. by apply Hg.
    + apply seq_group. by apply Hg.
Qed.

(** ** Properties *)

(** C19: the hash of a paid request determines the request: two accepted
    requests hash the same text exactly when they have the same method, URL,
    headers (names up to case, in order) and body bytes; with a collision-free
    hash an idempotency key is bound to one request. *)
Theorem request_hash_binds_the_request `{UrlParser} `{Sha256} (r r' : PaidHttpRequest) h h' :
  canonicalPaidHttpRequestHash r = Ok h -> canonicalPaidHttpRequestHash r' = Ok h' ->
  exists n n', normalizePaidHttpRequest r = Ok n /\ normalizePaidHttpRequest r' = Ok n' /\
  (same_request n n' -> h = h') /\
  ((forall s s', sha256 s = sha256 s' -> s = s') -> h = h' -> same_request n n') /\
  (request_preimage n = request_preimage n' <-> same_request n n').
Proof.
  unfold canonicalPaidHttpRequestHash. intros E E'.
  apply res_bind_ok in E as (n & En & [= <-]), E' as (n' & En' & [= <-]). exists n, n'.
  do 2 (split; [done|]). rewrite <-preimage_inj. split; [by intros ->|]. split; [|done].
  intros Hc Eh. by apply Hc.
Qed.

(** C20: a destination is accepted only over HTTPS, or over HTTP to an origin
    the operator listed; what it connects to is what the resolver answered (or
    the numeric host itself), at least one address and nothing but IP
    addresses; and outside the listed origins the number each of them stands
    for, however it is written, lies in no private, loopback, link-local,
    reserved or multicast block and maps to none.  Over HTTPS, any name whose
    addresses are all such is accepted.  The two overlay blocks are the
    exception: the code tests 2001:1000::/20 and 2001:2000::/20 instead of
    2001:10::/28 and 2001:20::/28. *)
Theorem accepted_destination_is_public `{UrlParser} `{IpLaws} origins resolve url :
  (forall d, assertPaidHttpUrlAllowed origins resolve url = Ok d ->
   exists parsed, parse_url url = Some parsed /\ dest_url d = u_href parsed /\
     (u_protocol parsed = "https:"%string \/ listed origins parsed) /\
     addresses_of resolve (dest_hostname d) = Ok (dest_addresses d) /\ dest_addresses d <> [] /\
     forall a, In a (dest_addresses d) -> exists b, denotes a b /\ (listed origins parsed \/ public b = true)) /\
  (forall parsed addresses, parse_url url = Some parsed -> u_protocol parsed = "https:"%string ->
   let hostname := of_chars (strip_brackets (chars (u_hostname parsed))) in
   addresses_of resolve hostname = Ok addresses -> addresses <> [] ->
   (forall a, In a addresses -> exists b, denotes a b /\ public b = true) ->
   assertPaidHttpUrlAllowed origins resolve url = Ok (mkDestination (u_href parsed) hostname addresses)) /\
  (in_cidr orchid_bytes [32; 1; 0; 32] 28 = true /\ denotes "2001:20::1" orchid_bytes /\
   address_ok false "2001:20::1" = true /\
   blocked_v6 orchid_v6 ordinary_bytes = false /\ denotes "2001:2000::1" ordinary_bytes /\
   address_ok false "2001:2000::1" = false).
Proof.
  split; [|split].
  - intros d E. unfold assertPaidHttpUrlAllowed in E. destruct (parse_url url) as [parsed|]; [|done].
    destruct (negb (http_or_https parsed)); [done|].
    destruct (_ && _) eqn:Ep in E; [done|]. cbn zeta in E.
    apply res_bind_ok in E as (resolved & Er & E). destruct resolved as [|x l]; [done|].
    destruct (forallb _ _) eqn:Ea in E; [|done]. injection E as <-. exists parsed. cbn [dest_url dest_hostname dest_addresses].
    split; [done|]. split; [done|]. split.
    { apply andb_false_iff in Ep as [Ep|Ep]; bsimpl; [auto|right]. by apply explicitly_allowed_spec. }
    split; [exact Er|]. split; [done|]. intros a Hin. rewrite forallb_forall in Ea.
    destruct (proj1 (address_ok_spec _ a) (Ea a Hin)) as (b & Hb & Hp). exists b. split; [done|].
    rewrite explicitly_allowed_spec in Hp. exact Hp.
  - intros parsed addresses Eu Ep hostname Er Hne Ha. unfold assertPaidHttpUrlAllowed. rewrite Eu.
    unfold http_or_https. rewrite Ep. cbn [orb negb andb String.eqb Ascii.eqb Bool.eqb]. cbn zeta.
    unfold addresses_of in Er. fold hostname. rewrite Er. cbn [res_bind]. destruct addresses as [|x l]; [done|].
    assert (forallb (address_ok (explicitly_allowed origins parsed)) (x :: l) = true) as ->; [|done].
    apply forallb_forall. intros a Hin. apply address_ok_spec. destruct (Ha a Hin) as (b & Hb & Hp). eauto.
  - destruct overlay_texts as [D1 D2]. split; [done|]. split; [done|]. split.
    { apply address_ok_spec. exists orchid_bytes. split; [done|by right]. }
    split; [done|]. split; [done|]. unfold address_ok. rewrite (isUnsafeIpAddress_public _ _ D2).
    change (negb (public ordinary_bytes)) with true. cbn [negb andb]. by rewrite orb_true_r.
Qed.

(** ** Witnesses *)

(** A parser and a classifier that know one host. *)
Definition sample_url : string := "https://shop.example/report".
Definition sample_parser : UrlParser := fun s =>
  if s =s sample_url then Some (mkUrl s "https:" "shop.example" "https://shop.example") else None.
Definition sample_isIP : IpClassifier := fun s => if s =s "93.184.216.34" then 4 else 0.

Definition sample_request (name : string) : PaidHttpRequest :=
  mkPaidHttpRequest sample_url "POST" [(name, "v")]%string (Some (BodyJson (JObj [("b", jint 2); ("a", jint 1)]%string))).

Lemma request_hash_binds_the_request_witness :
  @canonicalPaidHttpRequestHash sample_parser (fun s => s) (sample_request "X-Tag")
  = @canonicalPaidHttpRequestHash sample_parser (fun s => s) (sample_request "x-tag").
Proof.
  destruct (@canonicalPaidHttpRequestHash sample_parser (fun s => s) (sample_request "X-Tag")) as [h|] eqn:E;
    [|vm_compute in E; discriminate].
  destruct (@canonicalPaidHttpRequestHash sample_parser (fun s => s) (sample_request "x-tag")) as [h'|] eqn:E';
    [|vm_compute in E'; discriminate].
  destruct (@request_hash_binds_the_request sample_parser (fun s => s) _ _ h h' E E')
    as (n & n' & En & En' & Hs & _).
  f_equal. apply Hs. vm_compute in En, En'. injection En as <-. injection En' as <-. repeat split.
Defined.

(** The name resolves to a public address, in two forms. *)
Definition sample_resolve (_ : string) : Res (list string) :=
  Ok ["93.184.216.34"; "2606:2800:21f:cb07::5db8:d822"]%string.

Example sample_accepted :
  @assertPaidHttpUrlAllowed sample_parser classify [] sample_resolve sample_url
  = Ok (mkDestination sample_url "shop.example" ["93.184.216.34"; "2606:2800:21f:cb07::5db8:d822"]%string).
Proof. vm_compute. reflexivity. Qed.

(** Forms of the loopback and metadata addresses, all refused. *)
Example sample_refused : forallb (fun a => negb (@address_ok classify false a))
  ["127.0.0.1"; "::ffff:7f00:1"; "::FFFF:127.0.0.1"; "169.254.169.254"; "::1"; "fe80::1%eth0"; "10.0.0.1";
   "::ffff:10.1.2.3"; "0:0:0:0:0:ffff:a9fe:a9fe"]%string = true.
Proof. vm_compute. reflexivity. Qed.

Lemma accepted_destination_is_public_witness : exists b,
  denotes "93.184.216.34" b /\ public b = true.
Proof.
  destruct (@accepted_destination_is_public sample_parser classify classify_laws [] sample_resolve sample_url) as [Ha _].
  destruct (Ha _ sample_accepted) as (parsed & Hp & _ & _ & _ & _ & Hd).
  destruct (Hd "93.184.216.34"%string (or_introl eq_refl)) as (b & Hb & [[Hl _]|Hpub]); [|by exists b].
  injection Hp as <-. discriminate Hl.
Defined.
