(* ===== verification/Schema.v ===== *)
(** The rows of the modelled tables (the row types of the engines; columns the
    engines never read are left out), and the database: one list of rows per
    table, oldest first, with the CHECK and UNIQUE constraints of
    [packages/db/src/migrations] on the modelled columns.  A [numeric(20,6)]
    column is held in micros, a timestamp in milliseconds.  Foreign keys are
    not modelled. *)

From S2P Require Import Prelude Errors Usdc Json Identity Policy Quotes ResultCrypto.
Open Scope Z_scope.

(** ** Audit ([evidence/audit-writer.ts]) *)

Inductive AuditActorType : Type :=
| Actor_user
| Actor_agent
| Actor_connection
| Actor_system
| Actor_service
| Actor_key
| Actor_unknown.
#[export] Instance AuditActorType_eq_dec : EqDecision AuditActorType.
Proof. solve_decision. Defined.
Definition AuditActorType_text (x : AuditActorType) : string :=
  match x with
  | Actor_user => "user"%string
  | Actor_agent => "agent"%string
  | Actor_connection => "connection"%string
  | Actor_system => "system"%string
  | Actor_service => "service"%string
  | Actor_key => "key"%string
  | Actor_unknown => "unknown"%string
  end.

Inductive AuditOutcome : Type :=
| Outcome_success
| Outcome_denied
| Outcome_error
| Outcome_pending.
#[export] Instance AuditOutcome_eq_dec : EqDecision AuditOutcome.
Proof. solve_decision. Defined.
Definition AuditOutcome_text (x : AuditOutcome) : string :=
  match x with
  | Outcome_success => "success"%string
  | Outcome_denied => "denied"%string
  | Outcome_error => "error"%string
  | Outcome_pending => "pending"%string
  end.

Inductive AuditRetentionClass : Type :=
| Retain_standard
| Retain_payment
| Retain_security
| Retain_legal_hold.
#[export] Instance AuditRetentionClass_eq_dec : EqDecision AuditRetentionClass.
Proof. solve_decision. Defined.
Definition AuditRetentionClass_text (x : AuditRetentionClass) : string :=
  match x with
  | Retain_standard => "standard"%string
  | Retain_payment => "payment"%string
  | Retain_security => "security"%string
  | Retain_legal_hold => "legal_hold"%string
  end.

Inductive AuditEventDomain : Type :=
| Domain_identity
| Domain_credential
| Domain_policy
| Domain_wallet
| Domain_payment
| Domain_treasury
| Domain_system.
#[export] Instance AuditEventDomain_eq_dec : EqDecision AuditEventDomain.
Proof. solve_decision. Defined.
Definition AuditEventDomain_text (x : AuditEventDomain) : string :=
  match x with
  | Domain_identity => "identity"%string
  | Domain_credential => "credential"%string
  | Domain_policy => "policy"%string
  | Domain_wallet => "wallet"%string
  | Domain_payment => "payment"%string
  | Domain_treasury => "treasury"%string
  | Domain_system => "system"%string
  end.

Inductive AuditEventCategory : Type :=
| Category_configuration
| Category_policy
| Category_runtime
| Category_financial
| Category_security
| Category_compliance.
#[export] Instance AuditEventCategory_eq_dec : EqDecision AuditEventCategory.
Proof. solve_decision. Defined.
Definition AuditEventCategory_text (x : AuditEventCategory) : string :=
  match x with
  | Category_configuration => "configuration"%string
  | Category_policy => "policy"%string
  | Category_runtime => "runtime"%string
  | Category_financial => "financial"%string
  | Category_security => "security"%string
  | Category_compliance => "compliance"%string
  end.

Inductive AuditSeverity : Type :=
| Severity_info
| Severity_warning
| Severity_critical.
#[export] Instance AuditSeverity_eq_dec : EqDecision AuditSeverity.
Proof. solve_decision. Defined.
Definition AuditSeverity_text (x : AuditSeverity) : string :=
  match x with
  | Severity_info => "info"%string
  | Severity_warning => "warning"%string
  | Severity_critical => "critical"%string
  end.

(** [redaction_state] is held as a flag: true for 'redacted'. *)
Record AuditEventRow : Type := mkAuditEventRow {
  ae_id : string;
  ae_org_id : string;
  ae_sequence : Z;
  ae_idempotency_key : (option string);
  ae_event_type : string;
  ae_occurred_at : Z;
  ae_recorded_at : Z;
  ae_actor_type : AuditActorType;
  ae_actor_id : (option string);
  ae_action : string;
  ae_outcome : AuditOutcome;
  ae_reason_code : (option string);
  ae_resource_type : (option string);
  ae_resource_id : (option string);
  ae_event_domain : AuditEventDomain;
  ae_event_category : AuditEventCategory;
  ae_severity : AuditSeverity;
  ae_tags : (list string);
  ae_related_agent_id : (option string);
  ae_related_team_id : (option string);
  ae_related_connection_id : (option string);
  ae_related_wallet_ref_id : (option string);
  ae_related_policy_id : (option string);
  ae_related_wallet_id : (option string);
  ae_request_id : (option string);
  ae_source_section : (option string);
  ae_source_system : (option string);
  ae_source_ref : (option string);
  ae_policy_ref : (option string);
  ae_decision_ref : (option string);
  ae_approval_ref : (option string);
  ae_retention_class : AuditRetentionClass;
  ae_redaction_state : bool;
  ae_canonical_body_hash : string;
  ae_previous_hash : (option string);
  ae_event_hash : string;
  ae_external_refs : json;
  ae_payload : json;
  ae_canonical_body : json
}.
Definition set_ae_actor_id (v : (option string)) (r : AuditEventRow) : AuditEventRow :=
  mkAuditEventRow (ae_id r) (ae_org_id r) (ae_sequence r) (ae_idempotency_key r)
    (ae_event_type r) (ae_occurred_at r) (ae_recorded_at r) (ae_actor_type r) v (ae_action r)
    (ae_outcome r) (ae_reason_code r) (ae_resource_type r) (ae_resource_id r)
    (ae_event_domain r) (ae_event_category r) (ae_severity r) (ae_tags r)
    (ae_related_agent_id r) (ae_related_team_id r) (ae_related_connection_id r)
    (ae_related_wallet_ref_id r) (ae_related_policy_id r) (ae_related_wallet_id r)
    (ae_request_id r) (ae_source_section r) (ae_source_system r) (ae_source_ref r)
    (ae_policy_ref r) (ae_decision_ref r) (ae_approval_ref r) (ae_retention_class r)
    (ae_redaction_state r) (ae_canonical_body_hash r) (ae_previous_hash r) (ae_event_hash r)
    (ae_external_refs r) (ae_payload r) (ae_canonical_body r).
Definition set_ae_payload (v : json) (r : AuditEventRow) : AuditEventRow :=
  mkAuditEventRow (ae_id r) (ae_org_id r) (ae_sequence r) (ae_idempotency_key r)
    (ae_event_type r) (ae_occurred_at r) (ae_recorded_at r) (ae_actor_type r) (ae_actor_id r)
    (ae_action r) (ae_outcome r) (ae_reason_code r) (ae_resource_type r) (ae_resource_id r)
    (ae_event_domain r) (ae_event_category r) (ae_severity r) (ae_tags r)
    (ae_related_agent_id r) (ae_related_team_id r) (ae_related_connection_id r)
    (ae_related_wallet_ref_id r) (ae_related_policy_id r) (ae_related_wallet_id r)
    (ae_request_id r) (ae_source_section r) (ae_source_system r) (ae_source_ref r)
    (ae_policy_ref r) (ae_decision_ref r) (ae_approval_ref r) (ae_retention_class r)
    (ae_redaction_state r) (ae_canonical_body_hash r) (ae_previous_hash r) (ae_event_hash r)
    (ae_external_refs r) v (ae_canonical_body r).

Record AuditHeadRow : Type := mkAuditHeadRow {
  ah_org_id : string;
  ah_last_sequence : Z;
  ah_last_event_hash : option string
}.
Definition set_ah_last_sequence (v : Z) (r : AuditHeadRow) : AuditHeadRow :=
  mkAuditHeadRow (ah_org_id r) v (ah_last_event_hash r).
Definition set_ah_last_event_hash (v : option string) (r : AuditHeadRow) : AuditHeadRow :=
  mkAuditHeadRow (ah_org_id r) (ah_last_sequence r) v.

Definition hash_length_ok (h : string) : bool := (String.length h =? 64)%nat.

Definition audit_event_check (r : AuditEventRow) : bool :=
  (0 <? ae_sequence r) && hash_length_ok (ae_canonical_body_hash r)
  && when_some (ae_previous_hash r) hash_length_ok && hash_length_ok (ae_event_hash r).

Definition audit_event_clash (r s : AuditEventRow) : bool :=
  (ae_id r =s ae_id s) || (ae_event_hash r =s ae_event_hash s)
  || ((ae_org_id r =s ae_org_id s)
      && ((ae_sequence r =? ae_sequence s)
          || match ae_idempotency_key r with
             | Some k => eqo (Some k) (ae_idempotency_key s)
             | None => false
             end)).

(** ** Organisations, agents, connections, teams, sign-in ([0001], [0002], [0004], [0022], [0037]) *)

Inductive OrgStatus : Type :=
| Org_active
| Org_disabled.
#[export] Instance OrgStatus_eq_dec : EqDecision OrgStatus.
Proof. solve_decision. Defined.
Definition OrgStatus_text (x : OrgStatus) : string :=
  match x with
  | Org_active => "active"%string
  | Org_disabled => "disabled"%string
  end.

Inductive MemberStatus : Type :=
| Member_active
| Member_invited
| Member_removed.
#[export] Instance MemberStatus_eq_dec : EqDecision MemberStatus.
Proof. solve_decision. Defined.
Definition MemberStatus_text (x : MemberStatus) : string :=
  match x with
  | Member_active => "active"%string
  | Member_invited => "invited"%string
  | Member_removed => "removed"%string
  end.

Inductive ConnectionKind : Type :=
| Kind_agent_credential
| Kind_mcp_local
| Kind_mcp_remote
| Kind_mcp_http
| Kind_api_key
| Kind_sdk
| Kind_cli
| Kind_proxy
| Kind_manual_observe.
#[export] Instance ConnectionKind_eq_dec : EqDecision ConnectionKind.
Proof. solve_decision. Defined.
Definition ConnectionKind_text (x : ConnectionKind) : string :=
  match x with
  | Kind_agent_credential => "agent_credential"%string
  | Kind_mcp_local => "mcp_local"%string
  | Kind_mcp_remote => "mcp_remote"%string
  | Kind_mcp_http => "mcp_http"%string
  | Kind_api_key => "api_key"%string
  | Kind_sdk => "sdk"%string
  | Kind_cli => "cli"%string
  | Kind_proxy => "proxy"%string
  | Kind_manual_observe => "manual_observe"%string
  end.

Inductive CredentialStatus : Type :=
| Credential_active
| Credential_revoked.
#[export] Instance CredentialStatus_eq_dec : EqDecision CredentialStatus.
Proof. solve_decision. Defined.
Definition CredentialStatus_text (x : CredentialStatus) : string :=
  match x with
  | Credential_active => "active"%string
  | Credential_revoked => "revoked"%string
  end.

Inductive WalletRefStatus : Type :=
| Ref_attached
| Ref_detached.
#[export] Instance WalletRefStatus_eq_dec : EqDecision WalletRefStatus.
Proof. solve_decision. Defined.
Definition WalletRefStatus_text (x : WalletRefStatus) : string :=
  match x with
  | Ref_attached => "attached"%string
  | Ref_detached => "detached"%string
  end.

Inductive OnboardingStatus : Type :=
| Onboarding_not_started
| Onboarding_in_progress
| Onboarding_completed.
#[export] Instance OnboardingStatus_eq_dec : EqDecision OnboardingStatus.
Proof. solve_decision. Defined.
Definition OnboardingStatus_text (x : OnboardingStatus) : string :=
  match x with
  | Onboarding_not_started => "not_started"%string
  | Onboarding_in_progress => "in_progress"%string
  | Onboarding_completed => "completed"%string
  end.

Record OrgRow : Type := mkOrgRow {
  org_id : string;
  org_display_name : string;
  org_slug : (option string);
  org_default_team_id : (option string);
  org_settings : json;
  org_status : OrgStatus;
  org_created_at : Z;
  org_updated_at : Z;
  org_default_policy_effect : PolicyDefaultEffect;
  org_frozen : bool;
  org_frozen_reason : option string;
  org_frozen_at : option Z;
  org_frozen_by : option string
}.
Definition set_org_frozen (v : bool) (r : OrgRow) : OrgRow :=
  mkOrgRow (org_id r) (org_display_name r) (org_slug r) (org_default_team_id r) (org_settings r)
    (org_status r) (org_created_at r) (org_updated_at r) (org_default_policy_effect r) v
    (org_frozen_reason r) (org_frozen_at r) (org_frozen_by r).
Definition set_org_frozen_reason (v : option string) (r : OrgRow) : OrgRow :=
  mkOrgRow (org_id r) (org_display_name r) (org_slug r) (org_default_team_id r) (org_settings r)
    (org_status r) (org_created_at r) (org_updated_at r) (org_default_policy_effect r)
    (org_frozen r) v (org_frozen_at r) (org_frozen_by r).
Definition set_org_frozen_at (v : option Z) (r : OrgRow) : OrgRow :=
  mkOrgRow (org_id r) (org_display_name r) (org_slug r) (org_default_team_id r) (org_settings r)
    (org_status r) (org_created_at r) (org_updated_at r) (org_default_policy_effect r)
    (org_frozen r) (org_frozen_reason r) v (org_frozen_by r).
Definition set_org_frozen_by (v : option string) (r : OrgRow) : OrgRow :=
  mkOrgRow (org_id r) (org_display_name r) (org_slug r) (org_default_team_id r) (org_settings r)
    (org_status r) (org_created_at r) (org_updated_at r) (org_default_policy_effect r)
    (org_frozen r) (org_frozen_reason r) (org_frozen_at r) v.
Definition set_org_default_team_id (v : (option string)) (r : OrgRow) : OrgRow :=
  mkOrgRow (org_id r) (org_display_name r) (org_slug r) v (org_settings r) (org_status r)
    (org_created_at r) (org_updated_at r) (org_default_policy_effect r) (org_frozen r)
    (org_frozen_reason r) (org_frozen_at r) (org_frozen_by r).
Definition set_org_updated_at (v : Z) (r : OrgRow) : OrgRow :=
  mkOrgRow (org_id r) (org_display_name r) (org_slug r) (org_default_team_id r) (org_settings r)
    (org_status r) (org_created_at r) v (org_default_policy_effect r) (org_frozen r)
    (org_frozen_reason r) (org_frozen_at r) (org_frozen_by r).

Record UserRow : Type := mkUserRow {
  usr_id : string;
  usr_email : string;
  usr_name : string;
  usr_avatar_url : option string;
  usr_last_seen_at : option Z;
  usr_created_at : Z;
  usr_updated_at : Z
}.
Definition set_usr_name (v : string) (r : UserRow) : UserRow :=
  mkUserRow (usr_id r) (usr_email r) v (usr_avatar_url r) (usr_last_seen_at r)
    (usr_created_at r) (usr_updated_at r).
Definition set_usr_avatar_url (v : option string) (r : UserRow) : UserRow :=
  mkUserRow (usr_id r) (usr_email r) (usr_name r) v (usr_last_seen_at r) (usr_created_at r)
    (usr_updated_at r).
Definition set_usr_last_seen_at (v : option Z) (r : UserRow) : UserRow :=
  mkUserRow (usr_id r) (usr_email r) (usr_name r) (usr_avatar_url r) v (usr_created_at r)
    (usr_updated_at r).
Definition set_usr_updated_at (v : Z) (r : UserRow) : UserRow :=
  mkUserRow (usr_id r) (usr_email r) (usr_name r) (usr_avatar_url r) (usr_last_seen_at r)
    (usr_created_at r) v.

(** A row of [memberships]; the e-mail, the name and the picture are those of the user. *)
Record MemberRow : Type := mkMemberRow {
  mem_id : string;
  mem_org_id : string;
  mem_user_id : string;
  mem_role : Role;
  mem_status : MemberStatus;
  mem_joined_at : (option Z);
  mem_created_at : Z;
  mem_updated_at : Z
}.
Definition set_mem_role (v : Role) (r : MemberRow) : MemberRow :=
  mkMemberRow (mem_id r) (mem_org_id r) (mem_user_id r) v (mem_status r) (mem_joined_at r)
    (mem_created_at r) (mem_updated_at r).
Definition set_mem_status (v : MemberStatus) (r : MemberRow) : MemberRow :=
  mkMemberRow (mem_id r) (mem_org_id r) (mem_user_id r) (mem_role r) v (mem_joined_at r)
    (mem_created_at r) (mem_updated_at r).
Definition set_mem_joined_at (v : (option Z)) (r : MemberRow) : MemberRow :=
  mkMemberRow (mem_id r) (mem_org_id r) (mem_user_id r) (mem_role r) (mem_status r) v
    (mem_created_at r) (mem_updated_at r).
Definition set_mem_updated_at (v : Z) (r : MemberRow) : MemberRow :=
  mkMemberRow (mem_id r) (mem_org_id r) (mem_user_id r) (mem_role r) (mem_status r)
    (mem_joined_at r) (mem_created_at r) v.

Record TeamRow : Type := mkTeamRow {
  tm_id : string;
  tm_org_id : string;
  tm_name : string;
  tm_description : string;
  tm_is_default : bool;
  tm_archived_at : (option Z);
  tm_created_at : Z;
  tm_updated_at : Z
}.
Definition set_tm_name (v : string) (r : TeamRow) : TeamRow :=
  mkTeamRow (tm_id r) (tm_org_id r) v (tm_description r) (tm_is_default r) (tm_archived_at r)
    (tm_created_at r) (tm_updated_at r).
Definition set_tm_description (v : string) (r : TeamRow) : TeamRow :=
  mkTeamRow (tm_id r) (tm_org_id r) (tm_name r) v (tm_is_default r) (tm_archived_at r)
    (tm_created_at r) (tm_updated_at r).
Definition set_tm_archived_at (v : (option Z)) (r : TeamRow) : TeamRow :=
  mkTeamRow (tm_id r) (tm_org_id r) (tm_name r) (tm_description r) (tm_is_default r) v
    (tm_created_at r) (tm_updated_at r).
Definition set_tm_updated_at (v : Z) (r : TeamRow) : TeamRow :=
  mkTeamRow (tm_id r) (tm_org_id r) (tm_name r) (tm_description r) (tm_is_default r)
    (tm_archived_at r) (tm_created_at r) v.

Record AgentRow : Type := mkAgentRow {
  ag_id : string;
  ag_org_id : string;
  ag_team_id : string;
  ag_parent_agent_id : (option string);
  ag_name : string;
  ag_status : string;
  ag_description : string;
  ag_labels : (list string);
  ag_default_environment : (option string);
  ag_metadata : json;
  ag_created_at : Z;
  ag_updated_at : Z;
  ag_created_by_member_id : option string
}.
Definition set_ag_status (v : string) (r : AgentRow) : AgentRow :=
  mkAgentRow (ag_id r) (ag_org_id r) (ag_team_id r) (ag_parent_agent_id r) (ag_name r) v
    (ag_description r) (ag_labels r) (ag_default_environment r) (ag_metadata r)
    (ag_created_at r) (ag_updated_at r) (ag_created_by_member_id r).
Definition set_ag_team_id (v : string) (r : AgentRow) : AgentRow :=
  mkAgentRow (ag_id r) (ag_org_id r) v (ag_parent_agent_id r) (ag_name r) (ag_status r)
    (ag_description r) (ag_labels r) (ag_default_environment r) (ag_metadata r)
    (ag_created_at r) (ag_updated_at r) (ag_created_by_member_id r).
Definition set_ag_parent_agent_id (v : (option string)) (r : AgentRow) : AgentRow :=
  mkAgentRow (ag_id r) (ag_org_id r) (ag_team_id r) v (ag_name r) (ag_status r)
    (ag_description r) (ag_labels r) (ag_default_environment r) (ag_metadata r)
    (ag_created_at r) (ag_updated_at r) (ag_created_by_member_id r).
Definition set_ag_name (v : string) (r : AgentRow) : AgentRow :=
  mkAgentRow (ag_id r) (ag_org_id r) (ag_team_id r) (ag_parent_agent_id r) v (ag_status r)
    (ag_description r) (ag_labels r) (ag_default_environment r) (ag_metadata r)
    (ag_created_at r) (ag_updated_at r) (ag_created_by_member_id r).
Definition set_ag_description (v : string) (r : AgentRow) : AgentRow :=
  mkAgentRow (ag_id r) (ag_org_id r) (ag_team_id r) (ag_parent_agent_id r) (ag_name r)
    (ag_status r) v (ag_labels r) (ag_default_environment r) (ag_metadata r) (ag_created_at r)
    (ag_updated_at r) (ag_created_by_member_id r).
Definition set_ag_labels (v : (list string)) (r : AgentRow) : AgentRow :=
  mkAgentRow (ag_id r) (ag_org_id r) (ag_team_id r) (ag_parent_agent_id r) (ag_name r)
    (ag_status r) (ag_description r) v (ag_default_environment r) (ag_metadata r)
    (ag_created_at r) (ag_updated_at r) (ag_created_by_member_id r).
Definition set_ag_default_environment (v : (option string)) (r : AgentRow) : AgentRow :=
  mkAgentRow (ag_id r) (ag_org_id r) (ag_team_id r) (ag_parent_agent_id r) (ag_name r)
    (ag_status r) (ag_description r) (ag_labels r) v (ag_metadata r) (ag_created_at r)
    (ag_updated_at r) (ag_created_by_member_id r).
Definition set_ag_metadata (v : json) (r : AgentRow) : AgentRow :=
  mkAgentRow (ag_id r) (ag_org_id r) (ag_team_id r) (ag_parent_agent_id r) (ag_name r)
    (ag_status r) (ag_description r) (ag_labels r) (ag_default_environment r) v
    (ag_created_at r) (ag_updated_at r) (ag_created_by_member_id r).
Definition set_ag_updated_at (v : Z) (r : AgentRow) : AgentRow :=
  mkAgentRow (ag_id r) (ag_org_id r) (ag_team_id r) (ag_parent_agent_id r) (ag_name r)
    (ag_status r) (ag_description r) (ag_labels r) (ag_default_environment r) (ag_metadata r)
    (ag_created_at r) v (ag_created_by_member_id r).

Record ConnectionRow : Type := mkConnectionRow {
  cn_id : string;
  cn_org_id : string;
  cn_agent_id : string;
  cn_kind : ConnectionKind;
  cn_name : string;
  cn_status : string;
  cn_secret_last4 : (option string);
  cn_last_tested_at : (option Z);
  cn_last_used_at : (option Z);
  cn_created_at : Z;
  cn_updated_at : Z;
  cn_created_by : option string;
  cn_secret_revealed_at : option Z;
  cn_revoked_at : option Z
}.
Definition set_cn_status (v : string) (r : ConnectionRow) : ConnectionRow :=
  mkConnectionRow (cn_id r) (cn_org_id r) (cn_agent_id r) (cn_kind r) (cn_name r) v
    (cn_secret_last4 r) (cn_last_tested_at r) (cn_last_used_at r) (cn_created_at r)
    (cn_updated_at r) (cn_created_by r) (cn_secret_revealed_at r) (cn_revoked_at r).
Definition set_cn_secret_last4 (v : (option string)) (r : ConnectionRow) : ConnectionRow :=
  mkConnectionRow (cn_id r) (cn_org_id r) (cn_agent_id r) (cn_kind r) (cn_name r)
    (cn_status r) v (cn_last_tested_at r) (cn_last_used_at r) (cn_created_at r)
    (cn_updated_at r) (cn_created_by r) (cn_secret_revealed_at r) (cn_revoked_at r).
Definition set_cn_last_tested_at (v : (option Z)) (r : ConnectionRow) : ConnectionRow :=
  mkConnectionRow (cn_id r) (cn_org_id r) (cn_agent_id r) (cn_kind r) (cn_name r) (cn_status r)
    (cn_secret_last4 r) v (cn_last_used_at r) (cn_created_at r) (cn_updated_at r)
    (cn_created_by r) (cn_secret_revealed_at r) (cn_revoked_at r).
Definition set_cn_last_used_at (v : (option Z)) (r : ConnectionRow) : ConnectionRow :=
  mkConnectionRow (cn_id r) (cn_org_id r) (cn_agent_id r) (cn_kind r) (cn_name r) (cn_status r)
    (cn_secret_last4 r) (cn_last_tested_at r) v (cn_created_at r) (cn_updated_at r)
    (cn_created_by r) (cn_secret_revealed_at r) (cn_revoked_at r).
Definition set_cn_updated_at (v : Z) (r : ConnectionRow) : ConnectionRow :=
  mkConnectionRow (cn_id r) (cn_org_id r) (cn_agent_id r) (cn_kind r) (cn_name r) (cn_status r)
    (cn_secret_last4 r) (cn_last_tested_at r) (cn_last_used_at r) (cn_created_at r) v
    (cn_created_by r) (cn_secret_revealed_at r) (cn_revoked_at r).
Definition set_cn_secret_revealed_at (v : option Z) (r : ConnectionRow) : ConnectionRow :=
  mkConnectionRow (cn_id r) (cn_org_id r) (cn_agent_id r) (cn_kind r) (cn_name r) (cn_status r)
    (cn_secret_last4 r) (cn_last_tested_at r) (cn_last_used_at r) (cn_created_at r)
    (cn_updated_at r) (cn_created_by r) v (cn_revoked_at r).
Definition set_cn_revoked_at (v : option Z) (r : ConnectionRow) : ConnectionRow :=
  mkConnectionRow (cn_id r) (cn_org_id r) (cn_agent_id r) (cn_kind r) (cn_name r) (cn_status r)
    (cn_secret_last4 r) (cn_last_tested_at r) (cn_last_used_at r) (cn_created_at r)
    (cn_updated_at r) (cn_created_by r) (cn_secret_revealed_at r) v.

(** [connection_credentials]. *)
Record CredentialRow : Type := mkCredentialRow {
  cc_id : string;
  cc_org_id : string;
  cc_connection_id : string;
  cc_secret_hash : string;
  cc_status : CredentialStatus;
  cc_created_at : Z;
  cc_revoked_at : option Z
}.
Definition set_cc_status (v : CredentialStatus) (r : CredentialRow) : CredentialRow :=
  mkCredentialRow (cc_id r) (cc_org_id r) (cc_connection_id r) (cc_secret_hash r) v
    (cc_created_at r) (cc_revoked_at r).
Definition set_cc_revoked_at (v : option Z) (r : CredentialRow) : CredentialRow :=
  mkCredentialRow (cc_id r) (cc_org_id r) (cc_connection_id r) (cc_secret_hash r) (cc_status r)
    (cc_created_at r) v.

Record WalletRefRow : Type := mkWalletRefRow {
  wr_id : string;
  wr_org_id : string;
  wr_agent_id : string;
  wr_provider : string;
  wr_external_wallet_id : (option string);
  wr_address : (option string);
  wr_chain : (option string);
  wr_label : string;
  wr_status : WalletRefStatus;
  wr_attached_at : Z;
  wr_detached_at : (option Z)
}.
Definition set_wr_status (v : WalletRefStatus) (r : WalletRefRow) : WalletRefRow :=
  mkWalletRefRow (wr_id r) (wr_org_id r) (wr_agent_id r) (wr_provider r)
    (wr_external_wallet_id r) (wr_address r) (wr_chain r) (wr_label r) v (wr_attached_at r)
    (wr_detached_at r).
Definition set_wr_detached_at (v : (option Z)) (r : WalletRefRow) : WalletRefRow :=
  mkWalletRefRow (wr_id r) (wr_org_id r) (wr_agent_id r) (wr_provider r)
    (wr_external_wallet_id r) (wr_address r) (wr_chain r) (wr_label r) (wr_status r)
    (wr_attached_at r) v.

Record OnboardingStateRow : Type := mkOnboardingStateRow {
  onb_id : string;
  onb_org_id : string;
  onb_flow_key : string;
  onb_status : OnboardingStatus;
  onb_payload : json;
  onb_completed_at : (option Z);
  onb_created_by_user_id : (option string);
  onb_created_at : Z;
  onb_updated_at : Z
}.
Definition set_onb_status (v : OnboardingStatus) (r : OnboardingStateRow) : OnboardingStateRow :=
  mkOnboardingStateRow (onb_id r) (onb_org_id r) (onb_flow_key r) v (onb_payload r)
    (onb_completed_at r) (onb_created_by_user_id r) (onb_created_at r) (onb_updated_at r).
Definition set_onb_payload (v : json) (r : OnboardingStateRow) : OnboardingStateRow :=
  mkOnboardingStateRow (onb_id r) (onb_org_id r) (onb_flow_key r) (onb_status r) v
    (onb_completed_at r) (onb_created_by_user_id r) (onb_created_at r) (onb_updated_at r).
Definition set_onb_completed_at (v : (option Z)) (r : OnboardingStateRow) : OnboardingStateRow :=
  mkOnboardingStateRow (onb_id r) (onb_org_id r) (onb_flow_key r) (onb_status r)
    (onb_payload r) v (onb_created_by_user_id r) (onb_created_at r) (onb_updated_at r).
Definition set_onb_created_by_user_id (v : (option string))
    (r : OnboardingStateRow) : OnboardingStateRow :=
  mkOnboardingStateRow (onb_id r) (onb_org_id r) (onb_flow_key r) (onb_status r) (onb_payload r)
    (onb_completed_at r) v (onb_created_at r) (onb_updated_at r).
Definition set_onb_updated_at (v : Z) (r : OnboardingStateRow) : OnboardingStateRow :=
  mkOnboardingStateRow (onb_id r) (onb_org_id r) (onb_flow_key r) (onb_status r) (onb_payload r)
    (onb_completed_at r) (onb_created_by_user_id r) (onb_created_at r) v.

(** [auth_sessions]. *)
Record SessionRow : Type := mkSessionRow {
  ses_id : string;
  ses_user_id : string;
  ses_token_hash : string;
  ses_expires_at : Z;
  ses_revoked_at : option Z;
  ses_last_used_at : option Z;
  ses_created_at : Z
}.
Definition set_ses_revoked_at (v : option Z) (r : SessionRow) : SessionRow :=
  mkSessionRow (ses_id r) (ses_user_id r) (ses_token_hash r) (ses_expires_at r) v
    (ses_last_used_at r) (ses_created_at r).
Definition set_ses_last_used_at (v : option Z) (r : SessionRow) : SessionRow :=
  mkSessionRow (ses_id r) (ses_user_id r) (ses_token_hash r) (ses_expires_at r)
    (ses_revoked_at r) v (ses_created_at r).

(** [oauth_accounts]. *)
Record OauthAccountRow : Type := mkOauthAccountRow {
  oa_id : string;
  oa_user_id : string;
  oa_provider : string;
  oa_provider_subject : string;
  oa_email : string;
  oa_email_verified : bool;
  oa_created_at : Z;
  oa_updated_at : Z
}.
Definition set_oa_user_id (v : string) (r : OauthAccountRow) : OauthAccountRow :=
  mkOauthAccountRow (oa_id r) v (oa_provider r) (oa_provider_subject r) (oa_email r)
    (oa_email_verified r) (oa_created_at r) (oa_updated_at r).
Definition set_oa_email (v : string) (r : OauthAccountRow) : OauthAccountRow :=
  mkOauthAccountRow (oa_id r) (oa_user_id r) (oa_provider r) (oa_provider_subject r) v
    (oa_email_verified r) (oa_created_at r) (oa_updated_at r).
Definition set_oa_email_verified (v : bool) (r : OauthAccountRow) : OauthAccountRow :=
  mkOauthAccountRow (oa_id r) (oa_user_id r) (oa_provider r) (oa_provider_subject r)
    (oa_email r) v (oa_created_at r) (oa_updated_at r).
Definition set_oa_updated_at (v : Z) (r : OauthAccountRow) : OauthAccountRow :=
  mkOauthAccountRow (oa_id r) (oa_user_id r) (oa_provider r) (oa_provider_subject r)
    (oa_email r) (oa_email_verified r) (oa_created_at r) v.

(** [agent_join_invites]. *)
Record JoinInviteRow : Type := mkJoinInviteRow {
  inv_id : string;
  inv_org_id : string;
  inv_created_by_member_id : option string;
  inv_token_hash : string;
  inv_label : string;
  inv_max_uses : Z;
  inv_use_count : Z;
  inv_expires_at : option Z;
  inv_revoked_at : option Z;
  inv_created_at : Z
}.
Definition set_inv_use_count (v : Z) (r : JoinInviteRow) : JoinInviteRow :=
  mkJoinInviteRow (inv_id r) (inv_org_id r) (inv_created_by_member_id r) (inv_token_hash r)
    (inv_label r) (inv_max_uses r) v (inv_expires_at r) (inv_revoked_at r) (inv_created_at r).
Definition set_inv_revoked_at (v : option Z) (r : JoinInviteRow) : JoinInviteRow :=
  mkJoinInviteRow (inv_id r) (inv_org_id r) (inv_created_by_member_id r) (inv_token_hash r)
    (inv_label r) (inv_max_uses r) (inv_use_count r) (inv_expires_at r) v (inv_created_at r).

(** [agent_open_join_events]. *)
Record OpenJoinRow : Type := mkOpenJoinRow {
  oj_id : string;
  oj_org_id : string;
  oj_agent_id : string;
  oj_client_fingerprint : string;
  oj_created_at : Z
}.

Definition agent_status_ok (status : string) : bool :=
  mem status ["active"; "paused"; "deactivated"; "retired"; "suspended"]%string.

(** The unique index on attached references, with nulls as empty texts. *)
Definition wallet_ref_clash (r s : WalletRefRow) : bool :=
  (wr_id r =s wr_id s)
  || (bool_decide (wr_status r = Ref_attached) && bool_decide (wr_status s = Ref_attached)
      && (wr_org_id r =s wr_org_id s) && (wr_agent_id r =s wr_agent_id s) && (wr_provider r =s wr_provider s)
      && ((wr_external_wallet_id r ?? "") =s (wr_external_wallet_id s ?? ""))%string
      && ((wr_address r ?? "") =s (wr_address s ?? ""))%string
      && ((wr_chain r ?? "") =s (wr_chain s ?? ""))%string).

Definition invite_check (r : JoinInviteRow) : bool :=
  (1 <=? inv_max_uses r) && (inv_max_uses r <=? 10000) && (0 <=? inv_use_count r)
  && (inv_use_count r <=? inv_max_uses r).

(** ** Policies ([policy/store.ts], [policy/types.ts]) *)

Inductive PolicyCategory : Type :=
| Cat_management
| Cat_operational
| Cat_capability.
#[export] Instance PolicyCategory_eq_dec : EqDecision PolicyCategory.
Proof. solve_decision. Defined.
Definition PolicyCategory_text (x : PolicyCategory) : string :=
  match x with
  | Cat_management => "management"%string
  | Cat_operational => "operational"%string
  | Cat_capability => "capability"%string
  end.

Inductive PolicyDraftSource : Type :=
| Source_preset
| Source_blank
| Source_request
| Source_structured.
#[export] Instance PolicyDraftSource_eq_dec : EqDecision PolicyDraftSource.
Proof. solve_decision. Defined.
Definition PolicyDraftSource_text (x : PolicyDraftSource) : string :=
  match x with
  | Source_preset => "preset"%string
  | Source_blank => "blank"%string
  | Source_request => "request"%string
  | Source_structured => "structured"%string
  end.

Inductive PolicyDraftStatus : Type :=
| Draft_draft
| Draft_validated
| Draft_activated
| Draft_discarded.
#[export] Instance PolicyDraftStatus_eq_dec : EqDecision PolicyDraftStatus.
Proof. solve_decision. Defined.
Definition PolicyDraftStatus_text (x : PolicyDraftStatus) : string :=
  match x with
  | Draft_draft => "draft"%string
  | Draft_validated => "validated"%string
  | Draft_activated => "activated"%string
  | Draft_discarded => "discarded"%string
  end.

Inductive PolicyVersionStatus : Type :=
| Version_active
| Version_superseded
| Version_archived.
#[export] Instance PolicyVersionStatus_eq_dec : EqDecision PolicyVersionStatus.
Proof. solve_decision. Defined.
Definition PolicyVersionStatus_text (x : PolicyVersionStatus) : string :=
  match x with
  | Version_active => "active"%string
  | Version_superseded => "superseded"%string
  | Version_archived => "archived"%string
  end.

Inductive PolicyRevisionMode : Type :=
| Mode_revision
| Mode_restore.
#[export] Instance PolicyRevisionMode_eq_dec : EqDecision PolicyRevisionMode.
Proof. solve_decision. Defined.
Definition PolicyRevisionMode_text (x : PolicyRevisionMode) : string :=
  match x with
  | Mode_revision => "revision"%string
  | Mode_restore => "restore"%string
  end.

Inductive PolicyBindingStatus : Type :=
| Binding_active
| Binding_removed.
#[export] Instance PolicyBindingStatus_eq_dec : EqDecision PolicyBindingStatus.
Proof. solve_decision. Defined.
Definition PolicyBindingStatus_text (x : PolicyBindingStatus) : string :=
  match x with
  | Binding_active => "active"%string
  | Binding_removed => "removed"%string
  end.

Record PolicyRestoreBindingInput : Type := mkPolicyRestoreBindingInput {
  rb_target_type : PolicyTargetType;
  rb_target_id : string
}.

Record PolicyDraftRow : Type := mkPolicyDraftRow {
  pd_id : string;
  pd_org_id : string;
  pd_source : PolicyDraftSource;
  pd_name : string;
  pd_description : string;
  pd_category : PolicyCategory;
  pd_status : PolicyDraftStatus;
  pd_statements : list PolicyStatement;
  pd_validation : PolicyValidationResult;
  pd_created_by : string;
  pd_updated_by : string;
  pd_activated_policy_id : (option string);
  pd_activated_version : (option Z);
  pd_revision_policy_id : (option string);
  pd_revision_base_version : (option Z);
  pd_revision_mode : option PolicyRevisionMode;
  pd_revision_restore_bindings : list PolicyRestoreBindingInput;
  pd_created_at : Z;
  pd_updated_at : Z
}.
Definition set_pd_name (v : string) (r : PolicyDraftRow) : PolicyDraftRow :=
  mkPolicyDraftRow (pd_id r) (pd_org_id r) (pd_source r) v (pd_description r) (pd_category r)
    (pd_status r) (pd_statements r) (pd_validation r) (pd_created_by r) (pd_updated_by r)
    (pd_activated_policy_id r) (pd_activated_version r) (pd_revision_policy_id r)
    (pd_revision_base_version r) (pd_revision_mode r) (pd_revision_restore_bindings r)
    (pd_created_at r) (pd_updated_at r).
Definition set_pd_description (v : string) (r : PolicyDraftRow) : PolicyDraftRow :=
  mkPolicyDraftRow (pd_id r) (pd_org_id r) (pd_source r) (pd_name r) v (pd_category r)
    (pd_status r) (pd_statements r) (pd_validation r) (pd_created_by r) (pd_updated_by r)
    (pd_activated_policy_id r) (pd_activated_version r) (pd_revision_policy_id r)
    (pd_revision_base_version r) (pd_revision_mode r) (pd_revision_restore_bindings r)
    (pd_created_at r) (pd_updated_at r).
Definition set_pd_category (v : PolicyCategory) (r : PolicyDraftRow) : PolicyDraftRow :=
  mkPolicyDraftRow (pd_id r) (pd_org_id r) (pd_source r) (pd_name r) (pd_description r) v
    (pd_status r) (pd_statements r) (pd_validation r) (pd_created_by r) (pd_updated_by r)
    (pd_activated_policy_id r) (pd_activated_version r) (pd_revision_policy_id r)
    (pd_revision_base_version r) (pd_revision_mode r) (pd_revision_restore_bindings r)
    (pd_created_at r) (pd_updated_at r).
Definition set_pd_statements (v : list PolicyStatement) (r : PolicyDraftRow) : PolicyDraftRow :=
  mkPolicyDraftRow (pd_id r) (pd_org_id r) (pd_source r) (pd_name r) (pd_description r)
    (pd_category r) (pd_status r) v (pd_validation r) (pd_created_by r) (pd_updated_by r)
    (pd_activated_policy_id r) (pd_activated_version r) (pd_revision_policy_id r)
    (pd_revision_base_version r) (pd_revision_mode r) (pd_revision_restore_bindings r)
    (pd_created_at r) (pd_updated_at r).
Definition set_pd_status (v : PolicyDraftStatus) (r : PolicyDraftRow) : PolicyDraftRow :=
  mkPolicyDraftRow (pd_id r) (pd_org_id r) (pd_source r) (pd_name r) (pd_description r)
    (pd_category r) v (pd_statements r) (pd_validation r) (pd_created_by r) (pd_updated_by r)
    (pd_activated_policy_id r) (pd_activated_version r) (pd_revision_policy_id r)
    (pd_revision_base_version r) (pd_revision_mode r) (pd_revision_restore_bindings r)
    (pd_created_at r) (pd_updated_at r).
Definition set_pd_validation (v : PolicyValidationResult) (r : PolicyDraftRow) : PolicyDraftRow :=
  mkPolicyDraftRow (pd_id r) (pd_org_id r) (pd_source r) (pd_name r) (pd_description r)
    (pd_category r) (pd_status r) (pd_statements r) v (pd_created_by r) (pd_updated_by r)
    (pd_activated_policy_id r) (pd_activated_version r) (pd_revision_policy_id r)
    (pd_revision_base_version r) (pd_revision_mode r) (pd_revision_restore_bindings r)
    (pd_created_at r) (pd_updated_at r).
Definition set_pd_updated_by (v : string) (r : PolicyDraftRow) : PolicyDraftRow :=
  mkPolicyDraftRow (pd_id r) (pd_org_id r) (pd_source r) (pd_name r) (pd_description r)
    (pd_category r) (pd_status r) (pd_statements r) (pd_validation r) (pd_created_by r) v
    (pd_activated_policy_id r) (pd_activated_version r) (pd_revision_policy_id r)
    (pd_revision_base_version r) (pd_revision_mode r) (pd_revision_restore_bindings r)
    (pd_created_at r) (pd_updated_at r).
Definition set_pd_updated_at (v : Z) (r : PolicyDraftRow) : PolicyDraftRow :=
  mkPolicyDraftRow (pd_id r) (pd_org_id r) (pd_source r) (pd_name r) (pd_description r)
    (pd_category r) (pd_status r) (pd_statements r) (pd_validation r) (pd_created_by r)
    (pd_updated_by r) (pd_activated_policy_id r) (pd_activated_version r)
    (pd_revision_policy_id r) (pd_revision_base_version r) (pd_revision_mode r)
    (pd_revision_restore_bindings r) (pd_created_at r) v.
Definition set_pd_activated_policy_id (v : (option string))
    (r : PolicyDraftRow) : PolicyDraftRow :=
  mkPolicyDraftRow (pd_id r) (pd_org_id r) (pd_source r) (pd_name r) (pd_description r)
    (pd_category r) (pd_status r) (pd_statements r) (pd_validation r) (pd_created_by r)
    (pd_updated_by r) v (pd_activated_version r) (pd_revision_policy_id r)
    (pd_revision_base_version r) (pd_revision_mode r) (pd_revision_restore_bindings r)
    (pd_created_at r) (pd_updated_at r).
Definition set_pd_activated_version (v : (option Z)) (r : PolicyDraftRow) : PolicyDraftRow :=
  mkPolicyDraftRow (pd_id r) (pd_org_id r) (pd_source r) (pd_name r) (pd_description r)
    (pd_category r) (pd_status r) (pd_statements r) (pd_validation r) (pd_created_by r)
    (pd_updated_by r) (pd_activated_policy_id r) v (pd_revision_policy_id r)
    (pd_revision_base_version r) (pd_revision_mode r) (pd_revision_restore_bindings r)
    (pd_created_at r) (pd_updated_at r).

(** [bindings_count] is computed by the queries, not a column. *)
Record PolicyVersionRow : Type := mkPolicyVersionRow {
  pv_policy_id : string;
  pv_version : Z;
  pv_org_id : string;
  pv_draft_id : (option string);
  pv_name : string;
  pv_description : string;
  pv_category : PolicyCategory;
  pv_status : PolicyVersionStatus;
  pv_statements : list PolicyStatement;
  pv_validation : PolicyValidationResult;
  pv_change_reason : string;
  pv_created_by : string;
  pv_archived_by : (option string);
  pv_archived_at : (option Z);
  pv_created_at : Z
}.
Definition set_pv_status (v : PolicyVersionStatus) (r : PolicyVersionRow) : PolicyVersionRow :=
  mkPolicyVersionRow (pv_policy_id r) (pv_version r) (pv_org_id r) (pv_draft_id r) (pv_name r)
    (pv_description r) (pv_category r) v (pv_statements r) (pv_validation r)
    (pv_change_reason r) (pv_created_by r) (pv_archived_by r) (pv_archived_at r)
    (pv_created_at r).
Definition set_pv_archived_by (v : (option string)) (r : PolicyVersionRow) : PolicyVersionRow :=
  mkPolicyVersionRow (pv_policy_id r) (pv_version r) (pv_org_id r) (pv_draft_id r) (pv_name r)
    (pv_description r) (pv_category r) (pv_status r) (pv_statements r) (pv_validation r)
    (pv_change_reason r) (pv_created_by r) v (pv_archived_at r) (pv_created_at r).
Definition set_pv_archived_at (v : (option Z)) (r : PolicyVersionRow) : PolicyVersionRow :=
  mkPolicyVersionRow (pv_policy_id r) (pv_version r) (pv_org_id r) (pv_draft_id r) (pv_name r)
    (pv_description r) (pv_category r) (pv_status r) (pv_statements r) (pv_validation r)
    (pv_change_reason r) (pv_created_by r) (pv_archived_by r) v (pv_created_at r).
Definition set_pv_change_reason (v : string) (r : PolicyVersionRow) : PolicyVersionRow :=
  mkPolicyVersionRow (pv_policy_id r) (pv_version r) (pv_org_id r) (pv_draft_id r) (pv_name r)
    (pv_description r) (pv_category r) (pv_status r) (pv_statements r) (pv_validation r) v
    (pv_created_by r) (pv_archived_by r) (pv_archived_at r) (pv_created_at r).

Record PolicyBindingRow : Type := mkPolicyBindingRow {
  pb_id : string;
  pb_org_id : string;
  pb_policy_id : string;
  pb_policy_version : Z;
  pb_target_type : PolicyTargetType;
  pb_target_id : string;
  pb_status : PolicyBindingStatus;
  pb_created_by : string;
  pb_created_at : Z;
  pb_removed_by : (option string);
  pb_removed_at : (option Z);
  pb_removed_reason : (option string)
}.
Definition set_pb_status (v : PolicyBindingStatus) (r : PolicyBindingRow) : PolicyBindingRow :=
  mkPolicyBindingRow (pb_id r) (pb_org_id r) (pb_policy_id r) (pb_policy_version r)
    (pb_target_type r) (pb_target_id r) v (pb_created_by r) (pb_created_at r) (pb_removed_by r)
    (pb_removed_at r) (pb_removed_reason r).
Definition set_pb_removed_by (v : (option string)) (r : PolicyBindingRow) : PolicyBindingRow :=
  mkPolicyBindingRow (pb_id r) (pb_org_id r) (pb_policy_id r) (pb_policy_version r)
    (pb_target_type r) (pb_target_id r) (pb_status r) (pb_created_by r) (pb_created_at r) v
    (pb_removed_at r) (pb_removed_reason r).
Definition set_pb_removed_at (v : (option Z)) (r : PolicyBindingRow) : PolicyBindingRow :=
  mkPolicyBindingRow (pb_id r) (pb_org_id r) (pb_policy_id r) (pb_policy_version r)
    (pb_target_type r) (pb_target_id r) (pb_status r) (pb_created_by r) (pb_created_at r)
    (pb_removed_by r) v (pb_removed_reason r).
Definition set_pb_removed_reason (v : (option string))
    (r : PolicyBindingRow) : PolicyBindingRow :=
  mkPolicyBindingRow (pb_id r) (pb_org_id r) (pb_policy_id r) (pb_policy_version r)
    (pb_target_type r) (pb_target_id r) (pb_status r) (pb_created_by r) (pb_created_at r)
    (pb_removed_by r) (pb_removed_at r) v.

Record PolicyActionRow : Type := mkPolicyActionRow {
  pa_action_id : string;
  pa_category : string;
  pa_label : string;
  pa_description : string;
  pa_enforceability : string;
  pa_introduced_section : Z;
  pa_condition_groups : list string;
  pa_binding_target_types : list string
}.

Record PolicyDecisionRow : Type := mkPolicyDecisionRow {
  pdec_id : string;
  pdec_actor_type : string;
  pdec_actor_id : (option string);
  pdec_actor_role : option Role;
  pdec_action_id : string;
  pdec_target_type : PolicyTargetType;
  pdec_target_id : (option string);
  pdec_context : json;
  pdec_decision : PolicyDecisionValue;
  pdec_enforceability : string;
  pdec_reason_code : string;
  pdec_explanation : string;
  pdec_matched : list PolicyDecisionMatch;
  pdec_audit_event_id : (option string);
  pdec_created_at : Z;
  pdec_org_id : string
}.

Definition version_active (r : PolicyVersionRow) : bool := bool_decide (pv_status r = Version_active).
Definition binding_active (r : PolicyBindingRow) : bool := bool_decide (pb_status r = Binding_active).

(** Primary key [(policy_id, version)] and [policy_versions_one_active_idx]. *)
Definition version_clash (r s : PolicyVersionRow) : bool :=
  (pv_policy_id r =s pv_policy_id s)
  && ((pv_version r =? pv_version s)
      || ((pv_org_id r =s pv_org_id s) && version_active r && version_active s)).

Definition binding_clash (r s : PolicyBindingRow) : bool :=
  (pb_id r =s pb_id s)
  || (binding_active r && binding_active s && (pb_org_id r =s pb_org_id s)
      && (pb_policy_id r =s pb_policy_id s) && (pb_policy_version r =? pb_policy_version s)
      && bool_decide (pb_target_type r = pb_target_type s) && (pb_target_id r =s pb_target_id s)).

(** ** Approvals ([approvals/store.ts], [approvals/types.ts]) *)

Inductive ApprovalStatus : Type :=
| Approval_pending
| Approval_approved
| Approval_denied
| Approval_expired
| Approval_cancelled
| Approval_consumed.
#[export] Instance ApprovalStatus_eq_dec : EqDecision ApprovalStatus.
Proof. solve_decision. Defined.
Definition ApprovalStatus_text (x : ApprovalStatus) : string :=
  match x with
  | Approval_pending => "pending"%string
  | Approval_approved => "approved"%string
  | Approval_denied => "denied"%string
  | Approval_expired => "expired"%string
  | Approval_cancelled => "cancelled"%string
  | Approval_consumed => "consumed"%string
  end.

Inductive ApprovalActionKind : Type :=
| Action_requested
| Action_approved
| Action_denied
| Action_cancelled
| Action_expired
| Action_consumed.
#[export] Instance ApprovalActionKind_eq_dec : EqDecision ApprovalActionKind.
Proof. solve_decision. Defined.
Definition ApprovalActionKind_text (x : ApprovalActionKind) : string :=
  match x with
  | Action_requested => "requested"%string
  | Action_approved => "approved"%string
  | Action_denied => "denied"%string
  | Action_cancelled => "cancelled"%string
  | Action_expired => "expired"%string
  | Action_consumed => "consumed"%string
  end.

Inductive ActivityCategory : Type :=
| Activity_policy
| Activity_approval
| Activity_runtime
| Activity_integration
| Activity_operation
| Activity_payment
| Activity_treasury.
#[export] Instance ActivityCategory_eq_dec : EqDecision ActivityCategory.
Proof. solve_decision. Defined.
Definition ActivityCategory_text (x : ActivityCategory) : string :=
  match x with
  | Activity_policy => "policy"%string
  | Activity_approval => "approval"%string
  | Activity_runtime => "runtime"%string
  | Activity_integration => "integration"%string
  | Activity_operation => "operation"%string
  | Activity_payment => "payment"%string
  | Activity_treasury => "treasury"%string
  end.

Inductive ActivityOutcome : Type :=
| Act_success
| Act_denied
| Act_pending
| Act_error.
#[export] Instance ActivityOutcome_eq_dec : EqDecision ActivityOutcome.
Proof. solve_decision. Defined.
Definition ActivityOutcome_text (x : ActivityOutcome) : string :=
  match x with
  | Act_success => "success"%string
  | Act_denied => "denied"%string
  | Act_pending => "pending"%string
  | Act_error => "error"%string
  end.

(** [votes_count] is the count of the votes, computed by the queries. *)
Record ApprovalRow : Type := mkApprovalRow {
  ap_id : string;
  ap_org_id : string;
  ap_agent_id : string;
  ap_connection_id : string;
  ap_decision_id : string;
  ap_status : ApprovalStatus;
  ap_action_id : string;
  ap_target_type : PolicyTargetType;
  ap_target_id : (option string);
  ap_context : json;
  ap_context_hash : string;
  ap_requested_by : string;
  ap_approved_by : (option string);
  ap_approved_at : (option Z);
  ap_denied_by : (option string);
  ap_denied_at : (option Z);
  ap_consumed_at : (option Z);
  ap_expires_at : Z;
  ap_note : string;
  ap_required_approvals : Z;
  ap_created_at : Z;
  ap_updated_at : Z
}.
Definition set_ap_status (v : ApprovalStatus) (r : ApprovalRow) : ApprovalRow :=
  mkApprovalRow (ap_id r) (ap_org_id r) (ap_agent_id r) (ap_connection_id r)
    (ap_decision_id r) v (ap_action_id r) (ap_target_type r) (ap_target_id r) (ap_context r)
    (ap_context_hash r) (ap_requested_by r) (ap_approved_by r) (ap_approved_at r)
    (ap_denied_by r) (ap_denied_at r) (ap_consumed_at r) (ap_expires_at r) (ap_note r)
    (ap_required_approvals r) (ap_created_at r) (ap_updated_at r).
Definition set_ap_approved_by (v : (option string)) (r : ApprovalRow) : ApprovalRow :=
  mkApprovalRow (ap_id r) (ap_org_id r) (ap_agent_id r) (ap_connection_id r) (ap_decision_id r)
    (ap_status r) (ap_action_id r) (ap_target_type r) (ap_target_id r) (ap_context r)
    (ap_context_hash r) (ap_requested_by r) v (ap_approved_at r) (ap_denied_by r)
    (ap_denied_at r) (ap_consumed_at r) (ap_expires_at r) (ap_note r) (ap_required_approvals r)
    (ap_created_at r) (ap_updated_at r).
Definition set_ap_approved_at (v : (option Z)) (r : ApprovalRow) : ApprovalRow :=
  mkApprovalRow (ap_id r) (ap_org_id r) (ap_agent_id r) (ap_connection_id r) (ap_decision_id r)
    (ap_status r) (ap_action_id r) (ap_target_type r) (ap_target_id r) (ap_context r)
    (ap_context_hash r) (ap_requested_by r) (ap_approved_by r) v (ap_denied_by r)
    (ap_denied_at r) (ap_consumed_at r) (ap_expires_at r) (ap_note r) (ap_required_approvals r)
    (ap_created_at r) (ap_updated_at r).
Definition set_ap_denied_by (v : (option string)) (r : ApprovalRow) : ApprovalRow :=
  mkApprovalRow (ap_id r) (ap_org_id r) (ap_agent_id r) (ap_connection_id r) (ap_decision_id r)
    (ap_status r) (ap_action_id r) (ap_target_type r) (ap_target_id r) (ap_context r)
    (ap_context_hash r) (ap_requested_by r) (ap_approved_by r) (ap_approved_at r) v
    (ap_denied_at r) (ap_consumed_at r) (ap_expires_at r) (ap_note r) (ap_required_approvals r)
    (ap_created_at r) (ap_updated_at r).
Definition set_ap_denied_at (v : (option Z)) (r : ApprovalRow) : ApprovalRow :=
  mkApprovalRow (ap_id r) (ap_org_id r) (ap_agent_id r) (ap_connection_id r) (ap_decision_id r)
    (ap_status r) (ap_action_id r) (ap_target_type r) (ap_target_id r) (ap_context r)
    (ap_context_hash r) (ap_requested_by r) (ap_approved_by r) (ap_approved_at r)
    (ap_denied_by r) v (ap_consumed_at r) (ap_expires_at r) (ap_note r)
    (ap_required_approvals r) (ap_created_at r) (ap_updated_at r).
Definition set_ap_consumed_at (v : (option Z)) (r : ApprovalRow) : ApprovalRow :=
  mkApprovalRow (ap_id r) (ap_org_id r) (ap_agent_id r) (ap_connection_id r) (ap_decision_id r)
    (ap_status r) (ap_action_id r) (ap_target_type r) (ap_target_id r) (ap_context r)
    (ap_context_hash r) (ap_requested_by r) (ap_approved_by r) (ap_approved_at r)
    (ap_denied_by r) (ap_denied_at r) v (ap_expires_at r) (ap_note r) (ap_required_approvals r)
    (ap_created_at r) (ap_updated_at r).
Definition set_ap_note (v : string) (r : ApprovalRow) : ApprovalRow :=
  mkApprovalRow (ap_id r) (ap_org_id r) (ap_agent_id r) (ap_connection_id r) (ap_decision_id r)
    (ap_status r) (ap_action_id r) (ap_target_type r) (ap_target_id r) (ap_context r)
    (ap_context_hash r) (ap_requested_by r) (ap_approved_by r) (ap_approved_at r)
    (ap_denied_by r) (ap_denied_at r) (ap_consumed_at r) (ap_expires_at r) v
    (ap_required_approvals r) (ap_created_at r) (ap_updated_at r).
Definition set_ap_updated_at (v : Z) (r : ApprovalRow) : ApprovalRow :=
  mkApprovalRow (ap_id r) (ap_org_id r) (ap_agent_id r) (ap_connection_id r) (ap_decision_id r)
    (ap_status r) (ap_action_id r) (ap_target_type r) (ap_target_id r) (ap_context r)
    (ap_context_hash r) (ap_requested_by r) (ap_approved_by r) (ap_approved_at r)
    (ap_denied_by r) (ap_denied_at r) (ap_consumed_at r) (ap_expires_at r) (ap_note r)
    (ap_required_approvals r) (ap_created_at r) v.

Record ActivityRow : Type := mkActivityRow {
  act_id : string;
  act_org_id : string;
  act_agent_id : (option string);
  act_connection_id : (option string);
  act_decision_id : (option string);
  act_approval_id : (option string);
  act_category : ActivityCategory;
  act_action : string;
  act_outcome : ActivityOutcome;
  act_summary : string;
  act_payload : json;
  act_created_at : Z
}.

Record ApprovalActionRow : Type := mkApprovalActionRow {
  aa_id : string;
  aa_approval_id : string;
  aa_actor_type : string;
  aa_actor_id : string;
  aa_action : ApprovalActionKind;
  aa_note : string;
  aa_created_at : Z;
  aa_org_id : string
}.

Record ApprovalConsumptionRow : Type := mkApprovalConsumptionRow {
  ac_id : string;
  ac_approval_id : string;
  ac_decision_id : string;
  ac_connection_id : string;
  ac_context_hash : string;
  ac_created_at : Z;
  ac_org_id : string
}.

Record ApprovalVoteRow : Type := mkApprovalVoteRow {
  av_id : string;
  av_org_id : string;
  av_approval_id : string;
  av_actor_id : string;
  av_note : string;
  av_created_at : Z
}.

(** ** Payments ([payments/store.ts], [payments/ledger.ts], [payments/x402-attempt-store.ts]) *)

(** A value that [numeric(20,6)] can hold. *)
Definition numeric_ok (z : Z) : bool := Z.abs z <? 10 ^ 20.

Inductive AccessStatus : Type :=
| Access_active
| Access_disabled.
#[export] Instance AccessStatus_eq_dec : EqDecision AccessStatus.
Proof. solve_decision. Defined.
Definition AccessStatus_text (x : AccessStatus) : string :=
  match x with
  | Access_active => "active"%string
  | Access_disabled => "disabled"%string
  end.

Inductive PaymentProvider : Type :=
| Provider_circle_gateway
| Provider_circle_wallets
| Provider_manual
| Provider_simulation.
#[export] Instance PaymentProvider_eq_dec : EqDecision PaymentProvider.
Proof. solve_decision. Defined.
Definition PaymentProvider_text (x : PaymentProvider) : string :=
  match x with
  | Provider_circle_gateway => "circle_gateway"%string
  | Provider_circle_wallets => "circle_wallets"%string
  | Provider_manual => "manual"%string
  | Provider_simulation => "simulation"%string
  end.

Inductive ReservationStatus : Type :=
| Reservation_reserved
| Reservation_settled
| Reservation_released
| Reservation_failed.
#[export] Instance ReservationStatus_eq_dec : EqDecision ReservationStatus.
Proof. solve_decision. Defined.
Definition ReservationStatus_text (x : ReservationStatus) : string :=
  match x with
  | Reservation_reserved => "reserved"%string
  | Reservation_settled => "settled"%string
  | Reservation_released => "released"%string
  | Reservation_failed => "failed"%string
  end.

Inductive X402AttemptStatus : Type :=
| Attempt_reserved
| Attempt_submitting
| Attempt_settled
| Attempt_failed
| Attempt_unknown.
#[export] Instance X402AttemptStatus_eq_dec : EqDecision X402AttemptStatus.
Proof. solve_decision. Defined.
Definition X402AttemptStatus_text (x : X402AttemptStatus) : string :=
  match x with
  | Attempt_reserved => "reserved"%string
  | Attempt_submitting => "submitting"%string
  | Attempt_settled => "settled"%string
  | Attempt_failed => "failed"%string
  | Attempt_unknown => "unknown"%string
  end.

Inductive PaymentEventDecision : Type :=
| Event_submitted
| Event_settled
| Event_failed
| Event_simulated.
#[export] Instance PaymentEventDecision_eq_dec : EqDecision PaymentEventDecision.
Proof. solve_decision. Defined.
Definition PaymentEventDecision_text (x : PaymentEventDecision) : string :=
  match x with
  | Event_submitted => "submitted"%string
  | Event_settled => "settled"%string
  | Event_failed => "failed"%string
  | Event_simulated => "simulated"%string
  end.

Inductive LedgerEntryType : Type :=
| Entry_reserve
| Entry_release
| Entry_settle
| Entry_topup
| Entry_sweep
| Entry_deposit
| Entry_correction.
#[export] Instance LedgerEntryType_eq_dec : EqDecision LedgerEntryType.
Proof. solve_decision. Defined.
Definition LedgerEntryType_text (x : LedgerEntryType) : string :=
  match x with
  | Entry_reserve => "reserve"%string
  | Entry_release => "release"%string
  | Entry_settle => "settle"%string
  | Entry_topup => "topup"%string
  | Entry_sweep => "sweep"%string
  | Entry_deposit => "deposit"%string
  | Entry_correction => "correction"%string
  end.

Record X402PaymentMetadata : Type := mkX402PaymentMetadata {
  pmeta_approvalId : option string;
  pmeta_decisionId : option string;
  pmeta_eventId : option string;
  pmeta_payer : option string;
  pmeta_providerMode : option string;
  pmeta_providerReference : option string;
  pmeta_reservationId : option string;
  pmeta_resumeReason : option string;
  pmeta_receiptId : option string;
  pmeta_transactionHash : option string
}.

Record X402SafeResponseMetadata : Type := mkX402SafeResponseMetadata {
  rmeta_contentLength : option Z;
  rmeta_contentType : option string;
  rmeta_statusCode : option Z
}.

(** The JSON the code stores in [payment_reservations.quote]. *)
Record QuotePayload : Type := mkQuotePayload {
  qp_accept : RuntimeX402Accept;
  qp_resource : list (string * json);
  qp_mode : string;
  qp_amount : string;
  qp_network : string
}.

(** The JSON of an escrow job's reservation. *)
Record EscrowQuote : Type := mkEscrowQuote {
  eq_escrowJobId : string;
  eq_chain : PaymentChain;
  eq_escrowAddress : string;
  eq_tokenAddress : string;
  eq_onchainJobId : option string;
  eq_budgetUsdc : string;
  eq_providerAddress : string;
  eq_evaluatorAddress : string;
  eq_escrowMode : Z
}.

Inductive StoredQuote : Type :=
| Quote_x402 (quote : QuotePayload)
| Quote_escrow (quote : EscrowQuote).

Record OrgPaymentModeRow : Type := mkOrgPaymentModeRow {
  om_org_id : string;
  om_mode : PaymentMode;
  om_updated_by : string;
  om_updated_at : Z
}.

Record PaymentSourceRow : Type := mkPaymentSourceRow {
  psrc_id : string;
  psrc_org_id : string;
  psrc_treasury_id : (option string);
  psrc_source_type : string;
  psrc_provider : PaymentProvider;
  psrc_rail : PaymentRail;
  psrc_chain : PaymentChain;
  psrc_label : string;
  psrc_status : AccessStatus;
  psrc_account_type : string;
  psrc_address : (option string);
  psrc_external_wallet_id : (option string);
  psrc_simulated_balance_usdc : Z;
  psrc_metadata : json;
  psrc_created_at : Z;
  psrc_updated_at : Z
}.
Definition set_psrc_simulated_balance_usdc (v : Z) (r : PaymentSourceRow) : PaymentSourceRow :=
  mkPaymentSourceRow (psrc_id r) (psrc_org_id r) (psrc_treasury_id r) (psrc_source_type r)
    (psrc_provider r) (psrc_rail r) (psrc_chain r) (psrc_label r) (psrc_status r)
    (psrc_account_type r) (psrc_address r) (psrc_external_wallet_id r) v (psrc_metadata r)
    (psrc_created_at r) (psrc_updated_at r).
Definition set_psrc_updated_at (v : Z) (r : PaymentSourceRow) : PaymentSourceRow :=
  mkPaymentSourceRow (psrc_id r) (psrc_org_id r) (psrc_treasury_id r) (psrc_source_type r)
    (psrc_provider r) (psrc_rail r) (psrc_chain r) (psrc_label r) (psrc_status r)
    (psrc_account_type r) (psrc_address r) (psrc_external_wallet_id r)
    (psrc_simulated_balance_usdc r) (psrc_metadata r) (psrc_created_at r) v.

Record AgentPaymentAccountRow : Type := mkAgentPaymentAccountRow {
  acct_id : string;
  acct_org_id : string;
  acct_agent_id : string;
  acct_status : AccessStatus;
  acct_payment_access : bool;
  acct_budget_usdc : Z;
  acct_spent_usdc : Z;
  acct_reserved_usdc : Z;
  acct_per_request_cap_usdc : Z;
  acct_approval_threshold_usdc : option Z;
  acct_dedicated_wallet_required : bool;
  acct_allowed_rails : list PaymentRail;
  acct_created_at : Z;
  acct_updated_at : Z
}.
Definition set_acct_spent_usdc (v : Z) (r : AgentPaymentAccountRow) : AgentPaymentAccountRow :=
  mkAgentPaymentAccountRow (acct_id r) (acct_org_id r) (acct_agent_id r) (acct_status r)
    (acct_payment_access r) (acct_budget_usdc r) v (acct_reserved_usdc r)
    (acct_per_request_cap_usdc r) (acct_approval_threshold_usdc r)
    (acct_dedicated_wallet_required r) (acct_allowed_rails r) (acct_created_at r)
    (acct_updated_at r).
Definition set_acct_reserved_usdc (v : Z) (r : AgentPaymentAccountRow) : AgentPaymentAccountRow :=
  mkAgentPaymentAccountRow (acct_id r) (acct_org_id r) (acct_agent_id r) (acct_status r)
    (acct_payment_access r) (acct_budget_usdc r) (acct_spent_usdc r) v
    (acct_per_request_cap_usdc r) (acct_approval_threshold_usdc r)
    (acct_dedicated_wallet_required r) (acct_allowed_rails r) (acct_created_at r)
    (acct_updated_at r).
Definition set_acct_updated_at (v : Z) (r : AgentPaymentAccountRow) : AgentPaymentAccountRow :=
  mkAgentPaymentAccountRow (acct_id r) (acct_org_id r) (acct_agent_id r) (acct_status r)
    (acct_payment_access r) (acct_budget_usdc r) (acct_spent_usdc r) (acct_reserved_usdc r)
    (acct_per_request_cap_usdc r) (acct_approval_threshold_usdc r)
    (acct_dedicated_wallet_required r) (acct_allowed_rails r) (acct_created_at r) v.

Record PaymentReservationRow : Type := mkPaymentReservationRow {
  res_id : string;
  res_org_id : string;
  res_agent_id : string;
  res_connection_id : (option string);
  res_source_id : string;
  res_amount_usdc : Z;
  res_asset : string;
  res_rail : PaymentRail;
  res_status : ReservationStatus;
  res_reason_code : string;
  res_quote_hash : string;
  res_quote : StoredQuote;
  res_expires_at : Z;
  res_created_at : Z;
  res_updated_at : Z
}.
Definition set_res_status (v : ReservationStatus)
    (r : PaymentReservationRow) : PaymentReservationRow :=
  mkPaymentReservationRow (res_id r) (res_org_id r) (res_agent_id r) (res_connection_id r)
    (res_source_id r) (res_amount_usdc r) (res_asset r) (res_rail r) v (res_reason_code r)
    (res_quote_hash r) (res_quote r) (res_expires_at r) (res_created_at r) (res_updated_at r).
Definition set_res_updated_at (v : Z) (r : PaymentReservationRow) : PaymentReservationRow :=
  mkPaymentReservationRow (res_id r) (res_org_id r) (res_agent_id r) (res_connection_id r)
    (res_source_id r) (res_amount_usdc r) (res_asset r) (res_rail r) (res_status r)
    (res_reason_code r) (res_quote_hash r) (res_quote r) (res_expires_at r) (res_created_at r) v.

Record PaymentEventRow : Type := mkPaymentEventRow {
  pe_id : string;
  pe_org_id : string;
  pe_decision : PaymentEventDecision;
  pe_provider_mode : string;
  pe_rail : PaymentRail;
  pe_chain : PaymentChain;
  pe_amount_usdc : Z;
  pe_asset : string;
  pe_agent_id : string;
  pe_connection_id : (option string);
  pe_source_id : (option string);
  pe_reservation_id : (option string);
  pe_recipient : string;
  pe_network : string;
  pe_resource_url : (option string);
  pe_resource_category : (option string);
  pe_quote : QuotePayload;
  pe_result : json;
  pe_activity_id : (option string);
  pe_created_at : Z
}.

Record PaymentRouteObservationRow : Type := mkPaymentRouteObservationRow {
  obs_id : string;
  obs_org_id : string;
  obs_agent_id : string;
  obs_connection_id : (option string);
  obs_requested_network : (option string);
  obs_requested_asset : (option string);
  obs_requested_rail : (option string);
  obs_supported_rail : option PaymentRail;
  obs_amount_usdc : option Z;
  obs_outcome : string;
  obs_reason_code : string;
  obs_resource_url : (option string);
  obs_resource_category : (option string);
  obs_observed_at : Z
}.

Record X402AttemptRow : Type := mkX402AttemptRow {
  att_id : string;
  att_org_id : string;
  att_agent_id : string;
  att_connection_id : (option string);
  att_source_id : (option string);
  att_idempotency_key : string;
  att_request_hash : string;
  att_quote_hash : (option string);
  att_amount_usdc : option Z;
  att_asset : (option string);
  att_rail : option PaymentRail;
  att_network : (option string);
  att_recipient : (option string);
  att_status : X402AttemptStatus;
  att_payment_metadata : X402PaymentMetadata;
  att_response_metadata : X402SafeResponseMetadata;
  att_encrypted_result : option X402ResultEnvelope;
  att_result_expires_at : (option Z);
  att_error_code : (option string);
  att_created_at : Z;
  att_updated_at : Z;
  att_submitted_at : (option Z);
  att_finalized_at : (option Z)
}.
Definition set_att_status (v : X402AttemptStatus) (r : X402AttemptRow) : X402AttemptRow :=
  mkX402AttemptRow (att_id r) (att_org_id r) (att_agent_id r) (att_connection_id r)
    (att_source_id r) (att_idempotency_key r) (att_request_hash r) (att_quote_hash r)
    (att_amount_usdc r) (att_asset r) (att_rail r) (att_network r) (att_recipient r) v
    (att_payment_metadata r) (att_response_metadata r) (att_encrypted_result r)
    (att_result_expires_at r) (att_error_code r) (att_created_at r) (att_updated_at r)
    (att_submitted_at r) (att_finalized_at r).
Definition set_att_payment_metadata (v : X402PaymentMetadata)
    (r : X402AttemptRow) : X402AttemptRow :=
  mkX402AttemptRow (att_id r) (att_org_id r) (att_agent_id r) (att_connection_id r)
    (att_source_id r) (att_idempotency_key r) (att_request_hash r) (att_quote_hash r)
    (att_amount_usdc r) (att_asset r) (att_rail r) (att_network r) (att_recipient r)
    (att_status r) v (att_response_metadata r) (att_encrypted_result r)
    (att_result_expires_at r) (att_error_code r) (att_created_at r) (att_updated_at r)
    (att_submitted_at r) (att_finalized_at r).
Definition set_att_response_metadata (v : X402SafeResponseMetadata)
    (r : X402AttemptRow) : X402AttemptRow :=
  mkX402AttemptRow (att_id r) (att_org_id r) (att_agent_id r) (att_connection_id r)
    (att_source_id r) (att_idempotency_key r) (att_request_hash r) (att_quote_hash r)
    (att_amount_usdc r) (att_asset r) (att_rail r) (att_network r) (att_recipient r)
    (att_status r) (att_payment_metadata r) v (att_encrypted_result r) (att_result_expires_at r)
    (att_error_code r) (att_created_at r) (att_updated_at r) (att_submitted_at r)
    (att_finalized_at r).
Definition set_att_encrypted_result (v : option X402ResultEnvelope)
    (r : X402AttemptRow) : X402AttemptRow :=
  mkX402AttemptRow (att_id r) (att_org_id r) (att_agent_id r) (att_connection_id r)
    (att_source_id r) (att_idempotency_key r) (att_request_hash r) (att_quote_hash r)
    (att_amount_usdc r) (att_asset r) (att_rail r) (att_network r) (att_recipient r)
    (att_status r) (att_payment_metadata r) (att_response_metadata r) v
    (att_result_expires_at r) (att_error_code r) (att_created_at r) (att_updated_at r)
    (att_submitted_at r) (att_finalized_at r).
Definition set_att_result_expires_at (v : (option Z)) (r : X402AttemptRow) : X402AttemptRow :=
  mkX402AttemptRow (att_id r) (att_org_id r) (att_agent_id r) (att_connection_id r)
    (att_source_id r) (att_idempotency_key r) (att_request_hash r) (att_quote_hash r)
    (att_amount_usdc r) (att_asset r) (att_rail r) (att_network r) (att_recipient r)
    (att_status r) (att_payment_metadata r) (att_response_metadata r) (att_encrypted_result r) v
    (att_error_code r) (att_created_at r) (att_updated_at r) (att_submitted_at r)
    (att_finalized_at r).
Definition set_att_error_code (v : (option string)) (r : X402AttemptRow) : X402AttemptRow :=
  mkX402AttemptRow (att_id r) (att_org_id r) (att_agent_id r) (att_connection_id r)
    (att_source_id r) (att_idempotency_key r) (att_request_hash r) (att_quote_hash r)
    (att_amount_usdc r) (att_asset r) (att_rail r) (att_network r) (att_recipient r)
    (att_status r) (att_payment_metadata r) (att_response_metadata r) (att_encrypted_result r)
    (att_result_expires_at r) v (att_created_at r) (att_updated_at r) (att_submitted_at r)
    (att_finalized_at r).
Definition set_att_updated_at (v : Z) (r : X402AttemptRow) : X402AttemptRow :=
  mkX402AttemptRow (att_id r) (att_org_id r) (att_agent_id r) (att_connection_id r)
    (att_source_id r) (att_idempotency_key r) (att_request_hash r) (att_quote_hash r)
    (att_amount_usdc r) (att_asset r) (att_rail r) (att_network r) (att_recipient r)
    (att_status r) (att_payment_metadata r) (att_response_metadata r) (att_encrypted_result r)
    (att_result_expires_at r) (att_error_code r) (att_created_at r) v (att_submitted_at r)
    (att_finalized_at r).
Definition set_att_submitted_at (v : (option Z)) (r : X402AttemptRow) : X402AttemptRow :=
  mkX402AttemptRow (att_id r) (att_org_id r) (att_agent_id r) (att_connection_id r)
    (att_source_id r) (att_idempotency_key r) (att_request_hash r) (att_quote_hash r)
    (att_amount_usdc r) (att_asset r) (att_rail r) (att_network r) (att_recipient r)
    (att_status r) (att_payment_metadata r) (att_response_metadata r) (att_encrypted_result r)
    (att_result_expires_at r) (att_error_code r) (att_created_at r) (att_updated_at r) v
    (att_finalized_at r).
Definition set_att_finalized_at (v : (option Z)) (r : X402AttemptRow) : X402AttemptRow :=
  mkX402AttemptRow (att_id r) (att_org_id r) (att_agent_id r) (att_connection_id r)
    (att_source_id r) (att_idempotency_key r) (att_request_hash r) (att_quote_hash r)
    (att_amount_usdc r) (att_asset r) (att_rail r) (att_network r) (att_recipient r)
    (att_status r) (att_payment_metadata r) (att_response_metadata r) (att_encrypted_result r)
    (att_result_expires_at r) (att_error_code r) (att_created_at r) (att_updated_at r)
    (att_submitted_at r) v.

Record LedgerPostingRow : Type := mkLedgerPostingRow {
  post_id : string;
  post_org_id : string;
  post_agent_id : (option string);
  post_mode : PaymentMode;
  post_chain : option PaymentChain;
  post_entry_type : LedgerEntryType;
  post_amount_usdc : Z;
  post_reservation_id : (option string);
  post_attempt_id : (option string);
  post_job_id : (option string);
  post_corrects_posting_id : (option string);
  post_reason_code : string;
  post_created_by : string;
  post_created_at : Z
}.

Record AllowlistRow : Type := mkAllowlistRow {
  al_id : string;
  al_org_id : string;
  al_chain : PaymentChain;
  al_address : string;
  al_label : string;
  al_source : string;
  al_status : string;
  al_created_by : string;
  al_approved_by : option string;
  al_created_at : Z
}.
Definition set_al_status (v : string) (r : AllowlistRow) : AllowlistRow :=
  mkAllowlistRow (al_id r) (al_org_id r) (al_chain r) (al_address r) (al_label r)
    (al_source r) v (al_created_by r) (al_approved_by r) (al_created_at r).

(** The columns the engines read. *)
Record CircleChainCapabilityRow : Type := mkCircleChainCapabilityRow {
  cap_id : string;
  cap_mode : PaymentMode;
  cap_chain : PaymentChain;
  cap_circle_blockchain : string;
  cap_exact_settlement_verified : bool;
  cap_gateway_settlement_verified : bool;
  cap_gateway_supported : bool;
  cap_nanopayments_supported : bool;
  cap_wallet_supported : bool;
  cap_status : AccessStatus
}.

Record AgentChainWalletRow : Type := mkAgentChainWalletRow {
  acw_id : string;
  acw_org_id : string;
  acw_agent_id : string;
  acw_mode : PaymentMode;
  acw_chain : PaymentChain;
  acw_circle_wallet_id : string;
  acw_address : string;
  acw_status : string;
  acw_provisioned_at : option Z
}.
Definition set_acw_status (v : string) (r : AgentChainWalletRow) : AgentChainWalletRow :=
  mkAgentChainWalletRow (acw_id r) (acw_org_id r) (acw_agent_id r) (acw_mode r) (acw_chain r)
    (acw_circle_wallet_id r) (acw_address r) v (acw_provisioned_at r).

Definition account_check (r : AgentPaymentAccountRow) : bool :=
  (0 <=? acct_budget_usdc r) && (0 <=? acct_spent_usdc r) && (0 <=? acct_reserved_usdc r)
  && (0 <=? acct_per_request_cap_usdc r) && numeric_ok (acct_budget_usdc r)
  && numeric_ok (acct_spent_usdc r) && numeric_ok (acct_reserved_usdc r)
  && numeric_ok (acct_per_request_cap_usdc r).

(** [runtime_payment_attempts_result_retention_check] and the amount. *)
Definition attempt_check (r : X402AttemptRow) : bool :=
  when_some (att_amount_usdc r) (fun z => (0 <? z) && numeric_ok z)
  && Bool.eqb (is_some (att_encrypted_result r)) (is_some (att_result_expires_at r)).

(** A null connection makes no pair equal to another. *)
Definition attempt_clash (r s : X402AttemptRow) : bool :=
  (att_id r =s att_id s)
  || (match att_connection_id r, att_connection_id s with
      | Some c, Some d => c =s d
      | _, _ => false
      end && (att_idempotency_key r =s att_idempotency_key s)).

Definition posting_check (r : LedgerPostingRow) : bool :=
  numeric_ok (post_amount_usdc r)
  && (is_some (post_reservation_id r) || is_some (post_attempt_id r) || is_some (post_job_id r)
      || is_some (post_corrects_posting_id r)).

Inductive ProviderJobStatus : Type :=
| Job_queued
| Job_submitted
| Job_complete
| Job_failed
| Job_blocked.
#[export] Instance ProviderJobStatus_eq_dec : EqDecision ProviderJobStatus.
Proof. solve_decision. Defined.
Definition ProviderJobStatus_text (x : ProviderJobStatus) : string :=
  match x with
  | Job_queued => "queued"%string
  | Job_submitted => "submitted"%string
  | Job_complete => "complete"%string
  | Job_failed => "failed"%string
  | Job_blocked => "blocked"%string
  end.

Record CircleProviderJobRow : Type := mkCircleProviderJobRow {
  cpj_amount_usdc : option Z;
  cpj_chain : option PaymentChain;
  cpj_created_at : Z;
  cpj_error_code : (option string);
  cpj_id : string;
  cpj_job_type : string;
  cpj_metadata : json;
  cpj_mode : PaymentMode;
  cpj_org_id : string;
  cpj_provider_ref : (option string);
  cpj_status : ProviderJobStatus;
  cpj_updated_at : Z;
  cpj_created_by : string
}.
Definition set_cpj_status (v : ProviderJobStatus)
    (r : CircleProviderJobRow) : CircleProviderJobRow :=
  mkCircleProviderJobRow (cpj_amount_usdc r) (cpj_chain r) (cpj_created_at r) (cpj_error_code r)
    (cpj_id r) (cpj_job_type r) (cpj_metadata r) (cpj_mode r) (cpj_org_id r)
    (cpj_provider_ref r) v (cpj_updated_at r) (cpj_created_by r).
Definition set_cpj_amount_usdc (v : option Z) (r : CircleProviderJobRow) : CircleProviderJobRow :=
  mkCircleProviderJobRow v (cpj_chain r) (cpj_created_at r) (cpj_error_code r) (cpj_id r)
    (cpj_job_type r) (cpj_metadata r) (cpj_mode r) (cpj_org_id r) (cpj_provider_ref r)
    (cpj_status r) (cpj_updated_at r) (cpj_created_by r).
Definition set_cpj_error_code (v : (option string))
    (r : CircleProviderJobRow) : CircleProviderJobRow :=
  mkCircleProviderJobRow (cpj_amount_usdc r) (cpj_chain r) (cpj_created_at r) v (cpj_id r)
    (cpj_job_type r) (cpj_metadata r) (cpj_mode r) (cpj_org_id r) (cpj_provider_ref r)
    (cpj_status r) (cpj_updated_at r) (cpj_created_by r).
Definition set_cpj_metadata (v : json) (r : CircleProviderJobRow) : CircleProviderJobRow :=
  mkCircleProviderJobRow (cpj_amount_usdc r) (cpj_chain r) (cpj_created_at r) (cpj_error_code r)
    (cpj_id r) (cpj_job_type r) v (cpj_mode r) (cpj_org_id r) (cpj_provider_ref r)
    (cpj_status r) (cpj_updated_at r) (cpj_created_by r).
Definition set_cpj_provider_ref (v : (option string))
    (r : CircleProviderJobRow) : CircleProviderJobRow :=
  mkCircleProviderJobRow (cpj_amount_usdc r) (cpj_chain r) (cpj_created_at r) (cpj_error_code r)
    (cpj_id r) (cpj_job_type r) (cpj_metadata r) (cpj_mode r) (cpj_org_id r) v (cpj_status r)
    (cpj_updated_at r) (cpj_created_by r).
Definition set_cpj_updated_at (v : Z) (r : CircleProviderJobRow) : CircleProviderJobRow :=
  mkCircleProviderJobRow (cpj_amount_usdc r) (cpj_chain r) (cpj_created_at r) (cpj_error_code r)
    (cpj_id r) (cpj_job_type r) (cpj_metadata r) (cpj_mode r) (cpj_org_id r)
    (cpj_provider_ref r) (cpj_status r) v (cpj_created_by r).

Record CircleChainWalletRow : Type := mkCircleChainWalletRow {
  ccw_account_type : string;
  ccw_address : string;
  ccw_chain : PaymentChain;
  ccw_circle_blockchain : string;
  ccw_circle_wallet_id : string;
  ccw_created_at : Z;
  ccw_id : string;
  ccw_metadata : json;
  ccw_mode : PaymentMode;
  ccw_org_id : string;
  ccw_status : AccessStatus;
  ccw_updated_at : Z;
  ccw_wallet_set_id : string
}.
Definition set_ccw_status (v : AccessStatus) (r : CircleChainWalletRow) : CircleChainWalletRow :=
  mkCircleChainWalletRow (ccw_account_type r) (ccw_address r) (ccw_chain r)
    (ccw_circle_blockchain r) (ccw_circle_wallet_id r) (ccw_created_at r) (ccw_id r)
    (ccw_metadata r) (ccw_mode r) (ccw_org_id r) v (ccw_updated_at r) (ccw_wallet_set_id r).

(** [metadata ->> key] of a string entry. *)
Definition meta_text (metadata : json) (key : string) : option string :=
  match metadata with
  | JObj es => match lookup_key key es with JStr s => Some s | _ => None end
  | _ => None
  end.

Definition job_open (r : CircleProviderJobRow) : bool :=
  bool_decide (cpj_status r = Job_queued) || bool_decide (cpj_status r = Job_submitted).

(** Primary key and [circle_provider_jobs_open_liquidity_quote_uidx]. *)
Definition job_clash (r s : CircleProviderJobRow) : bool :=
  (cpj_id r =s cpj_id s)
  || ((cpj_job_type r =s "liquidity.prepare") && (cpj_job_type s =s "liquidity.prepare")
      && job_open r && job_open s && (cpj_org_id r =s cpj_org_id s)
      && bool_decide (cpj_mode r = cpj_mode s)
      && is_some (meta_text (cpj_metadata r) "connection_id")
      && eqo (meta_text (cpj_metadata r) "connection_id") (meta_text (cpj_metadata s) "connection_id")
      && is_some (meta_text (cpj_metadata r) "payment_quote_hash")
      && eqo (meta_text (cpj_metadata r) "payment_quote_hash") (meta_text (cpj_metadata s) "payment_quote_hash")).

Inductive AllocationStatus : Type :=
| Allocation_active
| Allocation_revoked.
#[export] Instance AllocationStatus_eq_dec : EqDecision AllocationStatus.
Proof. solve_decision. Defined.
Definition AllocationStatus_text (x : AllocationStatus) : string :=
  match x with
  | Allocation_active => "active"%string
  | Allocation_revoked => "revoked"%string
  end.

Record AgentAllocationRow : Type := mkAgentAllocationRow {
  alc_id : string;
  alc_org_id : string;
  alc_agent_id : string;
  alc_mode : PaymentMode;
  alc_chain : PaymentChain;
  alc_allocated_usdc : Z;
  alc_gas_reserve_usdc : Z;
  alc_low_water_mark_usdc : Z;
  alc_ceiling_usdc : Z;
  alc_status : AllocationStatus;
  alc_created_by : string;
  alc_updated_at : Z
}.
Definition set_alc_status (v : AllocationStatus) (r : AgentAllocationRow) : AgentAllocationRow :=
  mkAgentAllocationRow (alc_id r) (alc_org_id r) (alc_agent_id r) (alc_mode r) (alc_chain r)
    (alc_allocated_usdc r) (alc_gas_reserve_usdc r) (alc_low_water_mark_usdc r)
    (alc_ceiling_usdc r) v (alc_created_by r) (alc_updated_at r).
Definition set_alc_updated_at (v : Z) (r : AgentAllocationRow) : AgentAllocationRow :=
  mkAgentAllocationRow (alc_id r) (alc_org_id r) (alc_agent_id r) (alc_mode r) (alc_chain r)
    (alc_allocated_usdc r) (alc_gas_reserve_usdc r) (alc_low_water_mark_usdc r)
    (alc_ceiling_usdc r) (alc_status r) (alc_created_by r) v.

Record CircleWalletSetRow : Type := mkCircleWalletSetRow {
  cws_id : string;
  cws_org_id : string;
  cws_mode : PaymentMode;
  cws_circle_wallet_set_id : string;
  cws_status : string
}.

Definition allocation_check (r : AgentAllocationRow) : bool :=
  (0 <=? alc_allocated_usdc r) && (0 <=? alc_gas_reserve_usdc r) && (0 <=? alc_low_water_mark_usdc r)
  && (0 <=? alc_ceiling_usdc r) && (alc_allocated_usdc r <=? alc_ceiling_usdc r)
  && (alc_low_water_mark_usdc r <=? alc_allocated_usdc r) && numeric_ok (alc_ceiling_usdc r)
  && numeric_ok (alc_gas_reserve_usdc r).

Inductive EscrowState : Type :=
| Escrow_open
| Escrow_funded
| Escrow_submitted
| Escrow_completed
| Escrow_rejected
| Escrow_expired.
#[export] Instance EscrowState_eq_dec : EqDecision EscrowState.
Proof. solve_decision. Defined.
Definition EscrowState_text (x : EscrowState) : string :=
  match x with
  | Escrow_open => "open"%string
  | Escrow_funded => "funded"%string
  | Escrow_submitted => "submitted"%string
  | Escrow_completed => "completed"%string
  | Escrow_rejected => "rejected"%string
  | Escrow_expired => "expired"%string
  end.

Record EscrowJobRow : Type := mkEscrowJobRow {
  ej_id : string;
  ej_org_id : string;
  ej_client_agent_id : string;
  ej_provider_address : string;
  ej_evaluator_address : string;
  ej_mode : PaymentMode;
  ej_chain : PaymentChain;
  ej_escrow_address : string;
  ej_token_address : string;
  ej_onchain_job_id : (option string);
  ej_budget_usdc : Z;
  ej_reservation_id : (option string);
  ej_state : EscrowState;
  ej_escrow_mode : Z;
  ej_deliverable_hash : (option string);
  ej_expires_at : Z;
  ej_create_tx_hash : (option string);
  ej_fund_tx_hash : (option string);
  ej_submit_tx_hash : (option string);
  ej_terminal_tx_hash : (option string);
  ej_created_by : string;
  ej_created_at : Z;
  ej_updated_at : Z
}.
Definition set_ej_state (v : EscrowState) (r : EscrowJobRow) : EscrowJobRow :=
  mkEscrowJobRow (ej_id r) (ej_org_id r) (ej_client_agent_id r) (ej_provider_address r)
    (ej_evaluator_address r) (ej_mode r) (ej_chain r) (ej_escrow_address r) (ej_token_address r)
    (ej_onchain_job_id r) (ej_budget_usdc r) (ej_reservation_id r) v (ej_escrow_mode r)
    (ej_deliverable_hash r) (ej_expires_at r) (ej_create_tx_hash r) (ej_fund_tx_hash r)
    (ej_submit_tx_hash r) (ej_terminal_tx_hash r) (ej_created_by r) (ej_created_at r)
    (ej_updated_at r).
Definition set_ej_budget_usdc (v : Z) (r : EscrowJobRow) : EscrowJobRow :=
  mkEscrowJobRow (ej_id r) (ej_org_id r) (ej_client_agent_id r) (ej_provider_address r)
    (ej_evaluator_address r) (ej_mode r) (ej_chain r) (ej_escrow_address r) (ej_token_address r)
    (ej_onchain_job_id r) v (ej_reservation_id r) (ej_state r) (ej_escrow_mode r)
    (ej_deliverable_hash r) (ej_expires_at r) (ej_create_tx_hash r) (ej_fund_tx_hash r)
    (ej_submit_tx_hash r) (ej_terminal_tx_hash r) (ej_created_by r) (ej_created_at r)
    (ej_updated_at r).
Definition set_ej_reservation_id (v : (option string)) (r : EscrowJobRow) : EscrowJobRow :=
  mkEscrowJobRow (ej_id r) (ej_org_id r) (ej_client_agent_id r) (ej_provider_address r)
    (ej_evaluator_address r) (ej_mode r) (ej_chain r) (ej_escrow_address r) (ej_token_address r)
    (ej_onchain_job_id r) (ej_budget_usdc r) v (ej_state r) (ej_escrow_mode r)
    (ej_deliverable_hash r) (ej_expires_at r) (ej_create_tx_hash r) (ej_fund_tx_hash r)
    (ej_submit_tx_hash r) (ej_terminal_tx_hash r) (ej_created_by r) (ej_created_at r)
    (ej_updated_at r).
Definition set_ej_deliverable_hash (v : (option string)) (r : EscrowJobRow) : EscrowJobRow :=
  mkEscrowJobRow (ej_id r) (ej_org_id r) (ej_client_agent_id r) (ej_provider_address r)
    (ej_evaluator_address r) (ej_mode r) (ej_chain r) (ej_escrow_address r) (ej_token_address r)
    (ej_onchain_job_id r) (ej_budget_usdc r) (ej_reservation_id r) (ej_state r)
    (ej_escrow_mode r) v (ej_expires_at r) (ej_create_tx_hash r) (ej_fund_tx_hash r)
    (ej_submit_tx_hash r) (ej_terminal_tx_hash r) (ej_created_by r) (ej_created_at r)
    (ej_updated_at r).
Definition set_ej_fund_tx_hash (v : (option string)) (r : EscrowJobRow) : EscrowJobRow :=
  mkEscrowJobRow (ej_id r) (ej_org_id r) (ej_client_agent_id r) (ej_provider_address r)
    (ej_evaluator_address r) (ej_mode r) (ej_chain r) (ej_escrow_address r) (ej_token_address r)
    (ej_onchain_job_id r) (ej_budget_usdc r) (ej_reservation_id r) (ej_state r)
    (ej_escrow_mode r) (ej_deliverable_hash r) (ej_expires_at r) (ej_create_tx_hash r) v
    (ej_submit_tx_hash r) (ej_terminal_tx_hash r) (ej_created_by r) (ej_created_at r)
    (ej_updated_at r).
Definition set_ej_submit_tx_hash (v : (option string)) (r : EscrowJobRow) : EscrowJobRow :=
  mkEscrowJobRow (ej_id r) (ej_org_id r) (ej_client_agent_id r) (ej_provider_address r)
    (ej_evaluator_address r) (ej_mode r) (ej_chain r) (ej_escrow_address r) (ej_token_address r)
    (ej_onchain_job_id r) (ej_budget_usdc r) (ej_reservation_id r) (ej_state r)
    (ej_escrow_mode r) (ej_deliverable_hash r) (ej_expires_at r) (ej_create_tx_hash r)
    (ej_fund_tx_hash r) v (ej_terminal_tx_hash r) (ej_created_by r) (ej_created_at r)
    (ej_updated_at r).
Definition set_ej_terminal_tx_hash (v : (option string)) (r : EscrowJobRow) : EscrowJobRow :=
  mkEscrowJobRow (ej_id r) (ej_org_id r) (ej_client_agent_id r) (ej_provider_address r)
    (ej_evaluator_address r) (ej_mode r) (ej_chain r) (ej_escrow_address r) (ej_token_address r)
    (ej_onchain_job_id r) (ej_budget_usdc r) (ej_reservation_id r) (ej_state r)
    (ej_escrow_mode r) (ej_deliverable_hash r) (ej_expires_at r) (ej_create_tx_hash r)
    (ej_fund_tx_hash r) (ej_submit_tx_hash r) v (ej_created_by r) (ej_created_at r)
    (ej_updated_at r).
Definition set_ej_updated_at (v : Z) (r : EscrowJobRow) : EscrowJobRow :=
  mkEscrowJobRow (ej_id r) (ej_org_id r) (ej_client_agent_id r) (ej_provider_address r)
    (ej_evaluator_address r) (ej_mode r) (ej_chain r) (ej_escrow_address r) (ej_token_address r)
    (ej_onchain_job_id r) (ej_budget_usdc r) (ej_reservation_id r) (ej_state r)
    (ej_escrow_mode r) (ej_deliverable_hash r) (ej_expires_at r) (ej_create_tx_hash r)
    (ej_fund_tx_hash r) (ej_submit_tx_hash r) (ej_terminal_tx_hash r) (ej_created_by r)
    (ej_created_at r) v.

Record AgentReputationEventRow : Type := mkAgentReputationEventRow {
  rep_id : string;
  rep_org_id : string;
  rep_agent_id : string;
  rep_escrow_job_id : string;
  rep_score : Z;
  rep_feedback_tx_hash : (option string);
  rep_created_at : Z
}.
Definition set_rep_feedback_tx_hash (v : (option string))
    (r : AgentReputationEventRow) : AgentReputationEventRow :=
  mkAgentReputationEventRow (rep_id r) (rep_org_id r) (rep_agent_id r) (rep_escrow_job_id r)
    (rep_score r) v (rep_created_at r).

(** The columns of [agent_onchain_identities] the code reads. *)
Record OnchainIdentityRow : Type := mkOnchainIdentityRow {
  aoi_id : string;
  aoi_agent_id : string;
  aoi_mode : PaymentMode;
  aoi_chain : PaymentChain;
  aoi_token_id : option string;
  aoi_status : string
}.

Definition escrow_check (r : EscrowJobRow) : bool :=
  (0 <? ej_budget_usdc r) && numeric_ok (ej_budget_usdc r) && ((ej_escrow_mode r =? 2) || (ej_escrow_mode r =? 3)).

(** Primary key and UNIQUE (chain, escrow_address, onchain_job_id). *)
Definition escrow_clash (r s : EscrowJobRow) : bool :=
  (ej_id r =s ej_id s)
  || (bool_decide (ej_chain r = ej_chain s) && (ej_escrow_address r =s ej_escrow_address s)
      && is_some (ej_onchain_job_id r) && eqo (ej_onchain_job_id r) (ej_onchain_job_id s)).

Inductive DelegationStatus : Type :=
| Delegation_pending
| Delegation_active
| Delegation_exhausted
| Delegation_expired
| Delegation_revoked.
#[export] Instance DelegationStatus_eq_dec : EqDecision DelegationStatus.
Proof. solve_decision. Defined.
Definition DelegationStatus_text (x : DelegationStatus) : string :=
  match x with
  | Delegation_pending => "pending"%string
  | Delegation_active => "active"%string
  | Delegation_exhausted => "exhausted"%string
  | Delegation_expired => "expired"%string
  | Delegation_revoked => "revoked"%string
  end.

Inductive PayerKind : Type :=
| Payer_user
| Payer_agent
| Payer_treasury.
#[export] Instance PayerKind_eq_dec : EqDecision PayerKind.
Proof. solve_decision. Defined.
Definition PayerKind_text (x : PayerKind) : string :=
  match x with
  | Payer_user => "user"%string
  | Payer_agent => "agent"%string
  | Payer_treasury => "treasury"%string
  end.

Inductive DrawdownStatus : Type :=
| Drawdown_submitted
| Drawdown_confirmed
| Drawdown_failed.
#[export] Instance DrawdownStatus_eq_dec : EqDecision DrawdownStatus.
Proof. solve_decision. Defined.
Definition DrawdownStatus_text (x : DrawdownStatus) : string :=
  match x with
  | Drawdown_submitted => "submitted"%string
  | Drawdown_confirmed => "confirmed"%string
  | Drawdown_failed => "failed"%string
  end.

Record AgentDelegationRow : Type := mkAgentDelegationRow {
  dele_id : string;
  dele_org_id : string;
  dele_payer_agent_id : (option string);
  dele_payer_address : string;
  dele_payee_agent_id : (option string);
  dele_payee_address : string;
  dele_mode : PaymentMode;
  dele_chain : PaymentChain;
  dele_token_address : string;
  dele_ceiling_usdc : Z;
  dele_drawn_usdc : Z;
  dele_expires_at : Z;
  dele_permit_nonce : Z;
  dele_signature : (option string);
  dele_status : DelegationStatus;
  dele_approved_by : string;
  dele_payer_kind : PayerKind;
  dele_created_at : Z;
  dele_updated_at : Z
}.
Definition set_dele_drawn_usdc (v : Z) (r : AgentDelegationRow) : AgentDelegationRow :=
  mkAgentDelegationRow (dele_id r) (dele_org_id r) (dele_payer_agent_id r)
    (dele_payer_address r) (dele_payee_agent_id r) (dele_payee_address r) (dele_mode r)
    (dele_chain r) (dele_token_address r) (dele_ceiling_usdc r) v (dele_expires_at r)
    (dele_permit_nonce r) (dele_signature r) (dele_status r) (dele_approved_by r)
    (dele_payer_kind r) (dele_created_at r) (dele_updated_at r).
Definition set_dele_status (v : DelegationStatus) (r : AgentDelegationRow) : AgentDelegationRow :=
  mkAgentDelegationRow (dele_id r) (dele_org_id r) (dele_payer_agent_id r)
    (dele_payer_address r) (dele_payee_agent_id r) (dele_payee_address r) (dele_mode r)
    (dele_chain r) (dele_token_address r) (dele_ceiling_usdc r) (dele_drawn_usdc r)
    (dele_expires_at r) (dele_permit_nonce r) (dele_signature r) v (dele_approved_by r)
    (dele_payer_kind r) (dele_created_at r) (dele_updated_at r).
Definition set_dele_updated_at (v : Z) (r : AgentDelegationRow) : AgentDelegationRow :=
  mkAgentDelegationRow (dele_id r) (dele_org_id r) (dele_payer_agent_id r)
    (dele_payer_address r) (dele_payee_agent_id r) (dele_payee_address r) (dele_mode r)
    (dele_chain r) (dele_token_address r) (dele_ceiling_usdc r) (dele_drawn_usdc r)
    (dele_expires_at r) (dele_permit_nonce r) (dele_signature r) (dele_status r)
    (dele_approved_by r) (dele_payer_kind r) (dele_created_at r) v.

Record DrawdownRow : Type := mkDrawdownRow {
  dd_id : string;
  dd_delegation_id : string;
  dd_amount_usdc : Z;
  dd_tx_hash : option string;
  dd_status : DrawdownStatus;
  dd_created_at : Z
}.
Definition set_dd_tx_hash (v : option string) (r : DrawdownRow) : DrawdownRow :=
  mkDrawdownRow (dd_id r) (dd_delegation_id r) (dd_amount_usdc r) v (dd_status r)
    (dd_created_at r).
Definition set_dd_status (v : DrawdownStatus) (r : DrawdownRow) : DrawdownRow :=
  mkDrawdownRow (dd_id r) (dd_delegation_id r) (dd_amount_usdc r) (dd_tx_hash r) v
    (dd_created_at r).

Record OrgCeilingRow : Type := mkOrgCeilingRow {
  odc_org_id : string;
  odc_mode : PaymentMode;
  odc_chain : PaymentChain;
  odc_ceiling_usdc : Z;
  odc_updated_by : string
}.

Definition delegation_check (r : AgentDelegationRow) : bool :=
  (0 <? dele_ceiling_usdc r) && (0 <=? dele_drawn_usdc r) && (dele_drawn_usdc r <=? dele_ceiling_usdc r)
  && numeric_ok (dele_ceiling_usdc r) && numeric_ok (dele_drawn_usdc r).

(** Primary key and UNIQUE (payer_agent_id, payee_address, mode, chain,
    permit_nonce), where a null agent makes no pair equal. *)
Definition delegation_clash (r s : AgentDelegationRow) : bool :=
  (dele_id r =s dele_id s)
  || (is_some (dele_payer_agent_id r) && eqo (dele_payer_agent_id r) (dele_payer_agent_id s)
      && (dele_payee_address r =s dele_payee_address s) && bool_decide (dele_mode r = dele_mode s)
      && bool_decide (dele_chain r = dele_chain s) && (dele_permit_nonce r =? dele_permit_nonce s)).

(** ** Operational controls ([operations/store.ts], migration [0008]) *)

Inductive ToolRiskLevel : Type :=
| Risk_low
| Risk_medium
| Risk_high
| Risk_critical.
#[export] Instance ToolRiskLevel_eq_dec : EqDecision ToolRiskLevel.
Proof. solve_decision. Defined.
Definition ToolRiskLevel_text (x : ToolRiskLevel) : string :=
  match x with
  | Risk_low => "low"%string
  | Risk_medium => "medium"%string
  | Risk_high => "high"%string
  | Risk_critical => "critical"%string
  end.

Inductive ToolSource : Type :=
| Tool_manual
| Tool_runtime
| Tool_import.
#[export] Instance ToolSource_eq_dec : EqDecision ToolSource.
Proof. solve_decision. Defined.
Definition ToolSource_text (x : ToolSource) : string :=
  match x with
  | Tool_manual => "manual"%string
  | Tool_runtime => "runtime"%string
  | Tool_import => "import"%string
  end.

Inductive ToolStatus : Type :=
| Catalog_active
| Catalog_archived.
#[export] Instance ToolStatus_eq_dec : EqDecision ToolStatus.
Proof. solve_decision. Defined.
Definition ToolStatus_text (x : ToolStatus) : string :=
  match x with
  | Catalog_active => "active"%string
  | Catalog_archived => "archived"%string
  end.

Inductive RateLimitStatus : Type :=
| Limit_active
| Limit_disabled.
#[export] Instance RateLimitStatus_eq_dec : EqDecision RateLimitStatus.
Proof. solve_decision. Defined.
Definition RateLimitStatus_text (x : RateLimitStatus) : string :=
  match x with
  | Limit_active => "active"%string
  | Limit_disabled => "disabled"%string
  end.

Record ToolCatalogRow : Type := mkToolCatalogRow {
  tool_id : string;
  tool_org_id : string;
  tool_name : string;
  tool_display_name : string;
  tool_category : string;
  tool_risk_level : ToolRiskLevel;
  tool_description : string;
  tool_source : ToolSource;
  tool_status : ToolStatus;
  tool_metadata : json;
  tool_created_at : Z;
  tool_updated_at : Z
}.
Definition set_tool_display_name (v : string) (r : ToolCatalogRow) : ToolCatalogRow :=
  mkToolCatalogRow (tool_id r) (tool_org_id r) (tool_name r) v (tool_category r)
    (tool_risk_level r) (tool_description r) (tool_source r) (tool_status r) (tool_metadata r)
    (tool_created_at r) (tool_updated_at r).
Definition set_tool_category (v : string) (r : ToolCatalogRow) : ToolCatalogRow :=
  mkToolCatalogRow (tool_id r) (tool_org_id r) (tool_name r) (tool_display_name r) v
    (tool_risk_level r) (tool_description r) (tool_source r) (tool_status r) (tool_metadata r)
    (tool_created_at r) (tool_updated_at r).
Definition set_tool_risk_level (v : ToolRiskLevel) (r : ToolCatalogRow) : ToolCatalogRow :=
  mkToolCatalogRow (tool_id r) (tool_org_id r) (tool_name r) (tool_display_name r)
    (tool_category r) v (tool_description r) (tool_source r) (tool_status r) (tool_metadata r)
    (tool_created_at r) (tool_updated_at r).
Definition set_tool_description (v : string) (r : ToolCatalogRow) : ToolCatalogRow :=
  mkToolCatalogRow (tool_id r) (tool_org_id r) (tool_name r) (tool_display_name r)
    (tool_category r) (tool_risk_level r) v (tool_source r) (tool_status r) (tool_metadata r)
    (tool_created_at r) (tool_updated_at r).
Definition set_tool_metadata (v : json) (r : ToolCatalogRow) : ToolCatalogRow :=
  mkToolCatalogRow (tool_id r) (tool_org_id r) (tool_name r) (tool_display_name r)
    (tool_category r) (tool_risk_level r) (tool_description r) (tool_source r) (tool_status r) v
    (tool_created_at r) (tool_updated_at r).
Definition set_tool_status (v : ToolStatus) (r : ToolCatalogRow) : ToolCatalogRow :=
  mkToolCatalogRow (tool_id r) (tool_org_id r) (tool_name r) (tool_display_name r)
    (tool_category r) (tool_risk_level r) (tool_description r) (tool_source r) v
    (tool_metadata r) (tool_created_at r) (tool_updated_at r).
Definition set_tool_updated_at (v : Z) (r : ToolCatalogRow) : ToolCatalogRow :=
  mkToolCatalogRow (tool_id r) (tool_org_id r) (tool_name r) (tool_display_name r)
    (tool_category r) (tool_risk_level r) (tool_description r) (tool_source r) (tool_status r)
    (tool_metadata r) (tool_created_at r) v.

Record RateLimitRow : Type := mkRateLimitRow {
  rl_id : string;
  rl_org_id : string;
  rl_target_type : PolicyTargetType;
  rl_target_id : string;
  rl_action_id : string;
  rl_bucket : string;
  rl_limit_count : Z;
  rl_window_seconds : Z;
  rl_status : RateLimitStatus;
  rl_created_at : Z
}.
Definition set_rl_bucket (v : string) (r : RateLimitRow) : RateLimitRow :=
  mkRateLimitRow (rl_id r) (rl_org_id r) (rl_target_type r) (rl_target_id r) (rl_action_id r) v
    (rl_limit_count r) (rl_window_seconds r) (rl_status r) (rl_created_at r).
Definition set_rl_limit_count (v : Z) (r : RateLimitRow) : RateLimitRow :=
  mkRateLimitRow (rl_id r) (rl_org_id r) (rl_target_type r) (rl_target_id r) (rl_action_id r)
    (rl_bucket r) v (rl_window_seconds r) (rl_status r) (rl_created_at r).
Definition set_rl_window_seconds (v : Z) (r : RateLimitRow) : RateLimitRow :=
  mkRateLimitRow (rl_id r) (rl_org_id r) (rl_target_type r) (rl_target_id r) (rl_action_id r)
    (rl_bucket r) (rl_limit_count r) v (rl_status r) (rl_created_at r).
Definition set_rl_status (v : RateLimitStatus) (r : RateLimitRow) : RateLimitRow :=
  mkRateLimitRow (rl_id r) (rl_org_id r) (rl_target_type r) (rl_target_id r) (rl_action_id r)
    (rl_bucket r) (rl_limit_count r) (rl_window_seconds r) v (rl_created_at r).

(** [operational_rate_counters]. *)
Record RateCounterRow : Type := mkRateCounterRow {
  rc_org_id : string;
  rc_rate_limit_id : string;
  rc_agent_id : string;
  rc_connection_id : string;
  rc_action_id : string;
  rc_bucket : string;
  rc_window_start : Z;
  rc_count : Z;
  rc_updated_at : Z
}.
Definition set_rc_count (v : Z) (r : RateCounterRow) : RateCounterRow :=
  mkRateCounterRow (rc_org_id r) (rc_rate_limit_id r) (rc_agent_id r) (rc_connection_id r)
    (rc_action_id r) (rc_bucket r) (rc_window_start r) v (rc_updated_at r).
Definition set_rc_updated_at (v : Z) (r : RateCounterRow) : RateCounterRow :=
  mkRateCounterRow (rc_org_id r) (rc_rate_limit_id r) (rc_agent_id r) (rc_connection_id r)
    (rc_action_id r) (rc_bucket r) (rc_window_start r) (rc_count r) v.

Record OperationalDecisionRow : Type := mkOperationalDecisionRow {
  od_id : string;
  od_org_id : string;
  od_agent_id : string;
  od_connection_id : (option string);
  od_policy_decision_id : (option string);
  od_approval_id : (option string);
  od_action_id : string;
  od_decision : string;
  od_reason_code : string;
  od_explanation : string;
  od_tool_name : (option string);
  od_tool_risk_level : (option string);
  od_resource_label : (option string);
  od_resource_domain : (option string);
  od_resource_category : (option string);
  od_context : json;
  od_created_at : Z;
  od_audit_event_id : option string;
  od_activity_id : option string
}.

Definition integer_ok (z : Z) : bool := (-2147483648 <=? z) && (z <=? 2147483647).

Definition rate_limit_check (r : RateLimitRow) : bool :=
  (0 <? rl_limit_count r) && integer_ok (rl_limit_count r)
  && (1 <=? rl_window_seconds r) && (rl_window_seconds r <=? 86400).

Definition rate_counter_clash (r s : RateCounterRow) : bool :=
  (rc_rate_limit_id r =s rc_rate_limit_id s) && (rc_agent_id r =s rc_agent_id s)
  && (rc_connection_id r =s rc_connection_id s) && (rc_bucket r =s rc_bucket s)
  && (rc_window_start r =? rc_window_start s).

(** ** The database *)

Inductive table : Type :=
| T_audit_events
| T_audit_event_heads
| T_orgs
| T_users
| T_memberships
| T_agents
| T_connections
| T_connection_credentials
| T_teams
| T_wallet_refs
| T_org_onboarding_states
| T_auth_sessions
| T_oauth_accounts
| T_agent_join_invites
| T_agent_open_join_events
| T_policy_action_registry
| T_policy_drafts
| T_policy_versions
| T_policy_bindings
| T_policy_decisions
| T_approval_requests
| T_approval_votes
| T_approval_actions
| T_approval_consumptions
| T_activity_items
| T_org_payment_modes
| T_payment_sources
| T_agent_payment_accounts
| T_payment_reservations
| T_payment_events
| T_payment_route_observations
| T_runtime_payment_attempts
| T_ledger_postings
| T_payment_destination_allowlist
| T_circle_chain_capabilities
| T_agent_chain_wallets
| T_agent_allocations
| T_circle_wallet_sets
| T_circle_provider_jobs
| T_circle_chain_wallets
| T_escrow_jobs
| T_agent_reputation_events
| T_agent_onchain_identities
| T_agent_delegations
| T_agent_delegation_drawdowns
| T_org_delegation_ceilings
| T_tool_catalog
| T_operational_rate_limits
| T_operational_rate_counters
| T_operational_decisions.
#[export] Instance table_eq_dec : EqDecision table.
Proof. solve_decision. Defined.

Definition row (t : table) : Type :=
  match t with
  | T_audit_events => AuditEventRow
  | T_audit_event_heads => AuditHeadRow
  | T_orgs => OrgRow
  | T_users => UserRow
  | T_memberships => MemberRow
  | T_agents => AgentRow
  | T_connections => ConnectionRow
  | T_connection_credentials => CredentialRow
  | T_teams => TeamRow
  | T_wallet_refs => WalletRefRow
  | T_org_onboarding_states => OnboardingStateRow
  | T_auth_sessions => SessionRow
  | T_oauth_accounts => OauthAccountRow
  | T_agent_join_invites => JoinInviteRow
  | T_agent_open_join_events => OpenJoinRow
  | T_policy_action_registry => PolicyActionRow
  | T_policy_drafts => PolicyDraftRow
  | T_policy_versions => PolicyVersionRow
  | T_policy_bindings => PolicyBindingRow
  | T_policy_decisions => PolicyDecisionRow
  | T_approval_requests => ApprovalRow
  | T_approval_votes => ApprovalVoteRow
  | T_approval_actions => ApprovalActionRow
  | T_approval_consumptions => ApprovalConsumptionRow
  | T_activity_items => ActivityRow
  | T_org_payment_modes => OrgPaymentModeRow
  | T_payment_sources => PaymentSourceRow
  | T_agent_payment_accounts => AgentPaymentAccountRow
  | T_payment_reservations => PaymentReservationRow
  | T_payment_events => PaymentEventRow
  | T_payment_route_observations => PaymentRouteObservationRow
  | T_runtime_payment_attempts => X402AttemptRow
  | T_ledger_postings => LedgerPostingRow
  | T_payment_destination_allowlist => AllowlistRow
  | T_circle_chain_capabilities => CircleChainCapabilityRow
  | T_agent_chain_wallets => AgentChainWalletRow
  | T_agent_allocations => AgentAllocationRow
  | T_circle_wallet_sets => CircleWalletSetRow
  | T_circle_provider_jobs => CircleProviderJobRow
  | T_circle_chain_wallets => CircleChainWalletRow
  | T_escrow_jobs => EscrowJobRow
  | T_agent_reputation_events => AgentReputationEventRow
  | T_agent_onchain_identities => OnchainIdentityRow
  | T_agent_delegations => AgentDelegationRow
  | T_agent_delegation_drawdowns => DrawdownRow
  | T_org_delegation_ceilings => OrgCeilingRow
  | T_tool_catalog => ToolCatalogRow
  | T_operational_rate_limits => RateLimitRow
  | T_operational_rate_counters => RateCounterRow
  | T_operational_decisions => OperationalDecisionRow
  end.

(** The CHECK constraints of the migrations on the modelled columns. *)
Definition check (t : table) : row t -> bool :=
  match t return row t -> bool with
  | T_audit_events => audit_event_check
  | T_audit_event_heads => fun r => (0 <=? ah_last_sequence r) && when_some (ah_last_event_hash r) hash_length_ok
  | T_orgs => fun _ => true
  | T_users => fun _ => true
  | T_memberships => fun _ => true
  | T_agents => fun r => agent_status_ok (ag_status r)
  | T_connections => fun r => mem (cn_status r) ["active"; "revoked"]%string
  | T_connection_credentials => fun _ => true
  | T_teams => fun _ => true
  | T_wallet_refs => fun _ => true
  | T_org_onboarding_states => fun _ => true
  | T_auth_sessions => fun _ => true
  | T_oauth_accounts => fun _ => true
  | T_agent_join_invites => invite_check
  | T_agent_open_join_events => fun _ => true
  | T_policy_action_registry => fun _ => true
  | T_policy_drafts => fun _ => true
  | T_policy_versions => fun r => 0 <? pv_version r
  | T_policy_bindings => fun _ => true
  | T_policy_decisions => fun _ => true
  | T_approval_requests => fun r => 1 <=? ap_required_approvals r
  | T_approval_votes => fun _ => true
  | T_approval_actions => fun _ => true
  | T_approval_consumptions => fun _ => true
  | T_activity_items => fun _ => true
  | T_org_payment_modes => fun _ => true
  | T_payment_sources => fun r => (0 <=? psrc_simulated_balance_usdc r) && numeric_ok (psrc_simulated_balance_usdc r)
  | T_agent_payment_accounts => account_check
  | T_payment_reservations => fun r => (0 <? res_amount_usdc r) && numeric_ok (res_amount_usdc r)
  | T_payment_events => fun r => (0 <? pe_amount_usdc r) && numeric_ok (pe_amount_usdc r)
  | T_payment_route_observations => fun _ => true
  | T_runtime_payment_attempts => attempt_check
  | T_ledger_postings => posting_check
  | T_payment_destination_allowlist => fun _ => true
  | T_circle_chain_capabilities => fun _ => true
  | T_agent_chain_wallets => fun _ => true
  | T_agent_allocations => allocation_check
  | T_circle_wallet_sets => fun _ => true
  | T_circle_provider_jobs => fun r => when_some (cpj_amount_usdc r) (fun z => (0 <=? z) && numeric_ok z)
  | T_circle_chain_wallets => fun _ => true
  | T_escrow_jobs => escrow_check
  | T_agent_reputation_events => fun r => (0 <=? rep_score r) && (rep_score r <=? 100)
  | T_agent_onchain_identities => fun _ => true
  | T_agent_delegations => delegation_check
  | T_agent_delegation_drawdowns => fun r => (0 <? dd_amount_usdc r) && numeric_ok (dd_amount_usdc r)
  | T_org_delegation_ceilings => fun r => (0 <=? odc_ceiling_usdc r) && numeric_ok (odc_ceiling_usdc r)
  | T_tool_catalog => fun _ => true
  | T_operational_rate_limits => rate_limit_check
  | T_operational_rate_counters => fun r => (0 <=? rc_count r) && integer_ok (rc_count r)
  | T_operational_decisions => fun _ => true
  end.

(** Two rows that a PRIMARY KEY or UNIQUE constraint does not let coexist. *)
Definition clash (t : table) : row t -> row t -> bool :=
  match t return row t -> row t -> bool with
  | T_audit_events => audit_event_clash
  | T_audit_event_heads => fun r s => ah_org_id r =s ah_org_id s
  | T_orgs => fun r s => (org_id r =s org_id s) || match org_slug r with Some _ => eqo (org_slug r) (org_slug s) | None => false end
  | T_users => fun r s => (usr_id r =s usr_id s) || (usr_email r =s usr_email s)
  | T_memberships => fun r s => (mem_id r =s mem_id s) || ((mem_org_id r =s mem_org_id s) && (mem_user_id r =s mem_user_id s))
  | T_agents => fun r s => ag_id r =s ag_id s
  | T_connections => fun r s => cn_id r =s cn_id s
  | T_connection_credentials => fun r s => (cc_id r =s cc_id s) || (cc_secret_hash r =s cc_secret_hash s)
  | T_teams => fun r s => (tm_id r =s tm_id s) || (tm_is_default r && tm_is_default s && (tm_org_id r =s tm_org_id s))
  | T_wallet_refs => wallet_ref_clash
  | T_org_onboarding_states => fun r s => (onb_id r =s onb_id s) || ((onb_org_id r =s onb_org_id s) && (onb_flow_key r =s onb_flow_key s))
  | T_auth_sessions => fun r s => (ses_id r =s ses_id s) || (ses_token_hash r =s ses_token_hash s)
  | T_oauth_accounts => fun r s => (oa_id r =s oa_id s) || ((oa_provider r =s oa_provider s) && (oa_provider_subject r =s oa_provider_subject s))
  | T_agent_join_invites => fun r s => (inv_id r =s inv_id s) || (inv_token_hash r =s inv_token_hash s)
  | T_agent_open_join_events => fun r s => oj_id r =s oj_id s
  | T_policy_action_registry => fun r s => pa_action_id r =s pa_action_id s
  | T_policy_drafts => fun r s => pd_id r =s pd_id s
  | T_policy_versions => version_clash
  | T_policy_bindings => binding_clash
  | T_policy_decisions => fun r s => pdec_id r =s pdec_id s
  | T_approval_requests => fun r s => ap_id r =s ap_id s
  | T_approval_votes => fun r s => (av_id r =s av_id s) || ((av_approval_id r =s av_approval_id s) && (av_actor_id r =s av_actor_id s))
  | T_approval_actions => fun r s => aa_id r =s aa_id s
  | T_approval_consumptions => fun r s => (ac_id r =s ac_id s) || (ac_approval_id r =s ac_approval_id s)
  | T_activity_items => fun r s => act_id r =s act_id s
  | T_org_payment_modes => fun r s => om_org_id r =s om_org_id s
  | T_payment_sources => fun r s => psrc_id r =s psrc_id s
  | T_agent_payment_accounts => fun r s => (acct_id r =s acct_id s) || ((acct_org_id r =s acct_org_id s) && (acct_agent_id r =s acct_agent_id s))
  | T_payment_reservations => fun r s => res_id r =s res_id s
  | T_payment_events => fun r s => pe_id r =s pe_id s
  | T_payment_route_observations => fun r s => obs_id r =s obs_id s
  | T_runtime_payment_attempts => attempt_clash
  | T_ledger_postings => fun r s => post_id r =s post_id s
  | T_payment_destination_allowlist => fun r s => (al_id r =s al_id s) || ((al_org_id r =s al_org_id s) && bool_decide (al_chain r = al_chain s) && (al_address r =s al_address s))
  | T_circle_chain_capabilities => fun r s => (cap_id r =s cap_id s) || (bool_decide (cap_mode r = cap_mode s) && bool_decide (cap_chain r = cap_chain s))
  | T_agent_chain_wallets => fun r s => (acw_id r =s acw_id s) || ((acw_agent_id r =s acw_agent_id s) && bool_decide (acw_mode r = acw_mode s) && bool_decide (acw_chain r = acw_chain s))
  | T_agent_allocations => fun r s => (alc_id r =s alc_id s) || ((alc_agent_id r =s alc_agent_id s) && bool_decide (alc_mode r = alc_mode s) && bool_decide (alc_chain r = alc_chain s))
  | T_circle_wallet_sets => fun r s => (cws_id r =s cws_id s) || ((cws_org_id r =s cws_org_id s) && bool_decide (cws_mode r = cws_mode s))
  | T_circle_provider_jobs => job_clash
  | T_circle_chain_wallets => fun r s => (ccw_id r =s ccw_id s) || ((ccw_org_id r =s ccw_org_id s) && bool_decide (ccw_mode r = ccw_mode s) && bool_decide (ccw_chain r = ccw_chain s))
  | T_escrow_jobs => escrow_clash
  | T_agent_reputation_events => fun r s => (rep_id r =s rep_id s) || (rep_escrow_job_id r =s rep_escrow_job_id s)
  | T_agent_onchain_identities => fun r s => (aoi_id r =s aoi_id s) || ((aoi_agent_id r =s aoi_agent_id s) && bool_decide (aoi_mode r = aoi_mode s) && bool_decide (aoi_chain r = aoi_chain s))
  | T_agent_delegations => delegation_clash
  | T_agent_delegation_drawdowns => fun r s => dd_id r =s dd_id s
  | T_org_delegation_ceilings => fun r s => (odc_org_id r =s odc_org_id s) && bool_decide (odc_mode r = odc_mode s) && bool_decide (odc_chain r = odc_chain s)
  | T_tool_catalog => fun r s => (tool_id r =s tool_id s) || ((tool_org_id r =s tool_org_id s) && (tool_name r =s tool_name s))
  | T_operational_rate_limits => fun r s => rl_id r =s rl_id s
  | T_operational_rate_counters => rate_counter_clash
  | T_operational_decisions => fun r s => od_id r =s od_id s
  end.

Definition Db : Type := forall t : table, list (row t).

Definition empty_db : Db := fun _ => [].

(** Replace one table. *)
Definition db_set (t : table) (l : list (row t)) (db : Db) : Db := fun t' =>
  match decide (t = t') with
  | left e => eq_rect t (fun t => list (row t)) l t' e
  | right _ => db t'
  end.

Lemma db_set_same t l db : db_set t l db t = l.
Proof.
  unfold db_set. destruct (decide (t = t)) as [e|]; [|done].
  by rewrite (proof_irrel e eq_refl).
Qed.

Lemma db_set_other t t' l db : t <> t' -> db_set t l db t' = db t'.
Proof. intros H. unfold db_set. by destruct (decide (t = t')). Qed.
