(* ===== verification/Host.v ===== *)
(** The execution model of the engines: a world (database, clock, id supply,
    log of calls to external services), handlers as functions of the world
    that return a value or throw, the SQL statements they use, and
    transactions.  The lemmas at the end support the proofs about handlers:
    inversion of a successful run, and frame reasoning on tables. *)

From S2P Require Import Prelude Errors Usdc Json Schema.
Import Digits.
Open Scope Z_scope.

(** ** The world *)

(** A request made to an external service (a provider, a chain). *)
Record ExternalCall : Type := mkExternalCall {
  call_service : string;
  call_args : list string
}.

Record World : Type := mkWorld {
  w_db : Db;
  w_now : Z;                       (* Date.now() and now() *)
  w_next : Z;                      (* supply of fresh ids *)
  w_calls : list ExternalCall
}.

Definition with_db (db : Db) (w : World) : World := mkWorld db (w_now w) (w_next w) (w_calls w).

(** A handler keeps the state it reached when it throws; a transaction is what
    restores the database. *)
Definition M (A : Type) : Type := World -> Res A * World.

Definition ret {A} (a : A) : M A := fun w => (Ok a, w).
Definition throw {A} (e : exn) : M A := fun w => (Err e, w).
Definition bind {A B} (m : M A) (k : A -> M B) : M B := fun w =>
  match m w with
  | (Ok a, w') => k a w'
  | (Err e, w') => (Err e, w')
  end.

Notation "'let*' x := m 'in' k" := (bind m (fun x => k))
  (at level 10, x pattern, m at level 100, k at level 200) : aops_scope.
Notation "m ;;* k" := (bind m (fun _ => k))
  (at level 100, k at level 200, right associativity) : aops_scope.

(** [if (cond) throw e]. *)
Definition throw_if (b : bool) (e : exn) : M unit := if b then throw e else ret tt.

Definition lift {A} (r : Res A) : M A := match r with Ok a => ret a | Err e => throw e end.

(** [if (o === undefined) throw e]. *)
Definition some_or {A} (o : option A) (e : exn) : M A :=
  match o with Some a => ret a | None => throw e end.

(** [try { m } catch (error) { ... }]. *)
Definition catch {A} (m : M A) (h : exn -> M A) : M A := fun w =>
  match m w with
  | (Ok a, w') => (Ok a, w')
  | (Err e, w') => h e w'
  end.

(** [for (const x of l) ...] with an accumulator. *)
Fixpoint for_each {A S} (f : S -> A -> M S) (l : list A) (s : S) : M S :=
  match l with
  | [] => ret s
  | x :: r => let* s := f s x in for_each f r s
  end.

Definition get_now : M Z := fun w => (Ok (w_now w), w).

(** [prefixedId(prefix)]: [randomUUID] gives an id not given before. *)
Definition prefixedId (prefix : string) : M string := fun w =>
  (Ok (prefix +:+ "_" +:+ to_string (w_next w)),
   mkWorld (w_db w) (w_now w) (w_next w + 1) (w_calls w)).

(** ** SQL *)

(** [SELECT * FROM t WHERE p], in insertion order. *)
Definition select (t : table) (p : row t -> bool) : M (list (row t)) := fun w =>
  (Ok (where_ p (w_db w t)), w).

(** [result.rows[0]]. *)
Definition select_one (t : table) (p : row t -> bool) : M (option (row t)) :=
  let* rows := select t p in ret (head rows).

(** [INSERT INTO t VALUES (r)]: the CHECK and UNIQUE constraints hold or the
    statement fails. *)
Definition insert (t : table) (r : row t) : M unit := fun w =>
  if negb (check t r) then (Err PgCheckViolation, w)
  else if existsb (clash t r) (w_db w t) then (Err PgUniqueViolation, w)
  else (Ok tt, with_db (db_set t (w_db w t ++ [r]) (w_db w)) w).

(** [INSERT ... ON CONFLICT DO NOTHING]: whether a row was inserted. *)
Definition insert_or_ignore (t : table) (r : row t) : M bool := fun w =>
  if negb (check t r) then (Err PgCheckViolation, w)
  else if existsb (clash t r) (w_db w t) then (Ok false, w)
  else (Ok true, with_db (db_set t (w_db w t ++ [r]) (w_db w)) w).

(** [UPDATE t SET f WHERE p RETURNING *], for an assignment that leaves the
    columns of unique constraints alone. *)
Definition update (t : table) (p : row t -> bool) (f : row t -> row t) : M (list (row t)) := fun w =>
  let changed := map f (where_ p (w_db w t)) in
  if negb (forallb (check t) changed) then (Err PgCheckViolation, w)
  else (Ok changed, with_db (db_set t (update_rows p f (w_db w t)) (w_db w)) w).

(** The rows [ORDER BY c DESC] puts first: the last among the greatest when
    the column does not decide is unspecified by SQL; the engines order by a
    column that does. *)
Fixpoint first_by {A} (lt : A -> A -> bool) (l : list A) : option A :=
  match l with
  | [] => None
  | x :: r => match first_by lt r with
              | None => Some x
              | Some y => Some (if lt y x then y else x)
              end
  end.

(** [ORDER BY]: a stable sort by a comparison ([<=]); texts compare bytewise. *)
Fixpoint insert_by {A} (le : A -> A -> bool) (x : A) (l : list A) : list A :=
  match l with
  | [] => [x]
  | y :: r => if le x y then x :: l else y :: insert_by le x r
  end.
Fixpoint sort_by {A} (le : A -> A -> bool) (l : list A) : list A :=
  match l with
  | [] => []
  | x :: r => insert_by le x (sort_by le r)
  end.

(** [ORDER BY a ASC, b ASC] on an instant and an id. *)
Definition le_time_id (a b : Z * string) : bool :=
  (fst a <? fst b) || ((fst a =? fst b) && String.leb (snd a) (snd b)).

(** [BEGIN ... COMMIT], [ROLLBACK] on a throw: the rows change back, the ids
    drawn and the external calls made do not. *)
Definition withTransaction {A} (m : M A) : M A := fun w =>
  match m w with
  | (Ok a, w') => (Ok a, w')
  | (Err e, w') => (Err e, with_db (w_db w) w')
  end.

Lemma insert_by_perm {A} le (x : A) l : Permutation (insert_by le x l) (x :: l).
Proof.
  induction l as [|y l IH]; cbn; [done|]. destruct (le x y); [done|].
  rewrite IH. apply perm_swap.
Qed.

Lemma sort_by_perm {A} le (l : list A) : Permutation (sort_by le l) l.
Proof. induction l as [|x l IH]; cbn; [done|]. by rewrite insert_by_perm, IH. Qed.

(** ** Inversion *)

Lemma bind_ok {A B} (m : M A) (k : A -> M B) w b w' :
  bind m k w = (Ok b, w') -> exists a w1, m w = (Ok a, w1) /\ k a w1 = (Ok b, w').
Proof. unfold bind. destruct (m w) as [[a|e] w1]; [|done]. eauto. Qed.

Lemma bind_err {A B} (m : M A) (k : A -> M B) w e w' :
  bind m k w = (Err e, w') ->
  m w = (Err e, w') \/ exists a w1, m w = (Ok a, w1) /\ k a w1 = (Err e, w').
Proof. unfold bind. destruct (m w) as [[a|e'] w1]; [|intros [= -> ->]; auto]. eauto. Qed.

(** The laws of sequencing. *)
Lemma bind_assoc {A B D} (m : M A) (k : A -> M B) (h : B -> M D) w :
  bind (bind m k) h w = bind m (fun a => bind (k a) h) w.
Proof. unfold bind. by destruct (m w) as [[a|e] w1]. Qed.

Lemma bind_ext {A B} (m : M A) (k k' : A -> M B) w :
  (forall a w, k a w = k' a w) -> bind m k w = bind m k' w.
Proof. intros Hk. unfold bind. by destruct (m w) as [[a|e] w1]. Qed.

(** Running forward. *)
Lemma bind_run {A B} (m : M A) (k : A -> M B) w a w1 :
  m w = (Ok a, w1) -> bind m k w = k a w1.
Proof. unfold bind. by intros ->. Qed.

Lemma bind_fail {A B} (m : M A) (k : A -> M B) w e w1 :
  m w = (Err e, w1) -> bind m k w = (Err e, w1).
Proof. unfold bind. by intros ->. Qed.

Lemma throw_if_run e w : throw_if false e w = (Ok tt, w).
Proof. done. Qed.

Lemma select_run t p w l : where_ p (w_db w t) = l -> select t p w = (Ok l, w).
Proof. unfold select. by intros ->. Qed.

Lemma select_one_run t p w l : where_ p (w_db w t) = l -> select_one t p w = (Ok (head l), w).
Proof. unfold select_one. intros H. by rewrite (bind_run _ _ _ _ _ (select_run t p w l H)). Qed.

Lemma update_run t p f w l :
  where_ p (w_db w t) = l -> forallb (check t) (map f l) = true ->
  update t p f w = (Ok (map f l), with_db (db_set t (update_rows p f (w_db w t)) (w_db w)) w).
Proof. unfold update. cbn zeta. intros -> ->. done. Qed.

Lemma insert_run t r w :
  check t r = true -> existsb (clash t r) (w_db w t) = false ->
  insert t r w = (Ok tt, with_db (db_set t (w_db w t ++ [r]) (w_db w)) w).
Proof. unfold insert. intros -> ->. done. Qed.

Lemma ret_ok {A} (a b : A) w w' : ret a w = (Ok b, w') -> a = b /\ w' = w.
Proof. by intros [= -> ->]. Qed.

Lemma throw_ok {A} e (b : A) w w' : throw e w = (Ok b, w') -> False.
Proof. done. Qed.

Lemma throw_if_ok b e x w w' : throw_if b e w = (Ok x, w') -> b = false /\ w' = w.
Proof. destruct b; [done|]. intros H. injection H as _ ->. done. Qed.

Lemma some_or_ok {A} (o : option A) e a w w' : some_or o e w = (Ok a, w') -> o = Some a /\ w' = w.
Proof. destruct o; [|done]. by intros [= -> ->]. Qed.

Lemma lift_ok {A} (r : Res A) a w w' : lift r w = (Ok a, w') -> r = Ok a /\ w' = w.
Proof. destruct r; [|done]. by intros [= -> ->]. Qed.

Lemma select_ok t p l w w' : select t p w = (Ok l, w') -> l = where_ p (w_db w t) /\ w' = w.
Proof. by intros [= -> ->]. Qed.

Lemma select_one_ok t p o w w' :
  select_one t p w = (Ok o, w') -> o = head (where_ p (w_db w t)) /\ w' = w.
Proof. unfold select_one, bind, select, ret. intros H. injection H as <- <-. done. Qed.

Lemma get_now_ok n w w' : get_now w = (Ok n, w') -> n = w_now w /\ w' = w.
Proof. by intros [= -> ->]. Qed.

Lemma prefixedId_ok p i w w' :
  prefixedId p w = (Ok i, w') ->
  i = p +:+ "_" +:+ to_string (w_next w) /\
  w' = mkWorld (w_db w) (w_now w) (w_next w + 1) (w_calls w).
Proof. by intros [= -> ->]. Qed.

Lemma insert_ok t r x w w' :
  insert t r w = (Ok x, w') ->
  check t r = true /\ existsb (clash t r) (w_db w t) = false /\
  w' = with_db (db_set t (w_db w t ++ [r]) (w_db w)) w.
Proof.
  unfold insert. destruct (check t r); [|done]. destruct (existsb _ _); [done|].
  intros H. injection H as _ <-. done.
Qed.

Lemma insert_err t r e w w' : insert t r w = (Err e, w') -> w' = w.
Proof.
  unfold insert. destruct (check t r); [destruct (existsb _ _)|]; by intros [= _ <-].
Qed.

Lemma update_ok t p f l w w' :
  update t p f w = (Ok l, w') ->
  l = map f (where_ p (w_db w t)) /\ forallb (check t) l = true /\
  w' = with_db (db_set t (update_rows p f (w_db w t)) (w_db w)) w.
Proof.
  unfold update. cbn zeta. destruct (forallb _ _) eqn:E; [|done].
  intros H. injection H as <- <-. done.
Qed.

Lemma transaction_ok {A} (m : M A) a w w' : withTransaction m w = (Ok a, w') -> m w = (Ok a, w').
Proof. unfold withTransaction. by destruct (m w) as [[]]. Qed.

(** A transaction that throws leaves the database as it was. *)
Lemma transaction_err {A} (m : M A) e w w' :
  withTransaction m w = (Err e, w') -> w_db w' = w_db w.
Proof. unfold withTransaction. destruct (m w) as [[]]; [done|]. by intros [= _ <-]. Qed.

(** A run known to succeed has a result. *)
Lemma ok_run {A} (p : Res A * World) : is_ok (fst p) = true -> exists a w, p = (Ok a, w).
Proof. destruct p as [[a|e] w]; [by exists a, w|done]. Qed.

(** [minv H]: the run that [H] says succeeded, step by step. *)
Ltac minv_step H :=
  lazymatch type of H with
  | bind _ _ _ = (Ok _, _) =>
      let a := fresh "a" in let w := fresh "w" in let H1 := fresh "H" in
      apply bind_ok in H as (a & w & H1 & H); minv_step H1; try minv_step H
  | ret _ _ = (Ok _, _) => apply ret_ok in H as [? ?]; subst
  | throw _ _ = (Ok _, _) => destruct (throw_ok _ _ _ _ H)
  | throw_if _ _ _ = (Ok _, _) => apply throw_if_ok in H as [? ?]; subst
  | some_or _ _ _ = (Ok _, _) => apply some_or_ok in H as [? ?]; subst
  | lift _ _ = (Ok _, _) => apply lift_ok in H as [? ?]; subst
  | select _ _ _ = (Ok _, _) => apply select_ok in H as [? ?]; subst
  | select_one _ _ _ = (Ok _, _) => apply select_one_ok in H as [? ?]; subst
  | get_now _ = (Ok _, _) => apply get_now_ok in H as [? ?]; subst
  | prefixedId _ _ = (Ok _, _) => apply prefixedId_ok in H as [? ?]; subst
  | insert _ _ _ = (Ok _, _) => apply insert_ok in H as (? & ? & ?); subst
  | update _ _ _ _ = (Ok _, _) => apply update_ok in H as (? & ? & ?); subst
  | withTransaction _ _ = (Ok _, _) => apply transaction_ok in H; try minv_step H
  | _ => idtac
  end.
Ltac minv H := minv_step H.

(** [runs H]: the same, but the worlds stay variables, with an equation for
    the database of each; [tables] then computes a table. *)
Lemma update_step t p f l w w' :
  update t p f w = (Ok l, w') ->
  l = map f (where_ p (w_db w t)) /\ w_db w' = db_set t (update_rows p f (w_db w t)) (w_db w) /\
  w_now w' = w_now w.
Proof. intros H. apply update_ok in H as (-> & _ & ->). done. Qed.

Lemma insert_step t r x w w' :
  insert t r w = (Ok x, w') ->
  check t r = true /\ existsb (clash t r) (w_db w t) = false /\
  w_db w' = db_set t (w_db w t ++ [r]) (w_db w) /\ w_now w' = w_now w.
Proof. intros H. apply insert_ok in H as (? & ? & ->). done. Qed.

Lemma prefixedId_step p i w w' :
  prefixedId p w = (Ok i, w') -> w_db w' = w_db w /\ w_now w' = w_now w.
Proof. intros H. apply prefixedId_ok in H as [_ ->]. done. Qed.

Ltac runs_step H :=
  lazymatch type of H with
  | bind _ _ _ = (Ok _, _) =>
      let a := fresh "a" in let w := fresh "w" in let H1 := fresh "H" in
      apply bind_ok in H as (a & w & H1 & H); runs_step H1; try runs_step H
  | ret _ _ = (Ok _, _) => apply ret_ok in H as [? ?]; subst
  | throw _ _ = (Ok _, _) => destruct (throw_ok _ _ _ _ H)
  | throw_if _ _ _ = (Ok _, _) => apply throw_if_ok in H as [? ?]; subst
  | some_or _ _ _ = (Ok _, _) => apply some_or_ok in H as [? ?]; subst
  | lift _ _ = (Ok _, _) => apply lift_ok in H as [? ?]; subst
  | select _ _ _ = (Ok _, _) => apply select_ok in H as [? ?]; subst
  | select_one _ _ _ = (Ok _, _) => apply select_one_ok in H as [? ?]; subst
  | get_now _ = (Ok _, _) => apply get_now_ok in H as [? ?]; subst
  | prefixedId _ _ = (Ok _, _) => apply prefixedId_step in H as [? ?]
  | insert _ _ _ = (Ok _, _) => apply insert_step in H as (? & ? & ? & ?)
  | update _ _ _ _ = (Ok _, _) => apply update_step in H as (? & ? & ?)
  | withTransaction _ _ = (Ok _, _) => apply transaction_ok in H; try runs_step H
  | _ => idtac
  end.
Ltac runs H := runs_step H.

Ltac tables_step :=
  match goal with
  | E : w_db ?w' = _ |- context [w_db ?w'] => is_var w'; rewrite E
  | |- context [db_set _ _ _ _] => first [rewrite db_set_same | rewrite db_set_other by discriminate]
  end.
Ltac tables := repeat tables_step.
Ltac tables_in H :=
  repeat match type of H with
  | context [w_db ?w'] => is_var w'; match goal with E : w_db w' = _ |- _ => rewrite E in H end
  | context [db_set _ _ _ _] => first [rewrite db_set_same in H | rewrite db_set_other in H by discriminate]
  end.

(** ** Frames: the tables a handler leaves alone, however it ends *)

Definition keeps {A} (t : table) (m : M A) : Prop := forall w, w_db (snd (m w)) t = w_db w t.

Section Keeps.
Context (t : table).

Lemma keeps_ret {A} (a : A) : keeps t (ret a).
Proof. done. Qed.

Lemma keeps_throw {A} e : keeps t (@throw A e).
Proof. done. Qed.

Lemma keeps_bind {A B} (m : M A) (k : A -> M B) :
  keeps t m -> (forall a, keeps t (k a)) -> keeps t (bind m k).
Proof.
  intros Hm Hk w. unfold bind. specialize (Hm w).
  destruct (m w) as [[a|e] w1]; cbn in *; [|done]. by rewrite Hk.
Qed.

Lemma keeps_catch {A} (m : M A) h :
  keeps t m -> (forall e, keeps t (h e)) -> keeps t (catch m h).
Proof.
  intros Hm Hk w. unfold catch. specialize (Hm w).
  destruct (m w) as [[a|e] w1]; cbn in *; [done|]. by rewrite Hk.
Qed.

Lemma keeps_throw_if b e : keeps t (throw_if b e).
Proof. by destruct b. Qed.

Lemma keeps_some_or {A} (o : option A) e : keeps t (some_or o e).
Proof. by destruct o. Qed.

Lemma keeps_lift {A} (r : Res A) : keeps t (lift r).
Proof. by destruct r. Qed.

Lemma keeps_select t' p : keeps t (select t' p).
Proof. done. Qed.

Lemma keeps_select_one t' p : keeps t (select_one t' p).
Proof. done. Qed.

Lemma keeps_get_now : keeps t get_now.
Proof. done. Qed.

Lemma keeps_prefixedId p : keeps t (prefixedId p).
Proof. done. Qed.

Lemma keeps_insert t' r : t' <> t -> keeps t (insert t' r).
Proof.
  intros Ht w. unfold insert. destruct (check t' r); [|done].
  destruct (existsb _ _); [done|]. cbn. by apply db_set_other.
Qed.

Lemma keeps_insert_or_ignore t' r : t' <> t -> keeps t (insert_or_ignore t' r).
Proof.
  intros Ht w. unfold insert_or_ignore. destruct (check t' r); [|done].
  destruct (existsb _ _); [done|]. cbn. by apply db_set_other.
Qed.

Lemma keeps_update t' p f : t' <> t -> keeps t (update t' p f).
Proof.
  intros Ht w. unfold update. cbn zeta. destruct (forallb _ _); [|done].
  cbn. by apply db_set_other.
Qed.

Lemma keeps_transaction {A} (m : M A) : keeps t m -> keeps t (withTransaction m).
Proof.
  intros Hm w. unfold withTransaction. specialize (Hm w). by destruct (m w) as [[a|e] w1].
Qed.

Lemma keeps_for_each {A S} (f : S -> A -> M S) l :
  (forall s x, keeps t (f s x)) -> forall s, keeps t (for_each f l s).
Proof.
  intros Hf. induction l as [|x l IH]; intros s; [apply keeps_ret|]. cbn. by apply keeps_bind.
Qed.

Lemma keeps_run {A} (m : M A) w r w' : keeps t m -> m w = (r, w') -> w_db w' t = w_db w t.
Proof. intros Hm E. specialize (Hm w). by rewrite E in Hm. Qed.
End Keeps.

Create HintDb keeps discriminated.
#[export] Hint Resolve keeps_ret keeps_throw keeps_throw_if keeps_some_or keeps_lift
  keeps_select keeps_select_one keeps_get_now keeps_prefixedId : keeps.
(** Which table: distinct constructors, or a hypothesis of the lemma. *)
#[export] Hint Extern 1 (_ <> _) => first [assumption | discriminate | congruence] : keeps.

Ltac keeps_step :=
  first
  [ solve [auto with keeps nocore]
  | match goal with
    | |- keeps _ (bind _ _) => apply keeps_bind; [|intros ?]
    | |- keeps _ (withTransaction _) => apply keeps_transaction
    | |- keeps _ (catch _ _) => apply keeps_catch; [|intros ?]
    end
  | apply keeps_insert; solve [auto with keeps nocore]
  | apply keeps_insert_or_ignore; solve [auto with keeps nocore]
  | apply keeps_update; solve [auto with keeps nocore]
  | apply keeps_for_each; intros ? ?
  | match goal with
    | |- keeps _ (match ?x with _ => _ end) => destruct x
    | |- keeps _ (if ?b then _ else _) => destruct b
    | |- keeps _ (let '(_, _) := ?x in _) => destruct x
    end ].
Ltac solve_keeps := repeat keeps_step.

(** A table after a run that keeps it, in terms of the table before. *)
Tactic Notation "keeps_in" hyp(H) constr(t) "as" ident(E) :=
  lazymatch type of H with
  | ?m ?w = (?r, ?w') =>
      assert (E : w_db w' t = w_db w t) by (apply (keeps_run t m w r w'); [solve_keeps|exact H])
  end.

(** [frames]: every table of the goal in terms of the first world, along the
    runs among the hypotheses that keep it. *)
Ltac frame_step :=
  match goal with
  | E : ?m ?w = (?r, ?w') |- context [w_db ?w' ?t] =>
      is_var w'; let H := fresh in
      assert (H : w_db w' t = w_db w t) by (apply (keeps_run t m w r w'); [solve [solve_keeps]|exact E]);
      rewrite H; clear H
  end.
Ltac frames :=
  repeat first [ progress cbn [w_db with_db] | rewrite db_set_same | rewrite db_set_other by discriminate
               | frame_step ].

(** ** Invariants of the database, kept however a handler ends *)

Section Preserves.
Context (I : Db -> Prop).

Definition preserves {A} (m : M A) : Prop := forall w, I (w_db w) -> I (w_db (snd (m w))).

Lemma preserves_ret {A} (a : A) : preserves (ret a).
Proof. by intros w. Qed.

Lemma preserves_throw {A} e : preserves (@throw A e).
Proof. by intros w. Qed.

Lemma preserves_bind {A B} (m : M A) (k : A -> M B) :
  preserves m -> (forall a, preserves (k a)) -> preserves (bind m k).
Proof.
  intros Hm Hk w Hw. unfold bind. specialize (Hm w Hw).
  destruct (m w) as [[a|e] w1]; [|done]. by apply Hk.
Qed.

Lemma preserves_catch {A} (m : M A) h :
  preserves m -> (forall e, preserves (h e)) -> preserves (catch m h).
Proof.
  intros Hm Hk w Hw. unfold catch. specialize (Hm w Hw).
  destruct (m w) as [[a|e] w1]; [done|]. by apply Hk.
Qed.

Lemma preserves_transaction {A} (m : M A) : preserves m -> preserves (withTransaction m).
Proof.
  intros Hm w Hw. unfold withTransaction. specialize (Hm w Hw). by destruct (m w) as [[a|e] w1].
Qed.

(** Inside a transaction the invariant may break, as long as it holds again
    where the transaction commits. *)
Lemma preserves_commit {A} (m : M A) :
  (forall w a w', I (w_db w) -> m w = (Ok a, w') -> I (w_db w')) -> preserves (withTransaction m).
Proof.
  intros Hm w Hw. destruct (withTransaction m w) as [[a|e] w'] eqn:E; cbn.
  - apply transaction_ok in E. by eapply Hm.
  - by rewrite (transaction_err _ _ _ _ E).
Qed.

Lemma preserves_run {A} (m : M A) w r w' : preserves m -> m w = (r, w') -> I (w_db w) -> I (w_db w').
Proof. intros Hm E Hw. specialize (Hm w Hw). by rewrite E in Hm. Qed.

Lemma preserves_for_each {A S} (f : S -> A -> M S) l :
  (forall s x, preserves (f s x)) -> forall s, preserves (for_each f l s).
Proof.
  intros Hf. induction l as [|x l IH]; intros s; [apply preserves_ret|]. cbn.
  by apply preserves_bind.
Qed.

End Preserves.

(** ** Sound handlers: an invariant kept, and a preorder between the databases
    before and after, however the handler ends *)

Section Sound.
Context (I : Db -> Prop) (R : Db -> Db -> Prop).
Context (R_refl : forall db, R db db) (R_trans : forall a b c, R a b -> R b c -> R a c).

Definition sound {A} (m : M A) : Prop := forall w, I (w_db w) ->
  I (w_db (snd (m w))) /\ R (w_db w) (w_db (snd (m w))).

Lemma sound_same {A} (m : M A) : (forall w, w_db (snd (m w)) = w_db w) -> sound m.
Proof using R_refl. intros H w Hw. rewrite H. auto. Qed.

Lemma sound_bind_when {A B} (m : M A) (k : A -> M B) w :
  I (w_db w) -> sound m ->
  (forall a w1, m w = (Ok a, w1) -> I (w_db w1) -> R (w_db w) (w_db w1) ->
     I (w_db (snd (k a w1))) /\ R (w_db w1) (w_db (snd (k a w1)))) ->
  I (w_db (snd (bind m k w))) /\ R (w_db w) (w_db (snd (bind m k w))).
Proof using R_trans.
  intros Hw Hm Hk. unfold bind. specialize (Hm w Hw).
  destruct (m w) as [[a|e] w1]; cbn in *; [|done]. destruct Hm as [H1 H2].
  destruct (Hk a w1 eq_refl H1 H2) as [H3 H4]. split; [done|]. by eapply R_trans.
Qed.

Lemma sound_bind {A B} (m : M A) (k : A -> M B) :
  sound m -> (forall a, sound (k a)) -> sound (bind m k).
Proof using R_trans.
  intros Hm Hk w Hw. apply sound_bind_when; [done..|]. intros a w1 _ H1 _. by apply Hk.
Qed.

Lemma sound_catch {A} (m : M A) h : sound m -> (forall e, sound (h e)) -> sound (catch m h).
Proof using R_trans.
  intros Hm Hh w Hw. unfold catch. specialize (Hm w Hw).
  destruct (m w) as [[a|e] w1]; cbn in *; [done|]. destruct Hm as [H1 H2].
  destruct (Hh e w1 H1) as [H3 H4]. split; [done|]. by eapply R_trans.
Qed.

Lemma sound_transaction {A} (m : M A) : sound m -> sound (withTransaction m).
Proof using R_refl.
  intros Hm w Hw. unfold withTransaction. specialize (Hm w Hw).
  destruct (m w) as [[a|e] w1]; cbn in *; auto.
Qed.

(** In a transaction only the committed state has to be sound. *)
Lemma sound_commit {A} (m : M A) :
  (forall w a w', I (w_db w) -> m w = (Ok a, w') -> I (w_db w') /\ R (w_db w) (w_db w')) ->
  sound (withTransaction m).
Proof using R_refl.
  intros Hm w Hw. destruct (withTransaction m w) as [[a|e] w'] eqn:E; cbn.
  - apply transaction_ok in E. by eapply Hm.
  - rewrite (transaction_err _ _ _ _ E). auto.
Qed.

Lemma sound_for_each {A S} (f : S -> A -> M S) l :
  (forall s x, sound (f s x)) -> forall s, sound (for_each f l s).
Proof using R_refl R_trans.
  intros Hf. induction l as [|x l IH]; intros s; cbn; [by apply sound_same|].
  by apply sound_bind.
Qed.

Lemma sound_run {A} (m : M A) w r w' :
  sound m -> m w = (r, w') -> I (w_db w) -> I (w_db w') /\ R (w_db w) (w_db w').
Proof. intros Hm E Hw. specialize (Hm w Hw). by rewrite E in Hm. Qed.
End Sound.
