(* ===== verification/Handlers.v ===== *)
(** What handlers are made of: reads, statements, ids, calls to external
    services, sequencing, catching and transactions.

    [made_of C W m] says that [m] is made of these, that every call it can
    make satisfies [C], and that it writes tables of [W] alone.  What holds of
    each ingredient then holds of every handler, however it ends: the calls it
    makes, the clock, the supply of ids, the tables it leaves alone, and that
    the rows of the tables stay within their CHECK constraints. *)

From S2P Require Import Prelude Errors Usdc Json Schema Host.
Import Digits.
Open Scope Z_scope.

Section Made.
Context (C : ExternalCall -> Prop) (W : table -> bool).

Definition add_call (c : ExternalCall) (w : World) : World :=
  mkWorld (w_db w) (w_now w) (w_next w) (w_calls w ++ [c]).
Definition next_id (w : World) : World := mkWorld (w_db w) (w_now w) (w_next w + 1) (w_calls w).

Inductive made_of : forall {A}, M A -> Prop :=
| made_read {A} (m : M A) (f : World -> Res A) : (forall w, m w = (f w, w)) -> made_of m
| made_id {A} (m : M A) (f : World -> A) : (forall w, m w = (Ok (f w), next_id w)) -> made_of m
| made_call {A} (m : M A) (f : World -> Res A) (c : World -> ExternalCall) :
    (forall w, m w = (f w, add_call (c w) w)) -> (forall w, C (c w)) -> made_of m
| made_insert t r : W t = true -> made_of (insert t r)
| made_insert_or_ignore t r : W t = true -> made_of (insert_or_ignore t r)
| made_update t p f : W t = true -> made_of (update t p f)
| made_bind {A B} (m : M A) (k : A -> M B) : made_of m -> (forall a, made_of (k a)) -> made_of (bind m k)
| made_catch {A} (m : M A) h : made_of m -> (forall e, made_of (h e)) -> made_of (catch m h)
| made_transaction {A} (m : M A) : made_of m -> made_of (withTransaction m).

(** A handler that leaves the world as it is. *)
Lemma made_still {A} (m : M A) : (forall w, snd (m w) = w) -> made_of m.
Proof.
  intros Hm. apply made_read with (f := fun w => fst (m w)). intros w. rewrite <-(Hm w) at 3. by destruct (m w).
Qed.

Lemma made_ret {A} (a : A) : made_of (ret a).
Proof. by apply made_read with (f := fun _ => Ok a). Qed.
Lemma made_throw {A} e : made_of (@throw A e).
Proof. by apply made_read with (f := fun _ => Err e). Qed.
Lemma made_throw_if b e : made_of (throw_if b e).
Proof. destruct b; [apply made_throw|apply made_ret]. Qed.
Lemma made_some_or {A} (o : option A) e : made_of (some_or o e).
Proof. destruct o; [apply made_ret|apply made_throw]. Qed.
Lemma made_lift {A} (r : Res A) : made_of (lift r).
Proof. destruct r; [apply made_ret|apply made_throw]. Qed.
Lemma made_select t p : made_of (select t p).
Proof. by apply made_read with (f := fun w => Ok (where_ p (w_db w t))). Qed.
Lemma made_select_one t p : made_of (select_one t p).
Proof. by apply made_read with (f := fun w => Ok (head (where_ p (w_db w t)))). Qed.
Lemma made_now : made_of get_now.
Proof. by apply made_read with (f := fun w => Ok (w_now w)). Qed.
Lemma made_prefixed p : made_of (prefixedId p).
Proof. by apply made_id with (f := fun w => p +:+ "_" +:+ to_string (w_next w)). Qed.

Lemma made_for_each {A S} (f : S -> A -> M S) l :
  (forall s x, made_of (f s x)) -> forall s, made_of (for_each f l s).
Proof.
  intros Hf. induction l as [|x l IH]; intros s; cbn; [apply made_ret|]. by apply made_bind.
Qed.

(** ** What a run leaves *)

(** The rows of a table satisfy its CHECK constraints. *)
Definition checked (db : Db) : Prop := forall t r, In r (db t) -> check t r = true.

Record after (w w' : World) : Prop := mkAfter {
  af_now : w_now w' = w_now w;
  af_next : w_next w <= w_next w';
  af_calls : exists l, w_calls w' = w_calls w ++ l /\ Forall C l;
  af_checked : checked (w_db w) -> checked (w_db w')
}.

Lemma after_refl w : after w w.
Proof. constructor; [done|lia| |done]. exists []. by rewrite app_nil_r. Qed.

Lemma after_trans a b c : after a b -> after b c -> after a c.
Proof.
  intros [N1 I1 (l1 & E1 & F1) K1] [N2 I2 (l2 & E2 & F2) K2]. constructor; [congruence|lia| |auto].
  exists (l1 ++ l2). rewrite E2, E1, app_assoc. split; [done|]. by apply Forall_app.
Qed.

(** A table gets rows that satisfy its constraints. *)
Lemma after_rows t l w :
  (checked (w_db w) -> forall r, In r l -> check t r = true) -> after w (with_db (db_set t l (w_db w)) w).
Proof.
  intros Hl. constructor; cbn; [done|lia|exists []; by rewrite app_nil_r|].
  intros Hc t' r Hr. destruct (decide (t = t')) as [<-|Hne].
  - rewrite db_set_same in Hr. by apply Hl.
  - rewrite db_set_other in Hr by done. by apply Hc.
Qed.

Lemma made_after {A} (m : M A) : made_of m -> forall w, after w (snd (m w)).
Proof.
  induction 1 as [A m f Hm|A m f Hm|A m f c Hm Hc|t r _|t r _|t p f _
    |A B m k _ IHm _ IHk|A m h _ IHm _ IHh|A m _ IH]; intros w.
  - rewrite Hm. apply after_refl.
  - rewrite Hm. constructor; cbn; [done|lia|exists []; by rewrite app_nil_r|done].
  - rewrite Hm. constructor; cbn; [done|lia|exists [c w]; auto|done].
  - unfold insert. destruct (check t r) eqn:Ec; cbn [negb]; [|apply after_refl].
    destruct (existsb _ _); [apply after_refl|]. apply after_rows.
    intros Hw r' [Hr'|[<-|[]]]%in_app_iff; [by apply Hw|done].
  - unfold insert_or_ignore. destruct (check t r) eqn:Ec; cbn [negb]; [|apply after_refl].
    destruct (existsb _ _); [apply after_refl|]. apply after_rows.
    intros Hw r' [Hr'|[<-|[]]]%in_app_iff; [by apply Hw|done].
  - unfold update. cbn zeta. destruct (forallb _ _) eqn:Ef; cbn [negb]; [|apply after_refl]. apply after_rows.
    intros Hw r' (r & Hr & ->)%in_update_rows. destruct (p r) eqn:Ep; [|by apply Hw].
    rewrite forallb_forall in Ef. apply Ef, in_map, where_in. auto.
  - unfold bind. specialize (IHm w). destruct (m w) as [[a|e] w1]; [|done]. eapply after_trans; [exact IHm|]. apply IHk.
  - unfold catch. specialize (IHm w). destruct (m w) as [[a|e] w1]; [done|]. eapply after_trans; [exact IHm|]. apply IHh.
  - unfold withTransaction. specialize (IH w). destruct (m w) as [[a|e] w1]; [done|].
    destruct IH as [H1 H2 H3 _]. by constructor.
Qed.

(** The tables it does not write. *)
Lemma made_keeps {A} (m : M A) t : made_of m -> W t = false -> keeps t m.
Proof.
  intros Hm Ht. induction Hm as [A m f Hm|A m f Hm|A m f c Hm _|t' r Hw|t' r Hw|t' p f Hw
    |A B m k _ IHm _ IHk|A m h _ IHm _ IHh|A m _ IH].
  - intros w. by rewrite Hm.
  - intros w. by rewrite Hm.
  - intros w. by rewrite Hm.
  - apply keeps_insert. congruence.
  - apply keeps_insert_or_ignore. congruence.
  - apply keeps_update. congruence.
  - by apply keeps_bind.
  - by apply keeps_catch.
  - by apply keeps_transaction.
Qed.
End Made.

(** A handler without statements leaves the database. *)
Lemma made_no_writes C {A} (m : M A) : made_of C (fun _ => false) m -> forall w, w_db (snd (m w)) = w_db w.
Proof.
  induction 1 as [A m f Hm|A m f Hm|A m f c Hm _|t' r Hw|t' r Hw|t' p f Hw
    |A B m k _ IHm _ IHk|A m h _ IHm _ IHh|A m _ IH]; intros w; try done.
  - by rewrite Hm.
  - by rewrite Hm.
  - by rewrite Hm.
  - unfold bind. specialize (IHm w). destruct (m w) as [[a|e] w1]; [|done]. by rewrite IHk.
  - unfold catch. specialize (IHm w). destruct (m w) as [[a|e] w1]; [done|]. by rewrite IHh.
  - unfold withTransaction. specialize (IH w). by destruct (m w) as [[a|e] w1].
Qed.

Lemma still_run {A} (m : M A) w r w' :
  made_of (fun _ => True) (fun _ => false) m -> m w = (r, w') -> w_db w' = w_db w.
Proof. intros Hm E. pose proof (made_no_writes _ m Hm w) as H. by rewrite E in H. Qed.

Lemma now_run W {A} (m : M A) w r w' :
  made_of (fun _ => True) W m -> m w = (r, w') -> w_now w' = w_now w.
Proof. intros Hm E. pose proof (af_now _ _ _ (made_after _ _ m Hm w)) as H. by rewrite E in H. Qed.

Lemma calm_run {A} (m : M A) w r w' :
  made_of (fun _ => True) (fun _ => false) m -> m w = (r, w') -> w_db w' = w_db w /\ w_now w' = w_now w.
Proof. intros Hm E. split; [by eapply still_run|by eapply now_run]. Qed.

Lemma made_weaken (C C' : ExternalCall -> Prop) (W W' : table -> bool) {A} (m : M A) :
  (forall c, C c -> C' c) -> (forall t, W t = true -> W' t = true) -> made_of C W m -> made_of C' W' m.
Proof.
  intros HC HW. induction 1; [by eapply made_read|by eapply made_id|by eapply made_call; auto|constructor..]; auto.
Qed.

(** ** Automation *)

Create HintDb made discriminated.
#[export] Hint Extern 1 (_ = true) => reflexivity : made.
#[export] Hint Resolve made_ret made_throw made_throw_if made_some_or made_lift made_select made_select_one
  made_now made_prefixed made_insert made_insert_or_ignore made_update : made.

Ltac made_unfold :=
  match goal with
  | |- made_of _ _ ?m =>
      let rec head_of t := lazymatch t with ?f _ => head_of f | _ => t end in
      let h := head_of m in unfold h; cbv beta zeta
  end.

Ltac made_step :=
  first
  [ solve [auto with made nocore]
  | match goal with
    | |- made_of _ _ (bind _ _) => apply made_bind; [|intros ?]
    | |- made_of _ _ (withTransaction _) => apply made_transaction
    | |- made_of _ _ (catch _ _) => apply made_catch; [|intros ?]
    | |- made_of _ _ (for_each _ _ _) => apply made_for_each; intros ? ?
    | |- made_of _ _ (match ?x with _ => _ end) => destruct x
    | |- made_of _ _ (if ?b then _ else _) => destruct b
    | |- made_of _ _ (let '(_, _) := ?x in _) => destruct x
    end
  | made_unfold ].
Ltac solve_made := repeat made_step.

(** Runs without statements, as equations of databases (and clocks). *)
Ltac calms :=
  repeat match goal with
  | H : ?m ?w = (_, ?w') |- _ => apply calm_run in H as [? ?]; [|solve [solve_made]]
  end.

Ltac stills :=
  repeat match goal with
  | H : ?m ?w = (_, ?w') |- _ => apply still_run in H; [|solve [solve_made]]
  end.
