(* ===== verification/Ledger.v ===== *)
(** The append-only ledger ([payments/ledger.ts]): postings, corrections, and
    the spent total derived from them. *)

From S2P Require Import Prelude Errors Usdc Json Doubles Quotes Schema Host.
Open Scope Z_scope.

(** ** Postings *)

Record WritePostingInput : Type := mkWritePostingInput {
  wp_orgId : string;
  wp_agentId : option string;
  wp_mode : PaymentMode;
  wp_chain : option PaymentChain;
  wp_entryType : LedgerEntryType;
  wp_amountUsdc : Z;
  wp_reservationId : option string;
  wp_attemptId : option string;
  wp_jobId : option string;
  wp_reasonCode : string;
  wp_createdBy : string
}.

Definition posting_of (i : WritePostingInput) (id : string) (now : Z) : LedgerPostingRow :=
  {| post_id := id; post_org_id := wp_orgId i; post_agent_id := wp_agentId i;
     post_mode := wp_mode i; post_chain := wp_chain i; post_entry_type := wp_entryType i;
     post_amount_usdc := wp_amountUsdc i; post_reservation_id := wp_reservationId i;
     post_attempt_id := wp_attemptId i; post_job_id := wp_jobId i;
     post_corrects_posting_id := None; post_reason_code := wp_reasonCode i;
     post_created_by := wp_createdBy i; post_created_at := now |}.

Definition writePosting (input : WritePostingInput) : M LedgerPostingRow :=
  let* id := prefixedId "post" in
  let* now := get_now in
  let row := posting_of input id now in
  insert T_ledger_postings row ;;*
  ret row.

Record CorrectPostingInput : Type := mkCorrectPostingInput {
  cp_postingId : string;
  cp_reasonCode : string;
  cp_createdBy : option string
}.

Definition posting_id_is (id : string) (p : LedgerPostingRow) : bool := post_id p =s id.

(** [offsetAmount::numeric] of [row]. *)
Definition offset_amount (row : LedgerPostingRow) : option Z :=
  toFixed6 (negate (number_of_micros (post_amount_usdc row))).

Definition correction_of (i : CorrectPostingInput) (row : LedgerPostingRow) (amount : Z)
    (id : string) (now : Z) : LedgerPostingRow :=
  {| post_id := id; post_org_id := post_org_id row; post_agent_id := post_agent_id row;
     post_mode := post_mode row; post_chain := post_chain row; post_entry_type := Entry_correction;
     post_amount_usdc := amount; post_reservation_id := None; post_attempt_id := None;
     post_job_id := None; post_corrects_posting_id := Some (cp_postingId i);
     post_reason_code := cp_reasonCode i; post_created_by := cp_createdBy i ?? "system";
     post_created_at := now |}.

Definition correctPosting (input : CorrectPostingInput) : M LedgerPostingRow :=
  let* original := select_one T_ledger_postings (posting_id_is (cp_postingId input)) in
  let* row := some_or original (PlainError "ledger_posting_not_found") in
  let* amount := some_or (offset_amount row) PgNumericOverflow in
  let* id := prefixedId "post" in
  let* now := get_now in
  let correction := correction_of input row amount id now in
  insert T_ledger_postings correction ;;*
  ret correction.

(** ** The spent total *)

Definition is_settle (p : LedgerPostingRow) : bool := bool_decide (post_entry_type p = Entry_settle).

(** The row of [LEFT JOIN ledger_postings corrected ON corrected.id = p.corrects_posting_id]. *)
Definition corrected_by (postings : list LedgerPostingRow) (p : LedgerPostingRow) : option LedgerPostingRow :=
  match post_corrects_posting_id p with
  | Some id => head (where_ (posting_id_is id) postings)
  | None => None
  end.

Definition counts_as_spent (postings : list LedgerPostingRow) (orgId agentId : string)
    (mode : PaymentMode) (p : LedgerPostingRow) : bool :=
  (post_org_id p =s orgId) && eqo (post_agent_id p) (Some agentId) && bool_decide (post_mode p = mode)
  && (is_settle p || match corrected_by postings p with Some c => is_settle c | None => false end).

(** [SUM(p.amount_usdc)]. *)
Definition spent_total (postings : list LedgerPostingRow) (orgId agentId : string) (mode : PaymentMode) : Z :=
  sum_where (counts_as_spent postings orgId agentId mode) post_amount_usdc postings.

Definition deriveSpentUsdc (orgId agentId : string) (mode : PaymentMode) : M Z :=
  let* postings := select T_ledger_postings (fun _ => true) in
  some_or (toFixed6 (number_of_micros (spent_total postings orgId agentId mode))) PgNumericOverflow.

(** ** Lemmas *)

Lemma writePosting_ok i r w w' :
  writePosting i w = (Ok r, w') ->
  exists id, r = posting_of i id (w_now w) /\ post_id r = id /\ posting_check r = true /\
  w_db w' T_ledger_postings = w_db w T_ledger_postings ++ [r].
Proof.
  intros H. unfold writePosting in H. minv H. eexists. do 3 (split; [done|]).
  cbn. by rewrite db_set_same.
Qed.

Lemma writePosting_keeps i t : t <> T_ledger_postings -> keeps t (writePosting i).
Proof. intros Ht. unfold writePosting. solve_keeps. Qed.
#[export] Hint Resolve writePosting_keeps : keeps.

Definition ledger_keyed (db : Db) : Prop := keyed post_id (db T_ledger_postings).

Lemma posting_lookup (l : list LedgerPostingRow) r :
  keyed post_id l -> In r l -> where_ (posting_id_is (post_id r)) l = [r].
Proof.
  intros Hk Hr. apply (keyed_where post_id); [done|done|apply eqs_refl|].
  intros r' E. by apply String.eqb_eq in E.
Qed.

(** Appending a posting changes which rows the total counts only for the row
    itself, when no row corrects a posting that does not exist yet. *)
Definition corrections_refer (l : list LedgerPostingRow) : Prop :=
  forall p id, In p l -> post_corrects_posting_id p = Some id -> exists c, In c l /\ post_id c = id.

Lemma corrected_by_app l r p :
  In p l -> corrections_refer l -> corrected_by (l ++ [r]) p = corrected_by l p.
Proof.
  intros Hp Hr. unfold corrected_by. destruct (post_corrects_posting_id p) as [id|] eqn:E; [|done].
  destruct (Hr p id Hp E) as (c & Hc & Eid). rewrite where_app.
  destruct (where_ (posting_id_is id) l) as [|x y] eqn:Ew; [|done].
  assert (In c (where_ (posting_id_is id) l)) as H.
  { apply where_in. split; [done|]. unfold posting_id_is. by rewrite Eid, eqs_refl. }
  by rewrite Ew in H.
Qed.

Lemma spent_total_app l r org agent mode :
  corrections_refer l ->
  spent_total (l ++ [r]) org agent mode =
  spent_total l org agent mode
  + (if counts_as_spent (l ++ [r]) org agent mode r then post_amount_usdc r else 0).
Proof.
  intros Hr. unfold spent_total. rewrite sum_where_app. cbn [sum_where].
  rewrite (sum_where_ext (counts_as_spent (l ++ [r]) org agent mode) (counts_as_spent l org agent mode) _ l).
  { lia. }
  intros p Hp. unfold counts_as_spent. by rewrite corrected_by_app.
Qed.

(** ** What the ledger guarantees *)

Definition ledger_ok (db : Db) : Prop :=
  keyed post_id (db T_ledger_postings) /\ corrections_refer (db T_ledger_postings).

Lemma posting_fresh r (db : Db) :
  existsb (clash T_ledger_postings r) (db T_ledger_postings) = false ->
  ~ In (post_id r) (map post_id (db T_ledger_postings)).
Proof.
  intros H (x & E & Hx)%in_map_iff.
  assert (existsb (clash T_ledger_postings r) (db T_ledger_postings) = true) as H'; [|congruence].
  apply existsb_exists. exists x. split; [done|]. cbn. by rewrite E, eqs_refl.
Qed.

Lemma ledger_ok_append (l : list LedgerPostingRow) r :
  ~ In (post_id r) (map post_id l) -> keyed post_id l -> corrections_refer l ->
  (forall id, post_corrects_posting_id r = Some id -> existsb (posting_id_is id) l = true) ->
  keyed post_id (l ++ [r]) /\ corrections_refer (l ++ [r]).
Proof.
  intros Hn Hk Hc Hr. split; [by apply keyed_insert|].
  intros p id [Hp|[<-|[]]]%in_app_iff E.
  - destruct (Hc p id Hp E) as (c & ? & ?). exists c. split; [|done]. apply in_app_iff. by left.
  - apply Hr, existsb_exists in E as (c & Hc' & Ec). exists c.
    split; [apply in_app_iff; by left|]. by apply String.eqb_eq in Ec.
Qed.

Lemma writePosting_ledger i r w w' :
  writePosting i w = (Ok r, w') -> ledger_ok (w_db w) -> ledger_ok (w_db w').
Proof.
  intros H [Hk Hc]. unfold writePosting in H. minv H. unfold ledger_ok. cbn [w_db with_db] in *.
  rewrite db_set_same. apply ledger_ok_append; [by apply posting_fresh|done..].
Qed.

Lemma correctPosting_run i c w w' :
  correctPosting i w = (Ok c, w') ->
  exists row amount, head (where_ (posting_id_is (cp_postingId i)) (w_db w T_ledger_postings)) = Some row /\
  offset_amount row = Some amount /\ c = correction_of i row amount (post_id c) (w_now w) /\
  ~ In (post_id c) (map post_id (w_db w T_ledger_postings)) /\
  w_db w' T_ledger_postings = w_db w T_ledger_postings ++ [c] /\
  (forall t, t <> T_ledger_postings -> w_db w' t = w_db w t).
Proof.
  intros H. unfold correctPosting in H. minv H. cbn [w_db with_db] in *.
  eexists _, _. split; [eassumption|]. split; [eassumption|]. split; [done|].
  split; [by apply posting_fresh|]. split; [apply db_set_same|].
  intros t Ht. apply db_set_other. congruence.
Qed.

Lemma correctPosting_ledger i c w w' :
  correctPosting i w = (Ok c, w') -> ledger_ok (w_db w) -> ledger_ok (w_db w').
Proof.
  intros (row & amount & Hrow & _ & Hc & Hf & Hl & _)%correctPosting_run [Hk Hr]. unfold ledger_ok.
  rewrite Hl. apply ledger_ok_append; [done..|]. intros id. rewrite Hc. cbn. intros [= <-].
  apply existsb_exists. exists row. by apply where_head.
Qed.

Lemma derive_exact org agent mode w :
  Z.abs (spent_total (w_db w T_ledger_postings) org agent mode) < 2 ^ 52 ->
  deriveSpentUsdc org agent mode w = (Ok (spent_total (w_db w T_ledger_postings) org agent mode), w).
Proof.
  intros H. unfold deriveSpentUsdc. rewrite (bind_run _ _ _ _ _ (select_run _ _ _ _ (where_all _))).
  by rewrite toFixed6_exact.
Qed.

(** What correcting [row] takes off a spent total. *)
Definition settled_amount (org agent : string) (mode : PaymentMode) (row : LedgerPostingRow) : Z :=
  if (post_org_id row =s org) && eqo (post_agent_id row) (Some agent)
     && bool_decide (post_mode row = mode) && is_settle row
  then post_amount_usdc row else 0.

Lemma spent_total_correction l i row amount id now org agent mode :
  corrections_refer l -> head (where_ (posting_id_is (cp_postingId i)) l) = Some row ->
  amount = - post_amount_usdc row ->
  spent_total (l ++ [correction_of i row amount id now]) org agent mode
  = spent_total l org agent mode - settled_amount org agent mode row.
Proof.
  intros Hr Hrow ->. rewrite spent_total_app by done.
  assert (corrected_by (l ++ [correction_of i row (- post_amount_usdc row) id now])
            (correction_of i row (- post_amount_usdc row) id now) = Some row) as E.
  { unfold corrected_by. cbn [correction_of post_corrects_posting_id]. rewrite where_app.
    destruct (where_ _ l) as [|x y]; [done|]. done. }
  unfold counts_as_spent. rewrite E. unfold settled_amount. cbn.
  destruct (_ && _ && _ && _); lia.
Qed.

(** C40: A correction is appended, changes no other row, and is the exact
    negation of the posting it targets, so that the spent total derived from the
    ledger drops by exactly what the corrected settlement had added -- for
    amounts below 2^52 micros (4.5 billion USDC).  The bound is real: [toFixed]
    of a double does not negate every amount [numeric(20,6)] holds. *)
Theorem correction_is_exact_below_the_double_limit :
  (forall i c w w' org agent mode,
     ledger_ok (w_db w) -> correctPosting i w = (Ok c, w') ->
     exists row, In row (w_db w T_ledger_postings) /\ post_id row = cp_postingId i /\
     w_db w' T_ledger_postings = w_db w T_ledger_postings ++ [c] /\
     (forall t, t <> T_ledger_postings -> w_db w' t = w_db w t) /\ ledger_ok (w_db w') /\
     post_entry_type c = Entry_correction /\ post_corrects_posting_id c = Some (post_id row) /\
     let before := spent_total (w_db w T_ledger_postings) org agent mode in
     (Z.abs before + Z.abs (post_amount_usdc row) < 2 ^ 52 ->
      post_amount_usdc c = - post_amount_usdc row /\
      deriveSpentUsdc org agent mode w = (Ok before, w) /\
      deriveSpentUsdc org agent mode w' = (Ok (before - settled_amount org agent mode row), w'))) /\
  (exists row, posting_check row = true /\ offset_amount row <> Some (- post_amount_usdc row)).
Proof.
  split.
  - intros i c w w' org agent mode Hok H. pose proof (correctPosting_ledger _ _ _ _ H Hok) as Hok'.
    destruct (correctPosting_run _ _ _ _ H) as (row & amount & Hrow & Ha & Hc & Hf & Hl & Ho).
    destruct (where_head _ _ _ Hrow) as [Hin Hid]. apply String.eqb_eq in Hid.
    exists row. do 5 (split; [done|]). split; [by rewrite Hc|]. split; [by rewrite Hc, Hid|].
    intros before Hb. unfold offset_amount in Ha. rewrite toFixed6_negate_exact in Ha by lia.
    injection Ha as <-. assert (spent_total (w_db w' T_ledger_postings) org agent mode
      = before - settled_amount org agent mode row) as Hs.
    { rewrite Hl, Hc. apply spent_total_correction; [apply Hok|done..]. }
    split; [by rewrite Hc|]. split; [apply derive_exact; unfold before in *; lia|]. rewrite <-Hs.
    apply derive_exact. rewrite Hs. unfold settled_amount. destruct (_ && _); lia.
  - exists (mkLedgerPostingRow "post_1" "org_1" None mode_test None Entry_deposit 17179869184000001
              None None (Some "job_1"%string) None "" "" 0). split; [done|]. by vm_compute.
Qed.

Definition settled_posting : LedgerPostingRow :=
  {| post_id := "post_a"; post_org_id := "org_1"; post_agent_id := Some "agent_1"%string;
     post_mode := mode_test; post_chain := Some Chain_base; post_entry_type := Entry_settle;
     post_amount_usdc := 1500000; post_reservation_id := Some "payres_1"%string;
     post_attempt_id := None; post_job_id := None; post_corrects_posting_id := None;
     post_reason_code := "x402_payment_settled"; post_created_by := "system"; post_created_at := 0 |}.

Definition ledger_world : World :=
  mkWorld (db_set T_ledger_postings [settled_posting] empty_db) 1000 1 [].

Definition sample_correction : CorrectPostingInput := mkCorrectPostingInput "post_a" "duplicate" None.

(** Correcting a settlement of 1.5 USDC brings the derived total back to 0. *)
Lemma correction_is_exact_witness : exists c w',
  correctPosting sample_correction ledger_world = (Ok c, w') /\
  deriveSpentUsdc "org_1" "agent_1" mode_test w' = (Ok 0, w') /\ post_amount_usdc c = -1500000.
Proof.
  destruct (ok_run (correctPosting sample_correction ledger_world)) as (c & w' & E); [vm_compute; reflexivity|].
  exists c, w'. split; [exact E|].
  assert (ledger_ok (w_db ledger_world)) as Hok.
  { split; [apply NoDup_singleton|]. intros p id [<-|[]]. discriminate. }
  destruct (proj1 correction_is_exact_below_the_double_limit _ _ _ _ "org_1" "agent_1" mode_test Hok E)
    as (row & Hrow & _ & _ & _ & _ & _ & _ & Hx).
  destruct Hrow as [<-|[]]. destruct Hx as (Ha & _ & Hd); [vm_compute; reflexivity|].
  split; [exact Hd|exact Ha].
Defined.
