(* ===== verification/AuditLog.v ===== *)
(** The audit log ([evidence/audit-writer.ts], [evidence/audit-query.ts]): one
    hash chain per organisation, with a head row; [recordAuditEvent] appends
    to it, [verifyAuditChain] walks it. *)

From S2P Require Import Prelude Errors Usdc Json Jsonb Redaction Identity Policy Schema Host.
Import Digits.
Open Scope Z_scope.

(** ** The input of [recordAuditEvent] *)

Record AuditClassification : Type := mkAuditClassification {
  cl_domain : option AuditEventDomain;
  cl_category : option AuditEventCategory;
  cl_severity : option AuditSeverity;
  cl_tags : option (list string)
}.

Record AuditRelations : Type := mkAuditRelations {
  rel_agent : option string;
  rel_team : option string;
  rel_connection : option string;
  rel_walletRef : option string;
  rel_policy : option string;
  rel_wallet : option string
}.

Record AuditSource : Type := mkAuditSource {
  src_section : option string;
  src_system : option string;
  src_ref : option string
}.

Record AuditRefs : Type := mkAuditRefs {
  ref_policy : option string;
  ref_decision : option string;
  ref_approval : option string
}.

(** An absent optional object reads, through [?.], like one whose fields are
    all absent. *)
Record RecordAuditEventInput : Type := mkRecordAuditEventInput {
  in_orgId : string;
  in_idempotencyKey : option string;
  in_eventType : string;
  in_occurredAt : option Z;
  in_actor_type : AuditActorType;
  in_actor_id : option string;
  in_action : string;
  in_outcome : AuditOutcome;
  in_reasonCode : option string;
  in_resource : option (string * string);
  in_classification : AuditClassification;
  in_relations : AuditRelations;
  in_requestId : option string;
  in_source : AuditSource;
  in_refs : AuditRefs;
  in_externalRefs : option json;
  in_retentionClass : option AuditRetentionClass;
  in_payload : option json
}.

Definition no_relations : AuditRelations := mkAuditRelations None None None None None None.
Definition no_refs : AuditRefs := mkAuditRefs None None None.
Definition no_source : AuditSource := mkAuditSource None None None.

(** ** The body that is hashed *)

Definition dedupe (l : list string) : list string :=
  fold_left (fun acc x => if mem x acc then acc else acc ++ [x]) l [].

Definition normalizedTags (tags : option (list string)) : list string :=
  match tags with
  | None => []
  | Some tags =>
      dedupe (firstn 32 (List.filter (fun tag => tag <>s "") (map trim tags)))
  end.

Definition eventDomain (i : RecordAuditEventInput) : AuditEventDomain :=
  cl_domain (in_classification i) ?? Domain_system.
Definition eventCategory (i : RecordAuditEventInput) : AuditEventCategory :=
  cl_category (in_classification i) ?? Category_configuration.
Definition eventSeverity (i : RecordAuditEventInput) : AuditSeverity :=
  cl_severity (in_classification i) ?? Severity_info.
Definition eventTags (i : RecordAuditEventInput) : list string :=
  normalizedTags (cl_tags (in_classification i)).

Definition redacted_payload (i : RecordAuditEventInput) : json * bool :=
  redactAuditPayload (in_payload i ?? JObj []).

Definition redaction_text (redacted : bool) : string := if redacted then "redacted" else "none".

Definition buildCanonicalBody (i : RecordAuditEventInput) : json :=
  let redacted := redacted_payload i in
  JObj
   [("action", JStr (in_action i));
    ("actorId", jopt (in_actor_id i));
    ("actorType", JStr (AuditActorType_text (in_actor_type i)));
    ("approvalRef", jopt (ref_approval (in_refs i)));
    ("decisionRef", jopt (ref_decision (in_refs i)));
    ("eventType", JStr (in_eventType i));
    ("externalRefs", in_externalRefs i ?? JObj []);
    ("eventCategory", JStr (AuditEventCategory_text (eventCategory i)));
    ("eventDomain", JStr (AuditEventDomain_text (eventDomain i)));
    ("occurredAt", jopt (option_map toISOString (in_occurredAt i)));
    ("outcome", JStr (AuditOutcome_text (in_outcome i)));
    ("payload", fst redacted);
    ("policyRef", jopt (ref_policy (in_refs i)));
    ("reasonCode", jopt (in_reasonCode i));
    ("redactionState", JStr (redaction_text (snd redacted)));
    ("relatedAgentId", jopt (rel_agent (in_relations i)));
    ("relatedConnectionId", jopt (rel_connection (in_relations i)));
    ("relatedPolicyId", jopt (rel_policy (in_relations i)));
    ("relatedTeamId", jopt (rel_team (in_relations i)));
    ("relatedWalletId", jopt (rel_wallet (in_relations i)));
    ("relatedWalletRefId", jopt (rel_walletRef (in_relations i)));
    ("requestId", jopt (in_requestId i));
    ("resourceId", jopt (option_map snd (in_resource i)));
    ("resourceType", jopt (option_map fst (in_resource i)));
    ("retentionClass", JStr (AuditRetentionClass_text (in_retentionClass i ?? Retain_standard)));
    ("severity", JStr (AuditSeverity_text (eventSeverity i)));
    ("sourceRef", jopt (src_ref (in_source i)));
    ("sourceSection", jopt (src_section (in_source i)));
    ("sourceSystem", jopt (src_system (in_source i)));
    ("tags", JArr (map JStr (eventTags i)))]%string.

(** The record the hash of an event covers. *)
Definition chain_body (canonicalBodyHash orgId : string) (previousHash : option string)
    (sequence : Z) : json :=
  JObj [("canonicalBodyHash", JStr canonicalBodyHash);
        ("orgId", JStr orgId);
        ("previousHash", jopt previousHash);
        ("sequence", JStr (to_string sequence))]%string.

(** [occurredAt] falls back to [new Date()] in the row, but the hashed body
    keeps the input's value.  The external references, the payload and the
    canonical body are [jsonb] columns: what is read back is [to_jsonb] of
    what was written, while the hash is the one of the body as built. *)
Definition event_row (i : RecordAuditEventInput) (eventId : string) (sequence now : Z)
    (canonicalBodyHash : string) (previousHash : option string) (eventHash : string) : AuditEventRow :=
  {| ae_id := eventId;
     ae_org_id := in_orgId i;
     ae_sequence := sequence;
     ae_idempotency_key := in_idempotencyKey i;
     ae_event_type := in_eventType i;
     ae_occurred_at := in_occurredAt i ?? now;
     ae_recorded_at := now;
     ae_actor_type := in_actor_type i;
     ae_actor_id := in_actor_id i;
     ae_action := in_action i;
     ae_outcome := in_outcome i;
     ae_reason_code := in_reasonCode i;
     ae_resource_type := option_map fst (in_resource i);
     ae_resource_id := option_map snd (in_resource i);
     ae_event_domain := eventDomain i;
     ae_event_category := eventCategory i;
     ae_severity := eventSeverity i;
     ae_tags := eventTags i;
     ae_related_agent_id := rel_agent (in_relations i);
     ae_related_team_id := rel_team (in_relations i);
     ae_related_connection_id := rel_connection (in_relations i);
     ae_related_wallet_ref_id := rel_walletRef (in_relations i);
     ae_related_policy_id := rel_policy (in_relations i);
     ae_related_wallet_id := rel_wallet (in_relations i);
     ae_request_id := in_requestId i;
     ae_source_section := src_section (in_source i);
     ae_source_system := src_system (in_source i);
     ae_source_ref := src_ref (in_source i);
     ae_policy_ref := ref_policy (in_refs i);
     ae_decision_ref := ref_decision (in_refs i);
     ae_approval_ref := ref_approval (in_refs i);
     ae_retention_class := in_retentionClass i ?? Retain_standard;
     ae_redaction_state := snd (redacted_payload i);
     ae_canonical_body_hash := canonicalBodyHash;
     ae_previous_hash := previousHash;
     ae_event_hash := eventHash;
     ae_external_refs := to_jsonb (in_externalRefs i ?? JObj []);
     ae_payload := to_jsonb (fst (redacted_payload i));
     ae_canonical_body := to_jsonb (buildCanonicalBody i) |}.

(** ** The writer *)

Section Writer.
Context `{Collation} `{Sha256}.

Definition head_of (orgId : string) (r : AuditHeadRow) : bool := ah_org_id r =s orgId.

Definition append_event (i : RecordAuditEventInput) (canonicalBodyHash : string) : M AuditEventRow :=
  let* _ := insert_or_ignore T_audit_event_heads (mkAuditHeadRow (in_orgId i) 0 None) in
  let* head := select_one T_audit_event_heads (head_of (in_orgId i)) in
  let* head := some_or head (PlainError "audit_head_not_found") in
  let sequence := ah_last_sequence head + 1 in
  let previousHash := ah_last_event_hash head in
  let* eventHash := lift (sha256Hex (chain_body canonicalBodyHash (in_orgId i) previousHash sequence)) in
  let* eventId := prefixedId "aud" in
  let* now := get_now in
  let event := event_row i eventId sequence now canonicalBodyHash previousHash eventHash in
  insert T_audit_events event ;;*
  update T_audit_event_heads (head_of (in_orgId i))
    (fun r => set_ah_last_event_hash (Some eventHash) (set_ah_last_sequence sequence r)) ;;*
  ret event.

Definition recordAuditEvent (i : RecordAuditEventInput) : M AuditEventRow :=
  let* canonicalBodyHash := lift (sha256Hex (buildCanonicalBody i)) in
  match in_idempotencyKey i with
  | Some key =>
      let* existing := select_one T_audit_events
        (fun r => (ae_org_id r =s in_orgId i) && eqo (ae_idempotency_key r) (Some key)) in
      match existing with
      | Some r => throw_if (ae_canonical_body_hash r <>s canonicalBodyHash) IdempotencyConflictError ;;*
                  ret r
      | None => append_event i canonicalBodyHash
      end
  | None => append_event i canonicalBodyHash
  end.

(** ** The verifier *)

Inductive VerifyFailure : Type :=
| not_found | canonical_body_hash_mismatch | event_hash_mismatch
| previous_hash_mismatch | event_count_mismatch | tail_hash_mismatch.

Definition expectedEventHash (event : AuditEventRow) : Res string :=
  sha256Hex (chain_body (ae_canonical_body_hash event) (ae_org_id event) (ae_previous_hash event)
               (ae_sequence event)).

(** The checks on one event that need no neighbour; [None] is a valid event. *)
Definition verifyDetail (event : AuditEventRow) : Res (option VerifyFailure) :=
  let? text := canonicalJson (ae_canonical_body event) in
  let canonicalBodyHash := sha256 text in
  if canonicalBodyHash <>s ae_canonical_body_hash event then Ok (Some canonical_body_hash_mismatch)
  else
    let? expected := expectedEventHash event in
    if expected <>s ae_event_hash event then Ok (Some event_hash_mismatch) else Ok None.

Definition getAuditEvent (orgId eventId : string) : M (option AuditEventRow) :=
  select_one T_audit_events (fun r => (ae_org_id r =s orgId) && (ae_id r =s eventId)).

Definition verifyAuditEvent (orgId eventId : string) : M (option VerifyFailure) :=
  let* event := getAuditEvent orgId eventId in
  match event with
  | None => ret (Some not_found)
  | Some event => lift (verifyDetail event)
  end.

Record VerifyAuditChainResult : Type := mkVerifyAuditChainResult {
  vc_valid : bool;
  vc_checked : Z;
  vc_failedEventId : option string;
  vc_reason : option VerifyFailure
}.

Definition VERIFY_PAGE_SIZE : nat := 500.

(** [ORDER BY sequence ASC]. *)
Fixpoint insert_by_sequence (x : AuditEventRow) (l : list AuditEventRow) : list AuditEventRow :=
  match l with
  | [] => [x]
  | y :: r => if ae_sequence x <=? ae_sequence y then x :: l else y :: insert_by_sequence x r
  end.
Fixpoint order_by_sequence (l : list AuditEventRow) : list AuditEventRow :=
  match l with
  | [] => []
  | x :: r => insert_by_sequence x (order_by_sequence r)
  end.

(** [WHERE org_id AND sequence > after ORDER BY sequence ASC LIMIT page]. *)
Definition chain_page (orgId : string) (afterSequence : Z) (t : list AuditEventRow) : list AuditEventRow :=
  firstn VERIFY_PAGE_SIZE (order_by_sequence
    (where_ (fun r => (ae_org_id r =s orgId) && (afterSequence <? ae_sequence r)) t)).

(** The state of the walk: [previousHash], [checked], [afterSequence]. *)
Record Walk : Type := mkWalk {
  wk_previousHash : option string;
  wk_checked : Z;
  wk_afterSequence : Z
}.

Definition failed (checked : Z) (event : AuditEventRow) (why : VerifyFailure) : VerifyAuditChainResult :=
  mkVerifyAuditChainResult false checked (Some (ae_id event)) (Some why).

(** The inner loop over a page: [inr] is an early return. *)
Fixpoint walk_rows (rows : list AuditEventRow) (s : Walk) : Res (Walk + VerifyAuditChainResult) :=
  match rows with
  | [] => Ok (inl s)
  | event :: rest =>
      let checked := wk_checked s + 1 in
      let? text := canonicalJson (ae_canonical_body event) in
      let canonicalBodyHash := sha256 text in
      if canonicalBodyHash <>s ae_canonical_body_hash event then
        Ok (inr (failed checked event canonical_body_hash_mismatch))
      else if negb (eqo (ae_previous_hash event) (wk_previousHash s)) then
        Ok (inr (failed checked event previous_hash_mismatch))
      else
        let? expected := expectedEventHash event in
        if expected <>s ae_event_hash event then
          Ok (inr (failed checked event event_hash_mismatch))
        else walk_rows rest (mkWalk (Some (ae_event_hash event)) checked (ae_sequence event))
  end.

(** The outer loop over pages, with fuel (one page at least is consumed by
    each round; a theorem below shows the fuel [verifyAuditChain] gives is
    enough). *)
Fixpoint walk_pages (fuel : nat) (orgId : string) (t : list AuditEventRow) (s : Walk) :
    option (Res (Walk + VerifyAuditChainResult)) :=
  match fuel with
  | O => None
  | S fuel =>
      let rows := chain_page orgId (wk_afterSequence s) t in
      match rows with
      | [] => Some (Ok (inl s))
      | _ :: _ =>
          match walk_rows rows s with
          | Ok (inl s') =>
              if (length rows <? VERIFY_PAGE_SIZE)%nat then Some (Ok (inl s'))
              else walk_pages fuel orgId t s'
          | r => Some r
          end
      end
  end.

Definition check_tail (headRow : option AuditHeadRow) (s : Walk) : VerifyAuditChainResult :=
  let checked := wk_checked s in
  match headRow with
  | Some h =>
      if negb (ah_last_sequence h =? checked) then
        mkVerifyAuditChainResult false checked None (Some event_count_mismatch)
      else if negb (eqo (ah_last_event_hash h) (wk_previousHash s)) then
        mkVerifyAuditChainResult false checked None (Some tail_hash_mismatch)
      else mkVerifyAuditChainResult true checked None None
  | None => mkVerifyAuditChainResult true checked None None
  end.

Definition verify_with (fuel : nat) (orgId : string) (db : Db) : option (Res VerifyAuditChainResult) :=
  match walk_pages fuel orgId (db T_audit_events) (mkWalk None 0 0) with
  | None => None
  | Some (Err e) => Some (Err e)
  | Some (Ok (inr r)) => Some (Ok r)
  | Some (Ok (inl s)) =>
      Some (Ok (check_tail (head (where_ (head_of orgId) (db T_audit_event_heads))) s))
  end.

(** Enough rounds for any table: every round but the last consumes a page. *)
Definition verifyAuditChain (orgId : string) (db : Db) : option (Res VerifyAuditChainResult) :=
  verify_with (S (length (db T_audit_events))) orgId db.
End Writer.
