(* ===== verification/AuditChain.v ===== *)
(** Theorems on the audit log: the paged walk is the walk of the whole sorted
    chain and always ends; every chain [recordAuditEvent] builds verifies; two
    chains that verify against the same head hold the same events. *)

From Stdlib Require Import Sorting.Sorted Sorting.Permutation.
From S2P Require Import Prelude Errors Usdc Json JsonInj Jsonb Redaction Identity Policy Schema Host AuditLog.
Open Scope Z_scope.

(** ** Sorting by sequence *)

Definition increasing (l : list AuditEventRow) : Prop :=
  StronglySorted (fun x y => ae_sequence x < ae_sequence y) l.

Lemma insert_by_sequence_perm x l : Permutation (x :: l) (insert_by_sequence x l).
Proof.
  induction l as [|y l IH]; cbn; [done|]. destruct (_ <=? _); [done|].
  rewrite perm_swap. by apply perm_skip.
Qed.

Lemma order_perm l : Permutation l (order_by_sequence l).
Proof.
  induction l as [|x l IH]; cbn; [done|]. rewrite <-insert_by_sequence_perm. by apply perm_skip.
Qed.

Lemma order_increasing l : NoDup (map ae_sequence l) -> increasing (order_by_sequence l).
Proof.
  induction l as [|x l IH]; cbn; intros Hd; [constructor|]. rewrite NoDup_cons in Hd.
  destruct Hd as [Hx Hd]. specialize (IH Hd).
  assert (Hx' : ~ In (ae_sequence x) (map ae_sequence (order_by_sequence l))).
  { intros Hin. apply Hx, list_elem_of_In. eapply Permutation_in; [|exact Hin].
    apply Permutation_map. symmetry. apply order_perm. }
  revert IH Hx'. generalize (order_by_sequence l) as k. clear.
  induction 1 as [|y k Hs IH Hy]; cbn; intros Hx'; [apply SSorted_cons; constructor|].
  destruct (_ <=? _) eqn:E; bsimpl.
  - assert (ae_sequence x < ae_sequence y) by (cbn in Hx'; lia).
    constructor; [by constructor|]. constructor; [done|].
    eapply List.Forall_impl; [|exact Hy]. intros z; cbn. lia.
  - constructor; [apply IH; naive_solver|]. eapply Permutation_Forall; [apply insert_by_sequence_perm|].
    constructor; [done|exact Hy].
Qed.

Lemma insert_smallest x l :
  List.Forall (fun y => ae_sequence x <= ae_sequence y) l -> insert_by_sequence x l = x :: l.
Proof.
  destruct 1 as [|y l Hy _]; cbn; [done|]. by rewrite (proj2 (Z.leb_le _ _) Hy).
Qed.

Lemma order_id l : increasing l -> order_by_sequence l = l.
Proof.
  induction 1 as [|x l Hs IH Hx]; cbn; [done|]. rewrite IH. apply insert_smallest.
  eapply List.Forall_impl; [|exact Hx]. cbn. lia.
Qed.

Lemma where_insert p x l :
  where_ p (insert_by_sequence x l) =
  if p x then where_ p (insert_by_sequence x l) else where_ p l.
Proof.
  induction l as [|y l IH]; cbn; [by destruct (p x)|].
  destruct (_ <=? _); cbn; [by destruct (p x)|]. destruct (p x); [done|]. by rewrite IH.
Qed.

Lemma where_increasing p l : increasing l -> increasing (where_ p l).
Proof.
  induction 1 as [|x l Hs IH Hx]; cbn; [constructor|]. destruct (p x); [|done].
  constructor; [done|]. rewrite List.Forall_forall in *. intros y [Hy _]%where_in. auto.
Qed.

Lemma increasing_unique l k : increasing l -> increasing k -> Permutation l k -> l = k.
Proof.
  intros H. revert k. induction H as [|x l Hl IH Hx]; intros k Hk Hp.
  { by apply Permutation_nil_l in Hp. }
  destruct Hk as [|y k Hk Hy]; [by apply Permutation_nil_r in Hp|].
  assert (x = y) as <-.
  { assert (In y (x :: l)) as Iy by (rewrite Hp; left; done).
    assert (In x (y :: k)) as Ix by (rewrite <-Hp; left; done).
    destruct Iy as [|Iy]; [done|]. destruct Ix as [|Ix]; [done|].
    rewrite List.Forall_forall in Hx, Hy. specialize (Hx y Iy). specialize (Hy x Ix). lia. }
  f_equal. apply IH; [done|]. by apply Permutation_cons_inv in Hp.
Qed.

Lemma where_perm {row} (p : row -> bool) l k : Permutation l k -> Permutation (where_ p l) (where_ p k).
Proof.
  induction 1 as [|x l k _ IH|x y l|l k m _ IH1 _ IH2]; cbn; try done.
  - destruct (p x); [by apply perm_skip|done].
  - destruct (p x), (p y); try done. apply perm_swap.
  - by etrans.
Qed.

Lemma map_where_nodup {row} (f : row -> Z) p (l : list row) :
  NoDup (map f l) -> NoDup (map f (where_ p l)).
Proof.
  induction l as [|x l IH]; cbn; [done|]. rewrite NoDup_cons. intros [Hx Hd].
  destruct (p x); [|auto]. cbn. rewrite NoDup_cons. split; [|auto].
  rewrite list_elem_of_In, in_map_iff in *. intros (y & E & [Hy _]%where_in). apply Hx. eauto.
Qed.

(** Filtering before or after sorting is the same. *)
Lemma order_where p l :
  NoDup (map ae_sequence l) -> order_by_sequence (where_ p l) = where_ p (order_by_sequence l).
Proof.
  intros Hd. apply increasing_unique.
  - by apply order_increasing, map_where_nodup.
  - by apply where_increasing, order_increasing.
  - rewrite <-order_perm. apply where_perm, order_perm.
Qed.

Lemma where_and {row} (p q : row -> bool) l : where_ (fun r => p r && q r) l = where_ q (where_ p l).
Proof.
  induction l as [|x l IH]; cbn; [done|]. destruct (p x); cbn; [|done]. by rewrite IH.
Qed.

(** What follows a position of an increasing list is what exceeds it. *)
Lemma where_after l k :
  increasing l -> List.Forall (fun r => 0 < ae_sequence r) l ->
  where_ (fun r => match last (firstn k l) with Some x => ae_sequence x | None => 0 end <? ae_sequence r) l
  = skipn k l.
Proof.
  intros Hs Hp. set (after := match last (firstn k l) with Some x => ae_sequence x | None => 0 end).
  assert (Hlow : List.Forall (fun r => ae_sequence r <= after) (firstn k l)).
  { unfold after. revert k after. induction Hs as [|x l Hs IH Hx]; intros k after; [by rewrite firstn_nil|].
    destruct k as [|k]; [constructor|]. cbn [firstn]. inversion Hp; subst.
    specialize (IH ltac:(done) k). cbn zeta in IH. cbn [last].
    destruct (firstn k l) as [|y m] eqn:E; [by repeat constructor|].
    constructor; [|exact IH]. rewrite List.Forall_forall in Hx.
    destruct (last (y :: m)) as [z|] eqn:El; [|by apply last_None in El].
    assert (In z l) as Hz.
    { rewrite <-(firstn_skipn k l), E. apply in_app_iff. left.
      apply list_elem_of_In. by apply last_Some_elem_of. }
    specialize (Hx z Hz). change (last (x :: y :: m)) with (last (y :: m)). rewrite El. lia. }
  assert (Hhigh : List.Forall (fun r => after < ae_sequence r) (skipn k l)).
  { unfold after. destruct (last (firstn k l)) as [z|] eqn:El.
    - apply last_Some_elem_of, list_elem_of_In in El.
      rewrite <-(firstn_skipn k l) in Hs. clear -Hs El. unfold increasing in Hs.
      induction (firstn k l) as [|x m IH]; [done|]. cbn in Hs. inversion Hs as [|? ? Hs' Hx]; subst.
      destruct El as [->|El]; [|by apply IH]. apply List.Forall_app in Hx as [_ Hx]. exact Hx.
    - rewrite <-(firstn_skipn k l) in Hp. by apply List.Forall_app in Hp as [_ Hp]. }
  rewrite <-(firstn_skipn k l) at 1. rewrite where_filter, List.filter_app, <-!where_filter.
  assert (forall p (m : list AuditEventRow), List.Forall (fun r => p r = false) m -> where_ p m = []) as Hn.
  { intros p m. induction 1 as [|x m Hx _ IH]; cbn; [done|]. by rewrite Hx. }
  assert (forall p (m : list AuditEventRow), List.Forall (fun r => p r = true) m -> where_ p m = m) as Hy.
  { intros p m. induction 1 as [|x m Hx _ IH]; cbn; [done|]. by rewrite Hx, IH. }
  rewrite Hn, Hy; [done| |].
  - eapply List.Forall_impl; [|exact Hhigh]. intros r. apply Z.ltb_lt.
  - eapply List.Forall_impl; [|exact Hlow]. intros r. apply Z.ltb_ge.
Qed.

(** ** The paged walk *)

(** The events of an organisation. *)
Definition org_events (orgId : string) (t : list AuditEventRow) : list AuditEventRow :=
  where_ (fun r => ae_org_id r =s orgId) t.

(** What UNIQUE (org_id, sequence) and CHECK (sequence > 0) give. *)
Definition sequences_ok (orgId : string) (t : list AuditEventRow) : Prop :=
  NoDup (map ae_sequence (org_events orgId t)) /\
  List.Forall (fun r => 0 < ae_sequence r) (org_events orgId t).

(** The chain in order. *)
Definition chain_of (orgId : string) (t : list AuditEventRow) : list AuditEventRow :=
  order_by_sequence (org_events orgId t).

Lemma chain_increasing orgId t : sequences_ok orgId t -> increasing (chain_of orgId t).
Proof. intros [Hd _]. by apply order_increasing. Qed.

Lemma chain_positive orgId t :
  sequences_ok orgId t -> List.Forall (fun r => 0 < ae_sequence r) (chain_of orgId t).
Proof. intros [_ Hp]. eapply Permutation_Forall; [apply order_perm|exact Hp]. Qed.

Lemma chain_page_skipn orgId t k :
  sequences_ok orgId t ->
  chain_page orgId (match last (firstn k (chain_of orgId t)) with Some x => ae_sequence x | None => 0 end) t
  = firstn VERIFY_PAGE_SIZE (skipn k (chain_of orgId t)).
Proof.
  intros Ht. unfold chain_page. f_equal. rewrite where_and.
  change (where_ (fun r => ae_org_id r =s orgId) t) with (org_events orgId t).
  rewrite order_where by apply Ht. apply where_after; [by apply chain_increasing|by apply chain_positive].
Qed.

Lemma chain_page_bound orgId after t r :
  In r (chain_page orgId after t) -> In r t /\ (ae_org_id r =s orgId) = true /\ after < ae_sequence r.
Proof.
  intros Hin. unfold chain_page in Hin.
  assert (In r (order_by_sequence (where_ (fun r => (ae_org_id r =s orgId) && (after <? ae_sequence r)) t))) as H.
  { rewrite <-(firstn_skipn VERIFY_PAGE_SIZE (order_by_sequence _)). apply in_app_iff. by left. }
  eapply Permutation_in in H; [|symmetry; apply order_perm]. apply where_in in H as [Hr H].
  apply andb_prop in H as [? H]. by apply Z.ltb_lt in H.
Qed.

Section Walks.
Context `{Collation} `{Sha256}.

Lemma walk_rows_app rows rest s :
  walk_rows (rows ++ rest) s =
  match walk_rows rows s with
  | Ok (inl s') => walk_rows rest s'
  | r => r
  end.
Proof.
  revert s. induction rows as [|e rows IH]; intros s; [done|]. cbn [app walk_rows].
  destruct (canonicalJson _) as [t|]; cbn [res_bind]; [|done]. destruct (_ <>s _); [done|].
  destruct (negb _); [done|]. destruct (expectedEventHash e); cbn [res_bind]; [|done].
  destruct (_ <>s _); [done|]. apply IH.
Qed.

Lemma walk_rows_after rows s s' x :
  last rows = Some x -> walk_rows rows s = Ok (inl s') -> wk_afterSequence s' = ae_sequence x.
Proof.
  intros Hl Hw. apply last_Some in Hl as [l ->]. rewrite walk_rows_app in Hw.
  destruct (walk_rows l s) as [[s1|]|]; [|done..]. cbn [walk_rows res_bind] in Hw.
  destruct (canonicalJson _) as [t|]; cbn [walk_rows res_bind] in Hw; [|done]. destruct (_ <>s _); [done|].
  destruct (negb _); [done|]. destruct (expectedEventHash x); cbn [walk_rows res_bind] in Hw; [|done].
  destruct (_ <>s _); [done|]. by injection Hw as <-.
Qed.

Definition position (orgId : string) (t : list AuditEventRow) (k : nat) : Z :=
  match last (firstn k (chain_of orgId t)) with Some x => ae_sequence x | None => 0 end.

Lemma skipn_app_page {A} k n (l : list A) : skipn k l = firstn n (skipn k l) ++ skipn (k + n) l.
Proof. rewrite <-(firstn_skipn n (skipn k l)) at 1. f_equal. rewrite skipn_skipn. f_equal. lia. Qed.

Lemma last_firstn_add {A} k n (l : list A) x :
  last (firstn n (skipn k l)) = Some x -> last (firstn (k + n) l) = Some x.
Proof.
  intros Hl. rewrite <-(firstn_skipn k l), firstn_app. rewrite firstn_firstn.
  destruct (le_lt_dec (length l) k) as [Hk|Hk].
  { rewrite skipn_all2 in Hl by lia. by rewrite firstn_nil in Hl. }
  rewrite length_firstn. replace (k + n - k `min` length l)%nat with n by lia.
  rewrite last_app. by rewrite Hl.
Qed.

Lemma walk_pages_eq fuel orgId t k s :
  sequences_ok orgId t -> wk_afterSequence s = position orgId t k ->
  (length (skipn k (chain_of orgId t)) < fuel)%nat ->
  walk_pages fuel orgId t s = Some (walk_rows (skipn k (chain_of orgId t)) s).
Proof.
  intros Ht. revert k s. induction fuel as [|fuel IH]; intros k s Hs Hf; [lia|].
  cbn [walk_pages]. rewrite Hs. unfold position. rewrite chain_page_skipn by done.
  set (L := chain_of orgId t) in *. rewrite (skipn_app_page k VERIFY_PAGE_SIZE L) at 2.
  set (page := firstn VERIFY_PAGE_SIZE (skipn k L)). rewrite walk_rows_app.
  destruct page as [|e p] eqn:Ep.
  - assert (skipn k L = []) as Hnil by (destruct (skipn k L); [done|by subst page]).
    cbn [walk_rows]. replace (skipn (k + VERIFY_PAGE_SIZE) L) with (@nil AuditEventRow); [done|].
    rewrite (skipn_all2 L); [done|]. apply (f_equal length) in Hnil. rewrite length_skipn in Hnil. cbn in Hnil. lia.
  - rewrite <-Ep in *. destruct (walk_rows page s) as [[s'|r]|er] eqn:Ew; [|done..].
    destruct (last page) as [x|] eqn:El; [|apply last_None in El; congruence].
    destruct (length page <? VERIFY_PAGE_SIZE)%nat eqn:Esz.
    + apply Nat.ltb_lt in Esz. unfold page in Esz. rewrite length_firstn, length_skipn in Esz.
      rewrite skipn_all2 by lia. done.
    + apply Nat.ltb_ge in Esz. unfold page in Esz. rewrite length_firstn, length_skipn in Esz.
      apply IH.
      * rewrite (walk_rows_after _ _ _ _ El Ew). unfold position. fold L. by rewrite (last_firstn_add _ _ _ _ El).
      * rewrite length_skipn in *. unfold VERIFY_PAGE_SIZE in *. lia.
Qed.

(** The tables count how many rows lie after a sequence. *)
Definition rows_after (orgId : string) (after : Z) (t : list AuditEventRow) : nat :=
  length (where_ (fun r => (ae_org_id r =s orgId) && (after <? ae_sequence r)) t).

Lemma rows_after_decreases orgId a b t x :
  In x t -> (ae_org_id x =s orgId) = true -> a < ae_sequence x -> ae_sequence x = b ->
  (rows_after orgId b t < rows_after orgId a t)%nat.
Proof.
  unfold rows_after. intros Hin Ho Ha <-. induction t as [|y t IH]; [done|]. cbn.
  assert (Hle : (rows_after orgId (ae_sequence x) t <= rows_after orgId a t)%nat).
  { unfold rows_after. clear -Ha. induction t as [|z t IH]; cbn; [lia|]. destruct (ae_org_id z =s orgId); cbn; [|done].
    destruct (Z.ltb_spec (ae_sequence x) (ae_sequence z)); destruct (Z.ltb_spec a (ae_sequence z)); cbn; lia. }
  unfold rows_after in Hle. destruct Hin as [->|Hin].
  - rewrite Ho. cbn. rewrite Z.ltb_irrefl, (proj2 (Z.ltb_lt _ _) Ha). cbn. lia.
  - specialize (IH Hin). destruct (ae_org_id y =s orgId); cbn; [|done].
    destruct (Z.ltb_spec (ae_sequence x) (ae_sequence y)); destruct (Z.ltb_spec a (ae_sequence y)); cbn; lia.
Qed.

Lemma walk_pages_total fuel orgId t s :
  (rows_after orgId (wk_afterSequence s) t < fuel)%nat -> exists r, walk_pages fuel orgId t s = Some r.
Proof.
  revert s. induction fuel as [|fuel IH]; intros s Hf; [lia|]. cbn [walk_pages].
  destruct (chain_page _ _ _) as [|e p] eqn:Ep; [eauto|]. rewrite <-Ep.
  destruct (walk_rows _ s) as [[s'|r]|er] eqn:Ew; [|eauto..].
  destruct (_ <? _)%nat; [eauto|]. apply IH.
  destruct (last (chain_page orgId (wk_afterSequence s) t)) as [x|] eqn:El;
    [|apply last_None in El; congruence].
  rewrite (walk_rows_after _ _ _ _ El Ew).
  assert (In x (chain_page orgId (wk_afterSequence s) t)) as Hx
    by (by apply list_elem_of_In, last_Some_elem_of).
  apply chain_page_bound in Hx as (Hx & Ho & Ha).
  pose proof (rows_after_decreases orgId _ _ t x Hx Ho Ha eq_refl). lia.
Qed.

Lemma rows_after_bound orgId a t : (rows_after orgId a t <= length t)%nat.
Proof.
  unfold rows_after. induction t as [|x t IH]; cbn; [done|]. destruct (_ && _); cbn; lia.
Qed.
End Walks.

(** ** Links *)

Section Links.
Context `{Collation} `{Sha256}.

Definition body_hashed (e : AuditEventRow) : Prop :=
  exists text, canonicalJson (ae_canonical_body e) = Ok text /\ sha256 text = ae_canonical_body_hash e.

(** The body of the row is what the column kept of a body with that hash. *)
Definition body_written (e : AuditEventRow) : Prop :=
  exists body text, ae_canonical_body e = to_jsonb body /\
    canonicalJson body = Ok text /\ sha256 text = ae_canonical_body_hash e.

(** Every event hashes its own body and the hash of its predecessor. *)
Fixpoint chained (hashed : AuditEventRow -> Prop) (prev : option string) (l : list AuditEventRow) : Prop :=
  match l with
  | [] => True
  | e :: r => hashed e /\ ae_previous_hash e = prev /\
              expectedEventHash e = Ok (ae_event_hash e) /\ chained hashed (Some (ae_event_hash e)) r
  end.
End Links.

(** As read back, and as written. *)
Abbreviation links := (chained body_hashed).
Abbreviation written := (chained body_written).

Section Walks.
Context `{Collation} `{Sha256}.

Fixpoint last_hash (prev : option string) (l : list AuditEventRow) : option string :=
  match l with [] => prev | e :: r => last_hash (Some (ae_event_hash e)) r end.

(** Sequence numbers count up from [n]. *)
Fixpoint numbered (n : Z) (l : list AuditEventRow) : Prop :=
  match l with [] => True | e :: r => ae_sequence e = n + 1 /\ numbered (n + 1) r end.

Lemma walk_rows_ok l s s' :
  walk_rows l s = Ok (inl s') <->
  links (wk_previousHash s) l /\
  s' = match l with
       | [] => s
       | _ => mkWalk (last_hash (wk_previousHash s) l) (wk_checked s + Z.of_nat (length l))
                match last l with Some x => ae_sequence x | None => 0 end
       end.
Proof.
  revert s s'. induction l as [|e l IH]; intros s s'; cbn [walk_rows chained].
  { split; [intros [= <-]; done|by intros [_ ->]]. }
  unfold body_hashed. destruct (canonicalJson (ae_canonical_body e)) as [text|] eqn:Ec; cbn [res_bind].
  2:{ split; [done|]. by intros ([(? & ? & _) _] & _). }
  destruct (String.eqb_spec (sha256 text) (ae_canonical_body_hash e)) as [Eh|Eh]; cbn [negb].
  2:{ split; [done|]. intros ([(? & [= <-] & ?) _] & _). done. }
  destruct (eqo (ae_previous_hash e) (wk_previousHash s)) eqn:Ep; cbn [negb].
  2:{ split; [done|]. intros ((_ & Ep' & _) & _). apply eqo_spec in Ep'. congruence. }
  apply eqo_spec in Ep. destruct (expectedEventHash e) as [ex|] eqn:Ee; cbn [res_bind].
  2:{ split; [done|]. by intros ((_ & _ & ? & _) & _). }
  destruct (String.eqb_spec ex (ae_event_hash e)) as [->|En]; cbn [negb].
  2:{ split; [done|]. intros ((_ & _ & [= ?] & _) & _). done. }
  rewrite IH. cbn [wk_previousHash wk_checked last_hash length].
  assert (forall P Q R : Prop, Q -> (P /\ R <-> (Q /\ P) /\ R)) as Hshuffle by naive_solver.
  assert ((exists text0, Ok text = Ok text0 /\ sha256 text0 = ae_canonical_body_hash e) /\
    ae_previous_hash e = wk_previousHash s /\ Ok (ae_event_hash e) = Ok (ae_event_hash e)) as (HQ1 & HQ2 & HQ3)
    by (split; [by exists text|done]).
  destruct l as [|e' l]; cbn [chained last_hash length last];
    (split; [intros [Hl ->]; split; [done|]; f_equal; lia|intros [(_ & _ & _ & Hl) ->]; split; [done|]; f_equal; lia]).
Qed.

Lemma chained_app P prev l k :
  chained P prev (l ++ k) <-> chained P prev l /\ chained P (last_hash prev l) k.
Proof.
  revert prev. induction l as [|e l IH]; intros prev; cbn; [naive_solver|]. rewrite IH. naive_solver.
Qed.

Lemma last_hash_app prev l k : last_hash prev (l ++ k) = last_hash (last_hash prev l) k.
Proof. revert prev. induction l as [|e l IH]; intros prev; cbn; auto. Qed.

Lemma numbered_app n l k :
  numbered n (l ++ k) <-> numbered n l /\ numbered (n + Z.of_nat (length l)) k.
Proof.
  revert n. induction l as [|e l IH]; intros n; cbn [app numbered length].
  - rewrite Z.add_0_r. naive_solver.
  - rewrite IH. replace (n + 1 + Z.of_nat (length l)) with (n + Z.of_nat (S (length l))) by lia. naive_solver.
Qed.

Lemma numbered_bounds n l : numbered n l -> List.Forall (fun e => n < ae_sequence e) l.
Proof.
  revert n. induction l as [|e l IH]; intros n; cbn; [constructor|]. intros [E Hl].
  constructor; [lia|]. eapply List.Forall_impl; [|exact (IH _ Hl)]. cbn. lia.
Qed.

Lemma numbered_increasing n l : numbered n l -> increasing l.
Proof.
  revert n. induction l as [|e l IH]; intros n; cbn; [constructor|]. intros [E Hl].
  constructor; [by eapply IH|]. eapply List.Forall_impl; [|exact (numbered_bounds _ _ Hl)].
  cbn. lia.
Qed.

Lemma increasing_nodup l : increasing l -> NoDup (map ae_sequence l).
Proof.
  induction 1 as [|x l _ IH Hx]; cbn; [constructor|]. rewrite NoDup_cons. split; [|done].
  rewrite list_elem_of_In, in_map_iff. intros (y & E & Hy).
  rewrite List.Forall_forall in Hx. specialize (Hx y Hy). lia.
Qed.

(** ** What the writer keeps *)

(** The chain of an organisation is numbered from 1, linked, and its head row
    points at its end. *)
Definition chain_ok (orgId : string) (db : Db) : Prop :=
  let l := org_events orgId (db T_audit_events) in
  written None l /\ numbered 0 l /\
  match where_ (head_of orgId) (db T_audit_event_heads) with
  | [] => l = []
  | [h] => ah_last_sequence h = Z.of_nat (length l) /\ ah_last_event_hash h = last_hash None l
  | _ => False
  end.

Definition audit_ok (db : Db) : Prop := forall orgId, chain_ok orgId db.

Lemma audit_ok_frame (db db' : Db) :
  (forall t, t ∈ [T_audit_events; T_audit_event_heads] -> db' t = db t) -> audit_ok db -> audit_ok db'.
Proof.
  intros Hf Hok orgId. specialize (Hok orgId). unfold chain_ok in *.
  rewrite (Hf T_audit_events), (Hf T_audit_event_heads) by (rewrite !elem_of_cons; tauto). done.
Qed.

Lemma audit_ok_empty : audit_ok empty_db.
Proof. intros orgId. done. Qed.
End Walks.

(** ** The writer keeps the chains *)

Create HintDb audited discriminated.

Section WriterOk.
Context `{Collation} `{Sha256}.

Lemma body_is_object i : exists es, buildCanonicalBody i = JObj es.
Proof. by eexists. Qed.

Lemma body_hash i h :
  sha256Hex (buildCanonicalBody i) = Ok h ->
  exists text, canonicalJson (buildCanonicalBody i) = Ok text /\ sha256 text = h.
Proof.
  destruct (body_is_object i) as [es ->]. unfold sha256Hex.
  intros (t & Ht & [= <-])%res_bind_ok. by exists t.
Qed.

(** The head row exists and is alone after the first statement. *)
Lemma ensure_head orgId w :
  audit_ok (w_db w) ->
  exists b w1 hd, insert_or_ignore T_audit_event_heads (mkAuditHeadRow orgId 0 None) w = (Ok b, w1) /\
    audit_ok (w_db w1) /\ where_ (head_of orgId) (w_db w1 T_audit_event_heads) = [hd].
Proof.
  intros Hok. unfold insert_or_ignore. cbn [check negb ah_last_sequence ah_last_event_hash when_some andb].
  change (0 <=? 0) with true. cbn [negb andb].
  destruct (existsb (clash T_audit_event_heads (mkAuditHeadRow orgId 0 None)) (w_db w T_audit_event_heads)) eqn:Ex.
  - specialize (Hok orgId) as Hc. unfold chain_ok in Hc. destruct Hc as (_ & _ & Hh).
    destruct (where_ (head_of orgId) (w_db w T_audit_event_heads)) as [|hd [|? ?]] eqn:Ew; [|by exists false, w, hd|done].
    exfalso. apply existsb_exists in Ex as (r & Hr & Ec). cbn in Ec.
    apply existsb_where in Ew. enough (existsb (head_of orgId) (w_db w T_audit_event_heads) = true) by congruence.
    apply existsb_exists. exists r. split; [done|]. unfold head_of. by rewrite eqs_sym.
  - assert (Hnone : where_ (head_of orgId) (w_db w T_audit_event_heads) = []).
    { apply where_none. intros r Hr. unfold head_of. rewrite eqs_sym.
      destruct (orgId =s ah_org_id r) eqn:E; [|done]. exfalso.
      enough (existsb (clash T_audit_event_heads (mkAuditHeadRow orgId 0 None)) (w_db w T_audit_event_heads) = true)
        by congruence. apply existsb_exists. exists r. by split. }
    eexists _, _, _. split; [reflexivity|]. cbn [w_db with_db]. split.
    + intros o. specialize (Hok o). unfold chain_ok in *. rewrite db_set_same, db_set_other by done.
      rewrite where_app. cbn [where_]. unfold head_of at 2. cbn [ah_org_id].
      destruct (String.eqb_spec orgId o) as [->|Hne].
      * rewrite Hnone in *. cbn. destruct Hok as (Hl & Hn & ->). done.
      * by rewrite app_nil_r.
    + rewrite db_set_same, where_app, Hnone. cbn. unfold head_of. cbn. by rewrite String.eqb_refl.
Qed.

(** Appending one linked event and moving the head. *)
Lemma append_ok db i h hd eh eid now :
  audit_ok db -> sha256Hex (buildCanonicalBody i) = Ok h ->
  where_ (head_of (in_orgId i)) (db T_audit_event_heads) = [hd] ->
  sha256Hex (chain_body h (in_orgId i) (ah_last_event_hash hd) (ah_last_sequence hd + 1)) = Ok eh ->
  let e := event_row i eid (ah_last_sequence hd + 1) now h (ah_last_event_hash hd) eh in
  let f := fun r => set_ah_last_event_hash (Some eh) (set_ah_last_sequence (ah_last_sequence hd + 1) r) in
  audit_ok (db_set T_audit_event_heads (update_rows (head_of (in_orgId i)) f (db T_audit_event_heads))
             (db_set T_audit_events (db T_audit_events ++ [e]) db)).
Proof.
  intros Hok Hb Hw He e f o. specialize (Hok o). unfold chain_ok in *.
  rewrite db_set_same, (db_set_other T_audit_event_heads T_audit_events), db_set_same by done.
  unfold org_events in *. rewrite where_app. cbn [where_].
  change (ae_org_id e) with (in_orgId i).
  destruct (String.eqb_spec (in_orgId i) o) as [<-|Hne].
  - rewrite where_update_same by done. rewrite Hw in *. cbn [map].
    destruct Hok as (Hl & Hn & Hs & Hh).
    set (l := where_ (fun r => ae_org_id r =s in_orgId i) (db T_audit_events)) in *.
    rewrite chained_app, numbered_app, last_hash_app. cbn [chained numbered last_hash].
    split; [|split].
    + split; [done|]. split; [|split; [exact Hh|split; [|done]]].
      * destruct (body_hash i h Hb) as (text & Ht & Hh'). by exists (buildCanonicalBody i), text.
      * exact He.
    + split; [done|]. split; [|done]. unfold e. cbn [event_row ae_sequence]. lia.
    + rewrite length_app. cbn [length]. unfold f, set_ah_last_event_hash, set_ah_last_sequence. cbn. split; [lia|done].
  - rewrite app_nil_r. rewrite where_update_other; [done|done|].
    unfold head_of. intros r Hr. bsimpl. rewrite Hr. by apply String.eqb_neq.
Qed.

Lemma append_event_preserves i h :
  sha256Hex (buildCanonicalBody i) = Ok h -> preserves audit_ok (append_event i h).
Proof.
  intros Hb w Hok. unfold append_event.
  destruct (ensure_head (in_orgId i) w Hok) as (b & w1 & hd & E1 & Hok1 & Hw1).
  rewrite (bind_run _ _ _ _ _ E1).
  rewrite (bind_run _ _ _ _ _ (select_one_run T_audit_event_heads (head_of (in_orgId i)) w1 [hd] Hw1)).
  cbn [head some_or]. unfold bind at 1, ret at 1. unfold bind at 1.
  destruct (sha256Hex (chain_body _ _ _ _)) as [eh|er] eqn:Eh; cbn [lift]; [|done].
  unfold ret at 1. unfold bind at 1, prefixedId. unfold bind at 1, get_now. unfold bind at 1.
  cbn [w_db w_now]. set (w2 := mkWorld _ _ _ _).
  set (e := event_row _ _ _ _ _ _ _).
  destruct (insert T_audit_events e w2) as [[u|er] w3] eqn:E3.
  - apply insert_ok in E3 as (Hck & _ & ->).
    set (f := fun r => set_ah_last_event_hash (Some eh) (set_ah_last_sequence (ah_last_sequence hd + 1) r)).
    erewrite bind_run.
    2:{ apply (update_run T_audit_event_heads _ _ _ [hd]).
        - cbn [w_db with_db]. rewrite (db_set_other T_audit_events T_audit_event_heads) by done. exact Hw1.
        - cbn in Hck |- *. unfold audit_event_check in Hck. cbn in Hck. bsimpl.
          rewrite !andb_true_iff, Z.leb_le. repeat split; [lia|done]. }
    cbn [snd w_db with_db ret]. rewrite (db_set_other T_audit_events T_audit_event_heads) by done.
    by apply (append_ok (w_db w1) i h hd eh).
  - by apply insert_err in E3 as ->.
Qed.

Lemma recordAuditEvent_preserves i : preserves audit_ok (recordAuditEvent i).
Proof.
  intros w Hw. unfold recordAuditEvent, bind at 1.
  destruct (sha256Hex (buildCanonicalBody i)) as [h|er] eqn:Eh; cbn [lift]; [|done]. unfold ret at 1.
  destruct (in_idempotencyKey i) as [key|]; [|by apply append_event_preserves].
  apply preserves_bind; [by intros ?| |done].
  intros [r|]; [|by apply append_event_preserves].
  apply preserves_bind; [|by intros ? ?]. intros w1 Hw1. by destruct (_ <>s _).
Qed.

Lemma recordAuditEvent_keeps t i :
  t <> T_audit_events -> t <> T_audit_event_heads -> keeps t (recordAuditEvent i).
Proof.
  intros H1 H2. assert (forall h, keeps t (append_event i h)) by (intros h; unfold append_event; solve_keeps).
  unfold recordAuditEvent. solve_keeps; auto.
Qed.
End WriterOk.
#[export] Hint Resolve recordAuditEvent_preserves : audited.
#[export] Hint Resolve recordAuditEvent_keeps : keeps.

(** A handler that keeps the audit tables keeps the chains. *)
Lemma audited_keeps `{Collation} `{Sha256} {A} (m : M A) :
  keeps T_audit_events m -> keeps T_audit_event_heads m -> preserves audit_ok m.
Proof.
  intros H1 H2 w Hw. eapply audit_ok_frame; [|exact Hw].
  intros t Ht. rewrite !elem_of_cons, elem_of_nil in Ht. destruct Ht as [->|[->|[]]]; auto.
Qed.

(** [preserves audit_ok] by the structure of a handler. *)
Ltac audited_step :=
  first
  [ solve [auto with audited nocore]
  | apply preserves_ret | apply preserves_throw
  | match goal with
    | |- preserves _ (bind _ _) => apply preserves_bind; [|intros ?]
    | |- preserves _ (withTransaction _) => apply preserves_transaction
    | |- preserves _ (catch _ _) => apply preserves_catch; [|intros ?]
    end
  | apply preserves_for_each; intros ? ?
  | solve [apply audited_keeps; solve_keeps]
  | match goal with
    | |- preserves _ (match ?x with _ => _ end) => destruct x
    | |- preserves _ (if ?b then _ else _) => destruct b
    | |- preserves _ (let '(_, _) := ?x in _) => destruct x
    end ].
Ltac solve_audited := repeat audited_step.

(** ** Verification *)

Section Verify.
Context `{Collation} `{Sha256}.

Lemma in_org_events orgId t r : In r (org_events orgId t) <-> In r t /\ (ae_org_id r =s orgId) = true.
Proof. exact (where_in _ _ _). Qed.

Lemma numbered_sequences_ok orgId t : numbered 0 (org_events orgId t) -> sequences_ok orgId t.
Proof.
  intros Hn. split; [by eapply increasing_nodup, numbered_increasing|by apply numbered_bounds].
Qed.

Lemma numbered_chain orgId t : numbered 0 (org_events orgId t) -> chain_of orgId t = org_events orgId t.
Proof. intros Hn. by eapply order_id, numbered_increasing. Qed.

(** On a table that respects the constraints, the verdict is the one of a
    single pass over the sorted chain. *)
Lemma verify_single_pass orgId (db : Db) :
  sequences_ok orgId (db T_audit_events) ->
  verifyAuditChain orgId db =
  Some (let? r := walk_rows (chain_of orgId (db T_audit_events)) (mkWalk None 0 0) in
        match r with
        | inr v => Ok v
        | inl s => Ok (check_tail (head (where_ (head_of orgId) (db T_audit_event_heads))) s)
        end).
Proof.
  intros Ht. unfold verifyAuditChain, verify_with.
  rewrite (walk_pages_eq _ orgId _ 0) ; [|done|done|].
  - rewrite skipn_O. by destruct (walk_rows _ _) as [[]|].
  - rewrite skipn_O. unfold chain_of. rewrite <-(Permutation_length (order_perm _)).
    unfold org_events. clear. change (row T_audit_events) with AuditEventRow.
    induction (db T_audit_events) as [|r t IH]; cbn; [lia|]. destruct (_ =s _); cbn in *; lia.
Qed.

(** What a positive verdict on a chain with a head row says. *)
Lemma verify_valid_links orgId (db : Db) v h :
  sequences_ok orgId (db T_audit_events) ->
  verifyAuditChain orgId db = Some (Ok v) -> vc_valid v = true ->
  head (where_ (head_of orgId) (db T_audit_event_heads)) = Some h ->
  let l := chain_of orgId (db T_audit_events) in
  links None l /\ Z.of_nat (length l) = ah_last_sequence h /\ last_hash None l = ah_last_event_hash h.
Proof.
  intros Ht Hv Hok Hh. rewrite verify_single_pass in Hv by done.
  injection Hv as Hv. apply res_bind_ok in Hv as ([s|r] & Hw & E).
  2:{ exfalso. injection E as ->. revert Hw. generalize (mkWalk None 0 0).
      induction (chain_of orgId (db T_audit_events)) as [|e l IH]; intros s; cbn [walk_rows]; [done|].
      destruct (canonicalJson _) as [t|]; cbn [res_bind]; [|done].
      destruct (_ <>s _); [intros [= <-]; done|].
      destruct (negb _); [intros [= <-]; done|].
      destruct (expectedEventHash e); cbn [res_bind]; [|done].
      destruct (_ <>s _); [intros [= <-]; done|]. apply IH. }
  injection E as <-. apply walk_rows_ok in Hw as [Hl ->]. rewrite Hh in Hok. cbn zeta.
  destruct (chain_of orgId (db T_audit_events)) as [|e l] eqn:El; unfold check_tail in Hok;
    cbn [wk_checked wk_previousHash] in Hok;
    (destruct (ah_last_sequence h =? _) eqn:E1; [|done]; cbn [negb] in Hok;
     destruct (eqo _ _) eqn:E2; [|done]); bsimpl; (split; [done|]; split; [cbn in *; lia|done]).
Qed.

(** ** Two chains with the same head *)

Definition collision : Prop := exists x y, x <> y /\ sha256 x = sha256 y.

Lemma sha256_equal x y : sha256 x = sha256 y -> x = y \/ collision.
Proof. intros E. destruct (String.eqb_spec x y); [by left|right]. by exists x, y. Qed.

(** The fields the event hash covers, and the body its hash stands for. *)
Definition same_event (e1 e2 : AuditEventRow) : Prop :=
  ae_org_id e1 = ae_org_id e2 /\ ae_sequence e1 = ae_sequence e2 /\
  ae_previous_hash e1 = ae_previous_hash e2 /\ ae_event_hash e1 = ae_event_hash e2 /\
  ae_canonical_body_hash e1 = ae_canonical_body_hash e2 /\
  exists c, norm (ae_canonical_body e1) = Ok c /\ norm (ae_canonical_body e2) = Ok c.

Lemma norm_object_entries es :
  List.Forall (fun e => exists c, norm (snd e) = Ok c) es ->
  exists cs, norm (JObj es) = Ok (CObj cs) /\
    (forall k v c, In (k, v) es -> norm v = Ok c -> In (k, c) cs) /\
    map fst cs = map fst (sort_entries es).
Proof.
  intros Hall. cbn [norm]. rewrite sort_entries_map.
  assert (Hs : List.Forall (fun e => exists c, norm (snd e) = Ok c) (sort_entries es))
    by (eapply Permutation_Forall; [apply sort_entries_perm|done]).
  assert (exists cs, res_map res_snd (map (fun e => (fst e, norm (snd e))) (sort_entries es)) = Ok cs /\
    (forall k v c, In (k, v) (sort_entries es) -> norm v = Ok c -> In (k, c) cs) /\
    map fst cs = map fst (sort_entries es)) as (cs & Hcs & Hin & Hk).
  { clear Hall. induction Hs as [|[k v] l [c Hc] _ (cs & Hcs & Hin & Hk)]; [by exists []|].
    exists ((k, c) :: cs). cbn in Hc |- *. rewrite Hc. cbn. rewrite Hcs. split; [done|]. split.
    - intros k' v' c' [[= <- <-]|Hi] Hn; [left; congruence|right; eauto].
    - by rewrite Hk. }
  exists cs. rewrite Hcs. split; [done|]. split; [|done]. intros k v c Hi. apply Hin.
  eapply Permutation_in; [apply sort_entries_perm|done].
Qed.

Lemma to_string_inj a b : 0 <= a -> 0 <= b -> Digits.to_string a = Digits.to_string b -> a = b.
Proof.
  intros Ha Hb E. apply (f_equal chars) in E. rewrite !to_string_nonneg in E by done.
  rewrite <-(Digits.digits_value a), <-(Digits.digits_value b) by done. by rewrite E.
Qed.

Definition jopt_tree (o : option string) : ctree := match o with Some s => CStr s | None => CNull end.

Lemma chain_body_norm b o p s :
  exists cs, norm (chain_body b o p s) = Ok (CObj cs) /\
    In ("canonicalBodyHash", CStr b)%string cs /\ In ("orgId", CStr o)%string cs /\
    In ("previousHash", jopt_tree p)%string cs /\ In ("sequence", CStr (Digits.to_string s))%string cs /\
    NoDup (map fst cs).
Proof.
  unfold chain_body. set (es := [_; _; _; _]).
  destruct (norm_object_entries es) as (cs & Hn & Hin & Hk).
  { subst es. repeat constructor; cbn; eauto. destruct p; cbn; eauto. }
  exists cs. split; [exact Hn|]. repeat split.
  - eapply Hin; [by left|done].
  - eapply Hin; [by right; left|done].
  - eapply Hin; [by right; right; left|by destruct p].
  - eapply Hin; [by right; right; right; left|done].
  - rewrite Hk. rewrite <-(Permutation_map fst (sort_entries_perm es)). subst es. cbn.
    apply NoDup_ListNoDup. repeat constructor; cbn; intuition congruence.
Qed.

Lemma nodup_lookup {A} (l : list (string * A)) k a b :
  NoDup (map fst l) -> In (k, a) l -> In (k, b) l -> a = b.
Proof.
  induction l as [|[k' c] l IH]; cbn; [done|]. rewrite NoDup_cons, list_elem_of_In, in_map_iff.
  intros [Hn Hd] [E1|H1] [E2|H2]; [congruence| | |by apply IH].
  - injection E1 as -> ->. exfalso. apply Hn. by exists (k, b).
  - injection E2 as -> ->. exfalso. apply Hn. by exists (k, a).
Qed.

Lemma chain_body_inj b1 o1 p1 s1 b2 o2 p2 s2 t :
  0 <= s1 -> 0 <= s2 ->
  canonicalJson (chain_body b1 o1 p1 s1) = Ok t -> canonicalJson (chain_body b2 o2 p2 s2) = Ok t ->
  b1 = b2 /\ o1 = o2 /\ p1 = p2 /\ s1 = s2.
Proof.
  intros Hs1 Hs2 H1 H2. assert (exists c, norm (chain_body b1 o1 p1 s1) = Ok c /\
    norm (chain_body b2 o2 p2 s2) = Ok c) as (c & N1 & N2) by (by eapply canonical_text_norm).
  destruct (chain_body_norm b1 o1 p1 s1) as (cs & E1 & A1 & B1 & C1 & D1 & Hd).
  destruct (chain_body_norm b2 o2 p2 s2) as (cs' & E2 & A2 & B2 & C2 & D2 & _).
  rewrite E1 in N1. rewrite E2 in N2. injection N1 as <-. injection N2 as ->.
  pose proof (nodup_lookup _ _ _ _ Hd A1 A2). pose proof (nodup_lookup _ _ _ _ Hd B1 B2).
  pose proof (nodup_lookup _ _ _ _ Hd C1 C2) as Ep. pose proof (nodup_lookup _ _ _ _ Hd D1 D2) as Es.
  injection Es as Es. split; [congruence|]. split; [congruence|]. split.
  - destruct p1, p2; cbn in Ep; congruence.
  - by apply to_string_inj.
Qed.

Lemma expected_text e h :
  expectedEventHash e = Ok h ->
  exists t, canonicalJson (chain_body (ae_canonical_body_hash e) (ae_org_id e) (ae_previous_hash e)
    (ae_sequence e)) = Ok t /\ sha256 t = h.
Proof. unfold expectedEventHash, sha256Hex, chain_body. intros (t & Ht & [= <-])%res_bind_ok. by exists t. Qed.

Lemma same_event_step e1 e2 :
  body_hashed e1 -> body_hashed e2 -> 0 <= ae_sequence e1 -> 0 <= ae_sequence e2 ->
  expectedEventHash e1 = Ok (ae_event_hash e1) -> expectedEventHash e2 = Ok (ae_event_hash e2) ->
  ae_event_hash e1 = ae_event_hash e2 -> same_event e1 e2 \/ collision.
Proof.
  intros (b1 & Hb1 & Hh1) (b2 & Hb2 & Hh2) Hs1 Hs2 (t1 & Ht1 & He1)%expected_text (t2 & Ht2 & He2)%expected_text E.
  destruct (sha256_equal t1 t2) as [<-|]; [congruence| |by right].
  destruct (chain_body_inj _ _ _ _ _ _ _ _ _ Hs1 Hs2 Ht1 Ht2) as (Eb & Eo & Ep & Es).
  destruct (sha256_equal b1 b2) as [<-|]; [congruence| |by right].
  left. unfold same_event. repeat split; auto. by eapply canonical_text_norm.
Qed.

Lemma same_chain l1 l2 :
  links None l1 -> links None l2 -> length l1 = length l2 -> last_hash None l1 = last_hash None l2 ->
  List.Forall (fun e => 0 <= ae_sequence e) l1 -> List.Forall (fun e => 0 <= ae_sequence e) l2 ->
  Forall2 same_event l1 l2 \/ collision.
Proof.
  revert l2. induction l1 as [|e1 l1 IH] using rev_ind; intros l2 H1 H2 Hlen Hlast P1 P2.
  { destruct l2; [left; constructor|done]. }
  destruct l2 as [|e2 l2 _] using rev_ind; [by destruct l1|].
  rewrite !length_app in Hlen. cbn in Hlen. rewrite !last_hash_app in Hlast. cbn in Hlast.
  injection Hlast as Hlast. apply chained_app in H1 as [H1 (B1 & Q1 & E1 & _)], H2 as [H2 (B2 & Q2 & E2 & _)].
  apply List.Forall_app in P1 as [P1 S1], P2 as [P2 S2]. inversion S1; inversion S2; subst.
  destruct (same_event_step e1 e2) as [Hs|]; [done..| |by right].
  destruct (IH l2) as [Hl|]; [done|done|lia| |done|done| |by right].
  - destruct Hs as (_ & _ & Ep & _). congruence.
  - left. apply Forall2_app; [done|]. constructor; [done|constructor].
Qed.
End Verify.

(** ** Properties *)

Section Properties.
Context `{Collation} `{Sha256}.

(** The databases the engines can reach: audit tables change only through
    [recordAuditEvent], committed or rolled back; other statements leave them
    alone. *)
Inductive audit_reachable : Db -> Prop :=
| reach_start db : db T_audit_events = [] -> db T_audit_event_heads = [] -> audit_reachable db
| reach_record db i w r w' :
    audit_reachable db -> w_db w = db -> recordAuditEvent i w = (r, w') -> audit_reachable (w_db w')
| reach_other db db' :
    audit_reachable db ->
    (forall t, t ∈ [T_audit_events; T_audit_event_heads] -> db' t = db t) -> audit_reachable db'.

Lemma reachable_ok db : audit_reachable db -> audit_ok db.
Proof.
  induction 1 as [db E1 E2|db i w r w' _ IH E Hr|db db' _ IH Hf].
  - intros o. unfold chain_ok, org_events. by rewrite E1, E2.
  - subst db. pose proof (recordAuditEvent_preserves i w IH) as Hp. by rewrite Hr in Hp.
  - by eapply audit_ok_frame.
Qed.

Lemma written_links `{!CollationLaws, !CollationSeparates} prev l : written prev l -> links prev l.
Proof.
  revert prev. induction l as [|e l IH]; intros prev; cbn; [done|].
  intros ((body & text & Eb & Ht & Hh) & Hr & He & Hl). split; [|auto].
  exists text. by rewrite Eb, canonicalJson_to_jsonb.
Qed.

Lemma audit_ok_verifies `{!CollationLaws, !CollationSeparates} orgId (db : Db) :
  audit_ok db ->
  verifyAuditChain orgId db = Some (Ok (mkVerifyAuditChainResult true
    (Z.of_nat (length (org_events orgId (db T_audit_events)))) None None)).
Proof.
  intros Hok. destruct (Hok orgId) as (Hl%written_links & Hn & Hh).
  rewrite verify_single_pass by by apply numbered_sequences_ok. rewrite numbered_chain by done.
  set (l := org_events orgId (db T_audit_events)) in *.
  rewrite (proj2 (walk_rows_ok l (mkWalk None 0 0) _) (conj Hl eq_refl)). cbn [res_bind].
  destruct (where_ (head_of orgId) (db T_audit_event_heads)) as [|h [|? ?]]; [|destruct Hh as [Hs Hlh]|done].
  - by rewrite Hh.
  - cbn [head]. unfold check_tail. destruct l as [|e l']; cbn [wk_checked wk_previousHash].
    + rewrite Hs, Hlh. done.
    + rewrite Hs, Hlh, Z.eqb_refl. cbn [negb].
      rewrite (proj2 (eqo_spec _ _) eq_refl). done.
Qed.
End Properties.

(** C16: every chain the engines build verifies: after any sequence of
    [recordAuditEvent] calls (successful, replayed, refused or rolled back)
    and of other statements, [verifyAuditChain] reports the chain of every
    organisation valid and counts all of its events.  The bodies are read back
    from [jsonb], which does not keep the order of the keys: the collation
    must tell distinct keys apart (it does not have to in general: see
    [tied_keys_break_the_chain]). *)
Theorem reachable_chain_verifies `{Collation, !CollationLaws, !CollationSeparates} `{Sha256} (db : Db) (orgId : string) :
  audit_reachable db ->
  verifyAuditChain orgId db = Some (Ok (mkVerifyAuditChainResult true
    (Z.of_nat (length (org_events orgId (db T_audit_events)))) None None)).
Proof. intros Hr. by apply audit_ok_verifies, reachable_ok. Qed.

(** [verifyAuditChain] ends on every table, whatever was done to it: its
    loop over pages never needs more rounds than there are rows. *)
Theorem verifyAuditChain_terminates `{Collation} `{Sha256} (orgId : string) (db : Db) :
  exists r, verifyAuditChain orgId db = Some r.
Proof.
  unfold verifyAuditChain, verify_with.
  destruct (walk_pages_total (S (length (db T_audit_events))) orgId (db T_audit_events) (mkWalk None 0 0))
    as [r ->].
  - apply Nat.lt_succ_r, rows_after_bound.
  - destruct r as [[s|v]|e]; eauto.
Qed.

(** C17: tamper evidence: two states of the log whose chains both verify and
    whose head rows carry the same count and hash hold, event for event, the
    same organisation, sequence, hashes and canonical body, or else two
    different texts with the same SHA-256 have been found.  (No state of a
    chain that verifies against its original head can differ from the
    original in what the hashes cover.) *)
Theorem verified_chains_agree `{Collation} `{Sha256} (orgId : string) (db1 db2 : Db)
    (v1 v2 : VerifyAuditChainResult) (h1 h2 : AuditHeadRow) :
  sequences_ok orgId (db1 T_audit_events) -> sequences_ok orgId (db2 T_audit_events) ->
  verifyAuditChain orgId db1 = Some (Ok v1) -> vc_valid v1 = true ->
  verifyAuditChain orgId db2 = Some (Ok v2) -> vc_valid v2 = true ->
  head (where_ (head_of orgId) (db1 T_audit_event_heads)) = Some h1 ->
  head (where_ (head_of orgId) (db2 T_audit_event_heads)) = Some h2 ->
  ah_last_sequence h1 = ah_last_sequence h2 -> ah_last_event_hash h1 = ah_last_event_hash h2 ->
  Forall2 same_event (chain_of orgId (db1 T_audit_events)) (chain_of orgId (db2 T_audit_events))
  \/ collision.
Proof.
  intros S1 S2 V1 O1 V2 O2 H1 H2 Es Eh.
  destruct (verify_valid_links _ _ _ _ S1 V1 O1 H1) as (L1 & N1 & E1).
  destruct (verify_valid_links _ _ _ _ S2 V2 O2 H2) as (L2 & N2 & E2).
  apply same_chain; [done|done|lia|congruence| |];
    (eapply List.Forall_impl; [|by apply chain_positive]); intros e He; cbn beta in *; lia.
Qed.

(** An idempotency key is consumed once: when the call that used it
    succeeded, a later call with the same organisation and key returns that
    event unchanged if its body hashes the same, and otherwise throws
    [IdempotencyConflictError]; the log does not change either way. *)
Theorem recordAuditEvent_idempotent `{Collation} `{Sha256} (i i' : RecordAuditEventInput)
    (w w1 : World) (r : AuditEventRow) (k h' : string) :
  recordAuditEvent i w = (Ok r, w1) -> in_idempotencyKey i = Some k ->
  in_orgId i' = in_orgId i -> in_idempotencyKey i' = Some k ->
  sha256Hex (buildCanonicalBody i') = Ok h' ->
  recordAuditEvent i' w1 =
  (if ae_canonical_body_hash r =s h' then Ok r else Err IdempotencyConflictError, w1).
Proof.
  intros Hr Hk Ho Hk' Hh'.
  set (p := fun r : row T_audit_events => (ae_org_id r =s in_orgId i) && eqo (ae_idempotency_key r) (Some k)).
  assert (head (where_ p (w_db w1 T_audit_events)) = Some r) as Hw.
  { unfold recordAuditEvent in Hr. apply bind_ok in Hr as (h & w0 & Hh & Hr).
    apply lift_ok in Hh as [_ ->]. rewrite Hk in Hr. apply bind_ok in Hr as (o & w0 & Hs & Hr).
    apply select_one_ok in Hs as [-> ->]. fold p in Hr.
    destruct (head (where_ p (w_db w T_audit_events))) as [x|] eqn:Ew.
    - minv Hr. exact Ew.
    - unfold append_event in Hr. apply bind_ok in Hr as (b & w0 & Hi & Hr).
      assert (w_db w0 T_audit_events = w_db w T_audit_events) as E0.
      { eapply keeps_run; [|exact Hi]. by apply keeps_insert_or_ignore. }
      minv Hr. cbn [w_db with_db]. rewrite (db_set_other T_audit_event_heads T_audit_events), db_set_same by done.
      rewrite E0, where_app. assert (where_ p (w_db w T_audit_events) = []) as -> by (by destruct (where_ p _)).
      cbn. unfold p. cbn [event_row ae_org_id ae_idempotency_key]. rewrite String.eqb_refl, Hk. cbn.
      by rewrite String.eqb_refl. }
  unfold recordAuditEvent. rewrite Hh', Hk'. unfold bind at 1. cbn [lift ret].
  unfold bind at 1, select_one, bind at 1, select, ret at 1.
  rewrite Ho. fold p. rewrite Hw.
  unfold bind, throw_if, throw, ret. by destruct (ae_canonical_body_hash r =s h').
Qed.

(** ** What the hashes do not cover *)

(** A change of a row that keeps what [verifyAuditChain] reads. *)
Definition keeps_hashed_columns (g : AuditEventRow -> AuditEventRow) : Prop := forall r,
  ae_id (g r) = ae_id r /\ ae_org_id (g r) = ae_org_id r /\ ae_sequence (g r) = ae_sequence r /\
  ae_canonical_body (g r) = ae_canonical_body r /\
  ae_canonical_body_hash (g r) = ae_canonical_body_hash r /\
  ae_previous_hash (g r) = ae_previous_hash r /\ ae_event_hash (g r) = ae_event_hash r.

Section Unhashed.
Context `{Collation} `{Sha256} (g : AuditEventRow -> AuditEventRow) (Hg : keeps_hashed_columns g).

Lemma walk_rows_map l s : walk_rows (map g l) s = walk_rows l s.
Proof.
  revert s. induction l as [|e l IH]; intros s; [done|]. cbn [map walk_rows].
  destruct (Hg e) as (Ei & Eo & Es & Eb & Eh & Ep & Ee).
  unfold failed, expectedEventHash. rewrite Ei, Eo, Es, Eb, Eh, Ep, Ee.
  destruct (canonicalJson _); cbn [res_bind]; [|done]. destruct (_ <>s _); [done|].
  destruct (negb _); [done|]. destruct (sha256Hex _); cbn [res_bind]; [|done].
  destruct (_ <>s _); [done|]. apply IH.
Qed.

Lemma insert_by_sequence_map x l : insert_by_sequence (g x) (map g l) = map g (insert_by_sequence x l).
Proof.
  induction l as [|y l IH]; cbn; [done|].
  destruct (Hg x) as (_ & _ & -> & _), (Hg y) as (_ & _ & -> & _).
  destruct (_ <=? _); cbn; [done|]. by rewrite IH.
Qed.

Lemma order_map l : order_by_sequence (map g l) = map g (order_by_sequence l).
Proof. induction l as [|x l IH]; cbn; [done|]. by rewrite IH, insert_by_sequence_map. Qed.

Lemma chain_page_map orgId after t : chain_page orgId after (map g t) = map g (chain_page orgId after t).
Proof.
  unfold chain_page. rewrite <-firstn_map, <-order_map by done. do 2 f_equal.
  induction t as [|x t IH]; cbn; [done|]. destruct (Hg x) as (_ & -> & -> & _).
  destruct (_ && _); cbn; by rewrite IH.
Qed.

Lemma walk_pages_map fuel orgId t s : walk_pages fuel orgId (map g t) s = walk_pages fuel orgId t s.
Proof.
  revert s. induction fuel as [|fuel IH]; intros s; [done|]. cbn [walk_pages].
  rewrite chain_page_map. destruct (chain_page _ _ _) as [|e p]; [done|].
  change (map g (e :: p)) with (g e :: map g p). cbv iota. change (g e :: map g p) with (map g (e :: p)).
  rewrite walk_rows_map, length_map. destruct (walk_rows _ _) as [[]|]; [|done..].
  destruct (_ <? _)%nat; [done|apply IH].
Qed.
End Unhashed.

(** The verdict covers the canonical body and the hashes only: rewriting
    any other column of the stored events (the actor, outcome, payload or
    timestamps that the list and detail endpoints show) leaves every verdict
    of [verifyAuditChain] as it was. *)
Theorem verify_ignores_unhashed_columns `{Collation} `{Sha256} (g : AuditEventRow -> AuditEventRow)
    (orgId : string) (db : Db) :
  keeps_hashed_columns g ->
  verifyAuditChain orgId (db_set T_audit_events (map g (db T_audit_events)) db) = verifyAuditChain orgId db.
Proof.
  intros Hg. unfold verifyAuditChain, verify_with.
  rewrite db_set_same, (db_set_other T_audit_events T_audit_event_heads) by done.
  rewrite length_map. by rewrite walk_pages_map.
Qed.

(** ** Witnesses *)

(** A stand-in of the right length for SHA-256. *)
Definition toy_sha256 : Sha256 := fun s =>
  of_chars (Digits.pad_start 64 (Digits.digits (fold_left
    (fun acc c => (acc * 257 + Z.of_nat (Ascii.nat_of_ascii c)) mod 1000000007) (chars s) 1))).

Definition sample_event (key action : string) : RecordAuditEventInput :=
  {| in_orgId := "org_1"; in_idempotencyKey := Some key; in_eventType := action;
     in_occurredAt := None; in_actor_type := Actor_user; in_actor_id := Some "usr_1"%string;
     in_action := action; in_outcome := Outcome_success; in_reasonCode := None;
     in_resource := None; in_classification := mkAuditClassification None None None None;
     in_relations := no_relations; in_requestId := None; in_source := no_source;
     in_refs := no_refs; in_externalRefs := None; in_retentionClass := None; in_payload := None |}.

Definition sample_world : World := mkWorld empty_db 1000 0 [].

Definition sample_run : World :=
  let r := @recordAuditEvent byte_collation toy_sha256 in
  snd (r (sample_event "k2" "b") (snd (r (sample_event "k1" "a") sample_world))).

Example sample_run_events :
  length (w_db sample_run T_audit_events) = 2%nat.
Proof. vm_compute. reflexivity. Qed.

Lemma sample_reachable : @audit_reachable byte_collation toy_sha256 (w_db sample_run).
Proof.
  unfold sample_run. cbn zeta. set (w1 := snd (recordAuditEvent (sample_event "k1" "a") sample_world)).
  eapply (@reach_record byte_collation toy_sha256 (w_db w1) (sample_event "k2" "b") w1);
    [|reflexivity|apply surjective_pairing].
  eapply (@reach_record byte_collation toy_sha256 empty_db (sample_event "k1" "a") sample_world);
    [by apply reach_start|reflexivity|apply surjective_pairing].
Qed.

Lemma reachable_chain_verifies_witness :
  @verifyAuditChain byte_collation toy_sha256 "org_1" (w_db sample_run) =
  Some (Ok (mkVerifyAuditChainResult true
    (Z.of_nat (length (org_events "org_1" (w_db sample_run T_audit_events)))) None None)).
Proof.
  exact (@reachable_chain_verifies byte_collation byte_collation_laws byte_collation_separates toy_sha256 (w_db sample_run) "org_1" sample_reachable).
Defined.

(** With a collation that ties two keys of a payload, the chain the writer has
    just built is reported invalid: the hash was computed over the keys in the
    order of the caller, and is checked over the order of the column. *)
Definition tied_event : RecordAuditEventInput :=
  let i := sample_event "k3" "c" in
  {| in_orgId := in_orgId i; in_idempotencyKey := in_idempotencyKey i; in_eventType := in_eventType i;
     in_occurredAt := None; in_actor_type := in_actor_type i; in_actor_id := in_actor_id i;
     in_action := in_action i; in_outcome := in_outcome i; in_reasonCode := None;
     in_resource := None; in_classification := in_classification i;
     in_relations := no_relations; in_requestId := None; in_source := no_source;
     in_refs := no_refs; in_externalRefs := None; in_retentionClass := None;
     in_payload := Some (JObj [("a~", jint 1); ("a", jint 2)]%string) |}.

Example tied_keys_break_the_chain :
  let '(r, w) := @recordAuditEvent ignoring_collation toy_sha256 tied_event sample_world in
  match r, @verifyAuditChain ignoring_collation toy_sha256 "org_1" (w_db w) with
  | Ok e, Some (Ok v) => vc_valid v = false /\ vc_failedEventId v = Some (ae_id e) /\
                         vc_reason v = Some canonical_body_hash_mismatch
  | _, _ => False
  end.
Proof. vm_compute. repeat split. Qed.

Lemma sample_sequences : sequences_ok "org_1" (w_db sample_run T_audit_events).
Proof. apply numbered_sequences_ok. vm_compute. repeat split. Qed.

Lemma sample_verdict :
  @verifyAuditChain byte_collation toy_sha256 "org_1" (w_db sample_run) =
  Some (Ok (mkVerifyAuditChainResult true 2 None None)).
Proof. vm_compute. reflexivity. Qed.

Definition sample_head : AuditHeadRow := mkAuditHeadRow "org_1" 2
  (Some "0000000000000000000000000000000000000000000000000000000291660155"%string).

Lemma sample_head_eq :
  head (where_ (head_of "org_1") (w_db sample_run T_audit_event_heads)) = Some sample_head.
Proof. vm_compute. reflexivity. Qed.

Lemma verified_chains_agree_witness :
  Forall2 (@same_event byte_collation) (chain_of "org_1" (w_db sample_run T_audit_events))
    (chain_of "org_1" (w_db sample_run T_audit_events)) \/ @collision toy_sha256.
Proof.
  exact (@verified_chains_agree byte_collation toy_sha256 "org_1" (w_db sample_run) (w_db sample_run)
    _ _ sample_head sample_head sample_sequences sample_sequences
    sample_verdict eq_refl sample_verdict eq_refl sample_head_eq sample_head_eq eq_refl eq_refl).
Defined.
