(* ===== verification/PolicyStore.v ===== *)
(** Persistence and lifecycle of policies ([policy/store.ts]): drafts,
    versions, bindings, the effective policies of a request, and
    [checkPolicyDecision].  Handlers return rows; the [*FromRow] views that
    reformat timestamps are left out.  Columns the code stores as JSON and
    reads back unchanged (statements, validation, matches) are held typed. *)

From S2P Require Import Prelude Errors Usdc Json Identity Policy Schema Host AuditLog AuditChain.
Open Scope Z_scope.

(** ** Views and the action catalog *)

Record PolicyActionRecord : Type := mkPolicyActionRecord {
  par_action_id : string;
  par_condition_groups : list PolicyConditionGroup;
  par_binding_target_types : list PolicyTargetType
}.

Definition targetTypeOrder : list PolicyTargetType :=
  [Target_org; Target_team; Target_agent; Target_connection].
Definition conditionGroupOrder : list PolicyConditionGroup := [Group_resource; Group_payment; Group_tool].

Definition conditionGroupsFromJson (values : list string) : list PolicyConditionGroup :=
  List.filter (fun g => mem (PolicyConditionGroup_text g) values) conditionGroupOrder.

Definition targetTypesFromJson (values : list string) : list PolicyTargetType :=
  List.filter (fun t => mem (PolicyTargetType_text t) values) targetTypeOrder.

Definition policyActionFromRow (r : PolicyActionRow) : PolicyActionRecord :=
  {| par_action_id := pa_action_id r;
     par_condition_groups := conditionGroupsFromJson (pa_condition_groups r);
     par_binding_target_types := targetTypesFromJson (pa_binding_target_types r) |}.

(** A [Map] from action ids: the last entry for a key wins; ids are unique. *)
Definition action_lookup (actions : list PolicyActionRecord) (action : string) : option PolicyActionRecord :=
  List.find (fun a => par_action_id a =s action) actions.

Definition actionConditionGroups (actions : list PolicyActionRecord) (action : string) :
    option (list PolicyConditionGroup) := option_map par_condition_groups (action_lookup actions action).

Definition policyActionCatalog : M (list PolicyActionRecord) :=
  let* rows := select T_policy_action_registry (fun _ => true) in
  ret (map policyActionFromRow rows).

Definition orgDefaultPolicyEffect (orgId : string) : M PolicyDefaultEffect :=
  let* org := select_one T_orgs (fun r => org_id r =s orgId) in
  ret (option_map org_default_policy_effect org ?? default_deny).

Definition bindingTargetTypesForAction (action : string) (actions : list PolicyActionRecord) :
    list PolicyTargetType :=
  if action =s "*" then targetTypeOrder
  else option_map par_binding_target_types (action_lookup actions action) ?? [].

Definition bindingTargetTypesForStatements (statements : list PolicyStatement)
    (actions : list PolicyActionRecord) : list PolicyTargetType :=
  let allowed := flat_map (fun s =>
    flat_map (fun action => bindingTargetTypesForAction action actions) (st_actions s)) statements in
  List.filter (fun t => bool_decide (t ∈ allowed)) targetTypeOrder.

Definition assertBindingTargetTypeAllowed (statements : list PolicyStatement)
    (target_type : PolicyTargetType) (actions : list PolicyActionRecord) : M unit :=
  throw_if (negb (bool_decide (target_type ∈ bindingTargetTypesForStatements statements actions)))
    (badRequest "invalid_policy_binding_target").

Definition validateStatements (statements : list PolicyStatement) : M PolicyValidationResult :=
  let* actions := policyActionCatalog in
  ret (validatePolicyStatements (map par_action_id actions) (actionConditionGroups actions) statements).

Definition countTargets (orgId : string) (target_type : PolicyTargetType) (target_id : string) : M nat :=
  match target_type with
  | Target_agent =>
      let* l := select T_agents (fun r => (ag_org_id r =s orgId) && (ag_id r =s target_id)) in ret (length l)
  | Target_connection =>
      let* l := select T_connections (fun r => (cn_org_id r =s orgId) && (cn_id r =s target_id)) in ret (length l)
  | Target_org =>
      let* l := select T_orgs (fun r => (org_id r =s orgId) && (org_id r =s target_id)) in ret (length l)
  | Target_team =>
      let* l := select T_teams (fun r => (tm_org_id r =s orgId) && (tm_id r =s target_id)) in ret (length l)
  end.

Definition assertBindingTargetExists (orgId : string) (target_type : PolicyTargetType)
    (target_id : string) : M unit :=
  let* n := countTargets orgId target_type target_id in
  throw_if (negb (n =? 1)%nat) notFound.

(** [true] unless the target is missing; other errors propagate. *)
Definition bindingTargetExists (orgId : string) (target_type : PolicyTargetType)
    (target_id : string) : M bool :=
  catch (assertBindingTargetExists orgId target_type target_id ;;* ret true)
    (fun e => match e with
              | IdentityError _ 404 => ret false
              | _ => throw e
              end).

(** [completeProductOnboardingFlow] ([identity/onboarding-progress.ts]). *)
Definition completeProductOnboardingFlow (orgId flowKey : string) (payload : json) : M unit :=
  let* id := prefixedId "onb" in
  let* now := get_now in
  let* inserted := insert_or_ignore T_org_onboarding_states
    (mkOnboardingStateRow id orgId flowKey Onboarding_completed payload (Some now) None now now) in
  if inserted then ret tt else
    update T_org_onboarding_states
      (fun r => (onb_org_id r =s orgId) && (onb_flow_key r =s flowKey)
        && (negb (bool_decide (onb_status r = Onboarding_completed))
            || match lookup_key "skipped" (entries_of (onb_payload r) ?? []) with
               | JUndefined => false | _ => true end))
      (fun r => set_onb_status Onboarding_completed (set_onb_payload payload
        (set_onb_completed_at (Some (onb_completed_at r ?? now)) (set_onb_updated_at now r)))) ;;*
    ret tt.

Section Store.
Context `{Collation} `{Sha256}.

(** ** Drafts *)

Definition recordPolicyEvent (orgId : string) (operator : OperatorContext) (action : string)
    (resource_type resource_id : string) (policyId : option string) (outcome : option AuditOutcome)
    (reasonCode : option string) (payload : json) : M AuditEventRow :=
  let* idem := prefixedId "idem" in
  recordAuditEvent
    {| in_orgId := orgId;
       in_idempotencyKey := Some (action +:+ ":" +:+ resource_id +:+ ":" +:+ idem);
       in_eventType := action; in_occurredAt := None;
       in_actor_type := Actor_user; in_actor_id := Some (op_actorId operator);
       in_action := action; in_outcome := outcome ?? Outcome_success; in_reasonCode := reasonCode;
       in_resource := Some (resource_type, resource_id);
       in_classification := mkAuditClassification (Some Domain_policy) (Some Category_policy)
         (Some (if bool_decide (outcome = Some Outcome_denied) then Severity_warning else Severity_info))
         (Some ["section_2"; "policy"]%string);
       in_relations := mkAuditRelations None None None None policyId None;
       in_requestId := None;
       in_source := mkAuditSource (Some "section_2"%string) (Some "policy"%string) None;
       in_refs := no_refs; in_externalRefs := None; in_retentionClass := None;
       in_payload := Some payload |}.

Definition unvalidated (warning : string) : PolicyValidationResult :=
  mkPolicyValidationResult false [] [warning].

Definition count {A} (l : list A) : json := jint (Z.of_nat (length l)).
Definition category_json (c : PolicyCategory) : json := JStr (PolicyCategory_text c).

Record CreatePolicyDraftInput : Type := mkCreatePolicyDraftInput {
  cd_source : PolicyDraftSource;
  cd_name : string;
  cd_description : option string;
  cd_category : PolicyCategory;
  cd_statements : list PolicyStatement
}.

Record UpdatePolicyDraftInput : Type := mkUpdatePolicyDraftInput {
  ud_name : option string;
  ud_description : option string;
  ud_category : option PolicyCategory;
  ud_statements : option (list PolicyStatement)
}.

Definition createPolicyDraft (operator : OperatorContext) (orgId : string)
    (input : CreatePolicyDraftInput) : M PolicyDraftRow :=
  withTransaction (
    let* draftId := prefixedId "pdraft" in
    let* now := get_now in
    let draft :=
      {| pd_id := draftId; pd_org_id := orgId; pd_source := cd_source input;
         pd_name := cd_name input; pd_description := cd_description input ?? "";
         pd_category := cd_category input; pd_status := Draft_draft;
         pd_statements := cd_statements input;
         pd_validation := unvalidated "Draft has not been validated yet.";
         pd_created_by := op_actorId operator; pd_updated_by := op_actorId operator;
         pd_activated_policy_id := None; pd_activated_version := None;
         pd_revision_policy_id := None; pd_revision_base_version := None;
         pd_revision_mode := None; pd_revision_restore_bindings := [];
         pd_created_at := now; pd_updated_at := now |} in
    insert T_policy_drafts draft ;;*
    recordPolicyEvent orgId operator "policy.draft.created" "policy_draft" draftId None None None
      (JObj [("name", JStr (cd_name input)); ("category", category_json (cd_category input));
             ("statements_count", count (cd_statements input))]%string) ;;*
    ret draft).

Definition lockedDraft (status : PolicyDraftStatus) : bool :=
  bool_decide (status = Draft_activated) || bool_decide (status = Draft_discarded).

Definition the_draft (orgId draftId : string) (r : PolicyDraftRow) : bool :=
  (pd_org_id r =s orgId) && (pd_id r =s draftId).

Definition policy_draft_locked : exn := badRequest "policy_draft_locked".

Definition updatePolicyDraft (operator : OperatorContext) (orgId draftId : string)
    (input : UpdatePolicyDraftInput) : M PolicyDraftRow :=
  withTransaction (
    let* existing := select_one T_policy_drafts (the_draft orgId draftId) in
    let* existing := some_or existing notFound in
    throw_if (lockedDraft (pd_status existing)) policy_draft_locked ;;*
    let* now := get_now in
    let name := ud_name input ?? pd_name existing in
    let category := ud_category input ?? pd_category existing in
    let statements := ud_statements input ?? pd_statements existing in
    let* updated := update T_policy_drafts (the_draft orgId draftId)
      (fun r => set_pd_name name
        (set_pd_description (ud_description input ?? pd_description existing)
        (set_pd_category category (set_pd_statements statements (set_pd_status Draft_draft
        (set_pd_validation (unvalidated "Draft has changed and must be validated again.")
        (set_pd_updated_by (op_actorId operator) (set_pd_updated_at now r)))))))) in
    recordPolicyEvent orgId operator "policy.draft.updated" "policy_draft" draftId None None None
      (JObj [("name", JStr name); ("category", category_json category);
             ("statements_count", count statements)]%string) ;;*
    some_or (head updated) (PlainError "policy_draft_update_failed")).

Definition draft_status_json (s : PolicyDraftStatus) : json := JStr (PolicyDraftStatus_text s).

Definition discardPolicyDraft (operator : OperatorContext) (orgId draftId : string) : M PolicyDraftRow :=
  withTransaction (
    let* existing := select_one T_policy_drafts (the_draft orgId draftId) in
    let* existing := some_or existing notFound in
    throw_if (bool_decide (pd_status existing = Draft_activated)) policy_draft_locked ;;*
    let* now := get_now in
    let* updated := update T_policy_drafts (the_draft orgId draftId)
      (fun r => set_pd_status Draft_discarded
        (set_pd_updated_by (op_actorId operator) (set_pd_updated_at now r))) in
    recordPolicyEvent orgId operator "policy.draft.discarded" "policy_draft" draftId None None None
      (JObj [("previous_status", draft_status_json (pd_status existing))]%string) ;;*
    some_or (head updated) (PlainError "policy_draft_discard_failed")).

Definition validation_json (v : PolicyValidationResult) : json :=
  JObj [("valid", JBool (vr_valid v)); ("errors", JArr (map JStr (vr_errors v)));
        ("warnings", JArr (map JStr (vr_warnings v)))]%string.

Definition validatePolicyDraft (operator : OperatorContext) (orgId draftId : string) :
    M (PolicyDraftRow * PolicyValidationResult) :=
  withTransaction (
    let* row := select_one T_policy_drafts (the_draft orgId draftId) in
    let* row := some_or row notFound in
    throw_if (lockedDraft (pd_status row)) policy_draft_locked ;;*
    let* validation := validateStatements (pd_statements row) in
    let* now := get_now in
    let* updated := update T_policy_drafts (the_draft orgId draftId)
      (fun r => set_pd_status (if vr_valid validation then Draft_validated else Draft_draft)
        (set_pd_validation validation
        (set_pd_updated_by (op_actorId operator) (set_pd_updated_at now r)))) in
    recordPolicyEvent orgId operator "policy.validated" "policy_draft" draftId None
      (Some (if vr_valid validation then Outcome_success else Outcome_error))
      (if vr_valid validation then None else Some "policy_validation_failed"%string)
      (validation_json validation) ;;*
    let* updatedRow := some_or (head updated) (PlainError "policy_draft_validate_failed") in
    ret (updatedRow, validation)).

(** ** Versions *)

Definition active_version (orgId policyId : string) (r : PolicyVersionRow) : bool :=
  (pv_org_id r =s orgId) && (pv_policy_id r =s policyId) && version_active r.

(** [ORDER BY version DESC]. *)
Definition newer (a b : PolicyVersionRow) : bool := pv_version b <? pv_version a.

Definition newVersion (policyId : string) (version : Z) (orgId draftId : string) (draft : PolicyDraftRow)
    (validation : PolicyValidationResult) (change_reason created_by : string) (now : Z) : PolicyVersionRow :=
  {| pv_policy_id := policyId; pv_version := version; pv_org_id := orgId; pv_draft_id := Some draftId;
     pv_name := pd_name draft; pv_description := pd_description draft; pv_category := pd_category draft;
     pv_status := Version_active; pv_statements := pd_statements draft; pv_validation := validation;
     pv_change_reason := change_reason; pv_created_by := created_by;
     pv_archived_by := None; pv_archived_at := None; pv_created_at := now |}.

Definition mark_activated (validation : PolicyValidationResult) (policyId : string) (version : Z)
    (actorId : string) (now : Z) (r : PolicyDraftRow) : PolicyDraftRow :=
  set_pd_status Draft_activated (set_pd_validation validation
    (set_pd_activated_policy_id (Some policyId) (set_pd_activated_version (Some version)
    (set_pd_updated_by actorId (set_pd_updated_at now r))))).

Definition policy_validation_failed : exn := badRequest "policy_validation_failed".

Definition activatePolicyDraft (operator : OperatorContext) (orgId draftId : string)
    (change_reason : option string) : M PolicyVersionRow :=
  withTransaction (
    let* draft := select_one T_policy_drafts (the_draft orgId draftId) in
    let* draft := some_or draft notFound in
    let* validation := validateStatements (pd_statements draft) in
    throw_if (negb (vr_valid validation)) policy_validation_failed ;;*
    let* policyId := prefixedId "pol" in
    let version := 1 in
    let* now := get_now in
    let row := newVersion policyId version orgId draftId draft validation (change_reason ?? "")
                 (op_actorId operator) now in
    insert T_policy_versions row ;;*
    update T_policy_drafts (the_draft orgId draftId)
      (mark_activated validation policyId version (op_actorId operator) now) ;;*
    recordPolicyEvent orgId operator "policy.activated" "policy" policyId (Some policyId) None None
      (JObj [("draft_id", JStr draftId); ("version", jint version);
             ("change_reason", JStr (change_reason ?? ""))]%string) ;;*
    ret row).

Definition revisionDraft (draftId orgId : string) (input : UpdatePolicyDraftInput)
    (base : PolicyVersionRow) (statements : list PolicyStatement) (warning actorId policyId : string)
    (mode : PolicyRevisionMode) (restore : list PolicyRestoreBindingInput) (now : Z) : PolicyDraftRow :=
  {| pd_id := draftId; pd_org_id := orgId; pd_source := Source_structured;
     pd_name := ud_name input ?? pv_name base;
     pd_description := ud_description input ?? pv_description base;
     pd_category := ud_category input ?? pv_category base; pd_status := Draft_draft;
     pd_statements := statements; pd_validation := unvalidated warning;
     pd_created_by := actorId; pd_updated_by := actorId;
     pd_activated_policy_id := None; pd_activated_version := None;
     pd_revision_policy_id := Some policyId; pd_revision_base_version := Some (pv_version base);
     pd_revision_mode := Some mode; pd_revision_restore_bindings := restore;
     pd_created_at := now; pd_updated_at := now |}.

Definition createPolicyRevisionDraft (operator : OperatorContext) (orgId policyId : string)
    (input : UpdatePolicyDraftInput) : M PolicyDraftRow :=
  withTransaction (
    let* rows := select T_policy_versions (active_version orgId policyId) in
    let* active := some_or (first_by newer rows) notFound in
    let* draftId := prefixedId "pdraft" in
    let* now := get_now in
    let statements := ud_statements input ?? pv_statements active in
    let draft := revisionDraft draftId orgId input active statements
      "Revision draft has not been validated yet." (op_actorId operator) policyId Mode_revision [] now in
    insert T_policy_drafts draft ;;*
    recordPolicyEvent orgId operator "policy.revision_draft.created" "policy_draft" draftId
      (Some policyId) None None
      (JObj [("base_version", jint (pv_version active)); ("statements_count", count statements)]%string) ;;*
    ret draft).

Definition createPolicyRestoreDraft (operator : OperatorContext) (orgId policyId : string)
    (input : UpdatePolicyDraftInput) (restore_bindings : option (list PolicyRestoreBindingInput)) :
    M PolicyDraftRow :=
  withTransaction (
    let* active := select T_policy_versions (active_version orgId policyId) in
    throw_if (match active with [] => false | _ :: _ => true end)
      (badRequest "policy_restore_requires_archive") ;;*
    let* archived := select T_policy_versions (fun r => (pv_org_id r =s orgId)
      && (pv_policy_id r =s policyId) && bool_decide (pv_status r = Version_archived)) in
    let* archivedRow := some_or (first_by newer archived) notFound in
    let* actions := policyActionCatalog in
    let statements := ud_statements input ?? pv_statements archivedRow in
    let bindings := restore_bindings ?? [] in
    for_each (fun _ b =>
      assertBindingTargetTypeAllowed statements (rb_target_type b) actions ;;*
      assertBindingTargetExists orgId (rb_target_type b) (rb_target_id b)) bindings tt ;;*
    let* draftId := prefixedId "pdraft" in
    let* now := get_now in
    let draft := revisionDraft draftId orgId input archivedRow statements
      "Restore draft has not been validated yet." (op_actorId operator) policyId Mode_restore bindings now in
    insert T_policy_drafts draft ;;*
    recordPolicyEvent orgId operator "policy.restore_draft.created" "policy_draft" draftId
      (Some policyId) None None
      (JObj [("base_version", jint (pv_version archivedRow));
             ("restore_bindings_count", count bindings)]%string) ;;*
    ret draft).

Definition newBinding (id orgId policyId : string) (version : Z) (target_type : PolicyTargetType)
    (target_id actorId : string) (now : Z) : PolicyBindingRow :=
  {| pb_id := id; pb_org_id := orgId; pb_policy_id := policyId; pb_policy_version := version;
     pb_target_type := target_type; pb_target_id := target_id; pb_status := Binding_active;
     pb_created_by := actorId; pb_created_at := now; pb_removed_by := None; pb_removed_at := None;
     pb_removed_reason := None |}.

Definition insertBinding (orgId policyId : string) (version : Z) (actorId : string)
    (target_type : PolicyTargetType) (target_id : string) : M unit :=
  let* id := prefixedId "pbind" in
  let* now := get_now in
  insert T_policy_bindings (newBinding id orgId policyId version target_type target_id actorId now).

Definition remove_binding (actorId reason : string) (now : Z) (r : PolicyBindingRow) : PolicyBindingRow :=
  set_pb_status Binding_removed (set_pb_removed_by (Some actorId)
    (set_pb_removed_at (Some now) (set_pb_removed_reason (Some reason) r))).

(** The bindings of the superseded version move to the new one. *)
Definition migrateBindings (orgId policyId : string) (oldVersion nextVersion : Z) (actorId : string) :
    M Z :=
  let p := fun r => (pb_org_id r =s orgId) && (pb_policy_id r =s policyId)
                    && (pb_policy_version r =? oldVersion) && binding_active r in
  let* bindings := select T_policy_bindings p in
  let* now := get_now in
  (match bindings with
   | [] => ret tt
   | _ :: _ => update T_policy_bindings p (remove_binding actorId "policy_revision_migrated" now) ;;* ret tt
   end) ;;*
  for_each (fun n b =>
    insertBinding orgId policyId nextVersion actorId (pb_target_type b) (pb_target_id b) ;;*
    ret (n + 1)) bindings 0.

(** The bindings a restore draft asks for; the ones whose target is gone are
    skipped. *)
Definition restoreBindings (orgId policyId : string) (nextVersion : Z) (actorId : string)
    (statements : list PolicyStatement) (actions : list PolicyActionRecord)
    (bindings : list PolicyRestoreBindingInput) : M (Z * Z) :=
  for_each (fun counts b =>
    let '(migrated, skipped) := counts in
    assertBindingTargetTypeAllowed statements (rb_target_type b) actions ;;*
    let* found := bindingTargetExists orgId (rb_target_type b) (rb_target_id b) in
    if found : bool then
      insertBinding orgId policyId nextVersion actorId (rb_target_type b) (rb_target_id b) ;;*
      ret (migrated + 1, skipped)
    else ret (migrated, skipped + 1)) bindings (0, 0).

(** [Math.max] over the versions of the policy. *)
Definition max_version (rows : list PolicyVersionRow) : Z :=
  fold_left (fun a r => Z.max a (pv_version r)) rows 0.

Definition activatePolicyRevisionDraft (operator : OperatorContext) (orgId draftId : string)
    (change_reason : option string) : M (PolicyVersionRow * Z) :=
  withTransaction (
    let* draft := select_one T_policy_drafts (the_draft orgId draftId) in
    let* draft := some_or draft notFound in
    throw_if (lockedDraft (pd_status draft)) policy_draft_locked ;;*
    match pd_revision_policy_id draft, pd_revision_base_version draft, pd_revision_mode draft with
    | Some policyId, Some baseVersion, Some mode =>
        let* versions := select T_policy_versions
          (fun r => (pv_org_id r =s orgId) && (pv_policy_id r =s policyId)) in
        throw_if (match versions with [] => true | _ :: _ => false end) notFound ;;*
        let* base := some_or (List.find (fun v => pv_version v =? baseVersion) versions) notFound in
        let active := List.find version_active versions in
        throw_if (bool_decide (mode = Mode_revision)
                  && negb (match active with Some v => pv_version v =? baseVersion | None => false end))
          (badRequest "policy_revision_stale") ;;*
        throw_if (bool_decide (mode = Mode_restore) && is_some active)
          (badRequest "policy_restore_requires_archive") ;;*
        let* validation := validateStatements (pd_statements draft) in
        throw_if (negb (vr_valid validation)) policy_validation_failed ;;*
        let nextVersion := max_version versions + 1 in
        let* actions := policyActionCatalog in
        (match mode, active with
         | Mode_revision, Some a =>
             update T_policy_versions (fun r => (pv_org_id r =s orgId) && (pv_policy_id r =s policyId)
               && (pv_version r =? pv_version a)) (set_pv_status Version_superseded) ;;* ret tt
         | _, _ => ret tt
         end) ;;*
        let* now := get_now in
        let row := newVersion policyId nextVersion orgId draftId draft validation (change_reason ?? "")
                     (op_actorId operator) now in
        insert T_policy_versions row ;;*
        let* (migrated, skipped) :=
          match mode, active with
          | Mode_revision, Some a =>
              let* n := migrateBindings orgId policyId (pv_version a) nextVersion (op_actorId operator) in
              ret (n, 0)
          | Mode_revision, None => ret (0, 0)
          | Mode_restore, _ =>
              restoreBindings orgId policyId nextVersion (op_actorId operator) (pd_statements draft)
                actions (pd_revision_restore_bindings draft)
          end in
        update T_policy_drafts (the_draft orgId draftId)
          (mark_activated validation policyId nextVersion (op_actorId operator) now) ;;*
        recordPolicyEvent orgId operator
          (if bool_decide (mode = Mode_restore) then "policy.restored" else "policy.revision.activated")
          "policy" policyId (Some policyId) None None
          (JObj [("draft_id", JStr draftId); ("base_version", jint baseVersion);
                 ("version", jint nextVersion); ("migrated_bindings", jint migrated);
                 ("skipped_bindings", jint skipped);
                 ("change_reason", JStr (change_reason ?? ""))]%string) ;;*
        ret (row, migrated)
    | _, _, _ => throw (badRequest "policy_revision_required")
    end).

(** ** Bindings *)

Definition target_json (t : PolicyTargetType) : json := JStr (PolicyTargetType_text t).

Definition bindPolicy (operator : OperatorContext) (orgId policyId : string) (policy_version : Z)
    (target_type : PolicyTargetType) (target_id : string) : M PolicyBindingRow :=
  withTransaction (
    let* actions := policyActionCatalog in
    let* policy := select_one T_policy_versions
      (fun r => active_version orgId policyId r && (pv_version r =? policy_version)) in
    let* policy := some_or policy notFound in
    assertBindingTargetTypeAllowed (pv_statements policy) target_type actions ;;*
    assertBindingTargetExists orgId target_type target_id ;;*
    let* bindingId := prefixedId "pbind" in
    let* now := get_now in
    let row := newBinding bindingId orgId policyId policy_version target_type target_id
                 (op_actorId operator) now in
    insert T_policy_bindings row ;;*
    recordPolicyEvent orgId operator "policy.bound" "policy_binding" bindingId (Some policyId) None None
      (JObj [("policy_version", jint policy_version); ("target_type", target_json target_type);
             ("target_id", JStr target_id)]%string) ;;*
    completeProductOnboardingFlow orgId "policy_setup"
      (JObj [("binding_id", JStr bindingId); ("policy_id", JStr policyId);
             ("policy_version", jint policy_version); ("source", JStr "policy_binding_created");
             ("target_id", JStr target_id); ("target_type", target_json target_type)]%string) ;;*
    ret row).

Definition removePolicyBinding (operator : OperatorContext) (orgId policyId bindingId : string) :
    M PolicyBindingRow :=
  withTransaction (
    let p := fun r => (pb_org_id r =s orgId) && (pb_policy_id r =s policyId) && (pb_id r =s bindingId) in
    let* existing := select_one T_policy_bindings p in
    let* existing := some_or existing notFound in
    let* now := get_now in
    let* updated := update T_policy_bindings p (remove_binding (op_actorId operator) "manual_remove" now) in
    recordPolicyEvent orgId operator "policy.binding.removed" "policy_binding" bindingId
      (Some policyId) None None
      (JObj [("previous_status", JStr (PolicyBindingStatus_text (pb_status existing)));
             ("policy_version", jint (pb_policy_version existing));
             ("target_type", target_json (pb_target_type existing));
             ("target_id", JStr (pb_target_id existing))]%string) ;;*
    some_or (head updated) (PlainError "policy_binding_remove_failed")).

Definition archivePolicy (operator : OperatorContext) (orgId policyId : string)
    (change_reason : option string) : M PolicyVersionRow :=
  withTransaction (
    let* rows := select T_policy_versions (active_version orgId policyId) in
    let* existing := some_or (first_by newer rows) notFound in
    let* now := get_now in
    let reason := change_reason ?? "" in
    let* archived := update T_policy_versions (active_version orgId policyId)
      (fun r => set_pv_status Version_archived (set_pv_archived_by (Some (op_actorId operator))
        (set_pv_archived_at (Some now)
        (set_pv_change_reason (if reason =s "" then pv_change_reason r else reason) r)))) in
    update T_policy_bindings (fun r => (pb_org_id r =s orgId) && (pb_policy_id r =s policyId)
      && binding_active r) (remove_binding (op_actorId operator) "policy_archived" now) ;;*
    recordPolicyEvent orgId operator "policy.archived" "policy" policyId (Some policyId) None None
      (JObj [("change_reason", JStr reason); ("archived_versions", count archived)]%string) ;;*
    some_or (first_by newer archived) (PlainError "policy_archive_failed")).

(** ** Decisions *)

(** The targets whose bindings apply to a request: the organisation, and for
    an agent or a connection the team and agent it belongs to. *)
Definition targetBindingCandidates (orgId : string) (target_type : PolicyTargetType)
    (target_id : option string) : M (list (PolicyTargetType * string)) :=
  let candidates := [(Target_org, orgId)] in
  match target_type, target_id with
  | Target_org, _ => ret candidates
  | _, None => ret candidates
  | Target_team, Some id => ret (candidates ++ [(Target_team, id)])
  | Target_agent, Some id =>
      let* agent := select_one T_agents (fun r => (ag_org_id r =s orgId) && (ag_id r =s id)) in
      match agent with
      | None => ret candidates
      | Some agent => ret (candidates ++ [(Target_team, ag_team_id agent); (Target_agent, id)])
      end
  | Target_connection, Some id =>
      let* connections := select T_connections (fun r => (cn_org_id r =s orgId) && (cn_id r =s id)) in
      let* agents := select T_agents (fun r => ag_org_id r =s orgId) in
      match flat_map (fun c => map (fun a => (cn_agent_id c, ag_team_id a))
                (where_ (fun a => ag_id a =s cn_agent_id c) agents)) connections with
      | [] => ret candidates
      | (agent_id, team_id) :: _ =>
          ret (candidates ++ [(Target_team, team_id); (Target_agent, agent_id); (Target_connection, id)])
      end
  end.

(** A binding of the version to one of the candidates.  The rows come in
    table order; the decision does not depend on it. *)
Definition bound_to (candidates : list (PolicyTargetType * string)) (v : PolicyVersionRow)
    (b : PolicyBindingRow) : bool :=
  (pb_org_id b =s pv_org_id v) && (pb_policy_id b =s pv_policy_id v)
  && (pb_policy_version b =? pv_version v) && binding_active b
  && bool_decide ((pb_target_type b, pb_target_id b) ∈ candidates).

Definition effectivePoliciesForRequest (orgId : string) (request : PolicyDecisionRequest) :
    M (list EffectivePolicy) :=
  let* candidates := targetBindingCandidates orgId (rq_target_type request) (rq_target_id request) in
  let* bindings := select T_policy_bindings (fun _ => true) in
  let* rows := select T_policy_versions (fun v => (pv_org_id v =s orgId) && version_active v
    && existsb (bound_to candidates v) bindings) in
  ret (map (fun v => mkEffectivePolicy (pv_policy_id v) (pv_version v) (pv_name v) (pv_statements v)) rows).

Definition decisionOutcome (d : PolicyDecisionValue) : AuditOutcome :=
  match d with
  | deny => Outcome_denied
  | approval_required => Outcome_pending
  | _ => Outcome_success
  end.

Definition decisionRelations (request : PolicyDecisionRequest) : AuditRelations :=
  match rq_target_type request, rq_target_id request with
  | Target_agent, Some id => mkAuditRelations (Some id) None None None None None
  | Target_connection, Some id => mkAuditRelations None None (Some id) None None None
  | _, _ => no_relations
  end.

Definition actor_type_of (t : string) : AuditActorType :=
  if t =s "user" then Actor_user else if t =s "agent" then Actor_agent
  else if t =s "connection" then Actor_connection else Actor_system.

Definition match_json (x : PolicyDecisionMatch) : json :=
  JObj [("policyId", JStr (pm_policyId x)); ("policyVersion", jint (pm_policyVersion x));
        ("policyName", JStr (pm_policyName x)); ("statementId", JStr (pm_statementId x));
        ("decision", JStr (PolicyDecisionValue_text (pm_decision x)))]%string.

Record RecordedDecision : Type := mkRecordedDecision {
  rd_id : string;
  rd_result : PolicyDecisionResult
}.

Definition checkPolicyDecision (operator : OperatorContext) (orgId : string)
    (request : PolicyDecisionRequest) : M RecordedDecision :=
  withTransaction (
    let* action := select T_policy_action_registry (fun r => pa_action_id r =s rq_action request) in
    throw_if (negb (length action =? 1)%nat) (badRequest "unknown_policy_action") ;;*
    let* policies := effectivePoliciesForRequest orgId request in
    let* defaultEffect := orgDefaultPolicyEffect orgId in
    let result := evaluatePolicyDecision request policies (Some defaultEffect) in
    let* decisionId := prefixedId "pdec" in
    let* audit := recordAuditEvent
      {| in_orgId := orgId;
         in_idempotencyKey := Some ("policy.decision.recorded:" +:+ decisionId);
         in_eventType := "policy.decision.recorded"; in_occurredAt := None;
         in_actor_type := actor_type_of (rq_actor_type request);
         in_actor_id := Some (rq_actor_id request ?? op_actorId operator);
         in_action := "policy.decision.recorded"; in_outcome := decisionOutcome (pr_decision result);
         in_reasonCode := Some (pr_reasonCode result);
         in_resource := Some ("policy_decision"%string, decisionId);
         in_classification := mkAuditClassification (Some Domain_policy) (Some Category_policy)
           (Some (if bool_decide (pr_decision result = deny) then Severity_warning else Severity_info))
           (Some ["section_2"; "policy"; "decision"]%string);
         in_relations := decisionRelations request; in_requestId := None;
         in_source := mkAuditSource (Some "section_2"%string) (Some "policy"%string) None;
         in_refs := mkAuditRefs None (Some decisionId) None;
         in_externalRefs := None; in_retentionClass := None;
         in_payload := Some (JObj
           [("action", JStr (rq_action request)); ("target_type", target_json (rq_target_type request));
            ("target_id", jopt (rq_target_id request));
            ("decision", JStr (PolicyDecisionValue_text (pr_decision result)));
            ("matched", JArr (map match_json (pr_matched result)))]%string) |} in
    let* now := get_now in
    insert T_policy_decisions
      {| pdec_id := decisionId; pdec_org_id := orgId; pdec_actor_type := rq_actor_type request;
         pdec_actor_id := rq_actor_id request; pdec_actor_role := rq_actor_role request;
         pdec_action_id := rq_action request; pdec_target_type := rq_target_type request;
         pdec_target_id := rq_target_id request; pdec_context := rq_context request;
         pdec_decision := pr_decision result; pdec_enforceability := pr_enforceability result;
         pdec_reason_code := pr_reasonCode result; pdec_explanation := pr_explanation result;
         pdec_matched := pr_matched result; pdec_audit_event_id := Some (ae_id audit);
         pdec_created_at := now |} ;;*
    ret (mkRecordedDecision decisionId result)).

Definition assertPolicyAllows (operator : OperatorContext) (orgId action : string)
    (target_type : PolicyTargetType) (target_id : option string) (context : json) : M unit :=
  let* decision := checkPolicyDecision operator orgId
    (mkPolicyDecisionRequest "user" (Some (op_actorId operator)) (Some (op_role operator))
       action target_type target_id context) in
  let r := rd_result decision in
  throw_if (bool_decide (pr_decision r = deny)) (IdentityError (pr_reasonCode r) 403) ;;*
  throw_if (bool_decide (pr_decision r = approval_required)) (IdentityError (pr_reasonCode r) 409).
End Store.
