(* ===== verification/PolicyStoreThms.v ===== *)
(** Theorems on the policy store: the audit log stays verifiable, archived
    policies lose their effect, decisions are the engine's and are recorded,
    locked drafts stay locked, and a revision leaves one active version. *)

From S2P Require Import Prelude Errors Usdc Json Identity Policy Schema Host AuditLog AuditChain PolicyStore.
Open Scope Z_scope.

(** ** Frames *)

Section Frames.
Context `{Collation} `{Sha256} (t : table).

Lemma recordPolicyEvent_keeps o op a rt ri p out rc pl :
  t <> T_audit_events -> t <> T_audit_event_heads -> keeps t (recordPolicyEvent o op a rt ri p out rc pl).
Proof. intros. unfold recordPolicyEvent. solve_keeps. Qed.

Lemma policyActionCatalog_keeps : keeps t policyActionCatalog.
Proof. unfold policyActionCatalog. solve_keeps. Qed.

Lemma orgDefaultPolicyEffect_keeps o : keeps t (orgDefaultPolicyEffect o).
Proof. unfold orgDefaultPolicyEffect. solve_keeps. Qed.

Lemma validateStatements_keeps s : keeps t (validateStatements s).
Proof. unfold validateStatements. apply keeps_bind; [apply policyActionCatalog_keeps|]. solve_keeps. Qed.

Lemma assertBindingTargetTypeAllowed_keeps s tt a : keeps t (assertBindingTargetTypeAllowed s tt a).
Proof. unfold assertBindingTargetTypeAllowed. solve_keeps. Qed.

Lemma assertBindingTargetExists_keeps o tt i : keeps t (assertBindingTargetExists o tt i).
Proof. unfold assertBindingTargetExists, countTargets. solve_keeps. Qed.

Lemma bindingTargetExists_keeps o tt i : keeps t (bindingTargetExists o tt i).
Proof.
  unfold bindingTargetExists. pose proof (assertBindingTargetExists_keeps o tt i). solve_keeps.
Qed.

Lemma insertBinding_keeps o p v a tt i : t <> T_policy_bindings -> keeps t (insertBinding o p v a tt i).
Proof. intros. unfold insertBinding. solve_keeps. Qed.

Lemma completeProductOnboardingFlow_keeps o k p :
  t <> T_org_onboarding_states -> keeps t (completeProductOnboardingFlow o k p).
Proof. intros. unfold completeProductOnboardingFlow. solve_keeps. Qed.

Lemma targetBindingCandidates_keeps o tt i : keeps t (targetBindingCandidates o tt i).
Proof. unfold targetBindingCandidates. solve_keeps. Qed.
End Frames.
#[export] Hint Resolve recordPolicyEvent_keeps policyActionCatalog_keeps orgDefaultPolicyEffect_keeps
  validateStatements_keeps assertBindingTargetTypeAllowed_keeps assertBindingTargetExists_keeps
  bindingTargetExists_keeps insertBinding_keeps completeProductOnboardingFlow_keeps
  targetBindingCandidates_keeps : keeps.

Section Frames2.
Context `{Collation} `{Sha256} (t : table).

Lemma migrateBindings_keeps o p v n a : t <> T_policy_bindings -> keeps t (migrateBindings o p v n a).
Proof. intros. unfold migrateBindings. solve_keeps. Qed.

Lemma restoreBindings_keeps o p n a s acts b :
  t <> T_policy_bindings -> keeps t (restoreBindings o p n a s acts b).
Proof. intros. unfold restoreBindings. solve_keeps. Qed.

Lemma effectivePoliciesForRequest_keeps o r : keeps t (effectivePoliciesForRequest o r).
Proof. unfold effectivePoliciesForRequest. solve_keeps. Qed.

Lemma checkPolicyDecision_keeps op o r :
  t <> T_audit_events -> t <> T_audit_event_heads -> t <> T_policy_decisions ->
  keeps t (checkPolicyDecision op o r).
Proof.
  intros. unfold checkPolicyDecision. pose proof (effectivePoliciesForRequest_keeps o r). solve_keeps.
Qed.
End Frames2.
#[export] Hint Resolve migrateBindings_keeps restoreBindings_keeps effectivePoliciesForRequest_keeps
  checkPolicyDecision_keeps : keeps.

(** ** The audit log *)

Section Audited.
Context `{Collation} `{Sha256}.

Lemma recordPolicyEvent_audited o op a rt ri p out rc pl :
  preserves audit_ok (recordPolicyEvent o op a rt ri p out rc pl).
Proof. unfold recordPolicyEvent. solve_audited. Qed.
End Audited.
#[export] Hint Resolve recordPolicyEvent_audited : audited.

Section Audited2.
Context `{Collation} `{Sha256}.

Lemma createPolicyDraft_audited op o i : preserves audit_ok (createPolicyDraft op o i).
Proof. unfold createPolicyDraft. solve_audited. Qed.
Lemma updatePolicyDraft_audited op o d i : preserves audit_ok (updatePolicyDraft op o d i).
Proof. unfold updatePolicyDraft. solve_audited. Qed.
Lemma discardPolicyDraft_audited op o d : preserves audit_ok (discardPolicyDraft op o d).
Proof. unfold discardPolicyDraft. solve_audited. Qed.
Lemma validatePolicyDraft_audited op o d : preserves audit_ok (validatePolicyDraft op o d).
Proof. unfold validatePolicyDraft. solve_audited. Qed.
Lemma activatePolicyDraft_audited op o d c : preserves audit_ok (activatePolicyDraft op o d c).
Proof. unfold activatePolicyDraft. solve_audited. Qed.
Lemma createPolicyRevisionDraft_audited op o p i : preserves audit_ok (createPolicyRevisionDraft op o p i).
Proof. unfold createPolicyRevisionDraft. solve_audited. Qed.
Lemma createPolicyRestoreDraft_audited op o p i b : preserves audit_ok (createPolicyRestoreDraft op o p i b).
Proof. unfold createPolicyRestoreDraft. solve_audited. Qed.
Lemma activatePolicyRevisionDraft_audited op o d c : preserves audit_ok (activatePolicyRevisionDraft op o d c).
Proof. unfold activatePolicyRevisionDraft. solve_audited. Qed.
Lemma bindPolicy_audited op o p v tt i : preserves audit_ok (bindPolicy op o p v tt i).
Proof. unfold bindPolicy. solve_audited. Qed.
Lemma removePolicyBinding_audited op o p b : preserves audit_ok (removePolicyBinding op o p b).
Proof. unfold removePolicyBinding. solve_audited. Qed.
Lemma archivePolicy_audited op o p c : preserves audit_ok (archivePolicy op o p c).
Proof. unfold archivePolicy. solve_audited. Qed.
Lemma checkPolicyDecision_audited op o r : preserves audit_ok (checkPolicyDecision op o r).
Proof. unfold checkPolicyDecision. solve_audited. Qed.
End Audited2.
#[export] Hint Resolve createPolicyDraft_audited updatePolicyDraft_audited discardPolicyDraft_audited
  validatePolicyDraft_audited activatePolicyDraft_audited createPolicyRevisionDraft_audited
  createPolicyRestoreDraft_audited activatePolicyRevisionDraft_audited bindPolicy_audited
  removePolicyBinding_audited archivePolicy_audited checkPolicyDecision_audited : audited.

(** ** One active version per policy *)

(** What [policy_versions_one_active_idx] guarantees. *)
Definition one_active (db : Db) : Prop := forall orgId policyId,
  (length (where_ (active_version orgId policyId) (db T_policy_versions)) <= 1)%nat.

Lemma where_update_le {row} (p q : row -> bool) f t :
  (forall r, p r = true -> q (f r) = true -> q r = true) ->
  (length (where_ q (update_rows p f t)) <= length (where_ q t))%nat.
Proof.
  intros Hq. induction t as [|r t IH]; cbn; [done|].
  destruct (p r) eqn:Ep; [destruct (q (f r)) eqn:Eq; [rewrite (Hq r Ep Eq)|destruct (q r)]|
    destruct (q r)]; cbn; lia.
Qed.

Lemma active_version_spec orgId policyId r :
  active_version orgId policyId r = true <->
  pv_org_id r = orgId /\ pv_policy_id r = policyId /\ version_active r = true.
Proof. unfold active_version. rewrite !andb_true_iff, !eqs_spec. tauto. Qed.

Lemma active_version_clash orgId policyId r s :
  active_version orgId policyId r = true -> active_version orgId policyId s = true ->
  version_clash r s = true.
Proof.
  rewrite !active_version_spec. intros (Ho & Hp & Ha) (Ho' & Hp' & Ha').
  unfold version_clash. rewrite Ho, Ho', Hp, Hp', Ha, Ha', !String.eqb_refl. apply orb_true_r.
Qed.

Lemma one_active_insert r : preserves one_active (insert T_policy_versions r).
Proof.
  intros w Hw orgId policyId. destruct (insert T_policy_versions r w) as [[u|e] w'] eqn:E.
  2:{ apply insert_err in E as ->. apply Hw. }
  apply insert_ok in E as (_ & Hc & ->). cbn [snd w_db with_db]. rewrite db_set_same, where_app, length_app.
  cbn [where_]. destruct (active_version orgId policyId r) eqn:Er; [|specialize (Hw orgId policyId); cbn; lia].
  enough (where_ (active_version orgId policyId) (w_db w T_policy_versions) = []) as -> by (cbn; lia).
  apply where_none. intros s Hs. destruct (active_version orgId policyId s) eqn:Es; [|done]. exfalso.
  enough (existsb (clash T_policy_versions r) (w_db w T_policy_versions) = true) by congruence.
  apply existsb_exists. exists s. split; [done|]. by eapply active_version_clash.
Qed.

Lemma one_active_update p f :
  (forall r, pv_org_id (f r) = pv_org_id r /\ pv_policy_id (f r) = pv_policy_id r /\
             version_active (f r) = false) ->
  preserves one_active (update T_policy_versions p f).
Proof.
  intros Hf w Hw orgId policyId. unfold update. cbn zeta. destruct (forallb _ _); cbn [negb snd]; [|apply Hw].
  cbn [w_db with_db]. rewrite db_set_same. etrans; [|apply (Hw orgId policyId)].
  apply where_update_le. intros r _ Hr. unfold active_version in Hr.
  destruct (Hf r) as (_ & _ & Hn). rewrite Hn, andb_false_r in Hr. done.
Qed.

Lemma one_active_keeps {A} (m : M A) : keeps T_policy_versions m -> preserves one_active m.
Proof. intros Hm w Hw orgId policyId. rewrite Hm. apply Hw. Qed.

Ltac one_active_step :=
  first
  [ solve [apply one_active_keeps; solve_keeps]
  | apply one_active_insert
  | apply one_active_update; intros ?; repeat split; reflexivity
  | match goal with
    | |- preserves _ (bind _ _) => apply preserves_bind; [|intros ?]
    | |- preserves _ (withTransaction _) => apply preserves_transaction
    | |- preserves _ (match ?x with _ => _ end) => destruct x
    | |- preserves _ (if ?b then _ else _) => destruct b
    | |- preserves _ (let '(_, _) := ?x in _) => destruct x
    end ].
Ltac solve_one_active := repeat one_active_step.

Section OneActive.
Context `{Collation} `{Sha256}.

Lemma activatePolicyDraft_one_active op o d c : preserves one_active (activatePolicyDraft op o d c).
Proof. unfold activatePolicyDraft. solve_one_active. Qed.
Lemma activatePolicyRevisionDraft_one_active op o d c :
  preserves one_active (activatePolicyRevisionDraft op o d c).
Proof. unfold activatePolicyRevisionDraft. solve_one_active. Qed.
Lemma archivePolicy_one_active op o p c : preserves one_active (archivePolicy op o p c).
Proof. unfold archivePolicy. solve_one_active. Qed.

(** ** The policies in effect *)

Lemma targetBindingCandidates_world o tt i w cs w' :
  targetBindingCandidates o tt i w = (Ok cs, w') -> w' = w.
Proof.
  unfold targetBindingCandidates. intros E. destruct tt, i; minv E; try done.
  all: repeat match type of E with
    | context [match ?x with _ => _ end] => destruct x; minv E; try done
    end.
Qed.

Lemma effective_policies_world orgId request w policies w' :
  effectivePoliciesForRequest orgId request w = (Ok policies, w') -> w' = w.
Proof.
  unfold effectivePoliciesForRequest. intros E. minv E.
  by eapply targetBindingCandidates_world.
Qed.

(** What the query of the effective policies selects. *)
Lemma effective_policies_in orgId request w w' policies p :
  effectivePoliciesForRequest orgId request w = (Ok policies, w') ->
  In p policies <->
  exists v b candidates, fst (targetBindingCandidates orgId (rq_target_type request)
                                (rq_target_id request) w) = Ok candidates /\
    In v (w_db w T_policy_versions) /\ pv_org_id v = orgId /\ version_active v = true /\
    In b (w_db w T_policy_bindings) /\ bound_to candidates v b = true /\
    p = mkEffectivePolicy (pv_policy_id v) (pv_version v) (pv_name v) (pv_statements v).
Proof.
  unfold effectivePoliciesForRequest. intros E.
  apply bind_ok in E as (cs & w1 & E1 & E).
  assert (w1 = w) as -> by (by eapply targetBindingCandidates_world).
  minv E. rewrite in_map_iff. setoid_rewrite where_in. rewrite E1. cbn [fst]. split.
  - intros (v & <- & Hv & Hp). bsimpl. apply existsb_exists in H2 as (b & Hb & Hbt).
    apply where_in in Hb as [Hb _]. naive_solver.
  - intros (v & b & candidates & [= <-] & Hv & Ho & Ha & Hb & Hbt & ->). exists v. split; [done|].
    split; [done|]. rewrite Ha, Ho, String.eqb_refl. cbn. apply existsb_exists. exists b.
    split; [|done]. by apply where_in.
Qed.
End OneActive.
#[export] Hint Resolve activatePolicyDraft_one_active activatePolicyRevisionDraft_one_active
  archivePolicy_one_active : one_active.

(** ** Operations *)

Inductive PolicyOperation : Type :=
| OpCreateDraft (operator : OperatorContext) (orgId : string) (input : CreatePolicyDraftInput)
| OpUpdateDraft (operator : OperatorContext) (orgId draftId : string) (input : UpdatePolicyDraftInput)
| OpDiscardDraft (operator : OperatorContext) (orgId draftId : string)
| OpValidateDraft (operator : OperatorContext) (orgId draftId : string)
| OpActivateDraft (operator : OperatorContext) (orgId draftId : string) (reason : option string)
| OpCreateRevision (operator : OperatorContext) (orgId policyId : string) (input : UpdatePolicyDraftInput)
| OpCreateRestore (operator : OperatorContext) (orgId policyId : string) (input : UpdatePolicyDraftInput)
    (bindings : option (list PolicyRestoreBindingInput))
| OpActivateRevision (operator : OperatorContext) (orgId draftId : string) (reason : option string)
| OpBind (operator : OperatorContext) (orgId policyId : string) (version : Z)
    (target_type : PolicyTargetType) (target_id : string)
| OpRemoveBinding (operator : OperatorContext) (orgId policyId bindingId : string)
| OpArchive (operator : OperatorContext) (orgId policyId : string) (reason : option string)
| OpCheck (operator : OperatorContext) (orgId : string) (request : PolicyDecisionRequest).

Section Run.
Context `{Collation} `{Sha256}.

Definition run_policy (o : PolicyOperation) : M unit :=
  match o with
  | OpCreateDraft op org i => createPolicyDraft op org i ;;* ret tt
  | OpUpdateDraft op org d i => updatePolicyDraft op org d i ;;* ret tt
  | OpDiscardDraft op org d => discardPolicyDraft op org d ;;* ret tt
  | OpValidateDraft op org d => validatePolicyDraft op org d ;;* ret tt
  | OpActivateDraft op org d c => activatePolicyDraft op org d c ;;* ret tt
  | OpCreateRevision op org p i => createPolicyRevisionDraft op org p i ;;* ret tt
  | OpCreateRestore op org p i b => createPolicyRestoreDraft op org p i b ;;* ret tt
  | OpActivateRevision op org d c => activatePolicyRevisionDraft op org d c ;;* ret tt
  | OpBind op org p v t i => bindPolicy op org p v t i ;;* ret tt
  | OpRemoveBinding op org p b => removePolicyBinding op org p b ;;* ret tt
  | OpArchive op org p c => archivePolicy op org p c ;;* ret tt
  | OpCheck op org r => checkPolicyDecision op org r ;;* ret tt
  end.

(** Any operations in any order; each may succeed or throw. *)
Definition run_policies (ops : list PolicyOperation) (w : World) : World :=
  fold_left (fun w o => snd (run_policy o w)) ops w.

Lemma run_policy_audited o : preserves audit_ok (run_policy o).
Proof. destruct o; cbn [run_policy]; solve_audited. Qed.

Lemma run_policy_one_active o : preserves one_active (run_policy o).
Proof.
  destruct o; cbn [run_policy]; (apply preserves_bind; [|intros ?; apply preserves_ret]);
    first [solve [auto with one_active nocore]
          | apply one_active_keeps;
            unfold createPolicyDraft, updatePolicyDraft, discardPolicyDraft, validatePolicyDraft,
              createPolicyRevisionDraft, createPolicyRestoreDraft, bindPolicy, removePolicyBinding;
            solve_keeps].
Qed.

Lemma run_policies_invariants ops w :
  one_active (w_db w) -> audit_ok (w_db w) ->
  one_active (w_db (run_policies ops w)) /\ audit_ok (w_db (run_policies ops w)).
Proof.
  revert w. induction ops as [|o ops IH]; intros w Ho Ha; [done|]. cbn.
  apply IH; [by apply run_policy_one_active|by apply run_policy_audited].
Qed.
End Run.

(** Archiving takes a policy out of effect: after [archivePolicy] no
    request of the organisation is evaluated against it, and it keeps no
    active binding. *)
Theorem archived_policy_has_no_effect `{Collation} `{Sha256} (operator : OperatorContext)
    (orgId policyId : string) (reason : option string) (row : PolicyVersionRow) (w w' : World) :
  archivePolicy operator orgId policyId reason w = (Ok row, w') ->
  (forall request policies w'', effectivePoliciesForRequest orgId request w' = (Ok policies, w'') ->
     ~ In policyId (map ep_policyId policies)) /\
  where_ (fun b => (pb_org_id b =s orgId) && (pb_policy_id b =s policyId) && binding_active b)
    (w_db w' T_policy_bindings) = [].
Proof.
  unfold archivePolicy. intros E. minv E.
  match goal with A : recordPolicyEvent _ _ _ _ _ _ _ _ _ _ = _ |- _ => rename A into Er end.
  keeps_in Er T_policy_versions as Ev. keeps_in Er T_policy_bindings as Eb. cbn [w_db with_db] in *.
  rewrite ?db_set_same, ?(db_set_other T_policy_bindings T_policy_versions),
    ?(db_set_other T_policy_versions T_policy_bindings), ?db_set_same in * by done.
  split.
  - intros request policies w'' Ep Hin. apply in_map_iff in Hin as (p & Hp & Hin).
    eapply effective_policies_in in Hin as (v & b & cs & _ & Hv & Ho & Ha & _ & _ & ->); [|exact Ep].
    cbn in Hp. rewrite Ev in Hv. apply in_update_rows in Hv as (v0 & Hv0 & ->).
    destruct (active_version orgId policyId v0) eqn:Eact; [done|].
    apply not_true_iff_false in Eact. apply Eact. by apply active_version_spec.
  - rewrite Eb. apply where_none. intros b Hb.
    apply in_update_rows in Hb as (b0 & Hb0 & ->).
    destruct (_ && binding_active b0) eqn:Eact; [by rewrite andb_false_r|exact Eact].
Qed.

(** The row a policy check records. *)
Lemma checkPolicyDecision_records `{Collation} `{Sha256} operator orgId request d w w' :
  checkPolicyDecision operator orgId request w = (Ok d, w') ->
  exists row, w_db w' T_policy_decisions = w_db w T_policy_decisions ++ [row] /\
    pdec_id row = rd_id d /\ pdec_org_id row = orgId /\ pdec_action_id row = rq_action request /\
    pdec_decision row = pr_decision (rd_result d) /\ pdec_matched row = pr_matched (rd_result d).
Proof.
  intros E. unfold checkPolicyDecision in E. minv E.
  match goal with A : effectivePoliciesForRequest _ _ _ = (Ok ?p, ?w1) |- _ => rename A into Ep end.
  match goal with A : orgDefaultPolicyEffect _ _ = (Ok _, _) |- _ => rename A into Ed end.
  eexists. frames. split; [reflexivity|]. cbn. repeat split; done.
Qed.

(** The verdict is the engine's, on the policies in effect. *)
Lemma checkPolicyDecision_verdict `{Collation} `{Sha256} operator orgId request d w w' :
  checkPolicyDecision operator orgId request w = (Ok d, w') ->
  exists policies effect,
    effectivePoliciesForRequest orgId request w = (Ok policies, w) /\
    fst (orgDefaultPolicyEffect orgId w) = Ok effect /\
    rd_result d = evaluatePolicyDecision request policies (Some effect).
Proof.
  intros E. unfold checkPolicyDecision in E. minv E.
  match goal with A : effectivePoliciesForRequest _ _ _ = (Ok ?p, ?w1) |- _ =>
    rename A into Ep; assert (w1 = w) as -> by (by eapply effective_policies_world) end.
  match goal with A : orgDefaultPolicyEffect _ _ = (Ok _, _) |- _ =>
    pose proof A as Ed; unfold orgDefaultPolicyEffect in A; minv A end.
  eexists _, _. split; [exact Ep|]. by rewrite Ed.
Qed.

(** C21: [checkPolicyDecision] answers with the engine's verdict on the
    policies in effect and the organisation's default, records that verdict
    under the id it returns, and leaves policies and bindings alone. *)
Theorem checkPolicyDecision_spec `{Collation} `{Sha256} (operator : OperatorContext) (orgId : string)
    (request : PolicyDecisionRequest) (d : RecordedDecision) (w w' : World) :
  checkPolicyDecision operator orgId request w = (Ok d, w') ->
  exists policies effect row,
    effectivePoliciesForRequest orgId request w = (Ok policies, w) /\
    fst (orgDefaultPolicyEffect orgId w) = Ok effect /\
    rd_result d = evaluatePolicyDecision request policies (Some effect) /\
    w_db w' T_policy_decisions = w_db w T_policy_decisions ++ [row] /\
    pdec_id row = rd_id d /\ pdec_org_id row = orgId /\
    pdec_decision row = pr_decision (rd_result d) /\ pdec_matched row = pr_matched (rd_result d) /\
    w_db w' T_policy_versions = w_db w T_policy_versions /\
    w_db w' T_policy_bindings = w_db w T_policy_bindings.
Proof.
  intros E. assert (Hv : w_db w' T_policy_versions = w_db w T_policy_versions)
    by (eapply keeps_run; [|exact E]; solve_keeps).
  assert (Hb : w_db w' T_policy_bindings = w_db w T_policy_bindings)
    by (eapply keeps_run; [|exact E]; solve_keeps).
  unfold checkPolicyDecision in E. minv E.
  match goal with A : effectivePoliciesForRequest _ _ _ = (Ok ?p, ?w1) |- _ =>
    rename A into Ep; assert (w1 = w) as -> by (by eapply effective_policies_world) end.
  match goal with A : orgDefaultPolicyEffect _ _ = (Ok _, _) |- _ =>
    pose proof A as Ed; unfold orgDefaultPolicyEffect in A; minv A end.
  match goal with A : recordAuditEvent _ _ = _ |- _ => keeps_in A T_policy_decisions as Edec end.
  eexists _, _, _. split; [exact Ep|]. rewrite Ed. split; [reflexivity|]. split; [reflexivity|].
  cbn [w_db with_db] in *. rewrite db_set_same, Edec.
  split; [reflexivity|]. cbn. repeat split; done.
Qed.

(** ** Revisions *)

Lemma max_version_ge rows v : In v rows -> pv_version v <= max_version rows.
Proof.
  unfold max_version. assert (forall l a, a <= fold_left (fun a r => Z.max a (pv_version r)) l a /\
    forall v, In v l -> pv_version v <= fold_left (fun a r => Z.max a (pv_version r)) l a) as Hf.
  { induction l as [|x l IH]; intros a; cbn; [split; [lia|done]|].
    destruct (IH (Z.max a (pv_version x))) as [H1 H2]. split; [lia|]. intros u [<-|Hu]; [lia|auto]. }
  intros Hv. by apply (Hf rows 0).
Qed.

Lemma where_one {row} (p : row -> bool) t r :
  (length (where_ p t) <= 1)%nat -> In r t -> p r = true -> where_ p t = [r].
Proof.
  intros Hl Hin Hp. assert (In r (where_ p t)) as Hw by (by apply where_in).
  destruct (where_ p t) as [|x [|? ?]]; [done| |cbn in Hl; lia]. by destruct Hw as [->|[]].
Qed.

(** [versions.rows.find((version) => version.status === 'active')]. *)
Lemma find_active orgId policyId t :
  match List.find version_active
          (where_ (fun r => (pv_org_id r =s orgId) && (pv_policy_id r =s policyId)) t) with
  | Some a => In a t /\ active_version orgId policyId a = true
  | None => where_ (active_version orgId policyId) t = []
  end.
Proof.
  destruct (List.find _ _) as [a|] eqn:E.
  - apply List.find_some in E as [Ha Hact]. apply where_in in Ha as [Ha Hm]. split; [done|].
    unfold active_version. by rewrite Hm, Hact.
  - apply where_none. intros r Hr. destruct (active_version orgId policyId r) eqn:Er; [|done].
    exfalso. unfold active_version in Er. apply andb_prop in Er as [Hm Hact].
    pose proof (List.find_none _ _ E r ltac:(by apply where_in)). congruence.
Qed.

(** C23: activating a revision (or restore) draft makes its validated
    statements the one active version of the policy, numbered above every
    earlier version, and only an unlocked draft based on the active (or on an
    archived) version gets there. *)
Theorem revision_becomes_the_active_version `{Collation} `{Sha256} (operator : OperatorContext)
    (orgId draftId : string) (reason : option string) (row : PolicyVersionRow) (n : Z) (w w' : World) :
  one_active (w_db w) ->
  activatePolicyRevisionDraft operator orgId draftId reason w = (Ok (row, n), w') ->
  exists draft base,
    head (where_ (the_draft orgId draftId) (w_db w T_policy_drafts)) = Some draft /\
    lockedDraft (pd_status draft) = false /\
    pd_revision_policy_id draft = Some (pv_policy_id row) /\
    In base (w_db w T_policy_versions) /\ pd_revision_base_version draft = Some (pv_version base) /\
    (pd_revision_mode draft = Some Mode_revision -> exists active,
       where_ (active_version orgId (pv_policy_id row)) (w_db w T_policy_versions) = [active] /\
       pv_version active = pv_version base) /\
    (pd_revision_mode draft = Some Mode_restore ->
       where_ (active_version orgId (pv_policy_id row)) (w_db w T_policy_versions) = []) /\
    where_ (active_version orgId (pv_policy_id row)) (w_db w' T_policy_versions) = [row] /\
    pv_statements row = pd_statements draft /\ vr_valid (pv_validation row) = true /\
    (forall v, In v (w_db w T_policy_versions) -> pv_org_id v = orgId ->
       pv_policy_id v = pv_policy_id row -> pv_version v < pv_version row).
Proof.
  intros Hone E. pose proof (activatePolicyRevisionDraft_one_active operator orgId draftId reason w Hone) as Hone'.
  rewrite E in Hone'. cbn [snd] in Hone'. unfold activatePolicyRevisionDraft in E.
  apply transaction_ok in E. minv E.
  match goal with A : head _ = Some ?d |- _ => rename d into draft; rename A into Hdraft end.
  destruct (pd_revision_policy_id draft) as [policyId|] eqn:Ep; [|by minv E].
  destruct (pd_revision_base_version draft) as [bv|] eqn:Ebv; [|by minv E].
  destruct (pd_revision_mode draft) as [mode|] eqn:Em; [|by minv E].
  minv E.
  set (mine := fun r => (pv_org_id r =s orgId) && (pv_policy_id r =s policyId)) in *.
  match goal with A : List.find _ _ = Some ?b |- _ => rename b into base; apply List.find_some in A as [Hb Hbv] end.
  apply where_in in Hb as [Hb _]. apply Z.eqb_eq in Hbv. subst bv.
  match goal with counts : (Z * Z)%type |- _ => destruct counts as [migrated skipped] end. minv E.
  match type of Hone' with one_active (w_db ?x) => rename x into w' end.
  match goal with A : context [migrateBindings] |- _ => rename A into Hmig end.
  keeps_in Hmig T_policy_versions as Emig.
  match goal with A : recordPolicyEvent _ _ _ _ _ _ _ _ _ _ = _ |- _ => keeps_in A T_policy_versions as Eev end.
  match goal with A : validateStatements _ _ = (Ok ?v, _) |- _ => rename v into validation; clear A end.
  match goal with A : (newVersion _ _ _ _ _ _ _ _ _, _) = (row, n) |- _ => injection A as Erow En end.
  assert (Hrow : In row (w_db w' T_policy_versions)).
  { rewrite Eev, <-Erow. cbn [w_db with_db] in *. rewrite (db_set_other T_policy_drafts T_policy_versions) by done.
    rewrite Emig, db_set_same. apply in_app_iff. right. by left. }
  assert (Hact : active_version orgId policyId row = true) by (subst row; by apply active_version_spec).
  assert (Epol : pv_policy_id row = policyId) by (by subst row).
  rewrite Epol.
  exists draft, base. pose proof (find_active orgId policyId (w_db w T_policy_versions)) as Hfind.
  split; [done|]. split; [done|]. split; [done|]. split; [done|].
  split; [done|]. split; [|split; [|split; [|split; [by subst row|split]]]].
  - rewrite Em. intros [= ->].
    match goal with A : bool_decide (Mode_revision = Mode_revision) && _ = false |- _ => revert A end.
    fold mine in Hfind. destruct (List.find version_active _) as [act|]; [|done].
    destruct Hfind as [Hin Hact']. cbn. intros Ev%negb_false_iff%Z.eqb_eq. exists act. split; [|done].
    apply where_one; [apply Hone|done..].
  - rewrite Em. intros [= ->].
    match goal with A : bool_decide (Mode_restore = Mode_restore) && _ = false |- _ => revert A end.
    fold mine in Hfind. by destruct (List.find version_active _) as [act|].
  - by apply where_one.
  - subst row. cbn. by bsimpl.
  - intros v Hv Ho Hp. subst row. cbn. apply Z.lt_succ_r, max_version_ge, where_in. split; [done|].
    unfold mine. by rewrite Ho, Hp, !String.eqb_refl.
Qed.

(** ** Witnesses *)

(** An organisation that denies by default and knows one action. *)
Definition sample_action : PolicyActionRow :=
  mkPolicyActionRow "payment.send" "payment" "Send" "" "enforced" 2 ["payment"]%string
    ["org"; "agent"]%string.
Definition sample_statement : PolicyStatement :=
  mkPolicyStatement "s1" allow ["payment.send"]%string None None None None Audit_standard.
Definition sample_operator : OperatorContext :=
  mkOperatorContext "usr_1" Role_admin (Some "usr_1"%string) (Some "org_1"%string).
Definition sample_org : OrgRow := 
  mkOrgRow "org_1" "Acme" (Some "acme"%string) (Some "team_1"%string) (JObj []) Org_active 0 0 default_deny false None None None.
Definition policy_world : World :=
  mkWorld (db_set T_policy_action_registry [sample_action] (db_set T_orgs [sample_org] empty_db)) 1000 0 [].

Definition sample_draft : CreatePolicyDraftInput :=
  mkCreatePolicyDraftInput Source_structured "Send" None Cat_operational [sample_statement].
Definition sample_revision : UpdatePolicyDraftInput := mkUpdatePolicyDraftInput None None None None.
Definition sample_request : PolicyDecisionRequest :=
  mkPolicyDecisionRequest "user" (Some "usr_1"%string) (Some Role_admin) "payment.send" Target_org
    (Some "org_1"%string) (JObj []).

Definition sample_policies : list PolicyOperation -> World -> World :=
  @run_policies byte_collation toy_sha256.

(** A policy drafted, activated, bound to the organisation, and then revised. *)
Definition bound_ops : list PolicyOperation :=
  [OpCreateDraft sample_operator "org_1" sample_draft;
   OpValidateDraft sample_operator "org_1" "pdraft_0";
   OpActivateDraft sample_operator "org_1" "pdraft_0" None;
   OpBind sample_operator "org_1" "pol_5" 1 Target_org "org_1"].
Definition bound_world : World := sample_policies bound_ops policy_world.
Definition revision_world : World :=
  sample_policies [OpCreateRevision sample_operator "org_1" "pol_5" sample_revision] bound_world.

Lemma policy_world_one_active : one_active (w_db policy_world).
Proof. intros orgId policyId. apply Nat.le_0_l. Qed.

Lemma policy_world_audit_ok : @audit_ok byte_collation toy_sha256 (w_db policy_world).
Proof.
  apply (audit_ok_frame empty_db); [|apply audit_ok_empty].
  intros t [->|[->|Ht]%elem_of_cons]%elem_of_cons; [done..|by apply elem_of_nil in Ht].
Qed.

Lemma bound_world_ok :
  one_active (w_db bound_world) /\ @audit_ok byte_collation toy_sha256 (w_db bound_world).
Proof.
  exact (@run_policies_invariants byte_collation toy_sha256 bound_ops policy_world
           policy_world_one_active policy_world_audit_ok).
Qed.

Local Notation checked :=
  (@checkPolicyDecision byte_collation toy_sha256 sample_operator "org_1" sample_request bound_world) (only parsing).

Lemma checkPolicyDecision_spec_witness : exists d w' policies effect,
  checked = (Ok d, w') /\
  fst (effectivePoliciesForRequest "org_1" sample_request bound_world) = Ok policies /\
  rd_result d = evaluatePolicyDecision sample_request policies (Some effect).
Proof.
  destruct (ok_run checked) as (d & w' & E); [vm_compute; reflexivity|].
  destruct (@checkPolicyDecision_spec byte_collation toy_sha256 sample_operator "org_1" sample_request
              d bound_world w' E) as (policies & effect & row & Ep & _ & Ed & _).
  apply (f_equal fst) in Ep. exists d, w', policies, effect. split; [exact E|]. split; [exact Ep|exact Ed].
Defined.

Lemma revision_world_one_active : one_active (w_db revision_world).
Proof.
  exact (proj1 (@run_policies_invariants byte_collation toy_sha256
    [OpCreateRevision sample_operator "org_1" "pol_5" sample_revision] bound_world
    (proj1 bound_world_ok) (proj2 bound_world_ok))).
Qed.

Local Notation revised :=
  (@activatePolicyRevisionDraft byte_collation toy_sha256 sample_operator "org_1" "pdraft_12" None
    revision_world) (only parsing).

Lemma revision_becomes_the_active_version_witness : exists row n w',
  revised = (Ok (row, n), w') /\
  where_ (active_version "org_1" (pv_policy_id row)) (w_db w' T_policy_versions) = [row] /\
  pv_version row = 2 /\ n = 1.
Proof.
  destruct (ok_run revised) as ([row n] & w' & E); [vm_compute; reflexivity|]. exists row, n, w'.
  split; [exact E|].
  destruct (@revision_becomes_the_active_version byte_collation toy_sha256 sample_operator "org_1"
              "pdraft_12" None row n revision_world w' revision_world_one_active E)
    as (? & ? & _ & _ & _ & _ & _ & _ & _ & Ha & _).
  split; [exact Ha|].
  assert (Hn : match fst revised with Ok (r, m) => (pv_version r =? 2) && (m =? 1) | Err _ => false end = true)
    by (vm_compute; reflexivity).
  rewrite E in Hn. clear -Hn. cbn [fst] in Hn. apply andb_prop in Hn as [Hv Hm].
  split; [by apply Z.eqb_eq|by apply Z.eqb_eq].
Defined.

(** [activatePolicyDraft] does not look at the status of the draft: a
    discarded draft, which every other operation refuses as locked, becomes an
    active policy; so does one that was activated before, as a second policy. *)
Example discarded_draft_can_be_activated :
  let ops := [OpCreateDraft sample_operator "org_1" sample_draft;
              OpDiscardDraft sample_operator "org_1" "pdraft_0";
              OpActivateDraft sample_operator "org_1" "pdraft_0" None;
              OpActivateDraft sample_operator "org_1" "pdraft_0" None] in
  map pv_status (w_db (sample_policies ops policy_world) T_policy_versions) =
    [Version_active; Version_active].
Proof. vm_compute. reflexivity. Qed.
