(* ===== verification/Approvals.v ===== *)
(** Approvals ([approvals/store.ts]): requests, quorum votes, denial,
    consumption after a policy recheck, and the activity feed they write.
    A record returned to the caller is the row with the status in effect and
    the number of votes; timestamps stay instants. *)

From S2P Require Import Prelude Errors Usdc Json Identity Policy Schema Host AuditLog AuditChain PolicyStore.
Import Digits.
Open Scope Z_scope.

(** ** Views *)

(** [row.status === 'pending' && row.expires_at.getTime() <= Date.now()]. *)
Definition effectiveApprovalStatus (now : Z) (r : ApprovalRow) : ApprovalStatus :=
  if bool_decide (ap_status r = Approval_pending) && (ap_expires_at r <=? now)
  then Approval_expired else ap_status r.

Record ApprovalRecord : Type := mkApprovalRecord {
  ar_row : ApprovalRow;
  ar_status : ApprovalStatus;
  ar_votes_count : Z;
  ar_actions : list ApprovalActionRow;
  ar_consumption : option ApprovalConsumptionRow
}.

Definition votes_for (approvalId : string) (v : ApprovalVoteRow) : bool := av_approval_id v =s approvalId.

(** [VOTES_COUNT_SUBQUERY]. *)
Definition votes_count (approvalId : string) : M Z :=
  let* votes := select T_approval_votes (votes_for approvalId) in
  ret (Z.of_nat (length votes)).

Definition approvalFromRow (now : Z) (votes : Z) (r : ApprovalRow) : ApprovalRecord :=
  mkApprovalRecord r (effectiveApprovalStatus now r) votes [] None.

(** [RETURNING *, votes_count]. *)
Definition approvalView (r : ApprovalRow) : M ApprovalRecord :=
  let* now := get_now in
  let* votes := votes_count (ap_id r) in
  ret (approvalFromRow now votes r).

Definition last_of {A} (l : list A) : option A := head (rev l).

Definition attachApprovalDetails (orgId : string) (approvals : list ApprovalRecord) :
    M (list ApprovalRecord) :=
  let ids := map (fun a => ap_id (ar_row a)) approvals in
  let* actions := select T_approval_actions
    (fun r => (aa_org_id r =s orgId) && mem (aa_approval_id r) ids) in
  let* consumptions := select T_approval_consumptions
    (fun r => (ac_org_id r =s orgId) && mem (ac_approval_id r) ids) in
  ret (map (fun a => mkApprovalRecord (ar_row a) (ar_status a) (ar_votes_count a)
    (where_ (fun r => aa_approval_id r =s ap_id (ar_row a)) actions)
    (last_of (where_ (fun r => ac_approval_id r =s ap_id (ar_row a)) consumptions))) approvals).

Definition the_approval (orgId approvalId : string) (r : ApprovalRow) : bool :=
  (ap_org_id r =s orgId) && (ap_id r =s approvalId).

Definition getApproval (orgId approvalId : string) : M ApprovalRecord :=
  let* row := select_one T_approval_requests (the_approval orgId approvalId) in
  let* row := some_or row notFound in
  let* record := approvalView row in
  let* detailed := attachApprovalDetails orgId [record] in
  some_or (head detailed) notFound.

Definition listApprovals (orgId : string) : M (list ApprovalRecord) :=
  let* rows := select T_approval_requests (fun r => ap_org_id r =s orgId) in
  let* records := for_each (fun l r => let* x := approvalView r in ret (x :: l)) rows [] in
  attachApprovalDetails orgId records.

(** ** Activity *)

Record ActivityInput : Type := mkActivityInput {
  ai_orgId : string;
  ai_agentId : option string;
  ai_connectionId : option string;
  ai_decisionId : option string;
  ai_approvalId : option string;
  ai_category : ActivityCategory;
  ai_action : string;
  ai_outcome : ActivityOutcome;
  ai_summary : string;
  ai_payload : option json
}.

Definition recordActivity (i : ActivityInput) : M ActivityRow :=
  let* id := prefixedId "act" in
  let* now := get_now in
  let row := mkActivityRow id (ai_orgId i) (ai_agentId i) (ai_connectionId i) (ai_decisionId i)
               (ai_approvalId i) (ai_category i) (ai_action i) (ai_outcome i) (ai_summary i)
               (ai_payload i ?? JObj []) now in
  insert T_activity_items row ;;*
  ret row.

(** What the activities of an approval share. *)
Definition approvalActivity (r : ApprovalRow) (action : string) (outcome : ActivityOutcome)
    (summary : string) (payload : json) : ActivityInput :=
  mkActivityInput (ap_org_id r) (Some (ap_agent_id r)) (Some (ap_connection_id r))
    (Some (ap_decision_id r)) (Some (ap_id r)) Activity_approval action outcome summary (Some payload).

(** What the audit events of an approval share. *)
Definition approvalEvent (r : ApprovalRow) (action : string) (actor_type : AuditActorType)
    (actor_id : string) (outcome : AuditOutcome) (tags : list string) (payload : json) :
    RecordAuditEventInput :=
  {| in_orgId := ap_org_id r;
     in_idempotencyKey := Some (action +:+ ":" +:+ ap_id r);
     in_eventType := action; in_occurredAt := None;
     in_actor_type := actor_type; in_actor_id := Some actor_id;
     in_action := action; in_outcome := outcome; in_reasonCode := None;
     in_resource := Some ("approval"%string, ap_id r);
     in_classification := mkAuditClassification (Some Domain_policy) (Some Category_runtime)
       (Some Severity_info) (Some tags);
     in_relations := mkAuditRelations (Some (ap_agent_id r)) None (Some (ap_connection_id r)) None None None;
     in_requestId := None;
     in_source := mkAuditSource (Some "section_3"%string) (Some "approvals"%string) None;
     in_refs := mkAuditRefs None (Some (ap_decision_id r)) (Some (ap_id r));
     in_externalRefs := None; in_retentionClass := None; in_payload := Some payload |}.

Definition insert_action (orgId approvalId actor_type actor_id : string) (action : ApprovalActionKind)
    (note : string) : M unit :=
  let* id := prefixedId "apact" in
  let* now := get_now in
  insert T_approval_actions (mkApprovalActionRow id approvalId actor_type actor_id action note now orgId).

Section Store.
Context `{Collation} `{Sha256}.

Definition approvalContextHash (action : string) (target_type : PolicyTargetType)
    (target_id : option string) (context : json) : Res string :=
  sha256Hex (JObj [("action", JStr action); ("context", context);
    ("target", JObj [("id", jopt target_id); ("type", JStr (PolicyTargetType_text target_type))])]%string).

(** ** Requests *)

Record CreateApprovalInput : Type := mkCreateApprovalInput {
  cr_orgId : string;
  cr_agentId : string;
  cr_connectionId : string;
  cr_decisionId : string;
  cr_action : string;
  cr_target_type : PolicyTargetType;
  cr_target_id : option string;
  cr_context : json;
  cr_requiredApprovals : option Z
}.

(** [{ type, id? }]: an absent id is no entry. *)
Definition target_object (target_type : PolicyTargetType) (target_id : option string) : json :=
  JObj (("type", JStr (PolicyTargetType_text target_type))
        :: match target_id with Some id => [("id", JStr id)] | None => [] end)%string.

(** [now() + interval '15 minutes']. *)
Definition APPROVAL_WINDOW_MS : Z := 15 * 60 * 1000.

Definition createApprovalRequest (input : CreateApprovalInput) : M ApprovalRecord :=
  withTransaction (
    let* approvalId := prefixedId "apv" in
    let* contextHash := lift (approvalContextHash (cr_action input) (cr_target_type input)
                                (cr_target_id input) (cr_context input)) in
    let* now := get_now in
    let row :=
      {| ap_id := approvalId; ap_org_id := cr_orgId input; ap_agent_id := cr_agentId input;
         ap_connection_id := cr_connectionId input; ap_decision_id := cr_decisionId input;
         ap_status := Approval_pending; ap_action_id := cr_action input;
         ap_target_type := cr_target_type input; ap_target_id := cr_target_id input;
         ap_context := cr_context input; ap_context_hash := contextHash;
         ap_requested_by := cr_connectionId input;
         ap_approved_by := None; ap_approved_at := None; ap_denied_by := None; ap_denied_at := None;
         ap_consumed_at := None; ap_expires_at := now + APPROVAL_WINDOW_MS; ap_note := "";
         ap_required_approvals := cr_requiredApprovals input ?? 1;
         ap_created_at := now; ap_updated_at := now |} in
    insert T_approval_requests row ;;*
    insert_action (cr_orgId input) approvalId "connection" (cr_connectionId input) Action_requested "" ;;*
    recordActivity (approvalActivity row "approval.requested" Act_pending "Approval requested"
      (JObj [("action", JStr (cr_action input));
             ("target", target_object (cr_target_type input) (cr_target_id input))]%string)) ;;*
    recordAuditEvent (approvalEvent row "approval.requested" Actor_connection (cr_connectionId input)
      Outcome_pending ["section_3"; "approval"; "runtime"]%string
      (JObj [("action", JStr (cr_action input)); ("context_hash", JStr contextHash);
             ("target_id", jopt (cr_target_id input));
             ("target_type", JStr (PolicyTargetType_text (cr_target_type input)))]%string)) ;;*
    ret (approvalFromRow now 0 row)).

(** ** Votes *)

Definition pending_now (now : Z) (r : ApprovalRow) : bool :=
  bool_decide (ap_status r = Approval_pending) && (now <? ap_expires_at r).

Definition approval_not_pending : exn := conflict "approval_not_pending".
Definition self_approval_forbidden : exn := IdentityError "self_approval_forbidden" 403.

Definition assertNotSelfApproval (orgId approvalId actorId : string) : M unit :=
  let* now := get_now in
  let* row := select_one T_approval_requests (fun r => the_approval orgId approvalId r && pending_now now r) in
  throw_if (match row with Some r => ap_requested_by r =s actorId | None => false end)
    self_approval_forbidden.

(** A vote; the unique constraint on the approval and the actor turns a
    second vote of one operator into [already_voted]. *)
Definition insert_vote (orgId approvalId actorId note : string) : M unit :=
  let* id := prefixedId "apvote" in
  let* now := get_now in
  catch (insert T_approval_votes (mkApprovalVoteRow id orgId approvalId actorId note now))
    (fun e => match e with
              | PgUniqueViolation => throw (conflict "already_voted")
              | _ => throw e
              end).

Definition votes_text (votes required : Z) : string := to_string votes +:+ "/" +:+ to_string required.

(** The [CASE WHEN $3] assignments of the UPDATE. *)
Definition cast_vote (quorumReached : bool) (actorId note : string) (now : Z) (r : ApprovalRow) : ApprovalRow :=
  set_ap_status (if quorumReached then Approval_approved else ap_status r)
    (set_ap_approved_by (if quorumReached then Some actorId else ap_approved_by r)
    (set_ap_approved_at (if quorumReached then Some now else ap_approved_at r)
    (set_ap_note note (set_ap_updated_at now r)))).

(** The activity of a vote, and the audit event of the one that reaches quorum. *)
Definition announce_vote (row : ApprovalRow) (actorId note : string) (votesCount required : Z)
    (quorumReached : bool) : M unit :=
  let payload := JObj [("note", JStr note); ("votes_count", jint votesCount);
                       ("required_approvals", jint required)]%string in
  if quorumReached then
    recordActivity (approvalActivity row "approval.approved" Act_success
      ("Approval granted (" +:+ votes_text votesCount required +:+ " votes)") payload) ;;*
    recordAuditEvent (approvalEvent row "approval.approved" Actor_user actorId
      Outcome_success ["section_3"; "approval"]%string payload) ;;*
    ret tt
  else
    recordActivity (approvalActivity row "approval.approved" Act_pending
      ("Vote recorded (" +:+ votes_text votesCount required
       +:+ " votes) -- quorum not yet reached") payload) ;;*
    ret tt.

Definition approveApproval (operator : OperatorContext) (orgId approvalId note : string) : M ApprovalRecord :=
  withTransaction (
    let* now := get_now in
    let* existing := select_one T_approval_requests (the_approval orgId approvalId) in
    let* existing := some_or existing approval_not_pending in
    let* existing_votes := votes_count approvalId in
    throw_if (negb (pending_now now existing)) approval_not_pending ;;*
    throw_if (ap_requested_by existing =s op_actorId operator) self_approval_forbidden ;;*
    insert_vote orgId approvalId (op_actorId operator) note ;;*
    insert_action orgId approvalId "user" (op_actorId operator) Action_approved note ;;*
    let votesCount := existing_votes + 1 in
    let quorumReached := ap_required_approvals existing <=? votesCount in
    let* updated := update T_approval_requests (the_approval orgId approvalId)
      (cast_vote quorumReached (op_actorId operator) note now) in
    let* row := some_or (head updated) (PlainError "approval_vote_update_failed") in
    announce_vote row (op_actorId operator) note votesCount (ap_required_approvals existing) quorumReached ;;*
    approvalView row).

Definition deny_row (actorId note : string) (now : Z) (r : ApprovalRow) : ApprovalRow :=
  set_ap_status Approval_denied (set_ap_denied_by (Some actorId)
    (set_ap_denied_at (Some now) (set_ap_note note (set_ap_updated_at now r)))).

Definition denyApproval (operator : OperatorContext) (orgId approvalId note : string) : M ApprovalRecord :=
  withTransaction (
    let* now := get_now in
    let* updated := update T_approval_requests
      (fun r => the_approval orgId approvalId r && pending_now now r
                && negb (ap_requested_by r =s op_actorId operator))
      (deny_row (op_actorId operator) note now) in
    match updated with
    | [] => assertNotSelfApproval orgId approvalId (op_actorId operator) ;;* throw approval_not_pending
    | row :: _ =>
        insert_action orgId approvalId "user" (op_actorId operator) Action_denied note ;;*
        recordActivity (approvalActivity row "approval.denied" Act_denied "Approval denied"
          (JObj [("note", JStr note)]%string)) ;;*
        recordAuditEvent (approvalEvent row "approval.denied" Actor_user (op_actorId operator)
          Outcome_denied ["section_3"; "approval"]%string (JObj [("note", JStr note)]%string)) ;;*
        approvalView row
    end).

(** ** Consumption *)

Record ConnectionAuthResult : Type := mkConnectionAuthResult {
  auth_org_id : string;
  auth_agent_id : string;
  auth_connection_id : string
}.

Definition approval_not_approved : exn := conflict "approval_not_approved".

Definition consume_row (now : Z) (r : ApprovalRow) : ApprovalRow :=
  set_ap_status Approval_consumed (set_ap_consumed_at (Some now) (set_ap_updated_at now r)).

(** The consumption row, the action, the activity and the audit event, after
    the guarded UPDATE; the last two carry the caller's ids. *)
Definition markConsumed (auth : ConnectionAuthResult) (approvalId decisionId contextHash recheckId : string) :
    M ApprovalRecord :=
  withTransaction (
    let* now := get_now in
    let* updated := update T_approval_requests
      (fun r => the_approval (auth_org_id auth) approvalId r && bool_decide (ap_status r = Approval_approved))
      (consume_row now) in
    let* row := some_or (head updated) approval_not_approved in
    let* id := prefixedId "apcons" in
    insert T_approval_consumptions (mkApprovalConsumptionRow id approvalId decisionId
      (auth_connection_id auth) contextHash now (auth_org_id auth)) ;;*
    insert_action (auth_org_id auth) approvalId "connection" (auth_connection_id auth) Action_consumed "" ;;*
    let payload := JObj [("recheck_decision_id", JStr recheckId)]%string in
    recordActivity (mkActivityInput (auth_org_id auth) (Some (auth_agent_id auth))
      (Some (auth_connection_id auth)) (Some decisionId) (Some approvalId) Activity_approval
      "approval.consumed" Act_success "Approval consumed" (Some payload)) ;;*
    recordAuditEvent
      {| in_orgId := auth_org_id auth;
         in_idempotencyKey := Some ("approval.consumed:" +:+ approvalId);
         in_eventType := "approval.consumed"; in_occurredAt := None;
         in_actor_type := Actor_connection; in_actor_id := Some (auth_connection_id auth);
         in_action := "approval.consumed"; in_outcome := Outcome_success; in_reasonCode := None;
         in_resource := Some ("approval"%string, approvalId);
         in_classification := mkAuditClassification (Some Domain_policy) (Some Category_runtime)
           (Some Severity_info) (Some ["section_3"; "approval"; "runtime"]%string);
         in_relations := mkAuditRelations (Some (auth_agent_id auth)) None
           (Some (auth_connection_id auth)) None None None;
         in_requestId := None;
         in_source := mkAuditSource (Some "section_3"%string) (Some "approvals"%string) None;
         in_refs := mkAuditRefs None (Some decisionId) (Some approvalId);
         in_externalRefs := None; in_retentionClass := None; in_payload := Some payload |} ;;*
    approvalView row).

Definition consumeApproval (auth : ConnectionAuthResult) (approvalId decisionId : string) : M ApprovalRecord :=
  let* approval := getApproval (auth_org_id auth) approvalId in
  let row := ar_row approval in
  throw_if (negb (ap_connection_id row =s auth_connection_id auth)
            || negb (ap_agent_id row =s auth_agent_id auth)) forbidden ;;*
  throw_if (negb (ap_decision_id row =s decisionId)) (badRequest "approval_decision_mismatch") ;;*
  throw_if (negb (bool_decide (ar_status approval = Approval_approved))) approval_not_approved ;;*
  let* now := get_now in
  throw_if (ap_expires_at row <=? now) (conflict "approval_expired") ;;*
  let* recheck := checkPolicyDecision
    (mkOperatorContext (auth_connection_id auth) Role_member None (Some (auth_org_id auth)))
    (auth_org_id auth)
    (mkPolicyDecisionRequest "connection" (Some (auth_connection_id auth)) None (ap_action_id row)
       (ap_target_type row) (ap_target_id row) (ap_context row)) in
  throw_if (bool_decide (pr_decision (rd_result recheck) = deny)) forbidden ;;*
  markConsumed auth approvalId decisionId (ap_context_hash row) (rd_id recheck).
End Store.
