(* ===== verification/ApprovalsThms.v ===== *)
(** Theorems on approvals: quorum by distinct operators other than the
    requester, the lifecycle of a request, one consumption per approval, and
    what a refused vote leaves behind. *)

From stdpp Require Import relations.
From S2P Require Import Prelude Errors Usdc Json Identity Policy Schema Host AuditLog AuditChain PolicyStore.
From S2P Require Import PolicyStoreThms Approvals.
Open Scope Z_scope.

(** ** The invariant *)

Definition voters (V : list ApprovalVoteRow) (r : ApprovalRow) : list string :=
  map av_actor_id (where_ (votes_for (ap_id r)) V).
Definition consumptions_of (C : list ApprovalConsumptionRow) (r : ApprovalRow) : list ApprovalConsumptionRow :=
  where_ (fun c => ac_approval_id c =s ap_id r) C.
Definition quorum (V : list ApprovalVoteRow) (r : ApprovalRow) : Prop :=
  ap_required_approvals r <= Z.of_nat (length (voters V r)).

Definition status_ok (V : list ApprovalVoteRow) (C : list ApprovalConsumptionRow) (r : ApprovalRow) : Prop :=
  match ap_status r with
  | Approval_pending => ~ quorum V r /\ consumptions_of C r = []
  | Approval_approved => quorum V r /\ (exists x, ap_approved_by r = Some x /\ In x (voters V r)) /\
                         consumptions_of C r = []
  | Approval_consumed => quorum V r /\ (exists x, ap_approved_by r = Some x /\ In x (voters V r)) /\
                         length (consumptions_of C r) = 1%nat
  | Approval_denied => (exists x, ap_denied_by r = Some x /\ x <> ap_requested_by r) /\
                       consumptions_of C r = []
  | Approval_expired | Approval_cancelled => False
  end.

(** Distinct voters, never the requester, and what the status says of them. *)
Definition request_ok (V : list ApprovalVoteRow) (C : list ApprovalConsumptionRow) (r : ApprovalRow) : Prop :=
  NoDup (voters V r) /\ ~ In (ap_requested_by r) (voters V r) /\ 1 <= ap_required_approvals r /\
  status_ok V C r.

Record approvals_wf (R : list ApprovalRow) (V : list ApprovalVoteRow) (C : list ApprovalConsumptionRow) :
    Prop := mkWf {
  wf_keyed : keyed ap_id R;
  wf_votes : forall v, In v V -> In (av_approval_id v) (map ap_id R);
  wf_consumptions : forall c, In c C -> In (ac_approval_id c) (map ap_id R);
  wf_requests : forall r, In r R -> request_ok V C r
}.

Definition approvals_ok (db : Db) : Prop :=
  approvals_wf (db T_approval_requests) (db T_approval_votes) (db T_approval_consumptions).

Lemma approvals_keeps {A} (m : M A) :
  keeps T_approval_requests m -> keeps T_approval_votes m -> keeps T_approval_consumptions m ->
  preserves approvals_ok m.
Proof. intros H1 H2 H3 w Hw. unfold approvals_ok. rewrite H1, H2, H3. exact Hw. Qed.

Lemma update_rows_ids p f (R : list ApprovalRow) :
  (forall r, ap_id (f r) = ap_id r) -> map ap_id (update_rows p f R) = map ap_id R.
Proof.
  intros Hf. rewrite update_rows_map, map_map. apply map_ext. intros r. by destruct (p r).
Qed.

(** Votes and consumptions of the other requests do not change. *)
Lemma voters_app V v r :
  voters (V ++ [v]) r = voters V r ++ (if votes_for (ap_id r) v then [av_actor_id v] else []).
Proof. unfold voters. rewrite where_app, map_app. cbn. by destruct (votes_for _ _). Qed.

Lemma consumptions_app C c r :
  consumptions_of (C ++ [c]) r = consumptions_of C r ++ (if ac_approval_id c =s ap_id r then [c] else []).
Proof. unfold consumptions_of. rewrite where_app. cbn. by destruct (_ =s _). Qed.

Lemma request_ok_same V C V' C' r :
  voters V' r = voters V r -> consumptions_of C' r = consumptions_of C r ->
  request_ok V C r -> request_ok V' C' r.
Proof. unfold request_ok, status_ok, quorum. by intros -> ->. Qed.

(** ** The four steps *)

Section Steps.
Context (R : list ApprovalRow) (V : list ApprovalVoteRow) (C : list ApprovalConsumptionRow).
Hypothesis Hwf : approvals_wf R V C.

(** A new request: no vote or consumption bears its id. *)
Lemma wf_request r :
  ~ In (ap_id r) (map ap_id R) -> ap_status r = Approval_pending -> 1 <= ap_required_approvals r ->
  approvals_wf (R ++ [r]) V C.
Proof.
  intros Hn Hs Hr. destruct Hwf as [Hk Hv Hc Hok]. split.
  - by apply keyed_insert.
  - intros v Hin. rewrite map_app. apply in_app_iff. left. auto.
  - intros c Hin. rewrite map_app. apply in_app_iff. left. auto.
  - intros r' [Hin|[<-|[]]]%in_app_iff; [auto|].
    assert (Ev : voters V r = []).
    { unfold voters. rewrite where_none; [done|]. intros v Hin. apply eqs_neq. intros E.
      apply Hn. rewrite <-E. auto. }
    assert (Ec : consumptions_of C r = []).
    { apply where_none. intros c Hin. apply eqs_neq. intros E. apply Hn. rewrite <-E. auto. }
    unfold request_ok, status_ok, quorum. rewrite Ev, Ec, Hs. cbn.
    repeat split; [constructor|tauto|done|lia].
Qed.

(** The row of one request changes; the others keep what is said of them. *)
Lemma wf_update p f r V' C' :
  where_ p R = [r] -> (forall r, ap_id (f r) = ap_id r) ->
  (forall v, In v V' -> In v V \/ av_approval_id v = ap_id r) ->
  (forall c, In c C' -> In c C \/ ac_approval_id c = ap_id r) ->
  (forall r', ap_id r' <> ap_id r -> voters V' r' = voters V r' /\ consumptions_of C' r' = consumptions_of C r') ->
  request_ok V' C' (f r) -> approvals_wf (update_rows p f R) V' C'.
Proof.
  intros Hw Hf HV HC Hother Hr. destruct Hwf as [Hk Hv Hc Hok].
  assert (In r R) as Hin by (apply (where_in p); rewrite Hw; by left).
  split; rewrite ?update_rows_ids by done.
  - apply keyed_update; auto.
  - intros v [Hi| ->]%HV; [auto|by apply in_map].
  - intros c [Hi| ->]%HC; [auto|by apply in_map].
  - intros r' [->|[Hi Hne]]%(in_update_one ap_id _ _ _ r); [done| |done..].
    destruct (Hother r' Hne) as [E1 E2]. eapply request_ok_same; eauto.
Qed.

(** A vote on a pending request, which reaches quorum or not. *)
Lemma wf_vote p f r v :
  where_ p R = [r] -> ap_status r = Approval_pending ->
  av_approval_id v = ap_id r -> av_actor_id v <> ap_requested_by r -> ~ In (av_actor_id v) (voters V r) ->
  (forall r, ap_id (f r) = ap_id r /\ ap_requested_by (f r) = ap_requested_by r /\
             ap_required_approvals (f r) = ap_required_approvals r) ->
  (if ap_required_approvals r <=? Z.of_nat (length (where_ (votes_for (ap_id r)) V)) + 1
   then ap_status (f r) = Approval_approved /\ ap_approved_by (f r) = Some (av_actor_id v)
   else ap_status (f r) = Approval_pending) ->
  approvals_wf (update_rows p f R) (V ++ [v]) C.
Proof.
  intros Hw Hs Hv Hne Hnew Hf Hq.
  assert (In r R) as Hin by (apply (where_in p); rewrite Hw; by left).
  destruct (wf_requests _ _ _ Hwf r Hin) as (Hd & Hreq & Hone & Hst).
  unfold status_ok in Hst. rewrite Hs in Hst. destruct Hst as [_ Hc].
  destruct (Hf r) as (Eid & Ereq & Erq).
  assert (Ev : voters (V ++ [v]) (f r) = voters V r ++ [av_actor_id v]).
  { rewrite voters_app, Eid. unfold votes_for. rewrite Hv, eqs_refl. unfold voters. by rewrite Eid. }
  apply (wf_update p f r); [done|apply Hf|..].
  - intros v' [?|[<-|[]]]%in_app_iff; auto.
  - auto.
  - intros r' Hr'. split; [|done]. rewrite voters_app. unfold votes_for. rewrite Hv, eqs_neq by congruence.
    by rewrite app_nil_r.
  - unfold request_ok, status_ok, quorum. rewrite Ev, Ereq, Erq, length_app. cbn [length].
    assert (Ec : consumptions_of C (f r) = []) by (unfold consumptions_of; by rewrite Eid).
    rewrite Ec. split; [|split; [|split]].
    + apply NoDup_app. split; [done|]. split; [|by apply NoDup_singleton].
      intros x Hx ->%list_elem_of_singleton. by apply Hnew, list_elem_of_In.
    + intros [?|[E|[]]]%in_app_iff; [done|]. congruence.
    + done.
    + unfold voters. rewrite length_map. destruct (_ <=? _) eqn:E.
      * destruct Hq as [-> ->]. apply Z.leb_le in E. split; [lia|]. split; [|done].
        exists (av_actor_id v). split; [done|]. apply in_app_iff. right. by left.
      * rewrite Hq. apply Z.leb_gt in E. split; [lia|done].
Qed.

(** A denial of a pending request. *)
Lemma wf_deny p f r :
  where_ p R = [r] -> ap_status r = Approval_pending ->
  (forall r, ap_id (f r) = ap_id r /\ ap_requested_by (f r) = ap_requested_by r /\
             ap_required_approvals (f r) = ap_required_approvals r) ->
  ap_status (f r) = Approval_denied ->
  (exists x, ap_denied_by (f r) = Some x /\ x <> ap_requested_by r) ->
  approvals_wf (update_rows p f R) V C.
Proof.
  intros Hw Hs Hf Hden Hby. assert (In r R) as Hin by (apply (where_in p); rewrite Hw; by left).
  destruct (wf_requests _ _ _ Hwf r Hin) as (Hd & Hreq & Hone & Hst).
  unfold status_ok in Hst. rewrite Hs in Hst. destruct Hst as [_ Hc]. destruct (Hf r) as (Eid & Ereq & Erq).
  apply (wf_update p f r); [done|apply Hf|auto..|].
  unfold request_ok, status_ok, voters, consumptions_of. rewrite Hden, Eid, Ereq, Erq. auto.
Qed.

(** The consumption of an approved request. *)
Lemma wf_consume p f r c :
  where_ p R = [r] -> ap_status r = Approval_approved -> ac_approval_id c = ap_id r ->
  (forall r, ap_id (f r) = ap_id r /\ ap_requested_by (f r) = ap_requested_by r /\
             ap_required_approvals (f r) = ap_required_approvals r /\ ap_approved_by (f r) = ap_approved_by r) ->
  ap_status (f r) = Approval_consumed ->
  approvals_wf (update_rows p f R) V (C ++ [c]).
Proof.
  intros Hw Hs Hc Hf Hcon. assert (In r R) as Hin by (apply (where_in p); rewrite Hw; by left).
  destruct (wf_requests _ _ _ Hwf r Hin) as (Hd & Hreq & Hone & Hst).
  unfold status_ok in Hst. rewrite Hs in Hst. destruct Hst as (Hq & Hby & Hnone).
  destruct (Hf r) as (Eid & Ereq & Erq & Eby).
  apply (wf_update p f r); [done|apply Hf|auto|..].
  - intros c' [?|[<-|[]]]%in_app_iff; auto.
  - intros r' Hr'. split; [done|]. rewrite consumptions_app, Hc, eqs_neq by congruence. by rewrite app_nil_r.
  - assert (Ec : consumptions_of (C ++ [c]) (f r) = [c]).
    { rewrite consumptions_app, Eid, Hc, eqs_refl. unfold consumptions_of in *. by rewrite Eid, Hnone. }
    unfold request_ok, status_ok, quorum. rewrite Hcon, Ec. unfold voters. rewrite Eid, Ereq, Erq, Eby.
    fold (voters V r). split; [done|]. split; [done|]. split; [done|]. split; [exact Hq|]. by split.
Qed.
End Steps.

(** ** Frames *)

Section Frames.
Context (t : table).

Lemma votes_count_keeps i : keeps t (votes_count i).
Proof. unfold votes_count. solve_keeps. Qed.
Lemma insert_action_keeps o i a b k n : t <> T_approval_actions -> keeps t (insert_action o i a b k n).
Proof. intros. unfold insert_action. solve_keeps. Qed.
Lemma recordActivity_keeps i : t <> T_activity_items -> keeps t (recordActivity i).
Proof. intros. unfold recordActivity. solve_keeps. Qed.
Lemma assertNotSelfApproval_keeps o i a : keeps t (assertNotSelfApproval o i a).
Proof. unfold assertNotSelfApproval. solve_keeps. Qed.
Lemma insert_vote_keeps o i a n : t <> T_approval_votes -> keeps t (insert_vote o i a n).
Proof. intros. unfold insert_vote. solve_keeps. Qed.
End Frames.
#[export] Hint Resolve votes_count_keeps insert_action_keeps recordActivity_keeps
  assertNotSelfApproval_keeps insert_vote_keeps : keeps.

Section Frames2.
Context (t : table).
Lemma approvalView_keeps r : keeps t (approvalView r).
Proof. unfold approvalView. solve_keeps. Qed.
Lemma attachApprovalDetails_keeps o l : keeps t (attachApprovalDetails o l).
Proof. unfold attachApprovalDetails. solve_keeps. Qed.
End Frames2.
#[export] Hint Resolve approvalView_keeps attachApprovalDetails_keeps : keeps.

Section Frames3.
Context (t : table).
Lemma getApproval_keeps o i : keeps t (getApproval o i).
Proof. unfold getApproval. solve_keeps. Qed.
End Frames3.
#[export] Hint Resolve getApproval_keeps : keeps.

Lemma announce_vote_keeps `{Collation} `{Sha256} t row a n v r q :
  t <> T_activity_items -> t <> T_audit_events -> t <> T_audit_event_heads ->
  keeps t (announce_vote row a n v r q).
Proof. intros. unfold announce_vote. solve_keeps. Qed.
#[export] Hint Resolve announce_vote_keeps : keeps.

Lemma announce_vote_audited `{Collation} `{Sha256} row a n v r q :
  preserves audit_ok (announce_vote row a n v r q).
Proof. unfold announce_vote. solve_audited. Qed.
#[export] Hint Resolve announce_vote_audited : audited.

Section Audited.
Context `{Collation} `{Sha256}.

Lemma createApprovalRequest_audited i : preserves audit_ok (createApprovalRequest i).
Proof. unfold createApprovalRequest. solve_audited. Qed.
Lemma approveApproval_audited op o i n : preserves audit_ok (approveApproval op o i n).
Proof. unfold approveApproval. solve_audited. Qed.
Lemma denyApproval_audited op o i n : preserves audit_ok (denyApproval op o i n).
Proof. unfold denyApproval. solve_audited. Qed.
Lemma markConsumed_audited a i d c r : preserves audit_ok (markConsumed a i d c r).
Proof. unfold markConsumed. solve_audited. Qed.
End Audited.
#[export] Hint Resolve createApprovalRequest_audited approveApproval_audited denyApproval_audited
  markConsumed_audited : audited.

Lemma consumeApproval_audited `{Collation} `{Sha256} a i d : preserves audit_ok (consumeApproval a i d).
Proof. unfold consumeApproval. solve_audited. Qed.
#[export] Hint Resolve consumeApproval_audited : audited.

(** ** The handlers keep the invariant *)

Lemma the_approval_spec orgId approvalId r :
  the_approval orgId approvalId r = true <-> ap_org_id r = orgId /\ ap_id r = approvalId.
Proof. unfold the_approval. by rewrite andb_true_iff, !eqs_spec. Qed.

Lemma pending_now_spec now r :
  pending_now now r = true <-> ap_status r = Approval_pending /\ now < ap_expires_at r.
Proof. unfold pending_now. by rewrite andb_true_iff, bool_decide_eq_true, Z.ltb_lt. Qed.

(** The request the id names, when it is there, is the only row updated. *)
Lemma the_approval_where orgId approvalId R r :
  keyed ap_id R -> head (where_ (the_approval orgId approvalId) R) = Some r ->
  where_ (the_approval orgId approvalId) R = [r] /\ ap_id r = approvalId /\ ap_org_id r = orgId /\ In r R.
Proof.
  intros Hk [Hin Hp]%where_head. unfold the_approval in Hp. bsimpl. split; [|done].
  apply (keyed_where ap_id); [done..| |].
  - unfold the_approval. by rewrite H, H0, !eqs_refl.
  - intros r' Hr'. unfold the_approval in Hr'. bsimpl. congruence.
Qed.

Lemma request_fresh (r : ApprovalRow) R :
  existsb (clash T_approval_requests r) R = false -> ~ In (ap_id r) (map ap_id R).
Proof.
  intros E (s & Es & Hs)%in_map_iff. apply not_true_iff_false in E. apply E, existsb_exists.
  exists s. split; [done|]. apply eqs_spec. by rewrite Es.
Qed.

Lemma vote_fresh (v : ApprovalVoteRow) V r :
  av_approval_id v = ap_id r -> existsb (clash T_approval_votes v) V = false ->
  ~ In (av_actor_id v) (voters V r).
Proof.
  intros Hv E (u & Eu & Hu)%in_map_iff. apply where_in in Hu as [Hu Hp].
  apply not_true_iff_false in E. apply E, existsb_exists. exists u. split; [done|].
  unfold votes_for in Hp. bsimpl. cbn. rewrite Hv, Eu, Hp, !eqs_refl. apply orb_true_r.
Qed.

Lemma insert_vote_ok orgId approvalId actorId note w u w' :
  insert_vote orgId approvalId actorId note w = (Ok u, w') ->
  exists v, av_approval_id v = approvalId /\ av_actor_id v = actorId /\
    existsb (clash T_approval_votes v) (w_db w T_approval_votes) = false /\
    w_db w' = db_set T_approval_votes (w_db w T_approval_votes ++ [v]) (w_db w).
Proof.
  unfold insert_vote. intros E. minv E. unfold catch in E.
  match type of E with context [insert ?t ?r ?w0] => destruct (insert t r w0) as [[u'|e] w1] eqn:Ei end.
  2: by destruct e.
  injection E as _ <-. apply insert_ok in Ei as (_ & Hc & ->). exists (mkApprovalVoteRow
    ("apvote" +:+ "_" +:+ Digits.to_string (w_next w)) orgId approvalId actorId note (w_now w)).
  split; [done|]. split; [done|]. split; [exact Hc|done].
Qed.

Section Preserved.
Context `{Collation} `{Sha256}.

Lemma createApprovalRequest_ok i : preserves approvals_ok (createApprovalRequest i).
Proof.
  unfold createApprovalRequest. apply preserves_commit. intros w a w' Hw E.
  minv E. unfold approvals_ok. frames.
  apply wf_request; [done|by apply request_fresh|done|].
  match goal with A : check _ _ = true |- _ => by apply Z.leb_le in A end.
Qed.

Lemma approveApproval_ok op orgId approvalId note : preserves approvals_ok (approveApproval op orgId approvalId note).
Proof.
  unfold approveApproval. apply preserves_commit. intros w a w' Hw E.
  minv E.
  match goal with A : head (where_ (the_approval _ _) _) = Some ?e |- _ =>
    rename e into r; destruct (the_approval_where _ _ _ _ (wf_keyed _ _ _ Hw) A) as (Hwh & Hid & Horg & Hin) end.
  match goal with A : insert_vote _ _ _ _ _ = _ |- _ => rename A into Ev end.
  match goal with A : votes_count _ _ = _ |- _ => unfold votes_count in A; minv A end.
  destruct (insert_vote_ok _ _ _ _ _ _ _ Ev) as (v & Hv & Hactor & Hfresh & Edb).
  unfold approvals_ok. frames. rewrite Edb. frames. bsimpl.
  eapply wf_vote; [exact Hw|exact Hwh|..].
  - by eapply pending_now_spec.
  - done.
  - congruence.
  - by apply vote_fresh.
  - done.
  - unfold cast_vote. rewrite Hactor. destruct (_ <=? _); [done|].
    by eapply pending_now_spec.
Qed.

Lemma denyApproval_ok op orgId approvalId note : preserves approvals_ok (denyApproval op orgId approvalId note).
Proof.
  unfold denyApproval. apply preserves_commit. intros w a w' Hw E. minv E.
  destruct (where_ _ _) as [|r l] eqn:Ew in *; cbn [map] in *; [by minv E|]. minv E.
  apply (keyed_where_one ap_id _ _ _ _ approvalId) in Ew as (Hwh & Hin & Hp); [|apply Hw|].
  2:{ intros r' Hr'. bsimpl. by eapply the_approval_spec. }
  unfold approvals_ok. frames. bsimpl.
  eapply wf_deny; [exact Hw|exact Hwh|..]; [by eapply pending_now_spec|done|done|].
  exists (op_actorId op). by split.
Qed.

Lemma markConsumed_ok auth approvalId decisionId contextHash recheckId :
  preserves approvals_ok (markConsumed auth approvalId decisionId contextHash recheckId).
Proof.
  unfold markConsumed. apply preserves_commit. intros w a w' Hw E. minv E.
  destruct (where_ _ _) as [|r l] eqn:Ew in *; cbn [map] in *; [done|].
  apply (keyed_where_one ap_id _ _ _ _ approvalId) in Ew as (Hwh & Hin & Hp); [|apply Hw|].
  2:{ intros r' Hr'. bsimpl. by eapply the_approval_spec. }
  unfold approvals_ok. frames. bsimpl.
  eapply wf_consume; [exact Hw|exact Hwh|..]; [by eapply bool_decide_eq_true| |done|done].
  symmetry. by eapply the_approval_spec.
Qed.

Lemma consumeApproval_ok auth approvalId decisionId :
  preserves approvals_ok (consumeApproval auth approvalId decisionId).
Proof.
  unfold consumeApproval.
  repeat first [apply markConsumed_ok | solve [apply approvals_keeps; solve_keeps]
               | apply preserves_bind; [|intros ?]].
Qed.
End Preserved.
#[export] Hint Resolve createApprovalRequest_ok approveApproval_ok denyApproval_ok consumeApproval_ok : approvals.

(** ** Lifecycle *)

(** What the stored status of a request may become. *)
Inductive status_step : ApprovalStatus -> ApprovalStatus -> Prop :=
| step_approve : status_step Approval_pending Approval_approved
| step_deny : status_step Approval_pending Approval_denied
| step_consume : status_step Approval_approved Approval_consumed.

(** The columns no operation rewrites. *)
Definition same_request (r r' : ApprovalRow) : Prop :=
  ap_id r' = ap_id r /\ ap_org_id r' = ap_org_id r /\ ap_agent_id r' = ap_agent_id r /\
  ap_connection_id r' = ap_connection_id r /\ ap_decision_id r' = ap_decision_id r /\
  ap_action_id r' = ap_action_id r /\ ap_target_type r' = ap_target_type r /\
  ap_target_id r' = ap_target_id r /\ ap_context r' = ap_context r /\
  ap_context_hash r' = ap_context_hash r /\ ap_requested_by r' = ap_requested_by r /\
  ap_expires_at r' = ap_expires_at r /\ ap_required_approvals r' = ap_required_approvals r.

Definition evolves (R R' : list ApprovalRow) : Prop := forall r, In r R ->
  exists r', In r' R' /\ same_request r r' /\ rtc status_step (ap_status r) (ap_status r').

Lemma same_request_refl r : same_request r r.
Proof. by repeat split. Qed.

Lemma evolves_refl R : evolves R R.
Proof. intros r Hr. exists r. split; [done|]. split; [apply same_request_refl|done]. Qed.

Lemma evolves_trans R1 R2 R3 : evolves R1 R2 -> evolves R2 R3 -> evolves R1 R3.
Proof.
  intros H1 H2 r (r2 & (r3 & Hin & Hs' & Hr')%H2 & Hs & Hr)%H1. exists r3. split; [done|].
  unfold same_request in *. split; [intuition congruence|by etrans].
Qed.

Lemma evolves_app R r : evolves R (R ++ [r]).
Proof.
  intros r0 Hr0. exists r0. split; [apply in_app_iff; by left|]. split; [apply same_request_refl|done].
Qed.

Lemma evolves_update p f R :
  (forall r, In r R -> p r = true -> same_request r (f r) /\ rtc status_step (ap_status r) (ap_status (f r))) ->
  evolves R (update_rows p f R).
Proof.
  intros Hf r Hr. exists (if p r then f r else r). split; [apply in_update_rows; eauto|].
  destruct (p r) eqn:E; [by apply Hf|]. split; [apply same_request_refl|done].
Qed.

Section Lifecycle.
Context `{Collation} `{Sha256}.

Local Notation reqs w := (w_db w T_approval_requests) (only parsing).

(** A failing transaction changes nothing; a committed one is looked into. *)
Lemma evolves_commit {A} (m : M A) w :
  (forall a w', m w = (Ok a, w') -> evolves (reqs w) (reqs w')) ->
  evolves (reqs w) (reqs (snd (withTransaction m w))).
Proof.
  intros Hm. destruct (withTransaction m w) as [[a|e] w'] eqn:E; cbn.
  - apply transaction_ok in E. eauto.
  - rewrite (transaction_err _ _ _ _ E). apply evolves_refl.
Qed.

Lemma createApprovalRequest_evolves i w : evolves (reqs w) (reqs (snd (createApprovalRequest i w))).
Proof.
  unfold createApprovalRequest. apply evolves_commit. intros a w' E. minv E. frames. apply evolves_app.
Qed.

Lemma approveApproval_evolves op orgId approvalId note w :
  approvals_ok (w_db w) -> evolves (reqs w) (reqs (snd (approveApproval op orgId approvalId note w))).
Proof.
  intros Hw. unfold approveApproval. apply evolves_commit. intros a w' E. minv E.
  match goal with A : head (where_ (the_approval _ _) _) = Some ?e |- _ =>
    rename e into r; destruct (the_approval_where _ _ _ _ (wf_keyed _ _ _ Hw) A) as (Hwh & Hid & Horg & Hin) end.
  frames. apply evolves_update. intros r' Hr' Hp.
  assert (Hx : In r' (where_ (the_approval orgId approvalId) (w_db w T_approval_requests)))
    by (by apply where_in).
  rewrite Hwh in Hx. destruct Hx as [<-|[]].
  bsimpl. destruct (pending_now_spec (w_now w) r) as [Hpn _]. destruct Hpn as [Hs _]; [done|].
  split; [by repeat split|]. unfold cast_vote. destruct (_ <=? _); cbn; [|done].
  rewrite Hs. apply rtc_once. constructor.
Qed.

Lemma denyApproval_evolves op orgId approvalId note w :
  evolves (reqs w) (reqs (snd (denyApproval op orgId approvalId note w))).
Proof.
  unfold denyApproval. apply evolves_commit. intros a w' E. minv E.
  destruct (where_ _ _) as [|r l] eqn:Ew in *; cbn [map] in *; [by minv E|]. minv E.
  frames. apply evolves_update. intros r' Hr' Hp. split; [by repeat split|]. bsimpl.
  destruct (pending_now_spec (w_now w) r') as [Hpn _]. destruct Hpn as [Hs _]; [done|]. cbn. rewrite Hs.
  apply rtc_once. constructor.
Qed.

Lemma markConsumed_evolves auth i d h c w : evolves (reqs w) (reqs (snd (markConsumed auth i d h c w))).
Proof.
  unfold markConsumed. apply evolves_commit. intros a w' E. minv E.
  frames. apply evolves_update. intros r' Hr' Hp. split; [by repeat split|]. bsimpl.
  match goal with A : bool_decide (ap_status r' = _) = true |- _ => apply bool_decide_eq_true in A as Hs end.
  cbn. rewrite Hs. apply rtc_once. constructor.
Qed.
Lemma evolves_bind {A B} (m : M A) (k : A -> M B) w :
  (forall w, evolves (reqs w) (reqs (snd (m w)))) ->
  (forall a w, evolves (reqs w) (reqs (snd (k a w)))) -> evolves (reqs w) (reqs (snd (bind m k w))).
Proof.
  intros Hm Hk. unfold bind. specialize (Hm w). destruct (m w) as [[a|e] w1]; cbn in *; [|done].
  eapply evolves_trans; [exact Hm|apply Hk].
Qed.

Lemma evolves_keeps {A} (m : M A) w : keeps T_approval_requests m -> evolves (reqs w) (reqs (snd (m w))).
Proof. intros Hm. rewrite Hm. apply evolves_refl. Qed.

Lemma consumeApproval_evolves auth i d w : evolves (reqs w) (reqs (snd (consumeApproval auth i d w))).
Proof.
  revert w. unfold consumeApproval.
  repeat first [apply markConsumed_evolves | solve [intros ?; apply evolves_keeps; solve_keeps]
               | intros ?; apply evolves_bind; [|intros ?]].
Qed.
End Lifecycle.

(** ** Operations *)

Inductive ApprovalOperation : Type :=
| OpRequest (input : CreateApprovalInput)
| OpApprove (operator : OperatorContext) (orgId approvalId note : string)
| OpDeny (operator : OperatorContext) (orgId approvalId note : string)
| OpConsume (auth : ConnectionAuthResult) (approvalId decisionId : string)
| OpPolicy (o : PolicyOperation)
| OpWait (ms : nat).

Definition wait (ms : nat) : M unit := fun w =>
  (Ok tt, mkWorld (w_db w) (w_now w + Z.of_nat ms) (w_next w) (w_calls w)).

Section Run.
Context `{Collation} `{Sha256}.

Definition run_approval (o : ApprovalOperation) : M unit :=
  match o with
  | OpRequest i => createApprovalRequest i ;;* ret tt
  | OpApprove op org i n => approveApproval op org i n ;;* ret tt
  | OpDeny op org i n => denyApproval op org i n ;;* ret tt
  | OpConsume a i d => consumeApproval a i d ;;* ret tt
  | OpPolicy o => run_policy o
  | OpWait ms => wait ms
  end.

(** Any operations in any order, policies changing and time passing between
    them; each may succeed or throw. *)
Definition run_approvals (ops : list ApprovalOperation) (w : World) : World :=
  fold_left (fun w o => snd (run_approval o w)) ops w.

Lemma run_policy_keeps_approvals t o :
  t ∈ [T_approval_requests; T_approval_votes; T_approval_consumptions] -> keeps t (run_policy o).
Proof.
  intros Ht. assert (t <> T_audit_events /\ t <> T_audit_event_heads /\ t <> T_policy_drafts /\
    t <> T_policy_versions /\ t <> T_policy_bindings /\ t <> T_policy_decisions /\
    t <> T_org_onboarding_states) as (?&?&?&?&?&?&?).
  { rewrite !elem_of_cons, elem_of_nil in Ht. destruct Ht as [->|[->|[->|[]]]]; by repeat split. }
  destruct o; cbn [run_policy];
    unfold createPolicyDraft, updatePolicyDraft, discardPolicyDraft, validatePolicyDraft, activatePolicyDraft,
      createPolicyRevisionDraft, createPolicyRestoreDraft, activatePolicyRevisionDraft, bindPolicy,
      removePolicyBinding, archivePolicy;
    solve_keeps.
Qed.

Lemma run_approval_ok o : preserves approvals_ok (run_approval o).
Proof.
  destruct o as [| | | |o|]; cbn [run_approval];
    try (apply preserves_bind; [auto with approvals nocore|intros ?; apply preserves_ret]).
  - apply approvals_keeps; apply run_policy_keeps_approvals; rewrite !elem_of_cons; tauto.
  - by intros w.
Qed.

Lemma run_approval_audited o : preserves audit_ok (run_approval o).
Proof.
  destruct o as [| | | |o|]; cbn [run_approval]; [solve_audited..| |].
  - apply run_policy_audited.
  - by intros w.
Qed.

Lemma run_approvals_invariants ops w :
  approvals_ok (w_db w) -> audit_ok (w_db w) ->
  approvals_ok (w_db (run_approvals ops w)) /\ audit_ok (w_db (run_approvals ops w)).
Proof.
  revert w. induction ops as [|o ops IH]; intros w Ho Ha; [done|]. cbn.
  apply IH; [by apply run_approval_ok|by apply run_approval_audited].
Qed.

Lemma run_approval_evolves o w :
  approvals_ok (w_db w) ->
  evolves (w_db w T_approval_requests) (w_db (snd (run_approval o w)) T_approval_requests).
Proof.
  intros Hw. destruct o as [i|op org i n|op org i n|a i d|o|ms]; cbn [run_approval].
  - apply evolves_bind; [apply createApprovalRequest_evolves|intros; apply evolves_refl].
  - unfold bind. pose proof (approveApproval_evolves op org i n w Hw) as He.
    by destruct (approveApproval op org i n w) as [[]].
  - apply evolves_bind; [apply denyApproval_evolves|intros; apply evolves_refl].
  - apply evolves_bind; [apply consumeApproval_evolves|intros; apply evolves_refl].
  - apply evolves_keeps, run_policy_keeps_approvals. rewrite !elem_of_cons. tauto.
  - apply evolves_refl.
Qed.

Lemma run_approvals_evolve ops w :
  approvals_ok (w_db w) ->
  evolves (w_db w T_approval_requests) (w_db (run_approvals ops w) T_approval_requests).
Proof.
  revert w. induction ops as [|o ops IH]; intros w Hw; [apply evolves_refl|]. cbn.
  eapply evolves_trans; [by apply (run_approval_evolves o w)|]. apply IH. by apply run_approval_ok.
Qed.
End Run.

(** C24: whatever operations run, in whatever order: every request keeps its
    identity, terms, context and deadline; its stored status only moves from
    pending to approved or denied and from approved to consumed; its voters are
    distinct and never the requester; approved and consumed requests have their
    quorum, pending ones do not; consumed requests, and no others, have exactly
    one consumption; the audit chains stay linked, and verify when the
    collation tells the keys of their bodies apart. *)
Theorem approval_lifecycle `{Collation} `{Sha256} (ops : list ApprovalOperation) (w : World) :
  approvals_ok (w_db w) -> audit_ok (w_db w) ->
  let w' := run_approvals ops w in
  (forall r, In r (w_db w T_approval_requests) -> exists r', In r' (w_db w' T_approval_requests) /\
     same_request r r' /\ rtc status_step (ap_status r) (ap_status r')) /\
  (forall r, In r (w_db w' T_approval_requests) ->
     request_ok (w_db w' T_approval_votes) (w_db w' T_approval_consumptions) r) /\
  audit_ok (w_db w') /\
  (CollationLaws -> CollationSeparates -> forall orgId, verifyAuditChain orgId (w_db w') =
    Some (Ok (mkVerifyAuditChainResult true
      (Z.of_nat (length (org_events orgId (w_db w' T_audit_events)))) None None))).
Proof.
  intros Ho Ha w'. destruct (run_approvals_invariants ops w Ho Ha) as [Ho' Ha'].
  split; [by apply run_approvals_evolve|]. split; [by apply Ho'|]. split; [done|].
  intros ? ? orgId. by apply audit_ok_verifies.
Qed.

(** ** Consumption *)

Lemma effective_approved now r :
  effectiveApprovalStatus now r = Approval_approved -> ap_status r = Approval_approved.
Proof. unfold effectiveApprovalStatus. by destruct (_ && _). Qed.

Lemma getApproval_found orgId approvalId w a w' :
  getApproval orgId approvalId w = (Ok a, w') ->
  w' = w /\ head (where_ (the_approval orgId approvalId) (w_db w T_approval_requests)) = Some (ar_row a) /\
  ar_status a = effectiveApprovalStatus (w_now w) (ar_row a).
Proof.
  unfold getApproval, approvalView, votes_count, attachApprovalDetails. intros E. minv E.
  match goal with A : head (map _ _) = Some _ |- _ => injection A as <- end. done.
Qed.

Lemma consumed_is_final s : rtc status_step Approval_consumed s -> s = Approval_consumed.
Proof. intros H. inversion H as [|? y ? Hs]; [done|]. inversion Hs. Qed.

Section Consume.
Context `{Collation} `{Sha256}.

(** A request whose stored status is consumed is never consumed again. *)
Lemma consumed_stays_consumed w r auth decisionId :
  approvals_ok (w_db w) -> In r (w_db w T_approval_requests) -> ap_status r = Approval_consumed ->
  is_ok (fst (consumeApproval auth (ap_id r) decisionId w)) = false.
Proof.
  intros Hw Hin Hs. destruct (consumeApproval _ _ _ _) as [[a|e] w'] eqn:E; [exfalso|done].
  unfold consumeApproval in E. apply bind_ok in E as (x & w1 & Eg & E).
  apply getApproval_found in Eg as (-> & Hx & Hst). minv E. bsimpl.
  match goal with A : bool_decide (ar_status x = _) = true |- _ => apply bool_decide_eq_true in A; rewrite A in Hst end.
  symmetry in Hst. apply effective_approved in Hst.
  apply the_approval_where in Hx as (_ & Hid & _ & Hx); [|apply Hw].
  rewrite (keyed_unique ap_id _ _ _ (wf_keyed _ _ _ Hw) Hx Hin Hid) in Hst. congruence.
Qed.
End Consume.

Lemma markConsumed_requests `{Collation} `{Sha256} auth i d h c w a w' :
  markConsumed auth i d h c w = (Ok a, w') ->
  w_db w' T_approval_requests =
  update_rows (fun r => the_approval (auth_org_id auth) i r && bool_decide (ap_status r = Approval_approved))
    (consume_row (w_now w)) (w_db w T_approval_requests).
Proof. unfold markConsumed. intros E. apply transaction_ok in E. minv E. by frames. Qed.

(** A request consumed before is refused whatever ran since. *)
Lemma consumed_forever `{Collation} `{Sha256} ops w r auth decisionId :
  approvals_ok (w_db w) -> audit_ok (w_db w) ->
  In r (w_db w T_approval_requests) -> ap_status r = Approval_consumed ->
  is_ok (fst (consumeApproval auth (ap_id r) decisionId (run_approvals ops w))) = false.
Proof.
  intros Hw Ha Hr Hs. destruct (run_approvals_evolve ops w Hw r Hr) as (r' & Hr' & Hsame & Hsteps).
  rewrite Hs in Hsteps. apply consumed_is_final in Hsteps. destruct Hsame as [<- _].
  apply consumed_stays_consumed; [|done..]. by apply run_approvals_invariants.
Qed.

(** C15: a consumption succeeds only for the agent and connection that asked, on
    the decision it was asked for, before the deadline, when the policies now
    in effect for the agent's connection do not deny the action on its target in
    its context (a verdict that is recorded), and when at least the required number of
    distinct operators other than the requester had voted; and the same
    approval is never consumed again, whatever happens later. *)
Theorem consumption_needs_quorum_and_happens_once `{Collation} `{Sha256} (auth : ConnectionAuthResult)
    (approvalId decisionId : string) (a : ApprovalRecord) (w w' : World) :
  approvals_ok (w_db w) -> audit_ok (w_db w) ->
  consumeApproval auth approvalId decisionId w = (Ok a, w') ->
  (exists r actors decision policies effect,
     In r (w_db w T_approval_requests) /\ ap_id r = approvalId /\ ap_org_id r = auth_org_id auth /\
     ap_agent_id r = auth_agent_id auth /\ ap_connection_id r = auth_connection_id auth /\
     ap_decision_id r = decisionId /\ ap_status r = Approval_approved /\ w_now w < ap_expires_at r /\
     NoDup actors /\ ~ In (ap_requested_by r) actors /\
     (forall x, In x actors -> exists v, In v (w_db w T_approval_votes) /\
        av_approval_id v = approvalId /\ av_actor_id v = x) /\
     ap_required_approvals r <= Z.of_nat (length actors) /\
     let request := mkPolicyDecisionRequest "connection" (Some (auth_connection_id auth)) None
       (ap_action_id r) (ap_target_type r) (ap_target_id r) (ap_context r) in
     effectivePoliciesForRequest (auth_org_id auth) request w = (Ok policies, w) /\
     fst (orgDefaultPolicyEffect (auth_org_id auth) w) = Ok effect /\
     let verdict := pr_decision (evaluatePolicyDecision request policies (Some effect)) in
     verdict <> deny /\
     w_db w' T_policy_decisions = w_db w T_policy_decisions ++ [decision] /\
     pdec_org_id decision = auth_org_id auth /\ pdec_action_id decision = ap_action_id r /\
     pdec_decision decision = verdict) /\
  forall ops auth' decisionId',
    is_ok (fst (consumeApproval auth' approvalId decisionId' (run_approvals ops w'))) = false.
Proof.
  intros Hw Ha E.
  pose proof (preserves_run _ _ _ _ _ (consumeApproval_ok auth approvalId decisionId) E Hw) as Hw'.
  pose proof (preserves_run _ _ _ _ _ (consumeApproval_audited auth approvalId decisionId) E Ha) as Ha'.
  unfold consumeApproval in E. apply bind_ok in E as (x & w1 & Eg & E).
  apply getApproval_found in Eg as (-> & Hx & Hst). minv E. bsimpl.
  match goal with A : bool_decide (ar_status x = _) = true |- _ => apply bool_decide_eq_true in A; rewrite A in Hst end.
  symmetry in Hst. apply effective_approved in Hst.
  match goal with A : checkPolicyDecision _ _ _ _ = (Ok ?d, _) |- _ => rename A into Ec; rename d into recheck end.
  destruct (checkPolicyDecision_records _ _ _ _ _ _ Ec) as (row & Hdec & _ & Horgd & Hact & Hd & _).
  destruct (checkPolicyDecision_verdict _ _ _ _ _ _ Ec) as (policies & effect & Hpol & Heff & Hres).
  match goal with A : bool_decide (_ = deny) = false |- _ => apply bool_decide_eq_false in A; rename A into Hnd end.
  assert (Hk := wf_keyed _ _ _ Hw).
  apply the_approval_where in Hx as (Hwh & Hid & Horg & Hin); [|done].
  destruct (wf_requests _ _ _ Hw _ Hin) as (Hd1 & Hreq & _ & Hso). unfold status_ok in Hso. rewrite Hst in Hso.
  destruct Hso as (Hq & _).
  split.
  - exists (ar_row x), (voters (w_db w T_approval_votes) (ar_row x)), row, policies, effect.
    repeat (split; [done|]). split; [|split; [exact Hq|]].
    + intros y (v & <- & Hv)%in_map_iff. apply where_in in Hv as [Hv Hp]. exists v. split; [done|].
      unfold votes_for in Hp. bsimpl. split; [congruence|done].
    + cbn zeta. split; [exact Hpol|]. split; [exact Heff|]. rewrite <-Hres. split; [done|].
      split; [|done]. unfold markConsumed in E. apply transaction_ok in E. minv E. frames. by rewrite Hdec.
  - intros ops auth' decisionId'. pose proof (markConsumed_requests _ _ _ _ _ _ _ _ E) as Hreqs.
    keeps_in Ec T_approval_requests as Ekeep. rewrite Ekeep in Hreqs. rewrite <-Hid.
    change (ap_id (ar_row x)) with (ap_id (consume_row (w_now w0) (ar_row x))).
    apply consumed_forever; [done..| |done]. rewrite Hreqs. apply in_update_rows. exists (ar_row x).
    split; [done|]. rewrite bool_decide_true, andb_true_r by done.
    by rewrite (proj2 (the_approval_spec _ _ _)).
Qed.

(** ** Refused votes *)

Definition voted (approvalId actorId : string) (v : ApprovalVoteRow) : bool :=
  votes_for approvalId v && (av_actor_id v =s actorId).

Lemma insert_vote_twice orgId approvalId actorId note w :
  existsb (voted approvalId actorId) (w_db w T_approval_votes) = true ->
  fst (insert_vote orgId approvalId actorId note w) = Err (conflict "already_voted").
Proof.
  intros (v & Hv & Hp)%existsb_exists. unfold insert_vote. cbn [prefixedId bind get_now].
  unfold catch, insert. cbn [check negb w_db].
  enough (existsb (clash T_approval_votes
    (mkApprovalVoteRow ("apvote" +:+ "_" +:+ Digits.to_string (w_next w)) orgId approvalId actorId note (w_now w)))
    (w_db w T_approval_votes) = true) as Hc.
  { unfold bind, prefixedId, get_now. cbn [w_next w_now w_db]. rewrite Hc. done. }
  apply existsb_exists. exists v. split; [done|]. unfold voted, votes_for in Hp. bsimpl. subst.
  cbn. rewrite !eqs_refl. apply orb_true_r.
Qed.

(** C38: a vote on a request that is missing, not pending or past its deadline
    is refused with [approval_not_pending], the requester's with
    [self_approval_forbidden], a second one of the same operator with
    [already_voted]; a refused vote leaves the database as it was. *)
Theorem approveApproval_refusals `{Collation} `{Sha256} (operator : OperatorContext)
    (orgId approvalId note : string) (w : World) :
  let result := approveApproval operator orgId approvalId note w in
  match head (where_ (the_approval orgId approvalId) (w_db w T_approval_requests)) with
  | None => fst result = Err approval_not_pending
  | Some r =>
      if negb (pending_now (w_now w) r) then fst result = Err approval_not_pending
      else if ap_requested_by r =s op_actorId operator then fst result = Err self_approval_forbidden
      else if existsb (voted approvalId (op_actorId operator)) (w_db w T_approval_votes)
      then fst result = Err (conflict "already_voted")
      else True
  end /\
  (forall e, fst result = Err e -> w_db (snd result) = w_db w).
Proof.
  intros result. split.
  2:{ intros e He. destruct result as [x w'] eqn:E. cbn in *. subst x. by eapply transaction_err. }
  unfold result, approveApproval, withTransaction.
  rewrite (bind_run _ _ _ _ _ (eq_refl : get_now w = (Ok (w_now w), w))).
  rewrite (bind_run _ _ _ _ _ (select_one_run T_approval_requests _ w _ eq_refl)).
  destruct (head _) as [r|]; [|done].
  rewrite (bind_run _ _ _ _ _ (eq_refl : some_or (Some r) _ w = (Ok r, w))).
  rewrite (bind_run _ _ _ _ _ (eq_refl : votes_count approvalId w = (Ok _, w))).
  destruct (pending_now _ _); [cbn [negb]; rewrite (bind_run _ _ _ _ _ (throw_if_run _ _))|done].
  destruct (_ =s _); [done|]. destruct (existsb _ _) eqn:Ev; [|done].
  rewrite (bind_run _ _ _ _ _ (throw_if_run _ _)).
  apply (insert_vote_twice orgId _ _ note) in Ev.
  destruct (insert_vote orgId approvalId (op_actorId operator) note w) as [[u|e] w1] eqn:Ei; [done|].
  injection Ev as ->. by rewrite (bind_fail _ _ _ _ _ Ei).
Qed.

(** ** Witnesses *)

Definition sample_voter (id : string) : OperatorContext :=
  mkOperatorContext id Role_operator (Some id) (Some "org_1"%string).
Definition sample_auth : ConnectionAuthResult := mkConnectionAuthResult "org_1" "agt_1" "con_1".

(** The policy of the sample allows the action; two votes are required. *)
Definition approval_ops : list ApprovalOperation :=
  map OpPolicy bound_ops ++
  [OpRequest (mkCreateApprovalInput "org_1" "agt_1" "con_1" "pdec_1" "payment.send" Target_org
     (Some "org_1"%string) (JObj []) (Some 2));
   OpWait 1000;
   OpApprove (sample_voter "usr_1") "org_1" "apv_12" "";
   OpApprove (sample_voter "usr_1") "org_1" "apv_12" "again";
   OpApprove (sample_voter "usr_2") "org_1" "apv_12" ""].

Definition approved_world : World := @run_approvals byte_collation toy_sha256 approval_ops policy_world.

Lemma policy_world_approvals_ok : approvals_ok (w_db policy_world).
Proof. split; cbn; [constructor|done..]. Qed.

Lemma approval_lifecycle_witness :
  (forall r, In r (w_db approved_world T_approval_requests) ->
     request_ok (w_db approved_world T_approval_votes) (w_db approved_world T_approval_consumptions) r) /\
  length (w_db approved_world T_approval_votes) = 2%nat.
Proof.
  split.
  - exact (proj1 (proj2 (@approval_lifecycle byte_collation toy_sha256 approval_ops policy_world
             policy_world_approvals_ok policy_world_audit_ok))).
  - vm_compute. reflexivity.
Defined.

Lemma approved_world_ok : approvals_ok (w_db approved_world) /\
  @audit_ok byte_collation toy_sha256 (w_db approved_world).
Proof.
  exact (@run_approvals_invariants byte_collation toy_sha256 approval_ops policy_world
           policy_world_approvals_ok policy_world_audit_ok).
Qed.

Local Notation consumed :=
  (@consumeApproval byte_collation toy_sha256 sample_auth "apv_12" "pdec_1" approved_world) (only parsing).

Lemma consumption_needs_quorum_and_happens_once_witness : exists a w',
  consumed = (Ok a, w') /\
  forall ops auth' decisionId',
    is_ok (fst (@consumeApproval byte_collation toy_sha256 auth' "apv_12" decisionId'
                  (@run_approvals byte_collation toy_sha256 ops w'))) = false.
Proof.
  destruct (ok_run consumed) as (a & w' & E); [vm_compute; reflexivity|]. exists a, w'. split; [exact E|].
  exact (proj2 (@consumption_needs_quorum_and_happens_once byte_collation toy_sha256 sample_auth "apv_12"
    "pdec_1" a approved_world w' (proj1 approved_world_ok) (proj2 approved_world_ok) E)).
Defined.
