(* ===== verification/IdentityStore.v ===== *)
(** Workspaces, members, teams, agents, connections and wallet references
    ([identity/store.ts], [identity/onboarding-progress.ts]).

    Handlers return rows; the [*FromRow] views that reformat timestamps are
    left out.  A mutation is one transaction; those that decide on rows they do
    not lock ([updateMember], [removeMember], [updateAgent], [archiveTeam]) are
    given as what they read followed by what they write. *)

From S2P Require Import Prelude Errors Usdc Identity Json Redaction Policy Schema Host AuditLog PolicyStore Approvals.
Import Digits.
Open Scope Z_scope.

(** Values of the process: [randomBytes(n).toString('base64url')] of
    [node:crypto], and [NODE_ENV]. *)
Class NodeProcess : Type := {
  random_base64url : World -> Z -> string;
  node_env : string
}.

Definition random_token `{NodeProcess} (n : Z) : M string := fun w =>
  (Ok (random_base64url w n), mkWorld (w_db w) (w_now w) (w_next w + 1) (w_calls w)).

(** [INSERT INTO t VALUES (fresh) ON CONFLICT (key) DO UPDATE SET f RETURNING *],
    [p] the rows with the key of [fresh]. *)
Definition upsert (t : table) (p : row t -> bool) (fresh : row t) (f : row t -> row t) : M (option (row t)) :=
  let* existing := select t p in
  match existing with
  | [] => insert t fresh ;;* ret (Some fresh)
  | _ :: _ => let* updated := update t p f in ret (head updated)
  end.

(** ** JavaScript *)

(** [s.slice(from, to)] for [0 <= from], and [s.slice(-n)]. *)
Definition slice (s : string) (from to : nat) : string := of_chars (firstn (to - from) (skipn from (chars s))).
Definition slice_last (s : string) (n : nat) : string := of_chars (skipn (length (chars s) - n) (chars s)).

(** [a || b] on a text that may be absent. *)
Definition or_else (a : option string) (b : string) : string :=
  match a with Some t => if t =s "" then b else t | None => b end.

(** [email.split('@')[0]]. *)
Fixpoint before_at (l : list ascii) : list ascii :=
  match l with [] => [] | c :: l => if Ascii.eqb c "@" then [] else c :: before_at l end.

(** ** Audit events *)

Definition auditDomainFor (action resourceType : string) : AuditEventDomain :=
  if String.prefix "connection." action || (resourceType =s "connection") then Domain_credential
  else if String.prefix "wallet_ref." action || (resourceType =s "wallet_ref") then Domain_wallet
  else if String.prefix "org." action || String.prefix "team." action || String.prefix "agent." action
          || String.prefix "onboarding." action then Domain_identity
  else Domain_system.

Definition auditTagsFor (action resourceType : string) : list string :=
  dedupe (["section_1"%string]
    ++ (if (resourceType =s "agent") || String.prefix "agent." action then ["agent"%string] else [])
    ++ (if (resourceType =s "team") || String.prefix "team." action then ["team"%string] else [])
    ++ (if (resourceType =s "org") || String.prefix "org." action || String.prefix "onboarding." action
        then ["org"%string] else [])
    ++ (if (resourceType =s "connection") || String.prefix "connection." action
        then ["agent"; "credential"]%string else [])
    ++ (if (resourceType =s "wallet_ref") || String.prefix "wallet_ref." action
        then ["agent"; "wallet_ref"]%string else [])).

(** The agent given, if any, stands beside the resource itself. *)
Definition auditRelationsFor (resourceType id : string) (agent : option string) : AuditRelations :=
  let own t := if resourceType =s t then Some id else None in
  mkAuditRelations (match agent with Some a => Some a | None => own "agent"%string end) (own "team"%string)
    (own "connection"%string) (own "wallet_ref"%string) None None.

Section Store.
Context `{Collation} `{Sha256} `{NodeProcess}.

Definition hashSecret (secret : string) : string := sha256 secret.

Definition issueConnectionSecret : M string :=
  let prefix := if node_env =s "production" then "conn_live_"%string else "conn_test_"%string in
  let* bytes := random_token 24 in
  ret (prefix +:+ bytes).

Definition identity_event (operator : OperatorContext) (orgId action resourceType id key : string)
    (agent : option string) (payload : json) : RecordAuditEventInput :=
  {| in_orgId := orgId; in_idempotencyKey := Some key; in_eventType := action; in_occurredAt := None;
     in_actor_type := Actor_user; in_actor_id := Some (op_actorId operator); in_action := action;
     in_outcome := Outcome_success; in_reasonCode := None; in_resource := Some (resourceType, id);
     in_classification := mkAuditClassification (Some (auditDomainFor action resourceType))
       (Some Category_configuration) (Some Severity_info) (Some (auditTagsFor action resourceType));
     in_relations := auditRelationsFor resourceType id agent;
     in_requestId := None; in_source := mkAuditSource (Some "section_1"%string) (Some "identity"%string) None;
     in_refs := no_refs; in_externalRefs := None; in_retentionClass := None; in_payload := Some payload |}.

Definition recordIdentityEvent (orgId : string) (operator : OperatorContext) (action resourceType id : string)
    (agent : option string) (payload : list (string * json)) : M unit :=
  let* idem := prefixedId "idem" in
  recordAuditEvent (identity_event operator orgId action resourceType id
    (action +:+ ":" +:+ id +:+ ":" +:+ idem) agent (JObj payload)) ;;*
  ret tt.

(** The keys an optional input has. *)
Definition jfield (key : string) (o : option json) : list (string * json) :=
  match o with Some j => [(key, j)] | None => [] end.
Definition jstr (o : option string) : option json := option_map JStr o.
Definition jnullable (o : option (option string)) : option json := option_map jopt o.

(** ** Workspaces *)

Definition getOrg (orgId : string) : M OrgRow :=
  let* org := select_one T_orgs (fun r => org_id r =s orgId) in
  some_or org notFound.

Definition getDefaultTeamId (orgId : string) : M string :=
  let* org := select_one T_orgs (fun r => org_id r =s orgId) in
  some_or (match org with Some r => org_default_team_id r | None => None end) notFound.

Definition is_active_member (userId : string) (m : MemberRow) : bool :=
  (mem_user_id m =s userId) && bool_decide (mem_status m = Member_active).

(** The active workspaces of a user, oldest first. *)
Definition listOrgsForUser (userId : string) : M (list OrgRow) :=
  let* memberships := select T_memberships (is_active_member userId) in
  let* orgs := select T_orgs (fun o => bool_decide (org_status o = Org_active)
    && mem (org_id o) (map mem_org_id memberships)) in
  ret (sort_by (fun a b => le_time_id (org_created_at a, org_id a) (org_created_at b, org_id b)) orgs).

Definition getMembershipRole (orgId userId : string) : M (option Role) :=
  let* row := select_one T_memberships (fun m => (mem_org_id m =s orgId) && is_active_member userId m) in
  ret (option_map mem_role row).

Definition getOrgBySlugForUser (slug userId : string) : M OrgRow :=
  let* memberships := select T_memberships (is_active_member userId) in
  let* org := select_one T_orgs (fun o => eqo (org_slug o) (Some slug) && bool_decide (org_status o = Org_active)
    && mem (org_id o) (map mem_org_id memberships)) in
  some_or org notFound.

Record CreateOrgInput : Type := mkCreateOrgInput {
  co_name : string;
  co_slug : option string;
  co_domain : option string;
  co_primary_use_case : option string;
  co_owner : option (string * string)
}.

Definition org_facts (input : CreateOrgInput) : json :=
  JObj [("domain", jopt (co_domain input)); ("primary_use_case", jopt (co_primary_use_case input))]%string.

(** The slug asked for, or one that is free. *)
Definition choose_slug (orgId : string) (input : CreateOrgInput) : M string :=
  let normalizedSlug := lower (or_else (option_map trim (co_slug input)) (slugifyName (co_name input))) in
  let* taken := select T_orgs (fun o => eqo (org_slug o) (Some normalizedSlug)) in
  ret (match co_slug input, taken with
       | None, _ :: _ => normalizedSlug +:+ "-" +:+ slice orgId 4 12
       | _, _ => normalizedSlug
       end).

Definition insert_org (orgId slug : string) (input : CreateOrgInput) : M unit :=
  let* now := get_now in
  insert T_orgs (mkOrgRow orgId (co_name input) (Some slug) None (org_facts input) Org_active now now default_deny
    false None None None).

(** What both ways of creating a workspace write once its row is there: the
    owner, the default team, the completed onboarding and their events. *)
Definition furnish_org (operator : OperatorContext) (orgId defaultTeamId memberId ownerId slug : string)
    (input : CreateOrgInput) : M OrgRow :=
  let* now := get_now in
  insert T_memberships (mkMemberRow memberId orgId ownerId Role_owner Member_active (Some now) now now) ;;*
  insert T_teams (mkTeamRow defaultTeamId orgId "Default" "" true None now now) ;;*
  let* updated := update T_orgs (fun o => org_id o =s orgId)
    (fun o => set_org_default_team_id (Some defaultTeamId) (set_org_updated_at now o)) in
  let* onboardingId := prefixedId "onb" in
  insert T_org_onboarding_states (mkOnboardingStateRow onboardingId orgId "section_1_foundation" Onboarding_completed
    (org_facts input) (Some now) (Some ownerId) now now) ;;*
  recordIdentityEvent orgId operator "org.created" "org" orgId None
    [("name", JStr (co_name input)); ("slug", JStr slug)]%string ;;*
  recordIdentityEvent orgId operator "team.created" "team" defaultTeamId None
    [("name", JStr "Default"); ("is_default", JBool true)]%string ;;*
  recordIdentityEvent orgId operator "onboarding.completed" "org" orgId None
    [("flow_key", JStr "section_1_foundation")]%string ;;*
  some_or (head updated) (PlainError "org_create_failed").

(** The advisory lock on the actor makes two calls of one user follow each
    other. *)
Definition createOrgForUser (operator : OperatorContext) (input : CreateOrgInput) : M (OrgRow * bool) :=
  withTransaction (
    let* existing := listOrgsForUser (op_actorId operator) in
    match existing with
    | row :: _ => ret (row, false)
    | [] =>
        let* orgId := prefixedId "org" in
        let* defaultTeamId := prefixedId "team" in
        let* memberId := prefixedId "mem" in
        let* slug := choose_slug orgId input in
        insert_org orgId slug input ;;*
        let* org := furnish_org operator orgId defaultTeamId memberId (op_actorId operator) slug input in
        ret (org, true)
    end).

(** [INSERT INTO users ... ON CONFLICT (email) DO UPDATE]. *)
Definition upsert_user (row : UserRow) (f : UserRow -> UserRow) : M unit :=
  upsert T_users (fun u => usr_email u =s usr_email row) row f ;;* ret tt.

Definition user_by_email (email : string) : M (option UserRow) := select_one T_users (fun u => usr_email u =s email).

Definition createOrg (operator : OperatorContext) (input : CreateOrgInput) : M OrgRow :=
  withTransaction (
    let* orgId := prefixedId "org" in
    let* defaultTeamId := prefixedId "team" in
    let* slug := choose_slug orgId input in
    let* userId := prefixedId "usr" in
    let* memberId := prefixedId "mem" in
    let ownerEmail := option_map (fun o => lower (fst o)) (co_owner input) ?? (orgId +:+ "@local.agentops") in
    let ownerName := option_map snd (co_owner input) ?? "Local operator"%string in
    insert_org orgId slug input ;;*
    let* now := get_now in
    upsert_user (mkUserRow userId ownerEmail ownerName None None now now)
      (fun u => set_usr_name ownerName (set_usr_updated_at now u)) ;;*
    let* user := user_by_email ownerEmail in
    let resolvedUserId := option_map usr_id user ?? userId in
    furnish_org operator orgId defaultTeamId memberId resolvedUserId slug input).

(** ** Members *)

(** The join with [users]: a row without its user is not found. *)
Definition getMemberRow (orgId memberId : string) : M (MemberRow * UserRow) :=
  let* row := select_one T_memberships (fun m => (mem_org_id m =s orgId) && (mem_id m =s memberId)) in
  let* row := some_or row notFound in
  let* user := select_one T_users (fun u => usr_id u =s mem_user_id row) in
  let* user := some_or user notFound in
  ret (row, user).

Definition active_owner (orgId : string) (m : MemberRow) : bool :=
  (mem_org_id m =s orgId) && bool_decide (mem_role m = Role_owner) && bool_decide (mem_status m = Member_active).

Definition activeOwnerCount (orgId : string) : M Z :=
  let* owners := select T_memberships (active_owner orgId) in ret (Z.of_nat (length owners)).

Definition assertCanManageOwnerRole (operator : OperatorContext) (role : Role) : M unit :=
  throw_if (bool_decide (role = Role_owner) && negb (bool_decide (op_role operator = Role_owner)))
    forbidden.

Definition last_owner_required : exn := conflict "last_owner_required".

Record AddMemberInput : Type := mkAddMemberInput {
  am_email : string;
  am_name : option string;
  am_role : Role
}.

Definition member_email (input : AddMemberInput) : string := lower (trim (am_email input)).

Definition addMember (operator : OperatorContext) (orgId : string) (input : AddMemberInput) : M MemberRow :=
  withTransaction (
    getOrg orgId ;;*
    assertCanManageOwnerRole operator (am_role input) ;;*
    let email := member_email input in
    let name := or_else (option_map trim (am_name input)) (of_chars (before_at (chars email))) in
    let* userId := prefixedId "usr" in
    let* now := get_now in
    upsert_user (mkUserRow userId email name None None now now)
      (fun u => set_usr_name (or_else (Some name) (usr_name u)) (set_usr_updated_at now u)) ;;*
    let* user := user_by_email email in
    let* user := some_or user (PlainError "member_user_resolve_failed") in
    let* existing := select_one T_memberships (fun m => (mem_org_id m =s orgId) && (mem_user_id m =s usr_id user)) in
    let* memberId := match existing with Some m => ret (mem_id m) | None => prefixedId "mem" end in
    let* row := upsert T_memberships (fun m => (mem_org_id m =s orgId) && (mem_user_id m =s usr_id user))
      (mkMemberRow memberId orgId (usr_id user) (am_role input) Member_active (Some now) now now)
      (fun m => set_mem_role (am_role input) (set_mem_status Member_active
         (set_mem_joined_at (Some (mem_joined_at m ?? now)) (set_mem_updated_at now m)))) in
    recordIdentityEvent orgId operator "member.added" "member" memberId None
      [("email", JStr email); ("role", JStr (Role_text (am_role input)))]%string ;;*
    some_or row (PlainError "member_create_failed")).

(** Reads of [updateMember]: the member, and that an owner who is demoted is
    not the last. *)
Definition updateMember_reads (operator : OperatorContext) (orgId memberId : string) (role : Role) :
    M (MemberRow * UserRow) :=
  let* current := getMemberRow orgId memberId in
  assertCanManageOwnerRole operator (mem_role (fst current)) ;;*
  assertCanManageOwnerRole operator role ;;*
  (if bool_decide (mem_role (fst current) = Role_owner) && negb (bool_decide (role = Role_owner))
      && bool_decide (mem_status (fst current) = Member_active) then
     let* owners := activeOwnerCount orgId in throw_if (owners <=? 1) last_owner_required
   else ret tt) ;;*
  ret current.

Definition updateMember_writes (operator : OperatorContext) (orgId memberId : string) (role : Role)
    (current : MemberRow * UserRow) : M MemberRow :=
  let* now := get_now in
  let* updated := update T_memberships (fun m => (mem_org_id m =s orgId) && (mem_id m =s memberId))
    (fun m => set_mem_role role (set_mem_updated_at now m)) in
  recordIdentityEvent orgId operator "member.role_updated" "member" memberId None
    [("previous_role", JStr (Role_text (mem_role (fst current)))); ("role", JStr (Role_text role))]%string ;;*
  some_or (head updated) notFound.

Definition updateMember (operator : OperatorContext) (orgId memberId : string) (role : Role) : M MemberRow :=
  withTransaction (
    let* current := updateMember_reads operator orgId memberId role in
    updateMember_writes operator orgId memberId role current).

Definition removeMember_reads (operator : OperatorContext) (orgId memberId : string) : M (MemberRow * UserRow) :=
  let* current := getMemberRow orgId memberId in
  assertCanManageOwnerRole operator (mem_role (fst current)) ;;*
  (if bool_decide (mem_role (fst current) = Role_owner) && bool_decide (mem_status (fst current) = Member_active) then
     let* owners := activeOwnerCount orgId in throw_if (owners <=? 1) last_owner_required
   else ret tt) ;;*
  ret current.

Definition removeMember_writes (operator : OperatorContext) (orgId memberId : string)
    (current : MemberRow * UserRow) : M MemberRow :=
  let* now := get_now in
  let* updated := update T_memberships (fun m => (mem_org_id m =s orgId) && (mem_id m =s memberId))
    (fun m => set_mem_status Member_removed (set_mem_updated_at now m)) in
  recordIdentityEvent orgId operator "member.removed" "member" memberId None
    [("email", JStr (usr_email (snd current))); ("role", JStr (Role_text (mem_role (fst current))))]%string ;;*
  some_or (head updated) notFound.

Definition removeMember (operator : OperatorContext) (orgId memberId : string) : M MemberRow :=
  withTransaction (
    let* current := removeMember_reads operator orgId memberId in
    removeMember_writes operator orgId memberId current).

Definition member_status_rank (s : MemberStatus) : Z :=
  match s with Member_active => 1 | Member_invited => 2 | Member_removed => 3 end.
Definition member_role_rank (r : Role) : Z :=
  match r with
  | Role_owner => 1 | Role_admin => 2 | Role_operator => 3 | Role_auditor => 4 | Role_viewer => 5 | Role_member => 6
  end.

(** [ORDER BY] status, role, e-mail. *)
Definition member_le (a b : MemberRow * UserRow) : bool :=
  let key (x : MemberRow * UserRow) := 10 * member_status_rank (mem_status (fst x)) + member_role_rank (mem_role (fst x)) in
  (key a <? key b) || ((key a =? key b) && String.leb (lower (usr_email (snd a))) (lower (usr_email (snd b)))).

Definition listMembers (orgId : string) : M (list (MemberRow * UserRow)) :=
  let* members := select T_memberships (fun m => mem_org_id m =s orgId) in
  let* users := select T_users (fun _ => true) in
  ret (sort_by member_le (flat_map (fun m =>
    map (fun u => (m, u)) (where_ (fun u => usr_id u =s mem_user_id m) users)) members)).

(** ** Onboarding *)

Definition existingUserIdOrNull (operator : OperatorContext) : M (option string) :=
  let* user := select_one T_users (fun u => usr_id u =s (op_userId operator ?? op_actorId operator)) in
  ret (option_map usr_id user).

Definition upsertOnboardingState (operator : OperatorContext) (orgId flowKey : string) (status : OnboardingStatus)
    (payload : json) : M OnboardingStateRow :=
  withTransaction (
    getOrg orgId ;;*
    let* createdBy := existingUserIdOrNull operator in
    let* id := prefixedId "onb" in
    let* now := get_now in
    let completed r := if bool_decide (status = Onboarding_completed) then Some (r ?? now) else None in
    let* row := upsert T_org_onboarding_states (fun r => (onb_org_id r =s orgId) && (onb_flow_key r =s flowKey))
      (mkOnboardingStateRow id orgId flowKey status payload (completed None) createdBy now now)
      (fun r => set_onb_status status (set_onb_payload payload
         (set_onb_completed_at (completed (onb_completed_at r))
         (set_onb_created_by_user_id (match onb_created_by_user_id r with Some u => Some u | None => createdBy end)
         (set_onb_updated_at now r))))) in
    recordIdentityEvent orgId operator "onboarding.state_updated" "org" orgId None
      [("flow_key", JStr flowKey); ("status", JStr (OnboardingStatus_text status))]%string ;;*
    some_or row (PlainError "onboarding_state_upsert_failed")).

(** [LIKE 'prefix%']. *)
Definition like_runtime (action : string) : bool :=
  existsb (fun p => String.prefix p action) ["runtime."; "mcp."; "operation."; "payment.x402"]%string.

(** What an organisation has already done, flow by flow. *)
Definition onboarding_evidence (orgId : string) : M (list (string * bool)) :=
  let* connections := select T_connections (fun c => (cn_org_id c =s orgId) && (cn_status c =s "active")) in
  let* credentials := select T_connection_credentials (fun c => bool_decide (cc_status c = Credential_active)
    && (cc_org_id c =s orgId) && mem (cc_connection_id c) (map cn_id connections)) in
  let* versions := select T_policy_versions (fun v => (pv_org_id v =s orgId) && bool_decide (pv_status v = Version_active)) in
  let* bindings := select T_policy_bindings (fun b => (pb_org_id b =s orgId) && bool_decide (pb_status b = Binding_active)
    && existsb (fun v => (pv_policy_id v =s pb_policy_id b) && (pv_version v =? pb_policy_version b)) versions) in
  let* accounts := select T_agent_payment_accounts (fun a => (acct_org_id a =s orgId)
    && bool_decide (acct_status a = Access_active) && acct_payment_access a) in
  let* activity := select T_activity_items (fun a => (act_org_id a =s orgId) && is_some (act_connection_id a)
    && like_runtime (act_action a)) in
  ret [("agent_setup", negb (bool_decide (credentials = [])));
       ("policy_setup", negb (bool_decide (length bindings = 0%nat)));
       ("payment_access", negb (bool_decide (length accounts = 0%nat)));
       ("runtime_test", negb (bool_decide (length activity = 0%nat)))]%string.

(** [Promise.all]: the statements of different flows touch different rows. *)
Definition reconcileProductOnboardingProgress (orgId : string) : M unit :=
  let* evidence := onboarding_evidence orgId in
  for_each (fun _ flow => completeProductOnboardingFlow orgId (fst flow)
      (JObj [("source", JStr "reconciled_from_product_state")]%string))
    (List.filter snd evidence) tt.

Definition flow_rank (key : string) : Z :=
  match List.find (fun p => fst p =s key)
    [("section_1_foundation", 1); ("section_2_controls", 2); ("section_3_runtime", 3); ("section_4_mcp", 4);
     ("section_5_operations", 5); ("section_6_payments", 6); ("section_7_treasury", 7); ("section_8_wallets", 8);
     ("section_9_live_payments", 9)]%string with
  | Some (_, rank) => rank
  | None => 100
  end.

Definition listOnboardingStates (orgId : string) : M (list OnboardingStateRow) :=
  reconcileProductOnboardingProgress orgId ;;*
  let* rows := select T_org_onboarding_states (fun r => onb_org_id r =s orgId) in
  ret (sort_by (fun a b => (flow_rank (onb_flow_key a) <? flow_rank (onb_flow_key b))
    || ((flow_rank (onb_flow_key a) =? flow_rank (onb_flow_key b)) && (onb_updated_at b <=? onb_updated_at a))) rows).

(** ** Teams *)

Definition the_team (orgId teamId : string) (t : TeamRow) : bool := (tm_id t =s teamId) && (tm_org_id t =s orgId).

Definition ensureTeamInOrg (orgId teamId : string) : M unit :=
  let* teams := select T_teams (fun t => the_team orgId teamId t && negb (is_some (tm_archived_at t))) in
  throw_if (negb (bool_decide (length teams = 1%nat))) notFound.

(** Default team first, then oldest first. *)
Definition listTeams (orgId : string) : M (list TeamRow) :=
  let* teams := select T_teams (fun t => tm_org_id t =s orgId) in
  let le a b := le_time_id (tm_created_at a, tm_id a) (tm_created_at b, tm_id b) in
  ret (sort_by le (where_ tm_is_default teams) ++ sort_by le (where_ (fun t => negb (tm_is_default t)) teams)).

Definition createTeam (operator : OperatorContext) (orgId name : string) (description : option string) : M TeamRow :=
  withTransaction (
    getOrg orgId ;;*
    let* teamId := prefixedId "team" in
    let* now := get_now in
    let row := mkTeamRow teamId orgId name (description ?? ""%string) false None now now in
    insert T_teams row ;;*
    recordIdentityEvent orgId operator "team.created" "team" teamId None [("name", JStr name)]%string ;;*
    ret row).

Definition updateTeam (operator : OperatorContext) (orgId teamId : string) (name description : option string) : M TeamRow :=
  withTransaction (
    let* existing := select_one T_teams (the_team orgId teamId) in
    let* existing := some_or existing notFound in
    throw_if (is_some (tm_archived_at existing)) (conflict "team_archived") ;;*
    let* now := get_now in
    let* updated := update T_teams (the_team orgId teamId)
      (fun t => set_tm_name (name ?? tm_name existing)
        (set_tm_description (description ?? tm_description existing) (set_tm_updated_at now t))) in
    recordIdentityEvent orgId operator "team.updated" "team" teamId None
      (jfield "name" (jstr name) ++ jfield "description" (jstr description)) ;;*
    some_or (head updated) notFound).

Definition archiveTeam (operator : OperatorContext) (orgId teamId : string) : M TeamRow :=
  withTransaction (
    let* existing := select_one T_teams (the_team orgId teamId) in
    let* existing := some_or existing notFound in
    throw_if (tm_is_default existing) (conflict "default_team") ;;*
    let* activeAgents := select T_agents (fun a => (ag_org_id a =s orgId) && (ag_team_id a =s teamId)
      && (ag_status a =s "active")) in
    throw_if (is_some (head activeAgents)) (conflict "team_has_active_agents") ;;*
    let* now := get_now in
    let* updated := update T_teams (the_team orgId teamId)
      (fun t => set_tm_archived_at (Some (tm_archived_at t ?? now)) (set_tm_updated_at now t)) in
    recordIdentityEvent orgId operator "team.archived" "team" teamId None [] ;;*
    some_or (head updated) notFound).

(** ** Agents *)

Definition the_agent (orgId agentId : string) (a : AgentRow) : bool := (ag_id a =s agentId) && (ag_org_id a =s orgId).

Definition getAgentRow (orgId agentId : string) : M AgentRow :=
  let* row := select_one T_agents (the_agent orgId agentId) in
  some_or row notFound.

Definition ensureParentInOrg (orgId : string) (parentAgentId : option string) : M unit :=
  match parentAgentId with
  | Some parent => getAgentRow orgId parent ;;* ret tt
  | None => ret tt
  end.

(** The recursive query: from [cur] up the parents until [agentId] is found
    (its [LIMIT 1] stops there) or there is no row; [None] when it is still
    climbing after [fuel] rows. *)
Fixpoint climb (fuel : nat) (agents : list AgentRow) (orgId agentId : string) (cur : option string) : option bool :=
  match cur with
  | None => Some false
  | Some id =>
      match head (where_ (the_agent orgId id) agents) with
      | None => Some false
      | Some row =>
          if ag_id row =s agentId then Some true else
          match fuel with
          | O => None
          | S fuel => climb fuel agents orgId agentId (ag_parent_agent_id row)
          end
      end
  end.

(** The query does not end on a cycle away from [agentId]. *)
Definition endless_query : exn := PlainError "query_does_not_end".

Definition wouldCreateParentCycle (orgId agentId : string) (parentAgentId : option string) : M bool :=
  let* agents := select T_agents (fun _ => true) in
  some_or (climb (length agents) agents orgId agentId parentAgentId) endless_query.

Definition cleanLabels (labels : option (list string)) : list string :=
  match labels with
  | None => []
  | Some labels => dedupe (firstn 24 (List.filter (fun label => label <>s "") (map trim labels)))
  end.

Record CreateAgentInput : Type := mkCreateAgentInput {
  ca_name : string;
  ca_team_id : option string;
  ca_parent_agent_id : option string;
  ca_description : option string;
  ca_labels : option (list string);
  ca_default_environment : option string;
  ca_metadata : option json
}.

Definition createAgent (operator : OperatorContext) (orgId : string) (input : CreateAgentInput) : M AgentRow :=
  withTransaction (
    let* teamId := match ca_team_id input with Some t => ret t | None => getDefaultTeamId orgId end in
    ensureTeamInOrg orgId teamId ;;*
    ensureParentInOrg orgId (ca_parent_agent_id input) ;;*
    let* agentId := prefixedId "agt" in
    let* now := get_now in
    let row := mkAgentRow agentId orgId teamId (ca_parent_agent_id input) (ca_name input) "active"
      (ca_description input ?? ""%string) (cleanLabels (ca_labels input)) (ca_default_environment input)
      (ca_metadata input ?? JObj []) now now (Some (op_actorId operator)) in
    insert T_agents row ;;*
    recordIdentityEvent orgId operator "agent.registered" "agent" agentId None
      [("name", JStr (ca_name input)); ("labels", JArr (map JStr (cleanLabels (ca_labels input))));
       ("team_id", JStr teamId)]%string ;;*
    ret row).

(** A nullable field may be absent, null or given. *)
Record UpdateAgentInput : Type := mkUpdateAgentInput {
  ua_name : option string;
  ua_team_id : option string;
  ua_parent_agent_id : option (option string);
  ua_description : option string;
  ua_labels : option (list string);
  ua_default_environment : option (option string);
  ua_metadata : option json
}.

Definition update_agent_payload (i : UpdateAgentInput) : list (string * json) :=
  jfield "name" (jstr (ua_name i)) ++ jfield "team_id" (jstr (ua_team_id i))
  ++ jfield "parent_agent_id" (jnullable (ua_parent_agent_id i)) ++ jfield "description" (jstr (ua_description i))
  ++ jfield "labels" (option_map (fun l => JArr (map JStr l)) (ua_labels i))
  ++ jfield "default_environment" (jnullable (ua_default_environment i)) ++ jfield "metadata" (ua_metadata i).

Definition jsonObject (j : json) : json := match j with JObj _ => j | _ => JObj [] end.

(** Reads of [updateAgent]: the agent, its next team and parent, and that the
    parent is not below it. *)
Definition updateAgent_reads (orgId agentId : string) (input : UpdateAgentInput) :
    M (AgentRow * string * option string) :=
  let* existing := getAgentRow orgId agentId in
  let teamId := ua_team_id input ?? ag_team_id existing in
  let parentAgentId := ua_parent_agent_id input ?? ag_parent_agent_id existing in
  ensureTeamInOrg orgId teamId ;;*
  ensureParentInOrg orgId parentAgentId ;;*
  let* cycle := wouldCreateParentCycle orgId agentId parentAgentId in
  throw_if cycle (conflict "parent_cycle") ;;*
  ret (existing, teamId, parentAgentId).

Definition updateAgent_writes (operator : OperatorContext) (orgId agentId : string) (input : UpdateAgentInput)
    (found : AgentRow * string * option string) : M AgentRow :=
  let '(existing, teamId, parentAgentId) := found in
  let* now := get_now in
  let* updated := update T_agents (the_agent orgId agentId) (fun a =>
    set_ag_team_id teamId (set_ag_parent_agent_id parentAgentId (set_ag_name (ua_name input ?? ag_name existing)
    (set_ag_description (ua_description input ?? ag_description existing)
    (set_ag_labels (match ua_labels input with None => ag_labels existing | Some l => cleanLabels (Some l) end)
    (set_ag_default_environment (ua_default_environment input ?? ag_default_environment existing)
    (set_ag_metadata (match ua_metadata input with None => jsonObject (ag_metadata existing) | Some j => j end)
    (set_ag_updated_at now a)))))))) in
  recordIdentityEvent orgId operator "agent.updated" "agent" agentId None (update_agent_payload input) ;;*
  some_or (head updated) notFound.

Definition updateAgent (operator : OperatorContext) (orgId agentId : string) (input : UpdateAgentInput) : M AgentRow :=
  withTransaction (
    let* found := updateAgent_reads orgId agentId input in
    updateAgent_writes operator orgId agentId input found).

Inductive SettableStatus : Type := Set_active | Set_paused | Set_deactivated.
Definition SettableStatus_text (s : SettableStatus) : string :=
  match s with Set_active => "active" | Set_paused => "paused" | Set_deactivated => "deactivated" end.
Definition status_action (s : SettableStatus) : string :=
  match s with Set_active => "agent.activated" | Set_paused => "agent.paused" | Set_deactivated => "agent.deactivated" end.

Definition setAgentStatus (operator : OperatorContext) (orgId agentId : string) (status : SettableStatus) : M AgentRow :=
  withTransaction (
    getAgentRow orgId agentId ;;*
    let* now := get_now in
    let* updated := update T_agents (the_agent orgId agentId)
      (fun a => set_ag_status (SettableStatus_text status) (set_ag_updated_at now a)) in
    recordIdentityEvent orgId operator (status_action status) "agent" agentId None [] ;;*
    some_or (head updated) notFound).

(** ** Connections *)

Definition by_created {A} (created : A -> Z) (id : A -> string) (a b : A) : bool :=
  le_time_id (created a, id a) (created b, id b).

Definition listConnections (orgId agentId : string) : M (list ConnectionRow) :=
  getAgentRow orgId agentId ;;*
  let* rows := select T_connections (fun c => (cn_org_id c =s orgId) && (cn_agent_id c =s agentId)) in
  ret (sort_by (by_created cn_created_at cn_id) rows).

Definition insert_credential (orgId connectionId secret : string) : M unit :=
  let* id := prefixedId "ccred" in
  let* now := get_now in
  insert T_connection_credentials (mkCredentialRow id orgId connectionId (hashSecret secret) Credential_active now None).

Definition createConnection (operator : OperatorContext) (orgId agentId : string) (kind : ConnectionKind)
    (name : string) : M (ConnectionRow * option string) :=
  withTransaction (
    let* agent := getAgentRow orgId agentId in
    throw_if ((ag_status agent =s "deactivated") || (ag_status agent =s "retired")) (conflict "agent_inactive") ;;*
    let* connectionId := prefixedId "conn" in
    let* secret :=
      (if bool_decide (kind = Kind_manual_observe) then ret None else let* s := issueConnectionSecret in ret (Some s)) in
    let secretLast4 := option_map (fun s => slice_last s 4) secret in
    let* now := get_now in
    let row := mkConnectionRow connectionId orgId agentId kind name "active" secretLast4 (Some now) None now now
      (Some (op_actorId operator)) (Some now) None in
    insert T_connections row ;;*
    match secret with Some s => insert_credential orgId connectionId s | None => ret tt end ;;*
    recordIdentityEvent orgId operator "connection.created" "connection" connectionId (Some agentId)
      [("agent_id", JStr agentId); ("connection_id", JStr connectionId); ("kind", JStr (ConnectionKind_text kind));
       ("display_name", JStr name); ("last4", jopt secretLast4)]%string ;;*
    completeProductOnboardingFlow orgId "agent_setup" (JObj
      [("agent_id", JStr agentId); ("connection_id", JStr connectionId); ("source", JStr "connection_created")]%string) ;;*
    ret (row, secret)).

Definition the_connection (orgId connectionId : string) (c : ConnectionRow) : bool :=
  (cn_org_id c =s orgId) && (cn_id c =s connectionId).

Definition testConnection (orgId connectionId : string) : M ConnectionRow :=
  withTransaction (
    let* now := get_now in
    let* updated := update T_connections (fun c => the_connection orgId connectionId c && (cn_status c =s "active"))
      (fun c => set_cn_last_tested_at (Some now) (set_cn_updated_at now c)) in
    some_or (head updated) notFound).

Definition revoke_credentials (orgId connectionId : string) : M unit :=
  let* now := get_now in
  update T_connection_credentials (fun c => (cc_org_id c =s orgId) && (cc_connection_id c =s connectionId)
      && bool_decide (cc_status c = Credential_active))
    (fun c => set_cc_status Credential_revoked (set_cc_revoked_at (Some (cc_revoked_at c ?? now)) c)) ;;*
  ret tt.

Definition rotateConnection (operator : OperatorContext) (orgId connectionId : string) : M (ConnectionRow * string) :=
  withTransaction (
    let* existing := select_one T_connections (fun c => the_connection orgId connectionId c && (cn_status c =s "active")) in
    let* existing := some_or existing notFound in
    throw_if (bool_decide (cn_kind existing = Kind_manual_observe)) (badRequest "observe_only_connection") ;;*
    revoke_credentials orgId connectionId ;;*
    let* secret := issueConnectionSecret in
    insert_credential orgId connectionId secret ;;*
    let* now := get_now in
    let* updated := update T_connections (the_connection orgId connectionId)
      (fun c => set_cn_secret_last4 (Some (slice_last secret 4)) (set_cn_secret_revealed_at (Some now)
        (set_cn_last_tested_at (Some now) (set_cn_updated_at now c)))) in
    let* row := some_or (head updated) notFound in
    recordIdentityEvent orgId operator "connection.rotated" "connection" connectionId (Some (cn_agent_id existing))
      [("agent_id", JStr (cn_agent_id existing)); ("connection_id", JStr connectionId);
       ("kind", JStr (ConnectionKind_text (cn_kind existing))); ("display_name", JStr (cn_name existing));
       ("previous_last4", jopt (cn_secret_last4 existing)); ("new_last4", jopt (cn_secret_last4 row))]%string ;;*
    ret (row, secret)).

Definition revokeConnection (operator : OperatorContext) (orgId connectionId : string) : M ConnectionRow :=
  withTransaction (
    let* now := get_now in
    let* updated := update T_connections (the_connection orgId connectionId)
      (fun c => set_cn_status "revoked" (set_cn_revoked_at (Some (cn_revoked_at c ?? now)) (set_cn_updated_at now c))) in
    let* row := some_or (head updated) notFound in
    revoke_credentials orgId connectionId ;;*
    recordIdentityEvent orgId operator "connection.revoked" "connection" connectionId (Some (cn_agent_id row))
      [("agent_id", JStr (cn_agent_id row)); ("connection_id", JStr connectionId);
       ("kind", JStr (ConnectionKind_text (cn_kind row))); ("display_name", JStr (cn_name row));
       ("last4", jopt (cn_secret_last4 row))]%string ;;*
    ret row).

(** The rows the query of [authenticateConnection] joins: a live credential
    with the hash of the token, its live connection, its active agent. *)
Definition authenticated_by (token : string) (credentials : list CredentialRow) (connections : list ConnectionRow)
    (agents : list AgentRow) : list ConnectionAuthResult :=
  flat_map (fun cc =>
    flat_map (fun c =>
      map (fun _ => mkConnectionAuthResult (cn_org_id c) (cn_agent_id c) (cn_id c))
        (where_ (fun a => (ag_id a =s cn_agent_id c) && (ag_org_id a =s cn_org_id c) && (ag_status a =s "active")) agents))
      (where_ (fun c => (cn_id c =s cc_connection_id cc) && (cn_org_id c =s cc_org_id cc) && (cn_status c =s "active"))
        connections))
    (where_ (fun cc => (cc_secret_hash cc =s hashSecret token) && bool_decide (cc_status cc = Credential_active)) credentials).

Definition authenticateConnection (token : string) : M (option ConnectionAuthResult) :=
  let* credentials := select T_connection_credentials (fun _ => true) in
  let* connections := select T_connections (fun _ => true) in
  let* agents := select T_agents (fun _ => true) in
  match authenticated_by token credentials connections agents with
  | [] => ret None
  | auth :: _ =>
      let* now := get_now in
      update T_connections (fun c => cn_id c =s auth_connection_id auth)
        (fun c => set_cn_last_used_at (Some now) (set_cn_last_tested_at (Some (cn_last_tested_at c ?? now))
          (set_cn_updated_at now c))) ;;*
      ret (Some auth)
  end.

(** ** Wallet references *)

Definition listWalletRefs (orgId agentId : string) : M (list WalletRefRow) :=
  getAgentRow orgId agentId ;;*
  let* rows := select T_wallet_refs (fun r => (wr_org_id r =s orgId) && (wr_agent_id r =s agentId)
    && bool_decide (wr_status r = Ref_attached)) in
  ret (sort_by (by_created wr_attached_at wr_id) rows).

Record AttachWalletRefInput : Type := mkAttachWalletRefInput {
  aw_provider : string;
  aw_external_wallet_id : option string;
  aw_address : option string;
  aw_chain : option string;
  aw_label : option string
}.

Definition attachWalletRef (operator : OperatorContext) (orgId agentId : string) (input : AttachWalletRefInput) :
    M WalletRefRow :=
  withTransaction (
    getAgentRow orgId agentId ;;*
    let* walletRefId := prefixedId "wref" in
    let* now := get_now in
    let row := mkWalletRefRow walletRefId orgId agentId (aw_provider input) (aw_external_wallet_id input)
      (aw_address input) (aw_chain input) (aw_label input ?? ""%string) Ref_attached now None in
    catch (
      insert T_wallet_refs row ;;*
      recordIdentityEvent orgId operator "wallet_ref.attached" "wallet_ref" walletRefId (Some agentId)
        [("agent_id", JStr agentId); ("provider", JStr (aw_provider input)); ("chain", jopt (aw_chain input))]%string ;;*
      ret row)
    (fun e => throw (match e with PgUniqueViolation => conflict "duplicate_wallet_ref" | e => e end))).

Definition detachWalletRef (operator : OperatorContext) (orgId agentId walletRefId : string) : M WalletRefRow :=
  withTransaction (
    getAgentRow orgId agentId ;;*
    let* now := get_now in
    let* updated := update T_wallet_refs
      (fun r => (wr_org_id r =s orgId) && (wr_agent_id r =s agentId) && (wr_id r =s walletRefId))
      (fun r => set_wr_status Ref_detached (set_wr_detached_at (Some (wr_detached_at r ?? now)) r)) in
    let* row := some_or (head updated) notFound in
    recordIdentityEvent orgId operator "wallet_ref.detached" "wallet_ref" walletRefId (Some agentId) [] ;;*
    ret row).
End Store.
