(* ===== verification/Attempts.v ===== *)
(** Payment attempts ([payments/x402-attempt-store.ts]): one row per
    connection and idempotency key, its status transitions, the retention of
    the encrypted result, the cancellation of stranded reservations and the
    release of a reservation on proof. *)

From S2P Require Import Prelude Errors Usdc Json Policy Quotes ResultCrypto Schema Host Ledger.
Open Scope Z_scope.

(** ** Inputs *)

Record CreateX402AttemptInput : Type := mkCreateX402AttemptInput {
  ca_orgId : string;
  ca_agentId : string;
  ca_connectionId : string;
  ca_sourceId : string;
  ca_idempotencyKey : string;
  ca_requestHash : string;
  ca_quoteHash : string;
  ca_amountUsdc : Z;
  ca_asset : string;
  ca_rail : PaymentRail;
  ca_network : string;
  ca_recipient : string
}.

Record X402AttemptScope : Type := mkX402AttemptScope {
  sc_connectionId : string;
  sc_orgId : string
}.

Record X402AttemptFinalizationInput (T : Type) : Type := mkFinalizationInput {
  fi_paymentMetadata : option X402PaymentMetadata;
  fi_responseMetadata : option X402SafeResponseMetadata;
  fi_result : option T
}.
Arguments fi_paymentMetadata {T} _.
Arguments fi_responseMetadata {T} _.
Arguments fi_result {T} _.

(** ** Helpers *)

Definition stateConflict : exn := conflict "payment_attempt_state_conflict".
Definition scopeInvalid : exn := IdentityError "payment_attempt_scope_invalid" 404.

Definition MAX_SAFE_INTEGER : Z := 2 ^ 53 - 1.

(** The types leave the ranges to check. *)
Definition validateResponseMetadata (metadata : option X402SafeResponseMetadata) : Res unit :=
  match metadata with
  | None => Ok tt
  | Some m =>
      if negb (when_some (rmeta_contentLength m) (fun n => (0 <=? n) && (n <=? MAX_SAFE_INTEGER)))
         || negb (when_some (rmeta_statusCode m) (fun n => (100 <=? n) && (n <=? 599)))
      then Err (PlainError "payment_attempt_unsafe_response_metadata") else Ok tt
  end.

(** A row as the caller gets it: the envelope is validated again. *)
Definition attemptFromRow (r : X402AttemptRow) : Res X402AttemptRow :=
  match att_encrypted_result r with
  | None => Ok r
  | Some e => let? _ := validateX402ResultEnvelope (envelope_json e) in Ok r
  end.

(** [pool instanceof pg.Pool] or a client inside a transaction. *)
Definition transaction {A} (pooled : bool) (operation : M A) : M A :=
  if pooled then withTransaction operation else operation.

Definition the_attempt (orgId connectionId attemptId : string) (r : X402AttemptRow) : bool :=
  (att_id r =s attemptId) && (att_org_id r =s orgId) && eqo (att_connection_id r) (Some connectionId).

Definition attempt_key (connectionId idempotencyKey : string) (r : X402AttemptRow) : bool :=
  eqo (att_connection_id r) (Some connectionId) && (att_idempotency_key r =s idempotencyKey).

Definition result_expired (now : Z) (r : X402AttemptRow) : bool :=
  match att_result_expires_at r with Some t => t <=? now | None => false end.

Definition scrub (now : Z) (r : X402AttemptRow) : X402AttemptRow :=
  set_att_encrypted_result None (set_att_result_expires_at None (set_att_updated_at now r)).

(** [UPDATE ... SET status WHERE scope AND status = required RETURNING]: 404
    outside the scope, 409 in another status. *)
Definition transition (scope : X402AttemptScope) (attemptId : string) (required : X402AttemptStatus)
    (f : X402AttemptRow -> X402AttemptRow) : M X402AttemptRow :=
  let mine := the_attempt (sc_orgId scope) (sc_connectionId scope) attemptId in
  let* updated := update T_runtime_payment_attempts
    (fun r => mine r && bool_decide (att_status r = required)) f in
  match updated with
  | [] =>
      let* scoped := select_one T_runtime_payment_attempts mine in
      match scoped with
      | None => throw scopeInvalid
      | Some _ => throw stateConflict
      end
  | row :: _ => lift (attemptFromRow row)
  end.

(** [now() + interval '15 minutes']. *)
Definition RESULT_RETENTION_MS : Z := 15 * 60 * 1000.

(** What a finalization writes: absent metadata and an absent result leave the
    columns alone. *)
Record FinalizationValues : Type := mkFinalizationValues {
  fv_payment : option X402PaymentMetadata;
  fv_response : option X402SafeResponseMetadata;
  fv_result : option X402ResultEnvelope
}.

Definition finalize_row (status : X402AttemptStatus) (v : FinalizationValues) (error : option string)
    (now : Z) (r : X402AttemptRow) : X402AttemptRow :=
  set_att_status status
    (set_att_payment_metadata (fv_payment v ?? att_payment_metadata r)
    (set_att_response_metadata (fv_response v ?? att_response_metadata r)
    (set_att_encrypted_result (match fv_result v with Some e => Some e | None => att_encrypted_result r end)
    (set_att_result_expires_at
       (match fv_result v with Some _ => Some (now + RESULT_RETENTION_MS) | None => att_result_expires_at r end)
    (set_att_error_code error (set_att_finalized_at (Some now) (set_att_updated_at now r))))))).

Definition submitting_row (now : Z) (r : X402AttemptRow) : X402AttemptRow :=
  set_att_status Attempt_submitting (set_att_submitted_at (Some now) (set_att_updated_at now r)).

(** ** Reading, creating *)

(** The CTE: the row with an expired result is scrubbed first and returned
    scrubbed. *)
Definition findAttempt (connectionId idempotencyKey : string) : M (option X402AttemptRow) :=
  let* now := get_now in
  let key := attempt_key connectionId idempotencyKey in
  let* scrubbed := update T_runtime_payment_attempts (fun r => key r && result_expired now r) (scrub now) in
  let* row :=
    match scrubbed with
    | r :: _ => ret (Some r)
    | [] => select_one T_runtime_payment_attempts key
    end in
  match row with
  | None => ret None
  | Some r => let* a := lift (attemptFromRow r) in ret (Some a)
  end.

Definition new_attempt (input : CreateX402AttemptInput) (id : string) (now : Z) : X402AttemptRow :=
  {| att_id := id; att_org_id := ca_orgId input; att_agent_id := ca_agentId input;
     att_connection_id := Some (ca_connectionId input); att_source_id := Some (ca_sourceId input);
     att_idempotency_key := ca_idempotencyKey input; att_request_hash := ca_requestHash input;
     att_quote_hash := Some (ca_quoteHash input); att_amount_usdc := Some (ca_amountUsdc input);
     att_asset := Some (ca_asset input); att_rail := Some (ca_rail input);
     att_network := Some (ca_network input); att_recipient := Some (ca_recipient input);
     att_status := Attempt_reserved;
     att_payment_metadata := mkX402PaymentMetadata None None None None None None None None None None;
     att_response_metadata := mkX402SafeResponseMetadata None None None;
     att_encrypted_result := None; att_result_expires_at := None; att_error_code := None;
     att_created_at := now; att_updated_at := now; att_submitted_at := None; att_finalized_at := None |}.

(** The connection, its agent and the source belong to the tenant. *)
Definition valid_scope (input : CreateX402AttemptInput) : M bool :=
  let* connections := select T_connections (fun c =>
    (cn_id c =s ca_connectionId input) && (cn_org_id c =s ca_orgId input)
    && (cn_agent_id c =s ca_agentId input)) in
  let* agents := select T_agents (fun a =>
    (ag_id a =s ca_agentId input) && (ag_org_id a =s ca_orgId input)) in
  let* sources := select T_payment_sources (fun s =>
    (psrc_id s =s ca_sourceId input) && (psrc_org_id s =s ca_orgId input)) in
  ret (match connections, agents, sources with _ :: _, _ :: _, _ :: _ => true | _, _, _ => false end).

(** The row of a key that is taken: the same request gets it back, without a
    result whose retention is over. *)
Definition replay_attempt (input : CreateX402AttemptInput) : M X402AttemptRow :=
  let* now := get_now in
  let* existing := select_one T_runtime_payment_attempts
    (attempt_key (ca_connectionId input) (ca_idempotencyKey input)) in
  let* row := some_or existing (PlainError "payment_attempt_idempotency_row_missing") in
  throw_if (negb (att_request_hash row =s ca_requestHash input)) (conflict "payment_idempotency_conflict") ;;*
  let* scrubbed := update T_runtime_payment_attempts
    (fun r => (att_id r =s att_id row) && result_expired now r) (scrub now) in
  lift (attemptFromRow (head scrubbed ?? row)).

(** [ON CONFLICT (connection_id, idempotency_key) DO NOTHING]: only that
    constraint; a clash of ids would be an error. *)
Definition insert_attempt (r : X402AttemptRow) : M bool :=
  let* taken := select T_runtime_payment_attempts (fun s => attempt_clash r s && negb (att_id r =s att_id s)) in
  match taken with
  | _ :: _ => ret false
  | [] => insert T_runtime_payment_attempts r ;;* ret true
  end.

Definition createAttempt (pooled : bool) (input : CreateX402AttemptInput) : M X402AttemptRow :=
  transaction pooled (
    let* valid := valid_scope input in
    throw_if (negb valid) scopeInvalid ;;*
    let* id := prefixedId "rpa" in
    let* now := get_now in
    let row := new_attempt input id now in
    let* inserted := insert_attempt row in
    if inserted : bool then lift (attemptFromRow row) else replay_attempt input).

(** ** Transitions *)

Definition markSubmitting (scope : X402AttemptScope) (attemptId : string) : M X402AttemptRow :=
  let* now := get_now in
  transition scope attemptId Attempt_reserved (submitting_row now).

Section Store.
Context {T : Type} `{X402ResultCryptoCodec T}.

Definition crypto_context (scope : X402AttemptScope) (attemptId : string) : X402ResultCryptoContext :=
  mkCryptoContext attemptId (sc_connectionId scope) (sc_orgId scope).

(** A fresh initialisation vector per call: the id supply. *)
Definition fresh_iv : M Z := fun w =>
  (Ok (w_next w), mkWorld (w_db w) (w_now w) (w_next w + 1) (w_calls w)).

Definition finalizationValues (scope : X402AttemptScope) (attemptId : string)
    (input : X402AttemptFinalizationInput T) : M FinalizationValues :=
  lift (validateResponseMetadata (fi_responseMetadata input)) ;;*
  let* encryptedResult :=
    match fi_result input with
    | None => ret None
    | Some result =>
        let* iv := fresh_iv in
        let* e := lift (validateX402ResultEnvelope (envelope_json
          (encrypt (crypto_context scope attemptId) result iv))) in
        ret (Some e)
    end in
  ret (mkFinalizationValues (fi_paymentMetadata input) (fi_responseMetadata input) encryptedResult).

Definition finalize (scope : X402AttemptScope) (attemptId : string) (required status : X402AttemptStatus)
    (error : option string) (input : X402AttemptFinalizationInput T) : M X402AttemptRow :=
  let* values := finalizationValues scope attemptId input in
  let* now := get_now in
  transition scope attemptId required (finalize_row status values error now).

Definition finalizeSettled (scope : X402AttemptScope) (attemptId : string)
    (input : X402AttemptFinalizationInput T) : M X402AttemptRow :=
  finalize scope attemptId Attempt_submitting Attempt_settled None input.

Definition finalizeFailed (scope : X402AttemptScope) (attemptId errorCode : string)
    (providerCallMade : bool) (input : X402AttemptFinalizationInput T) : M X402AttemptRow :=
  finalize scope attemptId (if providerCallMade then Attempt_submitting else Attempt_reserved)
    Attempt_failed (Some errorCode) input.

Definition finalizeUnknown (scope : X402AttemptScope) (attemptId errorCode : string)
    (input : X402AttemptFinalizationInput T) : M X402AttemptRow :=
  finalize scope attemptId Attempt_submitting Attempt_unknown (Some errorCode) input.
End Store.

(** ** Retention *)

Definition DEFAULT_RESULT_PURGE_BATCH_LIMIT : Z := 100.
Definition MAX_RESULT_PURGE_BATCH_LIMIT : Z := 1000.

Definition expiry_key (r : X402AttemptRow) : Z * string := (att_result_expires_at r ?? 0, att_id r).

Definition purgeExpiredX402Results (batchLimit : option Z) : M Z :=
  let limit := batchLimit ?? DEFAULT_RESULT_PURGE_BATCH_LIMIT in
  throw_if (limit <? 1) (PlainError "payment_attempt_purge_batch_limit_invalid") ;;*
  let boundedBatchLimit := Z.min limit MAX_RESULT_PURGE_BATCH_LIMIT in
  let* now := get_now in
  let* candidates := select T_runtime_payment_attempts (result_expired now) in
  let expired := take (Z.to_nat boundedBatchLimit)
    (sort_by (fun a b => le_time_id (expiry_key a) (expiry_key b)) candidates) in
  let* purged := update T_runtime_payment_attempts
    (fun r => mem (att_id r) (map att_id expired)) (scrub now) in
  ret (Z.of_nat (length purged)).

(** ** Stranded reservations *)

Definition attempt_reason (attemptId : string) : string := "x402_attempt:" +:+ attemptId.

(** [LEFT JOIN approval_requests]. *)
Definition approval_of (approvals : list ApprovalRow) (a : X402AttemptRow) : option ApprovalRow :=
  head (where_ (fun p =>
    eqo (Some (ap_id p)) (pmeta_approvalId (att_payment_metadata a)) && (ap_org_id p =s att_org_id a)
    && (ap_agent_id p =s att_agent_id a) && eqo (Some (ap_connection_id p)) (att_connection_id a)) approvals).

Definition approval_refused (p : ApprovalRow) : bool :=
  bool_decide (ap_status p = Approval_denied) || bool_decide (ap_status p = Approval_expired).
Definition approval_lapsed (now : Z) (p : ApprovalRow) : bool :=
  (bool_decide (ap_status p = Approval_pending) || bool_decide (ap_status p = Approval_approved))
  && (ap_expires_at p <=? now).

Definition stranded (now : Z) (p : option ApprovalRow) (r : PaymentReservationRow) : bool :=
  (res_expires_at r <=? now)
  || match p with Some p => approval_refused p || approval_lapsed now p | None => false end.

Definition stranded_code (now : Z) (p : option ApprovalRow) : string :=
  match p with
  | None => "payment_reservation_expired"
  | Some p =>
      if bool_decide (ap_status p = Approval_denied) then "payment_approval_denied"
      else if bool_decide (ap_status p = Approval_expired) || approval_lapsed now p
      then "payment_approval_expired" else "payment_reservation_expired"
  end.

Record Candidate : Type := mkCandidate {
  cd_attempt_id : string;
  cd_reservation_id : string;
  cd_amount_usdc : Z;
  cd_error_code : string;
  cd_expires_at : Z
}.

Definition candidates_of (now : Z) (approvals : list ApprovalRow) (reservations : list PaymentReservationRow)
    (a : X402AttemptRow) : list Candidate :=
  let p := approval_of approvals a in
  map (fun r => mkCandidate (att_id a) (res_id r) (res_amount_usdc r) (stranded_code now p) (res_expires_at r))
    (where_ (fun r => (res_reason_code r =s attempt_reason (att_id a))
                      && (res_org_id r =s att_org_id a) && (res_agent_id r =s att_agent_id a)
                      && bool_decide (res_status r = Reservation_reserved) && stranded now p r) reservations).

Definition the_reservation (orgId id : string) (r : PaymentReservationRow) : bool :=
  (res_id r =s id) && (res_org_id r =s orgId).
Definition reservation_held (r : PaymentReservationRow) : bool :=
  bool_decide (res_status r = Reservation_reserved).
Definition close_reservation (status : ReservationStatus) (now : Z) (r : PaymentReservationRow) :
    PaymentReservationRow :=
  set_res_status status (set_res_updated_at now r).

Definition the_account (orgId agentId : string) (r : AgentPaymentAccountRow) : bool :=
  (acct_org_id r =s orgId) && (acct_agent_id r =s agentId).
Definition unreserve (amount now : Z) (r : AgentPaymentAccountRow) : AgentPaymentAccountRow :=
  set_acct_reserved_usdc (acct_reserved_usdc r - amount) (set_acct_updated_at now r).

Definition fail_attempt (code : string) (now : Z) (r : X402AttemptRow) : X402AttemptRow :=
  set_att_status Attempt_failed (set_att_error_code (Some code)
    (set_att_finalized_at (Some now) (set_att_updated_at now r))).

(** One turn of the loop over the candidates. *)
Definition cancel_candidate (orgId agentId : string) (released_count : Z) (c : Candidate) : M Z :=
  let* now := get_now in
  let* released := update T_payment_reservations
    (fun r => the_reservation orgId (cd_reservation_id c) r && reservation_held r)
    (close_reservation Reservation_released now) in
  match released with
  | [_] =>
      let* account := update T_agent_payment_accounts
        (fun r => the_account orgId agentId r && (cd_amount_usdc c <=? acct_reserved_usdc r))
        (unreserve (cd_amount_usdc c) now) in
      throw_if (negb (length account =? 1)%nat) (PlainError "payment_attempt_reserved_budget_invalid") ;;*
      let* attempt := update T_runtime_payment_attempts
        (fun r => (att_id r =s cd_attempt_id c) && (att_org_id r =s orgId) && (att_agent_id r =s agentId)
                  && bool_decide (att_status r = Attempt_reserved))
        (fail_attempt (cd_error_code c) now) in
      throw_if (negb (length attempt =? 1)%nat) (PlainError "payment_attempt_state_conflict") ;;*
      ret (released_count + 1)
  | _ => ret released_count
  end.

Definition cancelStrandedReservedAttempts (pooled : bool) (orgId agentId : string) : M Z :=
  transaction pooled (
    let* now := get_now in
    let* attempts := select T_runtime_payment_attempts (fun a =>
      (att_org_id a =s orgId) && (att_agent_id a =s agentId)
      && bool_decide (att_status a = Attempt_reserved)) in
    let* reservations := select T_payment_reservations (fun _ => true) in
    let* approvals := select T_approval_requests (fun _ => true) in
    let candidates := sort_by
      (fun a b => le_time_id (cd_expires_at a, cd_attempt_id a) (cd_expires_at b, cd_attempt_id b))
      (flat_map (candidates_of now approvals reservations) attempts) in
    for_each (cancel_candidate orgId agentId) candidates 0).

(** ** Release on proof *)

(** Milliseconds to whole seconds: [Math.floor(Date.now() / 1000)]. *)
Definition isProvablyDead (validBeforeUnixSeconds : Z) (authorizationUsed : bool) (now : Z) : bool :=
  (validBeforeUnixSeconds <? now / 1000) && negb authorizationUsed.

Definition orgPaymentMode (orgId : string) : M PaymentMode :=
  let* row := select_one T_org_payment_modes (fun r => om_org_id r =s orgId) in
  ret (match row with Some r => om_mode r | None => mode_test end).

(** [DeathPredicateChainReader]: the answer of the chain about the
    authorization of a reservation. *)
Definition ChainReader : Type := string -> M (Z * bool).

Definition releaseOnProof (chainReader : ChainReader) (reservationId : string) : M unit :=
  withTransaction (
    let* reservation := select_one T_payment_reservations (fun r => res_id r =s reservationId) in
    let* row := some_or reservation (IdentityError "reservation_not_found" 404) in
    throw_if (negb (reservation_held row)) (conflict "reservation_not_reserved") ;;*
    let* (validBefore, used) := chainReader reservationId in
    let* now := get_now in
    throw_if (negb (isProvablyDead validBefore used now)) (badRequest "not_provably_dead") ;;*
    update T_payment_reservations
      (fun r => the_reservation (res_org_id row) (res_id row) r && reservation_held r)
      (close_reservation Reservation_released now) ;;*
    update T_agent_payment_accounts (the_account (res_org_id row) (res_agent_id row))
      (unreserve (res_amount_usdc row) now) ;;*
    let* mode := orgPaymentMode (res_org_id row) in
    writePosting
      {| wp_orgId := res_org_id row; wp_agentId := Some (res_agent_id row); wp_mode := mode;
         wp_chain := None; wp_entryType := Entry_release; wp_amountUsdc := res_amount_usdc row;
         wp_reservationId := Some (res_id row); wp_attemptId := None; wp_jobId := None;
         wp_reasonCode := "death_predicate_proven"; wp_createdBy := "system" |} ;;*
    ret tt).
