(* ===== verification/Accounts.v ===== *)
(** Payment modes, accounts, sources and readiness ([payments/store.ts],
    [payments/agent-wallets.ts]): what a payment reads before it is prepared,
    and the access an operator grants an agent. *)

From S2P Require Import Prelude Errors Usdc Json Identity Policy Quotes ResultCrypto PaidHttp Schema Host.
From S2P Require Import AuditLog AuditChain PolicyStore Approvals Attempts.
Open Scope Z_scope.

(** ** The organisation's mode *)

Definition getOrgPaymentMode (orgId : string) : M OrgPaymentModeRow :=
  let* row := select_one T_org_payment_modes (fun r => om_org_id r =s orgId) in
  ret (row ?? mkOrgPaymentModeRow orgId mode_test "system" 0).

Definition setOrgPaymentMode (operator : OperatorContext) (orgId : string) (mode : PaymentMode) :
    M OrgPaymentModeRow :=
  throw_if (negb (bool_decide (mode = mode_test))) (badRequest "payment_mode_testnet_only") ;;*
  let* now := get_now in
  let row := mkOrgPaymentModeRow orgId mode (op_actorId operator) now in
  let* inserted := insert_or_ignore T_org_payment_modes row in
  (if inserted : bool then ret tt
   else update T_org_payment_modes (fun r => om_org_id r =s orgId) (fun _ => row) ;;* ret tt) ;;*
  recordActivity (mkActivityInput orgId None None None None Activity_treasury "payment_mode.updated"
    Act_success ("Payment mode set to " +:+ PaymentMode_text mode)
    (Some (JObj [("mode", JStr (PaymentMode_text mode))]%string))) ;;*
  ret row.

(** ** Route observations *)

Record RouteObservationInput : Type := mkRouteObservationInput {
  ro_orgId : string;
  ro_agentId : string;
  ro_connectionId : string;
  ro_requestedNetwork : option string;
  ro_requestedAsset : option string;
  ro_requestedRail : option string;
  ro_supportedRail : option PaymentRail;
  ro_amount : option Z;
  ro_outcome : string;
  ro_reasonCode : string;
  ro_resourceUrl : option string;
  ro_resourceCategory : option string
}.

Definition recordRouteObservation (i : RouteObservationInput) : M unit :=
  let* id := prefixedId "payobs" in
  let* now := get_now in
  insert T_payment_route_observations
    {| obs_id := id; obs_org_id := ro_orgId i; obs_agent_id := ro_agentId i;
       obs_connection_id := Some (ro_connectionId i); obs_requested_network := ro_requestedNetwork i;
       obs_requested_asset := ro_requestedAsset i; obs_requested_rail := ro_requestedRail i;
       obs_supported_rail := ro_supportedRail i; obs_amount_usdc := ro_amount i;
       obs_outcome := ro_outcome i; obs_reason_code := ro_reasonCode i;
       obs_resource_url := ro_resourceUrl i; obs_resource_category := ro_resourceCategory i;
       obs_observed_at := now |}.

(** ** Accounts and sources *)

Definition payment_access_disabled : exn := IdentityError "payment_access_disabled" 403.

(** The inner joins drop the account of an organisation or agent without row. *)
Definition activePaymentAccount (auth : ConnectionAuthResult) : M AgentPaymentAccountRow :=
  let* account := select_one T_agent_payment_accounts (the_account (auth_org_id auth) (auth_agent_id auth)) in
  let* org := select_one T_orgs (fun o => org_id o =s auth_org_id auth) in
  let* agent := select_one T_agents (fun a => ag_id a =s auth_agent_id auth) in
  match account, org, agent with
  | Some row, Some org, Some agent =>
      throw_if (org_frozen org) (IdentityError "org_frozen" 403) ;;*
      throw_if ((ag_status agent =s "paused") || (ag_status agent =s "suspended"))
        (IdentityError "agent_frozen" 403) ;;*
      throw_if (negb (bool_decide (acct_status row = Access_active)) || negb (acct_payment_access row))
        payment_access_disabled ;;*
      ret row
  | _, _, _ => throw payment_access_disabled
  end.

Definition source_usable (orgId : string) (rail : PaymentRail) (chain : PaymentChain) (s : PaymentSourceRow) : bool :=
  (psrc_org_id s =s orgId) && bool_decide (psrc_rail s = rail) && bool_decide (psrc_chain s = chain)
  && bool_decide (psrc_status s = Access_active).

(** [ORDER BY created_at DESC LIMIT 1]. *)
Definition activePaymentSource (orgId : string) (rail : PaymentRail) (chain : PaymentChain) : M PaymentSourceRow :=
  let* rows := select T_payment_sources (source_usable orgId rail chain) in
  some_or (first_by (fun a b => psrc_created_at b <? psrc_created_at a) rows)
    (conflict "payment_source_unavailable").

(** ** Readiness of a rail *)

(** The chain in the names of the provider ([CAPABILITIES]). *)
Definition circle_blockchain (mode : PaymentMode) (chain : PaymentChain) : option string :=
  match chain, mode with
  | Chain_base, mode_test => Some "BASE-SEPOLIA" | Chain_base, mode_live => Some "BASE"
  | Chain_arbitrum, mode_test => Some "ARB-SEPOLIA" | Chain_arbitrum, mode_live => Some "ARB"
  | Chain_polygon, mode_test => Some "MATIC-AMOY" | Chain_polygon, mode_live => Some "MATIC"
  | Chain_optimism, mode_test => Some "OP-SEPOLIA" | Chain_optimism, mode_live => Some "OP"
  | Chain_avalanche, mode_test => Some "AVAX-FUJI" | Chain_avalanche, mode_live => Some "AVAX"
  | Chain_arc, _ => None
  end%string.

(** The capabilities the code falls back to: every chain but Arc, gateway
    settlement verified on Base only. *)
Definition fallback_capability (mode : PaymentMode) (chain : PaymentChain) : option CircleChainCapabilityRow :=
  option_map (fun blockchain => mkCircleChainCapabilityRow
    ("fallback_" +:+ PaymentMode_text mode +:+ "_" +:+ PaymentChain_text chain) mode chain blockchain
    true (bool_decide (chain = Chain_base)) true true true Access_active) (circle_blockchain mode chain).

Definition getCircleChainCapability (mode : PaymentMode) (chain : PaymentChain) :
    M (option CircleChainCapabilityRow) :=
  let* row := select_one T_circle_chain_capabilities
    (fun c => bool_decide (cap_mode c = mode) && bool_decide (cap_chain c = chain)
              && bool_decide (cap_status c = Access_active)) in
  ret (match row with Some c => Some c | None => fallback_capability mode chain end).

Definition railVerificationFailure (capability : option CircleChainCapabilityRow) (quote : RuntimeQuote) :
    option string :=
  match capability with
  | None => Some "payment_rail_unavailable"%string
  | Some c =>
      match q_settlementKind quote with
      | gateway =>
          if negb (cap_gateway_supported c) || negb (cap_nanopayments_supported c)
          then Some "payment_rail_unavailable"%string
          else if negb (cap_gateway_settlement_verified c) then Some "payment_rail_unverified"%string
          else None
      | direct_exact =>
          if negb (cap_wallet_supported c) then Some "payment_rail_unavailable"%string
          else if negb (cap_exact_settlement_verified c) then Some "payment_rail_unverified"%string
          else None
      end
  end.

Definition assertRailReady (mode : PaymentMode) (quote : RuntimeQuote) : M unit :=
  let* capability := getCircleChainCapability mode (q_chain quote) in
  match railVerificationFailure capability quote with
  | Some code => throw (conflict code)
  | None => ret tt
  end.

(** ** Agent wallets *)

(** [nativeBalanceMicros]: an RPC to the chain, which may fail after its
    retries. *)
Class ChainBalances : Type := chain_balance : World -> string -> PaymentChain -> PaymentMode -> Res Z.

Definition nativeBalanceMicros `{ChainBalances} (address : string) (chain : PaymentChain) (mode : PaymentMode) :
    M Z := fun w => (chain_balance w address chain mode, w).

Definition findAgentWallet (agentId : string) (mode : PaymentMode) (chain : PaymentChain) :
    M (option AgentChainWalletRow) :=
  select_one T_agent_chain_wallets (fun r => (acw_agent_id r =s agentId) && bool_decide (acw_mode r = mode)
    && bool_decide (acw_chain r = chain) && (acw_status r =s "active")).

Definition readSpendableMicros `{ChainBalances} (wallet : AgentChainWalletRow) (gasReserveMicros : Z)
    (mode : PaymentMode) : M Z :=
  let* balance := nativeBalanceMicros (acw_address wallet) (acw_chain wallet) mode in
  ret (Z.max 0 (balance - gasReserveMicros)).

(** ** Payment access *)

Record SetAgentPaymentAccessInput : Type := mkSetAgentPaymentAccessInput {
  sp_status : AccessStatus;
  sp_budget_usdc : string;
  sp_per_request_cap_usdc : string;
  sp_approval_threshold_usdc : option string;
  sp_dedicated_wallet_required : bool;
  sp_allowed_rails : list string
}.

Definition assertOrgAgent (orgId agentId : string) : M unit :=
  let* row := select_one T_agents (fun a => (ag_org_id a =s orgId) && (ag_id a =s agentId)) in
  throw_if (negb (is_some row)) notFound.

(** [assertPositiveUsdc] and [assertNonNegativeUsdc] format what the column
    then reads back: the micros. *)
Definition positive_micros (v : string) : Res Z :=
  let? micros := parseUsdcMicros v in
  if micros <=? 0 then Err (badRequest "invalid_usdc_amount") else Ok micros.
Definition nonnegative_micros (v : string) : Res Z :=
  let? micros := parseUsdcMicros v in
  if micros <? 0 then Err (badRequest "invalid_usdc_amount") else Ok micros.

(** [ON CONFLICT (org_id, agent_id) DO UPDATE]: the counters stay. *)
Definition upsert_account (row : AgentPaymentAccountRow) : M AgentPaymentAccountRow :=
  let* inserted := insert_or_ignore T_agent_payment_accounts row in
  if inserted : bool then ret row else
    let* updated := update T_agent_payment_accounts (the_account (acct_org_id row) (acct_agent_id row))
      (fun r => mkAgentPaymentAccountRow (acct_id r) (acct_org_id r) (acct_agent_id r) (acct_status row)
        (acct_payment_access row) (acct_budget_usdc row) (acct_spent_usdc r) (acct_reserved_usdc r)
        (acct_per_request_cap_usdc row) (acct_approval_threshold_usdc row)
        (acct_dedicated_wallet_required row) (acct_allowed_rails row) (acct_created_at r)
        (acct_updated_at row)) in
    some_or (head updated) (PlainError "agent_payment_account_upsert_failed").

Definition insert_wallet_job (orgId agentId createdBy : string) (mode : PaymentMode) (chain : PaymentChain) :
    M unit :=
  let* id := prefixedId "cjob" in
  let* now := get_now in
  insert T_circle_provider_jobs
    {| cpj_id := id; cpj_org_id := orgId; cpj_mode := mode; cpj_job_type := "agent_wallet.create";
       cpj_chain := Some chain; cpj_status := Job_queued; cpj_amount_usdc := None;
       cpj_provider_ref := None; cpj_error_code := None;
       cpj_metadata := JObj [("agent_id", JStr agentId)]%string; cpj_created_by := createdBy;
       cpj_created_at := now; cpj_updated_at := now |}.

Definition enqueueAgentWalletProvisioning (orgId agentId createdBy : string) (mode : PaymentMode)
    (chains : list PaymentChain) : M unit :=
  for_each (fun _ chain => insert_wallet_job orgId agentId createdBy mode chain) chains tt.

(** [new Set(...)] in order. *)
Fixpoint distinct_chains (l : list PaymentChain) : list PaymentChain :=
  match l with
  | [] => []
  | c :: r => c :: List.filter (fun d => negb (bool_decide (d = c))) (distinct_chains r)
  end.

(** The chains with a wallet or a pending job. *)
Definition chains_handled (orgId agentId : string) (mode : PaymentMode) : M (list PaymentChain) :=
  let* wallets := select T_agent_chain_wallets (fun r => (acw_agent_id r =s agentId)
    && bool_decide (acw_mode r = mode) && mem (acw_status r) ["provisioning"; "active"]%string) in
  let* jobs := select T_circle_provider_jobs (fun r => (cpj_org_id r =s orgId)
    && bool_decide (cpj_mode r = mode) && (cpj_job_type r =s "agent_wallet.create") && job_open r
    && eqo (meta_text (cpj_metadata r) "agent_id") (Some agentId)) in
  ret (map acw_chain wallets ++ flat_map (fun j => match cpj_chain j with Some c => [c] | None => [] end) jobs).

Definition provision_wallets (operator : OperatorContext) (orgId agentId : string)
    (allowedRails : list PaymentRail) : M unit :=
  let* mode := getOrgPaymentMode orgId in
  let* requested := lift (res_map chainFromRail allowedRails) in
  let* handled := chains_handled orgId agentId (om_mode mode) in
  let missing := List.filter (fun c => negb (bool_decide (c ∈ handled))) (distinct_chains requested) in
  match missing with
  | [] => ret tt
  | _ :: _ => enqueueAgentWalletProvisioning orgId agentId (op_actorId operator) (om_mode mode) missing
  end.

Definition setAgentPaymentAccess (operator : OperatorContext) (orgId agentId : string)
    (input : SetAgentPaymentAccessInput) : M AgentPaymentAccountRow :=
  assertOrgAgent orgId agentId ;;*
  let* allowedRails := lift (res_map normalizeRail (sp_allowed_rails input)) in
  let* budget := lift (nonnegative_micros (sp_budget_usdc input)) in
  let* cap := lift (nonnegative_micros (sp_per_request_cap_usdc input)) in
  let* threshold := match sp_approval_threshold_usdc input with
                    | None => ret None
                    | Some v => let* t := lift (positive_micros v) in ret (Some t)
                    end in
  let* id := prefixedId "payacct" in
  let* now := get_now in
  let paymentAccess := bool_decide (sp_status input = Access_active) in
  let* row := upsert_account
    {| acct_id := id; acct_org_id := orgId; acct_agent_id := agentId; acct_status := sp_status input;
       acct_payment_access := paymentAccess; acct_budget_usdc := budget; acct_spent_usdc := 0;
       acct_reserved_usdc := 0; acct_per_request_cap_usdc := cap;
       acct_approval_threshold_usdc := threshold;
       acct_dedicated_wallet_required := sp_dedicated_wallet_required input;
       acct_allowed_rails := allowedRails; acct_created_at := now; acct_updated_at := now |} in
  recordActivity (mkActivityInput orgId (Some agentId) None None None Activity_payment
    (if paymentAccess then "agent.payment_access.enabled" else "agent.payment_access.disabled")
    Act_success (if paymentAccess then "Payment access enabled" else "Payment access disabled")
    (Some (JObj
      [("allowed_rails", JArr (map (fun r => JStr (PaymentRail_text r)) allowedRails));
       ("budget_usdc", JStr (formatUsdc budget));
       ("dedicated_wallet_required", JBool (sp_dedicated_wallet_required input));
       ("per_request_cap_usdc", JStr (formatUsdc cap))]%string))) ;;*
  (if paymentAccess then
     completeProductOnboardingFlow orgId "payment_access"
       (JObj [("agent_id", JStr agentId); ("source", JStr "agent_payment_access_enabled")]%string)
   else ret tt) ;;*
  (if sp_dedicated_wallet_required input then provision_wallets operator orgId agentId allowedRails else ret tt) ;;*
  ret row.
