(* ===== verification/Chain.v ===== *)
(** What the engines ask of the treasury provider and of the chain: the
    interface [CircleTreasuryProvider] of [payments/circle-provider.ts] as far
    as escrow and delegations use it, and the reads of contracts they inject.

    Each method is a parameter of the model, called with the world so that its
    answer may depend on everything that happened; each call is recorded. *)

From S2P Require Import Prelude Errors Usdc Json Quotes Schema Host Handlers.
Import Digits.
Open Scope Z_scope.

Definition PERMIT2_ADDRESS : string := "0x000000000022D473030F116dDEE9F6B43aC78BA3".

Record CirclePermit2ExecuteInput : Type := mkPermit2Execute {
  px_mode : PaymentMode;
  px_chain : PaymentChain;
  px_senderAddress : string;
  px_abiFunctionSignature : string;
  px_abiParameters : list json;
  px_refId : string;
  px_contractAddress : option string
}.

Record CircleTransferInput : Type := mkTransfer {
  tf_amountMicros : Z;
  tf_chain : PaymentChain;
  tf_destinationAddress : string;
  tf_mode : PaymentMode;
  tf_refId : string;
  tf_sourceAddress : string
}.

Record CircleNativeGasTransferInput : Type := mkNativeGasTransfer {
  ng_amountWei : Z;
  ng_chain : PaymentChain;
  ng_destinationAddress : string;
  ng_mode : PaymentMode;
  ng_refId : string;
  ng_sourceWalletId : string
}.

Record CirclePermit2SignInput : Type := mkPermit2Sign {
  ps_mode : PaymentMode;
  ps_ownerAddress : string;
  ps_chain : PaymentChain;
  ps_typedData : json
}.

Class TreasuryProvider : Type := {
  execute_permit2 : World -> CirclePermit2ExecuteInput -> Res string;
  transfer_wallet : World -> CircleTransferInput -> Res string;   (* transactionId *)
  transfer_native_gas : World -> CircleNativeGasTransferInput -> Res unit;
  sign_permit2 : World -> CirclePermit2SignInput -> Res string
}.

(** The texts of the parameters of a call, tuples flattened. *)
Fixpoint abi_texts (j : json) : list string :=
  match j with
  | JStr s => [s]
  | JArr l => flat_map abi_texts l
  | _ => []
  end.

(** How a contract call is recorded: sender, function, contract, parameters. *)
Definition permit2_call (i : CirclePermit2ExecuteInput) : ExternalCall :=
  mkExternalCall "executePermit2Transaction"
    (px_senderAddress i :: px_abiFunctionSignature i :: (px_contractAddress i ?? PERMIT2_ADDRESS)
     :: flat_map abi_texts (px_abiParameters i)).

Section Provider.
Context {TP : TreasuryProvider}.

Definition executePermit2Transaction (i : CirclePermit2ExecuteInput) : M string := fun w =>
  (execute_permit2 w i, add_call (permit2_call i) w).

Definition transfer_call (i : CircleTransferInput) : ExternalCall :=
  mkExternalCall "transferWallet"
    [tf_sourceAddress i; tf_destinationAddress i; to_string (tf_amountMicros i); tf_refId i;
     PaymentChain_text (tf_chain i); PaymentMode_text (tf_mode i)].

Definition transferWallet (i : CircleTransferInput) : M string := fun w =>
  (transfer_wallet w i, add_call (transfer_call i) w).

Definition transferNativeGas (i : CircleNativeGasTransferInput) : M unit := fun w =>
  (transfer_native_gas w i, add_call (mkExternalCall "transferNativeGas"
     [ng_sourceWalletId i; ng_destinationAddress i; to_string (ng_amountWei i)]) w).

Definition signPermit2Delegation (i : CirclePermit2SignInput) : M string := fun w =>
  (sign_permit2 w i, add_call (mkExternalCall "signPermit2Delegation" [ps_ownerAddress i]) w).
End Provider.

(** [crypto.randomUUID()], in a reference id. *)
Definition ref_id (prefix : string) : M string := fun w =>
  (Ok (prefix +:+ "-" +:+ to_string (w_next w)), next_id w).

(** ** What they are made of *)

Section Made.
Context {TP : TreasuryProvider} (C : ExternalCall -> Prop) (W : table -> bool).

Lemma permit2_made i : C (permit2_call i) -> made_of C W (executePermit2Transaction i).
Proof. intros HC. by eapply made_call with (c := fun _ => permit2_call i). Qed.

Lemma transfer_made i : C (transfer_call i) -> made_of C W (transferWallet i).
Proof. intros HC. by eapply made_call with (c := fun _ => transfer_call i). Qed.

Lemma native_gas_made i :
  C (mkExternalCall "transferNativeGas" [ng_sourceWalletId i; ng_destinationAddress i; to_string (ng_amountWei i)]) ->
  made_of C W (transferNativeGas i).
Proof. intros HC. by eapply made_call with (c := fun _ => mkExternalCall _ _). Qed.

Lemma sign_made i : C (mkExternalCall "signPermit2Delegation" [ps_ownerAddress i]) -> made_of C W (signPermit2Delegation i).
Proof. intros HC. by eapply made_call with (c := fun _ => mkExternalCall _ _). Qed.

Lemma ref_id_made prefix : made_of C W (ref_id prefix).
Proof. by eapply made_id. Qed.
End Made.
#[export] Hint Resolve permit2_made transfer_made native_gas_made sign_made ref_id_made : made.
#[export] Hint Extern 1 True => exact I : made.
