(* ===== verification/Escrow.v ===== *)
(** Escrow jobs ([payments/escrow.ts], [escrow-contract.ts],
    [reputation-hook.ts]): creation, funding with its reservation, the
    transitions of the lifecycle, reconciliation with the chain, liveness
    risks and the reputation a completed job earns.

    A handler is one transaction on a row locked [FOR UPDATE], so it is one
    step; what it sends to the chain stays sent when the transaction is rolled
    back.  The camel-case view [EscrowJob] has the columns of the row. *)

From S2P Require Import Prelude Errors Usdc Json Quotes Schema Host Handlers Accounts Chain.
Import Digits.
Open Scope Z_scope.

(** ** The contract *)

Definition ESCROW_CREATE_JOB_SIGNATURE : string := "createJob(address,address,uint48,string,address,uint256)".
Definition ESCROW_SET_BUDGET_SIGNATURE : string := "setBudget(uint256,address,uint256,bytes)".
Definition ESCROW_FUND_SIGNATURE : string := "fund(uint256,address,uint256,bytes)".
Definition ESCROW_SUBMIT_SIGNATURE : string := "submit(uint256,bytes32,bytes)".
Definition ESCROW_COMPLETE_SIGNATURE : string := "complete(uint256,bytes32,bytes)".
Definition ESCROW_REJECT_SIGNATURE : string := "reject(uint256,bytes32,bytes)".
Definition APPROVE_SIGNATURE : string := "approve(address,uint256)".

Record EscrowDeployment : Type := mkEscrowDeployment {
  ed_escrowAddress : string;
  ed_tokenAddress : string
}.

Definition ESCROW_DEPLOYMENTS (chain : PaymentChain) : option EscrowDeployment :=
  match chain with
  | Chain_arc => Some (mkEscrowDeployment "0x31C050d9D20504c4E11b2A894051d8181B14e0F5"
                         "0x3600000000000000000000000000000000000000")
  | Chain_base => Some (mkEscrowDeployment "0x31C050d9D20504c4E11b2A894051d8181B14e0F5"
                          "0x036CbD53842c5426634e7929541eC2318f3dCF7e")
  | _ => None
  end.

Definition escrowDeploymentFor (chain : PaymentChain) : Res EscrowDeployment :=
  match ESCROW_DEPLOYMENTS chain with
  | Some d => Ok d
  | None => Err (PlainError ("escrow_not_deployed_on_chain:" +:+ PaymentChain_text chain))
  end.

Definition escrowAddressFor (chain : PaymentChain) : Res string :=
  let? d := escrowDeploymentFor chain in Ok (ed_escrowAddress d).
Definition escrowTokenAddressFor (chain : PaymentChain) : Res string :=
  let? d := escrowDeploymentFor chain in Ok (ed_tokenAddress d).

Record EscrowReceiptLog : Type := mkEscrowReceiptLog {
  el_address : string;
  el_topics : list string;
  el_data : string
}.

(** The decoders of viem and the reads of the chain the handlers are given.
    [decode_job_created]: nothing when [decodeEventLog] throws. *)
Class EscrowReads : Type := {
  decode_job_created : EscrowReceiptLog -> option Z;
  read_receipt_logs : World -> string -> PaymentChain -> Res (list EscrowReceiptLog);
  (* [decodeFunctionResult]: the status ordinal and the budget *)
  decode_get_job : string -> Res (Z * Z);
  read_job_call_data : World -> string -> string -> PaymentChain -> Res string
}.

Section Contract.
Context `{EscrowReads}.

Fixpoint parseJobCreated (logs : list EscrowReceiptLog) (escrowAddress : string) : option Z :=
  match logs with
  | [] => None
  | log :: rest =>
      if negb (lower (el_address log) =s lower escrowAddress) then parseJobCreated rest escrowAddress
      else match decode_job_created log with
           | Some jobId => Some jobId
           | None => parseJobCreated rest escrowAddress
           end
  end.
End Contract.

(** ** Helpers *)

Definition ESCROW_MINIMUM_BUDGET_MICROS : Z := 10000.
Definition NO_HOOK : string := "0x0000000000000000000000000000000000000000".
Definition NO_PROVIDER_AGENT_ID : string := "0".
Definition NO_HOOK_PARAMS : string := "0x".
Definition ZERO_BYTES32 : string :=
  "0x0000000000000000000000000000000000000000000000000000000000000000".

Definition escrowBudgetMicros (budgetUsdc : string) : Res Z :=
  let? micros := parseUsdcMicros budgetUsdc in
  if micros <? ESCROW_MINIMUM_BUDGET_MICROS then Err (badRequest "escrow_uneconomic_for_amount") else Ok micros.

Definition clientWalletAddress (agentId : string) (mode : PaymentMode) (chain : PaymentChain) : M string :=
  let* wallet := findAgentWallet agentId mode chain in
  let* wallet := some_or wallet (PlainError ("escrow_client_wallet_not_found:" +:+ agentId)) in
  ret (acw_address wallet).

Definition fleet_wallet (orgId address : string) (mode : PaymentMode) (chain : PaymentChain)
    (r : AgentChainWalletRow) : bool :=
  (acw_org_id r =s orgId) && (lower (acw_address r) =s lower address) && bool_decide (acw_mode r = mode)
  && bool_decide (acw_chain r = chain) && (acw_status r =s "active").

Definition fleetWalletAddress (orgId address : string) (mode : PaymentMode) (chain : PaymentChain) :
    M (option string) :=
  let* row := select_one T_agent_chain_wallets (fleet_wallet orgId address mode chain) in
  ret (option_map acw_address row).

Definition the_job (id : string) (r : EscrowJobRow) : bool := ej_id r =s id.

(** ** Creation *)

Record CreateEscrowJobInput : Type := mkCreateEscrowJobInput {
  ce_orgId : string;
  ce_clientAgentId : string;
  ce_providerAddress : string;
  ce_evaluatorAddress : option string;
  ce_mode : PaymentMode;
  ce_chain : PaymentChain;
  ce_budgetUsdc : string;
  ce_expiresAt : Z;
  ce_createdBy : string;
  ce_description : option string
}.

Section Handlers.
Context {SH : Sha256} {TP : TreasuryProvider} {ER : EscrowReads}.

Definition readReceiptLogs (txHash : string) (chain : PaymentChain) : M (list EscrowReceiptLog) := fun w =>
  (read_receipt_logs w txHash chain, w).

Definition job_row (input : CreateEscrowJobInput) (id escrowAddress tokenAddress evaluatorAddress txHash : string)
    (budgetMicros onchainJobId escrowMode now : Z) : EscrowJobRow :=
  {| ej_id := id; ej_org_id := ce_orgId input; ej_client_agent_id := ce_clientAgentId input;
     ej_provider_address := ce_providerAddress input; ej_evaluator_address := evaluatorAddress;
     ej_mode := ce_mode input; ej_chain := ce_chain input; ej_escrow_address := escrowAddress;
     ej_token_address := tokenAddress; ej_onchain_job_id := Some (to_string onchainJobId);
     ej_budget_usdc := budgetMicros; ej_reservation_id := None; ej_state := Escrow_open;
     ej_escrow_mode := escrowMode; ej_deliverable_hash := None; ej_expires_at := ce_expiresAt input;
     ej_create_tx_hash := Some txHash; ej_fund_tx_hash := None; ej_submit_tx_hash := None;
     ej_terminal_tx_hash := None; ej_created_by := ce_createdBy input; ej_created_at := now;
     ej_updated_at := now |}.

Definition createEscrowJob (input : CreateEscrowJobInput) : M EscrowJobRow :=
  let* budgetMicros := lift (escrowBudgetMicros (ce_budgetUsdc input)) in
  let* escrowAddress := lift (escrowAddressFor (ce_chain input)) in
  let* tokenAddress := lift (escrowTokenAddressFor (ce_chain input)) in
  withTransaction (
    let* clientAddress := clientWalletAddress (ce_clientAgentId input) (ce_mode input) (ce_chain input) in
    throw_if (lower clientAddress =s lower (ce_providerAddress input))
      (conflict "escrow_client_cannot_be_provider") ;;*
    let evaluatorAddress := ce_evaluatorAddress input ?? clientAddress in
    throw_if (lower evaluatorAddress =s lower (ce_providerAddress input))
      (conflict "escrow_provider_cannot_be_evaluator") ;;*
    let escrowMode := if lower evaluatorAddress =s lower clientAddress then 2 else 3 in
    let expiredAtSeconds := ce_expiresAt input / 1000 in
    let* refId := ref_id "agentops-escrow-create" in
    let* txHash := executePermit2Transaction
      {| px_mode := ce_mode input; px_chain := ce_chain input; px_senderAddress := clientAddress;
         px_abiFunctionSignature := ESCROW_CREATE_JOB_SIGNATURE;
         px_abiParameters := map JStr [ce_providerAddress input; evaluatorAddress; to_string expiredAtSeconds;
           ce_description input ?? ""; NO_HOOK; NO_PROVIDER_AGENT_ID]%string;
         px_refId := refId; px_contractAddress := Some escrowAddress |} in
    let* logs := readReceiptLogs txHash (ce_chain input) in
    let* onchainJobId := some_or (parseJobCreated logs escrowAddress)
      (PlainError ("escrow_job_id_not_in_receipt:" +:+ txHash)) in
    let* id := prefixedId "escrowjob" in
    let* now := get_now in
    let row := job_row input id escrowAddress tokenAddress evaluatorAddress txHash budgetMicros onchainJobId
                 escrowMode now in
    insert T_escrow_jobs row ;;*
    ret row).

(** ** Funding *)

(** [ORDER BY rail ASC, created_at DESC LIMIT 1]. *)
Definition source_before (a b : PaymentSourceRow) : bool :=
  let x := PaymentRail_text (psrc_rail a) in
  let y := PaymentRail_text (psrc_rail b) in
  (String.leb x y && negb (x =s y)) || ((x =s y) && (psrc_created_at b <? psrc_created_at a)).

Definition json_field (key value : string) : string :=
  of_chars (stringify_chars key) +:+ ":" +:+ value.
Definition json_text (value : string) : string := of_chars (stringify_chars value).

(** [JSON.stringify(quote)]. *)
Definition escrow_quote_text (q : EscrowQuote) : string :=
  "{" +:+ json_field "escrowJobId" (json_text (eq_escrowJobId q))
  +:+ "," +:+ json_field "chain" (json_text (PaymentChain_text (eq_chain q)))
  +:+ "," +:+ json_field "escrowAddress" (json_text (eq_escrowAddress q))
  +:+ "," +:+ json_field "tokenAddress" (json_text (eq_tokenAddress q))
  +:+ "," +:+ json_field "onchainJobId" (match eq_onchainJobId q with Some id => json_text id | None => "null" end)
  +:+ "," +:+ json_field "budgetUsdc" (json_text (eq_budgetUsdc q))
  +:+ "," +:+ json_field "providerAddress" (json_text (eq_providerAddress q))
  +:+ "," +:+ json_field "evaluatorAddress" (json_text (eq_evaluatorAddress q))
  +:+ "," +:+ json_field "escrowMode" (to_string (eq_escrowMode q)) +:+ "}".

Definition escrow_quote (job : EscrowJobRow) : EscrowQuote :=
  {| eq_escrowJobId := ej_id job; eq_chain := ej_chain job; eq_escrowAddress := ej_escrow_address job;
     eq_tokenAddress := ej_token_address job; eq_onchainJobId := ej_onchain_job_id job;
     eq_budgetUsdc := numeric_text (ej_budget_usdc job); eq_providerAddress := ej_provider_address job;
     eq_evaluatorAddress := ej_evaluator_address job; eq_escrowMode := ej_escrow_mode job |}.

Definition escrow_reason (jobId : string) : string := "escrow_job:" +:+ jobId.

Definition escrow_reservation (job : EscrowJobRow) (source : PaymentSourceRow) (id : string) (now : Z) :
    PaymentReservationRow :=
  {| res_id := id; res_org_id := ej_org_id job; res_agent_id := ej_client_agent_id job; res_connection_id := None;
     res_source_id := psrc_id source; res_amount_usdc := ej_budget_usdc job; res_asset := "USDC";
     res_rail := psrc_rail source; res_status := Reservation_reserved; res_reason_code := escrow_reason (ej_id job);
     res_quote_hash := sha256 (escrow_quote_text (escrow_quote job)); res_quote := Quote_escrow (escrow_quote job);
     res_expires_at := ej_expires_at job; res_created_at := now; res_updated_at := now |}.

Definition reserveEscrowBudget (job : EscrowJobRow) : M string :=
  let* sources := select T_payment_sources (fun s => (psrc_org_id s =s ej_org_id job)
    && bool_decide (psrc_chain s = ej_chain job) && bool_decide (psrc_status s = Access_active)) in
  let* source := some_or (first_by source_before sources)
    (PlainError ("escrow_payment_source_not_found:" +:+ PaymentChain_text (ej_chain job))) in
  let* reservationId := prefixedId "payres" in
  let* now := get_now in
  insert T_payment_reservations (escrow_reservation job source reservationId now) ;;*
  ret reservationId.
(** One contract call for a job. *)
Definition escrow_call (job : EscrowJobRow) (sender signature contract ref : string) (params : list string) : M string :=
  let* refId := ref_id ref in
  executePermit2Transaction
    {| px_mode := ej_mode job; px_chain := ej_chain job; px_senderAddress := sender;
       px_abiFunctionSignature := signature; px_abiParameters := map JStr params; px_refId := refId;
       px_contractAddress := Some contract |}.

Definition fund_row (txHash reservationId : string) (now : Z) (r : EscrowJobRow) : EscrowJobRow :=
  set_ej_state Escrow_funded (set_ej_fund_tx_hash (Some txHash) (set_ej_reservation_id (Some reservationId)
    (set_ej_updated_at now r))).

Definition fundEscrowJob (escrowJobId : string) : M EscrowJobRow :=
  withTransaction (
    let* locked := select_one T_escrow_jobs (the_job escrowJobId) in
    let* job := some_or locked (PlainError "escrow_job_not_found") in
    throw_if (negb (bool_decide (ej_state job = Escrow_open))) (conflict "escrow_invalid_transition") ;;*
    let* onchainJobId := some_or (ej_onchain_job_id job)
      (PlainError ("escrow_onchain_job_id_missing:" +:+ ej_id job)) in
    let* budgetMicros := lift (escrowBudgetMicros (numeric_text (ej_budget_usdc job))) in
    let* clientAddress := clientWalletAddress (ej_client_agent_id job) (ej_mode job) (ej_chain job) in
    let* providerWallet := fleetWalletAddress (ej_org_id job) (ej_provider_address job) (ej_mode job) (ej_chain job) in
    (match providerWallet with
     | Some wallet =>
         escrow_call job wallet ESCROW_SET_BUDGET_SIGNATURE (ej_escrow_address job) "agentops-escrow-budget"
           [onchainJobId; ej_token_address job; to_string budgetMicros; NO_HOOK_PARAMS] ;;* ret tt
     | None => ret tt
     end) ;;*
    escrow_call job clientAddress APPROVE_SIGNATURE (ej_token_address job) "agentops-escrow-approve"
      [ej_escrow_address job; to_string budgetMicros] ;;*
    let* txHash := escrow_call job clientAddress ESCROW_FUND_SIGNATURE (ej_escrow_address job) "agentops-escrow-fund"
      [onchainJobId; ej_token_address job; to_string budgetMicros; NO_HOOK_PARAMS] in
    let* reservationId := reserveEscrowBudget job in
    let* now := get_now in
    let* updated := update T_escrow_jobs (the_job (ej_id job)) (fund_row txHash reservationId now) in
    some_or (head updated) (PlainError "escrow_job_update_failed")).

(** ** Transitions *)

Definition ESCROW_TRANSITIONS (s : EscrowState) : list EscrowState :=
  match s with
  | Escrow_funded => [Escrow_submitted]
  | Escrow_submitted => [Escrow_completed; Escrow_rejected; Escrow_expired]
  | _ => []
  end.

Definition assertEscrowTransition (job : EscrowJobRow) (next : EscrowState) : Res unit :=
  if bool_decide (next ∈ ESCROW_TRANSITIONS (ej_state job)) then Ok tt
  else Err (conflict "escrow_invalid_transition").

(** What a state does to the reservation. *)
Definition reservation_outcome (next : EscrowState) : option ReservationStatus :=
  match next with
  | Escrow_completed => Some Reservation_settled
  | Escrow_rejected | Escrow_expired => Some Reservation_released
  | _ => None
  end.

Definition held_reservation (orgId id : string) (r : PaymentReservationRow) : bool :=
  (res_id r =s id) && (res_org_id r =s orgId) && bool_decide (res_status r = Reservation_reserved).

Definition applyReservationOutcome (job : EscrowJobRow) (next : EscrowState) : M unit :=
  match ej_reservation_id job, reservation_outcome next with
  | Some id, Some status =>
      let* now := get_now in
      update T_payment_reservations (held_reservation (ej_org_id job) id)
        (fun r => set_res_status status (set_res_updated_at now r)) ;;*
      ret tt
  | _, _ => ret tt
  end.

Record EscrowCall : Type := mkEscrowCall {
  ec_provider : bool;                       (* the role, else the evaluator *)
  ec_verb : string;
  ec_signature : string;
  ec_notHeldCode : string
}.

Definition ESCROW_CALLS (next : EscrowState) : option EscrowCall :=
  match next with
  | Escrow_submitted => Some (mkEscrowCall true "submit" ESCROW_SUBMIT_SIGNATURE "escrow_provider_wallet_not_held")
  | Escrow_completed => Some (mkEscrowCall false "complete" ESCROW_COMPLETE_SIGNATURE "escrow_evaluator_wallet_not_held")
  | Escrow_rejected => Some (mkEscrowCall false "reject" ESCROW_REJECT_SIGNATURE "escrow_evaluator_wallet_not_held")
  | _ => None
  end.

Record ApplyEscrowStateChangeInput : Type := mkApplyInput {
  ae_escrowJobId : string;
  ae_next : EscrowState;
  ae_deliverableHash : option string
}.

Definition sendEscrowTransition (job : EscrowJobRow) (onchainJobId : string)
    (input : ApplyEscrowStateChangeInput) : M (option string) :=
  if bool_decide (ae_next input = Escrow_expired) then ret None else
  let* call := some_or (ESCROW_CALLS (ae_next input))
    (PlainError ("escrow_no_call_for_state:" +:+ EscrowState_text (ae_next input))) in
  let actorAddress := if ec_provider call then ej_provider_address job else ej_evaluator_address job in
  let* wallet := fleetWalletAddress (ej_org_id job) actorAddress (ej_mode job) (ej_chain job) in
  let* wallet := some_or wallet (conflict (ec_notHeldCode call)) in
  let* txHash := escrow_call job wallet (ec_signature call) (ej_escrow_address job)
    ("agentops-escrow-" +:+ ec_verb call)
    [onchainJobId; (if ec_provider call then ae_deliverableHash input ?? ZERO_BYTES32 else ZERO_BYTES32);
     NO_HOOK_PARAMS] in
  ret (Some txHash).

(** [COALESCE(a, b)]. *)
Definition coalesce {A} (a b : option A) : option A := match a with Some _ => a | None => b end.

Definition transition_row (next : EscrowState) (txHash deliverableHash : option string) (now : Z)
    (r : EscrowJobRow) : EscrowJobRow :=
  let submitted := bool_decide (next = Escrow_submitted) in
  set_ej_state next (set_ej_deliverable_hash (coalesce deliverableHash (ej_deliverable_hash r))
    (set_ej_submit_tx_hash (if submitted then coalesce txHash (ej_submit_tx_hash r) else ej_submit_tx_hash r)
    (set_ej_terminal_tx_hash (if submitted then ej_terminal_tx_hash r else coalesce txHash (ej_terminal_tx_hash r))
    (set_ej_updated_at now r)))).

(** The transaction of [applyEscrowStateChange]. *)
Definition escrow_transition (input : ApplyEscrowStateChangeInput) : M EscrowJobRow :=
  withTransaction (
    let* locked := select_one T_escrow_jobs (the_job (ae_escrowJobId input)) in
    let* job := some_or locked (PlainError "escrow_job_not_found") in
    lift (assertEscrowTransition job (ae_next input)) ;;*
    let* onchainJobId := some_or (ej_onchain_job_id job)
      (PlainError ("escrow_onchain_job_id_missing:" +:+ ej_id job)) in
    let* txHash := sendEscrowTransition job onchainJobId input in
    let* now := get_now in
    let* updated := update T_escrow_jobs (the_job (ej_id job))
      (transition_row (ae_next input) txHash (ae_deliverableHash input) now) in
    let* row := some_or (head updated) (PlainError "escrow_job_update_failed") in
    applyReservationOutcome job (ae_next input) ;;*
    ret row).

(** ** Reputation *)

Definition REPUTATION_REGISTRY_ADDRESS : string := "0x8004B663056A597Dffe9eCcC1965A193B7388713".
Definition REPUTATION_GIVE_FEEDBACK_SIGNATURE : string :=
  "giveFeedback(uint256,int128,uint8,string,string,string,string,bytes32)".
Definition COMPLETION_SCORE : Z := 100.

Definition writeFeedback (mode : PaymentMode) (chain : PaymentChain) (senderAddress agentTokenId : string)
    (score : Z) : M string :=
  let* refId := ref_id "agentops-reputation" in
  executePermit2Transaction
    {| px_mode := mode; px_chain := chain; px_senderAddress := senderAddress;
       px_abiFunctionSignature := REPUTATION_GIVE_FEEDBACK_SIGNATURE;
       px_abiParameters := map JStr [agentTokenId; to_string score; "0"; "escrow_completion"; ""; ""; "";
                                     ZERO_BYTES32]%string;
       px_refId := refId; px_contractAddress := Some REPUTATION_REGISTRY_ADDRESS |}.

(** [ON CONFLICT DO NOTHING RETURNING *]. *)
Definition writeReputation (orgId agentId escrowJobId : string) (score : Z) : M (option AgentReputationEventRow) :=
  let* id := prefixedId "repev" in
  let* now := get_now in
  let row := {| rep_id := id; rep_org_id := orgId; rep_agent_id := agentId; rep_escrow_job_id := escrowJobId;
                rep_score := score; rep_feedback_tx_hash := None; rep_created_at := now |} in
  let* inserted := insert_or_ignore T_agent_reputation_events row in
  ret (if inserted then Some row else None).

Definition resolveProviderAgentId (orgId address : string) (mode : PaymentMode) (chain : PaymentChain) :
    M (option string) :=
  let* row := select_one T_agent_chain_wallets (fleet_wallet orgId address mode chain) in
  ret (option_map acw_agent_id row).

(** The part in a [try]: the feedback on the chain. *)
Definition broadcast_feedback (job : EscrowJobRow) (agentId : string) (event : AgentReputationEventRow) : M unit :=
  let* identity := select_one T_agent_onchain_identities (fun r => (aoi_agent_id r =s agentId)
    && bool_decide (aoi_mode r = ej_mode job) && bool_decide (aoi_chain r = ej_chain job)
    && (aoi_status r =s "registered")) in
  match identity ≫= aoi_token_id with
  | None => ret tt
  | Some tokenId =>
      let* clientWallet := findAgentWallet (ej_client_agent_id job) (ej_mode job) (ej_chain job) in
      match clientWallet with
      | None => ret tt
      | Some wallet =>
          let* txHash := writeFeedback (ej_mode job) (ej_chain job) (acw_address wallet) tokenId COMPLETION_SCORE in
          update T_agent_reputation_events (fun r => rep_id r =s rep_id event)
            (set_rep_feedback_tx_hash (Some txHash)) ;;*
          ret tt
      end
  end.

Definition onEscrowCompleted (jobId : string) : M unit :=
  let* row := select_one T_escrow_jobs (the_job jobId) in
  let* job := some_or row (PlainError "escrow_job_not_found") in
  throw_if (negb (bool_decide (ej_state job = Escrow_completed)))
    (PlainError ("reputation_write_refused:not_completed:" +:+ EscrowState_text (ej_state job))) ;;*
  let* agentId := resolveProviderAgentId (ej_org_id job) (ej_provider_address job) (ej_mode job) (ej_chain job) in
  match agentId with
  | None => ret tt
  | Some agentId =>
      let* event := writeReputation (ej_org_id job) agentId (ej_id job) COMPLETION_SCORE in
      match event with
      | None => ret tt
      | Some event => catch (broadcast_feedback job agentId event) (fun _ => ret tt)
      end
  end.

Definition applyEscrowStateChange (input : ApplyEscrowStateChangeInput) : M EscrowJobRow :=
  let* result := escrow_transition input in
  (if bool_decide (ae_next input = Escrow_completed)
   then catch (onEscrowCompleted (ej_id result)) (fun _ => ret tt) else ret tt) ;;*
  ret result.

(** ** Reconciliation *)

Definition ESCROW_STATE_BY_STATUS : list EscrowState :=
  [Escrow_open; Escrow_funded; Escrow_submitted; Escrow_completed; Escrow_rejected; Escrow_expired].

Definition decodeEscrowJob (callData : string) : Res (EscrowState * Z) :=
  let? job := decode_get_job callData in
  match nth_error ESCROW_STATE_BY_STATUS (Z.to_nat (fst job)) with
  | Some state => Ok (state, snd job)
  | None => Err (PlainError ("escrow_unknown_onchain_status:" +:+ to_string (fst job)))
  end.

Definition readJobCallData (onchainJobId escrowAddress : string) (chain : PaymentChain) : M string := fun w =>
  (read_job_call_data w onchainJobId escrowAddress chain, w).

Record EscrowDrift : Type := mkEscrowDrift {
  ef_field : string;
  ef_local : string;
  ef_onchain : string
}.

Definition budget_drifted (job : EscrowJobRow) (onchainMicros : Z) : bool :=
  (0 <? onchainMicros) && negb (onchainMicros =? ej_budget_usdc job).

Definition reconcile_row (state : EscrowState) (budget : option Z) (now : Z) (r : EscrowJobRow) : EscrowJobRow :=
  set_ej_state state (set_ej_budget_usdc (budget ?? ej_budget_usdc r) (set_ej_updated_at now r)).

Definition reconcileEscrowJob (escrowJobId : string) : M (EscrowJobRow * list EscrowDrift) :=
  withTransaction (
    let* locked := select_one T_escrow_jobs (the_job escrowJobId) in
    let* job := some_or locked (PlainError "escrow_job_not_found") in
    let* onchainJobId := some_or (ej_onchain_job_id job)
      (PlainError ("escrow_onchain_job_id_missing:" +:+ ej_id job)) in
    let* callData := readJobCallData onchainJobId (ej_escrow_address job) (ej_chain job) in
    let* onchain := lift (decodeEscrowJob callData) in
    let '(state, budgetMicros) := onchain in
    let state_drift := if bool_decide (state = ej_state job) then []
      else [mkEscrowDrift "state" (EscrowState_text (ej_state job)) (EscrowState_text state)] in
    let drifted := budget_drifted job budgetMicros in
    let drift := state_drift ++ if drifted
      then [mkEscrowDrift "budgetUsdc" (numeric_text (ej_budget_usdc job)) (formatUsdc6 budgetMicros)] else [] in
    match drift with
    | [] => ret (job, [])
    | _ :: _ =>
        let* now := get_now in
        let* updated := update T_escrow_jobs (the_job (ej_id job))
          (reconcile_row state (if drifted then Some budgetMicros else None) now) in
        let* row := some_or (head updated) (PlainError "escrow_job_update_failed") in
        applyReservationOutcome job state ;;*
        ret (row, drift)
    end).

(** ** Lists *)

(** Of a window of whole hours. *)
Definition listEscrowLivenessRisks (orgId : string) (withinHours : Z) : M (list EscrowJobRow) :=
  let* now := get_now in
  let* rows := select T_escrow_jobs (fun r => bool_decide (ej_state r = Escrow_submitted)
    && (ej_expires_at r <=? now + withinHours * 3600 * 1000) && (ej_org_id r =s orgId)) in
  ret (sort_by (fun a b => ej_expires_at a <=? ej_expires_at b) rows).

Definition counterparty_le (a b : string * string) : bool :=
  if fst a =s fst b then String.leb (snd a) (snd b) else String.leb (fst a) (fst b).

Definition listEscrowCounterparties (orgId : string) (mode : PaymentMode) : M (list (string * string)) :=
  let* rows := select T_escrow_jobs (fun r => (ej_org_id r =s orgId) && bool_decide (ej_mode r = mode)) in
  ret (sort_by counterparty_le
    (remove_dups (map (fun r => (PaymentChain_text (ej_chain r), ej_provider_address r)) rows))).
End Handlers.
