(* ===== verification/Delegations.v ===== *)
(** Permit2 delegations ([payments/permit2.ts], [delegation-ceiling.ts]): a
    payer lets a payee draw up to a ceiling; the bounds on what the treasury
    delegates, the calls that sign and permit, the drawdowns, revocation.

    Each handler is one transaction; a drawdown and a revocation lock the row
    of the delegation, so they are steps.  What was sent to the chain stays
    sent when the transaction is rolled back. *)

From S2P Require Import Prelude Errors Usdc Json Identity Quotes Schema Host Handlers Doubles Policy Accounts Chain.
Import Digits.
Open Scope Z_scope.

(** ** The chain *)

(** The answer of an RPC node: [body.error], with its message, and [body.result]. *)
Record RpcBody : Type := mkRpcBody {
  rb_error : option (option string);
  rb_result : option string
}.

(** The environment, the RPC nodes and the encoder of viem.  [rpc_call]: a
    node's answer to a method with its parameters, at an attempt of a poll. *)
Class Permit2Chain : Type := {
  process_env : string -> option string;
  rpc_call : World -> nat -> nat -> string -> string -> list string -> Res RpcBody;
  encode_allowance : string -> string -> string -> string
}.

Definition NONCE_READ_MAX_ATTEMPTS : nat := 6.
Definition NATIVE_BALANCE_MAX_ATTEMPTS : nat := 6.

(** [error instanceof Error ? error.message : 'unknown']. *)
Definition error_message (e : option exn) : string :=
  match e with
  | Some (PlainError m) => m
  | Some (ProviderError m _) => m
  | Some (IdentityError code _) => code
  | _ => "unknown"
  end.

(** [BigInt] of digits in a radix. *)
Fixpoint digits_value (radix : Z) (l : list ascii) (acc : Z) : option Z :=
  match l with
  | [] => Some acc
  | c :: r => match radix_digit radix c with Some v => digits_value radix r (acc * radix + v) | None => None end
  end.

(** [BigInt(`0x${hex.slice(128, 192)}`)] of [hex = result.slice(2)]. *)
Definition nonce_word (result : string) : option Z :=
  match firstn 64 (skipn 128 (skipn 2 (chars result))) with
  | [] => None
  | word => digits_value 16 word 0
  end.

(** [BigInt(result)], of a hexadecimal or a decimal text. *)
Definition big_int (result : string) : option Z :=
  match chars result with
  | [] => Some 0
  | "0"%char :: "x"%char :: word => match word with [] => None | _ => digits_value 16 word 0 end
  | word => digits_value 10 word 0
  end.

Section Chain.
Context {PC : Permit2Chain}.

Definition chainRpcUrl (chain : PaymentChain) : option string :=
  match chain with
  | Chain_arc => process_env "ARC_RPC_URL"
  | Chain_base => process_env "BASE_SEPOLIA_RPC_URL"
  | _ => None
  end.

(** The answer of a call, or the error it stands for. *)
Definition rpc_result (answer : Res RpcBody) (prefix : string) : Res string :=
  let? body := answer in
  match rb_error body with
  | Some message => Err (PlainError (message ?? (prefix +:+ "_rpc_error")))
  | None => match rb_result body with
            | Some result => Ok result
            | None => Err (PlainError (prefix +:+ "_empty_response"))
            end
  end.

Fixpoint rpc_attempts (poll n attempt : nat) (rpcUrl method : string) (params : list string) (errorPrefix : string)
    (lastError : option exn) : M string :=
  match n with
  | O => throw (PlainError (errorPrefix +:+ "_unavailable:" +:+ error_message lastError))
  | S n =>
      catch (fun w => (rpc_result (rpc_call w poll attempt rpcUrl method params) errorPrefix, w))
        (fun e => rpc_attempts poll n (S attempt) rpcUrl method params errorPrefix (Some e))
  end.

Definition rpcCallWithRetry (poll : nat) (rpcUrl method : string) (params : list string) (errorPrefix : string) : M string :=
  rpc_attempts poll NATIVE_BALANCE_MAX_ATTEMPTS 1 rpcUrl method params errorPrefix None.

(** [rpcUrl === undefined || rpcUrl.length === 0]. *)
Definition configured_url (chain : PaymentChain) (code : string) : M string :=
  match chainRpcUrl chain with
  | Some rpcUrl => throw_if (rpcUrl =s "") (PlainError (code +:+ ":" +:+ PaymentChain_text chain)) ;;* ret rpcUrl
  | None => throw (PlainError (code +:+ ":" +:+ PaymentChain_text chain))
  end.

Definition nativeGasBalanceWei (poll : nat) (address : string) (chain : PaymentChain) : M Z :=
  let* rpcUrl := configured_url chain "agent_wallet_gas_rpc_not_configured" in
  let* result := rpcCallWithRetry poll rpcUrl "eth_getBalance" [address; "latest"%string] "agent_wallet_gas" in
  some_or (big_int result) (PlainError "SyntaxError").

Definition read_nonce_once (rpcUrl owner token spender : string) (attempt : nat) : M Z := fun w =>
  (let? result := rpc_result (rpc_call w 0 attempt rpcUrl "eth_call"
     [PERMIT2_ADDRESS; encode_allowance owner token spender; "latest"%string]) "eth_call" in
   match nonce_word result with Some n => Ok n | None => Err (PlainError "SyntaxError") end, w).

Fixpoint read_nonce (rpcUrl owner token spender : string) (n attempt : nat) (lastError : option exn) : M Z :=
  match n with
  | O => throw (PlainError ("permit2_nonce_unavailable:" +:+ error_message lastError))
  | S n =>
      catch (read_nonce_once rpcUrl owner token spender attempt)
        (fun e => read_nonce rpcUrl owner token spender n (S attempt) (Some e))
  end.

Definition readPermit2Nonce (ownerAddress tokenAddress spenderAddress : string) (chain : PaymentChain) : M Z :=
  let* rpcUrl := configured_url chain "permit2_nonce_rpc_not_configured" in
  read_nonce rpcUrl ownerAddress tokenAddress spenderAddress NONCE_READ_MAX_ATTEMPTS 1 None.
End Chain.

(** ** Payloads *)

Definition CHAIN_USDC (mode : PaymentMode) (chain : PaymentChain) : string :=
  match mode, chain with
  | mode_test, Chain_arbitrum => "0x75faf114eafb1BDbe2F0316DF893fd58CE46AA4d"
  | mode_test, Chain_avalanche => "0x5425890298aed601595a70AB815c96711a31Bc65"
  | mode_test, Chain_base => "0x036CbD53842c5426634e7929541eC2318f3dCF7e"
  | mode_test, Chain_optimism => "0x5fd84259d66Cd46123540766Be93DFE6D43130D7"
  | mode_test, Chain_polygon => "0x41E94Eb019C0762f9Bfcf9Fb1E58725BfB0e7582"
  | mode_test, Chain_arc => "0x3600000000000000000000000000000000000000"
  | mode_live, Chain_arbitrum => "0xaf88d065e77c8cC2239327C5EDb3A432268e5831"
  | mode_live, Chain_avalanche => "0xB97EF9Ef8734C71904D8002F8b6Bc66Dd9c48a6E"
  | mode_live, Chain_base => "0x833589fCD6eDb6E08f4c7C32D4f71b54bdA02913"
  | mode_live, Chain_optimism => "0x0b2C639c533813f4Aa9D7837CAf62653d097Ff85"
  | mode_live, Chain_polygon => "0x3c499c542cEF5E3811e1192ce70d8cC03d5c3359"
  | mode_live, Chain_arc => "0x0000000000000000000000000000000000000000"
  end.

Definition usdcTokenAddress (mode : PaymentMode) (chain : PaymentChain) : Res string :=
  if bool_decide (chain = Chain_arc) && bool_decide (mode = mode_live)
  then Err (PlainError "arc_mainnet_not_supported") else Ok (CHAIN_USDC mode chain).

Definition PERMIT2_DOMAIN_CHAIN_ID (chain : PaymentChain) : Z :=
  match chain with
  | Chain_arc => 5042002 | Chain_base => 84532 | Chain_arbitrum => 421614
  | Chain_polygon => 80002 | Chain_optimism => 11155420 | Chain_avalanche => 43113
  end.

Record PermitSingle : Type := mkPermitSingle {
  pm_token : string;
  pm_amount : Z;
  pm_expiration : Z;
  pm_nonce : Z;
  pm_spender : string;
  pm_sigDeadline : Z
}.

Definition typed_field (name type : string) : json := JObj [("name", JStr name); ("type", JStr type)]%string.

Definition buildPermitSingle (chainId : Z) (tokenAddress spenderAddress : string) (amountMicros expiration nonce : Z) :
    json * PermitSingle :=
  let sigDeadline := expiration in
  let permit := mkPermitSingle tokenAddress amountMicros expiration nonce spenderAddress sigDeadline in
  (JObj
    [("types", JObj
        [("EIP712Domain", JArr [typed_field "name" "string"; typed_field "chainId" "uint256";
                                typed_field "verifyingContract" "address"]);
         ("PermitSingle", JArr [typed_field "details" "PermitDetails"; typed_field "spender" "address";
                                typed_field "sigDeadline" "uint256"]);
         ("PermitDetails", JArr [typed_field "token" "address"; typed_field "amount" "uint160";
                                 typed_field "expiration" "uint48"; typed_field "nonce" "uint48"])]);
     ("domain", JObj [("name", JStr "Permit2"); ("chainId", jint chainId);
                      ("verifyingContract", JStr PERMIT2_ADDRESS)]);
     ("primaryType", JStr "PermitSingle");
     ("message", JObj
        [("details", JObj [("token", JStr tokenAddress); ("amount", JStr (to_string amountMicros));
                           ("expiration", JStr (to_string expiration)); ("nonce", JStr (to_string nonce))]);
         ("spender", JStr spenderAddress); ("sigDeadline", JStr (to_string sigDeadline))])]%string, permit).

(** ** The bounds *)

Record PayerScope : Type := mkPayerScope {
  sc_orgId : string;
  sc_payerAddress : string;
  sc_mode : PaymentMode;
  sc_chain : PaymentChain;
  sc_tokenAddress : string
}.

(** A live delegation of the payer. *)
Definition outstanding (scope : PayerScope) (now : Z) (d : AgentDelegationRow) : bool :=
  (dele_org_id d =s sc_orgId scope) && (dele_payer_address d =s sc_payerAddress scope)
  && bool_decide (dele_mode d = sc_mode scope) && bool_decide (dele_chain d = sc_chain scope)
  && (dele_token_address d =s sc_tokenAddress scope) && bool_decide (dele_status d = Delegation_active)
  && (now <? dele_expires_at d).

Definition headroom (d : AgentDelegationRow) : Z := dele_ceiling_usdc d - dele_drawn_usdc d.

Definition outstandingHeadroomMicros (scope : PayerScope) : M Z :=
  let* now := get_now in
  let* rows := select T_agent_delegations (outstanding scope now) in
  lift (parseUsdcMicros (numeric_text (fold_right Z.add 0 (map headroom rows)))).

Definition orgCeilingMicros (orgId : string) (mode : PaymentMode) (chain : PaymentChain) : M (option Z) :=
  let* row := select_one T_org_delegation_ceilings (fun r => (odc_org_id r =s orgId)
    && bool_decide (odc_mode r = mode) && bool_decide (odc_chain r = chain)) in
  match row with
  | None => ret None
  | Some row => let* micros := lift (parseUsdcMicros (numeric_text (odc_ceiling_usdc row))) in ret (Some micros)
  end.

Definition assertDelegationWithinCeilings (scope : PayerScope) (newCeilingMicros : Z) (readBalanceMicros : M Z) : M unit :=
  let* outstanding := outstandingHeadroomMicros scope in
  let total := outstanding + newCeilingMicros in
  let* configured := orgCeilingMicros (sc_orgId scope) (sc_mode scope) (sc_chain scope) in
  throw_if (match configured with Some c => c <? total | None => false end)
    (conflict "org_delegation_ceiling_exceeded") ;;*
  let* balanceMicros := readBalanceMicros in
  throw_if (balanceMicros <? total) (conflict "treasury_insufficient_for_ceiling").

(** ** Who submits, and its gas *)

Definition treasury_wallet (orgId : string) (mode : PaymentMode) (chain : PaymentChain) (r : CircleChainWalletRow) : bool :=
  (ccw_org_id r =s orgId) && bool_decide (ccw_mode r = mode) && bool_decide (ccw_chain r = chain)
  && bool_decide (ccw_status r = Access_active).

Definition resolvePermitSubmitter (orgId : string) (mode : PaymentMode) (chain : PaymentChain) (payerAddress : string)
    (payerIsPlatformControlled : bool) (payeeAgentId : option string) : M string :=
  if payerIsPlatformControlled then ret payerAddress else
  let* payee := (match payeeAgentId with
                 | Some agentId => findAgentWallet agentId mode chain
                 | None => ret None
                 end) in
  match payee with
  | Some wallet => ret (acw_address wallet)
  | None =>
      let* treasury := select_one T_circle_chain_wallets (treasury_wallet orgId mode chain) in
      match treasury with
      | Some wallet => ret (ccw_address wallet)
      | None => throw (PlainError "permit_submitter_unavailable")
      end
  end.

Definition SUBMITTER_GAS_FLOOR_MICROS : Z := 100000.
Definition BASE_SUBMITTER_ETH_FLOOR_WEI : Z := 50000000000000.
Definition BASE_GAS_POLL_ATTEMPTS : nat := 8.

Section Gas.
Context {CB : ChainBalances} {TP : TreasuryProvider} {PC : Permit2Chain}.

Fixpoint poll_gas (n poll : nat) (address : string) (chain : PaymentChain) : M unit :=
  match n with
  | O => ret tt
  | S n =>
      let* eth := nativeGasBalanceWei poll address chain in
      if BASE_SUBMITTER_ETH_FLOOR_WEI <=? eth then ret tt else poll_gas n (S poll) address chain
  end.

Definition base_gas_floor (orgId submitterAddress : string) (chain : PaymentChain) (mode : PaymentMode) : M unit :=
  if negb (bool_decide (mode = mode_test)) then ret tt else
  let* eth := nativeGasBalanceWei 0 submitterAddress chain in
  if BASE_SUBMITTER_ETH_FLOOR_WEI <=? eth then ret tt else
  let* treasury := select_one T_circle_chain_wallets (treasury_wallet orgId mode chain) in
  match treasury with
  | None => ret tt
  | Some treasury =>
      if ccw_address treasury =s submitterAddress then ret tt else
      let* refId := ref_id "agentops-base-gas" in
      let* sent := catch (transferNativeGas
        {| ng_amountWei := BASE_SUBMITTER_ETH_FLOOR_WEI - eth; ng_chain := chain;
           ng_destinationAddress := submitterAddress; ng_mode := mode; ng_refId := refId;
           ng_sourceWalletId := ccw_circle_wallet_id treasury |} ;;* ret true) (fun _ => ret false) in
      if sent then poll_gas BASE_GAS_POLL_ATTEMPTS 1 submitterAddress chain else ret tt
  end.

Definition arc_gas_floor (orgId submitterAddress : string) (chain : PaymentChain) (mode : PaymentMode) : M unit :=
  let* balance := nativeBalanceMicros submitterAddress chain mode in
  if SUBMITTER_GAS_FLOOR_MICROS <=? balance then ret tt else
  let* treasury := select_one T_circle_chain_wallets (treasury_wallet orgId mode chain) in
  match treasury with
  | None => ret tt
  | Some treasury =>
      if ccw_address treasury =s submitterAddress then ret tt else
      let* refId := ref_id "agentops-permit-gas" in
      transferWallet
        {| tf_amountMicros := SUBMITTER_GAS_FLOOR_MICROS - balance; tf_chain := chain;
           tf_destinationAddress := submitterAddress; tf_mode := mode; tf_refId := refId;
           tf_sourceAddress := ccw_address treasury |} ;;*
      ret tt
  end.

Definition ensureSubmitterGasFloor (orgId submitterAddress : string) (chain : PaymentChain) (mode : PaymentMode) : M unit :=
  match chainRpcUrl chain with
  | None => ret tt
  | Some _ =>
      match chain with
      | Chain_base => base_gas_floor orgId submitterAddress chain mode
      | Chain_arc => arc_gas_floor orgId submitterAddress chain mode
      | _ => ret tt
      end
  end.
End Gas.

(** ** Signing *)

Record UserSigned : Type := mkUserSigned {
  us_payerAddress : string;
  us_signature : string;
  us_nonce : Z
}.

Record RecordSignedDelegationInput : Type := mkRecordSigned {
  rs_orgId : string;
  rs_payerAgentId : option string;
  rs_payeeAgentId : option string;
  rs_payerTreasury : bool;
  rs_payeeAddress : string;
  rs_mode : PaymentMode;
  rs_chain : PaymentChain;
  rs_tokenAddress : option string;
  rs_ceilingUsdc : string;
  rs_expiresAt : Z;
  rs_approvedBy : string;
  rs_userSigned : option UserSigned
}.

Definition APPROVE_PERMIT2_SIGNATURE : string := "approve(address,uint256)".
Definition PERMIT_SIGNATURE : string := "permit(address,((address,uint160,uint48,uint48),address,uint256),bytes)".
Definition TRANSFER_FROM_SIGNATURE : string := "transferFrom(address,address,uint160,address)".
Definition LOCKDOWN_SIGNATURE : string := "lockdown((address,address)[])".

(** The payer's address and kind. *)
Definition resolve_payer (input : RecordSignedDelegationInput) : M (string * PayerKind) :=
  match rs_userSigned input with
  | Some signed => ret (us_payerAddress signed, Payer_user)
  | None =>
      if rs_payerTreasury input then
        let* treasury := select_one T_circle_chain_wallets
          (treasury_wallet (rs_orgId input) (rs_mode input) (rs_chain input)) in
        let* treasury := some_or treasury (PlainError "org_treasury_wallet_not_found") in
        ret (ccw_address treasury, Payer_treasury)
      else
        let* agentId := some_or (rs_payerAgentId input) (PlainError "delegation_payer_required") in
        let* payer := findAgentWallet agentId (rs_mode input) (rs_chain input) in
        let* payer := some_or payer (PlainError "agent_wallet_not_found") in
        ret (acw_address payer, Payer_agent)
  end.

Definition token_of (tokenAddress : option string) (mode : PaymentMode) (chain : PaymentChain) : Res string :=
  match tokenAddress with Some token => Ok token | None => usdcTokenAddress mode chain end.

Definition payer_scope (input : RecordSignedDelegationInput) (payerAddress tokenAddress : string) : PayerScope :=
  mkPayerScope (rs_orgId input) payerAddress (rs_mode input) (rs_chain input) tokenAddress.

Definition delegation_row (input : RecordSignedDelegationInput) (id payerAddress tokenAddress signature : string)
    (kind : PayerKind) (ceilingMicros nonce now : Z) : AgentDelegationRow :=
  {| dele_id := id; dele_org_id := rs_orgId input;
     dele_payer_agent_id := if bool_decide (kind = Payer_agent) then rs_payerAgentId input else None;
     dele_payer_address := payerAddress; dele_payee_agent_id := rs_payeeAgentId input;
     dele_payee_address := rs_payeeAddress input; dele_mode := rs_mode input; dele_chain := rs_chain input;
     dele_token_address := tokenAddress; dele_ceiling_usdc := ceilingMicros; dele_drawn_usdc := 0;
     dele_expires_at := rs_expiresAt input; dele_permit_nonce := nonce; dele_signature := Some signature;
     dele_status := Delegation_active; dele_approved_by := rs_approvedBy input; dele_payer_kind := kind;
     dele_created_at := now; dele_updated_at := now |}.

Section Handlers.
Context {CB : ChainBalances} {TP : TreasuryProvider} {PC : Permit2Chain}.

(** The platform signs, and approves Permit2 for all that is outstanding. *)
Definition platform_signature (input : RecordSignedDelegationInput) (payerAddress tokenAddress : string)
    (ceilingMicros expirationSeconds nonce : Z) : M string :=
  let '(typedData, _) := buildPermitSingle (PERMIT2_DOMAIN_CHAIN_ID (rs_chain input)) tokenAddress
    (rs_payeeAddress input) ceilingMicros expirationSeconds nonce in
  let* signature := signPermit2Delegation
    {| ps_mode := rs_mode input; ps_ownerAddress := payerAddress; ps_chain := rs_chain input; ps_typedData := typedData |} in
  let* outstanding := outstandingHeadroomMicros (payer_scope input payerAddress tokenAddress) in
  let approvalMicros := outstanding + ceilingMicros in
  ensureSubmitterGasFloor (rs_orgId input) payerAddress (rs_chain input) (rs_mode input) ;;*
  let* refId := ref_id "agentops-p2-approve" in
  executePermit2Transaction
    {| px_mode := rs_mode input; px_chain := rs_chain input; px_senderAddress := payerAddress;
       px_abiFunctionSignature := APPROVE_PERMIT2_SIGNATURE;
       px_abiParameters := map JStr [PERMIT2_ADDRESS; to_string approvalMicros];
       px_refId := refId; px_contractAddress := Some tokenAddress |} ;;*
  ret signature.

(** The [permit] call. *)
Definition submit_permit (input : RecordSignedDelegationInput) (submitter payerAddress tokenAddress signature : string)
    (ceilingMicros expirationSeconds nonce : Z) : M string :=
  let* refId := ref_id "agentops-permit" in
  executePermit2Transaction
    {| px_mode := rs_mode input; px_chain := rs_chain input; px_senderAddress := submitter;
       px_abiFunctionSignature := PERMIT_SIGNATURE;
       px_abiParameters := [JStr payerAddress;
         JArr [JArr (map JStr [tokenAddress; to_string ceilingMicros; to_string expirationSeconds; to_string nonce]);
               JStr (rs_payeeAddress input); JStr (to_string expirationSeconds)];
         JStr signature];
       px_refId := refId; px_contractAddress := None |}.

(** The bounds are the treasury's only. *)
Definition check_ceilings (input : RecordSignedDelegationInput) (kind : PayerKind) (payerAddress tokenAddress : string)
    (ceilingMicros : Z) : M unit :=
  if bool_decide (kind = Payer_treasury) then
    assertDelegationWithinCeilings (payer_scope input payerAddress tokenAddress) ceilingMicros
      (nativeBalanceMicros payerAddress (rs_chain input) (rs_mode input))
  else ret tt.

(** What follows the bounds: nonce, signature, permit, row. *)
Definition sign_and_record (input : RecordSignedDelegationInput) (kind : PayerKind) (payerAddress tokenAddress : string)
    (ceilingMicros : Z) : M AgentDelegationRow :=
  let expirationSeconds := rs_expiresAt input / 1000 in
  let* nonce := (match rs_userSigned input with
                 | Some signed => ret (us_nonce signed)
                 | None => readPermit2Nonce payerAddress tokenAddress (rs_payeeAddress input) (rs_chain input)
                 end) in
  let* signature := (match rs_userSigned input with
                     | Some signed => ret (us_signature signed)
                     | None => platform_signature input payerAddress tokenAddress ceilingMicros expirationSeconds nonce
                     end) in
  let* submitter := resolvePermitSubmitter (rs_orgId input) (rs_mode input) (rs_chain input) payerAddress
    (negb (is_some (rs_userSigned input))) (rs_payeeAgentId input) in
  ensureSubmitterGasFloor (rs_orgId input) submitter (rs_chain input) (rs_mode input) ;;*
  submit_permit input submitter payerAddress tokenAddress signature ceilingMicros expirationSeconds nonce ;;*
  let* id := prefixedId "dele" in
  let* now := get_now in
  let row := delegation_row input id payerAddress tokenAddress signature kind ceilingMicros nonce now in
  insert T_agent_delegations row ;;*
  ret row.

Definition recordSignedDelegation (input : RecordSignedDelegationInput) : M AgentDelegationRow :=
  withTransaction (
    let* payer := resolve_payer input in
    let '(payerAddress, kind) := payer in
    let* tokenAddress := lift (token_of (rs_tokenAddress input) (rs_mode input) (rs_chain input)) in
    let* ceilingMicros := lift (parseUsdcMicros (rs_ceilingUsdc input)) in
    check_ceilings input kind payerAddress tokenAddress ceilingMicros ;;*
    sign_and_record input kind payerAddress tokenAddress ceilingMicros).

(** ** Drawing *)

Definition the_delegation (id : string) (r : AgentDelegationRow) : bool := dele_id r =s id.

Definition drawdown_row (id delegationId : string) (amountMicros now : Z) : DrawdownRow :=
  {| dd_id := id; dd_delegation_id := delegationId; dd_amount_usdc := amountMicros; dd_tx_hash := None;
     dd_status := Drawdown_submitted; dd_created_at := now |}.

Definition drawn_row (newDrawnMicros : Z) (status : DelegationStatus) (now : Z) (r : AgentDelegationRow) :
    AgentDelegationRow :=
  set_dele_drawn_usdc newDrawnMicros (set_dele_status status (set_dele_updated_at now r)).

(** [transferFrom], sent by the payee. *)
Definition submit_transfer (delegation : AgentDelegationRow) (amountMicros : Z) : M string :=
  let* refId := ref_id "agentops-draw" in
  executePermit2Transaction
    {| px_mode := dele_mode delegation; px_chain := dele_chain delegation;
       px_senderAddress := dele_payee_address delegation; px_abiFunctionSignature := TRANSFER_FROM_SIGNATURE;
       px_abiParameters := map JStr [dele_payer_address delegation; dele_payee_address delegation;
                                     to_string amountMicros; dele_token_address delegation];
       px_refId := refId; px_contractAddress := None |}.

Definition drawDown (delegationId amountUsdc : string) : M (string * string) :=
  withTransaction (
    let* locked := select_one T_agent_delegations (the_delegation delegationId) in
    let* delegation := some_or locked (PlainError "agent_delegation_not_found") in
    throw_if (bool_decide (dele_status delegation = Delegation_revoked)) (conflict "delegation_revoked") ;;*
    throw_if (negb (bool_decide (dele_status delegation = Delegation_active))) (conflict "delegation_not_active") ;;*
    let* now := get_now in
    throw_if (dele_expires_at delegation <=? now) (conflict "delegation_expired") ;;*
    let* amountMicros := lift (parseUsdcMicros amountUsdc) in
    let* ceilingMicros := lift (parseUsdcMicros (numeric_text (dele_ceiling_usdc delegation))) in
    let* drawnMicros := lift (parseUsdcMicros (numeric_text (dele_drawn_usdc delegation))) in
    throw_if (ceilingMicros <? drawnMicros + amountMicros) (conflict "delegation_ceiling_exceeded") ;;*
    ensureSubmitterGasFloor (dele_org_id delegation) (dele_payee_address delegation) (dele_chain delegation)
      (dele_mode delegation) ;;*
    let* drawdownId := prefixedId "deledraw" in
    insert T_agent_delegation_drawdowns (drawdown_row drawdownId delegationId amountMicros now) ;;*
    let* txHash := submit_transfer delegation amountMicros in
    update T_agent_delegation_drawdowns (fun r => dd_id r =s drawdownId)
      (fun r => set_dd_tx_hash (Some txHash) (set_dd_status Drawdown_confirmed r)) ;;*
    let newDrawnMicros := drawnMicros + amountMicros in
    let newStatus := if ceilingMicros <=? newDrawnMicros then Delegation_exhausted else Delegation_active in
    update T_agent_delegations (the_delegation delegationId) (drawn_row newDrawnMicros newStatus now) ;;*
    ret (txHash, formatUsdc6 newDrawnMicros)).

(** ** Revocation *)

Definition revoked_row (now : Z) (r : AgentDelegationRow) : AgentDelegationRow :=
  set_dele_status Delegation_revoked (set_dele_updated_at now r).

(** Whether the allowance was revoked on the chain too. *)
Definition revokeDelegation (delegationId : string) : M bool :=
  withTransaction (
    let* locked := select_one T_agent_delegations (the_delegation delegationId) in
    let* delegation := some_or locked (PlainError "agent_delegation_not_found") in
    let platformControlsPayer := negb (bool_decide (dele_payer_kind delegation = Payer_user)) in
    if bool_decide (dele_status delegation = Delegation_revoked) then ret platformControlsPayer else
    (if platformControlsPayer then
       let* refId := ref_id "agentops-revoke" in
       executePermit2Transaction
         {| px_mode := dele_mode delegation; px_chain := dele_chain delegation;
            px_senderAddress := dele_payer_address delegation; px_abiFunctionSignature := LOCKDOWN_SIGNATURE;
            px_abiParameters := [JArr [JArr (map JStr [dele_token_address delegation; dele_payee_address delegation])]];
            px_refId := refId; px_contractAddress := None |} ;;* ret tt
     else ret tt) ;;*
    let* now := get_now in
    update T_agent_delegations (the_delegation delegationId) (revoked_row now) ;;*
    ret platformControlsPayer).

(** ** What a user signs, and the list *)

Record UserDelegationTypedData : Type := mkUserTypedData {
  ut_typedData : json;
  ut_nonce : string;
  ut_tokenAddress : string;
  ut_permit2Address : string
}.

Definition buildUserDelegationTypedData (payerAddress payeeAddress : string) (mode : PaymentMode) (chain : PaymentChain)
    (tokenAddress : option string) (ceilingUsdc : string) (expiresAt : Z) : M UserDelegationTypedData :=
  let* tokenAddress := lift (token_of tokenAddress mode chain) in
  let* ceilingMicros := lift (parseUsdcMicros ceilingUsdc) in
  let expirationSeconds := expiresAt / 1000 in
  let* nonce := readPermit2Nonce payerAddress tokenAddress payeeAddress chain in
  let '(typedData, _) := buildPermitSingle (PERMIT2_DOMAIN_CHAIN_ID chain) tokenAddress payeeAddress ceilingMicros
    expirationSeconds nonce in
  ret (mkUserTypedData typedData (to_string nonce) tokenAddress PERMIT2_ADDRESS).
End Handlers.

(** A delegation with what remains of it, and whether the platform can revoke
    it on the chain; the other columns are the row's. *)
Record DelegationSummary : Type := mkDelegationSummary {
  ds_row : AgentDelegationRow;
  ds_remainingUsdc : string;
  ds_platformControlsPayer : bool
}.

Definition delegation_summary (row : AgentDelegationRow) : Res DelegationSummary :=
  let? ceiling := parseUsdcMicros (numeric_text (dele_ceiling_usdc row)) in
  let? drawn := parseUsdcMicros (numeric_text (dele_drawn_usdc row)) in
  let remaining := ceiling - drawn in
  Ok (mkDelegationSummary row (formatUsdc6 (if 0 <? remaining then remaining else 0))
        (negb (bool_decide (dele_payer_kind row = Payer_user)))).

Definition listDelegations (orgId : string) (mode : PaymentMode) : M (list DelegationSummary) :=
  let* rows := select T_agent_delegations (fun r => (dele_org_id r =s orgId) && bool_decide (dele_mode r = mode)) in
  lift (res_map delegation_summary (sort_by (fun a b => dele_created_at b <=? dele_created_at a) rows)).
