(* ===== verification/Trust.v ===== *)
(** Trust in an external agent ([payments/trust.ts]): the evidence of its
    escrow jobs, the promotion that lists its address and opens a treasury
    delegation, and the revocation of both.

    The delegation engine works on a connection of its own: what it committed
    stays when the transaction around it is rolled back, which owns the
    allowlist alone. *)

From S2P Require Import Prelude Errors Usdc Json Identity Quotes Schema Host Handlers Accounts Chain Escrow Delegations.
Open Scope Z_scope.

Definition ownTransaction (t : table) {A} (m : M A) : M A := fun w =>
  match m w with
  | (Ok a, w') => (Ok a, w')
  | (Err e, w') => (Err e, with_db (db_set t (w_db w t) (w_db w')) w')
  end.

(** ** Evidence *)

Record TrustEvidence : Type := mkTrustEvidence {
  te_completedCount : Z;
  te_rejectedCount : Z;
  te_expiredCount : Z;
  te_settledUsdc : string;
  te_trusted : bool;
  te_jobs : list EscrowJobRow
}.

Record Counts : Type := mkCounts {
  ct_completed : Z;
  ct_rejected : Z;
  ct_expired : Z;
  ct_settled : Z
}.

(** One turn of the loop over the jobs. *)
Definition count_job (c : Counts) (job : EscrowJobRow) : M Counts :=
  match ej_state job with
  | Escrow_completed =>
      let* micros := lift (parseUsdcMicros (numeric_text (ej_budget_usdc job))) in
      ret (mkCounts (ct_completed c + 1) (ct_rejected c) (ct_expired c) (ct_settled c + micros))
  | Escrow_rejected => ret (mkCounts (ct_completed c) (ct_rejected c + 1) (ct_expired c) (ct_settled c))
  | Escrow_expired => ret (mkCounts (ct_completed c) (ct_rejected c) (ct_expired c + 1) (ct_settled c))
  | _ => ret c
  end.

Definition same_text (a b : string) : bool := lower a =s lower b.

Definition jobs_of (orgId address : string) (mode : PaymentMode) (chain : PaymentChain) (j : EscrowJobRow) : bool :=
  (ej_org_id j =s orgId) && bool_decide (ej_chain j = chain) && bool_decide (ej_mode j = mode)
  && same_text (ej_provider_address j) address.

Definition listed (orgId address : string) (chain : PaymentChain) (r : AllowlistRow) : bool :=
  (al_org_id r =s orgId) && bool_decide (al_chain r = chain) && same_text (al_address r) address.

Definition queryTrustEvidence (orgId address : string) (mode : PaymentMode) (chain : PaymentChain) : M TrustEvidence :=
  let* rows := select T_escrow_jobs (jobs_of orgId address mode chain) in
  let jobs := sort_by (fun a b => ej_created_at b <=? ej_created_at a) rows in
  let* counts := for_each count_job jobs (mkCounts 0 0 0 0) in
  let* allowlist := select T_payment_destination_allowlist (listed orgId address chain) in
  let trusted := existsb (fun row => al_status row =s "active") allowlist in
  ret (mkTrustEvidence (ct_completed counts) (ct_rejected counts) (ct_expired counts)
         (formatUsdc6 (ct_settled counts)) trusted jobs).

(** ** Promotion *)

Record TrustExternalAgentInput : Type := mkTrustExternalAgentInput {
  ti_orgId : string;
  ti_chain : PaymentChain;
  ti_mode : PaymentMode;
  ti_address : string;
  ti_label : string;
  ti_ceilingUsdc : string;
  ti_expiresAt : Z;
  ti_approvedBy : string
}.

Definition trusted_row (input : TrustExternalAgentInput) (id : string) (now : Z) : AllowlistRow :=
  {| al_id := id; al_org_id := ti_orgId input; al_chain := ti_chain input; al_address := ti_address input;
     al_label := ti_label input; al_source := "marketplace"; al_status := "active";
     al_created_by := ti_approvedBy input; al_approved_by := Some (ti_approvedBy input); al_created_at := now |}.

Definition treasury_delegation (input : TrustExternalAgentInput) : RecordSignedDelegationInput :=
  {| rs_orgId := ti_orgId input; rs_payerAgentId := None; rs_payeeAgentId := None; rs_payerTreasury := true;
     rs_payeeAddress := ti_address input; rs_mode := ti_mode input; rs_chain := ti_chain input;
     rs_tokenAddress := None; rs_ceilingUsdc := ti_ceilingUsdc input; rs_expiresAt := ti_expiresAt input;
     rs_approvedBy := ti_approvedBy input; rs_userSigned := None |}.

Section Handlers.
Context {CB : ChainBalances} {TP : TreasuryProvider} {PC : Permit2Chain}.

Definition trustExternalAgent (input : TrustExternalAgentInput) : M (string * string) :=
  ownTransaction T_payment_destination_allowlist (
    let* evidence := queryTrustEvidence (ti_orgId input) (ti_address input) (ti_mode input) (ti_chain input) in
    throw_if (te_completedCount evidence =? 0) (conflict "trust_requires_escrow_history") ;;*
    throw_if (te_trusted evidence) (conflict "agent_already_trusted") ;;*
    let* allowlistId := prefixedId "payto" in
    let* now := get_now in
    insert_or_ignore T_payment_destination_allowlist (trusted_row input allowlistId now) ;;*
    let* delegation := recordSignedDelegation (treasury_delegation input) in
    ret (allowlistId, dele_id delegation)).

(** ** Revocation *)

Definition active_for (orgId address : string) (mode : PaymentMode) (chain : PaymentChain) (d : AgentDelegationRow) :
    bool :=
  (dele_org_id d =s orgId) && bool_decide (dele_chain d = chain) && bool_decide (dele_mode d = mode)
  && same_text (dele_payee_address d) address && bool_decide (dele_status d = Delegation_active).

Definition revokeTrust (orgId address : string) (mode : PaymentMode) (chain : PaymentChain) : M unit :=
  ownTransaction T_payment_destination_allowlist (
    let* row := select_one T_payment_destination_allowlist (listed orgId address chain) in
    let* row := some_or (match row with
                         | Some row => if al_status row =s "active" then Some row else None
                         | None => None
                         end) (conflict "agent_not_trusted") in
    update T_payment_destination_allowlist (fun r => al_id r =s al_id row) (set_al_status "revoked") ;;*
    let* delegations := select T_agent_delegations (active_for orgId address mode chain) in
    for_each (fun _ delegation => revokeDelegation (dele_id delegation) ;;* ret tt) delegations tt).
End Handlers.
