(* ===== verification/Prepare.v ===== *)
(** Preparing an x402 payment ([payments/store.ts]): the policy gate
    ([enforceX402Policy]), the reservation ([preparePaidHttpPayment]) and the
    resumption of a reserved attempt ([resumePreparedPaidHttpPayment]).

    [preparePaidHttpPayment] runs in one transaction, but its policy gate
    works on other connections: what the gate writes is committed whatever
    happens next, and nothing is written before it. *)

From S2P Require Import Prelude Errors Usdc Json Identity Policy Quotes ResultCrypto PaidHttp Schema Host.
From S2P Require Import AuditLog AuditChain PolicyStore Approvals Ledger Attempts Accounts.
Import Digits.
Open Scope Z_scope.

(** ** The resource and the policy context *)

Record X402Resource : Type := mkX402Resource {
  xr_url : option string;
  xr_category : option string;
  xr_domain : option string
}.

Section Resource.
Context `{UrlParser}.

Definition domainFromUrl (url : option string) : option string :=
  match url with
  | None => None
  | Some u => option_map u_hostname (parse_url u)
  end.

Definition x402Resource (input : RuntimeX402PaymentInput) : X402Resource :=
  let resource := pi_resource input ?? [] in
  let url := stringValue (lookup_key "url" resource) in
  mkX402Resource url (stringValue (lookup_key "category" resource))
    (match domainFromUrl url with
     | Some d => Some d
     | None => stringValue (lookup_key "domain" resource)
     end).
End Resource.

Definition proof_keys : list string := ["approval_id"; "approvalId"; "decision_id"; "decisionId"]%string.

Definition requestContextForPolicy (context : option (list (string * json))) : list (string * json) :=
  List.filter (fun e => negb (mem (fst e) proof_keys)) (context ?? []).

Definition x402PolicyContext (paymentInput : RuntimeX402PaymentInput) (quote : RuntimeQuote)
    (resource : X402Resource) : list (string * json) :=
  [("payment", JObj
     [("amount", JStr (q_amount quote)); ("asset", JStr (q_asset quote));
      ("network", JStr (PaymentChain_text (q_network quote)));
      ("rail", JStr (PaymentRail_text (q_rail quote))); ("recipient", JStr (q_recipient quote))]);
   ("request", JObj (requestContextForPolicy (pi_context paymentInput)));
   ("resource", JObj
     [("category", jopt (xr_category resource)); ("domain", jopt (xr_domain resource));
      ("url", jopt (xr_url resource))])]%string.

(** [stringValue(context?.a) ?? stringValue(context?.b)]. *)
Definition context_text (context : option (list (string * json))) (a b : string) : option string :=
  let es := context ?? [] in
  match stringValue (lookup_key a es) with
  | Some s => Some s
  | None => stringValue (lookup_key b es)
  end.

Definition approvalProofFromContext (context : option (list (string * json))) :
    option string * option string :=
  (context_text context "approval_id" "approvalId", context_text context "decision_id" "decisionId").

(** ** The policy gate *)

Record PolicyGate : Type := mkPolicyGate {
  pg_approvalId : option string;
  pg_decisionId : string
}.

(** [approvalRequired] set: the gate threw [PaymentApprovalRequiredError]. *)
Record GateOutcome : Type := mkGateOutcome {
  go_approvalRequired : bool;
  go_gate : PolicyGate
}.

(** [threshold !== null && amount >= threshold]. *)
Definition threshold_reached (threshold : option Z) (quote : RuntimeQuote) : bool :=
  match threshold with Some t => t <=? q_amountMicros quote | None => false end.

Definition X402_ACTION : string := "payment.x402.authorize".

Section Gate.
Context `{Collation} `{Sha256}.

Definition enforceX402Policy (auth : ConnectionAuthResult) (input : RuntimeX402PaymentInput)
    (quote : RuntimeQuote) (resource : X402Resource) (threshold : option Z) : M PolicyGate :=
  let thresholdRequiresApproval := threshold_reached threshold quote in
  let context := JObj (x402PolicyContext input quote resource ++
    match threshold with
    | Some t => if thresholdRequiresApproval
                then [("control", JObj [("approval_threshold_usdc", JStr (formatUsdc t));
                                        ("source", JStr "agent_payment_account")])]%string
                else []
    | None => []
    end) in
  let* decision := checkPolicyDecision
    (mkOperatorContext (auth_connection_id auth) Role_member None (Some (auth_org_id auth)))
    (auth_org_id auth)
    (mkPolicyDecisionRequest "connection" (Some (auth_connection_id auth)) None X402_ACTION
       Target_agent (Some (auth_agent_id auth)) context) in
  let result := rd_result decision in
  throw_if (bool_decide (pr_decision result = deny)) (IdentityError (pr_reasonCode result) 403) ;;*
  let requiresApproval := bool_decide (pr_decision result = approval_required) || thresholdRequiresApproval in
  if negb requiresApproval then ret (mkPolicyGate None (rd_id decision)) else
  match approvalProofFromContext (pi_context input) with
  | (Some approvalId, Some decisionId) =>
      let* approval := getApproval (auth_org_id auth) approvalId in
      let* expectedHash := lift (approvalContextHash X402_ACTION Target_agent (Some (auth_agent_id auth)) context) in
      throw_if (negb (ap_context_hash (ar_row approval) =s expectedHash)) (badRequest "approval_context_mismatch") ;;*
      let* consumed := consumeApproval auth approvalId decisionId in
      ret (mkPolicyGate (Some (ap_id (ar_row consumed))) (rd_id decision))
  | _ =>
      let* approval := createApprovalRequest
        (mkCreateApprovalInput (auth_org_id auth) (auth_agent_id auth) (auth_connection_id auth)
           (rd_id decision) X402_ACTION Target_agent (Some (auth_agent_id auth)) context None) in
      throw (PaymentApprovalRequiredError (rd_id decision) (ap_id (ar_row approval)))
  end.

(** The [try]: an approval that is required is an outcome, not a failure. *)
Definition policy_gate (auth : ConnectionAuthResult) (input : RuntimeX402PaymentInput)
    (quote : RuntimeQuote) (resource : X402Resource) (threshold : option Z) : M GateOutcome :=
  catch
    (let* gate := enforceX402Policy auth input quote resource threshold in ret (mkGateOutcome false gate))
    (fun e => match e with
              | PaymentApprovalRequiredError decisionId approvalId =>
                  ret (mkGateOutcome true (mkPolicyGate (Some approvalId) decisionId))
              | _ => throw e
              end).
End Gate.

(** ** Preparation *)

Definition present (key : string) (v : option json) : list (string * json) :=
  match v with Some j => [(key, j)] | None => [] end.

Definition accept_json (a : RuntimeX402Accept) : json := JObj (x_object a).

Definition quote_json (q : QuotePayload) : json :=
  JObj [("accept", accept_json (qp_accept q)); ("mode", JStr (qp_mode q));
        ("resource", JObj (qp_resource q));
        ("x402", JObj [("amount", JStr (qp_amount q)); ("network", JStr (qp_network q))])]%string.

Record RuntimePaidHttpX402Input : Type := mkRuntimePaidHttpX402Input {
  ph_idempotency_key : string;
  ph_request : PaidHttpRequest
}.

Record PreparedPaidHttpPayment : Type := mkPreparedPaidHttpPayment {
  pp_approvalRequired : bool;
  pp_attempt : X402AttemptRow;
  pp_destination : ValidatedPaidHttpDestination;
  pp_mode : PaymentMode;
  pp_paymentInput : RuntimeX402PaymentInput;
  pp_policyGate : PolicyGate;
  pp_quote : RuntimeQuote;
  pp_quoteHash : string;
  pp_quotePayload : QuotePayload;
  pp_reservationId : string;
  pp_resource : X402Resource;
  pp_source : PaymentSourceRow
}.

Inductive PreparedPaidHttpPaymentOutcome : Type :=
| Outcome_existing (attempt : X402AttemptRow)
| Outcome_prepared (payment : PreparedPaidHttpPayment).

(** What is known when the policy is consulted. *)
Record PaymentDraft : Type := mkPaymentDraft {
  dr_account : AgentPaymentAccountRow;
  dr_mode : PaymentMode;
  dr_quote : RuntimeQuote;
  dr_resource : X402Resource;
  dr_source : PaymentSourceRow;
  dr_quotePayload : QuotePayload;
  dr_quoteHash : string;
  dr_paymentInput : RuntimeX402PaymentInput
}.

Definition is_circle (p : PaymentProvider) : bool :=
  match p with Provider_circle_gateway | Provider_circle_wallets => true | _ => false end.
Definition is_simulation (s : PaymentSourceRow) : bool :=
  bool_decide (psrc_provider s = Provider_simulation).

(** The source fits the quote. *)
Definition check_source (source : PaymentSourceRow) (quote : RuntimeQuote) : M unit :=
  throw_if (is_circle (psrc_provider source)
            && (negb (is_some (psrc_external_wallet_id source)) || negb (is_some (psrc_address source))))
    (conflict "payment_source_not_live") ;;*
  throw_if (bool_decide (q_settlementKind quote = gateway)
            && negb (bool_decide (psrc_provider source = Provider_circle_gateway)) && negb (is_simulation source))
    (conflict "payment_source_incompatible") ;;*
  throw_if (bool_decide (q_settlementKind quote = direct_exact)
            && negb (bool_decide (psrc_provider source = Provider_circle_wallets)) && negb (is_simulation source))
    (conflict "payment_source_incompatible") ;;*
  throw_if (is_simulation source && (psrc_simulated_balance_usdc source <? q_amountMicros quote))
    (conflict "insufficient_payment_source_balance").

(** [lower(address) = lower(payTo)] among the active entries of the chain. *)
Definition destination_listed (orgId : string) (quote : RuntimeQuote) (r : AllowlistRow) : bool :=
  (al_org_id r =s orgId) && bool_decide (al_chain r = q_chain quote)
  && (lower (al_address r) =s lower (q_recipient quote)) && (al_status r =s "active").

Section Prepare.
Context `{Collation} `{Sha256} `{UrlParser} `{ChainBalances}.

(** Up to the policy gate; an attempt of the same key is returned. *)
Definition prepare_draft (auth : ConnectionAuthResult) (input : RuntimePaidHttpX402Input)
    (requestHash : string) (paymentInput : RuntimeX402PaymentInput) : M (X402AttemptRow + PaymentDraft) :=
  let* account := activePaymentAccount auth in
  let* racedAttempt := findAttempt (auth_connection_id auth) (ph_idempotency_key input) in
  match racedAttempt with
  | Some attempt =>
      throw_if (negb (att_request_hash attempt =s requestHash)) (conflict "payment_idempotency_conflict") ;;*
      ret (inl attempt)
  | None =>
      let* modeRow := getOrgPaymentMode (auth_org_id auth) in
      let mode := om_mode modeRow in
      let* supportedQuotes := lift (supportedRuntimeQuotes paymentInput mode) in
      let quote := List.find (fun q => bool_decide (q_rail q ∈ acct_allowed_rails account)) supportedQuotes in
      let resource := x402Resource paymentInput in
      throw_if (length supportedQuotes =? 0)%nat (conflict "unsupported_payment_rail") ;;*
      let* quote := some_or quote (IdentityError "payment_rail_not_allowed" 403) in
      let* allowed := select_one T_payment_destination_allowlist (destination_listed (auth_org_id auth) quote) in
      throw_if (negb (is_some allowed)) (conflict "payment_destination_not_allowed") ;;*
      let* source := activePaymentSource (auth_org_id auth) (q_rail quote) (q_chain quote) in
      check_source source quote ;;*
      let providerMode := if is_simulation source then "simulation"%string else PaymentMode_text mode in
      let quotePayload := mkQuotePayload (q_accept quote) (pi_resource paymentInput ?? []) providerMode
                            (q_x402Amount quote) (q_x402Network quote) in
      let* quoteHash := lift (sha256Hex (quote_json quotePayload)) in
      let bound := mkRuntimeX402PaymentInput (pi_resource paymentInput) (pi_accepts paymentInput)
        (Some (spread (pi_context paymentInput ?? [])
           [("quote_hash", JStr quoteHash); ("request_hash", JStr requestHash)]%string)) in
      ret (inr (mkPaymentDraft account mode quote resource source quotePayload quoteHash bound))
  end.

(** The cap, the budget and the chain. *)
Definition check_limits (auth : ConnectionAuthResult) (d : PaymentDraft) : M unit :=
  let account := dr_account d in
  let amount := q_amountMicros (dr_quote d) in
  let cap := acct_per_request_cap_usdc account in
  throw_if ((0 <? cap) && (cap <? amount)) (conflict "per_request_cap_exceeded") ;;*
  throw_if (acct_budget_usdc account <? acct_spent_usdc account + acct_reserved_usdc account + amount)
    (conflict "budget_exceeded") ;;*
  let* agentWallet := findAgentWallet (auth_agent_id auth) (dr_mode d) (q_chain (dr_quote d)) in
  match agentWallet with
  | None => ret tt
  | Some wallet =>
      let* spendable := readSpendableMicros wallet 0 (dr_mode d) in
      throw_if (spendable <? amount) (conflict "insufficient_agent_wallet_balance")
  end.

(** [now() + interval '15 minutes']. *)
Definition RESERVATION_WINDOW_MS : Z := 15 * 60 * 1000.

Definition reservation_of (auth : ConnectionAuthResult) (d : PaymentDraft) (attemptId id : string) (now : Z) :
    PaymentReservationRow :=
  {| res_id := id; res_org_id := auth_org_id auth; res_agent_id := auth_agent_id auth;
     res_connection_id := Some (auth_connection_id auth); res_source_id := psrc_id (dr_source d);
     res_amount_usdc := q_amountMicros (dr_quote d); res_asset := q_asset (dr_quote d);
     res_rail := q_rail (dr_quote d); res_status := Reservation_reserved;
     res_reason_code := attempt_reason attemptId; res_quote_hash := dr_quoteHash d;
     res_quote := Quote_x402 (dr_quotePayload d); res_expires_at := now + RESERVATION_WINDOW_MS;
     res_created_at := now; res_updated_at := now |}.

Definition reserve (amount now : Z) (r : AgentPaymentAccountRow) : AgentPaymentAccountRow :=
  set_acct_reserved_usdc (acct_reserved_usdc r + amount) (set_acct_updated_at now r).

Definition either {A} (a b : option A) : option A := match a with Some x => Some x | None => b end.

(** [payment_metadata || new]. *)
Definition merge_metadata (old new : X402PaymentMetadata) : X402PaymentMetadata :=
  mkX402PaymentMetadata
    (either (pmeta_approvalId new) (pmeta_approvalId old)) (either (pmeta_decisionId new) (pmeta_decisionId old))
    (either (pmeta_eventId new) (pmeta_eventId old)) (either (pmeta_payer new) (pmeta_payer old))
    (either (pmeta_providerMode new) (pmeta_providerMode old))
    (either (pmeta_providerReference new) (pmeta_providerReference old))
    (either (pmeta_reservationId new) (pmeta_reservationId old))
    (either (pmeta_resumeReason new) (pmeta_resumeReason old))
    (either (pmeta_receiptId new) (pmeta_receiptId old))
    (either (pmeta_transactionHash new) (pmeta_transactionHash old)).

Definition no_metadata : X402PaymentMetadata :=
  mkX402PaymentMetadata None None None None None None None None None None.

Definition add_metadata (new : X402PaymentMetadata) (now : Z) (r : X402AttemptRow) : X402AttemptRow :=
  set_att_payment_metadata (merge_metadata (att_payment_metadata r) new) (set_att_updated_at now r).

Definition attempt_input (auth : ConnectionAuthResult) (key requestHash : string) (d : PaymentDraft) :
    CreateX402AttemptInput :=
  {| ca_orgId := auth_org_id auth; ca_agentId := auth_agent_id auth;
     ca_connectionId := auth_connection_id auth; ca_sourceId := psrc_id (dr_source d);
     ca_idempotencyKey := key; ca_requestHash := requestHash; ca_quoteHash := dr_quoteHash d;
     ca_amountUsdc := q_amountMicros (dr_quote d); ca_asset := q_asset (dr_quote d);
     ca_rail := q_rail (dr_quote d); ca_network := q_x402Network (dr_quote d);
     ca_recipient := q_recipient (dr_quote d) |}.

(** After the gate: readiness, limits, and the writes that reserve. *)
Definition prepare_reserve (auth : ConnectionAuthResult) (input : RuntimePaidHttpX402Input)
    (requestHash : string) (destination : ValidatedPaidHttpDestination) (d : PaymentDraft)
    (gate : GateOutcome) : M PreparedPaidHttpPayment :=
  let quote := dr_quote d in
  (if negb (go_approvalRequired gate) && negb (is_simulation (dr_source d))
   then assertRailReady (dr_mode d) quote else ret tt) ;;*
  check_limits auth d ;;*
  let* attempt := createAttempt false (attempt_input auth (ph_idempotency_key input) requestHash d) in
  let* reservationId := prefixedId "payres" in
  let* now := get_now in
  insert T_payment_reservations (reservation_of auth d (att_id attempt) reservationId now) ;;*
  update T_agent_payment_accounts (the_account (auth_org_id auth) (auth_agent_id auth))
    (reserve (q_amountMicros quote) now) ;;*
  writePosting
    {| wp_orgId := auth_org_id auth; wp_agentId := Some (auth_agent_id auth); wp_mode := dr_mode d;
       wp_chain := Some (q_chain quote); wp_entryType := Entry_reserve;
       wp_amountUsdc := - q_amountMicros quote; wp_reservationId := Some reservationId;
       wp_attemptId := Some (att_id attempt); wp_jobId := None;
       wp_reasonCode := "x402_attempt_prepared"; wp_createdBy := "system" |} ;;*
  update T_runtime_payment_attempts (fun r => att_id r =s att_id attempt)
    (add_metadata (mkX402PaymentMetadata (pg_approvalId (go_gate gate)) (Some (pg_decisionId (go_gate gate)))
       None None (Some (qp_mode (dr_quotePayload d))) None (Some reservationId) None None None) now) ;;*
  ret {| pp_approvalRequired := go_approvalRequired gate; pp_attempt := attempt;
         pp_destination := destination; pp_mode := dr_mode d; pp_paymentInput := dr_paymentInput d;
         pp_policyGate := go_gate gate; pp_quote := quote; pp_quoteHash := dr_quoteHash d;
         pp_quotePayload := dr_quotePayload d; pp_reservationId := reservationId;
         pp_resource := dr_resource d; pp_source := dr_source d |}.

Definition preparePaidHttpPayment (auth : ConnectionAuthResult) (input : RuntimePaidHttpX402Input)
    (requestHash : string) (destination : ValidatedPaidHttpDestination)
    (paymentInput : RuntimeX402PaymentInput) : M PreparedPaidHttpPaymentOutcome :=
  let* draft := withTransaction (prepare_draft auth input requestHash paymentInput) in
  match draft with
  | inl attempt => ret (Outcome_existing attempt)
  | inr d =>
      let* gate := policy_gate auth (dr_paymentInput d) (dr_quote d) (dr_resource d)
                     (acct_approval_threshold_usdc (dr_account d)) in
      let* prepared := withTransaction (prepare_reserve auth input requestHash destination d gate) in
      ret (Outcome_prepared prepared)
  end.
End Prepare.

(** ** Resumption *)

(** [context.key !== text], the text possibly null. *)
Definition json_is (j : json) (o : option string) : bool :=
  match j, o with
  | JStr a, Some b => a =s b
  | JNull, None => true
  | _, _ => false
  end.

Definition object_entries (j : json) : list (string * json) :=
  match j with JObj es => es | _ => [] end.

Section Resume.
Context `{UrlParser} `{IpClassifier}.

(** [objectFromJson] of the stored quote and of what it holds: of an escrow
    quote, which has no [accept], nothing is left. *)
Definition payload_of_stored (quote : StoredQuote) : QuotePayload :=
  match quote with
  | Quote_x402 payload => payload
  | Quote_escrow _ => mkQuotePayload (accept_of_json (JObj [])) [] "" "" ""
  end.

(** The approval an attempt waits for allows it to go on. *)
Definition check_resumed_approval (orgId : string) (attempt : X402AttemptRow) (approvalId decisionId : string)
    (approvalAlreadyConsumed : bool) : M unit :=
  let* approval := getApproval orgId approvalId in
  let request := object_entries (lookup_key "request" (object_entries (ap_context (ar_row approval)))) in
  throw_if (negb (json_is (lookup_key "request_hash" request) (Some (att_request_hash attempt)))
            || negb (json_is (lookup_key "quote_hash" request) (att_quote_hash attempt)))
    (badRequest "approval_context_mismatch") ;;*
  throw_if (bool_decide (ar_status approval = Approval_pending))
    (PaymentApprovalRequiredError decisionId approvalId) ;;*
  if approvalAlreadyConsumed && bool_decide (ar_status approval = Approval_consumed) then ret tt
  else throw_if (negb (bool_decide (ar_status approval = Approval_approved))) approval_not_approved.

Definition resumePreparedPaidHttpPayment (auth : ConnectionAuthResult) (input : RuntimePaidHttpX402Input)
    (attempt : X402AttemptRow) (allowHttpOrigins : list string)
    (resolveHostname : string -> Res (list string)) (canResumeReserved controlledResume
    approvalAlreadyConsumed : bool) : M PreparedPaidHttpPayment :=
  let incomplete := conflict "payment_attempt_state_conflict" in
  let* reservation := select_one T_payment_reservations (fun r =>
    (res_org_id r =s auth_org_id auth) && eqo (res_connection_id r) (Some (auth_connection_id auth))
    && (res_reason_code r =s attempt_reason (att_id attempt)) && reservation_held r) in
  let* reservation := some_or reservation incomplete in
  let* sourceId := some_or (att_source_id attempt) incomplete in
  let* source := select_one T_payment_sources (fun s =>
    (psrc_id s =s sourceId) && (psrc_org_id s =s auth_org_id auth)
    && bool_decide (psrc_status s = Access_active)) in
  let* source := some_or source (conflict "payment_source_unavailable") in
  let quotePayload := payload_of_stored (res_quote reservation) in
  let* modeRow := getOrgPaymentMode (auth_org_id auth) in
  let* quote := lift (quoteFromAccept (qp_accept quotePayload) (om_mode modeRow)) in
  let* quote := some_or quote incomplete in
  throw_if (negb (eqo (Some (res_quote_hash reservation)) (att_quote_hash attempt))) incomplete ;;*
  let paymentInput := mkRuntimeX402PaymentInput (Some (qp_resource quotePayload)) [qp_accept quotePayload]
    (Some [("idempotency_key", JStr (ph_idempotency_key input)); ("quote_hash", jopt (att_quote_hash attempt));
           ("request_hash", JStr (att_request_hash attempt))]%string) in
  let metadata := att_payment_metadata attempt in
  (match pmeta_approvalId metadata with
   | Some approvalId =>
       let* decisionId := some_or (pmeta_decisionId metadata) incomplete in
       check_resumed_approval (auth_org_id auth) attempt approvalId decisionId approvalAlreadyConsumed
   | None =>
       throw_if (negb controlledResume && negb (is_some (pmeta_resumeReason metadata))
                 && negb canResumeReserved) (conflict "payment_attempt_resume_required")
   end) ;;*
  let* destination := lift (assertPaidHttpUrlAllowed allowHttpOrigins resolveHostname (rq_url (ph_request input))) in
  ret {| pp_approvalRequired := false; pp_attempt := attempt; pp_destination := destination;
         pp_mode := om_mode modeRow; pp_paymentInput := paymentInput;
         pp_policyGate := mkPolicyGate (pmeta_approvalId metadata)
           (pmeta_decisionId metadata ?? "reserved_resume"%string);
         pp_quote := quote; pp_quoteHash := res_quote_hash reservation; pp_quotePayload := quotePayload;
         pp_reservationId := res_id reservation; pp_resource := x402Resource paymentInput;
         pp_source := source |}.
End Resume.
