(* ===== verification/Settlement.v ===== *)
(** The end of an x402 payment ([payments/store.ts]): the evidence of the
    provider, the settled and the terminal finalization, and the resolution of
    unknown outcomes by an operator. *)

From S2P Require Import Prelude Errors Usdc Json Identity Policy Quotes ResultCrypto PaidHttp Schema Host.
From S2P Require Import AuditLog AuditChain PolicyStore Approvals Ledger Attempts Accounts Prepare.
Open Scope Z_scope.

(** ** What the provider reports *)

Inductive ProviderPaymentStatus : Type := Paid_settled | Paid_failed | Paid_unknown.
#[export] Instance ProviderPaymentStatus_eq_dec : EqDecision ProviderPaymentStatus.
Proof. solve_decision. Defined.
Definition ProviderPaymentStatus_text (s : ProviderPaymentStatus) : string :=
  match s with Paid_settled => "settled" | Paid_failed => "failed" | Paid_unknown => "unknown" end.

Record CircleProviderPayment : Type := mkCircleProviderPayment {
  cpp_status : ProviderPaymentStatus;
  cpp_transaction : option string;
  cpp_payer : option string;
  cpp_network : string;
  cpp_receipt : option json;
  cpp_errorCode : option string
}.

(** Without the deprecated fields nothing reads. *)
Record RuntimeX402SettlementResult : Type := mkSettlementResult {
  sr_payment : option CircleProviderPayment;
  sr_response : option PaidHttpResponse;
  sr_errorReason : option string;
  sr_network : string;
  sr_providerMode : string;
  sr_success : bool
}.

(** ** What the runtime returns *)

Record RuntimeX402PaymentTruth : Type := mkPaymentTruth {
  tr_id : option string;
  tr_attemptId : string;
  tr_status : X402AttemptStatus;
  tr_providerMode : option string;
  tr_rail : option PaymentRail;
  tr_chain : option PaymentChain;
  tr_amount : option string;
  tr_asset : option string;
  tr_agentId : string;
  tr_connectionId : string;
  tr_sourceId : option string;
  tr_reservationId : option string;
  tr_recipient : option string;
  tr_network : option string;
  tr_transaction : option string;
  tr_payer : option string;
  tr_errorCode : option string;
  tr_responseAvailable : bool
}.

Record RuntimeX402PaymentResult : Type := mkPaymentResult {
  rr_payment : RuntimeX402PaymentTruth;
  rr_response : option PaidHttpResponse
}.

(** [StoredRuntimeX402Result | StoredRuntimeX402ProviderEvidence]: what the
    column [encrypted_result] seals. *)
Inductive Stored : Type :=
| StoredRuntimeX402Result (providerEvidence : option RuntimeX402SettlementResult)
    (result : RuntimeX402PaymentResult) (privateDebug : option json)
| StoredRuntimeX402ProviderEvidence (settlement : RuntimeX402SettlementResult) (privateDebug : option json).

Definition known_mode (m : option string) : option string :=
  match m with
  | Some s => if mem s ["simulation"; "test"; "live"]%string then Some s else None
  | None => None
  end.

Definition paymentResultFromAttempt (attempt : X402AttemptRow) : Res RuntimeX402PaymentResult :=
  let meta := att_payment_metadata attempt in
  let? chain := match att_rail attempt with
                | None => Ok None
                | Some rail => let? c := chainFromRail rail in Ok (Some c)
                end in
  Ok (mkPaymentResult
    {| tr_id := pmeta_eventId meta; tr_attemptId := att_id attempt; tr_status := att_status attempt;
       tr_providerMode := known_mode (pmeta_providerMode meta); tr_rail := att_rail attempt;
       tr_chain := chain; tr_amount := option_map formatUsdc (att_amount_usdc attempt);
       tr_asset := att_asset attempt; tr_agentId := att_agent_id attempt;
       tr_connectionId := att_connection_id attempt ?? ""%string; tr_sourceId := att_source_id attempt;
       tr_reservationId := pmeta_reservationId meta; tr_recipient := att_recipient attempt;
       tr_network := att_network attempt; tr_transaction := pmeta_transactionHash meta;
       tr_payer := pmeta_payer meta; tr_errorCode := att_error_code attempt;
       tr_responseAvailable := false |} None).

Definition safeResponseMetadata (response : option PaidHttpResponse) : X402SafeResponseMetadata :=
  match response with
  | None => mkX402SafeResponseMetadata None None None
  | Some r => mkX402SafeResponseMetadata (Some (rp_sizeBytes r)) (rp_contentType r) (Some (rp_status r))
  end.

Definition response_json (m : X402SafeResponseMetadata) : json :=
  JObj (present "contentLength" (option_map jint (rmeta_contentLength m))
        ++ present "contentType" (option_map JStr (rmeta_contentType m))
        ++ present "statusCode" (option_map jint (rmeta_statusCode m))).

(** ** Finalization *)

Definition attempt_state_conflict : exn := conflict "payment_attempt_state_conflict".

Definition spend (amount now : Z) (r : AgentPaymentAccountRow) : AgentPaymentAccountRow :=
  set_acct_reserved_usdc (acct_reserved_usdc r - amount)
    (set_acct_spent_usdc (acct_spent_usdc r + amount) (set_acct_updated_at now r)).

Definition debit_source (amount now : Z) (s : PaymentSourceRow) : PaymentSourceRow :=
  set_psrc_simulated_balance_usdc (psrc_simulated_balance_usdc s - amount) (set_psrc_updated_at now s).

(** The columns both finalizations set. *)
Definition finish_attempt (status : X402AttemptStatus) (metadata : X402PaymentMetadata -> X402PaymentMetadata)
    (response : X402SafeResponseMetadata) (result : X402ResultEnvelope) (error : option string) (now : Z)
    (r : X402AttemptRow) : X402AttemptRow :=
  set_att_status status (set_att_payment_metadata (metadata (att_payment_metadata r))
    (set_att_response_metadata response (set_att_encrypted_result (Some result)
    (set_att_result_expires_at (Some (now + RESULT_RETENTION_MS)) (set_att_error_code error
    (set_att_finalized_at (Some now) (set_att_updated_at now r))))))).

Definition close_posting (auth : ConnectionAuthResult) (p : PreparedPaidHttpPayment)
    (entry : LedgerEntryType) (reason : string) : WritePostingInput :=
  {| wp_orgId := auth_org_id auth; wp_agentId := Some (auth_agent_id auth); wp_mode := pp_mode p;
     wp_chain := Some (q_chain (pp_quote p)); wp_entryType := entry;
     wp_amountUsdc := q_amountMicros (pp_quote p); wp_reservationId := Some (pp_reservationId p);
     wp_attemptId := Some (att_id (pp_attempt p)); wp_jobId := None; wp_reasonCode := reason;
     wp_createdBy := "system" |}.

Definition payment_event (auth : ConnectionAuthResult) (p : PreparedPaidHttpPayment) (id : string)
    (decision : PaymentEventDecision) (providerMode : string) (result : json) (activityId : string)
    (now : Z) : PaymentEventRow :=
  let quote := pp_quote p in
  {| pe_id := id; pe_org_id := auth_org_id auth; pe_decision := decision; pe_provider_mode := providerMode;
     pe_rail := q_rail quote; pe_chain := q_chain quote; pe_amount_usdc := q_amountMicros quote;
     pe_asset := q_asset quote; pe_agent_id := auth_agent_id auth;
     pe_connection_id := Some (auth_connection_id auth); pe_source_id := Some (psrc_id (pp_source p));
     pe_reservation_id := Some (pp_reservationId p); pe_recipient := q_recipient quote;
     pe_network := q_x402Network quote; pe_resource_url := xr_url (pp_resource p);
     pe_resource_category := xr_category (pp_resource p); pe_quote := pp_quotePayload p;
     pe_result := result; pe_activity_id := Some activityId; pe_created_at := now |}.

Definition payment_audit (auth : ConnectionAuthResult) (p : PreparedPaidHttpPayment) (action eventId : string)
    (outcome : AuditOutcome) (severity : AuditSeverity) (approvalRef : option string) (payload : json) :
    RecordAuditEventInput :=
  {| in_orgId := auth_org_id auth;
     in_idempotencyKey := Some (action +:+ ":" +:+ att_id (pp_attempt p));
     in_eventType := action; in_occurredAt := None; in_actor_type := Actor_connection;
     in_actor_id := Some (auth_connection_id auth); in_action := action; in_outcome := outcome;
     in_reasonCode := None; in_resource := Some ("payment_event"%string, eventId);
     in_classification := mkAuditClassification (Some Domain_payment) (Some Category_financial) (Some severity)
       (Some ["section_9"; "x402"; PaymentChain_text (q_chain (pp_quote p))]%string);
     in_relations := mkAuditRelations (Some (auth_agent_id auth)) None (Some (auth_connection_id auth)) None None None;
     in_requestId := None; in_source := mkAuditSource (Some "section_9"%string) (Some "payments"%string) None;
     in_refs := mkAuditRefs None (Some (pg_decisionId (pp_policyGate p))) approvalRef;
     in_externalRefs := None; in_retentionClass := Some Retain_payment; in_payload := Some payload |}.

Definition payment_activity (auth : ConnectionAuthResult) (p : PreparedPaidHttpPayment) (action : string)
    (outcome : ActivityOutcome) (summary : string) (payload : json) : ActivityInput :=
  mkActivityInput (auth_org_id auth) (Some (auth_agent_id auth)) (Some (auth_connection_id auth))
    (Some (pg_decisionId (pp_policyGate p))) (pg_approvalId (pp_policyGate p)) Activity_payment action outcome
    summary (Some payload).

Definition payment_truth (auth : ConnectionAuthResult) (p : PreparedPaidHttpPayment) (eventId : string)
    (status : X402AttemptStatus) (providerMode network : string) (transaction payer errorCode : option string)
    (response : option PaidHttpResponse) : RuntimeX402PaymentResult :=
  let quote := pp_quote p in
  mkPaymentResult
    {| tr_id := Some eventId; tr_attemptId := att_id (pp_attempt p); tr_status := status;
       tr_providerMode := Some providerMode; tr_rail := Some (q_rail quote); tr_chain := Some (q_chain quote);
       tr_amount := Some (q_amount quote); tr_asset := Some (q_asset quote);
       tr_agentId := auth_agent_id auth; tr_connectionId := auth_connection_id auth;
       tr_sourceId := Some (psrc_id (pp_source p)); tr_reservationId := Some (pp_reservationId p);
       tr_recipient := Some (q_recipient quote); tr_network := Some network; tr_transaction := transaction;
       tr_payer := payer; tr_errorCode := errorCode;
       tr_responseAvailable := is_some response |} response.

Definition settled_observation (auth : ConnectionAuthResult) (p : PreparedPaidHttpPayment)
    (outcome reasonCode : string) : RouteObservationInput :=
  let quote := pp_quote p in
  {| ro_orgId := auth_org_id auth; ro_agentId := auth_agent_id auth;
     ro_connectionId := auth_connection_id auth;
     ro_requestedNetwork := Some (PaymentChain_text (q_network quote));
     ro_requestedAsset := Some (q_asset quote); ro_requestedRail := Some (PaymentRail_text (q_rail quote));
     ro_supportedRail := Some (q_rail quote); ro_amount := Some (q_amountMicros quote);
     ro_outcome := outcome; ro_reasonCode := reasonCode; ro_resourceUrl := xr_url (pp_resource p);
     ro_resourceCategory := xr_category (pp_resource p) |}.

Section Finalize.
Context `{Collation} `{Sha256} `{X402ResultCryptoCodec Stored}.

Definition attempt_context (auth : ConnectionAuthResult) (attemptId : string) : X402ResultCryptoContext :=
  mkCryptoContext attemptId (auth_connection_id auth) (auth_org_id auth).

Definition seal (auth : ConnectionAuthResult) (attemptId : string) (value : Stored) : M X402ResultEnvelope :=
  let* iv := fresh_iv in
  ret (encrypt (attempt_context auth attemptId) value iv).

(** The UPDATE on the attempt in the scope, still submitting; another row
    count than one is a conflict. *)
Definition update_submitting (auth : ConnectionAuthResult) (attemptId : string)
    (f : X402AttemptRow -> X402AttemptRow) : M unit :=
  let* updated := update T_runtime_payment_attempts
    (fun r => the_attempt (auth_org_id auth) (auth_connection_id auth) attemptId r
              && bool_decide (att_status r = Attempt_submitting)) f in
  throw_if (negb (length updated =? 1)%nat) attempt_state_conflict.

(** The money side of a settlement. *)
Definition settle_reservation (auth : ConnectionAuthResult) (p : PreparedPaidHttpPayment) : M unit :=
  let amount := q_amountMicros (pp_quote p) in
  let* now := get_now in
  update T_payment_reservations
    (fun r => the_reservation (auth_org_id auth) (pp_reservationId p) r && reservation_held r)
    (close_reservation Reservation_settled now) ;;*
  update T_agent_payment_accounts (the_account (auth_org_id auth) (auth_agent_id auth)) (spend amount now) ;;*
  writePosting (close_posting auth p Entry_settle "x402_payment_settled") ;;*
  if is_simulation (pp_source p) then
    update T_payment_sources (fun s => psrc_id s =s psrc_id (pp_source p)) (debit_source amount now) ;;* ret tt
  else ret tt.

Definition finalizeSettledPaidHttpPayment (auth : ConnectionAuthResult) (p : PreparedPaidHttpPayment)
    (settlement : RuntimeX402SettlementResult) (privateDebug : option json) : M RuntimeX402PaymentResult :=
  match sr_payment settlement with
  | Some payment =>
    if negb (bool_decide (cpp_status payment = Paid_settled))
    then throw (conflict (cpp_errorCode payment ?? "payment_settlement_unresolved"%string)) else
    withTransaction (
      let quote := pp_quote p in
      let attemptId := att_id (pp_attempt p) in
      let response := safeResponseMetadata (sr_response settlement) in
      settle_reservation auth p ;;*
      recordRouteObservation (settled_observation auth p "accepted" "settled") ;;*
      let* activity := recordActivity (payment_activity auth p "payment.x402.settled" Act_success
        ("x402 payment settled on " +:+ PaymentRail_text (q_rail quote))
        (JObj [("amount_usdc", JStr (q_amount quote)); ("asset", JStr (q_asset quote));
               ("provider_mode", JStr (sr_providerMode settlement));
               ("rail", JStr (PaymentRail_text (q_rail quote)));
               ("reservation_id", JStr (pp_reservationId p)); ("response", response_json response);
               ("source_id", JStr (psrc_id (pp_source p)));
               ("transaction", jopt (cpp_transaction payment))]%string)) in
      let* eventId := prefixedId "payevt" in
      let* now := get_now in
      insert T_payment_events (payment_event auth p eventId Event_settled (sr_providerMode settlement)
        (JObj [("payment", JObj [("network", JStr (cpp_network payment));
                                 ("status", JStr (ProviderPaymentStatus_text (cpp_status payment)));
                                 ("transaction", jopt (cpp_transaction payment))]);
               ("response", response_json response)]%string) (act_id activity) now) ;;*
      let result := payment_truth auth p eventId Attempt_settled (sr_providerMode settlement)
        (cpp_network payment) (cpp_transaction payment) (cpp_payer payment) None (sr_response settlement) in
      let* encrypted := seal auth attemptId (StoredRuntimeX402Result (Some settlement) result privateDebug) in
      update_submitting auth attemptId
        (finish_attempt Attempt_settled
           (fun _ => mkX402PaymentMetadata None None (Some eventId) (cpp_payer payment)
              (Some (sr_providerMode settlement)) None (Some (pp_reservationId p)) None None
              (cpp_transaction payment)) response encrypted None now) ;;*
      recordAuditEvent (payment_audit auth p "payment.x402.settled" eventId Outcome_success Severity_info
        (pg_approvalId (pp_policyGate p))
        (JObj [("amount_usdc", JStr (q_amount quote)); ("asset", JStr (q_asset quote));
               ("provider_mode", JStr (sr_providerMode settlement));
               ("rail", JStr (PaymentRail_text (q_rail quote))); ("response", response_json response);
               ("transaction", jopt (cpp_transaction payment))]%string)) ;;*
      ret result)
  | None => throw (conflict "payment_settlement_unresolved")
  end.

(** The money side of a failure. *)
Definition release_reservation (auth : ConnectionAuthResult) (p : PreparedPaidHttpPayment) : M unit :=
  let* now := get_now in
  update T_payment_reservations
    (fun r => the_reservation (auth_org_id auth) (pp_reservationId p) r && reservation_held r)
    (close_reservation Reservation_released now) ;;*
  update T_agent_payment_accounts (the_account (auth_org_id auth) (auth_agent_id auth))
    (unreserve (q_amountMicros (pp_quote p)) now) ;;*
  writePosting (close_posting auth p Entry_release "x402_payment_failed") ;;*
  ret tt.

Definition finalizeTerminalPaidHttpPayment (auth : ConnectionAuthResult) (p : PreparedPaidHttpPayment)
    (settlement : RuntimeX402SettlementResult) (privateDebug : option json) : M RuntimeX402PaymentResult :=
  let payment := sr_payment settlement in
  let failed := match payment with Some x => bool_decide (cpp_status x = Paid_failed) | None => false end in
  let status := if failed then "failed"%string else "unknown"%string in
  let errorCode := match payment with
                   | Some x => cpp_errorCode x
                   | None => None
                   end ?? (if failed then "payment_settlement_failed" else "payment_settlement_unknown")%string in
  let action := ("payment.x402." +:+ status) in
  withTransaction (
    let quote := pp_quote p in
    let attemptId := att_id (pp_attempt p) in
    let response := safeResponseMetadata (sr_response settlement) in
    let payload := JObj [("amount_usdc", JStr (q_amount quote)); ("asset", JStr (q_asset quote));
                         ("error_code", JStr errorCode); ("provider_mode", JStr (sr_providerMode settlement));
                         ("rail", JStr (PaymentRail_text (q_rail quote)));
                         ("response", response_json response)]%string in
    (if failed then release_reservation auth p else ret tt) ;;*
    let* activity := recordActivity (payment_activity auth p action Act_error
      ("x402 payment " +:+ status +:+ " on " +:+ PaymentRail_text (q_rail quote)) payload) in
    let* eventId := prefixedId "payevt" in
    let* now := get_now in
    insert T_payment_events (payment_event auth p eventId (if failed then Event_failed else Event_submitted)
      (sr_providerMode settlement)
      (JObj [("error_code", JStr errorCode); ("status", JStr status)]%string) (act_id activity) now) ;;*
    let transaction := match payment with Some x => cpp_transaction x | None => None end in
    let payer := match payment with Some x => cpp_payer x | None => None end in
    let result := payment_truth auth p eventId (if failed then Attempt_failed else Attempt_unknown)
      (sr_providerMode settlement)
      (match payment with Some x => cpp_network x | None => q_x402Network quote end)
      transaction payer (Some errorCode) (sr_response settlement) in
    let* encrypted := seal auth attemptId (StoredRuntimeX402Result (Some settlement) result privateDebug) in
    update_submitting auth attemptId
      (finish_attempt (if failed then Attempt_failed else Attempt_unknown)
         (fun old => merge_metadata old (mkX402PaymentMetadata None None (Some eventId) payer
            (Some (sr_providerMode settlement)) None (Some (pp_reservationId p)) None None transaction))
         response encrypted (Some errorCode) now) ;;*
    recordAuditEvent (payment_audit auth p action eventId Outcome_error Severity_warning None payload) ;;*
    ret result).

(** The evidence is kept before anything is finalized. *)
Definition persistPaidHttpProviderEvidence (auth : ConnectionAuthResult) (attemptId : string)
    (settlement : RuntimeX402SettlementResult) (privateDebug : option json) : M unit :=
  let* evidence := seal auth attemptId (StoredRuntimeX402ProviderEvidence settlement privateDebug) in
  let* now := get_now in
  let payment := sr_payment settlement in
  update_submitting auth attemptId (fun r =>
    set_att_encrypted_result (Some evidence) (set_att_result_expires_at (Some (now + RESULT_RETENTION_MS))
      (set_att_response_metadata (safeResponseMetadata (sr_response settlement))
      (add_metadata (mkX402PaymentMetadata None None None
         (match payment with Some x => cpp_payer x | None => None end) (Some (sr_providerMode settlement))
         None None None None (match payment with Some x => cpp_transaction x | None => None end)) now r)))).

(** [payment.status === 'settled' ? settled : terminal]. *)
Definition finalizePaidHttpPayment (auth : ConnectionAuthResult) (p : PreparedPaidHttpPayment)
    (settlement : RuntimeX402SettlementResult) (privateDebug : option json) : M RuntimeX402PaymentResult :=
  if match sr_payment settlement with Some x => bool_decide (cpp_status x = Paid_settled) | None => false end
  then finalizeSettledPaidHttpPayment auth p settlement privateDebug
  else finalizeTerminalPaidHttpPayment auth p settlement privateDebug.

(** ** Unknown outcomes *)

(** [e.result ->> 'status' = 'unknown']. *)
Definition event_unknown (e : PaymentEventRow) : bool := eqo (meta_text (pe_result e) "status") (Some "unknown"%string).

Record UnknownAttemptRecord : Type := mkUnknownAttemptRecord {
  ua_reservationId : string;
  ua_agentId : string;
  ua_amountUsdc : Z;
  ua_rail : PaymentRail;
  ua_paymentEventId : string;
  ua_errorCode : option string;
  ua_createdAt : Z
}.

Definition unknownAttemptFromRow (r : PaymentReservationRow) (e : PaymentEventRow) : UnknownAttemptRecord :=
  mkUnknownAttemptRecord (res_id r) (res_agent_id r) (res_amount_usdc r) (res_rail r) (pe_id e)
    (meta_text (pe_result e) "error_code") (res_created_at r).

Definition listUnknownAttempts (orgId : string) (limit : Z) : M (list UnknownAttemptRecord) :=
  let boundedLimit := Z.max 1 (Z.min limit 250) in
  let* reservations := select T_payment_reservations (fun r => (res_org_id r =s orgId) && reservation_held r) in
  let* events := select T_payment_events event_unknown in
  let rows := flat_map (fun r => map (unknownAttemptFromRow r)
    (where_ (fun e => eqo (pe_reservation_id e) (Some (res_id r))) events)) reservations in
  ret (take (Z.to_nat boundedLimit) (sort_by (fun a b => ua_createdAt b <=? ua_createdAt a) rows)).

Inductive ResolveUnknownAttemptOutcome : Type := Resolve_failed | Resolve_settled.

Definition resolution_posting (orgId reservationId actorId : string) (row : PaymentReservationRow)
    (mode : PaymentMode) (outcome : ResolveUnknownAttemptOutcome) : WritePostingInput :=
  {| wp_orgId := orgId; wp_agentId := Some (res_agent_id row); wp_mode := mode; wp_chain := None;
     wp_entryType := match outcome with Resolve_failed => Entry_release | Resolve_settled => Entry_settle end;
     wp_amountUsdc := res_amount_usdc row; wp_reservationId := Some reservationId; wp_attemptId := None;
     wp_jobId := None;
     wp_reasonCode := match outcome with
                      | Resolve_failed => "unknown_attempt_resolved_failed"
                      | Resolve_settled => "unknown_attempt_resolved_settled"
                      end;
     wp_createdBy := actorId |}.

Definition resolve_audit (orgId reservationId actorId : string) (row : PaymentReservationRow)
    (outcome : ResolveUnknownAttemptOutcome) : RecordAuditEventInput :=
  {| in_orgId := orgId; in_idempotencyKey := Some ("payment.unknown.resolved:" +:+ reservationId);
     in_eventType := "payment.unknown.resolved"; in_occurredAt := None; in_actor_type := Actor_user;
     in_actor_id := Some actorId; in_action := "payment.unknown.resolve"; in_outcome := Outcome_success;
     in_reasonCode := None; in_resource := Some ("payment_reservation"%string, reservationId);
     in_classification := mkAuditClassification (Some Domain_payment) (Some Category_financial)
       (Some Severity_warning) (Some ["section_9"; "unknown_attempt_resolution"]%string);
     in_relations := mkAuditRelations (Some (res_agent_id row)) None None None None None;
     in_requestId := None; in_source := mkAuditSource (Some "section_9"%string) (Some "payments"%string) None;
     in_refs := no_refs; in_externalRefs := None; in_retentionClass := Some Retain_payment;
     in_payload := Some (JObj
       [("amount_usdc", JStr (numeric_text (res_amount_usdc row)));
        ("outcome", JStr (match outcome with Resolve_failed => "failed" | Resolve_settled => "settled" end));
        ("rail", JStr (PaymentRail_text (res_rail row)))]%string) |}.

Definition resolveUnknownAttempt (operator : OperatorContext) (orgId reservationId : string)
    (outcome : ResolveUnknownAttemptOutcome) : M unit :=
  withTransaction (
    let* reservation := select_one T_payment_reservations
      (fun r => the_reservation orgId reservationId r && reservation_held r) in
    let* row := some_or reservation notFound in
    let* paymentEvent := select_one T_payment_events (fun e =>
      eqo (pe_reservation_id e) (Some reservationId) && (pe_org_id e =s orgId) && event_unknown e) in
    throw_if (negb (is_some paymentEvent)) (badRequest "not_an_unknown_attempt") ;;*
    let* now := get_now in
    update T_payment_reservations (the_reservation orgId reservationId)
      (close_reservation match outcome with
                         | Resolve_failed => Reservation_released
                         | Resolve_settled => Reservation_settled
                         end now) ;;*
    let* modeRow := getOrgPaymentMode orgId in
    update T_agent_payment_accounts (the_account orgId (res_agent_id row))
      match outcome with
      | Resolve_failed => unreserve (res_amount_usdc row) now
      | Resolve_settled => spend (res_amount_usdc row) now
      end ;;*
    writePosting (resolution_posting orgId reservationId (op_actorId operator) row (om_mode modeRow) outcome) ;;*
    recordAuditEvent (resolve_audit orgId reservationId (op_actorId operator) row outcome) ;;*
    ret tt).
End Finalize.
