(* ===== verification/Liquidity.v ===== *)
(** Treasury balances and liquidity preparation ([payments/store.ts],
    [payments/circle-liquidity-worker.ts]): what a payment checks before it is
    submitted, and the job it opens when the rail is short of funds. *)

From S2P Require Import Prelude Errors Usdc Json Identity Policy Quotes ResultCrypto PaidHttp Schema Host.
From S2P Require Import AuditLog AuditChain PolicyStore Approvals Attempts Accounts Prepare Settlement.
Open Scope Z_scope.

(** ** The provider *)

Record CircleTokenBalance : Type := mkCircleTokenBalance {
  tb_symbol : string;
  tb_isNative : bool;
  tb_amount : string
}.

(** What the engine asks of [CircleTreasuryProvider]: its configuration, and
    balances that may be unavailable at a moment ([None]: the promise is
    rejected). *)
Class TreasuryBalances : Type := {
  provider_configured : PaymentMode -> bool;
  live_rebalance_enabled : bool;                   (* CIRCLE_LIVE_REBALANCE_ENABLED *)
  wallet_balances : World -> PaymentMode -> string -> option (list CircleTokenBalance);
  gateway_available : World -> string -> PaymentChain -> PaymentMode -> option string
}.

(** ** Balances *)

Record CircleChainBalanceRecord : Type := mkCircleChainBalanceRecord {
  cb_address : string;
  cb_chain : PaymentChain;
  cb_circle_wallet_id : string;
  cb_gateway_available : option string;
  cb_mode : PaymentMode;
  cb_tokens : list CircleTokenBalance
}.

Definition resolveGatewayDepositorAddress (walletAddress : string) (metadata : json) : string :=
  match metadata with
  | JObj es => match lookup_key "gateway_depositor_address" es with
               | JStr s => if negb (trim s =s "") then s else walletAddress
               | _ => walletAddress
               end
  | _ => walletAddress
  end.

Definition usdc_token (t : CircleTokenBalance) : bool := (tb_symbol t =s "USDC") && negb (tb_isNative t).

(** [try { parseUsdcMicros(text) } catch { 0n }]. *)
Definition parsed_or_zero (text : string) : Z :=
  match parseUsdcMicros text with Ok z => z | Err _ => 0 end.

Definition walletUsdcMicros (balance : CircleChainBalanceRecord) : Z :=
  match List.find usdc_token (cb_tokens balance) with
  | Some t => parsed_or_zero (tb_amount t)
  | None => 0
  end.

Definition gatewayUsdcMicros (balance : option CircleChainBalanceRecord) : Z :=
  match balance with
  | Some b => match cb_gateway_available b with Some a => parsed_or_zero a | None => 0 end
  | None => 0
  end.

Definition balance_of (chain : PaymentChain) (balances : list CircleChainBalanceRecord) :
    option CircleChainBalanceRecord :=
  List.find (fun b => bool_decide (cb_chain b = chain)) balances.

(** [ORDER BY chain ASC]. *)
Definition listCircleWalletRows (orgId : string) (mode : PaymentMode) : M (list CircleChainWalletRow) :=
  let* rows := select T_circle_chain_wallets (fun r =>
    (ccw_org_id r =s orgId) && bool_decide (ccw_mode r = mode)) in
  ret (sort_by (fun a b => String.leb (PaymentChain_text (ccw_chain a)) (PaymentChain_text (ccw_chain b))) rows).

Definition activeCircleWallet (orgId : string) (mode : PaymentMode) (chain : PaymentChain) :
    M CircleChainWalletRow :=
  let* row := select_one T_circle_chain_wallets (fun r =>
    (ccw_org_id r =s orgId) && bool_decide (ccw_mode r = mode) && bool_decide (ccw_chain r = chain)
    && bool_decide (ccw_status r = Access_active)) in
  some_or row (conflict "circle_wallet_missing").

Definition EXACT_WALLET_REBALANCE_FEE_BUFFER_MICROS : Z := 10000.
Definition CIRCLE_GATEWAY_MIN_DEPOSIT_MICROS : Z := 500000.
Definition EXACT_WALLET_REBALANCE_MIN_MICROS : Z := 50000.

(** The richest other wallet that covers the amount and the fee; the sort is
    stable and descending. *)
Definition sourceChainForRebalance (balances : list CircleChainBalanceRecord)
    (destinationChain : PaymentChain) (amountMicros : Z) : option PaymentChain :=
  let required := amountMicros + EXACT_WALLET_REBALANCE_FEE_BUFFER_MICROS in
  let eligible := List.filter (fun b => negb (bool_decide (cb_chain b = destinationChain))
                                        && (required <=? walletUsdcMicros b)) balances in
  option_map cb_chain (head (sort_by (fun a b => walletUsdcMicros b <=? walletUsdcMicros a) eligible)).

Definition positiveDeficitMicros (target current : Z) : Z := if current <? target then target - current else 0.

Definition jobUuid (jobId : string) : string :=
  if String.prefix "cjob_" jobId then String.substring 5 (String.length jobId - 5) jobId else jobId.

Section Balances.
Context `{TreasuryBalances}.

Definition chain_balance_of (w : World) (mode : PaymentMode) (wallet : CircleChainWalletRow) :
    CircleChainBalanceRecord :=
  {| cb_address := ccw_address wallet; cb_chain := ccw_chain wallet;
     cb_circle_wallet_id := ccw_circle_wallet_id wallet;
     cb_gateway_available := gateway_available w
       (resolveGatewayDepositorAddress (ccw_address wallet) (ccw_metadata wallet)) (ccw_chain wallet) mode;
     cb_mode := mode;
     cb_tokens := wallet_balances w mode (ccw_circle_wallet_id wallet) ?? [] |}.

(** Without the cache. *)
Definition listCircleBalances (orgId : string) : M (list CircleChainBalanceRecord) :=
  let* modeRow := getOrgPaymentMode orgId in
  let* rows := listCircleWalletRows orgId (om_mode modeRow) in
  fun w => (Ok (map (chain_balance_of w (om_mode modeRow)) rows), w).
End Balances.

(** ** Liquidity jobs *)

Record LiquidityInput : Type := mkLiquidityInput {
  li_auth : ConnectionAuthResult;
  li_mode : PaymentMode;
  li_quote : RuntimeQuote;
  li_resource : X402Resource;
  li_paymentInput : RuntimeX402PaymentInput
}.

Definition open_preparation (input : LiquidityInput) (quoteHash : string) (r : CircleProviderJobRow) : bool :=
  (cpj_org_id r =s auth_org_id (li_auth input)) && bool_decide (cpj_mode r = li_mode input)
  && (cpj_job_type r =s "liquidity.prepare") && job_open r
  && eqo (meta_text (cpj_metadata r) "connection_id") (Some (auth_connection_id (li_auth input)))
  && eqo (meta_text (cpj_metadata r) "payment_quote_hash") (Some quoteHash).

(** [ORDER BY created_at ASC LIMIT 1]. *)
Definition openLiquidityPreparationJob (input : LiquidityInput) (quoteHash : string) :
    M (option CircleProviderJobRow) :=
  let* rows := select T_circle_provider_jobs (open_preparation input quoteHash) in
  ret (first_by (fun a b => cpj_created_at a <? cpj_created_at b) rows).

Definition LIQUIDITY_PREP_RETRY_AFTER_SECONDS : Z := 30.

(** What differs between the two kinds of job. *)
Record LiquidityPlan : Type := mkLiquidityPlan {
  lp_prep : Z;
  lp_source : PaymentChain;
  lp_bucket : string;
  lp_strategy : string;
  lp_reason : string;
  lp_before : Z;
  lp_target : Z;
  lp_wallet_before : option Z       (* gateway jobs: the wallet side *)
}.

Definition gateway_plan (quote : RuntimeQuote) (reasonCode : string) (balances : list CircleChainBalanceRecord) :
    option LiquidityPlan :=
  let destinationBalance := balance_of (q_chain quote) balances in
  let destinationGatewayMicros := gatewayUsdcMicros destinationBalance in
  let destinationTargetMicros := Z.max (q_amountMicros quote) CIRCLE_GATEWAY_MIN_DEPOSIT_MICROS in
  let gatewayDeficitMicros := positiveDeficitMicros destinationTargetMicros destinationGatewayMicros in
  let prepMicros := Z.max gatewayDeficitMicros CIRCLE_GATEWAY_MIN_DEPOSIT_MICROS in
  let destinationWalletMicros := match destinationBalance with Some b => walletUsdcMicros b | None => 0 end in
  let bridgeDeficitMicros := positiveDeficitMicros prepMicros destinationWalletMicros in
  let sourceChain := if bridgeDeficitMicros =? 0 then Some (q_chain quote)
                     else sourceChainForRebalance balances (q_chain quote) bridgeDeficitMicros in
  option_map (fun chain =>
    {| lp_prep := prepMicros; lp_source := chain;
       lp_bucket := "gateway:" +:+ PaymentChain_text (q_chain quote);
       lp_strategy := if bool_decide (chain = q_chain quote) then "wallet_to_gateway"
                      else "wallet_rebalance_then_gateway_deposit";
       lp_reason := reasonCode; lp_before := destinationGatewayMicros; lp_target := destinationTargetMicros;
       lp_wallet_before := Some destinationWalletMicros |}) sourceChain.

Definition exact_plan (quote : RuntimeQuote) (balances : list CircleChainBalanceRecord) : option LiquidityPlan :=
  let destinationBalance := balance_of (q_chain quote) balances in
  let destinationBeforeMicros := match destinationBalance with Some b => walletUsdcMicros b | None => 0 end in
  let destinationTargetMicros := Z.max (q_amountMicros quote) EXACT_WALLET_REBALANCE_MIN_MICROS in
  let prepMicros := positiveDeficitMicros destinationTargetMicros destinationBeforeMicros in
  option_map (fun chain =>
    {| lp_prep := prepMicros; lp_source := chain;
       lp_bucket := "wallet:" +:+ PaymentChain_text (q_chain quote); lp_strategy := "wallet_rebalance";
       lp_reason := "exact_wallet_below_request"; lp_before := destinationBeforeMicros;
       lp_target := destinationTargetMicros; lp_wallet_before := None |})
    (sourceChainForRebalance balances (q_chain quote) prepMicros).

Definition job_metadata (input : LiquidityInput) (quoteHash jobId : string) (plan : LiquidityPlan) : json :=
  let quote := li_quote input in
  JObj ([("agent_id", JStr (auth_agent_id (li_auth input)));
         ("connection_id", JStr (auth_connection_id (li_auth input)));
         ("destination_before_usdc", JStr (formatUsdc (lp_before plan)));
         ("destination_bucket", JStr (lp_bucket plan));
         ("destination_chain", JStr (PaymentChain_text (q_chain quote)));
         ("destination_target_usdc", JStr (formatUsdc (lp_target plan)))]%string
    ++ (match lp_wallet_before plan with
        | Some before => [("destination_wallet_before_usdc", JStr (formatUsdc before));
                          ("destination_wallet_target_usdc", JStr (formatUsdc (lp_prep plan)))]%string
        | None => []
        end)
    ++ [("gasless_verified", JBool true); ("payment_amount_usdc", JStr (q_amount quote));
        ("payment_quote_hash", JStr quoteHash); ("rail", JStr (PaymentRail_text (q_rail quote)));
        ("reason_code", JStr (lp_reason plan)); ("resource_category", jopt (xr_category (li_resource input)));
        ("resource_url", jopt (xr_url (li_resource input)));
        ("retry_after_seconds", jint LIQUIDITY_PREP_RETRY_AFTER_SECONDS);
        ("bridge_idempotency_key", JStr (jobUuid jobId));
        ("source_bucket", JStr ("wallet:" +:+ PaymentChain_text (lp_source plan)));
        ("source_chain", JStr (PaymentChain_text (lp_source plan)));
        ("strategy", JStr (lp_strategy plan))]%string).

Definition job_row (input : LiquidityInput) (quoteHash jobId : string) (plan : LiquidityPlan) (now : Z) :
    CircleProviderJobRow :=
  {| cpj_id := jobId; cpj_org_id := auth_org_id (li_auth input); cpj_mode := li_mode input;
     cpj_job_type := "liquidity.prepare"; cpj_chain := Some (q_chain (li_quote input));
     cpj_status := Job_queued; cpj_amount_usdc := Some (lp_prep plan); cpj_provider_ref := None;
     cpj_error_code := None; cpj_metadata := job_metadata input quoteHash jobId plan;
     cpj_created_by := auth_connection_id (li_auth input); cpj_created_at := now; cpj_updated_at := now |}.

Definition liquidity_activity (input : LiquidityInput) (jobId : string) (plan : LiquidityPlan) : ActivityInput :=
  let quote := li_quote input in
  mkActivityInput (auth_org_id (li_auth input)) (Some (auth_agent_id (li_auth input)))
    (Some (auth_connection_id (li_auth input))) None None Activity_treasury "liquidity.prepare.queued"
    Act_pending ("Preparing " +:+ formatUsdc (lp_prep plan) +:+ " USDC for " +:+ PaymentRail_text (q_rail quote))
    (Some (JObj
      [("amount_usdc", JStr (formatUsdc (lp_prep plan)));
       ("chain", JStr (PaymentChain_text (q_chain quote))); ("destination_bucket", JStr (lp_bucket plan));
       ("job_id", JStr jobId); ("rail", JStr (PaymentRail_text (q_rail quote)));
       ("source_bucket", JStr ("wallet:" +:+ PaymentChain_text (lp_source plan)));
       ("strategy", JStr (lp_strategy plan))]%string)).

Section Liquidity.
Context `{Collation} `{Sha256} `{TreasuryBalances}.

Definition liquidity_quote_hash (input : LiquidityInput) : Res string :=
  let quote := li_quote input in
  sha256Hex (JObj
    [("accept", accept_json (q_accept quote)); ("agentId", JStr (auth_agent_id (li_auth input)));
     ("connectionId", JStr (auth_connection_id (li_auth input)));
     ("mode", JStr (PaymentMode_text (li_mode input)));
     ("resource", JObj (pi_resource (li_paymentInput input) ?? []));
     ("x402", JObj [("amount", JStr (q_x402Amount quote)); ("network", JStr (q_x402Network quote));
                    ("rail", JStr (PaymentRail_text (q_rail quote)))])]%string).

(** The shape the two [create...LiquidityPreparationJob] share; [plan] reads the
    balances and chooses where the funds come from. *)
Definition createLiquidityPreparationJob (input : LiquidityInput)
    (plan : list CircleChainBalanceRecord -> option LiquidityPlan) : M CircleProviderJobRow :=
  throw_if (bool_decide (li_mode input = mode_live) && negb live_rebalance_enabled)
    (conflict "unsupported_gasless_payment_route") ;;*
  throw_if (negb (provider_configured (li_mode input))) (conflict "circle_provider_not_configured") ;;*
  let* quoteHash := lift (liquidity_quote_hash input) in
  let* existing := openLiquidityPreparationJob input quoteHash in
  match existing with
  | Some job => ret job
  | None =>
      let* balances := listCircleBalances (auth_org_id (li_auth input)) in
      let* plan := some_or (plan balances) (conflict "unsupported_gasless_payment_route") in
      let* jobId := prefixedId "cjob" in
      let* now := get_now in
      let row := job_row input quoteHash jobId plan now in
      let* raced := catch
        (insert T_circle_provider_jobs row ;;* ret None)
        (fun e => match e with
                  | PgUniqueViolation =>
                      let* concurrent := openLiquidityPreparationJob input quoteHash in
                      match concurrent with Some job => ret (Some job) | None => throw e end
                  | _ => throw e
                  end) in
      match raced with
      | Some job => ret job
      | None => recordActivity (liquidity_activity input jobId plan) ;;* ret row
      end
  end.

Definition createGatewayLiquidityPreparationJob (input : LiquidityInput) (reasonCode : string) :
    M CircleProviderJobRow :=
  createLiquidityPreparationJob input (gateway_plan (li_quote input) reasonCode).

Definition createExactLiquidityPreparationJob (input : LiquidityInput) : M CircleProviderJobRow :=
  createLiquidityPreparationJob input (exact_plan (li_quote input)).
End Liquidity.
