(* ===== verification/Fleet.v ===== *)
(** The fleet of an organisation ([payments/allocations.ts],
    [agent-funding.ts], [agent-payee.ts], [agent-revocation.ts]): what the
    treasury allocates to each agent, the top-ups and adjustments of an
    allocation, the funding of an agent at the moment it pays, its revocation.

    [withPostgresCircleOrgLock] makes what runs under it one step; waiting for
    the lock, and giving up after five minutes, come before it.  Amounts given
    as text pass [moneySchema], on which [::numeric] and [parseUsdcMicros]
    agree. *)

From S2P Require Import Prelude Errors Usdc Json Redaction Identity Policy Quotes Doubles Schema Host Handlers AuditLog.
From S2P Require Import Ledger Accounts Chain Delegations Prepare Settlement Liquidity.
Import Digits.
Open Scope Z_scope.

(** ** The treasury *)

Definition treasuryAddress (orgId : string) (mode : PaymentMode) (chain : PaymentChain) : M string :=
  let* row := select_one T_circle_chain_wallets (treasury_wallet orgId mode chain) in
  let* row := some_or row (PlainError "circle_wallet_missing") in
  ret (ccw_address row).

(** What the Gateway API answers; it may be unavailable. *)
Definition getGatewayBalance `{TreasuryBalances} (address : string) (chain : PaymentChain) (mode : PaymentMode) :
    M string := fun w =>
  (match gateway_available w address chain mode with
   | Some available => Ok available
   | None => Err (PlainError "gateway_balance_unavailable")
   end, w).

Definition treasuryDepositsMicros `{TreasuryBalances} (orgId : string) (mode : PaymentMode) (chain : PaymentChain) :
    M Z :=
  let* address := treasuryAddress orgId mode chain in
  let* available := getGatewayBalance address chain mode in
  lift (parseUsdcMicros available).

(** ** Allocations *)

Record SetAllocationInput : Type := mkSetAllocation {
  sa_orgId : string;
  sa_agentId : string;
  sa_mode : PaymentMode;
  sa_chain : PaymentChain;
  sa_allocatedUsdc : string;
  sa_gasReserveUsdc : option string;
  sa_lowWaterMarkUsdc : option string;
  sa_ceilingUsdc : option string;
  sa_createdBy : string
}.

Definition in_treasury (orgId : string) (mode : PaymentMode) (chain : PaymentChain) (r : AgentAllocationRow) : bool :=
  (alc_org_id r =s orgId) && bool_decide (alc_mode r = mode) && bool_decide (alc_chain r = chain)
  && bool_decide (alc_status r = Allocation_active).

Definition allocated_to_others (orgId agentId : string) (mode : PaymentMode) (chain : PaymentChain)
    (r : AgentAllocationRow) : bool :=
  in_treasury orgId mode chain r && (alc_agent_id r <>s agentId).

Definition the_allocation (agentId : string) (mode : PaymentMode) (chain : PaymentChain) (r : AgentAllocationRow) :
    bool :=
  (alc_agent_id r =s agentId) && bool_decide (alc_mode r = mode) && bool_decide (alc_chain r = chain).

(** [DO UPDATE SET ...]: the amounts and the time; the status stays. *)
Definition reallocated (new r : AgentAllocationRow) : AgentAllocationRow :=
  {| alc_id := alc_id r; alc_org_id := alc_org_id r; alc_agent_id := alc_agent_id r; alc_mode := alc_mode r;
     alc_chain := alc_chain r; alc_allocated_usdc := alc_allocated_usdc new;
     alc_gas_reserve_usdc := alc_gas_reserve_usdc new; alc_low_water_mark_usdc := alc_low_water_mark_usdc new;
     alc_ceiling_usdc := alc_ceiling_usdc new; alc_status := alc_status r; alc_created_by := alc_created_by r;
     alc_updated_at := alc_updated_at new |}.

(** [ON CONFLICT (agent_id, mode, chain) DO UPDATE]. *)
Definition upsert_allocation (row : AgentAllocationRow) : M AgentAllocationRow :=
  let* inserted := insert_or_ignore T_agent_allocations row in
  if inserted : bool then ret row else
    let* updated := update T_agent_allocations (the_allocation (alc_agent_id row) (alc_mode row) (alc_chain row))
      (reallocated row) in
    some_or (head updated) (PlainError "agent_allocation_insert_failed").

(** [$n::numeric] in a [numeric(20,6)] column. *)
Definition money_column (text : string) : Res Z :=
  match parseUsdcMicros text with Ok z => Ok z | Err _ => Err PgNumericOverflow end.

(** Under the lock: the sum check and the write. *)
Definition write_allocation (input : SetAllocationInput) (deposits : Z) : M AgentAllocationRow :=
  let* others := select T_agent_allocations
    (allocated_to_others (sa_orgId input) (sa_agentId input) (sa_mode input) (sa_chain input)) in
  let* requested := lift (parseUsdcMicros (sa_allocatedUsdc input)) in
  let* committed := lift (parseUsdcMicros (numeric_text (sum_where (fun _ => true) alc_allocated_usdc others))) in
  throw_if (deposits <? committed + requested) (conflict "allocation_exceeds_treasury_solvency") ;;*
  let* id := prefixedId "aalloc" in
  let* now := get_now in
  let* gasReserve := lift (money_column (sa_gasReserveUsdc input ?? "0"%string)) in
  let* lowWaterMark := lift (money_column (sa_lowWaterMarkUsdc input ?? "0"%string)) in
  let* ceiling := lift (money_column (sa_ceilingUsdc input ?? sa_allocatedUsdc input)) in
  upsert_allocation
    {| alc_id := id; alc_org_id := sa_orgId input; alc_agent_id := sa_agentId input; alc_mode := sa_mode input;
       alc_chain := sa_chain input; alc_allocated_usdc := requested; alc_gas_reserve_usdc := gasReserve;
       alc_low_water_mark_usdc := lowWaterMark; alc_ceiling_usdc := ceiling; alc_status := Allocation_active;
       alc_created_by := sa_createdBy input; alc_updated_at := now |}.

(** The deposits are read before the lock is taken. *)
Definition setAllocation `{TreasuryBalances} (input : SetAllocationInput) : M AgentAllocationRow :=
  let* deposits := treasuryDepositsMicros (sa_orgId input) (sa_mode input) (sa_chain input) in
  withTransaction (write_allocation input deposits).

(** ** Top-ups *)

Definition wallet_of (a : AgentAllocationRow) (w : AgentChainWalletRow) : bool :=
  (acw_agent_id w =s alc_agent_id a) && bool_decide (acw_mode w = alc_mode a) && bool_decide (acw_chain w = alc_chain a)
  && (acw_status w =s "active").

(** The join of allocations with active wallets. *)
Definition with_wallets (allocations : list AgentAllocationRow) (wallets : list AgentChainWalletRow) :
    list (AgentAllocationRow * string) :=
  flat_map (fun a => map (fun w => (a, acw_address w)) (where_ (wallet_of a) wallets)) allocations.

Definition allocations_with_wallets (p : AgentAllocationRow -> bool) : M (list (AgentAllocationRow * string)) :=
  let* allocations := select T_agent_allocations p in
  let* wallets := select T_agent_chain_wallets (fun _ => true) in
  ret (with_wallets allocations wallets).

Section TopUps.
Context `{ChainBalances}.

Definition otherAgentsOnChainMicros (a : AgentAllocationRow) : M Z :=
  let* others := allocations_with_wallets
    (allocated_to_others (alc_org_id a) (alc_agent_id a) (alc_mode a) (alc_chain a)) in
  for_each (fun total other =>
    let* balance := nativeBalanceMicros (snd other) (alc_chain a) (alc_mode a) in ret (total + balance)) others 0.

(** A top-up of the agent queued or submitted. *)
Definition open_topup (orgId agentId : string) (mode : PaymentMode) (chain : PaymentChain) (r : CircleProviderJobRow) :
    bool :=
  (cpj_org_id r =s orgId) && bool_decide (cpj_mode r = mode) && bool_decide (cpj_chain r = Some chain)
  && (cpj_job_type r =s "agent_wallet.topup") && job_open r
  && eqo (meta_text (cpj_metadata r) "agent_id") (Some agentId).

Definition topup_row (a : AgentAllocationRow) (id : string) (topUpMicros now : Z) : CircleProviderJobRow :=
  {| cpj_id := id; cpj_org_id := alc_org_id a; cpj_mode := alc_mode a; cpj_job_type := "agent_wallet.topup";
     cpj_chain := Some (alc_chain a); cpj_status := Job_queued; cpj_amount_usdc := Some topUpMicros;
     cpj_provider_ref := None; cpj_error_code := None;
     cpj_metadata := JObj [("agent_id", JStr (alc_agent_id a))]%string;
     cpj_created_by := "agent-wallet-topup-evaluator"; cpj_created_at := now; cpj_updated_at := now |}.

(** Under the lock: nothing is pending, and the amount is clamped. *)
Definition queue_topup `{TreasuryBalances} (a : AgentAllocationRow) (rawBalance ceilingGap : Z) : M unit :=
  let* pending := select T_circle_provider_jobs
    (open_topup (alc_org_id a) (alc_agent_id a) (alc_mode a) (alc_chain a)) in
  match pending with
  | _ :: _ => ret tt
  | [] =>
      let* allocated := lift (parseUsdcMicros (numeric_text (alc_allocated_usdc a))) in
      let entitlement := if rawBalance <? allocated then allocated - rawBalance else 0 in
      let* deposits := treasuryDepositsMicros (alc_org_id a) (alc_mode a) (alc_chain a) in
      let* heldByOthers := otherAgentsOnChainMicros a in
      let solvencyHeadroom := if heldByOthers <? deposits then deposits - heldByOthers else 0 in
      let underCeiling := if ceilingGap <? entitlement then ceilingGap else entitlement in
      let topUpMicros := if underCeiling <? solvencyHeadroom then underCeiling else solvencyHeadroom in
      if topUpMicros <=? 0 then ret tt else
      let* id := prefixedId "cjob" in
      let* now := get_now in
      let* amount := lift (money_column (formatUsdc6 topUpMicros)) in
      insert T_circle_provider_jobs (topup_row a id amount now)
  end.

Definition evaluateSingleTopUp `{TreasuryBalances} (a : AgentAllocationRow) (wallet_address : string) : M unit :=
  let* rawBalance := nativeBalanceMicros wallet_address (alc_chain a) (alc_mode a) in
  let* gasReserve := lift (parseUsdcMicros (numeric_text (alc_gas_reserve_usdc a))) in
  let spendable := if gasReserve <? rawBalance then rawBalance - gasReserve else 0 in
  let* lowWaterMark := lift (parseUsdcMicros (numeric_text (alc_low_water_mark_usdc a))) in
  if lowWaterMark <=? spendable then ret tt else
  let* ceiling := lift (parseUsdcMicros (numeric_text (alc_ceiling_usdc a))) in
  let ceilingGap := if rawBalance <? ceiling then ceiling - rawBalance else 0 in
  if ceilingGap <=? 0 then ret tt else
  withTransaction (queue_topup a rawBalance ceilingGap).

Definition evaluateTopUps `{TreasuryBalances} (mode : PaymentMode) : M unit :=
  let* allocations := allocations_with_wallets
    (fun r => bool_decide (alc_mode r = mode) && bool_decide (alc_status r = Allocation_active)) in
  for_each (fun _ allocation => evaluateSingleTopUp (fst allocation) (snd allocation)) allocations tt.
End TopUps.

(** ** Reputation *)

Definition REPUTATION_MAX_STEP_BPS : double := Fin 1000 0.
Definition BPS_DENOMINATOR : Z := 10000.

(** [Math.round]: the nearest integer, halves up. *)
Definition math_round (m e : Z) : Z :=
  if 0 <=? e then m * 2 ^ e else (2 * m + 2 ^ (- e)) / (2 * 2 ^ (- e)).

(** [BigInt(Math.max(0, Math.min(100, Math.round(reputation)))) * 100n];
    [BigInt(NaN)] is a RangeError. *)
Definition reputation_bps (reputation : double) : Res Z :=
  match reputation with
  | Fin m e => Ok (Z.max 0 (Z.min 100 (math_round m e)) * 100)
  | PosInf => Ok (100 * 100)
  | NegInf => Ok 0
  | NaN => Err (PlainError "RangeError")
  end.

Record NextAllocationInput : Type := mkNextAllocation {
  na_current : Z;
  na_floor : Z;
  na_ceiling : Z;
  na_reputation : double;
  na_maxStepBps : double
}.

(** [BigInt(Math.max(0, Math.round(maxStepBps)))]; of an infinity or [NaN] a
    RangeError. *)
Definition step_bps (maxStepBps : double) : Res Z :=
  match maxStepBps with
  | Fin m e => Ok (Z.max 0 (math_round m e))
  | NegInf => Ok 0
  | PosInf | NaN => Err (PlainError "RangeError")
  end.

(** Division of [bigint]s truncates. *)
Definition nextAllocation (input : NextAllocationInput) : Res Z :=
  let? reputationBps := reputation_bps (na_reputation input) in
  let range := na_ceiling input - na_floor input in
  let target := na_floor input + Z.quot (range * reputationBps) BPS_DENOMINATOR in
  let? maxStepBps := step_bps (na_maxStepBps input) in
  let step := Z.quot (na_current input * maxStepBps) BPS_DENOMINATOR in
  let delta := clampBigint (target - na_current input) (- step) step in
  Ok (clampBigint (na_current input + delta) (na_floor input) (na_ceiling input)).

Record ApplyReputationAdjustmentInput : Type := mkApplyReputation {
  ar_orgId : string;
  ar_agentId : string;
  ar_mode : PaymentMode;
  ar_chain : PaymentChain;
  ar_reputation : double;
  ar_createdBy : option string
}.

Definition adjusted (input : ApplyReputationAdjustmentInput) (row : AgentAllocationRow) (next : Z) :
    SetAllocationInput :=
  {| sa_orgId := ar_orgId input; sa_agentId := ar_agentId input; sa_mode := ar_mode input; sa_chain := ar_chain input;
     sa_allocatedUsdc := formatUsdc6 next; sa_gasReserveUsdc := Some (numeric_text (alc_gas_reserve_usdc row));
     sa_lowWaterMarkUsdc := Some (numeric_text (alc_low_water_mark_usdc row));
     sa_ceilingUsdc := Some (numeric_text (alc_ceiling_usdc row));
     sa_createdBy := ar_createdBy input ?? "system"%string |}.

Definition applyReputationAdjustment `{TreasuryBalances} (input : ApplyReputationAdjustmentInput) :
    M AgentAllocationRow :=
  let* row := select_one T_agent_allocations (fun r =>
    in_treasury (ar_orgId input) (ar_mode input) (ar_chain input) r && (alc_agent_id r =s ar_agentId input)) in
  let* row := some_or row (PlainError "agent_allocation_not_found") in
  let* current := lift (parseUsdcMicros (numeric_text (alc_allocated_usdc row))) in
  let* floor := lift (parseUsdcMicros (numeric_text (alc_gas_reserve_usdc row))) in
  let* ceiling := lift (parseUsdcMicros (numeric_text (alc_ceiling_usdc row))) in
  let* next := lift (nextAllocation (mkNextAllocation current floor ceiling (ar_reputation input)
    REPUTATION_MAX_STEP_BPS)) in
  setAllocation (adjusted input row next).

(** ** Revocation *)

Definition sweepAmountMicros (balanceMicros gasNeededMicros : Z) : Z :=
  let amount := balanceMicros - gasNeededMicros in if 0 <? amount then amount else 0.

Definition agent_wallets (agentId : string) (mode : PaymentMode) (r : AgentChainWalletRow) : bool :=
  (acw_agent_id r =s agentId) && bool_decide (acw_mode r = mode) && (acw_status r =s "active").

Definition sweep_row (orgId agentId reason actorId id : string) (mode : PaymentMode) (chain : PaymentChain) (now : Z) :
    CircleProviderJobRow :=
  {| cpj_id := id; cpj_org_id := orgId; cpj_mode := mode; cpj_job_type := "agent_wallet.sweep";
     cpj_chain := Some chain; cpj_status := Job_queued; cpj_amount_usdc := None; cpj_provider_ref := None;
     cpj_error_code := None; cpj_metadata := JObj [("agent_id", JStr agentId); ("reason", JStr reason)]%string;
     cpj_created_by := actorId; cpj_created_at := now; cpj_updated_at := now |}.

Definition queue_sweep (orgId agentId reason actorId : string) (mode : PaymentMode) (wallet : AgentChainWalletRow) :
    M unit :=
  let* id := prefixedId "cjob" in
  let* now := get_now in
  insert T_circle_provider_jobs (sweep_row orgId agentId reason actorId id mode (acw_chain wallet) now).

Definition revocation_event (operator : OperatorContext) (orgId agentId reason : string)
    (wallets : list AgentChainWalletRow) : RecordAuditEventInput :=
  {| in_orgId := orgId; in_idempotencyKey := Some ("agent.revoked:" +:+ agentId)%string;
     in_eventType := "agent.revoked"; in_occurredAt := None; in_actor_type := Actor_user;
     in_actor_id := Some (op_actorId operator); in_action := "agent.revoke"; in_outcome := Outcome_success;
     in_reasonCode := Some reason; in_resource := Some ("agent"%string, agentId);
     in_classification := mkAuditClassification (Some Domain_payment) (Some Category_financial)
       (Some Severity_critical) (Some ["section_9"; "agent_revocation"]%string);
     in_relations := mkAuditRelations (Some agentId) None None None None None;
     in_requestId := None; in_source := mkAuditSource (Some "section_9"%string) (Some "payments"%string) None;
     in_refs := no_refs; in_externalRefs := None; in_retentionClass := Some Retain_payment;
     in_payload := Some (JObj
       [("chains_swept", JArr (map (fun w => JStr (PaymentChain_text (acw_chain w))) wallets));
        ("reason", JStr reason)]%string) |}.

Definition revokeAgent `{Collation} `{Sha256} (operator : OperatorContext) (orgId agentId : string)
    (mode : PaymentMode) (reason : string) : M unit :=
  withTransaction (
    let* agent := update T_agents (fun r => (ag_id r =s agentId) && (ag_org_id r =s orgId)) (set_ag_status "suspended") in
    some_or (head agent) (PlainError "agent_not_found") ;;*
    let* now := get_now in
    update T_agent_allocations (fun r => (alc_agent_id r =s agentId) && bool_decide (alc_mode r = mode)
        && bool_decide (alc_status r = Allocation_active))
      (fun r => set_alc_status Allocation_revoked (set_alc_updated_at now r)) ;;*
    let* wallets := select T_agent_chain_wallets (agent_wallets agentId mode) in
    for_each (fun _ wallet => queue_sweep orgId agentId reason (op_actorId operator) mode wallet) wallets tt ;;*
    recordAuditEvent (revocation_event operator orgId agentId reason wallets) ;;*
    ret tt).

(** ** Payees *)

Definition resolveAgentPayee (orgId agentId : string) (mode : PaymentMode) (chain : PaymentChain) : M string :=
  let* wallet := findAgentWallet agentId mode chain in
  let* wallet := some_or wallet (conflict "agent_wallet_not_found") in
  let* id := prefixedId "payto" in
  let* now := get_now in
  insert_or_ignore T_payment_destination_allowlist
    {| al_id := id; al_org_id := orgId; al_chain := chain; al_address := acw_address wallet;
       al_label := "Fleet agent " +:+ agentId; al_source := "agent_wallet"; al_status := "active";
       al_created_by := "system"; al_approved_by := None; al_created_at := now |} ;;*
  ret (acw_address wallet).

(** ** Funding at the moment of a payment *)

Definition AGENT_GAS_FLOOR_MICROS : Z := 100000.

Inductive JustInTimeFundingResult : Type :=
| Already_funded
| No_treasury_delegation
| Funded (amountUsdc txHash : string).

(** The treasury's delegations to an agent, live at [now]. *)
Definition treasury_delegations (orgId agentId : string) (mode : PaymentMode) (chain : PaymentChain) (now : Z)
    (d : AgentDelegationRow) : bool :=
  (dele_org_id d =s orgId) && eqo (dele_payee_agent_id d) (Some agentId)
  && bool_decide (dele_payer_kind d = Payer_treasury) && bool_decide (dele_mode d = mode)
  && bool_decide (dele_chain d = chain) && bool_decide (dele_status d = Delegation_active)
  && (now <? dele_expires_at d).

Section Funding.
Context {CB : ChainBalances} {TP : TreasuryProvider} {PC : Permit2Chain}.

Definition ensureAgentGasFloor (orgId agentAddress : string) (balanceMicros : Z) (chain : PaymentChain)
    (mode : PaymentMode) : M bool :=
  if negb (bool_decide (chain = Chain_arc)) then ret false else
  if AGENT_GAS_FLOOR_MICROS <=? balanceMicros then ret true else
  let* treasury := select_one T_circle_chain_wallets (treasury_wallet orgId mode chain) in
  match treasury with
  | None => ret false
  | Some treasury =>
      let* refId := ref_id "agentops-gas" in
      transferWallet
        {| tf_amountMicros := AGENT_GAS_FLOOR_MICROS - balanceMicros; tf_chain := chain;
           tf_destinationAddress := agentAddress; tf_mode := mode; tf_refId := refId;
           tf_sourceAddress := ccw_address treasury |} ;;*
      ret true
  end.

(** The first delegation with enough left is drawn. *)
Fixpoint draw_first (shortfall : Z) (l : list AgentDelegationRow) : M (option JustInTimeFundingResult) :=
  match l with
  | [] => ret None
  | row :: l =>
      let* ceiling := lift (parseUsdcMicros (numeric_text (dele_ceiling_usdc row))) in
      let* drawn := lift (parseUsdcMicros (numeric_text (dele_drawn_usdc row))) in
      if ceiling - drawn <? shortfall then draw_first shortfall l else
      let* draw := drawDown (dele_id row) (formatUsdc6 shortfall) in
      ret (Some (Funded (formatUsdc6 shortfall) (fst draw)))
  end.

(** On Base, without a delegation: a transfer of the shortfall. *)
Definition base_transfer (orgId address : string) (mode : PaymentMode) (chain : PaymentChain) (shortfall : Z) :
    M JustInTimeFundingResult :=
  if negb (bool_decide (chain = Chain_base)) then ret No_treasury_delegation else
  let* treasury := select_one T_circle_chain_wallets (treasury_wallet orgId mode chain) in
  match treasury with
  | None => ret No_treasury_delegation
  | Some treasury =>
      if ccw_address treasury =s address then ret No_treasury_delegation else
      let* refId := ref_id "agentops-base-fund" in
      let* transactionId := transferWallet
        {| tf_amountMicros := shortfall; tf_chain := chain; tf_destinationAddress := address; tf_mode := mode;
           tf_refId := refId; tf_sourceAddress := ccw_address treasury |} in
      ret (Funded (formatUsdc6 shortfall) transactionId)
  end.

Definition fundAgentFromTreasuryDelegation (orgId agentId : string) (mode : PaymentMode) (chain : PaymentChain)
    (neededMicros : Z) : M JustInTimeFundingResult :=
  let* wallet := findAgentWallet agentId mode chain in
  match wallet with
  | None => ret No_treasury_delegation
  | Some wallet =>
      let address := acw_address wallet in
      let* balance := nativeBalanceMicros address chain mode in
      if neededMicros <=? balance then ret Already_funded else
      let shortfall := neededMicros - balance in
      ensureAgentGasFloor orgId address balance chain mode ;;*
      let* now := get_now in
      let* delegations := select T_agent_delegations (treasury_delegations orgId agentId mode chain now) in
      let* drawn := draw_first shortfall (sort_by (fun a b => dele_created_at b <=? dele_created_at a) delegations) in
      match drawn with
      | Some result => ret result
      | None => base_transfer orgId address mode chain shortfall
      end
  end.
End Funding.
