(* ===== verification/FleetJobs.v ===== *)
(** The worker of the treasury ([payments/agent-wallets.ts],
    [agent-revocation.ts], [circle-liquidity-worker.ts], [circle-worker.ts]):
    the jobs on agent wallets, and a pass over the queue.

    A job runs under the lock of its organisation, on the pool: each statement
    commits alone, and what was done before an error stays. *)

From S2P Require Import Prelude Errors Usdc Json Identity Policy Quotes Schema Host Handlers AuditLog.
From S2P Require Import Ledger Attempts Accounts Chain Delegations Prepare Settlement Liquidity Fleet.
Import Digits.
Open Scope Z_scope.

(** ** Jobs *)

(** [jobAgentId]. *)
Definition jobAgentId (metadata : json) : option string :=
  match meta_text metadata "agent_id" with
  | Some agentId => if agentId =s "" then None else Some agentId
  | None => None
  end.

Definition the_job (id : string) (r : CircleProviderJobRow) : bool := cpj_id r =s id.

Definition find_job (jobId jobType : string) : M (option CircleProviderJobRow) :=
  select_one T_circle_provider_jobs (fun r => the_job jobId r && (cpj_job_type r =s jobType)).

Definition job_failed (jobId code : string) : M unit :=
  let* now := get_now in
  update T_circle_provider_jobs (the_job jobId)
    (fun r => set_cpj_status Job_failed (set_cpj_error_code (Some code) (set_cpj_updated_at now r))) ;;*
  ret tt.

(** [catch (error) { UPDATE ... SET status = 'failed' }].  Of the errors of the
    database the text is not modelled. *)
Definition or_failed (jobId : string) (m : M unit) : M unit :=
  catch m (fun e => job_failed jobId (error_message (Some e))).

Definition job_complete (jobId : string) (providerRef : option string) : M unit :=
  let* now := get_now in
  update T_circle_provider_jobs (the_job jobId)
    (fun r => set_cpj_status Job_complete (set_cpj_provider_ref providerRef (set_cpj_updated_at now r))) ;;*
  ret tt.

(** ** Creation of a wallet *)

Record CreateWalletInput : Type := mkCreateWallet {
  cw_chain : PaymentChain;
  cw_circleBlockchain : string;
  cw_mode : PaymentMode;
  cw_orgId : string;
  cw_walletSetId : string;
  cw_deriveFromWalletId : option string
}.

(** [createWallet] of the provider: address and wallet id. *)
Class WalletFactory : Type := create_wallet : World -> CreateWalletInput -> Res (string * string).

Definition createWallet `{WalletFactory} (i : CreateWalletInput) : M (string * string) := fun w =>
  (create_wallet w i, add_call (mkExternalCall "createWallet"
     [cw_orgId i; cw_circleBlockchain i; cw_walletSetId i; cw_deriveFromWalletId i ?? "independent"]) w).

Definition circleBlockchainForChain (mode : PaymentMode) (chain : PaymentChain) : M string :=
  let* row := select_one T_circle_chain_capabilities
    (fun c => bool_decide (cap_mode c = mode) && bool_decide (cap_chain c = chain)) in
  let* row := some_or row (PlainError "circle_chain_capability_not_found") in
  ret (cap_circle_blockchain row).

(** [provisioned_at ASC]: nulls last. *)
Definition le_provisioned (a b : AgentChainWalletRow) : bool :=
  match acw_provisioned_at a, acw_provisioned_at b with
  | Some x, Some y => x <=? y
  | Some _, None => true
  | None, Some _ => false
  | None, None => true
  end.

Definition findAnyAgentWallet (agentId : string) (mode : PaymentMode) : M (option AgentChainWalletRow) :=
  let* rows := select T_agent_chain_wallets (agent_wallets agentId mode) in
  ret (head (sort_by le_provisioned rows)).

(** [ON CONFLICT (agent_id, mode, chain) DO NOTHING]. *)
Definition recordProvisionedWallet (orgId agentId : string) (mode : PaymentMode) (chain : PaymentChain)
    (circleWalletId address : string) : M unit :=
  let* id := prefixedId "acw" in
  let* now := get_now in
  insert_or_ignore T_agent_chain_wallets
    {| acw_id := id; acw_org_id := orgId; acw_agent_id := agentId; acw_mode := mode; acw_chain := chain;
       acw_circle_wallet_id := circleWalletId; acw_address := address; acw_status := "active";
       acw_provisioned_at := Some now |} ;;*
  ret tt.

Definition create_job (job : CircleProviderJobRow) (agentId : string) (chain : PaymentChain) `{WalletFactory} :
    M unit :=
  let* walletSet := select_one T_circle_wallet_sets (fun r => (cws_org_id r =s cpj_org_id job)
    && bool_decide (cws_mode r = cpj_mode job) && (cws_status r =s "active")) in
  let* walletSet := some_or walletSet (PlainError "circle_wallet_set_not_found") in
  let* circleBlockchain := circleBlockchainForChain (cpj_mode job) chain in
  let* existingWallet := findAnyAgentWallet agentId (cpj_mode job) in
  let* created := createWallet
    {| cw_chain := chain; cw_circleBlockchain := circleBlockchain; cw_mode := cpj_mode job;
       cw_orgId := cpj_org_id job; cw_walletSetId := cws_circle_wallet_set_id walletSet;
       cw_deriveFromWalletId := option_map acw_circle_wallet_id existingWallet |} in
  let '(address, circleWalletId) := created in
  (match existingWallet with Some _ => ret tt | None => prefixedId "aref" ;;* ret tt end) ;;*
  recordProvisionedWallet (cpj_org_id job) agentId (cpj_mode job) chain circleWalletId address ;;*
  job_complete (cpj_id job) (Some circleWalletId).

Definition processAgentWalletCreateJob `{WalletFactory} (jobId : string) : M unit :=
  let* job := find_job jobId "agent_wallet.create" in
  match job with
  | None => ret tt
  | Some job =>
      match jobAgentId (cpj_metadata job), cpj_chain job with
      | Some agentId, Some chain => or_failed jobId (create_job job agentId chain)
      | _, _ => job_failed jobId "agent_wallet_job_metadata_invalid"
      end
  end.

(** ** Top-ups and sweeps *)

Definition wallet_posting (job : CircleProviderJobRow) (agentId : string) (chain : PaymentChain)
    (entryType : LedgerEntryType) (amount : Z) (reasonCode : string) : WritePostingInput :=
  {| wp_orgId := cpj_org_id job; wp_agentId := Some agentId; wp_mode := cpj_mode job; wp_chain := Some chain;
     wp_entryType := entryType; wp_amountUsdc := amount; wp_reservationId := None; wp_attemptId := None;
     wp_jobId := Some (cpj_id job); wp_reasonCode := reasonCode; wp_createdBy := "system" |}.

Section Transfers.
Context {TP : TreasuryProvider}.

Definition topup_transfer (job : CircleProviderJobRow) (chain : PaymentChain) (amountMicros : Z)
    (treasury agentWallet : string) : CircleTransferInput :=
  {| tf_amountMicros := amountMicros; tf_chain := chain; tf_destinationAddress := agentWallet;
     tf_mode := cpj_mode job; tf_refId := "agentops-topup-" +:+ cpj_id job; tf_sourceAddress := treasury |}.

Definition topup_job (job : CircleProviderJobRow) (agentId : string) (chain : PaymentChain) (amount_usdc : Z) : M unit :=
  let* treasury := treasuryAddress (cpj_org_id job) (cpj_mode job) chain in
  let* agentWallet := findAgentWallet agentId (cpj_mode job) chain in
  let* agentWallet := some_or agentWallet (PlainError "agent_wallet_not_found") in
  let* amountMicros := lift (parseUsdcMicros (numeric_text amount_usdc)) in
  let* transactionId := transferWallet (topup_transfer job chain amountMicros treasury (acw_address agentWallet)) in
  job_complete (cpj_id job) (Some transactionId) ;;*
  writePosting (wallet_posting job agentId chain Entry_topup amount_usdc "agent_wallet_topup") ;;*
  ret tt.

Definition processAgentWalletTopUpJob (jobId : string) : M unit :=
  let* job := find_job jobId "agent_wallet.topup" in
  match job with
  | None => ret tt
  | Some job =>
      match jobAgentId (cpj_metadata job), cpj_chain job, cpj_amount_usdc job with
      | Some agentId, Some chain, Some amount => or_failed jobId (topup_job job agentId chain amount)
      | _, _, _ => job_failed jobId "agent_wallet_job_metadata_invalid"
      end
  end.

Definition sweep_transfer (job : CircleProviderJobRow) (chain : PaymentChain) (amountMicros : Z)
    (agentWallet treasury : string) : CircleTransferInput :=
  {| tf_amountMicros := amountMicros; tf_chain := chain; tf_destinationAddress := treasury;
     tf_mode := cpj_mode job; tf_refId := "agentops-sweep-" +:+ cpj_id job; tf_sourceAddress := agentWallet |}.

Definition swept_job (jobId : string) (amountMicros : Z) (providerRef : option string) : M unit :=
  let* now := get_now in
  let* amount := lift (money_column (formatUsdc6 amountMicros)) in
  update T_circle_provider_jobs (the_job jobId)
    (fun r => set_cpj_status Job_complete (set_cpj_amount_usdc (Some amount)
                (set_cpj_provider_ref providerRef (set_cpj_updated_at now r)))) ;;*
  ret tt.

Definition sweep_job `{ChainBalances} (job : CircleProviderJobRow) (agentId : string) (chain : PaymentChain)
    (gasNeededMicros : Z) : M unit :=
  let* agentWallet := findAgentWallet agentId (cpj_mode job) chain in
  let* agentWallet := some_or agentWallet (PlainError "agent_wallet_not_found") in
  let* treasury := treasuryAddress (cpj_org_id job) (cpj_mode job) chain in
  let* balance := nativeBalanceMicros (acw_address agentWallet) chain (cpj_mode job) in
  let amountMicros := sweepAmountMicros balance gasNeededMicros in
  let* providerRef :=
    if 0 <? amountMicros then
      let* transactionId := transferWallet (sweep_transfer job chain amountMicros (acw_address agentWallet) treasury) in
      ret (Some transactionId)
    else ret None in
  update T_agent_chain_wallets (fun r => (acw_agent_id r =s agentId) && bool_decide (acw_mode r = cpj_mode job)
    && bool_decide (acw_chain r = chain)) (set_acw_status "swept") ;;*
  swept_job (cpj_id job) amountMicros providerRef ;;*
  writePosting (wallet_posting job agentId chain Entry_sweep (- amountMicros) "agent_wallet_swept") ;;*
  ret tt.

Definition processAgentWalletSweepJob `{ChainBalances} (jobId : string) (gasNeededMicros : Z) : M unit :=
  let* job := find_job jobId "agent_wallet.sweep" in
  match job with
  | None => ret tt
  | Some job =>
      match jobAgentId (cpj_metadata job), cpj_chain job with
      | Some agentId, Some chain => or_failed jobId (sweep_job job agentId chain gasNeededMicros)
      | _, _ => job_failed jobId "agent_wallet_job_metadata_invalid"
      end
  end.
End Transfers.

(** ** The worker *)

Inductive CircleWorkerJobAction : Type := Reconcile_provider | Retry_liquidity.

Definition classifyCircleWorkerJob (jobType : string) (status : ProviderJobStatus) : option CircleWorkerJobAction :=
  if (jobType =s "liquidity.prepare") && (bool_decide (status = Job_queued) || bool_decide (status = Job_submitted))
  then Some Retry_liquidity
  else if ((jobType =s "gateway.deposit") || (jobType =s "wallet.rebalance"))
          && (bool_decide (status = Job_submitted) || bool_decide (status = Job_failed))
  then Some Reconcile_provider
  else None.

Definition gatewayDepositSatisfied (amountMicros : Z) (beforeMicros : option Z) (observedMicros : Z) : bool :=
  let requiredMicros := match beforeMicros with None => amountMicros | Some before => before + amountMicros end in
  requiredMicros <=? observedMicros.

Definition wallet_job_type (r : CircleProviderJobRow) : bool :=
  mem (cpj_job_type r) ["agent_wallet.create"; "agent_wallet.topup"; "agent_wallet.sweep"]%string.

(** The WHERE clause of [listJobs]. *)
Definition stale (submittedRetryMs now : Z) (r : CircleProviderJobRow) : bool :=
  bool_decide (cpj_status r = Job_submitted) && (cpj_updated_at r <? now - submittedRetryMs).

Definition retryable_error (code : string) : bool :=
  mem code ["circle_cli_command_failed"; "circle_provider_job_timeout"]%string
  || starts_with "Command failed: circle bridge transfer" code
  || includes "circle_cli_process_timeout" code || includes "provider_timeout" code.

Definition listed_job (submittedRetryMs now : Z) (r : CircleProviderJobRow) : bool :=
  ((cpj_job_type r =s "liquidity.prepare")
   && (bool_decide (cpj_status r = Job_queued) || stale submittedRetryMs now r))
  || (((cpj_job_type r =s "gateway.deposit") || (cpj_job_type r =s "wallet.rebalance"))
      && (stale submittedRetryMs now r
          || (bool_decide (cpj_status r = Job_failed)
              && match cpj_error_code r with Some code => retryable_error code | None => false end)))
  || (wallet_job_type r && bool_decide (cpj_status r = Job_queued)).

Definition listJobs (submittedRetryMs : Z) : M (list (string * string)) :=
  let* now := get_now in
  let* rows := select T_circle_provider_jobs (listed_job submittedRetryMs now) in
  ret (map (fun r => (cpj_id r, cpj_org_id r))
         (firstn 10 (sort_by (fun a b => cpj_created_at a <=? cpj_created_at b) rows))).

Record CircleLiquidityWorkerDeps : Type := mkWorkerDeps {
  wd_listJobs : M (list (string * string));
  wd_processJob : string * string -> M unit;
  wd_purgeExpiredResults : M Z
}.

(** [onError] logs. *)
Definition runCircleLiquidityWorkerPass (deps : CircleLiquidityWorkerDeps) : M Z :=
  let* jobs := wd_listJobs deps in
  let* processed := for_each (fun processed job =>
    catch (wd_processJob deps job ;;* ret (processed + 1)) (fun _ => ret processed)) jobs 0 in
  wd_purgeExpiredResults deps ;;*
  ret processed.

Definition SWEEP_GAS_MICROS : Z := 50000.

Section Worker.
Context `{ChainBalances} `{TreasuryProvider} `{WalletFactory} `{TreasuryBalances}.

(** [processJob], up to the actions on the other kinds of job: the action that
    is left to do, [retryLiquidityJob] or [reconcileCircleProviderJobs], which
    are not modelled. *)
Definition processJob (job : string * string) : M (option CircleWorkerJobAction) :=
  let* row := select_one T_circle_provider_jobs (fun r => the_job (fst job) r && (cpj_org_id r =s snd job)) in
  match row with
  | None => ret None
  | Some row =>
      if cpj_job_type row =s "agent_wallet.create" then processAgentWalletCreateJob (fst job) ;;* ret None
      else if cpj_job_type row =s "agent_wallet.topup" then processAgentWalletTopUpJob (fst job) ;;* ret None
      else if cpj_job_type row =s "agent_wallet.sweep"
      then processAgentWalletSweepJob (fst job) SWEEP_GAS_MICROS ;;* ret None
      else ret (classifyCircleWorkerJob (cpj_job_type row) (cpj_status row))
  end.

(** [purgeExpiredResults] of the worker. *)
Definition purge_and_top_up : M Z :=
  let* purged := purgeExpiredX402Results None in
  evaluateTopUps mode_test ;;*
  ret purged.
End Worker.

(** ** Wallets and their funding *)

Record AgentWalletFundingRow : Type := mkWalletFunding {
  wf_wallet : AgentChainWalletRow;
  wf_usdcMicros : option Z;
  wf_allocatedUsdc : option Z;
  wf_lowWaterMarkUsdc : option Z
}.

(** [LEFT JOIN agent_allocations]: at most one row, by the unique constraint. *)
Definition allocation_of (wallet : AgentChainWalletRow) (r : AgentAllocationRow) : bool :=
  (alc_agent_id r =s acw_agent_id wallet) && bool_decide (alc_chain r = acw_chain wallet)
  && bool_decide (alc_mode r = acw_mode wallet) && bool_decide (alc_status r = Allocation_active).

Definition funding_row `{ChainBalances} (allocations : list AgentAllocationRow) (w : World) (wallet : AgentChainWalletRow) :
    AgentWalletFundingRow :=
  let allocation := head (where_ (allocation_of wallet) allocations) in
  {| wf_wallet := wallet;
     wf_usdcMicros := match chain_balance w (acw_address wallet) (acw_chain wallet) (acw_mode wallet) with
                      | Ok micros => Some micros
                      | Err _ => None
                      end;
     wf_allocatedUsdc := option_map alc_allocated_usdc allocation;
     wf_lowWaterMarkUsdc := option_map alc_low_water_mark_usdc allocation |}.

(** In table order: the names that order it are not modelled. *)
Definition listAgentWalletFunding `{ChainBalances} (orgId : string) (mode : PaymentMode) :
    M (list AgentWalletFundingRow) :=
  let* wallets := select T_agent_chain_wallets (fun r => (acw_org_id r =s orgId)
    && bool_decide (acw_mode r = mode) && (acw_status r =s "active")) in
  let* agents := select T_agents (fun _ => true) in
  let* allocations := select T_agent_allocations (fun _ => true) in
  let joined := List.filter (fun wallet => existsb (fun a => ag_id a =s acw_agent_id wallet) agents) wallets in
  fun w => (Ok (map (funding_row allocations w) joined), w).
