(* ===== verification/Runtime.v ===== *)
(** What an agent asks of the platform at run time ([runtime/store.ts],
    [runtime/normalizer.ts], [runtime/action-contract.ts]): its authentication,
    and the check of an action against the policies.

    The calls of a check are separate transactions: the decision stays recorded
    when a later one fails. *)

From S2P Require Import Prelude Errors Usdc Identity Json Policy Quotes PaidHttp Schema Host AuditLog PolicyStore Approvals IdentityStore Prepare.
Import Digits.
Open Scope Z_scope.

Abbreviation entries := (list (string * json)).

Definition put_some (k : string) (v : option string) (es : entries) : entries :=
  match v with Some t => put k (JStr t) es | None => es end.
Definition put_nonempty (k : string) (v : entries) (es : entries) : entries :=
  match v with [] => es | _ :: _ => put k (JObj v) es end.

Definition text_at (k : string) (es : entries) : option string := stringValue (lookup_key k es).

(** ** Normalisation *)

Record RuntimeCheckInput : Type := mkRuntimeCheckInput {
  rci_intent : option string;
  rci_action : option string;
  rci_resource : option entries;
  rci_payment : option entries;
  rci_tool : option entries;
  rci_context : option entries
}.

Record NormalizedRuntimeRequest : Type := mkNormalized {
  nz_ok : bool;
  nz_action : option string;
  nz_context : entries;
  nz_missingFields : list string
}.


Section Runtime.
Context `{Collation} `{Sha256} `{NodeProcess} `{UrlParser}.

Definition mergeResource (resource : entries) : entries :=
  let url := text_at "url" resource in
  let domain := match domainFromUrl url with Some d => Some d | None => text_at "domain" resource end in
  put_some "domain" domain (put_some "url" url resource).

Definition missing (field : string) (es : entries) (name : string) : list string :=
  match text_at field es with Some _ => [] | None => [name] end.

Definition missing_fields (action : string) (resource payment tool : entries) : list string :=
  (if action =s "payment.x402.authorize" then
     flat_map (fun f => missing f payment ("payment." +:+ f)) ["amount"; "asset"; "network"; "recipient"]%string
     ++ missing "url" resource "resource.url"
   else [])
  ++ (if action =s "tool.call" then missing "name" tool "tool.name" else [])
  ++ (if (action =s "runtime.http.request") && negb (is_some (text_at "url" resource))
         && negb (is_some (text_at "category" resource)) then ["resource.url_or_category"%string] else []).

Definition normalizeStructured (input : RuntimeCheckInput) : NormalizedRuntimeRequest :=
  let resource := mergeResource (rci_resource input ?? []) in
  let payment := rci_payment input ?? [] in
  let tool := rci_tool input ?? [] in
  let context := put_nonempty "tool" tool (put_nonempty "payment" payment
    (put_nonempty "resource" resource (rci_context input ?? []))) in
  match opt_string_value (rci_action input) with
  | None => mkNormalized false None context ["action"%string]
  | Some action =>
      let fields := missing_fields action resource payment tool in
      mkNormalized (bool_decide (fields = [])) (Some action) context fields
  end.

Definition normalizeIntent (intent : string) : NormalizedRuntimeRequest :=
  let l := lower intent in
  let context := [("intent", JStr intent)]%string in
  if includes "weather" l then
    mkNormalized true (Some "runtime.http.request"%string)
      (context ++ [("resource", JObj [("category", JStr "weather")])]%string) []
  else if includes "x402" l || includes "paid" l || includes "payment" l then
    mkNormalized false (Some "payment.x402.authorize"%string) context
      ["resource.url"; "payment.amount"; "payment.asset"; "payment.network"; "payment.recipient"]%string
  else if includes "tool" l then mkNormalized false (Some "tool.call"%string) context ["tool.name"%string]
  else mkNormalized false None context ["action"%string].

Definition normalizeRuntimeCheck (input : RuntimeCheckInput) : NormalizedRuntimeRequest :=
  match opt_string_value (rci_intent input), opt_string_value (rci_action input) with
  | Some intent, None => normalizeIntent intent
  | _, _ => normalizeStructured input
  end.

(** ** Authentication *)

Definition authenticateRuntimeConnection (token : string) : M ConnectionAuthResult :=
  let* auth := authenticateConnection token in
  let* auth := some_or auth (IdentityError "invalid_connection" 401) in
  let* org := select_one T_orgs (fun o => org_id o =s auth_org_id auth) in
  throw_if (match org with Some o => org_frozen o | None => false end) (IdentityError "org_frozen" 403) ;;*
  ret auth.

Definition runtimeContractVersion : string := "2026-07-12.1".
Definition runtimeActionIds : list string := ["runtime.http.request"; "payment.x402.authorize"; "tool.call"]%string.

Definition runtime_activity (auth : ConnectionAuthResult) (decisionId approvalId : option string) (action : string)
    (outcome : ActivityOutcome) (summary : string) (payload : entries) : ActivityInput :=
  mkActivityInput (auth_org_id auth) (Some (auth_agent_id auth)) (Some (auth_connection_id auth)) decisionId approvalId
    Activity_runtime action outcome summary (Some (JObj payload)).

(** The contract it answers with is constant but for the agent. *)
Definition onboardRuntime (auth : ConnectionAuthResult) : M (string * string) :=
  let* agent := select_one T_agents (fun a => (ag_org_id a =s auth_org_id auth) && (ag_id a =s auth_agent_id auth)) in
  let* agent := some_or agent notFound in
  recordActivity (runtime_activity auth None None "runtime.onboarded" Act_success "Runtime contract issued"
    [("contract_version", JStr runtimeContractVersion)]%string) ;;*
  completeProductOnboardingFlow (auth_org_id auth) "runtime_test" (JObj
    [("agent_id", JStr (auth_agent_id auth)); ("connection_id", JStr (auth_connection_id auth));
     ("source", JStr "runtime_onboarded")]%string) ;;*
  ret (ag_id agent, ag_name agent).

(** ** Checks *)

(** [needs_more_info] is the decision [None]. *)
Record RuntimeDecisionResponse : Type := mkRuntimeDecisionResponse {
  rdr_id : option string;
  rdr_decision : option PolicyDecisionValue;
  rdr_reasonCode : string;
  rdr_matched : list PolicyDecisionMatch;
  rdr_approvalId : option string;
  rdr_missingFields : list string;
  rdr_action : option string;
  rdr_context : entries
}.

Definition check_outcome (d : PolicyDecisionValue) : ActivityOutcome :=
  match d with deny => Act_denied | approval_required => Act_pending | _ => Act_success end.

Definition connection_operator (auth : ConnectionAuthResult) : OperatorContext :=
  mkOperatorContext (auth_connection_id auth) Role_member None (Some (auth_org_id auth)).

(** The check of an action that names all its facts. *)
Definition check_facts (auth : ConnectionAuthResult) (action : string) (context : entries) : M RuntimeDecisionResponse :=
  let* decision := checkPolicyDecision (connection_operator auth) (auth_org_id auth)
    (mkPolicyDecisionRequest "connection" (Some (auth_connection_id auth)) None action Target_agent
       (Some (auth_agent_id auth)) (JObj context)) in
  let result := rd_result decision in
  let* approvalId :=
    (if bool_decide (pr_decision result = approval_required) then
       let* approval := createApprovalRequest (mkCreateApprovalInput (auth_org_id auth) (auth_agent_id auth)
         (auth_connection_id auth) (rd_id decision) action Target_agent (Some (auth_agent_id auth)) (JObj context) None) in
       ret (Some (ap_id (ar_row approval)))
     else ret None) in
  let* activity := recordActivity (runtime_activity auth (Some (rd_id decision)) approvalId "runtime.check"
    (check_outcome (pr_decision result)) ("Runtime check " +:+ PolicyDecisionValue_text (pr_decision result))
    [("action", JStr action); ("decision", JStr (PolicyDecisionValue_text (pr_decision result)))]%string) in
  ret (mkRuntimeDecisionResponse (Some (rd_id decision)) (Some (pr_decision result)) (pr_reasonCode result)
    (pr_matched result) approvalId [] (Some action) (put "activity_id" (JStr (act_id activity)) context)).

Definition checkRuntimePolicy (auth : ConnectionAuthResult) (input : RuntimeCheckInput) : M RuntimeDecisionResponse :=
  let normalized := normalizeRuntimeCheck input in
  throw_if (match nz_action normalized with Some a => negb (mem a runtimeActionIds) | None => false end)
    (IdentityError "unsupported_runtime_action" 400) ;;*
  match nz_ok normalized, nz_action normalized with
  | true, Some action => check_facts auth action (nz_context normalized)
  | _, _ =>
      let* activity := recordActivity (runtime_activity auth None None "runtime.check.needs_more_info" Act_pending
        "Runtime check needs more information"
        [("action", jopt (nz_action normalized));
         ("missing_fields", JArr (map JStr (nz_missingFields normalized)))]%string) in
      ret (mkRuntimeDecisionResponse None None "runtime_needs_more_info" [] None (nz_missingFields normalized)
        (nz_action normalized) (put "activity_id" (JStr (act_id activity)) (nz_context normalized)))
  end.
End Runtime.
