(* ===== verification/Operations.v ===== *)
(** Operational controls ([operations/store.ts]): the emergency stop, the tool
    catalogue, rate limits, and the check of an operation against the policies
    and the limits.

    A check is a sequence of transactions; the counter of a rate limit is
    incremented by one statement, so concurrent checks count one after the
    other. *)

From S2P Require Import Prelude Errors Usdc Identity Json Policy Quotes PaidHttp Schema Host AuditLog PolicyStore Approvals IdentityStore Prepare Runtime.
Import Digits.
Open Scope Z_scope.

(** ** The context of an operation *)

Definition supportedOperationalActions : list string := ["runtime.http.request"; "tool.call"]%string.

Definition object_at (k : string) (es : entries) : entries :=
  match lookup_key k es with JObj e => e | JInst e => e | JDate _ => [] | _ => [] end.
Definition toolFromContext (context : entries) : entries := object_at "tool" context.
Definition resourceFromContext (context : entries) : entries := object_at "resource" context.

Definition first_text (a b : option string) : option string := match a with Some _ => a | None => b end.

Definition toolName (context : entries) : option string := text_at "name" (toolFromContext context).
Definition toolRiskLevel (context : entries) : option string :=
  first_text (text_at "riskLevel" (toolFromContext context)) (text_at "risk_level" (toolFromContext context)).
Definition resourceLabel (context : entries) : option string :=
  let resource := resourceFromContext context in
  first_text (text_at "url" resource) (first_text (text_at "domain" resource) (text_at "category" resource)).
Definition resourceDomain (context : entries) : option string := text_at "domain" (resourceFromContext context).
Definition resourceCategory (context : entries) : option string := text_at "category" (resourceFromContext context).

(** What a rate limit counts: a tool, or a place on the network. *)
Definition operationBucket (action : string) (context : entries) : string :=
  if action =s "tool.call" then "tool:" +:+ (toolName context ?? "unknown"%string) else
  let resource := resourceFromContext context in
  "resource:" +:+ (first_text (text_at "domain" resource)
    (first_text (text_at "category" resource) (text_at "url" resource)) ?? "unknown"%string).

Definition validateOperationalInput (action : string) (context : entries) : M unit :=
  throw_if (negb (mem action supportedOperationalActions)) (badRequest "unsupported_operational_action") ;;*
  throw_if ((action =s "tool.call") && negb (is_some (toolName context))) (badRequest "operation_needs_more_info") ;;*
  throw_if ((action =s "runtime.http.request") && negb (is_some (text_at "url" (resourceFromContext context)))
    && negb (is_some (resourceCategory context))) (badRequest "operation_needs_more_info").

Section Context.
Context `{UrlParser}.

(** The domain the caller gives stands before the host of the URL. *)
Definition normalizedContext (context resource tool : option entries) : entries :=
  let resource := resource ?? [] in
  let url := text_at "url" resource in
  let domain := first_text (text_at "domain" resource) (domainFromUrl url) in
  put_nonempty "tool" (tool ?? [])
    (put_nonempty "resource" (put_some "domain" domain (put_some "url" url resource)) (context ?? [])).
End Context.

(** ** Decisions *)

(** [PolicyDecisionValue | 'rate_limited']. *)
Inductive OperationalDecision : Type := By_policy (d : PolicyDecisionValue) | Rate_limited.
#[export] Instance OperationalDecision_eq_dec : EqDecision OperationalDecision.
Proof. solve_decision. Defined.
Definition OperationalDecision_text (d : OperationalDecision) : string :=
  match d with By_policy d => PolicyDecisionValue_text d | Rate_limited => "rate_limited" end.

Definition operation_activity_outcome (d : OperationalDecision) : ActivityOutcome :=
  match d with
  | By_policy deny | Rate_limited => Act_denied
  | By_policy approval_required => Act_pending
  | _ => Act_success
  end.
Definition operation_audit_outcome (d : OperationalDecision) : AuditOutcome :=
  match d with
  | By_policy deny | Rate_limited => Outcome_denied
  | By_policy approval_required => Outcome_pending
  | _ => Outcome_success
  end.
Definition operationSummary (d : OperationalDecision) : string :=
  match d with
  | Rate_limited => "Operation check rate-limited"
  | By_policy d => "Operation check " +:+ PolicyDecisionValue_text d
  end.

Definition getAgentScope (orgId agentId : string) : M (string * string) :=
  let* row := select_one T_agents (fun a => (ag_org_id a =s orgId) && (ag_id a =s agentId)) in
  let* row := some_or row notFound in
  ret (ag_id row, ag_team_id row).

Definition assertConnectionBelongsToAgent (orgId agentId connectionId : string) : M unit :=
  let* rows := select T_connections (fun c => (cn_org_id c =s orgId) && (cn_agent_id c =s agentId)
    && (cn_id c =s connectionId) && (cn_status c =s "active")) in
  throw_if (negb (bool_decide (length rows = 1%nat))) notFound.

(** ** Rate limits *)

Record RateLimitInput : Type := mkRateLimitInput {
  li_action : string;
  li_agentId : string;
  li_bucket : string;
  li_connectionId : option string;
  li_orgId : string;
  li_teamId : string
}.

Definition targetCandidates (i : RateLimitInput) : list (PolicyTargetType * string) :=
  List.filter (fun c => negb (snd c =s ""))
    [(Target_connection, li_connectionId i ?? ""%string); (Target_agent, li_agentId i); (Target_team, li_teamId i);
     (Target_org, li_orgId i)].

Definition applicable (i : RateLimitInput) (r : RateLimitRow) : bool :=
  (rl_org_id r =s li_orgId i) && (rl_action_id r =s li_action i) && bool_decide (rl_status r = Limit_active)
  && ((rl_bucket r =s li_bucket i) || (rl_bucket r =s "default"))
  && bool_decide ((rl_target_type r, rl_target_id r) ∈ targetCandidates i).

Definition target_rank (t : PolicyTargetType) : Z :=
  match t with Target_connection => 1 | Target_agent => 2 | Target_team => 3 | Target_org => 4 end.
Definition limit_key (i : RateLimitInput) (r : RateLimitRow) : Z :=
  10 * target_rank (rl_target_type r) + (if rl_bucket r =s li_bucket i then 1 else 2).
Definition limit_le (i : RateLimitInput) (a b : RateLimitRow) : bool :=
  (limit_key i a <? limit_key i b)
  || ((limit_key i a =? limit_key i b) && (rl_created_at a <=? rl_created_at b)).

(** The limit of the narrowest target, of the bucket itself before the default
    one. *)
Definition selected_limit (i : RateLimitInput) : M (option RateLimitRow) :=
  let* rows := select T_operational_rate_limits (applicable i) in
  ret (head (sort_by (limit_le i) rows)).

Definition window_start (now seconds : Z) : Z := now / (seconds * 1000) * (seconds * 1000).

Definition counter_of (limit : RateLimitRow) (i : RateLimitInput) (connectionId : string) (start now : Z) : RateCounterRow :=
  mkRateCounterRow (li_orgId i) (rl_id limit) (li_agentId i) connectionId (li_action i) (li_bucket i) start 1 now.

(** [INSERT ... ON CONFLICT DO UPDATE SET count = count + 1 RETURNING count]. *)
Definition count_operation (fresh : RateCounterRow) : M Z :=
  let* row := upsert T_operational_rate_counters (rate_counter_clash fresh) fresh
    (fun r => set_rc_count (rc_count r + 1) (set_rc_updated_at (rc_updated_at fresh) r)) in
  ret (option_map rc_count row ?? 1).

(** [Some] when the limit is exceeded. *)
Definition applyRateLimit (i : RateLimitInput) : M (option RateLimitRow) :=
  match li_connectionId i with
  | None => ret None
  | Some connectionId =>
      let* limit := selected_limit i in
      match limit with
      | None => ret None
      | Some limit =>
          let* now := get_now in
          let* count := count_operation (counter_of limit i connectionId (window_start now (rl_window_seconds limit)) now) in
          ret (if count <=? rl_limit_count limit then None else Some limit)
      end
  end.

Definition rate_explanation (limit : RateLimitRow) : string :=
  "Operation exceeded " +:+ to_string (rl_limit_count limit) +:+ " request"
  +:+ (if rl_limit_count limit =? 1 then "" else "s") +:+ " per " +:+ to_string (rl_window_seconds limit) +:+ " seconds.".

Section Store.
Context `{Collation} `{Sha256} `{NodeProcess} `{UrlParser}.

Record OperationalDecisionInput : Type := mkOperationalDecisionInput {
  oi_orgId : string;
  oi_agentId : string;
  oi_connectionId : option string;
  oi_action : string;
  oi_decision : OperationalDecision;
  oi_reasonCode : string;
  oi_explanation : string;
  oi_context : entries;
  oi_matched : list PolicyDecisionMatch;
  oi_policyDecisionId : option string;
  oi_approvalId : option string
}.

Definition operation_event (i : OperationalDecisionInput) (operationId : string) : RecordAuditEventInput :=
  {| in_orgId := oi_orgId i; in_idempotencyKey := Some ("operation.checked:" +:+ operationId)%string;
     in_eventType := "operation.checked"; in_occurredAt := None;
     in_actor_type := (match oi_connectionId i with None => Actor_system | Some _ => Actor_connection end);
     in_actor_id := oi_connectionId i; in_action := "operation.checked";
     in_outcome := operation_audit_outcome (oi_decision i); in_reasonCode := Some (oi_reasonCode i);
     in_resource := Some ("operational_decision"%string, operationId);
     in_classification := mkAuditClassification (Some Domain_policy) (Some Category_runtime)
       (Some (match oi_decision i with By_policy deny | Rate_limited => Severity_warning | _ => Severity_info end))
       (Some ["section_5"; "operation"]%string);
     in_relations := mkAuditRelations (Some (oi_agentId i)) None (oi_connectionId i) None None None;
     in_requestId := None; in_source := mkAuditSource (Some "section_5"%string) (Some "operations"%string) None;
     in_refs := mkAuditRefs None (oi_policyDecisionId i) (oi_approvalId i);
     in_externalRefs := None; in_retentionClass := None;
     in_payload := Some (JObj [("action", JStr (oi_action i));
       ("decision", JStr (OperationalDecision_text (oi_decision i)));
       ("matched", JArr (map match_json (oi_matched i)))]%string) |}.

Definition insertOperationalDecision (i : OperationalDecisionInput) : M OperationalDecisionRow :=
  withTransaction (
    let* operationId := prefixedId "opdec" in
    let* activity := recordActivity (mkActivityInput (oi_orgId i) (Some (oi_agentId i)) (oi_connectionId i)
      (oi_policyDecisionId i) (oi_approvalId i) Activity_operation "operation.check"
      (operation_activity_outcome (oi_decision i)) (operationSummary (oi_decision i))
      (Some (JObj [("action", JStr (oi_action i)); ("decision", JStr (OperationalDecision_text (oi_decision i)));
         ("reason_code", JStr (oi_reasonCode i)); ("resource", JObj (resourceFromContext (oi_context i)));
         ("tool", JObj (toolFromContext (oi_context i)))]%string))) in
    let* audit := recordAuditEvent (operation_event i operationId) in
    let* now := get_now in
    let row :=
      {| od_id := operationId; od_org_id := oi_orgId i; od_agent_id := oi_agentId i;
         od_connection_id := oi_connectionId i; od_policy_decision_id := oi_policyDecisionId i;
         od_approval_id := oi_approvalId i; od_action_id := oi_action i;
         od_decision := OperationalDecision_text (oi_decision i); od_reason_code := oi_reasonCode i;
         od_explanation := oi_explanation i; od_tool_name := toolName (oi_context i);
         od_tool_risk_level := toolRiskLevel (oi_context i); od_resource_label := resourceLabel (oi_context i);
         od_resource_domain := resourceDomain (oi_context i); od_resource_category := resourceCategory (oi_context i);
         od_context := JObj (oi_context i); od_created_at := now; od_audit_event_id := Some (ae_id audit);
         od_activity_id := Some (act_id activity) |} in
    insert T_operational_decisions row ;;*
    ret row).

(** ** Checks and records *)

Record OperationCheckInput : Type := mkOperationCheckInput {
  oc_agent_id : string;
  oc_connection_id : option string;
  oc_action : string;
  oc_resource : option entries;
  oc_tool : option entries;
  oc_context : option entries
}.

Definition operation_request (operator : OperatorContext) (input : OperationCheckInput) (context : entries) :
    PolicyDecisionRequest :=
  match oc_connection_id input with
  | None => mkPolicyDecisionRequest "user" (Some (op_actorId operator)) (Some (op_role operator)) (oc_action input)
      Target_agent (Some (oc_agent_id input)) (JObj context)
  | Some c => mkPolicyDecisionRequest "connection" (Some c) (Some Role_member) (oc_action input) Target_agent
      (Some (oc_agent_id input)) (JObj context)
  end.

Definition checkOperation (operator : OperatorContext) (orgId : string) (input : OperationCheckInput) :
    M OperationalDecisionRow :=
  let context := normalizedContext (oc_context input) (oc_resource input) (oc_tool input) in
  validateOperationalInput (oc_action input) context ;;*
  let* agent := getAgentScope orgId (oc_agent_id input) in
  match oc_connection_id input with
  | Some c => assertConnectionBelongsToAgent orgId (oc_agent_id input) c
  | None => ret tt
  end ;;*
  let* policyDecision := checkPolicyDecision operator orgId (operation_request operator input context) in
  let result := rd_result policyDecision in
  let* rateLimited :=
    (if bool_decide (pr_decision result = allow) || bool_decide (pr_decision result = observe) then
       applyRateLimit (mkRateLimitInput (oc_action input) (oc_agent_id input) (operationBucket (oc_action input) context)
         (oc_connection_id input) orgId (snd agent))
     else ret None) in
  let decision := match rateLimited with None => By_policy (pr_decision result) | Some _ => Rate_limited end in
  let* approvalId :=
    match bool_decide (decision = By_policy approval_required), oc_connection_id input with
    | true, Some c =>
        let* approval := createApprovalRequest (mkCreateApprovalInput orgId (oc_agent_id input) c (rd_id policyDecision)
          (oc_action input) Target_agent (Some (oc_agent_id input)) (JObj context) None) in
        ret (Some (ap_id (ar_row approval)))
    | _, _ => ret None
    end in
  insertOperationalDecision (mkOperationalDecisionInput orgId (oc_agent_id input) (oc_connection_id input)
    (oc_action input) decision
    (match rateLimited with None => pr_reasonCode result | Some _ => "operation_rate_limited"%string end)
    (match rateLimited with None => pr_explanation result | Some limit => rate_explanation limit end)
    context (pr_matched result) (Some (rd_id policyDecision)) approvalId).

Definition checkRuntimeOperation (auth : ConnectionAuthResult) (action : string) (resource tool context : option entries) :
    M OperationalDecisionRow :=
  checkOperation (connection_operator auth) (auth_org_id auth)
    (mkOperationCheckInput (auth_agent_id auth) (Some (auth_connection_id auth)) action resource tool context).

Definition recordOperation (orgId : string) (input : OperationCheckInput) (summary : string)
    (outcome : option ActivityOutcome) : M ActivityRow :=
  let context := normalizedContext (oc_context input) (oc_resource input) (oc_tool input) in
  validateOperationalInput (oc_action input) context ;;*
  getAgentScope orgId (oc_agent_id input) ;;*
  match oc_connection_id input with
  | Some c => assertConnectionBelongsToAgent orgId (oc_agent_id input) c
  | None => ret tt
  end ;;*
  recordActivity (mkActivityInput orgId (Some (oc_agent_id input)) (oc_connection_id input) None None Activity_operation
    "operation.recorded" (outcome ?? Act_success) summary
    (Some (JObj [("action", JStr (oc_action input)); ("resource", JObj (resourceFromContext context));
                 ("tool", JObj (toolFromContext context))]%string))).

Definition recordRuntimeOperation (auth : ConnectionAuthResult) (action summary : string)
    (outcome : option ActivityOutcome) (resource tool context : option entries) : M ActivityRow :=
  recordOperation (auth_org_id auth)
    (mkOperationCheckInput (auth_agent_id auth) (Some (auth_connection_id auth)) action resource tool context)
    summary outcome.

(** [ORDER BY created_at DESC, id DESC LIMIT limit]. *)
Definition newest (limit : option Z) (default : Z) (rows : list OperationalDecisionRow) : list OperationalDecisionRow :=
  firstn (Z.to_nat (Z.min (Z.max (limit ?? default) 1) 200))
    (sort_by (fun a b => le_time_id (od_created_at b, od_id b) (od_created_at a, od_id a)) rows).

Definition given (filter : option string) (column : string) : bool :=
  match filter with Some v => column =s v | None => true end.

Definition listBlockedOperations (orgId : string) (agentId : option string) (limit : option Z) :
    M (list OperationalDecisionRow) :=
  let* rows := select T_operational_decisions (fun r => (od_org_id r =s orgId)
    && mem (od_decision r) ["deny"; "rate_limited"]%string && given agentId (od_agent_id r)) in
  ret (newest limit 50 rows).

Definition listOperationDecisions (orgId : string) (agentId action decision : option string) (limit : option Z) :
    M (list OperationalDecisionRow) :=
  let* rows := select T_operational_decisions (fun r => (od_org_id r =s orgId) && given agentId (od_agent_id r)
    && given action (od_action_id r) && given decision (od_decision r)) in
  ret (newest limit 100 rows).

(** ** The emergency stop *)

Definition freeze_event (operator : OperatorContext) (orgId action key : string) (severity : AuditSeverity)
    (payload : option json) : RecordAuditEventInput :=
  {| in_orgId := orgId; in_idempotencyKey := Some key; in_eventType := action; in_occurredAt := None;
     in_actor_type := Actor_user; in_actor_id := Some (op_actorId operator); in_action := action;
     in_outcome := Outcome_success; in_reasonCode := None; in_resource := Some ("org"%string, orgId);
     in_classification := mkAuditClassification (Some Domain_system) (Some Category_security) (Some severity)
       (Some ["emergency_stop"; "org_frozen"]%string);
     in_relations := no_relations; in_requestId := None; in_source := no_source; in_refs := no_refs;
     in_externalRefs := None; in_retentionClass := None; in_payload := payload |}.

Definition freezeOrg (operator : OperatorContext) (orgId reason : string) : M OrgRow :=
  withTransaction (
    let* now := get_now in
    let* updated := update T_orgs (fun o => org_id o =s orgId)
      (fun o => set_org_frozen true (set_org_frozen_reason (Some reason) (set_org_frozen_at (Some now)
        (set_org_frozen_by (Some (op_actorId operator)) o)))) in
    let* row := some_or (head updated) notFound in
    recordAuditEvent (freeze_event operator orgId "org.freeze.enabled"
      ("org.freeze.enabled:" +:+ orgId +:+ ":" +:+ toISOString now) Severity_warning
      (Some (JObj [("reason", JStr reason)]%string))) ;;*
    ret row).

Definition unfreezeOrg (operator : OperatorContext) (orgId : string) : M OrgRow :=
  withTransaction (
    let* updated := update T_orgs (fun o => org_id o =s orgId)
      (fun o => set_org_frozen false (set_org_frozen_reason None (set_org_frozen_at None (set_org_frozen_by None o)))) in
    let* row := some_or (head updated) notFound in
    let* key := prefixedId "unfreeze" in
    recordAuditEvent (freeze_event operator orgId "org.freeze.disabled"
      ("org.freeze.disabled:" +:+ orgId +:+ ":" +:+ key) Severity_info None) ;;*
    ret row).

(** ** Tools *)

Record ImportToolInput : Type := mkImportToolInput {
  it_name : string;
  it_display_name : option string;
  it_category : option string;
  it_risk_level : option ToolRiskLevel;
  it_description : option string;
  it_metadata : option json
}.

Definition import_tool (orgId : string) (records : list ToolCatalogRow) (tool : ImportToolInput) : M (list ToolCatalogRow) :=
  let* id := prefixedId "tool" in
  let* now := get_now in
  let name := trim (it_name tool) in
  let row := mkToolCatalogRow id orgId name (or_else (option_map trim (it_display_name tool)) name)
    (or_else (option_map trim (it_category tool)) "tool") (it_risk_level tool ?? Risk_medium)
    (option_map trim (it_description tool) ?? ""%string) Tool_import Catalog_active (it_metadata tool ?? JObj []) now now in
  let* row := upsert T_tool_catalog (fun r => (tool_org_id r =s orgId) && (tool_name r =s name)) row
    (fun r => set_tool_display_name (tool_display_name row) (set_tool_category (tool_category row)
      (set_tool_risk_level (tool_risk_level row) (set_tool_description (tool_description row)
      (set_tool_metadata (tool_metadata row) (set_tool_status Catalog_active (set_tool_updated_at now r))))))) in
  let* row := some_or row (PlainError "tool_import_failed") in
  ret (records ++ [row]).

Definition importTools (orgId : string) (tools : list ImportToolInput) : M (list ToolCatalogRow) :=
  withTransaction (for_each (import_tool orgId) tools []).

Definition listTools (orgId : string) : M (list ToolCatalogRow) :=
  let* rows := select T_tool_catalog (fun r => (tool_org_id r =s orgId) && bool_decide (tool_status r = Catalog_active)) in
  ret (sort_by (fun a b => String.leb (tool_name a) (tool_name b)) rows).

Record UpdateToolInput : Type := mkUpdateToolInput {
  ut_display_name : option string;
  ut_category : option string;
  ut_risk_level : option ToolRiskLevel;
  ut_description : option string;
  ut_metadata : option json
}.

Definition the_tool (orgId toolId : string) (r : ToolCatalogRow) : bool := (tool_org_id r =s orgId) && (tool_id r =s toolId).

Definition updateTool (orgId toolId : string) (input : UpdateToolInput) : M ToolCatalogRow :=
  let* existing := select_one T_tool_catalog (the_tool orgId toolId) in
  let* existing := some_or existing notFound in
  throw_if (bool_decide (tool_status existing = Catalog_archived)) (badRequest "tool_archived") ;;*
  let* now := get_now in
  let* updated := update T_tool_catalog (the_tool orgId toolId)
    (fun r => set_tool_display_name (or_else (option_map trim (ut_display_name input)) (tool_display_name existing))
      (set_tool_category (or_else (option_map trim (ut_category input)) (tool_category existing))
      (set_tool_risk_level (ut_risk_level input ?? tool_risk_level existing)
      (set_tool_description (option_map trim (ut_description input) ?? tool_description existing)
      (set_tool_metadata (match ut_metadata input with Some m => m | None => jsonObject (tool_metadata existing) end)
      (set_tool_updated_at now r)))))) in
  some_or (head updated) (PlainError "tool_update_failed").

Definition archiveTool (orgId toolId : string) : M ToolCatalogRow :=
  let* now := get_now in
  let* updated := update T_tool_catalog (the_tool orgId toolId)
    (fun r => set_tool_status Catalog_archived (set_tool_updated_at now r)) in
  some_or (head updated) notFound.

(** ** Configuration of rate limits *)

Record CreateRateLimitInput : Type := mkCreateRateLimitInput {
  cl_target_type : PolicyTargetType;
  cl_target_id : string;
  cl_action : string;
  cl_bucket : option string;
  cl_limit : Z;
  cl_window_seconds : Z
}.

(** The queries are those of the bindings of a policy. *)
Definition assertTargetExists : string -> PolicyTargetType -> string -> M unit := assertBindingTargetExists.

Definition createRateLimit (orgId : string) (input : CreateRateLimitInput) : M RateLimitRow :=
  assertTargetExists orgId (cl_target_type input) (cl_target_id input) ;;*
  let* action := select T_policy_action_registry (fun r => pa_action_id r =s cl_action input) in
  throw_if (negb (bool_decide (length action = 1%nat))) (badRequest "unknown_policy_action") ;;*
  let* id := prefixedId "oprl" in
  let* now := get_now in
  let row := mkRateLimitRow id orgId (cl_target_type input) (cl_target_id input) (cl_action input)
    (cl_bucket input ?? "default"%string) (cl_limit input) (cl_window_seconds input) Limit_active now in
  insert T_operational_rate_limits row ;;*
  ret row.

Record UpdateRateLimitInput : Type := mkUpdateRateLimitInput {
  ul_bucket : option string;
  ul_limit : option Z;
  ul_window_seconds : option Z;
  ul_status : option RateLimitStatus
}.

Definition the_limit (orgId rateLimitId : string) (r : RateLimitRow) : bool := (rl_org_id r =s orgId) && (rl_id r =s rateLimitId).

Definition updateRateLimit (orgId rateLimitId : string) (input : UpdateRateLimitInput) : M RateLimitRow :=
  let* existing := select_one T_operational_rate_limits (the_limit orgId rateLimitId) in
  let* existing := some_or existing notFound in
  let* updated := update T_operational_rate_limits (the_limit orgId rateLimitId)
    (fun r => set_rl_bucket (ul_bucket input ?? rl_bucket existing)
      (set_rl_limit_count (ul_limit input ?? rl_limit_count existing)
      (set_rl_window_seconds (ul_window_seconds input ?? rl_window_seconds existing)
      (set_rl_status (ul_status input ?? rl_status existing) r)))) in
  some_or (head updated) (PlainError "operational_rate_limit_update_failed").

Definition disableRateLimit (orgId rateLimitId : string) : M RateLimitRow :=
  updateRateLimit orgId rateLimitId (mkUpdateRateLimitInput None None None (Some Limit_disabled)).

(** Each limit with the newest of its counters. *)
Definition listRateLimits (orgId : string) : M (list (RateLimitRow * option RateCounterRow)) :=
  let* limits := select T_operational_rate_limits (fun r => rl_org_id r =s orgId) in
  let* counters := select T_operational_rate_counters (fun _ => true) in
  let newest_counter r := head (sort_by (fun a b => (rc_window_start b <? rc_window_start a)
      || ((rc_window_start b =? rc_window_start a) && (rc_updated_at b <=? rc_updated_at a)))
    (where_ (fun c => (rc_org_id c =s rl_org_id r) && (rc_rate_limit_id c =s rl_id r)) counters)) in
  let active r := bool_decide (rl_status r = Limit_active) in
  let le a b := le_time_id (rl_created_at b, rl_id b) (rl_created_at a, rl_id a) in
  ret (map (fun r => (r, newest_counter r))
    (sort_by le (where_ active limits) ++ sort_by le (where_ (fun r => negb (active r)) limits))).
End Store.
