(* ===== verification/Join.v ===== *)
(** How agents and people come in: invitations to join and open registration
    ([agent-join/store.ts]), sign-in and sessions ([auth/store.ts]).

    A redemption claims a use of the invitation in one transaction, on the row
    it locks, then creates the agent and its connection in transactions of
    their own, and gives the use back when that fails. *)

From S2P Require Import Prelude Errors Usdc Identity Json Policy Quotes PaidHttp Schema Host AuditLog PolicyStore Approvals IdentityStore Prepare Runtime.
Import Digits.
Open Scope Z_scope.

(** ** Invitations *)

(** [n.toString(36)] for [0 <= n]. *)
Definition digit36 (d : Z) : ascii := Ascii.ascii_of_nat (Z.to_nat (if d <? 10 then 48 + d else 87 + d)).
Fixpoint digits36 (fuel : nat) (n : Z) (acc : list ascii) : list ascii :=
  match fuel with
  | O => acc
  | S fuel => if n <? 36 then digit36 n :: acc else digits36 fuel (n / 36) (digit36 (n mod 36) :: acc)
  end.
Definition to_base36 (n : Z) : string := of_chars (digits36 (S (Z.to_nat (Z.log2 n))) n []).

Example base36_example : to_base36 1700000000000 = "loyw3v28"%string.
Proof. vm_compute. reflexivity. Qed.

Record AgentJoinResult : Type := mkAgentJoinResult {
  jr_agent_id : string;
  jr_org_id : string;
  jr_connection_id : string;
  jr_credential : string
}.

Inductive JoinMode : Type := Join_invite | Join_open.
Definition JoinMode_text (m : JoinMode) : string := match m with Join_invite => "invite" | Join_open => "open" end.

Definition join_invite_invalid : exn := IdentityError "join_invite_invalid" 401.
Definition join_invite_revoked : exn := IdentityError "join_invite_revoked" 410.
Definition join_invite_expired : exn := IdentityError "join_invite_expired" 410.
Definition join_invite_exhausted : exn := IdentityError "join_invite_exhausted" 410.

Section Join.
Context `{Collation} `{Sha256} `{NodeProcess} `{UrlParser}.

Definition hashToken (token : string) : string := sha256 token.

Definition joinOperator (orgId : string) (memberId : option string) : OperatorContext :=
  mkOperatorContext (or_else memberId ("system_join_" +:+ orgId)) Role_operator None (Some orgId).

Definition provisionJoinedAgent (orgId : string) (operator : OperatorContext) (name : string) (mode : JoinMode) :
    M AgentJoinResult :=
  let* agent := createAgent operator orgId
    {| ca_name := name; ca_team_id := None; ca_parent_agent_id := None;
       ca_description := Some (match mode with Join_open => "Open-join autonomous agent" | Join_invite => "Invite-join autonomous agent" end)%string;
       ca_labels := Some [match mode with Join_open => "open-join" | Join_invite => "invite-join" end]%string;
       ca_default_environment := None;
       ca_metadata := Some (JObj [("setup_mode", JStr "mcp"); ("joined_via", JStr (JoinMode_text mode));
         ("payment_access_default", JStr "disabled")]%string) |} in
  let* connection := createConnection operator orgId (ag_id agent) Kind_agent_credential (name +:+ " MCP") in
  let* secret := some_or (snd connection) (IdentityError "join_credential_missing" 500) in
  ret (mkAgentJoinResult (ag_id agent) orgId (cn_id (fst connection)) secret).

Definition createAgentJoinInvite (operator : OperatorContext) (orgId : string) (label : option string)
    (max_uses expires_in_hours : option Z) : M (JoinInviteRow * string) :=
  let* bytes := random_token 24 in
  let token := "ajoin_" +:+ bytes in
  let* id := prefixedId "ajoin" in
  let* now := get_now in
  let expiresAt := match expires_in_hours with
                   | Some hours => if 0 <? hours then Some (now + hours * 3600000) else None
                   | None => None
                   end in
  let row := mkJoinInviteRow id orgId (Some (op_actorId operator)) (hashToken token)
    (option_map trim label ?? ""%string) (max_uses ?? 1) 0 expiresAt None now in
  insert T_agent_join_invites row ;;*
  ret (row, token).

(** Newest first. *)
Definition listAgentJoinInvites (orgId : string) : M (list JoinInviteRow) :=
  let* rows := select T_agent_join_invites (fun r => inv_org_id r =s orgId) in
  ret (firstn 100 (sort_by (fun a b => inv_created_at b <=? inv_created_at a) rows)).

Definition revokeAgentJoinInvite (orgId inviteId : string) : M JoinInviteRow :=
  let* now := get_now in
  let* updated := update T_agent_join_invites
    (fun r => (inv_id r =s inviteId) && (inv_org_id r =s orgId) && negb (is_some (inv_revoked_at r)))
    (set_inv_revoked_at (Some now)) in
  some_or (head updated) (IdentityError "join_invite_not_found" 404).

(** The transaction of a redemption. *)
Definition claim_invite (token : string) : M JoinInviteRow :=
  withTransaction (
    let* row := select_one T_agent_join_invites (fun r => inv_token_hash r =s hashToken token) in
    let* row := some_or row join_invite_invalid in
    let* now := get_now in
    throw_if (is_some (inv_revoked_at row)) join_invite_revoked ;;*
    throw_if (match inv_expires_at row with Some e => e <=? now | None => false end) join_invite_expired ;;*
    throw_if (inv_max_uses row <=? inv_use_count row) join_invite_exhausted ;;*
    update T_agent_join_invites (fun r => inv_id r =s inv_id row) (fun r => set_inv_use_count (inv_use_count r + 1) r) ;;*
    ret row).

Definition give_back (inviteId : string) : M unit :=
  update T_agent_join_invites (fun r => inv_id r =s inviteId)
    (fun r => set_inv_use_count (Z.max (inv_use_count r - 1) 0) r) ;;*
  ret tt.

(** What follows the claim. *)
Definition provision_claimed (agent_name : option string) (row : JoinInviteRow) : M AgentJoinResult :=
  let* now := get_now in
  let name := or_else (option_map trim agent_name) ("joined-agent-" +:+ to_base36 now) in
  catch (provisionJoinedAgent (inv_org_id row) (joinOperator (inv_org_id row) (inv_created_by_member_id row)) name Join_invite)
    (fun e => give_back (inv_id row) ;;* throw e).

Definition redeemAgentJoinInvite (token : string) (agent_name : option string) : M AgentJoinResult :=
  let token := trim token in
  throw_if (Z.of_nat (String.length token) <? 16) join_invite_invalid ;;*
  let* row := claim_invite token in
  provision_claimed agent_name row.

(** ** Open registration *)

Record OpenJoinConfig : Type := mkOpenJoinConfig {
  oj_enabled : bool;
  oj_orgId : string;
  oj_maxPerFingerprintPerHour : Z;
  oj_maxPerOrgPerDay : Z
}.

Definition openRegisterAgent (agent_name client_fingerprint : option string) (config : OpenJoinConfig) : M AgentJoinResult :=
  throw_if (negb (oj_enabled config) || (oj_orgId config =s "")) (IdentityError "open_join_disabled" 403) ;;*
  let* org := select T_orgs (fun o => org_id o =s oj_orgId config) in
  throw_if (negb (bool_decide (length org = 1%nat))) (IdentityError "open_join_org_missing" 500) ;;*
  let fingerprint := slice (client_fingerprint ?? "anonymous"%string) 0 128 in
  let* now := get_now in
  let* lastHour := select T_agent_open_join_events (fun e => (oj_client_fingerprint e =s fingerprint)
    && (now - 3600000 <? oj_created_at e)) in
  throw_if (oj_maxPerFingerprintPerHour config <=? Z.of_nat (length lastHour)) (IdentityError "open_join_rate_limited" 429) ;;*
  let* lastDay := select T_agent_open_join_events (fun e => (oj_org_id e =s oj_orgId config)
    && (now - 86400000 <? oj_created_at e)) in
  throw_if (oj_maxPerOrgPerDay config <=? Z.of_nat (length lastDay)) (IdentityError "open_join_org_capped" 429) ;;*
  let name := or_else (option_map trim agent_name) ("open-agent-" +:+ to_base36 now) in
  let* joined := provisionJoinedAgent (oj_orgId config) (joinOperator (oj_orgId config) None) name Join_open in
  let* id := prefixedId "ajoinev" in
  insert T_agent_open_join_events (mkOpenJoinRow id (oj_orgId config) (jr_agent_id joined) fingerprint now) ;;*
  ret joined.

Definition publish_url_invalid : exn := IdentityError "publish_url_invalid" 400.

Definition publishAgentPublicEndpoint (auth : ConnectionAuthResult) (endpointUrl : string) : M (string * string) :=
  let url := trim endpointUrl in
  let* parsed := some_or (parse_url url) publish_url_invalid in
  throw_if ((u_protocol parsed <>s "https:") && (u_protocol parsed <>s "http:")) publish_url_invalid ;;*
  let* row := select_one T_agents (the_agent (auth_org_id auth) (auth_agent_id auth)) in
  let* row := some_or row (IdentityError "agent_not_found" 404) in
  let metadata := match ag_metadata row with JObj es => es | _ => [] end in
  let* now := get_now in
  updateAgent (joinOperator (auth_org_id auth) (Some (auth_connection_id auth))) (auth_org_id auth) (auth_agent_id auth)
    (mkUpdateAgentInput None None None None None None
       (Some (JObj (put "published_at" (JStr (toISOString now)) (put "published_via" (JStr "runtime_mcp")
          (put "setup_mode" (JStr "publish") (put "public_endpoint_url" (JStr url) metadata))))))) ;;*
  ret (auth_agent_id auth, url).

(** ** Sign-in *)

Record GoogleProfile : Type := mkGoogleProfile {
  gp_sub : string;
  gp_email : string;
  gp_email_verified : bool;
  gp_name : string;
  gp_picture : option string
}.

Definition SESSION_TTL_MS : Z := 1000 * 60 * 60 * 24 * 7.

Definition upsertGoogleUser (profile : GoogleProfile) : M UserRow :=
  let email := lower (gp_email profile) in
  let* userId := prefixedId "usr" in
  let* now := get_now in
  upsert_user (mkUserRow userId email (gp_name profile) (gp_picture profile) (Some now) now now)
    (fun u => set_usr_name (gp_name profile) (set_usr_avatar_url (gp_picture profile)
       (set_usr_last_seen_at (Some now) (set_usr_updated_at now u)))) ;;*
  let* user := user_by_email email in
  let* user := some_or user (PlainError "user_upsert_failed") in
  let* id := prefixedId "oauth" in
  upsert T_oauth_accounts (fun r => (oa_provider r =s "google") && (oa_provider_subject r =s gp_sub profile))
    (mkOauthAccountRow id (usr_id user) "google" (gp_sub profile) email (gp_email_verified profile) now now)
    (fun r => set_oa_user_id (usr_id user) (set_oa_email email (set_oa_email_verified (gp_email_verified profile)
       (set_oa_updated_at now r)))) ;;*
  ret user.

Definition createSession (userId : string) : M (string * Z * string) :=
  let* bytes := random_token 32 in
  let token := "sess_" +:+ bytes in
  let* now := get_now in
  let* sessionId := prefixedId "ses" in
  insert T_auth_sessions (mkSessionRow sessionId userId (hashToken token) (now + SESSION_TTL_MS) None None now) ;;*
  ret (token, now + SESSION_TTL_MS, sessionId).

Definition live_session (token : string) (now : Z) (s : SessionRow) : bool :=
  (ses_token_hash s =s hashToken token) && negb (is_some (ses_revoked_at s)) && (now <? ses_expires_at s).

Definition resolveSession (token : string) : M (option (string * UserRow)) :=
  let* now := get_now in
  let* sessions := select T_auth_sessions (live_session token now) in
  let* users := select T_users (fun _ => true) in
  match flat_map (fun s => map (fun u => (ses_id s, u)) (where_ (fun u => usr_id u =s ses_user_id s) users)) sessions with
  | [] => ret None
  | (sessionId, user) :: _ =>
      update T_auth_sessions (fun s => ses_id s =s sessionId) (set_ses_last_used_at (Some now)) ;;*
      ret (Some (sessionId, user))
  end.

Definition revokeSession (token : string) : M bool :=
  let* now := get_now in
  let* updated := update T_auth_sessions
    (fun s => (ses_token_hash s =s hashToken token) && negb (is_some (ses_revoked_at s))) (set_ses_revoked_at (Some now)) in
  ret (negb (bool_decide (length updated = 0%nat))).
End Join.
