(* ===== verification/Pay.v ===== *)
(** The x402 payment of the runtime ([payRuntimeX402] of [payments/store.ts]):
    the preflight, the submission to the provider and the phases from a
    request to its result. *)

From S2P Require Import Prelude Errors Usdc Json Identity Policy Quotes ResultCrypto PaidHttp Schema Host.
From S2P Require Import AuditLog AuditChain PolicyStore Approvals Attempts Accounts Prepare Settlement Liquidity.
Open Scope Z_scope.

(** ** Preflight *)

Definition recordPaidHttpPreflightRejection (auth : ConnectionAuthResult) (p : PreparedPaidHttpPayment)
    (reasonCode : string) : M unit :=
  recordRouteObservation (settled_observation auth p "rejected" reasonCode).

Definition liquidity_input (auth : ConnectionAuthResult) (p : PreparedPaidHttpPayment) : LiquidityInput :=
  mkLiquidityInput auth (pp_mode p) (pp_quote p) (pp_resource p) (pp_paymentInput p).

(** The error a job under way ends the payment with. *)
Definition liquidity_preparing {A} (auth : ConnectionAuthResult) (p : PreparedPaidHttpPayment)
    (create : M CircleProviderJobRow) : M A :=
  let* job := create in
  recordPaidHttpPreflightRejection auth p "liquidity_preparing" ;;*
  throw (PaymentLiquidityPreparingError (cpj_id job)).

Section Preflight.
Context `{Collation} `{Sha256} `{TreasuryBalances}.

Definition exact_available (auth : ConnectionAuthResult) (p : PreparedPaidHttpPayment) : M Z :=
  let* balances := listCircleBalances (auth_org_id auth) in
  ret (match balance_of (q_chain (pp_quote p)) balances with Some b => walletUsdcMicros b | None => 0 end).

Definition check_exact_funds (auth : ConnectionAuthResult) (p : PreparedPaidHttpPayment) : M unit :=
  let* availableMicros := catch (exact_available auth p) (fun _ =>
    recordPaidHttpPreflightRejection auth p "wallet_balance_check_failed" ;;*
    throw (conflict "wallet_balance_check_failed")) in
  if availableMicros <? q_amountMicros (pp_quote p) then
    recordPaidHttpPreflightRejection auth p "exact_wallet_below_request" ;;*
    liquidity_preparing auth p (createExactLiquidityPreparationJob (liquidity_input auth p))
  else ret tt.

(** The depositor and what it holds at the gateway. *)
Definition gateway_funds (auth : ConnectionAuthResult) (p : PreparedPaidHttpPayment) : M (string * Z) :=
  let chain := q_chain (pp_quote p) in
  let* chainWallet := activeCircleWallet (auth_org_id auth) (pp_mode p) chain in
  let depositor := resolveGatewayDepositorAddress (ccw_address chainWallet) (ccw_metadata chainWallet) in
  fun w => match gateway_available w depositor chain (pp_mode p) with
           | None => (Err (PlainError "gateway_balance_unavailable"), w)
           | Some available =>
               match parseUsdcMicros available with
               | Ok micros => (Ok (depositor, micros), w)
               | Err e => (Err e, w)
               end
           end.

Definition check_gateway_funds (auth : ConnectionAuthResult) (p : PreparedPaidHttpPayment) : M string :=
  let* (depositor, availableMicros) := catch (gateway_funds auth p) (fun _ =>
    recordPaidHttpPreflightRejection auth p "gateway_balance_check_failed" ;;*
    liquidity_preparing auth p
      (createGatewayLiquidityPreparationJob (liquidity_input auth p) "gateway_balance_unavailable")) in
  if availableMicros <? q_amountMicros (pp_quote p) then
    recordPaidHttpPreflightRejection auth p "insufficient_gateway_chain_balance" ;;*
    liquidity_preparing auth p
      (createGatewayLiquidityPreparationJob (liquidity_input auth p) "gateway_bucket_below_request")
  else ret depositor.

Definition assertPaidHttpPreSubmitReady (auth : ConnectionAuthResult) (p : PreparedPaidHttpPayment) :
    M (option string) :=
  let kind := q_settlementKind (pp_quote p) in
  let provider := psrc_provider (pp_source p) in
  if is_simulation (pp_source p) then ret None else
  assertRailReady (pp_mode p) (pp_quote p) ;;*
  (if bool_decide (kind = direct_exact) && bool_decide (provider = Provider_circle_wallets)
   then check_exact_funds auth p else ret tt) ;;*
  if bool_decide (kind = gateway) && bool_decide (provider = Provider_circle_gateway)
  then let* depositor := check_gateway_funds auth p in ret (Some depositor)
  else ret None.
End Preflight.

Definition markPaidHttpAttemptRetryable (auth : ConnectionAuthResult) (attemptId reason : string) : M unit :=
  let* now := get_now in
  update T_runtime_payment_attempts
    (fun r => the_attempt (auth_org_id auth) (auth_connection_id auth) attemptId r
              && bool_decide (att_status r = Attempt_reserved))
    (add_metadata (mkX402PaymentMetadata None None None None None None None (Some reason) None None) now) ;;*
  ret tt.

(** ** The provider *)

Record SettleX402Input : Type := mkSettleX402Input {
  sx_attemptId : string;
  sx_destination : ValidatedPaidHttpDestination;
  sx_mode : PaymentMode;
  sx_payerAddress : option string;
  sx_request : PaidHttpRequest;
  sx_resource : json;
  sx_requirements : CircleGatewayX402Requirements;
  sx_walletAddress : option string;
  sx_walletId : option string
}.

(** [settleGatewayX402] and [settleExactX402] of the provider: a result, or an
    error with its message and whether it is classified
    [ambiguous_post_submit]; and the debug record the result carries. *)
Class X402Settler : Type := {
  settle_x402 : World -> SettlementKind -> SettleX402Input -> RuntimeX402SettlementResult + string * bool;
  takeCircleProviderPaidRequestDebug : RuntimeX402SettlementResult -> option json
}.

Definition settle_service (kind : SettlementKind) : string :=
  match kind with gateway => "settleGatewayX402" | direct_exact => "settleExactX402" end.

(** The call leaves the process whatever it answers. *)
Definition settle_call `{X402Settler} (kind : SettlementKind) (input : SettleX402Input) :
    M RuntimeX402SettlementResult := fun w =>
  let w' := mkWorld (w_db w) (w_now w) (w_next w)
              (w_calls w ++ [mkExternalCall (settle_service kind) [sx_attemptId input]]) in
  (match settle_x402 w kind input with
   | inl s => Ok s
   | inr (message, ambiguous) => Err (ProviderError message ambiguous)
   end, w').

Definition entry_text (es : list (string * json)) (key : string) : list (string * json) :=
  match stringValue (lookup_key key es) with Some s => [(key, JStr s)] | None => [] end.

Definition is_text (j : json) : bool := match j with JStr _ => true | _ => false end.

Definition x402ProviderResource (input : RuntimeX402PaymentInput) : Res json :=
  let resource := pi_resource input ?? [] in
  match stringValue (lookup_key "url" resource) with
  | None => Err (conflict "payment_attempt_state_conflict")
  | Some url =>
      let tags := match lookup_key "tags" resource with
                  | JArr l => if forallb is_text l then [("tags", JArr l)]%string else []
                  | _ => []
                  end in
      Ok (JObj ([("url", JStr url)]%string ++ entry_text resource "description" ++ entry_text resource "mimeType"
        ++ entry_text resource "serviceName" ++ tags ++ entry_text resource "iconUrl"))
  end.

(** [error.message]; the only [IdentityError] raised around a provider call is
    that of [x402ProviderResource]. *)
Definition settlement_error_code (e : exn) : string :=
  match e with
  | ProviderError m _ | PlainError m => m
  | IdentityError _ _ => "The x402 payment quote is missing its resource URL."
  | _ => "payment_provider_failed"
  end.
Definition ambiguous_post_submit (e : exn) : bool :=
  match e with ProviderError _ a => a | _ => false end.

Definition failed_settlement (p : PreparedPaidHttpPayment) (e : exn) : RuntimeX402SettlementResult :=
  let errorCode := settlement_error_code e in
  let network := q_x402Network (pp_quote p) in
  {| sr_payment := Some (mkCircleProviderPayment
       (if ambiguous_post_submit e then Paid_unknown else Paid_failed) None None network None (Some errorCode));
     sr_response := None; sr_errorReason := Some errorCode; sr_network := network;
     sr_providerMode := PaymentMode_text (pp_mode p); sr_success := false |}.

Definition simulated_settlement (p : PreparedPaidHttpPayment) : RuntimeX402SettlementResult :=
  let network := q_x402Network (pp_quote p) in
  {| sr_payment := Some (mkCircleProviderPayment Paid_settled None None network None None);
     sr_response := None; sr_errorReason := None; sr_network := network;
     sr_providerMode := "simulation"; sr_success := true |}.

Section Submit.
Context `{X402Settler}.

Definition submit_to_provider (request : PaidHttpRequest) (p : PreparedPaidHttpPayment)
    (payerAddress : option string) : M RuntimeX402SettlementResult :=
  if is_simulation (pp_source p) then ret (simulated_settlement p) else
  catch
    (let* resource := lift (x402ProviderResource (pp_paymentInput p)) in
     settle_call (q_settlementKind (pp_quote p))
       {| sx_attemptId := att_id (pp_attempt p); sx_destination := pp_destination p; sx_mode := pp_mode p;
          sx_payerAddress := payerAddress; sx_request := request; sx_resource := resource;
          sx_requirements := q_x402Requirements (pp_quote p);
          sx_walletAddress := psrc_address (pp_source p);
          sx_walletId := psrc_external_wallet_id (pp_source p) |})
    (fun e => ret (failed_settlement p e)).

Definition private_debug (settlement : RuntimeX402SettlementResult) : option json :=
  if sr_providerMode settlement =s "simulation" then None else takeCircleProviderPaidRequestDebug settlement.
End Submit.

(** ** [payRuntimeX402] *)

Inductive OrchestrationHook : Type := afterReserved | afterSubmitting | afterProviderEvidence.

(** The hooks are code of the caller: they may throw, and other requests run
    while they are awaited. *)
Record PayRuntimeX402Options : Type := mkPayRuntimeX402Options {
  po_hook : OrchestrationHook -> M unit;
  po_canResumeReserved : bool;
  po_executor : World -> NormalizedPaidHttpRequest -> ValidatedPaidHttpDestination -> Res PaidHttpResponse;
  po_allowHttpOrigins : list string;
  po_resolveHostname : string -> Res (list string);
  po_resultCrypto : bool
}.

(** A payment returns at once, or goes on with what was prepared. *)
Inductive PayStart : Type :=
| Pay_return (result : RuntimeX402PaymentResult)
| Pay_submit (prepared : PreparedPaidHttpPayment) (freshAttempt : bool).

Definition upper_char (c : ascii) : ascii :=
  let n := Ascii.nat_of_ascii c in
  if (97 <=? n)%nat && (n <=? 122)%nat then Ascii.ascii_of_nat (n - 32) else c.
Definition upper (s : string) : string := of_chars (map upper_char (chars s)).

Section Pay.
Context `{Collation} `{Sha256} `{UrlParser} `{IpClassifier} `{HeaderDecoder} `{ChainBalances}
  `{TreasuryBalances} `{X402Settler} `{X402ResultCryptoCodec Stored}.
Context (options : PayRuntimeX402Options) (auth : ConnectionAuthResult) (input : RuntimePaidHttpX402Input).

Definition retained_of (attempt : X402AttemptRow) : M (option Stored) :=
  match att_encrypted_result attempt with
  | None => ret None
  | Some e => let* v := lift (decrypt (attempt_context auth (att_id attempt)) e) in ret (Some v)
  end.

Definition resume_attempt (attempt : X402AttemptRow) (controlled consumed : bool) : M PreparedPaidHttpPayment :=
  resumePreparedPaidHttpPayment auth input attempt (po_allowHttpOrigins options) (po_resolveHostname options)
    (po_canResumeReserved options) controlled consumed.

(** An attempt of this key exists. *)
Definition pay_existing (requestHash : string) (existing : X402AttemptRow) : M PayStart :=
  throw_if (negb (att_org_id existing =s auth_org_id auth)
            || negb (eqo (att_connection_id existing) (Some (auth_connection_id auth)))) scopeInvalid ;;*
  throw_if (negb (att_request_hash existing =s requestHash)) (conflict "payment_idempotency_conflict") ;;*
  let* retained := retained_of existing in
  match retained with
  | Some (StoredRuntimeX402Result _ result _) => ret (Pay_return result)
  | _ =>
      match retained, bool_decide (att_status existing = Attempt_submitting) with
      | Some (StoredRuntimeX402ProviderEvidence settlement privateDebug), true =>
          let* prepared := resume_attempt existing true true in
          let* result := finalizePaidHttpPayment auth prepared settlement privateDebug in
          ret (Pay_return result)
      | _, _ =>
          if negb (bool_decide (att_status existing = Attempt_reserved))
          then let* result := lift (paymentResultFromAttempt existing) in ret (Pay_return result)
          else let* prepared := resume_attempt existing false false in ret (Pay_submit prepared false)
      end
  end.

(** The 402 of the resource. *)
Definition discover_quote : M (ValidatedPaidHttpDestination * RuntimeX402PaymentInput) :=
  let* normalizedRequest := lift (normalizePaidHttpRequest (ph_request input)) in
  let* destination := lift (assertPaidHttpUrlAllowed (po_allowHttpOrigins options)
                              (po_resolveHostname options) (rq_url (ph_request input))) in
  let* discovery := fun w =>
    (po_executor options w normalizedRequest destination,
     mkWorld (w_db w) (w_now w) (w_next w)
       (w_calls w ++ [mkExternalCall "paidHttp" [rq_url (ph_request input)]])) in
  let* required := lift (paymentRequiredFromResponse discovery) in
  let* resourceUrl := some_or (match lookup_key "url" (prq_resource required) with
                               | JStr s => parse_url s
                               | _ => None
                               end) (TypeError "Invalid URL") in
  throw_if (negb (u_href resourceUrl =s dest_url destination)) (conflict "payment_quote_resource_mismatch") ;;*
  throw_if (match stringValue (lookup_key "method" (prq_resource required)) with
            | Some m => negb (upper m =s rq_method (ph_request input))
            | None => false
            end) (conflict "payment_quote_resource_mismatch") ;;*
  ret (destination, mkRuntimeX402PaymentInput (Some (prq_resource required)) (prq_accepts required)
    (Some [("idempotency_key", JStr (ph_idempotency_key input))]%string)).

Definition pay_fresh (requestHash : string) : M PayStart :=
  let* (destination, paymentInput) := discover_quote in
  let* preparation := preparePaidHttpPayment auth input requestHash destination paymentInput in
  match preparation with
  | Outcome_prepared prepared => ret (Pay_submit prepared true)
  | Outcome_existing raced =>
      let* retained := retained_of raced in
      match retained with
      | Some (StoredRuntimeX402Result _ result _) => ret (Pay_return result)
      | _ => let* result := lift (paymentResultFromAttempt raced) in ret (Pay_return result)
      end
  end.

(** Up to a prepared payment. *)
Definition pay_start : M PayStart :=
  throw_if (negb (po_resultCrypto options)) (IdentityError "x402_result_encryption_unavailable" 503) ;;*
  let* requestHash := lift (canonicalPaidHttpRequestHash (ph_request input)) in
  cancelStrandedReservedAttempts true (auth_org_id auth) (auth_agent_id auth) ;;*
  let* existing := findAttempt (auth_connection_id auth) (ph_idempotency_key input) in
  match existing with
  | Some attempt => pay_existing requestHash attempt
  | None => pay_fresh requestHash
  end.

(** The preflight; a failure leaves the attempt resumable. *)
Definition pay_preflight (p : PreparedPaidHttpPayment) : M (option string) :=
  catch (assertPaidHttpPreSubmitReady auth p) (fun error =>
    markPaidHttpAttemptRetryable auth (att_id (pp_attempt p)) (identity_code error "payment_preflight_failed") ;;*
    throw error).

Definition consume_gate (p : PreparedPaidHttpPayment) : M unit :=
  match pg_approvalId (pp_policyGate p) with
  | None => ret tt
  | Some approvalId => consumeApproval auth approvalId (pg_decisionId (pp_policyGate p)) ;;* ret tt
  end.

Definition pay_scope : X402AttemptScope := mkX402AttemptScope (auth_connection_id auth) (auth_org_id auth).

Definition pay_submit (p : PreparedPaidHttpPayment) (freshAttempt : bool) : M RuntimeX402PaymentResult :=
  (if freshAttempt then po_hook options afterReserved else ret tt) ;;*
  throw_if (pp_approvalRequired p)
    (PaymentApprovalRequiredError (pg_decisionId (pp_policyGate p)) (pg_approvalId (pp_policyGate p) ?? ""%string)) ;;*
  let* payerAddress := pay_preflight p in
  consume_gate p ;;*
  markSubmitting pay_scope (att_id (pp_attempt p)) ;;*
  po_hook options afterSubmitting ;;*
  let* settlement := submit_to_provider (ph_request input) p payerAddress in
  let privateDebug := private_debug settlement in
  persistPaidHttpProviderEvidence auth (att_id (pp_attempt p)) settlement privateDebug ;;*
  po_hook options afterProviderEvidence ;;*
  finalizePaidHttpPayment auth p settlement privateDebug.

Definition payRuntimeX402 : M RuntimeX402PaymentResult :=
  let* start := pay_start in
  match start with
  | Pay_return result => ret result
  | Pay_submit prepared freshAttempt => pay_submit prepared freshAttempt
  end.
End Pay.
