(* ===== verification/BudgetSpec.v ===== *)
(** What the payments of an agent promise, without tables: a book of payments
    and budgets.

    A payment is reserved within the budget of its owner, moves through its
    phases, and ends settled or released; a budget is granted by an operator.
    [Budget.v] shows that the operations of the payment engine move the book a
    database stands for only by these steps. *)

From stdpp Require Import relations.
From S2P Require Import Prelude.
Open Scope Z_scope.

(** ** The book *)

Inductive Phase : Type := Held | Submitted | Unknown | Settled | Released.

Definition Owner : Type := (string * string)%type.

Record Payment : Type := mkPayment {
  py_id : string;
  py_owner : Owner;
  py_amount : Z;
  py_phase : Phase
}.

Record Book : Type := mkBook {
  bk_budgets : list (Owner * Z);
  bk_payments : list Payment
}.

(** The provider is asked between [Submitted] and what follows it; a payment
    whose outcome is unknown waits for an operator. *)
Inductive phase_step : Phase -> Phase -> Prop :=
| phase_stay p : phase_step p p
| phase_submit : phase_step Held Submitted
| phase_cancel : phase_step Held Released
| phase_settle : phase_step Submitted Settled
| phase_fail : phase_step Submitted Released
| phase_lose : phase_step Submitted Unknown
| phase_found_settled : phase_step Unknown Settled
| phase_found_failed : phase_step Unknown Released.

Record advance (x y : Payment) : Prop := mkAdvance {
  adv_id : py_id y = py_id x;
  adv_owner : py_owner y = py_owner x;
  adv_amount : py_amount y = py_amount x;
  adv_phase : phase_step (py_phase x) (py_phase y)
}.

(** What counts against the budget: all but what was released. *)
Definition counts (p : Phase) : bool := match p with Released => false | _ => true end.
Definition same_owner (a b : Owner) : bool := (fst a =s fst b) && (snd a =s snd b).
Definition owned (o : Owner) (x : Payment) : bool := same_owner (py_owner x) o && counts (py_phase x).
Definition exposure (o : Owner) (l : list Payment) : Z := sum_where (owned o) py_amount l.

Inductive spend_step : Book -> Book -> Prop :=
| spend_advance b l l' : Forall2 advance l l' -> spend_step (mkBook b l) (mkBook b l')
| spend_reserve b l x limit :
    In (py_owner x, limit) b -> py_phase x = Held -> 0 < py_amount x -> ~ In (py_id x) (map py_id l) ->
    exposure (py_owner x) l + py_amount x <= limit ->
    spend_step (mkBook b l) (mkBook b (l ++ [x])).

Inductive grant_step (o : Owner) (v : Z) : Book -> Book -> Prop :=
| grant_budget b b' l :
    (forall e, In e b' -> In e b \/ e = (o, v)) -> grant_step o v (mkBook b l) (mkBook b' l).

(** The steps, with the grants [G] allows. *)
Definition book_step (G : Owner -> Z -> Prop) (b b' : Book) : Prop :=
  spend_step b b' \/ exists o v, G o v /\ grant_step o v b b'.

(** ** No budget is exceeded *)

(** [B] bounds what each owner may ever spend. *)
Record solvent (B : Owner -> Z) (k : Book) : Prop := mkSolvent {
  sv_budgets : forall o v, In (o, v) (bk_budgets k) -> v <= B o;
  sv_amounts : forall x, In x (bk_payments k) -> 0 <= py_amount x;
  sv_exposure : forall o, exposure o (bk_payments k) <= B o
}.

Lemma same_owner_eq a b : same_owner a b = true -> a = b.
Proof. destruct a, b. unfold same_owner. cbn. intros H. bsimpl. congruence. Qed.

Lemma phase_counts p q : phase_step p q -> counts q = true -> counts p = true.
Proof. by intros []. Qed.

Lemma advance_exposure o l l' :
  (forall x, In x l -> 0 <= py_amount x) -> Forall2 advance l l' -> exposure o l' <= exposure o l.
Proof.
  unfold exposure. intros Hn. induction 1 as [|x y l l' [_ Ho Ha Hp] _ IH]; [done|]. cbn.
  assert (sum_where (owned o) py_amount l' <= sum_where (owned o) py_amount l) by (apply IH; intros z Hz; apply Hn; by right).
  assert (0 <= py_amount x) by (apply Hn; by left). unfold owned at 1 3. rewrite Ho, Ha.
  destruct (same_owner (py_owner x) o); cbn; [|lia].
  destruct (counts (py_phase y)) eqn:E; [rewrite (phase_counts _ _ Hp E)|destruct (counts (py_phase x))]; lia.
Qed.

Lemma advance_in l l' y : Forall2 advance l l' -> In y l' -> exists x, In x l /\ advance x y.
Proof.
  induction 1 as [|x z l l' Hxz _ IH]; [done|]. intros [<-|Hy]; [exists x; split; [by left|done]|].
  destruct (IH Hy) as (x' & Hx' & Ha). exists x'. split; [by right|done].
Qed.

Lemma spend_solvent B k k' : spend_step k k' -> solvent B k -> solvent B k'.
Proof.
  intros [b l l' Ha|b l x limit Hb Hx Hpos _ Hle] [H1 H2 H3]; cbn in *; constructor; cbn.
  - done.
  - intros y Hy. destruct (advance_in _ _ _ Ha Hy) as (z & Hz & []). rewrite adv_amount0. by apply H2.
  - intros o. pose proof (advance_exposure o l l' H2 Ha). specialize (H3 o). unfold exposure in *. lia.
  - done.
  - intros y [Hy|[<-|[]]]%in_app_iff; [by apply H2|lia].
  - intros o. unfold exposure in *. rewrite sum_where_app. cbn. unfold owned at 2. rewrite Hx. cbn. rewrite andb_true_r.
    destruct (same_owner _ _) eqn:E; [|specialize (H3 o); lia]. apply same_owner_eq in E as <-. specialize (H1 _ _ Hb). lia.
Qed.

Lemma grant_solvent B o v k k' : grant_step o v k k' -> v <= B o -> solvent B k -> solvent B k'.
Proof.
  intros [b b' l Hb] Hv [H1 H2 H3]. constructor; cbn in *; [|done..].
  intros o' v' He. destruct (Hb _ He) as [H|[= -> ->]]; [by apply H1|done].
Qed.

Lemma run_solvent B G k k' :
  (forall o v, G o v -> v <= B o) -> rtc (book_step G) k k' -> solvent B k -> solvent B k'.
Proof.
  intros HG. induction 1 as [|k k1 k2 [Hs|(o & v & Hg & Hs)] _ IH]; [done|..]; intros Hk; apply IH.
  - by eapply spend_solvent.
  - eapply grant_solvent; [done|by apply HG|done].
Qed.

(** ** A payment keeps its owner and amount, and what ended stays ended *)

Definition final (p : Phase) : bool := match p with Settled | Released => true | _ => false end.

Record survives (x y : Payment) : Prop := mkSurvives {
  su_id : py_id y = py_id x;
  su_owner : py_owner y = py_owner x;
  su_amount : py_amount y = py_amount x;
  su_phase : rtc phase_step (py_phase x) (py_phase y)
}.

Lemma final_stays p q : rtc phase_step p q -> final p = true -> q = p.
Proof. induction 1 as [|p q r Hs _ IH]; [done|]. intros Hf. destruct Hs; try done. by apply IH. Qed.

Lemma step_survives G k k' x :
  book_step G k k' -> In x (bk_payments k) -> exists y, In y (bk_payments k') /\ survives x y.
Proof.
  intros [[b l l' Ha|b l z limit _ _ _ _ _]|(o & v & _ & [b b' l _])] Hx; cbn in *.
  - revert Hx. induction Ha as [|u w l l' [] _ IH]; [done|]. intros [<-|Hx].
    + exists w. split; [by left|]. constructor; [done..|by apply rtc_once].
    + destruct (IH Hx) as (y & Hy & Hs). exists y. split; [by right|done].
  - exists x. rewrite in_app_iff. split; [by left|by constructor].
  - exists x. split; [done|by constructor].
Qed.

Lemma run_survives G k k' x :
  rtc (book_step G) k k' -> In x (bk_payments k) -> exists y, In y (bk_payments k') /\ survives x y.
Proof.
  intros Hr. revert x. induction Hr as [k|k k1 k2 Hs _ IH]; intros x Hx; [exists x; split; [done|by constructor]|].
  destruct (step_survives _ _ _ _ Hs Hx) as (y & Hy & []). destruct (IH y Hy) as (z & Hz & []).
  exists z. split; [done|]. constructor; [congruence..|by etrans].
Qed.

Lemma book_step_mono (G G' : Owner -> Z -> Prop) k k' :
  (forall o v, G o v -> G' o v) -> rtc (book_step G) k k' -> rtc (book_step G') k k'.
Proof.
  intros HG. apply rtc_subrel. intros a b [Hs|(o & v & Hg & Hs)]; [by left|]. right. exists o, v. auto.
Qed.
