(* ===== verification/Budget.v ===== *)
(** The books of x402 payments: what the payment tables say about each other,
    and that every operation on payments keeps it so.

    Three groups of facts: an attempt and its reservation agree ([links_ok]);
    the counters of an account are the sums of its reservations and of its
    settle postings ([balance_ok]); an event with an unknown outcome belongs to
    an attempt whose outcome is unknown ([events_ok]). *)

From stdpp Require Import relations.
From S2P Require Import Prelude Errors Usdc Json Policy Quotes ResultCrypto PaidHttp Schema Host Ledger.
From S2P Require Import AuditLog AuditChain PolicyStore Approvals Attempts Accounts Prepare Settlement BudgetSpec.
Open Scope Z_scope.

(** ** The invariant *)

Definition x402_reservation (r : PaymentReservationRow) : bool :=
  String.prefix "x402_attempt:" (res_reason_code r).

Definition of_agent (org agent : string) (r : PaymentReservationRow) : bool :=
  x402_reservation r && (res_org_id r =s org) && (res_agent_id r =s agent).

Definition held_by (org agent : string) (r : PaymentReservationRow) : bool :=
  of_agent org agent r && reservation_held r.
Definition settled_by (org agent : string) (r : PaymentReservationRow) : bool :=
  of_agent org agent r && bool_decide (res_status r = Reservation_settled).
Definition settle_posting (org agent : string) (p : LedgerPostingRow) : bool :=
  is_settle p && (post_org_id p =s org) && eqo (post_agent_id p) (Some agent).

Definition held_total (org agent : string) (R : list PaymentReservationRow) : Z :=
  sum_where (held_by org agent) res_amount_usdc R.
Definition settled_total (org agent : string) (R : list PaymentReservationRow) : Z :=
  sum_where (settled_by org agent) res_amount_usdc R.
Definition posted_total (org agent : string) (L : list LedgerPostingRow) : Z :=
  sum_where (settle_posting org agent) post_amount_usdc L.

(** The reservation of an attempt. *)
Definition funds (r : PaymentReservationRow) (t : X402AttemptRow) : Prop :=
  res_reason_code r = attempt_reason (att_id t).

Definition status_agree (a : X402AttemptStatus) (s : ReservationStatus) : Prop :=
  match a with
  | Attempt_reserved | Attempt_submitting => s = Reservation_reserved
  | Attempt_settled => s = Reservation_settled
  | Attempt_failed => s = Reservation_released
  | Attempt_unknown => s <> Reservation_failed
  end.

Record funded (r : PaymentReservationRow) (t : X402AttemptRow) : Prop := mkFunded {
  fd_funds : funds r t;
  fd_org : res_org_id r = att_org_id t;
  fd_agent : res_agent_id r = att_agent_id t;
  fd_connection : res_connection_id r = att_connection_id t;
  fd_amount : att_amount_usdc t = Some (res_amount_usdc r);
  fd_status : status_agree (att_status t) (res_status r)
}.

(** The stored quote is the one the amount was reserved for. *)
Definition quoted (r : PaymentReservationRow) : Prop :=
  x402UsdcMicrosFromAccept (qp_accept (payload_of_stored (res_quote r))) = Ok (res_amount_usdc r).

Definition attempt_slot (t : X402AttemptRow) : option string * string :=
  (att_connection_id t, att_idempotency_key t).

Record links_ok (R : list PaymentReservationRow) (T : list X402AttemptRow) : Prop := mkLinksOk {
  lk_res : keyed res_id R;
  lk_att : keyed att_id T;
  lk_slot : keyed attempt_slot T;
  lk_funded : forall t, In t T -> exists r, In r R /\ funded r t;
  lk_reason : forall r, In r R -> x402_reservation r = true -> exists t, In t T /\ funds r t;
  lk_unique : forall r1 r2, In r1 R -> In r2 R -> x402_reservation r1 = true ->
    res_reason_code r1 = res_reason_code r2 -> r1 = r2;
  lk_quoted : forall r, In r R -> x402_reservation r = true -> quoted r
}.

Definition account_owner (a : AgentPaymentAccountRow) : string * string := (acct_org_id a, acct_agent_id a).

Record balance_ok (A : list AgentPaymentAccountRow) (R : list PaymentReservationRow)
    (L : list LedgerPostingRow) : Prop := mkBalanceOk {
  bl_account : keyed account_owner A;
  bl_reserved : forall a, In a A -> acct_reserved_usdc a = held_total (acct_org_id a) (acct_agent_id a) R;
  bl_spent : forall a, In a A -> acct_spent_usdc a = settled_total (acct_org_id a) (acct_agent_id a) R;
  bl_posted : forall a, In a A -> acct_spent_usdc a = posted_total (acct_org_id a) (acct_agent_id a) L;
  bl_owner : forall r, In r R -> x402_reservation r = true ->
    In (res_org_id r, res_agent_id r) (map account_owner A);
  bl_posting : forall p agent, In p L -> is_settle p = true -> post_agent_id p = Some agent ->
    In (post_org_id p, agent) (map account_owner A)
}.

Record events_ok (E : list PaymentEventRow) (R : list PaymentReservationRow)
    (T : list X402AttemptRow) : Prop := mkEventsOk {
  ev_refers : forall e id, In e E -> pe_reservation_id e = Some id ->
    exists r, In r R /\ res_id r = id /\ x402_reservation r = true;
  ev_unknown : forall e r t, In e E -> event_unknown e = true -> In r R ->
    pe_reservation_id e = Some (res_id r) -> In t T -> funds r t -> att_status t = Attempt_unknown
}.

(** An attempt belongs to the organisation and agent of its connection. *)
Record scope_ok (C : list ConnectionRow) (T : list X402AttemptRow) : Prop := mkScopeOk {
  so_connection : keyed cn_id C;
  so_attempt : forall t c, In t T -> att_connection_id t = Some c ->
    exists n, In n C /\ cn_id n = c /\ cn_org_id n = att_org_id t /\ cn_agent_id n = att_agent_id t
}.

Record payments_ok (db : Db) : Prop := mkPaymentsOk {
  po_links : links_ok (db T_payment_reservations) (db T_runtime_payment_attempts);
  po_balance : balance_ok (db T_agent_payment_accounts) (db T_payment_reservations) (db T_ledger_postings);
  po_events : events_ok (db T_payment_events) (db T_payment_reservations) (db T_runtime_payment_attempts);
  po_scope : scope_ok (db T_connections) (db T_runtime_payment_attempts)
}.

(** ** The book the tables stand for *)

Definition attempt_of (T : list X402AttemptRow) (r : PaymentReservationRow) : option X402AttemptRow :=
  head (where_ (fun t => res_reason_code r =s attempt_reason (att_id t)) T).

Definition phase_of (T : list X402AttemptRow) (r : PaymentReservationRow) : Phase :=
  match res_status r with
  | Reservation_settled => Settled
  | Reservation_released | Reservation_failed => Released
  | Reservation_reserved =>
      match option_map att_status (attempt_of T r) with
      | Some Attempt_submitting => Submitted
      | Some Attempt_unknown => Unknown
      | _ => Held
      end
  end.

Definition payment_of (T : list X402AttemptRow) (r : PaymentReservationRow) : Payment :=
  mkPayment (res_id r) (res_org_id r, res_agent_id r) (res_amount_usdc r) (phase_of T r).

Definition budget_of (a : AgentPaymentAccountRow) : Owner * Z := (account_owner a, acct_budget_usdc a).

Definition book_of (db : Db) : Book :=
  mkBook (map budget_of (db T_agent_payment_accounts))
    (map (payment_of (db T_runtime_payment_attempts)) (where_ x402_reservation (db T_payment_reservations))).

(** ** What never changes of a row *)

Definition status_le (a b : X402AttemptStatus) : Prop :=
  a = b \/ match a with
           | Attempt_reserved => True
           | Attempt_submitting => b <> Attempt_reserved
           | _ => False
           end.

Record same_attempt (t t' : X402AttemptRow) : Prop := mkSameAttempt {
  sa_id : att_id t' = att_id t;
  sa_org : att_org_id t' = att_org_id t;
  sa_agent : att_agent_id t' = att_agent_id t;
  sa_connection : att_connection_id t' = att_connection_id t;
  sa_key : att_idempotency_key t' = att_idempotency_key t;
  sa_hash : att_request_hash t' = att_request_hash t;
  sa_amount : att_amount_usdc t' = att_amount_usdc t
}.

Record same_reservation (r r' : PaymentReservationRow) : Prop := mkSameReservation {
  sr_id : res_id r' = res_id r;
  sr_org : res_org_id r' = res_org_id r;
  sr_agent : res_agent_id r' = res_agent_id r;
  sr_connection : res_connection_id r' = res_connection_id r;
  sr_amount : res_amount_usdc r' = res_amount_usdc r;
  sr_reason : res_reason_code r' = res_reason_code r;
  sr_quote : res_quote r' = res_quote r
}.

(** A reservation of another engine. *)
Definition plain_reservation (r : PaymentReservationRow) : bool := negb (x402_reservation r).

Record lives_on (db db' : Db) : Prop := mkLivesOn {
  lo_res : forall r, In r (db T_payment_reservations) ->
    exists r', In r' (db' T_payment_reservations) /\ same_reservation r r' /\
    (reservation_held r' = true -> reservation_held r = true);
  lo_att : forall t, In t (db T_runtime_payment_attempts) ->
    exists t', In t' (db' T_runtime_payment_attempts) /\ same_attempt t t' /\
    status_le (att_status t) (att_status t');
  lo_spec : rtc spend_step (book_of db) (book_of db');
  lo_plain : where_ plain_reservation (db' T_payment_reservations) = where_ plain_reservation (db T_payment_reservations)
}.

Lemma status_le_trans a b c : status_le a b -> status_le b c -> status_le a c.
Proof. unfold status_le. destruct a, b, c; intuition congruence. Qed.

Lemma same_attempt_refl t : same_attempt t t.
Proof. by constructor. Qed.
Lemma same_attempt_trans a b c : same_attempt a b -> same_attempt b c -> same_attempt a c.
Proof. intros [] []. constructor; congruence. Qed.
Lemma same_reservation_refl r : same_reservation r r.
Proof. by constructor. Qed.
Lemma same_reservation_trans a b c : same_reservation a b -> same_reservation b c -> same_reservation a c.
Proof. intros [] []. constructor; congruence. Qed.
#[export] Hint Resolve same_attempt_refl same_reservation_refl : aops.

Lemma lives_on_refl db : lives_on db db.
Proof.
  constructor; [intros x Hx; exists x; do 2 (split; [auto with aops|])..|done|done]; [done|by left].
Qed.

Lemma lives_on_trans a b c : lives_on a b -> lives_on b c -> lives_on a c.
Proof.
  intros [R1 T1 S1 P1] [R2 T2 S2 P2]. constructor; [| |by etrans|by rewrite P2].
  - intros r Hr. destruct (R1 r Hr) as (r1 & H1 & E1 & K1). destruct (R2 r1 H1) as (r2 & H2 & E2 & K2).
    exists r2. split; [done|]. split; [by eapply same_reservation_trans|auto].
  - intros t Ht. destruct (T1 t Ht) as (t1 & H1 & E1 & K1). destruct (T2 t1 H1) as (t2 & H2 & E2 & K2).
    exists t2. split; [done|]. split; [by eapply same_attempt_trans|by eapply status_le_trans].
Qed.

(** The handlers that keep the books. *)
Definition books {A} (m : M A) : Prop := sound payments_ok lives_on m.

(** ** Reasons *)

Lemma attempt_reason_inj a b : attempt_reason a = attempt_reason b -> a = b.
Proof. unfold attempt_reason. intros H. by injection H. Qed.

Lemma attempt_reason_x402 a r : res_reason_code r = attempt_reason a -> x402_reservation r = true.
Proof. unfold x402_reservation. intros ->. unfold attempt_reason. cbn. by destruct a. Qed.

Lemma funds_unique r t1 t2 : funds r t1 -> funds r t2 -> att_id t1 = att_id t2.
Proof. unfold funds. intros H1 H2. apply attempt_reason_inj. congruence. Qed.

Lemma funds_x402 r t : funds r t -> x402_reservation r = true.
Proof. apply attempt_reason_x402. Qed.

(** The one reservation of an attempt. *)
Lemma funded_of R T r t :
  links_ok R T -> In r R -> In t T -> funds r t -> funded r t.
Proof.
  intros Hl Hr Ht Hf. destruct (lk_funded _ _ Hl t Ht) as (r' & Hr' & Hfd).
  replace r with r'; [done|]. apply (lk_unique _ _ Hl); [done..| |].
  - by eapply funds_x402, fd_funds.
  - rewrite (fd_funds _ _ Hfd). by rewrite Hf.
Qed.

(** ** Moves of the book *)

Lemma attempt_of_some T r t : keyed att_id T -> In t T -> funds r t -> attempt_of T r = Some t.
Proof.
  intros Hk Ht Hf. unfold attempt_of. rewrite (keyed_where att_id T _ t); [done..| |].
  - rewrite Hf. apply eqs_refl.
  - intros t' E. bsimpl. apply attempt_reason_inj. unfold funds in *. congruence.
Qed.

Lemma attempt_of_found T r t : attempt_of T r = Some t -> In t T /\ funds r t.
Proof. intros [Hin E]%where_head. split; [done|]. by bsimpl. Qed.

(** The attempt of a reservation, in an updated table. *)
Lemma attempt_of_update T p f r t :
  keyed att_id T -> (forall t, In t T -> p t = true -> same_attempt t (f t)) -> attempt_of T r = Some t ->
  attempt_of (update_rows p f T) r = Some (if p t then f t else t).
Proof.
  intros Hk Hf [Hin Hft]%attempt_of_found. apply attempt_of_some.
  - unfold keyed. rewrite update_rows_map, map_map. erewrite map_ext_in; [exact Hk|]. intros x Hx. cbn.
    destruct (p x) eqn:E; [apply (Hf x Hx E)|done].
  - apply in_update_rows. by exists t.
  - destruct (p t) eqn:E; [|done]. unfold funds in *. by rewrite (sa_id _ _ (Hf t Hin E)).
Qed.

Lemma where_x402_update p f (R : list PaymentReservationRow) :
  (forall r, same_reservation r (f r)) ->
  where_ x402_reservation (update_rows p f R) = update_rows p f (where_ x402_reservation R).
Proof.
  intros Hf. induction R as [|r R IH]; [done|]. cbn.
  assert (x402_reservation (if p r then f r else r) = x402_reservation r) as ->.
  { destruct (p r); [|done]. unfold x402_reservation. by rewrite (sr_reason _ _ (Hf r)). }
  destruct (x402_reservation r); cbn; by rewrite IH.
Qed.

(** Rows change, the payments they stand for advance. *)
Lemma book_advances (db db' : Db) p f :
  map budget_of (db' T_agent_payment_accounts) = map budget_of (db T_agent_payment_accounts) ->
  (forall r, same_reservation r (f r)) ->
  db' T_payment_reservations = update_rows p f (db T_payment_reservations) ->
  (forall r, In r (db T_payment_reservations) -> x402_reservation r = true ->
     phase_step (phase_of (db T_runtime_payment_attempts) r)
       (phase_of (db' T_runtime_payment_attempts) (if p r then f r else r))) ->
  rtc spend_step (book_of db) (book_of db').
Proof.
  intros HA Hf HR Hp. apply rtc_once. unfold book_of. rewrite HA, HR, where_x402_update by done. apply spend_advance.
  assert (forall r, In r (where_ x402_reservation (db T_payment_reservations)) ->
    phase_step (phase_of (db T_runtime_payment_attempts) r)
       (phase_of (db' T_runtime_payment_attempts) (if p r then f r else r))) as Hin.
  { intros r [H1 H2]%where_in. by apply Hp. }
  revert Hin. generalize (where_ x402_reservation (db T_payment_reservations)) as l.
  induction l as [|r l IH]; intros Hin; cbn; constructor; [|apply IH; intros; apply Hin; by right].
  pose proof (Hin r (or_introl eq_refl)) as Hs. destruct (p r); [|by constructor].
  destruct (Hf r). constructor; cbn; congruence || done.
Qed.

Lemma phase_same_status T T' r :
  option_map att_status (attempt_of T' r) = option_map att_status (attempt_of T r) -> phase_of T' r = phase_of T r.
Proof. unfold phase_of. by intros ->. Qed.

(** ** Updates of attempts *)

(** An update that leaves identities alone and moves no status, or only to
    one that still holds the reservation. *)
Definition touches (f : X402AttemptRow -> X402AttemptRow) (t : X402AttemptRow) : Prop :=
  same_attempt t (f t) /\
  (att_status (f t) = att_status t
   \/ att_status t = Attempt_reserved /\ att_status (f t) = Attempt_submitting
   \/ att_status t = Attempt_submitting /\ att_status (f t) = Attempt_unknown).

Lemma funded_same r t t' :
  same_attempt t t' -> (forall s, status_agree (att_status t) s -> status_agree (att_status t') s) ->
  funded r t -> funded r t'.
Proof.
  intros [] Hs []. constructor; [unfold funds in *| | | | |]; try congruence. auto.
Qed.

Lemma touches_agree f t s : touches f t -> status_agree (att_status t) s -> status_agree (att_status (f t)) s.
Proof. intros [_ [->|[[-> ->]|[-> ->]]]]; [done..|]. cbn. by intros ->. Qed.

Section Touch.
Context (R : list PaymentReservationRow) (T : list X402AttemptRow).
Context (p : X402AttemptRow -> bool) (f : X402AttemptRow -> X402AttemptRow).
Context (Hf : forall t, In t T -> p t = true -> touches f t).

Lemma touch_map {K} (key : X402AttemptRow -> K) :
  (forall t t', same_attempt t t' -> key t' = key t) -> map key (update_rows p f T) = map key T.
Proof using Hf.
  intros Hk. rewrite update_rows_map, map_map. apply map_ext_in. intros t Ht.
  destruct (p t) eqn:Ep; [|done]. apply Hk, Hf; auto.
Qed.

Lemma in_touched t : In t (update_rows p f T) -> exists t0, In t0 T /\ same_attempt t0 t /\
  (forall s, status_agree (att_status t0) s -> status_agree (att_status t) s) /\
  (att_status t0 = Attempt_unknown -> att_status t = Attempt_unknown).
Proof using Hf.
  intros (t0 & Ht0 & ->)%in_update_rows. exists t0. split; [done|]. destruct (p t0) eqn:Ep; [|auto with aops].
  pose proof (Hf t0 Ht0 Ep) as Ht. split; [apply Ht|]. split; [intros s; by apply touches_agree|].
  destruct Ht as [_ [->|[[-> _]|[-> _]]]]; done.
Qed.

Lemma touch_links : links_ok R T -> links_ok R (update_rows p f T).
Proof using Hf.
  intros [K1 K2 K3 Hfd Hr Hu Hq]. constructor; [done| | | | |done|done].
  - unfold keyed. rewrite touch_map; [done|]. by intros t t' [].
  - unfold keyed. rewrite touch_map; [done|]. intros t t' []. unfold attempt_slot. congruence.
  - intros t (t0 & Ht0 & Hs & Ha & _)%in_touched. destruct (Hfd t0 Ht0) as (r & Hin & Hr0).
    exists r. split; [done|]. by eapply funded_same.
  - intros r Hin Hx. destruct (Hr r Hin Hx) as (t & Ht & Hft).
    exists (if p t then f t else t). split; [apply in_update_rows; by exists t|].
    destruct (p t) eqn:Ep; [|done]. unfold funds in *. destruct (Hf t Ht Ep) as [[] _]. congruence.
Qed.

Lemma touch_events E : events_ok E R T -> events_ok E R (update_rows p f T).
Proof using Hf.
  intros [He Hu]. constructor; [done|]. intros e r t Hine Hun Hr Hid (t0 & Ht0 & Hs & _ & Hk)%in_touched Hft.
  apply Hk, (Hu e r t0); try done. unfold funds in *. destruct Hs. congruence.
Qed.
End Touch.

Lemma scope_updated C T p f :
  scope_ok C T -> (forall t, In t T -> p t = true -> same_attempt t (f t)) ->
  scope_ok C (update_rows p f T).
Proof.
  intros [K H] Hf. constructor; [done|]. intros t c (t0 & Ht0 & ->)%in_update_rows Hc.
  destruct (p t0) eqn:E; [|by apply H]. destruct (Hf t0 Ht0 E) as [_ S2 S3 S4 _ _ _].
  rewrite S2, S3. apply H; [done|congruence].
Qed.

(** ** Closing a reservation *)

Definition closes (s : ReservationStatus) (f : PaymentReservationRow -> PaymentReservationRow) : Prop :=
  forall r, same_reservation r (f r) /\ res_status (f r) = s.

Lemma close_reservation_closes s now : closes s (close_reservation s now).
Proof. by repeat constructor. Qed.

Lemma of_agent_same org agent r r' : same_reservation r r' -> of_agent org agent r' = of_agent org agent r.
Proof. intros []. unfold of_agent, x402_reservation. congruence. Qed.

Lemma of_agent_own r : x402_reservation r = true -> of_agent (res_org_id r) (res_agent_id r) r = true.
Proof. intros H. unfold of_agent. by rewrite H, !eqs_refl. Qed.

Lemma of_agent_other org agent r :
  of_agent org agent r = true -> res_org_id r = org /\ res_agent_id r = agent.
Proof. unfold of_agent. intros H. by bsimpl. Qed.

Section Close.
Context (R : list PaymentReservationRow) (p : PaymentReservationRow -> bool).
Context (f : PaymentReservationRow -> PaymentReservationRow) (s : ReservationStatus).
Context (Hf : closes s f) (r : PaymentReservationRow).
Context (Hp : where_ p R = [r]) (Hk : keyed res_id R) (Hheld : reservation_held r = true).
Context (Hx : x402_reservation r = true) (Hs : s <> Reservation_reserved).

Lemma closed_in : In r R /\ p r = true.
Proof using Hp. apply where_in. rewrite Hp. by left. Qed.

Lemma close_held org agent :
  held_total org agent (update_rows p f R)
  = held_total org agent R - (if of_agent org agent r then res_amount_usdc r else 0).
Proof using Hf Hp Hk Hheld Hs.
  unfold held_total. rewrite (sum_where_update res_id R p f _ _ r Hk Hp).
  destruct (Hf r) as [Hsame Hst]. assert (held_by org agent (f r) = false) as ->.
  { unfold held_by, reservation_held. by rewrite Hst, (bool_decide_eq_false_2 _ Hs), andb_false_r. }
  assert (held_by org agent r = of_agent org agent r) as ->; [|lia].
  unfold held_by. by rewrite Hheld, andb_true_r.
Qed.

Lemma close_settled org agent :
  settled_total org agent (update_rows p f R)
  = settled_total org agent R
    + (if of_agent org agent r && bool_decide (s = Reservation_settled) then res_amount_usdc r else 0).
Proof using Hf Hp Hk Hheld.
  unfold settled_total. rewrite (sum_where_update res_id R p f _ _ r Hk Hp).
  destruct (Hf r) as [Hsame Hst]. assert (settled_by org agent r = false) as ->.
  { unfold settled_by. unfold reservation_held in Hheld. apply bool_decide_eq_true in Hheld.
    by rewrite Hheld, andb_false_r. }
  assert (settled_by org agent (f r) = of_agent org agent r && bool_decide (s = Reservation_settled)) as ->.
  { unfold settled_by. by rewrite (of_agent_same _ _ _ _ Hsame), Hst. }
  rewrite (sr_amount _ _ Hsame). lia.
Qed.

Lemma in_closed r' : In r' (update_rows p f R) -> exists r0, In r0 R /\ same_reservation r0 r' /\
  (r0 = r /\ r' = f r \/ r0 <> r /\ r' = r0).
Proof using Hf Hp Hk.
  intros [->|[Hin Hne]]%(in_update_one res_id _ _ _ r); [| |done..].
  - destruct (Hf r) as [Hsame Hst]. exists r. split; [apply closed_in|]. auto.
  - exists r'. split; [done|]. split; [apply same_reservation_refl|]. right. split; [|done]. by intros ->.
Qed.

Lemma close_map {K} (key : PaymentReservationRow -> K) :
  (forall r0 r', same_reservation r0 r' -> key r' = key r0) -> map key (update_rows p f R) = map key R.
Proof using Hf.
  intros H. rewrite update_rows_map, map_map. apply map_ext. intros x.
  destruct (p x); [|done]. apply H, Hf.
Qed.

Lemma close_kept r0 : In r0 R -> exists r', In r' (update_rows p f R) /\ same_reservation r0 r' /\
  (reservation_held r' = true -> reservation_held r0 = true).
Proof using Hf Hs.
  intros Hin. exists (if p r0 then f r0 else r0). split; [apply in_update_rows; by exists r0|].
  destruct (p r0); [|auto with aops]. destruct (Hf r0) as [Hsame Hst]. split; [done|].
  unfold reservation_held. rewrite Hst. by rewrite bool_decide_eq_false_2.
Qed.
End Close.

(** The attempt of the reservation follows: the attempts that change have it,
    and every attempt that has it agrees with the new status. *)
Section CloseLinks.
Context (R : list PaymentReservationRow) (T : list X402AttemptRow).
Context (p : PaymentReservationRow -> bool) (f : PaymentReservationRow -> PaymentReservationRow).
Context (pT : X402AttemptRow -> bool) (g : X402AttemptRow -> X402AttemptRow).
Context (s : ReservationStatus) (r : PaymentReservationRow).
Context (Hf : closes s f) (Hp : where_ p R = [r]) (Hl : links_ok R T).
Context (Hg : forall t, In t T -> pT t = true ->
  same_attempt t (g t) /\ funds r t /\ status_agree (att_status (g t)) s).
Context (Ht : forall t, In t T -> pT t = false -> funds r t -> status_agree (att_status t) s).

Lemma close_att_map {K} (key : X402AttemptRow -> K) :
  (forall t t', same_attempt t t' -> key t' = key t) -> map key (update_rows pT g T) = map key T.
Proof using Hg.
  intros H. rewrite update_rows_map, map_map. apply map_ext_in. intros t Hin.
  destruct (pT t) eqn:E; [|done]. by apply H, Hg.
Qed.

Lemma in_close_att t' : In t' (update_rows pT g T) -> exists t, In t T /\ same_attempt t t' /\
  (funds r t -> status_agree (att_status t') s) /\ (~ funds r t -> t' = t).
Proof using Hg Ht.
  intros (t & Hin & ->)%in_update_rows. exists t. split; [done|]. destruct (pT t) eqn:E.
  - destruct (Hg t Hin E) as (H1 & H2 & H3). split; [done|]. split; [auto|]. by intros [].
  - auto with aops.
Qed.

Lemma close_links : links_ok (update_rows p f R) (update_rows pT g T).
Proof using All.
  destruct Hl as [K1 K2 K3 Hfd Hr Hu Hq]. constructor.
  - unfold keyed. rewrite (close_map R p f s Hf); [done|]. by intros ? ? [].
  - unfold keyed. rewrite close_att_map; [done|]. by intros ? ? [].
  - unfold keyed. rewrite close_att_map; [done|]. intros ? ? []. unfold attempt_slot. congruence.
  - intros t' (t & Hin & Hsame & Hag & Hne)%in_close_att. destruct (Hfd t Hin) as (r0 & Hr0 & Hfd0).
    exists (if p r0 then f r0 else r0). split; [apply in_update_rows; by exists r0|].
    destruct Hsame as [S1 S2 S3 S4 S5 S6 S7], Hfd0 as [F1 F2 F3 F4 F5 F6]. unfold funds in *.
    destruct (p r0) eqn:Ep.
    + assert (r0 = r) as ->.
      { assert (In r0 (where_ p R)) as Hi by (by apply where_in). rewrite Hp in Hi. by destruct Hi as [->|[]]. }
      destruct (Hf r) as [[] Hst]. constructor; unfold funds; [congruence..|]. rewrite Hst. by apply Hag.
    + assert (r0 <> r) as Hne0 by (intros ->; destruct (closed_in R p r Hp); congruence).
      rewrite Hne; [by constructor|]. intros Hfr. apply Hne0, Hu; [done|apply (closed_in R p r Hp)| |].
      * by eapply attempt_reason_x402.
      * unfold funds in *. congruence.
  - intros r' (r0 & Hr0 & Hsame & _)%(in_closed R p f s Hf r Hp K1) Hx.
    destruct (Hr r0 Hr0) as (t & Hin & Hft).
    { unfold x402_reservation in *. by rewrite <-(sr_reason _ _ Hsame). }
    exists (if pT t then g t else t). split; [apply in_update_rows; by exists t|]. unfold funds in *.
    rewrite (sr_reason _ _ Hsame), Hft. destruct (pT t) eqn:E; [|done].
    by rewrite (sa_id _ _ (proj1 (Hg t Hin E))).
  - intros r1 r2 (r1' & H1 & S1 & D1)%(in_closed R p f s Hf r Hp K1)
      (r2' & H2 & S2 & D2)%(in_closed R p f s Hf r Hp K1) Hx E.
    assert (r1' = r2') as ->.
    { apply Hu; [done..| |]; [unfold x402_reservation in *; by rewrite <-(sr_reason _ _ S1)|].
      rewrite <-(sr_reason _ _ S1), <-(sr_reason _ _ S2). done. }
    destruct D1 as [[? ->]|[? ->]], D2 as [[? ->]|[? ->]]; congruence.
  - intros r' (r0 & Hr0 & [S1 S2 S3 S4 S5 S6 S7] & _)%(in_closed R p f s Hf r Hp K1) Hx.
    unfold quoted, x402_reservation in *. rewrite S5, S7. apply Hq; [done|]. by rewrite <-S6.
Qed.
End CloseLinks.

(** The account of the reservation follows. *)
Section CloseBalance.
Context (A : list AgentPaymentAccountRow) (R : list PaymentReservationRow) (L l : list LedgerPostingRow).
Context (p : PaymentReservationRow -> bool) (f : PaymentReservationRow -> PaymentReservationRow).
Context (pA : AgentPaymentAccountRow -> bool) (g : AgentPaymentAccountRow -> AgentPaymentAccountRow).
Context (s : ReservationStatus) (r : PaymentReservationRow).
Context (Hf : closes s f) (Hp : where_ p R = [r]) (Hheld : reservation_held r = true).
Context (Hx : x402_reservation r = true) (Hs : s <> Reservation_reserved).

Let paid : Z := if bool_decide (s = Reservation_settled) then res_amount_usdc r else 0.

Context (HpA : forall a, In a A -> pA a = the_account (res_org_id r) (res_agent_id r) a).
Context (Hg : forall a, account_owner (g a) = account_owner a /\
  acct_reserved_usdc (g a) = acct_reserved_usdc a - res_amount_usdc r /\
  acct_spent_usdc (g a) = acct_spent_usdc a + paid).
Context (Hposted : forall org agent, posted_total org agent l
  = if (org =s res_org_id r) && (agent =s res_agent_id r) then paid else 0).
Context (Howner : forall q agent, In q l -> is_settle q = true -> post_agent_id q = Some agent ->
  (post_org_id q, agent) = (res_org_id r, res_agent_id r)).

Lemma of_agent_owner org agent :
  of_agent org agent r = (org =s res_org_id r) && (agent =s res_agent_id r).
Proof using Hx. unfold of_agent. by rewrite Hx, (eqs_sym org), (eqs_sym agent). Qed.

Lemma in_closed_account a : In a (update_rows pA g A) -> exists a0, In a0 A /\
  acct_org_id a = acct_org_id a0 /\ acct_agent_id a = acct_agent_id a0 /\
  acct_reserved_usdc a = acct_reserved_usdc a0
    - (if of_agent (acct_org_id a) (acct_agent_id a) r then res_amount_usdc r else 0) /\
  acct_spent_usdc a = acct_spent_usdc a0
    + (if of_agent (acct_org_id a) (acct_agent_id a) r then paid else 0).
Proof using Hx HpA Hg.
  intros (a0 & Hin & ->)%in_update_rows. exists a0. split; [done|]. rewrite (HpA a0 Hin), of_agent_owner.
  unfold the_account. destruct (_ && _) eqn:E.
  - destruct (Hg a0) as (H1 & H2 & H3). unfold account_owner in H1. injection H1 as -> ->. rewrite E. auto.
  - rewrite E. do 2 (split; [done|]). lia.
Qed.

Lemma close_owner (q : string * string) :
  In q (map account_owner A) -> In q (map account_owner (update_rows pA g A)).
Proof using Hg.
  rewrite update_rows_map, map_map. intros (a & <- & Hin)%in_map_iff. apply in_map_iff. exists a.
  split; [|done]. destruct (pA a); [apply Hg|done].
Qed.

Lemma close_balance : balance_ok A R L -> keyed res_id R ->
  balance_ok (update_rows pA g A) (update_rows p f R) (L ++ l).
Proof using All.
  intros [K B1 B2 B3 O1 O2] Hk. constructor.
  - unfold keyed. rewrite update_rows_map, map_map. erewrite map_ext; [exact K|].
    intros a. cbn. destruct (pA a); [apply Hg|done].
  - intros a (a0 & Hin & -> & -> & -> & _)%in_closed_account. rewrite (close_held R p f s Hf r), B1; auto.
  - intros a (a0 & Hin & -> & -> & _ & ->)%in_closed_account. rewrite (close_settled R p f s Hf r), B2 by auto.
    unfold paid. destruct (of_agent _ _ _), (bool_decide _); reflexivity.
  - intros a (a0 & Hin & -> & -> & _ & ->)%in_closed_account. unfold posted_total in *.
    rewrite sum_where_app, Hposted, B3, of_agent_owner; auto.
  - intros r' (r0 & Hr0 & Hsame & _)%(in_closed R p f s Hf r Hp Hk) Hx'. apply close_owner.
    rewrite (sr_org _ _ Hsame), (sr_agent _ _ Hsame). apply O1; [done|].
    unfold x402_reservation in *. by rewrite <-(sr_reason _ _ Hsame).
  - intros q agent [Hq|Hq]%in_app_iff Hset Hag; apply close_owner; [by eapply O2|].
    rewrite (Howner q agent Hq Hset Hag). apply O1; [|done]. apply (closed_in R p r Hp).
Qed.
End CloseBalance.

Section CloseEvents.
Context (E : list PaymentEventRow) (R : list PaymentReservationRow) (T : list X402AttemptRow).
Context (p : PaymentReservationRow -> bool) (f : PaymentReservationRow -> PaymentReservationRow).
Context (pT : X402AttemptRow -> bool) (g : X402AttemptRow -> X402AttemptRow).
Context (s : ReservationStatus) (Hf : closes s f).
Context (Hg : forall t, In t T -> pT t = true -> same_attempt t (g t) /\
  (att_status t = Attempt_unknown -> att_status (g t) = Attempt_unknown)).

Lemma close_events : events_ok E R T -> events_ok E (update_rows p f R) (update_rows pT g T).
Proof using Hf Hg.
  assert (Hsame : forall r0, same_reservation r0 (if p r0 then f r0 else r0)).
  { intros r0. destruct (p r0); [apply Hf|apply same_reservation_refl]. }
  intros [H1 H2]. constructor.
  - intros e id He Hid. destruct (H1 e id He Hid) as (r & Hr & <- & Hx).
    exists (if p r then f r else r). destruct (Hsame r) as [S1 _ _ _ _ S6 _].
    unfold x402_reservation in *. rewrite S1, S6. split; [apply in_update_rows; by exists r|done].
  - intros e r t He Hun (r0 & Hr0 & ->)%in_update_rows Hid (t0 & Ht0 & ->)%in_update_rows Hft.
    destruct (Hsame r0) as [S1 _ _ _ _ S6 _]. unfold funds in Hft. rewrite S1 in Hid. rewrite S6 in Hft.
    destruct (pT t0) eqn:Ep.
    + destruct (Hg t0 Ht0 Ep) as [[S _ _ _ _ _ _] Hk]. rewrite S in Hft. apply Hk. by apply (H2 e r0 t0).
    + by apply (H2 e r0 t0).
Qed.
End CloseEvents.

(** ** Opening a reservation *)

Lemma in_snoc {X} (x y : X) l : In x (l ++ [y]) <-> In x l \/ x = y.
Proof. rewrite in_app_iff. cbn. intuition. Qed.

Lemma open_links R T r t :
  links_ok R T -> ~ In (res_id r) (map res_id R) -> ~ In (att_id t) (map att_id T) ->
  ~ In (attempt_slot t) (map attempt_slot T) -> funded r t -> quoted r -> links_ok (R ++ [r]) (T ++ [t]).
Proof.
  intros [K1 K2 K3 Hfd Hr Hu Hq] N1 N2 N3 Hfunded Hquoted.
  assert (Hfresh : forall r', In r' R -> res_reason_code r' <> res_reason_code r).
  { intros r' Hr' E. apply N2. destruct (Hr r' Hr') as (t' & Ht' & Hf').
    - eapply attempt_reason_x402. rewrite E. apply Hfunded.
    - replace (att_id t) with (att_id t'); [by apply in_map|]. apply attempt_reason_inj.
      rewrite <-Hf', E. apply Hfunded. }
  constructor; [by apply keyed_insert..| | | |].
  - intros t' [Ht'| ->]%in_snoc.
    + destruct (Hfd t' Ht') as (r' & Hr' & Hd). exists r'. rewrite in_snoc. auto.
    + exists r. rewrite in_snoc. auto.
  - intros r' [Hr'| ->]%in_snoc Hx.
    + destruct (Hr r' Hr' Hx) as (t' & Ht' & Hf'). exists t'. rewrite in_snoc. auto.
    + exists t. rewrite in_snoc. split; [by right|apply Hfunded].
  - intros r1 r2 [H1| ->]%in_snoc [H2| ->]%in_snoc Hx E; [by apply Hu| | |done].
    + by destruct (Hfresh r1 H1).
    + by destruct (Hfresh r2 H2).
  - intros r' [Hr'| ->]%in_snoc Hx; [by apply Hq|done].
Qed.

Lemma open_balance A R L r g :
  balance_ok A R L -> x402_reservation r = true -> res_status r = Reservation_reserved ->
  In (res_org_id r, res_agent_id r) (map account_owner A) ->
  (forall a, account_owner (g a) = account_owner a /\
     acct_reserved_usdc (g a) = acct_reserved_usdc a + res_amount_usdc r /\
     acct_spent_usdc (g a) = acct_spent_usdc a) ->
  balance_ok (update_rows (the_account (res_org_id r) (res_agent_id r)) g A) (R ++ [r]) L.
Proof.
  intros [K B1 B2 B3 O1 O2] Hx Hst Hin Hg.
  assert (Hacc : forall a, In a (update_rows (the_account (res_org_id r) (res_agent_id r)) g A) ->
    exists a0, In a0 A /\ acct_org_id a = acct_org_id a0 /\ acct_agent_id a = acct_agent_id a0 /\
    acct_reserved_usdc a = acct_reserved_usdc a0
      + (if of_agent (acct_org_id a) (acct_agent_id a) r then res_amount_usdc r else 0) /\
    acct_spent_usdc a = acct_spent_usdc a0).
  { intros a (a0 & Ha0 & ->)%in_update_rows. exists a0. split; [done|].
    rewrite (of_agent_owner r Hx). unfold the_account. destruct (_ && _) eqn:E.
    - destruct (Hg a0) as (H1 & H2 & H3). unfold account_owner in H1. injection H1 as -> ->. rewrite E. auto.
    - rewrite E. do 2 (split; [done|]). split; [lia|done]. }
  assert (Hmap : map account_owner (update_rows (the_account (res_org_id r) (res_agent_id r)) g A)
                 = map account_owner A).
  { rewrite update_rows_map, map_map. apply map_ext. intros a. destruct (the_account _ _ a); [apply Hg|done]. }
  constructor; rewrite ?Hmap.
  - unfold keyed. by rewrite Hmap.
  - intros a (a0 & Ha0 & -> & -> & -> & _)%Hacc. unfold held_total in *. rewrite sum_where_app, B1 by done.
    cbn [sum_where]. unfold held_by at 3. unfold reservation_held. rewrite Hst, bool_decide_eq_true_2 by done.
    rewrite andb_true_r. lia.
  - intros a (a0 & Ha0 & -> & -> & _ & ->)%Hacc. unfold settled_total in *. rewrite sum_where_app, B2 by done.
    cbn [sum_where]. unfold settled_by at 3. rewrite Hst, andb_false_r. lia.
  - intros a (a0 & Ha0 & -> & -> & _ & ->)%Hacc. auto.
  - intros r' [Hr'| ->]%in_snoc Hx'; [by apply O1|done].
  - exact O2.
Qed.

Lemma open_events E R T r t :
  events_ok E R T -> ~ In (res_id r) (map res_id R) -> ~ In (att_id t) (map att_id T) ->
  links_ok R T -> events_ok E (R ++ [r]) (T ++ [t]).
Proof.
  intros [H1 H2] N1 N2 Hl. constructor.
  - intros e id He Hid. destruct (H1 e id He Hid) as (r' & Hr' & ?). exists r'. rewrite in_snoc. auto.
  - intros e r' t' He Hun [Hr'| ->]%in_snoc Hid [Ht'| ->]%in_snoc Hf.
    + by apply (H2 e r').
    + destruct (lk_reason _ _ Hl r' Hr' (funds_x402 _ _ Hf)) as (t0 & Ht0 & Hf0). destruct N2.
      rewrite (funds_unique _ _ _ Hf Hf0). by apply in_map.
    + destruct (H1 e _ He Hid) as (r0 & Hr0 & Heq & _). destruct N1. rewrite <-Heq. by apply in_map.
    + destruct (H1 e _ He Hid) as (r0 & Hr0 & Heq & _). destruct N1. rewrite <-Heq. by apply in_map.
Qed.

(** What an owner has reserved or spent, in the book and in the tables. *)
Lemma exposure_totals T org agent R :
  exposure (org, agent) (map (payment_of T) (where_ x402_reservation R))
  = held_total org agent R + settled_total org agent R.
Proof.
  unfold exposure, held_total, settled_total. induction R as [|r R IH]; [done|]. cbn.
  assert (owned (org, agent) (payment_of T r) && x402_reservation r = held_by org agent r || settled_by org agent r) as Ho.
  { unfold owned, held_by, settled_by, of_agent, payment_of, phase_of, reservation_held. cbn.
    unfold same_owner. cbn. destruct (x402_reservation r), (res_org_id r =s org), (res_agent_id r =s agent), (res_status r); cbn; try done.
    all: by destruct (option_map att_status _) as [[]|]. }
  assert (held_by org agent r && settled_by org agent r = false) as Hd.
  { unfold held_by, settled_by, reservation_held. destruct (of_agent org agent r), (res_status r); done. }
  destruct (x402_reservation r); cbn; [|rewrite andb_false_r in Ho];
    destruct (held_by org agent r), (settled_by org agent r); try done; rewrite ?andb_true_r in Ho; rewrite ?Ho; cbn; lia.
Qed.

Lemma opening_spec (db db' : Db) r t a g :
  payments_ok db -> ~ In (res_id r) (map res_id (db T_payment_reservations)) ->
  funded r t -> att_status t = Attempt_reserved -> quoted r -> res_status r = Reservation_reserved ->
  ~ In (att_id t) (map att_id (db T_runtime_payment_attempts)) ->
  In a (db T_agent_payment_accounts) -> account_owner a = (res_org_id r, res_agent_id r) ->
  acct_spent_usdc a + acct_reserved_usdc a + res_amount_usdc r <= acct_budget_usdc a ->
  (forall a, budget_of (g a) = budget_of a) ->
  db' T_payment_reservations = db T_payment_reservations ++ [r] ->
  db' T_runtime_payment_attempts = db T_runtime_payment_attempts ++ [t] ->
  db' T_agent_payment_accounts
    = update_rows (the_account (res_org_id r) (res_agent_id r)) g (db T_agent_payment_accounts) ->
  rtc spend_step (book_of db) (book_of db').
Proof.
  intros [Hl Hb _ _] Hid Hf Hst Hq Hres Hatt Ha Ho Hle Hg HR HT HA. apply rtc_once. unfold book_of.
  rewrite HR, HT, HA, where_app.
  assert (map budget_of (update_rows (the_account (res_org_id r) (res_agent_id r)) g (db T_agent_payment_accounts))
          = map budget_of (db T_agent_payment_accounts)) as ->.
  { rewrite update_rows_map, map_map. apply map_ext. intros x. destruct (the_account _ _ x); [apply Hg|done]. }
  cbn [where_]. rewrite (funds_x402 _ _ (fd_funds _ _ Hf)), map_app.
  assert (map (payment_of (db T_runtime_payment_attempts ++ [t])) (where_ x402_reservation (db T_payment_reservations))
    = map (payment_of (db T_runtime_payment_attempts)) (where_ x402_reservation (db T_payment_reservations))) as ->.
  { apply map_ext_in. intros r' [Hr' Hx']%where_in. unfold payment_of. f_equal. apply phase_same_status.
    destruct (lk_reason _ _ Hl r' Hr' Hx') as (t' & Ht' & Hft').
    rewrite (attempt_of_some (db T_runtime_payment_attempts) r' t'); [|apply Hl|done|done].
    rewrite (attempt_of_some (db T_runtime_payment_attempts ++ [t]) r' t'); [done|..|done].
    - apply keyed_insert; [done|apply Hl].
    - apply in_snoc. by left. }
  cbn [map]. apply spend_reserve with (limit := acct_budget_usdc a).
  - cbn. apply in_map_iff. exists a. unfold budget_of. by rewrite Ho.
  - unfold payment_of, phase_of. cbn [py_phase]. rewrite Hres.
    rewrite (attempt_of_some (db T_runtime_payment_attempts ++ [t]) r t);
      [cbn [option_map]; by rewrite Hst|apply keyed_insert; [done|apply Hl]|apply in_snoc; by right|apply Hf].
  - cbn. by eapply accept_positive.
  - cbn. intros Hin. apply Hid. rewrite map_map in Hin. apply in_map_iff in Hin as (x & <- & [Hx _]%where_in).
    exact (in_map res_id _ _ Hx).
  - cbn. rewrite exposure_totals. unfold account_owner in Ho. injection Ho as <- <-.
    rewrite <-(bl_reserved _ _ _ Hb a Ha), <-(bl_spent _ _ _ Hb a Ha). lia.
Qed.

(** ** Appending events and postings; accounts *)

Lemma append_event E R T e r :
  events_ok E R T -> In r R -> x402_reservation r = true -> pe_reservation_id e = Some (res_id r) ->
  keyed res_id R ->
  (event_unknown e = true -> forall t, In t T -> funds r t -> att_status t = Attempt_unknown) ->
  events_ok (E ++ [e]) R T.
Proof.
  intros [H1 H2] Hr Hx Hid Hk Hun. constructor.
  - intros e' id [He| ->]%in_snoc Hid'; [by apply (H1 e')|]. exists r. rewrite Hid' in Hid. by injection Hid.
  - intros e' r' t [He| ->]%in_snoc Hu' Hr' Hid' Ht Hf; [by apply (H2 e' r')|].
    rewrite Hid' in Hid. injection Hid as Hid. rewrite (keyed_unique res_id R r' r) in Hf by done. by apply Hun.
Qed.

Lemma append_posting A R L q : balance_ok A R L -> is_settle q = false -> balance_ok A R (L ++ [q]).
Proof.
  intros [K B1 B2 B3 O1 O2] Hq. constructor; [done..| | |].
  - intros a Ha. rewrite B3 by done. unfold posted_total. rewrite sum_where_app. cbn [sum_where].
    unfold settle_posting at 3. rewrite Hq. cbn. lia.
  - done.
  - intros p agent [Hp| ->]%in_snoc Hs Ha; [by eapply O2|congruence].
Qed.

Lemma update_account A R L p g :
  balance_ok A R L ->
  (forall a, account_owner (g a) = account_owner a /\ acct_reserved_usdc (g a) = acct_reserved_usdc a /\
     acct_spent_usdc (g a) = acct_spent_usdc a) ->
  balance_ok (update_rows p g A) R L.
Proof.
  intros [K B1 B2 B3 O1 O2] Hg.
  assert (Hmap : map account_owner (update_rows p g A) = map account_owner A).
  { rewrite update_rows_map, map_map. apply map_ext. intros a. destruct (p a); [apply Hg|done]. }
  constructor; rewrite ?Hmap; [unfold keyed; by rewrite Hmap| | | |done..];
    intros a (a0 & Ha0 & ->)%in_update_rows; (destruct (p a0); [|by auto]);
    destruct (Hg a0) as (H1 & H2 & H3); unfold account_owner in H1; injection H1 as H1 H1';
    rewrite ?H1, ?H1', ?H2, ?H3; auto.
Qed.

Lemma insert_account A R L a :
  balance_ok A R L -> ~ In (account_owner a) (map account_owner A) ->
  acct_reserved_usdc a = 0 -> acct_spent_usdc a = 0 -> balance_ok (A ++ [a]) R L.
Proof.
  intros [K B1 B2 B3 O1 O2] Hn Hr Hs.
  assert (Hzero : forall (q : PaymentReservationRow -> bool),
    (forall r, In r R -> q r = true -> of_agent (acct_org_id a) (acct_agent_id a) r = true) ->
    sum_where q res_amount_usdc R = 0).
  { intros q Hq. rewrite (sum_where_ext q (fun _ => false)).
    - clear. induction R; cbn; lia.
    - intros r Hin. destruct (q r) eqn:E; [|done]. destruct Hn. specialize (Hq r Hin E).
      destruct (of_agent_other _ _ _ Hq) as [E1 E2]. unfold of_agent in Hq. bsimpl.
      unfold account_owner. rewrite <-E1, <-E2. by apply O1. }
  assert (Hposted : posted_total (acct_org_id a) (acct_agent_id a) L = 0).
  { unfold posted_total. rewrite (sum_where_ext _ (fun _ => false)).
    - clear. induction L; cbn; lia.
    - intros p Hin. destruct (settle_posting _ _ p) eqn:E; [|done]. destruct Hn.
      unfold settle_posting in E. bsimpl. unfold account_owner.
      match goal with H : post_org_id p = _ |- _ => rewrite <-H end. by eapply O2. }
  constructor.
  - by apply keyed_insert.
  - intros a' [Ha| ->]%in_snoc; [by apply B1|]. rewrite Hr. symmetry. apply Hzero.
    intros r _ H. unfold held_by in H. by bsimpl.
  - intros a' [Ha| ->]%in_snoc; [by apply B2|]. rewrite Hs. symmetry. apply Hzero.
    intros r _ H. unfold settled_by in H. by bsimpl.
  - intros a' [Ha| ->]%in_snoc; [by apply B3|]. by rewrite Hs, Hposted.
  - intros r Hin Hx. rewrite map_app, in_app_iff. left. by apply O1.
  - intros p agent Hp Hset Hag. rewrite map_app, in_app_iff. left. by eapply O2.
Qed.

(** ** The books as a whole *)

(** A reservation and its attempt are closed together, with the account, the
    postings and the events that go with it. *)
Record closing (db db' : Db) (s : ReservationStatus) (r : PaymentReservationRow) : Prop := mkClosing {
  cl_status : s = Reservation_settled \/ s = Reservation_released;
  cl_res : exists p f, closes s f /\ where_ p (db T_payment_reservations) = [r] /\
    db' T_payment_reservations = update_rows p f (db T_payment_reservations);
  cl_held : reservation_held r = true;
  cl_x402 : x402_reservation r = true;
  cl_account : exists pA g,
    (forall a, In a (db T_agent_payment_accounts) -> pA a = the_account (res_org_id r) (res_agent_id r) a) /\
    (forall a, account_owner (g a) = account_owner a /\
       acct_reserved_usdc (g a) = acct_reserved_usdc a - res_amount_usdc r /\
       acct_spent_usdc (g a) = acct_spent_usdc a
         + (if bool_decide (s = Reservation_settled) then res_amount_usdc r else 0) /\
       acct_budget_usdc (g a) = acct_budget_usdc a) /\
    db' T_agent_payment_accounts = update_rows pA g (db T_agent_payment_accounts);
  cl_postings : exists l, db' T_ledger_postings = db T_ledger_postings ++ l /\
    forall q, In q l -> post_org_id q = res_org_id r /\ post_agent_id q = Some (res_agent_id r);
  cl_posted : forall org agent, posted_total org agent (db' T_ledger_postings)
    = posted_total org agent (db T_ledger_postings)
      + (if (org =s res_org_id r) && (agent =s res_agent_id r)
         then (if bool_decide (s = Reservation_settled) then res_amount_usdc r else 0) else 0);
  cl_attempts : exists pT h,
    (forall t, In t (db T_runtime_payment_attempts) -> pT t = true ->
       same_attempt t (h t) /\ funds r t /\ status_agree (att_status (h t)) s /\
       status_le (att_status t) (att_status (h t)) /\
       (att_status t = Attempt_unknown -> att_status (h t) = Attempt_unknown)) /\
    (forall t, In t (db T_runtime_payment_attempts) -> pT t = false -> funds r t ->
       status_agree (att_status t) s) /\
    db' T_runtime_payment_attempts = update_rows pT h (db T_runtime_payment_attempts);
  cl_submitted : s = Reservation_settled -> forall t, In t (db T_runtime_payment_attempts) -> funds r t ->
    att_status t <> Attempt_reserved;
  cl_connections : db' T_connections = db T_connections;
  cl_events : exists es, db' T_payment_events = db T_payment_events ++ es /\
    forall e, In e es -> pe_reservation_id e = Some (res_id r) /\ event_unknown e = false
}.

Lemma append_events E R T es r :
  events_ok E R T -> In r R -> x402_reservation r = true -> keyed res_id R ->
  (forall e, In e es -> pe_reservation_id e = Some (res_id r) /\ event_unknown e = false) ->
  events_ok (E ++ es) R T.
Proof.
  intros He Hr Hx Hk. revert E He. induction es as [|e es IH]; intros E He Hes; [by rewrite app_nil_r|].
  rewrite (app_assoc E [e] es : E ++ e :: es = (E ++ [e]) ++ es). apply IH; [|intros; apply Hes; by right].
  destruct (Hes e (or_introl eq_refl)) as [H1 H2].
  apply append_event with (r := r); [done..|]. by rewrite H2.
Qed.

Lemma lives_on_update (db db' : Db) p f pT h :
  (forall r, same_reservation r (f r) /\ (reservation_held (f r) = true -> reservation_held r = true)) ->
  (forall t, In t (db T_runtime_payment_attempts) -> pT t = true ->
     same_attempt t (h t) /\ status_le (att_status t) (att_status (h t))) ->
  db' T_payment_reservations = update_rows p f (db T_payment_reservations) ->
  db' T_runtime_payment_attempts = update_rows pT h (db T_runtime_payment_attempts) ->
  rtc spend_step (book_of db) (book_of db') ->
  (forall r, In r (db T_payment_reservations) -> p r = true -> x402_reservation r = true) ->
  lives_on db db'.
Proof.
  intros Hf Hh HR HT Hsp Hpx. constructor; rewrite ?HR, ?HT; [..|done|].
  3: { apply where_update_apart. intros r Hr Hp. unfold plain_reservation, x402_reservation.
    rewrite (sr_reason _ _ (proj1 (Hf r))). specialize (Hpx r Hr Hp). unfold x402_reservation in Hpx. by rewrite Hpx. }
  - intros r Hr. exists (if p r then f r else r). split; [apply in_update_rows; by exists r|].
    destruct (p r); [apply Hf|auto with aops].
  - intros t Ht. exists (if pT t then h t else t). split; [apply in_update_rows; by exists t|].
    destruct (pT t) eqn:E; [auto|]. split; [auto with aops|by left].
Qed.

Lemma closing_spec db db' s r :
  payments_ok db -> closing db db' s r -> rtc spend_step (book_of db) (book_of db').
Proof.
  intros [Hl _ _ _] [Hs (p & f & Hf & Hp & HR) Hheld Hx (pA & g & _ & Hg & HA) _ _ (pT & h & Hh & _ & HT) Hsub _ _].
  destruct (closed_in _ _ _ Hp) as [Hr _].
  assert (Hpr : forall r', In r' (db T_payment_reservations) -> p r' = true -> r' = r).
  { intros r' Hr' E. assert (In r' [r]) as [->|[]] by (rewrite <-Hp; by apply where_in). done. }
  apply (book_advances db db' p f); [|apply Hf|done|].
  { rewrite HA, update_rows_map, map_map. apply map_ext. intros a. destruct (pA a); [|done].
    destruct (Hg a) as (H1 & _ & _ & H2). unfold budget_of. by rewrite H1, H2. }
  intros r' Hr' Hx'. destruct (lk_reason _ _ Hl r' Hr' Hx') as (t & Ht & Hft).
  assert (Hat : attempt_of (db T_runtime_payment_attempts) r' = Some t).
  { apply attempt_of_some; [apply Hl|done|done]. }
  destruct (p r') eqn:E.
  - assert (r' = r) as -> by (by apply Hpr). unfold phase_of at 2. rewrite (proj2 (Hf r)).
    unfold phase_of. rewrite Hat. cbn. unfold reservation_held in Hheld. apply bool_decide_eq_true in Hheld.
    rewrite Hheld. pose proof (fd_status _ _ (funded_of _ _ _ _ Hl Hr' Ht Hft)) as Hst. rewrite Hheld in Hst.
    destruct Hs as [-> | ->]; [specialize (Hsub eq_refl t Ht Hft)|];
      destruct (att_status t) eqn:Et; cbn in Hst; try done; constructor.
  - rewrite (phase_same_status (db T_runtime_payment_attempts) (db' T_runtime_payment_attempts) r'); [constructor|].
    rewrite HT, (attempt_of_update _ _ _ _ t), Hat; [|apply Hl|by intros x Hin Ep; destruct (Hh x Hin Ep)|done].
    destruct (pT t) eqn:Ep; [|done]. destruct (Hh t Ht Ep) as (_ & Hf2 & _). exfalso.
    replace r' with r in E; [by destruct (closed_in _ _ _ Hp); congruence|]. apply (lk_unique _ _ Hl); [done..|].
    unfold funds in *. congruence.
Qed.

Lemma closing_ok db db' s r : payments_ok db -> closing db db' s r -> payments_ok db' /\ lives_on db db'.
Proof.
  intros Hok Hc. pose proof (closing_spec db db' s r Hok Hc) as Hspec.
  destruct Hok as [Hl Hb He Hsc], Hc as [Hs (p & f & Hf & Hp & HR) Hheld Hx (pA & g & HpA & Hg & HA) (l & HL & Hl1)
    Hposted (pT & h & Hh & Ht & HT) _ HC (es & HE & Hes)].
  assert (Hs' : s <> Reservation_reserved) by (by destruct Hs as [-> | ->]).
  assert (Hlinks : links_ok (db' T_payment_reservations) (db' T_runtime_payment_attempts)).
  { rewrite HR, HT. apply (close_links _ _ _ _ _ _ s r); [done..| |done].
    intros t Hin E. destruct (Hh t Hin E) as (? & ? & ? & _). done. }
  split; [constructor|].
  - done.
  - rewrite HR, HA, HL. apply (close_balance _ _ _ _ _ _ _ _ s r); [done..| | | |done|apply Hl].
    + intros a. by destruct (Hg a) as (? & ? & ? & _).
    + intros org agent. specialize (Hposted org agent). rewrite HL in Hposted. unfold posted_total in *.
      rewrite sum_where_app in Hposted. lia.
    + intros q agent Hq _ Ha. destruct (Hl1 q Hq) as [-> E]. rewrite E in Ha. by injection Ha as ->.
  - rewrite HE. destruct (close_kept (db T_payment_reservations) p f s Hf Hs' r) as (r' & Hr' & [S1 _ _ _ _ S6 _] & _).
    { apply (closed_in _ p r Hp). }
    eapply append_events with (r := r'); [|by rewrite HR| |apply Hlinks|by rewrite S1].
    + rewrite HR, HT. eapply close_events; [done| |done].
      intros t Hin E. destruct (Hh t Hin E) as (? & _ & _ & _ & ?). done.
    + unfold x402_reservation in *. by rewrite S6.
  - rewrite HT, HC. apply scope_updated; [done|]. intros t Hin E. by destruct (Hh t Hin E).
  - eapply lives_on_update; [| |exact HR|exact HT|done|].
    + intros r0. destruct (Hf r0) as [? Hst]. split; [done|]. unfold reservation_held. rewrite Hst.
      by rewrite bool_decide_eq_false_2.
    + intros t Hin E. destruct (Hh t Hin E) as (? & _ & _ & ? & _). done.
    + intros r' Hr' E. assert (In r' [r]) as [->|[]] by (rewrite <-Hp; by apply where_in). done.
Qed.

Lemma touching_spec (db db' : Db) p f :
  payments_ok db ->
  (forall t, In t (db T_runtime_payment_attempts) -> p t = true -> touches f t) ->
  db' T_runtime_payment_attempts = update_rows p f (db T_runtime_payment_attempts) ->
  db' T_payment_reservations = db T_payment_reservations ->
  db' T_agent_payment_accounts = db T_agent_payment_accounts ->
  rtc spend_step (book_of db) (book_of db').
Proof.
  intros [Hl _ _ _] Hf HT HR HA. apply (book_advances db db' (fun _ => false) (fun r => r)).
  - by rewrite HA.
  - auto with aops.
  - rewrite HR, update_rows_none; [done|]. by apply where_none.
  - intros r Hr Hx. destruct (lk_reason _ _ Hl r Hr Hx) as (t & Ht & Hft).
    assert (Hat : attempt_of (db T_runtime_payment_attempts) r = Some t).
    { apply attempt_of_some; [apply Hl|done|done]. }
    unfold phase_of. rewrite HT, (attempt_of_update _ _ _ _ t), Hat; [|apply Hl|by intros x Hin Ep; apply Hf|done].
    cbn. destruct (res_status r); try constructor.
    destruct (p t) eqn:E; [|constructor]. destruct (Hf t Ht E) as [_ [->|[[-> ->]|[-> ->]]]]; constructor.
Qed.

Lemma same_spec (db db' : Db) :
  db' T_runtime_payment_attempts = db T_runtime_payment_attempts ->
  db' T_payment_reservations = db T_payment_reservations ->
  db' T_agent_payment_accounts = db T_agent_payment_accounts ->
  rtc spend_step (book_of db) (book_of db').
Proof. intros HT HR HA. unfold book_of. by rewrite HT, HR, HA. Qed.

(** Attempts are touched, events appended. *)
Lemma touching_ok db db' p f :
  payments_ok db ->
  (forall t, In t (db T_runtime_payment_attempts) -> p t = true -> touches f t) ->
  db' T_runtime_payment_attempts = update_rows p f (db T_runtime_payment_attempts) ->
  db' T_payment_reservations = db T_payment_reservations ->
  db' T_agent_payment_accounts = db T_agent_payment_accounts ->
  db' T_ledger_postings = db T_ledger_postings -> db' T_payment_events = db T_payment_events ->
  db' T_connections = db T_connections -> payments_ok db' /\ lives_on db db'.
Proof.
  intros [Hl Hb He Hsc] Hf HT HR HA HL HE HC. split; [constructor|].
  - rewrite HR, HT. by apply touch_links.
  - by rewrite HA, HR, HL.
  - rewrite HE, HR, HT. by apply touch_events.
  - rewrite HC, HT. apply scope_updated; [done|]. intros t Hin E. by destruct (Hf t Hin E).
  - constructor; rewrite ?HR, ?HT.
    + intros r Hr. exists r. auto with aops.
    + intros t Ht. exists (if p t then f t else t). split; [apply in_update_rows; by exists t|].
      destruct (p t) eqn:E; [|split; [auto with aops|by left]]. destruct (Hf t Ht E) as [? [->|[[-> ->]|[-> ->]]]];
      (split; [done|]); [by left|by right..].
    + by eapply touching_spec.
    + done.
Qed.

Lemma books_keeps {A} (m : M A) :
  keeps T_payment_reservations m -> keeps T_runtime_payment_attempts m ->
  keeps T_agent_payment_accounts m -> keeps T_ledger_postings m -> keeps T_payment_events m ->
  keeps T_connections m -> books m.
Proof.
  intros H1 H2 H3 H4 H5 H6 w [Hl Hb He Hsc].
  split; [constructor|constructor]; rewrite ?H1, ?H2, ?H3, ?H4, ?H5, ?H6; auto.
  - intros r Hr. exists r. auto with aops.
  - intros t Ht. exists t. split; [done|]. split; [auto with aops|by left].
  - by apply same_spec.
Qed.

Lemma books_touch p f :
  (forall t, p t = true -> touches f t) -> books (update T_runtime_payment_attempts p f).
Proof.
  intros Hf w Hw. unfold update. cbn zeta. destruct (forallb _ _); cbn [negb snd w_db with_db].
  - apply touching_ok with (p := p) (f := f); [done|by auto|apply db_set_same|..]; by apply db_set_other.
  - split; [done|apply lives_on_refl].
Qed.

Lemma books_bind {A B} (m : M A) (k : A -> M B) : books m -> (forall a, books (k a)) -> books (bind m k).
Proof. apply sound_bind, lives_on_trans. Qed.
Lemma books_catch {A} (m : M A) h : books m -> (forall e, books (h e)) -> books (catch m h).
Proof. apply sound_catch, lives_on_trans. Qed.
Lemma books_transaction {A} (m : M A) : books m -> books (withTransaction m).
Proof. apply sound_transaction, lives_on_refl. Qed.
Lemma books_commit {A} (m : M A) :
  (forall w a w', payments_ok (w_db w) -> m w = (Ok a, w') -> payments_ok (w_db w') /\ lives_on (w_db w) (w_db w')) ->
  books (withTransaction m).
Proof. apply sound_commit, lives_on_refl. Qed.
Lemma books_for_each {A S} (f : S -> A -> M S) l : (forall s x, books (f s x)) -> forall s, books (for_each f l s).
Proof. apply sound_for_each; [apply lives_on_refl|apply lives_on_trans]. Qed.
Lemma books_run {A} (m : M A) w r w' :
  books m -> m w = (r, w') -> payments_ok (w_db w) -> payments_ok (w_db w') /\ lives_on (w_db w) (w_db w').
Proof. apply sound_run. Qed.

Create HintDb books discriminated.
Ltac books_step :=
  first
  [ solve [auto with books nocore]
  | solve [apply books_keeps; solve_keeps]
  | match goal with
    | |- books (bind _ _) => apply books_bind; [|intros ?]
    | |- books (withTransaction _) => apply books_transaction
    | |- books (catch _ _) => apply books_catch; [|intros ?]
    | |- books (for_each _ _ _) => apply books_for_each; intros ? ?
    | |- books (match ?x with _ => _ end) => destruct x
    | |- books (if ?b then _ else _) => destruct b
    | |- books (let '(_, _) := ?x in _) => destruct x
    end ].
Ltac solve_books := repeat books_step.
