(* ===== verification/BudgetOps.v ===== *)
(** The operations on payments keep the books: reading and marking attempts,
    retention, cancellation, preparation, settlement, resolution, access. *)

From S2P Require Import Prelude Errors Usdc Json Policy Quotes ResultCrypto PaidHttp Schema Host Ledger.
From S2P Require Import AuditLog AuditChain PolicyStore Approvals ApprovalsThms Attempts Accounts Prepare.
From S2P Require Import Settlement Liquidity Pay BudgetSpec Budget.
Open Scope Z_scope.

Ltac bdec :=
  repeat match goal with H : (fun _ => _) _ = _ |- _ => cbv beta in H end;
  bsimpl; repeat match goal with
  | H : bool_decide _ = true |- _ => apply bool_decide_eq_true in H
  | H : bool_decide _ = false |- _ => apply bool_decide_eq_false in H
  end.

(** Reads whose type names the row by its record. *)
#[export] Hint Extern 2 (keeps _ (select_one _ _)) => (intros ?; reflexivity) : keeps.
#[export] Hint Extern 2 (keeps _ (select _ _)) => (intros ?; reflexivity) : keeps.

(** ** Marks on attempts *)

Lemma scrub_touches now t : touches (scrub now) t.
Proof. split; [by constructor|by left]. Qed.

Lemma metadata_touches new now t : touches (add_metadata new now) t.
Proof. split; [by constructor|by left]. Qed.

Lemma submitting_touches now t : att_status t = Attempt_reserved -> touches (submitting_row now) t.
Proof. intros E. split; [by constructor|by right; left]. Qed.

Lemma findAttempt_books c k : books (findAttempt c k).
Proof.
  unfold findAttempt. solve_books. apply books_touch. intros t _. apply scrub_touches.
Qed.
#[export] Hint Resolve findAttempt_books : books.

Lemma purge_books limit : books (purgeExpiredX402Results limit).
Proof. unfold purgeExpiredX402Results. solve_books. apply books_touch. intros t _. apply scrub_touches. Qed.

Lemma transition_books scope id required f :
  (forall t, att_status t = required -> touches f t) -> books (transition scope id required f).
Proof.
  intros Hf. unfold transition. solve_books. apply books_touch. intros t Ht. bsimpl. apply Hf.
  by eapply bool_decide_eq_true.
Qed.

Lemma markSubmitting_books scope id : books (markSubmitting scope id).
Proof.
  unfold markSubmitting. solve_books. apply transition_books. intros t. apply submitting_touches.
Qed.
#[export] Hint Resolve markSubmitting_books : books.

Lemma markRetryable_books auth id reason : books (markPaidHttpAttemptRetryable auth id reason).
Proof.
  unfold markPaidHttpAttemptRetryable. solve_books. apply books_touch. intros t _. apply metadata_touches.
Qed.
#[export] Hint Resolve markRetryable_books : books.

Section Evidence.
Context `{X402ResultCryptoCodec Stored}.

Lemma fresh_iv_keeps t : keeps t fresh_iv.
Proof. done. Qed.
#[local] Hint Resolve fresh_iv_keeps : keeps.

Lemma evidence_books auth id settlement debug : books (persistPaidHttpProviderEvidence auth id settlement debug).
Proof.
  unfold persistPaidHttpProviderEvidence, update_submitting, seal. solve_books.
  apply books_touch. intros t _. split; [by constructor|by left].
Qed.
End Evidence.
#[export] Hint Resolve evidence_books : books.

(** ** Cancellation *)

Definition candidate_ok (orgId agentId : string) (c : Candidate) (db : Db) : Prop :=
  exists r, In r (db T_payment_reservations) /\ res_id r = cd_reservation_id c /\
  res_amount_usdc r = cd_amount_usdc c /\ res_reason_code r = attempt_reason (cd_attempt_id c) /\
  res_org_id r = orgId /\ res_agent_id r = agentId.

Lemma candidate_lives orgId agentId c db db' :
  lives_on db db' -> candidate_ok orgId agentId c db -> candidate_ok orgId agentId c db'.
Proof.
  intros [HR _ _ _] (r & Hr & H1 & H2 & H3 & H4 & H5). destruct (HR r Hr) as (r' & Hr' & [S1 S2 S3 _ S5 S6 _] & _).
  exists r'. split; [done|]. by rewrite S1, S2, S3, S5, S6.
Qed.

(** An update that reports one row changed the one row of the key. *)
Lemma where_single {X K} (key : X -> K) p l r k :
  keyed key l -> where_ p l = [r] -> (forall x, p x = true -> key x = k) ->
  forall x, In x l -> key x = k -> p x = true.
Proof.
  intros Hk Hw Hp x Hx E. assert (In r (where_ p l)) as [Hr Hpr]%where_in by (rewrite Hw; by left).
  replace x with r; [done|]. apply (keyed_unique key l); [done..|]. by rewrite E, (Hp r Hpr).
Qed.

Lemma map_single {X Y} (f : X -> Y) l y : map f l = [y] -> exists x, l = [x] /\ y = f x.
Proof. destruct l as [|x [|]]; cbn; [done| |done]. intros [= <-]. by exists x. Qed.

Lemma length_single {X} (l : list X) : negb (length l =? 1)%nat = false -> exists x, l = [x].
Proof. destruct l as [|x [|]]; [done|by exists x|done]. Qed.

Lemma same_tables_ok (db db' : Db) :
  payments_ok db -> db' T_payment_reservations = db T_payment_reservations ->
  db' T_runtime_payment_attempts = db T_runtime_payment_attempts ->
  db' T_agent_payment_accounts = db T_agent_payment_accounts ->
  db' T_ledger_postings = db T_ledger_postings -> db' T_payment_events = db T_payment_events ->
  db' T_connections = db T_connections -> payments_ok db' /\ lives_on db db'.
Proof.
  intros Hok HR HT HA HL HE HC.
  apply touching_ok with (p := fun _ => false) (f := fun t => t); [done|done| |done..].
  rewrite HT, update_rows_none; [done|]. by apply where_none.
Qed.

(** Selecting one reservation by its id. *)
Lemma reservation_where org id (R : list PaymentReservationRow) r l :
  keyed res_id R ->
  where_ (fun r0 => the_reservation org id r0 && reservation_held r0) R = r :: l ->
  l = [] /\ In r R /\ res_id r = id /\ res_org_id r = org /\ reservation_held r = true.
Proof.
  intros Hk Hw. destruct (keyed_where_one res_id R _ r l id Hk Hw) as (E & Hin & Hp).
  - intros r' H. unfold the_reservation in H. by bsimpl.
  - rewrite Hw in E. injection E as ->. unfold the_reservation in Hp. by bsimpl.
Qed.

(** The account updates: every row of the owner is selected. *)
Lemma account_selected (A : list AgentPaymentAccountRow) org agent q a0 :
  keyed account_owner A -> where_ (fun a => the_account org agent a && q a) A = [a0] ->
  forall a, In a A -> the_account org agent a && q a = the_account org agent a.
Proof.
  intros Hk Hw a Ha. destruct (the_account org agent a) eqn:E; [|done].
  apply (where_single account_owner _ A a0 (org, agent) Hk Hw) in Ha.
  - by rewrite E in Ha.
  - intros x H. unfold the_account in H. bsimpl. unfold account_owner. congruence.
  - unfold the_account in E. bsimpl. unfold account_owner. congruence.
Qed.

Lemma cancel_candidate_ok orgId agentId n c w n' w' :
  payments_ok (w_db w) -> candidate_ok orgId agentId c (w_db w) ->
  cancel_candidate orgId agentId n c w = (Ok n', w') ->
  payments_ok (w_db w') /\ lives_on (w_db w) (w_db w').
Proof.
  intros Hok (r & Hr & Hid & Ham & Hreason & Horg & Hag) E. pose proof Hok as [Hl Hb He _].
  unfold cancel_candidate in E. runs E.
  match type of H with ?l = map _ ?m => destruct m as [|r1 l1] eqn:Ew; cbn [map] in H; subst l end.
  { runs E. apply same_tables_ok; [done|..]; tables; [|done..]. by apply update_rows_none. }
  destruct (reservation_where _ _ _ _ _ (lk_res _ _ Hl) Ew) as (-> & Hr1 & Hid1 & Horg1 & Hheld).
  assert (r1 = r) as -> by (apply (keyed_unique res_id _ _ _ (lk_res _ _ Hl)); [done..|congruence]).
  cbn [map] in E. runs E.
  rewrite length_map in H4, H7. tables_in H4. tables_in H7.
  apply length_single in H4 as (a & Ha). apply length_single in H7 as (t & Ht).
  eapply closing_ok with (r := r) (s := Reservation_released); [done|]. constructor.
  - by right.
  - eexists _, _. split; [apply close_reservation_closes|]. split; [exact Ew|]. by tables.
  - done.
  - by eapply attempt_reason_x402.
  - eexists _, _. split; [by eapply account_selected, Ha; apply Hb|]. split; [|by tables].
    intros x. cbn. rewrite bool_decide_eq_false_2, Ham, Z.add_0_r by done. done.
  - exists []. split; [rewrite app_nil_r; by tables|done].
  - intros org ag. tables. rewrite bool_decide_eq_false_2 by done. destruct (_ && _); lia.
  - eexists _, _. split; [|split; [|by tables]].
    + intros x Hx Hp. bdec. split; [by constructor|]. split; [unfold funds; rewrite Hreason; by f_equal|]. split; [done|].
      split; [right; by destruct (att_status x)|]. congruence.
    + intros x Hx Hp Hfx. exfalso. revert Hp. apply not_false_iff_true.
      apply (where_single att_id _ _ t (cd_attempt_id c) (lk_att _ _ Hl) Ht); [intros; by bdec|done|].
      apply attempt_reason_inj. congruence.
  - done.
  - by tables.
  - exists []. rewrite app_nil_r. by tables.
Qed.

Lemma candidates_ok now approvals orgId agentId T R c (db : Db) :
  (forall t, In t T -> att_org_id t = orgId /\ att_agent_id t = agentId) ->
  db T_payment_reservations = R -> In c (flat_map (candidates_of now approvals R) T) ->
  candidate_ok orgId agentId c db.
Proof.
  intros HT HR (t & Ht & (r & <- & [Hr Hp]%where_in)%in_map_iff)%in_flat_map. cbn.
  destruct (HT t Ht) as [<- <-]. bdec. exists r. by rewrite HR.
Qed.

(** A loop whose turns keep an invariant, when it ends. *)
Lemma for_each_ok {X S} (P : World -> Prop) (Q : World -> World -> Prop) (f : S -> X -> M S) l :
  (forall w, Q w w) -> (forall a b c, Q a b -> Q b c -> Q a c) ->
  (forall s x w s' w', In x l -> P w -> f s x w = (Ok s', w') -> P w' /\ Q w w') ->
  forall s w s' w', P w -> for_each f l s w = (Ok s', w') -> P w' /\ Q w w'.
Proof.
  intros Hr Ht. induction l as [|x l IH]; intros Hf s w s' w' Hw E; cbn in E.
  - apply ret_ok in E as [_ ->]. auto.
  - apply bind_ok in E as (s1 & w1 & E1 & E2). destruct (Hf s x w s1 w1 (or_introl eq_refl) Hw E1) as [H1 H2].
    destruct (IH (fun s x w s' w' H => Hf s x w s' w' (or_intror H)) s1 w1 s' w' H1 E2) as [H3 H4].
    split; [done|]. by eapply Ht.
Qed.

Lemma cancelStranded_books orgId agentId : books (cancelStrandedReservedAttempts true orgId agentId).
Proof.
  apply books_commit. intros w n w' Hw E. runs E. cbv zeta in E.
  match type of E with for_each _ ?l0 _ _ = _ => set (l := l0) in E end.
  assert (Hc : forall c, In c l -> candidate_ok orgId agentId c (w_db w)).
  { intros c Hin. eapply Permutation_in in Hin; [|apply sort_by_perm].
    eapply candidates_ok; [|reflexivity|].
    2: { rewrite !where_all in Hin. exact Hin. }
    intros t [_ Ht]%where_in. by bdec. }
  assert (Hp : (payments_ok (w_db w') /\ (forall c, In c l -> candidate_ok orgId agentId c (w_db w')))
    /\ lives_on (w_db w) (w_db w')); [|split; apply Hp].
  eapply (for_each_ok (fun w => payments_ok (w_db w) /\ (forall c, In c l -> candidate_ok orgId agentId c (w_db w)))
    (fun w w' => lives_on (w_db w) (w_db w')) (cancel_candidate orgId agentId) l); [..|exact E].
  - intros. apply lives_on_refl.
  - intros a b c. apply lives_on_trans.
  - intros s c w1 s' w2 Hin [H1 H2] Ec. destruct (cancel_candidate_ok _ _ _ _ _ _ _ H1 (H2 c Hin) Ec) as [H3 H4].
    split; [|done]. split; [done|]. intros c' Hc'. eapply candidate_lives; [exact H4|by apply H2].
  - done.
Qed.
#[export] Hint Resolve cancelStranded_books : books.


(** ** Finalization *)

(** What was prepared is on the books: its reservation exists, with the amount
    of the quote.  Rows keep what this says for ever. *)
Definition prepared_ok (auth : ConnectionAuthResult) (p : PreparedPaidHttpPayment) (db : Db) : Prop :=
  exists r, In r (db T_payment_reservations) /\ res_id r = pp_reservationId p /\
  res_org_id r = auth_org_id auth /\ res_agent_id r = auth_agent_id auth /\
  res_amount_usdc r = q_amountMicros (pp_quote p) /\
  res_reason_code r = attempt_reason (att_id (pp_attempt p)).

Lemma prepared_lives auth p db db' : lives_on db db' -> prepared_ok auth p db -> prepared_ok auth p db'.
Proof.
  intros [HR _ _ _] (r & Hr & H1 & H2 & H3 & H4 & H5). destruct (HR r Hr) as (r' & Hr' & [S1 S2 S3 _ S5 S6 _] & _).
  exists r'. split; [done|]. by rewrite S1, S2, S3, S5, S6.
Qed.

Ltac tabs_step := first [tables_step | frame_step].
Ltac tabs := repeat tabs_step.

Definition submitting_of (auth : ConnectionAuthResult) (attemptId : string) (t : X402AttemptRow) : bool :=
  the_attempt (auth_org_id auth) (auth_connection_id auth) attemptId t
  && bool_decide (att_status t = Attempt_submitting).

Lemma update_submitting_ok auth id f w x w' :
  update_submitting auth id f w = (Ok x, w') ->
  (exists t, where_ (submitting_of auth id) (w_db w T_runtime_payment_attempts) = [t]) /\
  w_db w' = db_set T_runtime_payment_attempts
    (update_rows (submitting_of auth id) f (w_db w T_runtime_payment_attempts)) (w_db w).
Proof.
  intros E. unfold update_submitting in E. runs E.
  match goal with H : negb _ = false |- _ => rewrite length_map in H; apply length_single in H end. done.
Qed.

Lemma update_submitting_keeps auth id f t :
  T_runtime_payment_attempts <> t -> keeps t (update_submitting auth id f).
Proof. intros Ht. unfold update_submitting. solve_keeps. Qed.
#[export] Hint Resolve update_submitting_keeps : keeps.

(** The reservation of an attempt that is submitting is held. *)
Lemma submitting_held auth p w t :
  payments_ok (w_db w) -> prepared_ok auth p (w_db w) ->
  where_ (submitting_of auth (att_id (pp_attempt p))) (w_db w T_runtime_payment_attempts) = [t] ->
  exists r, where_ (fun r => the_reservation (auth_org_id auth) (pp_reservationId p) r && reservation_held r)
              (w_db w T_payment_reservations) = [r] /\
  reservation_held r = true /\ x402_reservation r = true /\ funds r t /\
  res_org_id r = auth_org_id auth /\ res_agent_id r = auth_agent_id auth /\
  res_amount_usdc r = q_amountMicros (pp_quote p) /\ res_id r = pp_reservationId p /\
  att_status t = Attempt_submitting /\ In t (w_db w T_runtime_payment_attempts) /\
  (forall t', In t' (w_db w T_runtime_payment_attempts) -> funds r t' ->
     submitting_of auth (att_id (pp_attempt p)) t' = true).
Proof.
  intros [Hl _ _ _] (r & Hr & H1 & H2 & H3 & H4 & H5) Hw.
  assert (In t (w_db w T_runtime_payment_attempts) /\ submitting_of auth (att_id (pp_attempt p)) t = true)
    as [Hin Hsub] by (apply where_in; rewrite Hw; by left).
  pose proof Hsub as Hsub'. unfold submitting_of, the_attempt in Hsub'. bdec.
  assert (Hf : funds r t) by (unfold funds; rewrite H5; by f_equal).
  pose proof (funded_of _ _ _ _ Hl Hr Hin Hf) as Hfd.
  assert (Hst : reservation_held r = true).
  { pose proof (fd_status _ _ Hfd) as Ha. match goal with H : att_status t = _ |- _ => rewrite H in Ha end.
    unfold reservation_held. by rewrite Ha. }
  exists r. split.
  { apply (keyed_where res_id); [apply Hl|done| |].
    - unfold the_reservation. by rewrite H1, H2, !eqs_refl, Hst.
    - intros r' Hr'. unfold the_reservation in Hr'. bdec. congruence. }
  do 2 (split; [first [done|by eapply attempt_reason_x402]|]). do 7 (split; [done|]).
  intros t' Ht' Hf'. replace t' with t; [done|]. apply (keyed_unique att_id _ _ _ (lk_att _ _ Hl) Hin Ht').
  by eapply funds_unique.
Qed.

(** A payment that was submitted is closed: settled with [spend], or released
    with [unreserve]. *)
Definition close_account (s : ReservationStatus) (amount now : Z) : AgentPaymentAccountRow -> AgentPaymentAccountRow :=
  match s with Reservation_settled => spend amount now | _ => unreserve amount now end.

Lemma finish_ok auth p w (db' : Db) s now nowA q e h :
  s = Reservation_settled \/ s = Reservation_released ->
  payments_ok (w_db w) -> prepared_ok auth p (w_db w) ->
  (exists t, where_ (submitting_of auth (att_id (pp_attempt p))) (w_db w T_runtime_payment_attempts) = [t]) ->
  db' T_payment_reservations = update_rows
    (fun r => the_reservation (auth_org_id auth) (pp_reservationId p) r && reservation_held r)
    (close_reservation s now) (w_db w T_payment_reservations) ->
  db' T_agent_payment_accounts = update_rows (the_account (auth_org_id auth) (auth_agent_id auth))
    (close_account s (q_amountMicros (pp_quote p)) nowA) (w_db w T_agent_payment_accounts) ->
  db' T_ledger_postings = w_db w T_ledger_postings ++ [q] ->
  post_org_id q = auth_org_id auth -> post_agent_id q = Some (auth_agent_id auth) ->
  is_settle q = bool_decide (s = Reservation_settled) -> post_amount_usdc q = q_amountMicros (pp_quote p) ->
  db' T_runtime_payment_attempts = update_rows (submitting_of auth (att_id (pp_attempt p))) h
    (w_db w T_runtime_payment_attempts) ->
  (forall t, same_attempt t (h t) /\ status_agree (att_status (h t)) s
             /\ att_status (h t) <> Attempt_reserved) ->
  db' T_payment_events = w_db w T_payment_events ++ [e] ->
  pe_reservation_id e = Some (pp_reservationId p) -> event_unknown e = false ->
  db' T_connections = w_db w T_connections -> payments_ok db' /\ lives_on (w_db w) db'.
Proof.
  intros Hs Hok Hp (t & Ht) HR HA HL Hq1 Hq2 Hq3 Hq4 HT Hh HE He1 He2 HC.
  destruct (submitting_held auth p w t Hok Hp Ht)
    as (r & Hw & Hheld & Hx & Hf & Horg & Hag & Ham & Hid & Hst & Hin & Hall).
  apply closing_ok with (r := r) (s := s); [done|]. constructor; [done| |done|done|..].
  - eexists _, _. split; [apply close_reservation_closes|]. by split.
  - eexists _, _. split; [intros a _; by rewrite Horg, Hag|]. split; [|exact HA]. intros a.
    rewrite Ham. destruct Hs as [-> | ->]; cbn; rewrite ?Z.add_0_r; done.
  - eexists. split; [exact HL|]. intros q' [<-|[]]. by rewrite Horg, Hag.
  - intros org ag. rewrite HL. unfold posted_total. rewrite sum_where_app. cbn [sum_where].
    unfold settle_posting at 2. rewrite Hq1, Hq2, Hq3, Hq4, Horg, Hag, Ham, (eqs_sym org), (eqs_sym ag). cbn [eqo].
    destruct (bool_decide _), (_ =s org), (_ =s ag); cbn; lia.
  - eexists _, _. split; [|split; [|exact HT]].
    + intros t' Ht' Hp'. destruct (Hh t') as (H1 & H2 & H3).
      assert (In t' (where_ (submitting_of auth (att_id (pp_attempt p))) (w_db w T_runtime_payment_attempts)))
        as Hi by (by apply where_in). rewrite Ht in Hi. destruct Hi as [<-|[]].
      rewrite Hst. do 3 (split; [done|]). split; [by right|done].
    + intros t' Ht' Hp' Hf'. by rewrite (Hall t' Ht' Hf') in Hp'.
  - intros _ t' Ht' Hf' E. pose proof (Hall t' Ht' Hf') as Hs'. unfold submitting_of in Hs'. bdec. congruence.
  - done.
  - eexists. split; [exact HE|]. intros e' [<-|[]]. by rewrite Hid.
Qed.

Section Finalize.
Context {CO : Collation} {SH : Sha256} {CR : X402ResultCryptoCodec Stored}.

Lemma seal_keeps auth id v t : keeps t (seal auth id v).
Proof. unfold seal. apply keeps_bind; [done|]. intros iv. solve_keeps. Qed.
#[local] Hint Resolve seal_keeps : keeps.

Lemma recordRouteObservation_keeps i t :
  T_payment_route_observations <> t -> keeps t (recordRouteObservation i).
Proof. intros Ht. unfold recordRouteObservation. solve_keeps. Qed.
#[local] Hint Resolve recordRouteObservation_keeps : keeps.

Lemma writePosting_step i q w w' :
  writePosting i w = (Ok q, w') ->
  (exists id, q = posting_of i id (w_now w)) /\
  w_db w' T_ledger_postings = w_db w T_ledger_postings ++ [q] /\
  (forall t, t <> T_ledger_postings -> w_db w' t = w_db w t).
Proof.
  intros E. destruct (writePosting_ok _ _ _ _ E) as (id & H1 & _ & _ & H2).
  split; [by exists id|]. split; [done|]. intros t Ht. eapply keeps_run; [by apply writePosting_keeps|exact E].
Qed.

Lemma finalizeSettled_ok auth p settlement debug w x w' :
  payments_ok (w_db w) -> prepared_ok auth p (w_db w) ->
  finalizeSettledPaidHttpPayment auth p settlement debug w = (Ok x, w') ->
  payments_ok (w_db w') /\ lives_on (w_db w) (w_db w').
Proof.
  intros Hok Hp E. unfold finalizeSettledPaidHttpPayment in E.
  destruct (sr_payment settlement) as [payment|]; [|runs E].
  destruct (negb _); [runs E|]. apply transaction_ok in E. cbv zeta in E.
  unfold settle_reservation in E. runs E.
  match goal with H : update_submitting _ _ _ _ = _ |- _ =>
    apply update_submitting_ok in H as [(t & Ht) HT] end.
  match goal with H : writePosting _ _ = _ |- _ => pose proof H as Hpost;
    apply writePosting_step in Hpost as ((id & Hq) & HL & _) end.
  assert (Ht' : where_ (submitting_of auth (att_id (pp_attempt p))) (w_db w T_runtime_payment_attempts) = [t]).
  { rewrite <-Ht. f_equal. symmetry. by tabs. }
  eapply finish_ok with (s := Reservation_settled); [by left|exact Hok|exact Hp|by eexists|..].
  - by tabs.
  - by tabs.
  - tabs. rewrite HL. by tabs.
  - by rewrite Hq.
  - by rewrite Hq.
  - by rewrite Hq.
  - by rewrite Hq.
  - by tabs.
  - intros t'. split; [by constructor|]. by split.
  - by tabs.
  - done.
  - done.
  - by tabs.
Qed.

(** An unknown outcome keeps the reservation; its event says so. *)
Lemma unknown_ok auth p w (db' : Db) e h :
  payments_ok (w_db w) -> prepared_ok auth p (w_db w) ->
  (exists t, where_ (submitting_of auth (att_id (pp_attempt p))) (w_db w T_runtime_payment_attempts) = [t]) ->
  db' T_payment_reservations = w_db w T_payment_reservations ->
  db' T_agent_payment_accounts = w_db w T_agent_payment_accounts ->
  db' T_ledger_postings = w_db w T_ledger_postings ->
  db' T_runtime_payment_attempts = update_rows (submitting_of auth (att_id (pp_attempt p))) h
    (w_db w T_runtime_payment_attempts) ->
  (forall t, same_attempt t (h t) /\ att_status (h t) = Attempt_unknown) ->
  db' T_payment_events = w_db w T_payment_events ++ [e] ->
  pe_reservation_id e = Some (pp_reservationId p) -> db' T_connections = w_db w T_connections ->
  payments_ok db' /\ lives_on (w_db w) db'.
Proof.
  intros Hok Hp (t & Ht) HR HA HL HT Hh HE He HC.
  destruct (submitting_held auth p w t Hok Hp Ht)
    as (r & Hw & Hheld & Hx & Hf & Horg & Hag & Ham & Hid & Hst & Hin & Hall).
  assert (Hr : In r (w_db w T_payment_reservations)) by (eapply proj1, where_in; rewrite Hw; by left).
  set (db1 := db_set T_payment_events (w_db w T_payment_events) db').
  assert (H1 : payments_ok db1 /\ lives_on (w_db w) db1).
  { eapply touching_ok with (f := h); [done| |unfold db1; tabs; exact HT|unfold db1; by tabs..].
    intros t0 Hin0 Hp0.
    assert (In t0 (where_ (submitting_of auth (att_id (pp_attempt p))) (w_db w T_runtime_payment_attempts)))
      as Hi by (by apply where_in).
    rewrite Ht in Hi. destruct Hi as [<-|[]]. split; [apply Hh|]. right; right. split; [done|apply Hh]. }
  unfold db1 in H1. destruct H1 as [[Hl Hb Hev Hsc] [L1 L2 L3]]. unfold book_of in L3.
  rewrite ?db_set_same, ?db_set_other in * by discriminate.
  split; [constructor; [done|done| |done]|by constructor]. rewrite HE.
  apply append_event with (r := r); [done|by rewrite HR|done|by rewrite Hid|apply Hl|].
  intros _ t' Ht' Hft. destruct (in_update_rows (submitting_of auth (att_id (pp_attempt p))) h
    (w_db w T_runtime_payment_attempts) t') as [Hi _].
  rewrite <-HT in Hi. destruct (Hi Ht') as (t0 & Ht0 & ->).
  destruct (submitting_of auth (att_id (pp_attempt p)) t0) eqn:Es; [apply Hh|].
  rewrite Hall in Es; done.
Qed.

Lemma finalizeTerminal_ok auth p settlement debug w x w' :
  payments_ok (w_db w) -> prepared_ok auth p (w_db w) ->
  finalizeTerminalPaidHttpPayment auth p settlement debug w = (Ok x, w') ->
  payments_ok (w_db w') /\ lives_on (w_db w) (w_db w').
Proof.
  intros Hok Hp E. unfold finalizeTerminalPaidHttpPayment in E. cbv zeta in E. apply transaction_ok in E.
  destruct (match sr_payment settlement with Some _ => _ | None => false end) eqn:Efailed.
  - unfold release_reservation in E. runs E.
    match goal with H : update_submitting _ _ _ _ = _ |- _ =>
      apply update_submitting_ok in H as [(t & Ht) HT] end.
    match goal with H : writePosting _ _ = _ |- _ => pose proof H as Hpost;
      apply writePosting_step in Hpost as ((id & Hq) & HL & _) end.
    assert (Ht' : where_ (submitting_of auth (att_id (pp_attempt p))) (w_db w T_runtime_payment_attempts) = [t]).
    { rewrite <-Ht. f_equal. symmetry. by tabs. }
    eapply finish_ok with (s := Reservation_released); [by right|exact Hok|exact Hp|by eexists|..].
    + by tabs.
    + by tabs.
    + tabs. rewrite HL. by tabs.
    + by rewrite Hq.
    + by rewrite Hq.
    + by rewrite Hq.
    + by rewrite Hq.
    + by tabs.
    + intros t'. split; [by constructor|]. by split.
    + by tabs.
    + done.
    + done.
    + by tabs.
  - runs E.
    match goal with H : update_submitting _ _ _ _ = _ |- _ =>
      apply update_submitting_ok in H as [(t & Ht) HT] end.
    assert (Ht' : where_ (submitting_of auth (att_id (pp_attempt p))) (w_db w T_runtime_payment_attempts) = [t]).
    { rewrite <-Ht. f_equal. symmetry. by tabs. }
    eapply unknown_ok; [exact Hok|exact Hp|by eexists|by tabs..| |by tabs|done|by tabs].
    intros t'. split; [by constructor|done].
Qed.

Lemma finalize_ok auth p settlement debug w x w' :
  payments_ok (w_db w) -> prepared_ok auth p (w_db w) ->
  finalizePaidHttpPayment auth p settlement debug w = (Ok x, w') ->
  payments_ok (w_db w') /\ lives_on (w_db w) (w_db w').
Proof.
  unfold finalizePaidHttpPayment. destruct (match sr_payment settlement with Some _ => _ | None => false end);
    [apply finalizeSettled_ok|apply finalizeTerminal_ok].
Qed.

(** A finalization that throws leaves the database as it was. *)
Lemma finalize_err auth p settlement debug w e w' :
  finalizePaidHttpPayment auth p settlement debug w = (Err e, w') -> w_db w' = w_db w.
Proof.
  unfold finalizePaidHttpPayment, finalizeSettledPaidHttpPayment, finalizeTerminalPaidHttpPayment.
  destruct (sr_payment settlement) as [y|]; [destruct (bool_decide _); cbn [negb]|];
    apply transaction_err.
Qed.

Lemma finalize_sound auth p settlement debug w :
  payments_ok (w_db w) -> prepared_ok auth p (w_db w) ->
  let w' := snd (finalizePaidHttpPayment auth p settlement debug w) in
  payments_ok (w_db w') /\ lives_on (w_db w) (w_db w').
Proof.
  intros Hok Hp. destruct (finalizePaidHttpPayment auth p settlement debug w) as [[x|e] w'] eqn:E; cbn.
  - by eapply finalize_ok.
  - rewrite (finalize_err _ _ _ _ _ _ _ E). split; [done|apply lives_on_refl].
Qed.
End Finalize.

(** ** Preparation *)

Lemma no_clash_key {X} (t : table) (key : row t -> X) (r : row t) (l : list (row t)) :
  (forall s, key s = key r -> clash t r s = true) -> existsb (clash t r) l = false -> ~ In (key r) (map key l).
Proof.
  intros Hc He (s & E & Hs)%in_map_iff. assert (existsb (clash t r) l = true); [|congruence].
  apply existsb_exists. exists s. auto.
Qed.

Lemma where_head_none {X} (p : X -> bool) l x : head (where_ p l) = None -> In x l -> p x = true -> False.
Proof.
  intros Hh Hx Hp. assert (In x (where_ p l)) as Hi by (by apply where_in).
  by destruct (where_ p l).
Qed.

Definition slot_free (connectionId key : string) (db : Db) : Prop :=
  forall t, In t (db T_runtime_payment_attempts) -> attempt_slot t <> (Some connectionId, key).

Lemma createAttempt_new input w a w' :
  slot_free (ca_connectionId input) (ca_idempotencyKey input) (w_db w) ->
  createAttempt false input w = (Ok a, w') ->
  a = new_attempt input (att_id a) (w_now w) /\
  ~ In (att_id a) (map att_id (w_db w T_runtime_payment_attempts)) /\ w_now w' = w_now w /\
  w_db w' = db_set T_runtime_payment_attempts (w_db w T_runtime_payment_attempts ++ [a]) (w_db w) /\
  (exists n, In n (w_db w T_connections) /\ cn_id n = ca_connectionId input /\
     cn_org_id n = ca_orgId input /\ cn_agent_id n = ca_agentId input).
Proof.
  intros Hfree E. unfold createAttempt, transaction in E. runs E.
  unfold valid_scope in H. runs H. unfold insert_attempt in H3. runs H3. rewrite H1 in H3.
  destruct (where_ _ (w_db w T_runtime_payment_attempts)) as [|s l] eqn:Es in H3.
  - runs H3. rewrite H1 in H4, H5. rewrite H2 in *. cbn in E. injection E as <- <-. cbn [att_id new_attempt].
    split; [done|]. split; [|split; [congruence|split; [exact H5|]]].
    2: { destruct (where_ _ (w_db w T_connections)) as [|n l] eqn:En in H0; [done|]. exists n.
         assert (In n (n :: l)) as Hn by (by left). rewrite <-En in Hn. apply where_in in Hn as [Hn Hp].
         split; [done|]. by bdec. }
    apply (no_clash_key T_runtime_payment_attempts att_id (new_attempt input a2 (w_now w))); [|exact H4]. intros t Ht. cbn. unfold attempt_clash.
    by rewrite Ht, eqs_refl.
  - exfalso. assert (In s (s :: l)) as Hin by (by left). rewrite <-Es in Hin. apply where_in in Hin as [Hin Hp].
    apply (Hfree s Hin). unfold attempt_clash in Hp. cbn in Hp. unfold attempt_slot.
    destruct (a2 =s att_id s); [by rewrite andb_false_r in Hp|]. cbn in Hp.
    destruct (att_connection_id s) as [c|]; [|done]. bsimpl. congruence.
Qed.

Lemma opening_ok (db db' : Db) r t q g :
  payments_ok db -> ~ In (res_id r) (map res_id (db T_payment_reservations)) ->
  ~ In (att_id t) (map att_id (db T_runtime_payment_attempts)) ->
  ~ In (attempt_slot t) (map attempt_slot (db T_runtime_payment_attempts)) -> funded r t ->
  quoted r -> res_status r = Reservation_reserved -> att_status t = Attempt_reserved ->
  (exists a, In a (db T_agent_payment_accounts) /\ account_owner a = (res_org_id r, res_agent_id r) /\
     acct_spent_usdc a + acct_reserved_usdc a + res_amount_usdc r <= acct_budget_usdc a) ->
  (forall a, account_owner (g a) = account_owner a /\
     acct_reserved_usdc (g a) = acct_reserved_usdc a + res_amount_usdc r /\
     acct_spent_usdc (g a) = acct_spent_usdc a /\ acct_budget_usdc (g a) = acct_budget_usdc a) ->
  is_settle q = false ->
  db' T_payment_reservations = db T_payment_reservations ++ [r] ->
  db' T_runtime_payment_attempts = db T_runtime_payment_attempts ++ [t] ->
  db' T_agent_payment_accounts
    = update_rows (the_account (res_org_id r) (res_agent_id r)) g (db T_agent_payment_accounts) ->
  db' T_ledger_postings = db T_ledger_postings ++ [q] -> db' T_payment_events = db T_payment_events ->
  db' T_connections = db T_connections ->
  (forall c, att_connection_id t = Some c -> exists n, In n (db T_connections) /\ cn_id n = c /\
     cn_org_id n = att_org_id t /\ cn_agent_id n = att_agent_id t) ->
  payments_ok db' /\ lives_on db db'.
Proof.
  intros Hok N1 N2 N3 Hf Hquoted Hst Hnew (a & Ha & Ho & Hle) Hg Hq HR HT HA HL HE HC Hsct.
  pose proof Hok as [Hl Hb He Hsc]. split; [constructor|constructor].
  - rewrite HR, HT. by apply open_links.
  - rewrite HR, HA, HL. apply append_posting; [|done]. apply open_balance; try done.
    + eapply funds_x402, fd_funds, Hf.
    + rewrite <-Ho. by apply in_map.
    + intros x. by destruct (Hg x) as (? & ? & ? & _).
  - rewrite HR, HT, HE. by apply open_events.
  - rewrite HC, HT. destruct Hsc as [K S]. constructor; [done|]. intros t0 c [Ht0| ->]%in_snoc Hc; auto.
  - rewrite HR. intros r0 Hr. exists r0. rewrite in_snoc. auto with aops.
  - rewrite HT. intros t0 Ht. exists t0. rewrite in_snoc. split; [by left|]. split; [auto with aops|by left].
  - eapply (opening_spec db db' r t a g); try done. intros x. unfold budget_of. by destruct (Hg x) as (-> & _ & _ & ->).
  - rewrite HR, where_app. cbn. unfold plain_reservation at 2. by rewrite (funds_x402 _ _ (fd_funds _ _ Hf)), app_nil_r.
Qed.

Lemma readiness_keeps mode quote t : keeps t (assertRailReady mode quote).
Proof. unfold assertRailReady, getCircleChainCapability. solve_keeps. Qed.
#[export] Hint Resolve readiness_keeps : keeps.

Section Prepare.
Context {CO : Collation} {SH : Sha256} {UP : UrlParser} {CB : ChainBalances}.

Lemma nativeBalance_keeps a c m t : keeps t (nativeBalanceMicros a c m).
Proof. done. Qed.
#[local] Hint Resolve nativeBalance_keeps : keeps.

Lemma limits_keeps auth d t : keeps t (check_limits auth d).
Proof. unfold check_limits, findAgentWallet, readSpendableMicros. solve_keeps. Qed.
#[local] Hint Resolve limits_keeps : keeps.

(** The wallet of the agent, if it has one on the chain of the quote, holds the
    amount. *)
Definition wallet_serves (auth : ConnectionAuthResult) (d : PaymentDraft) (r : AgentChainWalletRow) : Prop :=
  acw_agent_id r = auth_agent_id auth /\ acw_mode r = dr_mode d /\ acw_chain r = q_chain (dr_quote d) /\
  acw_status r = "active"%string.

Definition wallet_funded (auth : ConnectionAuthResult) (d : PaymentDraft) (w : World) : Prop :=
  forall r, In r (w_db w T_agent_chain_wallets) -> wallet_serves auth d r ->
  exists r' balance, In r' (w_db w T_agent_chain_wallets) /\ wallet_serves auth d r' /\
    chain_balance w (acw_address r') (acw_chain r') (dr_mode d) = Ok balance /\
    q_amountMicros (dr_quote d) <= Z.max 0 balance.

Record within_limits (auth : ConnectionAuthResult) (d : PaymentDraft) (w : World) : Prop := mkWithinLimits {
  wl_cap : 0 < acct_per_request_cap_usdc (dr_account d) ->
    q_amountMicros (dr_quote d) <= acct_per_request_cap_usdc (dr_account d);
  wl_budget : acct_spent_usdc (dr_account d) + acct_reserved_usdc (dr_account d) + q_amountMicros (dr_quote d)
    <= acct_budget_usdc (dr_account d);
  wl_wallet : wallet_funded auth d w
}.

Lemma limits_ok auth d w x w' : check_limits auth d w = (Ok x, w') -> within_limits auth d w.
Proof.
  intros E. unfold check_limits in E. cbv zeta in E. runs E. unfold findAgentWallet in H1.
  apply (select_one_ok T_agent_chain_wallets) in H1 as [Ew ->]. constructor; [lia..|].
  intros r Hr (S1 & S2 & S3 & S4). destruct a1 as [r'|].
  - symmetry in Ew. apply where_head in Ew as [Hr' Hp]. unfold readSpendableMicros, nativeBalanceMicros in E.
    runs E. injection H2 as Hb ->. bdec. exists r', a2. repeat split; try done. lia.
  - exfalso. eapply where_head_none; [by symmetry|exact Hr|]. cbn. by rewrite S1, S4, !eqs_refl, !bool_decide_eq_true_2.
Qed.

Lemma prepare_reserve_ok auth input hash dest d gate w p w' :
  payments_ok (w_db w) -> In (dr_account d) (w_db w T_agent_payment_accounts) ->
  account_owner (dr_account d) = (auth_org_id auth, auth_agent_id auth) ->
  slot_free (auth_connection_id auth) (ph_idempotency_key input) (w_db w) ->
  x402UsdcMicrosFromAccept (qp_accept (dr_quotePayload d)) = Ok (q_amountMicros (dr_quote d)) ->
  prepare_reserve auth input hash dest d gate w = (Ok p, w') ->
  payments_ok (w_db w') /\ lives_on (w_db w) (w_db w') /\ prepared_ok auth p (w_db w').
Proof.
  intros Hok Hacc Hown Hfree Hquoted E. unfold prepare_reserve in E. cbv zeta in E. runs E.
  match goal with H : check_limits _ _ _ = _ |- _ => pose proof (limits_ok _ _ _ _ _ H) as [_ Hle _] end.
  match goal with H : createAttempt _ _ _ = _ |- _ => apply createAttempt_new in H as (Ha & Hid & Hnow & HT & Hscope) end.
  2: { cbn. intros t. tabs. apply Hfree. }
  match goal with H : writePosting _ _ = _ |- _ => pose proof H as Hpost;
    apply writePosting_step in Hpost as ((id & Hq) & HL & _) end.
  set (r := reservation_of auth d (att_id a1) a2 (w_now w3)) in *.
  set (db1 := db_set T_runtime_payment_attempts (w_db w T_runtime_payment_attempts ++ [a1]) (w_db w7)).
  assert (Hopen : payments_ok db1 /\ lives_on (w_db w) db1).
  { apply opening_ok with (r := r) (t := a1) (q := a5) (g := reserve (q_amountMicros (dr_quote d)) (w_now w3));
      unfold db1; [done|..].
    - assert (w_db w3 T_payment_reservations = w_db w T_payment_reservations) as <- by (by tabs).
      by apply (no_clash_key T_payment_reservations res_id r); [intros s Hs; cbn; rewrite Hs; apply eqs_refl|].
    - assert (w_db w1 T_runtime_payment_attempts = w_db w T_runtime_payment_attempts) as <- by (by tabs). done.
    - intros (s & Hs & Hin)%in_map_iff. apply (Hfree s Hin). rewrite Hs, Ha. done.
    - rewrite Ha. by constructor.
    - exact Hquoted.
    - done.
    - by rewrite Ha.
    - by exists (dr_account d).
    - intros x. done.
    - by rewrite Hq.
    - by tabs.
    - by tabs.
    - by tabs.
    - tabs. rewrite HL. by tabs.
    - by tabs.
    - by tabs.
    - intros c. rewrite Ha. cbn. intros [= <-].
      assert (w_db w1 T_connections = w_db w T_connections) as <- by (by tabs). done. }
  destruct Hopen as [Hok1 Hl1].
  assert (Htouch : payments_ok (w_db w7) /\ lives_on db1 (w_db w7)).
  { eapply touching_ok; [exact Hok1|intros; apply metadata_touches|unfold db1; by tabs..]. }
  destruct Htouch as [Hok7 Hl7]. split; [done|]. split; [by eapply lives_on_trans|].
  exists r. split; [tabs; apply in_snoc; by right|]. done.
Qed.
End Prepare.
