(* ===== verification/BudgetPay.v ===== *)
(** Whole payments keep the books: preparation with its policy gate, the
    phases of [payRuntimeX402], the resolution of unknown outcomes and the
    access of an agent; and what each phase knows of the attempt it works on. *)

From S2P Require Import Prelude Errors Usdc Json Identity Policy Quotes ResultCrypto PaidHttp Schema Host Ledger.
From S2P Require Import AuditLog AuditChain PolicyStore PolicyStoreThms Approvals ApprovalsThms Attempts.
From S2P Require Import Accounts Prepare Settlement Liquidity Pay BudgetSpec Budget BudgetOps.
Open Scope Z_scope.

(** ** The tables of the books *)

Definition payment_table (t : table) : bool :=
  match t with
  | T_payment_reservations | T_runtime_payment_attempts | T_agent_payment_accounts
  | T_ledger_postings | T_payment_events | T_connections => true
  | _ => false
  end.

Definition keeps_books {A} (m : M A) : Prop := forall t, payment_table t = true -> keeps t m.

Lemma keeps_books_books {A} (m : M A) : keeps_books m -> books m.
Proof. intros H. apply books_keeps; by apply H. Qed.

Ltac solve_keeps_books := intros t Ht; destruct t; try discriminate Ht; clear Ht; solve_keeps.

Section Gate.
Context {CO : Collation} {SH : Sha256}.

Lemma createApprovalRequest_keeps_books i : keeps_books (createApprovalRequest i).
Proof. unfold createApprovalRequest. solve_keeps_books. Qed.

Lemma consumeApproval_keeps_books auth a d : keeps_books (consumeApproval auth a d).
Proof. unfold consumeApproval, markConsumed. solve_keeps_books. Qed.

Lemma enforce_keeps_books auth i q r th : keeps_books (enforceX402Policy auth i q r th).
Proof.
  intros t Ht. unfold enforceX402Policy.
  pose proof (fun i => createApprovalRequest_keeps_books i t Ht).
  pose proof (fun a d => consumeApproval_keeps_books auth a d t Ht).
  destruct t; try discriminate Ht; clear Ht; solve_keeps.
Qed.

Lemma gate_keeps_books auth i q r th : keeps_books (policy_gate auth i q r th).
Proof.
  intros t Ht. unfold policy_gate. pose proof (enforce_keeps_books auth i q r th t Ht).
  clear Ht. solve_keeps.
Qed.
End Gate.

(** ** Preparation *)

Section Prepare.
Context {CO : Collation} {SH : Sha256} {UP : UrlParser} {CB : ChainBalances}.

Lemma getOrgPaymentMode_keeps o t : keeps t (getOrgPaymentMode o).
Proof. unfold getOrgPaymentMode. solve_keeps. Qed.
#[local] Hint Resolve getOrgPaymentMode_keeps : keeps.

Lemma account_keeps auth t : keeps t (activePaymentAccount auth).
Proof. unfold activePaymentAccount. solve_keeps. Qed.
#[local] Hint Resolve account_keeps : keeps.

Lemma draft_books auth input hash pin : books (withTransaction (prepare_draft auth input hash pin)).
Proof.
  apply books_transaction. unfold prepare_draft, activePaymentSource, check_source. solve_books.
Qed.

Lemma check_source_keeps source quote t : keeps t (check_source source quote).
Proof. unfold check_source. solve_keeps. Qed.
#[local] Hint Resolve check_source_keeps : keeps.

Lemma account_found auth w a w' :
  activePaymentAccount auth w = (Ok a, w') ->
  In a (w_db w T_agent_payment_accounts) /\ acct_org_id a = auth_org_id auth /\
  acct_agent_id a = auth_agent_id auth /\ acct_status a = Access_active /\ acct_payment_access a = true /\
  (exists o, In o (w_db w T_orgs) /\ org_id o = auth_org_id auth /\ org_frozen o = false) /\
  (exists g, In g (w_db w T_agents) /\ ag_id g = auth_agent_id auth /\
     ag_status g <> "paused"%string /\ ag_status g <> "suspended"%string) /\ w' = w.
Proof.
  intros E. unfold activePaymentAccount in E. runs E.
  repeat match type of E with context [match head ?l with _ => _ end] => destruct (head l) eqn:? end;
    [|runs E..]. runs E.
  repeat match goal with H : head (where_ _ _) = Some _ |- _ => apply where_head in H as [? ?] end.
  unfold the_account in *. bdec. do 3 (split; [done|]).
  do 2 (split; [done|]). split; [by exists r0|]. split; [by exists r1|done].
Qed.

Lemma quote_amount accept mode q :
  quoteFromAccept accept mode = Ok (Some q) ->
  q_accept q = accept /\ x402UsdcMicrosFromAccept accept = Ok (q_amountMicros q) /\ 0 < q_amountMicros q.
Proof.
  intros (chain & u & micros & payTo & net & _ & _ & _ & Em & _ & _ & ->)%quoteFromAccept_inv. cbn.
  split; [done|]. split; [done|]. by eapply accept_positive.
Qed.

Lemma supported_from pin mode qs q :
  supportedRuntimeQuotes pin mode = Ok qs -> In q qs ->
  exists accept, In accept (pi_accepts pin) /\ quoteFromAccept accept mode = Ok (Some q).
Proof.
  unfold supportedRuntimeQuotes. intros H Hin. res_inv.
  match goal with X : res_map _ _ = Ok _ |- _ => apply res_map_ok in X; rename X into HF end.
  apply in_flat_map in Hin as (o & Ho & Hq). destruct o as [q'|]; [|done]. destruct Hq as [->|[]].
  apply list_elem_of_In, list_elem_of_lookup in Ho as [i Hi].
  destruct (Forall2_lookup_r _ _ _ _ _ HF Hi) as (accept & Ha & E). exists accept. split; [|done].
  apply list_elem_of_In. by eapply list_elem_of_lookup_2.
Qed.

(** The organisation's mode, test until it is set. *)
Definition org_mode (orgId : string) (mode : PaymentMode) (db : Db) : Prop :=
  (exists r, In r (db T_org_payment_modes) /\ om_org_id r = orgId /\ om_mode r = mode) \/
  ((forall r, In r (db T_org_payment_modes) -> om_org_id r <> orgId) /\ mode = mode_test).

(** A source that can pay the quote: one with a wallet and of the provider of
    its settlement, or a simulation that holds the amount. *)
Record source_fits (source : PaymentSourceRow) (quote : RuntimeQuote) : Prop := mkSourceFits {
  sf_wallet : psrc_provider source = Provider_circle_gateway \/ psrc_provider source = Provider_circle_wallets ->
    psrc_external_wallet_id source <> None /\ psrc_address source <> None;
  sf_provider : psrc_provider source = Provider_simulation \/
    psrc_provider source = match q_settlementKind quote with
                           | gateway => Provider_circle_gateway
                           | direct_exact => Provider_circle_wallets
                           end;
  sf_balance : psrc_provider source = Provider_simulation -> q_amountMicros quote <= psrc_simulated_balance_usdc source
}.

Lemma source_checked source quote w x w' : check_source source quote w = (Ok x, w') -> source_fits source quote.
Proof.
  intros E. unfold check_source, is_circle, is_simulation in E. runs E.
  destruct (psrc_provider source) eqn:Ep, (q_settlementKind quote) eqn:Ek; cbn in *; try discriminate;
    constructor; rewrite ?Ep, ?Ek; try (intros [?|?]; discriminate); try (intros ?; discriminate); auto;
    try (intros _; destruct (psrc_external_wallet_id source), (psrc_address source); done);
    match goal with X : _ && (_ <? _) = false |- _ => rewrite bool_decide_eq_true_2 in X by done; cbn in X end; lia.
Qed.

(** What a draft was checked against. *)
Record draft_checked (auth : ConnectionAuthResult) (key : string) (pin : RuntimeX402PaymentInput)
    (d : PaymentDraft) (db : Db) : Prop := mkDraftChecked {
  dk_account : In (dr_account d) (db T_agent_payment_accounts) /\
    acct_org_id (dr_account d) = auth_org_id auth /\ acct_agent_id (dr_account d) = auth_agent_id auth /\
    acct_status (dr_account d) = Access_active /\ acct_payment_access (dr_account d) = true;
  dk_org : exists o, In o (db T_orgs) /\ org_id o = auth_org_id auth /\ org_frozen o = false;
  dk_agent : exists g, In g (db T_agents) /\ ag_id g = auth_agent_id auth /\
    ag_status g <> "paused"%string /\ ag_status g <> "suspended"%string;
  dk_mode : org_mode (auth_org_id auth) (dr_mode d) db;
  dk_quote : exists qs, supportedRuntimeQuotes pin (dr_mode d) = Ok qs /\ In (dr_quote d) qs /\
    q_rail (dr_quote d) ∈ acct_allowed_rails (dr_account d);
  dk_quoted : x402UsdcMicrosFromAccept (qp_accept (dr_quotePayload d)) = Ok (q_amountMicros (dr_quote d));
  dk_listed : exists l, In l (db T_payment_destination_allowlist) /\
    destination_listed (auth_org_id auth) (dr_quote d) l = true;
  dk_source : In (dr_source d) (db T_payment_sources) /\
    source_usable (auth_org_id auth) (q_rail (dr_quote d)) (q_chain (dr_quote d)) (dr_source d) = true;
  dk_fits : source_fits (dr_source d) (dr_quote d);
  dk_free : slot_free (auth_connection_id auth) key db
}.

(** What a draft is bound to: the resource, the hash of the request and the
    hash of the stored quote. *)
Record draft_bound (hash : string) (pin : RuntimeX402PaymentInput) (d : PaymentDraft) : Prop := mkDraftBound {
  bd_resource : dr_resource d = x402Resource pin;
  bd_accept : qp_accept (dr_quotePayload d) = q_accept (dr_quote d);
  bd_hash : sha256Hex (quote_json (dr_quotePayload d)) = Ok (dr_quoteHash d);
  bd_context : exists es, pi_context (dr_paymentInput d) = Some es /\
    lookup_key "request_hash" es = JStr hash /\ lookup_key "quote_hash" es = JStr (dr_quoteHash d) /\
    forall k, k <> "request_hash"%string -> k <> "quote_hash"%string ->
      lookup_key k es = lookup_key k (pi_context pin ?? [])
}.

Lemma first_by_in {X} lt (l : list X) x : first_by lt l = Some x -> In x l.
Proof.
  revert x. induction l as [|y l IH]; intros x; cbn; [done|]. destruct (first_by lt l) as [z|] eqn:E.
  - intros [= <-]. destruct (lt z y); [right; by apply IH|by left].
  - intros [= <-]. by left.
Qed.

Lemma findAttempt_none c k w w' :
  findAttempt c k w = (Ok None, w') -> slot_free c k (w_db w) /\ forall t, w_db w' t = w_db w t.
Proof.
  intros E. unfold findAttempt in E. apply bind_ok in E as (now & w0 & E0 & E). apply get_now_ok in E0 as [-> ->].
  apply bind_ok in E as (l & w1 & Eu & E). pose proof Eu as (-> & Ed & _)%update_step.
  match type of Ed with context [update_rows ?p ?f _] => destruct (where_ p (w_db w T_runtime_payment_attempts)) eqn:Ew end.
  2: { exfalso. cbn in E. by runs E. }
  rewrite (update_rows_none _ _ _ Ew) in Ed. cbn [map] in E.
  apply bind_ok in E as (o & w2 & Es & E). apply (select_one_ok T_runtime_payment_attempts) in Es as [-> ->].
  assert (forall t, w_db w1 t = w_db w t) as Hsame.
  { intros t. rewrite Ed. destruct (decide (t = T_runtime_payment_attempts)) as [->|]; [by rewrite db_set_same|by rewrite db_set_other]. }
  destruct (head _) as [t0|] eqn:Eh; [by runs E|]. apply ret_ok in E as [_ ->]. split; [|done].
  intros t Ht Hs. rewrite <-Hsame in Ht.
  assert (attempt_key c k t = true) as Hk.
  { unfold attempt_key. unfold attempt_slot in Hs. injection Hs as -> ->. cbn. by rewrite !eqs_refl. }
  exact (where_head_none _ _ t Eh Ht Hk).
Qed.

Lemma org_mode_read orgId w r w' : getOrgPaymentMode orgId w = (Ok r, w') -> w' = w /\ org_mode orgId (om_mode r) (w_db w).
Proof.
  intros E. unfold getOrgPaymentMode in E. apply bind_ok in E as (o & w1 & Es & E).
  apply (select_one_ok T_org_payment_modes) in Es as [-> ->]. apply ret_ok in E as [<- ->]. split; [done|].
  destruct (head _) as [r|] eqn:Eh.
  - left. apply where_head in Eh as [Hr Hp]. apply eqs_spec in Hp. by exists r.
  - right. split; [|done]. intros r Hr Hm. eapply where_head_none; [exact Eh|exact Hr|]. by apply eqs_spec.
Qed.

(** The draft is of what it was checked against, in the state it started in. *)
Lemma draft_ready auth input hash pin w d w' :
  withTransaction (prepare_draft auth input hash pin) w = (Ok (inr d), w') ->
  draft_checked auth (ph_idempotency_key input) pin d (w_db w) /\ draft_bound hash pin d /\
  forall t, w_db w' t = w_db w t.
Proof.
  intros E. apply transaction_ok in E. unfold prepare_draft in E. runs E.
  apply account_found in H as (Ha & Ha1 & Ha2 & Ha3 & Ha4 & (o & Ho & Ho1 & Ho2) & (g & Hg & Hg1 & Hg2 & Hg3) & ->).
  destruct a0 as [attempt|]; [runs E; discriminate|]. cbv zeta in E. unfold activePaymentSource in E. runs E.
  apply findAttempt_none in H0 as [Hfree Hsame].
  match goal with X : getOrgPaymentMode _ _ = _ |- _ => apply org_mode_read in X as [-> Hmode] end.
  match goal with X : inr _ = inr d |- _ => injection X as <- end.
  match goal with X : check_source _ _ _ = _ |- _ => pose proof (source_checked _ _ _ _ _ X) as Hfits; rename X into Hc end.
  match goal with X : first_by _ _ = Some _ |- _ => apply first_by_in, where_in in X as [Hs1 Hs2] end.
  match goal with X : find _ _ = Some _ |- _ => apply find_some in X as [Hq1 Hq2] end.
  match goal with X : check_source _ _ _ = (_, ?wx) |- _ => assert (Hdb : forall t, w_db wx t = w_db w1 t)
    by (intros t; eapply keeps_run; [apply check_source_keeps|exact X]) end.
  split; [|split; [|intros t; by rewrite Hdb]].
  2: { constructor; [done..|]. eexists. split; [reflexivity|]. rewrite !lookup_put. do 2 (split; [done|]).
    intros k Hk1 Hk2. rewrite !lookup_put. by rewrite !eqs_neq by congruence. }
  assert (org_mode (auth_org_id auth) (om_mode a0) (w_db w)) as Hm
    by (unfold org_mode in *; by rewrite <-(Hsame T_org_payment_modes)).
  rewrite Hsame in *. constructor; cbn [dr_account dr_mode dr_quote dr_source]; try done.
  - by exists o.
  - by exists g.
  - exists a1. bdec. auto.
  - destruct (supported_from _ _ _ _ H1 Hq1) as (accept & _ & Hacc).
    destruct (quote_amount _ _ _ Hacc) as (Eq & Hm' & _). cbn. by rewrite Eq.
  - destruct (head _) as [l|] eqn:El in H4; [|done]. exists l. by apply where_head.
Qed.

(** A fresh preparation keeps the books, and what it prepared is on them. *)
Lemma prepare_sound auth input hash dest pin w :
  payments_ok (w_db w) ->
  let m := preparePaidHttpPayment auth input hash dest pin w in
  payments_ok (w_db (snd m)) /\ lives_on (w_db w) (w_db (snd m)) /\
  (forall p, fst m = Ok (Outcome_prepared p) -> prepared_ok auth p (w_db (snd m))).
Proof.
  intros Hok. unfold preparePaidHttpPayment.
  pose proof (draft_books auth input hash pin w Hok) as Hd.
  destruct (withTransaction (prepare_draft auth input hash pin) w) as [[[attempt|d]|e] w1] eqn:Ed.
  - rewrite (bind_run _ _ _ _ _ Ed). by destruct Hd.
  - rewrite (bind_run _ _ _ _ _ Ed). cbn [snd] in Hd. destruct Hd as [Hok1 Hl1].
    apply draft_ready in Ed as (Hk & _ & Hw1).
    pose proof (keeps_books_books _ (gate_keeps_books auth (dr_paymentInput d) (dr_quote d) (dr_resource d)
      (acct_approval_threshold_usdc (dr_account d))) w1 Hok1) as Hg.
    destruct (policy_gate auth (dr_paymentInput d) (dr_quote d) (dr_resource d)
      (acct_approval_threshold_usdc (dr_account d)) w1) as [[gate|e] w2] eqn:Eg; cbn [snd] in Hg; destruct Hg as [Hok2 Hl2].
    + rewrite (bind_run _ _ _ _ _ Eg).
      assert (Hsame : forall t, payment_table t = true -> w_db w2 t = w_db w1 t).
      { intros t Ht. eapply keeps_run; [by apply gate_keeps_books|exact Eg]. }
      destruct (withTransaction (prepare_reserve auth input hash dest d gate) w2) as [[p|e] w3] eqn:Er.
      * rewrite (bind_run _ _ _ _ _ Er). apply transaction_ok in Er.
        apply prepare_reserve_ok in Er as (Hok3 & Hl3 & Hp); [|done| | | |].
        -- split; [done|]. split; [by eapply lives_on_trans; [|eapply lives_on_trans]|]. by intros p' [= <-].
        -- rewrite Hsame, Hw1 by done. apply (dk_account _ _ _ _ _ Hk).
        -- destruct (dk_account _ _ _ _ _ Hk) as (_ & <- & <- & _). done.
        -- unfold slot_free. rewrite Hsame, Hw1 by done. apply Hk.
        -- apply Hk.
      * rewrite (bind_fail _ _ _ _ _ Er). cbn [fst snd]. rewrite (transaction_err _ _ _ _ Er).
        split; [done|]. split; [by eapply lives_on_trans|done].
    + rewrite (bind_fail _ _ _ _ _ Eg). cbn [fst snd]. split; [done|]. split; [by eapply lives_on_trans|done].
  - rewrite (bind_fail _ _ _ _ _ Ed). by destruct Hd.
Qed.
End Prepare.

(** ** Resumption *)

Section Resume.
Context {UP : UrlParser} {IP : IpClassifier}.

Lemma resume_keeps auth input attempt origins resolve cr cc ac t :
  keeps t (resumePreparedPaidHttpPayment auth input attempt origins resolve cr cc ac).
Proof.
  unfold resumePreparedPaidHttpPayment, check_resumed_approval, getOrgPaymentMode. solve_keeps.
Qed.

(** Resuming prepares what was reserved: the amount is the reservation's. *)
Lemma resume_prepared auth input attempt origins resolve cr cc ac w p w' :
  payments_ok (w_db w) ->
  (exists t, In t (w_db w T_runtime_payment_attempts) /\ same_attempt attempt t /\
     att_org_id t = auth_org_id auth /\ att_agent_id t = auth_agent_id auth) ->
  resumePreparedPaidHttpPayment auth input attempt origins resolve cr cc ac w = (Ok p, w') ->
  prepared_ok auth p (w_db w') /\ att_id (pp_attempt p) = att_id attempt.
Proof.
  intros Hok (t & Ht & Hsame & Ho & Ha) E. pose proof E as Ek.
  unfold resumePreparedPaidHttpPayment in E. cbv zeta in E. runs E. split; [|done].
  assert (Hdb : w_db w1 T_payment_reservations = w_db w T_payment_reservations).
  { by apply (keeps_run _ _ _ _ _ (resume_keeps auth input attempt origins resolve cr cc ac _) Ek). }
  match goal with X : head (where_ _ (w_db w T_payment_reservations)) = Some ?r |- _ =>
    apply where_head in X as [Hr Hp]; rename r into res end. bdec.
  assert (Hf : funds res t) by (unfold funds; rewrite (sa_id _ _ Hsame); done).
  pose proof (funded_of _ _ _ _ (po_links _ Hok) Hr Ht Hf) as Hfd.
  pose proof (lk_quoted _ _ (po_links _ Hok) res Hr (funds_x402 _ _ Hf)) as Hq.
  match goal with X : quoteFromAccept _ _ = _ |- _ => apply quote_amount in X as (_ & Hm & _) end.
  exists res. rewrite Hdb. cbn. split; [done|]. split; [done|]. split; [done|].
  split; [rewrite (fd_agent _ _ Hfd); done|]. split; [|done]. unfold quoted in Hq. congruence.
Qed.
End Resume.

(** ** The phases of a payment *)

(** The credentials of the caller were those of a connection. *)
Definition authenticated (auth : ConnectionAuthResult) (db : Db) : Prop :=
  exists n, In n (db T_connections) /\ cn_id n = auth_connection_id auth /\
  cn_org_id n = auth_org_id auth /\ cn_agent_id n = auth_agent_id auth.

(** An attempt of the connection is the agent's. *)
Lemma scope_of auth t db :
  payments_ok db -> authenticated auth db -> In t (db T_runtime_payment_attempts) ->
  att_connection_id t = Some (auth_connection_id auth) ->
  att_org_id t = auth_org_id auth /\ att_agent_id t = auth_agent_id auth.
Proof.
  intros [_ _ _ [K S]] (n & Hn & H1 & H2 & H3) Ht Hc. destruct (S t _ Ht Hc) as (n' & Hn' & E1 & E2 & E3).
  assert (n' = n) as -> by (apply (keyed_unique cn_id _ _ _ K); [done..|congruence]). split; congruence.
Qed.

Lemma attemptFromRow_ok r a : attemptFromRow r = Ok a -> a = r.
Proof. unfold attemptFromRow. destruct (att_encrypted_result r); intros H; res_inv; done. Qed.

Lemma findAttempt_found c k w a w' :
  findAttempt c k w = (Ok (Some a), w') ->
  In a (w_db w' T_runtime_payment_attempts) /\ att_connection_id a = Some c /\ att_idempotency_key a = k.
Proof.
  intros E. unfold findAttempt in E. runs E.
  assert (Hkey : forall t, attempt_key c k t = true -> att_connection_id t = Some c /\ att_idempotency_key t = k).
  { intros t Hp. unfold attempt_key in Hp. bdec. by destruct (att_connection_id t); bdec; subst. }
  destruct a1 as [t0|]; [|by apply ret_ok in E as [? _]].
  apply bind_ok in E as (a1 & w2 & E1 & E2). apply lift_ok in E1 as [->%attemptFromRow_ok ->].
  apply ret_ok in E2 as [[= ->] ->]. destruct a0 as [|r0 l0].
  - apply select_one_ok in H2 as [Eh ->]. symmetry in Eh. apply where_head in Eh as [Hin Hp]. auto.
  - apply ret_ok in H2 as [[= ->] ->].
    match type of H with _ = ?m => assert (In a m) as (t & <- & [Ht Hp]%where_in)%in_map_iff by (rewrite <-H; by left) end.
    rewrite H0, db_set_same. split; [|apply Hkey; by bdec].
    apply in_update_rows. exists t. by rewrite Hp.
Qed.

Lemma throw_if_world b e x w w' : throw_if b e w = (Ok x, w') -> w' = w.
Proof. by intros [_ ->]%throw_if_ok. Qed.

Section Pay.
Context {CO : Collation} {SH : Sha256} {UP : UrlParser} {IP : IpClassifier} {HD : HeaderDecoder}
  {CB : ChainBalances} {TB : TreasuryBalances} {XS : X402Settler} {CR : X402ResultCryptoCodec Stored}.
Context (options : PayRuntimeX402Options) (auth : ConnectionAuthResult) (input : RuntimePaidHttpX402Input).

Lemma findAttempt_connections c k : keeps T_connections (findAttempt c k).
Proof. unfold findAttempt. solve_keeps. Qed.
Lemma cancelStranded_connections o g : keeps T_connections (cancelStrandedReservedAttempts true o g).
Proof. unfold cancelStrandedReservedAttempts, cancel_candidate, transaction. solve_keeps. Qed.

(** What a phase of a payment gives: the books stay, and a payment that goes
    on is on them. *)
Definition starts_well (m : Res PayStart * World) (w : World) : Prop :=
  payments_ok (w_db (snd m)) /\ lives_on (w_db w) (w_db (snd m)) /\
  (forall p fresh, fst m = Ok (Pay_submit p fresh) -> prepared_ok auth p (w_db (snd m))).

Lemma starts_same {A} (m : M A) (k : A -> M PayStart) w :
  payments_ok (w_db w) -> keeps_books m ->
  (forall a w1, m w = (Ok a, w1) -> payments_ok (w_db w1) -> (forall t, payment_table t = true -> w_db w1 t = w_db w t) ->
     starts_well (k a w1) w1) ->
  starts_well (bind m k w) w.
Proof.
  intros Hok Hm Hk. pose proof (keeps_books_books m Hm w Hok) as [H1 H2].
  unfold bind. destruct (m w) as [[a|e] w1] eqn:E; cbn [snd] in *.
  - destruct (Hk a w1 eq_refl H1) as (H3 & H4 & H5).
    { intros t Ht. by eapply keeps_run; [apply Hm|exact E]. }
    split; [done|]. split; [by eapply lives_on_trans|done].
  - by split.
Qed.

Lemma starts_books {A} (m : M A) (k : A -> M PayStart) w :
  payments_ok (w_db w) -> books m ->
  (forall a w1, m w = (Ok a, w1) -> payments_ok (w_db w1) -> starts_well (k a w1) w1) ->
  starts_well (bind m k w) w.
Proof.
  intros Hok Hm Hk. pose proof (Hm w Hok) as [H1 H2].
  unfold bind. destruct (m w) as [[a|e] w1] eqn:E; cbn [snd] in *; [|by split].
  destruct (Hk a w1 eq_refl H1) as (H3 & H4 & H5). split; [done|]. split; [by eapply lives_on_trans|done].
Qed.

Lemma starts_return (r : RuntimeX402PaymentResult) w :
  payments_ok (w_db w) -> starts_well (ret (Pay_return r) w) w.
Proof. intros H. split; [done|]. split; [apply lives_on_refl|done]. Qed.

Lemma retained_keeps attempt t : keeps t (retained_of auth attempt).
Proof. unfold retained_of. solve_keeps. Qed.

Lemma resumed attempt cc ac w p w1 :
  payments_ok (w_db w) -> authenticated auth (w_db w) -> In attempt (w_db w T_runtime_payment_attempts) ->
  att_connection_id attempt = Some (auth_connection_id auth) ->
  resume_attempt options auth input attempt cc ac w = (Ok p, w1) -> prepared_ok auth p (w_db w1).
Proof.
  intros Hok Hauth Hin Hc E. destruct (scope_of _ _ _ Hok Hauth Hin Hc) as [H1 H2].
  refine (proj1 (resume_prepared _ _ _ _ _ _ _ _ _ _ _ Hok _ E)). exists attempt. auto with aops.
Qed.

Lemma resume_keeps_books attempt cc ac : keeps_books (resume_attempt options auth input attempt cc ac).
Proof. intros t _. apply resume_keeps. Qed.

Lemma existing_sound hash attempt w :
  payments_ok (w_db w) -> authenticated auth (w_db w) ->
  In attempt (w_db w T_runtime_payment_attempts) ->
  att_connection_id attempt = Some (auth_connection_id auth) ->
  starts_well (pay_existing options auth input hash attempt w) w.
Proof.
  intros Hok Hauth Hin Hc. unfold pay_existing.
  assert (Hsubmit : forall w, payments_ok (w_db w) -> authenticated auth (w_db w) ->
    In attempt (w_db w T_runtime_payment_attempts) ->
    starts_well ((let* prepared := resume_attempt options auth input attempt false false in
                  ret (Pay_submit prepared false)) w) w).
  { clear w Hok Hauth Hin. intros w Hok Hauth Hin. apply starts_same; [done|apply resume_keeps_books|].
    intros p w1 E Hok1 _. split; [done|]. split; [apply lives_on_refl|].
    intros p' fresh [= <- <-]. exact (resumed _ _ _ _ _ _ Hok Hauth Hin Hc E). }
  assert (Hresult : forall w, payments_ok (w_db w) ->
    starts_well ((let* result := lift (paymentResultFromAttempt attempt) in ret (Pay_return result)) w) w).
  { clear w Hok Hauth Hin. intros w Hok. apply starts_same; [done|intros t _; solve_keeps|].
    intros r w1 _ Hok1 _. by apply starts_return. }
  do 2 (apply starts_same; [done|intros t _; solve_keeps|]; intros ? ? ->%throw_if_world _ _).
  apply starts_same; [done|intros t _; apply retained_keeps|]. intros retained w1 E Hok1 Hsame.
  assert (Hauth1 : authenticated auth (w_db w1)) by (unfold authenticated; by rewrite Hsame).
  assert (Hin1 : In attempt (w_db w1 T_runtime_payment_attempts)) by (by rewrite Hsame).
  destruct retained as [[ev r d|settlement d]|].
  - by apply starts_return.
  - destruct (bool_decide (att_status attempt = Attempt_submitting)).
    + apply starts_same; [done|apply resume_keeps_books|]. intros p w2 E2 Hok2 _.
      assert (Hp : prepared_ok auth p (w_db w2)) by (exact (resumed _ _ _ _ _ _ Hok1 Hauth1 Hin1 Hc E2)).
      destruct (finalize_sound auth p settlement d w2 Hok2 Hp) as [H1 H2]. unfold bind.
      destruct (finalizePaidHttpPayment auth p settlement d w2) as [[x|e] w3]; cbn in *; by split.
    + destruct (negb _); auto.
  - destruct (negb _); auto.
Qed.

Lemma fresh_sound hash w :
  payments_ok (w_db w) -> starts_well (pay_fresh options auth input hash w) w.
Proof.
  intros Hok. unfold pay_fresh. apply starts_same; [done| |].
  { intros t _. unfold discover_quote. solve_keeps. by intros w0. }
  intros [dest pin] w1 _ Hok1 _.
  pose proof (prepare_sound auth input hash dest pin w1 Hok1) as (H1 & H2 & H3). unfold bind at 1.
  destruct (preparePaidHttpPayment auth input hash dest pin w1) as [[[raced|p]|e] w2]; cbn [fst snd] in *.
  - assert (Hs : starts_well ((let* retained := retained_of auth raced in
      match retained with
      | Some (StoredRuntimeX402Result _ result _) => ret (Pay_return result)
      | _ => let* result := lift (paymentResultFromAttempt raced) in ret (Pay_return result)
      end) w2) w2).
    { apply starts_same; [done|intros t _; apply retained_keeps|]. intros retained w3 _ Hok3 _.
      assert (Hr : starts_well ((let* result := lift (paymentResultFromAttempt raced) in ret (Pay_return result)) w3) w3).
      { apply starts_same; [done|intros t _; solve_keeps|]. intros r w4 _ Hok4 _. by apply starts_return. }
      destruct retained as [[]|]; [by apply starts_return|done|done]. }
    destruct Hs as (H4 & H5 & H6). split; [done|]. split; [by eapply lives_on_trans|done].
  - split; [done|]. split; [done|]. intros p' fresh [= <- <-]. by apply H3.
  - by split.
Qed.

Lemma start_sound w :
  payments_ok (w_db w) -> authenticated auth (w_db w) -> starts_well (pay_start options auth input w) w.
Proof.
  intros Hok Hauth. unfold pay_start.
  do 2 (apply starts_same; [done|intros t _; solve_keeps|]; intros ? w0 _ Hok0 Hs0;
    assert (authenticated auth (w_db w0)) as Hauth0 by (unfold authenticated; by rewrite Hs0);
    clear dependent w; rename w0 into w, Hok0 into Hok, Hauth0 into Hauth).
  apply starts_books; [done|auto with books|]. intros n w1 E1 Hok1.
  assert (Hauth1 : authenticated auth (w_db w1)).
  { unfold authenticated. by rewrite (keeps_run _ _ _ _ _ (cancelStranded_connections _ _) E1). }
  apply starts_books; [done|auto with books|]. intros existing w2 E2 Hok2.
  destruct existing as [attempt|]; [|by apply fresh_sound].
  destruct (findAttempt_found _ _ _ _ _ E2) as (Hin & Hc & _). apply existing_sound; [done| |done|done].
  unfold authenticated. by rewrite (keeps_run _ _ _ _ _ (findAttempt_connections _ _) E2).
Qed.

(** *** Submission *)

Lemma balances_keeps_books : forall o, keeps_books (listCircleBalances o).
Proof. intros o t _. unfold listCircleBalances, getOrgPaymentMode, listCircleWalletRows. solve_keeps. all: by intros w. Qed.

Lemma job_keeps_books i plan : keeps_books (createLiquidityPreparationJob i plan).
Proof.
  intros t Ht. unfold createLiquidityPreparationJob, openLiquidityPreparationJob, recordActivity.
  pose proof (fun o => balances_keeps_books o t Ht).
  destruct t; try discriminate Ht; clear Ht; solve_keeps.
Qed.

Lemma preflight_keeps_books p : keeps_books (assertPaidHttpPreSubmitReady auth p).
Proof.
  intros t Ht. unfold assertPaidHttpPreSubmitReady, check_exact_funds, check_gateway_funds, exact_available,
    gateway_funds, liquidity_preparing, recordPaidHttpPreflightRejection, createExactLiquidityPreparationJob,
    createGatewayLiquidityPreparationJob, activeCircleWallet.
  pose proof (fun o => balances_keeps_books o t Ht). pose proof (fun i plan => job_keeps_books i plan t Ht).
  assert (forall i, keeps t (recordRouteObservation i)).
  { intros i. apply recordRouteObservation_keeps. by intros <-. }
  clear Ht. solve_keeps. intros w. destruct (gateway_available _ _ _ _) as [b|]; [|done]. by destruct (parseUsdcMicros b).
Qed.

Lemma provider_keeps req p payer t : keeps t (submit_to_provider req p payer).
Proof.
  unfold submit_to_provider. solve_keeps. intros w. unfold settle_call. by destruct (settle_x402 _ _ _).
Qed.

(** While a payment goes on, it stays on the books. *)
Definition going {A} (p : PreparedPaidHttpPayment) (m : M A) : Prop :=
  sound (fun db => payments_ok db /\ prepared_ok auth p db) lives_on m.

Lemma going_books {A} p (m : M A) : books m -> going p m.
Proof.
  intros Hm w [Hok Hp]. destruct (Hm w Hok) as [H1 H2]. split; [|done]. split; [done|]. by eapply prepared_lives.
Qed.

Lemma going_bind {A B} p (m : M A) (k : A -> M B) : going p m -> (forall a, going p (k a)) -> going p (bind m k).
Proof. apply sound_bind, lives_on_trans. Qed.

Lemma preflight_books p : books (pay_preflight auth p).
Proof.
  unfold pay_preflight. apply books_catch; [apply keeps_books_books, preflight_keeps_books|]. intros e. solve_books.
Qed.

Lemma consume_books p : books (consume_gate auth p).
Proof.
  unfold consume_gate. destruct (pg_approvalId _) as [a|]; [|solve_books].
  apply books_bind; [apply keeps_books_books, consumeApproval_keeps_books|]. intros ?. solve_books.
Qed.

Lemma finalize_going p settlement debug : going p (finalizePaidHttpPayment auth p settlement debug).
Proof.
  intros w [Hok Hp]. destruct (finalize_sound auth p settlement debug w Hok Hp) as [H1 H2].
  split; [|done]. split; [done|]. by eapply prepared_lives.
Qed.

Context (hooks_books : forall h, books (po_hook options h)).

Lemma submit_going p fresh : going p (pay_submit options auth input p fresh).
Proof using hooks_books.
  unfold pay_submit.
  apply going_bind; [apply going_books; destruct fresh; [done|solve_books]|intros _].
  apply going_bind; [apply going_books; solve_books|intros _].
  apply going_bind; [apply going_books, preflight_books|intros payer].
  apply going_bind; [apply going_books, consume_books|intros _].
  apply going_bind; [apply going_books; solve_books|intros _].
  apply going_bind; [by apply going_books|intros _].
  apply going_bind; [apply going_books, books_keeps; apply provider_keeps|intros settlement].
  apply going_bind; [apply going_books; solve_books|intros _].
  apply going_bind; [by apply going_books|intros _]. apply finalize_going.
Qed.

(** [payRuntimeX402] keeps the books, however it ends. *)
Lemma pay_keeps_the_books w :
  payments_ok (w_db w) -> authenticated auth (w_db w) ->
  let w' := snd (payRuntimeX402 options auth input w) in
  payments_ok (w_db w') /\ lives_on (w_db w) (w_db w').
Proof using hooks_books.
  intros Hok Hauth. unfold payRuntimeX402. destruct (start_sound w Hok Hauth) as (H1 & H2 & H3). unfold bind.
  destruct (pay_start options auth input w) as [[[r|p fresh]|e] w1]; cbn [fst snd] in *; [by split| |by split].
  destruct (submit_going p fresh w1) as [[H4 _] H5]; [split; [done|]; by eapply H3|].
  split; [done|]. by eapply lives_on_trans.
Qed.
End Pay.
