(* ===== verification/BudgetOperator.v ===== *)
(** What an operator does to the books: the resolution of an unknown outcome,
    the access of an agent, the mode of the organisation. *)

From stdpp Require Import relations.
From S2P Require Import Prelude Errors Usdc Json Identity Policy Quotes ResultCrypto PaidHttp Schema Host Ledger.
From S2P Require Import AuditLog AuditChain PolicyStore PolicyStoreThms Approvals ApprovalsThms Attempts.
From S2P Require Import Accounts Prepare Settlement Liquidity Pay BudgetSpec Budget BudgetOps BudgetPay.
Open Scope Z_scope.
#[local] Hint Resolve getOrgPaymentMode_keeps : keeps.

(** ** Unknown outcomes *)

Section Resolve.
Context {CO : Collation} {SH : Sha256}.

Lemma resolve_ok operator org id outcome w x w' :
  payments_ok (w_db w) -> resolveUnknownAttempt operator org id outcome w = (Ok x, w') ->
  payments_ok (w_db w') /\ lives_on (w_db w) (w_db w').
Proof.
  intros Hok E. apply transaction_ok in E. runs E.
  match goal with X : head (where_ _ (w_db w T_payment_reservations)) = Some ?r0 |- _ =>
    apply where_head in X as [Hr Hp]; rename r0 into r end.
  match goal with X : negb (is_some (head ?l)) = false |- _ => destruct (head l) as [e|] eqn:He; [clear X|done] end.
  apply where_head in He as [He Hpe]. unfold the_reservation in Hp. bdec.
  match goal with X : writePosting _ _ = _ |- _ => pose proof X as Hpost;
    apply writePosting_step in Hpost as ((pid & Hq) & HL & _) end.
  subst id org. destruct (ev_refers _ _ _ (po_events _ Hok) e _ He H) as (r' & Hr' & Hid' & Hx).
  assert (r' = r) as -> by (by apply (keyed_unique res_id _ _ _ (lk_res _ _ (po_links _ Hok)))).
  set (s := match outcome with Resolve_failed => Reservation_released | Resolve_settled => Reservation_settled end) in *.
  eapply closing_ok with (r := r) (s := s); [done|]. constructor.
  - destruct outcome; [by right|by left].
  - exists (the_reservation (res_org_id r) (res_id r)), (close_reservation s (w_now w)).
    split; [apply close_reservation_closes|]. split; [|by tabs].
    apply (keyed_where res_id); [apply Hok|done| |].
    + unfold the_reservation. by rewrite !eqs_refl.
    + intros r0 Hr0. unfold the_reservation in Hr0. by bdec.
  - done.
  - done.
  - eexists _, _. split; [intros a _; reflexivity|]. split; [|by tabs].
    intros a. destruct outcome; cbn; rewrite ?Z.add_0_r; done.
  - eexists. split; [tabs; rewrite HL; by tabs|]. intros q [<-|[]]. by rewrite Hq.
  - intros o g. tabs. rewrite HL. tabs. unfold posted_total. rewrite sum_where_app. cbn [sum_where].
    unfold settle_posting at 2. rewrite Hq. cbn. rewrite (eqs_sym o), (eqs_sym g).
    destruct outcome, (res_org_id r =s o), (res_agent_id r =s g); unfold is_settle, s; cbn; repeat case_bool_decide; try done; cbn; lia.
  - exists (fun _ => false), (fun t => t). split; [done|]. split.
    + intros t Ht _ Hf. rewrite (ev_unknown _ _ _ (po_events _ Hok) e r t) by done. cbn. by destruct outcome.
    + tabs. symmetry. apply update_rows_none. by apply where_none.
  - intros _ t Ht Hf. by rewrite (ev_unknown _ _ _ (po_events _ Hok) e r t).
  - by tabs.
  - exists []. rewrite app_nil_r. by tabs.
Qed.

Lemma resolve_books operator org id outcome : books (resolveUnknownAttempt operator org id outcome).
Proof.
  intros w Hok. destruct (resolveUnknownAttempt operator org id outcome w) as [[x|e] w'] eqn:E; cbn.
  - by eapply resolve_ok.
  - rewrite (transaction_err _ _ _ _ E). split; [done|apply lives_on_refl].
Qed.
End Resolve.

(** ** Access: a budget is granted *)

(** The grant an input asks for. *)
Definition grant_of (org agent : string) (input : SetAgentPaymentAccessInput) (o : Owner) (v : Z) : Prop :=
  o = (org, agent) /\ nonnegative_micros (sp_budget_usdc input) = Ok v.

(** As [lives_on], but the budgets may change as [G] says. *)
Record lives_with (G : Owner -> Z -> Prop) (db db' : Db) : Prop := mkLivesWith {
  lw_res : forall r, In r (db T_payment_reservations) ->
    exists r', In r' (db' T_payment_reservations) /\ same_reservation r r' /\
    (reservation_held r' = true -> reservation_held r = true);
  lw_att : forall t, In t (db T_runtime_payment_attempts) ->
    exists t', In t' (db' T_runtime_payment_attempts) /\ same_attempt t t' /\
    status_le (att_status t) (att_status t');
  lw_spec : rtc (book_step G) (book_of db) (book_of db');
  lw_plain : where_ plain_reservation (db' T_payment_reservations) = where_ plain_reservation (db T_payment_reservations)
}.

Lemma lives_on_with G db db' : lives_on db db' -> lives_with G db db'.
Proof. intros [H1 H2 H3 H4]. constructor; [done..| |done]. revert H3. apply rtc_subrel. intros a b H. by left. Qed.

Lemma lives_with_refl G db : lives_with G db db.
Proof. apply lives_on_with, lives_on_refl. Qed.

Lemma lives_with_trans G a b c : lives_with G a b -> lives_with G b c -> lives_with G a c.
Proof.
  intros [R1 T1 S1 P1] [R2 T2 S2 P2]. constructor; [| |by etrans|by rewrite P2].
  - intros r Hr. destruct (R1 r Hr) as (r1 & H1 & E1 & K1). destruct (R2 r1 H1) as (r2 & H2 & E2 & K2).
    exists r2. split; [done|]. split; [by eapply same_reservation_trans|auto].
  - intros t Ht. destruct (T1 t Ht) as (t1 & H1 & E1 & K1). destruct (T2 t1 H1) as (t2 & H2 & E2 & K2).
    exists t2. split; [done|]. split; [by eapply same_attempt_trans|by eapply status_le_trans].
Qed.

Definition granting (G : Owner -> Z -> Prop) {A} (m : M A) : Prop := sound payments_ok (lives_with G) m.

Lemma granting_books G {A} (m : M A) : books m -> granting G m.
Proof. intros Hm w Hw. destruct (Hm w Hw) as [H1 H2]. split; [done|]. by apply lives_on_with. Qed.

Lemma granting_bind G {A B} (m : M A) (k : A -> M B) :
  granting G m -> (forall a, granting G (k a)) -> granting G (bind m k).
Proof. apply sound_bind, lives_with_trans. Qed.

Lemma accounts_grant (G : Owner -> Z -> Prop) db db' A o v :
  payments_ok db -> G o v -> db' = db_set T_agent_payment_accounts A db ->
  balance_ok A (db T_payment_reservations) (db T_ledger_postings) ->
  (forall a, In a A -> In (budget_of a) (map budget_of (db T_agent_payment_accounts)) \/ budget_of a = (o, v)) ->
  payments_ok db' /\ lives_with G db db'.
Proof.
  intros [Hl Hb He Hsc] HG -> HA Hbud.
  split; [constructor|constructor]; rewrite ?db_set_same, ?db_set_other by discriminate; try done.
  - intros r Hr. exists r. auto with aops.
  - intros t Ht. exists t. split; [done|]. split; [auto with aops|by left].
  - apply rtc_once. right. exists o, v. split; [done|]. unfold book_of.
    rewrite ?db_set_same, ?db_set_other by discriminate. constructor.
    intros e (a & <- & Ha)%in_map_iff. auto.
Qed.

Lemma upsert_account_grants (G : Owner -> Z -> Prop) row :
  acct_reserved_usdc row = 0 -> acct_spent_usdc row = 0 -> G (account_owner row) (acct_budget_usdc row) ->
  granting G (upsert_account row).
Proof.
  intros Hr Hs HG w Hok. unfold upsert_account, bind, insert_or_ignore.
  destruct (check T_agent_payment_accounts row) eqn:Ec; cbn [negb]; [|split; [done|apply lives_with_refl]].
  destruct (existsb (clash T_agent_payment_accounts row) (w_db w T_agent_payment_accounts)) eqn:Ex.
  - unfold update. cbn zeta. destruct (forallb _ _); cbn [negb]; [|split; [done|apply lives_with_refl]].
    unfold some_or. destruct (head _); cbn [snd w_db with_db ret throw];
      (eapply accounts_grant; [done|exact HG|reflexivity|apply update_account; [apply Hok|done]|]);
      intros a (a0 & Ha0 & ->)%in_update_rows; destruct (the_account _ _ a0) eqn:E; try (left; by apply in_map);
      right; unfold the_account in E; bsimpl; unfold budget_of, account_owner; cbn; by rewrite H, H0.
  - cbn [snd w_db with_db ret]. eapply accounts_grant; [done|exact HG|reflexivity| |].
    + apply insert_account; [apply Hok| |done..].
      eapply (no_clash_key T_agent_payment_accounts account_owner row); [|exact Ex].
      intros a Ha. unfold account_owner in Ha. injection Ha as H1 H2. cbn. rewrite H1, H2, !eqs_refl. cbn.
      by rewrite ?orb_true_r.
    + intros a [Ha| ->]%in_snoc; [left; by apply in_map|by right].
Qed.

Lemma provision_keeps_books operator org agent rails : keeps_books (provision_wallets operator org agent rails).
Proof.
  unfold provision_wallets, chains_handled, getOrgPaymentMode, enqueueAgentWalletProvisioning, insert_wallet_job.
  solve_keeps_books.
Qed.

Section Access.
Context {CO : Collation} {SH : Sha256}.

Lemma granting_lift G {A B} (r : Res A) (k : A -> M B) :
  (forall a, r = Ok a -> granting G (k a)) -> granting G (bind (lift r) k).
Proof.
  intros Hk w Hw. destruct r as [a|e]; [by apply Hk|]. split; [done|apply lives_with_refl].
Qed.

Lemma setAccess_grants operator org agent input :
  granting (grant_of org agent input) (setAgentPaymentAccess operator org agent input).
Proof.
  unfold setAgentPaymentAccess, assertOrgAgent.
  apply granting_bind; [apply granting_books; solve_books|intros _].
  do 1 (apply granting_bind; [apply granting_books; solve_books|intros rails]).
  apply granting_lift; intros budget Hbudget.
  do 4 (apply granting_bind; [apply granting_books; solve_books|intros ?]).
  apply granting_bind; [by apply upsert_account_grants|intros row].
  apply granting_bind; [apply granting_books; solve_books|intros _].
  apply granting_bind; [apply granting_books; solve_books|intros _].
  apply granting_bind; [apply granting_books|intros _; apply granting_books; solve_books].
  destruct (sp_dedicated_wallet_required input); [apply keeps_books_books, provision_keeps_books|solve_books].
Qed.
End Access.

Lemma setMode_books operator org mode : books (setOrgPaymentMode operator org mode).
Proof. unfold setOrgPaymentMode. solve_books. Qed.
