(* ===== verification/HandlersPay.v ===== *)
(** The handlers of a payment are made of reads, statements, ids and calls:
    the provider is called in [submit_to_provider] only. *)

From S2P Require Import Prelude Errors Usdc Json Identity Policy Quotes ResultCrypto PaidHttp Schema Host Handlers Ledger.
From S2P Require Import AuditLog AuditChain PolicyStore Approvals Attempts Accounts Prepare Settlement Liquidity Pay.
Open Scope Z_scope.

(** The tables of other engines are not theirs to write. *)
Definition pay_writes (t : table) : bool :=
  match t with
  | T_escrow_jobs | T_agent_reputation_events | T_agent_onchain_identities | T_agent_delegations
  | T_agent_delegation_drawdowns | T_org_delegation_ceilings => false
  | _ => true
  end.

Section Shared.
Context {CO : Collation} {SH : Sha256} (C : ExternalCall -> Prop).

Lemma audit_made i : made_of C pay_writes (recordAuditEvent i).
Proof. solve_made. Qed.
#[local] Hint Resolve audit_made : made.

Lemma activity_made i : made_of C pay_writes (recordActivity i).
Proof. solve_made. Qed.
#[local] Hint Resolve activity_made : made.

Lemma posting_made i : made_of C pay_writes (writePosting i).
Proof. solve_made. Qed.

Lemma decision_made op org r : made_of C pay_writes (checkPolicyDecision op org r).
Proof. solve_made. Qed.
#[local] Hint Resolve decision_made : made.

Lemma request_made i : made_of C pay_writes (createApprovalRequest i).
Proof. solve_made. Qed.
Lemma consume_made auth a d : made_of C pay_writes (consumeApproval auth a d).
Proof. solve_made. Qed.
Lemma observation_made i : made_of C pay_writes (recordRouteObservation i).
Proof. solve_made. Qed.
Lemma find_made c k : made_of C pay_writes (findAttempt c k).
Proof. solve_made. Qed.
Lemma cancel_made o g : made_of C pay_writes (cancelStrandedReservedAttempts true o g).
Proof. solve_made. Qed.
Lemma purge_made l : made_of C pay_writes (purgeExpiredX402Results l).
Proof. solve_made. Qed.
Lemma submitting_made s i : made_of C pay_writes (markSubmitting s i).
Proof. solve_made. Qed.
End Shared.
#[export] Hint Resolve audit_made activity_made posting_made decision_made request_made consume_made
  observation_made find_made cancel_made purge_made submitting_made : made.

(** ** The phases of a payment *)

Section Phases.
Context {CO : Collation} {SH : Sha256} {UP : UrlParser} {IP : IpClassifier} {HD : HeaderDecoder}
  {CB : ChainBalances} {TB : TreasuryBalances} {XS : X402Settler} {CR : X402ResultCryptoCodec Stored}.
Context (C : ExternalCall -> Prop).
Context (options : PayRuntimeX402Options) (auth : ConnectionAuthResult) (input : RuntimePaidHttpX402Input).

Lemma seal_made id v : made_of C pay_writes (seal auth id v).
Proof. unfold seal. apply made_bind; [by eapply made_id|]. solve_made. Qed.
#[local] Hint Resolve seal_made : made.

Lemma finalize_made p s d : made_of C pay_writes (finalizePaidHttpPayment auth p s d).
Proof. solve_made. Qed.
#[local] Hint Resolve finalize_made : made.

Lemma evidence_made id s d : made_of C pay_writes (persistPaidHttpProviderEvidence auth id s d).
Proof. solve_made. Qed.

Lemma resume_made attempt a b : made_of C pay_writes (resume_attempt options auth input attempt a b).
Proof. solve_made. Qed.
#[local] Hint Resolve resume_made : made.

Lemma existing_made hash attempt : made_of C pay_writes (pay_existing options auth input hash attempt).
Proof. solve_made. Qed.
#[local] Hint Resolve existing_made : made.

Lemma spendable_made w g m : made_of C pay_writes (readSpendableMicros w g m).
Proof. unfold readSpendableMicros, nativeBalanceMicros. apply made_bind; [by eapply made_read|]. solve_made. Qed.
#[local] Hint Resolve spendable_made : made.

Lemma prepare_made hash dest pin : made_of C pay_writes (preparePaidHttpPayment auth input hash dest pin).
Proof. solve_made. Qed.
#[local] Hint Resolve prepare_made : made.

Context (C_http : forall url, C (mkExternalCall "paidHttp" [url])).

Lemma discover_made : made_of C pay_writes (discover_quote options input).
Proof using C_http.
  unfold discover_quote.
  do 2 (apply made_bind; [solve_made|intros ?]).
  apply made_bind; [|intros ?; solve_made].
  eapply made_call with (c := fun _ => mkExternalCall "paidHttp" [rq_url (ph_request input)]); [by intros w|done].
Qed.
#[local] Hint Resolve discover_made : made.

Lemma start_made : made_of C pay_writes (pay_start options auth input).
Proof using C_http. solve_made. Qed.

Lemma balances_made o : made_of C pay_writes (listCircleBalances o).
Proof.
  unfold listCircleBalances. do 2 (apply made_bind; [solve_made|intros ?]). by eapply made_read.
Qed.
#[local] Hint Resolve balances_made : made.

Lemma gateway_funds_made p : made_of C pay_writes (gateway_funds auth p).
Proof.
  unfold gateway_funds. cbv zeta. apply made_bind; [solve_made|intros ?].
  apply made_still. intros w. destruct (gateway_available _ _ _ _) as [b|]; [by destruct (parseUsdcMicros b)|done].
Qed.
#[local] Hint Resolve gateway_funds_made : made.

Lemma preflight_made p : made_of C pay_writes (pay_preflight auth p).
Proof. solve_made. Qed.

Lemma gate_made p : made_of C pay_writes (consume_gate auth p).
Proof. solve_made. Qed.

Lemma provider_made req p payer :
  (forall kind, C (mkExternalCall (settle_service kind) [att_id (pp_attempt p)])) ->
  made_of C pay_writes (submit_to_provider req p payer).
Proof.
  intros HC. unfold submit_to_provider. destruct (is_simulation _); [apply made_ret|].
  apply made_catch; [|intros e; apply made_ret]. apply made_bind; [apply made_lift|intros resource].
  match goal with |- made_of _ _ (settle_call ?kind ?i) =>
    apply made_call with (f := fun w => fst (settle_call kind i w))
      (c := fun _ => mkExternalCall (settle_service kind) [att_id (pp_attempt p)]) end; [|done].
  intros w. unfold settle_call. by destruct (settle_x402 _ _ _).
Qed.
End Phases.
#[export] Hint Resolve finalize_made evidence_made resume_made preflight_made gate_made : made.

(** ** What operators do *)

Section Operators.
Context {CO : Collation} {SH : Sha256} (C : ExternalCall -> Prop).

Lemma resolve_made op org id outcome : made_of C pay_writes (resolveUnknownAttempt op org id outcome).
Proof. solve_made. Qed.
Lemma setAccess_made op org agent input : made_of C pay_writes (setAgentPaymentAccess op org agent input).
Proof. solve_made. Qed.
Lemma setMode_made op org mode : made_of C pay_writes (setOrgPaymentMode op org mode).
Proof. solve_made. Qed.
Lemma approve_made op org id note : made_of C pay_writes (approveApproval op org id note).
Proof. solve_made. Qed.
Lemma deny_made op org id note : made_of C pay_writes (denyApproval op org id note).
Proof. solve_made. Qed.
Lemma correct_made i : made_of C pay_writes (correctPosting i).
Proof. solve_made. Qed.
End Operators.
#[export] Hint Resolve resolve_made setAccess_made setMode_made approve_made deny_made correct_made : made.
