(* ===== verification/Payments.v ===== *)
(** Payments side by side: a state machine of requests under way.

    A request of [payRuntimeX402] runs as the stages between its awaits; the
    stages of different requests, what operators do and everything else the
    platform does interleave; a request may be lost at any stage (a crash, a
    dropped client). *)

From stdpp Require Import relations.
From S2P Require Import Prelude Errors Usdc Json Identity Policy Quotes ResultCrypto PaidHttp Schema Host Handlers Ledger.
From S2P Require Import AuditLog AuditChain PolicyStore PolicyStoreThms Approvals ApprovalsThms Attempts Accounts.
From S2P Require Import Prepare Settlement Liquidity Pay BudgetSpec Budget BudgetOps BudgetPay BudgetOperator HandlersPay.
Open Scope Z_scope.

(** ** Requests under way *)

Inductive Stage : Type :=
| St_prepared (p : PreparedPaidHttpPayment)
| St_ready (p : PreparedPaidHttpPayment) (payer : option string)       (* preflight passed *)
| St_cleared (p : PreparedPaidHttpPayment) (payer : option string)     (* approval consumed *)
| St_submitted (p : PreparedPaidHttpPayment) (payer : option string)   (* marked submitting *)
| St_answered (p : PreparedPaidHttpPayment) (s : RuntimeX402SettlementResult)
| St_evidenced (p : PreparedPaidHttpPayment) (s : RuntimeX402SettlementResult).

Definition stage_payment (st : Stage) : PreparedPaidHttpPayment :=
  match st with
  | St_prepared p | St_ready p _ | St_cleared p _ | St_submitted p _ | St_answered p _ | St_evidenced p _ => p
  end.

Record Flight : Type := mkFlight {
  fl_auth : ConnectionAuthResult;
  fl_input : RuntimePaidHttpX402Input;
  fl_stage : Stage
}.

Record PState : Type := mkPState { ps_world : World; ps_flights : list Flight }.

(** The payment a flight works for. *)
Definition flight_id (f : Flight) : string := att_id (pp_attempt (stage_payment (fl_stage f))).

(** The budget a request for access asks for. *)
Definition grants_of (org agent : string) (input : SetAgentPaymentAccessInput) : list (Owner * Z) :=
  match nonnegative_micros (sp_budget_usdc input) with Ok v => [((org, agent), v)] | Err _ => [] end.

Inductive OperatorWork : Type :=
| Work_cancel (orgId agentId : string)
| Work_purge (limit : option Z)
| Work_resolve (operator : OperatorContext) (orgId reservationId : string) (outcome : ResolveUnknownAttemptOutcome)
| Work_mode (operator : OperatorContext) (orgId : string) (mode : PaymentMode).

(** A call to a payment provider. *)
Definition provider_call (c : ExternalCall) : bool :=
  (call_service c =s settle_service gateway) || (call_service c =s settle_service direct_exact).
Definition calls_for (id : string) (c : ExternalCall) : bool :=
  provider_call c && mem id (call_args c).
Definition provider_calls (id : string) (w : World) : nat := length (where_ (calls_for id) (w_calls w)).

(** The rest of the platform: it does not write the payment tables nor those
    of escrow jobs, keeps the connections it has, moves approvals as [ApprovalsThms] shows of their
    handlers, writes rows within their CHECK constraints, and does not call
    payment providers; time passes. *)
Record other_work (w w' : World) : Prop := mkOtherWork {
  ow_tables : forall t, payment_table t = true -> t <> T_connections -> w_db w' t = w_db w t;
  ow_keyed : keyed cn_id (w_db w T_connections) -> keyed cn_id (w_db w' T_connections);
  ow_connections : forall n, In n (w_db w T_connections) -> exists n', In n' (w_db w' T_connections) /\
    cn_id n' = cn_id n /\ cn_org_id n' = cn_org_id n /\ cn_agent_id n' = cn_agent_id n;
  ow_calls : exists l, w_calls w' = w_calls w ++ l /\ Forall (fun c => provider_call c = false) l;
  ow_approvals : approvals_ok (w_db w) ->
    approvals_ok (w_db w') /\ evolves (w_db w T_approval_requests) (w_db w' T_approval_requests);
  ow_checked : checked (w_db w) -> checked (w_db w');
  ow_escrow : w_db w' T_escrow_jobs = w_db w T_escrow_jobs
}.

Section Machine.
Context {CO : Collation} {SH : Sha256} {UP : UrlParser} {IP : IpClassifier} {HD : HeaderDecoder}
  {CB : ChainBalances} {TB : TreasuryBalances} {XS : X402Settler} {CR : X402ResultCryptoCodec Stored}.
Context (options : PayRuntimeX402Options).

(** One stage of a request. *)
Definition stage_run (f : Flight) : M (Stage + RuntimeX402PaymentResult) :=
  let auth := fl_auth f in
  match fl_stage f with
  | St_prepared p =>
      throw_if (pp_approvalRequired p)
        (PaymentApprovalRequiredError (pg_decisionId (pp_policyGate p)) (pg_approvalId (pp_policyGate p) ?? ""%string)) ;;*
      let* payer := pay_preflight auth p in ret (inl (St_ready p payer))
  | St_ready p payer => consume_gate auth p ;;* ret (inl (St_cleared p payer))
  | St_cleared p payer =>
      markSubmitting (pay_scope auth) (att_id (pp_attempt p)) ;;* ret (inl (St_submitted p payer))
  | St_submitted p payer =>
      let* s := submit_to_provider (ph_request (fl_input f)) p payer in ret (inl (St_answered p s))
  | St_answered p s =>
      persistPaidHttpProviderEvidence auth (att_id (pp_attempt p)) s (private_debug s) ;;*
      ret (inl (St_evidenced p s))
  | St_evidenced p s => let* r := finalizePaidHttpPayment auth p s (private_debug s) in ret (inr r)
  end.

Definition continued (f : Flight) (r : Res (Stage + RuntimeX402PaymentResult)) : list Flight :=
  match r with Ok (inl st) => [mkFlight (fl_auth f) (fl_input f) st] | _ => [] end.

Definition started (auth : ConnectionAuthResult) (input : RuntimePaidHttpX402Input) (r : Res PayStart) : list Flight :=
  match r with Ok (Pay_submit p _) => [mkFlight auth input (St_prepared p)] | _ => [] end.

Definition work (o : OperatorWork) : M unit :=
  match o with
  | Work_cancel org agent => cancelStrandedReservedAttempts true org agent ;;* ret tt
  | Work_purge limit => purgeExpiredX402Results limit ;;* ret tt
  | Work_resolve operator org id outcome => resolveUnknownAttempt operator org id outcome
  | Work_mode operator org mode => setOrgPaymentMode operator org mode ;;* ret tt
  end.

Inductive pstep : list (Owner * Z) -> PState -> PState -> Prop :=
| p_start auth input w fs r w' :
    authenticated auth (w_db w) -> pay_start options auth input w = (r, w') ->
    pstep [] (mkPState w fs) (mkPState w' (fs ++ started auth input r))
| p_advance fs1 f fs2 w r w' :
    stage_run f w = (r, w') ->
    pstep [] (mkPState w (fs1 ++ f :: fs2)) (mkPState w' (fs1 ++ continued f r ++ fs2))
| p_crash fs1 f fs2 w : pstep [] (mkPState w (fs1 ++ f :: fs2)) (mkPState w (fs1 ++ fs2))
| p_work o w fs r w' : work o w = (r, w') -> pstep [] (mkPState w fs) (mkPState w' fs)
| p_access operator org agent input w fs r w' :
    setAgentPaymentAccess operator org agent input w = (r, w') ->
    pstep (grants_of org agent input) (mkPState w fs) (mkPState w' fs)
| p_other w w' fs : other_work w w' -> pstep [] (mkPState w fs) (mkPState w' fs).

(** A run, with the budgets it granted. *)
Inductive prun : list (Owner * Z) -> PState -> PState -> Prop :=
| prun_done s : prun [] s s
| prun_step g tr s1 s2 s3 : pstep g s1 s2 -> prun tr s2 s3 -> prun (g ++ tr) s1 s3.

Lemma stage_made f : made_of (fun _ => True) pay_writes (stage_run f).
Proof.
  destruct f as [auth input st]. destruct st; cbn;
    [solve_made..|apply made_bind; [by apply provider_made|intros ?; apply made_ret]|solve_made|solve_made].
Qed.

Lemma work_made o (C : ExternalCall -> Prop) : made_of C pay_writes (work o).
Proof. destruct o; cbn [work]; solve_made. Qed.

(** ** What a run keeps *)

Record pgood (s : PState) : Prop := mkPGood {
  pg_books : payments_ok (w_db (ps_world s));
  pg_flights : forall f, In f (ps_flights s) ->
    prepared_ok (fl_auth f) (stage_payment (fl_stage f)) (w_db (ps_world s))
}.

Lemma prepared_with G auth p db db' : lives_with G db db' -> prepared_ok auth p db -> prepared_ok auth p db'.
Proof.
  intros [HR _ _ _] (r & Hr & H1 & H2 & H3 & H4 & H5). destruct (HR r Hr) as (r' & Hr' & [S1 S2 S3 _ S5 S6 _] & _).
  exists r'. split; [done|]. by rewrite S1, S2, S3, S5, S6.
Qed.

Lemma work_books o : books (work o).
Proof.
  destruct o; cbn [work].
  - solve_books.
  - apply books_bind; [apply purge_books|intros ?; solve_books].
  - apply resolve_books.
  - apply books_bind; [apply setMode_books|intros ?; solve_books].
Qed.

(** A stage of a prepared payment keeps the books, and the payment. *)
Lemma stage_going f : going (fl_auth f) (stage_payment (fl_stage f)) (stage_run f).
Proof.
  destruct f as [auth input st]. destruct st as [p|p payer|p payer|p payer|p s|p s]; cbn.
  - apply going_bind; [apply going_books; solve_books|intros _].
    apply going_bind; [apply going_books, preflight_books|intros payer]. apply going_books. solve_books.
  - apply going_bind; [apply going_books, consume_books|intros _]. apply going_books. solve_books.
  - apply going_books. solve_books.
  - apply going_bind; [apply going_books, books_keeps; apply provider_keeps|intros s]. apply going_books. solve_books.
  - apply going_books. solve_books.
  - apply going_bind; [apply finalize_going|intros r]. apply going_books. solve_books.
Qed.

Lemma stage_same_payment f r w w' f' :
  stage_run f w = (r, w') -> In f' (continued f r) ->
  fl_auth f' = fl_auth f /\ stage_payment (fl_stage f') = stage_payment (fl_stage f).
Proof.
  intros E Hin. destruct r as [[st|x]|e]; [|done..]. destruct Hin as [<-|[]]. split; [done|]. cbn.
  destruct f as [auth input st0]. destruct st0; cbn in *; runs E; try congruence;
    by match goal with X : inl _ = inl _ |- _ => injection X as <- end.
Qed.

Lemma other_lives G w w' :
  payments_ok (w_db w) -> other_work w w' -> payments_ok (w_db w') /\ lives_with G (w_db w) (w_db w').
Proof.
  intros [Hl Hb He [K S]] [Ht Hk Hc _ _ _ _]. split; [constructor|apply lives_on_with; constructor];
    rewrite ?(Ht T_payment_reservations), ?(Ht T_runtime_payment_attempts), ?(Ht T_agent_payment_accounts),
      ?(Ht T_ledger_postings), ?(Ht T_payment_events) by done; try done.
  - constructor; [by apply Hk|]. intros t c Hin E. destruct (S t c Hin E) as (n & Hn & H1 & H2 & H3).
    destruct (Hc n Hn) as (n' & Hn' & E1 & E2 & E3). exists n'. split; [done|]. repeat split; congruence.
  - intros r Hr. exists r. auto with aops.
  - intros t Hin. exists t. split; [done|]. split; [auto with aops|by left].
  - apply same_spec; by apply Ht.
Qed.

Lemma pstep_sound g s s' :
  pstep g s s' -> pgood s ->
  pgood s' /\ lives_with (fun o v => In (o, v) g) (w_db (ps_world s)) (w_db (ps_world s')).
Proof.
  intros Hs [Hok Hf]. destruct Hs as [auth input w fs r w' Hauth E|fs1 f fs2 w r w' E|fs1 f fs2 w|o w fs r w' E
    |operator org agent input w fs r w' E|w w' fs Ho]; cbn in *.
  - destruct (start_sound options auth input w Hok Hauth) as (H1 & H2 & H3). rewrite E in *. cbn in *.
    split; [|by apply lives_on_with]. constructor; cbn; [done|]. intros f [Hin|Hin]%in_app_iff.
    + eapply prepared_lives; [exact H2|by apply Hf].
    + destruct r as [[x|p fresh]|e]; [done| |done]. destruct Hin as [<-|[]]. cbn. by eapply H3.
  - destruct (stage_going f w) as [[H1 H2] H3]; [split; [done|apply Hf, in_elt]|]. rewrite E in *. cbn in *.
    split; [|by apply lives_on_with]. constructor; cbn; [done|].
    intros f' Hin. apply in_app_iff in Hin as [Hin|[Hin|Hin]%in_app_iff].
    + eapply prepared_lives; [exact H3|apply Hf, in_app_iff; by left].
    + by destruct (stage_same_payment _ _ _ _ _ E Hin) as [-> ->].
    + eapply prepared_lives; [exact H3|apply Hf, in_app_iff; by right; right].
  - split; [|apply lives_with_refl]. constructor; cbn; [done|]. intros f' Hin. apply Hf.
    rewrite in_app_iff in *. cbn. tauto.
  - destruct (work_books o w Hok) as [H1 H2]. rewrite E in *. cbn in *.
    split; [|by apply lives_on_with]. constructor; cbn; [done|]. intros f Hin. eapply prepared_lives; [exact H2|by apply Hf].
  - destruct (setAccess_grants operator org agent input w Hok) as [H1 H2]. rewrite E in *. cbn in *.
    assert (lives_with (fun o v => In (o, v) (grants_of org agent input)) (w_db w) (w_db w')) as H3.
    { destruct H2 as [R T S P]. constructor; [done..| |done]. eapply book_step_mono, S. intros o v [-> Hv].
      unfold grants_of. rewrite Hv. by left. }
    split; [|done]. constructor; cbn; [done|]. intros f Hin. eapply prepared_with; [exact H3|by apply Hf].
  - destruct (other_lives (fun o v => False) w w' Hok Ho) as [H1 H2].
    split; [|done]. constructor; cbn; [done|]. intros f Hin. eapply prepared_with; [exact H2|by apply Hf].
Qed.

Lemma prun_sound tr s s' :
  prun tr s s' -> pgood s ->
  pgood s' /\ lives_with (fun o v => In (o, v) tr) (w_db (ps_world s)) (w_db (ps_world s')).
Proof.
  induction 1 as [s|g tr s1 s2 s3 Hs _ IH]; intros Hg; [split; [done|apply lives_with_refl]|].
  destruct (pstep_sound g s1 s2 Hs Hg) as [Hg2 H1]. destruct (IH Hg2) as [Hg3 H2]. split; [done|].
  destruct H1 as [R1 T1 S1 P1], H2 as [R2 T2 S2 P2].
  eapply lives_with_trans; [constructor; [exact R1|exact T1| |exact P1]|constructor; [exact R2|exact T2| |exact P2]].
  - eapply book_step_mono, S1. intros o v H. apply in_app_iff. by left.
  - eapply book_step_mono, S2. intros o v H. apply in_app_iff. by right.
Qed.
End Machine.
