(* ===== verification/PaymentsGate.v ===== *)
(** Approvals and payments side by side: every handler keeps the requests for
    approval consistent and only moves them forward, and an approval pays for
    one payment. *)

From stdpp Require Import relations.
From S2P Require Import Prelude Errors Usdc Json Identity Policy Quotes ResultCrypto PaidHttp Schema Host Handlers Ledger.
From S2P Require Import AuditLog AuditChain PolicyStore PolicyStoreThms Approvals ApprovalsThms Attempts Accounts.
From S2P Require Import Prepare Settlement Liquidity Pay BudgetSpec Budget BudgetOps BudgetPay BudgetOperator HandlersPay Payments.
Open Scope Z_scope.

(** ** Handlers that respect approvals *)

Definition approvals_move (db db' : Db) : Prop := evolves (db T_approval_requests) (db' T_approval_requests).
Definition gated {A} (m : M A) : Prop := sound approvals_ok approvals_move m.

Lemma move_refl db : approvals_move db db.
Proof. apply evolves_refl. Qed.
Lemma move_trans a b c : approvals_move a b -> approvals_move b c -> approvals_move a c.
Proof. apply evolves_trans. Qed.

Lemma gated_bind {A B} (m : M A) (k : A -> M B) : gated m -> (forall a, gated (k a)) -> gated (bind m k).
Proof. apply sound_bind, move_trans. Qed.
Lemma gated_catch {A} (m : M A) h : gated m -> (forall e, gated (h e)) -> gated (catch m h).
Proof. apply sound_catch, move_trans. Qed.
Lemma gated_transaction {A} (m : M A) : gated m -> gated (withTransaction m).
Proof. apply sound_transaction, move_refl. Qed.

(** The tables of approvals. *)
Definition approval_table (t : table) : bool :=
  match t with T_approval_requests | T_approval_votes | T_approval_consumptions => true | _ => false end.

Lemma gated_keeps {A} (m : M A) : (forall t, approval_table t = true -> keeps t m) -> gated m.
Proof.
  intros Hm w Hw. split; [by apply approvals_keeps; auto|]. unfold approvals_move.
  rewrite (Hm T_approval_requests) by done. apply evolves_refl.
Qed.

(** A handler that leaves the database as it is. *)
Lemma gated_still {A} (m : M A) : (forall w, w_db (snd (m w)) = w_db w) -> gated m.
Proof. intros Hm. apply gated_keeps. intros t _ w. by rewrite Hm. Qed.

Lemma gated_ret {A} (a : A) : gated (ret a).
Proof. by apply gated_still. Qed.
Lemma gated_throw {A} e : gated (@throw A e).
Proof. by apply gated_still. Qed.
Lemma gated_throw_if b e : gated (throw_if b e).
Proof. by destruct b; apply gated_still. Qed.
Lemma gated_some_or {A} (o : option A) e : gated (some_or o e).
Proof. by destruct o; apply gated_still. Qed.
Lemma gated_lift {A} (r : Res A) : gated (lift r).
Proof. by destruct r; apply gated_still. Qed.
Lemma gated_select t p : gated (select t p).
Proof. by apply gated_still. Qed.
Lemma gated_select_one t p : gated (select_one t p).
Proof. by apply gated_still. Qed.
Lemma gated_now : gated get_now.
Proof. by apply gated_still. Qed.
Lemma gated_prefixed p : gated (prefixedId p).
Proof. by apply gated_still. Qed.
Lemma gated_insert t r : approval_table t = false -> gated (insert t r).
Proof. intros Ht. apply gated_keeps. intros t' Ht'. apply keeps_insert. congruence. Qed.
Lemma gated_insert_or_ignore t r : approval_table t = false -> gated (insert_or_ignore t r).
Proof. intros Ht. apply gated_keeps. intros t' Ht'. apply keeps_insert_or_ignore. congruence. Qed.
Lemma gated_update t p f : approval_table t = false -> gated (update t p f).
Proof. intros Ht. apply gated_keeps. intros t' Ht'. apply keeps_update. congruence. Qed.
Lemma gated_for_each {A S} (f : S -> A -> M S) l : (forall s x, gated (f s x)) -> forall s, gated (for_each f l s).
Proof.
  intros Hf. induction l as [|x l IH]; intros s; cbn; [apply gated_ret|]. by apply gated_bind.
Qed.

Create HintDb gated discriminated.
#[export] Hint Resolve gated_ret gated_throw gated_throw_if gated_some_or gated_lift gated_select gated_select_one
  gated_now gated_prefixed : gated.
#[export] Hint Extern 1 (gated (insert _ _)) => (apply gated_insert; reflexivity) : gated.
#[export] Hint Extern 1 (gated (insert_or_ignore _ _)) => (apply gated_insert_or_ignore; reflexivity) : gated.
#[export] Hint Extern 1 (gated (update _ _ _)) => (apply gated_update; reflexivity) : gated.

Ltac gated_step :=
  first
  [ solve [auto with gated nocore]
  | match goal with
    | |- gated (bind _ _) => apply gated_bind; [|intros ?]
    | |- gated (withTransaction _) => apply gated_transaction
    | |- gated (catch _ _) => apply gated_catch; [|intros ?]
    | |- gated (for_each _ _ _) => apply gated_for_each; intros ? ?
    | |- gated (match ?x with _ => _ end) => destruct x
    | |- gated (if ?b then _ else _) => destruct b
    | |- gated (let '(_, _) := ?x in _) => destruct x
    end
  | match goal with
    | |- gated ?m =>
        let rec head_of t := lazymatch t with ?f _ => head_of f | _ => t end in
        let h := head_of m in unfold h; cbv beta zeta
    end ].
Ltac solve_gated := repeat gated_step.

Section Gated.
Context {CO : Collation} {SH : Sha256} {UP : UrlParser} {IP : IpClassifier} {HD : HeaderDecoder}
  {CB : ChainBalances} {TB : TreasuryBalances} {XS : X402Settler} {CR : X402ResultCryptoCodec Stored}.

Lemma create_gated i : gated (createApprovalRequest i).
Proof. intros w Hw. split; [by apply createApprovalRequest_ok|apply createApprovalRequest_evolves]. Qed.
Lemma consume_gated auth a d : gated (consumeApproval auth a d).
Proof. intros w Hw. split; [by apply consumeApproval_ok|apply consumeApproval_evolves]. Qed.
#[local] Hint Resolve create_gated consume_gated : gated.

Lemma audit_gated i : gated (recordAuditEvent i).
Proof. solve_gated. Qed.
Lemma activity_gated i : gated (recordActivity i).
Proof. solve_gated. Qed.
Lemma posting_gated i : gated (writePosting i).
Proof. solve_gated. Qed.
#[local] Hint Resolve audit_gated activity_gated posting_gated : gated.
Lemma decision_gated op org r : gated (checkPolicyDecision op org r).
Proof. solve_gated. Qed.
Lemma find_gated c k : gated (findAttempt c k).
Proof. solve_gated. Qed.
Lemma cancel_gated o g : gated (cancelStrandedReservedAttempts true o g).
Proof. solve_gated. Qed.
Lemma seal_gated auth id v : gated (seal auth id v).
Proof. by apply gated_still. Qed.
#[local] Hint Resolve decision_gated find_gated cancel_gated seal_gated : gated.

Lemma enforce_gated auth pin quote resource threshold : gated (enforceX402Policy auth pin quote resource threshold).
Proof. solve_gated. Qed.
Lemma finalize_gated auth p s d : gated (finalizePaidHttpPayment auth p s d).
Proof. solve_gated. Qed.
Lemma spendable_gated w g m : gated (readSpendableMicros w g m).
Proof. unfold readSpendableMicros, nativeBalanceMicros. apply gated_bind; [by apply gated_still|]. solve_gated. Qed.
#[local] Hint Resolve enforce_gated finalize_gated spendable_gated : gated.

Section Phases.
Context (options : PayRuntimeX402Options) (auth : ConnectionAuthResult) (input : RuntimePaidHttpX402Input).

Lemma prepare_gated hash dest pin : gated (preparePaidHttpPayment auth input hash dest pin).
Proof. solve_gated. Qed.
Lemma existing_gated hash attempt : gated (pay_existing options auth input hash attempt).
Proof. solve_gated. Qed.
Lemma discover_gated : gated (discover_quote options input).
Proof.
  unfold discover_quote. do 2 (apply gated_bind; [solve_gated|intros ?]).
  apply gated_bind; [by apply gated_still|intros ?; solve_gated].
Qed.
#[local] Hint Resolve prepare_gated existing_gated discover_gated : gated.

Lemma start_gated : gated (pay_start options auth input).
Proof. solve_gated. Qed.

Lemma balances_gated o : gated (listCircleBalances o).
Proof. unfold listCircleBalances. do 2 (apply gated_bind; [solve_gated|intros ?]). by apply gated_still. Qed.
Lemma gateway_funds_gated p : gated (gateway_funds auth p).
Proof.
  unfold gateway_funds. cbv zeta. apply gated_bind; [solve_gated|intros ?]. apply gated_still. intros w.
  destruct (gateway_available _ _ _ _) as [b|]; [by destruct (parseUsdcMicros b)|done].
Qed.
#[local] Hint Resolve balances_gated gateway_funds_gated : gated.
Lemma preflight_gated p : gated (pay_preflight auth p).
Proof. solve_gated. Qed.
Lemma provider_gated req p payer : gated (submit_to_provider req p payer).
Proof. apply gated_keeps. intros t _. apply provider_keeps. Qed.
End Phases.
#[local] Hint Resolve start_gated preflight_gated provider_gated : gated.

Lemma stage_gated f : gated (stage_run f).
Proof. destruct f as [auth input st]. destruct st; cbn; solve_gated. Qed.
Lemma work_gated o : gated (work o).
Proof. destruct o; cbn; solve_gated. Qed.
Lemma access_gated op org agent input : gated (setAgentPaymentAccess op org agent input).
Proof. solve_gated. Qed.
End Gated.
