(* ===== verification/Samples.v ===== *)
(** A platform for the witnesses: concrete services, one organisation with an
    agent that may pay, and a payment of one cent through the gateway. *)

From S2P Require Import Prelude Errors Usdc Json Identity Policy Quotes ResultCrypto PaidHttp PaidHttpThms Schema Host Ledger.
From S2P Require Import AuditLog AuditChain PolicyStore PolicyStoreThms Approvals ApprovalsThms Attempts Accounts.
From S2P Require Import IdentityStore Prepare Settlement Liquidity Pay Chain.
Open Scope Z_scope.

(** ** Services *)

#[export] Instance sample_collation : Collation := byte_collation.
#[export] Instance sample_sha256 : Sha256 := toy_sha256.
#[export] Instance sample_urls : UrlParser := sample_parser.
#[export] Instance sample_ips : IpClassifier := sample_isIP.
#[export] Instance sample_headers : HeaderDecoder := fun _ => None.
#[export] Instance sample_process : NodeProcess := {
  random_base64url := fun w _ => Digits.to_string (w_next w);
  node_env := "test"
}.
#[export] Instance sample_chain : ChainBalances := fun _ _ _ _ => Ok 5000000.
#[export] Instance sample_treasury : TreasuryBalances := {
  provider_configured := fun _ => true;
  live_rebalance_enabled := true;
  wallet_balances := fun _ _ _ => Some [];
  gateway_available := fun _ _ _ _ => Some "5.0"%string
}.

(** The provider settles, but answers the second call ambiguously. *)
#[export] Instance sample_settler : X402Settler := {
  settle_x402 := fun w _ input =>
    if (length (w_calls w) <=? 2)%nat then
      inl {| sr_payment := Some (mkCircleProviderPayment Paid_settled (Some "0xabc"%string) None
               (req_network (sx_requirements input)) None None);
             sr_response := None; sr_errorReason := None; sr_network := req_network (sx_requirements input);
             sr_providerMode := PaymentMode_text (sx_mode input); sr_success := true |}
    else inr ("timeout"%string, true);
  takeCircleProviderPaidRequestDebug := fun _ => None
}.

#[export] Instance sample_provider : TreasuryProvider := {
  execute_permit2 := fun _ _ => Ok "0xfeed"%string;
  transfer_wallet := fun _ _ => Ok "tx_1"%string;
  transfer_native_gas := fun _ _ => Ok tt;
  sign_permit2 := fun _ _ => Ok "0x51"%string
}.

Definition sample_envelope : X402ResultEnvelope :=
  mkEnvelope "AQI=" "AAECAwQFBgcICQoL" "AAECAwQFBgcICQoLDA0ODw==".

(** An envelope that opens to nothing. *)
#[export] Instance sample_codec : X402ResultCryptoCodec Stored := {
  encrypt := fun _ _ _ => sample_envelope;
  decrypt := fun _ _ => Err (PlainError "x402_result_decryption_failed")
}.

(** ** A request and its 402 *)

Definition sample_offer : json := JObj
  [("scheme", JStr "exact"); ("network", JStr "eip155:84532");
   ("asset", JStr "0x036CbD53842c5426634e7929541eC2318f3dCF7e"); ("amount", JStr "10000");
   ("payTo", JStr "0x00000000000000000000000000000000000000aa"); ("maxTimeoutSeconds", jint 60);
   ("extra", JObj [("name", JStr "GatewayWalletBatched")])]%string.

Definition sample_402 : PaidHttpResponse := mkPaidHttpResponse 402 [] (Some "application/json"%string) "json"
  (JObj [("x402Version", jint 2); ("resource", JObj [("url", JStr sample_url)]); ("accepts", JArr [sample_offer])]%string) 10.

Definition sample_options : PayRuntimeX402Options := mkPayRuntimeX402Options (fun _ => ret tt) false
  (fun _ _ _ => Ok sample_402) [] (fun _ => Ok ["93.184.216.34"%string]) true.

Definition sample_input (key : string) : RuntimePaidHttpX402Input :=
  mkRuntimePaidHttpX402Input key (mkPaidHttpRequest sample_url "GET" [] None).

(** ** The platform *)

Definition sample_caller : ConnectionAuthResult := mkConnectionAuthResult "org_1" "agt_1" "con_1".
Definition pay_action : PolicyActionRow :=
  mkPolicyActionRow X402_ACTION "payment" "Pay" "" "enforced" 2 ["payment"]%string ["org"; "agent"]%string.

Definition sample_source : PaymentSourceRow :=
  mkPaymentSourceRow "src_1" "org_1" None "treasury" Provider_circle_gateway (Rail gateway Chain_base) Chain_base
    "Gateway" Access_active "gateway" (Some "0x1"%string) (Some "w_1"%string) 0 (JObj []) 0 0.
Definition sample_wallet : CircleChainWalletRow :=
  mkCircleChainWalletRow "EOA" "0x1" Chain_base "BASE-SEPOLIA" "w_1" 0 "ccw_1" (JObj []) mode_test "org_1"
    Access_active 0 "set_1".
Definition sample_allowed : AllowlistRow :=
  mkAllowlistRow "al_1" "org_1" Chain_base "0x00000000000000000000000000000000000000AA" "Shop" "manual" "active"
    "usr_1" None 0.

Definition sample_workspace : OrgRow :=
  mkOrgRow "org_1" "Acme" (Some "acme"%string) (Some "team_1"%string) (JObj []) Org_active 0 0 default_allow false
    None None None.
Definition sample_agent : AgentRow :=
  mkAgentRow "agt_1" "org_1" "team_1" None "Buyer" "active" "" [] None (JObj []) 0 0 None.
Definition sample_connection : ConnectionRow :=
  mkConnectionRow "con_1" "org_1" "agt_1" Kind_agent_credential "Buyer MCP" "active" None None None 0 0 None None None.

Definition sample_db : Db :=
  db_set T_policy_action_registry [pay_action]
  (db_set T_orgs [sample_workspace]
  (db_set T_agents [sample_agent]
  (db_set T_connections [sample_connection]
  (db_set T_org_payment_modes [mkOrgPaymentModeRow "org_1" mode_test "usr_1" 0]
  (db_set T_payment_sources [sample_source]
  (db_set T_circle_chain_wallets [sample_wallet]
  (db_set T_payment_destination_allowlist [sample_allowed] empty_db))))))).

Definition sample_world0 : World := mkWorld sample_db 1000000 0 [].

Definition sample_access (budget : string) : SetAgentPaymentAccessInput :=
  mkSetAgentPaymentAccessInput Access_active budget "0" None false ["gateway_base"]%string.

Definition run_m {A} (m : M A) (w : World) : World := snd (m w).

(** The agent may spend up to 0.025. *)
Definition granted_world : World :=
  run_m (setAgentPaymentAccess sample_operator "org_1" "agt_1" (sample_access "0.025")) sample_world0.

Definition pay (key : string) : M RuntimeX402PaymentResult :=
  payRuntimeX402 sample_options sample_caller (sample_input key).

(** Two payments fit the budget, the third does not. *)
Definition paid_world : World := run_m (pay "k1") granted_world.
Definition paid_twice : World := run_m (pay "k2") paid_world.
