(* ===== verification/PaymentsThms.v ===== *)
(** What holds of every run of payments: the books, the budget, the provider
    asked at most once per payment, and that [payRuntimeX402] alone is a run. *)

From stdpp Require Import relations.
From S2P Require Import Prelude Errors Usdc Json Identity Policy Quotes ResultCrypto PaidHttp Schema Host Handlers Ledger.
From S2P Require Import AuditLog AuditChain PolicyStore PolicyStoreThms Approvals ApprovalsThms Attempts Accounts.
From S2P Require Import Prepare Settlement Liquidity Pay BudgetSpec Budget BudgetOps BudgetPay BudgetOperator HandlersPay Payments Samples.
Open Scope Z_scope.

(** ** The provider is asked once *)

(** A request that may ask the provider next. *)
Definition licensed (id : string) (f : Flight) : bool :=
  match fl_stage f with St_submitted p _ => att_id (pp_attempt p) =s id | _ => false end.
Definition licences (id : string) (fs : list Flight) : nat := length (where_ (licensed id) fs).

(** The calls made for a payment and those about to be made. *)
Definition asked (id : string) (s : PState) : nat :=
  (provider_calls id (ps_world s) + licences id (ps_flights s))%nat.

Definition past_reserved (id : string) (db : Db) : Prop :=
  exists t, In t (db T_runtime_payment_attempts) /\ att_id t = id /\ att_status t <> Attempt_reserved.

Definition once_ok (s : PState) : Prop := forall id,
  (asked id s <= 1)%nat /\ ((0 < asked id s)%nat -> past_reserved id (w_db (ps_world s))).

Lemma past_reserved_lives G id db db' : lives_with G db db' -> past_reserved id db -> past_reserved id db'.
Proof.
  intros [_ HT _ _] (t & Ht & <- & Hs). destruct (HT t Ht) as (t' & Ht' & [Hid _ _ _ _ _ _] & Hle).
  exists t'. split; [done|]. split; [done|]. destruct Hle as [<-|Hle]; [done|].
  by destruct (att_status t), (att_status t').
Qed.

(** Nothing more is asked: the state stays good. *)
Lemma once_lives G s s' :
  lives_with G (w_db (ps_world s)) (w_db (ps_world s')) -> (forall id, (asked id s' <= asked id s)%nat) ->
  once_ok s -> once_ok s'.
Proof.
  intros Hl Ha Ho id. specialize (Ha id). destruct (Ho id) as [H1 H2]. split; [lia|].
  intros H. eapply past_reserved_lives, H2; [done|]. lia.
Qed.

Lemma quiet_calls id w l :
  Forall (fun c => provider_call c = false) l -> where_ (calls_for id) (w ++ l) = where_ (calls_for id) w.
Proof.
  intros Hl. rewrite where_app, (where_none _ l), app_nil_r; [done|].
  intros c Hc. unfold calls_for. rewrite List.Forall_forall in Hl. by rewrite (Hl c Hc).
Qed.

Lemma quiet_made {A} (m : M A) w r w' id :
  made_of (fun c => provider_call c = false) pay_writes m -> m w = (r, w') -> provider_calls id w' = provider_calls id w.
Proof.
  intros Hm E. destruct (made_after _ _ m Hm w) as [_ _ (l & Hl & HF) _]. rewrite E in Hl. cbn in Hl.
  unfold provider_calls. by rewrite Hl, quiet_calls.
Qed.

Lemma licences_app id a b : licences id (a ++ b) = (licences id a + licences id b)%nat.
Proof. unfold licences. by rewrite where_app, length_app. Qed.

Section Once.
Context {CO : Collation} {SH : Sha256} {UP : UrlParser} {IP : IpClassifier} {HD : HeaderDecoder}
  {CB : ChainBalances} {TB : TreasuryBalances} {XS : X402Settler} {CR : X402ResultCryptoCodec Stored}.
Context (options : PayRuntimeX402Options).

Lemma started_licences auth input r id : licences id (started auth input r) = 0%nat.
Proof. by destruct r as [[x|p fresh]|e]. Qed.

Lemma markSubmitting_ok scope id w t w' :
  markSubmitting scope id w = (Ok t, w') ->
  (exists t0, In t0 (w_db w T_runtime_payment_attempts) /\ att_id t0 = id /\ att_status t0 = Attempt_reserved) /\
  (exists t1, In t1 (w_db w' T_runtime_payment_attempts) /\ att_id t1 = id /\ att_status t1 = Attempt_submitting).
Proof.
  intros E. unfold markSubmitting, transition in E. runs E.
  match goal with X : ?l = map _ (where_ ?q ?T) |- _ => destruct (where_ q T) as [|t0 l0] eqn:Ew; cbn [map] in X; subst l end.
  { runs E. destruct (head _); runs E. }
  runs E. assert (In t0 (t0 :: l0)) as Hin by (by left). rewrite <-Ew in Hin. apply where_in in Hin as [Hin Hp].
  unfold the_attempt in Hp. bdec. split; [by exists t0|]. exists (submitting_row (w_now w) t0).
  split; [|done]. rewrite H0, db_set_same. apply in_update_rows. exists t0. split; [done|].
  unfold the_attempt. by rewrite H2, H5, H4, H3, !eqs_refl, bool_decide_eq_true_2, (proj2 (eqo_spec _ _)).
Qed.

(** The provider stage makes at most one call, for its payment. *)
Lemma submit_asks req p payer w r w' id :
  submit_to_provider req p payer w = (r, w') ->
  (provider_calls id w' <= provider_calls id w + (if att_id (pp_attempt p) =s id then 1 else 0))%nat.
Proof.
  unfold submit_to_provider. destruct (is_simulation _); [intros [= _ <-]; lia|].
  unfold catch, bind, lift. destruct (x402ProviderResource _) as [resource|e]; cbn [ret throw]; [|intros [= _ <-]; lia].
  unfold settle_call. destruct (settle_x402 _ _ _) as [s|[m a]]; intros [= _ <-]; unfold provider_calls; cbn;
    rewrite where_app, length_app; cbn; unfold calls_for at 2; cbn; rewrite (eqs_sym id);
    destruct (att_id _ =s id); cbn; rewrite ?andb_false_r; repeat case_match; cbn; lia.
Qed.

Lemma submit_not_next f r w w' id :
  stage_run f w = (r, w') -> (forall p payer, fl_stage f <> St_cleared p payer) -> licences id (continued f r) = 0%nat.
Proof.
  intros E Hf. destruct r as [[st|x]|e]; [|done..]. destruct f as [auth input st0].
  destruct st0; cbn in *; runs E; try congruence;
    try (match goal with X : inl _ = inl _ |- _ => injection X as <- end; done).
  by destruct (Hf p payer).
Qed.

Lemma stage_quiet f :
  (forall p payer, fl_stage f <> St_submitted p payer) -> made_of (fun c => provider_call c = false) pay_writes (stage_run f).
Proof.
  destruct f as [auth input st]. intros Hf. destruct st; cbn; [solve_made..| |solve_made|solve_made].
  by destruct (Hf p payer).
Qed.

(** A stage of a request asks for its payment alone. *)
Lemma advance_once f fs1 fs2 w r w' :
  pgood (mkPState w (fs1 ++ f :: fs2)) -> once_ok (mkPState w (fs1 ++ f :: fs2)) ->
  stage_run f w = (r, w') -> once_ok (mkPState w' (fs1 ++ continued f r ++ fs2)).
Proof.
  intros Hg Ho E. pose proof (p_advance options fs1 f fs2 w r w' E) as Hs.
  destruct (pstep_sound options _ _ _ Hs Hg) as [_ Hl].
  assert (Hf : forall id, licences id (fs1 ++ f :: fs2) = (licences id fs1 + licences id [f] + licences id fs2)%nat).
  { intros id. rewrite (app_assoc fs1 [f] fs2 : fs1 ++ f :: fs2 = _), !licences_app. done. }
  destruct (fl_stage f) as [p|p payer|p payer|p payer|p st|p st] eqn:Ef.
  3: { (* marked submitting: the attempt was reserved, so nothing was asked for it *)
    intros id. specialize (Ho id). unfold asked in *. cbn [ps_world ps_flights] in *.
    rewrite (quiet_made (stage_run f) w r w' id); [|apply stage_quiet; by rewrite Ef|done].
    rewrite Hf in Ho. rewrite !licences_app.
    assert (licences id [f] = 0%nat) as Hz by (unfold licences, licensed; cbn; by rewrite Ef). rewrite Hz in Ho.
    destruct (licences id (continued f r)) eqn:Ec.
    { split; [lia|]. intros H. eapply past_reserved_lives; [exact Hl|]. apply Ho. lia. }
    unfold stage_run in E. rewrite Ef in E.
    destruct (markSubmitting (pay_scope (fl_auth f)) (att_id (pp_attempt p)) w) as [[t|e] w1] eqn:Em.
    2: { rewrite (bind_fail _ _ _ _ _ Em) in E. by injection E as <- <-. }
    rewrite (bind_run _ _ _ _ _ Em) in E. injection E as <- <-. cbn in Ec. unfold licences, licensed in Ec. cbn in Ec.
    destruct (att_id (pp_attempt p) =s id) eqn:Eid; [|done]. apply eqs_spec in Eid. injection Ec as <-.
    apply markSubmitting_ok in Em as [(t0 & Ht0 & Hi0 & Hs0) (t1 & Ht1 & Hi1 & Hs1)].
    destruct Ho as [Hle Hpast].
    assert (provider_calls id w + (licences id fs1 + 0 + licences id fs2) = 0)%nat as Hnone.
    { destruct (provider_calls id w + (licences id fs1 + 0 + licences id fs2))%nat eqn:Ea; [done|].
      destruct Hpast as (tx & Ht & Hti & Hts); [lia|]. exfalso.
      assert (tx = t0) as ->; [|done]. destruct Hg as [[Hlinks _ _ _] _].
      apply (keyed_unique att_id _ _ _ (lk_att _ _ Hlinks)); [done..|congruence]. }
    split; [lia|]. intros _. exists t1. split; [done|]. split; [congruence|]. by rewrite Hs1. }
  3: { (* the provider is asked: the licence is used up *)
    eapply once_lives; [exact Hl| |exact Ho]. intros id. unfold asked. cbn [ps_world ps_flights].
    rewrite Hf, !licences_app, (submit_not_next f r w w' id E) by (by rewrite Ef).
    assert (licences id [f] = if att_id (pp_attempt p) =s id then 1%nat else 0%nat) as ->.
    { unfold licences, licensed. cbn. rewrite Ef. by destruct (_ =s id). }
    unfold stage_run in E. rewrite Ef in E.
    destruct (submit_to_provider (ph_request (fl_input f)) p payer w) as [[s|e] w1] eqn:Em.
    - rewrite (bind_run _ _ _ _ _ Em) in E. injection E as <- <-. pose proof (submit_asks _ _ _ _ _ _ id Em). lia.
    - rewrite (bind_fail _ _ _ _ _ Em) in E. injection E as <- <-. pose proof (submit_asks _ _ _ _ _ _ id Em). lia. }
  all: eapply once_lives; [exact Hl| |exact Ho]; intros id; unfold asked; cbn [ps_world ps_flights];
    rewrite Hf, !licences_app, (submit_not_next f r w w' id E) by (by rewrite Ef);
    rewrite (quiet_made (stage_run f) w r w' id); [lia|apply stage_quiet; by rewrite Ef|done].
Qed.

Lemma pstep_once g s s' : pstep options g s s' -> pgood s -> once_ok s -> once_ok s'.
Proof.
  intros Hs Hg Ho. destruct (pstep_sound options _ _ _ Hs Hg) as [_ Hl].
  destruct Hs as [auth input w fs r w' Hauth E|fs1 f fs2 w r w' E|fs1 f fs2 w|o w fs r w' E
    |operator org agent input w fs r w' E|w w' fs [_ _ _ (l & El & HF) _ _ _]];
    [| | |eapply once_lives; [exact Hl| |exact Ho]..].
  - eapply once_lives; [exact Hl| |exact Ho]. intros id. unfold asked. cbn [ps_world ps_flights].
    rewrite licences_app, started_licences, (quiet_made (pay_start options auth input) w r w' id); [lia| |done].
    by apply start_made.
  - by eapply advance_once.
  - eapply once_lives; [exact Hl| |exact Ho]. intros id. unfold asked. cbn [ps_world ps_flights].
    rewrite (app_assoc fs1 [f] fs2 : fs1 ++ f :: fs2 = _), !licences_app. lia.
  - intros id. unfold asked. cbn [ps_world ps_flights]. rewrite (quiet_made (work o) w r w' id); [lia|apply work_made|done].
  - intros id. unfold asked. cbn [ps_world ps_flights].
    rewrite (quiet_made (setAgentPaymentAccess operator org agent input) w r w' id); [lia|solve_made|done].
  - intros id. unfold asked, provider_calls. cbn [ps_world ps_flights]. rewrite El, quiet_calls by done. lia.
Qed.

Lemma prun_once tr s s' : prun options tr s s' -> pgood s -> once_ok s -> once_ok s'.
Proof.
  induction 1 as [s|g tr s1 s2 s3 Hs _ IH]; intros Hg Ho; [done|].
  apply IH; [by eapply pstep_sound|by eapply pstep_once].
Qed.
End Once.

(** ** A payment alone *)

Section Alone.
Context {CO : Collation} {SH : Sha256} {UP : UrlParser} {IP : IpClassifier} {HD : HeaderDecoder}
  {CB : ChainBalances} {TB : TreasuryBalances} {XS : X402Settler} {CR : X402ResultCryptoCodec Stored}.
Context (options : PayRuntimeX402Options) (auth : ConnectionAuthResult) (input : RuntimePaidHttpX402Input).

(** What is left of a request at a stage. *)
Definition rest (st : Stage) : M RuntimeX402PaymentResult :=
  let finish p s := finalizePaidHttpPayment auth p s (private_debug s) in
  let answered p s :=
    persistPaidHttpProviderEvidence auth (att_id (pp_attempt p)) s (private_debug s) ;;* finish p s in
  let submitted p payer := let* s := submit_to_provider (ph_request input) p payer in answered p s in
  let cleared p payer := markSubmitting (pay_scope auth) (att_id (pp_attempt p)) ;;* submitted p payer in
  let ready p payer := consume_gate auth p ;;* cleared p payer in
  match st with
  | St_prepared p =>
      throw_if (pp_approvalRequired p)
        (PaymentApprovalRequiredError (pg_decisionId (pp_policyGate p)) (pg_approvalId (pp_policyGate p) ?? ""%string)) ;;*
      let* payer := pay_preflight auth p in ready p payer
  | St_ready p payer => ready p payer
  | St_cleared p payer => cleared p payer
  | St_submitted p payer => submitted p payer
  | St_answered p s => answered p s
  | St_evidenced p s => finish p s
  end.

(** One stage, and then the rest. *)
Lemma rest_stage st w :
  rest st w = bind (stage_run (mkFlight auth input st))
    (fun x => match x with inl st' => rest st' | inr r => ret r end) w.
Proof.
  destruct st as [p|p payer|p payer|p payer|p s|p s]; cbn [rest stage_run fl_auth fl_input fl_stage]; rewrite bind_assoc.
  - apply bind_ext. intros _ w1. rewrite bind_assoc. by apply bind_ext.
  - by apply bind_ext.
  - by apply bind_ext.
  - by apply bind_ext.
  - by apply bind_ext.
  - unfold bind, ret. by destruct (finalizePaidHttpPayment _ _ _ _ w) as [[r|e] w1].
Qed.

Definition runs_out (st : Stage) : Prop := forall w fs,
  prun options [] (mkPState w (fs ++ [mkFlight auth input st])) (mkPState (snd (rest st w)) fs).

Lemma runs_out_stage st :
  (forall w st' w', stage_run (mkFlight auth input st) w = (Ok (inl st'), w') -> runs_out st') -> runs_out st.
Proof.
  intros Hnext w fs. rewrite rest_stage. unfold bind.
  destruct (stage_run (mkFlight auth input st) w) as [r w'] eqn:E.
  pose proof (p_advance options fs (mkFlight auth input st) [] w r w' E) as Hs.
  eapply (prun_step options [] [] _ _ _ Hs). destruct r as [[st'|x]|e]; cbn; rewrite ?app_nil_r; [|constructor..].
  by eapply Hnext.
Qed.

Lemma stage_runs_out st : runs_out st.
Proof.
  assert (Hev : forall p s, runs_out (St_evidenced p s)).
  { intros p s. apply runs_out_stage. intros w st' w' E. cbn in E. by runs E. }
  assert (Han : forall p s, runs_out (St_answered p s)).
  { intros p s. apply runs_out_stage. intros w st' w' E. cbn in E. runs E.
    match goal with X : inl _ = inl _ |- _ => by injection X as <- end. }
  assert (Hsu : forall p payer, runs_out (St_submitted p payer)).
  { intros p payer. apply runs_out_stage. intros w st' w' E. cbn in E. runs E.
    match goal with X : inl _ = inl _ |- _ => by injection X as <- end. }
  assert (Hcl : forall p payer, runs_out (St_cleared p payer)).
  { intros p payer. apply runs_out_stage. intros w st' w' E. cbn in E. runs E.
    match goal with X : inl _ = inl _ |- _ => by injection X as <- end. }
  assert (Hre : forall p payer, runs_out (St_ready p payer)).
  { intros p payer. apply runs_out_stage. intros w st' w' E. cbn in E. runs E.
    match goal with X : inl _ = inl _ |- _ => by injection X as <- end. }
  destruct st; auto. apply runs_out_stage. intros w st' w' E. cbn in E. runs E.
  match goal with X : inl _ = inl _ |- _ => by injection X as <- end.
Qed.

Context (no_hooks : forall h, po_hook options h = ret tt).

Lemma submit_rest p fresh w : pay_submit options auth input p fresh w = rest (St_prepared p) w.
Proof using no_hooks.
  unfold pay_submit. rewrite !no_hooks. cbn [rest]. destruct fresh; reflexivity.
Qed.
End Alone.

(** ** The theorems *)

Section Theorems.
Context {CO : Collation} {SH : Sha256} {UP : UrlParser} {IP : IpClassifier} {HD : HeaderDecoder}
  {CB : ChainBalances} {TB : TreasuryBalances} {XS : X402Settler} {CR : X402ResultCryptoCodec Stored}.

(** C18: [payRuntimeX402], called alone without hooks, is a run of the
    machine: the stages between its awaits, in order, with the same world at
    the end whatever it returns or throws. *)
Theorem pay_is_a_run options auth input w fs :
  (forall h, po_hook options h = ret tt) -> authenticated auth (w_db w) ->
  prun options [] (mkPState w fs) (mkPState (snd (payRuntimeX402 options auth input w)) fs).
Proof.
  intros Hh Hauth. unfold payRuntimeX402, bind. destruct (pay_start options auth input w) as [r w1] eqn:E.
  eapply (prun_step options [] [] _ _ _ (p_start options auth input w fs r w1 Hauth E)).
  destruct r as [[x|p fresh]|e]; cbn [started fst snd]; rewrite ?app_nil_r; [constructor| |constructor].
  rewrite (submit_rest options auth input Hh). apply stage_runs_out.
Qed.

(** C3: Every run of payments -- requests side by side, stage by stage, lost
    at any stage, with the work of operators and of the rest of the platform in
    between -- keeps the books: each attempt has its one reservation, with its
    owner, its amount and a status that agrees; the counters of an account are
    the sums of its reservations and of its settle postings; an unknown outcome
    is an attempt's whose outcome is unknown; and each request under way holds
    a reservation of the amount it quotes. *)
Theorem payments_keep_the_books options tr s s' : prun options tr s s' -> pgood s -> pgood s'.
Proof. intros Hr Hg. by destruct (prun_sound options tr s s' Hr Hg). Qed.

(** C4: Every run of payments refines the abstract book: payments are
    reserved within the budget, advance through their phases, and no row
    changes otherwise; budgets change only by the grants of the run. *)
Theorem payments_refine_the_book options tr s s' :
  prun options tr s s' -> pgood s ->
  rtc (book_step (fun o v => In (o, v) tr)) (book_of (w_db (ps_world s))) (book_of (w_db (ps_world s'))).
Proof. intros Hr Hg. by destruct (prun_sound options tr s s' Hr Hg) as [_ []]. Qed.

(** C2: No agent spends more than it was granted: if no budget of the run
    exceeds [B], then at its end what an account has spent and reserved, and
    what the ledger says was settled with what the reservations hold, is within
    [B], whatever interleaved. *)
Theorem budget_is_never_exceeded options tr s s' B :
  prun options tr s s' -> pgood s -> solvent B (book_of (w_db (ps_world s))) ->
  (forall o v, In (o, v) tr -> v <= B o) ->
  let db := w_db (ps_world s') in
  forall a, In a (db T_agent_payment_accounts) ->
  acct_spent_usdc a + acct_reserved_usdc a <= B (account_owner a) /\
  posted_total (acct_org_id a) (acct_agent_id a) (db T_ledger_postings)
    + held_total (acct_org_id a) (acct_agent_id a) (db T_payment_reservations) <= B (account_owner a).
Proof.
  intros Hr Hg HB Htr db a Ha. destruct (prun_sound options tr s s' Hr Hg) as [[[_ Hb _ _] _] [_ _ Hspec]].
  destruct (run_solvent B _ _ _ Htr Hspec HB) as [_ _ Hex]. specialize (Hex (account_owner a)).
  unfold book_of in Hex. cbn [bk_payments] in Hex. unfold account_owner in *. rewrite exposure_totals in Hex.
  fold db in Hex, Hb. rewrite <-(bl_posted _ _ _ Hb a Ha), (bl_reserved _ _ _ Hb a Ha), (bl_spent _ _ _ Hb a Ha). lia.
Qed.

(** C1: The provider is asked at most once for a payment, whatever
    interleaves, however often the request is repeated and whatever is lost;
    and only for an attempt that is past [reserved] for good. *)
Theorem provider_is_asked_at_most_once options tr w s' :
  prun options tr (mkPState w []) s' -> payments_ok (w_db w) -> (forall id, provider_calls id w = 0%nat) ->
  forall id, (provider_calls id (ps_world s') <= 1)%nat /\
    (provider_calls id (ps_world s') = 1%nat -> past_reserved id (w_db (ps_world s'))).
Proof.
  intros Hr Hok Hnone id.
  assert (once_ok s') as Ho.
  { eapply prun_once; [exact Hr|by constructor|]. intros i. unfold asked. cbn. rewrite Hnone. split; lia. }
  destruct (Ho id) as [H1 H2]. unfold asked in *. split; [lia|]. intros E. apply H2. lia.
Qed.
End Theorems.

(** ** Witnesses *)

Lemma sample_start_ok : payments_ok (w_db sample_world0).
Proof.
  split; [constructor|constructor|constructor|constructor]; cbn; try (constructor; fail); try done; try by intros.
  - apply NoDup_singleton.
Qed.

Lemma sample_checked : checked (w_db sample_world0).
Proof. intros t r. destruct t; cbn; intros H; repeat (destruct H as [<-|H]; [done|]); done. Qed.

Lemma prun_app options tr1 tr2 s1 s2 s3 :
  prun options tr1 s1 s2 -> prun options tr2 s2 s3 -> prun options (tr1 ++ tr2) s1 s3.
Proof.
  induction 1 as [s|g tr a b c Hs _ IH]; intros H; [done|]. rewrite <-app_assoc. eapply prun_step; [exact Hs|by apply IH].
Qed.

Lemma sample_pay_run key w :
  authenticated sample_caller (w_db w) -> prun sample_options [] (mkPState w []) (mkPState (run_m (pay key) w) []).
Proof. intros Ha. by apply pay_is_a_run. Qed.

(** The budget granted, two payments, one of them with an unknown outcome. *)
Definition sample_grant : list (Owner * Z) := [(("org_1", "agt_1")%string, 25000)].
Definition sample_start : PState := mkPState sample_world0 [].
Definition sample_end : PState := mkPState paid_twice [].

Lemma sample_run : prun sample_options sample_grant sample_start sample_end.
Proof.
  change sample_grant with (sample_grant ++ ([] ++ [])).
  assert (forall w, w_db w T_connections = [sample_connection] ->
    authenticated sample_caller (w_db w)) as Hauth.
  { intros w E. eexists. split; [rewrite E; by left|done]. }
  eapply prun_step.
  { assert (grants_of "org_1" "agt_1" (sample_access "0.025") = sample_grant) as <- by (vm_compute; reflexivity).
    eapply (p_access sample_options sample_operator "org_1" "agt_1" (sample_access "0.025") sample_world0 []).
    apply surjective_pairing. }
  assert (authenticated sample_caller (w_db granted_world)) as H1 by (apply Hauth; vm_compute; reflexivity).
  assert (authenticated sample_caller (w_db paid_world)) as H2 by (apply Hauth; vm_compute; reflexivity).
  apply (prun_app sample_options [] [] _ (mkPState paid_world []));
    [exact (sample_pay_run "k1" granted_world H1)|exact (sample_pay_run "k2" paid_world H2)].
Qed.

Lemma sample_good : pgood sample_start.
Proof. constructor; [apply sample_start_ok|done]. Qed.

Lemma pay_is_a_run_witness :
  prun sample_options [] (mkPState granted_world [])
    (mkPState (snd (payRuntimeX402 sample_options sample_caller (sample_input "k1") granted_world)) []).
Proof.
  refine (pay_is_a_run sample_options sample_caller (sample_input "k1") granted_world [] _ _); [done|].
  eexists. split; [left; vm_compute; reflexivity|done].
Defined.

Lemma payments_keep_the_books_witness :
  pgood sample_end /\
  map att_status (w_db (ps_world sample_end) T_runtime_payment_attempts) = [Attempt_settled; Attempt_unknown].
Proof.
  split; [exact (payments_keep_the_books sample_options sample_grant _ _ sample_run sample_good)|].
  vm_compute. reflexivity.
Defined.

Lemma payments_refine_the_book_witness : exists k,
  rtc (book_step (fun o v => In (o, v) sample_grant)) (book_of (w_db (ps_world sample_start))) k /\
  k = mkBook sample_grant [mkPayment "payres_6" ("org_1", "agt_1")%string 10000 Settled;
                           mkPayment "payres_18" ("org_1", "agt_1")%string 10000 Unknown].
Proof.
  eexists. split; [exact (payments_refine_the_book sample_options sample_grant _ _ sample_run sample_good)|].
  vm_compute. reflexivity.
Defined.

Lemma budget_is_never_exceeded_witness :
  exists a, In a (w_db (ps_world sample_end) T_agent_payment_accounts) /\
  acct_spent_usdc a + acct_reserved_usdc a <= 25000.
Proof.
  pose proof (budget_is_never_exceeded sample_options sample_grant sample_start sample_end
    (fun _ => 25000) sample_run sample_good) as H. cbv beta zeta in H.
  assert (solvent (fun _ => 25000) (book_of (w_db (ps_world sample_start)))) as Hs.
  { constructor; cbn; [done|done|intros o; vm_compute; discriminate]. }
  assert (forall o v, In (o, v) sample_grant -> v <= 25000) as Ht by (by intros o v [[= _ <-]|[]]).
  assert (length (w_db (ps_world sample_end) T_agent_payment_accounts) = 1%nat) as Hn by (vm_compute; reflexivity).
  destruct (w_db (ps_world sample_end) T_agent_payment_accounts) as [|a l] eqn:E; [done|].
  exists a. split; [by left|]. refine (proj1 (H Hs Ht a _)). by left.
Defined.

Lemma provider_is_asked_at_most_once_witness :
  provider_calls "rpa_5" (ps_world sample_end) = 1%nat /\ past_reserved "rpa_5" (w_db (ps_world sample_end)).
Proof.
  assert (provider_calls "rpa_5" (ps_world sample_end) = 1%nat) as E by (vm_compute; reflexivity). split; [exact E|].
  exact (proj2 (provider_is_asked_at_most_once sample_options sample_grant sample_world0 sample_end
    sample_run sample_start_ok (fun _ => eq_refl) "rpa_5") E).
Defined.
