(* ===== verification/PrepareThms.v ===== *)
(** What a prepared payment was checked against: the account and the freezes,
    the quote and the destination, the policy, the limits. *)

From S2P Require Import Prelude Errors Usdc Json Identity Policy Quotes ResultCrypto PaidHttp PaidHttpThms Schema Host Handlers Ledger.
From S2P Require Import AuditLog AuditChain PolicyStore PolicyStoreThms Approvals ApprovalsThms Attempts.
From S2P Require Import Accounts Prepare Settlement Liquidity Pay BudgetSpec Budget BudgetOps BudgetPay BudgetOperator Payments Samples PaymentsThms.
Open Scope Z_scope.

Section Prepare.
Context {CO : Collation} {SH : Sha256} {UP : UrlParser} {CB : ChainBalances}.

(** A run without calls that writes only the tables of [W]. *)
Record quiet (W : table -> bool) (w w' : World) : Prop := mkQuiet {
  qu_tables : forall t, W t = false -> w_db w' t = w_db w t;
  qu_now : w_now w' = w_now w;
  qu_calls : w_calls w' = w_calls w
}.

Lemma made_quiet W {A} (m : M A) w r w' : made_of (fun _ => False) W m -> m w = (r, w') -> quiet W w w'.
Proof.
  intros Hm E. pose proof (made_after _ _ m Hm w) as [Hn _ (l & El & Hl) _]. rewrite E in *. constructor; [|done|].
  - intros t Ht. eapply keeps_run; [|exact E]. by eapply made_keeps.
  - cbn in El. destruct l as [|c l]; [by rewrite app_nil_r in El|]. by inversion Hl.
Qed.

(** What the policy gate writes. *)
Definition gate_writes (t : table) : bool :=
  match t with
  | T_policy_decisions | T_approval_requests | T_approval_actions | T_approval_consumptions | T_activity_items
  | T_audit_events | T_audit_event_heads => true
  | _ => false
  end.

Lemma policy_gate_made auth pin quote resource threshold :
  made_of (fun _ => False) gate_writes (policy_gate auth pin quote resource threshold).
Proof. solve_made. Qed.

(** The decision the gate asks the policy engine for. *)
Definition gate_decision (auth : ConnectionAuthResult) (context : json) : M RecordedDecision :=
  checkPolicyDecision
    (mkOperatorContext (auth_connection_id auth) Role_member None (Some (auth_org_id auth))) (auth_org_id auth)
    (mkPolicyDecisionRequest "connection" (Some (auth_connection_id auth)) None X402_ACTION Target_agent
       (Some (auth_agent_id auth)) context).

(** What the policies are shown: the payment, the resource it pays for, the
    request and the quote it is bound to, and the threshold it reaches. *)
Record payment_context (hash : string) (d : PaymentDraft) (es : list (string * json)) : Prop := mkPaymentContext {
  pc_payment : lookup_key "payment" es = JObj
    [("amount", JStr (q_amount (dr_quote d))); ("asset", JStr (q_asset (dr_quote d)));
     ("network", JStr (PaymentChain_text (q_network (dr_quote d))));
     ("rail", JStr (PaymentRail_text (q_rail (dr_quote d)))); ("recipient", JStr (q_recipient (dr_quote d)))]%string;
  pc_resource : lookup_key "resource" es = JObj
    [("category", jopt (xr_category (dr_resource d))); ("domain", jopt (xr_domain (dr_resource d)));
     ("url", jopt (xr_url (dr_resource d)))]%string;
  pc_request : exists rq, lookup_key "request" es = JObj rq /\
    lookup_key "request_hash" rq = JStr hash /\ lookup_key "quote_hash" rq = JStr (dr_quoteHash d);
  pc_control : forall t, acct_approval_threshold_usdc (dr_account d) = Some t -> t <= q_amountMicros (dr_quote d) ->
    lookup_key "control" es = JObj [("approval_threshold_usdc", JStr (formatUsdc t));
                                    ("source", JStr "agent_payment_account")]%string
}.

(** The gate let the payment through without waiting: the policies do not deny
    this payment, and either they ask for no approval and it is below the
    threshold, or an approval of this very payment, asked for by this
    connection and granted, is consumed. *)
Record gate_passed (auth : ConnectionAuthResult) (d : PaymentDraft) (context : json) (gate : PolicyGate)
    (w w' : World) : Prop := mkGatePassed {
  gp_decided : exists decision wd, gate_decision auth context w = (Ok decision, wd) /\
    pr_decision (rd_result decision) <> deny /\ pg_decisionId gate = rd_id decision /\
    (pg_approvalId gate = None -> pr_decision (rd_result decision) <> approval_required /\
       forall t, acct_approval_threshold_usdc (dr_account d) = Some t -> q_amountMicros (dr_quote d) < t);
  gp_granted : forall a, pg_approvalId gate = Some a -> exists r, In r (w_db w T_approval_requests) /\
    ap_id r = a /\ ap_org_id r = auth_org_id auth /\ ap_agent_id r = auth_agent_id auth /\
    ap_connection_id r = auth_connection_id auth /\ ap_status r = Approval_approved /\ w_now w < ap_expires_at r /\
    approvalContextHash X402_ACTION Target_agent (Some (auth_agent_id auth)) context = Ok (ap_context_hash r);
  gp_consumed : forall a, pg_approvalId gate = Some a -> exists r, In r (w_db w' T_approval_requests) /\
    ap_id r = a /\ ap_org_id r = auth_org_id auth /\ ap_status r = Approval_consumed
}.

(** The rail of a quote is ready on its chain: by the row of the chain, or what
    the code falls back to. *)
Definition chain_capability (mode : PaymentMode) (chain : PaymentChain) (c : CircleChainCapabilityRow) (db : Db) : Prop :=
  (In c (db T_circle_chain_capabilities) /\ cap_mode c = mode /\ cap_chain c = chain /\ cap_status c = Access_active) \/
  ((forall c', In c' (db T_circle_chain_capabilities) -> cap_mode c' = mode -> cap_chain c' = chain ->
      cap_status c' <> Access_active) /\ fallback_capability mode chain = Some c).

Definition rail_ready (mode : PaymentMode) (quote : RuntimeQuote) (db : Db) : Prop :=
  exists c, chain_capability mode (q_chain quote) c db /\
    match q_settlementKind quote with
    | gateway => cap_gateway_supported c = true /\ cap_nanopayments_supported c = true /\
                 cap_gateway_settlement_verified c = true
    | direct_exact => cap_wallet_supported c = true /\ cap_exact_settlement_verified c = true
    end.

Lemma readiness_run mode quote x w w' : assertRailReady mode quote w = (Ok x, w') -> w' = w /\ rail_ready mode quote (w_db w).
Proof.
  intros E. unfold assertRailReady, getCircleChainCapability in E.
  apply bind_ok in E as (c & w1 & E1 & E). apply bind_ok in E1 as (o & w2 & Es & E1).
  apply (select_one_ok T_circle_chain_capabilities) in Es as [-> ->]. apply ret_ok in E1 as [<- ->].
  destruct (railVerificationFailure _ quote) eqn:Ev; [by runs E|]. apply ret_ok in E as [_ ->]. split; [done|].
  unfold railVerificationFailure in Ev. match type of Ev with match ?o with _ => _ end = _ => destruct o as [c|] eqn:Eo; [|done] end.
  exists c. split.
  - destruct (head _) as [c'|] eqn:Eh; [injection Eo as ->; left; apply where_head in Eh as [Hin Hp]; by bdec|].
    right. split; [|done]. intros c' Hc' M1 M2 M3. eapply where_head_none; [exact Eh|exact Hc'|]. cbn.
    by rewrite !bool_decide_eq_true_2.
  - destruct (q_settlementKind quote), (cap_gateway_supported c), (cap_nanopayments_supported c),
      (cap_gateway_settlement_verified c), (cap_wallet_supported c), (cap_exact_settlement_verified c); done.
Qed.

Lemma consumeApproval_row auth a d w r w' :
  consumeApproval auth a d w = (Ok r, w') ->
  exists row, In row (w_db w' T_approval_requests) /\ ap_id row = ap_id (ar_row r) /\
    ap_org_id row = auth_org_id auth /\ ap_status row = Approval_consumed /\ ap_id row = a.
Proof.
  intros E. unfold consumeApproval, markConsumed in E. runs E.
  unfold approvalView in E. runs E. unfold votes_count in *.
  match goal with X : head (map _ (where_ ?q ?T)) = Some ?x |- _ =>
    destruct (where_ q T) as [|r0 l0] eqn:Ew; [done|]; injection X as <- end.
  assert (In r0 (r0 :: l0)) as Hin by (by left). rewrite <-Ew in Hin. apply where_in in Hin as [Hin Hp].
  exists (consume_row (w_now w1) r0). cbn [ar_row approvalFromRow]. unfold the_approval in *. bdec.
  assert (w_db w1 T_approval_requests = w_db w T_approval_requests) as E1 by (by tabs).
  split; [|by split]. tabs. rewrite <-E1. apply in_update_rows. exists r0. split; [done|].
  by rewrite H9, H20, H19, !eqs_refl, bool_decide_eq_true_2.
Qed.

Lemma consumeApproval_rows auth a d w r w' :
  consumeApproval auth a d w = (Ok r, w') ->
  (exists row, In row (w_db w' T_approval_requests) /\ ap_id row = ap_id (ar_row r) /\
    ap_org_id row = auth_org_id auth /\ ap_status row = Approval_consumed /\ ap_id row = a) /\
  exists row, head (where_ (the_approval (auth_org_id auth) a) (w_db w T_approval_requests)) = Some row /\
    ap_agent_id row = auth_agent_id auth /\ ap_connection_id row = auth_connection_id auth /\
    ap_status row = Approval_approved /\ w_now w < ap_expires_at row.
Proof.
  intros E. split; [by eapply consumeApproval_row|]. unfold consumeApproval in E.
  apply bind_ok in E as (x & w1 & Eg & E). apply getApproval_found in Eg as (-> & Hx & Hst). minv E. bsimpl.
  match goal with A : bool_decide (ar_status x = _) = true |- _ => apply bool_decide_eq_true in A; rewrite A in Hst end.
  symmetry in Hst. apply effective_approved in Hst. exists (ar_row x). split; [done|]. split; [done|]. split; [done|]. by split.
Qed.

(** The draft writes at most the scrubbed attempts. *)
Lemma draft_made auth input hash pin :
  made_of (fun _ => False) (fun t => match t with T_runtime_payment_attempts => true | _ => false end)
    (withTransaction (prepare_draft auth input hash pin)).
Proof. solve_made. Qed.

(** The entries of the context the code builds. *)
Definition context_entries (pin : RuntimeX402PaymentInput) (d : PaymentDraft) : list (string * json) :=
  x402PolicyContext pin (dr_quote d) (dr_resource d) ++
  match acct_approval_threshold_usdc (dr_account d) with
  | Some t => if threshold_reached (acct_approval_threshold_usdc (dr_account d)) (dr_quote d)
              then [("control", JObj [("approval_threshold_usdc", JStr (formatUsdc t));
                                      ("source", JStr "agent_payment_account")])]%string else []
  | None => []
  end.

Lemma lookup_filtered p k es :
  (forall v, p (k, v) = true) -> lookup_key k (List.filter p es) = lookup_key k es.
Proof.
  intros Hp. induction es as [|[k0 v0] es IH]; cbn; [done|]. destruct (k =s k0) eqn:E.
  - apply eqs_spec in E as <-. rewrite Hp. cbn. by rewrite eqs_refl.
  - destruct (p (k0, v0)); [|done]. cbn. by rewrite E.
Qed.

Lemma context_names hash pin d : draft_bound hash pin d -> payment_context hash d (context_entries (dr_paymentInput d) d).
Proof.
  intros [_ _ _ (es & Ec & E1 & E2 & _)]. unfold context_entries, x402PolicyContext, requestContextForPolicy.
  constructor; try reflexivity.
  - eexists. split; [reflexivity|]. rewrite Ec. cbn [orElse]. by rewrite !lookup_filtered.
  - intros t -> Ht. cbn. by rewrite (proj2 (Z.leb_le _ _) Ht).
Qed.

Lemma gate_passes auth pin d w gate w' :
  enforceX402Policy auth pin (dr_quote d) (dr_resource d) (acct_approval_threshold_usdc (dr_account d)) w = (Ok gate, w') ->
  gate_passed auth d (JObj (context_entries pin d)) gate w w'.
Proof.
  intros E. unfold enforceX402Policy in E. cbv zeta in E. fold (context_entries pin d) in E.
  apply bind_ok in E as (decision & w1 & Hd & E). keeps_in Hd T_approval_requests as Ereq.
  assert (w_now w1 = w_now w) as Hnow by (eapply (now_run gate_writes); [|exact Hd]; solve_made).
  apply bind_ok in E as (u & w2 & E0 & E). apply throw_if_ok in E0 as [Hnd ->].
  apply bool_decide_eq_false in Hnd. destruct (negb _) eqn:Eneeds in E.
  - apply ret_ok in E as [<- ->]. constructor; [|done..]. exists decision, w1. do 3 (split; [done|]). intros _.
    apply negb_true_iff, orb_false_elim in Eneeds as [Hreq Hth]. apply bool_decide_eq_false in Hreq. split; [done|].
    intros t Et. rewrite Et in Hth. cbn in Hth. lia.
  - destruct (approvalProofFromContext (pi_context pin)) as [[a|] [dn|]]; [|by runs E..].
    apply bind_ok in E as (x & w2 & Eg & E). apply getApproval_found in Eg as (-> & Hx & _).
    apply bind_ok in E as (h & w2 & Eh & E). apply lift_ok in Eh as [Eh ->].
    apply bind_ok in E as (u' & w2 & E0 & E). apply throw_if_ok in E0 as [Hhash ->].
    apply bind_ok in E as (c & w2 & Ec & E). apply ret_ok in E as [<- ->].
    apply consumeApproval_rows in Ec as ((row & Hrow & Hid & Horg & Hst & Ha) & (r & Hr & R1 & R2 & R3 & R4)).
    rewrite Hx in Hr. injection Hr as <-. apply where_head in Hx as [Hin Hp]. unfold the_approval in Hp. bsimpl.
    constructor; cbn [pg_approvalId pg_decisionId].
    + by exists decision, w1.
    + intros a' [= <-]. exists (ar_row x). rewrite <-Ereq, <-Hnow, <-Hid, Ha, Eh. split; [done|]. split; [done|]. split; [done|]. split; [done|].
      split; [done|]. split; [done|]. split; [done|]. by f_equal.
    + intros a' [= <-]. by exists row.
Qed.

(** C5: A payment that is prepared without waiting for an approval was allowed
    by the state it started in: neither the organisation nor the agent is
    frozen, the account is active with access, the quote is one the runtime
    supports in the organisation's mode, on a rail the account may use, its
    destination is on the allow-list, a source that fits pays for it, on a
    chain whose rail is ready, and the key is free; the policies were shown
    this payment, with the hashes of its request and its quote, and do not deny
    it, and allow it below the threshold unless an approval of it was granted
    and is consumed; the amount is within the cap, the budget left and the
    balance of the agent's wallet; and its reservation holds that amount. *)
Theorem prepared_payment_was_allowed auth input hash dest pin w p w' :
  payments_ok (w_db w) ->
  preparePaidHttpPayment auth input hash dest pin w = (Ok (Outcome_prepared p), w') ->
  pp_approvalRequired p = false ->
  exists d es w1 w2,
    draft_checked auth (ph_idempotency_key input) pin d (w_db w) /\ draft_bound hash pin d /\
    (psrc_provider (dr_source d) <> Provider_simulation -> rail_ready (dr_mode d) (dr_quote d) (w_db w)) /\
    payment_context hash d es /\
    quiet (fun _ => false) w w1 /\ quiet gate_writes w1 w2 /\
    gate_passed auth d (JObj es) (pp_policyGate p) w1 w2 /\
    within_limits auth d w2 /\ pp_quote p = dr_quote d /\ prepared_ok auth p (w_db w').
Proof.
  intros Hok E Hno.
  destruct (prepare_sound auth input hash dest pin w Hok) as (_ & _ & Hp). rewrite E in Hp. specialize (Hp p eq_refl).
  unfold preparePaidHttpPayment in E. apply bind_ok in E as ([attempt|d] & w1 & Ed & E); [by runs E|].
  destruct (draft_ready _ _ _ _ _ _ _ Ed) as (Hd & Hb & Hw1).
  assert (quiet (fun _ => false) w w1) as Hq1.
  { destruct (made_quiet _ _ _ _ _ (draft_made auth input hash pin) Ed) as [_ Hn Hc]. by constructor. }
  apply bind_ok in E as (gate & w2 & Eg & E). exists d, (context_entries (dr_paymentInput d) d), w1, w2.
  pose proof (made_quiet _ _ _ _ _ (policy_gate_made _ _ _ _ _) Eg) as Hq2.
  apply bind_ok in E as (p' & w3 & Er & E). apply ret_ok in E as [[= <-] <-].
  do 2 (split; [done|]). apply transaction_ok in Er. unfold prepare_reserve in Er. cbv zeta in Er.
  apply bind_ok in Er as (u & w4 & Erail & Er).
  assert (w4 = w2 /\ (go_approvalRequired gate = false -> psrc_provider (dr_source d) <> Provider_simulation ->
    rail_ready (dr_mode d) (dr_quote d) (w_db w))) as [-> Hrail].
  { unfold is_simulation in Erail. destruct (_ && _) eqn:Eb in Erail.
    - apply readiness_run in Erail as [-> Hr]. split; [done|]. intros _ _. unfold rail_ready, chain_capability in *.
      by rewrite (qu_tables _ _ _ Hq2), Hw1 in Hr.
    - apply ret_ok in Erail as [_ ->]. split; [done|]. intros Ha Hs. rewrite Ha, bool_decide_eq_false_2 in Eb by done. done. }
  runs Er. cbn [pp_approvalRequired pp_policyGate pp_quote] in *. split; [by apply Hrail|].
  split; [by eapply context_names|]. split; [done|]. split; [done|]. split; [|split; [by eapply limits_ok|done]].
  unfold policy_gate, catch in Eg. destruct (bind (enforceX402Policy _ _ _ _ _) _ w1) as [[g|e] wx] eqn:Ee.
  - injection Eg as -> ->. runs Ee. by apply gate_passes.
  - destruct e; try done. by injection Eg as <- _.
Qed.
End Prepare.

(** ** Witness *)

Definition sample_pin : RuntimeX402PaymentInput :=
  mkRuntimeX402PaymentInput (Some [("url", JStr sample_url)]%string) [accept_of_json sample_offer] None.
Definition sample_destination : ValidatedPaidHttpDestination :=
  mkDestination sample_url "shop.example" ["93.184.216.34"%string].

Local Notation sample_prepared :=
  (preparePaidHttpPayment sample_caller (sample_input "k1") "h" sample_destination sample_pin granted_world)
  (only parsing).

Definition prepared_at_once (r : Res PreparedPaidHttpPaymentOutcome) : bool :=
  match r with Ok (Outcome_prepared p) => negb (pp_approvalRequired p) | _ => false end.

Lemma granted_ok : payments_ok (w_db granted_world).
Proof.
  exact (proj1 (setAccess_grants sample_operator "org_1" "agt_1" (sample_access "0.025") sample_world0 sample_start_ok)).
Qed.

Lemma prepared_payment_was_allowed_witness : exists p w' d w2,
  sample_prepared = (Ok (Outcome_prepared p), w') /\ within_limits sample_caller d w2 /\ pp_quote p = dr_quote d.
Proof.
  assert (prepared_at_once (fst sample_prepared) = true) as Hr by (vm_compute; reflexivity).
  destruct sample_prepared as [r w'] eqn:E. cbn [fst] in Hr.
  destruct r as [[a|p]|e]; [done| |done]. cbn in Hr.
  destruct (prepared_payment_was_allowed sample_caller (sample_input "k1") "h" sample_destination sample_pin
    granted_world p w' granted_ok E (proj1 (negb_true_iff _) Hr)) as (d & es & w1 & w2 & _ & _ & _ & _ & _ & _ & _ & Hl & Hq & _).
  exists p, w', d, w2. auto.
Defined.
