(* ===== verification/GateThms.v ===== *)
(** An approval pays for one payment, however requests interleave. *)

From stdpp Require Import relations.
From S2P Require Import Prelude Errors Usdc Json Identity Policy Quotes ResultCrypto PaidHttp Schema Host Handlers Ledger.
From S2P Require Import AuditLog AuditChain PolicyStore PolicyStoreThms Approvals ApprovalsThms Attempts Accounts.
From S2P Require Import Prepare Settlement Liquidity Pay BudgetSpec Budget BudgetOps BudgetPay BudgetOperator HandlersPay Payments.
From S2P Require Import PaymentsGate Samples PaymentsThms PrepareThms.
Open Scope Z_scope.

(** ** The approval a payment holds *)

(** A request that passed the gate with approval [a]. *)
Definition holds (a : string) (f : Flight) : bool :=
  match fl_stage f with
  | St_prepared _ | St_ready _ _ => false
  | St_cleared p _ | St_submitted p _ | St_answered p _ | St_evidenced p _ =>
      eqo (pg_approvalId (pp_policyGate p)) (Some a)
  end.

(** A request that still waits for an approval. *)
Definition waiting (f : Flight) : bool := pp_approvalRequired (stage_payment (fl_stage f)).

Definition consumed (a : string) (db : Db) : Prop :=
  exists r, In r (db T_approval_requests) /\ ap_id r = a /\ ap_status r = Approval_consumed.

(** Approval [a] was consumed, and only payment [id] holds it. *)
Definition pays_for (a id : string) (s : PState) : Prop :=
  consumed a (w_db (ps_world s)) /\ forall f, In f (ps_flights s) -> holds a f = true -> flight_id f = id.

Record gate_ok (s : PState) : Prop := mkGateOk {
  ga_approvals : approvals_ok (w_db (ps_world s));
  ga_waiting : forall f, In f (ps_flights s) -> waiting f = true -> exists p, fl_stage f = St_prepared p;
  ga_holds : forall a f, In f (ps_flights s) -> holds a f = true -> pays_for a (flight_id f) s
}.

Lemma consumed_moves a db db' : approvals_move db db' -> consumed a db -> consumed a db'.
Proof.
  intros Hm (r & Hr & <- & Hs). destruct (Hm r Hr) as (r' & Hr' & (Hid & _) & Hst). rewrite Hs in Hst.
  exists r'. split; [done|]. split; [done|]. by apply consumed_is_final.
Qed.

Section Gate.
Context {CO : Collation} {SH : Sha256} {UP : UrlParser} {IP : IpClassifier} {HD : HeaderDecoder}
  {CB : ChainBalances} {TB : TreasuryBalances} {XS : X402Settler} {CR : X402ResultCryptoCodec Stored}.
Context (options : PayRuntimeX402Options).

Lemma consumeApproval_id auth a d w r w' :
  approvals_ok (w_db w) -> consumeApproval auth a d w = (Ok r, w') -> ~ consumed a (w_db w) /\ consumed a (w_db w').
Proof.
  intros Hok E. split.
  - intros (x & Hx & <- & Hs). pose proof (consumed_stays_consumed w x auth d Hok Hx Hs) as H. by rewrite E in H.
  - destruct (consumeApproval_row _ _ _ _ _ _ E) as (row & Hrow & _ & _ & Hs & Hid). by exists row.
Qed.

(** What a stage leaves under way. *)
Lemma stage_waiting f w r w' f' :
  stage_run f w = (r, w') -> In f' (continued f r) ->
  waiting f' = waiting f /\ (waiting f = true -> forall p, fl_stage f <> St_prepared p).
Proof.
  intros E Hin. destruct (stage_same_payment _ _ _ _ _ E Hin) as [_ Hp]. unfold waiting. rewrite Hp. split; [done|].
  intros Hw p Ep. destruct f as [auth input st]. cbn in Ep, Hw. subst st. cbn in E, Hw. rewrite Hw in E.
  unfold bind at 1 in E. cbn in E. injection E as <- <-. done.
Qed.

(** A request comes to hold an approval by consuming it. *)
Lemma stage_holds f w r w' f' a :
  approvals_ok (w_db w) -> stage_run f w = (r, w') -> In f' (continued f r) -> holds a f' = true ->
  holds a f = true \/ ~ consumed a (w_db w) /\ consumed a (w_db w').
Proof.
  intros Hok E Hin Hh. destruct r as [[st|x]|e]; [|done..]. destruct Hin as [<-|[]].
  destruct f as [auth input st0]. destruct st0 as [p|p payer|p payer|p payer|p s|p s]; cbn in E; runs E; try congruence;
    match goal with X : inl _ = inl _ |- _ => injection X as <- end; try (by left).
  right. unfold holds in Hh. cbn in Hh. unfold consume_gate in *.
  destruct (pg_approvalId (pp_policyGate p)) as [a'|]; [|done]. bsimpl.
  injection Hh as ->.
  match goal with X : bind (consumeApproval _ _ _) _ _ = _ |- _ => apply bind_ok in X as (c & w1 & Ec & Er) end.
  apply ret_ok in Er as [_ ->]. by eapply consumeApproval_id.
Qed.

(** A step leaves the requests under way, one of them gone further or new. *)
Lemma gate_kept (new : option Flight) s s' :
  gate_ok s -> approvals_ok (w_db (ps_world s')) -> approvals_move (w_db (ps_world s)) (w_db (ps_world s')) ->
  (forall f, In f (ps_flights s') -> In f (ps_flights s) \/ new = Some f) ->
  (forall f, new = Some f -> (waiting f = true -> exists p, fl_stage f = St_prepared p) /\
     forall a, holds a f = true ->
       (exists f0, In f0 (ps_flights s) /\ holds a f0 = true /\ flight_id f0 = flight_id f)
       \/ ~ consumed a (w_db (ps_world s)) /\ consumed a (w_db (ps_world s'))) ->
  gate_ok s' /\ (forall a id, pays_for a id s -> pays_for a id s').
Proof.
  intros [Hok Hw Hh] Hok' Hm Hin Hnew.
  assert (Hpays : forall a id, pays_for a id s -> pays_for a id s').
  { intros a id [Hc Hf]. split; [by eapply consumed_moves|]. intros f Hf' Hha.
    destruct (Hin f Hf') as [Ho|Hn]; [by apply Hf|].
    destruct (proj2 (Hnew f Hn) a Hha) as [(f0 & Hf0 & Hh0 & <-)|[Hno _]]; [by apply Hf|done]. }
  split; [|done]. constructor; [done| |].
  - intros f Hf Hwt. destruct (Hin f Hf) as [Ho|Hn]; [by apply Hw|]. by apply (Hnew f Hn).
  - intros a f Hf Hha. destruct (Hin f Hf) as [Ho|Hn]; [by apply Hpays, Hh|].
    destruct (proj2 (Hnew f Hn) a Hha) as [(f0 & Hf0 & Hh0 & <-)|[Hno Hc]]; [by apply Hpays, Hh|].
    split; [done|]. intros f' Hf' Hha'. destruct (Hin f' Hf') as [Ho|Hn']; [by destruct Hno; eapply Hh|]. congruence.
Qed.

Lemma pstep_gate g s s' :
  pstep options g s s' -> gate_ok s -> gate_ok s' /\ (forall a id, pays_for a id s -> pays_for a id s').
Proof.
  intros Hs Hg. pose proof (ga_approvals _ Hg) as Hok.
  assert (Hrun : forall {A} (m : M A) w r w', gated m -> approvals_ok (w_db w) -> m w = (r, w') ->
    approvals_ok (w_db w') /\ approvals_move (w_db w) (w_db w')) by (intros; by eapply sound_run).
  destruct Hs as [auth input w fs r w' Hauth E|fs1 f fs2 w r w' E|fs1 f fs2 w|o w fs r w' E
    |operator org agent input w fs r w' E|w w' fs [_ _ _ _ Ha _]]; cbn in *.
  - destruct (Hrun _ _ w r w' (start_gated options auth input) Hok E) as [H1 H2].
    apply (gate_kept (head (started auth input r))); [done..| |].
    + cbn. intros f [Hin|Hin]%in_app_iff; [by left|]. right. destruct r as [[x|p fresh]|e]; [done| |done].
      by destruct Hin as [<-|[]].
    + intros f Hf. destruct r as [[x|p fresh]|e]; [done| |done]. injection Hf as <-. split; [by exists p|done].
  - destruct (Hrun _ _ w r w' (stage_gated f) Hok E) as [H1 H2].
    assert (Hone : forall f', In f' (continued f r) -> head (continued f r) = Some f').
    { intros f' Hin. destruct r as [[st|x]|e]; [|done..]. by destruct Hin as [<-|[]]. }
    apply (gate_kept (head (continued f r))); [done..| |]; cbn.
    + intros f' Hin. rewrite !in_app_iff in Hin. destruct Hin as [Hin|[Hin|Hin]]; [left; apply in_app_iff; by left|by right; apply Hone|].
      left. apply in_app_iff. right. by right.
    + intros f' Hf'. assert (Hin : In f' (continued f r)).
      { destruct (continued f r); [done|]. injection Hf' as ->. by left. }
      destruct (stage_waiting _ _ _ _ _ E Hin) as [Hw1 Hw2]. split.
      * rewrite Hw1. intros Hw. destruct (ga_waiting _ Hg f) as (p & Hp); [apply in_elt|done|]. by destruct (Hw2 Hw p).
      * intros a Hha. destruct (stage_holds _ _ _ _ _ _ Hok E Hin Hha) as [Hh|Hc]; [left|by right].
        exists f. split; [apply in_elt|]. split; [done|]. unfold flight_id.
        by destruct (stage_same_payment _ _ _ _ _ E Hin) as [_ ->].
  - apply (gate_kept None); [done|done|apply move_refl| |done]. cbn. intros f' Hin. left.
    rewrite in_app_iff in *. cbn. tauto.
  - destruct (Hrun _ _ w r w' (work_gated o) Hok E) as [H1 H2]. apply (gate_kept None); [done..| |done]. by left.
  - destruct (Hrun _ _ w r w' (access_gated operator org agent input) Hok E) as [H1 H2].
    apply (gate_kept None); [done..| |done]. by left.
  - destruct (Ha Hok) as [H1 H2]. apply (gate_kept None); [done..| |done]. by left.
Qed.

Lemma prun_gate tr s s' :
  prun options tr s s' -> gate_ok s -> gate_ok s' /\ (forall a id, pays_for a id s -> pays_for a id s').
Proof.
  induction 1 as [s|g tr s1 s2 s3 Hs _ IH]; intros Hg; [auto|].
  destruct (pstep_gate _ _ _ Hs Hg) as [Hg2 H1]. destruct (IH Hg2) as [Hg3 H2]. auto.
Qed.
End Gate.

(** ** The properties *)

Section Theorems.
Context {CO : Collation} {SH : Sha256} {UP : UrlParser} {IP : IpClassifier} {HD : HeaderDecoder}
  {CB : ChainBalances} {TB : TreasuryBalances} {XS : X402Settler} {CR : X402ResultCryptoCodec Stored}.

(** C6: An approval pays for one payment.  Whatever requests, operators and
    the rest of the platform do, and in whatever order: a request that waits
    for an approval never passes the gate; a request past the gate that names
    an approval consumed it; and all the requests that ever pass the gate with
    the same approval are for the same payment. *)
Theorem approval_pays_for_one_payment options tr tr' w s s' :
  approvals_ok (w_db w) -> prun options tr (mkPState w []) s -> prun options tr' s s' ->
  (forall f, In f (ps_flights s') -> waiting f = true -> exists p, fl_stage f = St_prepared p) /\
  (forall a f, In f (ps_flights s') -> holds a f = true -> consumed a (w_db (ps_world s'))) /\
  (forall a f f', In f (ps_flights s) -> In f' (ps_flights s') -> holds a f = true -> holds a f' = true ->
     flight_id f' = flight_id f).
Proof.
  intros Hok H1 H2. assert (Hg0 : gate_ok (mkPState w [])) by (constructor; cbn; [done|done|done]).
  destruct (prun_gate options _ _ _ H1 Hg0) as [Hg1 _]. destruct (prun_gate options _ _ _ H2 Hg1) as [Hg2 Hp].
  split; [apply Hg2|]. split; [intros a f Hf Hh; by eapply (ga_holds _ Hg2)|].
  intros a f f' Hf Hf' Hh Hh'. destruct (Hp a (flight_id f) (ga_holds _ Hg1 a f Hf Hh)) as [_ Hall]. by apply Hall.
Qed.

End Theorems.

(** ** Witnesses *)

(** Payments of half a cent or more wait for an approval. *)
Definition guarded_access : SetAgentPaymentAccessInput :=
  mkSetAgentPaymentAccessInput Access_active "0.025" "0" (Some "0.005"%string) false ["gateway_base"]%string.
Definition guarded_world : World :=
  run_m (setAgentPaymentAccess sample_operator "org_1" "agt_1" guarded_access) sample_world0.
Definition asked_world : World := snd (pay_start sample_options sample_caller (sample_input "k1") guarded_world).
Definition answered_world : World := run_m (approveApproval (sample_voter "usr_9") "org_1" "apv_5" "ok") asked_world.

(** The payment asked for again, once approved, through the gate. *)
Definition start_state (w : World) : PState :=
  let r := pay_start sample_options sample_caller (sample_input "k1") w in
  mkPState (snd r) (started sample_caller (sample_input "k1") (fst r)).
Definition advance_first (s : PState) : PState :=
  match ps_flights s with
  | [] => s
  | f :: fs => let r := stage_run f (ps_world s) in mkPState (snd r) (continued f (fst r) ++ fs)
  end.
Definition cleared_state : PState := advance_first (advance_first (start_state answered_world)).

Lemma start_run w : authenticated sample_caller (w_db w) -> prun sample_options [] (mkPState w []) (start_state w).
Proof.
  intros Ha. apply (prun_step _ [] [] _ (start_state w)); [|apply prun_done]. unfold start_state.
  destruct (pay_start sample_options sample_caller (sample_input "k1") w) as [r w'] eqn:E. by apply (p_start sample_options _ _ w []).
Qed.

Lemma advance_run s : prun sample_options [] s (advance_first s).
Proof.
  destruct s as [w [|f fs]]; [apply prun_done|]. unfold advance_first. cbn.
  destruct (stage_run f w) as [r w'] eqn:E. apply (prun_step _ [] [] _ (mkPState w' (continued f r ++ fs))); [|apply prun_done].
  by apply (p_advance sample_options [] f fs).
Qed.

Lemma answered_approvals : approvals_ok (w_db answered_world).
Proof.
  assert (H0 : approvals_ok (w_db sample_world0)) by (split; cbn; [constructor|done..]).
  pose proof (proj1 (access_gated sample_operator "org_1" "agt_1" guarded_access sample_world0 H0)) as H1.
  pose proof (proj1 (start_gated sample_options sample_caller (sample_input "k1") guarded_world H1)) as H2.
  exact (approveApproval_ok (sample_voter "usr_9") "org_1" "apv_5" "ok" asked_world H2).
Qed.

Lemma cleared_run : prun sample_options [] (mkPState answered_world []) cleared_state.
Proof.
  eapply (prun_app sample_options [] []); [|apply advance_run]. eapply (prun_app sample_options [] []); [|apply advance_run].
  assert (w_db answered_world T_connections = [sample_connection]) as E
    by (vm_compute; reflexivity).
  apply start_run. unfold authenticated. rewrite E. clear E. eexists. split; [by left|done].
Qed.

Lemma approval_pays_for_one_payment_witness : exists f f',
  In f (ps_flights cleared_state) /\ In f' (ps_flights (advance_first cleared_state)) /\
  holds "apv_5" f = true /\ holds "apv_5" f' = true /\ flight_id f' = flight_id f /\
  consumed "apv_5" (w_db (ps_world (advance_first cleared_state))).
Proof.
  assert (existsb (holds "apv_5") (ps_flights cleared_state) = true) as Hf by (vm_compute; reflexivity).
  assert (existsb (holds "apv_5") (ps_flights (advance_first cleared_state)) = true) as Hf' by (vm_compute; reflexivity).
  pose proof (approval_pays_for_one_payment sample_options [] [] answered_world cleared_state (advance_first cleared_state)
    answered_approvals cleared_run (advance_run cleared_state)) as Hall.
  revert Hf Hf' Hall. generalize (advance_first cleared_state) as s2. generalize cleared_state as s1.
  intros s1 s2 Hf Hf' (_ & Hc & Hall). apply existsb_exists in Hf as (f & Hf & Hh), Hf' as (f' & Hf' & Hh').
  exists f, f'. do 4 (split; [done|]). split; [by eapply Hall|by eapply Hc].
Defined.
