(* ===== verification/Stranded.v ===== *)
(** Reservations do not strand: the cancellation that starts every payment of an
    agent always succeeds, and releases each reservation that expired or whose
    approval was refused or lapsed. *)

From S2P Require Import Prelude Errors Usdc Json Identity Policy Quotes ResultCrypto PaidHttp Schema Host Handlers Ledger.
From S2P Require Import AuditLog AuditChain PolicyStore PolicyStoreThms Approvals ApprovalsThms Attempts.
From S2P Require Import Accounts Prepare Settlement Liquidity Pay BudgetSpec Budget BudgetOps BudgetPay BudgetOperator HandlersPay Samples PaymentsThms PrepareThms.
Open Scope Z_scope.

(** A candidate that can be cancelled. *)
Record ready (org agent : string) (c : Candidate) (db : Db) (r : PaymentReservationRow) (t : X402AttemptRow) : Prop :=
  mkReady {
  rd_res : In r (db T_payment_reservations);
  rd_res_id : res_id r = cd_reservation_id c;
  rd_amount : res_amount_usdc r = cd_amount_usdc c;
  rd_held : reservation_held r = true;
  rd_funds : funds r t;
  rd_org : res_org_id r = org;
  rd_agent : res_agent_id r = agent;
  rd_att : In t (db T_runtime_payment_attempts);
  rd_att_id : att_id t = cd_attempt_id c;
  rd_reserved : att_status t = Attempt_reserved
}.

(** What its cancellation leaves. *)
Definition cancelled (c : Candidate) (db : Db) : Prop :=
  (exists r, In r (db T_payment_reservations) /\ res_id r = cd_reservation_id c /\ res_status r = Reservation_released) /\
  (exists t, In t (db T_runtime_payment_attempts) /\ att_id t = cd_attempt_id c /\ att_status t = Attempt_failed /\
     att_error_code t = Some (cd_error_code c)).

Lemma held_at_least db org agent r :
  payments_ok db -> In r (db T_payment_reservations) -> x402_reservation r = true -> reservation_held r = true ->
  res_org_id r = org -> res_agent_id r = agent ->
  exists a, In a (db T_agent_payment_accounts) /\ the_account org agent a = true /\ account_owner a = (org, agent) /\
    0 < res_amount_usdc r <= acct_reserved_usdc a.
Proof.
  intros [Hl Hb _ _] Hr Hx Hh <- <-. destruct (proj1 (in_map_iff _ _ _) (bl_owner _ _ _ Hb r Hr Hx)) as (a & Ho & Ha).
  assert (Hpos : forall r', In r' (db T_payment_reservations) -> x402_reservation r' = true -> 0 < res_amount_usdc r').
  { intros r' Hr' Hx'. by eapply accept_positive, (lk_quoted _ _ Hl). }
  exists a. split; [done|]. unfold account_owner in *. injection Ho as H1 H2.
  split; [unfold the_account; by rewrite H1, H2, !eqs_refl|]. split; [by rewrite H1, H2|]. split; [auto|].
  rewrite (bl_reserved _ _ _ Hb a Ha), H1, H2. apply (sum_where_ge _ res_amount_usdc _ r); [done| |].
  - unfold held_by. by rewrite of_agent_own, Hh.
  - intros r' Hr' Hp. apply Z.lt_le_incl, Hpos; [done|]. unfold held_by, of_agent in Hp. by bsimpl.
Qed.

(** A row of the account stays within its constraints. *)
Lemma unreserve_checked amount now a :
  account_check a = true -> 0 < amount <= acct_reserved_usdc a -> account_check (unreserve amount now a) = true.
Proof.
  unfold account_check, numeric_ok. cbn. intros H Ha. bsimpl. repeat (apply andb_true_intro; split); lia.
Qed.

(** An update of the one row of a key succeeds. *)
Lemma update_one t {K} (key : row t -> K) p f w r :
  keyed key (w_db w t) -> In r (w_db w t) -> p r = true -> (forall r', p r' = true -> key r' = key r) ->
  check t (f r) = true ->
  update t p f w = (Ok [f r], with_db (db_set t (update_rows p f (w_db w t)) (w_db w)) w).
Proof.
  intros Hk Hr Hp Hkey Hc. apply (update_run t p f w [r]); [by apply (keyed_where key)|]. cbn. by rewrite Hc.
Qed.

(** The cancellation of a ready candidate succeeds. *)
Lemma cancel_ready org agent n c w r t :
  payments_ok (w_db w) -> checked (w_db w) -> ready org agent c (w_db w) r t ->
  exists w', cancel_candidate org agent n c w = (Ok (n + 1), w') /\ w_now w' = w_now w /\
  w_db w' T_payment_reservations = update_rows
    (fun r => the_reservation org (cd_reservation_id c) r && reservation_held r)
    (close_reservation Reservation_released (w_now w)) (w_db w T_payment_reservations) /\
  w_db w' T_runtime_payment_attempts = update_rows
    (fun t => (att_id t =s cd_attempt_id c) && (att_org_id t =s org) && (att_agent_id t =s agent)
              && bool_decide (att_status t = Attempt_reserved))
    (fail_attempt (cd_error_code c) (w_now w)) (w_db w T_runtime_payment_attempts).
Proof.
  intros Hok Hch [Hr Hid Ham Hh Hf Ho Hg Ht Hta Hts]. pose proof Hok as [Hl Hb _ _].
  assert (Hx : x402_reservation r = true) by (by eapply funds_x402).
  pose proof (funded_of _ _ _ _ Hl Hr Ht Hf) as Hfd.
  destruct (held_at_least _ org agent r Hok Hr Hx Hh Ho Hg) as (a & Ha & Hthe & Hown & Hle).
  unfold cancel_candidate. rewrite (bind_run get_now _ w (w_now w) w eq_refl).
  erewrite bind_run; [|apply (update_one T_payment_reservations res_id) with (r := r); [apply Hl|done|..]].
  2: { unfold the_reservation. by rewrite Hid, Ho, !eqs_refl, Hh. }
  2: { intros r' E. unfold the_reservation in E. bsimpl. congruence. }
  2: { exact (Hch T_payment_reservations r Hr). }
  cbv beta iota.
  erewrite bind_run; [|apply (update_one T_agent_payment_accounts account_owner) with (r := a); cbn [w_db with_db];
    rewrite ?db_set_other by done; [apply Hb|done|..]].
  2: { cbv beta. rewrite Hthe, <-Ham. apply Z.leb_le. lia. }
  2: { intros a' E. unfold the_account in E. bsimpl. unfold account_owner in *. congruence. }
  2: { apply unreserve_checked; [exact (Hch T_agent_payment_accounts a Ha)|]. lia. }
  cbn [length]. rewrite (bind_run _ _ _ _ _ (throw_if_run _ _)).
  erewrite bind_run; [|apply (update_one T_runtime_payment_attempts att_id) with (r := t); cbn [w_db with_db];
    rewrite ?db_set_other by done; [apply Hl|done|..]].
  2: { cbv beta. rewrite Hta, <-(fd_org _ _ Hfd), <-(fd_agent _ _ Hfd), Ho, Hg, Hts, !eqs_refl. done. }
  2: { intros t' E. bsimpl. congruence. }
  2: { exact (Hch T_runtime_payment_attempts t Ht). }
  eexists. split; [reflexivity|]. split; [reflexivity|]. cbn [w_db with_db w_now].
  repeat first [rewrite db_set_same | rewrite db_set_other by discriminate]. done.
Qed.

(** Cancelling leaves what was cancelled. *)
Lemma cancelled_stays c (db db' : Db) p q now now' code :
  (forall r, p r = true -> reservation_held r = true) -> (forall t, q t = true -> att_status t = Attempt_reserved) ->
  db' T_payment_reservations = update_rows p (close_reservation Reservation_released now) (db T_payment_reservations) ->
  db' T_runtime_payment_attempts = update_rows q (fail_attempt code now') (db T_runtime_payment_attempts) ->
  cancelled c db -> cancelled c db'.
Proof.
  intros Hp Hq HR HT [(r & Hr & H1 & H2) (t & Ht & H3 & H4 & H5)]. unfold cancelled. rewrite HR, HT. split.
  - exists (if p r then close_reservation Reservation_released now r else r).
    split; [apply in_update_rows; eauto|]. by destruct (p r).
  - exists t. split; [|done]. apply in_update_rows. exists t. split; [done|].
    destruct (q t) eqn:E; [|done]. apply Hq in E. congruence.
Qed.

Section Turn.
Context (org agent : string) (w w' : World) (c : Candidate) (r : PaymentReservationRow) (t : X402AttemptRow).
Context (Hok : payments_ok (w_db w)) (Hc : ready org agent c (w_db w) r t).
Context (HR : w_db w' T_payment_reservations = update_rows
    (fun r => the_reservation org (cd_reservation_id c) r && reservation_held r)
    (close_reservation Reservation_released (w_now w)) (w_db w T_payment_reservations)).
Context (HT : w_db w' T_runtime_payment_attempts = update_rows
    (fun t => (att_id t =s cd_attempt_id c) && (att_org_id t =s org) && (att_agent_id t =s agent)
              && bool_decide (att_status t = Attempt_reserved))
    (fail_attempt (cd_error_code c) (w_now w)) (w_db w T_runtime_payment_attempts)).

Lemma turn_cancels : cancelled c (w_db w').
Proof using All.
  destruct Hc as [Hr Hid Ham Hh Hf Ho Hg Ht Hta Hts]. pose proof Hok as [Hl _ _ _].
  pose proof (funded_of _ _ _ _ Hl Hr Ht Hf) as Hfd. unfold cancelled. rewrite HR, HT. split.
  - exists (close_reservation Reservation_released (w_now w) r). split; [|done]. apply in_update_rows. exists r.
    split; [done|]. unfold the_reservation. by rewrite Hid, Ho, !eqs_refl, Hh.
  - exists (fail_attempt (cd_error_code c) (w_now w) t). split; [|done]. apply in_update_rows. exists t.
    split; [done|]. by rewrite Hta, <-(fd_org _ _ Hfd), <-(fd_agent _ _ Hfd), Ho, Hg, Hts, !eqs_refl.
Qed.

Lemma turn_others c' r' t' :
  cd_reservation_id c' <> cd_reservation_id c -> ready org agent c' (w_db w) r' t' ->
  ready org agent c' (w_db w') r' t'.
Proof using All.
  intros Hne [Hr Hid Ham Hh Hf Ho Hg Ht Hta Hts]. constructor; try done.
  - rewrite HR. apply in_update_rows. exists r'. split; [done|]. unfold the_reservation.
    by rewrite Hid, eqs_neq.
  - rewrite HT. apply in_update_rows. exists t'. split; [done|]. rewrite Hta, eqs_neq; [done|]. intros E.
    apply Hne. rewrite <-Hid, <-(rd_res_id _ _ _ _ _ _ Hc). f_equal. pose proof Hok as [Hl _ _ _].
    apply (lk_unique _ _ Hl); [done|by eapply rd_res|by eapply funds_x402|].
    pose proof (rd_funds _ _ _ _ _ _ Hc) as Hf'. unfold funds in Hf, Hf'. rewrite Hf, Hf', Hta, E.
    by rewrite (rd_att_id _ _ _ _ _ _ Hc).
Qed.
End Turn.

(** The loop cancels them all. *)
Lemma cancel_all org agent l : forall n w,
  payments_ok (w_db w) -> checked (w_db w) -> NoDup (map cd_reservation_id l) ->
  (forall c, In c l -> exists r t, ready org agent c (w_db w) r t) ->
  exists w', for_each (cancel_candidate org agent) l n w = (Ok (n + Z.of_nat (length l)), w') /\
  (forall c, In c l -> cancelled c (w_db w')) /\
  (forall c, cancelled c (w_db w) -> cancelled c (w_db w')).
Proof.
  induction l as [|c l IH]; intros n w Hok Hch Hnd Hall.
  { exists w. cbn. rewrite Z.add_0_r. by split; [|split]. }
  destruct (Hall c (or_introl eq_refl)) as (r & t & Hc).
  destruct (cancel_ready org agent n c w r t Hok Hch Hc) as (w1 & E & Hnow & HR & HT).
  cbn [for_each map] in *. apply NoDup_cons in Hnd as [Hn Hnd].
  assert (Hok1 : payments_ok (w_db w1)).
  { apply (cancel_candidate_ok org agent n c w (n + 1) w1); [done| |done]. destruct Hc. exists r.
    do 3 (split; [done|]). split; [|done]. unfold funds in *. congruence. }
  assert (Hch1 : checked (w_db w1)).
  { pose proof (made_after (fun _ => True) pay_writes (cancel_candidate org agent n c) ltac:(solve_made) w) as [_ _ _ Hk].
    rewrite E in Hk. by apply Hk. }
  destruct (IH (n + 1) w1) as (w' & E' & H1 & H2); [done..| |].
  { intros c' Hin. destruct (Hall c' (or_intror Hin)) as (r' & t' & Hc'). exists r', t'.
    eapply (turn_others org agent w w1 c r t); [done..| |done]. intros Eq. apply Hn. rewrite <-Eq.
    by apply list_elem_of_In, in_map. }
  exists w'. rewrite (bind_run _ _ _ _ _ E), E'. split; [do 2 f_equal; cbn [length]; lia|]. split.
  - intros c' [<-|Hin]; [|auto]. apply H2. by apply (turn_cancels org agent w w1 c r t).
  - intros c' Hc'. apply H2. eapply cancelled_stays; [| |exact HR|exact HT|done]; intros; by bdec.
Qed.

(** ** The candidates *)

(** A flat map whose rows keep the keys of distinct rows apart. *)
Lemma keyed_flat_map {X Y K L} (key : X -> K) (ykey : Y -> L) (f : X -> list Y) l :
  keyed key l -> (forall x, In x l -> keyed ykey (f x)) ->
  (forall x1 x2 y1 y2, In x1 l -> In x2 l -> In y1 (f x1) -> In y2 (f x2) -> ykey y1 = ykey y2 -> key x1 = key x2) ->
  keyed ykey (flat_map f l).
Proof.
  unfold keyed. induction l as [|x l IH]; intros Hk Hf Hd; cbn [flat_map map]; [constructor|].
  cbn [map] in Hk. apply NoDup_cons in Hk as [Hn Hk]. rewrite map_app. apply NoDup_app. split; [apply Hf; by left|].
  split; [|apply IH; [done|intros; apply Hf; by right|intros x1 x2 y1 y2 H1 H2; apply Hd; by right]].
  intros k (y1 & <- & Hy1)%list_elem_of_In%in_map_iff (y2 & E & Hy2)%list_elem_of_In%in_map_iff.
  apply in_flat_map in Hy2 as (x2 & Hx2 & Hy2). apply Hn. apply list_elem_of_In, in_map_iff. exists x2. split; [|done].
  by eapply Hd; [right|left| | |].
Qed.

Lemma map_where_keyed {X K} (key : X -> K) p l : keyed key l -> keyed key (where_ p l).
Proof.
  unfold keyed. induction l as [|x l IH]; cbn; [done|]. intros [Hn Hd]%NoDup_cons. destruct (p x); cbn; [|auto].
  apply NoDup_cons. split; [|auto]. intros (y & E & [Hy _]%where_in)%list_elem_of_In%in_map_iff. apply Hn.
  rewrite <-E. by apply list_elem_of_In, in_map.
Qed.

Section Candidates.
Context (org agent : string) (w : World) (Hok : payments_ok (w_db w)).

Notation attempts := (where_ (fun a => (att_org_id a =s org) && (att_agent_id a =s agent)
  && bool_decide (att_status a = Attempt_reserved)) (w_db w T_runtime_payment_attempts)).
Notation candidates := (flat_map (candidates_of (w_now w) (w_db w T_approval_requests) (w_db w T_payment_reservations))
  attempts).

Lemma candidate_ready c : In c candidates -> exists r t, ready org agent c (w_db w) r t.
Proof using Hok.
  intros (t & [Ht Hp]%where_in & (r & <- & [Hr Hq]%where_in)%in_map_iff)%in_flat_map. bdec. exists r, t.
  constructor; try done; try congruence. cbn. unfold reservation_held. by apply bool_decide_eq_true.
Qed.

Lemma candidates_keyed : keyed cd_reservation_id candidates.
Proof using Hok.
  pose proof Hok as [Hl _ _ _]. apply (keyed_flat_map att_id).
  - apply map_where_keyed, Hl.
  - intros t Ht. unfold keyed, candidates_of. rewrite map_map. apply map_where_keyed, Hl.
  - intros t1 t2 c1 c2 Ht1 Ht2 (r1 & <- & [Hr1 H1]%where_in)%in_map_iff (r2 & <- & [Hr2 H2]%where_in)%in_map_iff E.
    cbn in E. bdec. apply attempt_reason_inj. replace r2 with r1 in * by (by apply (keyed_unique res_id _ _ _ (lk_res _ _ Hl))).
    congruence.
Qed.

Lemma candidate_in r t :
  In t (w_db w T_runtime_payment_attempts) -> att_status t = Attempt_reserved ->
  att_org_id t = org -> att_agent_id t = agent ->
  In r (w_db w T_payment_reservations) -> funds r t ->
  stranded (w_now w) (approval_of (w_db w T_approval_requests) t) r = true ->
  In (mkCandidate (att_id t) (res_id r) (res_amount_usdc r)
        (stranded_code (w_now w) (approval_of (w_db w T_approval_requests) t)) (res_expires_at r)) candidates.
Proof using Hok.
  intros Ht Hs Ho Hg Hr Hf Hst. pose proof Hok as [Hl _ _ _]. pose proof (funded_of _ _ _ _ Hl Hr Ht Hf) as [].
  apply in_flat_map. exists t. split; [apply where_in; split; [done|]; by rewrite Ho, Hg, Hs, !eqs_refl|].
  apply in_map_iff. exists r. split; [done|]. apply where_in. split; [done|].
  match goal with H : funds r t |- _ => unfold funds in H; rewrite H end.
  match goal with H : res_org_id r = _ |- _ => rewrite H end.
  match goal with H : res_agent_id r = _ |- _ => rewrite H end.
  match goal with H : status_agree _ _ |- _ => rewrite Hs in H; cbn in H; rewrite H end.
  by rewrite !eqs_refl, Hst.
Qed.
End Candidates.

(** ** The property *)

(** C14: No reservation is held for ever by an attempt that never went to the
    provider.  From any state with consistent payment tables, the
    cancellation that runs before each payment of an agent always succeeds
    (none of its three consistency checks fires, and it does not stop at the
    first candidate).  It releases every reservation of the agent whose
    attempt is still reserved and which expired, or whose approval was
    denied, expired or lapsed, and fails the attempt with the code that says
    why; the tables stay consistent. *)
Theorem stranded_reservation_is_released org agent w :
  payments_ok (w_db w) -> checked (w_db w) ->
  exists k w', cancelStrandedReservedAttempts true org agent w = (Ok k, w') /\ payments_ok (w_db w') /\
  forall r t, In r (w_db w T_payment_reservations) -> In t (w_db w T_runtime_payment_attempts) ->
    res_reason_code r = attempt_reason (att_id t) -> att_status t = Attempt_reserved ->
    att_org_id t = org -> att_agent_id t = agent ->
    let approval := approval_of (w_db w T_approval_requests) t in
    stranded (w_now w) approval r = true ->
    (exists r', In r' (w_db w' T_payment_reservations) /\ res_id r' = res_id r /\
       res_status r' = Reservation_released) /\
    (exists t', In t' (w_db w' T_runtime_payment_attempts) /\ att_id t' = att_id t /\
       att_status t' = Attempt_failed /\ att_error_code t' = Some (stranded_code (w_now w) approval)).
Proof.
  intros Hok Hch. set (l := flat_map (candidates_of (w_now w) (w_db w T_approval_requests)
    (w_db w T_payment_reservations)) (where_ (fun a => (att_org_id a =s org) && (att_agent_id a =s agent)
      && bool_decide (att_status a = Attempt_reserved)) (w_db w T_runtime_payment_attempts))).
  set (sorted := sort_by (fun a b => le_time_id (cd_expires_at a, cd_attempt_id a) (cd_expires_at b, cd_attempt_id b)) l).
  assert (Hp : Permutation l sorted) by (symmetry; apply sort_by_perm).
  destruct (cancel_all org agent sorted 0 w Hok Hch) as (w' & E & Hall & _).
  - change (keyed cd_reservation_id sorted). unfold keyed. rewrite <-Hp. by apply candidates_keyed.
  - intros c Hc. apply candidate_ready; [done|]. fold l. by rewrite Hp.
  - assert (Hrun : cancelStrandedReservedAttempts true org agent w = (Ok (0 + Z.of_nat (length sorted)), w')).
    { unfold cancelStrandedReservedAttempts, transaction, withTransaction.
      rewrite (bind_run get_now _ w (w_now w) w eq_refl).
      rewrite (bind_run _ _ _ _ _ (select_run _ _ _ _ eq_refl)), (bind_run _ _ _ _ _ (select_run _ _ _ _ eq_refl)),
        (bind_run _ _ _ _ _ (select_run _ _ _ _ eq_refl)), !where_all.
      match goal with |- context [for_each _ ?s 0 w] => change s with sorted end. by rewrite E. }
    eexists _, w'. split; [exact Hrun|]. split; [apply (books_run _ _ _ _ (cancelStranded_books org agent) Hrun Hok)|].
    intros r t Hr Ht Hf Hs Ho Hg approval Hst.
    destruct (Hall (mkCandidate (att_id t) (res_id r) (res_amount_usdc r) (stranded_code (w_now w) approval) (res_expires_at r)))
      as [H1 H2]; [|by split].
    rewrite <-Hp. unfold l. by apply candidate_in.
Qed.

(** ** Witness *)

(** A payment prepared and left: an hour later its reservation expired. *)
Definition left_world : World :=
  run_m (wait (Z.to_nat 3600000)) (run_m (preparePaidHttpPayment sample_caller (sample_input "k1") "h"
    sample_destination sample_pin) granted_world).

Definition sample_left (w : World) : bool :=
  match w_db w T_payment_reservations, w_db w T_runtime_payment_attempts with
  | [r], [t] =>
      (res_reason_code r =s attempt_reason (att_id t)) && bool_decide (att_status t = Attempt_reserved)
      && (att_org_id t =s "org_1") && (att_agent_id t =s "agt_1")
      && stranded (w_now w) (approval_of (w_db w T_approval_requests) t) r
  | _, _ => false
  end.

Lemma wait_db n w : w_db (run_m (wait n) w) = w_db w.
Proof. done. Qed.

Lemma left_checked : checked (w_db left_world).
Proof.
  assert (Hg : checked (w_db granted_world)).
  { apply (made_after (fun _ => True) pay_writes (setAgentPaymentAccess sample_operator "org_1" "agt_1" (sample_access "0.025"))
      ltac:(solve_made) sample_world0), sample_checked. }
  assert (Hm : made_of (fun _ => True) pay_writes (preparePaidHttpPayment sample_caller (sample_input "k1") "h"
    sample_destination sample_pin)) by (by apply prepare_made).
  unfold left_world. rewrite wait_db. unfold run_m at 1. exact (af_checked _ _ _ (made_after _ _ _ Hm granted_world) Hg).
Qed.

Lemma left_ok : payments_ok (w_db left_world).
Proof.
  unfold left_world. rewrite wait_db. unfold run_m at 1.
  exact (proj1 (prepare_sound sample_caller (sample_input "k1") "h" sample_destination sample_pin granted_world granted_ok)).
Qed.

Lemma stranded_reservation_is_released_witness : exists k w' r,
  cancelStrandedReservedAttempts true "org_1" "agt_1" left_world = (Ok k, w') /\
  In r (w_db w' T_payment_reservations) /\ res_status r = Reservation_released.
Proof.
  assert (sample_left left_world = true) as Hs by (vm_compute; reflexivity).
  revert Hs. generalize left_ok, left_checked. generalize left_world as w. intros w Hok Hch Hs.
  destruct (stranded_reservation_is_released "org_1" "agt_1" w Hok Hch) as (k & w' & E & _ & Hall).
  unfold sample_left in Hs.
  destruct (w_db w T_payment_reservations) as [|r [|]] eqn:Er; [done| |done].
  destruct (w_db w T_runtime_payment_attempts) as [|t [|]] eqn:Et; [done| |done].
  bdec. destruct (Hall r t) as [(r1 & Hr1 & _ & Hst) _]; try done; [by left..|].
  by exists k, w', r1.
Defined.
