(* ===== verification/EscrowThms.v ===== *)
(** What an escrow job holds: its budget is reserved when it is funded, and
    settled or released when it ends, beside every payment of the platform.

    The escrow engine shares the table of reservations with the payment
    engine: the two invariants are kept by the steps of both. *)

From stdpp Require Import relations.
From S2P Require Import Prelude Errors Usdc Json Quotes Schema Host Handlers Accounts Chain Escrow BudgetSpec Budget BudgetOps BudgetPay.
From S2P Require Import BudgetOperator HandlersPay Payments Identity Policy ResultCrypto PaidHttp Ledger AuditLog PolicyStore Approvals.
From S2P Require Import Attempts Prepare Settlement Liquidity Pay Samples PaymentsThms PolicyStoreThms.
Open Scope Z_scope.

(** ** Reservations of other engines *)

Record plain_change (db db' : Db) : Prop := mkPlainChange {
  pc_tables : forall t, payment_table t = true -> t <> T_payment_reservations -> db' t = db t;
  pc_keyed : keyed res_id (db T_payment_reservations) -> keyed res_id (db' T_payment_reservations);
  pc_x402 : where_ x402_reservation (db' T_payment_reservations) = where_ x402_reservation (db T_payment_reservations)
}.

Lemma plain_refl db db' : (forall t, payment_table t = true -> db' t = db t) -> plain_change db db'.
Proof. intros H. constructor; [auto|by rewrite H|by rewrite H]. Qed.

Section Plain.
Context (db db' : Db) (Hc : plain_change db db').

Lemma plain_in r : x402_reservation r = true ->
  In r (db' T_payment_reservations) <-> In r (db T_payment_reservations).
Proof using Hc. apply where_agree, Hc. Qed.

Lemma plain_sum p c : (forall r, p r = true -> x402_reservation r = true) ->
  sum_where p c (db' T_payment_reservations) = sum_where p c (db T_payment_reservations).
Proof using Hc. 
  intros Hp. rewrite (sum_where_within p _ c (db' T_payment_reservations) Hp),
    (sum_where_within p _ c (db T_payment_reservations) Hp). by rewrite (pc_x402 _ _ Hc).
Qed.

(** The books are those of the x402 reservations. *)
Lemma plain_payments_ok : payments_ok db -> payments_ok db'.
Proof using Hc.
  intros [[K1 K2 K3 Lf Lr Lu Lq] [B1 B2 B3 B4 B5 B6] [E1 E2] Hs].
  assert (HT : forall t, payment_table t = true -> t <> T_payment_reservations -> db' t = db t) by apply Hc.
  constructor; rewrite ?(HT T_runtime_payment_attempts), ?(HT T_agent_payment_accounts), ?(HT T_ledger_postings),
    ?(HT T_payment_events), ?(HT T_connections) by done; [..|done].
  - constructor; [by apply (pc_keyed _ _ Hc)|done|done|..].
    + intros t Ht. destruct (Lf t Ht) as (r & Hr & Hf). exists r. split; [|done]. apply plain_in; [|done].
      by eapply funds_x402, fd_funds.
    + intros r Hr Hx. apply Lr; [|done]. by apply plain_in.
    + intros r1 r2 H1 H2 Hx E. assert (Hx2 : x402_reservation r2 = true) by (unfold x402_reservation in *; by rewrite <-E).
      apply Lu; [by apply plain_in|by apply plain_in|done|done].
    + intros r Hr Hx. apply Lq; [|done]. by apply plain_in.
  - constructor; [done|intros a Ha..|done].
    + rewrite B2 by done. symmetry. apply plain_sum. intros r H. unfold held_by, of_agent in H. by bsimpl.
    + rewrite B3 by done. symmetry. apply plain_sum. intros r H. unfold settled_by, of_agent in H. by bsimpl.
    + by apply B4.
    + intros Hx. apply B5; [|done]. by apply plain_in.
  - constructor.
    + intros e id He Hi. destruct (E1 e id He Hi) as (r & Hr & Hid & Hx). exists r. split; [by apply plain_in|done].
    + intros e r t He Hu Hr Hi Ht Hf. apply (E2 e r t); try done. apply plain_in; [by eapply funds_x402|done].
Qed.

Lemma plain_book : book_of db' = book_of db.
Proof using Hc.
  unfold book_of. rewrite (pc_x402 _ _ Hc), (pc_tables _ _ Hc T_agent_payment_accounts),
    (pc_tables _ _ Hc T_runtime_payment_attempts) by done. done.
Qed.

Lemma plain_prepared auth p : prepared_ok auth p db -> prepared_ok auth p db'.
Proof using Hc.
  intros (r & Hr & H1 & H2 & H3 & H4 & H5). exists r. split; [|done].
  apply plain_in; [by eapply attempt_reason_x402|done].
Qed.
End Plain.

Lemma plain_good w w' fs : plain_change (w_db w) (w_db w') -> pgood (mkPState w fs) -> pgood (mkPState w' fs).
Proof.
  intros Hc [Hok Hf]. constructor; cbn in *; [by eapply plain_payments_ok|].
  intros f Hin. by eapply plain_prepared, Hf.
Qed.

(** ** The invariant *)

Definition escrow_status (s : EscrowState) : ReservationStatus :=
  match s with
  | Escrow_completed => Reservation_settled
  | Escrow_rejected | Escrow_expired => Reservation_released
  | _ => Reservation_reserved
  end.

Definition escrow_reservation_of (r : PaymentReservationRow) : bool :=
  String.prefix "escrow_job:" (res_reason_code r).

(** The reservation of a job. *)
Record holds (j : EscrowJobRow) (r : PaymentReservationRow) : Prop := mkHolds {
  ho_state : ej_state j <> Escrow_open;
  ho_org : res_org_id r = ej_org_id j;
  ho_agent : res_agent_id r = ej_client_agent_id j;
  ho_reason : res_reason_code r = escrow_reason (ej_id j);
  ho_amount : res_amount_usdc r = ej_budget_usdc j;
  ho_status : res_status r = escrow_status (ej_state j)
}.

Record jobs_ok (J : list EscrowJobRow) (R : list PaymentReservationRow) : Prop := mkJobsOk {
  jo_keyed : keyed ej_id J;
  jo_holds : forall j id, In j J -> ej_reservation_id j = Some id ->
    exists r, In r R /\ res_id r = id /\ holds j r;
  jo_owner : forall r, In r R -> escrow_reservation_of r = true ->
    exists j, In j J /\ ej_reservation_id j = Some (res_id r);
  jo_funded : forall j, In j J -> ej_fund_tx_hash j <> None -> ej_reservation_id j <> None
}.

Definition escrow_ok (db : Db) : Prop := jobs_ok (db T_escrow_jobs) (db T_payment_reservations).

Lemma escrow_reason_inj a b : escrow_reason a = escrow_reason b -> a = b.
Proof. unfold escrow_reason. intros H. by injection H. Qed.

Lemma escrow_plain r : escrow_reservation_of r = true -> x402_reservation r = false.
Proof.
  unfold escrow_reservation_of, x402_reservation. destruct (res_reason_code r) as [|a s]; [done|].
  cbn [String.prefix].
  destruct (ascii_dec "e" a) as [<-|]; [intros _; reflexivity|done].
Qed.

Lemma holds_plain j r : holds j r -> plain_reservation r = true /\ escrow_reservation_of r = true.
Proof.
  intros [_ _ _ H _ _].
  assert (escrow_reservation_of r = true) as E.
  { unfold escrow_reservation_of. rewrite H. unfold escrow_reason. cbn. by destruct (ej_id j). }
  split; [|done]. unfold plain_reservation. by rewrite escrow_plain.
Qed.

(** The reservations of other engines and the jobs are what matters. *)
Lemma escrow_same (db db' : Db) :
  db' T_escrow_jobs = db T_escrow_jobs ->
  where_ plain_reservation (db' T_payment_reservations) = where_ plain_reservation (db T_payment_reservations) ->
  escrow_ok db -> escrow_ok db'.
Proof.
  intros HJ HR [K Hh Ho Hf].
  assert (Hin : forall r, plain_reservation r = true ->
    In r (db' T_payment_reservations) <-> In r (db T_payment_reservations)).
  { intros r. by apply where_agree. }
  unfold escrow_ok. rewrite HJ. constructor; [done|..].
  - intros j id Hj Hi. destruct (Hh j id Hj Hi) as (r & Hr & Hid & H). exists r. split; [|done].
    apply Hin; [|done]. by apply (holds_plain j r).
  - intros r Hr He. apply Ho; [|done]. apply Hin; [|done]. unfold plain_reservation. by rewrite escrow_plain.
  - exact Hf.
Qed.

(** ** Moves of a job *)

Definition terminal (s : EscrowState) : bool :=
  match s with Escrow_completed | Escrow_rejected | Escrow_expired => true | _ => false end.

(** What the move of a job to [next] does to a reservation. *)
Definition outcome_of (j : EscrowJobRow) (next : EscrowState) (now : Z) (r : PaymentReservationRow) :
    PaymentReservationRow :=
  match ej_reservation_id j, reservation_outcome next with
  | Some id, Some status =>
      if held_reservation (ej_org_id j) id r then set_res_status status (set_res_updated_at now r) else r
  | _, _ => r
  end.

Lemma outcome_same j next now r :
  res_id (outcome_of j next now r) = res_id r /\ res_org_id (outcome_of j next now r) = res_org_id r /\
  res_agent_id (outcome_of j next now r) = res_agent_id r /\
  res_reason_code (outcome_of j next now r) = res_reason_code r /\
  res_amount_usdc (outcome_of j next now r) = res_amount_usdc r.
Proof. unfold outcome_of. by destruct (ej_reservation_id j), (reservation_outcome next); try case_match. Qed.

Lemma outcome_other j next now r : ej_reservation_id j <> Some (res_id r) -> outcome_of j next now r = r.
Proof.
  intros H. unfold outcome_of. destruct (ej_reservation_id j) as [id|]; [|done]. destruct (reservation_outcome next); [|done].
  unfold held_reservation. destruct (res_id r =s id) eqn:E; [|done]. apply eqs_spec in E. congruence.
Qed.

(** The status of a job's reservation follows its state. *)
Lemma outcome_status j next now r :
  ej_reservation_id j = Some (res_id r) -> holds j r -> next <> Escrow_open ->
  (terminal (ej_state j) = true -> next = ej_state j) ->
  res_status (outcome_of j next now r) = escrow_status next.
Proof.
  intros Hid [Hn Ho _ _ _ Hs] Hx Ht. unfold outcome_of, held_reservation. rewrite Hid, Ho, Hs, !eqs_refl.
  destruct (ej_state j); cbn in *; try (rewrite (Ht eq_refl)); try done; by destruct next.
Qed.

Section Move.
Context (J : list EscrowJobRow) (R : list PaymentReservationRow) (j : EscrowJobRow).
Context (f : EscrowJobRow -> EscrowJobRow) (now : Z).
Context (Hok : jobs_ok J R) (HR : keyed res_id R) (Hj : In j J).
Context (f_id : forall x, ej_id (f x) = ej_id x).
Context (f_org : ej_org_id (f j) = ej_org_id j) (f_agent : ej_client_agent_id (f j) = ej_client_agent_id j).
Context (f_reservation : ej_reservation_id (f j) = ej_reservation_id j).
Context (f_funded : ej_fund_tx_hash (f j) = ej_fund_tx_hash j).
Context (f_budget : ej_reservation_id j <> None -> ej_budget_usdc (f j) = ej_budget_usdc j).
Context (f_terminal : terminal (ej_state j) = true -> ej_state (f j) = ej_state j).
Context (f_open : ej_state j <> Escrow_open -> ej_state (f j) <> Escrow_open).

Lemma the_job_where id : forall x, In x J -> ej_id x = id -> where_ (the_job id) J = [x].
Proof using Hok.
  intros x Hx <-. apply (keyed_where ej_id); [apply Hok|done|apply eqs_refl|]. by intros y ?%eqs_spec.
Qed.

Lemma jobs_moved : jobs_ok (update_rows (the_job (ej_id j)) f J) (map (outcome_of j (ej_state (f j)) now) R).
Proof using All.
  pose proof Hok as [K Hh Ho Hf]. constructor.
  - apply keyed_update; [auto|done].
  - intros j' id Hj' Hid. apply (in_update_one ej_id _ _ _ j) in Hj'; [|done|by apply the_job_where].
    destruct Hj' as [->|[Hj' Hne]].
    + rewrite f_reservation in Hid. destruct (Hh j id Hj Hid) as (r & Hr & <- & Hrj). pose proof Hrj as [].
      exists (outcome_of j (ej_state (f j)) now r). split; [by apply in_map|].
      destruct (outcome_same j (ej_state (f j)) now r) as (E1 & E2 & E3 & E4 & E5). split; [done|].
      constructor; rewrite ?E2, ?E3, ?E4, ?E5, ?f_id, ?f_org, ?f_agent; auto.
      * rewrite f_budget; [done|congruence].
      * by apply outcome_status; auto.
    + destruct (Hh j' id Hj' Hid) as (r & Hr & Hrid & Hrj). exists r. split; [|done].
      apply in_map_iff. exists r. split; [|done]. apply outcome_other. intros E.
      destruct (Hh j (res_id r) Hj E) as (r0 & Hr0 & Hr0id & Hrj0). apply Hne.
      replace r0 with r in * by (by apply (keyed_unique res_id R)).
      apply escrow_reason_inj. by rewrite <-(ho_reason _ _ Hrj), <-(ho_reason _ _ Hrj0).
  - intros r' (r & <- & Hr)%in_map_iff He. destruct (outcome_same j (ej_state (f j)) now r) as (E1 & _ & _ & E4 & _).
    unfold escrow_reservation_of in He. rewrite E4 in He. rewrite E1. destruct (Ho r Hr He) as (j0 & Hj0 & Hid).
    exists (if the_job (ej_id j) j0 then f j0 else j0). split; [apply in_update_rows; by exists j0|].
    destruct (the_job (ej_id j) j0) eqn:E; [|done]. apply eqs_spec in E.
    replace j0 with j in * by (by apply (keyed_unique ej_id J)). by rewrite f_reservation.
  - intros j' Hj'. apply (in_update_one ej_id _ _ _ j) in Hj'; [|done|by apply the_job_where].
    destruct Hj' as [->|[Hj' _]]; [rewrite f_funded, f_reservation; by apply Hf|by apply Hf].
Qed.
End Move.

(** A job is created. *)
Lemma jobs_created J R j :
  jobs_ok J R -> ~ In (ej_id j) (map ej_id J) -> ej_reservation_id j = None -> ej_fund_tx_hash j = None ->
  jobs_ok (J ++ [j]) R.
Proof.
  intros [K Hh Ho Hf] Hn Hr Hxx. constructor; [by apply keyed_insert|..].
  - intros x id [Hx|[<-|[]]]%in_app_iff; [by apply Hh|congruence].
  - intros r Hin He. destruct (Ho r Hin He) as (x & Hx & Hi). exists x. rewrite in_app_iff. auto.
  - intros x [Hi|[<-|[]]]%in_app_iff; [by apply Hf|congruence].
Qed.

(** A job that holds nothing is funded. *)
Lemma jobs_funded J R j r f :
  jobs_ok J R -> In j J -> ej_state j = Escrow_open -> (forall x, ej_id (f x) = ej_id x) ->
  ej_reservation_id (f j) = Some (res_id r) -> holds (f j) r ->
  jobs_ok (update_rows (the_job (ej_id j)) f J) (R ++ [r]).
Proof.
  intros Hok Hj Hs f_id Hf Hh. pose proof Hok as [K Hold Ho Hfd]. constructor.
  - by apply keyed_update.
  - intros j' id Hj' Hid. apply (in_update_one ej_id _ _ _ j) in Hj'; [|done|by apply (the_job_where _ _ Hok)].
    destruct Hj' as [->|[Hj' _]].
    + exists r. rewrite in_app_iff. cbn. split; [auto|]. split; [congruence|done].
    + destruct (Hold j' id Hj' Hid) as (r' & Hr' & H). exists r'. rewrite in_app_iff. auto.
  - intros r' [Hr'|[<-|[]]]%in_app_iff He.
    + destruct (Ho r' Hr' He) as (j0 & Hj0 & Hid).
      exists j0. split; [|done]. apply in_update_rows. exists j0. split; [done|].
      destruct (the_job (ej_id j) j0) eqn:E; [|done]. apply eqs_spec in E. exfalso.
      replace j0 with j in * by (by apply (keyed_unique ej_id J)).
      destruct (Hold j _ Hj Hid) as (r0 & _ & _ & []). done.
    + exists (f j). split; [|done]. apply in_update_rows. exists j. split; [done|].
      unfold the_job. by rewrite eqs_refl.
  - intros j' Hj'. apply (in_update_one ej_id _ _ _ j) in Hj'; [|done|by apply (the_job_where _ _ Hok)].
    destruct Hj' as [->|[Hj' _]]; [by rewrite Hf|by apply Hfd].
Qed.

(** ** The handlers *)

Definition escrow_writes (t : table) : bool :=
  match t with T_escrow_jobs | T_payment_reservations | T_agent_reputation_events => true | _ => false end.

Section Handlers.
Context {SH : Sha256} {TP : TreasuryProvider} {ER : EscrowReads}.
Notation any := (fun _ : ExternalCall => True).

Lemma logs_made C W h chain : made_of C W (readReceiptLogs h chain).
Proof. by eapply made_read. Qed.
Lemma job_data_made C W id a chain : made_of C W (readJobCallData id a chain).
Proof. by eapply made_read. Qed.
#[local] Hint Resolve logs_made job_data_made : made.

Lemma create_made input : made_of any escrow_writes (createEscrowJob input).
Proof. solve_made. Qed.
Lemma fund_made id : made_of any escrow_writes (fundEscrowJob id).
Proof. solve_made. Qed.
Lemma transition_made input : made_of any escrow_writes (escrow_transition input).
Proof. solve_made. Qed.
Lemma completed_made id : made_of any (fun t => match t with T_agent_reputation_events => true | _ => false end)
  (onEscrowCompleted id).
Proof. solve_made. Qed.
Lemma reconcile_made id : made_of any escrow_writes (reconcileEscrowJob id).
Proof. solve_made. Qed.

(** What they write, when they succeed. *)
Lemma create_ok input w j w' : createEscrowJob input w = (Ok j, w') ->
  ~ In (ej_id j) (map ej_id (w_db w T_escrow_jobs)) /\ ej_reservation_id j = None /\ ej_fund_tx_hash j = None /\ ej_state j = Escrow_open /\
  w_db w' = db_set T_escrow_jobs (w_db w T_escrow_jobs ++ [j]) (w_db w).
Proof.
  intros E. unfold createEscrowJob in E. runs E. stills.
  match goal with X : w_db _ = db_set _ (w_db ?v _ ++ _) _ |- _ => assert (w_db v = w_db w) as Hv by congruence end.
  rewrite Hv in *. split; [|done]. eapply (no_clash_key T_escrow_jobs); [|eassumption].
  intros s Hs. cbn. unfold escrow_clash. by rewrite <-Hs, eqs_refl.
Qed.

Lemma outcome_run j next w x w' : applyReservationOutcome j next w = (Ok x, w') ->
  w_db w' T_payment_reservations = map (outcome_of j next (w_now w)) (w_db w T_payment_reservations) /\
  w_db w' T_escrow_jobs = w_db w T_escrow_jobs.
Proof.
  intros E. unfold applyReservationOutcome in E. unfold outcome_of.
  destruct (ej_reservation_id j) as [id|], (reservation_outcome next) as [st|]; runs E; [|by rewrite map_id..].
  tables. by rewrite update_rows_map.
Qed.

Lemma fund_ok id w job w' : fundEscrowJob id w = (Ok job, w') -> exists j source txHash rid now,
  In j (w_db w T_escrow_jobs) /\ ej_id j = id /\ ej_state j = Escrow_open /\
  ~ In rid (map res_id (w_db w T_payment_reservations)) /\
  w_db w' T_escrow_jobs = update_rows (the_job (ej_id j)) (fund_row txHash rid now) (w_db w T_escrow_jobs) /\
  w_db w' T_payment_reservations = w_db w T_payment_reservations ++ [escrow_reservation j source rid now] /\
  job = fund_row txHash rid now j.
Proof.
  intros E. unfold fundEscrowJob, reserveEscrowBudget in E. runs E. stills.
  match goal with X : head (where_ _ _) = Some ?x |- _ => pose proof X as Hhead; apply where_head in X as [Hj Hid]; rename x into j end.
  unfold the_job in Hid. bdec.
  match goal with X : first_by _ _ = Some ?x |- _ => rename x into source end.
  match goal with X : w_db _ = db_set T_payment_reservations (w_db ?v _ ++ [escrow_reservation _ _ ?x ?n]) _ |- _ =>
    assert (w_db v = w_db w) as Hv by congruence; rename x into rid, X into Hr; set (r := escrow_reservation j source rid n) in * end.
  match goal with X : existsb _ _ = false |- _ => rewrite Hv in Hr, X end. eexists j, source, _, rid, _. do 3 (split; [done|]). split.
  - refine (no_clash_key T_payment_reservations res_id r (w_db w T_payment_reservations) _ _); [|done].
    intros s Hs. cbn [clash]. by rewrite Hs, eqs_refl.
  - split; [by tables|]. split; [tables; unfold r; match goal with X : w_now _ = _ |- _ => by rewrite X end|].
    match goal with X : head (map _ (where_ _ (w_db ?v _))) = Some job |- _ =>
      assert (w_db v T_escrow_jobs = w_db w T_escrow_jobs) as Hvj by (by rewrite Hr, db_set_other);
      rewrite Hvj, Hid in X; rename X into Hjob end.
    revert Hhead Hjob. cbn [row]. generalize (where_ (the_job id) (w_db w T_escrow_jobs)). intros [|x l]; cbn; congruence.
Qed.

Lemma transition_ok input w job w' : escrow_transition input w = (Ok job, w') -> exists j txHash now,
  In j (w_db w T_escrow_jobs) /\ ej_id j = ae_escrowJobId input /\
  assertEscrowTransition j (ae_next input) = Ok tt /\
  w_db w' T_escrow_jobs = update_rows (the_job (ej_id j))
    (transition_row (ae_next input) txHash (ae_deliverableHash input) now) (w_db w T_escrow_jobs) /\
  w_db w' T_payment_reservations = map (outcome_of j (ae_next input) now) (w_db w T_payment_reservations).
Proof.
  intros E. unfold escrow_transition in E. runs E. stills.
  match goal with X : head (where_ _ _) = Some ?x |- _ => apply where_head in X as [Hj Hid]; rename x into j end.
  unfold the_job in Hid. bdec.
  match goal with X : applyReservationOutcome _ _ _ = _ |- _ => apply outcome_run in X as [HR HJ] end.
  match goal with X : assertEscrowTransition _ _ = Ok ?u |- _ => destruct u end.
  eexists j, _, _. do 3 (split; [done|]). split; [rewrite HJ; by tables|]. rewrite HR. tables.
  match goal with X : w_now _ = _ |- _ => by rewrite X end.
Qed.

Lemma reconcile_ok id w x w' : reconcileEscrowJob id w = (Ok x, w') -> exists j onchainId data state micros,
  In j (w_db w T_escrow_jobs) /\ ej_id j = id /\ ej_onchain_job_id j = Some onchainId /\
  read_job_call_data w onchainId (ej_escrow_address j) (ej_chain j) = Ok data /\
  decodeEscrowJob data = Ok (state, micros) /\
  (w_db w' = w_db w \/ exists now,
   w_db w' T_escrow_jobs = update_rows (the_job (ej_id j))
     (reconcile_row state (if budget_drifted j micros then Some micros else None) now) (w_db w T_escrow_jobs) /\
   w_db w' T_payment_reservations = map (outcome_of j state now) (w_db w T_payment_reservations)).
Proof.
  intros E. unfold reconcileEscrowJob, readJobCallData in E. runs E.
  match goal with X : head (where_ _ _) = Some ?x |- _ => apply where_head in X as [Hj Hid]; rename x into j end.
  unfold the_job in Hid. bdec.
  match goal with X : (read_job_call_data _ _ _ _, _) = _ |- _ => injection X as Hread <- end.
  match goal with X : decodeEscrowJob _ = Ok ?p |- _ => destruct p as [state micros] end.
  eexists j, _, _, state, micros. do 5 (split; [done|]).
  match type of E with match ?l with _ => _ end _ = _ => destruct l; runs E; [by left|right] end.
  match goal with X : applyReservationOutcome _ _ _ = _ |- _ => apply outcome_run in X as [HR HJ] end.
  eexists. split; [rewrite HJ; by tables|]. rewrite HR. tables.
  match goal with X : w_now _ = _ |- _ => by rewrite X end.
Qed.

(** ** Escrow beside payments *)

(** What the chain says of a job the platform knows: what is final stays, a
    job is never open again, and the budget is fixed once it is funded. *)
Record chain_keeps (j : EscrowJobRow) (state : EscrowState) (micros : Z) : Prop := mkChainKeeps {
  ck_terminal : terminal (ej_state j) = true -> state = ej_state j;
  ck_open : ej_state j <> Escrow_open -> state <> Escrow_open;
  ck_budget : ej_state j <> Escrow_open -> micros = ej_budget_usdc j
}.

Definition chain_keeps_job (id : string) (w : World) : Prop := forall j onchainId data state micros,
  In j (w_db w T_escrow_jobs) -> ej_id j = id -> ej_onchain_job_id j = Some onchainId ->
  read_job_call_data w onchainId (ej_escrow_address j) (ej_chain j) = Ok data ->
  decodeEscrowJob data = Ok (state, micros) -> chain_keeps j state micros.

(** What the escrow engine is asked to do. *)
Inductive EscrowWork : Type :=
| Escrow_create (input : CreateEscrowJobInput)
| Escrow_fund (id : string)
| Escrow_change (input : ApplyEscrowStateChangeInput)
| Escrow_reconcile (id : string).

Definition escrow_work (o : EscrowWork) : M unit :=
  match o with
  | Escrow_create input => createEscrowJob input ;;* ret tt
  | Escrow_fund id => fundEscrowJob id ;;* ret tt
  | Escrow_change input => applyEscrowStateChange input ;;* ret tt
  | Escrow_reconcile id => reconcileEscrowJob id ;;* ret tt
  end.

Definition escrow_allowed (o : EscrowWork) (w : World) : Prop :=
  match o with Escrow_reconcile id => chain_keeps_job id w | _ => True end.

Lemma escrow_work_made o : made_of any escrow_writes (escrow_work o).
Proof.
  destruct o; cbn [escrow_work]; (apply made_bind; [|intros ?; apply made_ret]).
  - apply create_made.
  - apply fund_made.
  - unfold applyEscrowStateChange. apply made_bind; [apply transition_made|intros r].
    apply made_bind; [|intros ?; apply made_ret]. destruct (bool_decide _); [|apply made_ret].
    apply made_catch; [|intros ?; apply made_ret].
    eapply made_weaken; [| |apply completed_made]; [done|]. by intros [].
  - apply reconcile_made.
Qed.

Record escrow_step (db db' : Db) : Prop := mkEscrowStep {
  es_ok : escrow_ok db';
  es_keyed : keyed res_id (db' T_payment_reservations);
  es_x402 : where_ x402_reservation (db' T_payment_reservations) = where_ x402_reservation (db T_payment_reservations)
}.

Lemma escrow_stay (db db' : Db) :
  escrow_ok db -> keyed res_id (db T_payment_reservations) ->
  db' T_escrow_jobs = db T_escrow_jobs -> db' T_payment_reservations = db T_payment_reservations -> escrow_step db db'.
Proof. intros Hok HR HJ' HR'. constructor; unfold escrow_ok; by rewrite ?HJ', ?HR'. Qed.

(** A job moves, and its reservation with it. *)
Lemma escrow_move (db db' : Db) j f now :
  escrow_ok db -> keyed res_id (db T_payment_reservations) -> In j (db T_escrow_jobs) ->
  (forall x, ej_id (f x) = ej_id x) -> ej_org_id (f j) = ej_org_id j -> ej_client_agent_id (f j) = ej_client_agent_id j ->
  ej_reservation_id (f j) = ej_reservation_id j -> ej_fund_tx_hash (f j) = ej_fund_tx_hash j ->
  (ej_state j <> Escrow_open -> ej_budget_usdc (f j) = ej_budget_usdc j) ->
  (terminal (ej_state j) = true -> ej_state (f j) = ej_state j) ->
  (ej_state j <> Escrow_open -> ej_state (f j) <> Escrow_open) ->
  db' T_escrow_jobs = update_rows (the_job (ej_id j)) f (db T_escrow_jobs) ->
  db' T_payment_reservations = map (outcome_of j (ej_state (f j)) now) (db T_payment_reservations) ->
  escrow_step db db'.
Proof.
  intros Hok HR Hj f1 f2 f3 f4 ff f5 f6 f7 HJ' HR'. pose proof Hok as [_ Hh _ _].
  assert (Hheld : forall id, ej_reservation_id j = Some id ->
    exists r, In r (db T_payment_reservations) /\ res_id r = id /\ holds j r) by (intros id; by apply Hh).
  constructor.
  - unfold escrow_ok. rewrite HJ', HR'. apply jobs_moved; try done. intros Hr. apply f5.
    destruct (ej_reservation_id j) as [id|]; [|done]. by destruct (Hheld id eq_refl) as (r & _ & _ & []).
  - rewrite HR'. unfold keyed. rewrite map_map. erewrite map_ext; [exact HR|]. intros r. apply outcome_same.
  - rewrite HR'. apply where_map_same; intros r Hr Hx.
    + apply outcome_other. intros E. destruct (Hheld _ E) as (r0 & Hr0 & Hid & Hrj).
      replace r0 with r in * by (by apply (keyed_unique res_id (db T_payment_reservations))).
      apply holds_plain in Hrj as [Hp _]. unfold plain_reservation in Hp. by rewrite Hx in Hp.
    + unfold x402_reservation in *. by rewrite (proj1 (proj2 (proj2 (proj2 (outcome_same _ _ _ _))))).
Qed.

Lemma transition_allowed j next : assertEscrowTransition j next = Ok tt ->
  terminal (ej_state j) = false /\ next <> Escrow_open.
Proof.
  unfold assertEscrowTransition. case_bool_decide as Hn; [intros _|done].
  destruct (ej_state j), next; try done; exfalso; cbn in Hn; set_solver.
Qed.

Lemma create_sound input w :
  escrow_ok (w_db w) -> keyed res_id (w_db w T_payment_reservations) ->
  escrow_step (w_db w) (w_db (snd (createEscrowJob input w))).
Proof.
  intros Hok HR. destruct (createEscrowJob input w) as [[j|e] w'] eqn:E; cbn [snd].
  - apply create_ok in E as (Hn & Hr & Hf & _ & E). constructor; unfold escrow_ok; rewrite ?E; tables; try done.
    by apply jobs_created.
  - apply escrow_stay; try done; unfold createEscrowJob in E;
      do 3 (apply bind_err in E as [E|(? & ? & E1 & E)]; [unfold lift in E; case_match; by injection E as _ <-|
        apply lift_ok in E1 as [_ ->]]); by rewrite (transaction_err _ _ _ _ E).
Qed.

Lemma fund_sound id w :
  escrow_ok (w_db w) -> keyed res_id (w_db w T_payment_reservations) ->
  escrow_step (w_db w) (w_db (snd (fundEscrowJob id w))).
Proof.
  intros Hok HR. destruct (fundEscrowJob id w) as [[job|e] w'] eqn:E; cbn [snd].
  - apply fund_ok in E as (j & source & h & rid & now & Hj & _ & Hs & Hn & EJ & EP & _).
    assert (Hh : holds (fund_row h rid now j) (escrow_reservation j source rid now)) by (by constructor).
    constructor; unfold escrow_ok; rewrite ?EJ, ?EP.
    + by apply jobs_funded.
    + by apply keyed_insert.
    + rewrite where_app, (where_none _ [_]), app_nil_r; [done|]. intros r [<-|[]]. by apply escrow_plain, (holds_plain _ _ Hh).
  - by apply escrow_stay; try done; rewrite (transaction_err _ _ _ _ E).
Qed.

Lemma transition_sound input w :
  escrow_ok (w_db w) -> keyed res_id (w_db w T_payment_reservations) ->
  escrow_step (w_db w) (w_db (snd (escrow_transition input w))).
Proof.
  intros Hok HR. destruct (escrow_transition input w) as [[job|e] w'] eqn:E; cbn [snd].
  - apply transition_ok in E as (j & h & now & Hj & _ & [Ht Hn]%transition_allowed & EJ & EP).
    eapply escrow_move; [done|done|exact Hj| | | | | | | | |exact EJ|exact EP]; try done. by rewrite Ht.
  - by apply escrow_stay; try done; rewrite (transaction_err _ _ _ _ E).
Qed.

Lemma reconcile_sound id w :
  escrow_ok (w_db w) -> keyed res_id (w_db w T_payment_reservations) -> chain_keeps_job id w ->
  escrow_step (w_db w) (w_db (snd (reconcileEscrowJob id w))).
Proof.
  intros Hok HR Hc. destruct (reconcileEscrowJob id w) as [[x|e] w'] eqn:E; cbn [snd].
  - apply reconcile_ok in E as (j & oid & data & state & micros & Hj & Hid & Ho & Hd & Hdec & [E|(now & EJ & EP)]).
    { by apply escrow_stay; try done; rewrite E. }
    destruct (Hc j oid data state micros Hj Hid Ho Hd Hdec) as [C1 C2 C3].
    eapply escrow_move; [done|done|exact Hj| | | | | | | | |exact EJ|exact EP]; try done.
    intros Hs. cbn. unfold budget_drifted. rewrite (C3 Hs), Z.eqb_refl, andb_false_r. done.
  - by apply escrow_stay; try done; rewrite (transaction_err _ _ _ _ E).
Qed.

(** What follows a completion writes neither jobs nor reservations. *)
Lemma change_sound input w :
  escrow_ok (w_db w) -> keyed res_id (w_db w T_payment_reservations) ->
  escrow_step (w_db w) (w_db (snd (applyEscrowStateChange input w))).
Proof.
  intros Hok HR. pose proof (transition_sound input w Hok HR) as Ht. unfold applyEscrowStateChange, bind.
  destruct (escrow_transition input w) as [[job|e] w1] eqn:E; cbn [snd] in *; [|done].
  match goal with |- escrow_step _ (w_db (snd match ?m w1 with _ => _ end)) =>
    assert (forall t, t <> T_agent_reputation_events -> keeps t m) as Hk end.
  { intros t Hne. destruct (bool_decide _); [|apply keeps_ret]. apply keeps_catch; [|intros; apply keeps_ret].
    eapply made_keeps; [apply completed_made|by destruct t]. }
  match goal with |- escrow_step _ (w_db (snd match ?m w1 with _ => _ end)) =>
    destruct (m w1) as [r w2] eqn:E2; assert (forall t, t <> T_agent_reputation_events -> w_db w2 t = w_db w1 t) as Hs
      by (intros t Hne; exact (keeps_run t m _ _ _ (Hk t Hne) E2)) end.
  destruct Ht as [H1 H2 H3]. destruct r; cbn [ret snd];
    constructor; unfold escrow_ok; by rewrite !Hs by done.
Qed.

Lemma escrow_work_sound o w r w' :
  escrow_work o w = (r, w') -> escrow_allowed o w -> escrow_ok (w_db w) ->
  keyed res_id (w_db w T_payment_reservations) -> plain_change (w_db w) (w_db w') /\ escrow_ok (w_db w').
Proof.
  intros E Ha Hok HR. assert (escrow_step (w_db w) (w_db w')) as [H1 H2 H3].
  { pose proof (f_equal (fun p => w_db (snd p)) E) as Hw. cbn [snd] in Hw. rewrite <-Hw.
    assert (forall A (m : M A), snd (bind m (fun _ => ret tt) w) = snd (m w)) as Hb.
    { intros A m. unfold bind. by destruct (m w) as [[]]. }
    destruct o; cbn [escrow_work]; rewrite Hb;
      [by apply create_sound|by apply fund_sound|by apply change_sound|by apply reconcile_sound]. }
  split; [|done]. constructor; [|done|done]. intros t Ht Hne.
  eapply keeps_run; [|exact E]. eapply made_keeps; [apply escrow_work_made|]. by destruct t.
Qed.
End Handlers.

(** ** Payments and escrow side by side *)

Section Machine.
Context {CO : Collation} {SH : Sha256} {UP : UrlParser} {IP : IpClassifier} {HD : HeaderDecoder}
  {CB : ChainBalances} {TB : TreasuryBalances} {XS : X402Settler} {CR : X402ResultCryptoCodec Stored}
  {TP : TreasuryProvider} {ER : EscrowReads}.
Context (options : PayRuntimeX402Options).

Inductive estep : list (Owner * Z) -> PState -> PState -> Prop :=
| e_payment g s s' : pstep options g s s' -> estep g s s'
| e_escrow o w fs r w' :
    escrow_allowed o w -> escrow_work o w = (r, w') -> estep [] (mkPState w fs) (mkPState w' fs).

Inductive erun : list (Owner * Z) -> PState -> PState -> Prop :=
| erun_done s : erun [] s s
| erun_step g tr s1 s2 s3 : estep g s1 s2 -> erun tr s2 s3 -> erun (g ++ tr) s1 s3.

(** Payments leave jobs as they are. *)
Lemma pstep_jobs g s s' : pstep options g s s' ->
  w_db (ps_world s') T_escrow_jobs = w_db (ps_world s) T_escrow_jobs.
Proof.
  assert (Hrun : forall {A} (m : M A) w r w', made_of (fun _ => True) pay_writes m -> m w = (r, w') ->
    w_db w' T_escrow_jobs = w_db w T_escrow_jobs).
  { intros A m w r w' Hm. apply keeps_run. by eapply made_keeps. }
  intros Hs. destruct Hs as [auth input w fs r w' Hauth E|fs1 f fs2 w r w' E|fs1 f fs2 w|o w fs r w' E
    |operator org agent input w fs r w' E|w w' fs [_ _ _ _ _ _ Hk]]; cbn; [|..|done].
  - eapply Hrun; [|exact E]. by apply start_made.
  - eapply Hrun; [|exact E]. apply stage_made.
  - done.
  - eapply Hrun; [|exact E]. apply work_made.
  - eapply Hrun; [|exact E]. solve_made.
Qed.

Lemma estep_sound g s s' :
  estep g s s' -> pgood s -> escrow_ok (w_db (ps_world s)) ->
  pgood s' /\ escrow_ok (w_db (ps_world s')) /\
  rtc (book_step (fun o v => In (o, v) g)) (book_of (w_db (ps_world s))) (book_of (w_db (ps_world s'))).
Proof.
  intros Hs Hg He. destruct Hs as [g s s' Hp|o w fs r w' Ha E].
  - destruct (pstep_sound options g s s' Hp Hg) as [Hg' [_ _ Hb Hpl]]. split; [done|]. split; [|done].
    eapply escrow_same; [by eapply pstep_jobs|exact Hpl|done].
  - pose proof Hg as [Hok _]. destruct (escrow_work_sound o w r w' E Ha He (lk_res _ _ (po_links _ Hok))) as [Hc He'].
    split; [by eapply plain_good|]. split; [done|]. cbn [ps_world]. by rewrite (plain_book _ _ Hc).
Qed.

(** A job the engine has just funded: its budget is held for its agent by a
    reservation that was not there. *)
Record job_funded (id : string) (db : Db) (job : EscrowJobRow) (db' : Db) : Prop := mkJobFunded {
  jf_open : exists j, In j (db T_escrow_jobs) /\ ej_id j = id /\ ej_state j = Escrow_open /\
    ej_budget_usdc job = ej_budget_usdc j /\ ej_client_agent_id job = ej_client_agent_id j /\ ej_org_id job = ej_org_id j;
  jf_row : In job (db' T_escrow_jobs) /\ ej_id job = id /\ ej_state job = Escrow_funded /\ ej_fund_tx_hash job <> None;
  jf_held : exists r, db' T_payment_reservations = db T_payment_reservations ++ [r] /\
    ej_reservation_id job = Some (res_id r) /\ ~ In (res_id r) (map res_id (db T_payment_reservations)) /\
    res_status r = Reservation_reserved /\ res_amount_usdc r = ej_budget_usdc job /\
    res_agent_id r = ej_client_agent_id job /\ res_org_id r = ej_org_id job
}.

Lemma fund_funds id w job w' : fundEscrowJob id w = (Ok job, w') -> job_funded id (w_db w) job (w_db w').
Proof.
  intros (j & source & h & rid & now & Hj & Hid & Hs & Hn & EJ & EP & ->)%fund_ok. constructor.
  - by exists j.
  - rewrite EJ. split; [|done]. apply in_update_rows. exists j. unfold the_job. by rewrite eqs_refl.
  - rewrite EP. by eexists.
Qed.

(** C7: An escrow job holds exactly its budget.  Whatever payments, requests
    lost half way, operators and escrow jobs do, and in whatever order: to fund
    a job always leaves a new reservation of its agent that holds the amount of
    its budget; every job that was funded has one reservation, of its agent and
    of that amount, that is held until the job ends, settled when it is
    completed and released when it is rejected or expires; no reservation is
    without its job; and the books and budgets of the payments beside it are
    kept as if there was no escrow.  (A job that only the chain knows to be
    funded is brought to that state by the reconciliation, and has no
    reservation.)  The chain is trusted to keep final states final, not to
    reopen jobs and not to change the budget of a funded job. *)
Theorem escrow_job_holds_its_budget tr s s' :
  erun tr s s' -> pgood s -> escrow_ok (w_db (ps_world s)) ->
  escrow_ok (w_db (ps_world s')) /\ pgood s' /\
  rtc (book_step (fun o v => In (o, v) tr)) (book_of (w_db (ps_world s))) (book_of (w_db (ps_world s'))) /\
  forall id job w, fundEscrowJob id (ps_world s') = (Ok job, w) ->
    job_funded id (w_db (ps_world s')) job (w_db w) /\ escrow_ok (w_db w).
Proof.
  induction 1 as [s|g tr s1 s2 s3 Hs _ IH]; intros Hg He.
  { do 3 (split; [done|]). intros id job w E. split; [by apply fund_funds|]. destruct Hg as [Hok _].
    pose proof (fund_sound id (ps_world s) He (lk_res _ _ (po_links _ Hok))) as K. rewrite E in K. apply K. }
  destruct (estep_sound g s1 s2 Hs Hg He) as (Hg2 & He2 & Hb). destruct (IH Hg2 He2) as (He3 & Hg3 & Hb3 & Hfund).
  split; [done|]. split; [done|]. split; [|done]. etrans.
  - eapply book_step_mono, Hb. intros o v H. apply in_app_iff. by left.
  - eapply book_step_mono, Hb3. intros o v H. apply in_app_iff. by right.
Qed.
End Machine.

(** ** Witness *)

(** The chain gives job 7, and says later that it is completed. *)
#[export] Instance sample_escrow_reads : EscrowReads := {
  decode_job_created := fun _ => Some 7;
  read_receipt_logs := fun _ _ _ => Ok [mkEscrowReceiptLog "0x31C050d9D20504c4E11b2A894051d8181B14e0F5" [] "0x"]%string;
  decode_get_job := fun _ => Ok (3, 50000);
  read_job_call_data := fun _ _ _ _ => Ok "0x"%string
}.

Definition sample_job : CreateEscrowJobInput :=
  mkCreateEscrowJobInput "org_1" "agt_1" "0x00000000000000000000000000000000000000b2" None mode_test Chain_base "0.05"
    9000000 "usr_1" None.

Definition escrow_wallets : list AgentChainWalletRow :=
  [mkAgentChainWalletRow "acw_1" "org_1" "agt_1" mode_test Chain_base "w_1" "0x00000000000000000000000000000000000000a1"
     "active" None;
   mkAgentChainWalletRow "acw_2" "org_1" "agt_2" mode_test Chain_base "w_2" "0x00000000000000000000000000000000000000b2"
     "active" None].

Definition escrow_world0 : World := with_db (db_set T_agent_chain_wallets escrow_wallets sample_db) sample_world0.
Definition job_id : string := "escrowjob_1".
Definition escrow_world1 : World := run_m (escrow_work (Escrow_create sample_job)) escrow_world0.
Definition escrow_world2 : World := run_m (escrow_work (Escrow_fund job_id)) escrow_world1.
Definition escrow_world3 : World :=
  run_m (setAgentPaymentAccess sample_operator "org_1" "agt_1" (sample_access "0.025")) escrow_world2.
Definition escrow_world4 : World := run_m (pay "k1") escrow_world3.
Definition escrow_world5 : World :=
  run_m (escrow_work (Escrow_change (mkApplyInput job_id Escrow_submitted (Some "0xd1"%string)))) escrow_world4.
Definition escrow_world6 : World := run_m (escrow_work (Escrow_reconcile job_id)) escrow_world5.

Lemma erun_app options a b s1 s2 s3 : erun options a s1 s2 -> erun options b s2 s3 -> erun options (a ++ b) s1 s3.
Proof.
  induction 1 as [s|g tr x y z Hs _ IH]; intros H; [done|]. rewrite <-app_assoc. eapply erun_step; [exact Hs|by apply IH].
Qed.

Lemma prun_erun options tr s s' : prun options tr s s' -> erun options tr s s'.
Proof. induction 1 as [s|g tr a b c Hs _ IH]; [constructor|]. eapply erun_step; [by apply e_payment|done]. Qed.

Lemma sample_work options o w : escrow_allowed o w ->
  erun options [] (mkPState w []) (mkPState (run_m (escrow_work o) w) []).
Proof.
  intros Ha. apply (erun_step options [] [] _ (mkPState (run_m (escrow_work o) w) [])); [|constructor].
  eapply e_escrow; [exact Ha|apply surjective_pairing].
Qed.

Lemma sample_reconciled : chain_keeps_job job_id escrow_world5.
Proof.
  assert (forallb (fun j => bool_decide (ej_state j = Escrow_submitted) && (ej_budget_usdc j =? 50000))
    (w_db escrow_world5 T_escrow_jobs) = true) as Hall by (vm_compute; reflexivity).
  revert Hall. generalize escrow_world5 as w. intros w Hall j oid data state micros Hj _ _ _ Hd.
  rewrite forallb_forall in Hall. specialize (Hall j Hj). bdec. injection Hd as <- <-.
  constructor; repeat match goal with X : _ = _ |- _ => rewrite X end; done.
Qed.

Lemma escrow_run : erun sample_options sample_grant (mkPState escrow_world0 []) (mkPState escrow_world6 []).
Proof.
  change sample_grant with ([] ++ [] ++ sample_grant ++ [] ++ [] ++ ([] : list (Owner * Z))).
  apply (erun_app _ _ _ _ (mkPState escrow_world1 [])); [by apply sample_work|].
  apply (erun_app _ _ _ _ (mkPState escrow_world2 [])); [by apply sample_work|].
  apply (erun_app _ _ _ _ (mkPState escrow_world3 [])).
  { rewrite <-(app_nil_r sample_grant). eapply erun_step; [|constructor]. apply e_payment.
    assert (grants_of "org_1" "agt_1" (sample_access "0.025") = sample_grant) as <- by (vm_compute; reflexivity).
    eapply (p_access sample_options sample_operator "org_1" "agt_1" (sample_access "0.025")). apply surjective_pairing. }
  apply (erun_app _ _ _ _ (mkPState escrow_world4 [])).
  { apply prun_erun, sample_pay_run. exists sample_connection.
    split; [|done]. assert (w_db escrow_world3 T_connections = [sample_connection]) as ->
      by (vm_compute; reflexivity). by left. }
  apply (erun_app _ _ _ _ (mkPState escrow_world5 [])); [by apply sample_work|].
  apply sample_work, sample_reconciled.
Qed.

Lemma escrow_start_ok : pgood (mkPState escrow_world0 []).
Proof.
  constructor; [|done]. pose proof sample_start_ok as [H1 H2 H3 H4]. by constructor.
Qed.

Lemma escrow_start_jobs : escrow_ok (w_db escrow_world0).
Proof. split; [constructor|done..]. Qed.

Lemma escrow_job_holds_its_budget_witness :
  exists r, In r (w_db escrow_world6 T_payment_reservations) /\ res_status r = Reservation_settled /\
    res_amount_usdc r = 50000 /\ payments_ok (w_db escrow_world6).
Proof.
  assert (existsb (fun j => eqo (ej_reservation_id j) (Some "payres_5"%string) && (ej_budget_usdc j =? 50000)
    && bool_decide (ej_state j = Escrow_completed)) (w_db escrow_world6 T_escrow_jobs) = true) as Hj by (vm_compute; reflexivity).
  pose proof escrow_start_jobs as He.
  generalize Hj, He, escrow_run, escrow_start_ok. clear Hj He.
  generalize escrow_world6 as w. generalize escrow_world0 as w0.
  intros w0 w (j & Hj & Hb)%existsb_exists He Hrun Hg.
  destruct (escrow_job_holds_its_budget sample_options sample_grant _ _ Hrun Hg He) as ([_ Hh _ _] & [Hok _] & _).
  bdec. match goal with X : ej_reservation_id _ = _ |- _ => destruct (Hh j _ Hj X) as (r & Hr & _ & [_ _ _ _ Ha Hs]) end.
  exists r. split; [done|]. split; [by match goal with X : ej_state _ = _ |- _ => rewrite Hs, X end|].
  split; [congruence|done].
Defined.
