(* ===== verification/DelegationThms.v ===== *)
(** What a delegation promises: no payee draws more than its ceiling, nothing
    is drawn of a delegation that was revoked, and the treasury delegates only
    what its ceiling and its balance cover. *)

From stdpp Require Import relations.
From S2P Require Import Prelude Errors Usdc Json Identity Quotes Schema Host Handlers Policy Accounts Chain Escrow Delegations Trust.
From S2P Require Import BudgetOps Samples PaymentsThms.
Import Digits.
Open Scope Z_scope.

(** ** The invariant *)

Definition of_delegation (id : string) (x : DrawdownRow) : bool := dd_delegation_id x =s id.
Definition drawn_total (id : string) (X : list DrawdownRow) : Z := sum_where (of_delegation id) dd_amount_usdc X.

(** A live delegation has something left. *)
Definition status_fits (d : AgentDelegationRow) : Prop :=
  match dele_status d with
  | Delegation_active => dele_drawn_usdc d < dele_ceiling_usdc d
  | Delegation_exhausted => dele_drawn_usdc d = dele_ceiling_usdc d
  | Delegation_revoked => True
  | Delegation_pending | Delegation_expired => False
  end.

Record draws_ok (D : list AgentDelegationRow) (X : list DrawdownRow) : Prop := mkDrawsOk {
  dr_keyed : keyed dele_id D;
  dr_draws : keyed dd_id X;
  dr_drawn : forall d, In d D -> dele_drawn_usdc d = drawn_total (dele_id d) X;
  dr_within : forall d, In d D -> 0 <= dele_drawn_usdc d <= dele_ceiling_usdc d;
  dr_status : forall d, In d D -> status_fits d;
  dr_confirmed : forall x, In x X -> 0 < dd_amount_usdc x /\ dd_status x = Drawdown_confirmed /\ is_some (dd_tx_hash x) = true;
  dr_owner : forall x, In x X -> In (dd_delegation_id x) (map dele_id D)
}.

Definition delegations_ok (db : Db) : Prop := draws_ok (db T_agent_delegations) (db T_agent_delegation_drawdowns).

(** What becomes of a delegation. *)
Record grows (d d' : AgentDelegationRow) : Prop := mkGrows {
  gr_id : dele_id d' = dele_id d;
  gr_payer : dele_payer_address d' = dele_payer_address d;
  gr_payee : dele_payee_address d' = dele_payee_address d;
  gr_ceiling : dele_ceiling_usdc d' = dele_ceiling_usdc d;
  gr_expires : dele_expires_at d' = dele_expires_at d;
  gr_drawn : dele_drawn_usdc d <= dele_drawn_usdc d';
  gr_closed : dele_status d <> Delegation_active ->
    dele_status d' <> Delegation_active /\ dele_drawn_usdc d' = dele_drawn_usdc d
}.

Lemma grows_refl d : grows d d.
Proof. by constructor. Qed.
Lemma grows_trans a b c : grows a b -> grows b c -> grows a c.
Proof.
  intros [] []. constructor; try congruence; [lia|]. intros H. destruct (gr_closed0 H) as [H1 H2].
  destruct (gr_closed1 H1). split; [done|congruence].
Qed.

Definition draws_on (db db' : Db) : Prop := forall d, In d (db T_agent_delegations) ->
  exists d', In d' (db' T_agent_delegations) /\ grows d d'.

Lemma draws_refl db : draws_on db db.
Proof. intros d Hd. exists d. split; [done|apply grows_refl]. Qed.

Lemma draws_trans a b c : draws_on a b -> draws_on b c -> draws_on a c.
Proof.
  intros G1 G2 d Hd. destruct (G1 d Hd) as (d1 & H1 & E1). destruct (G2 d1 H1) as (d2 & H2 & E2).
  exists d2. split; [done|]. by eapply grows_trans.
Qed.

(** The handlers that keep what delegations promise. *)
Definition draws {A} (m : M A) : Prop := sound delegations_ok draws_on m.

Lemma draws_keep {A} (m : M A) :
  keeps T_agent_delegations m -> keeps T_agent_delegation_drawdowns m -> draws m.
Proof.
  intros HD HX w Hok. specialize (HD w). specialize (HX w). unfold delegations_ok, draws_on. rewrite HD, HX.
  split; [done|apply draws_refl].
Qed.

(** A delegation that changes and keeps what it is. *)
Lemma draws_update (db db' : Db) d f :
  keyed dele_id (db T_agent_delegations) -> In d (db T_agent_delegations) -> grows d (f d) ->
  db' T_agent_delegations = update_rows (the_delegation (dele_id d)) f (db T_agent_delegations) -> draws_on db db'.
Proof.
  intros Hk Hd Hg HD x Hx. rewrite HD.
  exists (if the_delegation (dele_id d) x then f x else x). split; [apply in_update_rows; by exists x|].
  destruct (the_delegation _ x) eqn:E; [|apply grows_refl]. apply eqs_spec in E.
  replace x with d by (by apply (keyed_unique dele_id _ _ _ Hk)). done.
Qed.

Lemma the_delegation_where D X d : draws_ok D X -> In d D -> where_ (the_delegation (dele_id d)) D = [d].
Proof.
  intros Hok Hd. apply (keyed_where dele_id); [apply Hok|done|apply eqs_refl|]. by intros y ?%eqs_spec.
Qed.

Lemma map_update_id D p f :
  (forall x : AgentDelegationRow, dele_id (f x) = dele_id x) -> map dele_id (update_rows p f D) = map dele_id D.
Proof.
  intros Hf. rewrite update_rows_map, map_map. apply map_ext. intros x. by destruct (p x).
Qed.

(** A delegation is opened. *)
Lemma draws_opened D X d :
  draws_ok D X -> ~ In (dele_id d) (map dele_id D) -> dele_drawn_usdc d = 0 -> 0 < dele_ceiling_usdc d ->
  dele_status d = Delegation_active -> draws_ok (D ++ [d]) X.
Proof.
  intros [K1 K2 Hd Hw Hs Hc Ho] Hn H0 Hp Ha. constructor; try done.
  - by apply keyed_insert.
  - intros x [Hx|[<-|[]]]%in_app_iff; [by apply Hd|]. rewrite H0. unfold drawn_total.
    rewrite (sum_where_within _ (of_delegation (dele_id d))), where_none; [done| |done].
    intros x Hx. unfold of_delegation. apply eqs_neq. intros E. apply Hn. rewrite <-E. by apply Ho.
  - intros x [Hx|[<-|[]]]%in_app_iff; [by apply Hw|]. lia.
  - intros x [Hx|[<-|[]]]%in_app_iff; [by apply Hs|]. unfold status_fits. rewrite Ha. lia.
  - intros x Hx. rewrite map_app, in_app_iff. left. by apply Ho.
Qed.

(** A delegation is revoked. *)
Lemma draws_revoked D X d now :
  draws_ok D X -> In d D -> draws_ok (update_rows (the_delegation (dele_id d)) (revoked_row now) D) X.
Proof.
  intros Hok Hd0. pose proof Hok as [K1 K2 Hd Hw Hs Hc Ho].
  assert (forall x, In x (update_rows (the_delegation (dele_id d)) (revoked_row now) D) ->
    exists x0, In x0 D /\ (x = revoked_row now x0 \/ x = x0)) as Hin.
  { intros x (x0 & Hx0 & ->)%in_update_rows. exists x0. split; [done|]. destruct (the_delegation _ _); auto. }
  constructor; try done.
  - by apply keyed_update.
  - intros x (x0 & Hx0 & [->| ->])%Hin; exact (Hd x0 Hx0).
  - intros x (x0 & Hx0 & [->| ->])%Hin; exact (Hw x0 Hx0).
  - intros x (x0 & Hx0 & [->| ->])%Hin; [done|by apply Hs].
  - intros x Hx. rewrite map_update_id by done. by apply Ho.
Qed.

(** A delegation is drawn. *)
Lemma draws_drawn D X d x status now :
  draws_ok D X -> In d D -> ~ In (dd_id x) (map dd_id X) -> dd_delegation_id x = dele_id d -> 0 < dd_amount_usdc x ->
  dd_status x = Drawdown_confirmed -> is_some (dd_tx_hash x) = true ->
  dele_drawn_usdc d + dd_amount_usdc x <= dele_ceiling_usdc d ->
  status = (if dele_ceiling_usdc d <=? dele_drawn_usdc d + dd_amount_usdc x then Delegation_exhausted else Delegation_active) ->
  draws_ok (update_rows (the_delegation (dele_id d)) (drawn_row (dele_drawn_usdc d + dd_amount_usdc x) status now) D)
    (X ++ [x]).
Proof.
  intros Hok Hd0 Hn Hx Hp Hcf Hh Hle Hst. pose proof Hok as [K1 K2 Hd Hw Hs Hc Ho].
  assert (Hin : forall y, In y (update_rows (the_delegation (dele_id d))
    (drawn_row (dele_drawn_usdc d + dd_amount_usdc x) status now) D) ->
    y = drawn_row (dele_drawn_usdc d + dd_amount_usdc x) status now d \/ In y D /\ dele_id y <> dele_id d).
  { intros y Hy. apply (in_update_one dele_id D _ _ d) in Hy; [done|done|by eapply the_delegation_where]. }
  assert (Htot : forall id, drawn_total id (X ++ [x]) = drawn_total id X + if dele_id d =s id then dd_amount_usdc x else 0).
  { intros id. unfold drawn_total. rewrite sum_where_app. cbn. unfold of_delegation at 2. rewrite Hx. lia. }
  constructor.
  - by apply keyed_update.
  - by apply keyed_insert.
  - intros y [->|[Hy Hne]]%Hin; rewrite Htot; cbn.
    + rewrite eqs_refl, <-Hd by done. done.
    + rewrite (eqs_neq (dele_id d)), <-Hd by (done || congruence). lia.
  - intros y [->|[Hy Hne]]%Hin; [|by apply Hw]. cbn. specialize (Hw d Hd0). lia.
  - intros y [->|[Hy Hne]]%Hin; [|by apply Hs]. unfold status_fits. cbn. rewrite Hst. destruct (_ <=? _) eqn:E; lia.
  - intros y [Hy|[<-|[]]]%in_app_iff; [by apply Hc|done].
  - intros y Hy. rewrite map_update_id by done. apply in_app_iff in Hy as [Hy|[<-|[]]]; [by apply Ho|].
    rewrite Hx. by apply in_map.
Qed.

(** ** The handlers *)

Section Handlers.
Context {CB : ChainBalances} {TP : TreasuryProvider} {PC : Permit2Chain}.
Notation any := (fun _ : ExternalCall => True).

Lemma read_nonce_made C W url o t s n k e : made_of C W (read_nonce url o t s n k e).
Proof.
  revert k e. induction n as [|n IH]; intros k e; cbn [read_nonce]; [apply made_throw|].
  apply made_catch; [by eapply made_read|intros ?; apply IH].
Qed.
Lemma rpc_made C W p n k u m l e x : made_of C W (rpc_attempts p n k u m l e x).
Proof.
  revert k x. induction n as [|n IH]; intros k x; cbn [rpc_attempts]; [apply made_throw|].
  apply made_catch; [by eapply made_read|intros ?; apply IH].
Qed.
#[local] Hint Resolve read_nonce_made rpc_made : made.
Lemma gas_wei_made C W n a chain : made_of C W (nativeGasBalanceWei n a chain).
Proof. solve_made. Qed.
#[local] Hint Resolve gas_wei_made : made.
Lemma nonce_made C W o t s chain : made_of C W (readPermit2Nonce o t s chain).
Proof. unfold readPermit2Nonce. solve_made. Qed.
Lemma poll_made C W n k a chain : made_of C W (poll_gas n k a chain).
Proof. revert k. induction n as [|n IH]; intros k; cbn [poll_gas]; [apply made_ret|]. solve_made. Qed.
Lemma native_made C W a chain mode : made_of C W (nativeBalanceMicros a chain mode).
Proof. by eapply made_read. Qed.
#[local] Hint Resolve nonce_made poll_made native_made : made.
Lemma headroom_made C W scope : made_of C W (outstandingHeadroomMicros scope).
Proof. solve_made. Qed.
Lemma ceilings_made C W input kind a t z : made_of C W (check_ceilings input kind a t z).
Proof. solve_made. Qed.
Lemma payer_made C W input : made_of C W (resolve_payer input).
Proof. solve_made. Qed.
Lemma submitter_made C W o m c a b p : made_of C W (resolvePermitSubmitter o m c a b p).
Proof. solve_made. Qed.
#[local] Hint Resolve headroom_made ceilings_made payer_made submitter_made : made.
Lemma gas_made W o a c m : made_of any W (ensureSubmitterGasFloor o a c m).
Proof. solve_made. Qed.
#[local] Hint Resolve gas_made : made.
Lemma signature_made W i a t z e n : made_of any W (platform_signature i a t z e n).
Proof. solve_made. Qed.
Lemma permit_made W i s a t g z e n : made_of any W (submit_permit i s a t g z e n).
Proof. solve_made. Qed.
Lemma transfer_from_made W d z : made_of any W (submit_transfer d z).
Proof. solve_made. Qed.
#[local] Hint Resolve signature_made permit_made transfer_from_made : made.

Lemma record_ok input w d w' : recordSignedDelegation input w = (Ok d, w') ->
  ~ In (dele_id d) (map dele_id (w_db w T_agent_delegations)) /\ dele_drawn_usdc d = 0 /\ 0 < dele_ceiling_usdc d /\
  dele_status d = Delegation_active /\
  w_db w' = db_set T_agent_delegations (w_db w T_agent_delegations ++ [d]) (w_db w).
Proof.
  intros E. unfold recordSignedDelegation in E. runs E.
  match goal with X : resolve_payer _ _ = (Ok ?p, _) |- _ => destruct p as [payer kind] end. unfold sign_and_record in E. runs E. stills.
  match goal with X : w_db _ = db_set _ (w_db ?v _ ++ [?r]) _, Y : existsb _ _ = false, Z : check _ _ = true |- _ =>
    assert (w_db v = w_db w) as Hv by congruence; rewrite Hv in X, Y; rename X into Hw, Y into Hn, Z into Hc;
    set (d := r) in * end.
  split; [|split; [done|split; [|by split]]].
  - apply (no_clash_key T_agent_delegations dele_id d _) in Hn; [done|]. intros s Hs. cbn [clash].
    unfold delegation_clash. by rewrite Hs, eqs_refl.
  - cbn [check] in Hc. unfold delegation_check in Hc. bdec. lia.
Qed.

Lemma record_draws input : draws (recordSignedDelegation input).
Proof.
  intros w Hok. destruct (recordSignedDelegation input w) as [[d|e] w'] eqn:E; cbn [snd].
  - apply record_ok in E as (Hn & H0 & Hp & Ha & E). unfold delegations_ok, draws_on. rewrite E. tables.
    split; [by apply draws_opened|]. intros x Hx. exists x. split; [apply in_app_iff; by left|apply grows_refl].
  - rewrite (transaction_err _ _ _ _ E). split; [done|apply draws_refl].
Qed.

Lemma draw_ok id amount w a w' : delegations_ok (w_db w) -> drawDown id amount w = (Ok a, w') -> exists d x status now,
  In d (w_db w T_agent_delegations) /\ ~ In (dd_id x) (map dd_id (w_db w T_agent_delegation_drawdowns)) /\
  dd_delegation_id x = dele_id d /\ 0 < dd_amount_usdc x /\ dd_status x = Drawdown_confirmed /\
  is_some (dd_tx_hash x) = true /\ dele_status d = Delegation_active /\
  dele_drawn_usdc d + dd_amount_usdc x <= dele_ceiling_usdc d /\
  status = (if dele_ceiling_usdc d <=? dele_drawn_usdc d + dd_amount_usdc x then Delegation_exhausted else Delegation_active) /\
  w_db w' T_agent_delegations = update_rows (the_delegation (dele_id d))
    (drawn_row (dele_drawn_usdc d + dd_amount_usdc x) status now) (w_db w T_agent_delegations) /\
  w_db w' T_agent_delegation_drawdowns = w_db w T_agent_delegation_drawdowns ++ [x].
Proof.
  intros Hok E. unfold drawDown in E. runs E. stills.
  match goal with X : head (where_ _ _) = Some ?x |- _ => apply where_head in X as [Hd Hid]; rename x into d end.
  unfold the_delegation in Hid. apply eqs_spec in Hid. subst id. pose proof (dr_within _ _ Hok d Hd) as Hr.
  repeat match goal with X : parseUsdcMicros (numeric_text _) = Ok _ |- _ =>
    rewrite parse_numeric_text in X by lia; injection X as <- end. bdec.
  match goal with Y : existsb (clash _ ?r) _ = false, Z : check _ _ = true |- _ =>
    set (x := r) in *; rename Y into Hn, Z into Hc end.
  match goal with X : w_db ?w3 = w_db ?w2, Y : w_db _ = db_set _ (update_rows _ ?f _) (w_db ?w3) |- _ => pose (g := f) end.
  assert (w_db w1 = w_db w) as Hv by congruence. rewrite Hv in Hn.
  apply (no_clash_key T_agent_delegation_drawdowns dd_id x (w_db w T_agent_delegation_drawdowns)) in Hn.
  2: { intros s Hs. cbn [clash]. by rewrite Hs, eqs_refl. }
  assert (0 < dd_amount_usdc x) as Hp by (cbn [check] in Hc; bdec; lia).
  eexists d, (g x), _, _. split; [done|]. split; [exact Hn|]. do 3 (split; [done|]).
  do 2 (split; [done|]). split; [cbn; lia|]. split; [reflexivity|]. split; [by tables|].
  tables. unfold g. rewrite update_rows_last; [done| |apply eqs_refl].
  intros y Hy. apply eqs_neq. intros Eq. apply Hn. apply in_map_iff. by exists y.
Qed.
Lemma draw_draws id amount : draws (drawDown id amount).
Proof.
  intros w Hok. destruct (drawDown id amount w) as [[a|e] w'] eqn:E; cbn [snd].
  - apply (draw_ok _ _ _ _ _ Hok) in E as (d & x & st & now & Hd & Hn & Hx & Hp & Hcf & Hh & Ha & Hle & Hst & HD & HX).
    split; [unfold delegations_ok; rewrite HD, HX; by apply draws_drawn|].
    eapply draws_update; [apply Hok|exact Hd| |exact HD]. constructor; cbn; try done. lia.
  - rewrite (transaction_err _ _ _ _ E). split; [done|apply draws_refl].
Qed.

Lemma revoke_draws id : draws (revokeDelegation id).
Proof.
  apply sound_commit; [apply draws_refl|]. intros w b w' Hok E. runs E.
  match goal with X : head (where_ _ _) = Some ?x |- _ => apply where_head in X as [Hd Hid]; rename x into d end.
  unfold the_delegation in Hid. apply eqs_spec in Hid. subst id.
  cbv zeta in E. match type of E with (if ?b then _ else _) _ = _ => destruct b end; runs E; [by split; [|apply draws_refl]|].
  stills.
  match goal with X : w_db ?v = db_set _ (update_rows _ (revoked_row ?n) _) _ |- _ =>
    assert (w_db v T_agent_delegations = update_rows (the_delegation (dele_id d)) (revoked_row n) (w_db w T_agent_delegations)) as HD by
      (rewrite X; tables; done);
    assert (w_db v T_agent_delegation_drawdowns = w_db w T_agent_delegation_drawdowns) as HX by (rewrite X; tables; done) end.
  split; [unfold delegations_ok; rewrite HD, HX; by apply draws_revoked|].
  eapply draws_update; [apply Hok|exact Hd| |exact HD]. by constructor.
Qed.

(** The allowlist is not what delegations are about. *)
Lemma own_draws {A} (m : M A) : draws m -> draws (ownTransaction T_payment_destination_allowlist m).
Proof.
  intros Hm w Hok. specialize (Hm w Hok). unfold ownTransaction. destruct (m w) as [[a|e] w']; cbn in *; [done|].
  unfold delegations_ok, draws_on in *. tables. done.
Qed.

Lemma trust_evidence_made C W o a m c : made_of C W (queryTrustEvidence o a m c).
Proof. solve_made. Qed.

Lemma trust_draws input : draws (trustExternalAgent input).
Proof.
  apply own_draws. assert (forall A (m : M A), made_of any (fun t => match t with T_payment_destination_allowlist => true | _ => false end) m ->
    draws m) as Hm by (intros A m Hm; apply draws_keep; by eapply made_keeps).
  do 3 (apply sound_bind; [apply draws_trans|apply Hm; solve_made; apply trust_evidence_made|intros ?]).
  do 3 (apply sound_bind; [apply draws_trans|apply Hm; solve_made|intros ?]).
  apply sound_bind; [apply draws_trans|apply record_draws|intros ?]. apply Hm. solve_made.
Qed.

Lemma revokeTrust_draws o a m c : draws (revokeTrust o a m c).
Proof.
  apply own_draws. assert (forall A (m : M A), made_of any (fun t => match t with T_payment_destination_allowlist => true | _ => false end) m ->
    draws m) as Hm by (intros A m0 Hm; apply draws_keep; by eapply made_keeps).
  do 4 (apply sound_bind; [apply draws_trans|apply Hm; solve_made|intros ?]).
  apply sound_for_each; [apply draws_refl|apply draws_trans|]. intros [] d.
  apply sound_bind; [apply draws_trans|apply revoke_draws|intros ?]. apply Hm. solve_made.
Qed.

(** ** Delegations among the work of the platform *)

Inductive DelegationWork : Type :=
| Work_record (input : RecordSignedDelegationInput)
| Work_draw (delegationId amountUsdc : string)
| Work_revoke (delegationId : string)
| Work_trust (input : TrustExternalAgentInput)
| Work_distrust (orgId address : string) (mode : PaymentMode) (chain : PaymentChain).

Definition delegation_work (o : DelegationWork) : M unit :=
  match o with
  | Work_record input => recordSignedDelegation input ;;* ret tt
  | Work_draw id amount => drawDown id amount ;;* ret tt
  | Work_revoke id => revokeDelegation id ;;* ret tt
  | Work_trust input => trustExternalAgent input ;;* ret tt
  | Work_distrust o a m c => revokeTrust o a m c
  end.

Lemma work_draws o : draws (delegation_work o).
Proof.
  assert (forall A (m : M A), draws m -> draws (m ;;* ret tt)) as Hb.
  { intros A m Hm. apply sound_bind; [apply draws_trans|done|intros ?]. by apply sound_same; [apply draws_refl|]. }
  destruct o; cbn [delegation_work]; [apply Hb, record_draws|apply Hb, draw_draws|apply Hb, revoke_draws
    |apply Hb, trust_draws|apply revokeTrust_draws].
Qed.

(** A step: work on delegations, or anything that leaves their tables alone;
    time may pass. *)
Inductive dstep : World -> World -> Prop :=
| d_work o w r w' : delegation_work o w = (r, w') -> dstep w w'
| d_other w w' :
    w_db w' T_agent_delegations = w_db w T_agent_delegations ->
    w_db w' T_agent_delegation_drawdowns = w_db w T_agent_delegation_drawdowns -> dstep w w'.

(** C8: Nobody draws more than they were delegated.  Whatever delegations are
    signed, drawn, revoked and trusted, in whatever order, and however each
    handler ends: what was drawn of a delegation is the sum of its confirmed
    drawdowns and within its ceiling, it is exhausted exactly when nothing is
    left, its ceiling, parties and expiry never change, and once it is revoked
    or exhausted it is never active again and nothing more is drawn of it. *)
Theorem draws_stay_within_the_ceiling w w' :
  rtc dstep w w' -> delegations_ok (w_db w) ->
  delegations_ok (w_db w') /\
  forall d, In d (w_db w T_agent_delegations) -> exists d', In d' (w_db w' T_agent_delegations) /\ grows d d'.
Proof.
  induction 1 as [w|w1 w2 w3 Hs _ IH]; intros Hok; [split; [done|apply draws_refl]|].
  assert (delegations_ok (w_db w2) /\ draws_on (w_db w1) (w_db w2)) as [H2 G2].
  { destruct Hs as [o w r w2 E|w w2 HD HX]; [by apply (sound_run _ _ _ _ _ _ (work_draws o) E)|].
    unfold delegations_ok, draws_on. rewrite HD, HX. split; [done|apply draws_refl]. }
  destruct (IH H2) as [H3 G3]. split; [done|]. by eapply draws_trans.
Qed.

(** ** The treasury *)

(** What the payer has outstanding. *)
Definition outstanding_total (scope : PayerScope) (w : World) : Z :=
  fold_right Z.add 0 (map headroom (where_ (outstanding scope (w_now w)) (w_db w T_agent_delegations))).

Definition org_ceiling (scope : PayerScope) (w : World) : option OrgCeilingRow :=
  head (where_ (fun r => (odc_org_id r =s sc_orgId scope) && bool_decide (odc_mode r = sc_mode scope)
    && bool_decide (odc_chain r = sc_chain scope)) (w_db w T_org_delegation_ceilings)).

(** The ceiling of the organisation and the balance cover a total. *)
Record covered (scope : PayerScope) (w : World) (total : Z) : Prop := mkCovered {
  cv_ceiling : forall c, org_ceiling scope w = Some c -> total <= odc_ceiling_usdc c;
  cv_balance : exists b, chain_balance w (sc_payerAddress scope) (sc_chain scope) (sc_mode scope) = Ok b /\ total <= b
}.

(** A contract call to [approve] that is not for this total. *)
Definition wrong_approval (payer token : string) (total : Z) (c : ExternalCall) : bool :=
  (call_service c =s "executePermit2Transaction") && eqo (nth_error (call_args c) 1) (Some APPROVE_PERMIT2_SIGNATURE)
  && negb (bool_decide (call_args c = [payer; APPROVE_PERMIT2_SIGNATURE; token; PERMIT2_ADDRESS; to_string total])).
Definition right_calls (payer token : string) (total : Z) (c : ExternalCall) : Prop :=
  wrong_approval payer token total c = false.

Lemma outstanding_nonneg scope w : checked (w_db w) -> 0 <= outstanding_total scope w.
Proof.
  intros Hc. unfold outstanding_total. assert (forall d, In d (where_ (outstanding scope (w_now w)) (w_db w T_agent_delegations)) ->
    0 <= headroom d) as Hd.
  { intros d [Hd _]%where_in. specialize (Hc T_agent_delegations d Hd). cbn [check] in Hc. unfold delegation_check in Hc.
    unfold headroom. bdec. lia. }
  induction (where_ _ _) as [|d l IH]; cbn; [lia|]. specialize (Hd d) as Hd0.
  assert (0 <= headroom d) by (apply Hd; by left). assert (0 <= fold_right Z.add 0 (map headroom l)) by (apply IH; intros; apply Hd; by right).
  lia.
Qed.

Lemma headroom_run scope w : checked (w_db w) ->
  outstandingHeadroomMicros scope w = (Ok (outstanding_total scope w), w).
Proof.
  intros Hc. unfold outstandingHeadroomMicros. rewrite (bind_run get_now _ w (w_now w) w eq_refl).
  rewrite (bind_run _ _ _ _ _ (select_run _ _ _ _ eq_refl)). fold (outstanding_total scope w).
  rewrite parse_numeric_text by (by apply outstanding_nonneg). done.
Qed.

(** The check passes exactly within the bounds, and does nothing else. *)
Lemma ceilings_run scope z balance w : checked (w_db w) ->
  (forall w, balance w = (chain_balance w (sc_payerAddress scope) (sc_chain scope) (sc_mode scope), w)) ->
  exists r, assertDelegationWithinCeilings scope z balance w = (r, w) /\
    (r = Ok tt -> covered scope w (outstanding_total scope w + z)).
Proof.
  intros Hc Hb. unfold assertDelegationWithinCeilings. rewrite (bind_run _ _ _ _ _ (headroom_run scope w Hc)). cbv zeta.
  unfold orgCeilingMicros. rewrite bind_assoc.
  rewrite (bind_run _ _ _ _ _ (select_one_run T_org_delegation_ceilings _ w _ eq_refl)).
  match goal with |- context [head ?l] => change (head l) with (org_ceiling scope w) end.
  assert (forall o : option Z, (forall c, org_ceiling scope w = Some c -> o = Some (odc_ceiling_usdc c)) ->
    exists r, (throw_if match o with Some c => c <? outstanding_total scope w + z | None => false end
       (conflict "org_delegation_ceiling_exceeded") ;;*
     let* balanceMicros := balance in
     throw_if (balanceMicros <? outstanding_total scope w + z) (conflict "treasury_insufficient_for_ceiling")) w = (r, w) /\
    (r = Ok tt -> covered scope w (outstanding_total scope w + z))) as Hrest.
  { intros o Ho. destruct (match o with Some c => c <? outstanding_total scope w + z | None => false end) eqn:Ec.
    { eexists. by split. }
    rewrite (bind_run _ _ _ _ _ (throw_if_run _ _)). unfold bind. rewrite Hb.
    destruct (chain_balance w _ _ _) as [b|e] eqn:Eb; [|eexists; by split].
    destruct (b <? _) eqn:El; (eexists; split; [done|]); intros Hr; [done|]. constructor.
    - intros c Hcc. rewrite (Ho c Hcc) in Ec. lia.
    - exists b. split; [done|lia]. }
  destruct (org_ceiling scope w) as [c|] eqn:Eo.
  - rewrite parse_numeric_text.
    2: { apply where_head in Eo as [Hin _]. specialize (Hc T_org_delegation_ceilings c Hin). cbn [check] in Hc. bdec. lia. }
    apply (Hrest (Some (odc_ceiling_usdc c))). by intros c' [= ->].
  - by apply (Hrest None).
Qed.

(** ** What is sent *)

Section Sent.
Context (payer token : string) (total : Z).
Notation right := (right_calls payer token total).

Definition sends {A} (m : M A) (w : World) : Prop :=
  exists l, w_calls (snd (m w)) = w_calls w ++ l /\ Forall right l.

Lemma sends_made {A} (m : M A) W w : made_of right W m -> sends m w.
Proof. intros Hm. apply (made_after _ _ m Hm w). Qed.

Lemma sends_bind {A B} (m : M A) (k : A -> M B) w :
  sends m w -> (forall a w1, m w = (Ok a, w1) -> sends (k a) w1) -> sends (bind m k) w.
Proof.
  intros (l & E & F) Hk. unfold sends, bind. destruct (m w) as [[a|e] w1] eqn:Em; [|by exists l].
  destruct (Hk a w1 eq_refl) as (l' & E' & F'). exists (l ++ l'). cbn in E. rewrite E', E, app_assoc.
  split; [done|]. by apply Forall_app.
Qed.

Lemma transfer_right i : right (transfer_call i).
Proof. reflexivity. Qed.
Lemma gas_right x : right (mkExternalCall "transferNativeGas" x).
Proof. reflexivity. Qed.
Lemma sign_right x : right (mkExternalCall "signPermit2Delegation" x).
Proof. reflexivity. Qed.
#[local] Hint Resolve transfer_right gas_right sign_right : made.

Lemma gas_floor_right W o a c m : made_of right W (ensureSubmitterGasFloor o a c m).
Proof. solve_made. Qed.

Lemma permit_right W i s g z e n a t : made_of right W (submit_permit i s a t g z e n).
Proof.
  unfold submit_permit. apply made_bind; [solve_made|intros x]. apply permit2_made. reflexivity.
Qed.

Lemma insert_right t r w : sends (insert t r) w.
Proof. apply (sends_made _ (fun _ => true)). by apply made_insert. Qed.
End Sent.

Definition approval_call (payer token : string) (total : Z) : ExternalCall :=
  mkExternalCall "executePermit2Transaction"
    [payer; APPROVE_PERMIT2_SIGNATURE; token; PERMIT2_ADDRESS; to_string total].

Lemma approval_right payer token total : right_calls payer token total (approval_call payer token total).
Proof. unfold right_calls, wrong_approval. cbn [call_args]. rewrite bool_decide_eq_true_2 by done. by rewrite andb_false_r. Qed.

(** The platform approves what is outstanding and the new ceiling. *)
Lemma signature_sends input payer token z e n w :
  checked (w_db w) ->
  let total := outstanding_total (payer_scope input payer token) w + z in
  sends payer token total (platform_signature input payer token z e n) w /\
  (forall s w', platform_signature input payer token z e n w = (Ok s, w') -> In (approval_call payer token total) (w_calls w')).
Proof.
  intros Hc total. unfold platform_signature, buildPermitSingle.
  split.
  - apply sends_bind; [apply (sends_made _ _ _ _ (fun _ => true)), sign_made, sign_right|]. intros a w1 E.
    injection E as _ <-. unfold sends. rewrite (bind_run _ _ _ _ _ (headroom_run _ (add_call _ w) Hc)). cbv zeta.
    fold total. change (outstanding_total _ (add_call _ w) + z) with total.
    match goal with |- exists l, w_calls (snd (?m ?v)) = _ /\ _ => change (sends payer token total m v) end.
    apply (sends_made _ _ _ _ (fun _ => true)). apply made_bind; [apply gas_floor_right|intros _].
    apply made_bind; [solve_made|intros id]. apply made_bind; [|intros ?; apply made_ret].
    apply permit2_made, approval_right.
  - intros s w' E. runs E. match goal with X : signPermit2Delegation _ _ = _ |- _ => injection X as _ <- end.
    match goal with X : outstandingHeadroomMicros _ _ = _ |- _ => rewrite headroom_run in X by done; injection X as <- <- end.
    match goal with X : executePermit2Transaction _ _ = _ |- _ => injection X as _ <- end.
    cbn [w_calls add_call]. apply in_app_iff. right. by left.
Qed.

Lemma record_sends input kind payer token z w :
  checked (w_db w) -> rs_userSigned input = None ->
  let total := outstanding_total (payer_scope input payer token) w + z in
  sends payer token total (sign_and_record input kind payer token z) w /\
  (forall d w', sign_and_record input kind payer token z w = (Ok d, w') ->
     In (approval_call payer token total) (w_calls w') /\
     exists id signature nonce, d = delegation_row input id payer token signature kind z nonce (w_now w) /\
       w_db w' T_agent_delegations = w_db w T_agent_delegations ++ [d] /\ w_now w' = w_now w).
Proof.
  intros Hc Hu total. unfold sign_and_record. rewrite Hu. split.
  - apply sends_bind; [apply (sends_made _ _ _ _ (fun _ => false)), nonce_made|]. intros nonce w1 E1.
    assert (w_db w1 = w_db w /\ w_now w1 = w_now w) as [Hd Hn].
    { split; [by eapply still_run; [apply nonce_made|]|]. by eapply (now_run (fun _ => false)); [apply nonce_made|]. }
    assert (outstanding_total (payer_scope input payer token) w1 + z = total) as Ho.
    { unfold total, outstanding_total. by rewrite Hd, Hn. }
    assert (checked (w_db w1)) as Hc1 by (by rewrite Hd).
    apply sends_bind; [rewrite <-Ho; by apply signature_sends|]. intros s w2 _.
    apply (sends_made _ _ _ _ (fun _ => true)). apply made_bind; [apply submitter_made|intros submitter].
    apply made_bind; [apply gas_floor_right|intros _]. apply made_bind; [apply permit_right|intros _]. solve_made.
  - intros d w' E. apply bind_ok in E as (nonce & w1 & E1 & E). apply bind_ok in E as (s & w2 & E2 & E).
    assert (exists l, w_calls w' = w_calls w2 ++ l) as (l & Hl).
    { match type of E with ?m w2 = _ => pose proof (af_calls _ _ _ (made_after any (fun _ => true) m ltac:(solve_made) w2)) as (l & Hl & _) end.
      exists l. by rewrite E in Hl. }
    pose proof (calm_run _ _ _ _ (nonce_made _ _ _ _ _ _) E1) as [Hd Hn].
    split.
    + rewrite Hl, in_app_iff. left. assert (checked (w_db w1)) as Hc1 by (by rewrite Hd).
      assert (outstanding_total (payer_scope input payer token) w1 + z = total) as <-.
      { unfold total, outstanding_total. by rewrite Hd, Hn. }
      by eapply signature_sends.
    + runs E. calms. match goal with X : w_db _ = db_set _ (w_db ?v _ ++ _) _ |- _ =>
        assert (w_db v = w_db w) as Hv by congruence; assert (w_now v = w_now w) as Hvn by congruence; rewrite Hv, Hvn in X;
        rewrite Hvn end.
      eexists _, _, _. split; [done|]. split; [by tables|congruence].
Qed.

(** C9: The treasury never delegates more than it covers.  When the
    organisation's treasury is to pay, nothing is signed, approved, permitted
    or transferred unless all that its live delegations leave to draw, with the
    new ceiling, is within the organisation's ceiling (if it set one) and
    within the balance read from the chain; the only approval of Permit2 that
    is sent is for exactly this total, which ERC-20's [approve] sets rather
    than adds; and when the delegation is recorded, the approval was sent, the
    row has the ceiling that was asked for, and the total is what the treasury
    now has outstanding. *)
Theorem treasury_delegations_are_covered input w r w' wallet token z :
  checked (w_db w) -> rs_userSigned input = None -> rs_payerTreasury input = true ->
  head (where_ (treasury_wallet (rs_orgId input) (rs_mode input) (rs_chain input)) (w_db w T_circle_chain_wallets)) = Some wallet ->
  token_of (rs_tokenAddress input) (rs_mode input) (rs_chain input) = Ok token ->
  parseUsdcMicros (rs_ceilingUsdc input) = Ok z ->
  recordSignedDelegation input w = (r, w') ->
  let scope := payer_scope input (ccw_address wallet) token in
  let total := outstanding_total scope w + z in
  (exists l, w_calls w' = w_calls w ++ l /\ Forall (right_calls (ccw_address wallet) token total) l /\
     (l <> [] -> covered scope w total)) /\
  (forall d, r = Ok d -> covered scope w total /\ dele_ceiling_usdc d = z /\
     In (approval_call (ccw_address wallet) token total) (w_calls w') /\
     (w_now w < rs_expiresAt input -> outstanding_total scope w' = total)).
Proof.
  intros Hc Hu Ht Hw Htok Hz E scope total.
  assert (w_calls w' = w_calls (snd (bind (check_ceilings input Payer_treasury (ccw_address wallet) token z)
      (fun _ => sign_and_record input Payer_treasury (ccw_address wallet) token z) w)) /\
    (forall d, r = Ok d -> bind (check_ceilings input Payer_treasury (ccw_address wallet) token z)
      (fun _ => sign_and_record input Payer_treasury (ccw_address wallet) token z) w = (Ok d, w'))) as [Hcalls Hrun].
  { unfold recordSignedDelegation, resolve_payer in E. rewrite Hu, Ht, Htok, Hz in E. unfold withTransaction in E.
    rewrite bind_assoc, (bind_run _ _ _ _ _ (select_one_run T_circle_chain_wallets _ w _ eq_refl)) in E.
    match type of E with context [head ?l] => change (head l) with (head (where_ (treasury_wallet (rs_orgId input)
      (rs_mode input) (rs_chain input)) (w_db w T_circle_chain_wallets))) in E end. rewrite Hw in E.
    change (match bind (check_ceilings input Payer_treasury (ccw_address wallet) token z)
      (fun _ => sign_and_record input Payer_treasury (ccw_address wallet) token z) w with
      | (Ok a, w1) => (Ok a, w1) | (Err e, w1) => (Err e, with_db (w_db w) w1) end = (r, w')) in E.
    destruct (bind _ _ w) as [[a|e] w1]; injection E as <- <-; [by split; [|intros d [= <-]]|by split]. }
  destruct (ceilings_run scope z (nativeBalanceMicros (ccw_address wallet) (rs_chain input) (rs_mode input)) w Hc)
    as (rc & Hrc & Hcov); [done|]. fold total in Hcov.
  change (check_ceilings input Payer_treasury (ccw_address wallet) token z w = (rc, w)) in Hrc.
  destruct (record_sends input Payer_treasury (ccw_address wallet) token z w Hc Hu) as [(l & Hl & HF) Hok].
  destruct rc as [[]|e].
  - rewrite (bind_run _ _ _ _ _ Hrc) in Hcalls, Hrun. split.
    + exists l. rewrite Hcalls. by split; [|split; [|intros _; apply Hcov]].
    + intros d Hd. destruct (Hok d w' (Hrun d Hd)) as (Hin & id & sg & nonce & -> & HD & Hnow). split; [by apply Hcov|].
      split; [done|]. split; [done|]. intros Hexp. unfold outstanding_total. rewrite HD, Hnow, where_app, map_app, fold_right_app.
      assert (outstanding scope (w_now w) (delegation_row input id (ccw_address wallet) token sg Payer_treasury z nonce (w_now w)) = true) as Ho.
      { unfold outstanding. cbn. rewrite !eqs_refl, !bool_decide_eq_true_2 by done. cbn. by apply Z.ltb_lt. }
      cbn [where_]. rewrite Ho. cbn. unfold total, outstanding_total.
      generalize (map headroom (where_ (outstanding scope (w_now w)) (w_db w T_agent_delegations))). unfold headroom. cbn.
      induction l0 as [|x l0 IH]; cbn; [lia|]. rewrite IH. lia.
  - rewrite (bind_fail _ _ _ _ _ Hrc) in Hcalls, Hrun. split.
    + exists []. rewrite Hcalls, app_nil_r. by split; [|split].
    + intros d Hd. by specialize (Hrun d Hd).
Qed.
End Handlers.

(** ** Witnesses *)

(** A node that answers from the third attempt: nonce 0, and enough gas. *)
#[export] Instance sample_permit2 : Permit2Chain := {
  process_env := fun _ => Some "http://rpc"%string;
  rpc_call := fun _ _ attempt _ method _ =>
    if (attempt <? 3)%nat then Err (PlainError "timeout")
    else Ok (mkRpcBody None (Some (if method =s "eth_call" then of_chars (repeat "0"%char 194) else "0xde0b6b3a7640000"%string)));
  encode_allowance := fun owner token spender => owner +:+ token +:+ spender
}.

Definition delegate (ceilingUsdc : string) : RecordSignedDelegationInput :=
  mkRecordSigned "org_1" None None true "0x00000000000000000000000000000000000000d1" mode_test Chain_base None
    ceilingUsdc 9000000 "usr_1" None.

Definition treasury_world : World :=
  with_db (db_set T_org_delegation_ceilings [mkOrgCeilingRow "org_1" mode_test Chain_base 1000000 "usr_1"] sample_db)
    sample_world0.
Definition delegated_world : World := run_m (recordSignedDelegation (delegate "0.4")) treasury_world.

Lemma treasury_checked : checked (w_db treasury_world).
Proof.
  intros t r. destruct t; cbn; intros H; repeat (destruct H as [<-|H]; [done|]); done.
Qed.

Lemma treasury_delegations_are_covered_witness :
  exists d, In (approval_call "0x1" "0x036CbD53842c5426634e7929541eC2318f3dCF7e" 400000) (w_calls delegated_world) /\
    dele_ceiling_usdc d = 400000 /\
    outstanding_total (payer_scope (delegate "0.4") "0x1" "0x036CbD53842c5426634e7929541eC2318f3dCF7e") delegated_world = 400000.
Proof.
  assert (is_ok (fst (recordSignedDelegation (delegate "0.4") treasury_world)) = true) as Hrun by (vm_compute; reflexivity).
  assert (outstanding_total (payer_scope (delegate "0.4") "0x1" "0x036CbD53842c5426634e7929541eC2318f3dCF7e") treasury_world = 0)
    as H0 by reflexivity.
  destruct (ok_run _ Hrun) as (d & w' & E). clear Hrun.
  assert (delegated_world = w') as -> by (unfold delegated_world, run_m; by rewrite E).
  pose proof (treasury_delegations_are_covered (delegate "0.4") treasury_world (Ok d) w' sample_wallet
    "0x036CbD53842c5426634e7929541eC2318f3dCF7e" 400000 treasury_checked eq_refl eq_refl eq_refl eq_refl eq_refl E) as [_ H].
  destruct (H d eq_refl) as (_ & Hz & Hin & Ho). exists d.
  change (ccw_address sample_wallet) with "0x1"%string in Hin, Ho. rewrite H0 in Hin, Ho.
  split; [exact Hin|]. split; [exact Hz|]. by apply Ho.
Defined.

Definition delegation_id : string := "dele_2".
Definition drawn_world : World := run_m (delegation_work (Work_draw delegation_id "0.1")) delegated_world.
Definition revoked_world : World := run_m (delegation_work (Work_revoke delegation_id)) drawn_world.
Definition overdrawn_world : World := run_m (delegation_work (Work_draw delegation_id "0.1")) revoked_world.

Lemma run_dstep o w : dstep w (run_m (delegation_work o) w).
Proof. eapply d_work, surjective_pairing. Qed.

Lemma sample_drun : rtc dstep treasury_world overdrawn_world.
Proof.
  assert (run_m (delegation_work (Work_record (delegate "0.4"))) treasury_world = delegated_world) as Hd.
  { unfold delegated_world, run_m. cbn [delegation_work]. unfold bind. by destruct (recordSignedDelegation _ _) as [[]]. }
  apply (rtc_l _ _ delegated_world); [rewrite <-Hd; apply run_dstep|].
  apply (rtc_l _ _ drawn_world); [exact (run_dstep (Work_draw delegation_id "0.1") delegated_world)|].
  apply (rtc_l _ _ revoked_world); [exact (run_dstep (Work_revoke delegation_id) drawn_world)|].
  apply rtc_once. exact (run_dstep (Work_draw delegation_id "0.1") revoked_world).
Qed.

Lemma treasury_draws : delegations_ok (w_db treasury_world).
Proof. split; cbn; try (constructor; fail); try done. Qed.

Lemma draws_stay_within_the_ceiling_witness : exists d,
  In d (w_db overdrawn_world T_agent_delegations) /\ dele_status d = Delegation_revoked /\
  dele_drawn_usdc d = drawn_total (dele_id d) (w_db overdrawn_world T_agent_delegation_drawdowns).
Proof.
  assert (existsb (fun d => bool_decide (dele_status d = Delegation_revoked)) (w_db overdrawn_world T_agent_delegations) = true)
    as Hd by (vm_compute; reflexivity).
  generalize Hd, sample_drun, treasury_draws. clear Hd. generalize overdrawn_world as w'. generalize treasury_world as w.
  intros w w' (d & Hd & Hs)%existsb_exists Hrun Hok.
  destruct (draws_stay_within_the_ceiling w w' Hrun Hok) as [[_ _ Hdr _ _ _ _] _]. bdec. exists d.
  split; [exact Hd|]. split; [done|]. by apply Hdr.
Defined.
