(* ===== verification/FleetThms.v ===== *)
(** What the treasury promises its fleet: allocations stay within the deposits
    that were read, a top-up is clamped, sent once and booked, a revoked agent
    keeps no budget, reputation moves an allocation within its bounds. *)

From stdpp Require Import relations.
From S2P Require Import Prelude Errors Usdc Json Identity Policy Quotes Doubles Schema Host Handlers AuditLog AuditChain.
From S2P Require Import Ledger Attempts Accounts Chain Delegations Prepare Settlement Liquidity Fleet FleetJobs.
From S2P Require Import BudgetOps HandlersPay Samples PolicyStoreThms.
Import Digits.
Open Scope Z_scope.

(** Comparisons, the innermost first. *)
Ltac ltb_cases :=
  repeat match goal with |- context [?x <? ?y] =>
    lazymatch constr:(x + y) with context [Z.ltb] => fail | _ => destruct (Z.ltb_spec x y) end end.

(** ** Allocations *)

Record Reading : Type := mkReading {
  rd_org : string;
  rd_mode : PaymentMode;
  rd_chain : PaymentChain;
  rd_deposits : Z
}.

Definition reading_of (o : string) (m : PaymentMode) (c : PaymentChain) (x : Reading) : bool :=
  (rd_org x =s o) && bool_decide (rd_mode x = m) && bool_decide (rd_chain x = c).

(** The highest deposits read of a treasury. *)
Definition best (R : list Reading) (o : string) (m : PaymentMode) (c : PaymentChain) : Z :=
  fold_right Z.max 0 (map rd_deposits (List.filter (reading_of o m c) R)).

Definition allocated_in (o : string) (m : PaymentMode) (c : PaymentChain) (A : list AgentAllocationRow) : Z :=
  sum_where (in_treasury o m c) alc_allocated_usdc A.

Definition slot (r : AgentAllocationRow) : string * PaymentMode * PaymentChain :=
  (alc_agent_id r, alc_mode r, alc_chain r).

Section Home.
(** The organisation of each agent. *)
Context (home : string -> string).

Record allocations_ok (A : list AgentAllocationRow) (R : list Reading) : Prop := mkAllocationsOk {
  al_slots : keyed slot A;
  al_ids : keyed alc_id A;
  al_home : forall r, In r A -> alc_org_id r = home (alc_agent_id r);
  al_nonneg : forall r, In r A -> 0 <= alc_allocated_usdc r;
  al_solvent : forall o m c, allocated_in o m c A <= best R o m c
}.

(** What becomes of an allocation: its parties stay, and a revoked one stays
    revoked. *)
Definition stays (r r' : AgentAllocationRow) : Prop :=
  alc_id r' = alc_id r /\ alc_org_id r' = alc_org_id r /\ slot r' = slot r
  /\ (alc_status r = Allocation_revoked -> alc_status r' = Allocation_revoked).

Definition allocations_on (A A' : list AgentAllocationRow) : Prop :=
  forall r, In r A -> exists r', In r' A' /\ stays r r'.

Lemma stays_refl r : stays r r.
Proof. done. Qed.

Lemma allocations_on_refl A : allocations_on A A.
Proof. intros r Hr. by exists r. Qed.

Lemma allocations_on_trans A B D : allocations_on A B -> allocations_on B D -> allocations_on A D.
Proof.
  intros H1 H2 r Hr. destruct (H1 r Hr) as (r1 & Hr1 & E1 & F1 & G1 & S1).
  destruct (H2 r1 Hr1) as (r2 & Hr2 & E2 & F2 & G2 & S2). exists r2. split; [done|].
  split; [congruence|]. split; [congruence|]. split; [congruence|]. auto.
Qed.

Lemma best_more R x o m c : best R o m c <= best (x :: R) o m c.
Proof. unfold best. cbn. destruct (reading_of o m c x); cbn; lia. Qed.

Lemma best_read R o m c d : In (mkReading o m c d) R -> d <= best R o m c.
Proof.
  unfold best. induction R as [|x R IH]; [done|]. intros [->|Hx].
  - cbn. unfold reading_of at 1. cbn. rewrite eqs_refl, !bool_decide_eq_true_2 by done. cbn. lia.
  - specialize (IH Hx). cbn. destruct (reading_of o m c x); cbn; lia.
Qed.

Lemma the_allocation_slot agent m c r : the_allocation agent m c r = true <-> slot r = (agent, m, c).
Proof.
  unfold the_allocation, slot. split.
  - intros H. bdec. congruence.
  - intros [= -> -> ->]. by rewrite eqs_refl, !bool_decide_eq_true_2.
Qed.

(** A sum in two parts. *)
Lemma sum_where_split {row} (p q : row -> bool) c t :
  sum_where p c t = sum_where (fun r => p r && negb (q r)) c t + sum_where (fun r => p r && q r) c t.
Proof. induction t as [|r t IH]; cbn; [done|]. rewrite IH. destruct (p r), (q r); cbn; lia. Qed.

(** What is allocated besides one slot. *)
Lemma allocated_split o m c agent A :
  allocated_in o m c A
  = sum_where (allocated_to_others o agent m c) alc_allocated_usdc A
    + sum_where (in_treasury o m c) alc_allocated_usdc (where_ (the_allocation agent m c) A).
Proof.
  unfold allocated_in. rewrite (sum_where_split _ (fun r => alc_agent_id r =s agent)). f_equal.
  rewrite (sum_where_within _ (the_allocation agent m c)).
  - induction A as [|r A IH]; cbn; [done|]. destruct (the_allocation agent m c r) eqn:E; [|done]. cbn. rewrite IH.
    unfold the_allocation in E. bsimpl. replace (alc_agent_id r =s agent) with true by (symmetry; by apply eqs_spec).
    by rewrite andb_true_r.
  - intros r H. unfold in_treasury, the_allocation in *. bsimpl. apply andb_true_iff. split; [|done].
    apply andb_true_iff. split; [by apply eqs_spec|done].
Qed.

(** An allocation is written: nothing else changes, and the treasury covers it. *)
Section Written.
Context (A : list AgentAllocationRow) (R : list Reading) (new : AgentAllocationRow) (d : Z).
Context (Hok : allocations_ok A R) (Hhome : alc_org_id new = home (alc_agent_id new)).
Context (Hactive : alc_status new = Allocation_active) (Hpos : 0 <= alc_allocated_usdc new).
Context (Hd : d <= best R (alc_org_id new) (alc_mode new) (alc_chain new)).
Context (Hsum : sum_where (allocated_to_others (alc_org_id new) (alc_agent_id new) (alc_mode new) (alc_chain new))
  alc_allocated_usdc A + alc_allocated_usdc new <= d).

Lemma new_treasury : in_treasury (alc_org_id new) (alc_mode new) (alc_chain new) new = true.
Proof using Hactive. unfold in_treasury. rewrite eqs_refl, !bool_decide_eq_true_2 by done. done. Qed.

Lemma written_solvent A' :
  (forall o m c, in_treasury o m c new = false -> allocated_in o m c A' = allocated_in o m c A) ->
  allocated_in (alc_org_id new) (alc_mode new) (alc_chain new) A' <= d ->
  forall o m c, allocated_in o m c A' <= best R o m c.
Proof using Hok Hd Hactive.
  intros H1 H2 o m c. destruct (in_treasury o m c new) eqn:E.
  - unfold in_treasury in E. bdec. subst. lia.
  - rewrite H1 by done. by apply Hok.
Qed.

Lemma written_new :
  ~ In (alc_id new) (map alc_id A) -> ~ In (slot new) (map slot A) ->
  allocations_ok (A ++ [new]) R.
Proof using Hok Hhome Hactive Hpos Hd Hsum.
  intros Hi Hs. assert (where_ (the_allocation (alc_agent_id new) (alc_mode new) (alc_chain new)) A = []) as Hw.
  { apply where_none. intros r Hr. apply not_true_iff_false. rewrite the_allocation_slot. intros E. apply Hs.
    apply in_map_iff. by exists r. }
  constructor.
  - apply keyed_insert; [done|apply Hok].
  - apply keyed_insert; [done|apply Hok].
  - intros r [Hr|[<-|[]]]%in_app_iff; [by apply Hok|done].
  - intros r [Hr|[<-|[]]]%in_app_iff; [exact (al_nonneg _ _ Hok r Hr)|done].
  - apply written_solvent.
    + intros o m c E. unfold allocated_in. rewrite sum_where_app. cbn. rewrite E. lia.
    + unfold allocated_in. rewrite sum_where_app. cbn. rewrite new_treasury.
      fold (allocated_in (alc_org_id new) (alc_mode new) (alc_chain new) A).
      rewrite (allocated_split _ _ _ (alc_agent_id new)), Hw. cbn. lia.
Qed.

Lemma written_over r :
  where_ (the_allocation (alc_agent_id new) (alc_mode new) (alc_chain new)) A = [r] ->
  let A' := update_rows (the_allocation (alc_agent_id new) (alc_mode new) (alc_chain new)) (reallocated new) A in
  allocations_ok A' R /\ allocations_on A A'.
Proof using Hok Hhome Hactive Hpos Hd Hsum.
  intros Hw A'. assert (In r A /\ the_allocation (alc_agent_id new) (alc_mode new) (alc_chain new) r = true) as [Hr Hsl]
    by (apply where_in; rewrite Hw; by left).
  pose proof (proj1 (the_allocation_slot _ _ _ r) Hsl) as E. injection E as E1 E2 E3.
  pose proof (al_home _ _ Hok r Hr) as Ho. rewrite E1, <-Hhome in Ho.
  assert (forall o m c, allocated_in o m c A' = allocated_in o m c A
    + (if in_treasury o m c r then alc_allocated_usdc new - alc_allocated_usdc r else 0)) as Hsum'.
  { intros o m c. unfold allocated_in, A'. rewrite (sum_where_update slot _ _ _ _ _ r); [|apply Hok|done].
    change (in_treasury o m c (reallocated new r)) with (in_treasury o m c r). cbn [alc_allocated_usdc reallocated].
    destruct (in_treasury o m c r); lia. }
  split; [constructor|].
  - by apply keyed_update; [|apply Hok].
  - by apply keyed_update; [|apply Hok].
  - intros x (x0 & Hx0 & ->)%in_update_rows. destruct (the_allocation _ _ _ x0); exact (al_home _ _ Hok x0 Hx0).
  - intros x (x0 & Hx0 & ->)%in_update_rows. destruct (the_allocation _ _ _ x0); [done|exact (al_nonneg _ _ Hok x0 Hx0)].
  - apply written_solvent.
    + intros o m c Hf. rewrite Hsum'. replace (in_treasury o m c r) with false; [lia|]. symmetry.
      apply not_true_iff_false. intros Ht. unfold in_treasury in *. bdec. subst o m c.
      rewrite Ho, E2, E3, eqs_refl, !bool_decide_eq_true_2 in Hf by done. done.
    + rewrite Hsum', (allocated_split _ _ _ (alc_agent_id new) A), Hw. cbn. destruct (in_treasury _ _ _ r); lia.
  - intros x Hx. exists (if the_allocation (alc_agent_id new) (alc_mode new) (alc_chain new) x then reallocated new x else x).
    split; [apply in_update_rows; by exists x|]. destruct (the_allocation _ _ _ x); done.
Qed.
End Written.

Lemma sum_nonneg A o m c R : allocations_ok A R -> forall agent,
  0 <= sum_where (fun _ => true) alc_allocated_usdc (where_ (allocated_to_others o agent m c) A).
Proof.
  intros Hok agent. apply sum_where_nonneg. intros r [Hr _]%where_in _. exact (al_nonneg _ _ Hok r Hr).
Qed.

Lemma slot_clash new (A : list AgentAllocationRow) :
  existsb (clash T_agent_allocations new) A = false ->
  ~ In (alc_id new) (map alc_id A) /\ ~ In (slot new) (map slot A).
Proof.
  intros H. split; intros (x & E & Hx)%in_map_iff;
    (assert (existsb (clash T_agent_allocations new) A = true) as H'; [|congruence]);
    apply existsb_exists; exists x; (split; [done|]); cbn.
  - by rewrite E, eqs_refl.
  - unfold slot in E. injection E as -> -> ->. rewrite eqs_refl, !bool_decide_eq_true_2 by done. apply orb_true_r.
Qed.

Lemma sum_of_where {row} (q : row -> bool) c t : sum_where (fun _ => true) c (where_ q t) = sum_where q c t.
Proof. induction t as [|r t IH]; cbn; [done|]. destruct (q r); cbn; by rewrite IH. Qed.

Lemma upsert_allocation_ok new w row w' :
  upsert_allocation new w = (Ok row, w') ->
  (existsb (clash T_agent_allocations new) (w_db w T_agent_allocations) = false /\
   w_db w' = db_set T_agent_allocations (w_db w T_agent_allocations ++ [new]) (w_db w)) \/
  (exists r l, where_ (the_allocation (alc_agent_id new) (alc_mode new) (alc_chain new)) (w_db w T_agent_allocations) = r :: l /\
   w_db w' = db_set T_agent_allocations (update_rows (the_allocation (alc_agent_id new) (alc_mode new) (alc_chain new))
     (reallocated new) (w_db w T_agent_allocations)) (w_db w)).
Proof.
  unfold upsert_allocation, insert_or_ignore, bind at 1. destruct (check T_agent_allocations new); cbn [negb]; [|done].
  destruct (existsb _ _) eqn:Ec; cbn zeta iota; intros E; runs E; [|by left].
  right. subst. destruct (where_ _ _) as [|r l] eqn:Ew; [done|]. by exists r, l.
Qed.

(** [setAllocation] under the lock, for an agent of the organisation. *)
Lemma write_allocation_ok input d w row w' R :
  write_allocation input d w = (Ok row, w') -> allocations_ok (w_db w T_agent_allocations) R ->
  sa_orgId input = home (sa_agentId input) -> d <= best R (sa_orgId input) (sa_mode input) (sa_chain input) ->
  allocations_ok (w_db w' T_agent_allocations) R /\
  allocations_on (w_db w T_agent_allocations) (w_db w' T_agent_allocations).
Proof.
  intros E Hok Hh Hd. unfold write_allocation in E. runs E.
  match goal with H : parseUsdcMicros (sa_allocatedUsdc _) = Ok _ |- _ => pose proof (parse_nonneg _ _ H) end.
  match goal with H : parseUsdcMicros (numeric_text _) = Ok _ |- _ =>
    rewrite parse_numeric_text in H by (by eapply sum_nonneg); injection H as <- end.
  rewrite sum_of_where in *. bsimpl.
  apply upsert_allocation_ok in E. match goal with H : w_db ?x = w_db w |- _ => rewrite H in E end.
  destruct E as [[Hc ->]|(r & l & Hw & ->)]; rewrite db_set_same.
  - apply slot_clash in Hc as [Hi Hs]. split; [|intros r Hr; exists r; split; [apply in_app_iff; by left|done]].
    by apply (written_new _ _ _ d).
  - assert (l = []) as ->.
    { destruct (keyed_where_one slot _ _ _ _ (sa_agentId input, sa_mode input, sa_chain input) (al_slots _ _ Hok) Hw)
        as [Hw' _]; [intros; by apply the_allocation_slot|congruence]. }
    eapply written_over; try eassumption; done.
Qed.
End Home.

(** ** The books of the top-ups *)

Definition topup_ref (id : string) : string := "agentops-topup-" +:+ id.
Definition is_topup (j : CircleProviderJobRow) : bool := cpj_job_type j =s "agent_wallet.topup".

(** The transfers sent for a job, and the postings that book it. *)
Definition sends_topup (id : string) (c : ExternalCall) : bool :=
  (call_service c =s "transferWallet") && eqo (nth_error (call_args c) 3) (Some (topup_ref id)).
Definition sent (id : string) (calls : list ExternalCall) : list ExternalCall := List.filter (sends_topup id) calls.
Definition books_topup (id : string) (p : LedgerPostingRow) : bool :=
  bool_decide (post_entry_type p = Entry_topup) && eqo (post_job_id p) (Some id).
Definition booked (id : string) (P : list LedgerPostingRow) : list LedgerPostingRow := where_ (books_topup id) P.

Definition of_amount (z : Z) (c : ExternalCall) : Prop := nth_error (call_args c) 2 = Some (to_string z).

(** A queued top-up has moved nothing; a complete one was sent once, with its
    amount, and booked once; a failed one was sent at most once, not booked. *)
Definition job_books (j : CircleProviderJobRow) (calls : list ExternalCall) (P : list LedgerPostingRow) : Prop :=
  exists z, cpj_amount_usdc j = Some z /\ 0 < z /\
  match cpj_status j with
  | Job_queued => sent (cpj_id j) calls = [] /\ booked (cpj_id j) P = []
  | Job_complete => exists c p, sent (cpj_id j) calls = [c] /\ of_amount z c /\
                    booked (cpj_id j) P = [p] /\ post_amount_usdc p = z
  | Job_failed => (sent (cpj_id j) calls = [] \/ exists c, sent (cpj_id j) calls = [c] /\ of_amount z c) /\
                  booked (cpj_id j) P = []
  | Job_submitted | Job_blocked => False
  end.

Record books (T : list CircleProviderJobRow) (calls : list ExternalCall) (P : list LedgerPostingRow) : Prop := mkBooks {
  bk_keyed : keyed cpj_id T;
  bk_one : forall o a m c, (length (where_ (open_topup o a m c) T) <= 1)%nat;
  bk_each : forall j, In j T -> job_books j calls P;
  bk_apart : forall id, ~ In id (map cpj_id T) -> sent id calls = [] /\ booked id P = []
}.

Definition topups (db : Db) : list CircleProviderJobRow := where_ is_topup (db T_circle_provider_jobs).

Record topups_ok (w : World) : Prop := mkTopupsOk {
  tk_keyed : keyed cpj_id (w_db w T_circle_provider_jobs);
  tk_checked : forall j, In j (w_db w T_circle_provider_jobs) -> check T_circle_provider_jobs j = true;
  tk_books : books (topups (w_db w)) (w_calls w) (w_db w T_ledger_postings)
}.

(** Calls and postings that are of no top-up. *)
Definition apart_call (c : ExternalCall) : Prop := forall id, sends_topup id c = false.
Definition apart_posting (p : LedgerPostingRow) : Prop := forall id, books_topup id p = false.

Lemma sent_more id calls l : Forall apart_call l -> sent id (calls ++ l) = sent id calls.
Proof.
  intros Hl. unfold sent. rewrite List.filter_app. replace (List.filter _ l) with (@nil ExternalCall).
  { apply app_nil_r. }
  symmetry. induction Hl as [|c l Hc _ IH]; cbn; [done|]. by rewrite Hc.
Qed.

Lemma job_books_ext j calls P calls' P' :
  sent (cpj_id j) calls' = sent (cpj_id j) calls -> booked (cpj_id j) P' = booked (cpj_id j) P ->
  job_books j calls P -> job_books j calls' P'.
Proof. unfold job_books. by intros -> ->. Qed.

Lemma books_ext T calls P calls' P' :
  (forall id, sent id calls' = sent id calls) -> (forall id, booked id P' = booked id P) ->
  books T calls P -> books T calls' P'.
Proof.
  intros Hs Hb [K O E A]. constructor; [done..| |].
  - intros j Hj. eapply job_books_ext; [apply Hs|apply Hb|]. by apply E.
  - intros id Hid. rewrite Hs, Hb. by apply A.
Qed.

(** A top-up is queued. *)
Lemma books_queued T calls P j z :
  books T calls P -> ~ In (cpj_id j) (map cpj_id T) -> cpj_status j = Job_queued -> cpj_amount_usdc j = Some z -> 0 < z ->
  (forall o a m c, open_topup o a m c j = true -> where_ (open_topup o a m c) T = []) -> books (T ++ [j]) calls P.
Proof.
  intros [K O E A] Hn Hq Hz Hp Hone. constructor.
  - by apply keyed_insert.
  - intros o a m c. rewrite where_app. cbn. destruct (open_topup o a m c j) eqn:Ho.
    + rewrite (Hone _ _ _ _ Ho). cbn. lia.
    + rewrite app_nil_r. apply O.
  - intros x [Hx|[<-|[]]]%in_app_iff; [by apply E|]. exists z. rewrite Hq. split; [done|]. split; [done|]. by apply A.
  - intros id Hid. apply A. intros H. apply Hid. rewrite map_app, in_app_iff. by left.
Qed.

(** What a job becomes when it is processed: its status and what is about it. *)
Definition becomes (s : ProviderJobStatus) (f : CircleProviderJobRow -> CircleProviderJobRow) : Prop :=
  forall r, cpj_id (f r) = cpj_id r /\ cpj_org_id (f r) = cpj_org_id r /\ cpj_mode (f r) = cpj_mode r /\
  cpj_chain (f r) = cpj_chain r /\ cpj_job_type (f r) = cpj_job_type r /\ cpj_amount_usdc (f r) = cpj_amount_usdc r /\
  cpj_metadata (f r) = cpj_metadata r /\ cpj_status (f r) = s.

Lemma becomes_open s f o a m c r : becomes s f -> s <> Job_queued -> s <> Job_submitted -> open_topup o a m c (f r) = false.
Proof.
  intros Hf H1 H2. destruct (Hf r) as (_ & _ & _ & _ & _ & _ & _ & Hs). unfold open_topup, job_open. rewrite Hs.
  rewrite (bool_decide_eq_false_2 (s = Job_queued)), (bool_decide_eq_false_2 (s = Job_submitted)) by done.
  cbn. by rewrite andb_false_r.
Qed.

(** A top-up is processed. *)
Lemma books_processed T calls P j s f l q :
  books T calls P -> In j T -> becomes s f -> s <> Job_queued -> s <> Job_submitted ->
  (forall id, id <> cpj_id j -> sent id l = [] /\ booked id q = []) ->
  job_books (f j) (calls ++ l) (P ++ q) ->
  books (update_rows (the_job (cpj_id j)) f T) (calls ++ l) (P ++ q).
Proof.
  intros [K O E A] Hj Hf Hs1 Hs2 Hl Hb.
  assert (forall id, id <> cpj_id j -> sent id (calls ++ l) = sent id calls /\ booked id (P ++ q) = booked id P) as Happ.
  { intros id Hid. destruct (Hl id Hid) as [El Eq]. unfold sent, booked in *. rewrite List.filter_app, where_app, El, Eq.
    by rewrite !app_nil_r. }
  assert (where_ (the_job (cpj_id j)) T = [j]) as Hw.
  { apply (keyed_where cpj_id); [done|done|apply eqs_refl|]. by intros r ?%eqs_spec. }
  constructor.
  - apply keyed_update; [|done]. intros r _. apply Hf.
  - intros o a m c. specialize (O o a m c). rewrite update_rows_map. clear -O Hf Hs1 Hs2. 
    revert O. generalize (the_job (cpj_id j)) as p. intros p.
    assert (forall t, (length (where_ (open_topup o a m c) (map (fun r => if p r then f r else r) t))
      <= length (where_ (open_topup o a m c) t))%nat) as H.
    { induction t as [|r t IH]; cbn; [done|]. destruct (p r).
      - rewrite (becomes_open s) by done. destruct (open_topup o a m c r); cbn; lia.
      - destruct (open_topup o a m c r); cbn; lia. }
    specialize (H T). lia.
  - intros x Hx. apply (in_update_one cpj_id _ _ _ _ _ K Hw) in Hx as [->|[Hx Hne]]; [done|].
    destruct (Happ _ Hne). eapply job_books_ext; [done..|]. by apply E.
  - intros id Hid. destruct (decide (id = cpj_id j)) as [->|Hne].
    + exfalso. apply Hid, in_map_iff. exists (f j). split; [apply Hf|]. apply in_update_rows. exists j.
      split; [done|]. unfold the_job. by rewrite eqs_refl.
    + destruct (Happ _ Hne) as [-> ->]. apply A. intros (x & Ex & Hx)%in_map_iff. apply Hid, in_map_iff.
      exists (if the_job (cpj_id j) x then f x else x). split; [|apply in_update_rows; by exists x].
      destruct (the_job _ x); [rewrite <-Ex; apply Hf|done].
Qed.

Lemma topups_update p f J :
  (forall r, p r = true -> cpj_job_type (f r) = cpj_job_type r) ->
  where_ is_topup (update_rows p f J) = update_rows p f (where_ is_topup J).
Proof.
  intros Hf. rewrite where_update, update_rows_map; [done|]. intros r Hr. unfold is_topup. by rewrite Hf.
Qed.

(** Work on a job that is no top-up. *)
Lemma topups_others id f J j :
  keyed cpj_id J -> In j J -> cpj_id j = id -> is_topup j = false -> (forall r, cpj_job_type (f r) = cpj_job_type r) ->
  where_ is_topup (update_rows (the_job id) f J) = where_ is_topup J.
Proof.
  intros Hk Hj <- Hn Hf. apply where_update_apart. intros r Hr E%eqs_spec.
  rewrite (keyed_unique cpj_id _ _ _ Hk Hr Hj E). split; [done|]. unfold is_topup. by rewrite Hf.
Qed.

(** ** Runs that may fail *)

Lemma bind_cases {A B} (m : M A) (k : A -> M B) w r w' :
  bind m k w = (r, w') ->
  (exists e, m w = (Err e, w') /\ r = Err e) \/ (exists a w1, m w = (Ok a, w1) /\ k a w1 = (r, w')).
Proof.
  unfold bind. destruct (m w) as [[a|e] w1]; [intros E; right; by exists a, w1|].
  intros [= <- <-]. left. by exists e.
Qed.

(** No statement, no call. *)
Lemma quiet_run {A} (m : M A) w r w' :
  made_of (fun _ => False) (fun _ => false) m -> m w = (r, w') -> w_db w' = w_db w /\ w_calls w' = w_calls w.
Proof.
  intros Hm E. pose proof (made_no_writes _ m Hm w) as Hd. destruct (af_calls _ _ _ (made_after _ _ m Hm w)) as (l & Hl & Hf).
  rewrite E in Hd, Hl. split; [done|]. destruct Hf; [by rewrite app_nil_r in Hl|done].
Qed.

Lemma treasuryAddress_made C W o m c : made_of C W (treasuryAddress o m c).
Proof. solve_made. Qed.
Lemma getGatewayBalance_made `{TreasuryBalances} C W a c m : made_of C W (getGatewayBalance a c m).
Proof. by apply made_still. Qed.
Lemma deposits_made `{TreasuryBalances} C W o m c : made_of C W (treasuryDepositsMicros o m c).
Proof.
  unfold treasuryDepositsMicros. apply made_bind; [apply treasuryAddress_made|intros a].
  apply made_bind; [apply getGatewayBalance_made|intros b]. apply made_lift.
Qed.
#[export] Hint Resolve treasuryAddress_made getGatewayBalance_made deposits_made : made.

Section Jobs.
Context (id : string).

Definition jobs_checked (db : Db) : Prop :=
  forall j, In j (db T_circle_provider_jobs) -> check T_circle_provider_jobs j = true.

Lemma jobs_checked_update p f (db : Db) :
  jobs_checked db -> (forall r, cpj_amount_usdc (f r) = cpj_amount_usdc r) ->
  forallb (check T_circle_provider_jobs) (map f (where_ p (db T_circle_provider_jobs))) = true.
Proof.
  intros Hc Hf. apply forallb_forall. intros x (y & <- & [Hy _]%where_in)%in_map_iff.
  specialize (Hc y Hy). cbn [check] in *. by rewrite Hf.
Qed.

Definition jobs_become (f : CircleProviderJobRow -> CircleProviderJobRow) (w : World) : World :=
  with_db (db_set T_circle_provider_jobs (update_rows (the_job id) f (w_db w T_circle_provider_jobs)) (w_db w)) w.

Ltac update_jobs Hc :=
  cbv beta; lazymatch goal with
  | |- context [bind (update _ ?p ?f) _ ?w] =>
      rewrite (bind_run _ _ _ _ _ (update_run T_circle_provider_jobs p f w _ eq_refl
        (jobs_checked_update p f _ Hc (fun _ => eq_refl))))
  end.

Lemma job_failed_run code w : jobs_checked (w_db w) ->
  exists f, becomes Job_failed f /\ job_failed id code w = (Ok tt, jobs_become f w).
Proof.
  intros Hc. unfold job_failed. rewrite (bind_run get_now _ w (w_now w) w eq_refl).
  update_jobs Hc. eexists. split; [|reflexivity]. by intros r.
Qed.

Lemma job_complete_run ref w : jobs_checked (w_db w) ->
  exists f, becomes Job_complete f /\ job_complete id ref w = (Ok tt, jobs_become f w).
Proof.
  intros Hc. unfold job_complete. rewrite (bind_run get_now _ w (w_now w) w eq_refl).
  update_jobs Hc. eexists. split; [|reflexivity]. by intros r.
Qed.

Lemma becomes_twice s t f g J :
  becomes s f -> becomes t g ->
  becomes t (fun r => g (f r)) /\
  update_rows (the_job id) g (update_rows (the_job id) f J) = update_rows (the_job id) (fun r => g (f r)) J.
Proof.
  intros Hf Hg. split.
  - intros r. destruct (Hf r) as (? & ? & ? & ? & ? & ? & ? & _). destruct (Hg (f r)) as (? & ? & ? & ? & ? & ? & ? & ?).
    repeat split; congruence.
  - rewrite !update_rows_map, map_map. apply map_ext. intros r. destruct (the_job id r) eqn:E; [|by rewrite E].
    unfold the_job in *. destruct (Hf r) as [-> _]. by rewrite E.
Qed.

Lemma jobs_checked_become s f w : becomes s f -> jobs_checked (w_db w) -> jobs_checked (w_db (jobs_become f w)).
Proof.
  intros Hf Hc j. cbn. rewrite db_set_same. intros (r & Hr & ->)%in_update_rows. specialize (Hc r Hr).
  destruct (the_job id r); [|done]. cbn [check] in *. destruct (Hf r) as (_ & _ & _ & _ & _ & -> & _). done.
Qed.
End Jobs.

Lemma writePosting_cases i w r w' :
  writePosting i w = (r, w') -> w_calls w' = w_calls w /\
  ((exists e, r = Err e /\ w_db w' = w_db w) \/
   (exists p now, r = Ok p /\ p = posting_of i (post_id p) now /\
      w_db w' = db_set T_ledger_postings (w_db w T_ledger_postings ++ [p]) (w_db w))).
Proof.
  unfold writePosting, prefixedId, get_now, bind at 1 2 3, insert. cbn zeta iota. cbn [w_db].
  destruct (check _ _); cbn [negb]; [|intros [= <- <-]; eauto].
  destruct (existsb _ _); intros [= <- <-]; [eauto|]. split; [done|]. right. by eexists _, (w_now w).
Qed.

Section Transfers.
Context {TP : TreasuryProvider}.

(** What a top-up did when it failed before its job was complete. *)
Definition transfer_of (job : CircleProviderJobRow) (z : Z) (c : ExternalCall) : Prop :=
  sends_topup (cpj_id job) c = true /\ (forall id, id <> cpj_id job -> sends_topup id c = false) /\ of_amount z c.

Lemma topup_transfer_of job chain z t a : transfer_of job z (transfer_call (topup_transfer job chain z t a)).
Proof.
  split; [|split; [|done]].
  - unfold sends_topup, topup_ref. cbn -[String.eqb String.append]. by rewrite !eqs_refl.
  - intros id Hne. unfold sends_topup, topup_ref. cbn -[String.eqb String.append]. rewrite eqs_refl. cbn [andb].
    apply eqs_neq. intros E. apply Hne. by apply (inj (String.append "agentops-topup-")) in E.
Qed.

Lemma topup_job_run job agentId chain z w r w' :
  jobs_checked (w_db w) -> 0 <= z -> topup_job job agentId chain z w = (r, w') ->
  (exists e, r = Err e /\ w_db w' = w_db w /\
    (w_calls w' = w_calls w \/ exists c, transfer_of job z c /\ w_calls w' = w_calls w ++ [c])) \/
  (exists f c, becomes Job_complete f /\ transfer_of job z c /\ w_calls w' = w_calls w ++ [c] /\
    let db1 := db_set T_circle_provider_jobs (update_rows (the_job (cpj_id job)) f (w_db w T_circle_provider_jobs)) (w_db w) in
    ((exists e, r = Err e /\ w_db w' = db1) \/
     (exists p now, r = Ok tt /\
       p = posting_of (wallet_posting job agentId chain Entry_topup z "agent_wallet_topup") (post_id p) now /\
       w_db w' = db_set T_ledger_postings (w_db w T_ledger_postings ++ [p]) db1))).
Proof.
  intros Hc Hz E. unfold topup_job in E.
  apply bind_cases in E as [(e & E1 & ->)|(treasury & w1 & E1 & E)].
  { apply quiet_run in E1 as [D1 C1]; [|apply treasuryAddress_made]. left. eauto 6. }
  apply quiet_run in E1 as [D1 C1]; [|apply treasuryAddress_made].
  apply bind_cases in E as [(e & E1 & ->)|(wallet & w2 & E1 & E)].
  { apply quiet_run in E1 as [D2 C2]; [|solve_made]. left. exists e. rewrite D2, C2. auto. }
  apply quiet_run in E1 as [D2 C2]; [|solve_made].
  apply bind_cases in E as [(e & E1 & ->)|(wallet' & w3 & E1 & E)].
  { apply quiet_run in E1 as [D3 C3]; [|solve_made]. left. exists e. rewrite D3, C3, D2, C2. auto. }
  apply quiet_run in E1 as [D3 C3]; [|solve_made].
  rewrite parse_numeric_text in E by done. rewrite (bind_run _ _ w3 z w3 eq_refl) in E.
  assert (w_db w3 = w_db w) as D by congruence. assert (w_calls w3 = w_calls w) as HC by congruence.
  set (i := topup_transfer job chain z treasury (acw_address wallet')) in *.
  apply bind_cases in E as [(e & E1 & ->)|(tx & w4 & E1 & E)]; unfold transferWallet in E1; injection E1 as Et E1.
  { left. exists e. rewrite <-E1. cbn. rewrite D, HC. split; [done|]. split; [done|]. right.
    eexists. split; [apply topup_transfer_of|]. reflexivity. }
  right. assert (jobs_checked (w_db w4)) as Hc4 by (by rewrite <-E1; cbn; rewrite D).
  destruct (job_complete_run (cpj_id job) (Some tx) w4 Hc4) as (f & Hf & Hrun).
  rewrite (bind_run _ _ _ _ _ Hrun) in E. exists f, (transfer_call i). split; [done|].
  split; [apply topup_transfer_of|].
  assert (w_calls (jobs_become (cpj_id job) f w4) = w_calls w ++ [transfer_call i] /\
    w_db (jobs_become (cpj_id job) f w4)
    = db_set T_circle_provider_jobs (update_rows (the_job (cpj_id job)) f (w_db w T_circle_provider_jobs)) (w_db w)) as [C5 D5].
  { rewrite <-E1. cbn. rewrite D, HC. done. }
  clear Hrun. generalize dependent (jobs_become (cpj_id job) f w4). intros w5 E C5 D5. cbv zeta. rewrite <-D5, <-C5.
  apply bind_cases in E as [(e & E & ->)|(p & w6 & E & E6)].
  - apply writePosting_cases in E as [-> [(e' & [= ->] & ->)|(p & now & [=] & _)]]. eauto.
  - injection E6 as <- <-. apply writePosting_cases in E as [-> [(e' & [=] & _)|(p' & now & [= <-] & Hp & ->)]].
    split; [done|]. right. exists p, now. split; [done|]. split; [exact Hp|].
    replace (w_db w T_ledger_postings) with (w_db w5 T_ledger_postings); [done|]. by rewrite D5, db_set_other.
Qed.
End Transfers.

(** ** A top-up is processed *)

Lemma processed_ok j w w' s f l q :
  topups_ok w -> In j (w_db w T_circle_provider_jobs) -> is_topup j = true ->
  becomes s f -> s <> Job_queued -> s <> Job_submitted ->
  w_db w' T_circle_provider_jobs = update_rows (the_job (cpj_id j)) f (w_db w T_circle_provider_jobs) ->
  w_calls w' = w_calls w ++ l -> w_db w' T_ledger_postings = w_db w T_ledger_postings ++ q ->
  (forall id, id <> cpj_id j -> sent id l = [] /\ booked id q = []) ->
  job_books (f j) (w_calls w ++ l) (w_db w T_ledger_postings ++ q) -> topups_ok w'.
Proof.
  intros [K Hc B] Hj Ht Hf H1 H2 EJ EC EP Hl Hb. constructor.
  - rewrite EJ. apply keyed_update; [|done]. intros r _. apply Hf.
  - rewrite EJ. intros r (r0 & Hr0 & ->)%in_update_rows. specialize (Hc r0 Hr0).
    destruct (the_job _ r0); [|done]. cbn [check] in *. destruct (Hf r0) as (_ & _ & _ & _ & _ & -> & _). done.
  - unfold topups. rewrite EJ, EC, EP, topups_update.
    + apply (books_processed _ _ _ j s); [exact B| |done..]. by apply where_in.
    + intros r _. apply Hf.
Qed.

Lemma transfer_sent j z c calls : transfer_of j z c -> sent (cpj_id j) calls = [] ->
  sent (cpj_id j) (calls ++ [c]) = [c] /\ forall id, id <> cpj_id j -> sent id [c] = [].
Proof.
  intros (Hs & Ho & _) E. unfold sent in *. rewrite List.filter_app, E. cbn. rewrite Hs. split; [done|].
  intros id Hid. by rewrite Ho.
Qed.

Section Process.
Context {TP : TreasuryProvider}.

Lemma find_job_run j w : keyed cpj_id (w_db w T_circle_provider_jobs) -> In j (w_db w T_circle_provider_jobs) ->
  find_job (cpj_id j) (cpj_job_type j) w = (Ok (Some j), w).
Proof.
  intros Hk Hj. unfold find_job. rewrite (select_one_run T_circle_provider_jobs _ w [j]); [done|].
  apply (keyed_where cpj_id _ _ j Hk Hj).
  - unfold the_job. by rewrite !eqs_refl.
  - intros r Hr. bsimpl. unfold the_job in *. by bsimpl.
Qed.

Lemma topup_processed j w r w' :
  topups_ok w -> In j (w_db w T_circle_provider_jobs) -> is_topup j = true -> cpj_status j = Job_queued ->
  processAgentWalletTopUpJob (cpj_id j) w = (r, w') -> topups_ok w'.
Proof.
  intros Hok Hj Ht Hq E. pose proof Hok as [K Hc B].
  assert (In j (topups (w_db w))) as HjT by (by apply where_in).
  pose proof (bk_each _ _ _ B j HjT) as (z & Hz & Hzp & Hb). rewrite Hq in Hb. destruct Hb as [Hs0 Hb0].
  assert (cpj_job_type j = "agent_wallet.topup"%string) as Hty by (by apply eqs_spec).
  pose proof (find_job_run j w K Hj) as Hfind. rewrite Hty in Hfind.
  unfold processAgentWalletTopUpJob in E. rewrite (bind_run _ _ _ _ _ Hfind) in E. rewrite Hz in E.
  assert (forall w1 code, w_db w1 = w_db w -> w_calls w1 = w_calls w \/ (exists c, transfer_of j z c /\ w_calls w1 = w_calls w ++ [c]) ->
    job_failed (cpj_id j) code w1 = (r, w') -> topups_ok w') as Hfailed.
  { intros w1 code D C E1. destruct (job_failed_run (cpj_id j) code w1) as (f & Hf & Hrun); [by rewrite D|].
    rewrite Hrun in E1. injection E1 as _ <-. destruct (Hf j) as (F1 & _ & _ & _ & _ & F6 & _ & F8).
    assert (job_books (f j) (w_calls w1) (w_db w T_ledger_postings)) as HB.
    { exists z. rewrite F6, F1, F8. split; [done|]. split; [done|]. split; [|done].
      destruct C as [->|(c & Hc1 & ->)]; [by left|]. right. exists c.
      split; [by eapply transfer_sent|apply Hc1]. }
    destruct C as [C|(c & Hc1 & C)].
    - eapply (processed_ok j w _ Job_failed f [] []); try done; cbn; rewrite ?db_set_same, ?db_set_other, ?app_nil_r, ?D by done; try done.
      by rewrite <-C.
    - eapply (processed_ok j w _ Job_failed f [c] []); try done; cbn; rewrite ?db_set_same, ?db_set_other, ?app_nil_r, ?D by done; try done.
      + intros id Hid. split; [by eapply transfer_sent|done].
      + by rewrite <-C. }
  destruct (jobAgentId (cpj_metadata j)) as [agentId|] eqn:Ea; [|by apply (Hfailed w _ eq_refl (or_introl eq_refl) E)].
  destruct (cpj_chain j) as [chain|] eqn:Ech; [|by apply (Hfailed w _ eq_refl (or_introl eq_refl) E)].
  unfold or_failed, catch in E. destruct (topup_job j agentId chain z w) as [r0 w1] eqn:E1.
  apply topup_job_run in E1 as [(e & -> & D & C)|(f & c & Hf & Hc1 & C & D)]; [| |done|lia].
  { by apply (Hfailed w1 _ D C E). }
  cbv zeta in D. destruct D as [(e & -> & D)|(p & now & -> & Hp & D)].
  - destruct (job_failed_run (cpj_id j) (error_message (Some e)) w1) as (g & Hg & Hrun).
    { intros x Hx. rewrite D, db_set_same in Hx. apply in_update_rows in Hx as (x0 & Hx0 & ->). specialize (Hc x0 Hx0).
      destruct (the_job _ x0); [|done]. cbn [check] in *. destruct (Hf x0) as (_ & _ & _ & _ & _ & -> & _). done. }
    rewrite Hrun in E. injection E as _ <-.
    destruct (becomes_twice (cpj_id j) _ _ f g (w_db w T_circle_provider_jobs) Hf Hg) as [Hfg Efg].
    destruct (Hfg j) as (F1 & _ & _ & _ & _ & F6 & _ & F8).
    eapply (processed_ok j w _ Job_failed (fun r => g (f r)) [c] []); try done; cbn;
      rewrite ?D, ?db_set_same, ?db_set_other, ?app_nil_r, ?D, ?db_set_same, ?db_set_other by done; try done.
    + intros id Hid. split; [by eapply transfer_sent|done].
    + exists z. rewrite F6, F1, F8. split; [done|]. split; [done|]. split; [|done]. right. exists c.
      split; [by eapply transfer_sent|apply Hc1].
  - injection E as _ <-. destruct (Hf j) as (F1 & _ & _ & _ & _ & F6 & _ & F8).
    assert (forall id, books_topup id p = (id =s cpj_id j)) as Hbp.
    { intros id. rewrite Hp. unfold books_topup. cbn. apply eqs_sym. }
    eapply (processed_ok j w _ Job_complete f [c] [p]); try done; cbn;
      rewrite ?D, ?db_set_other, ?db_set_same by done; try done.
    + intros id Hid. split; [by eapply transfer_sent|]. unfold booked. cbn. rewrite Hbp. by rewrite eqs_neq.
    + exists z. rewrite F6, F1, F8. split; [done|]. split; [done|]. exists c, p.
      split; [by eapply transfer_sent|]. split; [apply Hc1|]. split; [|by rewrite Hp].
      unfold booked in *. rewrite where_app, Hb0. cbn. by rewrite Hbp, eqs_refl.
Qed.
End Process.

(** ** Work that is of no top-up *)

Definition jobs_ok (db : Db) : Prop := keyed cpj_id (db T_circle_provider_jobs) /\ jobs_checked db.
Definition aside (db db' : Db) : Prop :=
  topups db' = topups db /\ forall id, booked id (db' T_ledger_postings) = booked id (db T_ledger_postings).

Lemma aside_refl db : aside db db.
Proof. done. Qed.
Lemma aside_trans a b c : aside a b -> aside b c -> aside a c.
Proof. intros [H1 H2] [H3 H4]. split; [congruence|]. intros id. by rewrite H4. Qed.

Lemma aside_ok w w' l :
  topups_ok w -> jobs_ok (w_db w') -> aside (w_db w) (w_db w') ->
  w_calls w' = w_calls w ++ l -> Forall apart_call l -> topups_ok w'.
Proof.
  intros [K Hc B] [K' Hc'] [HT HP] EC Hl. constructor; [done..|]. rewrite HT, EC. eapply books_ext; [|exact HP|exact B].
  intros id. by apply sent_more.
Qed.

(** A handler that keeps the top-ups aside, and what it sends. *)
Lemma apart_run {A} (I : Db -> Prop) (m : M A) W w r w' :
  (forall db, I db -> jobs_ok db) -> sound I aside m -> made_of apart_call W m -> I (w_db w) ->
  m w = (r, w') -> topups_ok w -> topups_ok w'.
Proof.
  intros HI Hs Hm Hw E Hok. destruct (sound_run _ _ _ _ _ _ Hs E Hw) as [H1 H2].
  destruct (af_calls _ _ _ (made_after _ _ m Hm w)) as (l & El & Fl). rewrite E in El.
  by apply (aside_ok w w' l); [|apply HI| | |].
Qed.

(** On one job that is no top-up. *)
Definition other_job (id : string) (db : Db) : Prop :=
  jobs_ok db /\ exists j, In j (db T_circle_provider_jobs) /\ cpj_id j = id /\ is_topup j = false.

Section Other.
Context (id : string).
Notation side := (sound (other_job id) aside).

Lemma side_bind {A B} (m : M A) (k : A -> M B) : side m -> (forall a, side (k a)) -> side (bind m k).
Proof. apply sound_bind, aside_trans. Qed.

Lemma side_keeps {A} (m : M A) : keeps T_circle_provider_jobs m -> keeps T_ledger_postings m -> side m.
Proof.
  intros HJ HP w. specialize (HJ w). specialize (HP w). unfold other_job, jobs_ok, jobs_checked, aside, topups.
  rewrite HJ, HP. auto.
Qed.

Lemma side_update f : (forall r, cpj_id (f r) = cpj_id r /\ cpj_job_type (f r) = cpj_job_type r) ->
  side (update T_circle_provider_jobs (the_job id) f).
Proof.
  intros Hf w ((K & Hc) & j & Hj & Hid & Hn). unfold update. cbn zeta.
  destruct (forallb _ _) eqn:Ef; cbn [negb snd]; [|split; [|done]; split; [done|eauto]].
  unfold other_job, jobs_ok, jobs_checked, aside, topups. cbn [w_db with_db]. rewrite db_set_same, db_set_other by done.
  split; [split; [split|]|split; [|done]].
  - apply keyed_update; [|done]. intros r _. apply Hf.
  - intros x (x0 & Hx0 & ->)%in_update_rows. destruct (the_job id x0) eqn:E; [|by apply Hc].
    rewrite forallb_forall in Ef. apply Ef, in_map, where_in. auto.
  - exists (f j). destruct (Hf j) as [F1 F2]. split; [|split; [congruence|unfold is_topup in *; by rewrite F2]].
    apply in_update_rows. exists j. split; [done|]. unfold the_job. by rewrite Hid, eqs_refl.
  - apply (topups_others _ _ _ j); [done..|]. intros r. apply Hf.
Qed.

Lemma side_posting i : wp_entryType i <> Entry_topup -> side (writePosting i).
Proof.
  intros Hi w (HJ & Hj). destruct (writePosting i w) as [r w'] eqn:E. cbn [snd].
  apply writePosting_cases in E as [_ [(e & _ & ->)|(p & now & _ & Hp & ->)]]; [by repeat split; try apply HJ|].
  unfold other_job, jobs_ok, jobs_checked, aside, topups. rewrite db_set_same, !db_set_other by done.
  split; [done|]. split; [done|]. intros id'. unfold booked. rewrite where_app. cbn.
  replace (books_topup id' p) with false; [apply app_nil_r|]. symmetry. rewrite Hp. unfold books_topup. cbn.
  by rewrite bool_decide_eq_false_2.
Qed.

Lemma side_failed code : side (job_failed id code).
Proof.
  unfold job_failed. apply side_bind; [by apply side_keeps; solve_keeps|intros now].
  apply side_bind; [by apply side_update|intros x]. apply side_keeps; solve_keeps.
Qed.

Lemma side_complete ref : side (job_complete id ref).
Proof.
  unfold job_complete. apply side_bind; [by apply side_keeps; solve_keeps|intros now].
  apply side_bind; [by apply side_update|intros x]. apply side_keeps; solve_keeps.
Qed.

Lemma side_or_failed m : side m -> side (or_failed id m).
Proof. intros Hm. apply sound_catch; [apply aside_trans|done|intros e]. apply side_failed. Qed.
End Other.

Ltac side_keep := apply side_keeps; solve_keeps.

Section Worker.
Context {CB : ChainBalances} {TP : TreasuryProvider} {WF : WalletFactory}.

Lemma keeps_call {A} t (f : World -> Res A) c : keeps t (fun w => (f w, add_call (c w) w)).
Proof. by intros w. Qed.
Lemma transferWallet_keeps t i : keeps t (transferWallet i).
Proof. by intros w. Qed.
Lemma createWallet_keeps t i : keeps t (createWallet i).
Proof. by intros w. Qed.
Lemma treasuryAddress_keeps t o m c : keeps t (treasuryAddress o m c).
Proof. unfold treasuryAddress. solve_keeps. Qed.
Lemma findAgentWallet_keeps t a m c : keeps t (findAgentWallet a m c).
Proof. unfold findAgentWallet. solve_keeps. Qed.
#[local] Hint Resolve transferWallet_keeps createWallet_keeps treasuryAddress_keeps findAgentWallet_keeps nativeBalance_keeps : keeps.

Lemma sweep_side job agentId chain gas : sound (other_job (cpj_id job)) aside (sweep_job job agentId chain gas).
Proof.
  unfold sweep_job. do 4 (apply side_bind; [side_keep|intros ?]). cbv zeta. apply side_bind.
  { side_keep. }
  intros ref. apply side_bind; [side_keep|intros ?]. apply side_bind.
  { unfold swept_job. do 2 (apply side_bind; [side_keep|intros ?]). apply side_bind; [by apply side_update|intros ?].
    side_keep. }
  intros ?. apply side_bind; [by apply side_posting|intros ?]. side_keep.
Qed.

Lemma create_side job agentId chain : sound (other_job (cpj_id job)) aside (create_job job agentId chain).
Proof.
  unfold create_job, circleBlockchainForChain, findAnyAgentWallet, recordProvisionedWallet.
  do 5 (apply side_bind; [side_keep|intros ?]). destruct a3 as [address walletId].
  do 2 (apply side_bind; [side_keep|intros ?]). apply side_complete.
Qed.

(** ** The calls they make *)

Lemma call_apart service args : service <> "transferWallet"%string -> apart_call (mkExternalCall service args).
Proof. intros H id. unfold sends_topup. cbn. by rewrite eqs_neq. Qed.

Lemma sweep_apart job chain z a t : apart_call (transfer_call (sweep_transfer job chain z a t)).
Proof. intros id. unfold sends_topup. cbn -[String.eqb]. by rewrite andb_false_r. Qed.

Lemma createWallet_made C W i : (forall l, C (mkExternalCall "createWallet" l)) -> made_of C W (createWallet i).
Proof. intros HC. eapply made_call with (c := fun _ => mkExternalCall _ _); [by intros w|]. intros w. apply HC. Qed.

Lemma nativeBalance_made C W a c m : made_of C W (nativeBalanceMicros a c m).
Proof. by apply made_still. Qed.
#[local] Hint Resolve nativeBalance_made : made.

Lemma sweep_made W job agentId chain gas : (forall t, W t = true) -> made_of apart_call W (sweep_job job agentId chain gas).
Proof.
  intros HW. unfold sweep_job. do 4 (apply made_bind; [solve_made|intros ?]). cbv zeta. apply made_bind.
  { destruct (0 <? _); [|solve_made]. apply made_bind; [apply transfer_made, sweep_apart|intros ?; solve_made]. }
  intros ref. apply made_bind; [by apply made_update|intros ?]. apply made_bind.
  { unfold swept_job. do 2 (apply made_bind; [solve_made|intros ?]). apply made_bind; [by apply made_update|intros ?; solve_made]. }
  intros ?. apply made_bind; [|intros ?; solve_made]. unfold writePosting. do 2 (apply made_bind; [solve_made|intros ?]).
  cbv zeta. apply made_bind; [by apply made_insert|intros ?; solve_made].
Qed.

Lemma failed_made C W id code : (forall t, W t = true) -> made_of C W (job_failed id code).
Proof.
  intros HW. unfold job_failed. apply made_bind; [solve_made|intros ?]. apply made_bind; [by apply made_update|intros ?; solve_made].
Qed.

Lemma wallet_create_made W job agentId chain : (forall t, W t = true) -> made_of apart_call W (create_job job agentId chain).
Proof.
  intros HW. unfold create_job. do 4 (apply made_bind; [solve_made|intros ?]). apply made_bind.
  { apply createWallet_made. intros l. by apply call_apart. }
  intros [address walletId]. apply made_bind; [solve_made|intros ?]. apply made_bind.
  { unfold recordProvisionedWallet. do 2 (apply made_bind; [solve_made|intros ?]).
    apply made_bind; [by apply made_insert_or_ignore|intros ?; solve_made]. }
  intros ?. unfold job_complete. apply made_bind; [solve_made|intros ?]. apply made_bind; [by apply made_update|intros ?; solve_made].
Qed.

(** A job of another family, looked up and processed. *)
Lemma other_processed jobId ty w r w' (m : CircleProviderJobRow -> M unit) W :
  ty <> "agent_wallet.topup"%string ->
  (forall job, sound (other_job (cpj_id job)) aside (m job)) -> (forall job, made_of apart_call W (m job)) ->
  (let* job := find_job jobId ty in match job with None => ret tt | Some job => m job end) w = (r, w') ->
  topups_ok w -> topups_ok w'.
Proof.
  intros Hty Hs Hm E Hok. apply bind_cases in E as [(e & E & _)|(o & w1 & E & E1)].
  { unfold find_job in E. unfold select_one, bind, select, ret in E. done. }
  unfold find_job in E. apply (select_one_ok T_circle_provider_jobs) in E as [Eo ->]. destruct o as [job|]; [|by injection E1 as _ <-].
  symmetry in Eo. apply where_head in Eo as [Hin Hp]. bsimpl.
  apply (apart_run (other_job (cpj_id job)) (m job) W w r w'); try done.
  - by intros db [? _].
  - split; [by destruct Hok|]. exists job. split; [done|]. split; [done|]. unfold is_topup. apply eqs_neq. congruence.
Qed.

(** What is done with the job that is found. *)
Lemma job_found jobId ty (m m' : option CircleProviderJobRow -> M unit) w :
  (forall job, cpj_id job = jobId -> m (Some job) = m' (Some job)) -> m None = m' None ->
  bind (find_job jobId ty) m w = bind (find_job jobId ty) m' w.
Proof.
  intros Hs Hn. unfold find_job, select_one, bind, select, ret. cbn zeta iota.
  destruct (where_ _ _) as [|job l] eqn:Ew; cbn [head]; [exact (f_equal (fun h => h w) Hn)|].
  refine (f_equal (fun h => h w) (Hs job _)).
  assert (In job (job :: l)) as Hin by (by left). rewrite <-Ew in Hin. apply where_in in Hin as [_ Hp]. bsimpl.
  by apply eqs_spec.
Qed.

Lemma sweep_processed jobId gas w r w' :
  processAgentWalletSweepJob jobId gas w = (r, w') -> topups_ok w -> topups_ok w'.
Proof.
  intros E. apply (other_processed jobId "agent_wallet.sweep" w r w' (fun job =>
    match jobAgentId (cpj_metadata job), cpj_chain job with
    | Some agentId, Some chain => or_failed (cpj_id job) (sweep_job job agentId chain gas)
    | _, _ => job_failed (cpj_id job) "agent_wallet_job_metadata_invalid"
    end) (fun _ => true)); [done| | |].
  - intros job. destruct (jobAgentId _); [|apply side_failed]. destruct (cpj_chain job); [|apply side_failed].
    apply side_or_failed, sweep_side.
  - intros job. destruct (jobAgentId _); [|by apply failed_made]. destruct (cpj_chain job); [|by apply failed_made].
    apply made_catch; [by apply sweep_made|intros e; by apply failed_made].
  - rewrite <-E. unfold processAgentWalletSweepJob. apply job_found; [|done]. by intros job ->.
Qed.

Lemma wallet_created jobId w r w' :
  processAgentWalletCreateJob jobId w = (r, w') -> topups_ok w -> topups_ok w'.
Proof.
  intros E. apply (other_processed jobId "agent_wallet.create" w r w' (fun job =>
    match jobAgentId (cpj_metadata job), cpj_chain job with
    | Some agentId, Some chain => or_failed (cpj_id job) (create_job job agentId chain)
    | _, _ => job_failed (cpj_id job) "agent_wallet_job_metadata_invalid"
    end) (fun _ => true)); [done| | |].
  - intros job. destruct (jobAgentId _); [|apply side_failed]. destruct (cpj_chain job); [|apply side_failed].
    apply side_or_failed, create_side.
  - intros job. destruct (jobAgentId _); [|by apply failed_made]. destruct (cpj_chain job); [|by apply failed_made].
    apply made_catch; [by apply wallet_create_made|intros e; by apply failed_made].
  - rewrite <-E. unfold processAgentWalletCreateJob. apply job_found; [|done]. by intros job ->.
Qed.
End Worker.

(** ** The evaluation of a top-up *)

Section Evaluate.
Context {CB : ChainBalances} {TB : TreasuryBalances}.

Record amounts_ok (a : AgentAllocationRow) : Prop := mkAmountsOk {
  am_allocated : 0 <= alc_allocated_usdc a;
  am_gas : 0 <= alc_gas_reserve_usdc a;
  am_low : 0 <= alc_low_water_mark_usdc a;
  am_ceiling : 0 <= alc_ceiling_usdc a
}.

Definition deposits_read (a : AgentAllocationRow) (w : World) : Res Z :=
  fst (treasuryDepositsMicros (alc_org_id a) (alc_mode a) (alc_chain a) w).
Definition held_by_others (a : AgentAllocationRow) (w : World) : Res Z := fst (otherAgentsOnChainMicros a w).
Definition pending_topups (a : AgentAllocationRow) (w : World) : list CircleProviderJobRow :=
  where_ (open_topup (alc_org_id a) (alc_agent_id a) (alc_mode a) (alc_chain a)) (w_db w T_circle_provider_jobs).

(** The amount the three clamps leave. *)
Definition topup_amount (a : AgentAllocationRow) (raw deposits held : Z) : Z :=
  Z.min (Z.min (alc_ceiling_usdc a - raw) (alc_allocated_usdc a - raw)) (deposits - held).

Lemma deposits_still o m c w : snd (treasuryDepositsMicros o m c w) = w.
Proof.
  unfold treasuryDepositsMicros, treasuryAddress, select_one, bind, select, ret, some_or, getGatewayBalance, lift. cbn zeta iota.
  destruct (head _); cbn; [|done]. destruct (gateway_available _ _ _ _); [|done]. by destruct (parseUsdcMicros _).
Qed.

Lemma held_still a w : snd (otherAgentsOnChainMicros a w) = w.
Proof.
  unfold otherAgentsOnChainMicros, allocations_with_wallets, bind, select, ret. cbn zeta iota.
  generalize 0 as total. induction (with_wallets _ _) as [|x l IH]; intros total; cbn; [done|].
  unfold bind, nativeBalanceMicros. destruct (chain_balance _ _ _ _); [apply IH|done].
Qed.

Lemma queue_topup_run a raw w : amounts_ok a -> raw < alc_ceiling_usdc a ->
  queue_topup a raw (alc_ceiling_usdc a - raw) w =
  match pending_topups a w with
  | _ :: _ => (Ok tt, w)
  | [] =>
      match deposits_read a w with
      | Err e => (Err e, w)
      | Ok deposits =>
          match held_by_others a w with
          | Err e => (Err e, w)
          | Ok held =>
              let z := topup_amount a raw deposits held in
              if z <=? 0 then (Ok tt, w)
              else insert T_circle_provider_jobs (topup_row a ("cjob_" +:+ to_string (w_next w)) z (w_now w)) (next_id w)
          end
      end
  end.
Proof.
  intros [Ha Hg Hl Hc] Hr. unfold queue_topup, pending_topups. unfold bind at 1, select. cbn zeta iota.
  destruct (where_ _ _); [|done]. rewrite (parse_numeric_text _ Ha). rewrite (bind_run _ _ w (alc_allocated_usdc a) w eq_refl). cbv zeta.
  unfold deposits_read, held_by_others. unfold bind at 1.
  generalize (deposits_still (alc_org_id a) (alc_mode a) (alc_chain a) w).
  destruct (treasuryDepositsMicros _ _ _ w) as [[d|e] w1]; cbn [fst snd]; intros ->; [|done].
  unfold bind at 1. generalize (held_still a w).
  destruct (otherAgentsOnChainMicros a w) as [[h|e] w1']; cbn [fst snd]; intros ->; [|done].
  set (z := if _ <? _ then _ else _).
  assert ((z <=? 0) = (topup_amount a raw d h <=? 0) /\ (0 < z -> z = topup_amount a raw d h)) as [Hz1 Hz2].
  { unfold z, topup_amount.
    ltb_cases;
      (split; [|lia]);
      match goal with |- ?x = ?y => destruct x eqn:E1; destruct y eqn:E2; try done; bsimpl; lia end. }
  rewrite Hz1. destruct (topup_amount a raw d h <=? 0) eqn:Ez; [done|]. bsimpl.
  assert (0 < z) as Hz by (destruct (Z.leb_spec z 0); [congruence|lia]).
  unfold bind, prefixedId, get_now, lift, money_column. rewrite parse_formatUsdc6 by lia. cbn zeta iota.
  by rewrite (Hz2 Hz).
Qed.

Lemma evaluate_run a address w : amounts_ok a ->
  evaluateSingleTopUp a address w =
  match chain_balance w address (alc_chain a) (alc_mode a) with
  | Err e => (Err e, w)
  | Ok raw =>
      if alc_low_water_mark_usdc a <=? Z.max 0 (raw - alc_gas_reserve_usdc a) then (Ok tt, w)
      else if alc_ceiling_usdc a <=? raw then (Ok tt, w)
      else withTransaction (queue_topup a raw (alc_ceiling_usdc a - raw)) w
  end.
Proof.
  intros [Ha Hg Hl Hc]. unfold evaluateSingleTopUp. unfold bind at 1, nativeBalanceMicros.
  destruct (chain_balance _ _ _ _) as [raw|e]; [|done].
  rewrite (parse_numeric_text _ Hg), (parse_numeric_text _ Hl), (parse_numeric_text _ Hc).
  rewrite (bind_run _ _ w (alc_gas_reserve_usdc a) w eq_refl), (bind_run _ _ w (alc_low_water_mark_usdc a) w eq_refl).
  cbv zeta. replace (if alc_gas_reserve_usdc a <? raw then raw - alc_gas_reserve_usdc a else 0)
    with (Z.max 0 (raw - alc_gas_reserve_usdc a)) by (destruct (Z.ltb_spec (alc_gas_reserve_usdc a) raw); lia).
  destruct (_ <=? _); [done|]. rewrite (bind_run _ _ w (alc_ceiling_usdc a) w eq_refl). cbv zeta.
  destruct (Z.ltb_spec raw (alc_ceiling_usdc a)).
  - replace (alc_ceiling_usdc a - raw <=? 0) with false by (symmetry; apply Z.leb_gt; lia).
    by replace (alc_ceiling_usdc a <=? raw) with false by (symmetry; apply Z.leb_gt; lia).
  - cbn. by replace (alc_ceiling_usdc a <=? raw) with true by (symmetry; apply Z.leb_le; lia).
Qed.
End Evaluate.

(** ** Revocation *)

Section Revoke.
Context {CO : Collation} {SH : Sha256} {home : string -> string}.
Notation side := (sound jobs_ok aside).

Lemma allocations_revoked A R p now :
  allocations_ok home A R ->
  let A' := update_rows p (fun r => set_alc_status Allocation_revoked (set_alc_updated_at now r)) A in
  allocations_ok home A' R /\ allocations_on A A'.
Proof.
  intros Hok A'. split; [constructor|].
  - by apply keyed_update; [|apply Hok].
  - by apply keyed_update; [|apply Hok].
  - intros x (x0 & Hx0 & ->)%in_update_rows. destruct (p x0); exact (al_home _ _ _ Hok x0 Hx0).
  - intros x (x0 & Hx0 & ->)%in_update_rows. destruct (p x0); exact (al_nonneg _ _ _ Hok x0 Hx0).
  - intros o m c. etrans; [|apply (al_solvent _ _ _ Hok)]. unfold allocated_in, A'. rewrite update_rows_map.
    pose proof (al_nonneg _ _ _ Hok) as Hn. clear Hok A'. induction A as [|r A IH]; cbn; [lia|].
    assert (forall r, In r A -> 0 <= alc_allocated_usdc r) as Hn' by (intros; apply Hn; by right). specialize (IH Hn').
    specialize (Hn r (or_introl eq_refl)). destruct (p r).
    + replace (in_treasury o m c (set_alc_status _ _)) with false by (unfold in_treasury; cbn; by rewrite andb_false_r).
      destruct (in_treasury o m c r); lia.
    + destruct (in_treasury o m c r); lia.
  - intros r Hr. eexists. split; [apply in_update_rows; by exists r|]. by destruct (p r).
Qed.

Lemma side_insert j : is_topup j = false -> side (insert T_circle_provider_jobs j).
Proof.
  intros Hj w [K Hc]. unfold insert. destruct (check T_circle_provider_jobs j) eqn:Ec; cbn [negb]; [|done].
  destruct (existsb _ _) eqn:Ex; [done|]. unfold jobs_ok, jobs_checked, aside, topups. cbn. rewrite db_set_same, db_set_other by done.
  split; [split|split; [|done]].
  - apply keyed_insert; [|done]. intros (x & E & Hx)%in_map_iff.
    assert (existsb (clash T_circle_provider_jobs j) (w_db w T_circle_provider_jobs) = true) as H'; [|congruence].
    apply existsb_exists. exists x. split; [done|]. cbn. unfold job_clash. by rewrite E, eqs_refl.
  - intros x [Hx|[<-|[]]]%in_app_iff; [by apply Hc|done].
  - rewrite where_app. cbn. rewrite Hj. apply app_nil_r.
Qed.

Lemma side_jobs_bind {A B} (m : M A) (k : A -> M B) : side m -> (forall a, side (k a)) -> side (bind m k).
Proof. apply sound_bind, aside_trans. Qed.

Lemma side_jobs_keeps {A} (m : M A) : keeps T_circle_provider_jobs m -> keeps T_ledger_postings m -> side m.
Proof.
  intros HJ HP w. specialize (HJ w). specialize (HP w). unfold jobs_ok, jobs_checked, aside, topups.
  rewrite HJ, HP. auto.
Qed.

Lemma queue_sweep_side o a reason actor m wallet : side (queue_sweep o a reason actor m wallet).
Proof.
  unfold queue_sweep. do 2 (apply side_jobs_bind; [apply side_jobs_keeps; solve_keeps|intros ?]). by apply side_insert.
Qed.

Lemma revoke_side operator o a m reason : side (revokeAgent operator o a m reason).
Proof.
  unfold revokeAgent. apply sound_transaction; [apply aside_refl|].
  do 5 (apply side_jobs_bind; [apply side_jobs_keeps; solve_keeps|intros ?]).
  apply side_jobs_bind; [|intros ?].
  { apply sound_for_each; [apply aside_refl|apply aside_trans|]. intros ? wallet. apply queue_sweep_side. }
  apply side_jobs_bind; [apply side_jobs_keeps; by apply recordAuditEvent_keeps|intros ?].
  apply side_jobs_keeps; solve_keeps.
Qed.

Lemma revoke_made operator o a m reason : made_of apart_call (fun _ => true) (revokeAgent operator o a m reason).
Proof.
  unfold revokeAgent. apply made_transaction. do 5 (apply made_bind; [solve_made|intros ?]).
  apply made_bind; [unfold queue_sweep; solve_made|intros ?]. apply made_bind; [|intros ?; solve_made].
  eapply made_weaken; [done|done|]. apply audit_made.
Qed.

(** A sweep is queued for each wallet. *)
Definition sweeps (o a reason actor : string) (m : PaymentMode) (chain : PaymentChain) (j : CircleProviderJobRow) : Prop :=
  exists id now, j = sweep_row o a reason actor id m chain now.

Lemma queue_sweeps_ok o a reason actor m L : forall w x w',
  for_each (fun (_ : unit) wallet => queue_sweep o a reason actor m wallet) L tt w = (Ok x, w') ->
  exists l, w_db w' T_circle_provider_jobs = w_db w T_circle_provider_jobs ++ l /\
  (forall t, t <> T_circle_provider_jobs -> w_db w' t = w_db w t) /\
  Forall2 (fun wallet j => sweeps o a reason actor m (acw_chain wallet) j) L l.
Proof.
  induction L as [|wallet L IH]; intros w x w' E; cbn in E.
  { runs E. exists []. by rewrite app_nil_r. }
  apply bind_ok in E as ([] & w1 & E1 & E). unfold queue_sweep in E1. runs E1. apply IH in E as (l & -> & Ht & Hl).
  exists (sweep_row o a reason actor a0 m (acw_chain wallet) (w_now w0) :: l). split; [|split; [|constructor; [by eexists _, _|done]]].
  - tables. by rewrite <-app_assoc.
  - intros t Hne. rewrite Ht by done. match goal with H : w_db w1 = _ |- _ => rewrite H end.
    rewrite db_set_other by congruence. congruence.
Qed.

(** The event is in the log. *)
Lemma recorded_event i k w e w' : in_idempotencyKey i = Some k -> recordAuditEvent i w = (Ok e, w') ->
  In e (w_db w' T_audit_events) /\ ae_org_id e = in_orgId i /\ ae_idempotency_key e = Some k.
Proof.
  intros Hk E. unfold recordAuditEvent in E. rewrite Hk in E. apply bind_ok in E as (h & w1 & E1 & E). runs E1.
  apply bind_ok in E as (ex & w1 & E1 & E). apply select_one_ok in E1 as [Ex ->]. destruct ex as [r|].
  - runs E. symmetry in Ex. apply where_head in Ex as [Hin Hp]. bsimpl. done.
  - unfold append_event in E. runs E. tables. split; [|done]. apply in_app_iff. right. by left.
Qed.

(** What a revocation that succeeds has done. *)
Record revoked_in (operator : OperatorContext) (o a : string) (m : PaymentMode) (reason : string) (db db' : Db) : Prop :=
  mkRevokedIn {
  rv_suspended : forall r, In r (db' T_agents) -> ag_id r = a -> ag_org_id r = o -> ag_status r = "suspended"%string;
  rv_known : exists r, In r (db' T_agents) /\ ag_id r = a /\ ag_org_id r = o;
  rv_allocations : forall r, In r (db' T_agent_allocations) -> alc_agent_id r = a -> alc_mode r = m ->
    alc_status r = Allocation_revoked;
  rv_sweeps : exists l, db' T_circle_provider_jobs = db T_circle_provider_jobs ++ l /\
    Forall2 (fun wallet j => sweeps o a reason (op_actorId operator) m (acw_chain wallet) j)
      (where_ (agent_wallets a m) (db T_agent_chain_wallets)) l;
  rv_audited : exists e, In e (db' T_audit_events) /\ ae_org_id e = o /\
    ae_idempotency_key e = Some ("agent.revoked:" +:+ a)%string
}.

Lemma revoke_ok operator o a m reason w x w' :
  revokeAgent operator o a m reason w = (Ok x, w') ->
  revoked_in operator o a m reason (w_db w) (w_db w') /\
  w_db w' T_agent_allocations
  = update_rows (fun r => (alc_agent_id r =s a) && bool_decide (alc_mode r = m) && bool_decide (alc_status r = Allocation_active))
      (fun r => set_alc_status Allocation_revoked (set_alc_updated_at (w_now w) r)) (w_db w T_agent_allocations).
Proof.
  unfold revokeAgent. intros E. runs E.
  match goal with H : for_each _ _ _ _ = _ |- _ => apply queue_sweeps_ok in H as (l & Hl & Ht & Fl) end.
  match goal with H : recordAuditEvent _ _ = _ |- _ =>
    pose proof H as Haud; apply (recorded_event _ ("agent.revoked:" +:+ a)%string) in Haud as (He1 & He2 & He3); [|done];
    pose proof (fun t H1 H2 => keeps_run t _ _ _ _ (recordAuditEvent_keeps t _ H1 H2) H) as Hkeep end.
  assert (forall t, t <> T_audit_events -> t <> T_audit_event_heads -> w_db w3 t = w_db w2 t) as Hk by auto. clear Hkeep.
  assert (w_db w3 T_agents = update_rows (fun r => (ag_id r =s a) && (ag_org_id r =s o)) (set_ag_status "suspended")
    (w_db w T_agents)) as HA by (rewrite Hk, Ht by done; by tables).
  assert (w_db w3 T_agent_allocations = update_rows (fun r => (alc_agent_id r =s a) && bool_decide (alc_mode r = m)
    && bool_decide (alc_status r = Allocation_active))
      (fun r => set_alc_status Allocation_revoked (set_alc_updated_at (w_now w) r)) (w_db w T_agent_allocations)) as HL
    by (rewrite Hk, Ht by done; tables; match goal with H : w_now ?x = w_now w |- _ => by rewrite H end).
  split; [constructor|exact HL].
  - rewrite HA. intros r (r0 & Hr0 & ->)%in_update_rows. destruct (_ && _) eqn:Eb; [done|]. intros E1 E2.
    by rewrite E1, E2, !eqs_refl in Eb.
  - match goal with H : head _ = Some _ |- _ => rename H into Hh end.
    destruct (where_ _ (w_db w T_agents)) as [|r0 l0] eqn:Ew; [done|].
    assert (In r0 (r0 :: l0)) as Hr0 by (by left). rewrite <-Ew in Hr0. apply where_in in Hr0 as [Hr0 Hp].
    exists (set_ag_status "suspended" r0). rewrite HA. split; [|by bsimpl]. apply in_update_rows. exists r0.
    split; [done|]. by rewrite Hp.
  - rewrite HL. intros r (r0 & Hr0 & ->)%in_update_rows. destruct (_ && _) eqn:Eb; [done|]. intros E1 E2.
    rewrite E1, E2, eqs_refl, bool_decide_eq_true_2 in Eb by done. cbn in Eb. bdec. by destruct (alc_status r0).
  - exists l. rewrite Hk by done. rewrite Hl. tables.
    match type of Fl with context [where_ _ (w_db ?x T_agent_chain_wallets)] =>
      replace (w_db x T_agent_chain_wallets) with (w_db w T_agent_chain_wallets) in Fl by (by tables) end. done.
  - by exists a2.
Qed.
End Revoke.

(** ** The fleet among the work of the platform *)

Section Fleet.
Context {CO : Collation} {SH : Sha256} {CB : ChainBalances} {TB : TreasuryBalances} {TP : TreasuryProvider}.
Context {WF : WalletFactory} (home : string -> string).

(** A world, and the deposits that were read. *)
Record Fleet : Type := mkFleet {
  fl_world : World;
  fl_readings : list Reading
}.

(** The jobs on agent wallets run in the one worker, which takes those that
    are queued. *)
Inductive fstep : Fleet -> Fleet -> Prop :=
| f_reads o m c d w w' R :
    treasuryDepositsMicros o m c w = (Ok d, w') -> fstep (mkFleet w R) (mkFleet w' (mkReading o m c d :: R))
| f_allocates input d w r w' R :
    In (mkReading (sa_orgId input) (sa_mode input) (sa_chain input) d) R -> sa_orgId input = home (sa_agentId input) ->
    withTransaction (write_allocation input d) w = (r, w') -> fstep (mkFleet w R) (mkFleet w' R)
| f_revokes operator o a m reason w r w' R :
    revokeAgent operator o a m reason w = (r, w') -> fstep (mkFleet w R) (mkFleet w' R)
| f_evaluates a address w r w' R :
    allocation_check a = true -> evaluateSingleTopUp a address w = (r, w') -> fstep (mkFleet w R) (mkFleet w' R)
| f_tops_up j w r w' R :
    In j (w_db w T_circle_provider_jobs) -> is_topup j = true -> cpj_status j = Job_queued ->
    processAgentWalletTopUpJob (cpj_id j) w = (r, w') -> fstep (mkFleet w R) (mkFleet w' R)
| f_sweeps jobId gas w r w' R :
    processAgentWalletSweepJob jobId gas w = (r, w') -> fstep (mkFleet w R) (mkFleet w' R)
| f_creates jobId w r w' R :
    processAgentWalletCreateJob jobId w = (r, w') -> fstep (mkFleet w R) (mkFleet w' R)
| f_other w w' l R :
    w_db w' T_agent_allocations = w_db w T_agent_allocations -> jobs_ok (w_db w') -> aside (w_db w) (w_db w') ->
    w_calls w' = w_calls w ++ l -> Forall apart_call l -> fstep (mkFleet w R) (mkFleet w' R).

Record fleet_ok (f : Fleet) : Prop := mkFleetOk {
  fk_allocations : allocations_ok home (w_db (fl_world f) T_agent_allocations) (fl_readings f);
  fk_topups : topups_ok (fl_world f)
}.

Lemma check_amounts a : allocation_check a = true -> amounts_ok a.
Proof. unfold allocation_check. intros H. bsimpl. by constructor. Qed.

Lemma topup_row_open a id z now o b m c :
  open_topup o b m c (topup_row a id z now) = true -> o = alc_org_id a /\ b = alc_agent_id a /\ m = alc_mode a /\ c = alc_chain a.
Proof.
  unfold open_topup. cbn -[String.eqb]. intros H. bdec. cbn in *. repeat split; congruence.
Qed.

Lemma where_sub {row} (p q : row -> bool) t :
  (forall r, p r = true -> q r = true) -> where_ p (where_ q t) = where_ p t.
Proof.
  intros H. induction t as [|r t IH]; cbn; [done|]. destruct (q r) eqn:Eq; cbn; rewrite IH; [done|].
  destruct (p r) eqn:Ep; [|done]. rewrite H in Eq; done.
Qed.

Lemma open_is_topup o a m c r : open_topup o a m c r = true -> is_topup r = true.
Proof. unfold open_topup, is_topup. intros H. bsimpl. by apply eqs_spec. Qed.

Lemma queue_ok a raw w r w' : amounts_ok a -> raw < alc_ceiling_usdc a ->
  queue_topup a raw (alc_ceiling_usdc a - raw) w = (r, w') -> topups_ok w -> topups_ok w'.
Proof.
  intros Ha Hr E Hok. rewrite queue_topup_run in E by done.
  destruct (pending_topups a w) eqn:Ep; [|by injection E as _ <-].
  destruct (deposits_read a w) as [d|]; [|by injection E as _ <-].
  destruct (held_by_others a w) as [h|]; [|by injection E as _ <-].
  cbv zeta in E. destruct (_ <=? 0) eqn:Ez; [by injection E as _ <-|]. unfold insert in E. cbn [next_id w_db with_db] in E.
  set (j := topup_row _ _ _ _) in E. destruct (check T_circle_provider_jobs j) eqn:Ec; cbn [negb] in E.
  2: { injection E as _ <-. by destruct Hok. }
  destruct (existsb _ _) eqn:Ex; injection E as _ <-; [by destruct Hok|]. destruct Hok as [K Hc B].
  assert (~ In (cpj_id j) (map cpj_id (w_db w T_circle_provider_jobs))) as Hid.
  { intros (x & E & Hx)%in_map_iff. assert (existsb (clash T_circle_provider_jobs j) (w_db w T_circle_provider_jobs) = true); [|congruence].
    apply existsb_exists. exists x. split; [done|]. cbn [clash]. unfold job_clash. by rewrite E, eqs_refl. }
  constructor; cbn [w_db with_db w_calls]; unfold topups; rewrite ?db_set_same, ?db_set_other by done.
  - by apply keyed_insert.
  - intros x [Hx|[<-|[]]]%in_app_iff; [by apply Hc|done].
  - rewrite where_app. cbn [where_]. bsimpl.
    apply (books_queued _ _ _ j (topup_amount a raw d h) B); [|done|done|done|].
    + intros (x & E & [Hx _]%where_in)%in_map_iff. apply Hid, in_map_iff. by exists x.
    + intros o b m c (-> & -> & -> & ->)%topup_row_open. unfold topups. rewrite where_sub; [exact Ep|]. apply open_is_topup.
Qed.

Lemma evaluate_ok a address w r w' : amounts_ok a ->
  evaluateSingleTopUp a address w = (r, w') -> topups_ok w -> topups_ok w'.
Proof.
  intros Ha E Hok. rewrite evaluate_run in E by done. destruct (chain_balance _ _ _ _); [|by injection E as _ <-].
  destruct (_ <=? _); [by injection E as _ <-|]. destruct (_ <=? _) eqn:El; [by injection E as _ <-|]. bsimpl.
  unfold withTransaction in E. destruct (queue_topup _ _ _ _) as [[u|e] w1] eqn:Eq; injection E as _ <-.
  - by eapply queue_ok.
  - assert (topups_ok w1) as Hok1 by (by eapply queue_ok). rewrite queue_topup_run in Eq by done.
    assert (w_db w1 = w_db w /\ w_calls w1 = w_calls w) as [HD HC].
    { repeat match type of Eq with (match ?x with _ => _ end) = _ => destruct x end; try by injection Eq as _ <-.
      cbv zeta in Eq. destruct (_ <=? 0); [done|]. apply insert_err in Eq as ->. done. }
    destruct Hok. constructor; cbn; [done..|]. by rewrite HC.
Qed.

Lemma evaluate_keeps a address t : amounts_ok a -> t <> T_circle_provider_jobs ->
  keeps t (evaluateSingleTopUp a address).
Proof.
  intros Ha Ht w. rewrite evaluate_run by done. destruct (chain_balance _ _ _ _); [|done].
  destruct (_ <=? _); [done|]. destruct (_ <=? _) eqn:El; [done|]. bsimpl.
  apply keeps_transaction. intros w1. rewrite queue_topup_run by done.
  destruct (pending_topups a w1); [|done]. destruct (deposits_read a w1); [|done].
  destruct (held_by_others a w1); [|done]. cbv zeta. destruct (_ <=? 0); [done|].
  refine (keeps_insert t T_circle_provider_jobs _ _ (next_id w1)). congruence.
Qed.

(** The jobs leave the allocations alone. *)
#[local] Hint Resolve transferWallet_keeps createWallet_keeps treasuryAddress_keeps findAgentWallet_keeps
  nativeBalance_keeps writePosting_keeps : keeps.

Lemma failed_keeps id code t : t <> T_circle_provider_jobs -> keeps t (job_failed id code).
Proof. intros Ht. unfold job_failed. solve_keeps. Qed.
Lemma complete_keeps id ref t : t <> T_circle_provider_jobs -> keeps t (job_complete id ref).
Proof. intros Ht. unfold job_complete. solve_keeps. Qed.
#[local] Hint Resolve failed_keeps complete_keeps : keeps.

Lemma tops_up_keeps id : keeps T_agent_allocations (processAgentWalletTopUpJob id).
Proof. unfold processAgentWalletTopUpJob, find_job, or_failed, topup_job. solve_keeps. Qed.
Lemma sweeps_keeps id gas : keeps T_agent_allocations (processAgentWalletSweepJob id gas).
Proof. unfold processAgentWalletSweepJob, find_job, or_failed, sweep_job, swept_job. solve_keeps. Qed.
Lemma creates_keeps id : keeps T_agent_allocations (processAgentWalletCreateJob id).
Proof.
  unfold processAgentWalletCreateJob, find_job, or_failed, create_job, circleBlockchainForChain, findAnyAgentWallet,
    recordProvisionedWallet. solve_keeps.
Qed.

Lemma write_keeps input d t : t <> T_agent_allocations -> keeps t (write_allocation input d).
Proof. intros Ht. unfold write_allocation, upsert_allocation. solve_keeps. Qed.

Lemma write_calls input d w r w' : write_allocation input d w = (r, w') -> w_calls w' = w_calls w.
Proof.
  intros E. assert (made_of (fun _ => False) (fun _ => true) (write_allocation input d)) as Hm
    by (unfold write_allocation, upsert_allocation; solve_made).
  destruct (af_calls _ _ _ (made_after _ _ _ Hm w)) as (l & El & Fl). rewrite E in El. cbn in El.
  destruct Fl; [by rewrite app_nil_r in El|done].
Qed.

Lemma topups_same w w' : topups_ok w -> w_db w' T_circle_provider_jobs = w_db w T_circle_provider_jobs ->
  w_db w' T_ledger_postings = w_db w T_ledger_postings -> w_calls w' = w_calls w -> topups_ok w'.
Proof. intros [K Hc B] E1 E2 E3. constructor; unfold topups in *; rewrite ?E1, ?E2, ?E3; done. Qed.

Lemma allocations_same A A' R : allocations_ok home A R -> A' = A ->
  allocations_ok home A' R /\ allocations_on A A'.
Proof. intros Hok ->. split; [done|apply allocations_on_refl]. Qed.

Lemma fstep_ok f f' : fstep f f' -> fleet_ok f ->
  fleet_ok f' /\ allocations_on (w_db (fl_world f) T_agent_allocations) (w_db (fl_world f') T_agent_allocations).
Proof.
  assert (forall w w' R', allocations_ok home (w_db w' T_agent_allocations) R' /\
    allocations_on (w_db w T_agent_allocations) (w_db w' T_agent_allocations) -> topups_ok w' ->
    fleet_ok (mkFleet w' R') /\ allocations_on (w_db w T_agent_allocations) (w_db w' T_agent_allocations)) as Hdone
    by (intros w w' R' [H1 H2] H3; done).
  intros [o m c d w w' R E|input d w r w' R Hd Hh E|operator o a m reason w r w' R E|a address w r w' R Ha E
    |j w r w' R Hj Ht Hq E|jobId gas w r w' R E|jobId w r w' R E|w w' l R HA HJ HT EC Hl] [HokA HokT];
    cbn [fl_world fl_readings] in *; apply Hdone.
  - pose proof (deposits_still o m c w) as Hs. rewrite E in Hs. cbn in Hs. subst w'.
    split; [|apply allocations_on_refl]. destruct HokA as [K1 K2 Hh Hn Hs]. constructor; [done..|].
    intros o' m' c'. etrans; [apply Hs|apply best_more].
  - pose proof (deposits_still o m c w) as Hs. rewrite E in Hs. cbn in Hs. by subst w'.
  - destruct r as [row|e].
    + apply transaction_ok in E. eapply write_allocation_ok; try eassumption. by eapply best_read.
    + apply transaction_err in E. apply allocations_same; [done|]. by rewrite E.
  - unfold withTransaction in E. destruct (write_allocation input d w) as [[row|e] w1] eqn:E1; injection E as _ <-;
      pose proof (write_calls _ _ _ _ _ E1) as HC.
    + assert (forall t, t <> T_agent_allocations -> w_db w1 t = w_db w t) as Hk
        by (intros t Ht; by apply (keeps_run _ _ _ _ _ (write_keeps input d t Ht) E1)).
      eapply topups_same; [exact HokT|by apply Hk|by apply Hk|done].
    + by eapply topups_same; [exact HokT| | |].
  - destruct r as [x|e].
    + apply revoke_ok in E as [_ E]. rewrite E. by apply allocations_revoked.
    + apply transaction_err in E. apply allocations_same; [done|]. by rewrite E.
  - eapply (apart_run jobs_ok); [done|apply revoke_side|apply revoke_made| |exact E|done]. by destruct HokT.
  - apply allocations_same; [done|]. by apply (keeps_run _ _ _ _ _ (evaluate_keeps a address T_agent_allocations (check_amounts _ Ha) ltac:(discriminate)) E).
  - eapply evaluate_ok; [by apply check_amounts|done..].
  - apply allocations_same; [done|]. apply (keeps_run _ _ _ _ _ (tops_up_keeps _) E).
  - by eapply topup_processed.
  - apply allocations_same; [done|]. apply (keeps_run _ _ _ _ _ (sweeps_keeps _ _) E).
  - by eapply sweep_processed.
  - apply allocations_same; [done|]. apply (keeps_run _ _ _ _ _ (creates_keeps _) E).
  - by eapply wallet_created.
  - by apply allocations_same.
  - by eapply aside_ok.
Qed.

Lemma fleet_run f f' : rtc fstep f f' -> fleet_ok f ->
  fleet_ok f' /\ allocations_on (w_db (fl_world f) T_agent_allocations) (w_db (fl_world f') T_agent_allocations).
Proof.
  induction 1 as [f|f1 f2 f3 Hs _ IH]; intros Hok; [split; [done|apply allocations_on_refl]|].
  destruct (fstep_ok _ _ Hs Hok) as [H2 G2]. destruct (IH H2) as [H3 G3]. split; [done|]. by eapply allocations_on_trans.
Qed.

(** [setAllocation] and [applyReputationAdjustment] are a reading and a write;
    the evaluation of the top-ups is a sequence of its steps. *)
Lemma set_is_a_run input w r w' R :
  sa_orgId input = home (sa_agentId input) -> setAllocation input w = (r, w') ->
  exists R', rtc fstep (mkFleet w R) (mkFleet w' R').
Proof.
  intros Hh E. unfold setAllocation in E. apply bind_cases in E as [(e & E & _)|(d & w1 & E1 & E)].
  - exists R. pose proof (deposits_still (sa_orgId input) (sa_mode input) (sa_chain input) w) as Hs. rewrite E in Hs.
    cbn in Hs. by subst w'.
  - exists (mkReading (sa_orgId input) (sa_mode input) (sa_chain input) d :: R).
    eapply rtc_l; [by eapply f_reads|]. apply rtc_once. eapply f_allocates; [by left|done|exact E].
Qed.

Lemma adjustment_is_a_run input w r w' R :
  ar_orgId input = home (ar_agentId input) -> applyReputationAdjustment input w = (r, w') ->
  exists R', rtc fstep (mkFleet w R) (mkFleet w' R').
Proof.
  intros Hh E. unfold applyReputationAdjustment in E.
  assert (forall A (m : M A) w1 (r1 : Res A) w2, (forall w, snd (m w) = w) -> m w1 = (r1, w2) -> w2 = w1) as Hstill
    by (intros A m w1 r1 w2 Hm Em; specialize (Hm w1); by rewrite Em in Hm).
  do 6 (apply bind_cases in E as [(e & E1 & _)|(? & ? & E1 & E)];
    (apply Hstill in E1; [subst|solve [intros ?; unfold lift, some_or, select_one, bind, select, ret;
       repeat match goal with |- context [match ?x with _ => _ end] => destruct x end; done]]); [by exists R|]).
  by eapply set_is_a_run; [|exact E].
Qed.

(** C11: The fleet is solvent.  However allocations are set, adjusted and
    revoked, in whatever order and however each handler ends, between the
    reading of the deposits and the write too: what is allocated to the active
    agents of a treasury never exceeds the highest deposits that were read of
    it, and a revoked allocation is never active again, when every agent is
    given allocations by its own organisation alone (the code does not check
    that it is). *)
Theorem allocations_stay_within_deposits f f' :
  rtc fstep f f' -> fleet_ok f ->
  (forall o m c, allocated_in o m c (w_db (fl_world f') T_agent_allocations) <= best (fl_readings f') o m c) /\
  forall r, In r (w_db (fl_world f) T_agent_allocations) ->
    exists r', In r' (w_db (fl_world f') T_agent_allocations) /\ stays r r'.
Proof. intros Hr Hok. destruct (fleet_run _ _ Hr Hok) as [[[_ _ _ _ Hs] _] Hon]. done. Qed.

(** C10: A top-up is transferred once and booked once.  In every run of the one
    worker beside the rest of the platform, however each job ends: a queued
    top-up has moved nothing; a complete one was transferred exactly once, of
    its amount, and has exactly one posting, of that amount; a failed one was
    transferred at most once, and not booked; and an agent has at most one open
    top-up per chain. *)
Theorem topups_are_sent_once f f' :
  rtc fstep f f' -> fleet_ok f ->
  (forall j, In j (w_db (fl_world f') T_circle_provider_jobs) -> is_topup j = true ->
     job_books j (w_calls (fl_world f')) (w_db (fl_world f') T_ledger_postings)) /\
  (forall o a m c, (length (where_ (open_topup o a m c) (w_db (fl_world f') T_circle_provider_jobs)) <= 1)%nat).
Proof.
  intros Hr Hok. destruct (fleet_run _ _ Hr Hok) as [[_ [_ _ B]] _]. split.
  - intros j Hj Ht. apply (bk_each _ _ _ B), where_in. auto.
  - intros o a m c. rewrite <-(where_sub _ is_topup); [apply (bk_one _ _ _ B)|apply open_is_topup].
Qed.

(** C12: A revoked agent keeps no budget.  A revocation that returns has
    suspended the agent, revoked every allocation it had in the mode, queued a
    sweep of each of its active wallets and recorded the event; and whatever
    runs afterwards, none of these allocations is active again.  One that throws
    has changed nothing. *)
Theorem revoked_agent_keeps_no_budget operator o a m reason w r w1 R f' :
  revokeAgent operator o a m reason w = (r, w1) -> fleet_ok (mkFleet w R) -> rtc fstep (mkFleet w1 R) f' ->
  match r with
  | Ok _ =>
      revoked_in operator o a m reason (w_db w) (w_db w1) /\
      forall x, In x (w_db w T_agent_allocations) -> alc_agent_id x = a -> alc_mode x = m ->
        exists y, In y (w_db (fl_world f') T_agent_allocations) /\ alc_id y = alc_id x /\ slot y = slot x /\
          alc_status y = Allocation_revoked
  | Err _ => w_db w1 = w_db w
  end.
Proof.
  intros E Hok Hr. assert (fleet_ok (mkFleet w1 R)) as Hok1 by (by apply (fstep_ok _ _ (f_revokes _ _ _ _ _ _ _ _ _ E) Hok)).
  destruct r as [x|e]; [|by apply transaction_err in E]. destruct (revoke_ok _ _ _ _ _ _ _ _ E) as [Hrev HA].
  split; [done|]. intros y Hy Ea Em. destruct (fleet_run _ _ Hr Hok1) as [_ Hon].
  destruct (allocations_revoked _ R (fun r => (alc_agent_id r =s a) && bool_decide (alc_mode r = m)
    && bool_decide (alc_status r = Allocation_active)) (w_now w) (fk_allocations _ Hok)) as [_ Hon1].
  cbn [fl_world] in Hon1, Hon. rewrite <-HA in Hon1. destruct (Hon1 y Hy) as (y1 & Hy1 & I1 & _ & S1 & _).
  destruct (Hon y1 Hy1) as (y2 & Hy2 & I2 & _ & S2 & Hre). exists y2. split; [done|]. split; [congruence|].
  split; [congruence|]. apply Hre. apply (rv_allocations _ _ _ _ _ _ _ Hrev y1 Hy1); unfold slot in S1; congruence.
Qed.
End Fleet.

(** ** A fleet of one *)

#[local] Instance fleet_chain : ChainBalances := fun _ _ _ _ => Ok 1000000.
#[local] Instance sample_factory : WalletFactory := fun _ _ => Ok ("0xa1"%string, "w_9"%string).

Definition sample_home (agent : string) : string := "org_1".

Definition sample_agent_wallet : AgentChainWalletRow :=
  mkAgentChainWalletRow "acw_1" "org_1" "agt_1" mode_test Chain_base "w_9" "0xa1" "active" (Some 0).
Definition fleet_world : World :=
  mkWorld (db_set T_agent_chain_wallets [sample_agent_wallet] sample_db) 1000000 0 [].

Definition sample_allocation : SetAllocationInput :=
  mkSetAllocation "org_1" "agt_1" mode_test Chain_base "3" (Some "0.5"%string) (Some "2"%string) (Some "4"%string) "usr_1".
Definition sample_reading : Reading := mkReading "org_1" mode_test Chain_base 5000000.

Definition allocated_world : World := run_m (withTransaction (write_allocation sample_allocation 5000000)) fleet_world.
Definition sample_allocated : AgentAllocationRow :=
  mkAgentAllocationRow "aalloc_0" "org_1" "agt_1" mode_test Chain_base 3000000 500000 2000000 4000000 Allocation_active
    "usr_1" 1000000.
Definition queued_world : World := run_m (evaluateSingleTopUp sample_allocated "0xa1") allocated_world.
Definition topped_world : World := run_m (processAgentWalletTopUpJob "cjob_1") queued_world.

Lemma fleet_world_ok : fleet_ok sample_home (mkFleet fleet_world []).
Proof.
  assert (w_db fleet_world T_agent_allocations = []) as HA by reflexivity.
  assert (w_db fleet_world T_circle_provider_jobs = []) as HJ by reflexivity.
  assert (w_db fleet_world T_ledger_postings = []) as HP by reflexivity.
  constructor; cbn [fl_world fl_readings].
  - rewrite HA. split; [constructor|constructor|done|done|done].
  - split; unfold topups; rewrite ?HJ, ?HP; [constructor|done|].
    split; [constructor|intros; cbn; lia|done|done].
Qed.

Definition fleet_end (w : World) : Fleet := mkFleet w [sample_reading].

Lemma fleet_reads : fstep sample_home (mkFleet fleet_world []) (fleet_end fleet_world).
Proof. by apply f_reads. Qed.

Lemma fleet_allocates : fstep sample_home (fleet_end fleet_world) (fleet_end allocated_world).
Proof. eapply (f_allocates sample_home sample_allocation 5000000); [by left|done|apply surjective_pairing]. Qed.

Lemma fleet_evaluates : fstep sample_home (fleet_end allocated_world) (fleet_end queued_world).
Proof. eapply (f_evaluates sample_home sample_allocated "0xa1"); [reflexivity|apply surjective_pairing]. Qed.

(** The job of the top-up. *)
Definition sample_topup : CircleProviderJobRow := topup_row sample_allocated "cjob_1" 2000000 1000000.

Lemma queued_jobs : w_db queued_world T_circle_provider_jobs = [sample_topup].
Proof. vm_compute. reflexivity. Qed.

Lemma fleet_tops_up : fstep sample_home (fleet_end queued_world) (fleet_end topped_world).
Proof.
  eapply (f_tops_up sample_home sample_topup); [rewrite queued_jobs; by left|reflexivity|reflexivity|apply surjective_pairing].
Qed.

Lemma sample_fleet_run : rtc (fstep sample_home) (mkFleet fleet_world []) (fleet_end topped_world).
Proof.
  eapply rtc_l; [exact fleet_reads|]. eapply rtc_l; [exact fleet_allocates|]. eapply rtc_l; [exact fleet_evaluates|].
  apply rtc_once. exact fleet_tops_up.
Qed.

Lemma allocations_stay_within_deposits_witness :
  allocated_in "org_1" mode_test Chain_base (w_db topped_world T_agent_allocations) = 3000000 /\
  allocated_in "org_1" mode_test Chain_base (w_db topped_world T_agent_allocations) <= 5000000.
Proof.
  assert (allocated_in "org_1" mode_test Chain_base (w_db topped_world T_agent_allocations) = 3000000) as Hs
    by (vm_compute; reflexivity).
  generalize Hs, sample_fleet_run, fleet_world_ok. clear Hs. generalize topped_world as w'. generalize fleet_world as w.
  intros w w' Hs Hrun Hok. split; [exact Hs|].
  exact (proj1 (allocations_stay_within_deposits sample_home _ _ Hrun Hok) "org_1"%string mode_test Chain_base).
Defined.

Lemma topups_are_sent_once_witness : exists j,
  In j (w_db topped_world T_circle_provider_jobs) /\ cpj_status j = Job_complete /\
  job_books j (w_calls topped_world) (w_db topped_world T_ledger_postings).
Proof.
  assert (existsb (fun j => is_topup j && bool_decide (cpj_status j = Job_complete)) (w_db topped_world T_circle_provider_jobs)
    = true) as Hs by (vm_compute; reflexivity).
  generalize Hs, sample_fleet_run, fleet_world_ok. clear Hs. generalize topped_world as w'. generalize fleet_world as w.
  intros w w' (j & Hj & Hb)%existsb_exists Hrun Hok. bdec. exists j. split; [exact Hj|]. split; [done|].
  exact (proj1 (topups_are_sent_once sample_home _ _ Hrun Hok) j Hj ltac:(assumption)).
Defined.

Definition unfunded_world : World := run_m (revokeAgent sample_operator "org_1" "agt_1" mode_test "compromised") topped_world.

Lemma revoked_agent_keeps_no_budget_witness : exists y,
  In y (w_db unfunded_world T_agent_allocations) /\ alc_agent_id y = "agt_1"%string /\ alc_status y = Allocation_revoked.
Proof.
  assert (is_ok (fst (revokeAgent sample_operator "org_1" "agt_1" mode_test "compromised" topped_world)) = true) as Hrun
    by (vm_compute; reflexivity).
  assert (existsb (fun x => (alc_agent_id x =s "agt_1") && bool_decide (alc_mode x = mode_test))
    (w_db topped_world T_agent_allocations) = true) as Hx by (vm_compute; reflexivity).
  destruct (ok_run _ Hrun) as ([] & w' & E). clear Hrun.
  assert (unfunded_world = w') as -> by (unfold unfunded_world, run_m; by rewrite E).
  assert (fleet_ok sample_home (fleet_end topped_world)) as Hok by (apply (fleet_run _ _ _ sample_fleet_run fleet_world_ok)).
  generalize E, Hx, Hok. clear E Hx Hok. unfold fleet_end. generalize topped_world as w.
  intros w E (x & Hx & Hb)%existsb_exists Hok. bdec.
  destruct (revoked_agent_keeps_no_budget sample_home _ _ _ _ _ w (Ok tt) w' _ _ E Hok (rtc_refl _ _)) as [_ Hall].
  destruct (Hall x Hx ltac:(assumption) ltac:(assumption)) as (y & Hy & _ & Hs & Hst). exists y. split; [exact Hy|].
  split; [|done]. unfold slot in Hs. congruence.
Defined.
