(* ===== verification/FleetFunds.v ===== *)
(** How much the treasury moves: the clamps of a top-up, the bounds of an
    adjustment by reputation, the shortfall drawn when an agent pays. *)

From S2P Require Import Prelude Errors Usdc Json Identity Policy Quotes Doubles Schema Host Handlers AuditLog.
From S2P Require Import Ledger Attempts Accounts Chain Delegations Prepare Settlement Liquidity Fleet FleetJobs.
From S2P Require Import BudgetOps HandlersPay Samples FleetThms.
Import Digits.
Open Scope Z_scope.

(** ** Top-ups *)

Section TopUp.
Context {CB : ChainBalances} {TB : TreasuryBalances}.

(** The wallets of the other agents on a treasury, and what they hold. *)
Definition others_of (a : AgentAllocationRow) (w : World) : list (AgentAllocationRow * string) :=
  with_wallets (where_ (allocated_to_others (alc_org_id a) (alc_agent_id a) (alc_mode a) (alc_chain a))
                  (w_db w T_agent_allocations))
    (where_ (fun _ => true) (w_db w T_agent_chain_wallets)).

Definition hold (a : AgentAllocationRow) (w : World) (held : Z) : Prop :=
  exists l, Forall2 (fun other b => chain_balance w (snd other) (alc_chain a) (alc_mode a) = Ok b) (others_of a w) l /\
  held = fold_right Z.add 0 l.

Lemma held_hold a w held : held_by_others a w = Ok held -> hold a w held.
Proof.
  unfold held_by_others, otherAgentsOnChainMicros, allocations_with_wallets, hold.
  unfold bind at 1. unfold bind at 1, select. cbn zeta iota. unfold bind at 1, ret. cbn zeta iota.
  fold (others_of a w). assert (forall l total, fst (for_each (fun total other =>
      let* balance := nativeBalanceMicros (snd other) (alc_chain a) (alc_mode a) in ret (total + balance)) l total w) = Ok held ->
    exists bs, Forall2 (fun (other : AgentAllocationRow * string) b => chain_balance w (snd other) (alc_chain a) (alc_mode a) = Ok b) l bs /\
      held = total + fold_right Z.add 0 bs) as H.
  { induction l as [|x l IH]; intros total; cbn; [intros [= <-]; exists []; split; [constructor|cbn; lia]|].
    unfold bind at 1. unfold bind at 1, nativeBalanceMicros. destruct (chain_balance _ _ _ _) as [b|e] eqn:Eb; [|done].
    unfold ret. intros E. destruct (IH _ E) as (bs & Hb & ->). exists (b :: bs). split; [by constructor|cbn; lia]. }
  intros E. destruct (H _ _ E) as (bs & Hb & ->). by exists bs.
Qed.

(** C33: A top-up is clamped.  An evaluation that returns either queues nothing,
    because the spendable balance (the balance less the gas reserve) is not below
    the low-water mark, the ceiling is reached, a top-up is pending or nothing is
    left to give; or it queues one job, of exactly the smallest of what is
    missing to the ceiling, what is missing to the allocation, and the deposits
    of the treasury less what its other agents hold. *)
Theorem topup_is_clamped a address w w' :
  allocation_check a = true -> evaluateSingleTopUp a address w = (Ok tt, w') ->
  exists raw, chain_balance w address (alc_chain a) (alc_mode a) = Ok raw /\
  let spendable := Z.max 0 (raw - alc_gas_reserve_usdc a) in
  (w_db w' = w_db w /\
   (alc_low_water_mark_usdc a <= spendable \/ alc_ceiling_usdc a <= raw \/ pending_topups a w <> [] \/
    exists deposits held, deposits_read a w = Ok deposits /\ hold a w held /\ topup_amount a raw deposits held <= 0)) \/
  (spendable < alc_low_water_mark_usdc a /\ pending_topups a w = [] /\
   exists deposits held id, deposits_read a w = Ok deposits /\ hold a w held /\
   let z := topup_amount a raw deposits held in
   0 < z /\ raw + z <= alc_ceiling_usdc a /\ raw + z <= alc_allocated_usdc a /\ held + z <= deposits /\
   w_db w' T_circle_provider_jobs = w_db w T_circle_provider_jobs ++ [topup_row a id z (w_now w)]).
Proof.
  intros Ha%check_amounts E. rewrite evaluate_run in E by done.
  destruct (chain_balance _ _ _ _) as [raw|e]; [|done]. exists raw. split; [done|]. cbv zeta.
  destruct (_ <=? _) eqn:El; [injection E as <-; bsimpl; left; auto|].
  destruct (alc_ceiling_usdc a <=? raw) eqn:Ec; [injection E as <-; bsimpl; left; auto|]. bsimpl.
  apply transaction_ok in E. rewrite queue_topup_run in E by done.
  destruct (pending_topups a w) as [|j l] eqn:Ep; [|injection E as <-; left; auto].
  destruct (deposits_read a w) as [d|]; [|done]. destruct (held_by_others a w) as [h|] eqn:Eh; [|done].
  apply held_hold in Eh. cbv zeta in E. destruct (topup_amount a raw d h <=? 0) eqn:Ez; bsimpl.
  - injection E as <-. left. split; [done|]. do 3 right. by exists d, h.
  - right. split; [lia|]. split; [done|]. apply insert_ok in E as (_ & _ & ->).
    exists d, h, ("cjob_" +:+ to_string (w_next w))%string. split; [done|]. split; [done|].
    cbn [w_db with_db]. rewrite db_set_same. unfold topup_amount in *. repeat (split; [lia|]). done.
Qed.
End TopUp.

(** ** Reputation *)

(** [m * 2^e] is within half of the integer [q], upper halves excluded. *)
Definition rounds_to (m e q : Z) : Prop :=
  if 0 <=? e then q = m * 2 ^ e else (2 * q - 1) * 2 ^ (- e) <= 2 * m < (2 * q + 1) * 2 ^ (- e).

(** The reputation as a score from 0 to 100. *)
Inductive score : double -> Z -> Prop :=
| score_number m e q : rounds_to m e q -> score (Fin m e) (Z.max 0 (Z.min 100 q))
| score_inf : score PosInf 100
| score_neg_inf : score NegInf 0.

Lemma rounds_unique m e q q' : rounds_to m e q -> rounds_to m e q' -> q = q'.
Proof.
  unfold rounds_to. destruct (0 <=? e) eqn:E; [congruence|]. assert (0 < 2 ^ (- e)) by (apply Z.pow_pos_nonneg; lia). nia.
Qed.

Lemma math_round_rounds m e : rounds_to m e (math_round m e).
Proof.
  unfold rounds_to, math_round. destruct (0 <=? e) eqn:E; [done|].
  assert (0 < 2 ^ (- e)) as Hd by (apply Z.pow_pos_nonneg; lia). set (d := 2 ^ (- e)) in *.
  pose proof (Z.div_mod (2 * m + d) (2 * d) ltac:(lia)). pose proof (Z.mod_pos_bound (2 * m + d) (2 * d) ltac:(lia)). nia.
Qed.

Lemma score_bps r p : score r p -> reputation_bps r = Ok (p * 100) /\ 0 <= p <= 100.
Proof.
  intros [m e q H| |]; cbn; [|split; [done|lia]..]. rewrite (rounds_unique _ _ _ _ (math_round_rounds m e) H).
  split; [done|lia].
Qed.

(** The allocation a score implies between two bounds, and one step toward it. *)
Definition implied (floor ceiling p : Z) : Z := floor + (ceiling - floor) * p / 100.

Record steps_toward (current step target n : Z) : Prop := mkStepsToward {
  st_near : Z.abs (target - current) <= step -> n = target;
  st_up : current + step < target -> n = current + step;
  st_down : target < current - step -> n = current - step
}.

Lemma steps_mono current step t t' n n' :
  0 <= step -> t <= t' -> steps_toward current step t n -> steps_toward current step t' n' -> n <= n'.
Proof.
  intros Hs Ht [A1 A2 A3] [B1 B2 B3].
  destruct (Z.le_gt_cases (Z.abs (t - current)) step), (Z.le_gt_cases (Z.abs (t' - current)) step); lia.
Qed.

Lemma nextAllocation_run i p s :
  score (na_reputation i) p -> na_maxStepBps i = Fin s 0 -> 0 <= s -> 0 <= na_floor i <= na_ceiling i -> 0 <= na_current i ->
  exists moved, steps_toward (na_current i) (na_current i * s / 10000) (implied (na_floor i) (na_ceiling i) p) moved /\
    nextAllocation i = Ok (Z.max (na_floor i) (Z.min (na_ceiling i) moved)) /\
    na_floor i <= implied (na_floor i) (na_ceiling i) p <= na_ceiling i /\ 0 <= na_current i * s / 10000.
Proof.
  intros [Hp Hr]%score_bps Hs0 Hs Hf Hc. unfold nextAllocation. rewrite Hp, Hs0. cbn [res_bind step_bps math_round].
  change (math_round s 0) with (s * 1). rewrite Z.mul_1_r, (Z.max_r 0 s) by lia. unfold BPS_DENOMINATOR.
  rewrite !Z.quot_div_nonneg by nia.
  assert ((na_ceiling i - na_floor i) * (p * 100) / 10000 = (na_ceiling i - na_floor i) * p / 100) as ->.
  { rewrite Z.mul_assoc. change 10000 with (100 * 100). by rewrite Z.div_mul_cancel_r. }
  fold (implied (na_floor i) (na_ceiling i) p). set (step := _ * s / 10000).
  assert (0 <= step) as Hst by (apply Z.div_pos; nia).
  assert (na_floor i <= implied (na_floor i) (na_ceiling i) p <= na_ceiling i) as Ht.
  { unfold implied. split; [assert (0 <= (na_ceiling i - na_floor i) * p / 100) by (apply Z.div_pos; nia); lia|].
    assert ((na_ceiling i - na_floor i) * p / 100 <= na_ceiling i - na_floor i); [|lia].
    apply Z.div_le_upper_bound; nia. }
  set (target := implied _ _ _) in *. exists (na_current i + clampBigint (target - na_current i) (- step) step).
  split; [constructor; unfold clampBigint; ltb_cases; lia|]. split; [|done]. f_equal. unfold clampBigint at 1. ltb_cases; lia.
Qed.

(** C34: Reputation moves an allocation toward what it implies.  A reputation is
    rounded to a score from 0 to 100, which implies the allocation that far from
    the floor to the ceiling: the floor at 0, the ceiling at 100.  The next
    allocation is that one when it is within a step, the given share of the
    current one; otherwise it is one step closer; a better score never gives
    less.  From within the bounds it stays there; from outside it lands on them,
    whatever the step.  A reputation that is not a number is refused. *)
Theorem nextAllocation_follows_reputation i p s :
  score (na_reputation i) p -> na_maxStepBps i = Fin s 0 -> 0 <= s -> 0 <= na_floor i <= na_ceiling i -> 0 <= na_current i ->
  let target := implied (na_floor i) (na_ceiling i) in
  (exists n moved, nextAllocation i = Ok n /\
     steps_toward (na_current i) (na_current i * s / 10000) (target p) moved /\
     n = Z.max (na_floor i) (Z.min (na_ceiling i) moved) /\
     (na_floor i <= na_current i <= na_ceiling i -> n = moved) /\
     forall better p' n', score better p' -> p <= p' ->
       nextAllocation (mkNextAllocation (na_current i) (na_floor i) (na_ceiling i) better (na_maxStepBps i)) = Ok n' -> n <= n') /\
  target 0 = na_floor i /\ target 100 = na_ceiling i /\
  is_ok (nextAllocation (mkNextAllocation (na_current i) (na_floor i) (na_ceiling i) NaN (na_maxStepBps i))) = false.
Proof.
  intros Hp Hs0 Hs Hf Hc target. destruct (nextAllocation_run i p s Hp Hs0 Hs Hf Hc) as (moved & Hm & E & Ht & Hst).
  split; [|split; [unfold target, implied; rewrite Z.mul_0_r, Zdiv_0_l; lia|split; [unfold target, implied; rewrite Z.div_mul; lia|done]]].
  exists (Z.max (na_floor i) (Z.min (na_ceiling i) moved)), moved. split; [done|]. split; [done|]. split; [done|]. split.
  - intros Hr. destruct Hm as [H1 H2 H3]. fold target in H1, H2, H3, Ht.
    destruct (Z.le_gt_cases (Z.abs (target p - na_current i)) (na_current i * s / 10000)); lia.
  - intros better p' n' Hp' Hle E'.
    destruct (nextAllocation_run (mkNextAllocation (na_current i) (na_floor i) (na_ceiling i) better (na_maxStepBps i)) p' s)
      as (moved' & Hm' & E2 & _); [done..|]. cbn [na_current na_floor na_ceiling] in *. rewrite E2 in E'. injection E' as <-.
    assert (moved <= moved'); [|lia]. eapply steps_mono; [exact Hst| |exact Hm|exact Hm']. unfold implied.
    assert ((na_ceiling i - na_floor i) * p / 100 <= (na_ceiling i - na_floor i) * p' / 100); [|lia].
    apply Z.div_le_mono; nia.
Qed.

Definition sample_adjustment (current reputation : Z) : NextAllocationInput :=
  mkNextAllocation current 500000 4000000 (Fin reputation 0) REPUTATION_MAX_STEP_BPS.

(** Below the floor the step is no bound. *)
Example below_the_floor : nextAllocation (sample_adjustment 0 0) = Ok 500000.
Proof. reflexivity. Qed.

(** An allocation of nothing with no reserve never grows: a share of it is
    nothing. *)
Example nothing_stays_nothing :
  nextAllocation (mkNextAllocation 0 0 4000000 (Fin 100 0) REPUTATION_MAX_STEP_BPS) = Ok 0.
Proof. reflexivity. Qed.

(** A score of 90 implies 3.65; from 3 it is one step of a tenth away. *)
Lemma nextAllocation_follows_reputation_witness :
  nextAllocation (sample_adjustment 3000000 90) = Ok 3300000 /\
  exists n, nextAllocation (sample_adjustment 3000000 90) = Ok n /\ n = 3300000.
Proof.
  assert (nextAllocation (sample_adjustment 3000000 90) = Ok 3300000) as E by reflexivity. split; [exact E|].
  assert (score (Fin 90 0) 90) as Hs by (apply (score_number 90 0 90); reflexivity).
  destruct (nextAllocation_follows_reputation (sample_adjustment 3000000 90) 90 1000 Hs) as [(n & moved & En & Hm & _ & Hn & _) _];
    [reflexivity|lia|cbn; lia|cbn; lia|].
  exists n. split; [exact En|]. rewrite Hn by (cbn; lia). destruct Hm as [_ Hup _]. apply Hup. reflexivity.
Defined.

#[local] Instance low_chain : ChainBalances := fun _ _ _ _ => Ok 1000000.

Lemma topup_is_clamped_witness : exists id,
  w_db queued_world T_circle_provider_jobs = [topup_row sample_allocated id 2000000 1000000].
Proof.
  assert (evaluateSingleTopUp sample_allocated "0xa1" allocated_world = (Ok tt, queued_world)) as E.
  { unfold queued_world, run_m. rewrite (surjective_pairing (evaluateSingleTopUp _ _ _)) at 1. f_equal; vm_compute; reflexivity. }
  assert (w_db allocated_world T_circle_provider_jobs = []) as HJ by (vm_compute; reflexivity).
  assert (length (w_db queued_world T_circle_provider_jobs) = 1%nat) as H1 by (vm_compute; reflexivity).
  assert (deposits_read sample_allocated allocated_world = Ok 5000000) as HD by (vm_compute; reflexivity).
  assert (others_of sample_allocated allocated_world = []) as HO by (vm_compute; reflexivity).
  assert (w_now allocated_world = 1000000) as HN by (vm_compute; reflexivity).
  pose proof (topup_is_clamped sample_allocated "0xa1" allocated_world queued_world eq_refl E) as H. clear E.
  revert HJ H1 HD HO HN H. generalize queued_world as w'. generalize allocated_world as w.
  intros w w' HJ H1 HD HO HN (raw & Hraw & H). cbn in Hraw. injection Hraw as <-.
  destruct H as [[Hs _]|(_ & _ & d & h & id & Hd & (l & Hl & ->) & Hz)]; [by rewrite Hs, HJ in H1|].
  rewrite HD in Hd. injection Hd as <-. rewrite HO in Hl. inversion Hl; subst. exists id.
  destruct Hz as (_ & _ & _ & _ & Hz). rewrite Hz, HJ, HN. reflexivity.
Defined.

(** ** Funding at the moment of a payment *)

Section Funding.
Context {CB : ChainBalances} {TP : TreasuryProvider} {PC : Permit2Chain}.

(** A wallet of the organisation's treasury. *)
Record in_treasury (o : string) (mode : PaymentMode) (chain : PaymentChain) (t : CircleChainWalletRow) (db : Db) : Prop :=
  mkInTreasury {
  it_row : In t (db T_circle_chain_wallets);
  it_org : ccw_org_id t = o;
  it_place : ccw_mode t = mode /\ ccw_chain t = chain;
  it_active : ccw_status t = Access_active
}.

Lemma treasury_found o mode chain t (db : Db) :
  In t (db T_circle_chain_wallets) -> treasury_wallet o mode chain t = true -> in_treasury o mode chain t db.
Proof. intros Hin H. unfold treasury_wallet in H. bdec. by constructor. Qed.

(** A transfer of an amount to a wallet, from the organisation's treasury on
    that chain. *)
Record treasury_pays (o : string) (mode : PaymentMode) (chain : PaymentChain) (address : string) (z : Z)
    (i : CircleTransferInput) (db : Db) : Prop := mkTreasuryPays {
  tp_source : exists t, in_treasury o mode chain t db /\ tf_sourceAddress i = ccw_address t;
  tp_place : tf_mode i = mode /\ tf_chain i = chain;
  tp_destination : tf_destinationAddress i = address;
  tp_amount : tf_amountMicros i = z
}.

(** What keeps the gas of an agent up to its floor, if anything is sent. *)
Definition gas_only (o : string) (mode : PaymentMode) (chain : PaymentChain) (address : string) (balance : Z)
    (w w' : World) : Prop :=
  w_db w' = w_db w /\ w_now w' = w_now w /\
  (w_calls w' = w_calls w \/
   exists i, w_calls w' = w_calls w ++ [transfer_call i] /\ chain = Chain_arc /\ balance < AGENT_GAS_FLOOR_MICROS /\
     treasury_pays o mode chain address (AGENT_GAS_FLOOR_MICROS - balance) i (w_db w)).

Lemma gas_floor_run o address balance chain mode w r w' :
  ensureAgentGasFloor o address balance chain mode w = (r, w') -> gas_only o mode chain address balance w w'.
Proof.
  unfold ensureAgentGasFloor. destruct (decide (chain = Chain_arc)) as [->|Hne].
  2: { rewrite bool_decide_eq_false_2 by done. intros E. injection E as _ <-. unfold gas_only. auto. }
  rewrite bool_decide_eq_true_2 by done. cbn [negb].
  destruct (AGENT_GAS_FLOOR_MICROS <=? balance) eqn:Eb; [intros E; injection E as _ <-; unfold gas_only; auto|]. bsimpl.
  unfold bind at 1, select_one, bind at 1, select, ret. cbn zeta iota.
  destruct (head _) as [t|] eqn:Et; [|intros E; injection E as _ <-; unfold gas_only; auto].
  apply where_head in Et as [Ht Hp]. pose proof (treasury_found _ _ _ _ _ Ht Hp) as Htr.
  unfold bind at 1, ref_id. cbn zeta iota. unfold bind, transferWallet. intros E.
  assert (w' = add_call (transfer_call {| tf_amountMicros := AGENT_GAS_FLOOR_MICROS - balance; tf_chain := Chain_arc;
    tf_destinationAddress := address; tf_mode := mode; tf_refId := "agentops-gas" +:+ "-" +:+ to_string (w_next w);
    tf_sourceAddress := ccw_address t |}) (next_id w)) as -> by (destruct (transfer_wallet _ _); injection E as _ <-; done).
  split; [done|]. split; [done|]. right. eexists. split; [reflexivity|]. split; [done|]. split; [lia|].
  constructor; [by exists t|done..].
Qed.

(** An active delegation of the treasury to the agent, not expired. *)
Record treasury_delegates (o agentId : string) (mode : PaymentMode) (chain : PaymentChain) (now : Z)
    (d : AgentDelegationRow) : Prop := mkTreasuryDelegates {
  td_org : dele_org_id d = o;
  td_payee : dele_payee_agent_id d = Some agentId;
  td_payer : dele_payer_kind d = Payer_treasury;
  td_place : dele_mode d = mode /\ dele_chain d = chain;
  td_active : dele_status d = Delegation_active;
  td_expiry : now < dele_expires_at d
}.

Lemma treasury_delegates_spec o a mode chain now d :
  treasury_delegations o a mode chain now d = true <-> treasury_delegates o a mode chain now d.
Proof.
  unfold treasury_delegations. rewrite !andb_true_iff, !bool_decide_eq_true, String.eqb_eq, eqo_spec, Z.ltb_lt.
  split; [intros (((((( ? & ?) & ?) & ?) & ?) & ?) & ?); by constructor|by intros [? ? ? [] ? ?]].
Qed.

(** The delegation that is drawn. *)
Lemma draw_first_ok shortfall l : forall w res w', 0 < shortfall ->
  (forall d, In d l -> 0 <= dele_drawn_usdc d /\ 0 <= dele_ceiling_usdc d) -> draw_first shortfall l w = (Ok res, w') ->
  match res with
  | None => w' = w /\ forall d, In d l -> dele_ceiling_usdc d - dele_drawn_usdc d < shortfall
  | Some f => exists d tx total, In d l /\ shortfall <= dele_ceiling_usdc d - dele_drawn_usdc d /\
      drawDown (dele_id d) (formatUsdc6 shortfall) w = (Ok (tx, total), w') /\ f = Funded (formatUsdc6 shortfall) tx
  end.
Proof.
  induction l as [|d l IH]; intros w res w' Hs Hn E; cbn in E.
  { injection E as <- <-. split; [done|]. by intros d []. }
  destruct (Hn d (or_introl eq_refl)) as [Hd1 Hd2]. rewrite !parse_numeric_text in E by done.
  rewrite (bind_run _ _ w (dele_ceiling_usdc d) w eq_refl), (bind_run _ _ w (dele_drawn_usdc d) w eq_refl) in E.
  destruct (_ <? shortfall) eqn:El; bsimpl.
  - apply IH in E; [|done|intros x Hx; apply Hn; by right]. destruct res as [f|].
    + destruct E as (x & tx & total & Hx & E). exists x, tx, total. split; [by right|done].
    + destruct E as [-> Hall]. split; [done|]. intros x [<-|Hx]; [done|by apply Hall].
  - apply bind_ok in E as ([tx total] & w1 & E & E1). injection E1 as <- <-. exists d, tx, total.
    split; [by left|]. split; [lia|]. done.
Qed.

(** C13: An agent is funded with what it lacks.  When it holds enough nothing is
    sent.  When it is funded, the amount is exactly what is missing: drawn, by a
    drawdown, of a treasury delegation of the organisation to this agent that is
    active, not expired and has that much left; or on Base, when no delegation
    has it, transferred once from a wallet of the organisation's treasury in the
    same mode.  When it is not funded, no delegation had that much left, on Base
    the treasury has no wallet other than the agent's, and nothing is recorded.
    Beside these, at most one transfer of the treasury on Arc fills the wallet
    up to the gas floor. *)
Theorem funding_draws_the_shortfall o agentId mode chain needed w res w' :
  checked (w_db w) -> fundAgentFromTreasuryDelegation o agentId mode chain needed w = (Ok res, w') ->
  let serves wallet := In wallet (w_db w T_agent_chain_wallets) /\ acw_agent_id wallet = agentId /\
    acw_mode wallet = mode /\ acw_chain wallet = chain /\ acw_status wallet = "active"%string in
  (res = No_treasury_delegation /\ w' = w /\ forall wallet, ~ serves wallet) \/
  exists wallet balance w1, serves wallet /\ chain_balance w (acw_address wallet) chain mode = Ok balance /\
  (needed <= balance /\ res = Already_funded /\ w' = w \/
   balance < needed /\ gas_only o mode chain (acw_address wallet) balance w w1 /\
   let live d := In d (w_db w T_agent_delegations) /\ treasury_delegates o agentId mode chain (w_now w) d in
   match res with
   | Already_funded => False
   | No_treasury_delegation => w' = w1 /\
       (forall d, live d -> dele_ceiling_usdc d - dele_drawn_usdc d < needed - balance) /\
       (chain = Chain_base -> (forall t, ~ in_treasury o mode chain t (w_db w)) \/
          exists t, in_treasury o mode chain t (w_db w) /\ ccw_address t = acw_address wallet)
   | Funded amount tx =>
       amount = formatUsdc6 (needed - balance) /\
       ((exists d total, live d /\ needed - balance <= dele_ceiling_usdc d - dele_drawn_usdc d /\
           drawDown (dele_id d) amount w1 = (Ok (tx, total), w')) \/
        (chain = Chain_base /\ w_db w' = w_db w /\
         (forall d, live d -> dele_ceiling_usdc d - dele_drawn_usdc d < needed - balance) /\
         exists i, w_calls w' = w_calls w1 ++ [transfer_call i] /\
           treasury_pays o mode chain (acw_address wallet) (needed - balance) i (w_db w) /\
           tf_sourceAddress i <> acw_address wallet))
   end).
Proof.
  intros Hc E. unfold fundAgentFromTreasuryDelegation in E. apply bind_ok in E as (ow & w0 & E0 & E).
  pose proof E0 as Hfind. unfold findAgentWallet in E0. apply (select_one_ok T_agent_chain_wallets) in E0 as [Ew ->].
  destruct ow as [wallet|].
  2: { injection E as <- <-. left. do 2 (split; [done|]). intros r (Hr & S1 & S2 & S3 & S4).
    eapply where_head_none; [by symmetry|exact Hr|]. cbn. by rewrite S1, S4, !eqs_refl, !bool_decide_eq_true_2. }
  right. clear Hfind. symmetry in Ew. apply where_head in Ew as [Hin0 Hw]. bdec.
  cbv zeta in E. apply bind_ok in E as (balance & w0 & E0 & E). unfold nativeBalanceMicros in E0. injection E0 as Hb <-.
  exists wallet, balance. destruct (needed <=? balance) eqn:Enb; bsimpl.
  { injection E as <- <-. exists w. split; [done|]. split; [done|]. by left. }
  apply bind_ok in E as (g & w1 & E1 & E). apply gas_floor_run in E1 as Hg. exists w1.
  split; [done|]. split; [done|]. right. split; [done|]. split; [done|].
  apply bind_ok in E as (now & w2 & E2 & E). apply get_now_ok in E2 as [-> ->].
  apply bind_ok in E as (L & w2 & E2 & E). apply select_ok in E2 as [-> ->].
  destruct Hg as (HD & HN & HC). rewrite HN, HD in E.
  set (L := sort_by _ _) in E.
  assert (forall d, In d L <-> In d (w_db w T_agent_delegations) /\ treasury_delegates o agentId mode chain (w_now w) d) as HL.
  { intros d. rewrite <-treasury_delegates_spec, <-where_in. unfold L. split; intros Hin; (eapply Permutation_in; [|exact Hin]);
      [apply sort_by_perm|symmetry; apply sort_by_perm]. }
  apply bind_ok in E as (drawn & w2 & E2 & E). apply draw_first_ok in E2; [|lia|].
  2: { intros d [Hd _]%HL. specialize (Hc T_agent_delegations d Hd). cbn [check] in Hc. unfold delegation_check in Hc. bsimpl. lia. }
  destruct drawn as [f|].
  - injection E as <- <-. destruct E2 as (d & tx & total & Hd & Hs & Ed & ->). split; [done|]. left.
    exists d, total. split; [by apply HL|done].
  - destruct E2 as [-> Hall]. assert (forall d, In d (w_db w T_agent_delegations) /\
      treasury_delegates o agentId mode chain (w_now w) d -> dele_ceiling_usdc d - dele_drawn_usdc d < needed - balance)
      as Hlive by (intros d Hd; by apply Hall, HL).
    unfold base_transfer in E. destruct (negb (bool_decide (chain = Chain_base))) eqn:Ech.
    { injection E as <- <-. bdec. split; [done|]. split; [exact Hlive|]. by intros ->. }
    bdec. apply bind_ok in E as (t & w3 & E3 & E). apply (select_one_ok T_circle_chain_wallets) in E3 as [Et ->].
    rewrite HD in Et. symmetry in Et. destruct t as [t|].
    2: { injection E as <- <-. split; [done|]. split; [exact Hlive|]. intros _. left. intros t [Ht Ho [Hm Hch] Ha].
      eapply where_head_none; [exact Et|exact Ht|]. unfold treasury_wallet.
      by rewrite Ho, Hm, Hch, Ha, eqs_refl, !bool_decide_eq_true_2. }
    apply where_head in Et as [Ht Hp]. pose proof (treasury_found _ _ _ _ _ Ht Hp) as Htr.
    destruct (ccw_address t =s _) eqn:Ea.
    { injection E as <- <-. apply eqs_spec in Ea. split; [done|]. split; [exact Hlive|]. intros _. right. by exists t. }
    apply String.eqb_neq in Ea.
    apply bind_ok in E as (ref & w3 & E3 & E). unfold ref_id in E3. injection E3 as Href <-.
    apply bind_ok in E as (tx & w3 & E3 & E). unfold transferWallet in E3. injection E3 as _ <-. injection E as <- <-.
    split; [done|]. right. split; [done|]. split; [done|]. split; [exact Hlive|].
    eexists. split; [reflexivity|]. split; [|done]. constructor; [by exists t|done..].
Qed.
End Funding.

#[local] Instance sample_permits : Permit2Chain := {
  process_env := fun _ => None;
  rpc_call := fun _ _ _ _ _ _ => Ok (mkRpcBody None None);
  encode_allowance := fun _ _ _ => ""%string
}.

Lemma fleet_checked : checked (w_db fleet_world).
Proof. intros t r H. destruct t; cbn in H; repeat destruct H as [<-|H]; done. Qed.

(** The agent holds 1 and lacks 0.2. *)
Definition sample_fund : M JustInTimeFundingResult :=
  fundAgentFromTreasuryDelegation "org_1" "agt_1" mode_test Chain_base 1200000.

Lemma funding_draws_the_shortfall_witness : exists i w1,
  w_calls (run_m sample_fund fleet_world) = w_calls w1 ++ [transfer_call i] /\ tf_amountMicros i = 200000 /\
  tf_destinationAddress i = "0xa1"%string.
Proof.
  assert (fst (sample_fund fleet_world) = Ok (Funded "0.200000" "tx_1")) as Hr by (vm_compute; reflexivity).
  assert (length (w_calls (run_m sample_fund fleet_world)) = 1%nat) as Hl by (vm_compute; reflexivity).
  assert (w_db fleet_world T_agent_delegations = []) as Hd by (vm_compute; reflexivity).
  assert (w_db fleet_world T_agent_chain_wallets = [sample_agent_wallet]) as Hw by (vm_compute; reflexivity).
  assert (sample_fund fleet_world = (Ok (Funded "0.200000" "tx_1"), run_m sample_fund fleet_world)) as E
    by (unfold run_m; rewrite <-Hr; apply surjective_pairing).
  generalize fleet_checked, Hl, Hd, Hw, E. clear Hr Hl Hd Hw E. unfold sample_fund.
  match goal with |- context [run_m ?m ?x] => generalize (run_m m x) as w' end. generalize fleet_world as w.
  intros w w' Hc Hl Hd Hw E.
  destruct (funding_draws_the_shortfall "org_1" "agt_1" mode_test Chain_base 1200000 w _ w' Hc E)
    as [(? & _)|(wallet & b & w1 & (Hin & _) & Hb & Hcase)]; [discriminate|].
  cbn in Hb. injection Hb as <-. rewrite Hw in Hin. destruct Hin as [<-|[]].
  destruct Hcase as [(Hlt & _)|(_ & _ & _ & [(d & total & (Hd0 & _) & _)|(_ & _ & _ & i & Hcall & [(t & [Ht _ _ _] & Hs) _ Hdest Hz] & _)])]; [lia| |].
  - by rewrite Hd in Hd0.
  - exists i, w1. split; [exact Hcall|]. split; [exact Hz|exact Hdest].
Defined.
