(* ===== verification/IdentityThms.v ===== *)
(** What holds of workspaces and agents: a workspace keeps an active owner,
    agents and their parents form a forest, so that the query for cycles ends.

    [updateMember], [removeMember] and [updateAgent] decide on rows they do not
    lock; what is shown here is shown of operations that follow one another.
    The examples at the end run two of them side by side. *)

From stdpp Require Import relations.
From S2P Require Import Prelude Errors Usdc Identity Json Policy Schema Host Handlers AuditLog AuditChain.
From S2P Require Import PolicyStore PolicyStoreThms Approvals ApprovalsThms IdentityStore PaidHttp Runtime Join Samples.
Open Scope Z_scope.

(** ** The work of the engine *)

Inductive IdentityWork : Type :=
| W_org_for_user (operator : OperatorContext) (input : CreateOrgInput)
| W_org (operator : OperatorContext) (input : CreateOrgInput)
| W_add_member (operator : OperatorContext) (orgId : string) (input : AddMemberInput)
| W_role (operator : OperatorContext) (orgId memberId : string) (role : Role)
| W_remove_member (operator : OperatorContext) (orgId memberId : string)
| W_onboarding (operator : OperatorContext) (orgId flowKey : string) (status : OnboardingStatus) (payload : json)
| W_reconcile (orgId : string)
| W_team (operator : OperatorContext) (orgId name : string) (description : option string)
| W_edit_team (operator : OperatorContext) (orgId teamId : string) (name description : option string)
| W_archive_team (operator : OperatorContext) (orgId teamId : string)
| W_agent (operator : OperatorContext) (orgId : string) (input : CreateAgentInput)
| W_edit_agent (operator : OperatorContext) (orgId agentId : string) (input : UpdateAgentInput)
| W_status (operator : OperatorContext) (orgId agentId : string) (status : SettableStatus)
| W_connect (operator : OperatorContext) (orgId agentId : string) (kind : ConnectionKind) (name : string)
| W_test (orgId connectionId : string)
| W_rotate (operator : OperatorContext) (orgId connectionId : string)
| W_revoke (operator : OperatorContext) (orgId connectionId : string)
| W_authenticate (token : string)
| W_attach (operator : OperatorContext) (orgId agentId : string) (input : AttachWalletRefInput)
| W_detach (operator : OperatorContext) (orgId agentId walletRefId : string)
| W_invite (operator : OperatorContext) (orgId : string) (label : option string) (max_uses hours : option Z)
| W_revoke_invite (orgId inviteId : string)
| W_claim (token : string)
| W_give_back (inviteId : string)
| W_sign_in (profile : GoogleProfile).

Section Work.
Context `{Collation} `{Sha256} `{NodeProcess}.

Definition identity_work (o : IdentityWork) : M unit :=
  match o with
  | W_org_for_user op i => createOrgForUser op i ;;* ret tt
  | W_org op i => createOrg op i ;;* ret tt
  | W_add_member op org i => addMember op org i ;;* ret tt
  | W_role op org m r => updateMember op org m r ;;* ret tt
  | W_remove_member op org m => removeMember op org m ;;* ret tt
  | W_onboarding op org k s p => upsertOnboardingState op org k s p ;;* ret tt
  | W_reconcile org => reconcileProductOnboardingProgress org
  | W_team op org n d => createTeam op org n d ;;* ret tt
  | W_edit_team op org t n d => updateTeam op org t n d ;;* ret tt
  | W_archive_team op org t => archiveTeam op org t ;;* ret tt
  | W_agent op org i => createAgent op org i ;;* ret tt
  | W_edit_agent op org a i => updateAgent op org a i ;;* ret tt
  | W_status op org a s => setAgentStatus op org a s ;;* ret tt
  | W_connect op org a k n => createConnection op org a k n ;;* ret tt
  | W_test org c => testConnection org c ;;* ret tt
  | W_rotate op org c => rotateConnection op org c ;;* ret tt
  | W_revoke op org c => revokeConnection op org c ;;* ret tt
  | W_authenticate t => authenticateConnection t ;;* ret tt
  | W_attach op org a i => attachWalletRef op org a i ;;* ret tt
  | W_detach op org a r => detachWalletRef op org a r ;;* ret tt
  | W_invite op org l m h => createAgentJoinInvite op org l m h ;;* ret tt
  | W_revoke_invite org i => revokeAgentJoinInvite org i ;;* ret tt
  | W_claim t => claim_invite t ;;* ret tt
  | W_give_back i => give_back i
  | W_sign_in p => upsertGoogleUser p ;;* ret tt
  end.

(** What the rest of the platform leaves alone: it writes no memberships, users
    or credentials, creates no workspace, and of agents and connections changes
    neither identity nor parents (an agent may be suspended). *)
Definition agent_place (a : AgentRow) : string * string * option string := (ag_id a, ag_org_id a, ag_parent_agent_id a).
Definition connection_core (c : ConnectionRow) : string * string * string * string :=
  (cn_id c, cn_org_id c, cn_agent_id c, cn_status c).

Record aside (db db' : Db) : Prop := mkAside {
  as_members : db' T_memberships = db T_memberships;
  as_users : db' T_users = db T_users;
  as_orgs : map org_id (db' T_orgs) = map org_id (db T_orgs);
  as_agents : map agent_place (db' T_agents) = map agent_place (db T_agents);
  as_connections : map connection_core (db' T_connections) = map connection_core (db T_connections);
  as_credentials : db' T_connection_credentials = db T_connection_credentials
}.

(** One operation after another, each in a state where [P] holds of it. *)
Inductive istep (P : IdentityWork -> Db -> Prop) : World -> World -> Prop :=
| i_work o w r w' : P o (w_db w) -> identity_work o w = (r, w') -> istep P w w'
| i_other w w' : aside (w_db w) (w_db w') -> istep P w w'.

Lemma identity_invariant (P : IdentityWork -> Db -> Prop) (I : Db -> Prop) :
  (forall o w, I (w_db w) -> P o (w_db w) -> I (w_db (snd (identity_work o w)))) ->
  (forall db db', I db -> aside db db' -> I db') ->
  forall w w', rtc (istep P) w w' -> I (w_db w) -> I (w_db w').
Proof.
  intros Hw Ho w w'. induction 1 as [w|w1 w2 w3 Hs _ IH]; intros HI; [done|]. apply IH.
  destruct Hs as [o w r w' HP E|w w' Ha]; [|by eapply Ho]. specialize (Hw o w HI HP). by rewrite E in Hw.
Qed.

(** ** Frames *)

Section Frames.
Context (t : table).

Lemma recordIdentityEvent_keeps org op a rt id ag p :
  t <> T_audit_events -> t <> T_audit_event_heads -> keeps t (recordIdentityEvent org op a rt id ag p).
Proof. intros. unfold recordIdentityEvent. solve_keeps. Qed.

Lemma random_token_keeps n : keeps t (random_token n).
Proof. done. Qed.

Lemma upsert_keeps t' p r f : t' <> t -> keeps t (upsert t' p r f).
Proof. intros. unfold upsert. solve_keeps. Qed.

Lemma upsert_user_keeps r f : t <> T_users -> keeps t (upsert_user r f).
Proof. intros. unfold upsert_user, upsert. solve_keeps. Qed.

Lemma user_by_email_keeps e : keeps t (user_by_email e).
Proof. exact (keeps_select_one t T_users _). Qed.

Lemma assertOwner_keeps op r : keeps t (assertCanManageOwnerRole op r).
Proof. apply keeps_throw_if. Qed.
End Frames.
End Work.
#[export] Hint Resolve recordIdentityEvent_keeps random_token_keeps upsert_keeps upsert_user_keeps user_by_email_keeps
  assertOwner_keeps : keeps.
#[export] Hint Resolve completeProductOnboardingFlow_keeps : keeps.

Ltac identity_unfold :=
  unfold identity_work, createOrgForUser, createOrg, furnish_org, choose_slug, insert_org, listOrgsForUser, addMember,
    updateMember, updateMember_reads, updateMember_writes, removeMember, removeMember_reads, removeMember_writes,
    getMemberRow, activeOwnerCount, upsertOnboardingState, existingUserIdOrNull, reconcileProductOnboardingProgress,
    onboarding_evidence, createTeam, updateTeam, archiveTeam, createAgent, updateAgent, updateAgent_reads,
    updateAgent_writes, wouldCreateParentCycle, ensureTeamInOrg, ensureParentInOrg, getDefaultTeamId, setAgentStatus,
    createConnection, testConnection, rotateConnection, revokeConnection, revoke_credentials, insert_credential,
    issueConnectionSecret, authenticateConnection, attachWalletRef, detachWalletRef, createAgentJoinInvite,
    revokeAgentJoinInvite, claim_invite, give_back, upsertGoogleUser, getAgentRow, getOrg.
Ltac identity_keeps := intros; identity_unfold; solve_keeps.

Lemma upsert_ok t p fresh f w x w' :
  upsert t p fresh f w = (Ok x, w') ->
  (where_ p (w_db w t) = [] /\ existsb (clash t fresh) (w_db w t) = false /\
   w_db w' = db_set t (w_db w t ++ [fresh]) (w_db w) /\ x = Some fresh) \/
  (w_db w' = db_set t (update_rows p f (w_db w t)) (w_db w) /\ x = head (map f (where_ p (w_db w t))) /\
   where_ p (w_db w t) <> []).
Proof.
  intros R. unfold upsert in R. apply bind_ok in R as (l & w1 & R1 & R). apply select_ok in R1 as [-> ->].
  destruct (where_ p (w_db w t)) as [|r l] eqn:E.
  - left. runs R. auto.
  - right. apply bind_ok in R as (l' & w1 & R1 & R). apply ret_ok in R as [<- ->].
    apply update_step in R1 as (-> & Ed & _). split; [done|]. by rewrite E.
Qed.

Lemma upsert_err t p fresh f w e w' : upsert t p fresh f w = (Err e, w') -> w' = w.
Proof.
  intros R. unfold upsert in R. apply bind_err in R as [R|(l & w1 & R1 & R)]; [done|].
  apply select_ok in R1 as [-> ->]. destruct (where_ _ _); (apply bind_err in R as [R|(a & w2 & _ & R)]; [|done]).
  - by apply insert_err in R.
  - unfold update in R. cbn zeta in R. destruct (forallb _ _); cbn in R; [done|]. by injection R.
Qed.

(** ** Owners *)

Record owners_ok (db : Db) : Prop := mkOwnersOk {
  ow_members : keyed mem_id (db T_memberships);
  ow_users : keyed usr_id (db T_users);
  ow_known : forall m, In m (db T_memberships) -> exists u, In u (db T_users) /\ usr_id u = mem_user_id m;
  ow_owner : forall o, In o (db T_orgs) -> exists m, In m (db T_memberships) /\ active_owner (org_id o) m = true
}.

(** [addMember] would demote no active owner of the workspace; who creates a
    workspace is a user (memberships reference users). *)
Definition demotes_no_owner (o : IdentityWork) (db : Db) : Prop :=
  match o with
  | W_add_member _ org i =>
      am_role i = Role_owner \/
      forall m u, In m (db T_memberships) -> In u (db T_users) -> usr_id u = mem_user_id m ->
        usr_email u = member_email i -> active_owner org m = false
  | W_org_for_user operator _ => In (op_actorId operator) (map usr_id (db T_users))
  | _ => True
  end.

Lemma active_owner_spec o m :
  active_owner o m = true <-> mem_org_id m = o /\ mem_role m = Role_owner /\ mem_status m = Member_active.
Proof. unfold active_owner. rewrite !andb_true_iff, String.eqb_eq, !bool_decide_eq_true. tauto. Qed.

Lemma another_owner o t m :
  keyed mem_id t -> In m t -> (1 < length (where_ (active_owner o) t))%nat ->
  exists m', In m' t /\ active_owner o m' = true /\ mem_id m' <> mem_id m.
Proof.
  intros Hk Hm Hl.
  assert (exists a b, In a (where_ (active_owner o) t) /\ In b (where_ (active_owner o) t) /\ mem_id a <> mem_id b)
    as (a & b & [Ha Oa]%where_in & [Hb Ob]%where_in & Hab).
  { clear m Hm. unfold keyed in Hk. induction t as [|r t IH]; cbn in *; [lia|]. apply NoDup_cons in Hk as [Hn Hk].
    destruct (active_owner o r) eqn:E.
    - destruct (where_ (active_owner o) t) as [|b l] eqn:Ew; [cbn in Hl; lia|]. exists r, b.
      split; [by left|]. split; [right; by left|]. intros Eq. apply Hn. rewrite Eq. apply list_elem_of_In, in_map.
      apply (where_in (active_owner o)). rewrite Ew. by left.
    - apply IH; [done|lia]. }
  destruct (decide (mem_id a = mem_id m)) as [E|E]; [|by exists a]. exists b. rewrite <-E. auto.
Qed.

(** A user is upserted: users keep their ids and e-mails, and one of them has
    the e-mail. *)
Record users_on (U U' : list UserRow) : Prop := mkUsersOn {
  uo_keyed : keyed usr_id U -> keyed usr_id U';
  uo_kept : forall u, In u U -> exists u', In u' U' /\ usr_id u' = usr_id u /\ usr_email u' = usr_email u;
  uo_new : forall u', In u' U' -> ~ In (usr_id u') (map usr_id U) \/
    exists u, In u U /\ usr_id u = usr_id u' /\ usr_email u = usr_email u'
}.

(** An UPDATE of members of one workspace keeps it an owner when each owner it
    changes is one after, or another is left alone. *)
Lemma owners_update (db : Db) org f p :
  owners_ok db -> (forall m, p m = true -> mem_org_id m = org) ->
  (forall m, mem_id (f m) = mem_id m /\ mem_user_id (f m) = mem_user_id m) ->
  (forall m, In m (db T_memberships) -> p m = true -> active_owner org m = true ->
     active_owner org (f m) = true \/
     exists m', In m' (db T_memberships) /\ active_owner org m' = true /\ p m' = false) ->
  owners_ok (db_set T_memberships (update_rows p f (db T_memberships)) db).
Proof.
  intros [H1 H2 H3 H4] Hp Hf Hc. constructor; rewrite ?db_set_same, ?db_set_other by discriminate; [| done | |].
  - apply keyed_update; [|done]. intros m _. apply Hf.
  - intros m (m0 & Hm0 & ->)%in_update_rows. destruct (H3 m0 Hm0) as (u & Hu & E). exists u. split; [done|].
    rewrite E. destruct (p m0); [|done]. symmetry. apply Hf.
  - intros o Ho. destruct (H4 o Ho) as (m & Hm & Om). destruct (p m) eqn:Ep.
    2: { exists m. split; [|done]. apply in_update_rows. exists m. by rewrite Ep. }
    assert (org_id o = org) as Eo by (apply active_owner_spec in Om; specialize (Hp m Ep); destruct Om; congruence).
    rewrite Eo in *. destruct (Hc m Hm Ep Om) as [Hk|(m' & Hm' & Om' & Ep')].
    + exists (f m). split; [|done]. apply in_update_rows. exists m. by rewrite Ep.
    + exists m'. split; [|done]. apply in_update_rows. exists m'. by rewrite Ep'.
Qed.

(** Users and members come; those there stay. *)
Lemma owners_more (db db' : Db) :
  owners_ok db -> users_on (db T_users) (db' T_users) -> db' T_orgs = db T_orgs ->
  keyed mem_id (db' T_memberships) -> (forall m, In m (db T_memberships) -> In m (db' T_memberships)) ->
  (forall m, In m (db' T_memberships) -> In m (db T_memberships) \/ In (mem_user_id m) (map usr_id (db' T_users))) ->
  owners_ok db'.
Proof.
  intros [H1 H2 H3 H4] [U1 U2 _] Eo Hk Hm Hn. constructor; [done|by apply U1| |].
  - intros m [Hi|(u & E & Hi)%in_map_iff]%Hn; [|by exists u]. destruct (H3 m Hi) as (u & Hu & E).
    destruct (U2 u Hu) as (u' & Hu' & E' & _). exists u'. split; [done|congruence].
  - intros o. rewrite Eo. intros Ho. destruct (H4 o Ho) as (m & Hi & Om). exists m. auto.
Qed.

Lemma owners_same (db db' : Db) :
  db' T_memberships = db T_memberships -> db' T_users = db T_users -> map org_id (db' T_orgs) = map org_id (db T_orgs) ->
  owners_ok db -> owners_ok db'.
Proof.
  intros Em Eu Eo [H1 H2 H3 H4]. constructor; rewrite ?Em, ?Eu; [done..|]. intros o Ho.
  assert (In (org_id o) (map org_id (db T_orgs))) as (o' & E & Ho')%in_map_iff by (rewrite <-Eo; by apply in_map).
  destruct (H4 o' Ho') as (m & Hm & Om). exists m. split; [done|]. by rewrite <-E.
Qed.

Section Owners.
Context `{Collation} `{Sha256} `{NodeProcess}.

Lemma owners_keeps {A} (m : M A) :
  keeps T_memberships m -> keeps T_users m -> keeps T_orgs m -> preserves owners_ok m.
Proof. intros K1 K2 K3 w. apply owners_same; [apply K1|apply K2|by rewrite K3]. Qed.

Lemma upsert_user_ok r f w x w' :
  (forall u, usr_id (f u) = usr_id u /\ usr_email (f u) = usr_email u) -> upsert_user r f w = (Ok x, w') ->
  users_on (w_db w T_users) (w_db w' T_users) /\
  (exists u, In u (w_db w' T_users) /\ usr_email u = usr_email r) /\ (forall t, t <> T_users -> w_db w' t = w_db w t).
Proof.
  intros Hf R. unfold upsert_user, upsert in R. apply bind_ok in R as (i & w1 & R1 & R). runs R.
  apply bind_ok in R1 as (l & w2 & Rs & R1). apply select_ok in Rs as [-> ->].
  match type of R1 with context [where_ ?p ?l] => destruct (where_ p l) as [|u0 l0] eqn:Ew end; runs R1;
    match goal with E : w_db _ = db_set T_users _ _ |- _ => rename E into Ed end.
  - split; [|split; [|intros t Ht; rewrite Ed; by apply db_set_other]]; rewrite Ed, db_set_same.
    2: { exists r. rewrite in_app_iff. split; [right; by left|done]. }
    assert (~ In (usr_id r) (map usr_id (w_db w T_users))) as Hn.
    { intros (u & E & Hu)%in_map_iff. assert (existsb (clash T_users r) (w_db w T_users) = true); [|congruence].
      apply existsb_exists. exists u. split; [done|]. cbn. by rewrite E, eqs_refl. }
    constructor.
    + intros Hk. by apply keyed_insert.
    + intros u Hu. exists u. rewrite in_app_iff. auto.
    + intros u' [Hu'|[<-|[]]]%in_app_iff; [right; by exists u'|by left].
  - split; [|split; [|intros t Ht; rewrite Ed; by apply db_set_other]]; rewrite Ed, db_set_same.
    2: { pose proof (or_introl eq_refl : In u0 (u0 :: l0)) as Hu. rewrite <-Ew in Hu.
         apply where_in in Hu as [Hu E]. exists (f u0). split; [apply in_update_rows; exists u0; by rewrite E|].
         rewrite (proj2 (Hf u0)). by apply eqs_spec. }
    constructor.
    + intros Hk. apply keyed_update; [|done]. intros u _. apply Hf.
    + intros u Hu. destruct (usr_email u =s usr_email r) eqn:E.
      * exists (f u). split; [apply in_update_rows; exists u; by rewrite E|]. apply Hf.
      * exists u. split; [apply in_update_rows; exists u; by rewrite E|]. done.
    + intros u' (u & Hu & ->)%in_update_rows. right. exists u. split; [done|]. destruct (_ =s _); [|done].
      destruct (Hf u) as [-> ->]. done.
Qed.

(** Runs that record events leave the other tables. *)
Lemma event_run org op a rt id ag p w x w' t :
  recordIdentityEvent org op a rt id ag p w = (Ok x, w') -> t <> T_audit_events -> t <> T_audit_event_heads ->
  w_db w' t = w_db w t.
Proof. intros R T1 T2. eapply keeps_run; [|exact R]. by apply recordIdentityEvent_keeps. Qed.

Lemma furnish_run operator orgId teamId memberId ownerId slug input w o w' :
  furnish_org operator orgId teamId memberId ownerId slug input w = (Ok o, w') ->
  exists m, w_db w' T_memberships = w_db w T_memberships ++ [m] /\ mem_user_id m = ownerId /\
    ~ In (mem_id m) (map mem_id (w_db w T_memberships)) /\ active_owner orgId m = true /\
    w_db w' T_users = w_db w T_users /\ map org_id (w_db w' T_orgs) = map org_id (w_db w T_orgs).
Proof.
  intros R. unfold furnish_org in R. runs R. eexists.
  repeat match goal with E : recordIdentityEvent _ _ _ _ _ _ _ _ = _ |- _ =>
    rewrite !(event_run _ _ _ _ _ _ _ _ _ _ _ E) by discriminate; clear E end.
  tables. split; [reflexivity|]. split; [done|]. split.
  { intros (m & E & Hm)%in_map_iff.
    match goal with C : existsb (clash T_memberships _) _ = false |- _ =>
      assert (existsb (clash T_memberships (mkMemberRow memberId orgId ownerId Role_owner Member_active
        (Some (w_now w)) (w_now w) (w_now w))) (w_db w T_memberships) = true); [|congruence] end.
    apply existsb_exists. exists m. split; [done|]. cbn. cbn in E. by rewrite E, eqs_refl. }
  split; [by apply active_owner_spec|]. split; [done|].
  rewrite update_rows_map, map_map. apply map_ext. intros r. by destruct (_ =s _).
Qed.

Lemma insert_org_run orgId slug input w x w' :
  insert_org orgId slug input w = (Ok x, w') ->
  map org_id (w_db w' T_orgs) = map org_id (w_db w T_orgs) ++ [orgId] /\
  (forall t, t <> T_orgs -> w_db w' t = w_db w t).
Proof.
  intros R. unfold insert_org in R. runs R. match goal with E : w_db w' = _ |- _ => rewrite E end.
  split; [by rewrite db_set_same, map_app|]. intros t Ht. by rewrite db_set_other by congruence.
Qed.

(** A new workspace with its owner, a user there is. *)
Lemma owners_grow (db db' : Db) orgId (m : MemberRow) :
  owners_ok db -> users_on (db T_users) (db' T_users) ->
  db' T_memberships = db T_memberships ++ [m] -> ~ In (mem_id m) (map mem_id (db T_memberships)) ->
  active_owner orgId m = true -> In (mem_user_id m) (map usr_id (db' T_users)) ->
  map org_id (db' T_orgs) = map org_id (db T_orgs) ++ [orgId] -> owners_ok db'.
Proof.
  intros [K1 K2 K3 K4] [U1 U2 _] Em Hn Hm Hu Eo. constructor; rewrite ?Em; [by apply keyed_insert|by apply U1| |].
  - intros m' [Hm'|[<-|[]]]%in_app_iff.
    + destruct (K3 m' Hm') as (u & Hi & E). destruct (U2 u Hi) as (u' & ? & ? & _). exists u'. split; [done|congruence].
    + apply in_map_iff in Hu as (u & E & Hi). by exists u.
  - intros o Ho. assert (In (org_id o) (map org_id (db T_orgs) ++ [orgId])) as [Hi|[Hi|[]]]%in_app_iff
      by (rewrite <-Eo; by apply in_map).
    + apply in_map_iff in Hi as (o' & E & Hi). destruct (K4 o' Hi) as (m' & ? & ?). exists m'.
      rewrite in_app_iff, <-E. auto.
    + exists m. rewrite in_app_iff, <-Hi. split; [right; by left|done].
Qed.

Lemma users_on_refl U : users_on U U.
Proof. constructor; [done| |]; intros u Hu; [by exists u|right; by exists u]. Qed.

Lemma choose_slug_run orgId input w s w' : choose_slug orgId input w = (s, w') -> w' = w.
Proof. unfold choose_slug. cbn. by intros [= _ <-]. Qed.

Lemma user_by_email_run email w o w' :
  user_by_email email w = (Ok o, w') -> (exists u, In u (w_db w T_users) /\ usr_email u = email) ->
  w' = w /\ exists u, o = Some u /\ In u (w_db w T_users) /\ usr_email u = email.
Proof.
  intros R (u0 & Hu0 & E0). unfold user_by_email in R. apply (select_one_ok T_users) in R as [-> ->]. split; [done|].
  destruct (head _) as [u|] eqn:E; [exists u; apply where_head in E as [Hu E]; split; [done|]; split; [done|by apply eqs_spec]|].
  exfalso. destruct (where_found (fun u => usr_email u =s email) _ u0 Hu0) as (u & Hu & _); [by apply eqs_spec|].
  by pose proof (eq_trans (eq_sym E) Hu).
Qed.

Lemma createOrg_owners operator input : preserves owners_ok (createOrg operator input).
Proof.
  unfold createOrg. apply preserves_commit. intros w o w' HI R. runs R.
  repeat match goal with E : choose_slug _ _ _ = _ |- _ => apply choose_slug_run in E; subst end.
  match goal with E : insert_org _ _ _ _ = _ |- _ => apply insert_org_run in E as [Eo Et] end.
  match goal with E : upsert_user _ _ _ = _ |- _ =>
    apply upsert_user_ok in E as (U & (u0 & Hu0 & Eu0) & Ht); [|done] end.
  match goal with E : user_by_email _ _ = _ |- _ =>
    apply user_by_email_run in E as [-> (u & -> & Hu & _)]; [|by exists u0] end.
  apply furnish_run in R as (m & Em & Emu & Hn & Om & Eu & Eos).
  rewrite (Ht T_memberships), (Et T_memberships) in Em, Hn by done. rewrite (Ht T_orgs), Eo in Eos by done.
  rewrite (Et T_users) in U by done.
  repeat match goal with E : w_db ?x = w_db _ |- _ => rewrite E in * end.
  eapply (owners_grow _ _ a m); [exact HI|by rewrite Eu|exact Em|exact Hn|exact Om| |exact Eos].
  cbn in Emu. rewrite Emu, Eu. by apply in_map.
Qed.

Lemma createOrgForUser_owners operator input w :
  owners_ok (w_db w) -> In (op_actorId operator) (map usr_id (w_db w T_users)) ->
  owners_ok (w_db (snd (createOrgForUser operator input w))).
Proof.
  intros HI Ha. unfold createOrgForUser. set (body := bind _ _).
  destruct (withTransaction body w) as [[o|e] w'] eqn:R; cbn; [|by rewrite (transaction_err _ _ _ _ R)].
  apply transaction_ok in R. unfold body in R. clear body. apply bind_ok in R as (l & w1 & R1 & R).
  assert (w1 = w) as -> by (unfold listOrgsForUser in R1; by runs R1).
  destruct l as [|? ?]; [|by runs R]. runs R.
  repeat match goal with E : choose_slug _ _ _ = _ |- _ => apply choose_slug_run in E; subst end.
  match goal with E : insert_org _ _ _ _ = _ |- _ => apply insert_org_run in E as [Eo Et] end.
  match goal with E : furnish_org _ _ _ _ _ _ _ _ = _ |- _ =>
    apply furnish_run in E as (m & Em & Emu & Hn & Om & Eu & Eos) end.
  rewrite (Et T_memberships) in Em, Hn by done. rewrite Eo in Eos. rewrite (Et T_users) in Eu by done.
  repeat match goal with E : w_db ?x = w_db _ |- _ => rewrite E in * end.
  eapply owners_grow; [exact HI|by rewrite Eu; apply users_on_refl|exact Em|exact Hn|exact Om| |exact Eos].
  by rewrite Emu, Eu.
Qed.

Lemma org_read org w o w' : getOrg org w = (Ok o, w') -> w' = w.
Proof. intros R. unfold getOrg in R. by runs R. Qed.

Lemma addMember_owners operator org input w :
  owners_ok (w_db w) -> demotes_no_owner (W_add_member operator org input) (w_db w) ->
  owners_ok (w_db (snd (addMember operator org input w))).
Proof.
  intros HI Hd. unfold addMember. set (body := bind _ _).
  destruct (withTransaction body w) as [[o|e] w'] eqn:R; cbn; [|by rewrite (transaction_err _ _ _ _ R)].
  apply transaction_ok in R. unfold body in R. clear body. runs R.
  match goal with E : getOrg _ _ = _ |- _ => apply org_read in E; subst end.
  match goal with E : upsert_user _ _ _ = _ |- _ => apply upsert_user_ok in E as (U & Hu0 & Ht); [|done] end.
  match goal with E : user_by_email _ _ = _ |- _ => apply user_by_email_run in E as [-> (u & Eu & Hu & Em)]; [|done] end.
  injection Eu as <-.
  match goal with E : match _ with Some _ => _ | None => _ end _ = _ |- _ =>
    apply still_run in E; [|destruct (head _); solve_made] end.
  apply throw_if_ok in H3 as [_ ->]. rewrite H4 in *.
  apply (owners_same (w_db w6)); try (by rewrite ?(event_run _ _ _ _ _ _ _ _ _ _ _ H10) by discriminate).
  assert (owners_ok (w_db w5)) as HI5.
  { apply (owners_more (w_db w)); rewrite ?H8, ?(Ht T_memberships), ?(Ht T_orgs) by done; [done..|apply HI|done|auto]. }
  assert (forall m, In m (w_db w5 T_memberships) -> active_owner org m = true -> mem_user_id m = usr_id a4 ->
    am_role input = Role_owner) as Hown.
  { intros m Hm Om Eu. destruct Hd as [Hd|Hd]; [done|]. rewrite H8, (Ht T_memberships) in Hm by done.
    destruct (ow_known _ HI m Hm) as (u & Hui & Eui).
    destruct (uo_new _ _ U a4 Hu) as [Hn|(u' & Hu' & E1 & E2)].
    - exfalso. apply Hn. rewrite <-Eu, <-Eui. by apply in_map.
    - rewrite (Hd m u' Hm Hu') in Om; [done|congruence..]. }
  apply upsert_ok in H9 as [(_ & Hc & Ed & _)|(Ed & _)]; rewrite Ed.
  - apply (owners_more (w_db w5)); rewrite ?db_set_same, ?db_set_other by discriminate; [done|apply users_on_refl|done|..].
    + apply keyed_insert; [|apply HI5]. intros (m & E & Hm)%in_map_iff. pose proof (existsb_row_false _ _ _ Hc Hm) as Hx.
      cbn in Hx, E. by rewrite E, eqs_refl in Hx.
    + intros m Hm. apply in_app_iff. by left.
    + intros m [Hm|[<-|[]]]%in_app_iff; [by left|right]. rewrite H8. exact (in_map usr_id (w_db w3 T_users) a4 Hu).
  - apply (owners_update _ org); [done|intros m E; by bsimpl|done|].
    intros m Hm Ep Om. left. bsimpl. apply active_owner_spec. split; [by apply active_owner_spec in Om|].
    split; [|done]. cbn. by apply (Hown m).
Qed.

(** The check of [updateMember] and [removeMember]: an owner who would go is
    not the last. *)
Lemma owners_check org id m (b : bool) w x w1 :
  owners_ok (w_db w) -> In m (w_db w T_memberships) -> mem_id m = id -> mem_org_id m = org ->
  (if bool_decide (mem_role m = Role_owner) && b && bool_decide (mem_status m = Member_active) then
     let* owners := activeOwnerCount org in throw_if (owners <=? 1) last_owner_required
   else ret tt) w = (Ok x, w1) ->
  b = true -> forall m0, In m0 (w_db w T_memberships) -> mem_id m0 = id -> active_owner org m0 = true ->
  exists m', In m' (w_db w T_memberships) /\ active_owner org m' = true /\ mem_id m' <> id.
Proof.
  intros HI Hm Ei Eo R -> m0 Hm0 Ei0 Om0. assert (m0 = m) as -> by (eapply keyed_unique; [apply HI|done..|congruence]).
  pose proof Om0 as (_ & E1 & E2)%active_owner_spec.
  rewrite E1, E2, !bool_decide_eq_true_2 in R by done. cbn [andb] in R. unfold activeOwnerCount in R. runs R. bsimpl.
  apply another_owner; [apply HI|done|]. apply Nat2Z.inj_lt. match goal with E : 1 < _ |- _ => exact E end.
Qed.

Lemma getMemberRow_run org id w c w' :
  getMemberRow org id w = (Ok c, w') ->
  w' = w /\ In (fst c) (w_db w T_memberships) /\ mem_org_id (fst c) = org /\ mem_id (fst c) = id.
Proof.
  intros R. unfold getMemberRow in R. apply bind_ok in R as (o & w1 & R1 & R).
  apply (select_one_ok T_memberships) in R1 as [-> ->]. apply bind_ok in R as (m & w1 & R1 & R).
  apply some_or_ok in R1 as [E ->]. runs R. apply where_head in E as [Hm E]. bsimpl. auto.
Qed.

(** The UPDATE that follows. *)
Lemma member_change org id f w l w' :
  owners_ok (w_db w) -> (forall m, mem_id (f m) = mem_id m /\ mem_user_id (f m) = mem_user_id m) ->
  (forall m, In m (w_db w T_memberships) -> mem_id m = id -> active_owner org m = true ->
     active_owner org (f m) = true \/
     exists m', In m' (w_db w T_memberships) /\ active_owner org m' = true /\ mem_id m' <> id) ->
  update T_memberships (fun m => (mem_org_id m =s org) && (mem_id m =s id)) f w = (Ok l, w') -> owners_ok (w_db w').
Proof.
  intros HI Hf Hc R. apply update_step in R as (_ & -> & _).
  apply (owners_update _ org); [done|intros m E; by bsimpl|done|]. intros m Hm E Om. bsimpl.
  destruct (Hc m Hm) as [Hk|(m' & Hm' & Om' & Hne)]; [done..|by left|]. right. exists m'. split; [done|]. split; [done|].
  by rewrite (eqs_neq _ _ Hne), andb_false_r.
Qed.

Lemma updateMember_owners operator org id role : preserves owners_ok (updateMember operator org id role).
Proof.
  unfold updateMember. apply preserves_commit. intros w o w' HI R. apply bind_ok in R as (c & w1 & R1 & R).
  unfold updateMember_reads in R1. apply bind_ok in R1 as (c0 & w2 & R0 & R1).
  runs R1. apply getMemberRow_run in R0 as (-> & Hm & Eo & Ei).
  repeat match goal with E : assertCanManageOwnerRole _ _ _ = _ |- _ => apply throw_if_ok in E as [_ ->] end.
  match goal with E : (if _ then _ else _) _ = _ |- _ =>
    pose proof (owners_check org id _ _ _ _ _ HI Hm Ei Eo E) as Hc;
    apply still_run in E; [|destruct (_ && _); solve_made]; rename E into Ed end.
  unfold updateMember_writes in R. apply bind_ok in R as (n & w3 & Rn & R). apply get_now_ok in Rn as [-> ->].
  apply bind_ok in R as (l & w3 & Ru & R). rewrite <-Ed in HI, Hc. apply member_change in Ru; [|done|done|].
  - runs R. match goal with E : recordIdentityEvent _ _ _ _ _ _ _ _ = _ |- _ =>
      apply (owners_same (w_db w3)); try (by rewrite ?(event_run _ _ _ _ _ _ _ _ _ _ _ E) by discriminate) end.
  - intros m Hm0 Ei0 Om. destruct (decide (role = Role_owner)) as [->|Hr].
    + left. apply active_owner_spec in Om as (? & ? & ?). by apply active_owner_spec.
    + right. eapply Hc; [|done..]. by rewrite bool_decide_eq_false_2.
Qed.

Lemma removeMember_owners operator org id : preserves owners_ok (removeMember operator org id).
Proof.
  unfold removeMember. apply preserves_commit. intros w o w' HI R. apply bind_ok in R as (c & w1 & R1 & R).
  unfold removeMember_reads in R1. apply bind_ok in R1 as (c0 & w2 & R0 & R1).
  runs R1. apply getMemberRow_run in R0 as (-> & Hm & Eo & Ei).
  repeat match goal with E : assertCanManageOwnerRole _ _ _ = _ |- _ => apply throw_if_ok in E as [_ ->] end.
  match goal with E : (if _ then _ else _) _ = _ |- _ =>
    rewrite <-(andb_true_r (bool_decide (mem_role _ = _))) in E;
    pose proof (owners_check org id _ _ _ _ _ HI Hm Ei Eo E eq_refl) as Hc;
    apply still_run in E; [|destruct (_ && _); solve_made]; rename E into Ed end.
  unfold removeMember_writes in R. apply bind_ok in R as (n & w5 & Rn & R). apply get_now_ok in Rn as [-> ->].
  apply bind_ok in R as (l & w5 & Ru & R). rewrite <-Ed in HI, Hc. apply member_change in Ru; [|done|done|].
  - runs R. match goal with E : recordIdentityEvent _ _ _ _ _ _ _ _ = _ |- _ =>
      apply (owners_same (w_db w5)); try (by rewrite ?(event_run _ _ _ _ _ _ _ _ _ _ _ E) by discriminate) end.
  - intros m Hm0 Ei0 Om. right. by eapply Hc.
Qed.

Lemma sign_in_owners profile : preserves owners_ok (upsertGoogleUser profile).
Proof.
  unfold upsertGoogleUser. apply preserves_bind; [by apply owners_keeps; solve_keeps|]. intros id.
  apply preserves_bind; [by apply owners_keeps; solve_keeps|]. intros now. apply preserves_bind.
  - intros w HI. destruct (upsert_user _ _ w) as [[x|e] w1] eqn:R; cbn.
    + apply upsert_user_ok in R as (U & _ & Ht); [|done].
      apply (owners_more (w_db w)); rewrite ?(Ht T_memberships), ?(Ht T_orgs) by done; [done..|apply HI|done|auto].
    + unfold upsert_user in R. apply bind_err in R as [R|(a & w2 & _ & R)]; [|done]. by rewrite (upsert_err _ _ _ _ _ _ _ R).
  - intros _. apply owners_keeps; solve_keeps.
Qed.

Lemma identity_owners o w :
  owners_ok (w_db w) -> demotes_no_owner o (w_db w) -> owners_ok (w_db (snd (identity_work o w))).
Proof.
  intros HI Hg. destruct o; cbn [identity_work];
    try (match goal with |- context [bind ?m ?k w] =>
      let H := fresh in assert (preserves owners_ok (bind m k)) as H by (apply preserves_bind; [|intros ?; apply preserves_ret];
        first [apply createOrg_owners|apply updateMember_owners|apply removeMember_owners|apply sign_in_owners
              |apply owners_keeps; identity_unfold; solve_keeps]); exact (H w HI) end).
  - pose proof (createOrgForUser_owners operator input w HI Hg) as K. unfold bind.
    by destruct (createOrgForUser operator input w) as [[]].
  - pose proof (addMember_owners operator orgId input w HI Hg) as K. unfold bind.
    by destruct (addMember operator orgId input w) as [[]].
  - apply owners_keeps; [identity_keeps..|done].
  - apply owners_keeps; [identity_keeps..|done].
Qed.

(** C25: A workspace keeps an active owner: in every run of the identity engine
    beside the rest of the platform, operations following one another, each
    workspace has a member who is an active owner, however members are added,
    demoted and removed, unless [addMember] is given an owner's own e-mail with
    a lesser role, the one way past the check. *)
Theorem workspace_keeps_an_owner (w w' : World) :
  owners_ok (w_db w) -> rtc (istep demotes_no_owner) w w' ->
  forall o, In o (w_db w' T_orgs) ->
  exists m u, In m (w_db w' T_memberships) /\ mem_org_id m = org_id o /\ mem_role m = Role_owner /\
    mem_status m = Member_active /\ In u (w_db w' T_users) /\ usr_id u = mem_user_id m.
Proof.
  intros HI Hr o Ho.
  assert (owners_ok (w_db w')) as HI'.
  { revert HI. apply (identity_invariant demotes_no_owner owners_ok); [intros; by apply identity_owners| |done].
    intros db db' K [A1 A2 A3 _ _ _]. by apply (owners_same db). }
  destruct (ow_owner _ HI' o Ho) as (m & Hm & (E1 & E2 & E3)%active_owner_spec).
  destruct (ow_known _ HI' m Hm) as (u & Hu & Eu). by exists m, u.
Qed.
End Owners.

(** ** Parents *)

(** [chain agents org x l]: [l] is the agent [x] and its ancestors, up to one
    without a parent. *)
Inductive chain (agents : list AgentRow) (org : string) : string -> list string -> Prop :=
| chain_top a : In a agents -> ag_org_id a = org -> ag_parent_agent_id a = None -> chain agents org (ag_id a) [ag_id a]
| chain_under a p l :
    In a agents -> ag_org_id a = org -> ag_parent_agent_id a = Some p -> chain agents org p l ->
    chain agents org (ag_id a) (ag_id a :: l).

Record forest_ok (db : Db) : Prop := mkForestOk {
  fo_keys : keyed ag_id (db T_agents);
  fo_rooted : forall a, In a (db T_agents) -> exists l, chain (db T_agents) (ag_org_id a) (ag_id a) l
}.

Section Chains.
Context (agents : list AgentRow) (Hk : keyed ag_id agents) (org : string).

Lemma the_agent_row a : In a agents -> ag_org_id a = org -> where_ (the_agent org (ag_id a)) agents = [a].
Proof using Hk.
  intros Ha Eo. apply (keyed_where ag_id); [done..| |].
  - unfold the_agent. by rewrite Eo, !eqs_refl.
  - intros r Hr. unfold the_agent in Hr. by bsimpl.
Qed.

Lemma chain_unique x l l' : chain agents org x l -> chain agents org x l' -> l = l'.
Proof using Hk.
  intros K. revert l'. induction K as [a Ha Eo Ep|a p l Ha Eo Ep K IH]; intros l' K';
    inversion K' as [b Hb Eo' Ep' E1 E2|b q m Hb Eo' Ep' Km E1 E2]; subst;
    (assert (b = a) as -> by (by eapply keyed_unique)); try congruence.
  f_equal. apply IH. congruence.
Qed.

Lemma chain_member x l y : chain agents org x l -> y ∈ l -> exists l', chain agents org y l' /\ (length l' <= length l)%nat.
Proof using.
  intros K. induction K as [a Ha Eo Ep|a p l Ha Eo Ep K IH]; intros [->|Hy]%elem_of_cons.
  - eexists. split; [by constructor|done].
  - by apply elem_of_nil in Hy.
  - exists (ag_id a :: l). split; [by eapply chain_under|done].
  - destruct (IH Hy) as (l' & ? & ?). exists l'. split; [done|]. cbn. lia.
Qed.

Lemma chain_nodup x l : chain agents org x l -> NoDup l.
Proof using Hk.
  intros K. induction K as [a Ha Eo Ep|a p l Ha Eo Ep K IH]; [apply NoDup_singleton|].
  apply NoDup_cons. split; [|done]. intros Hx. destruct (chain_member _ _ _ K Hx) as (l' & K' & Hl).
  rewrite (chain_unique (ag_id a) l' (ag_id a :: l)) in Hl; [cbn in Hl; lia|done|by eapply chain_under].
Qed.

Lemma chain_known x l : chain agents org x l -> l ⊆ map ag_id agents.
Proof using.
  intros K. induction K as [a Ha Eo Ep|a p l Ha Eo Ep K IH]; intros y [->|Hy]%elem_of_cons;
    try (by apply list_elem_of_In, in_map); [by apply elem_of_nil in Hy|by apply IH].
Qed.

Lemma chain_length x l : chain agents org x l -> (length l <= length agents)%nat.
Proof using Hk.
  intros K. rewrite <-(length_map ag_id agents). apply submseteq_length, NoDup_submseteq; [by eapply chain_nodup|].
  by apply (chain_known x).
Qed.

(** The query for cycles, on a chain. *)
Lemma climb_chain x l y fuel :
  chain agents org x l -> (length l <= fuel)%nat -> climb fuel agents org y (Some x) = Some (bool_decide (y ∈ l)).
Proof using Hk.
  intros K. revert fuel. induction K as [a Ha Eo Ep|a p l Ha Eo Ep K IH]; intros fuel Hl;
    (destruct fuel as [|fuel]; [cbn in Hl; lia|]); cbn [climb]; rewrite the_agent_row by done; cbn [head];
    (destruct (ag_id a =s y) eqn:E; [apply eqs_spec in E as <-; rewrite bool_decide_eq_true_2; [done|by left]|]);
    apply String.eqb_neq in E; rewrite Ep.
  - destruct fuel; cbn; (rewrite bool_decide_eq_false_2; [done|]);
      (intros Hy; apply elem_of_cons in Hy as [Hy|Hy]; [congruence|by apply elem_of_nil in Hy]).
  - rewrite IH by (cbn in Hl; lia). f_equal. apply bool_decide_ext. rewrite elem_of_cons. naive_solver.
Qed.
End Chains.

(** An agent moves below one that is not below it. *)
Lemma chain_moves agents org x f parent m lp :
  m = (fun a => if the_agent org x a then f a else a) ->
  (forall a, ag_id (f a) = ag_id a /\ ag_org_id (f a) = ag_org_id a /\ ag_parent_agent_id (f a) = parent) ->
  match parent with Some p => chain agents org p lp /\ x ∉ lp | None => True end ->
  forall o y l, chain agents o y l -> exists l', chain (map m agents) o y l'.
Proof.
  intros -> Hf Hp.
  assert (forall o y l, chain agents o y l -> o <> org \/ x ∉ l ->
    chain (map (fun a => if the_agent org x a then f a else a) agents) o y l) as Hstay.
  { intros o y l K. induction K as [a Ha Eo Ep|a p l Ha Eo Ep K IH]; intros Ho.
    all: assert (In a (map (fun a => if the_agent org x a then f a else a) agents)) as Hi.
    all: try (apply in_map_iff; exists a; split; [|done]; unfold the_agent;
      destruct (ag_id a =s x) eqn:E1; [|done]; destruct (ag_org_id a =s org) eqn:E2; [|done];
      apply eqs_spec in E1, E2; destruct Ho as [Ho|Ho]; [congruence|]; destruct Ho; rewrite E1; by left).
    - by constructor.
    - eapply chain_under; [done..|]. apply IH. destruct Ho as [Ho|Ho]; [by left|right]. intros Hx. apply Ho. by right. }
  intros o y l K. induction K as [a Ha Eo Ep|a p l Ha Eo Ep K IH].
  all: destruct (the_agent org x a) eqn:E.
  1, 3: (assert (In (f a) (map (fun a => if the_agent org x a then f a else a) agents)) as Hi
    by (apply in_map_iff; exists a; by rewrite E)).
  1, 2: (destruct (Hf a) as (E1 & E2 & E3); rewrite <-E1; unfold the_agent in E; bsimpl;
    destruct parent as [p'|]; [exists (ag_id (f a) :: lp); apply (chain_under _ _ _ p'); [done|congruence|done|];
      destruct Hp as [Hp Hx]; subst; apply Hstay; [done|by right]|exists [ag_id (f a)]; apply chain_top; congruence]).
  all: (assert (In a (map (fun a => if the_agent org x a then f a else a) agents)) as Hi
    by (apply in_map_iff; exists a; by rewrite E)).
  - eexists. by apply chain_top.
  - destruct IH as (l' & IH). eexists. by eapply chain_under.
Qed.

Lemma chain_more agents agents' org x l : (forall a, In a agents -> In a agents') -> chain agents org x l -> chain agents' org x l.
Proof.
  intros Hi. induction 1 as [a Ha Eo Ep|a p l Ha Eo Ep _ IH]; [by apply chain_top; auto|by eapply chain_under; auto].
Qed.

(** A chain depends on places alone. *)
Lemma chain_places agents agents' org x l :
  map agent_place agents' = map agent_place agents -> chain agents org x l -> chain agents' org x l.
Proof.
  intros E.
  assert (forall a, In a agents -> exists a', In a' agents' /\ agent_place a' = agent_place a) as Hp.
  { intros a Ha. assert (In (agent_place a) (map agent_place agents')) as (a' & ? & ?)%in_map_iff
      by (rewrite E; by apply in_map). by exists a'. }
  induction 1 as [a Ha Eo Ep|a p l Ha Eo Ep _ IH]; destruct (Hp a Ha) as (a' & Ha' & [= E1 E2 E3]); rewrite <-E1.
  - apply chain_top; [done|congruence..].
  - apply (chain_under _ _ _ p); [done|congruence..|done].
Qed.

Lemma forest_places (db db' : Db) :
  map agent_place (db' T_agents) = map agent_place (db T_agents) -> forest_ok db -> forest_ok db'.
Proof.
  intros E [K1 K2]. constructor.
  - unfold keyed in *. replace (map ag_id (db' T_agents)) with (map (fun p => fst (fst p)) (map agent_place (db' T_agents)))
      by (by rewrite map_map). by rewrite E, map_map.
  - intros a Ha. assert (In (agent_place a) (map agent_place (db T_agents))) as (a0 & [= E1 E2 E3] & Ha0)%in_map_iff
      by (rewrite <-E; by apply in_map).
    destruct (K2 a0 Ha0) as (l & K). exists l. rewrite <-E1, <-E2. by eapply chain_places.
Qed.

(** A new agent, below one that is there. *)
Lemma forest_grows (db : Db) (r : AgentRow) :
  forest_ok db -> ~ In (ag_id r) (map ag_id (db T_agents)) ->
  match ag_parent_agent_id r with
  | Some q => exists a, In a (db T_agents) /\ ag_id a = q /\ ag_org_id a = ag_org_id r
  | None => True
  end -> forest_ok (db_set T_agents (db T_agents ++ [r]) db).
Proof.
  intros [K1 K2] Hn Hp. constructor; rewrite db_set_same; [by apply keyed_insert|].
  assert (forall a, In a (db T_agents) -> In a (db T_agents ++ [r])) as Hi by (intros; apply in_app_iff; by left).
  intros a [Ha|[<-|[]]]%in_app_iff.
  - destruct (K2 a Ha) as (l & K). exists l. by eapply chain_more.
  - assert (In r (db T_agents ++ [r])) as Hr by (apply in_app_iff; right; by left).
    destruct (ag_parent_agent_id r) as [q|] eqn:Eq; [|exists [ag_id r]; by apply chain_top].
    destruct Hp as (a & Ha & <- & Eo). destruct (K2 a Ha) as (l & K). exists (ag_id r :: l).
    apply (chain_under _ _ _ (ag_id a)); [done..|]. rewrite <-Eo. by eapply chain_more.
Qed.

Lemma query_answers org q l y w :
  forest_ok (w_db w) -> chain (w_db w T_agents) org q l ->
  wouldCreateParentCycle org y (Some q) w = (Ok (bool_decide (y ∈ l)), w).
Proof.
  intros HI K. unfold wouldCreateParentCycle, bind, select. rewrite where_all.
  rewrite (climb_chain _ (fo_keys _ HI) _ _ _ _ _ K); [done|]. eapply chain_length; [apply HI|done].
Qed.

(** What [updateAgent] learns of the parent. *)
Lemma no_cycle org x parent w w' :
  forest_ok (w_db w) ->
  match parent with
  | Some q => exists r, In r (w_db w T_agents) /\ ag_id r = q /\ ag_org_id r = org
  | None => True
  end ->
  wouldCreateParentCycle org x parent w = (Ok false, w') ->
  w' = w /\ match parent with Some q => exists l, chain (w_db w T_agents) org q l /\ x ∉ l | None => True end.
Proof.
  intros HI Hp R. destruct parent as [q|].
  - destruct Hp as (r & Hr & <- & <-). destruct (fo_rooted _ HI r Hr) as (l & K).
    rewrite (query_answers _ _ l) in R by done. injection R as E <-. split; [done|]. exists l. split; [done|].
    by apply bool_decide_eq_false_1 in E.
  - unfold wouldCreateParentCycle in R. cbn in R. split; [|done].
    destruct (length _); by injection R.
Qed.

(** The UPDATE that follows. *)
Lemma forest_moves (db : Db) org x f parent :
  forest_ok db ->
  (forall a, ag_id (f a) = ag_id a /\ ag_org_id (f a) = ag_org_id a /\ ag_parent_agent_id (f a) = parent) ->
  match parent with Some q => exists l, chain (db T_agents) org q l /\ x ∉ l | None => True end ->
  forest_ok (db_set T_agents (update_rows (the_agent org x) f (db T_agents)) db).
Proof.
  intros [K1 K2] Hf Hp. constructor; rewrite db_set_same.
  - apply keyed_update; [|done]. intros a _. apply Hf.
  - intros a (a0 & Ha0 & E)%in_update_rows. destruct (K2 a0 Ha0) as (l & K).
    assert (ag_org_id a = ag_org_id a0 /\ ag_id a = ag_id a0) as [-> ->].
    { rewrite E. destruct (the_agent org x a0); [|done]. by destruct (Hf a0) as (-> & -> & _). }
    assert (exists lp, match parent with Some p => chain (db T_agents) org p lp /\ x ∉ lp | None => True end) as (lp & Hlp)
      by (destruct parent; [done|by exists []]).
    rewrite update_rows_map. eapply (chain_moves (db T_agents) org x f parent _ lp); done.
Qed.

Section Forest.
Context `{Collation} `{Sha256} `{NodeProcess}.

Lemma forest_keeps {A} (m : M A) : keeps T_agents m -> preserves forest_ok m.
Proof. intros Hm w. apply forest_places. by rewrite Hm. Qed.

(** An UPDATE of agents that leaves them where they are. *)
Lemma forest_update p f w l w' :
  (forall a, agent_place (f a) = agent_place a) -> update T_agents p f w = (Ok l, w') -> forest_ok (w_db w) -> forest_ok (w_db w').
Proof.
  intros Hf R. apply update_step in R as (_ & Ed & _). apply forest_places.
  rewrite Ed, db_set_same, update_rows_map, map_map. apply map_ext. intros a. by destruct (p a).
Qed.

Lemma getAgentRow_run org a w r w' :
  getAgentRow org a w = (Ok r, w') -> w' = w /\ In r (w_db w T_agents) /\ ag_id r = a /\ ag_org_id r = org.
Proof.
  intros R. unfold getAgentRow in R. apply bind_ok in R as (o & w1 & R1 & R). apply (select_one_ok T_agents) in R1 as [-> ->].
  apply some_or_ok in R as [E ->]. apply where_head in E as [Hr E]. unfold the_agent in E. by bsimpl.
Qed.

Lemma ensureParent_run org p w x w' :
  ensureParentInOrg org p w = (Ok x, w') ->
  w' = w /\ match p with Some q => exists r, In r (w_db w T_agents) /\ ag_id r = q /\ ag_org_id r = org | None => True end.
Proof.
  intros R. destruct p as [q|]; cbn in R; [|by runs R]. apply bind_ok in R as (r & w1 & R1 & R). runs R.
  apply getAgentRow_run in R1 as (-> & ? & ? & ?). split; [done|]. by exists r.
Qed.

Lemma ensureTeam_run org t w x w' : ensureTeamInOrg org t w = (Ok x, w') -> w' = w.
Proof. intros R. unfold ensureTeamInOrg in R. by runs R. Qed.

Lemma setAgentStatus_forest operator org a s : preserves forest_ok (setAgentStatus operator org a s).
Proof.
  unfold setAgentStatus. apply preserves_transaction.
  apply preserves_bind; [apply forest_keeps; unfold getAgentRow; solve_keeps|intros ?].
  apply preserves_bind; [apply forest_keeps; solve_keeps|intros now].
  apply preserves_bind; [|intros ?; apply forest_keeps; solve_keeps]. intros w HI.
  destruct (update _ _ _ w) as [[l|e] w1] eqn:R; cbn.
  - by eapply forest_update; [|exact R|exact HI].
  - unfold update in R. cbn zeta in R. destruct (forallb _ _); cbn in R; [done|]. by injection R as _ <-.
Qed.

Lemma createAgent_forest operator org input : preserves forest_ok (createAgent operator org input).
Proof.
  unfold createAgent. apply preserves_commit. intros w o w' HI R. runs R.
  match goal with E : match ca_team_id input with Some t => _ | None => _ end _ = _ |- _ =>
    apply still_run in E; [|destruct (ca_team_id input); [apply made_ret|unfold getDefaultTeamId; solve_made]] end.
  match goal with E : ensureTeamInOrg _ _ _ = _ |- _ => apply ensureTeam_run in E; subst end.
  match goal with E : ensureParentInOrg _ _ _ = _ |- _ => apply ensureParent_run in E as [-> Hp] end.
  assert (w_db w3 = w_db w) as Ew by (repeat match goal with E : w_db ?x = _ |- w_db ?x = _ => rewrite E; clear E end; done).
  match goal with E : recordIdentityEvent _ _ _ _ _ _ _ _ = _ |- _ =>
    apply (forest_places (w_db w4)); [by rewrite (event_run _ _ _ _ _ _ _ _ _ _ _ E) by discriminate|] end.
  repeat match goal with E : w_db ?x = w_db w |- _ => rewrite E in * end.
  match goal with E : w_db w4 = db_set _ (_ ++ [?r]) _, C : existsb _ _ = false |- _ =>
    rewrite E; apply (forest_grows _ r); [done| |] end.
  - intros (r & E & Hr)%in_map_iff. match goal with C : existsb _ _ = false |- _ =>
      pose proof (existsb_row_false _ _ _ C Hr) as Hx end. cbn in Hx, E. by rewrite E, eqs_refl in Hx.
  - cbn. destruct (ca_parent_agent_id input) as [q|]; [|done]. exact Hp.
Qed.

Lemma updateAgent_forest operator org a input : preserves forest_ok (updateAgent operator org a input).
Proof.
  unfold updateAgent. apply preserves_commit. intros w o w' HI R. apply bind_ok in R as (c & w1 & R1 & R).
  unfold updateAgent_reads in R1. runs R1.
  match goal with E : getAgentRow _ _ _ = _ |- _ => apply getAgentRow_run in E as (-> & He & Ei & Eo) end.
  match goal with E : ensureTeamInOrg _ _ _ = _ |- _ => apply ensureTeam_run in E; subst end.
  match goal with E : ensureParentInOrg _ _ _ = _ |- _ => apply ensureParent_run in E as [-> Hp] end.
  match goal with E : wouldCreateParentCycle _ _ _ _ = _ |- _ =>
    pose proof (no_cycle _ _ _ _ _ HI Hp E) as (Ew & Hc); rewrite Ew in * end.
  unfold updateAgent_writes in R. apply bind_ok in R as (n & w5 & Rn & R). apply get_now_ok in Rn as [-> ->].
  apply bind_ok in R as (l & w5 & Ru & R). runs R.
  match goal with E : recordIdentityEvent _ _ _ _ _ _ _ _ = _ |- _ =>
    apply (forest_places (w_db w5)); [by rewrite (event_run _ _ _ _ _ _ _ _ _ _ _ E) by discriminate|] end.
  apply update_step in Ru as (_ & -> & _).
  eapply (forest_moves _ (ag_org_id a0) (ag_id a0)); [done| |exact Hc]. done.
Qed.

Lemma identity_forest o w : forest_ok (w_db w) -> forest_ok (w_db (snd (identity_work o w))).
Proof.
  intros HI. destruct o; cbn [identity_work];
    try (match goal with |- context [bind ?m ?k w] =>
      let H := fresh in assert (preserves forest_ok (bind m k)) as H by (apply preserves_bind; [|intros ?; apply preserves_ret];
        first [apply createAgent_forest|apply updateAgent_forest|apply setAgentStatus_forest
              |apply forest_keeps; identity_unfold; solve_keeps]); exact (H w HI) end).
  - apply forest_keeps; [identity_keeps|done].
  - apply forest_keeps; [identity_keeps|done].
Qed.

(** C26: Agents and their parents form a forest: in every run of the identity
    engine beside the rest of the platform, operations following one another,
    the ancestors of an agent are finitely many distinct agents of its
    workspace, and the recursive query for cycles ends and says exactly whether
    an agent is among them. *)
Theorem agents_form_a_forest (w w' : World) (P : IdentityWork -> Db -> Prop) :
  forest_ok (w_db w) -> rtc (istep P) w w' ->
  forall a, In a (w_db w' T_agents) ->
  exists l, chain (w_db w' T_agents) (ag_org_id a) (ag_id a) l /\ NoDup l /\
    forall x, wouldCreateParentCycle (ag_org_id a) x (Some (ag_id a)) w' = (Ok (bool_decide (x ∈ l)), w').
Proof.
  intros HI Hr a Ha.
  assert (forest_ok (w_db w')) as HI'.
  { revert HI. apply (identity_invariant P forest_ok); [intros; by apply identity_forest| |done].
    intros db db' K [_ _ _ A _ _]. by apply (forest_places db). }
  destruct (fo_rooted _ HI' a Ha) as (l & K). exists l. split; [done|]. split; [eapply chain_nodup; [apply HI'|done]|].
  intros x. by apply query_answers.
Qed.
End Forest.

(** ** Examples *)

Definition identity_run `{Collation} `{Sha256} `{NodeProcess} (os : list IdentityWork) (w : World) : World :=
  fold_left (fun w o => snd (identity_work o w)) os w.

Lemma run_istep `{Collation} `{Sha256} `{NodeProcess} (P : IdentityWork -> Db -> Prop) os w :
  (forall o db, In o os -> P o db) -> rtc (istep P) w (identity_run os w).
Proof.
  revert w. induction os as [|o os IH]; intros w HP; [apply rtc_refl|].
  eapply rtc_l; [eapply (i_work P o w); [apply HP; by left|apply surjective_pairing]|].
  apply IH. intros o' db Ho. apply HP. by right.
Qed.

Definition alice : UserRow := mkUserRow "usr_a" "alice@acme.example" "Alice" None None 0 0.
Definition as_owner : OperatorContext := mkOperatorContext "usr_a" Role_owner (Some "usr_a"%string) None.
Definition as_admin : OperatorContext := mkOperatorContext "usr_x" Role_admin (Some "usr_x"%string) None.
Definition identity_start : World := mkWorld (db_set T_users [alice] empty_db) 1000 0 [].
Definition new_member (email : string) (role : Role) : IdentityWork :=
  W_add_member as_owner "org_0" (mkAddMemberInput email None role).
Definition acme : IdentityWork :=
  W_org as_owner (mkCreateOrgInput "Acme" None None None (Some ("alice@acme.example", "Alice")%string)).
Definition member_ops : list IdentityWork :=
  [acme; new_member "Bob@acme.example" Role_owner; W_remove_member as_owner "org_0" "mem_3";
   W_role as_owner "org_0" "mem_12" Role_viewer].
Definition members_world : World := identity_run member_ops identity_start.

(** Alice leaves; Bob, now the last owner, cannot. *)
Example members_after : map (fun m => (mem_id m, mem_role m, mem_status m)) (w_db members_world T_memberships) =
  [("mem_3"%string, Role_owner, Member_removed); ("mem_12"%string, Role_owner, Member_active)].
Proof. vm_compute. reflexivity. Qed.

Lemma identity_start_owners : owners_ok (w_db identity_start).
Proof. constructor; cbn; [constructor|apply NoDup_singleton|done|done]. Qed.

Lemma workspace_keeps_an_owner_witness :
  exists m, In m (w_db members_world T_memberships) /\ mem_role m = Role_owner /\ mem_status m = Member_active.
Proof.
  assert (rtc (istep demotes_no_owner) identity_start members_world) as Hrun.
  { apply run_istep. intros o db [<-|[<-|[<-|[<-|[]]]]]; cbn; auto. }
  assert (is_some (head (w_db members_world T_orgs)) = true) as Ho by (vm_compute; reflexivity).
  generalize Ho, Hrun, identity_start_owners. clear. generalize members_world as w. generalize identity_start as w0.
  intros w0 w Ho Hrun HI. destruct (w_db w T_orgs) as [|o l] eqn:E; [done|].
  destruct (workspace_keeps_an_owner w0 w HI Hrun o) as (m & _ & Hm & _ & ? & ? & _); [rewrite E; by left|by exists m].
Defined.

(** Without the lock two owners remove each other: each check counts the two
    of them. *)
Definition two_owners : World := identity_run [acme; new_member "Bob@acme.example" Role_owner] identity_start.

Definition ownerless_world : option World :=
  match fst (removeMember_reads as_owner "org_0" "mem_3" two_owners),
        fst (removeMember_reads as_owner "org_0" "mem_12" two_owners) with
  | Ok a, Ok b => Some (snd (removeMember_writes as_owner "org_0" "mem_12" b
                          (snd (removeMember_writes as_owner "org_0" "mem_3" a two_owners))))
  | _, _ => None
  end.

Example owners_remove_each_other :
  option_map (fun w => where_ (active_owner "org_0") (w_db w T_memberships)) ownerless_world = Some [].
Proof. vm_compute. reflexivity. Qed.

(** The one way past the check when operations follow one another: an
    administrator adds the last owner again, as a viewer. *)
Example owner_added_as_viewer :
  let w := snd (addMember as_admin "org_0" (mkAddMemberInput "alice@acme.example" None Role_viewer)
                  (identity_run [acme] identity_start)) in
  where_ (active_owner "org_0") (w_db w T_memberships) = [].
Proof. vm_compute. reflexivity. Qed.

(** An administrator may not do so by changing the role. *)
Example owner_not_demoted :
  fst (updateMember as_admin "org_0" "mem_3" Role_viewer (identity_run [acme] identity_start)) = Err forbidden.
Proof. vm_compute. reflexivity. Qed.

Definition new_agent (name : string) (parent : option string) : IdentityWork :=
  W_agent as_owner "org_0" (mkCreateAgentInput name None parent None None None None).
Definition below (parent : option string) : UpdateAgentInput :=
  mkUpdateAgentInput None None (Some parent) None None None None.
Definition two_agents : World := identity_run [acme; new_agent "A" None; new_agent "B" None] identity_start.
Definition agent_a : string := "agt_11".
Definition agent_b : string := "agt_14".
Definition agent_c : string := "agt_19".
Definition forest_world : World := identity_run
  [W_edit_agent as_owner "org_0" agent_b (below (Some agent_a)); new_agent "C" (Some agent_b);
   W_edit_agent as_owner "org_0" agent_a (below (Some agent_c))] two_agents.

(** C is below B, which is below A; A cannot go below C. *)
Example forest_after : map agent_place (w_db forest_world T_agents) =
  [(agent_a, "org_0", None); (agent_b, "org_0", Some agent_a); (agent_c, "org_0", Some agent_b)]%string.
Proof. vm_compute. reflexivity. Qed.

Lemma identity_start_forest : forest_ok (w_db identity_start).
Proof. constructor; cbn; [constructor|done]. Qed.

Lemma agents_form_a_forest_witness :
  exists a l, In a (w_db forest_world T_agents) /\ ag_id a = agent_c /\
    chain (w_db forest_world T_agents) (ag_org_id a) (ag_id a) l /\ NoDup l.
Proof.
  assert (rtc (istep (fun _ _ => True)) identity_start forest_world) as Hrun.
  { transitivity two_agents; by apply run_istep. }
  assert (existsb (fun a => ag_id a =s agent_c) (w_db forest_world T_agents) = true) as Ha by (vm_compute; reflexivity).
  generalize Ha, Hrun, identity_start_forest. clear. generalize forest_world as w. generalize identity_start as w0.
  intros w0 w (a & Ha & E)%existsb_exists Hrun HI. apply eqs_spec in E.
  destruct (agents_form_a_forest w0 w _ HI Hrun a Ha) as (l & K & Hn & _). by exists a, l.
Defined.

(** Without the lock A and B go below each other, and the query for the
    parents of a third agent has no end. *)
Definition crossed_world : option World :=
  match fst (updateAgent_reads "org_0" agent_a (below (Some agent_b)) two_agents),
        fst (updateAgent_reads "org_0" agent_b (below (Some agent_a)) two_agents) with
  | Ok a, Ok b => Some (snd (updateAgent_writes as_owner "org_0" agent_b (below (Some agent_a)) b
                          (snd (updateAgent_writes as_owner "org_0" agent_a (below (Some agent_b)) a two_agents))))
  | _, _ => None
  end.

Definition crossed_agents : list AgentRow := match crossed_world with Some w => w_db w T_agents | None => [] end.

Lemma climb_crossed fuel :
  climb fuel crossed_agents "org_0" "agt_new" (Some agent_a) = None /\
  climb fuel crossed_agents "org_0" "agt_new" (Some agent_b) = None.
Proof.
  assert (exists a b, head (where_ (the_agent "org_0" agent_a) crossed_agents) = Some a /\
    head (where_ (the_agent "org_0" agent_b) crossed_agents) = Some b /\ ag_id a = agent_a /\ ag_id b = agent_b /\
    ag_parent_agent_id a = Some agent_b /\ ag_parent_agent_id b = Some agent_a) as (a & b & Ea & Eb & Ia & Ib & Pa & Pb)
    by (eexists _, _; vm_compute; auto 10).
  revert Ea Eb. generalize crossed_agents as l. intros l Ea Eb. induction fuel as [|fuel [IHa IHb]]; cbn [climb];
    rewrite Ea, Eb, Ia, Ib; change (agent_a =s "agt_new") with false; change (agent_b =s "agt_new") with false; cbn match;
    rewrite ?Pa, ?Pb; auto.
Qed.

(** A team is archived while its agent is paused; the agent goes on there. *)
Example agent_of_an_archived_team :
  let w := identity_run [acme; W_team as_owner "org_0" "Ops" None;
    W_agent as_owner "org_0" (mkCreateAgentInput "A" (Some "team_11"%string) None None None None None);
    W_status as_owner "org_0" "agt_14" Set_paused; W_archive_team as_owner "org_0" "team_11";
    W_status as_owner "org_0" "agt_14" Set_active] identity_start in
  map (fun t => (tm_id t, is_some (tm_archived_at t))) (w_db w T_teams) =
    [("team_1", false); ("team_11", true)]%string /\
  map (fun a => (ag_team_id a, ag_status a)) (w_db w T_agents) = [("team_11", "active")]%string.
Proof. vm_compute. auto. Qed.
